(* ===== verification/_CoqProject ===== *)
-Q . S2P
Prelude.v
PyText.v
Base64.v
Json.v
Http.v
Errors.v
DateTime.v
Orm.v
CrudService.v
DomainGenerator.v
DomainGeneratorFacts.v
WorkflowSchema.v
CoreDb.v
Storage.v
MemoryWorkflow.v
PdfValidation.v
Identity.v
Localization.v
BillingPolicy.v
Tenant.v
TenantFacts.v
Billing.v
BillingFacts.v
AllowanceFacts.v
SubscriptionFacts.v
StripeProvider.v
DbWorkflow.v
WorkflowMachine.v
DbWorkflowFacts.v
DbWorkflowCalls.v
WorkflowExample.v
WorkflowTheorems.v
WorkflowProgress.v
MemoryFacts.v
MemoryCalls.v
DocumentIntegrity.v
R2Operations.v
R2OperationsFacts.v
Redis.v
AuthDb.v
Mfa.v
Sessions.v
EmailTemplates.v
Eventing.v
EventingFacts.v
Notify.v
Resend.v
MetaOnboarding.v
MetaOnboardingFacts.v
Deliveries.v
Messaging.v
MetaWebhook.v
MetaWebhookFacts.v
NotifyExample.v
Accounts.v
Users.v
SessionFacts.v
SessionSteps.v
AuthSteps.v
AccountFacts.v
AuthCalls.v
TokenFacts.v
AuthExample.v
AccountSchema.v
SessionTheorems.v
CounterFacts.v
CounterTheorems.v
AccountTheorems.v
SecondFactor.v
EmailFacts.v
CoreWeb.v
CoreWebFacts.v
SerproId.v
SerproIdExample.v
SerproIdFacts.v
AuthWeb.v
ContextFacts.v
WebTheorems.v
CoreAccess.v
