(* ===== verification/Prelude.v ===== *)
(** * Verification of the Rubrica backend

    Rubrica is a document signature service: a core service with tenants,
    billing, documents and the signature workflow (src/apps/core_api), an
    authentication service (src/apps/auth_api), a notification service, an event
    outbox and a shared kernel (src/packages/shared_kernel).  This development
    models the services' own logic, function by function, and proves what makes
    it correct.  The shape of a definition follows its Python function: the
    guards in their order, the errors as values of the sum [result] with the
    messages and codes of the source, the state changes as the monad [M] of
    state and errors.

    ** How the code is modelled

    - Errors and state: [M S A] is [S → result A * S]; an exception keeps the
      state reached, as Python does, and the session decides what is undone.
    - The database session (SQLAlchemy) is Orm.v: a table has the stored rows
      and the rows the session sees; queries read the stored rows that match and
      give the objects of the session for them (autoflush is off in the source's
      sessionmaker); [flush] checks the constraints of the schema, and
      [transaction] commits or rolls back as [SessionLocal.begin()] does.
      CoreDb.v has one table per entity and the state of a process: the database,
      the clock, the random draws, the mail sent, the object store and the
      authenticated context.  Its commit also runs the triggers of migration 0024:
      stored versions, signatures and audit events are append only.  A text that
      PostgreSQL refuses (with U+0000, or longer than its column: [DataError]) is
      represented where an account is registered, invited or looked up by its
      address; elsewhere such texts are taken to be refused before.  Locks ([with_for_update]) are not represented:
      operations run one after the other.  Columns [created_at] are kept where
      the code reads them, [updated_at] is left out.
    - Redis is Redis.v: a keyspace whose entries expire, the commands the code
      sends, each one atomic at the time of the call, and the rotation script as
      one step.  AuthDb.v has the tables of auth_api and the state of its
      process: the database, Redis, the clock, the random draws, the mail and
      the tenants asked for.  A rollback gives the tables back and nothing else.
    - Randomness and hashes ([uuid4], [token_urlsafe], SHA-256, HMAC, Fernet,
      bcrypt, TOTP), the clock, the libraries and the services called over HTTP
      are fields of classes: [Env], [WorkflowEnv], [CoreWebEnv] and [SerproIdEnv]
      of core_api, [AuthEnv] and [WebEnv] of auth_api, [EventingEnv], [NotifyEnv]
      with [NotifySettings], and [HttpEnv], [BillingProvider], [StripeClient],
      [PdfLibrary], [MailAssets], [MediaStorage], [S3Client], [PythonParser] and
      [MakeTool].  The laws a
      theorem relies on are classes of their own ([AuthLaws]: draws do not
      repeat, the digest does not collide; [BillingProviderLaws],
      [StripeClientLaws], [DocumentStorageLaws], [S3ClientLaws], [ParserLaws]), with
      instances for the fake provider, the Stripe provider, the two stores and a
      reader of the generated migrations.  The
      [*Example] files and modules give concrete functions and states, on which
      every theorem with hypotheses is instantiated.
    - Texts are strings of bytes, and the text functions know the ASCII ones;
      the e-mails are UTF-8 and are cut by code points.  Instants are microseconds since the
      epoch in Z; identifiers are N with the textual form of a UUID; JSON values
      keep the order of their members, and so do dictionaries (the end
      of Json).

    ** The files

    Shared:
    - Prelude, PyText, Base64, Json: errors and monad, record update,
      automation ([run_step], [preserve], the databases [preserve] and [orders]);
      the text functions of Python the services use, UUIDs; the encodings; JSON
      values, canonical JSON; dictionaries.
    - Http, Errors: requests, addresses, the origin check and service tokens
      (shared_kernel/security); the error documents (shared_kernel/errors).
    - DateTime, Localization, Identity: shared_kernel/time/datetime_service.py,
      shared_kernel/localization.py, tenant_identity.py and
      user_identifier_service.py (CNPJ, CPF).
    - EmailTemplates, EmailFacts: shared_kernel/email_templates.py.
    - Orm: the session.
    - CrudService: persistence/crud_service.py with http/crud/route_factory.py,
      over rows of any shape and the relations between their tables.
    - DomainGenerator, DomainGeneratorFacts: the generator of domains of core_api
      (bootstrap/relational_domain.py, domain_generator.py, the endpoint of
      home.py): the texts of the files it writes, and the migrations read back.

    core_api:
    - CoreDb: the tables with their constraints, the state, a small
      database.
    - Tenant, TenantFacts: tenant/tenant_service.py and its properties.
    - BillingPolicy, Billing, BillingFacts, AllowanceFacts, SubscriptionFacts,
      StripeProvider: billing/billing_service.py; the pure policy first, then the
      operations with their transactions; the webhook, the allowances and the
      convergence of subscription events; the providers.
    - Storage, PdfValidation: document/storage.py, document/pdf_validation.py.
    - R2Operations, R2OperationsFacts: the commands over the stored objects
      (infrastructure/backup_export.py and toolbox/operations).
    - WorkflowSchema, DbWorkflow: the enumerations and payloads, and all of
      signature_request/database_workflow_service.py with its clients.
    - WorkflowMachine: the abstract specification of the workflow, a state
      machine on documents, requests, signers and signatures, with its
      invariant and its histories.  DbWorkflowFacts: every operation takes one
      step of it.  DbWorkflowCalls: the operations as one datatype, failures,
      the object store.  WorkflowExample: a complete run.  WorkflowTheorems,
      WorkflowProgress and DocumentIntegrity: the properties.
    - MemoryWorkflow, MemoryFacts, MemoryCalls: workflow_service.py, the same
      workflow over dictionaries, against the counter machine of WorkflowProgress.
    - SerproId, SerproIdExample, SerproIdFacts: serproid_service.py and its router.
    - CoreWeb, CoreWebFacts: the routers of documents, requests, tenants, billing
      and contact with their dependencies; the body of an upload is a list of
      chunks, each of which may be an error of the stream.  CoreAccess: the table
      of the protected endpoints, those of SerproId included - what each requires,
      and what it then does with the context -, composed with auth_api.

    auth_api:
    - Redis, AuthDb: the store and the state of the process, with
      access_control_service.py.  Mfa, Sessions: mfa_service.py and
      session_service.py.
      Accounts: user_identifier_service.py and account_service.py.  Users:
      user_router.py with mfa_router.py.  AccountSchema: the payloads of
      account_schema.py and user_schema.py with their validators.  AuthWeb: the
      routers of sessions and accounts, and the endpoints of Users behind the
      dependency on the session ([user_endpoint], [mfa_endpoint]).
    - SessionFacts: the families of keys, the invariant of the session store and
      the relation [evolves] of what a call can do to the sessions.
      SessionSteps, AuthSteps: every operation keeps both.  AuthCalls: the calls
      as one datatype and the histories of the service, with waiting and with
      refreshes whose rotation runs after other calls.  AccountFacts, TokenFacts:
      the rows of the account links.  CounterFacts: which calls touch a counter.
      AuthExample: a concrete service.  SessionTheorems, CounterTheorems,
      AccountTheorems, SecondFactor, ContextFacts, WebTheorems: the properties.

    eventing_api:
    - Eventing, EventingFacts: the outbox, its projections and its endpoints.

    notification_api:
    - Notify: the process, its HTTP requests and its settings.
    - Resend: the e-mail endpoint (domains/resend).
    - Deliveries, Messaging: the providers and the deliveries
      (infrastructure/providers.py, domains/slack, domains/twilio), the requests
      for them and the catalogue.
    - MetaOnboarding, MetaOnboardingFacts, MetaWebhook, MetaWebhookFacts:
      domains/meta/whatsapp: the connections of numbers, the messages received.
      The broker confirms an event, stores it without its confirmation arriving, or
      does not store it ([broker_answer]).
    - NotifyExample: a concrete service.
    main.py mounts the e-mail endpoint only; the other endpoints are modelled as
    they would run if they were mounted.

    ** What is proved

    - The workflow: refinement of the state machine by every operation; its
      invariant in every reachable state (frozen documents match, completion
      means that all have signed, signatures and signers agree); histories
      (requests and signers move forward only, signatures are append-only);
      counting (an open request has as many signatures more as it has pending
      signers less, and is completed with the last of them); failed calls leave
      the database; stored documents are never lost, what the database records
      about them stays true, and a recorded version reads back to any caller who
      may read it.  The in-memory variant refines the same
      counter machine.
    - The objects: moving them below the prefixes of the tenants loses none and
      changes no row, however the command ends - the triggers refuse the commit of
      a move, so it ends well only where nothing is left to move; a finished backup
      has the object of every version and of every signed document with a digest;
      the copy to R2 is complete when it succeeds, and then cannot be repeated.
    - Certificate signatures: each goes back to an authorization of its own; a
      refused one records nothing.
    - Billing: events settle once, redelivery changes nothing, failures are
      atomic, the subscription events of an account, with distinct times of
      creation, converge whatever their order, allowances are exact and what is
      over them is refused, prices and tenants round trip; what a cancellation in
      the portal of Stripe becomes, however the portal answers.
    - Tenants: only administrators act, the seats of the plan bound the team,
      administrators never vanish, a CNPJ belongs to one tenant.
    - Access: a call of core_api that is answered has a live session of auth_api
      behind it and is done for its subject, and a token that was logged out is
      refused; requests
      authenticated by cookies come from the site; uploads are the bytes sent, up
      to the limit; file names survive the header.
    - Sessions: a login opens a session that works; a change of credentials, a
      logout everywhere and the replay of a rotated refresh token (while its
      record lives) end sessions for good, over every further history; of
      concurrent refreshes with one token a single one wins.
    - Counters: ten refused logins in a row lock an address for the rest of the
      window; a
      ticket of the second factor takes five guesses and opens one session.
    - Accounts: a link works once, a user has one open link for a purpose, an
      accepted code of the second factor is spent - and a code of the
      authenticator is nevertheless accepted again in the next step; a
      registration that passes the validators is answered, records a document
      with valid check digits, and does not reveal whether an address has an
      account.
    - Events and messages: an event is registered once per key, the projections
      count what is stored; the rendered e-mail is what the provider receives; a
      delivery is made once per key; a WhatsApp message received is announced, and
      again only where the broker's confirmation was lost; a WhatsApp number has
      one holder.
    - Generic CRUD: in every state its calls reach, keys are unique, no row is lost, and a relation
      names rows that exist.
    - Generated domains: from the 24 migrations of the repository on, the migrations
      of the project stay one line of revisions, whose foreign keys refer to tables
      that exist; a downgrade undoes its upgrade; no file is overwritten.
    - E-mails: the markup of a message is the template's, whatever its texts say.
    - Uploads: the scan for active content is exact on cyclic object graphs, an
      accepted upload is what the service promises; the store keeps documents.
    - Identity, time and localisation: check digits, agreement of the two
      services, bounds of days and hours, idempotence.

    ** Fuel

    Only the scan of a PDF has fuel, and it is the code's own bound of 100,000
    inspected values; everything else is structural recursion.

    ** Not modelled

    Reading of the settings from the environment, the assembly of the
    applications, the home pages, CORS and logging; the drawing of the signed PDF
    and the time stamping protocol (parameters); media files
    (shared_kernel.media is imported but is not in the repository); the
    migrations of the schema that are in the repository (alembic), except for the
    triggers of 0024; the seeds, the benchmarks and the other development tools of
    toolbox. *)

From stdpp Require Export prelude strings gmap list sorting pretty.
From Stdlib Require Export ZArith NArith.

(** * 1. Results and exceptions *)

(** The exceptions the modelled code raises or handles.  [WorkflowError] is the
    application error of core_api (message, HTTP status, machine code and
    context counters); the other constructors are the exception classes the
    services raise or catch by name. *)
Inductive exn :=
| WorkflowError (message : string) (status_code : Z)
    (code : option string) (context : list (string * Z))
| BillingProviderError (message : string)
| InvalidWebhookSignatureError
| BillingEmailDeliveryError (message : string)
| IntegrityError
| InvalidBusinessIdentifierError (message : string)
| InvalidIdentifierError (message : string)
| AccountConflictError
| InvalidAccountTokenError
| AccountEmailDeliveryError (message : string)
| MfaError (message : string)
| ValueError (message : string)
| TypeError
| KeyError
| AttributeError
| OverflowError
| FileNotFoundError (key : string)
| FileExistsError (key : string)
| RuntimeError (message : string)
| HTTPException (status_code : Z) (detail : string)
| SignatureInvitationDeliveryError (message : string)
| ClientError (code : string) (status : option Z)
| PdfReadError
| RecursionError
| AssertionError
| TenantProvisioningError (message : string)
| ResponseError (message : string)
| InvalidToken
| HTTPError
| DataError
| OSError
| SignatureVerificationError
| RequestValidationError (errors : list (list string * string * string))
| UnicodeEncodeError
| LookupError (message : string)
| MetaOnboardingConfigurationError (message : string)
| MetaOnboardingRequestError (message : string)
| MetaPhoneNumberConflictError
| InvalidURL
| ValidationError
| KafkaError
| JSONDecodeError
| MediaValidationError (message : string)
| SystemExit (message : string)
| RelationalDomainError (message : string)
| DomainGeneratorError (message : string).

#[export] Instance exn_eq_dec : EqDecision exn.
Proof. solve_decision. Defined.

(** [type(exc).__name__] *)
Definition exn_name (e : exn) : string :=
  match e with
  | WorkflowError _ _ _ _ => "WorkflowError"
  | BillingProviderError _ => "BillingProviderError"
  | InvalidWebhookSignatureError => "InvalidWebhookSignatureError"
  | BillingEmailDeliveryError _ => "BillingEmailDeliveryError"
  | IntegrityError => "IntegrityError"
  | InvalidBusinessIdentifierError _ => "InvalidBusinessIdentifierError"
  | InvalidIdentifierError _ => "InvalidIdentifierError"
  | AccountConflictError => "AccountConflictError"
  | InvalidAccountTokenError => "InvalidAccountTokenError"
  | AccountEmailDeliveryError _ => "AccountEmailDeliveryError"
  | MfaError _ => "MfaError"
  | ValueError _ => "ValueError"
  | TypeError => "TypeError"
  | KeyError => "KeyError"
  | AttributeError => "AttributeError"
  | OverflowError => "OverflowError"
  | FileNotFoundError _ => "FileNotFoundError"
  | FileExistsError _ => "FileExistsError"
  | RuntimeError _ => "RuntimeError"
  | HTTPException _ _ => "HTTPException"
  | SignatureInvitationDeliveryError _ => "SignatureInvitationDeliveryError"
  | ClientError _ _ => "ClientError"
  | PdfReadError => "PdfReadError"
  | RecursionError => "RecursionError"
  | AssertionError => "AssertionError"
  | TenantProvisioningError _ => "TenantProvisioningError"
  | ResponseError _ => "ResponseError"
  | InvalidToken => "InvalidToken"
  | HTTPError => "HTTPError"
  | DataError => "DataError"
  | OSError => "OSError"
  | SignatureVerificationError => "SignatureVerificationError"
  | RequestValidationError _ => "RequestValidationError"
  | UnicodeEncodeError => "UnicodeEncodeError"
  | LookupError _ => "LookupError"
  | MetaOnboardingConfigurationError _ => "MetaOnboardingConfigurationError"
  | MetaOnboardingRequestError _ => "MetaOnboardingRequestError"
  | MetaPhoneNumberConflictError => "MetaPhoneNumberConflictError"
  | InvalidURL => "InvalidURL"
  | ValidationError => "ValidationError"
  | KafkaError => "KafkaError"
  | JSONDecodeError => "JSONDecodeError"
  | MediaValidationError _ => "MediaValidationError"
  | SystemExit _ => "SystemExit"
  | RelationalDomainError _ => "RelationalDomainError"
  | DomainGeneratorError _ => "DomainGeneratorError"
  end.

Inductive result (A : Type) :=
| Ok (a : A)
| Err (e : exn).
Arguments Ok {A} a.
Arguments Err {A} e.

#[export] Instance result_eq_dec {A} `{EqDecision A} : EqDecision (result A).
Proof. solve_decision. Defined.

#[export] Instance result_ret : MRet result := λ A, Ok.
#[export] Instance result_bind : MBind result :=
  λ A B k m, match m with Ok a => k a | Err e => Err e end.

Definition is_ok {A} (r : result A) : bool :=
  match r with Ok _ => true | Err _ => false end.

(** * 2. The state-and-exception monad

    A Python function over mutable state [S] (database, caches, mail outbox,
    clock) is a function from the state to an outcome and the state it leaves.
    The state survives an exception: what is undone is undone by an explicit
    transaction, as in the code. *)
Definition M (S A : Type) : Type := S → result A * S.

#[export] Instance M_ret {S} : MRet (M S) := λ A a s, (Ok a, s).
#[export] Instance M_bind {S} : MBind (M S) :=
  λ A B k m s, match m s with
               | (Ok a, s') => k a s'
               | (Err e, s') => (Err e, s')
               end.

Section ops.
Context {S : Type}.

Definition raise {A} (e : exn) : M S A := λ s, (Err e, s).
Definition gets {A} (f : S → A) : M S A := λ s, (Ok (f s), s).
Definition modify (f : S → S) : M S unit := λ s, (Ok tt, f s).
Definition lift {A} (r : result A) : M S A := λ s, (r, s).
(** [if b: raise e] *)
Definition raise_if (b : bool) (e : exn) : M S unit :=
  if b then raise e else mret tt.
(** [if b: m] *)
Definition when (b : bool) (m : M S unit) : M S unit :=
  if b then m else mret tt.
(** [try: m except e: h e]; [h] re-raises what it does not handle. *)
Definition try_catch {A} (m : M S A) (h : exn → M S A) : M S A :=
  λ s, match m s with
       | (Ok a, s') => (Ok a, s')
       | (Err e, s') => h e s'
       end.

(** [for x in l: f x] *)
Fixpoint for_each {A} (f : A → M S unit) (l : list A) : M S unit :=
  match l with
  | [] => mret tt
  | x :: xs => f x;; for_each f xs
  end.
End ops.

(** [if o is None: raise e] and the value otherwise. *)
Definition some_or {S A} (o : option A) (e : exn) : M S A :=
  match o with Some a => mret a | None => raise e end.

(** * 3. Record update

    [r <| f := v |>] is the Python attribute assignment [r.f = v] on a value;
    [r <| f ::= g |>] applies [g] to the old value.  A record type declares its
    eta-expansion once ([Eta]); the setter of a field is derived from it by
    abstracting the projection. *)
Class Eta (R : Type) := eta_expand : R → R.
Class Setter {R T : Type} (proj : R → T) := set_field : (T → T) → R → R.
Arguments set_field {R T} proj {_} f r /.

Ltac derive_setter :=
  lazymatch goal with
  | |- @Setter ?R ?T ?proj =>
      let i := constr:(_ : Eta R) in
      let e := eval red in i in
      lazymatch eval pattern proj in e with
      | ?F _ =>
          let t := eval cbv beta in (λ (g : T → T), F (λ r : R, g (proj r))) in
          exact t
      end
  end.
#[export] Hint Extern 1 (Setter _) => derive_setter : typeclass_instances.

Notation "r <| f := v |>" := (set_field f (λ _, v) r)
  (at level 1, f at level 0, left associativity).
Notation "r <| f ::= g |>" := (set_field f g r)
  (at level 1, f at level 0, left associativity).

(** * 4. Running monadic code in proofs *)

Section run_lemmas.
Context {S : Type}.
Implicit Types s : S.

Lemma bind_ok {A B} (m : M S A) (k : A → M S B) s b s2 :
  (m ≫= k) s = (Ok b, s2) ↔ ∃ a s1, m s = (Ok a, s1) ∧ k a s1 = (Ok b, s2).
Proof.
  unfold mbind, M_bind. destruct (m s) as [[a|e] s1].
  - split; [eauto | by intros (? & ? & [= <- <-] & ?)].
  - split; [done | by intros (? & ? & ? & ?)].
Qed.

Lemma bind_err {A B} (m : M S A) (k : A → M S B) s e s2 :
  (m ≫= k) s = (Err e, s2) ↔
  m s = (Err e, s2) ∨ ∃ a s1, m s = (Ok a, s1) ∧ k a s1 = (Err e, s2).
Proof.
  unfold mbind, M_bind. destruct (m s) as [[a|e'] s1].
  - split; [eauto | intros [?|(? & ? & [= <- <-] & ?)]; congruence].
  - split; [intros [= -> ->]; auto | by intros [[= -> ->]|(? & ? & ? & ?)]].
Qed.

(** Rewriting a successful or failing first step. *)
Lemma bind_step_ok {A B} (m : M S A) (k : A → M S B) s a s1 :
  m s = (Ok a, s1) → (m ≫= k) s = k a s1.
Proof. unfold mbind, M_bind. by intros ->. Qed.

Lemma then_ret_state {A B} (m : M S A) (b : B) s : ((m;; mret b) s).2 = (m s).2.
Proof. unfold mbind, M_bind. by destruct (m s) as [[?|?] ?]. Qed.

Lemma bind_step_err {A B} (m : M S A) (k : A → M S B) s e s1 :
  m s = (Err e, s1) → (m ≫= k) s = (Err e, s1).
Proof. unfold mbind, M_bind. by intros ->. Qed.

Lemma raise_if_ok b e s u s' :
  raise_if b e s = (Ok u, s') ↔ b = false ∧ s' = s.
Proof. destruct b, u; cbv; naive_solver. Qed.

Lemma some_or_ok {A} (o : option A) e s a s' :
  some_or o e s = (Ok a, s') ↔ o = Some a ∧ s' = s.
Proof. destruct o; cbv; naive_solver. Qed.

Lemma gets_ok {A} (f : S → A) s a s' :
  gets f s = (Ok a, s') ↔ a = f s ∧ s' = s.
Proof. unfold gets. naive_solver. Qed.

Lemma ret_ok {A} (x : A) s a s' :
  (mret x : M S A) s = (Ok a, s') ↔ a = x ∧ s' = s.
Proof. unfold mret, M_ret. naive_solver. Qed.

Lemma modify_ok f s u s' :
  modify f s = (Ok u, s') ↔ s' = f s.
Proof. unfold modify. destruct u. naive_solver. Qed.

Lemma try_catch_ok {A} (m : M S A) h s a s' :
  try_catch m h s = (Ok a, s') ↔
  m s = (Ok a, s') ∨ ∃ e s1, m s = (Err e, s1) ∧ h e s1 = (Ok a, s').
Proof. unfold try_catch. destruct (m s) as [[?|?] ?]; naive_solver. Qed.

Lemma lift_ok {A} (r : result A) s a s' :
  lift r s = (Ok a, s') ↔ r = Ok a ∧ s' = s.
Proof. unfold lift. naive_solver. Qed.
Lemma lift_err {A} (r : result A) s e s' :
  lift r s = (Err e, s') ↔ r = Err e ∧ s' = s.
Proof. unfold lift. naive_solver. Qed.
End run_lemmas.

Lemma result_bind_ok {A B} (m : result A) (k : A → result B) b :
  (m ≫= k) = Ok b ↔ ∃ a, m = Ok a ∧ k a = Ok b.
Proof. destruct m; cbn; naive_solver. Qed.

(** One step of inverting a successful run in the hypotheses. *)
Ltac run_step :=
  match goal with
  | H : (_ ≫= _) _ = (Ok _, _) |- _ =>
      let a := fresh "a" in let s := fresh "s" in let Hm := fresh "Hrun" in
      apply bind_ok in H; destruct H as (a & s & Hm & H)
  | H : raise_if _ _ _ = (Ok _, _) |- _ =>
      apply raise_if_ok in H; destruct H as [? ->]
  | H : some_or _ _ _ = (Ok _, _) |- _ =>
      apply some_or_ok in H; destruct H as [? ->]
  | H : gets _ _ = (Ok _, _) |- _ => apply gets_ok in H; destruct H as [-> ->]
  | H : mret _ _ = (Ok _, _) |- _ => apply ret_ok in H; destruct H as [-> ->]
  | H : modify _ _ = (Ok _, _) |- _ => apply modify_ok in H as ->
  | H : lift _ _ = (Ok _, _) |- _ => apply lift_ok in H; destruct H as [? ->]
  | H : raise _ _ = (Ok _, _) |- _ => discriminate H
  end.
Ltac run := repeat (run_step; simpl in * ).

(** * 5. What an operation preserves

    [preserves R m]: every run of [m], failing runs included, relates the state
    before to the state after by [R].  With [R] a preorder it is closed under
    the control structures of the monad, so a proof about a service reduces to
    its primitive updates ([eauto with preserve]). *)
Definition preserves {S A} (R : relation S) (m : M S A) : Prop :=
  ∀ s, R s (m s).2.

Create HintDb preserve.

Section preserves.
Context {S : Type} (R : relation S) `{!PreOrder R}.

Lemma preserves_bind {A B} (m : M S A) (k : A → M S B) :
  preserves R m → (∀ a, preserves R (k a)) → preserves R (m ≫= k).
Proof.
  intros Hm Hk s. unfold mbind, M_bind. specialize (Hm s).
  destruct (m s) as [[a|e] s1]; simpl in *; [|done].
  etrans; [exact Hm | apply Hk].
Qed.
Lemma preserves_ret {A} (a : A) : preserves R (mret a : M S A).
Proof. intros s. simpl. reflexivity. Qed.
Lemma preserves_raise {A} e : preserves R (raise e : M S A).
Proof. intros s. simpl. reflexivity. Qed.
Lemma preserves_gets {A} (f : S → A) : preserves R (gets f).
Proof. intros s. simpl. reflexivity. Qed.
Lemma preserves_lift {A} (r : result A) : preserves R (lift r).
Proof. intros s. simpl. reflexivity. Qed.
Lemma preserves_modify f : (∀ s, R s (f s)) → preserves R (modify f).
Proof. intros Hf s. apply Hf. Qed.
Lemma preserves_raise_if b e : preserves R (raise_if b e).
Proof. destruct b; intros s; simpl; reflexivity. Qed.
Lemma preserves_some_or {A} (o : option A) e : preserves R (some_or o e : M S A).
Proof. destruct o; intros s; simpl; reflexivity. Qed.
Lemma preserves_when b m : preserves R m → preserves R (when b m).
Proof. destruct b; [done|]. intros _ s. simpl. reflexivity. Qed.
Lemma preserves_if {A} (b : bool) (m1 m2 : M S A) :
  preserves R m1 → preserves R m2 → preserves R (if b then m1 else m2).
Proof. by destruct b. Qed.
Lemma preserves_option {A B} (o : option A) (f : A → M S B) (m : M S B) :
  (∀ a, preserves R (f a)) → preserves R m →
  preserves R (match o with Some a => f a | None => m end).
Proof. by destruct o. Qed.
Lemma preserves_try {A} (m : M S A) h :
  preserves R m → (∀ e, preserves R (h e)) → preserves R (try_catch m h).
Proof.
  intros Hm Hh s. unfold try_catch. specialize (Hm s).
  destruct (m s) as [[a|e] s1]; simpl in *; [done|].
  etrans; [exact Hm | apply Hh].
Qed.
Lemma preserves_for_each {A} (f : A → M S unit) l :
  (∀ a, preserves R (f a)) → preserves R (for_each f l).
Proof.
  intros Hf. induction l; [apply preserves_ret | by apply preserves_bind].
Qed.
End preserves.

#[export] Hint Resolve preserves_ret preserves_raise preserves_gets preserves_lift
  preserves_raise_if preserves_some_or : preserve.

(** Walk through an operation; what is left are its primitive updates and the
    operations no hint covers. *)
Ltac preserve_step :=
  lazymatch goal with
  | |- preserves _ (_ ≫= _) => apply preserves_bind; [apply _| |intros ?]
  | |- preserves _ (when _ _) => apply preserves_when; [apply _|]
  | |- preserves _ (try_catch _ _) => apply preserves_try; [apply _| |intros ?]
  | |- preserves _ (for_each _ _) => apply preserves_for_each; [apply _|intros ?]
  | |- preserves _ (match ?x with _ => _ end) => destruct x
  | |- preserves _ (let _ := _ in _) => cbv zeta
  end.
Ltac preserve := repeat first [solve [eauto 2 with preserve typeclass_instances] | preserve_step].

Lemma preserves_mapM {S A B} (R : relation S) `{!PreOrder R} (f : A → M S B) l :
  (∀ a, preserves R (f a)) → preserves R (mapM f l).
Proof. intros Hf. induction l; cbn; preserve; done. Qed.

Lemma preserves_mono {S A} (R Q : relation S) (m : M S A) :
  (∀ s s', R s s' → Q s s') → preserves R m → preserves Q m.
Proof. intros HRQ Hm s. apply HRQ, Hm. Qed.

(** What a projection of the state says of a run that preserves it. *)
Definition same {S T} (f : S → T) : relation S := λ s s', f s' = f s.
#[export] Instance same_preorder {S T} (f : S → T) : PreOrder (same f).
Proof. split; [by intros s | intros s1 s2 s3; unfold same; congruence]. Qed.

Lemma preserves_run {S A} (R : relation S) (m : M S A) s r s' :
  preserves R m → m s = (r, s') → R s s'.
Proof. intros Hm E. specialize (Hm s). by rewrite E in Hm. Qed.

(** A run is its outcome and its state. *)
Lemma run_outcome {A B} (p : A * B) (a : A) (H : p.1 = a) : p = (a, p.2).
Proof. destruct p. by subst. Qed.

(** [frame f H]: from the run [H] of an operation that leaves [f] alone, the
    equation between the two states. *)
Ltac frame f H :=
  apply (preserves_run (same f)) in H; [unfold same in H | solve [preserve]].

(** * 6. Lists *)
Lemma filter_filter {A} (P Q : A → bool) (l : list A) :
  List.filter P (List.filter Q l) = List.filter (λ x, Q x && P x) l.
Proof. induction l as [|x l IH]; simpl; [done|]. destruct (Q x); simpl; by rewrite IH. Qed.

Lemma filter_permutation {A} (P : A → bool) (l l' : list A) :
  l ≡ₚ l' → List.filter P l ≡ₚ List.filter P l'.
Proof.
  induction 1 as [|x l l' _ IH|x y l|l1 l2 l3 _ IH1 _ IH2]; simpl; [done| | |by trans (List.filter P l2)].
  - by destruct (P x); rewrite IH.
  - destruct (P x), (P y); try done. apply Permutation_swap.
Qed.

(** On a concrete run that succeeds, name the run and go on with its result. *)
Ltac ok_run E :=
  lazymatch goal with
  | |- match ?run with _ => _ end =>
      destruct run as [[a|e] s'] eqn:E; [|vm_compute in E; discriminate E]
  end.
