(* ===== verification/PyText.v ===== *)
(** * Text: the string, integer and UUID operations of Python the code uses

    Strings are lists of 8-bit characters; text outside ASCII is carried as its
    UTF-8 bytes.  The case mapping and the character classes are those of ASCII,
    the alphabet of every identifier, code, e-mail and token the modelled code
    normalises or compares. *)

From S2P Require Import Prelude.
From Stdlib Require Export Ascii.

Local Open Scope N_scope.

(** * Characters *)
Definition lower_char (c : ascii) : ascii :=
  let n := N_of_ascii c in
  if (65 <=? n) && (n <=? 90) then ascii_of_N (n + 32) else c.
Definition upper_char (c : ascii) : ascii :=
  let n := N_of_ascii c in
  if (97 <=? n) && (n <=? 122) then ascii_of_N (n - 32) else c.
Definition is_space (c : ascii) : bool :=
  let n := N_of_ascii c in
  ((9 <=? n) && (n <=? 13)) || ((28 <=? n) && (n <=? 32)).
Definition is_digit (c : ascii) : bool :=
  let n := N_of_ascii c in (48 <=? n) && (n <=? 57).
Definition is_alpha (c : ascii) : bool :=
  let n := N_of_ascii c in
  ((65 <=? n) && (n <=? 90)) || ((97 <=? n) && (n <=? 122)).
Definition is_alnum (c : ascii) : bool := is_alpha c || is_digit c.
Definition is_ascii (c : ascii) : bool := N_of_ascii c <? 128.
(** [int(c)] of a decimal digit. *)
Definition digit_value (c : ascii) : Z := Z.of_N (N_of_ascii c) - 48.

(** * Strings as character lists *)
Definition chars (s : string) : list ascii := String.list_ascii_of_string s.
Definition text (l : list ascii) : string := String.string_of_list_ascii l.

Lemma chars_text l : chars (text l) = l.
Proof. apply String.list_ascii_of_string_of_list_ascii. Qed.
Lemma text_chars s : text (chars s) = s.
Proof. apply String.string_of_list_ascii_of_string. Qed.
Lemma chars_append a b : chars (a +:+ b) = chars a ++ chars b.
Proof. induction a as [|c a IH]; simpl; [done|]. f_equal. apply IH. Qed.

Definition lower (s : string) : string := text (map lower_char (chars s)).
Definition upper (s : string) : string := text (map upper_char (chars s)).

(** ["\0" in s] *)
Definition zero_byte : ascii := ascii_of_N 0.
Definition has_zero (value : string) : bool := existsb (Ascii.eqb zero_byte) (chars value).

Fixpoint drop_while {A} (p : A → bool) (l : list A) : list A :=
  match l with
  | [] => []
  | x :: xs => if p x then drop_while p xs else l
  end.
Definition lstrip_by (p : ascii → bool) (s : string) : string :=
  text (drop_while p (chars s)).
Definition rstrip_by (p : ascii → bool) (s : string) : string :=
  text (rev (drop_while p (rev (chars s)))).
(** [s.strip()] *)
Definition strip (s : string) : string := rstrip_by is_space (lstrip_by is_space s).
(** [s.split(d)] on characters *)
Fixpoint split_char (d : ascii) (l : list ascii) : list (list ascii) :=
  match l with
  | [] => [[]]
  | c :: l' =>
      if Ascii.eqb c d then [] :: split_char d l'
      else match split_char d l' with
           | [] => [[c]]
           | part :: parts => (c :: part) :: parts
           end
  end.
(** [s.rstrip('/')] *)
Definition rstrip_slash (s : string) : string := rstrip_by (Ascii.eqb "/") s.
Definition strip_slash (s : string) : string :=
  rstrip_slash (lstrip_by (Ascii.eqb "/") s).
(** [s.replace(c, d)] for single characters, and [s.replace(c, '')]. *)
Definition replace_char (c d : ascii) (s : string) : string :=
  text (map (λ x, if Ascii.eqb x c then d else x) (chars s)).
Definition remove_char (c : ascii) (s : string) : string :=
  text (List.filter (λ x, negb (Ascii.eqb x c)) (chars s)).
Definition keep_chars (p : ascii → bool) (s : string) : string :=
  text (List.filter p (chars s)).
Definition all_chars (p : ascii → bool) (s : string) : bool := forallb p (chars s).
(** [p in s] for strings *)
Definition contains (p s : string) : bool :=
  match String.index 0 p s with Some _ => true | None => false end.
Definition starts_with (p s : string) : bool := String.prefix p s.
Definition ends_with (p s : string) : bool :=
  String.prefix (text (rev (chars p))) (text (rev (chars s))).
(** [s[:n]] and [s[-n:]] *)
Definition take_str (n : nat) (s : string) : string := text (firstn n (chars s)).
Definition last_str (n : nat) (s : string) : string :=
  text (rev (firstn n (rev (chars s)))).
(** Truth value of a string. *)
Definition nonempty (s : string) : bool := negb (String.eqb s "").
(** Truth value of a [str | None]. *)
Definition opt_nonempty (o : option string) : bool :=
  match o with Some s => nonempty s | None => false end.
Definition mem_str (s : string) (l : list string) : bool := existsb (String.eqb s) l.

Lemma mem_str_elem s l : mem_str s l = true ↔ s ∈ l.
Proof.
  unfold mem_str. rewrite existsb_exists, list_elem_of_In.
  split; [by intros (x & Hx & ->%String.eqb_eq)|]. intros Hs. exists s. by rewrite String.eqb_refl.
Qed.

(** * Integers *)
Definition show_Z (z : Z) : string := pretty z.

Fixpoint digits_value (base : Z) (value : ascii → option Z) (l : list ascii)
    (acc : Z) : option Z :=
  match l with
  | [] => Some acc
  | c :: cs =>
      match value c with
      | Some d => if (d <? base)%Z then digits_value base value cs (acc * base + d)%Z else None
      | None => None
      end
  end.
Definition hex_digit (c : ascii) : option Z :=
  let n := Z.of_N (N_of_ascii (lower_char c)) in
  (if (48 <=? n) && (n <=? 57) then Some (n - 48)
   else if (97 <=? n) && (n <=? 102) then Some (n - 87) else None)%Z.

(** [int(s)] of a decimal string: surrounding blanks and one sign are
    accepted.  Digit groups written with underscores are read as an error. *)
Definition parse_int (s : string) : option Z :=
  match chars (strip s) with
  | [] => None
  | c :: cs =>
      if Ascii.eqb c "-" then
        match cs with [] => None | _ => option_map Z.opp (digits_value 10 hex_digit cs 0) end
      else if Ascii.eqb c "+" then
        match cs with [] => None | _ => digits_value 10 hex_digit cs 0 end
      else digits_value 10 hex_digit (c :: cs) 0
  end.

(** * UUIDs: 128-bit numbers *)
Definition hex_char (d : N) : ascii :=
  ascii_of_N (if d <? 10 then 48 + d else 87 + d).
Fixpoint hex_digits (n : nat) (v : N) : list ascii :=
  match n with
  | O => []
  | S n' => hex_digits n' (v / 16) ++ [hex_char (v mod 16)]
  end.
(** The 8-4-4-4-12 layout of 32 digits. *)
Definition uuid_layout (h : list ascii) : list ascii :=
  firstn 8 h ++ "-"%char :: firstn 4 (skipn 8 h) ++ "-"%char ::
  firstn 4 (skipn 12 h) ++ "-"%char :: firstn 4 (skipn 16 h) ++ "-"%char ::
  skipn 20 h.
(** [str(u)]: lower-case hexadecimal digits in that layout. *)
Definition uuid_str (u : N) : string := text (uuid_layout (hex_digits 32 u)).
Definition uuid_hex (u : N) : string := text (hex_digits 32 u).

(** [s.replace(w, '')] for a non-empty word [w]: one left-to-right pass over
    the text; [skip] counts the characters of a match still to drop. *)
Fixpoint remove_word_from (w : string) (skip : nat) (s : string) : string :=
  match s with
  | EmptyString => EmptyString
  | String.String c s' =>
      match skip with
      | S k => remove_word_from w k s'
      | O =>
          if String.prefix w s then remove_word_from w (String.length w - 1) s'
          else String.String c (remove_word_from w 0 s')
      end
  end.
Definition remove_word (w s : string) : string := remove_word_from w 0 s.
Definition is_brace (c : ascii) : bool := Ascii.eqb c "{" || Ascii.eqb c "}".

(** [UUID(s)]: [None] stands for [ValueError]. *)
Definition parse_uuid (s : string) : option N :=
  let h := remove_word "uuid:" (remove_word "urn:" s) in
  let h := remove_char "-" (rstrip_by is_brace (lstrip_by is_brace h)) in
  if negb (Nat.eqb (String.length h) 32) then None
  else option_map Z.to_N (digits_value 16 hex_digit (chars h) 0).

(** * Lemmas *)

Lemma drop_while_none {A} (p : A → bool) l :
  Forall (λ x, p x = false) l → drop_while p l = l.
Proof. by intros [|x l' Hx _]; simpl; rewrite ?Hx. Qed.

Lemma strip_by_none p s :
  Forall (λ c, p c = false) (chars s) → rstrip_by p (lstrip_by p s) = s.
Proof.
  intros H. unfold rstrip_by, lstrip_by.
  rewrite chars_text, (drop_while_none p (chars s)) by done.
  rewrite drop_while_none by (by apply Forall_rev).
  by rewrite rev_involutive, text_chars.
Qed.

Lemma drop_while_snoc {A} (p : A → bool) l x :
  p x = false → ∃ l', drop_while p (l ++ [x]) = l' ++ [x].
Proof.
  intros Hx. induction l as [|y l (l' & IH)]; simpl; [rewrite Hx; by exists []|].
  destruct (p y); [by exists l'|by exists (y :: l)].
Qed.

(** What a text starts with, when it is not a blank, stays. *)
Lemma strip_head c s : is_space c = false → ∃ s', strip (String.String c s) = String.String c s'.
Proof.
  intros Hc. unfold strip, lstrip_by, rstrip_by. simpl. rewrite Hc, chars_text. simpl.
  destruct (drop_while_snoc is_space (rev (chars s)) c Hc) as (l & ->).
  rewrite rev_app_distr. simpl. by eexists.
Qed.

Lemma starts_with_spec p s : starts_with p s = true ↔ ∃ r, s = p +:+ r.
Proof.
  unfold starts_with. split.
  - revert s. induction p as [|c p IH]; intros s; [by exists s|]. destruct s as [|d s]; [done|].
    cbn [String.prefix]. destruct (ascii_dec c d) as [->|]; [|done].
    intros (r & ->)%IH. by exists r.
  - intros (r & ->). induction p as [|c p IH]; [by destruct r|].
    change (String.String c p +:+ r) with (String.String c (p +:+ r)). cbn [String.prefix].
    by destruct (ascii_dec c c).
Qed.

Lemma remove_word_id w s c w' :
  w = String.String c w' →
  Forall (λ x, Ascii.eqb x c = false) (chars s) → remove_word w s = s.
Proof.
  intros ->. unfold remove_word. induction s as [|x s IH]; [done|].
  simpl. intros [Hx Hs]%Forall_cons.
  destruct (ascii_dec c x) as [->|]; [by rewrite Ascii.eqb_refl in Hx|].
  by rewrite IH.
Qed.

Lemma filter_all {A} (p : A → bool) l :
  Forall (λ x, p x = true) l → List.filter p l = l.
Proof. induction 1 as [|x l Hx _ IH]; simpl; [done|]. by rewrite Hx, IH. Qed.

Definition is_hex (c : ascii) : bool :=
  match hex_digit c with Some _ => true | None => false end.

Lemma hex_char_digit d : d < 16 → hex_digit (hex_char d) = Some (Z.of_N d).
Proof.
  intros Hd. unfold hex_char.
  assert (H : d = 0 ∨ d = 1 ∨ d = 2 ∨ d = 3 ∨ d = 4 ∨ d = 5 ∨ d = 6 ∨ d = 7 ∨
    d = 8 ∨ d = 9 ∨ d = 10 ∨ d = 11 ∨ d = 12 ∨ d = 13 ∨ d = 14 ∨ d = 15) by lia.
  destruct_or! H; by subst.
Qed.

Lemma digits_value_app base value l1 l2 acc v :
  digits_value base value l1 acc = Some v →
  digits_value base value (l1 ++ l2) acc = digits_value base value l2 v.
Proof.
  revert acc. induction l1 as [|c l1 IH]; simpl; intros acc; [by intros [= ->]|].
  destruct (value c) as [d|]; [|done].
  destruct (d <? base)%Z; [apply IH | done].
Qed.

Lemma hex_digits_value n v :
  v < 16 ^ N.of_nat n →
  digits_value 16 hex_digit (hex_digits n v) 0 = Some (Z.of_N v).
Proof.
  revert v. induction n as [|n IH]; intros v Hv.
  - simpl in *. f_equal. lia.
  - simpl. rewrite Nat2N.inj_succ, N.pow_succ_r' in Hv.
    assert (v mod 16 < 16) by (apply N.mod_lt; lia).
    erewrite digits_value_app.
    2:{ apply IH. apply N.Div0.div_lt_upper_bound; lia. }
    simpl. rewrite hex_char_digit by done.
    destruct (Z.ltb_spec (Z.of_N (v mod 16)) 16); [|lia].
    f_equal. pose proof (N.div_mod v 16 ltac:(lia)). lia.
Qed.

Lemma hex_digits_length n v : length (hex_digits n v) = n.
Proof.
  revert v. induction n as [|n IH]; intros v; simpl; [done|].
  rewrite length_app, IH. simpl. lia.
Qed.

Lemma hex_digits_hex n v : Forall (λ c, is_hex c = true) (hex_digits n v).
Proof.
  revert v. induction n as [|n IH]; intros v; simpl; [constructor|].
  apply Forall_app; split; [apply IH|]. constructor; [|constructor].
  unfold is_hex. rewrite hex_char_digit; [done|]. apply N.mod_lt; lia.
Qed.

Lemma hex_not (p : ascii → bool) l :
  (∀ c, is_hex c = true → p c = false) →
  Forall (λ c, is_hex c = true) l → Forall (λ c, p c = false) l.
Proof. intros Hp Hl. eapply Forall_impl; [exact Hl | apply Hp]. Qed.

(** A character no hexadecimal digit is equal to. *)
Lemma hex_eqb_other c x :
  is_hex x = true → is_hex c = false → Ascii.eqb x c = false.
Proof. intros Hx Hc. apply Ascii.eqb_neq. intros ->. congruence. Qed.

Lemma uuid_layout_not (p : ascii → bool) h :
  p "-"%char = false → Forall (λ c, p c = false) h →
  Forall (λ c, p c = false) (uuid_layout h).
Proof.
  intros Hd Hh. unfold uuid_layout.
  repeat ((apply Forall_app; split) || (apply Forall_cons; split));
    try done; repeat (apply Forall_take || apply Forall_drop); done.
Qed.

Lemma uuid_layout_filter (p : ascii → bool) h :
  p "-"%char = false → Forall (λ c, p c = true) h →
  List.filter p (uuid_layout h) = h.
Proof.
  intros Hd Hh. unfold uuid_layout.
  repeat (rewrite List.filter_app; simpl; rewrite ?Hd).
  rewrite !(filter_all p) by (repeat (apply Forall_take || apply Forall_drop); done).
  etrans; [|apply (take_drop 8)]. f_equal.
  etrans; [|apply (take_drop 4)]. f_equal. rewrite drop_drop.
  change (8 + 4)%nat with 12%nat.
  etrans; [|apply (take_drop 4)]. f_equal. rewrite drop_drop.
  change (12 + 4)%nat with 16%nat.
  etrans; [|apply (take_drop 4)]. f_equal. by rewrite drop_drop.
Qed.

Lemma uuid_chars_not (p : ascii → bool) u :
  p "-"%char = false → (∀ c, is_hex c = true → p c = false) →
  Forall (λ c, p c = false) (chars (uuid_str u)).
Proof.
  intros Hd Hp. unfold uuid_str. rewrite chars_text.
  apply uuid_layout_not; [done|]. eapply hex_not; [done | apply hex_digits_hex].
Qed.

Lemma uuid_dashes_removed u : remove_char "-" (uuid_str u) = uuid_hex u.
Proof.
  unfold remove_char, uuid_hex, uuid_str. rewrite chars_text, uuid_layout_filter; [done..|].
  eapply Forall_impl; [apply hex_digits_hex|].
  intros c Hc. by rewrite (hex_eqb_other "-").
Qed.

(** [UUID(str(u)) == u]. *)
Lemma parse_uuid_str u : u < 2 ^ 128 → parse_uuid (uuid_str u) = Some u.
Proof.
  intros Hu. unfold parse_uuid.
  assert (Hu' : Forall (λ x, Ascii.eqb x "u" = false) (chars (uuid_str u))).
  { apply uuid_chars_not; [done|]. intros. by apply hex_eqb_other. }
  rewrite (remove_word_id "urn:" _ "u" "rn:"), (remove_word_id "uuid:" _ "u" "uid:")
    by done.
  rewrite strip_by_none.
  2:{ apply uuid_chars_not; [done|]. intros c Hc. unfold is_brace.
      by rewrite !hex_eqb_other. }
  rewrite uuid_dashes_removed. unfold uuid_hex.
  assert (Hl : String.length (text (hex_digits 32 u)) = 32%nat).
  { unfold text. rewrite <- (hex_digits_length 32 u) at 2.
    generalize (hex_digits 32 u). intros l. induction l; simpl; congruence. }
  rewrite Hl, chars_text, hex_digits_value by (simpl; lia).
  simpl. f_equal. lia.
Qed.

Lemma lower_char_idem c : lower_char (lower_char c) = lower_char c.
Proof. destruct c as [[] [] [] [] [] [] [] []]; reflexivity. Qed.

Lemma lower_idem s : lower (lower s) = lower s.
Proof.
  unfold lower. rewrite chars_text, map_map. f_equal.
  apply map_ext, lower_char_idem.
Qed.

(** * Text templates: [str.format] with named fields

    Replacement fields are plain names; [{{] and [}}] are literal braces; an
    unknown name is a [KeyError], a stray brace a [ValueError]. *)
Inductive format_state :=
| in_text
| after_open
| in_field (name : list ascii)
| after_close.

Fixpoint format_chars (fields : list (string * string)) (st : format_state)
    (l : list ascii) : result (list ascii) :=
  match l with
  | [] => match st with in_text => Ok [] | _ => Err (ValueError "format") end
  | c :: cs =>
      let opening := Ascii.eqb c "{" in
      let closing := Ascii.eqb c "}" in
      match st with
      | in_text =>
          if opening then format_chars fields after_open cs
          else if closing then format_chars fields after_close cs
          else r ← format_chars fields in_text cs; Ok (c :: r)
      | after_open =>
          if opening then r ← format_chars fields in_text cs; Ok (c :: r)
          else if closing then Err (ValueError "format")
          else format_chars fields (in_field [c]) cs
      | in_field name =>
          if closing then
            match List.find (λ kv, String.eqb kv.1 (text (rev name))) fields with
            | Some (_, v) => r ← format_chars fields in_text cs; Ok (chars v ++ r)
            | None => Err KeyError
            end
          else format_chars fields (in_field (c :: name)) cs
      | after_close =>
          if closing then r ← format_chars fields in_text cs; Ok (c :: r)
          else Err (ValueError "format")
      end
  end.
Definition py_format (template : string) (fields : list (string * string))
    : result string :=
  r ← format_chars fields in_text (chars template); Ok (text r).
