(* ===== verification/Base64.v ===== *)
(** * Base 64

    The encodings of the standard library the services use, on bytes: the
    standard and the URL alphabet, the strict decoder, and that it undoes the
    encoder. *)

From S2P Require Import Prelude.
From S2P Require Import PyText.

Local Open Scope N_scope.

(** The digit of a value below 64, with the last two of the alphabet. *)
Definition sextet (c62 c63 : ascii) (n : N) : ascii :=
  if n <? 26 then ascii_of_N (65 + n)
  else if n <? 52 then ascii_of_N (71 + n)
  else if n <? 62 then ascii_of_N (n - 4)
  else if n =? 62 then c62 else c63.
Definition sextet_value (c : ascii) : option N :=
  let n := N_of_ascii c in
  if (65 <=? n) && (n <=? 90) then Some (n - 65)
  else if (97 <=? n) && (n <=? 122) then Some (n - 71)
  else if (48 <=? n) && (n <=? 57) then Some (n + 4)
  else if Ascii.eqb c "+" then Some 62
  else if Ascii.eqb c "/" then Some 63
  else None.

Definition byte_of (n : N) : ascii := ascii_of_N (n mod 256).

Fixpoint encode_bytes (digit : N → ascii) (l : list ascii) : list ascii :=
  match l with
  | [] => []
  | [a] =>
      let n := N_of_ascii a in [digit (n / 4); digit (n mod 4 * 16); "="; "="]%char
  | [a; b] =>
      let n := N_of_ascii a * 256 + N_of_ascii b in
      [digit (n / 1024); digit (n / 16 mod 64); digit (n mod 16 * 4); "="%char]
  | a :: b :: c :: rest =>
      let n := N_of_ascii a * 65536 + N_of_ascii b * 256 + N_of_ascii c in
      digit (n / 262144) :: digit (n / 4096 mod 64) :: digit (n / 64 mod 64) :: digit (n mod 64) ::
      encode_bytes digit rest
  end.
(** [b64encode(s)] and [urlsafe_b64encode(s)] *)
Definition b64encode (s : string) : string := text (encode_bytes (sextet "+" "/") (chars s)).
Definition urlsafe_b64encode (s : string) : string := text (encode_bytes (sextet "-" "_") (chars s)).

(** Four digits at a time; padding ends the text. *)
Fixpoint decode_digits (l : list ascii) : option (list ascii) :=
  match l with
  | [] => Some []
  | w :: x :: y :: z :: rest =>
      w ← sextet_value w; x ← sextet_value x;
      if Ascii.eqb z "=" then
        match rest with
        | [] =>
            if Ascii.eqb y "=" then Some [byte_of (w * 4 + x / 16)]
            else y ← sextet_value y;
                 Some [byte_of (w * 4 + x / 16); byte_of (x * 16 + y / 4)]
        | _ => None
        end
      else
        y ← sextet_value y; z ← sextet_value z; rest ← decode_digits rest;
        Some (byte_of (w * 4 + x / 16) :: byte_of (x * 16 + y / 4) :: byte_of (y * 64 + z) :: rest)
  | _ => None
  end.
(** [b64decode(s, validate=True)]; [binascii.Error] is a [ValueError]. *)
Definition b64decode (s : string) : result string :=
  match decode_digits (chars s) with
  | Some l => Ok (text l)
  | None => Err (ValueError "Invalid base64-encoded string")
  end.

(** ** The decoder undoes the encoder *)
Lemma below_64 n : n < 64 → In n (map N.of_nat (seq 0 64)).
Proof. intros Hn. apply in_map_iff. exists (N.to_nat n). rewrite in_seq. lia. Qed.
Lemma all_below_64 (P : N → bool) n : forallb P (map N.of_nat (seq 0 64)) = true → n < 64 → P n = true.
Proof. intros HP Hn. rewrite forallb_forall in HP. by apply HP, below_64. Qed.

Abbreviation std := (sextet "+" "/").

Lemma sextet_value_ok n : n < 64 → sextet_value (std n) = Some n.
Proof.
  intros Hn. eapply bool_decide_eq_true.
  exact (all_below_64 (λ n, bool_decide (sextet_value (std n) = Some n)) n ltac:(by vm_compute) Hn).
Qed.
Lemma sextet_not_pad n : n < 64 → Ascii.eqb (std n) "=" = false.
Proof.
  intros Hn. apply negb_true_iff.
  exact (all_below_64 (λ n, negb (Ascii.eqb (std n) "=")) n ltac:(by vm_compute) Hn).
Qed.

(** The arithmetic of one group, by the digits of its bytes. *)
Lemma byte_of_value a n : n mod 256 = N_of_ascii a → byte_of n = a.
Proof. unfold byte_of. intros ->. apply ascii_N_embedding. Qed.
#[local] Ltac Zify.zify_post_hook ::= Z.to_euclidean_division_equations.

Lemma first_digit a : a < 256 → a / 4 < 64 ∧ a mod 4 * 16 < 64.
Proof. lia. Qed.
Lemma group_of_three a b c : a < 256 → b < 256 → c < 256 →
  let n := a * 65536 + b * 256 + c in
  n / 262144 = a / 4 ∧ n / 4096 mod 64 = a mod 4 * 16 + b / 16 ∧
  n / 64 mod 64 = b mod 16 * 4 + c / 64 ∧ n mod 64 = c mod 64.
Proof. cbv zeta. intros. split_and!; lia. Qed.
Lemma group_of_two a b : a < 256 → b < 256 →
  let n := a * 256 + b in
  n / 1024 = a / 4 ∧ n / 16 mod 64 = a mod 4 * 16 + b / 16 ∧ n mod 16 * 4 = b mod 16 * 4.
Proof. cbv zeta. intros. split_and!; lia. Qed.
Lemma first_byte a b : a < 256 → b < 256 → (a / 4 * 4 + (a mod 4 * 16 + b / 16) / 16) mod 256 = a.
Proof. lia. Qed.
Lemma second_byte a b c : a < 256 → b < 256 → c < 256 →
  ((a mod 4 * 16 + b / 16) * 16 + (b mod 16 * 4 + c / 64) / 4) mod 256 = b.
Proof. lia. Qed.
Lemma third_byte b c : c < 256 → ((b mod 16 * 4 + c / 64) * 64 + c mod 64) mod 256 = c.
Proof. lia. Qed.

Lemma ascii_below c : N_of_ascii c < 256.
Proof. destruct c as [[] [] [] [] [] [] [] []]; vm_compute; reflexivity. Qed.

Lemma padding : Ascii.eqb "=" "=" = true.
Proof. done. Qed.

Lemma decode_encode n l : (length l < n)%nat → decode_digits (encode_bytes std l) = Some l.
Proof.
  revert l. induction n as [|n IH]; [lia|]. intros [|a [|b [|c l]]] Hl; [done|..];
    try pose proof (ascii_below a); try pose proof (ascii_below b); try pose proof (ascii_below c);
    cbn [encode_bytes]; cbv zeta.
  - destruct (first_digit (N_of_ascii a)); [done|].
    cbn [decode_digits]. rewrite !sextet_value_ok, padding by done. cbn [mbind option_bind].
    do 2 f_equal. apply byte_of_value. pose proof (first_byte (N_of_ascii a) 0). lia.
  - destruct (group_of_two (N_of_ascii a) (N_of_ascii b)) as (-> & -> & ->); [done..|].
    cbn [decode_digits].
    rewrite !sextet_value_ok, padding, sextet_not_pad by lia. cbn [mbind option_bind].
    do 3 f_equal; [|f_equal]; apply byte_of_value; [by apply first_byte|].
    pose proof (second_byte (N_of_ascii a) (N_of_ascii b) 0). lia.
  - destruct (group_of_three (N_of_ascii a) (N_of_ascii b) (N_of_ascii c)) as (-> & -> & -> & ->); [done..|].
    cbn [decode_digits].
    rewrite !sextet_value_ok, sextet_not_pad by lia. cbn [mbind option_bind].
    rewrite IH by (simpl in Hl; lia).
    cbn [mbind option_bind]. f_equal. f_equal; [|f_equal; [|f_equal]]; apply byte_of_value.
    + by apply first_byte.
    + by apply second_byte.
    + by apply third_byte.
Qed.

(** [b64decode(b64encode(s), validate=True)] is [s]. *)
Lemma base64_round_trip s : b64decode (b64encode s) = Ok s.
Proof.
  unfold b64decode, b64encode. rewrite chars_text, (decode_encode (S (length (chars s)))) by lia.
  by rewrite text_chars.
Qed.

Example b64_examples :
  b64encode "Rubrica" = "UnVicmljYQ==" ∧ b64decode "UnVicmljYQ==" = Ok "Rubrica" ∧
  b64decode "UnVicmljYQ" = Err (ValueError "Invalid base64-encoded string").
Proof. vm_compute. done. Qed.
