(* ===== verification/Json.v ===== *)
(** * JSON values as Python reads them

    Provider events, evidence and audit metadata are Python dictionaries built
    from or written to JSON.  A dictionary is the list of its items in insertion
    order; a float is carried as the text of its [repr]. *)

From S2P Require Import Prelude.
From S2P Require Import PyText.

#[warnings="-register-all"]
Inductive json :=
| JNull
| JBool (b : bool)
| JNum (z : Z)
| JFloat (repr : string)
| JStr (s : string)
| JArr (items : list json)
| JObj (fields : list (string * json)).

#[export] Instance json_eq_dec : EqDecision json.
Proof.
  refine (fix go (a b : json) {struct a} : Decision (a = b) :=
    let dec : EqDecision json := go in
    match a, b with
    | JNull, JNull => left eq_refl
    | JBool x, JBool y => cast_if (decide (x = y))
    | JNum x, JNum y => cast_if (decide (x = y))
    | JFloat x, JFloat y => cast_if (decide (x = y))
    | JStr x, JStr y => cast_if (decide (x = y))
    | JArr x, JArr y => cast_if (decide (x = y))
    | JObj x, JObj y => cast_if (decide (x = y))
    | _, _ => right _
    end); clear dec go; congruence.
Defined.

(** Induction through the nested lists. *)
Section json_induction.
Variable P : json → Prop.
Hypothesis Hnull : P JNull.
Hypothesis Hbool : ∀ b, P (JBool b).
Hypothesis Hnum : ∀ z, P (JNum z).
Hypothesis Hfloat : ∀ r, P (JFloat r).
Hypothesis Hstr : ∀ s, P (JStr s).
Hypothesis Harr : ∀ l, Forall P l → P (JArr l).
Hypothesis Hobj : ∀ l, Forall (λ kv, P kv.2) l → P (JObj l).

Fixpoint json_nested_ind (j : json) : P j :=
  match j with
  | JNull => Hnull
  | JBool b => Hbool b
  | JNum z => Hnum z
  | JFloat r => Hfloat r
  | JStr s => Hstr s
  | JArr l => Harr l
      ((fix go (l : list json) : Forall P l :=
          match l with
          | [] => List.Forall_nil _
          | x :: xs => @List.Forall_cons _ P x xs (json_nested_ind x) (go xs)
          end) l)
  | JObj l => Hobj l
      ((fix go (l : list (string * json)) : Forall (λ kv, P kv.2) l :=
          match l with
          | [] => List.Forall_nil _
          | x :: xs => @List.Forall_cons _ (λ kv, P kv.2) x xs (json_nested_ind x.2) (go xs)
          end) l)
  end.
End json_induction.

(** [d.get(k)] and [d.get(k, default)]; a value that is not a dictionary has no
    [get]. *)
Fixpoint assoc (k : string) (l : list (string * json)) : option json :=
  match l with
  | [] => None
  | (k', v) :: l' => if String.eqb k k' then Some v else assoc k l'
  end.
Definition jget_or (d : json) (k : string) (v : json) : result json :=
  match d with
  | JObj l => Ok (from_option id v (assoc k l))
  | _ => Err AttributeError
  end.
Definition jget (d : json) (k : string) : result json := jget_or d k JNull.
(** [d[k]] *)
Definition jindex (d : json) (k : string) : result json :=
  match d with
  | JObj l => match assoc k l with Some v => Ok v | None => Err KeyError end
  | _ => Err TypeError
  end.
(** [d[k] = v] on a dictionary, and [d | e]. *)
Fixpoint assoc_set (k : string) (v : json) (l : list (string * json))
    : list (string * json) :=
  match l with
  | [] => [(k, v)]
  | (k', v') :: l' =>
      if String.eqb k k' then (k', v) :: l' else (k', v') :: assoc_set k v l'
  end.
Definition jset (d : json) (k : string) (v : json) : json :=
  match d with JObj l => JObj (assoc_set k v l) | _ => d end.
Definition junion (d e : json) : json :=
  match d, e with
  | JObj l, JObj l' => JObj (fold_left (λ acc kv, assoc_set kv.1 kv.2 acc) l' l)
  | _, _ => d
  end.

(** Truth value, [a or b], and the elements of a list ([for x in v]). *)
Definition truthy (j : json) : bool :=
  match j with
  | JNull => false
  | JBool b => b
  | JNum z => negb (Z.eqb z 0)
  | JFloat r => negb (String.eqb r "0.0" || String.eqb r "-0.0")
  | JStr s => nonempty s
  | JArr l => negb (Nat.eqb (length l) 0)
  | JObj l => negb (Nat.eqb (length l) 0)
  end.
Definition jor (a b : json) : json := if truthy a then a else b.
Definition jitems (j : json) : result (list json) :=
  match j with
  | JArr l => Ok l
  | JObj l => Ok (map (λ kv, JStr kv.1) l)
  | JStr s => Ok (map (λ c, JStr (text [c])) (chars s))
  | _ => Err TypeError
  end.

(** [int(v)] *)
Definition py_int (j : json) : result Z :=
  match j with
  | JNum z => Ok z
  | JBool b => Ok (if b then 1 else 0)%Z
  | JStr s => match parse_int s with Some z => Ok z | None => Err (ValueError s) end
  | JFloat r =>
      match String.index 0 "." r with
      | Some i => match parse_int (take_str i r) with
                  | Some z => Ok z
                  | None => Err (ValueError r)
                  end
      | None => Err (ValueError r)
      end
  | _ => Err TypeError
  end.

(** [repr] of a string: single quotes unless the text has a single quote and no
    double quote. *)
Definition dquote : ascii := ascii_of_N 34.
Definition squote : ascii := ascii_of_N 39.
Definition repr_char (q c : ascii) : list ascii :=
  let n := N_of_ascii c in
  if Ascii.eqb c q || Ascii.eqb c "\" then ["\"%char; c]
  else if N.eqb n 10 then chars "\n"
  else if N.eqb n 13 then chars "\r"
  else if N.eqb n 9 then chars "\t"
  else if N.ltb n 32 || N.eqb n 127 then "\"%char :: "x"%char :: hex_digits 2 n
  else [c].
Definition repr_str (s : string) : string :=
  let has q := existsb (Ascii.eqb q) (chars s) in
  let q := if has squote && negb (has dquote) then dquote else squote in
  text (q :: concat (map (repr_char q) (chars s)) ++ [q]).

Fixpoint join (sep : string) (l : list string) : string :=
  match l with
  | [] => ""
  | [x] => x
  | x :: xs => x +:+ sep +:+ join sep xs
  end.

Fixpoint py_repr (j : json) : string :=
  match j with
  | JNull => "None"
  | JBool true => "True"
  | JBool false => "False"
  | JNum z => show_Z z
  | JFloat r => r
  | JStr s => repr_str s
  | JArr l => "[" +:+ join ", " (map py_repr l) +:+ "]"
  | JObj l =>
      "{" +:+ join ", " (map (λ kv, repr_str kv.1 +:+ ": " +:+ py_repr kv.2) l) +:+ "}"
  end.
(** [str(v)] *)
Definition py_str (j : json) : string :=
  match j with JStr s => s | _ => py_repr j end.

(** Values of optional fields. *)
Definition jopt_str (o : option string) : json := from_option JStr JNull o.

(** * [canonical_json] (signed_pdf.py): keys sorted, no blanks, UTF-8 kept *)

(** Order of dictionary keys: code point order. *)
Definition key_le (a b : string * json) : Prop :=
  match String.compare a.1 b.1 with Gt => False | _ => True end.
#[export] Instance key_le_dec : RelDecision key_le.
Proof. intros a b. unfold key_le. destruct (String.compare a.1 b.1); apply _. Defined.

Definition json_escape_char (c : ascii) : list ascii :=
  let n := N_of_ascii c in
  if Ascii.eqb c dquote || Ascii.eqb c "\" then ["\"%char; c]
  else if N.eqb n 10 then chars "\n"
  else if N.eqb n 13 then chars "\r"
  else if N.eqb n 9 then chars "\t"
  else if N.eqb n 8 then chars "\b"
  else if N.eqb n 12 then chars "\f"
  else if N.ltb n 32 then chars "\u00" ++ hex_digits 2 n
  else [c].
Definition json_str (s : string) : string :=
  text (dquote :: concat (map json_escape_char (chars s)) ++ [dquote]).

Fixpoint canonical_json (j : json) : string :=
  match j with
  | JNull => "null"
  | JBool true => "true"
  | JBool false => "false"
  | JNum z => show_Z z
  | JFloat r => r
  | JStr s => json_str s
  | JArr l => "[" +:+ join "," (map canonical_json l) +:+ "]"
  | JObj l =>
      let items := map (λ kv, (kv.1, JStr (canonical_json kv.2))) l in
      "{" +:+ join "," (map (λ kv, json_str kv.1 +:+ ":" +:+ py_str kv.2)
                          (merge_sort key_le items)) +:+ "}"
  end.

(** * Dictionaries

    The items of a dictionary in insertion order, each key once: assignment keeps
    the place of a key that is there, and appends one that is not. *)

Section dict.
Context {K V : Type} `{EqDecision K}.
Implicit Types (d : list (K * V)) (k : K) (v : V).

(** [d.get(k)], [d[k] = v], [del d[k]], [d.values()] *)
Fixpoint dget k d : option V :=
  match d with
  | [] => None
  | (k', v) :: d => if bool_decide (k = k') then Some v else dget k d
  end.
Fixpoint dset k v d : list (K * V) :=
  match d with
  | [] => [(k, v)]
  | (k', v') :: d => if bool_decide (k = k') then (k', v) :: d else (k', v') :: dset k v d
  end.
Definition ddel k d : list (K * V) := List.filter (λ kv, negb (bool_decide (k = kv.1))) d.
Definition dvalues d : list V := map snd d.
Definition dkeys d : list K := map fst d.

Lemma dget_set k v d : dget k (dset k v d) = Some v.
Proof.
  induction d as [|[k' v'] d IH]; simpl; [by rewrite bool_decide_eq_true_2|].
  destruct (bool_decide (k = k')) eqn:E; simpl; by rewrite E.
Qed.
Lemma dget_set_ne k k' v d : k ≠ k' → dget k' (dset k v d) = dget k' d.
Proof.
  intros Hk. induction d as [|[x y] d IH]; simpl; [by rewrite bool_decide_eq_false_2|].
  case_bool_decide as E; simpl; [|by rewrite IH].
  subst. by rewrite bool_decide_eq_false_2.
Qed.
Lemma dget_in k v d : dget k d = Some v → In (k, v) d.
Proof.
  induction d as [|[x y] d IH]; simpl; [done|]. case_bool_decide as E; [intros [= ->]; left; by subst|].
  intros Hv. right. by apply IH.
Qed.
Lemma dget_del k d : dget k (ddel k d) = None.
Proof.
  unfold ddel. induction d as [|[x y] d IH]; simpl; [done|].
  destruct (bool_decide (k = x)) eqn:E; simpl; [done|by rewrite E].
Qed.
Lemma dget_del_ne k k' d : k ≠ k' → dget k' (ddel k d) = dget k' d.
Proof.
  intros Hk. unfold ddel. induction d as [|[x y] d IH]; simpl; [done|].
  destruct (bool_decide (k = x)) eqn:E; simpl; [|by rewrite IH].
  apply bool_decide_eq_true in E as <-. by rewrite bool_decide_eq_false_2.
Qed.
(** The values of a dictionary whose keys are distinct. *)
Lemma dvalues_in k v d : dget k d = Some v → In v (dvalues d).
Proof. intros Hv%dget_in. apply in_map_iff. by exists (k, v). Qed.
Lemma dkeys_set k v d : dkeys (dset k v d) = if bool_decide (k ∈ dkeys d) then dkeys d else dkeys d ++ [k].
Proof.
  unfold dkeys. induction d as [|[x y] d IH]; [done|]. cbn [dset map fst].
  destruct (decide (k = x)) as [->|Hne].
  - rewrite bool_decide_eq_true_2 by done. by rewrite bool_decide_eq_true_2 by (by left).
  - rewrite bool_decide_eq_false_2 by done. cbn [map fst]. rewrite IH.
    rewrite (bool_decide_ext (k ∈ x :: map fst d) (k ∈ map fst d)) by set_solver. by case_bool_decide.
Qed.
Lemma dget_distinct k v d : NoDup (dkeys d) → In (k, v) d → dget k d = Some v.
Proof.
  induction d as [|[x y] d IH]; simpl; [done|]. intros [Hx Hd]%NoDup_cons [[= <- <-]|Hin].
  - by rewrite bool_decide_eq_true_2.
  - rewrite bool_decide_eq_false_2; [by apply IH|]. intros <-. apply Hx.
    apply list_elem_of_In, in_map_iff. by exists (k, v).
Qed.
Lemma dkeys_set_distinct k v d : NoDup (dkeys d) → NoDup (dkeys (dset k v d)).
Proof.
  intros Hd. rewrite dkeys_set. destruct (bool_decide _) eqn:E; [done|].
  apply bool_decide_eq_false in E.
  apply NoDup_app. split; [exact Hd|]. split; [|apply NoDup_singleton].
  intros x Hx Ex%list_elem_of_singleton. subst. by destruct E.
Qed.
Lemma dkeys_del_distinct k d : NoDup (dkeys d) → NoDup (dkeys (ddel k d)).
Proof.
  unfold ddel, dkeys. induction d as [|[x y] d IH]; simpl; [done|]. intros [Hx Hd]%NoDup_cons.
  destruct (bool_decide (k = x)); simpl; [by apply IH|]. apply NoDup_cons. split; [|by apply IH].
  intros Hin. apply Hx. apply list_elem_of_In, in_map_iff in Hin as ([a b] & <- & Hin%filter_In).
  apply list_elem_of_In, in_map_iff. exists (a, b). by destruct Hin.
Qed.
End dict.
