(* ===== verification/Http.v ===== *)
(** * Requests, addresses and service tokens

    What the services share of HTTP: a request as an endpoint sees it, the parts
    of an address ([urllib.parse]), percent encoding, the origin check of
    shared_kernel/security/csrf.py and the comparison of service tokens
    (shared_kernel/security/service_tokens.py). *)

From S2P Require Import Prelude.
From S2P Require Import PyText.
From S2P Require Import Json.

Local Open Scope Z_scope.

(** Method, headers, cookies and the address of the peer; header names are in
    lower case: the framework compares them so. *)
Record HttpRequest := mkRequest {
  req_method : string;
  req_headers : list (string * string);
  req_cookies : list (string * string);
  req_host : option string
}.
Definition lookup_str (k : string) (l : list (string * string)) : option string :=
  snd <$> List.find (λ kv, String.eqb kv.1 k) l.
Definition header (request : HttpRequest) (name : string) : option string :=
  lookup_str name (req_headers request).
Definition cookie (request : HttpRequest) (name : string) : string :=
  from_option id "" (lookup_str name (req_cookies request)).
(** [a or b] *)
Definition or_str (a : option string) (b : string) : string :=
  match a with Some s => if nonempty s then s else b | None => b end.
(** [s.removeprefix(p)] *)
Definition remove_prefix (p s : string) : string :=
  if starts_with p s then text (skipn (String.length p) (chars s)) else s.
Definition safe_methods : list string := ["GET"; "HEAD"; "OPTIONS"].

(** ** [urllib.parse.urlsplit]: scheme and network location *)
Definition code (c : ascii) : N := N_of_ascii c.
Definition control_or_space (c : ascii) : bool := (code c <=? 32)%N.
Definition unsafe_byte (c : ascii) : bool := bool_decide (code c ∈ [9; 10; 13]%N).
Definition scheme_char (c : ascii) : bool :=
  is_alnum c || bool_decide (c ∈ ["+"; "-"; "."]%char).
Definition ends_netloc (c : ascii) : bool := bool_decide (c ∈ ["/"; "?"; "#"]%char).

(** The characters before the first that holds, and the rest. *)
Fixpoint span_until (p : ascii → bool) (l : list ascii) : list ascii * list ascii :=
  match l with
  | [] => ([], [])
  | c :: l' => if p c then ([], l) else let '(a, b) := span_until p l' in (c :: a, b)
  end.
Definition clean_url (url : string) : list ascii :=
  List.filter (λ c, negb (unsafe_byte c)) (drop_while control_or_space (chars url)).
(** The scheme, in lower case, and what follows its colon. *)
Definition split_scheme (url : list ascii) : list ascii * list ascii :=
  match span_until (Ascii.eqb ":") url with
  | (c :: scheme, _ :: rest) =>
      if is_alpha c && forallb scheme_char (c :: scheme)
      then (map lower_char (c :: scheme), rest) else ([], url)
  | _ => ([], url)
  end.
Definition split_netloc (url : list ascii) : list ascii :=
  match url with
  | "/"%char :: "/"%char :: rest => (span_until ends_netloc rest).1
  | _ => []
  end.

(** [s.split(w, 1)[-1]] and [s.split(c, 1)[0]] *)
Definition after_word (w s : string) : string :=
  match String.index 0 w s with
  | Some i => text (skipn (i + String.length w) (chars s))
  | None => s
  end.
Definition until_char (c : ascii) (s : string) : string := text (span_until (Ascii.eqb c) (chars s)).1.
(** [url.split('//', 1)[-1].split('/', 1)[0].split(':', 1)[0]] *)
Definition host_of (url : string) : string := until_char ":" (until_char "/" (after_word "//" url)).

Class HttpEnv := {
  (** The checks of [urlsplit] on bracketed and non-ASCII network locations. *)
  netloc_ok : string → bool;
  (** [str(ip_address(s))], [None] where it raises [ValueError]; is the address
      private or a loopback address? *)
  ip_text : string → option string;
  ip_private : string → bool
}.

Definition urlsplit `{HttpEnv} (url : string) : result (string * string) :=
  let '(scheme, rest) := split_scheme (clean_url url) in
  let netloc := text (split_netloc rest) in
  if netloc_ok netloc then Ok (text scheme, netloc) else Err (ValueError "Invalid IPv6 URL").

(** ** Origins (csrf.py) *)
(** [environment.lower() in {'production', 'prod'}] *)
Definition production (environment : string) : bool :=
  mem_str (lower environment) ["production"; "prod"].

(** Where a request says it comes from. *)
Definition origin_of (request : HttpRequest) : string :=
  or_str (header request "origin") (from_option id "" (header request "referer")).
Definition require_same_origin `{HttpEnv} (request : HttpRequest) (public_web_url environment : string)
    : result unit :=
  if negb (production environment) then Ok tt
  else
    expected ← urlsplit public_web_url;
    actual ← urlsplit (origin_of request);
    if negb (String.eqb actual.1 expected.1) || negb (String.eqb actual.2 expected.2)
    then Err (HTTPException 403 "Cross-origin cookie request is forbidden")
    else Ok tt.

(** ** Service tokens *)
(** [hmac.compare_digest] on two strings: ASCII only, and not [None]. *)
Definition compare_digest (a b : option string) : result bool :=
  match a, b with
  | Some a, Some b =>
      if all_chars is_ascii a && all_chars is_ascii b then Ok (String.eqb a b) else Err TypeError
  | _, _ => Err TypeError
  end.
Definition verify_service_token (received expected : string) : result bool :=
  compare_digest (Some received) (Some expected).

(** ** Percent encoding *)
Definition hex_upper (n : N) : list ascii := map upper_char (hex_digits 2 n).
Definition unreserved (c : ascii) : bool :=
  is_alnum c || existsb (Ascii.eqb c) ["_"; "."; "-"; "~"]%char.
Definition quote_char (c : ascii) : list ascii :=
  if unreserved c then [c] else "%"%char :: hex_upper (N_of_ascii c).
(** [quote(s, safe='')] and [quote_plus(s)] *)
Definition quote (s : string) : string := text (concat (map quote_char (chars s))).
Definition quote_plus_char (c : ascii) : list ascii :=
  if Ascii.eqb c " " then ["+"%char] else quote_char c.
Definition quote_plus (s : string) : string := text (concat (map quote_plus_char (chars s))).
Definition urlencode (fields : list (string * string)) : string :=
  join "&" (map (λ kv, quote_plus kv.1 +:+ "=" +:+ quote_plus kv.2) fields).

(** ** JSON members of a set of texts *)
(** [value in {a, b}]: lists and dictionaries have no hash. *)
Definition in_set (value : json) (l : list string) : result bool :=
  match value with
  | JStr s => Ok (mem_str s l)
  | JObj _ | JArr _ => Err TypeError
  | _ => Ok false
  end.
Definition is_str (value : json) (s : string) : bool :=
  match value with JStr s' => String.eqb s' s | _ => false end.

(** ** What the origin check guarantees *)
Lemma span_until_app p l : (span_until p l).1 ++ (span_until p l).2 = l.
Proof.
  induction l as [|c l IH]; [done|]. simpl. destruct (p c); [done|].
  destruct (span_until p l). simpl in *. by rewrite IH.
Qed.
Lemma span_until_stops p l :
  match (span_until p l).2 with [] => True | c :: _ => p c = true end.
Proof.
  induction l as [|c l IH]; [done|]. simpl. destruct (p c) eqn:E; [done|]. by destruct (span_until p l).
Qed.

(** What follows the authority of an address. *)
Definition after_authority (rest : list ascii) : bool :=
  match rest with [] => true | c :: _ => ends_netloc c end.
(** The address has this scheme and exactly this authority. *)
Definition address_of_site (url : string) (scheme netloc : string) : Prop :=
  ∃ written rest, clean_url url = chars written ++ chars "://" ++ chars netloc ++ rest ∧
    lower written = scheme ∧ after_authority rest = true.

Lemma split_scheme_app l scheme rest :
  split_scheme l = (scheme, rest) → scheme ≠ [] →
  ∃ written, l = written ++ ":"%char :: rest ∧ map lower_char written = scheme.
Proof.
  unfold split_scheme. pose proof (span_until_app (Ascii.eqb ":") l) as Happ.
  pose proof (span_until_stops (Ascii.eqb ":") l) as Hstop.
  destruct (span_until _ l) as [[|c w] [|d r]]; cbn [fst snd app] in Happ, Hstop;
    try (by intros [= <- <-] ?).
  destruct (_ && _); [|by intros [= <- <-] ?]. intros [= <- <-] _. exists (c :: w).
  apply Ascii.eqb_eq in Hstop as <-. by rewrite <- Happ.
Qed.

Lemma split_netloc_app l netloc :
  split_netloc l = netloc → netloc ≠ [] →
  ∃ rest, l = chars "//" ++ netloc ++ rest ∧ after_authority rest = true.
Proof.
  intros E Hne. assert (Hl : ∃ l', l = "/"%char :: "/"%char :: l').
  { destruct l as [|c1 l]; [simpl in E; congruence|].
    destruct (ascii_dec c1 "/") as [->|Hc1].
    2:{ exfalso. apply Hne. rewrite <- E. by destruct c1 as [[] [] [] [] [] [] [] []]. }
    destruct l as [|c2 l]; [simpl in E; congruence|].
    destruct (ascii_dec c2 "/") as [->|Hc2]; [by exists l|].
    exfalso. apply Hne. rewrite <- E. by destruct c2 as [[] [] [] [] [] [] [] []]. }
  destruct Hl as (l' & ->).
  simpl in E. exists (span_until ends_netloc l').2. split.
  - rewrite <- E. simpl. by rewrite span_until_app.
  - pose proof (span_until_stops ends_netloc l') as Hs. by destruct (span_until ends_netloc l').2.
Qed.

Lemma text_inj l l' : text l = text l' → l = l'.
Proof. intros E. by rewrite <- (chars_text l), <- (chars_text l'), E. Qed.

Section origins.
Context `{HttpEnv}.

Lemma urlsplit_site url scheme netloc :
  urlsplit url = Ok (scheme, netloc) → scheme ≠ "" → netloc ≠ "" → address_of_site url scheme netloc.
Proof.
  unfold urlsplit. destruct (split_scheme (clean_url url)) as [sch rest] eqn:Es.
  destruct (netloc_ok _); [|done]. intros [= <- <-] Hs Hn.
  apply split_scheme_app in Es as (w & Ec & Ew); [|by intros ->].
  destruct (split_netloc_app rest (split_netloc rest) eq_refl) as (r & Er & Hr); [by intros E; rewrite E in Hn|].
  exists (text w), r. rewrite !chars_text. split_and!; [|by unfold lower; rewrite chars_text, Ew|done].
  rewrite Ec, Er at 1. done.
Qed.

Definition from_site (request : HttpRequest) (scheme netloc : string) : Prop :=
  address_of_site (origin_of request) scheme netloc.

Lemma same_origin_ok request url environment scheme netloc :
  require_same_origin request url environment = Ok tt → production environment = true →
  urlsplit url = Ok (scheme, netloc) → scheme ≠ "" → netloc ≠ "" → from_site request scheme netloc.
Proof.
  unfold require_same_origin. intros Hr Hp Hu Hs Hn. rewrite Hp in Hr. simpl in Hr.
  rewrite Hu in Hr. cbn in Hr. destruct (urlsplit (origin_of request)) as [[sch net]|] eqn:E; [|done].
  cbn in Hr. destruct (String.eqb_spec sch scheme) as [->|]; [|done].
  destruct (String.eqb_spec net netloc) as [->|]; [|done]. by apply urlsplit_site.
Qed.
End origins.
