(* ===== verification/Errors.v ===== *)
(** * Errors as answers (shared_kernel/errors)

    [ErrorTarget] and [ApplicationError] of application.py, and the documents the
    exception handlers of handlers.py answer, which eventing_api and
    notification_api register.  A validation error is, per finding of the framework,
    where it is, what it says and its kind. *)

From S2P Require Import Prelude.
From S2P Require Import PyText.
From S2P Require Import Json.
From S2P Require Import Http.

Local Open Scope Z_scope.

(** ** application.py *)
Record ErrorTarget := mkErrorTarget {
  location : option string; entity : option string; field : option string;
  target_payload : list (string * json)
}.
(** [if self.location: data["location"] = self.location] *)
Definition named_text (k : string) (v : option string) : list (string * json) :=
  if opt_nonempty v then [(k, jopt_str v)] else [].
Definition as_dict (target : ErrorTarget) : list (string * json) :=
  named_text "location" (location target) ++ named_text "entity" (entity target) ++
  named_text "field" (field target) ++
  match target_payload target with [] => [] | payload => [("payload", JObj payload)] end.

Record ApplicationError := mkApplicationError {
  ae_message : string; ae_code : string; ae_status_code : Z; ae_target : ErrorTarget;
  ae_details : list (string * json)
}.
(** [__init__]: what is not given, or empty, is the class's. *)
Definition application_error (message code : option string) (status_code : option Z)
    (target : option ErrorTarget) (details : option (list (string * json))) : ApplicationError :=
  mkApplicationError (or_str message "An unexpected application error occurred.")
    (or_str code "application.internal_error")
    (match status_code with Some n => if n =? 0 then 500 else n | None => 500 end)
    (from_option id (mkErrorTarget None None None []) target) (from_option id [] details).

(** ** handlers.py *)
Record ErrorResponse := mkErrorResponse { er_status : Z; er_content : json }.

Section handlers.
(** The service, the path of the request, and the identifier drawn for it. *)
Context (service_name path fresh : string) (request : HttpRequest).

Definition _trace_id : string := or_str (header request "x-request-id") fresh.
Definition _base_content (status_code : Z) (code message : string) (target : option ErrorTarget)
    (details : list (string * json)) : json :=
  JObj [("error", JObj (
    [("code", JStr code); ("message", JStr message); ("status_code", JNum status_code);
     ("service", JStr service_name); ("method", JStr (req_method request)); ("path", JStr path);
     ("trace_id", JStr _trace_id)] ++
    match target with
    | Some t => match as_dict t with [] => [] | payload => [("target", JObj payload)] end
    | None => []
    end ++
    match details with [] => [] | _ => [("details", JObj details)] end))].

Definition _application_error_content (exc : ApplicationError) : json :=
  _base_content (ae_status_code exc) (ae_code exc) (ae_message exc) (Some (ae_target exc)) (ae_details exc).

(** The location is never empty: the framework names the part of the request. *)
Definition _normalize_validation_error (error : list string * string * string)
    : option string * option string * json :=
  let '(raw_location, msg, type) := error in
  let location := hd_error raw_location in
  let field := match raw_location with _ :: x :: l => Some (join "." (x :: l)) | _ => None end in
  (location, field, JObj ([("message", JStr msg); ("type", JStr type)] ++
     named_text "location" location ++ named_text "field" field)).
(** [normalized.get("location")], which an empty text does not set. *)
Definition shown (v : option string) : option string := if opt_nonempty v then v else None.
Definition _validation_error_content (errors : list (list string * string * string)) : json :=
  let normalized_errors := map _normalize_validation_error errors in
  let '(location, field) :=
    match normalized_errors with
    | (location, field, _) :: _ => (shown location, shown field)
    | [] => (None, None)
    end in
  _base_content 422 "request.validation_error" "Request validation failed."
    (Some (mkErrorTarget location None field [("errors", JArr (map snd normalized_errors))])) [].

Definition _http_error_code (status_code : Z) : string :=
  if status_code =? 404 then "http.not_found"
  else if status_code =? 405 then "http.method_not_allowed"
  else if status_code =? 401 then "http.unauthorized"
  else if status_code =? 403 then "http.forbidden"
  else "http.error".
(** [detail] is a text in all code that raises it. *)
Definition _http_error_content (status_code : Z) (detail : string) : json :=
  _base_content status_code (_http_error_code status_code) detail None [].

Definition _unexpected_error_content (e : exn) : json :=
  _base_content 500 "application.unhandled_error" "An unexpected internal error occurred." None
    [("exception", JStr (exn_name e))].

Definition application_error_handler (exc : ApplicationError) : ErrorResponse :=
  mkErrorResponse (ae_status_code exc) (_application_error_content exc).
(** [register_exception_handlers]: the handler of the class of the exception. *)
Definition error_response (e : exn) : ErrorResponse :=
  match e with
  | RequestValidationError errors => mkErrorResponse 422 (_validation_error_content errors)
  | HTTPException status_code detail => mkErrorResponse status_code (_http_error_content status_code detail)
  | e => mkErrorResponse 500 (_unexpected_error_content e)
  end.

(** ** What an error tells *)
(** The member [k] of the document's error. *)
Definition told (response : ErrorResponse) (k : string) : result json :=
  error ← jget (er_content response) "error"; jget error k.

(** The status in the document is the status of the answer, and every document
    names the service, the method, the path and the request. *)
Lemma error_document e :
  told (error_response e) "status_code" = Ok (JNum (er_status (error_response e))) ∧
  told (error_response e) "service" = Ok (JStr service_name) ∧
  told (error_response e) "path" = Ok (JStr path) ∧
  told (error_response e) "method" = Ok (JStr (req_method request)) ∧
  told (error_response e) "trace_id" = Ok (JStr _trace_id).
Proof.
  destruct e; try done. unfold error_response, _validation_error_content.
  destruct (match map _normalize_validation_error errors with [] => _ | _ => _ end). by split_and!.
Qed.

(** An exception that is not meant for the client tells it its class only. *)
Definition meant_for_clients (e : exn) : bool :=
  match e with RequestValidationError _ | HTTPException _ _ => true | _ => false end.
Lemma unexpected_error_tells_the_class e e' :
  meant_for_clients e = false → meant_for_clients e' = false → exn_name e = exn_name e' →
  error_response e = error_response e'.
Proof.
  intros He He' En.
  assert (H : ∀ x, meant_for_clients x = false →
    error_response x = mkErrorResponse 500 (_unexpected_error_content x)) by (by intros []).
  rewrite (H e He), (H e' He'). unfold _unexpected_error_content. by rewrite En.
Qed.
End handlers.
