(* ===== verification/DateTime.v ===== *)
(** * Instants (shared_kernel/time/datetime_service.py)

    An instant is a number of microseconds since the epoch in UTC; a value
    without a time zone is read as UTC, so [to_utc] is the identity on instants.
    The service works on the instants 0001-01-01 to 9999-12-31; results outside
    that range, where Python raises [OverflowError], are not distinguished. *)

From S2P Require Import Prelude.
From S2P Require Import PyText.

Local Open Scope Z_scope.

Definition microsecond : Z := 1.
Definition second : Z := 1000000.
Definition minute : Z := 60 * second.
Definition hour : Z := 60 * minute.
Definition day : Z := 24 * hour.

Module DateTimeService.
Definition to_utc (value : Z) : Z := value.
Definition is_expired (now value : Z) : bool := to_utc value <? now.
Definition is_future (now value : Z) : bool := now <? to_utc value.
Definition is_past (now value : Z) : bool := to_utc value <? now.

Definition add_seconds (value n : Z) : Z := value + n * second.
Definition add_minutes (value n : Z) : Z := value + n * minute.
Definition add_hours (value n : Z) : Z := value + n * hour.
Definition add_days (value n : Z) : Z := value + n * day.
Definition subtract_seconds (value n : Z) : Z := value - n * second.
Definition subtract_minutes (value n : Z) : Z := value - n * minute.
Definition subtract_hours (value n : Z) : Z := value - n * hour.
Definition subtract_days (value n : Z) : Z := value - n * day.

(** [value.replace(hour=0, minute=0, second=0, microsecond=0)] and the like, in UTC. *)
Definition start_of_day (value : Z) : Z := value / day * day.
Definition end_of_day (value : Z) : Z :=
  start_of_day value + 23 * hour + 59 * minute + 59 * second + 999999.
Definition start_of_hour (value : Z) : Z := value / hour * hour.
Definition end_of_hour (value : Z) : Z :=
  start_of_hour value + 59 * minute + 59 * second + 999999.

(** [timedelta.days] rounds towards minus infinity. *)
Definition days_ago (now value : Z) : Z := (now - to_utc value) / day.
End DateTimeService.

(** ** [datetime.isoformat()] *)

(** Year, month and day of a day number since the epoch: eras of 400 years of
    146097 days, years that start in March. *)
Definition civil_from_days (days : Z) : Z * Z * Z :=
  let z := days + 719468 in
  let era := z / 146097 in
  let doe := z mod 146097 in
  let yoe := (doe - doe / 1460 + doe / 36524 - doe / 146096) / 365 in
  let doy := doe - (365 * yoe + yoe / 4 - yoe / 100) in
  let mp := (5 * doy + 2) / 153 in
  let d := doy - (153 * mp + 2) / 5 + 1 in
  let m := if mp <? 10 then mp + 3 else mp - 9 in
  let y := yoe + era * 400 + (if m <=? 2 then 1 else 0) in
  (y, m, d).

(** [f"{n:0{width}d}"] of a natural number. *)
Fixpoint pad (width : nat) (n : Z) : list ascii :=
  match width with
  | O => []
  | S w => pad w (n / 10) ++ [ascii_of_N (Z.to_N (48 + n mod 10))]
  end.
Definition padded (width : nat) (n : Z) : string := text (pad width n).

Definition isoformat (t : Z) : string :=
  let '(y, m, d) := civil_from_days (t / day) in
  let s := t mod day / second in
  let us := t mod second in
  padded 4 y +:+ "-" +:+ padded 2 m +:+ "-" +:+ padded 2 d +:+ "T" +:+
  padded 2 (s / 3600) +:+ ":" +:+ padded 2 (s / 60 mod 60) +:+ ":" +:+ padded 2 (s mod 60) +:+
  (if us =? 0 then "" else "." +:+ padded 6 us) +:+ "+00:00".

(** * Theorems *)
Import DateTimeService.

(** A day and an hour are the intervals between their ends: an instant lies
    between the start and the end of its day, both ends are in that day, the
    next microsecond is not, and an hour lies within its day. *)
Theorem day_and_hour_bounds (value : Z) :
  start_of_day value <= start_of_hour value <= value ∧
  value <= end_of_hour value <= end_of_day value ∧
  start_of_day (start_of_day value) = start_of_day value ∧
  start_of_day (end_of_day value) = start_of_day value ∧
  start_of_day (end_of_day value + microsecond) = add_days (start_of_day value) 1 ∧
  (∀ now, days_ago now value = 0 ↔ value <= now < add_days value 1).
Proof.
  unfold end_of_day, end_of_hour, start_of_day, start_of_hour, add_days, days_ago, to_utc,
    microsecond.
  change day with 86400000000. change hour with 3600000000. change minute with 60000000.
  change second with 1000000.
  split_and!; try (Z.to_euclidean_division_equations; lia).
  intros now; split; Z.to_euclidean_division_equations; lia.
Qed.

Example isoformat_example : isoformat 1718454615000250 = "2024-06-15T12:30:15.000250+00:00".
Proof. vm_compute. reflexivity. Qed.
