(* ===== verification/Orm.v ===== *)
(** * Tables, sessions and transactions

    A table seen from one database session has two sides: [stored], the rows
    the SQL of this transaction sees, and [live], the attribute values of the
    mapped objects, which run ahead of [stored] until the session is flushed
    (the services open sessions with [autoflush=False]).  Queries select on
    [stored] and hand out the [live] objects; aggregates and column queries
    read [stored]; assignments and [add] touch [live]; [flush] moves [live] to
    [stored] if the table constraints allow it.  Rows stand in insertion order,
    the order of a query without ORDER BY. *)

From S2P Require Import Prelude.

(** A mapped class: its primary key. *)
Class Entity (R : Type) := ent_id : R → N.

Record table (R : Type) := Table { stored : list R; live : list R }.
Arguments Table {R} stored live.
Arguments stored {R} t.
Arguments live {R} t.

#[export] Instance table_eq_dec {R} `{EqDecision R} : EqDecision (table R).
Proof. solve_decision. Defined.

Section table.
Context {R : Type} `{Entity R}.
Implicit Types (t : table R) (l : list R) (P : R → bool).

Definition empty_table : table R := Table [] [].
Definition has_id (k : N) (r : R) : bool := N.eqb (ent_id r) k.
Definition find_row (k : N) l : option R := List.find (has_id k) l.

(** [db.scalars(select(E).where(P)).all()] *)
Definition select P t : list R :=
  List.filter (λ r, match find_row (ent_id r) (stored t) with
                    | Some s => P s
                    | None => false
                    end) (live t).
(** [db.scalars(select(E.column).where(P)).all()]: rows as the SQL sees them. *)
Definition select_stored P t : list R := List.filter P (stored t).
(** [select(func.count()).where(P)] *)
Definition count_rows P t : Z := Z.of_nat (length (select_stored P t)).
(** [db.get(E, k)] *)
Definition get_row (k : N) t : option R :=
  match find_row k (stored t) with Some _ => find_row k (live t) | None => None end.

(** [db.add(r)], [obj.attr = v] and the bulk statements. *)
Definition add_row (r : R) t : table R := Table (stored t) (live t ++ [r]).
Definition alter_rows (f : R → R) (k : N) l : list R :=
  map (λ r, if has_id k r then f r else r) l.
Definition mutate (f : R → R) (k : N) t : table R :=
  Table (stored t) (alter_rows f k (live t)).
Definition update_rows P (f : R → R) l : list R :=
  map (λ r, if P r then f r else r) l.
Definition update_where P f t : table R :=
  Table (update_rows P f (stored t)) (update_rows P f (live t)).
Definition delete_where P t : table R :=
  Table (List.filter (λ r, negb (P r)) (stored t))
        (List.filter (λ r, negb (P r)) (live t)).
Definition flush_table t : table R := Table (live t) (live t).

(** No stored row has a pending change, none was deleted. *)
Definition append_only `{EqDecision R} t : bool :=
  forallb (λ r, bool_decide (find_row (ent_id r) (live t) = Some r)) (stored t).

(** A table between transactions: no pending change, distinct keys. *)
Definition clean t : Prop := stored t = live t.
Definition keys_distinct l : Prop := NoDup (map ent_id l).

(** ** Lemmas *)
Lemma has_id_true k r : has_id k r = true ↔ ent_id r = k.
Proof. apply N.eqb_eq. Qed.
Lemma has_id_false k r : has_id k r = false ↔ ent_id r ≠ k.
Proof. apply N.eqb_neq. Qed.

Lemma find_row_some k l r : find_row k l = Some r → In r l ∧ ent_id r = k.
Proof. intros [? ?%has_id_true]%List.find_some. done. Qed.

Lemma find_row_none k l : find_row k l = None ↔ k ∉ map ent_id l.
Proof.
  rewrite list_elem_of_In, in_map_iff. split.
  - intros Hn (r & <- & Hr). eapply List.find_none in Hn; [|done].
    by apply has_id_false in Hn.
  - intros Hn. destruct (find_row k l) as [r|] eqn:E; [|done].
    apply find_row_some in E as [? ?]. destruct Hn. eauto.
Qed.

Lemma find_row_in l r : keys_distinct l → In r l → find_row (ent_id r) l = Some r.
Proof.
  unfold keys_distinct. induction l as [|x l IH]; simpl; [done|].
  intros [Hx Hl]%NoDup_cons. intros [<-|Hr].
  - unfold find_row. simpl. by rewrite (proj2 (has_id_true _ _)).
  - unfold find_row. simpl. destruct (has_id (ent_id r) x) eqn:E; [|by apply IH].
    apply has_id_true in E. destruct Hx. rewrite E.
    rewrite list_elem_of_In. by apply in_map.
Qed.

Lemma select_clean P t :
  clean t → keys_distinct (live t) → select P t = List.filter P (live t).
Proof.
  intros Hc Hd. unfold select. rewrite Hc. apply List.filter_ext_in.
  intros r Hr. by rewrite find_row_in.
Qed.

Lemma get_row_clean k t : clean t → get_row k t = find_row k (live t).
Proof. intros Hc. unfold get_row. rewrite Hc. by destruct (find_row k (live t)). Qed.

Lemma in_select P t r : In r (select P t) → In r (live t).
Proof. unfold select. by intros [? _]%filter_In. Qed.

Lemma select_stored_clean P t : clean t → select_stored P t = List.filter P (live t).
Proof. intros Hc. unfold select_stored. by rewrite Hc. Qed.

Lemma flush_clean t : clean (flush_table t).
Proof. done. Qed.

Lemma append_only_clean `{EqDecision R} t : clean t → keys_distinct (live t) → append_only t = true.
Proof.
  intros Hc Hd. unfold append_only. rewrite Hc. apply forallb_forall. intros r Hr.
  apply bool_decide_eq_true. by apply find_row_in.
Qed.
Lemma append_only_row `{EqDecision R} t r :
  append_only t = true → In r (stored t) → find_row (ent_id r) (live t) = Some r.
Proof.
  unfold append_only. rewrite forallb_forall. intros Ht Hr. specialize (Ht r Hr).
  by apply bool_decide_eq_true in Ht.
Qed.

(** Assignments keep the keys. *)
Definition keeps_id (f : R → R) : Prop := ∀ r, ent_id (f r) = ent_id r.

Lemma alter_rows_ids f k l : keeps_id f → map ent_id (alter_rows f k l) = map ent_id l.
Proof.
  intros Hf. unfold alter_rows. rewrite map_map. apply map_ext. intros r.
  by destruct (has_id k r); rewrite ?Hf.
Qed.

Lemma update_rows_ids P f l : keeps_id f → map ent_id (update_rows P f l) = map ent_id l.
Proof.
  intros Hf. unfold update_rows. rewrite map_map. apply map_ext. intros r.
  by destruct (P r); rewrite ?Hf.
Qed.

Lemma find_row_alter f k l :
  keeps_id f → find_row k (alter_rows f k l) = f <$> find_row k l.
Proof.
  intros Hf. unfold find_row. induction l as [|x l IH]; simpl; [done|].
  destruct (has_id k x) eqn:E; simpl.
  - apply has_id_true in E. by rewrite (proj2 (has_id_true _ _)) by (by rewrite Hf).
  - by rewrite E.
Qed.

Lemma find_row_alter_ne f k k' l :
  keeps_id f → k ≠ k' → find_row k' (alter_rows f k l) = find_row k' l.
Proof.
  intros Hf Hk. unfold find_row. induction l as [|x l IH]; simpl; [done|].
  destruct (has_id k x) eqn:E; simpl; [|by destruct (has_id k' x)].
  apply has_id_true in E.
  rewrite !(proj2 (has_id_false _ _)) by (rewrite ?Hf; congruence). done.
Qed.

Lemma alter_rows_missing f k l : k ∉ map ent_id l → alter_rows f k l = l.
Proof.
  induction l as [|x l IH]; simpl; [done|]. intros [Hx Hl]%not_elem_of_cons.
  rewrite IH by done. rewrite (proj2 (has_id_false _ _)) by congruence. done.
Qed.

Lemma find_row_app k l l' :
  find_row k (l ++ l') =
    match find_row k l with Some r => Some r | None => find_row k l' end.
Proof.
  unfold find_row. induction l as [|x l IH]; simpl; [done|].
  by destruct (has_id k x).
Qed.
End table.


(** * Sessions over a state *)

(** A state that holds a table of a mapped class, as a lens. *)
Class HasTable (S R : Type) := {
  get_table : S → table R;
  put_table : table R → S → S
}.
Class TableLaws (S R : Type) `{HasTable S R} := {
  get_put : ∀ t s, get_table (put_table t s) = t;
  put_put : ∀ t u s, put_table t (put_table u s) = put_table t s;
  put_get : ∀ s, put_table (get_table s) s = s
}.

Lemma head_filter {A} (P : A → bool) (l : list A) : head (List.filter P l) = List.find P l.
Proof. induction l as [|x l IH]; simpl; [done|]. by destruct (P x). Qed.

(** A state with a database: [flush_session] writes every pending object and is
    [None] when a constraint of the schema refuses; [rollback_session s0 s]
    gives the tables of [s] back their contents in [s0] and keeps everything
    that is not in the database. *)
Class Session (S : Type) := {
  flush_session : S → option S;
  rollback_session : S → S → S
}.

Arguments flush_session : simpl never.
Arguments rollback_session : simpl never.

Section session.
Context {S : Type} `{Session S}.

(** [db.flush()] *)
Definition flush : M S unit := λ s,
  match flush_session s with
  | Some s' => (Ok tt, s')
  | None => (Err IntegrityError, s)
  end.

(** [with SessionLocal.begin() as db: m] *)
Definition transaction {A} (m : M S A) : M S A := λ s,
  match m s with
  | (Ok a, s1) =>
      match flush_session s1 with
      | Some s2 => (Ok a, s2)
      | None => (Err IntegrityError, rollback_session s s1)
      end
  | (Err e, s1) => (Err e, rollback_session s s1)
  end.

(** [with SessionLocal() as db: m]: closed without a commit. *)
Definition read_session {A} (m : M S A) : M S A := λ s,
  let '(r, s1) := m s in (r, rollback_session s s1).

Context {R : Type} `{Entity R} `{HasTable S R}.

Definition modify_table (f : table R → table R) : M S unit :=
  modify (λ s, put_table (f (get_table s)) s).
Definition scalars (P : R → bool) : M S (list R) := gets (λ s, select P (get_table s)).
Definition scalar (P : R → bool) : M S (option R) := gets (λ s, head (select P (get_table s))).
Definition columns (P : R → bool) : M S (list R) :=
  gets (λ s, select_stored P (get_table s)).
Definition count (P : R → bool) : M S Z := gets (λ s, count_rows P (get_table s)).
Definition get (k : N) : M S (option R) := gets (λ s, get_row k (get_table s)).
(** The current attributes of an object the code holds. *)
Definition deref (k : N) : M S R :=
  λ s, match find_row k (live (get_table s)) with
       | Some r => (Ok r, s)
       | None => (Err KeyError, s)
       end.
Definition add (r : R) : M S unit := modify_table (add_row r).
Definition assign (k : N) (f : R → R) : M S unit := modify_table (mutate f k).
Definition execute_update (P : R → bool) (f : R → R) : M S unit :=
  modify_table (update_where P f).
Definition execute_delete (P : R → bool) : M S unit := modify_table (delete_where P).
End session.
Arguments scalars {S R _ _} P.
Arguments scalar {S R _ _} P.
Arguments columns {S R _} P.
Arguments count {S R _} P.
Arguments get {S R _ _} k.
Arguments deref {S R _ _} k.

Section session_lemmas.
Context {S : Type} `{Session S}.

Lemma flush_ok s u s' : flush s = (Ok u, s') ↔ flush_session s = Some s'.
Proof.
  unfold flush. destruct (flush_session s), u; naive_solver.
Qed.

Lemma transaction_ok {A} (m : M S A) s a s' :
  transaction m s = (Ok a, s') ↔
  ∃ s1, m s = (Ok a, s1) ∧ flush_session s1 = Some s'.
Proof.
  unfold transaction. destruct (m s) as [[x|e] s1]; [|naive_solver].
  destruct (flush_session s1) eqn:E; naive_solver.
Qed.

(** A failing transaction leaves the database as it found it. *)
Lemma transaction_err {A} (m : M S A) s e s' :
  transaction m s = (Err e, s') → ∃ r s1, m s = (r, s1) ∧ s' = rollback_session s s1.
Proof.
  unfold transaction. destruct (m s) as [[x|e'] s1]; [|naive_solver].
  destruct (flush_session s1) eqn:E; naive_solver.
Qed.

Lemma read_session_state {A} (m : M S A) s r s' :
  read_session m s = (r, s') → ∃ s1, m s = (r, s1) ∧ s' = rollback_session s s1.
Proof. unfold read_session. destruct (m s). naive_solver. Qed.

Context {R : Type} `{Entity R} `{HasTable S R}.

Lemma deref_ok k s (r : R) s' :
  deref k s = (Ok r, s') ↔ find_row k (live (get_table s)) = Some r ∧ s' = s.
Proof. unfold deref. destruct (find_row _ _); naive_solver. Qed.
End session_lemmas.

(** Inverting successful runs that use the database; [effect_step] leaves the
    queries alone. *)
Ltac effect_step :=
  match goal with
  | H : transaction _ _ = (Ok _, _) |- _ =>
      let s := fresh "s" in let Hm := fresh "Hrun" in
      apply transaction_ok in H; destruct H as (s & Hm & H)
  | H : flush _ = (Ok _, _) |- _ => apply flush_ok in H
  | H : deref _ _ = (Ok _, _) |- _ => apply deref_ok in H; destruct H as [? ->]
  | H : add _ _ = (Ok _, _) |- _ => apply modify_ok in H as ->
  | H : assign _ _ _ = (Ok _, _) |- _ => apply modify_ok in H as ->
  | _ => run_step
  end.
Ltac db_step :=
  match goal with
  | H : scalar _ _ = (Ok _, _) |- _ => apply gets_ok in H; destruct H as [-> ->]
  | H : scalars _ _ = (Ok _, _) |- _ => apply gets_ok in H; destruct H as [-> ->]
  | H : columns _ _ = (Ok _, _) |- _ => apply gets_ok in H; destruct H as [-> ->]
  | H : count _ _ = (Ok _, _) |- _ => apply gets_ok in H; destruct H as [-> ->]
  | H : get _ _ = (Ok _, _) |- _ => apply gets_ok in H; destruct H as [-> ->]
  | _ => effect_step
  end.
Ltac db_run := repeat (db_step; simpl in * ).

(** * Ordered and joined queries *)

(** [ORDER BY] with a boolean order; ties keep the order of the rows. *)
Definition order_by {A} (le : A → A → bool) (l : list A) : list A :=
  merge_sort (λ x y, Is_true (le x y)) l.

Lemma order_by_permutation {A} (le : A → A → bool) l : order_by le l ≡ₚ l.
Proof. apply merge_sort_Permutation. Qed.

(** Keys: the first that differs decides; [NULL] sorts last. *)
Definition nulls_last (le : Z → Z → bool) (a b : option Z) : bool :=
  match a, b with
  | Some x, Some y => le x y
  | Some _, None => true
  | None, Some _ => false
  | None, None => true
  end.
Definition lexico {A} (le1 le2 : A → A → bool) (x y : A) : bool :=
  if le1 x y then if le1 y x then le2 x y else true else false.

Section ordered.
Context {R : Type} `{Entity R}.

(** [select(E).where(P).order_by(...)]: the SQL sorts the rows it sees, the
    session hands out its objects. *)
Definition select_ordered (le : R → R → bool) (P : R → bool) (t : table R) : list R :=
  omap (λ r, find_row (ent_id r) (live t)) (order_by le (select_stored P t)).

Lemma omap_find_row (l l' : list R) :
  keys_distinct l → (∀ r, In r l' → In r l) →
  omap (λ r, find_row (ent_id r) l) l' = l'.
Proof.
  intros Hd. induction l' as [|r l' IH]; intros Hin; [done|].
  cbn. rewrite (find_row_in _ _ Hd) by (apply Hin; by left). simpl. f_equal.
  apply IH. intros. apply Hin. by right.
Qed.

Lemma select_ordered_clean le P t :
  clean t → keys_distinct (live t) →
  select_ordered le P t = order_by le (List.filter P (live t)).
Proof.
  intros Hc Hd. unfold select_ordered. rewrite (select_stored_clean P t Hc).
  apply omap_find_row; [done|]. intros r Hr.
  apply list_elem_of_In in Hr. rewrite order_by_permutation in Hr.
  by apply list_elem_of_In, filter_In in Hr as [? _].
Qed.

Context {R' : Type} `{Entity R'}.

(** [select(E, E').join(E', ...).where(P)] *)
Definition select_join (le : R * R' → R * R' → bool) (P : R → R' → bool)
    (t : table R) (t' : table R') : list (R * R') :=
  omap (λ '(a, b), match find_row (ent_id a) (live t), find_row (ent_id b) (live t') with
                   | Some x, Some y => Some (x, y)
                   | _, _ => None
                   end)
    (order_by le (List.filter (λ '(a, b), P a b) (list_prod (stored t) (stored t')))).
End ordered.

Definition scalars_ordered {S R} `{Entity R} `{HasTable S R} le (P : R → bool)
    : M S (list R) := gets (λ s, select_ordered le P (get_table s)).
Definition joined {S R R'} `{Entity R} `{HasTable S R} `{Entity R'} `{HasTable S R'}
    le (P : R → R' → bool) : M S (list (R * R')) :=
  gets (λ s, select_join le P (get_table s) (get_table s)).

(** Queries leave the state as it is. *)
Section query_preserves.
Context {S : Type} (Q : relation S) `{!PreOrder Q} {R : Type} `{Entity R} `{HasTable S R}.

Lemma preserves_scalar (P : R → bool) : preserves Q (scalar P : M S _).
Proof. intros s. simpl. reflexivity. Qed.
Lemma preserves_scalars (P : R → bool) : preserves Q (scalars P : M S _).
Proof. intros s. simpl. reflexivity. Qed.
Lemma preserves_scalars_ordered le (P : R → bool) :
  preserves Q (scalars_ordered le P : M S _).
Proof. intros s. simpl. reflexivity. Qed.
Lemma preserves_columns (P : R → bool) : preserves Q (columns P : M S _).
Proof. intros s. simpl. reflexivity. Qed.
Lemma preserves_count (P : R → bool) : preserves Q (count P : M S _).
Proof. intros s. simpl. reflexivity. Qed.
Lemma preserves_get k : preserves Q (get (R := R) k : M S _).
Proof. intros s. simpl. reflexivity. Qed.
Lemma preserves_deref k : preserves Q (deref (R := R) k : M S _).
Proof. intros s. unfold deref. destruct (find_row _ _); simpl; reflexivity. Qed.
Context {R' : Type} `{Entity R'} `{HasTable S R'}.
Lemma preserves_joined le (P : R → R' → bool) : preserves Q (joined le P : M S _).
Proof. intros s. simpl. reflexivity. Qed.
End query_preserves.

#[export] Hint Resolve preserves_scalar preserves_scalars preserves_scalars_ordered
  preserves_columns preserves_count preserves_get preserves_deref preserves_joined
  : preserve.

Lemma keys_distinct_filter {R} `{Entity R} (P : R → bool) (l : list R) :
  keys_distinct l → keys_distinct (List.filter P l).
Proof.
  unfold keys_distinct. induction l as [|x l IH]; simpl; [done|].
  intros [Hx Hl]%NoDup_cons. destruct (P x); simpl; [|by apply IH].
  apply NoDup_cons. split; [|by apply IH]. intros Hin. apply Hx.
  apply list_elem_of_In, in_map_iff in Hin as (y & E & [Hy _]%filter_In).
  apply list_elem_of_In, in_map_iff. eauto.
Qed.

Lemma find_row_filter {R} `{Entity R} (P : R → bool) (l : list R) r :
  keys_distinct l → In r l →
  find_row (ent_id r) (List.filter P l) = if P r then Some r else None.
Proof.
  intros Hd Hin. destruct (P r) eqn:E.
  - apply find_row_in; [by apply keys_distinct_filter | by apply filter_In].
  - apply find_row_none. intros Hi.
    apply list_elem_of_In, in_map_iff in Hi as (y & Ey & [Hy HP]%filter_In).
    pose proof (find_row_in l y Hd Hy) as Ef. rewrite Ey, (find_row_in l r Hd Hin) in Ef.
    congruence.
Qed.

Lemma find_row_permutation {R} `{Entity R} (l l' : list R) k :
  keys_distinct l → l ≡ₚ l' → find_row k l = find_row k l'.
Proof.
  intros Hd Hp.
  assert (Hd' : keys_distinct l').
  { unfold keys_distinct in *. by rewrite <- (Permutation_map ent_id Hp). }
  destruct (find_row k l) as [r|] eqn:E.
  - apply find_row_some in E as [Hr <-]. symmetry. apply find_row_in; [done|].
    apply list_elem_of_In. rewrite <- Hp. by apply list_elem_of_In.
  - symmetry. apply find_row_none. apply find_row_none in E.
    by rewrite <- (Permutation_map ent_id Hp).
Qed.

(** A query with no result, on a table with pending assignments but no pending
    row: no stored row matches. *)
Lemma select_none {R} `{Entity R} (P : R → bool) (t : table R) :
  map ent_id (live t) = map ent_id (stored t) → keys_distinct (stored t) →
  head (select P t) = None → ∀ r, In r (stored t) → P r = false.
Proof.
  intros Hids Hd Hsel r Hr. destruct (P r) eqn:E; [|done].
  assert (Hin : In (ent_id r) (map ent_id (live t))) by (rewrite Hids; by apply in_map).
  apply in_map_iff in Hin as (l & El & Hl).
  assert (Hin : In l (select P t)).
  { unfold select. apply filter_In. split; [done|]. by rewrite El, (find_row_in _ r). }
  by destruct (select P t).
Qed.

(** An assignment that keeps a row out of a selection keeps the selection. *)
Lemma alter_filter_out {R} `{Entity R} (P : R → bool) (f : R → R) k (l : list R) r :
  keys_distinct l → In r l → P r = false → P (f r) = false → ent_id r = k →
  List.filter P (alter_rows f k l) = List.filter P l.
Proof.
  intros Hd Hin Hr Hfr <-. unfold alter_rows.
  assert (Hall : ∀ x, In x l → has_id (ent_id r) x = true → x = r).
  { intros x Hx Hi%has_id_true. pose proof (find_row_in l x Hd Hx) as E.
    rewrite Hi, (find_row_in l r Hd Hin) in E. congruence. }
  clear Hin Hd. induction l as [|x l IH]; simpl; [done|].
  rewrite IH by (intros; apply Hall; simpl; auto).
  destruct (has_id (ent_id r) x) eqn:E; [|done].
  rewrite (Hall x) by (simpl; auto). by rewrite Hr, Hfr.
Qed.

(** ** Assignments in a loop *)
Section assignments.
Context {R : Type} `{Entity R}.

(** [for m in l: m.attr = ...] on the rows of a table. *)
Definition alter_each (f : R → R → R) (l rows : list R) : list R :=
  fold_left (λ acc m, alter_rows (f m) (ent_id m) acc) l rows.

(** Each row is assigned at most once when the loop visits no object twice. *)
Lemma alter_each_map f l rows :
  (∀ m, keeps_id (f m)) → keys_distinct l →
  alter_each f l rows =
    map (λ r, match find_row (ent_id r) l with Some m => f m r | None => r end) rows.
Proof.
  intros Hf. unfold alter_each, keys_distinct. revert rows.
  induction l as [|m l IH]; intros rows; simpl.
  { intros _. by rewrite map_id. }
  intros [Hm Hl]%NoDup_cons. rewrite IH by done. unfold alter_rows. rewrite map_map.
  apply map_ext. intros r. unfold find_row at 2, has_id at 1. simpl.
  change (List.find (has_id (ent_id r)) l) with (find_row (ent_id r) l).
  unfold has_id. rewrite (N.eqb_sym (ent_id m)).
  destruct (N.eqb_spec (ent_id r) (ent_id m)) as [E|]; [|done].
  rewrite Hf, E. by rewrite (proj2 (find_row_none _ _)).
Qed.
End assignments.

Lemma for_each_assign {S R} `{Entity R} `{HasTable S R} `{!TableLaws S R}
    (f : R → R → R) (l : list R) (s : S) :
  for_each (λ m, assign (ent_id m) (f m)) l s =
    (Ok tt, put_table (Table (stored (get_table s)) (alter_each f l (live (get_table s)))) s).
Proof.
  revert s. induction l as [|m l IH]; intros s; simpl.
  - unfold mret, M_ret. do 2 f_equal. rewrite <- (put_get s) at 1. by destruct (get_table s).
  - rewrite (bind_step_ok _ _ s tt
      (put_table (mutate (f m) (ent_id m) (get_table s)) s)) by reflexivity.
    rewrite IH, get_put, put_put. reflexivity.
Qed.

(** ** Orders *)
Definition total_order {A} (le : A → A → bool) : Prop := ∀ x y, le x y = true ∨ le y x = true.
Definition transitive_order {A} (le : A → A → bool) : Prop :=
  ∀ x y z, le x y = true → le y z = true → le x z = true.

Create HintDb orders.

Section orders.
Context {A : Type}.
Implicit Types le : A → A → bool.

Lemma lexico_total le1 le2 :
  total_order le1 → total_order le2 → total_order (lexico le1 le2).
Proof.
  intros H1 H2 x y. unfold lexico. specialize (H1 x y). specialize (H2 x y).
  destruct (le1 x y) eqn:E1, (le1 y x) eqn:E2; naive_solver.
Qed.

Lemma lexico_transitive le1 le2 :
  transitive_order le1 → transitive_order le2 → transitive_order (lexico le1 le2).
Proof.
  intros H1 H2 x y z. unfold lexico.
  destruct (le1 x y) eqn:E1; [|done]. destruct (le1 y z) eqn:E2; [|done].
  rewrite (H1 _ _ _ E1 E2).
  destruct (le1 y x) eqn:E3, (le1 z y) eqn:E4, (le1 z x) eqn:E5;
    try done; try (intros; by eapply H2).
  all: pose proof (H1 z x y E5 E1); pose proof (H1 y z x E2 E5); congruence.
Qed.

Lemma nulls_last_total (f : A → option Z) :
  total_order (λ x y, nulls_last Z.leb (f x) (f y)).
Proof. intros x y. destruct (f x), (f y); simpl; rewrite ?Z.leb_le; auto. lia. Qed.

Lemma nulls_last_transitive (f : A → option Z) :
  transitive_order (λ x y, nulls_last Z.leb (f x) (f y)).
Proof. intros x y z. destruct (f x), (f y), (f z); simpl; rewrite ?Z.leb_le; auto; lia || done. Qed.

Lemma key_total (f : A → Z) : total_order (λ x y, Z.leb (f x) (f y)).
Proof. intros x y. rewrite !Z.leb_le. lia. Qed.
Lemma key_transitive (f : A → Z) : transitive_order (λ x y, Z.leb (f x) (f y)).
Proof. intros x y z. rewrite !Z.leb_le. lia. Qed.
Lemma id_total (f : A → N) : total_order (λ x y, N.leb (f x) (f y)).
Proof. intros x y. rewrite !N.leb_le. lia. Qed.
Lemma id_transitive (f : A → N) : transitive_order (λ x y, N.leb (f x) (f y)).
Proof. intros x y z. rewrite !N.leb_le. lia. Qed.

Lemma order_by_sorted le l :
  total_order le → transitive_order le →
  StronglySorted (λ x y, Is_true (le x y)) (order_by le l).
Proof.
  intros Ht Htr. unfold order_by. apply StronglySorted_merge_sort.
  - intros x y z Hx Hy. apply Is_true_eq_true in Hx, Hy. apply Is_true_eq_left. eauto.
  - intros x y. destruct (Ht x y) as [E|E]; [left|right]; by apply Is_true_eq_left.
Qed.

(** The first match of an ordered query is a least match. *)
Lemma find_order_by le P (l : list A) x :
  total_order le → transitive_order le →
  List.find P (order_by le l) = Some x →
  In x l ∧ P x = true ∧ ∀ y, In y l → P y = true → le x y = true.
Proof.
  intros Ht Htr Hf. pose proof (List.find_some _ _ Hf) as [Hin HP].
  assert (Hperm : ∀ y, In y l ↔ In y (order_by le l)).
  { intros y. by rewrite <- !list_elem_of_In, order_by_permutation. }
  rewrite Hperm. split_and!; [done..|]. intros y Hy%Hperm HPy.
  assert (Hx : le x x = true) by (by destruct (Ht x x)).
  pose proof (order_by_sorted le l Ht Htr) as Hs.
  clear Hperm Hin. revert Hf Hy. induction Hs as [|z l' _ IH Hz]; simpl; [done|].
  destruct (P z) eqn:E.
  - intros [= ->] [<-|Hy]; [done|]. apply Is_true_eq_true.
    rewrite List.Forall_forall in Hz. by apply Hz.
  - intros Hf [<-|Hy]; [congruence|by apply IH].
Qed.
End orders.
#[export] Hint Resolve lexico_total lexico_transitive nulls_last_total nulls_last_transitive
  key_total key_transitive id_total id_transitive : orders.

(** * Constraints

    Primary keys, unique constraints ([NULL] never conflicts) and foreign keys,
    as a flush checks them. *)

Definition unique_on {R K} `{EqDecision K} (key : R → option K) (l : list R) : bool :=
  bool_decide (NoDup (omap key l)).
Definition refers {R R'} `{Entity R'} (key : R → option N) (l : list R) (l' : list R')
    : bool :=
  forallb (λ r, match key r with
                | Some k => existsb (λ r', N.eqb (ent_id r') k) l'
                | None => true
                end) l.
Definition primary_key {R} `{Entity R} (l : list R) : bool :=
  unique_on (λ r, Some (ent_id r)) l.

Lemma primary_key_distinct {R} `{Entity R} (l : list R) :
  primary_key l = true ↔ keys_distinct l.
Proof.
  unfold primary_key, unique_on, keys_distinct. rewrite bool_decide_eq_true.
  assert (E : omap (λ r, Some (ent_id r)) l = map ent_id l)
    by (induction l as [|x l IH]; [done|]; cbn; f_equal; exact IH).
  by rewrite E.
Qed.

(** Assignments the constraints do not see. *)
Lemma omap_map_same {A B} (key : A → option B) (g : A → A) l :
  (∀ r, key (g r) = key r) → omap key (map g l) = omap key l.
Proof.
  intros Hg. induction l as [|x l IH]; [done|]. cbn. rewrite Hg. destruct (key x); by rewrite IH.
Qed.

Lemma unique_on_alter {R K} `{Entity R} `{EqDecision K} (key : R → option K) f k (l : list R) :
  (∀ r, key (f r) = key r) → unique_on key (alter_rows f k l) = unique_on key l.
Proof.
  intros Hf. unfold unique_on, alter_rows. rewrite omap_map_same; [done|].
  intros r. by destruct (has_id k r).
Qed.

Lemma refers_alter {R R'} `{Entity R} `{Entity R'} (key : R → option N) f k
    (l : list R) (l' : list R') :
  (∀ r, key (f r) = key r) → refers key (alter_rows f k l) l' = refers key l l'.
Proof.
  intros Hf. unfold refers, alter_rows. induction l as [|x l IH]; simpl; [done|].
  rewrite IH. destruct (has_id k x); by rewrite ?Hf.
Qed.
