(* ===== verification/CrudService.v ===== *)
(** * The generic CRUD service (shared_kernel/persistence/crud_service.py)

    [SqlAlchemyCrudService] over the entities the generator of domains writes: a
    row has columns, a mark of deletion and many-to-many relations to rows of
    other tables; [<entity>_ids] is a property without a setter.  The endpoints
    are those of shared_kernel/http/crud/route_factory.py.  A payload is the
    dictionary [model_dump] gives; [created_at] and [updated_at] are left out, and a
    relation keeps the order it was given.  A method opens its own session: what it
    changes is committed or undone with it. *)

From S2P Require Import Prelude.
From S2P Require Import PyText.
From S2P Require Import Json.
From S2P Require Import Orm.

(** ** Rows *)
Inductive crud_value :=
| CrudNull
| CrudUuid (u : N)
| CrudUuids (l : list N)
| CrudData (j : json).
Definition is_uuid (u : N) (v : option crud_value) : bool :=
  match v with Some (CrudUuid u') => N.eqb u u' | _ => false end.
Definition is_null (v : crud_value) : bool := match v with CrudNull => true | _ => false end.

Module CrudItem.
Record CrudItem := make {
  id : N;
  columns : list (string * crud_value);
  (** The identifiers of the related rows, by the attribute of the relation. *)
  related : list (string * list N);
  deleted_at : option Z
}.
#[global] Instance CrudItem_eta : Eta CrudItem := λ r,
  make (id r) (columns r) (related r) (deleted_at r).
#[global] Instance CrudItem_entity : Entity CrudItem := id.
End CrudItem.
Abbreviation CrudItem := CrudItem.CrudItem.

Record ManyToManyConfig := mkManyToManyConfig { attribute : string; rel_model : string }.

(** The service and its entity: the columns, the read-only properties, the fields
    of the answer, the relations, and the constraints of the table. *)
Record CrudConfig := mkCrudConfig {
  crud_columns : list string;
  crud_read_only : list string;
  read_fields : list string;
  relations : list (string * ManyToManyConfig);
  crud_constraints : list CrudItem → bool
}.

(** The process: the table, the identifiers in the related tables, the clock and
    the draws. *)
Module Crud.
Record Crud := make {
  items : table CrudItem; others : string → list N; clock : Z; draws : N
}.
#[global] Instance Crud_eta : Eta Crud := λ s, make (items s) (others s) (clock s) (draws s).
End Crud.
Abbreviation Crud := Crud.Crud.

#[export] Instance crud_items : HasTable Crud CrudItem :=
  {| get_table := Crud.items; put_table t s := s <| Crud.items := t |> |}.

Definition crud_read := list (string * crud_value).
Definition payload := list (string * crud_value).
(** [UUID | str] *)
Inductive resource_id := GivenUuid (u : N) | GivenText (s : string).

Section crud.
Context (config : CrudConfig) (uuid4_of : N → N).

#[local] Instance crud_session : Session Crud := {|
  flush_session s :=
    if primary_key (live (Crud.items s)) && crud_constraints config (live (Crud.items s))
    then Some (s <| Crud.items ::= flush_table |>) else None;
  rollback_session s0 s := s <| Crud.items := Crud.items s0 |>
|}.

(** [_identifier] *)
Definition _identifier (value : resource_id) : result N :=
  match value with
  | GivenUuid u => Ok u
  | GivenText s =>
      match parse_uuid s with
      | Some u => Ok u
      | None => Err (ValueError ("invalid UUID resource id: " +:+ repr_str s))
      end
  end.

(** [getattr(item, name)] of a row; [None] where it has no such attribute. *)
Definition related_ids (attr : string) (item : CrudItem) : list N :=
  from_option id [] (dget attr (CrudItem.related item)).
Definition attribute_of (item : CrudItem) (name : string) : option crud_value :=
  if String.eqb name "id" then Some (CrudUuid (CrudItem.id item))
  else if String.eqb name "deleted_at" then
    Some (match CrudItem.deleted_at item with Some t => CrudData (JNum t) | None => CrudNull end)
  else match dget name (relations config) with
       | Some c => Some (CrudUuids (related_ids (attribute c) item))
       | None => dget name (CrudItem.columns item)
       end.
(** [_read]: [model_validate(item, from_attributes=True)] *)
Fixpoint read_attributes (item : CrudItem) (names : list string) : result crud_read :=
  match names with
  | [] => Ok []
  | name :: names =>
      v ← (match attribute_of item name with Some v => Ok v | None => Err ValidationError end);
      l ← read_attributes item names; Ok ((name, v) :: l)
  end.
Definition _read (item : CrudItem) : result crud_read := read_attributes item (read_fields config).

Definition _relation (related_field : string) : result ManyToManyConfig :=
  match dget related_field (relations config) with
  | Some c => Ok c
  | None => Err (ValueError ("unknown relation field: " +:+ related_field))
  end.

(** The values of relations, taken out of the others; [null] stays. *)
Definition relation_value (values : payload) (f : string * ManyToManyConfig) : option (string * list N) :=
  match dget f.1 values with Some (CrudUuids l) => Some (f.1, l) | _ => None end.
Definition _pop_relation_values (values : payload) : list (string * list N) * payload :=
  let taken := omap (relation_value values) (relations config) in
  (taken, foldl (λ d kv, ddel kv.1 d) values taken).

(** [dict.fromkeys(...)]: each once, in order of first occurrence. *)
Definition from_keys (l : list N) : list N :=
  foldl (λ seen u, if bool_decide (u ∈ seen) then seen else seen ++ [u]) [] l.
Definition show_uuids (l : list N) : string :=
  "[" +:+ join ", " (map (λ u, "UUID('" +:+ uuid_str u +:+ "')") l) +:+ "]".
Definition set_related (attr : string) (l : list N) (item : CrudItem) : CrudItem :=
  item <| CrudItem.related ::= dset attr l |>.
Fixpoint _apply_relations (item : CrudItem) (relation_values : list (string * list N)) : M Crud CrudItem :=
  match relation_values with
  | [] => mret item
  | (field_name, identifiers) :: rest =>
      c ← lift (_relation field_name);
      let unique_ids := from_keys identifiers in
      rows ← gets (λ s, Crud.others s (rel_model c));
      let found := List.filter (λ u, bool_decide (u ∈ unique_ids)) rows in
      let missing := List.filter (λ u, negb (bool_decide (u ∈ found))) unique_ids in
      raise_if (negb (Nat.eqb (length found) (length unique_ids)))
        (ValueError (field_name +:+ " references missing ids: " +:+ show_uuids missing));;
      _apply_relations (set_related (attribute c) found item) rest
  end.

(** [setattr(item, name, value)]: a property has no setter, and an attribute that
    is no column is not stored; the constructor refuses what the class has not. *)
Definition set_column (item : CrudItem) (name : string) (v : crud_value) : result CrudItem :=
  if mem_str name (crud_columns config) then Ok (item <| CrudItem.columns ::= dset name v |>)
  else if mem_str name (crud_read_only config) then Err AttributeError else Ok item.
Fixpoint set_columns (item : CrudItem) (values : payload) : result CrudItem :=
  match values with
  | [] => Ok item
  | (name, v) :: values => item' ← set_column item name v; set_columns item' values
  end.
Fixpoint construct (item : CrudItem) (values : payload) : result CrudItem :=
  match values with
  | [] => Ok item
  | (name, v) :: values =>
      item' ← (if mem_str name (crud_columns config) || mem_str name (crud_read_only config)
               then set_column item name v else Err TypeError);
      construct item' values
  end.

(** [session.refresh(item); return self._read(item)], after the commit. *)
Definition refreshed (item_id : N) : M Crud crud_read :=
  item ← deref item_id; lift (_read item).
(** A method that may find no row. *)
Definition commit_and_read (m : M Crud (option N)) : M Crud (option crud_read) :=
  done ← transaction m;
  match done with
  | Some item_id => r ← refreshed item_id; mret (Some r)
  | None => mret None
  end.

(** ** The methods *)
Definition not_removed (include_deleted : bool) (item : CrudItem) : bool :=
  include_deleted || bool_decide (CrudItem.deleted_at item = None).
Definition by_identifier (a b : CrudItem) : bool := N.leb (CrudItem.id a) (CrudItem.id b).

Definition crud_list (include_deleted : bool) : M Crud (list crud_read) :=
  rows ← scalars_ordered by_identifier (not_removed include_deleted); lift (mapM _read rows).

Definition crud_get (item_id : resource_id) : M Crud (option crud_read) :=
  k ← lift (_identifier item_id);
  item ← get (R := CrudItem) k;
  match item with Some i => r ← lift (_read i); mret (Some r) | None => mret None end.

(** The identifier is drawn when the row is written. *)
Definition draw_uuid : M Crud N :=
  λ s, (Ok (uuid4_of (Crud.draws s)), s <| Crud.draws ::= N.succ |>).
Definition crud_create (values : payload) : M Crud crud_read :=
  let '(relation_values, values) := _pop_relation_values values in
  item_id ← transaction (
    item ← lift (construct (CrudItem.make 0 [] [] None) values);
    item ← _apply_relations item relation_values;
    n ← draw_uuid;
    add (item <| CrudItem.id := n |>);; mret n);
  refreshed item_id.

Definition crud_update (item_id : resource_id) (values : payload) : M Crud (option crud_read) :=
  let '(relation_values, values) := _pop_relation_values values in
  commit_and_read (
    k ← lift (_identifier item_id);
    item ← get (R := CrudItem) k;
    match item with
    | None => mret None
    | Some item =>
        item ← lift (set_columns item values);
        item ← _apply_relations item relation_values;
        assign k (λ _, item);; mret (Some k)
    end).

Definition _set_deleted_at (item_id : resource_id) (value : option Z) : M Crud (option crud_read) :=
  commit_and_read (
    k ← lift (_identifier item_id);
    item ← get (R := CrudItem) k;
    match item with
    | None => mret None
    | Some _ => assign k (λ i : CrudItem, i <| CrudItem.deleted_at := value |>);; mret (Some k)
    end).
Definition crud_delete (item_id : resource_id) : M Crud (option crud_read) :=
  now ← gets Crud.clock; _set_deleted_at item_id (Some now).
Definition crud_restore (item_id : resource_id) : M Crud (option crud_read) :=
  _set_deleted_at item_id None.

(** ** Below a parent *)
Definition list_by_parent (parent_field : string) (parent_id : resource_id) (include_deleted : bool)
    : M Crud (list crud_read) :=
  raise_if (negb (mem_str parent_field (crud_columns config))) AttributeError;;
  parent ← lift (_identifier parent_id);
  rows ← scalars (λ i, is_uuid parent (dget parent_field (CrudItem.columns i)) &&
                        not_removed include_deleted i);
  lift (mapM _read rows).
Definition get_by_parent (parent_field : string) (parent_id item_id : resource_id)
    : M Crud (option crud_read) :=
  item ← crud_get item_id;
  match item with
  | None => mret None
  | Some r =>
      parent ← lift (_identifier parent_id);
      mret (if is_uuid parent (dget parent_field r) then Some r else None)
  end.
Definition create_for_parent (parent_field : string) (parent_id : resource_id) (values : payload)
    : M Crud crud_read :=
  parent ← lift (_identifier parent_id); crud_create (dset parent_field (CrudUuid parent) values).
(** [if self.get_by_parent(...) is None: return None] *)
Definition below_parent (parent_field : string) (parent_id item_id : resource_id)
    (m : M Crud (option crud_read)) : M Crud (option crud_read) :=
  item ← get_by_parent parent_field parent_id item_id;
  match item with None => mret None | Some _ => m end.
Definition update_by_parent parent_field parent_id item_id (values : payload) :=
  below_parent parent_field parent_id item_id (crud_update item_id values).
Definition delete_by_parent parent_field parent_id item_id :=
  below_parent parent_field parent_id item_id (crud_delete item_id).
Definition restore_by_parent parent_field parent_id item_id :=
  below_parent parent_field parent_id item_id (crud_restore item_id).

(** ** Relations *)
Definition list_related (item_id : resource_id) (related_field : string) : M Crud (option (list N)) :=
  item ← crud_get item_id;
  mret (match item with
        | None => None
        | Some r => Some (match dget related_field r with Some (CrudUuids l) => l | _ => [] end)
        end).
Definition link_related (item_id : resource_id) (related_field : string) (related_id : resource_id)
    : M Crud (option crud_read) :=
  c ← lift (_relation related_field);
  commit_and_read (
    k ← lift (_identifier item_id);
    item ← get (R := CrudItem) k;
    u ← lift (_identifier related_id);
    rows ← gets (λ s, Crud.others s (rel_model c));
    match item with
    | Some i =>
        if bool_decide (u ∈ rows) then
          let values := related_ids (attribute c) i in
          assign k (λ i, if bool_decide (u ∈ values) then i
                         else set_related (attribute c) (values ++ [u]) i);;
          mret (Some k)
        else mret None
    | None => mret None
    end).
Definition unlink_related (item_id : resource_id) (related_field : string) (related_id : resource_id)
    : M Crud (option crud_read) :=
  c ← lift (_relation related_field);
  commit_and_read (
    k ← lift (_identifier item_id);
    item ← get (R := CrudItem) k;
    match item with
    | None => mret None
    | Some i =>
        u ← lift (_identifier related_id);
        let values := related_ids (attribute c) i in
        assign k (set_related (attribute c) (List.filter (λ v, negb (N.eqb v u)) values));;
        mret (Some k)
    end).

(** ** Endpoints (route_factory.py) *)
Definition found_or_404 (not_found_message : string) (m : M Crud (option crud_read)) : M Crud crud_read :=
  resource ← m; some_or resource (HTTPException 404 not_found_message).
Definition get_resource message (id : string) := found_or_404 message (crud_get (GivenText id)).
Definition update_resource message (id : string) values :=
  found_or_404 message (crud_update (GivenText id) values).
Definition delete_resource message (id : string) := found_or_404 message (crud_delete (GivenText id)).
Definition restore_resource message (id : string) := found_or_404 message (crud_restore (GivenText id)).
End crud.

(** * The rows and their relations *)
Lemma distinct_list_filter {A} (P : A → bool) (l : list A) : NoDup l → NoDup (List.filter P l).
Proof.
  induction 1 as [|x l Hx _ IH]; cbn; [apply NoDup_nil_2|]. destruct (P x); [|done].
  apply NoDup_cons. split; [|done]. rewrite list_elem_of_In, filter_In, <- list_elem_of_In. naive_solver.
Qed.
Lemma in_list_filter {A} (P : A → bool) (l : list A) x : x ∈ List.filter P l → x ∈ l.
Proof. rewrite !list_elem_of_In, filter_In. naive_solver. Qed.

Section facts.
Context (config : CrudConfig) (uuid4_of : N → N).
#[local] Instance facts_session : Session Crud := crud_session config.
Implicit Types (s : Crud) (i : CrudItem).

(** Relations that share an attribute are to the same table. *)
Definition attributes_agree : Prop :=
  ∀ f c f' c', In (f, c) (relations config) → In (f', c') (relations config) →
    attribute c = attribute c' → rel_model c = rel_model c'.
(** What a row is related to exists, and is there once. *)
Definition links_valid (s : Crud) (i : CrudItem) : Prop :=
  ∀ f c, In (f, c) (relations config) →
    NoDup (related_ids (attribute c) i) ∧
    ∀ u, u ∈ related_ids (attribute c) i → u ∈ Crud.others s (rel_model c).
Record crud_inv (s : Crud) : Prop := mkCrudInv {
  crud_clean : clean (Crud.items s);
  crud_distinct : keys_distinct (live (Crud.items s));
  crud_others : ∀ m, NoDup (Crud.others s m);
  crud_links : ∀ i, In i (live (Crud.items s)) → links_valid s i
}.

(** The three ways the rows change. *)
Inductive row_change (s : Crud) : list CrudItem → Prop :=
| no_change : row_change s (live (Crud.items s))
| row_added i : links_valid s i → row_change s (live (Crud.items s) ++ [i])
| row_altered k f :
    (∀ i, In i (live (Crud.items s)) → CrudItem.id i = k → CrudItem.id (f i) = k ∧ links_valid s (f i)) →
    row_change s (alter_rows f k (live (Crud.items s))).
Definition changes (s s' : Crud) : Prop :=
  Crud.others s' = Crud.others s ∧ row_change s (live (Crud.items s')).

Lemma links_others s s' i : Crud.others s' = Crud.others s → links_valid s i → links_valid s' i.
Proof. intros E Hl f c Hin. rewrite E. exact (Hl f c Hin). Qed.
Lemma row_change_links s l : crud_inv s → row_change s l → ∀ i, In i l → links_valid s i.
Proof.
  intros [_ _ _ Hl] [|i0 Hi0|k f Hf] i; [by apply Hl| |].
  - intros [Hin|[<-|[]]]%in_app_iff; [by apply Hl|done].
  - unfold alter_rows. intros (i0 & <- & Hin)%in_map_iff. destruct (has_id k i0) eqn:E; [|by apply Hl].
    apply has_id_true in E. by apply Hf.
Qed.
Lemma row_change_ids s l k : row_change s l →
  In k (map CrudItem.id (live (Crud.items s))) → In k (map CrudItem.id l).
Proof.
  intros [|i0 _|k0 f Hf]; [done| |].
  - rewrite map_app, in_app_iff. by left.
  - unfold alter_rows. rewrite map_map. intros (i & <- & Hin)%in_map_iff. apply in_map_iff. exists i.
    split; [|done]. destruct (has_id k0 i) eqn:E; [|done]. apply has_id_true in E.
    destruct (Hf i Hin E) as [-> _]. symmetry. exact E.
Qed.

(** A session commits one change or none. *)
Definition kept (s s' : Crud) : Prop :=
  crud_inv s' ∧ Crud.others s' = Crud.others s ∧
  ∀ k, In k (map CrudItem.id (live (Crud.items s))) → In k (map CrudItem.id (live (Crud.items s'))).
Lemma kept_same s s' :
  crud_inv s → Crud.others s' = Crud.others s → Crud.items s' = Crud.items s → kept s s'.
Proof.
  intros [Hc Hd Ho Hl] Eo Ei. split_and!; [|done|by rewrite Ei].
  split; rewrite ?Ei; [done|done|by rewrite Eo|]. intros i Hi. apply (links_others s); auto.
Qed.
Lemma transaction_kept {A} (m : M Crud A) s :
  crud_inv s → (∀ a s1, m s = (Ok a, s1) → changes s s1) → (∀ e s1, m s = (Err e, s1) → Crud.others s1 = Crud.others s) →
  kept s (transaction m s).2.
Proof.
  intros Hs Hok Herr. unfold transaction. destruct (m s) as [[a|e] s1] eqn:E; cbn.
  - destruct (Hok _ _ eq_refl) as [Eo Hc]. unfold flush_session. cbn.
    destruct (primary_key _ && _) eqn:Ef; cbn.
    + apply andb_true_iff in Ef as [Hpk%primary_key_distinct _]. split_and!; cbn; [|done|].
      * split; cbn; [done|done|by rewrite Eo; apply Hs|].
        intros i Hi. apply (links_others s); [done|]. by eapply row_change_links.
      * intros k. by apply row_change_ids.
    + by apply kept_same.
  - pose proof (Herr _ _ eq_refl). by apply kept_same.
Qed.

(** Reading changes nothing. *)
Definition quiet {A} (m : M Crud A) : Prop := preserves (same (λ s : Crud, s)) m.
Lemma quiet_state {A} (m : M Crud A) s r s' : quiet m → m s = (r, s') → s' = s.
Proof. intros Hm. exact (preserves_run _ _ _ _ _ Hm). Qed.
Lemma apply_quiet i values : quiet (_apply_relations config i values).
Proof.
  unfold quiet. revert i. induction values as [|[f l] values IH]; intros i; cbn [_apply_relations]; [preserve|].
  preserve.
Qed.
Lemma refreshed_quiet k : quiet (refreshed config k).
Proof. unfold quiet, refreshed. preserve. Qed.
Lemma get_quiet k : quiet (crud_get config k).
Proof. unfold quiet, crud_get. preserve. Qed.

(** ** What is set is valid *)
Lemma from_keys_spec l :
  NoDup (from_keys l) ∧ ∀ u, u ∈ from_keys l ↔ u ∈ l.
Proof.
  unfold from_keys.
  enough (Hg : ∀ seen, NoDup seen →
    NoDup (foldl (λ seen u, if bool_decide (u ∈ seen) then seen else seen ++ [u]) seen l) ∧
    ∀ u, u ∈ foldl (λ seen u, if bool_decide (u ∈ seen) then seen else seen ++ [u]) seen l ↔ u ∈ seen ∨ u ∈ l).
  { destruct (Hg [] (NoDup_nil_2)) as [Hn He]. split; [done|]. intros u. rewrite He. set_solver. }
  induction l as [|x l IH]; intros seen Hs; cbn [foldl]; [split; [done|set_solver]|].
  case_bool_decide as E; [destruct (IH seen Hs) as [Hn He]|destruct (IH (seen ++ [x])) as [Hn He]].
  - split; [done|]. intros u. rewrite He. set_solver.
  - apply NoDup_app. split_and!; [done|set_solver|apply NoDup_singleton].
  - split; [done|]. intros u. rewrite He. set_solver.
Qed.

Lemma related_set attr l attr' i :
  related_ids attr' (set_related attr l i) = if String.eqb attr' attr then l else related_ids attr' i.
Proof.
  unfold related_ids, set_related. cbn. destruct (String.eqb_spec attr' attr) as [->|Hne].
  - by rewrite dget_set.
  - by rewrite dget_set_ne.
Qed.
Lemma links_set s i f c l :
  attributes_agree → In (f, c) (relations config) → links_valid s i → NoDup l →
  (∀ u, u ∈ l → u ∈ Crud.others s (rel_model c)) → links_valid s (set_related (attribute c) l i).
Proof.
  intros Ha Hin Hi Hn Hl f' c' Hin'. rewrite related_set.
  destruct (String.eqb_spec (attribute c') (attribute c)) as [E|_]; [|by apply (Hi f' c')].
  rewrite (Ha f' c' f c Hin' Hin E). done.
Qed.
Lemma apply_valid s i values i' s' :
  attributes_agree → (∀ m, NoDup (Crud.others s m)) → links_valid s i →
  _apply_relations config i values s = (Ok i', s') → links_valid s i' ∧ CrudItem.id i' = CrudItem.id i.
Proof.
  intros Ha Ho. revert i. induction values as [|[f l] values IH]; intros i Hi; cbn [_apply_relations].
  { by intros [= <- _]. }
  intros (c & s1 & Hc & Hrun)%bind_ok. apply lift_ok in Hc as [Hc ->].
  unfold _relation in Hc. destruct (dget f (relations config)) as [c'|] eqn:Ef; [|done]. injection Hc as ->.
  apply dget_in in Ef.
  apply bind_ok in Hrun as (rows & s2 & [-> ->]%gets_ok & Hrun). cbv zeta in Hrun.
  apply bind_ok in Hrun as (u & s3 & [_ ->]%raise_if_ok & Hrun).
  destruct (IH _ (links_set s i f c _ Ha Ef Hi (distinct_list_filter _ _ (Ho _)) (in_list_filter _ _)) Hrun) as [Hv E].
  by split; [|rewrite E].
Qed.

(** Columns do not touch relations. *)
Definition same_links i i' : Prop := CrudItem.related i' = CrudItem.related i ∧ CrudItem.id i' = CrudItem.id i.
Lemma set_column_links i name v i' : set_column config i name v = Ok i' → same_links i i'.
Proof. unfold set_column, same_links. repeat case_match; by intros [= <-]. Qed.
Lemma set_columns_links values i i' : set_columns config i values = Ok i' → same_links i i'.
Proof.
  revert i. induction values as [|[name v] values IH]; intros i; cbn [set_columns]; [by intros [= <-]|].
  intros (i1 & [E1 E2]%set_column_links & [E3 E4]%IH)%result_bind_ok. split; congruence.
Qed.
Lemma construct_links values i i' : construct config i values = Ok i' → same_links i i'.
Proof.
  revert i. induction values as [|[name v] values IH]; intros i; cbn [construct]; [by intros [= <-]|].
  intros (i1 & H1 & [E3 E4]%IH)%result_bind_ok. destruct (_ || _); [|done].
  apply set_column_links in H1 as [E1 E2]. split; congruence.
Qed.
Lemma links_same s i i' : same_links i i' → links_valid s i → links_valid s i'.
Proof.
  intros [E _] Hl f c Hin. unfold related_ids. rewrite E. exact (Hl f c Hin).
Qed.
Lemma links_empty s i : CrudItem.related i = [] → links_valid s i.
Proof.
  intros E f c _. unfold related_ids. rewrite E. split; [apply NoDup_nil_2|]. intros u Hu. by apply elem_of_nil in Hu.
Qed.

(** ** The methods keep the rows *)
Lemma get_found s k item s' :
  crud_inv s → get (R := CrudItem) k s = (Ok (Some item), s') →
  s' = s ∧ In item (live (Crud.items s)) ∧ CrudItem.id item = k.
Proof.
  intros Hs Hrun. apply gets_ok in Hrun as [E ->]. unfold get_table, crud_items in E.
  rewrite get_row_clean in E by apply Hs. symmetry in E. apply find_row_some in E. done.
Qed.
Lemma assigned s k f s' u :
  crud_inv s →
  (∀ i, In i (live (Crud.items s)) → CrudItem.id i = k → CrudItem.id (f i) = k ∧ links_valid s (f i)) →
  assign (R := CrudItem) k f s = (Ok u, s') → changes s s'.
Proof. intros Hs Hf ->%modify_ok. split; [done|]. by constructor. Qed.
Lemma found_once s k i i' :
  crud_inv s → In i (live (Crud.items s)) → CrudItem.id i = k → In i' (live (Crud.items s)) →
  CrudItem.id i' = k → i' = i.
Proof.
  intros Hs Hi <- Hi' E. pose proof (find_row_in _ _ (crud_distinct _ Hs) Hi) as F.
  pose proof (find_row_in _ _ (crud_distinct _ Hs) Hi') as F'. unfold ent_id, CrudItem.CrudItem_entity in *.
  rewrite E, F in F'. congruence.
Qed.

Lemma commit_kept (m : M Crud (option N)) s :
  crud_inv s → (∀ a s1, m s = (Ok a, s1) → changes s s1) →
  (∀ e s1, m s = (Err e, s1) → Crud.others s1 = Crud.others s) →
  kept s (commit_and_read config m s).2.
Proof.
  intros Hs Hok Herr. pose proof (transaction_kept m s Hs Hok Herr) as Hk. unfold commit_and_read.
  destruct (transaction m s) as [[[k|]|e] s1] eqn:E; cbn in Hk.
  - rewrite (bind_step_ok _ _ _ _ _ E).
    destruct (refreshed config k s1) as [r s2] eqn:Er. pose proof (quiet_state _ _ _ _ (refreshed_quiet k) Er) as ->.
    unfold mbind, M_bind. rewrite Er. by destruct r.
  - by rewrite (bind_step_ok _ _ _ _ _ E).
  - by rewrite (bind_step_err _ _ _ _ _ E).
Qed.

Lemma update_kept k values s :
  attributes_agree → crud_inv s → kept s (crud_update config k values s).2.
Proof.
  intros Ha Hs. unfold crud_update. destruct (_pop_relation_values config values) as [taken columns].
  apply commit_kept; [done| |].
  - intros a s1 (k' & s2 & [_ ->]%lift_ok & Hrun)%bind_ok.
    apply bind_ok in Hrun as ([item|] & s3 & Hget & Hrun).
    2:{ apply gets_ok in Hget as [_ ->]. injection Hrun as _ <-. split; [done|constructor]. }
    apply get_found in Hget as (-> & Hin & Ek); [|done].
    apply bind_ok in Hrun as (item1 & s4 & [Hc ->]%lift_ok & Hrun).
    apply bind_ok in Hrun as (item2 & s5 & Hrel & Hrun).
    pose proof (quiet_state _ _ _ _ (apply_quiet _ _) Hrel) as ->. apply set_columns_links in Hc.
    apply apply_valid in Hrel as [Hv Eid]; [|done|by apply Hs|by apply (links_same s item); [|apply Hs]].
    apply bind_ok in Hrun as (u & s6 & Hassign & [= _ <-]). eapply assigned; [done| |exact Hassign].
    intros i _ _. split; [|done]. destruct Hc as [_ Ec]. congruence.
  - intros e s1 Hrun. apply (preserves_run (same Crud.others)) in Hrun; [exact Hrun|].
    preserve; [|by apply preserves_modify].
    apply (preserves_mono (same (λ s : Crud, s))); [by intros x y ->|apply apply_quiet].
Qed.

(** The methods that find a row, may read a little more, and change the row. *)
Lemma found_kept (k : resource_id) (m : N → CrudItem → M Crud (option N)) s :
  crud_inv s →
  (∀ k item s1 a, In item (live (Crud.items s)) → CrudItem.id item = k → m k item s = (Ok a, s1) → changes s s1) →
  (∀ k item, preserves (same Crud.others) (m k item)) →
  kept s (commit_and_read config (
    k ← lift (_identifier k); item ← get (R := CrudItem) k;
    match item with None => mret None | Some item => m k item end) s).2.
Proof.
  intros Hs Hok Hquiet. apply commit_kept; [done| |].
  - intros a s1 (k' & s2 & [_ ->]%lift_ok & Hrun)%bind_ok.
    apply bind_ok in Hrun as ([item|] & s3 & Hget & Hrun).
    2:{ apply gets_ok in Hget as [_ ->]. injection Hrun as _ <-. split; [done|constructor]. }
    apply get_found in Hget as (-> & Hin & Ek); [|done]. by eapply Hok.
  - intros e s1 Hrun. apply (preserves_run (same Crud.others)) in Hrun; [exact Hrun|]. preserve.
Qed.

Lemma set_deleted_kept k value s : crud_inv s → kept s (_set_deleted_at config k value s).2.
Proof.
  intros Hs. unfold _set_deleted_at.
  apply (found_kept k (λ k _, assign k (λ i : CrudItem, i <| CrudItem.deleted_at := value |>);; mret (Some k)));
    [done| |intros; preserve; by apply preserves_modify].
  intros k' item s1 a _ _ (u & s2 & Ha & [= _ <-])%bind_ok. eapply assigned; [done| |exact Ha].
  intros i Hi E. split; [exact E|]. by apply (links_same s i); [|apply Hs].
Qed.

Lemma unlink_kept k f r s : attributes_agree → crud_inv s → kept s (unlink_related config k f r s).2.
Proof.
  intros Ha Hs. unfold unlink_related, _relation. destruct (dget f (relations config)) as [c|] eqn:Ef; [|by apply kept_same].
  rewrite (bind_step_ok _ _ s c s) by done. apply dget_in in Ef.
  apply (found_kept k (λ k i,
    u ← lift (_identifier r);
    assign k (set_related (attribute c) (List.filter (λ v, negb (N.eqb v u)) (related_ids (attribute c) i)));;
    mret (Some k))); [done| |intros; preserve; by apply preserves_modify].
  intros k' item s1 a Hin Eid (u & s2 & [_ ->]%lift_ok & Hrun)%bind_ok.
  apply bind_ok in Hrun as (u1 & s3 & Hassign & [= _ <-]). eapply assigned; [done| |exact Hassign].
  intros i Hi E. split; [exact E|]. destruct (crud_links _ Hs item Hin f c Ef) as [Hn He].
  apply (links_set s i f); [done|done|by apply Hs|by apply distinct_list_filter|].
  intros v Hv%in_list_filter. by apply He.
Qed.

Lemma link_kept k f r s : attributes_agree → crud_inv s → kept s (link_related config k f r s).2.
Proof.
  intros Ha Hs. unfold link_related, _relation. destruct (dget f (relations config)) as [c|] eqn:Ef; [|by apply kept_same].
  rewrite (bind_step_ok _ _ s c s) by done. apply dget_in in Ef.
  apply commit_kept; [done| |].
  2:{ intros e s1 Hrun. apply (preserves_run (same Crud.others)) in Hrun; [exact Hrun|].
      preserve; by apply preserves_modify. }
  intros a s1 (k' & s2 & [_ ->]%lift_ok & Hrun)%bind_ok.
  apply bind_ok in Hrun as (found & s3 & Hget & Hrun).
  apply bind_ok in Hrun as (u & s4 & [_ ->]%lift_ok & Hrun).
  apply bind_ok in Hrun as (rows & s5 & [-> ->]%gets_ok & Hrun).
  assert (s3 = s) as -> by by apply gets_ok in Hget as [_ ->].
  destruct found as [item|]; [|injection Hrun as _ <-; split; [done|constructor]].
  apply get_found in Hget as (_ & Hin & Ek); [|done].
  case_bool_decide as Hu; [|injection Hrun as _ <-; split; [done|constructor]].
  apply bind_ok in Hrun as (u1 & s6 & Hassign & [= _ <-]). eapply assigned; [done| |exact Hassign].
  intros i Hi E. case_bool_decide as Hmem; [split; [done|by apply Hs]|]. split; [exact E|].
  destruct (crud_links _ Hs item Hin f c Ef) as [Hn He].
  apply (links_set s i f); [done|done|by apply Hs| |].
  - apply NoDup_app. split_and!; [done|set_solver|apply NoDup_singleton].
  - intros v [Hv|Hv]%elem_of_app; [by apply He|]. by apply list_elem_of_singleton in Hv as ->.
Qed.

Lemma create_kept values s : attributes_agree → crud_inv s → kept s (crud_create config uuid4_of values s).2.
Proof.
  intros Ha Hs. unfold crud_create. destruct (_pop_relation_values config values) as [taken columns].
  match goal with |- context [transaction ?m] => assert (Hk : kept s (transaction m s).2) end.
  { apply transaction_kept; [done| |].
    - intros n s1 (item & s2 & [Hc ->]%lift_ok & Hrun)%bind_ok.
      apply bind_ok in Hrun as (item1 & s3 & Hrel & Hrun).
      pose proof (quiet_state _ _ _ _ (apply_quiet _ _) Hrel) as ->. apply construct_links in Hc.
      apply apply_valid in Hrel as [Hv _]; [|done|by apply Hs|by apply links_empty; destruct Hc as [-> _]].
      apply bind_ok in Hrun as (n' & s4 & [= <- <-] & Hrun).
      apply bind_ok in Hrun as (u & s5 & Hadd & [= _ <-]). apply modify_ok in Hadd as ->. split; [done|].
      refine (row_added s (item1 <| CrudItem.id := _ |>) _). exact Hv.
    - intros e s1 Hrun. apply (preserves_run (same Crud.others)) in Hrun; [exact Hrun|]. unfold draw_uuid.
      preserve; [| |by apply preserves_modify]; [|by intros x].
      apply (preserves_mono (same (λ s : Crud, s))); [by intros x y ->|apply apply_quiet]. }
  match goal with |- context [transaction ?m] => destruct (transaction m s) as [[n|e] s1] eqn:E end; cbn in Hk.
  - rewrite (bind_step_ok _ _ _ _ _ E). destruct (refreshed config n s1) as [r s2] eqn:Er.
    by pose proof (quiet_state _ _ _ _ (refreshed_quiet n) Er) as ->.
  - by rewrite (bind_step_err _ _ _ _ _ E).
Qed.

(** ** Histories of calls *)
Inductive crud_call :=
| CallList (include_deleted : bool)
| CallGet (id : resource_id)
| CallCreate (values : payload)
| CallUpdate (id : resource_id) (values : payload)
| CallDelete (id : resource_id)
| CallRestore (id : resource_id)
| CallListByParent (field : string) (parent : resource_id) (include_deleted : bool)
| CallGetByParent (field : string) (parent id : resource_id)
| CallCreateForParent (field : string) (parent : resource_id) (values : payload)
| CallUpdateByParent (field : string) (parent id : resource_id) (values : payload)
| CallDeleteByParent (field : string) (parent id : resource_id)
| CallRestoreByParent (field : string) (parent id : resource_id)
| CallListRelated (id : resource_id) (field : string)
| CallLink (id : resource_id) (field : string) (related_id : resource_id)
| CallUnlink (id : resource_id) (field : string) (related_id : resource_id).
Definition crud_serve (c : crud_call) (s : Crud) : Crud :=
  match c with
  | CallList b => (crud_list config b s).2
  | CallGet k => (crud_get config k s).2
  | CallCreate values => (crud_create config uuid4_of values s).2
  | CallUpdate k values => (crud_update config k values s).2
  | CallDelete k => (crud_delete config k s).2
  | CallRestore k => (crud_restore config k s).2
  | CallListByParent f p b => (list_by_parent config f p b s).2
  | CallGetByParent f p k => (get_by_parent config f p k s).2
  | CallCreateForParent f p values => (create_for_parent config uuid4_of f p values s).2
  | CallUpdateByParent f p k values => (update_by_parent config f p k values s).2
  | CallDeleteByParent f p k => (delete_by_parent config f p k s).2
  | CallRestoreByParent f p k => (restore_by_parent config f p k s).2
  | CallListRelated k f => (list_related config k f s).2
  | CallLink k f r => (link_related config k f r s).2
  | CallUnlink k f r => (unlink_related config k f r s).2
  end.

Lemma quiet_kept {A} (m : M Crud A) s : crud_inv s → quiet m → kept s (m s).2.
Proof. intros Hs Hm. pose proof (Hm s) as E. unfold same in E. rewrite E. by apply kept_same. Qed.
Lemma by_parent_quiet f p k : quiet (get_by_parent config f p k).
Proof.
  unfold get_by_parent. apply preserves_bind; [apply _|apply get_quiet|intros item]. preserve.
Qed.
Lemma below_kept f p k m s :
  crud_inv s → kept s (m s).2 → kept s (below_parent config f p k m s).2.
Proof.
  intros Hs Hm. unfold below_parent. destruct (get_by_parent config f p k s) as [[[r|]|e] s1] eqn:E;
    pose proof (quiet_state _ _ _ _ (by_parent_quiet f p k) E) as ->.
  - by rewrite (bind_step_ok _ _ _ _ _ E).
  - rewrite (bind_step_ok _ _ _ _ _ E). by apply kept_same.
  - rewrite (bind_step_err _ _ _ _ _ E). by apply kept_same.
Qed.
Lemma delete_kept k s : crud_inv s → kept s (crud_delete config k s).2.
Proof.
  intros Hs. unfold crud_delete. rewrite (bind_step_ok _ _ s (Crud.clock s) s) by done.
  by apply set_deleted_kept.
Qed.
Lemma restore_kept k s : crud_inv s → kept s (crud_restore config k s).2.
Proof. apply set_deleted_kept. Qed.
Lemma serve_kept c s : attributes_agree → crud_inv s → kept s (crud_serve c s).
Proof.
  intros Ha Hs. destruct c; cbn [crud_serve].
  - apply quiet_kept; [done|]. unfold quiet, crud_list. preserve.
  - apply quiet_kept; [done|apply get_quiet].
  - by apply create_kept.
  - by apply update_kept.
  - by apply delete_kept.
  - by apply restore_kept.
  - apply quiet_kept; [done|]. unfold quiet, list_by_parent. preserve.
  - apply quiet_kept; [done|apply by_parent_quiet].
  - unfold create_for_parent. destruct (_identifier parent) as [u|e]; [|by apply kept_same].
    rewrite (bind_step_ok _ _ s u s) by done. by apply create_kept.
  - by apply below_kept, update_kept.
  - by apply below_kept, delete_kept.
  - by apply below_kept, restore_kept.
  - apply quiet_kept; [done|]. apply preserves_bind; [apply _|apply get_quiet|intros item]. preserve.
  - by apply link_kept.
  - by apply unlink_kept.
Qed.

(** C21: the generic CRUD service keeps its rows and their relations sound: over any
    sequence of calls, whatever their arguments and however they end, identifiers
    stay distinct, no row is lost (deletion only marks it), and what a row is
    related to exists in the related table and is there once. *)
Theorem relations_stay_valid calls s :
  attributes_agree → crud_inv s →
  let s' := foldl (λ s c, crud_serve c s) s calls in
  crud_inv s' ∧ Crud.others s' = Crud.others s ∧
  ∀ k, In k (map CrudItem.id (live (Crud.items s))) → In k (map CrudItem.id (live (Crud.items s'))).
Proof.
  intros Ha Hs. revert s Hs. induction calls as [|c calls IH]; intros s Hs; cbn; [by split_and!|].
  destruct (serve_kept c s Ha Hs) as (H1 & Eo1 & K1). destruct (IH _ H1) as (H2 & Eo2 & K2).
  split_and!; [done|congruence|]. intros k Hk. by apply K2, K1.
Qed.
End facts.

(** ** A service with a relation *)
Module CrudExample.
Definition config : CrudConfig :=
  mkCrudConfig ["name"; "code"; "project_id"] ["tag_ids"] ["id"; "name"; "project_id"; "tag_ids"; "deleted_at"]
    [("tag_ids", mkManyToManyConfig "tags" "tags")]
    (unique_on (λ i, match dget "code" (CrudItem.columns i) with
                     | Some (CrudData (JStr code)) => Some code
                     | _ => None
                     end)).
Definition start : Crud := Crud.make empty_table (λ _, [7; 8]%N) 5 0.
Definition uuid4_of (n : N) : N := (100 + n)%N.
Definition task : payload :=
  [("name", CrudData (JStr "Task")); ("code", CrudData (JStr "t")); ("project_id", CrudUuid 1);
   ("tag_ids", CrudUuids [8; 8]%N)].
Definition calls : list crud_call :=
  [CallCreate task; CallLink (GivenUuid 100) "tag_ids" (GivenUuid 7);
   CallLink (GivenUuid 100) "tag_ids" (GivenUuid 9); CallDelete (GivenText (uuid_str 100));
   CallUpdateByParent "project_id" (GivenUuid 2) (GivenUuid 100) [("name", CrudData (JStr "Other"))];
   CallRestore (GivenUuid 100); CallUpdate (GivenUuid 100) [("tag_ids", CrudNull)]].
Definition finished : Crud := foldl (λ s c, crud_serve config uuid4_of c s) start calls.

Example what_is_left :
  live (Crud.items finished) =
    [CrudItem.make 100 (take 3 task) [("tags", [8; 7]%N)] None].
Proof. vm_compute. reflexivity. Qed.
(** [null] for a relation is no value to take out, and the property has no setter. *)
Example null_relation :
  (crud_update config (GivenUuid 100) [("tag_ids", CrudNull)] finished).1 = Err AttributeError ∧
  (crud_create config uuid4_of [("tag_ids", CrudUuids [9]%N)] finished).1
    = Err (ValueError ("tag_ids references missing ids: [UUID('" +:+ uuid_str 9 +:+ "')]")).
Proof. split; vm_compute; reflexivity. Qed.

Lemma crud_start_inv : crud_inv config start.
Proof.
  split; [done|apply NoDup_nil_2| |by intros i []]. intros m.
  apply (bool_decide_unpack _). vm_compute. done.
Qed.
Lemma relations_stay_valid_witness : crud_inv config finished.
Proof.
  refine (proj1 (relations_stay_valid config uuid4_of calls start _ crud_start_inv)).
  intros f c f' c' [[= <- <-]|[]] [[= <- <-]|[]]. reflexivity.
Defined.
End CrudExample.
