(* ===== verification/DomainGenerator.v ===== *)
(** * The generator of domains (relational_domain.py, domain_generator.py)

    An administrator of core_api adds a CRUD domain to the project: the generator
    writes the source files of the domain, with relational persistence also the
    migration that creates its tables, and registers its router and its entity.

    The project is a dictionary from the paths of its files to their texts;
    directories are not represented.  [ast.parse] is a field of the class
    [PythonParser], over the nodes the source inspects. *)

From S2P Require Import Prelude.
From S2P Require Import PyText.
From S2P Require Import Json.
From S2P Require Import Http.
From S2P Require Import Orm.

Local Open Scope Z_scope.

(** ** Texts *)
Definition newline : ascii := ascii_of_N 10.
Definition nl : string := text [newline].
(** A literal text of the source, with [^] for its double quotes. *)
Definition q (s : string) : string := replace_char "^" dquote s.
Definition rstrip (s : string) : string := rstrip_by is_space s.
Definition lstrip (s : string) : string := lstrip_by is_space s.
(** [chr(10).join(lines)] *)
Definition join_lines (lines : list string) : string := join nl lines.
Definition lines_of (s : string) : list string := map text (split_char newline (chars s)).
(** [repr] of an optional text. *)
Definition repr_opt (o : option string) : string := from_option repr_str "None" o.

(** [s.replace(w, r)] for a non-empty word [w]. *)
Fixpoint replace_word_from (w r : string) (skip : nat) (s : string) : string :=
  match s with
  | EmptyString => EmptyString
  | String.String c s' =>
      match skip with
      | S k => replace_word_from w r k s'
      | O =>
          if String.prefix w s then r +:+ replace_word_from w r (String.length w - 1) s'
          else String.String c (replace_word_from w r 0 s')
      end
  end.
Definition replace_word (w r s : string) : string := replace_word_from w r 0 s.

(** [s.title()]: a letter after a letter is lower case, another is upper case. *)
Fixpoint title_from (after_letter : bool) (l : list ascii) : list ascii :=
  match l with
  | [] => []
  | c :: cs => (if after_letter then lower_char c else upper_char c) :: title_from (is_alpha c) cs
  end.
Definition title (s : string) : string := text (title_from false (chars s)).

(** [textwrap.dedent]: lines of blanks and tabs become empty; the longest common
    start of the other lines' indentations is removed. *)
Definition is_blank (c : ascii) : bool := Ascii.eqb c " " || N.eqb (N_of_ascii c) 9.
Fixpoint take_while {A} (p : A → bool) (l : list A) : list A :=
  match l with
  | [] => []
  | x :: xs => if p x then x :: take_while p xs else []
  end.
Fixpoint common_prefix (a b : list ascii) : list ascii :=
  match a, b with
  | x :: a', y :: b' => if Ascii.eqb x y then x :: common_prefix a' b' else []
  | _, _ => []
  end.
Definition margin_of (lines : list (list ascii)) : list ascii :=
  let indents := map (take_while is_blank) (List.filter (λ l, negb (forallb is_blank l)) lines) in
  match indents with [] => [] | i :: rest => foldl common_prefix i rest end.
Definition remove_margin (margin line : list ascii) : list ascii :=
  if starts_with (text margin) (text line) then skipn (length margin) line else line.
Definition dedent (source : string) : string :=
  let lines := map (λ l, if forallb is_blank l then [] else l) (split_char newline (chars source)) in
  join_lines (map (λ l, text (remove_margin (margin_of lines) l)) lines).

(** [sorted(set(...))] *)
Definition sorted_set (l : list string) : list string := order_by String.leb (remove_dups l).
(** [dict.fromkeys(...)]: each once, in order of first occurrence. *)
Definition each_once (l : list string) : list string :=
  foldl (λ seen x, if mem_str x seen then seen else seen ++ [x]) [] l.

(** ** Names *)
(** [SNAKE_CASE_PATTERN], on a text that does not end in a line break. *)
Definition snake_char (c : ascii) : bool :=
  (is_alpha c && Ascii.eqb (lower_char c) c) || is_digit c || Ascii.eqb c "_".
Definition snake_case (s : string) : bool :=
  match chars s with
  | [] => false
  | c :: cs => is_alpha c && Ascii.eqb (lower_char c) c && forallb snake_char cs
  end.

(** The two modules have this function, each with its own error. *)
Definition _normalize_snake (error : string → exn) (value label : string) : result string :=
  let normalized := lower (replace_char "-" "_" (strip value)) in
  if negb (snake_case normalized) then
    Err (error (label +:+ " must use snake_case: " +:+ repr_str value))
  else Ok normalized.

(** [value[:-n]] *)
Definition drop_last (n : nat) (s : string) : string := take_str (String.length s - n) s.
Definition _singular (value : string) : string :=
  if ends_with "ies" value && Nat.ltb 3 (String.length value) then drop_last 3 value +:+ "y"
  else if ends_with "ves" value && Nat.ltb 3 (String.length value) then drop_last 3 value +:+ "f"
  else if ends_with "s" value && Nat.ltb 1 (String.length value) then drop_last 1 value
  else value.

Definition _class_name (value : string) : string :=
  remove_char " " (title (replace_char "_" " " value)).
Definition _clean (source : string) : string := lstrip (dedent source).
(** [name.replace("_", "-")] *)
Definition tag_of (name : string) : string := replace_char "_" "-" name.
Definition _association_table (domain_name related_domain : string) : string :=
  join "_" (order_by String.leb [domain_name; related_domain]).

(** ** The project *)
Definition Project := list (string * string).
Definition path_exists (p : string) (s : Project) : bool :=
  match dget p s with Some _ => true | None => false end.
Definition read_text (p : string) : M Project string := λ s,
  match dget p s with Some t => (Ok t, s) | None => (Err (FileNotFoundError p), s) end.
Definition write_text (p content : string) : M Project unit := modify (dset p content).

(** ** Migrations (relational_domain.py) *)
Record MigrationState := mkMigrationState {
  revision_of : string; down_revision_of : option string; tables_of : list string
}.

(** A node of a syntax tree: what it is, and its children in the order of its
    fields.  [Assign n] has [n] targets before its value, [AnnAssign] a target, an
    annotation and, when it is true, a value; [Call n] its function before its [n]
    arguments and its keywords; [Display] is a display or a signed number, which
    [ast.literal_eval] reads from its children. *)
Inductive py_value := VStr (s : string) | VNone | VOther.
Inductive py_kind :=
| Name (id : string)
| Attribute (attr : string)
| Call (args : nat)
| Constant (v : py_value)
| Display
| Assign (targets : nat)
| AnnAssign (has_value : bool)
| OtherNode.
Inductive py_node := Node (kind : py_kind) (children : list py_node).

Class PythonParser := {
  (** The body of the module, or the text of the [SyntaxError]. *)
  ast_parse : string → string + list py_node
}.

Definition kind_of (n : py_node) : py_kind := match n with Node k _ => k end.
Definition children_of (n : py_node) : list py_node := match n with Node _ l => l end.

(** [ast.walk]: level by level. *)
Fixpoint zip_levels (a b : list (list py_node)) : list (list py_node) :=
  match a, b with
  | x :: a', y :: b' => (x ++ y) :: zip_levels a' b'
  | [], _ => b
  | _, [] => a
  end.
Fixpoint levels (n : py_node) : list (list py_node) :=
  match n with
  | Node _ children => [n] :: foldr zip_levels [] (map levels children)
  end.
Definition walk (n : py_node) : list py_node := concat (levels n).

Fixpoint literal_eval (n : py_node) : result py_value :=
  match n with
  | Node (Constant v) _ => Ok v
  | Node Display l =>
      if forallb (λ c, is_ok (literal_eval c)) l then Ok VOther else Err (ValueError "malformed node or string")
  | _ => Err (ValueError "malformed node or string")
  end.

(** [None] stands for the [...] of the source. *)
Definition _assignment_value (node : py_node) (name : string) : result (option py_value) :=
  match node with
  | Node (Assign 1) [Node (Name id) _; value]
  | Node (AnnAssign true) [Node (Name id) _; _; value] =>
      if String.eqb id name then v ← literal_eval value; Ok (Some v) else Ok None
  | _ => Ok None
  end.

(** [op.create_table(...)] with an argument: that argument. *)
Definition created_table (child : py_node) : option py_node :=
  match child with
  | Node (Call (S _)) (Node (Attribute attr) [Node (Name id) _] :: arg :: _) =>
      if String.eqb id "op" && String.eqb attr "create_table" then Some arg else None
  | _ => None
  end.
Fixpoint read_tables (nodes : list py_node) : result (list string) :=
  match nodes with
  | [] => Ok []
  | arg :: rest =>
      v ← literal_eval arg;
      tables ← read_tables rest;
      Ok (match v with VStr t => t :: tables | _ => tables end)
  end.

(** The loop over the statements of the module. *)
Fixpoint read_body (path : string) (body : list py_node) (revision down_revision : option string)
    (tables : list string) : result (option string * option string * list string) :=
  match body with
  | [] => Ok (revision, down_revision, tables)
  | node :: rest =>
      revision_value ← _assignment_value node "revision";
      let revision := match revision_value with
                      | Some (VStr s) => Some s
                      | Some _ => None
                      | None => revision
                      end in
      down_revision_value ← _assignment_value node "down_revision";
      down_revision ← match down_revision_value with
                      | Some (VStr s) => Ok (Some s)
                      | Some VNone => Ok None
                      | Some VOther => Err (RelationalDomainError
                          ("down_revision must be a string or None in " +:+ path))
                      | None => Ok down_revision
                      end;
      found ← read_tables (omap created_table (walk node));
      read_body path rest revision down_revision (tables ++ found)
  end.

Section migrations.
Context `{PythonParser}.

Definition _read_migration (path content : string) : result MigrationState :=
  match ast_parse content with
  | inl exc => Err (RelationalDomainError
      ("cannot inspect Core migration " +:+ path +:+ ": " +:+ exc))
  | inr body =>
      r ← read_body path body None None [];
      match r with
      | (Some revision, down_revision, tables) => Ok (mkMigrationState revision down_revision tables)
      | _ => Err (RelationalDomainError ("Core migration does not define revision: " +:+ path))
      end
  end.

Definition versions_dir (project_root : string) : string :=
  project_root +:+ "/apps/core_api/alembic/versions/".
(** [versions.glob("*.py")] *)
Definition in_versions (project_root p : string) : bool :=
  starts_with (versions_dir project_root) p &&
  let name := text (skipn (String.length (versions_dir project_root)) (chars p)) in
  ends_with ".py" name && negb (existsb (Ascii.eqb "/") (chars name)) &&
  negb (String.eqb name "__init__.py").
Definition migration_files (project_root : string) (s : Project) : list (string * string) :=
  order_by (λ a b, String.leb a.1 b.1) (List.filter (λ f, in_versions project_root f.1) s).
Fixpoint read_migrations (files : list (string * string)) : result (list MigrationState) :=
  match files with
  | [] => Ok []
  | (path, content) :: rest =>
      state ← _read_migration path content;
      states ← read_migrations rest;
      Ok (state :: states)
  end.
Definition _migration_states (project_root : string) (s : Project) : result (list MigrationState) :=
  read_migrations (migration_files project_root s).

(** [f"{n:04d}"] *)
Definition four_digits (n : nat) : string :=
  let digits := show_Z (Z.of_nat n) in
  String.concat "" (repeat "0" (4 - String.length digits)) +:+ digits.
Definition not_in (l l' : list string) : list string :=
  List.filter (λ x, negb (mem_str x l')) l.
Definition both_in (l l' : list string) : list string := List.filter (λ x, mem_str x l') l.

Definition _next_migration (project_root domain_name : string)
    (required_tables created_tables : list string) (s : Project)
    : result (string * string * option string) :=
  states ← _migration_states project_root s;
  let existing_tables := concat (map tables_of states) in
  let missing := sorted_set (not_in required_tables existing_tables) in
  if negb (bool_decide (missing = [])) then Err (RelationalDomainError
    ("relational domain references tables without a Core migration: " +:+ join ", " missing +:+
     "; generate those domains in relational mode first"))
  else
  let duplicates := sorted_set (both_in created_tables existing_tables) in
  if negb (bool_decide (duplicates = [])) then Err (RelationalDomainError
    ("Core migrations already create table(s): " +:+ join ", " duplicates))
  else
  let revisions := map revision_of states in
  let referenced := omap down_revision_of states in
  let heads := sorted_set (not_in revisions referenced) in
  if Nat.ltb 1 (length heads) then Err (RelationalDomainError
    ("Core Alembic has multiple heads: " +:+ join ", " heads))
  else
  let revision := four_digits (length states + 1) +:+ "_" +:+ domain_name +:+ "_relational" in
  Ok (versions_dir project_root +:+ revision +:+ ".py", revision, head heads).
End migrations.

(** ** The texts of the files *)
Definition when_some {A B} (o : option A) (f : A → list B) : list B := from_option f [] o.

Section sources.
Implicit Types domain_name entity_name entity_class revision : string.
Implicit Types related_domains : list string.

(** [_entity_source], in its parts *)
Definition entity_import (domain : string) : string :=
  let entity := _singular domain in
  let entity_class := _class_name entity in
  ("from core_api.modules." +:+ domain +:+ "." +:+ entity +:+ "_entity import " +:+ entity_class +:+ "Entity").
Definition parent_fields (parent_domain : string) : list string :=
  let parent_entity := _singular parent_domain in
  let parent_class := _class_name parent_entity in
  let parent_field := (parent_entity +:+ "_id") in
  [("    " +:+ parent_field +:+ ": Mapped[UUID | None] = mapped_column(");
   (q "        ForeignKey(^" +:+ parent_domain +:+ q ".id^, ondelete=^RESTRICT^), nullable=True, index=True");
   "    )";
   ("    " +:+ parent_entity +:+ ": Mapped[" +:+ parent_class +:+ q "Entity | None] = relationship(lazy=^joined^)")].
Definition association_definition (domain_name entity_name related_domain : string) : string :=
  let related_entity := _singular related_domain in
  let association_name := (entity_name +:+ "_" +:+ related_entity +:+ "_association") in
  let table_name := _association_table domain_name related_domain in
  join_lines
    [(association_name +:+ " = Table(");
     (q "    ^" +:+ table_name +:+ q "^,");
     "    Base.metadata,";
     "    Column(";
     (q "        ^" +:+ entity_name +:+ q "_id^,");
     (q "        ForeignKey(^" +:+ domain_name +:+ q ".id^, ondelete=^CASCADE^),");
     "        primary_key=True,";
     "    ),";
     "    Column(";
     (q "        ^" +:+ related_entity +:+ q "_id^,");
     (q "        ForeignKey(^" +:+ related_domain +:+ q ".id^, ondelete=^CASCADE^),");
     "        primary_key=True,";
     "    ),";
     ")"].
Definition association_field (entity_name related_domain : string) : string :=
  let related_entity := _singular related_domain in
  let related_class := _class_name related_entity in
  let association_name := (entity_name +:+ "_" +:+ related_entity +:+ "_association") in
  ("    " +:+ related_domain +:+ ": Mapped[list[" +:+ related_class +:+ "Entity]] = relationship(secondary=" +:+ association_name +:+ q ", lazy=^selectin^)").
Definition ids_property (related_domain : string) : string :=
  let related_entity := _singular related_domain in
  join_lines
    ["    @property";
     ("    def " +:+ related_entity +:+ "_ids(self) -> list[UUID]:");
     ("        return [item.id for item in self." +:+ related_domain +:+ "]")].
Definition _entity_source domain_name entity_name entity_class (parent_domain : option string) related_domains : string :=
  let related := negb (bool_decide (related_domains = [])) in
  let linked := related || bool_decide (is_Some parent_domain) in
  let imports := when_some parent_domain (λ d, [entity_import d]) ++ map entity_import related_domains in
  let definitions := map (association_definition domain_name entity_name) related_domains in
  let fields :=
    ["    name: Mapped[str] = mapped_column(String(120), nullable=False, index=True)";
     "    code: Mapped[str] = mapped_column(String(80), nullable=False, unique=True, index=True)"] ++
    when_some parent_domain parent_fields ++ map (association_field entity_name) related_domains in
  let properties := map ids_property related_domains in
  let sqlalchemy_imports := order_by String.leb
    (["String"] ++ (if linked then ["ForeignKey"] else []) ++
     (if related then ["Column"; "Table"] else [])) in
  let orm_imports := ["Mapped"; "mapped_column"] ++ (if linked then ["relationship"] else []) in
  let connection_imports := (if related then ["Base"] else []) ++ ["BaseEntity"] in
  let lines :=
    ["from __future__ import annotations"; ""; "from uuid import UUID"; "";
     "from sqlalchemy import " +:+ join ", " sqlalchemy_imports;
     "from sqlalchemy.orm import " +:+ join ", " orm_imports; "";
     "from core_api.infrastructure.database.connection import " +:+ join ", " connection_imports] ++
    imports ++ [""; ""] ++
    (if related then [join (nl +:+ nl) definitions; ""; ""] else []) ++
    [("class " +:+ entity_class +:+ "Entity(BaseEntity):");
     (q "    __tablename__ = ^" +:+ domain_name +:+ q "^");
     ""] ++ fields ++ (if related then "" :: properties else []) in
  rstrip (join_lines lines) +:+ nl.

(** [_schema_source] *)
Definition _schema_source entity_class (parent_field : option string) related_domains : string :=
  let parent := when_some parent_field (λ parent_field : string, [("    " +:+ parent_field +:+ ": UUID | None = None")]) in
  let field related_domain := _singular related_domain +:+ "_ids" in
  let listed :=
    map (λ d, let field := field d in ("    " +:+ field +:+ ": list[UUID] = Field(default_factory=list)")) related_domains in
  let create_fields := parent ++ listed in
  let update_fields :=
    parent ++ map (λ d, let field := field d in ("    " +:+ field +:+ ": list[UUID] | None = None")) related_domains in
  let read_fields := parent ++ listed in
  let lines :=
    ["from datetime import datetime"; "from uuid import UUID"; "";
     "from pydantic import BaseModel, Field"; ""; "";
     ("class " +:+ entity_class +:+ "Create(BaseModel):");
     "    name: str = Field(min_length=1, max_length=120)";
     "    code: str = Field(min_length=1, max_length=80)"] ++
    create_fields ++
    [""; "";
     ("class " +:+ entity_class +:+ "Update(BaseModel):");
     "    name: str | None = Field(default=None, min_length=1, max_length=120)";
     "    code: str | None = Field(default=None, min_length=1, max_length=80)"] ++
    update_fields ++
    [""; "";
     ("class " +:+ entity_class +:+ "Read(BaseModel):");
     "    id: UUID";
     "    name: str";
     "    code: str"] ++
    read_fields ++
    ["    created_at: datetime";
     "    updated_at: datetime";
     "    deleted_at: datetime | None = None"] in
  rstrip (join_lines lines) +:+ nl.

(** [_service_source] *)
Definition _service_source domain_name entity_name entity_class (parent_field : option string) related_domains : string :=
  let configuration related_domain :=
    let related_entity := _singular related_domain in
    let related_class := _class_name related_entity in
    let related_field := (related_entity +:+ "_ids") in
    (q "        ^" +:+ related_field +:+ q "^: ManyToManyConfig(attribute=^" +:+ related_domain +:+ q "^, model=" +:+ related_class +:+ "Entity),") in
  let lines :=
    ["from core_api.infrastructure.database.connection import SessionLocal";
     ("from core_api.modules." +:+ domain_name +:+ "." +:+ entity_name +:+ "_entity import " +:+ entity_class +:+ "Entity");
     ("from core_api.modules." +:+ domain_name +:+ "." +:+ entity_name +:+ "_schema import " +:+ entity_class +:+ "Read")] ++
    map entity_import related_domains ++
    ["from shared_kernel.persistence.crud_service import " +:+
       (if bool_decide (related_domains = []) then "SqlAlchemyCrudService"
        else "ManyToManyConfig, SqlAlchemyCrudService");
     ""; "";
     (entity_name +:+ "_service = SqlAlchemyCrudService(");
     ("    model=" +:+ entity_class +:+ "Entity,");
     ("    read_schema=" +:+ entity_class +:+ "Read,");
     "    session_factory=SessionLocal,";
     ("    parent_field=" +:+ repr_opt parent_field +:+ ",");
     "    relations={"] ++
    map configuration related_domains ++
    ["    },"; ")"] in
  rstrip (join_lines lines) +:+ nl.

(** [/parent/{parent_id}/domain] *)
Definition parent_prefix_of domain_name (parent_domain : option string) (parent_field : option string) : option string :=
  match parent_domain, parent_field with
  | Some d, Some f => Some ("/" +:+ tag_of d +:+ "/{" +:+ f +:+ "}/" +:+ tag_of domain_name)
  | _, _ => None
  end.
Definition relations_repr_of related_domains : string :=
  py_repr (JObj (map (λ d, (d, JStr (_singular d +:+ "_ids"))) (each_once related_domains))).

(** [_router_source] *)
Definition _router_source domain_name entity_name entity_class (parent_field : option string) (parent_domain : option string)
    related_domains : string :=
  let tag := tag_of domain_name in
  let route_prefix := "/" +:+ tag in
  let parent_prefix := parent_prefix_of domain_name parent_domain parent_field in
  let relations_repr := relations_repr_of related_domains in
  _clean ("
        from uuid import UUID

        from fastapi import APIRouter, HTTPException, Path, status

        from core_api.modules." +:+ domain_name +:+ "." +:+ entity_name +:+ "_schema import (
            " +:+ entity_class +:+ "Create,
            " +:+ entity_class +:+ "Read,
            " +:+ entity_class +:+ "Update,
        )
        from core_api.modules." +:+ domain_name +:+ "." +:+ entity_name +:+ "_service import " +:+ entity_name +:+ q "_service
        from shared_kernel.http.crud.route_factory import create_crud_router


        DOMAIN_TAG = ^" +:+ tag +:+ q "^
        PARENT_FIELD: str | None = " +:+ repr_opt parent_field +:+ "
        PARENT_ROUTE_PREFIX: str | None = " +:+ repr_opt parent_prefix +:+ "
        RELATED_RELATIONS: dict[str, str] = " +:+ relations_repr +:+ q "

        router = APIRouter()
        router.include_router(
            create_crud_router(
                prefix=^" +:+ route_prefix +:+ q "^,
                tags=[DOMAIN_TAG],
                query_tag=f^{DOMAIN_TAG} - query^,
                command_tag=f^{DOMAIN_TAG} - command^,
                service=" +:+ entity_name +:+ "_service,
                create_schema=" +:+ entity_class +:+ "Create,
                update_schema=" +:+ entity_class +:+ "Update,
                read_schema=" +:+ entity_class +:+ q "Read,
                not_found_message=^" +:+ entity_class +:+ q " not found^,
            )
        )


        def _not_found() -> None:
            raise HTTPException(
                status_code=status.HTTP_404_NOT_FOUND,
                detail=^" +:+ entity_class +:+ q " or related resource not found^,
            )


        if PARENT_FIELD and PARENT_ROUTE_PREFIX:
            @router.get(
                PARENT_ROUTE_PREFIX,
                response_model=list[" +:+ entity_class +:+ q "Read],
                tags=[f^{DOMAIN_TAG} - query^],
            )
            async def list_by_parent(
                parent_id: UUID = Path(alias=PARENT_FIELD),
                include_deleted: bool = False,
            ) -> list[" +:+ entity_class +:+ "Read]:
                return " +:+ entity_name +:+ "_service.list_by_parent(
                    parent_field=PARENT_FIELD,
                    parent_id=parent_id,
                    include_deleted=include_deleted,
                )

            @router.post(
                PARENT_ROUTE_PREFIX,
                response_model=" +:+ entity_class +:+ q "Read,
                status_code=status.HTTP_201_CREATED,
                tags=[f^{DOMAIN_TAG} - command^],
            )
            async def create_for_parent(
                payload: " +:+ entity_class +:+ "Create,
                parent_id: UUID = Path(alias=PARENT_FIELD),
            ) -> " +:+ entity_class +:+ "Read:
                return " +:+ entity_name +:+ "_service.create_for_parent(
                    parent_field=PARENT_FIELD,
                    parent_id=parent_id,
                    payload=payload,
                )


        def _list_related_endpoint(related_field: str):
            async def endpoint(resource_id: UUID) -> list[UUID]:
                related_ids = " +:+ entity_name +:+ "_service.list_related(
                    item_id=resource_id,
                    related_field=related_field,
                )
                if related_ids is None:
                    _not_found()
                return related_ids

            return endpoint


        def _link_related_endpoint(related_field: str):
            async def endpoint(resource_id: UUID, related_id: UUID) -> " +:+ entity_class +:+ "Read:
                resource = " +:+ entity_name +:+ "_service.link_related(
                    item_id=resource_id,
                    related_field=related_field,
                    related_id=related_id,
                )
                if resource is None:
                    _not_found()
                return resource

            return endpoint


        def _unlink_related_endpoint(related_field: str):
            async def endpoint(resource_id: UUID, related_id: UUID) -> " +:+ entity_class +:+ "Read:
                resource = " +:+ entity_name +:+ q "_service.unlink_related(
                    item_id=resource_id,
                    related_field=related_field,
                    related_id=related_id,
                )
                if resource is None:
                    _not_found()
                return resource

            return endpoint


        for related_domain, related_field in RELATED_RELATIONS.items():
            related_tag = f^{DOMAIN_TAG}-{related_domain.replace('_', '-')}^
            relation_prefix = (
                f^" +:+ route_prefix +:+ q "/{{resource_id}}/^
                f^{related_domain.replace('_', '-')}^
            )
            router.add_api_route(
                relation_prefix,
                _list_related_endpoint(related_field),
                methods=[^GET^],
                response_model=list[UUID],
                tags=[f^{related_tag} - query^],
            )
            router.add_api_route(
                f^{relation_prefix}/{{related_id}}^,
                _link_related_endpoint(related_field),
                methods=[^POST^],
                response_model=" +:+ entity_class +:+ q "Read,
                tags=[f^{related_tag} - command^],
            )
            router.add_api_route(
                f^{relation_prefix}/{{related_id}}^,
                _unlink_related_endpoint(related_field),
                methods=[^DELETE^],
                response_model=" +:+ entity_class +:+ q "Read,
                tags=[f^{related_tag} - command^],
            )
        ").

(** [_migration_source]: its lines, then the text *)
Definition upgrade_lines domain_name entity_name (parent_domain : option string) (parent_field : option string) related_domains : list string :=
  ["def upgrade() -> None:";
   "    op.create_table(";
   (q "        ^" +:+ domain_name +:+ q "^,");
   (q "        sa.Column(^id^, sa.Uuid(), primary_key=True),");
   (q "        sa.Column(^name^, sa.String(length=120), nullable=False),");
   (q "        sa.Column(^code^, sa.String(length=80), nullable=False),")] ++
  match parent_domain, parent_field with
  | Some parent_domain, Some parent_field =>
      ["        sa.Column(";
       (q "            ^" +:+ parent_field +:+ q "^,");
       "            sa.Uuid(),";
       (q "            sa.ForeignKey(^" +:+ parent_domain +:+ q ".id^, ondelete=^RESTRICT^),");
       "            nullable=True,";
       "        ),"]
  | _, _ => []
  end ++
  ["        sa.Column(";
   (q "            ^created_at^,");
   "            sa.DateTime(timezone=True),";
   "            server_default=sa.func.now(),";
   "            nullable=False,";
   "        ),";
   "        sa.Column(";
   (q "            ^updated_at^,");
   "            sa.DateTime(timezone=True),";
   "            server_default=sa.func.now(),";
   "            nullable=False,";
   "        ),";
   (q "        sa.Column(^deleted_at^, sa.DateTime(timezone=True), nullable=True),");
   (q "        sa.UniqueConstraint(^code^, name=^uq_" +:+ domain_name +:+ q "_code^),");
   "    )";
   (q "    op.create_index(^ix_" +:+ domain_name +:+ q "_name^, ^" +:+ domain_name +:+ q "^, [^name^])");
   (q "    op.create_index(^ix_" +:+ domain_name +:+ q "_code^, ^" +:+ domain_name +:+ q "^, [^code^], unique=True)");
   (q "    op.create_index(^ix_" +:+ domain_name +:+ q "_deleted_at^, ^" +:+ domain_name +:+ q "^, [^deleted_at^])")] ++
  match parent_domain, parent_field with
  | Some parent_domain, Some parent_field =>
      [(q "    op.create_index(^ix_" +:+ domain_name +:+ "_" +:+ parent_field +:+ q "^, ^" +:+ domain_name +:+ q "^, [^" +:+ parent_field +:+ q "^])")]
  | _, _ => []
  end ++
  concat (map (λ related_domain,
    let related_entity := _singular related_domain in
    let table_name := _association_table domain_name related_domain in
    ["    op.create_table(";
     (q "        ^" +:+ table_name +:+ q "^,");
     "        sa.Column(";
     (q "            ^" +:+ entity_name +:+ q "_id^,");
     "            sa.Uuid(),";
     (q "            sa.ForeignKey(^" +:+ domain_name +:+ q ".id^, ondelete=^CASCADE^),");
     "            primary_key=True,";
     "        ),";
     "        sa.Column(";
     (q "            ^" +:+ related_entity +:+ q "_id^,");
     "            sa.Uuid(),";
     (q "            sa.ForeignKey(^" +:+ related_domain +:+ q ".id^, ondelete=^CASCADE^),");
     "            primary_key=True,";
     "        ),";
     "    )"]) related_domains).
Definition downgrade_lines domain_name (parent_domain : option string) (parent_field : option string) related_domains : list string :=
  ["def downgrade() -> None:"] ++
  map (λ related_domain,
    let table_name := _association_table domain_name related_domain in
    (q "    op.drop_table(^" +:+ table_name +:+ q "^)")) (rev related_domains) ++
  match parent_domain, parent_field with
  | Some parent_domain, Some parent_field =>
      [(q "    op.drop_index(^ix_" +:+ domain_name +:+ "_" +:+ parent_field +:+ q "^, table_name=^" +:+ domain_name +:+ q "^)")]
  | _, _ => []
  end ++
  [(q "    op.drop_index(^ix_" +:+ domain_name +:+ q "_deleted_at^, table_name=^" +:+ domain_name +:+ q "^)");
   (q "    op.drop_index(^ix_" +:+ domain_name +:+ q "_code^, table_name=^" +:+ domain_name +:+ q "^)");
   (q "    op.drop_index(^ix_" +:+ domain_name +:+ q "_name^, table_name=^" +:+ domain_name +:+ q "^)");
   (q "    op.drop_table(^" +:+ domain_name +:+ q "^)")].
Definition migration_lines domain_name entity_name (parent_domain : option string) (parent_field : option string) related_domains revision
    (down_revision : option string) : list string :=
  ["from alembic import op"; "import sqlalchemy as sa"; ""; "";
   ("revision = " +:+ repr_str revision);
   ("down_revision = " +:+ repr_opt down_revision);
   "branch_labels = None"; "depends_on = None"; ""; ""] ++
  upgrade_lines domain_name entity_name parent_domain parent_field related_domains ++
  [""; ""] ++
  downgrade_lines domain_name parent_domain parent_field related_domains.
Definition _migration_source domain_name entity_name (parent_domain : option string) (parent_field : option string) related_domains revision
    (down_revision : option string) : string :=
  rstrip (join_lines (migration_lines domain_name entity_name parent_domain parent_field related_domains
                        revision down_revision)) +:+ nl.
End sources.

(** ** The relational generator *)
Section relational.
Context `{PythonParser}.

Definition package_root_of (project_root : string) : string :=
  project_root +:+ "/apps/core_api/src/core_api".
Definition relational_error : string → exn := RelationalDomainError.

Fixpoint normalize_all (label : string) (values : list string) : result (list string) :=
  match values with
  | [] => Ok []
  | v :: rest =>
      n ← _normalize_snake relational_error v label;
      ns ← normalize_all label rest;
      Ok (n :: ns)
  end.

(** The entity file of a domain has to be there. *)
Definition entity_path (package_root related_domain : string) : string :=
  package_root +:+ "/modules/" +:+ related_domain +:+ "/" +:+ _singular related_domain +:+ "_entity.py".
Fixpoint check_entities (package_root : string) (domains : list string) (s : Project) : result unit :=
  match domains with
  | [] => Ok tt
  | d :: rest =>
      if path_exists (entity_path package_root d) s then check_entities package_root rest s
      else Err (RelationalDomainError
        ("relational domain requires existing Core entity: " +:+ entity_path package_root d))
  end.

Definition title_of (domain_name : string) : string := title (replace_char "_" " " domain_name).

(** RELATIONSHIPS.md *)
Definition relationships_text (domain_name : string) (parent_domain parent_field : option string)
    (related_domains : list string) (relationship_notes : option string) : string :=
  let domain_title := title_of domain_name in
  let hierarchy :=
    match parent_domain, parent_field with
    | Some parent_domain, Some parent_field =>
        ("- `" +:+ domain_name +:+ "` belongs to `" +:+ parent_domain +:+ "` through the `" +:+ parent_field +:+ "` foreign key.") +:+ nl
    | _, _ => "- No parent foreign key."
    end in
  let many_to_many :=
    if bool_decide (related_domains = []) then "- No association tables."
    else join_lines (map (λ related_domain,
      let table_name := _association_table domain_name related_domain in
      ("- `" +:+ domain_name +:+ "` and `" +:+ related_domain +:+ "` use the `" +:+ table_name +:+ "` association table."))
      related_domains) in
  let notes :=
    match relationship_notes with
    | Some notes => if nonempty (strip notes) then nl +:+ "## Notes" +:+ nl +:+ nl +:+ strip notes +:+ nl else ""
    | None => ""
    end in
  _clean ("
            # " +:+ domain_title +:+ " Relationships

            Persistence mode: `relational`.

            ## Hierarchy

            " +:+ hierarchy +:+ "

            ## Many To Many

            " +:+ many_to_many +:+ "
            " +:+ notes +:+ "
            ").

Definition build_relational_core_domain_files (project_root domain_name : string)
    (parent_domain : option string) (related_domains : list string) (relationship_notes : option string)
    (s : Project) : result (list (string * string) * string * string) :=
  domain_name ← _normalize_snake relational_error domain_name "domain";
  parent_domain ← match parent_domain with
                  | Some p => if nonempty p
                              then n ← _normalize_snake relational_error p "belongs_to"; Ok (Some n)
                              else Ok None
                  | None => Ok None
                  end;
  normalized ← normalize_all "many_to_many" related_domains;
  let related_domains := each_once normalized in
  if bool_decide (parent_domain = Some domain_name) || mem_str domain_name related_domains then
    Err (RelationalDomainError "a domain cannot relate to itself")
  else
  let entity_name := _singular domain_name in
  let entity_class := _class_name entity_name in
  let parent_field := option_map (λ p, _singular p +:+ "_id") parent_domain in
  let package_root := package_root_of project_root in
  let domain_dir := package_root +:+ "/modules/" +:+ domain_name +:+ "/" in
  let required_domains := each_once (when_some parent_domain (λ p, [p]) ++ related_domains) in
  _ ← check_entities package_root required_domains s;
  let association_tables := map (_association_table domain_name) related_domains in
  next ← _next_migration project_root domain_name required_domains (domain_name :: association_tables) s;
  let '(migration_path, revision, down_revision) := next in
  let domain_title := title_of domain_name in
  let files :=
    [(domain_dir +:+ "__init__.py", "");
     (domain_dir +:+ "README.md", _clean ("
            # " +:+ domain_title +:+ "

            Generated Core CRUD domain with SQLAlchemy persistence.

            Apply its migration before using the routes:

            ```bash
            make migrate-core
            ```
            "));
     (domain_dir +:+ "RELATIONSHIPS.md",
      relationships_text domain_name parent_domain parent_field related_domains relationship_notes);
     (domain_dir +:+ entity_name +:+ "_entity.py",
      _entity_source domain_name entity_name entity_class parent_domain related_domains);
     (domain_dir +:+ entity_name +:+ "_schema.py",
      _schema_source entity_class parent_field related_domains);
     (domain_dir +:+ entity_name +:+ "_service.py",
      _service_source domain_name entity_name entity_class parent_field related_domains);
     (domain_dir +:+ entity_name +:+ "_router.py",
      _router_source domain_name entity_name entity_class parent_field parent_domain related_domains);
     (migration_path,
      _migration_source domain_name entity_name parent_domain parent_field related_domains revision
        down_revision)] in
  Ok (files, migration_path, revision).

Definition write_files (files : list (string * string)) : M Project unit :=
  for_each (λ f, write_text f.1 f.2) files.

Definition generate_relational_core_domain (project_root domain_name : string)
    (parent_domain : option string) (related_domains : list string) (relationship_notes : option string)
    : M Project (list string) :=
  built ← (λ s, (build_relational_core_domain_files project_root domain_name parent_domain related_domains
                   relationship_notes s, s));
  let files := built.1.1 in
  existing ← gets (λ s, List.filter (λ p, path_exists p s) (map fst files));
  match existing with
  | p :: _ => raise (RelationalDomainError ("refusing to overwrite existing file: " +:+ p))
  | [] => write_files files;; mret (map fst files)
  end.
End relational.

(** ** The generator (domain_generator.py) *)
Definition generator_error : string → exn := DomainGeneratorError.

Definition _write (path content : string) : M Project unit :=
  exists_ ← gets (path_exists path);
  raise_if exists_ (DomainGeneratorError ("refusing to overwrite existing file: " +:+ path));;
  write_text path (_clean content).

Fixpoint parse_items (items : list (list ascii)) : result (list string) :=
  match items with
  | [] => Ok []
  | item :: rest =>
      let stripped := strip (text item) in
      if nonempty stripped then
        n ← _normalize_snake generator_error stripped "many_to_many";
        ns ← parse_items rest;
        Ok (n :: ns)
      else parse_items rest
  end.
Definition _parse_many_to_many (value : option string) : result (list string) :=
  match value with
  | Some v => if nonempty v then parse_items (split_char "," (chars v)) else Ok []
  | None => Ok []
  end.

Definition routes_path (package_root : string) : string := package_root +:+ "/bootstrap/routes.py".
Definition loader_path (package_root : string) : string :=
  package_root +:+ "/infrastructure/database/loader.py".

Definition registered_routes (domain_name entity_name content : string) : string :=
  let import_line := ("from core_api.modules." +:+ domain_name +:+ "." +:+ entity_name +:+ "_router import router as " +:+ entity_name +:+ "_router") in
  let include_line := ("    app.include_router(" +:+ entity_name +:+ "_router)") in
  let content :=
    if contains import_line content then content
    else replace_word (nl +:+ nl +:+ "def register_routes")
           (nl +:+ import_line +:+ nl +:+ nl +:+ "def register_routes") content in
  if contains include_line content then content
  else replace_word ("    app.include_router(ui_manifest_router)" +:+ nl)
         ("    app.include_router(ui_manifest_router)" +:+ nl +:+ include_line +:+ nl) content.
Definition _register_routes (package_root domain_name entity_name : string) : M Project unit :=
  content ← read_text (routes_path package_root);
  write_text (routes_path package_root) (registered_routes domain_name entity_name content).

Definition registered_loader (domain_name entity_class entity_name content : string) : string :=
  let import_line := ("from core_api.modules." +:+ domain_name +:+ "." +:+ entity_name +:+ "_entity import " +:+ entity_class +:+ "Entity  # noqa: F401") in
  if contains import_line content then content
  else rstrip content +:+ nl +:+ import_line +:+ nl.
Definition _register_loader (package_root domain_name entity_class entity_name : string) : M Project unit :=
  content ← read_text (loader_path package_root);
  write_text (loader_path package_root) (registered_loader domain_name entity_class entity_name content).

(** The texts of a domain kept in memory *)
Section memory.
Implicit Types domain_name entity_name entity_class : string.
Implicit Types related_fields : list (string * string).

(** [schema_template_indent], [call_template_indent]: twelve blanks *)
Definition indented (lines : list string) : string := join_lines (map (λ line, "            " +:+ line) lines).

Definition memory_create_fields (parent_field : option string) related_fields : list string :=
  when_some parent_field (λ parent_field : string, [("    " +:+ parent_field +:+ ": UUID | None = None")]) ++
  map (λ '(_, related_field), ("    " +:+ related_field +:+ ": list[UUID] = Field(default_factory=list)")) related_fields.
Definition memory_update_fields (parent_field : option string) related_fields : list string :=
  when_some parent_field (λ parent_field : string, [("    " +:+ parent_field +:+ ": str | None = None")]) ++
  map (λ '(_, related_field), ("    " +:+ related_field +:+ ": list[UUID] | None = None")) related_fields.
Definition memory_read_fields (parent_field : option string) related_fields : list string :=
  when_some parent_field (λ parent_field : string, [("    " +:+ parent_field +:+ ": str | None = None")]) ++
  map (λ '(_, related_field), ("    " +:+ related_field +:+ ": list[UUID] = Field(default_factory=list)")) related_fields.
Definition memory_create_kwargs (parent_field : option string) related_fields : list string :=
  map (λ field, ("            " +:+ field +:+ "=payload." +:+ field +:+ ","))
    (when_some parent_field (λ f, [f]) ++ map snd related_fields).
Definition memory_update_kwargs (parent_field : option string) related_fields : list string :=
  map (λ field, (q "                ^" +:+ field +:+ q "^: payload." +:+ field +:+ " if payload." +:+ field +:+ " is not None else current." +:+ field +:+ ","))
    (when_some parent_field (λ f, [f]) ++ map snd related_fields).
Definition memory_relationship_lines domain_name (parent_domain : option string) (parent_field : option string) related_fields
    (relationship_notes : option string) : list string :=
  match parent_domain, parent_field with
  | Some parent_domain, Some parent_field =>
      ["## Hierarchy"; "";
       ("- `" +:+ domain_name +:+ "` belongs to `" +:+ parent_domain +:+ "`.");
       ("- Suggested field: `" +:+ parent_field +:+ "`.");
       ""]
  | _, _ => []
  end ++
  (if bool_decide (related_fields = []) then [] else
     ["## Many To Many"; ""] ++
     map (λ '(related_domain, related_field),
       ("- `" +:+ domain_name +:+ "` can relate to many `" +:+ related_domain +:+ "` records via `" +:+ related_field +:+ "`.")) related_fields ++
     [""]) ++
  match relationship_notes with
  | Some notes => if nonempty notes then ["## Notes"; ""; strip notes; ""] else []
  | None => []
  end.

Definition memory_readme domain_name : string :=
  let domain_title := title_of domain_name in
  "
            # " +:+ domain_title +:+ "

            Generated Core CRUD domain.

            Use `RELATIONSHIPS.md` when cross-domain metadata is present.
        ".
Definition memory_entity domain_name entity_class : string :=
  "
            from sqlalchemy import String
            from sqlalchemy.orm import Mapped, mapped_column

            from core_api.infrastructure.database.connection import BaseEntity


            class " +:+ entity_class +:+ q "Entity(BaseEntity):
                __tablename__ = ^" +:+ domain_name +:+ q "^

                name: Mapped[str] = mapped_column(String(120), nullable=False, index=True)
                code: Mapped[str] = mapped_column(String(80), nullable=False, unique=True, index=True)
        ".
Definition memory_schema entity_class (parent_field : option string) related_fields : string :=
  let create_fields_text := indented (memory_create_fields parent_field related_fields) in
  let update_fields_text := indented (memory_update_fields parent_field related_fields) in
  let read_fields_text := indented (memory_read_fields parent_field related_fields) in
  "
            from datetime import datetime
            from uuid import UUID

            from pydantic import BaseModel, Field


            class " +:+ entity_class +:+ "Create(BaseModel):
                name: str = Field(min_length=1, max_length=120)
                code: str = Field(min_length=1, max_length=80)
" +:+ create_fields_text +:+ "


            class " +:+ entity_class +:+ "Update(BaseModel):
                name: str | None = Field(default=None, min_length=1, max_length=120)
                code: str | None = Field(default=None, min_length=1, max_length=80)
" +:+ update_fields_text +:+ "


            class " +:+ entity_class +:+ "Read(BaseModel):
                id: UUID
                name: str
                code: str
" +:+ read_fields_text +:+ "
                created_at: datetime
                updated_at: datetime
                deleted_at: datetime | None = None
        ".
Definition memory_service domain_name entity_name entity_class (parent_field : option string) related_fields : string :=
  let create_kwargs_text := indented (memory_create_kwargs parent_field related_fields) in
  let update_kwargs_text := indented (memory_update_kwargs parent_field related_fields) in
  "
            from uuid import UUID, uuid4

            from core_api.modules." +:+ domain_name +:+ "." +:+ entity_name +:+ "_schema import (
                " +:+ entity_class +:+ "Create,
                " +:+ entity_class +:+ "Read,
                " +:+ entity_class +:+ "Update,
            )
            from shared_kernel.time.datetime_service import DateTimeService


            class " +:+ entity_class +:+ "Service:
                def __init__(self) -> None:
                    self._items: dict[UUID, " +:+ entity_class +:+ "Read] = {}

                def list(self, *, include_deleted: bool = False) -> list[" +:+ entity_class +:+ "Read]:
                    items = list(self._items.values())
                    if include_deleted:
                        return items
                    return [item for item in items if item.deleted_at is None]

                def get(self, item_id: UUID) -> " +:+ entity_class +:+ "Read | None:
                    return self._items.get(item_id)

                def create(self, payload: " +:+ entity_class +:+ "Create) -> " +:+ entity_class +:+ "Read:
                    now = DateTimeService.utc_now()
                    item = " +:+ entity_class +:+ "Read(
                        id=uuid4(),
                        name=payload.name,
                        code=payload.code,
" +:+ create_kwargs_text +:+ "
                        created_at=now,
                        updated_at=now,
                    )
                    self._items[item.id] = item
                    return item

                def update(self, item_id: UUID, payload: " +:+ entity_class +:+ "Update) -> " +:+ entity_class +:+ q "Read | None:
                    current = self._items.get(item_id)
                    if current is None:
                        return None
                    updated = current.model_copy(
                        update={
                            ^name^: payload.name if payload.name is not None else current.name,
                            ^code^: payload.code if payload.code is not None else current.code,
" +:+ update_kwargs_text +:+ q "
                            ^updated_at^: DateTimeService.utc_now(),
                        }
                    )
                    self._items[item_id] = updated
                    return updated

                def delete(self, item_id: UUID) -> " +:+ entity_class +:+ q "Read | None:
                    current = self._items.get(item_id)
                    if current is None:
                        return None
                    deleted = current.model_copy(
                        update={
                            ^deleted_at^: DateTimeService.utc_now(),
                            ^updated_at^: DateTimeService.utc_now(),
                        }
                    )
                    self._items[item_id] = deleted
                    return deleted

                def restore(self, item_id: UUID) -> " +:+ entity_class +:+ q "Read | None:
                    current = self._items.get(item_id)
                    if current is None:
                        return None
                    restored = current.model_copy(
                        update={
                            ^deleted_at^: None,
                            ^updated_at^: DateTimeService.utc_now(),
                        }
                    )
                    self._items[item_id] = restored
                    return restored

                def list_by_parent(self, *, parent_field: str, parent_id: UUID, include_deleted: bool = False) -> list[" +:+ entity_class +:+ "Read]:
                    return [
                        item
                        for item in self.list(include_deleted=include_deleted)
                        if getattr(item, parent_field, None) == parent_id
                    ]

                def get_by_parent(self, *, parent_field: str, parent_id: UUID, item_id: UUID) -> " +:+ entity_class +:+ "Read | None:
                    item = self.get(item_id)
                    if item is None or getattr(item, parent_field, None) != parent_id:
                        return None
                    return item

                def create_for_parent(self, *, parent_field: str, parent_id: UUID, payload: " +:+ entity_class +:+ "Create) -> " +:+ entity_class +:+ "Read:
                    return self.create(payload.model_copy(update={parent_field: parent_id}))

                def update_by_parent(self, *, parent_field: str, parent_id: UUID, item_id: UUID, payload: " +:+ entity_class +:+ "Update) -> " +:+ entity_class +:+ "Read | None:
                    if self.get_by_parent(parent_field=parent_field, parent_id=parent_id, item_id=item_id) is None:
                        return None
                    return self.update(item_id, payload)

                def delete_by_parent(self, *, parent_field: str, parent_id: UUID, item_id: UUID) -> " +:+ entity_class +:+ "Read | None:
                    if self.get_by_parent(parent_field=parent_field, parent_id=parent_id, item_id=item_id) is None:
                        return None
                    return self.delete(item_id)

                def restore_by_parent(self, *, parent_field: str, parent_id: UUID, item_id: UUID) -> " +:+ entity_class +:+ "Read | None:
                    if self.get_by_parent(parent_field=parent_field, parent_id=parent_id, item_id=item_id) is None:
                        return None
                    return self.restore(item_id)

                def list_related(self, *, item_id: UUID, related_field: str) -> list[UUID] | None:
                    current = self.get(item_id)
                    if current is None:
                        return None
                    return list(getattr(current, related_field, []))

                def link_related(self, *, item_id: UUID, related_field: str, related_id: UUID) -> " +:+ entity_class +:+ q "Read | None:
                    current = self.get(item_id)
                    if current is None:
                        return None
                    related_ids = list(getattr(current, related_field, []))
                    if related_id not in related_ids:
                        related_ids.append(related_id)
                    updated = current.model_copy(
                        update={related_field: related_ids, ^updated_at^: DateTimeService.utc_now()}
                    )
                    self._items[item_id] = updated
                    return updated

                def unlink_related(self, *, item_id: UUID, related_field: str, related_id: UUID) -> " +:+ entity_class +:+ q "Read | None:
                    current = self.get(item_id)
                    if current is None:
                        return None
                    related_ids = [value for value in getattr(current, related_field, []) if value != related_id]
                    updated = current.model_copy(
                        update={related_field: related_ids, ^updated_at^: DateTimeService.utc_now()}
                    )
                    self._items[item_id] = updated
                    return updated


            " +:+ entity_name +:+ "_service = " +:+ entity_class +:+ "Service()
        ".
Definition memory_router domain_name entity_name entity_class (parent_domain : option string) (parent_field : option string) related_fields : string :=
  let parent_route_prefix := parent_prefix_of domain_name parent_domain parent_field in
  let relations_repr := relations_repr_of (map fst related_fields) in
  "
            from uuid import UUID

            from fastapi import APIRouter, HTTPException, Path, status

            from core_api.modules." +:+ domain_name +:+ "." +:+ entity_name +:+ "_schema import (
                " +:+ entity_class +:+ "Create,
                " +:+ entity_class +:+ "Read,
                " +:+ entity_class +:+ "Update,
            )
            from core_api.modules." +:+ domain_name +:+ "." +:+ entity_name +:+ "_service import " +:+ entity_name +:+ q "_service
            from shared_kernel.http.crud.route_factory import create_crud_router


            DOMAIN_TAG = ^" +:+ tag_of domain_name +:+ q "^
            PARENT_FIELD: str | None = " +:+ repr_opt parent_field +:+ "
            PARENT_ROUTE_PREFIX: str | None = " +:+ repr_opt parent_route_prefix +:+ "
            RELATED_RELATIONS: dict[str, str] = " +:+ relations_repr +:+ q "

            router = APIRouter()
            router.include_router(
                create_crud_router(
                    prefix=^/" +:+ tag_of domain_name +:+ q "^,
                    tags=[DOMAIN_TAG],
                    query_tag=f^{DOMAIN_TAG} - query^,
                    command_tag=f^{DOMAIN_TAG} - command^,
                    service=" +:+ entity_name +:+ "_service,
                    create_schema=" +:+ entity_class +:+ "Create,
                    update_schema=" +:+ entity_class +:+ "Update,
                    read_schema=" +:+ entity_class +:+ q "Read,
                    not_found_message=^" +:+ entity_class +:+ q " not found^,
                )
            )

            def _not_found() -> None:
                raise HTTPException(status_code=status.HTTP_404_NOT_FOUND, detail=^" +:+ entity_class +:+ q " not found^)


            if PARENT_FIELD and PARENT_ROUTE_PREFIX:
                @router.get(PARENT_ROUTE_PREFIX, response_model=list[" +:+ entity_class +:+ q "Read], tags=[f^{DOMAIN_TAG} - query^])
                async def list_by_parent(parent_id: UUID = Path(alias=PARENT_FIELD), include_deleted: bool = False) -> list[" +:+ entity_class +:+ "Read]:
                    return " +:+ entity_name +:+ q "_service.list_by_parent(parent_field=PARENT_FIELD, parent_id=parent_id, include_deleted=include_deleted)

                @router.get(f^{PARENT_ROUTE_PREFIX}/{{resource_id}}^, response_model=" +:+ entity_class +:+ q "Read, tags=[f^{DOMAIN_TAG} - query^])
                async def get_by_parent(resource_id: UUID, parent_id: UUID = Path(alias=PARENT_FIELD)) -> " +:+ entity_class +:+ "Read:
                    resource = " +:+ entity_name +:+ "_service.get_by_parent(parent_field=PARENT_FIELD, parent_id=parent_id, item_id=resource_id)
                    if resource is None:
                        _not_found()
                    return resource

                @router.post(PARENT_ROUTE_PREFIX, response_model=" +:+ entity_class +:+ q "Read, status_code=status.HTTP_201_CREATED, tags=[f^{DOMAIN_TAG} - command^])
                async def create_for_parent(payload: " +:+ entity_class +:+ "Create, parent_id: UUID = Path(alias=PARENT_FIELD)) -> " +:+ entity_class +:+ "Read:
                    return " +:+ entity_name +:+ q "_service.create_for_parent(parent_field=PARENT_FIELD, parent_id=parent_id, payload=payload)

                @router.patch(f^{PARENT_ROUTE_PREFIX}/{{resource_id}}^, response_model=" +:+ entity_class +:+ q "Read, tags=[f^{DOMAIN_TAG} - command^])
                async def update_by_parent(resource_id: UUID, payload: " +:+ entity_class +:+ "Update, parent_id: UUID = Path(alias=PARENT_FIELD)) -> " +:+ entity_class +:+ "Read:
                    resource = " +:+ entity_name +:+ q "_service.update_by_parent(parent_field=PARENT_FIELD, parent_id=parent_id, item_id=resource_id, payload=payload)
                    if resource is None:
                        _not_found()
                    return resource

                @router.delete(f^{PARENT_ROUTE_PREFIX}/{{resource_id}}^, response_model=" +:+ entity_class +:+ q "Read, tags=[f^{DOMAIN_TAG} - command^])
                async def delete_by_parent(resource_id: UUID, parent_id: UUID = Path(alias=PARENT_FIELD)) -> " +:+ entity_class +:+ "Read:
                    resource = " +:+ entity_name +:+ q "_service.delete_by_parent(parent_field=PARENT_FIELD, parent_id=parent_id, item_id=resource_id)
                    if resource is None:
                        _not_found()
                    return resource

                @router.post(f^{PARENT_ROUTE_PREFIX}/{{resource_id}}/restore^, response_model=" +:+ entity_class +:+ q "Read, tags=[f^{DOMAIN_TAG} - command^])
                async def restore_by_parent(resource_id: UUID, parent_id: UUID = Path(alias=PARENT_FIELD)) -> " +:+ entity_class +:+ "Read:
                    resource = " +:+ entity_name +:+ "_service.restore_by_parent(parent_field=PARENT_FIELD, parent_id=parent_id, item_id=resource_id)
                    if resource is None:
                        _not_found()
                    return resource


            def _list_related_endpoint(related_field: str):
                async def endpoint(resource_id: UUID) -> list[UUID]:
                    related_ids = " +:+ entity_name +:+ "_service.list_related(item_id=resource_id, related_field=related_field)
                    if related_ids is None:
                        _not_found()
                    return related_ids
                return endpoint


            def _link_related_endpoint(related_field: str):
                async def endpoint(resource_id: UUID, related_id: UUID) -> " +:+ entity_class +:+ "Read:
                    resource = " +:+ entity_name +:+ "_service.link_related(item_id=resource_id, related_field=related_field, related_id=related_id)
                    if resource is None:
                        _not_found()
                    return resource
                return endpoint


            def _unlink_related_endpoint(related_field: str):
                async def endpoint(resource_id: UUID, related_id: UUID) -> " +:+ entity_class +:+ "Read:
                    resource = " +:+ entity_name +:+ q "_service.unlink_related(item_id=resource_id, related_field=related_field, related_id=related_id)
                    if resource is None:
                        _not_found()
                    return resource
                return endpoint


            for related_domain, related_field in RELATED_RELATIONS.items():
                related_tag = f^{DOMAIN_TAG}-{related_domain.replace('_', '-')}^
                relation_prefix = f^/" +:+ tag_of domain_name +:+ q "/{{resource_id}}/{related_domain.replace('_', '-')}^
                router.add_api_route(relation_prefix, _list_related_endpoint(related_field), methods=[^GET^], response_model=list[UUID], tags=[f^{related_tag} - query^])
                router.add_api_route(f^{relation_prefix}/{{related_id}}^, _link_related_endpoint(related_field), methods=[^POST^], response_model=" +:+ entity_class +:+ q "Read, tags=[f^{related_tag} - command^])
                router.add_api_route(f^{relation_prefix}/{{related_id}}^, _unlink_related_endpoint(related_field), methods=[^DELETE^], response_model=" +:+ entity_class +:+ q "Read, tags=[f^{related_tag} - command^])
        ".
Definition memory_relationships domain_name (relationship_lines : list string) : string :=
  let domain_title := title_of domain_name in
  let lines_text := join_lines relationship_lines in
  "
            # " +:+ domain_title +:+ " Relationships

            This file records cross-domain intent for the generated module.

            " +:+ lines_text +:+ "
        ".

(** The dictionary of the files, before they are dedented and written. *)
Definition memory_files (domain_dir : string) domain_name entity_name entity_class (parent_domain : option string)
    (related_domains : list string) (relationship_notes : option string) : list (string * string) :=
  let parent_field := option_map (λ p, _singular p +:+ "_id") parent_domain in
  let related_fields := map (λ d, (d, _singular d +:+ "_ids")) related_domains in
  let relationship_lines :=
    memory_relationship_lines domain_name parent_domain parent_field related_fields relationship_notes in
  [(domain_dir +:+ "README.md", memory_readme domain_name);
   (domain_dir +:+ "__init__.py", "");
   (domain_dir +:+ entity_name +:+ "_entity.py", memory_entity domain_name entity_class);
   (domain_dir +:+ entity_name +:+ "_schema.py", memory_schema entity_class parent_field related_fields);
   (domain_dir +:+ entity_name +:+ "_service.py",
    memory_service domain_name entity_name entity_class parent_field related_fields);
   (domain_dir +:+ entity_name +:+ "_router.py",
    memory_router domain_name entity_name entity_class parent_domain parent_field related_fields)] ++
  (if bool_decide (relationship_lines = []) then []
   else [(domain_dir +:+ "RELATIONSHIPS.md", memory_relationships domain_name relationship_lines)]).
End memory.

Section generator.
Context `{PythonParser}.

Definition generate_core_domain (project_root name : string)
    (belongs_to many_to_many relationship_notes : option string) (persistence : string)
    : M Project (list string) :=
  domain_name ← lift (_normalize_snake generator_error name "domain");
  parent_domain ← match belongs_to with
                  | Some p => if nonempty p
                              then n ← lift (_normalize_snake generator_error p "belongs_to"); mret (Some n)
                              else mret None
                  | None => mret None
                  end;
  related_domains ← lift (_parse_many_to_many many_to_many);
  let entity_name := _singular domain_name in
  let entity_class := _class_name entity_name in
  let package_root := package_root_of project_root in
  let domain_dir := package_root +:+ "/modules/" +:+ domain_name +:+ "/" in
  raise_if (negb (mem_str persistence ["memory"; "relational"]))
    (DomainGeneratorError "persistence must be one of: memory, relational");;
  created ← (if String.eqb persistence "relational" then
      try_catch (generate_relational_core_domain project_root domain_name parent_domain related_domains
                   relationship_notes)
        (λ e, match e with
              | RelationalDomainError message => raise (DomainGeneratorError message)
              | e => raise e
              end)
    else
      let files := memory_files domain_dir domain_name entity_name entity_class parent_domain
                     related_domains relationship_notes in
      for_each (λ f, _write f.1 f.2) files;;
      mret (map fst files));
  _register_routes package_root domain_name entity_name;;
  _register_loader package_root domain_name entity_class entity_name;;
  mret (created ++ [routes_path package_root; loader_path package_root]).
End generator.

(** ** The endpoint (bootstrap/home.py) *)
(** [subprocess.run(("make", "migrate-core"), ...)]: exit status, output, errors. *)
Class MakeTool := { make_migrate_core : Project → Z * string * string }.

(** [text.strip().splitlines()[-1]], when there is a line *)
Definition line_break (c : ascii) : bool :=
  let n := N_of_ascii c in ((10 <=? n) && (n <=? 13))%N || ((28 <=? n) && (n <=? 30))%N.
Definition last_line (s : string) : option string :=
  let stripped := strip s in
  if nonempty stripped
  then Some (text (rev (take_while (λ c, negb (line_break c)) (rev (chars stripped))))) else None.

(** The location a form is answered with. *)
Definition _redirect (notice error : option string) : string :=
  let field key (o : option string) := when_some o (λ v, if nonempty v then [(key, v)] else []) in
  let query := urlencode (field "notice" notice ++ field "error" error) in
  if nonempty query then "/?" +:+ query else "/".

Section home.
Context `{PythonParser} `{MakeTool}.

(** [form.get(key, "").strip() or None] *)
Definition form_value (form : list (string * string)) (key : string) : string :=
  strip (from_option id "" (dget key form)).
Definition form_option (form : list (string * string)) (key : string) : option string :=
  let v := form_value form key in if nonempty v then Some v else None.

Definition add_domain (project_root : string) (form : list (string * string)) : M Project string :=
  let domain := form_value form "domain" in
  let persistence := if String.eqb (form_value form "relational") "1" then "relational" else "memory" in
  refused ← try_catch
    (generate_core_domain project_root domain (form_option form "belongs_to")
       (form_option form "many_to_many") (form_option form "relationship_notes") persistence;;
     mret None)
    (λ e, match e with
          | DomainGeneratorError message => mret (Some message)
          | e => raise e
          end);
  match refused with
  | Some message => mret (_redirect None (Some message))
  | None =>
      let generated := _redirect (Some
        ("Domain " +:+ domain +:+ " generated. Restart the API to load the new router.")) None in
      if String.eqb persistence "relational" && String.eqb (form_value form "apply_migration") "1" then
        result ← gets make_migrate_core;
        let '(returncode, stdout, stderr) := result in
        if Z.eqb returncode 0 then mret generated
        else
          let message := from_option id "make migrate-core failed"
                           (last_line (if nonempty stderr then stderr else stdout)) in
          mret (_redirect None (Some ("Domain " +:+ domain +:+ " was generated, but " +:+ message)))
      else mret generated
  end.
End home.
