(* ===== verification/DomainGeneratorFacts.v ===== *)
(** * What the generator of domains guarantees

    A small reader of the generated migrations - their statements, the tables they
    refer to - and the theorems stated with it: a downgrade undoes its upgrade in
    the reverse order; whatever domains are added, the migrations of the project
    stay one line of revisions; and no file is overwritten. *)

From S2P Require Import Prelude.
From S2P Require Import PyText.
From S2P Require Import Json.
From S2P Require Import Orm.
From S2P Require Import DomainGenerator.

Local Open Scope Z_scope.

(** ** Reading a migration *)
Inductive statement :=
| CreateTable (table : string)
| DropTable (table : string)
| CreateIndex (index table : string)
| DropIndex (index table : string).

(** The texts between double quotes of a line. *)
Fixpoint every_second {A} (l : list A) : list A :=
  match l with _ :: x :: rest => x :: every_second rest | _ => [] end.
Definition quoted (line : string) : list string :=
  map text (every_second (split_char dquote (chars line))).

Definition statement_of (line : string) (next : list string) : list statement :=
  if String.eqb line "    op.create_table(" then
    match next with
    | l :: _ => match quoted l with t :: _ => [CreateTable t] | [] => [] end
    | [] => []
    end
  else if starts_with "    op.drop_table(" line then
    match quoted line with t :: _ => [DropTable t] | [] => [] end
  else if starts_with "    op.create_index(" line then
    match quoted line with i :: t :: _ => [CreateIndex i t] | _ => [] end
  else if starts_with "    op.drop_index(" line then
    match quoted line with i :: t :: _ => [DropIndex i t] | _ => [] end
  else [].
Fixpoint statements (lines : list string) : list statement :=
  match lines with [] => [] | l :: rest => statement_of l rest ++ statements rest end.

Definition is_downgrade (line : string) : bool := String.eqb line "def downgrade() -> None:".
Definition upgrade_of (migration : string) : list statement :=
  statements (take_while (λ l, negb (is_downgrade l)) (lines_of migration)).
Definition downgrade_of (migration : string) : list statement :=
  statements (drop_while (λ l, negb (is_downgrade l)) (lines_of migration)).

Definition undo (s : statement) : statement :=
  match s with
  | CreateTable t => DropTable t
  | DropTable t => CreateTable t
  | CreateIndex i t => DropIndex i t
  | DropIndex i t => CreateIndex i t
  end.

(** The tables a list of statements creates. *)
Definition created (l : list statement) : list string :=
  omap (λ s, match s with CreateTable t => Some t | _ => None end) l.

(** The tables the foreign keys of a migration refer to. *)
Definition reference_of (line : string) : list string :=
  if starts_with "            sa.ForeignKey(" line then
    match quoted line with
    | t :: _ => match split_char "." (chars t) with x :: _ => [text x] | [] => [] end
    | [] => []
    end
  else [].
Definition references (migration : string) : list string :=
  concat (map reference_of (lines_of migration)).

(** ** Texts and lines *)
Definition plain_char (c : ascii) : bool := is_alnum c || Ascii.eqb c "_".
Definition plain (s : string) : bool := forallb plain_char (chars s).

Lemma split_char_none d l : Forall (λ c, Ascii.eqb c d = false) l → split_char d l = [l].
Proof. induction 1 as [|c l Hc _ IH]; [done|]. cbn. by rewrite Hc, IH. Qed.
Lemma split_char_app d a l :
  Forall (λ c, Ascii.eqb c d = false) a → split_char d (a ++ d :: l) = a :: split_char d l.
Proof.
  induction 1 as [|c a Hc _ IH]; cbn; [by rewrite Ascii.eqb_refl|]. by rewrite Hc, IH.
Qed.

(** A text without the character [d]. *)
Definition without (d : ascii) (s : string) : Prop := Forall (λ c, Ascii.eqb c d = false) (chars s).
Lemma without_app d a b : without d a → without d b → without d (a +:+ b).
Proof. unfold without. rewrite chars_append. intros. by apply Forall_app. Qed.
Lemma without_literal d s : forallb (λ c, negb (Ascii.eqb c d)) (chars s) = true → without d s.
Proof.
  intros Hs. apply Forall_forall. intros c Hc%list_elem_of_In.
  rewrite forallb_forall in Hs. apply Hs in Hc. by destruct (Ascii.eqb c d).
Qed.
Lemma plain_without d s : plain_char d = false → plain s = true → without d s.
Proof.
  intros Hd Hs. apply Forall_forall. intros c Hc%list_elem_of_In. unfold plain in Hs.
  rewrite forallb_forall in Hs. apply Hs in Hc. apply Ascii.eqb_neq. intros ->. congruence.
Qed.

Lemma lines_of_cons l s : without newline l → lines_of (l +:+ nl +:+ s) = l :: lines_of s.
Proof.
  intros Hl. unfold lines_of. rewrite !chars_append. change (chars nl) with [newline]. cbn [app].
  rewrite split_char_app by done. cbn [map]. by rewrite text_chars.
Qed.
Lemma lines_of_last l : without newline l → lines_of l = [l].
Proof. intros Hl. unfold lines_of. rewrite split_char_none by done. cbn. by rewrite text_chars. Qed.

Lemma append_assoc (a b c : string) : (a +:+ b) +:+ c = a +:+ b +:+ c.
Proof. induction a as [|x a IH]; [done|exact (f_equal (String.String x) IH)]. Qed.

Lemma lines_of_joined ls :
  Forall (without newline) ls → ls ≠ [] → lines_of (join_lines ls +:+ nl) = ls ++ [""].
Proof.
  induction 1 as [|l ls Hl Hls IH]; [done|]. intros _. destruct ls as [|l' ls].
  - change (join_lines [l]) with l. change (l +:+ nl) with (l +:+ nl +:+ "").
    by rewrite lines_of_cons.
  - change (join_lines (l :: l' :: ls)) with (l +:+ nl +:+ join_lines (l' :: ls)).
    rewrite !append_assoc, lines_of_cons by done. by rewrite IH.
Qed.

(** A text that does not end in a blank is its own [rstrip]. *)
Lemma rstrip_id s c : is_space c = false → rstrip (s +:+ text [c]) = s +:+ text [c].
Proof.
  intros Hc. unfold rstrip, rstrip_by. rewrite chars_append.
  change (chars (text [c])) with [c]. rewrite rev_app_distr. cbn. rewrite Hc. cbn.
  rewrite rev_involutive. rewrite <- (text_chars (s +:+ _)), chars_append. done.
Qed.
Lemma join_lines_snoc ls s c : ∃ s', join_lines (ls ++ [s +:+ text [c]]) = s' +:+ text [c].
Proof.
  induction ls as [|l ls (s' & IH)]; [by exists s|].
  exists (l +:+ nl +:+ s'). rewrite !append_assoc, <- IH.
  destruct ls; [done|]. done.
Qed.

(** ** Names *)
Lemma plain_app a b : plain a = true → plain b = true → plain (a +:+ b) = true.
Proof. unfold plain. rewrite chars_append, forallb_app. by intros -> ->. Qed.
Lemma plain_text l : forallb plain_char l = true → plain (text l) = true.
Proof. unfold plain. by rewrite chars_text. Qed.
Lemma plain_firstn n s : plain s = true → plain (take_str n s) = true.
Proof.
  unfold plain, take_str. rewrite chars_text, !forallb_forall. intros Hs c Hc. apply Hs.
  rewrite <- (firstn_skipn n (chars s)), in_app_iff. by left.
Qed.
Lemma snake_plain s : snake_case s = true → plain s = true.
Proof.
  assert (Hc : ∀ c, snake_char c = true → plain_char c = true).
  { intros c. unfold snake_char, plain_char, is_alnum.
    destruct (is_alpha c), (is_digit c), (Ascii.eqb c "_"); rewrite ?andb_false_r; done. }
  unfold snake_case, plain. destruct (chars s) as [|c cs]; [done|]. cbn.
  rewrite !andb_true_iff. intros [[Ha _] Hs]. split; [by unfold plain_char, is_alnum; rewrite Ha|].
  rewrite forallb_forall in Hs |- *. intros x Hx. by apply Hc, Hs.
Qed.
Lemma singular_plain s : plain s = true → plain (_singular s) = true.
Proof.
  intros Hs. unfold _singular, drop_last.
  repeat case_match; first [done | by apply plain_firstn | apply plain_app; [by apply plain_firstn|done]].
Qed.
Lemma association_plain a b : plain a = true → plain b = true → plain (_association_table a b) = true.
Proof.
  intros Ha Hb. unfold _association_table.
  assert (order_by String.leb [a; b] = [a; b] ∨ order_by String.leb [a; b] = [b; a]) as [-> | ->].
  { cbn. destruct (String.leb _ _); auto. }
  all: cbn [join]; by rewrite !plain_app.
Qed.
Lemma repr_chars l : forallb plain_char l = true → concat (map (repr_char squote) l) = l.
Proof.
  induction l as [|c l IH]; [done|]. cbn [forallb map concat]. intros [Hc Hl]%andb_true_iff. rewrite (IH Hl).
  destruct c as [[] [] [] [] [] [] [] []]; try discriminate Hc; reflexivity.
Qed.
Lemma repr_plain s : plain s = true → repr_str s = text [squote] +:+ s +:+ text [squote].
Proof.
  intros Hs. unfold repr_str.
  assert (Hq : existsb (Ascii.eqb squote) (chars s) = false).
  { apply not_true_iff_false. rewrite existsb_exists. intros (c & Hc & E%Ascii.eqb_eq). subst c.
    unfold plain in Hs. rewrite forallb_forall in Hs. by specialize (Hs _ Hc). }
  rewrite Hq. cbn [andb]. rewrite repr_chars by done.
  rewrite <- (text_chars (_ +:+ _)), !chars_append. done.
Qed.

(** ** Statements of the generated lines *)
Definition dq : string := text [dquote].

Lemma quoted_cons a t z :
  without dquote a → without dquote t → quoted (a +:+ dq +:+ t +:+ dq +:+ z) = t :: quoted z.
Proof.
  intros Ha Ht. unfold quoted. rewrite !chars_append. change (chars dq) with [dquote]. cbn [app].
  rewrite split_char_app by done. rewrite split_char_app by done. cbn [every_second map].
  by rewrite text_chars.
Qed.

Lemma statements_one l rest x : statement_of l rest = [x] → statements (l :: rest) = x :: statements rest.
Proof. cbn [statements]. by intros ->. Qed.

Lemma create_table_line t rest :
  without dquote t →
  statement_of "    op.create_table(" ((q "        ^" +:+ t +:+ q "^,") :: rest) = [CreateTable t].
Proof.
  intros Ht. change (q "        ^") with ("        " +:+ dq). change (q "^,") with (dq +:+ ",").
  cbn [statement_of String.eqb]. rewrite append_assoc.
  change (statement_of "    op.create_table(" (("        " +:+ dq +:+ t +:+ dq +:+ ",") :: rest))
    with (match quoted ("        " +:+ dq +:+ t +:+ dq +:+ ",") with t :: _ => [CreateTable t] | [] => [] end).
  by rewrite quoted_cons by (done || by apply without_literal).
Qed.
Lemma drop_table_line t rest :
  without dquote t → statement_of (q "    op.drop_table(^" +:+ t +:+ q "^)") rest = [DropTable t].
Proof.
  intros Ht. change (q "    op.drop_table(^") with ("    op.drop_table(" +:+ dq).
  change (q "^)") with (dq +:+ ")"). rewrite append_assoc.
  change (statement_of ("    op.drop_table(" +:+ dq +:+ t +:+ dq +:+ ")") rest)
    with (match quoted ("    op.drop_table(" +:+ dq +:+ t +:+ dq +:+ ")") with
          t :: _ => [DropTable t] | [] => [] end).
  by rewrite quoted_cons by (done || by apply without_literal).
Qed.
Lemma create_index_line i t z rest :
  without dquote i → without dquote t →
  statement_of ("    op.create_index(" +:+ dq +:+ i +:+ dq +:+ ", " +:+ dq +:+ t +:+ dq +:+ z) rest =
    [CreateIndex i t].
Proof.
  intros Hi Ht.
  change (statement_of ("    op.create_index(" +:+ dq +:+ i +:+ dq +:+ ", " +:+ dq +:+ t +:+ dq +:+ z) rest)
    with (match quoted ("    op.create_index(" +:+ dq +:+ i +:+ dq +:+ ", " +:+ dq +:+ t +:+ dq +:+ z) with
          i :: t :: _ => [CreateIndex i t] | _ => [] end).
  by rewrite !quoted_cons by (done || by apply without_literal).
Qed.
Lemma drop_index_line i t rest :
  without dquote i → without dquote t →
  statement_of ("    op.drop_index(" +:+ dq +:+ i +:+ dq +:+ ", table_name=" +:+ dq +:+ t +:+ dq +:+ ")") rest =
    [DropIndex i t].
Proof.
  intros Hi Ht.
  change (statement_of ("    op.drop_index(" +:+ dq +:+ i +:+ dq +:+ ", table_name=" +:+ dq +:+ t +:+ dq +:+ ")") rest)
    with (match quoted ("    op.drop_index(" +:+ dq +:+ i +:+ dq +:+ ", table_name=" +:+ dq +:+ t +:+ dq +:+ ")") with
          i :: t :: _ => [DropIndex i t] | _ => [] end).
  by rewrite !quoted_cons by (done || by apply without_literal).
Qed.

(** ** The generated migration *)
Create HintDb plain.
(** A property of every line of a list, by [tac]. *)
Ltac each_line tac := repeat (apply Forall_cons; split; [tac|]); try by apply Forall_nil.
#[local] Hint Resolve association_plain eq_refl : plain.
Section migration_text.
Context (d : string) (parent : option string) (rels : list string).
Hypothesis Hd : plain d = true.
Hypothesis Hparent : ∀ p, parent = Some p → plain p = true.
Hypothesis Hrels : ∀ r, r ∈ rels → plain r = true.

Definition field_of (p : string) : string := _singular p +:+ "_id".
Definition index_name (column : string) : string := "ix_" +:+ d +:+ "_" +:+ column.

(** The statements of an upgrade: the table, its indexes, the associations. *)
Definition table_statements : list statement :=
  [CreateTable d; CreateIndex (index_name "name") d; CreateIndex (index_name "code") d;
   CreateIndex (index_name "deleted_at") d] ++
  when_some parent (λ p, [CreateIndex (index_name (field_of p)) d]) ++
  map (λ r, CreateTable (_association_table d r)) rels.

#[local] Abbreviation upgrade := (upgrade_lines d (_singular d) parent (option_map field_of parent) rels).
#[local] Abbreviation downgrade := (downgrade_lines d parent (option_map field_of parent) rels).

Lemma field_plain p : plain p = true → plain (field_of p) = true.
Proof. intros Hp. apply plain_app; [by apply singular_plain|done]. Qed.
Lemma index_without c column : plain_char c = false → plain column = true → without c (index_name column).
Proof.
  intros Hc Hcol. apply plain_without; [done|].
  apply plain_app; [done|]. apply plain_app; [done|]. by apply plain_app.
Qed.
Lemma quote_free s : plain s = true → without dquote s.
Proof. by apply plain_without. Qed.


Lemma create_line column mid post z rest :
  plain column = true → mid = "_" +:+ column +:+ dq +:+ ", " +:+ dq → post = dq +:+ z →
  statement_of (q "    op.create_index(^ix_" +:+ d +:+ mid +:+ d +:+ post) rest =
    [CreateIndex (index_name column) d].
Proof.
  intros Hc -> ->. rewrite <- (create_index_line (index_name column) d z rest).
  - f_equal. unfold index_name. change (q "    op.create_index(^ix_") with ("    op.create_index(" +:+ dq +:+ "ix_").
    by rewrite !append_assoc.
  - by apply index_without.
  - by apply quote_free.
Qed.
Lemma drop_line column mid rest :
  plain column = true → mid = "_" +:+ column +:+ dq +:+ ", table_name=" +:+ dq →
  statement_of (q "    op.drop_index(^ix_" +:+ d +:+ mid +:+ d +:+ q "^)") rest =
    [DropIndex (index_name column) d].
Proof.
  intros Hc ->. rewrite <- (drop_index_line (index_name column) d rest).
  - f_equal. unfold index_name. change (q "    op.drop_index(^ix_") with ("    op.drop_index(" +:+ dq +:+ "ix_").
    change (q "^)") with (dq +:+ ")"). by rewrite !append_assoc.
  - by apply index_without.
  - by apply quote_free.
Qed.

Lemma no_statement l rest : starts_with "    op." l = false → statement_of l rest = [].
Proof.
  intros Hl. assert (∀ x, starts_with ("    op." +:+ x) l = false) as Hx.
  { intros x. apply not_true_iff_false. intros (r & ->)%starts_with_spec.
    apply not_true_iff_false in Hl. apply Hl, starts_with_spec. exists (x +:+ r). apply append_assoc. }
  unfold statement_of. destruct (String.eqb_spec l "    op.create_table(") as [->|_]; [done|].
  assert (starts_with "    op.drop_table(" l = false) as -> by exact (Hx "drop_table(").
  assert (starts_with "    op.create_index(" l = false) as -> by exact (Hx "create_index(").
  by assert (starts_with "    op.drop_index(" l = false) as -> by exact (Hx "drop_index(").
Qed.
Lemma statements_skip l rest : starts_with "    op." l = false → statements (l :: rest) = statements rest.
Proof. intros Hl. cbn [statements]. by rewrite no_statement. Qed.

Ltac literal_line lem :=
  erewrite statements_one by (first
    [ solve [eapply (lem "name"); reflexivity] | solve [eapply (lem "code"); reflexivity]
    | solve [eapply (lem "deleted_at"); reflexivity] ]).
Ltac statements_step :=
  match goal with |- context [statements (?l :: ?rest)] =>
    lazymatch l with
    | "    op.create_table(" =>
        erewrite (statements_one l) by (apply create_table_line, quote_free; solve [eauto with plain])
    | q "    op.drop_table(^" +:+ _ =>
        erewrite (statements_one l) by (apply drop_table_line, quote_free; solve [eauto with plain])
    | q "    op.create_index(^ix_" +:+ _ +:+ q _ +:+ _ => literal_line create_line
    | q "    op.drop_index(^ix_" +:+ _ +:+ q _ +:+ _ => literal_line drop_line
    | _ => rewrite (statements_skip l rest) by reflexivity
    end
  end.

Lemma create_field_line f post z rest :
  plain f = true → post = dq +:+ z →
  statement_of (q "    op.create_index(^ix_" +:+ d +:+ "_" +:+ f +:+ q "^, ^" +:+ d +:+ post) rest =
    [CreateIndex (index_name f) d].
Proof.
  intros Hf Hz. rewrite <- (create_line f ("_" +:+ f +:+ q "^, ^") post z rest) by done.
  by rewrite !append_assoc.
Qed.
Lemma drop_field_line f rest :
  plain f = true →
  statement_of (q "    op.drop_index(^ix_" +:+ d +:+ "_" +:+ f +:+ q "^, table_name=^" +:+ d +:+ q "^)") rest =
    [DropIndex (index_name f) d].
Proof.
  intros Hf. rewrite <- (drop_line f ("_" +:+ f +:+ q "^, table_name=^") rest) by done.
  by rewrite !append_assoc.
Qed.

Lemma statements_associations l rest :
  (∀ r, r ∈ l → plain r = true) →
  statements (concat (map (λ r,
    ["    op.create_table(";
     q "        ^" +:+ _association_table d r +:+ q "^,";
     "        sa.Column(";
     q "            ^" +:+ _singular d +:+ q "_id^,";
     "            sa.Uuid(),";
     q "            sa.ForeignKey(^" +:+ d +:+ q ".id^, ondelete=^CASCADE^),";
     "            primary_key=True,";
     "        ),";
     "        sa.Column(";
     q "            ^" +:+ _singular r +:+ q "_id^,";
     "            sa.Uuid(),";
     q "            sa.ForeignKey(^" +:+ r +:+ q ".id^, ondelete=^CASCADE^),";
     "            primary_key=True,";
     "        ),";
     "    )"]) l) ++ "" :: rest) =
  map (λ r, CreateTable (_association_table d r)) l ++ statements rest.
Proof.
  induction l as [|r l IH]; intros Hl; cbn [map concat app]; [by statements_step|].
  assert (plain r = true) as Hr by (apply Hl; left).
  assert (plain (_association_table d r) = true) by (by apply association_plain).
  repeat statements_step. f_equal. rewrite <- IH; [done|]. intros r' Hr'. apply Hl. by right.
Qed.

Lemma statements_upgrade rest :
  statements (upgrade ++ "" :: rest) = table_statements ++ statements rest.
Proof.
  unfold upgrade_lines, table_statements. rewrite <- !app_assoc. cbn [app].
  destruct parent as [p|] eqn:Ep; cbn [option_map app when_some from_option].
  - assert (plain (field_of p) = true) by (by apply field_plain, Hparent).
    repeat statements_step.
    rewrite (statements_one _ _ (CreateIndex (index_name (field_of p)) d))
      by (apply (create_field_line (field_of p) _ (", [" +:+ dq +:+ field_of p +:+ q "^])")); [done|reflexivity]).
    by rewrite statements_associations.
  - repeat statements_step. by rewrite statements_associations.
Qed.

Lemma statements_drops l rest :
  (∀ r, r ∈ l → plain r = true) →
  statements (map (λ r, q "    op.drop_table(^" +:+ _association_table d r +:+ q "^)") l ++ rest) =
  map (λ r, DropTable (_association_table d r)) l ++ statements rest.
Proof.
  induction l as [|r l IH]; intros Hl; cbn [map app]; [done|].
  assert (plain r = true) as Hr by (apply Hl; left).
  assert (plain (_association_table d r) = true) by (by apply association_plain).
  statements_step. f_equal. apply IH. intros r' Hr'. apply Hl. by right.
Qed.

Lemma statements_downgrade :
  statements (downgrade ++ [""]) = rev (map undo table_statements).
Proof.
  unfold downgrade_lines, table_statements. rewrite !map_app, !rev_app_distr, <- !app_assoc. cbn [app].
  rewrite statements_skip by reflexivity. rewrite statements_drops.
  2:{ intros r Hr. apply Hrels. by rewrite list_elem_of_In, <- in_rev, <- list_elem_of_In in Hr. }
  rewrite map_map, map_rev. cbn [undo]. f_equal.
  destruct parent as [p|] eqn:Ep; cbn [option_map app when_some from_option map rev undo].
  - assert (plain (field_of p) = true) by (by apply field_plain, Hparent).
    rewrite (statements_one _ _ (DropIndex (index_name (field_of p)) d)) by (by apply drop_field_line).
    by repeat statements_step.
  - by repeat statements_step.
Qed.

(** *** The lines of the text *)
Context (revision : string) (down : option string).
Hypothesis Hrev : plain revision = true.
Hypothesis Hdown : ∀ r, down = Some r → plain r = true.

#[local] Abbreviation source :=
  (_migration_source d (_singular d) parent (option_map field_of parent) rels revision down).
#[local] Abbreviation lines :=
  (migration_lines d (_singular d) parent (option_map field_of parent) rels revision down).

Lemma repr_free s : plain s = true → without newline (repr_str s).
Proof. intros Hs. rewrite repr_plain by done. repeat apply without_app; first [by apply without_literal | by apply plain_without]. Qed.

Ltac free_line :=
  lazymatch goal with
  | |- without _ (_ +:+ _) => apply without_app; free_line
  | |- without _ (repr_str _) => apply repr_free; solve [eauto with plain]
  | |- without _ (q _) => apply without_literal; reflexivity
  | |- without _ (String.String _ _) => apply without_literal; reflexivity
  | |- without _ EmptyString => apply without_literal; reflexivity
  | |- without _ _ => apply plain_without; [reflexivity|solve [eauto with plain]]
  end.
Ltac free_lines := repeat (apply Forall_cons; split; [free_line|]); try by apply Forall_nil.

Lemma lines_free : Forall (without newline) lines.
Proof.
  assert (plain (_singular d) = true) by (by apply singular_plain).
  unfold migration_lines, upgrade_lines, downgrade_lines.
  repeat (apply Forall_app; split); try free_lines; try done.
  - assert (without newline (repr_opt down)).
    { destruct down as [r|]; cbn; [by apply repr_free, Hdown|by apply without_literal]. }
    apply Forall_cons; split; [apply without_app; [by apply without_literal|done]|free_lines].
  - destruct parent as [p|]; cbn; [|done].
    assert (plain (field_of p) = true) by (by apply field_plain, Hparent). specialize (Hparent p eq_refl). free_lines.
  - destruct parent as [p|]; cbn; [|done].
    assert (plain (field_of p) = true) by (by apply field_plain, Hparent). free_lines.
  - apply Forall_concat, Forall_map, Forall_forall. intros r Hr%Hrels.
    assert (plain (_association_table d r) = true) by (by apply association_plain).
    assert (plain (_singular r) = true) by (by apply singular_plain). cbn. free_lines.
  - apply Forall_map, Forall_rev, Forall_forall. intros r Hr%Hrels.
    assert (plain (_association_table d r) = true) by (by apply association_plain). cbn. free_line.
  - destruct parent as [p|]; cbn; [|done].
    assert (plain (field_of p) = true) by (by apply field_plain, Hparent). free_lines.
Qed.

Lemma source_lines : lines_of source = lines ++ [""].
Proof.
  unfold _migration_source. assert (∃ s, join_lines lines = s +:+ text [")"%char]) as (t & Ht).
  { assert (q "    op.drop_table(^" +:+ d +:+ q "^)" = (q "    op.drop_table(^" +:+ d +:+ dq) +:+ text [")"%char])
      as E by (by rewrite !append_assoc).
    unfold migration_lines, downgrade_lines. rewrite E, !app_assoc.
    match goal with |- context [join_lines (?a ++ [?x; ?y; ?z; ?l])] =>
      change (a ++ [x; y; z; l]) with (a ++ [x; y; z] ++ [l]) end.
    rewrite app_assoc. apply join_lines_snoc. }
  rewrite Ht, rstrip_id, <- Ht by done. apply lines_of_joined; [apply lines_free|done].
Qed.

Lemma before_downgrade : Forall (λ l, is_downgrade l = false)
  (["from alembic import op"; "import sqlalchemy as sa"; ""; "";
    "revision = " +:+ repr_str revision; "down_revision = " +:+ repr_opt down;
    "branch_labels = None"; "depends_on = None"; ""; ""] ++ upgrade ++ [""; ""]).
Proof.
  unfold upgrade_lines. repeat (apply Forall_app; split); try each_line ltac:(reflexivity).
  - destruct parent; cbn; each_line ltac:(reflexivity).
  - destruct parent; cbn; each_line ltac:(reflexivity).
  - apply Forall_concat, Forall_map, Forall_forall. intros r _. cbn. each_line ltac:(reflexivity).
Qed.

Lemma take_while_app {A} (f : A → bool) l x r :
  Forall (λ y, f y = true) l → f x = false → take_while f (l ++ x :: r) = l ∧ drop_while f (l ++ x :: r) = x :: r.
Proof.
  intros Hl Hx. induction Hl as [|y l Hy _ [IH1 IH2]]; cbn; [by rewrite Hx|]. by rewrite Hy, IH1, IH2.
Qed.

Lemma source_statements :
  upgrade_of source = table_statements ∧ downgrade_of source = rev (map undo table_statements).
Proof.
  unfold upgrade_of, downgrade_of. rewrite source_lines. unfold migration_lines.
  set (first := _ :: _). 
  assert (Hl : ∀ t, (first ++ upgrade ++ [""; ""] ++ ("def downgrade() -> None:" :: t)) ++ [""] =
    (first ++ upgrade ++ [""; ""]) ++ "def downgrade() -> None:" :: t ++ [""]).
  { intros t. by rewrite <- !(app_assoc first), <- !(app_assoc upgrade). }
  change downgrade with ("def downgrade() -> None:" :: tail downgrade) at 1 2. rewrite Hl. destruct (take_while_app (λ l, negb (is_downgrade l)) (first ++ upgrade ++ [""; ""])
    "def downgrade() -> None:" (tail downgrade ++ [""])) as [-> ->]; [|done|].
  { eapply Forall_impl; [exact before_downgrade|]. by intros l ->. }
  split; [|exact statements_downgrade].
  subst first. cbn [app]. rewrite !statements_skip by reflexivity.
  change (upgrade ++ [""; ""]) with (upgrade ++ "" :: [""]). rewrite statements_upgrade.
  cbn. by rewrite app_nil_r.
Qed.

(** *** The foreign keys *)
Lemma reference_line t post :
  plain t = true → reference_of (q "            sa.ForeignKey(^" +:+ t +:+ q ".id^, ondelete=^" +:+ post) = [t].
Proof.
  intros Ht. change (q "            sa.ForeignKey(^") with ("            sa.ForeignKey(" +:+ dq).
  change (q ".id^, ondelete=^") with (".id" +:+ dq +:+ q ", ondelete=^").
  rewrite append_assoc, (append_assoc ".id"), (append_assoc dq), <- (append_assoc t).
  change (reference_of ("            sa.ForeignKey(" +:+ dq +:+ (t +:+ ".id") +:+ dq +:+ q ", ondelete=^" +:+ post))
    with (match quoted ("            sa.ForeignKey(" +:+ dq +:+ (t +:+ ".id") +:+ dq +:+ q ", ondelete=^" +:+ post) with
          | t :: _ => match split_char "." (chars t) with x :: _ => [text x] | [] => [] end
          | [] => []
          end).
  rewrite quoted_cons; [|by apply without_literal|].
  2:{ apply without_app; [by apply quote_free|by apply without_literal]. }
  rewrite chars_append. change (chars ".id") with ("."%char :: chars "id").
  rewrite split_char_app by (by apply (plain_without "." t)). by rewrite text_chars.
Qed.
Lemma reference_restrict t :
  plain t = true → reference_of (q "            sa.ForeignKey(^" +:+ t +:+ q ".id^, ondelete=^RESTRICT^),") = [t].
Proof. exact (reference_line t (q "RESTRICT^),")). Qed.
Lemma reference_cascade t :
  plain t = true → reference_of (q "            sa.ForeignKey(^" +:+ t +:+ q ".id^, ondelete=^CASCADE^),") = [t].
Proof. exact (reference_line t (q "CASCADE^),")). Qed.

Definition references_of (ls : list string) : list string := concat (map reference_of ls).
Lemma references_app a b : references_of (a ++ b) = references_of a ++ references_of b.
Proof. unfold references_of. by rewrite map_app, concat_app. Qed.
Lemma references_none ls : Forall (λ l, reference_of l = []) ls → references_of ls = [].
Proof. unfold references_of. induction 1 as [|l ls Hl _ IH]; cbn; [done|]. by rewrite Hl, IH. Qed.

Lemma source_references : references source = when_some parent (λ p, [p]) ++ concat (map (λ r, [d; r]) rels).
Proof.
  unfold references. rewrite source_lines. change (references_of (lines ++ [""]) =
    when_some parent (λ p, [p]) ++ concat (map (λ r, [d; r]) rels)).
  unfold migration_lines, upgrade_lines, downgrade_lines. rewrite !references_app.
  repeat match goal with
  | |- context [references_of (?x :: ?l)] =>
      rewrite (references_none (x :: l)) by each_line ltac:(reflexivity)
  end.
  rewrite (references_none (map _ (rev rels))) by (apply Forall_map, Forall_forall; done).
  assert (Ha : ∀ l, (∀ r, r ∈ l → plain r = true) →
    references_of (concat (map (λ r,
      ["    op.create_table("; q "        ^" +:+ _association_table d r +:+ q "^,"; "        sa.Column(";
       q "            ^" +:+ _singular d +:+ q "_id^,"; "            sa.Uuid(),";
       q "            sa.ForeignKey(^" +:+ d +:+ q ".id^, ondelete=^CASCADE^),"; "            primary_key=True,";
       "        ),"; "        sa.Column("; q "            ^" +:+ _singular r +:+ q "_id^,"; "            sa.Uuid(),";
       q "            sa.ForeignKey(^" +:+ r +:+ q ".id^, ondelete=^CASCADE^),"; "            primary_key=True,";
       "        ),"; "    )"]) l)) = concat (map (λ r, [d; r]) l)).
  { induction l as [|r l IH]; intros Hl; [done|]. cbn [map concat]. rewrite references_app, IH.
    - unfold references_of. cbn [map concat]. rewrite !reference_cascade by (done || apply Hl; left). done.
    - intros r' Hr'. apply Hl. by right. }
  rewrite (Ha rels Hrels). 
  destruct parent as [p|]; cbn [option_map when_some from_option].
  - unfold references_of at 1. cbn [map concat]. rewrite reference_restrict by (by apply Hparent).
    rewrite !references_none by each_line ltac:(reflexivity). cbn. by rewrite !app_nil_r.
  - cbn. by rewrite !app_nil_r.
Qed.
End migration_text.

(** ** Reading the migrations back *)

(** What the generator relies on of the parser: a generated migration reads back
    as its revisions and its tables. *)
Class ParserLaws `{PythonParser} :=
  parse_generated : ∀ path d parent rels revision down,
    plain d = true → (∀ p, parent = Some p → plain p = true) → (∀ r, r ∈ rels → plain r = true) →
    plain revision = true → (∀ r, down = Some r → plain r = true) →
    ∃ body, ast_parse (_migration_source d (_singular d) parent (option_map field_of parent) rels
                         revision down) = inr body ∧
      read_body path body None None [] =
        Ok (Some revision, down, d :: map (_association_table d) rels).

Lemma created_tables d parent rels : created (table_statements d parent rels) = d :: map (_association_table d) rels.
Proof.
  unfold created, table_statements. rewrite !omap_app. cbn [omap list_omap app].
  f_equal. destruct parent; cbn; induction rels as [|r rels IH]; cbn; [done|by f_equal|done|by f_equal].
Qed.

(** A parser that reads the lines of generated migrations, and the revisions as the
    migrations of the repository spell them. *)
Module LineParser.
Definition name_node (id : string) : py_node := Node (Name id) [].
Definition assign_node (x : string) (v : py_value) : py_node :=
  Node (Assign 1) [name_node x; Node (Constant v) []].
Definition create_node (t : string) : py_node :=
  Node OtherNode
    [Node (Call 1) [Node (Attribute "create_table") [name_node "op"]; Node (Constant (VStr t)) []]].
Definition annotated_node (x : string) (v : py_value) : py_node :=
  Node (AnnAssign true) [name_node x; Node OtherNode []; Node (Constant v) []].
(** The value of [x = None] and of [x = 'text'], in quotes of either kind. *)
Definition value_of (line : string) : py_value :=
  match split_char squote (chars line) with
  | _ :: v :: _ => VStr (text v)
  | _ => match split_char dquote (chars line) with _ :: v :: _ => VStr (text v) | _ => VNone end
  end.
Definition assignment_of (line : string) : list py_node :=
  if starts_with "revision = " line then [assign_node "revision" (value_of line)]
  else if starts_with "down_revision = " line then [assign_node "down_revision" (value_of line)]
  else if starts_with "revision: str = " line then [annotated_node "revision" (value_of line)]
  else if starts_with "down_revision: str | None = " line
       then [annotated_node "down_revision" (value_of line)]
  else [].
Definition parse (source : string) : string + list py_node :=
  inr (concat (map assignment_of (lines_of source)) ++ map create_node (created (upgrade_of source))).
#[export] Instance parser : PythonParser := {| ast_parse := parse |}.

Lemma value_plain pre s : without squote pre → plain s = true →
  value_of (pre +:+ repr_str s) = VStr s.
Proof.
  intros Hp Hs. unfold value_of. rewrite repr_plain, !chars_append by done.
  change (chars (text [squote])) with [squote]. cbn [app].
  rewrite split_char_app by done. rewrite split_char_app by (by apply plain_without). by rewrite text_chars.
Qed.
Lemma read_creates path ts revision down tables :
  read_body path (map create_node ts) revision down tables = Ok (revision, down, tables ++ ts).
Proof.
  revert tables. induction ts as [|t ts IH]; intros tables; [by rewrite app_nil_r|].
  cbn. rewrite IH. by rewrite <- app_assoc.
Qed.
Lemma no_assignments ls : Forall (λ l, assignment_of l = []) ls → concat (map assignment_of ls) = [].
Proof. induction 1 as [|l ls Hl _ IH]; cbn; [done|]. by rewrite Hl, IH. Qed.
Lemma revision_line x :
  assignment_of ("revision = " +:+ x) = [assign_node "revision" (value_of ("revision = " +:+ x))].
Proof.
  unfold assignment_of. by rewrite (proj2 (starts_with_spec "revision = " _)) by (by eexists).
Qed.
Lemma down_revision_line x :
  assignment_of ("down_revision = " +:+ x) =
    [assign_node "down_revision" (value_of ("down_revision = " +:+ x))].
Proof.
  unfold assignment_of. rewrite (proj2 (starts_with_spec "down_revision = " _)) by (by eexists). reflexivity.
Qed.
Lemma assignments d e parent field rels revision down :
  concat (map assignment_of (migration_lines d e parent field rels revision down ++ [""])) =
    [assign_node "revision" (value_of ("revision = " +:+ repr_str revision));
     assign_node "down_revision" (value_of ("down_revision = " +:+ repr_opt down))].
Proof.
  unfold migration_lines, upgrade_lines, downgrade_lines. rewrite !map_app, !concat_app.
  rewrite (no_assignments (map _ (rev rels))) by (apply Forall_map, Forall_forall; done).
  rewrite (no_assignments (concat (map _ rels))).
  2:{ apply Forall_concat, Forall_map, Forall_forall. intros r _. each_line ltac:(reflexivity). }
  destruct parent, field;
    repeat match goal with
    | |- context [concat (map assignment_of (?x :: ?l))] =>
        rewrite (no_assignments (x :: l)) by each_line ltac:(reflexivity)
    end; cbn [map concat]; by rewrite revision_line, down_revision_line.
Qed.

#[export] Instance laws : ParserLaws.
Proof.
  intros path d parent rels revision down Hd Hp Hr Hrev Hdown. eexists. split; [reflexivity|].
  destruct (source_statements d parent rels Hd Hp Hr revision down Hrev Hdown) as [-> _].
  rewrite source_lines, created_tables, assignments by done.
  rewrite value_plain by (first [done|by apply without_literal]).
  assert (value_of ("down_revision = " +:+ repr_opt down) = from_option VStr VNone down) as ->.
  { destruct down as [r|]; [|reflexivity]. apply value_plain; [by apply without_literal|by apply Hdown]. }
  cbn [app read_body]. destruct down; cbn; apply (read_creates path _ _ _ [d]).
Qed.
End LineParser.

(** ** The migrations of a project *)
Section history.
Context `{PythonParser}.

Definition path_of (project_root revision : string) : string :=
  versions_dir project_root +:+ revision +:+ ".py".
Definition version_files (project_root : string) (s : Project) : list (string * string) :=
  List.filter (λ f, in_versions project_root f.1) s.

(** A migration: its file and what the file reads as. *)
Definition migration : Type := (string * string) * MigrationState.
Definition states (l : list migration) : list MigrationState := map snd l.
Definition tables (l : list MigrationState) : list string := concat (map tables_of l).
Definition last_revision (l : list MigrationState) : option string := last (map revision_of l).

(** A migration that comes after those of [l]: a new revision on top of the last
    one, with tables no other migration creates. *)
Record follows (l : list MigrationState) (m : MigrationState) : Prop := {
  on_top : down_revision_of m = last_revision l;
  new_revision : revision_of m ∉ map revision_of l;
  plain_revision : plain (revision_of m) = true;
  new_tables : ∀ t, t ∈ tables_of m → t ∉ tables l
}.
Inductive in_line : list MigrationState → Prop :=
| no_migration : in_line []
| one_more l m : in_line l → follows l m → in_line (l ++ [m]).

(** The migrations of the project are those of [l], one on top of the other; those
    whose revision is of the kind the generator gives, which ends in "_relational",
    are in the file of that name. *)
Record history (project_root : string) (s : Project) (l : list migration) : Prop := {
  history_files : map fst l ≡ₚ version_files project_root s;
  history_reads : Forall (λ m : migration, _read_migration m.1.1 m.1.2 = Ok m.2) l;
  history_named : ∀ m, In m l → ends_with "_relational" (revision_of m.2) = true →
    m.1.1 = path_of project_root (revision_of m.2);
  history_line : in_line (states l)
}.

(** Migrations added at the end, whose foreign keys refer to tables there are. *)
Inductive grows (l : list migration) : list migration → Prop :=
| grows_none : grows l l
| grows_one l' m : grows l l' → follows (states l') m.2 →
    (∀ t, t ∈ references m.1.2 → t ∈ tables (states (l' ++ [m]))) → grows l (l' ++ [m]).

Lemma migrations_grow_trans l1 l2 l3 : grows l1 l2 → grows l2 l3 → grows l1 l3.
Proof. intros H12 H23. induction H23; [done|]. by apply grows_one. Qed.

(** A line that is given is checked by computing. *)
Definition follows_check (l : list MigrationState) (m : MigrationState) : bool :=
  bool_decide (down_revision_of m = last_revision l) && negb (mem_str (revision_of m) (map revision_of l)) &&
  plain (revision_of m) && forallb (λ t, negb (mem_str t (tables l))) (tables_of m).
Fixpoint line_check (before l : list MigrationState) : bool :=
  match l with [] => true | m :: rest => follows_check before m && line_check (before ++ [m]) rest end.
Lemma follows_checked l m : follows_check l m = true → follows l m.
Proof.
  unfold follows_check. rewrite !andb_true_iff, bool_decide_eq_true, forallb_forall, negb_true_iff.
  intros [[[Hd Hr] Hp] Ht]. split; [done| |done|].
  - by rewrite <- mem_str_elem, Hr.
  - intros t Hin%list_elem_of_In%Ht%negb_true_iff. by rewrite <- mem_str_elem, Hin.
Qed.
Lemma checked_line before l : in_line before → line_check before l = true → in_line (before ++ l).
Proof.
  revert before. induction l as [|m l IH]; intros before Hb Hl; [by rewrite app_nil_r|].
  cbn in Hl. apply andb_true_iff in Hl as [Hm%follows_checked Hl].
  rewrite cons_middle, app_assoc. by apply IH; [constructor|].
Qed.

(** *** A line has one head *)
Lemma line_distinct l : in_line l → NoDup (map revision_of l).
Proof.
  induction 1 as [|l m _ IH Hm]; [constructor|]. rewrite map_app. apply NoDup_app.
  split_and!; [done| |apply NoDup_singleton]. intros x Hx ->%list_elem_of_singleton. by apply Hm in Hx.
Qed.
Lemma line_referenced l r : in_line l →
  r ∈ omap down_revision_of l ↔ r ∈ map revision_of l ∧ last_revision l ≠ Some r.
Proof.
  intros Hl. induction Hl as [|l m Hl IH Hm]; [by split; [|intros [??]]|].
  unfold last_revision. rewrite omap_app, map_app. cbn [omap list_omap map].
  rewrite last_snoc, !elem_of_app, IH, (on_top _ _ Hm). split.
  - intros [[Hr Hne]|Hr].
    + split; [by left|]. intros [= <-]. by apply (new_revision _ _ Hm).
    + destruct (last_revision l) as [x|] eqn:E; [|by apply not_elem_of_nil in Hr].
      apply list_elem_of_singleton in Hr as ->.
      assert (x ∈ map revision_of l) by (apply last_Some_elem_of, E).
      split; [by left|]. intros [= <-]. by apply (new_revision _ _ Hm).
  - intros [[Hr|Hr] Hne]; [|by apply list_elem_of_singleton in Hr as ->].
    destruct (decide (last_revision l = Some r)) as [E|E]; [|by left].
    right. rewrite E. by left.
Qed.
Lemma not_in_spec l l' x : x ∈ not_in l l' ↔ x ∈ l ∧ x ∉ l'.
Proof.
  unfold not_in. rewrite !list_elem_of_In, filter_In, negb_true_iff, <- not_true_iff_false, mem_str_elem,
    list_elem_of_In. done.
Qed.
Lemma both_in_spec l l' x : x ∈ both_in l l' ↔ x ∈ l ∧ x ∈ l'.
Proof. unfold both_in. by rewrite !list_elem_of_In, filter_In, mem_str_elem, list_elem_of_In. Qed.
Lemma sorted_set_elem l x : x ∈ sorted_set l ↔ x ∈ l.
Proof. unfold sorted_set. by rewrite order_by_permutation, elem_of_remove_dups. Qed.
Lemma sorted_set_nil l : sorted_set l = [] ↔ ∀ x, x ∉ l.
Proof.
  split; [intros E x Hx%sorted_set_elem; by rewrite E in Hx; apply not_elem_of_nil in Hx|].
  intros Hl. destruct (sorted_set l) as [|x l'] eqn:E; [done|].
  destruct (Hl x). apply sorted_set_elem. rewrite E. by left.
Qed.
Lemma sorted_set_one l a : (∀ x, x ∈ l ↔ x = a) → sorted_set l = [a].
Proof.
  intros Hl. assert (Hp : sorted_set l ≡ₚ [a]).
  { unfold sorted_set. rewrite order_by_permutation. apply NoDup_Permutation;
      [apply NoDup_remove_dups|apply NoDup_singleton|].
    intros x. by rewrite elem_of_remove_dups, Hl, list_elem_of_singleton. }
  by apply Permutation_singleton_r in Hp.
Qed.

Lemma line_heads l st : in_line l → st ≡ₚ l →
  head (sorted_set (not_in (map revision_of st) (omap down_revision_of st))) = last_revision l ∧
  Nat.ltb 1 (length (sorted_set (not_in (map revision_of st) (omap down_revision_of st)))) = false.
Proof.
  intros Hl Hp.
  assert (Hx : ∀ x, x ∈ not_in (map revision_of st) (omap down_revision_of st) ↔ last_revision l = Some x).
  { intros x. rewrite not_in_spec, Hp, line_referenced by done. split.
    - intros [Hr Hn]. destruct (decide (last_revision l = Some x)); [done|]. by destruct Hn.
    - intros E. split; [by apply last_Some_elem_of|by intros [_ ?]]. }
  destruct (last_revision l) as [a|].
  - rewrite (sorted_set_one _ a); [done|]. intros x. rewrite Hx. split; [by intros [= ->]|by intros ->].
  - rewrite (proj2 (sorted_set_nil _)); [done|]. by intros x ?%Hx.
Qed.

(** *** Reading the migrations of a project *)
Lemma read_all (l : list migration) :
  Forall (λ m : migration, _read_migration m.1.1 m.1.2 = Ok m.2) l →
  read_migrations (map fst l) = Ok (states l).
Proof.
  induction 1 as [|[[p c] st] l Hm _ IH]; [done|]. cbn in *. by rewrite Hm, IH.
Qed.
Lemma history_states root s l : history root s l → ∃ st, _migration_states root s = Ok st ∧ st ≡ₚ states l.
Proof.
  intros [Hf Hr _ _]. unfold _migration_states, migration_files. fold (version_files root s).
  assert (Hp : order_by (λ a b : string * string, String.leb a.1 b.1) (version_files root s) ≡ₚ map fst l)
    by (by rewrite order_by_permutation, Hf).
  apply Permutation_map_inv in Hp as (l' & -> & Hl'). exists (states l'). split.
  - apply read_all. by rewrite <- Hl'.
  - unfold states. by rewrite Hl'.
Qed.

Lemma next_migration_ok root s l d req crt p revision down :
  history root s l → _next_migration root d req crt s = Ok (p, revision, down) →
  p = path_of root revision ∧ (∃ n, revision = four_digits n +:+ "_" +:+ d +:+ "_relational") ∧
  down = last_revision (states l) ∧
  (∀ t, t ∈ req → t ∈ tables (states l)) ∧ (∀ t, t ∈ crt → t ∉ tables (states l)).
Proof.
  intros Hh. destruct (history_states root s l Hh) as (st & Hst & Hp). unfold _next_migration.
  rewrite Hst. cbn [mbind result_bind].
  destruct (line_heads (states l) st (history_line _ _ _ Hh) Hp) as [Hhead Hone]. rewrite Hhead, Hone.
  assert (Ht : ∀ t, t ∈ concat (map tables_of st) ↔ t ∈ tables (states l)).
  { intros t. unfold tables. by rewrite <- !flat_map_concat_map, Hp. }
  destruct (bool_decide (sorted_set (not_in req _) = [])) eqn:Em; [|done]. cbn [negb].
  destruct (bool_decide (sorted_set (both_in crt _) = [])) eqn:Ed; [|done]. cbn [negb].
  apply bool_decide_eq_true in Em, Ed. pose proof (proj1 (sorted_set_nil _) Em) as Hm.
  pose proof (proj1 (sorted_set_nil _) Ed) as Hnew. intros [= <- <- <-].
  split_and!; [done|by eexists|done| |].
  - intros t Hin. rewrite <- Ht. destruct (decide (t ∈ concat (map tables_of st))); [done|].
    destruct (Hm t). by apply not_in_spec.
  - intros t Hin. rewrite <- Ht. intros Hin'. destruct (Hnew t). by apply both_in_spec.
Qed.

(** *** Files that are no migrations *)
Lemma starts_with_cancel a b c : starts_with (a +:+ b) (a +:+ c) = starts_with b c.
Proof.
  induction a as [|x a IH]; [done|].
  change (starts_with (String.String x (a +:+ b)) (String.String x (a +:+ c)) = starts_with b c).
  unfold starts_with in *. cbn [String.prefix]. by destruct (ascii_dec x x).
Qed.
Lemma source_no_migration root p :
  in_versions root (root +:+ "/apps/core_api/src/core_api" +:+ p) = false.
Proof. unfold in_versions, versions_dir. by rewrite starts_with_cancel. Qed.

Lemma set_no_migration root k v s :
  in_versions root k = false → version_files root (dset k v s) = version_files root s.
Proof.
  intros Hk. unfold version_files. induction s as [|[k' v'] s IH]; cbn; [by rewrite Hk|].
  case_bool_decide as E; cbn; [subst k'; by rewrite Hk|]. by rewrite IH.
Qed.
Lemma set_new_migration root k v s :
  in_versions root k = true → dget k s = None → version_files root (dset k v s) = version_files root s ++ [(k, v)].
Proof.
  intros Hk. unfold version_files. induction s as [|[k' v'] s IH]; cbn; [by rewrite Hk|].
  case_bool_decide as E; [done|]. intros Hs. cbn. rewrite IH by done. by destruct (in_versions root k').
Qed.

Definition put_files (files : list (string * string)) (s : Project) : Project :=
  foldl (λ s f, dset f.1 f.2 s) s files.
Lemma write_files_run files s : write_files files s = (Ok tt, put_files files s).
Proof. revert s. induction files as [|f files IH]; intros s; [done|]. exact (IH (dset f.1 f.2 s)). Qed.
Lemma put_no_migration root files s :
  Forall (λ f, in_versions root f.1 = false) files → version_files root (put_files files s) = version_files root s.
Proof.
  intros Hf. revert s. induction Hf as [|f files Hf _ IH]; intros s; [done|].
  change (put_files (f :: files) s) with (put_files files (dset f.1 f.2 s)). rewrite IH. by apply set_no_migration.
Qed.
Lemma put_keeps_absent files k s :
  k ∉ map fst files → dget k s = None → dget k (put_files files s) = None.
Proof.
  revert s. induction files as [|f files IH]; intros s; [done|].
  change (put_files (f :: files) s) with (put_files files (dset f.1 f.2 s)). cbn [map]. rewrite not_elem_of_cons.
  intros [Hne Hk] Hs. apply IH; [done|]. by rewrite dget_set_ne.
Qed.

(** *** What the relational generator writes *)
Lemma normalize_ok error value label n : _normalize_snake error value label = Ok n → snake_case n = true.
Proof. unfold _normalize_snake. destruct (snake_case _) eqn:E; cbn; [|done]. by intros [= <-]. Qed.
Lemma normalize_all_ok label values ns : normalize_all label values = Ok ns → ∀ n, n ∈ ns → snake_case n = true.
Proof.
  revert ns. induction values as [|v values IH]; intros ns; cbn; [intros [= <-] n ?%not_elem_of_nil; done|].
  destruct (_normalize_snake _ v label) as [n|] eqn:En; [|done]. cbn.
  destruct (normalize_all label values) as [ns'|] eqn:Ens; [|done]. cbn. intros [= <-] x.
  intros [->|Hx]%elem_of_cons; [by eapply normalize_ok|by eapply IH].
Qed.
Lemma each_once_elem l x : x ∈ each_once l ↔ x ∈ l.
Proof.
  unfold each_once. assert (∀ seen, x ∈ foldl (λ seen x, if mem_str x seen then seen else seen ++ [x]) seen l ↔
    x ∈ seen ∨ x ∈ l) as Hs; [|by rewrite Hs, elem_of_nil; naive_solver].
  induction l as [|y l IH]; intros seen; cbn [foldl]; [rewrite elem_of_nil; naive_solver|].
  rewrite IH. destruct (mem_str y seen) eqn:E.
  - apply mem_str_elem in E. rewrite elem_of_cons. naive_solver.
  - rewrite elem_of_app, list_elem_of_singleton, elem_of_cons. naive_solver.
Qed.

(** A domain with snake case names, apart from the domains it is related to. *)
Record domain_names (d : string) (parent : option string) (rels : list string) : Prop := {
  domain_snake : snake_case d = true;
  parent_snake : ∀ p, parent = Some p → snake_case p = true;
  related_snake : ∀ r, r ∈ rels → snake_case r = true
}.

(** A successful build: seven files of the domain and the next migration. *)
Lemma build_ok root name belongs related notes s files p revision :
  build_relational_core_domain_files root name belongs related notes s = Ok (files, p, revision) →
  ∃ d parent rels down others, domain_names d parent rels ∧
    _next_migration root d (each_once (when_some parent (λ p, [p]) ++ rels))
      (d :: map (_association_table d) rels) s = Ok (p, revision, down) ∧
    files = others ++ [(p, _migration_source d (_singular d) parent (option_map field_of parent) rels
                              revision down)] ∧
    Forall (λ f, ∃ x, f.1 = root +:+ "/apps/core_api/src/core_api" +:+ x) others ∧
    _normalize_snake relational_error name "domain" = Ok d ∧
    ∃ ns, normalize_all "many_to_many" related = Ok ns ∧ rels = each_once ns.
Proof.
  unfold build_relational_core_domain_files.
  intros (d & Ed & Hrun)%result_bind_ok.
  apply result_bind_ok in Hrun as (parent & Ep & Hrun).
  apply result_bind_ok in Hrun as (ns & Er & Hrun).
  cbv zeta in Hrun. set (rels := each_once ns) in *. destruct (_ || _) in Hrun; [done|].
  apply result_bind_ok in Hrun as (u & _ & Hrun).
  apply result_bind_ok in Hrun as ([[p' rev'] down] & En & Hrun).
  injection Hrun as <- <- <-. exists d, parent, rels, down.
  eexists (_ :: _ :: _ :: _ :: _ :: _ :: _ :: []). split_and!.
  - split; [by eapply normalize_ok| |].
    + intros x ->. destruct belongs as [b|]; [|done]. destruct (nonempty b); [|done].
      apply result_bind_ok in Ep as (n & En' & Ep). injection Ep as <-. by eapply normalize_ok.
    + intros r Hr. unfold rels in Hr. rewrite each_once_elem in Hr. by apply (normalize_all_ok _ _ _ Er).
  - exact En.
  - reflexivity.
  - unfold package_root_of. repeat (apply Forall_cons; split; [cbn [fst]; rewrite !append_assoc; eexists; reflexivity|]).
    by apply Forall_nil.
  - exact Ed.
  - by exists ns.
Qed.
Lemma normalize_all_elem label values ns : normalize_all label values = Ok ns →
  ∀ n, n ∈ ns ↔ ∃ v, v ∈ values ∧ _normalize_snake relational_error v label = Ok n.
Proof.
  revert ns. induction values as [|v values IH]; intros ns.
  - intros [= <-] n. rewrite elem_of_nil. split; [done|]. by intros (v & ?%not_elem_of_nil & _).
  - intros (n0 & En & (ns' & Ens & [= <-])%result_bind_ok)%result_bind_ok n.
    rewrite elem_of_cons, (IH _ Ens). split.
    + intros [->|(w & Hw & E)]; [exists v; split; [left|done]|exists w; split; [by right|done]].
    + intros (w & [->|Hw]%elem_of_cons & E); [left; congruence|right; by exists w].
Qed.

(** *** The new revision *)
Lemma digit_plain n : plain_char (pretty_N_char n) = true.
Proof. unfold pretty_N_char. by repeat case_match. Qed.
Lemma pretty_go_plain n t : plain t = true → plain (pretty_N_go n t) = true.
Proof.
  revert t. induction (N.lt_wf_0 n) as [n _ IH]; intros t Ht.
  destruct (decide (0 < n)%N) as [Hn|Hn].
  - rewrite pretty_N_go_step by done. apply IH; [by apply N.div_lt|].
    unfold plain in *. cbn [chars String.list_ascii_of_string forallb]. by rewrite digit_plain.
  - assert (n = 0%N) as -> by lia. by rewrite pretty_N_go_0.
Qed.
Lemma four_digits_plain n : plain (four_digits n) = true.
Proof.
  assert (Hz : plain (show_Z (Z.of_nat n)) = true).
  { destruct n as [|n]; [done|]. change (show_Z (Z.of_nat (S n))) with (pretty (Npos (Pos.of_succ_nat n))).
    unfold pretty, pretty_N. case_decide; [done|]. by apply pretty_go_plain. }
  unfold four_digits. apply plain_app; [|done]. generalize (4 - String.length (show_Z (Z.of_nat n)))%nat.
  intros k. induction k as [|k IH]; [done|]. destruct k as [|k]; [done|].
  change (String.concat "" (repeat "0" (S (S k)))) with ("0" +:+ String.concat "" (repeat "0" (S k))).
  by apply plain_app.
Qed.

Lemma ends_with_app a b : ends_with b (a +:+ b) = true.
Proof.
  unfold ends_with. rewrite chars_append, rev_app_distr. apply starts_with_spec.
  exists (text (rev (chars a))). rewrite <- (text_chars (_ +:+ _)), chars_append, !chars_text. done.
Qed.
Lemma skip_prefix a b : text (skipn (String.length a) (chars (a +:+ b))) = b.
Proof.
  assert (String.length a = length (chars a)) as ->.
  { induction a as [|c a IH]; [done|]. cbn. by f_equal. }
  rewrite chars_append, drop_app_length. apply text_chars.
Qed.
Lemma path_in_versions root revision :
  plain revision = true → (8 < length (chars revision))%nat → in_versions root (path_of root revision) = true.
Proof.
  intros Hp Hlen. unfold in_versions, path_of. rewrite skip_prefix, ends_with_app.
  rewrite (proj2 (starts_with_spec _ _)) by (by eexists). cbn [andb]. apply andb_true_iff. split.
  - apply negb_true_iff, not_true_iff_false. rewrite existsb_exists. intros (c & Hc & E%Ascii.eqb_eq). subst c.
    rewrite chars_append in Hc. apply in_app_iff in Hc as [Hc|Hc].
    + unfold plain in Hp. rewrite forallb_forall in Hp. by specialize (Hp _ Hc).
    + cbn in Hc. naive_solver.
  - apply negb_true_iff, String.eqb_neq. intros E. apply (f_equal (λ x, length (chars x))) in E.
    rewrite chars_append, length_app in E. cbn in E. lia.
Qed.
Lemma path_of_inj root r r' : path_of root r = path_of root r' → r = r'.
Proof.
  unfold path_of. intros E. apply (f_equal chars) in E. rewrite !chars_append in E.
  apply app_inv_head, app_inv_tail in E. by rewrite <- (text_chars r), E, text_chars.
Qed.
Lemma new_revision_long n d : (8 < length (chars (four_digits n +:+ "_" +:+ d +:+ "_relational")))%nat.
Proof. rewrite !chars_append, !length_app. cbn. lia. Qed.

(** *** One generation *)
Lemma line_plain l : in_line l → ∀ m, In m l → plain (revision_of m) = true.
Proof.
  induction 1 as [|l m _ IH Hm]; [done|]. intros x [Hin|[<-|[]]]%in_app_iff; [by apply IH|apply Hm].
Qed.
Lemma dget_absent {V} k (v : V) (d : list (string * V)) : dget k d = None → ¬ In (k, v) d.
Proof.
  induction d as [|[k' v'] d IH]; cbn; [by intros _ []|]. case_bool_decide as E; [done|].
  intros Hd [Hin|Hin]; [congruence|exact (IH Hd Hin)].
Qed.
Lemma absent_revision root s l revision :
  history root s l → ends_with "_relational" revision = true →
  dget (path_of root revision) s = None → revision ∉ map revision_of (states l).
Proof.
  intros Hh Hend Hnone Hin. unfold states in Hin. rewrite map_map in Hin.
  apply list_elem_of_In, in_map_iff in Hin as ([[p c] st] & <- & Hin).
  pose proof (history_named _ _ _ Hh _ Hin Hend) as Hp. cbn in Hp. subst p.
  apply (dget_absent _ c _ Hnone). apply (in_map fst) in Hin.
  apply (Permutation_in _ (history_files _ _ _ Hh)) in Hin. by apply filter_In in Hin as [? _].
Qed.
Lemma history_same root s s' l : version_files root s' = version_files root s → history root s l → history root s' l.
Proof. intros E [Hf Hr Hn Hl]. split; [by rewrite E|done..]. Qed.
Lemma relational_revision n d : ends_with "_relational" (four_digits n +:+ "_" +:+ d +:+ "_relational") = true.
Proof. rewrite <- !append_assoc. apply ends_with_app. Qed.
Lemma tables_snoc l m : tables (states (l ++ [m])) = tables (states l) ++ tables_of m.2.
Proof. unfold tables, states. rewrite !map_app, concat_app. cbn. by rewrite app_nil_r. Qed.

Lemma generated_plain root s l d parent rels revision down :
  history root s l → domain_names d parent rels →
  (∃ n, revision = four_digits n +:+ "_" +:+ d +:+ "_relational") → down = last_revision (states l) →
  plain d = true ∧ (∀ p, parent = Some p → plain p = true) ∧ (∀ r, r ∈ rels → plain r = true) ∧
  plain revision = true ∧ (∀ r, down = Some r → plain r = true).
Proof.
  intros Hh [Hd Hp Hr] (n & ->) ->. split_and!.
  - by apply snake_plain.
  - intros p E. by apply snake_plain, Hp.
  - intros r E. by apply snake_plain, Hr.
  - apply plain_app; [apply four_digits_plain|]. apply plain_app; [done|].
    apply plain_app; [by apply snake_plain|done].
  - intros r E. unfold last_revision in E.
    apply last_Some_elem_of, list_elem_of_In, in_map_iff in E as (st & <- & Hin).
    exact (line_plain _ (history_line _ _ _ Hh) st Hin).
Qed.

Lemma history_new `{!ParserLaws} root s s' l d parent rels revision down :
  history root s l → domain_names d parent rels →
  _next_migration root d (each_once (when_some parent (λ p, [p]) ++ rels))
    (d :: map (_association_table d) rels) s = Ok (path_of root revision, revision, down) →
  dget (path_of root revision) s = None →
  version_files root s' = version_files root s ++
    [(path_of root revision,
      _migration_source d (_singular d) parent (option_map field_of parent) rels revision down)] →
  ∃ l', history root s' l' ∧ grows l l'.
Proof.
  intros Hh [Hd Hp Hr] Hnext Hnone Hs'.
  destruct (next_migration_ok _ _ _ _ _ _ _ _ _ Hh Hnext) as (_ & Hrevision & Hdown & Hreq & Hcrt).
  destruct (generated_plain _ _ _ _ _ _ _ _ Hh (Build_domain_names _ _ _ Hd Hp Hr) Hrevision Hdown)
    as (Hdp & Hpp & Hrp & Hplain & Hdn).
  set (m := ((path_of root revision,
    _migration_source d (_singular d) parent (option_map field_of parent) rels revision down),
    mkMigrationState revision down (d :: map (_association_table d) rels)) : migration).
  assert (Hfollows : follows (states l) m.2).
  { split; [done| |done|exact Hcrt]. eapply absent_revision; [exact Hh| |exact Hnone].
    destruct Hrevision as (n & ->). apply relational_revision. }
  exists (l ++ [m]). split; [split|].
  - rewrite map_app, Hs'. cbn. by rewrite (history_files _ _ _ Hh).
  - apply Forall_app. split; [apply Hh|]. apply Forall_cons; split; [|by apply Forall_nil].
    unfold _read_migration. destruct (parse_generated (path_of root revision) d parent rels revision down)
      as (body & Ebody & Eread); [done..|]. cbn. by rewrite Ebody, Eread.
  - intros x [Hx|[<-|[]]]%in_app_iff; [by apply Hh|done].
  - unfold states. rewrite map_app. apply one_more; [apply Hh|exact Hfollows].
  - apply grows_one; [constructor|exact Hfollows|]. cbn [fst snd m]. rewrite source_references by done.
    intros t Ht. rewrite tables_snoc. apply elem_of_app. cbn [snd tables_of m].
    assert (Hreq' : ∀ x, x ∈ when_some parent (λ p, [p]) ++ rels → x ∈ tables (states l)).
    { intros x Hx. apply Hreq. by apply each_once_elem. }
    apply elem_of_app in Ht as [Ht|Ht]; [left; apply Hreq', elem_of_app; by left|].
    apply list_elem_of_In, in_concat in Ht as (pair & (r & <- & Hin)%in_map_iff & [<-|[<-|[]]]).
    + right. left.
    + left. apply Hreq', elem_of_app. right. by apply list_elem_of_In.
Qed.

Lemma relational_run root name belongs related notes s :
  (∃ e, generate_relational_core_domain root name belongs related notes s = (Err e, s)) ∨
  ∃ files p revision,
    build_relational_core_domain_files root name belongs related notes s = Ok (files, p, revision) ∧
    (∀ q, q ∈ map fst files → dget q s = None) ∧
    generate_relational_core_domain root name belongs related notes s = (Ok (map fst files), put_files files s).
Proof.
  unfold generate_relational_core_domain, mbind, M_bind. cbn beta.
  destruct (build_relational_core_domain_files root name belongs related notes s) as [[[files p] revision]|e];
    [|left; eexists; reflexivity].
  cbn [fst]. unfold gets. destruct (List.filter _ (map fst files)) as [|q l] eqn:Ef;
    [|left; eexists; reflexivity].
  right. exists files, p, revision. split_and!; [done| |].
  - intros q Hq. assert (¬ path_exists q s = true) as Hn.
    { intros E. assert (Hin : In q (List.filter (λ p, path_exists p s) (map fst files)))
        by (by apply filter_In; split; [apply list_elem_of_In|]). by rewrite Ef in Hin. }
    unfold path_exists in Hn. by destruct (dget q s).
  - cbn. by rewrite write_files_run.
Qed.

Lemma source_path_differs root x revision : root +:+ "/apps/core_api/src/core_api" +:+ x ≠ path_of root revision.
Proof.
  intros E. assert (Hs : starts_with (versions_dir root) (path_of root revision) = true)
    by (apply starts_with_spec; by eexists).
  rewrite <- E in Hs. unfold versions_dir in Hs. rewrite starts_with_cancel in Hs. discriminate Hs.
Qed.

Lemma relational_step `{!ParserLaws} root name belongs related notes s l :
  history root s l →
  ∃ l', history root (generate_relational_core_domain root name belongs related notes s).2 l' ∧ grows l l'.
Proof.
  intros Hh. destruct (relational_run root name belongs related notes s) as [(e & ->)|(files & p & revision & Hb & Hnew & ->)].
  { exists l. split; [done|constructor]. }
  destruct (build_ok _ _ _ _ _ _ _ _ _ Hb) as (d & parent & rels & down & others & Hn & Hnext & -> & Hothers & _).
  destruct (next_migration_ok _ _ _ _ _ _ _ _ _ Hh Hnext) as (-> & (n & Hrev) & _).
  assert (Hplain : plain revision = true).
  { rewrite Hrev. apply plain_app; [apply four_digits_plain|]. apply plain_app; [done|].
    apply plain_app; [by apply snake_plain, Hn|done]. }
  assert (Hnone : dget (path_of root revision) s = None).
  { apply Hnew. rewrite map_app, elem_of_app. right. by left. }
  assert (Hsrc : Forall (λ f, in_versions root f.1 = false) others).
  { eapply Forall_impl; [exact Hothers|]. intros f (x & ->). apply source_no_migration. }
  apply (history_new root s _ l d parent rels revision down Hh Hn Hnext Hnone). cbn [snd]. unfold put_files. rewrite foldl_app. cbn [foldl fst snd].
  fold (put_files others s). rewrite set_new_migration, put_no_migration; [done|done| |].
  - apply path_in_versions; [done|]. rewrite Hrev. apply new_revision_long.
  - apply put_keeps_absent; [|done]. intros Hin%list_elem_of_In. apply in_map_iff in Hin as (f & Hf & Hin).
    rewrite Forall_forall in Hothers. destruct (Hothers f) as (x & Hx); [by apply list_elem_of_In|].
    rewrite Hf in Hx. by apply (source_path_differs root x revision).
Qed.

(** *** The other files the generator writes *)
Lemma write_same root x t : preserves (same (version_files root)) (write_text (root +:+ "/apps/core_api/src/core_api" +:+ x) t).
Proof. intros s. apply set_no_migration, source_no_migration. Qed.
Lemma package_path root x : package_root_of root +:+ x = root +:+ "/apps/core_api/src/core_api" +:+ x.
Proof. unfold package_root_of. apply append_assoc. Qed.
Lemma register_routes_same root d e : preserves (same (version_files root)) (_register_routes (package_root_of root) d e).
Proof.
  unfold _register_routes, routes_path. rewrite package_path. apply preserves_bind; [apply _| |].
  - intros s. unfold read_text. by destruct (dget _ s).
  - intros content. apply write_same.
Qed.
Lemma register_loader_same root d c e : preserves (same (version_files root)) (_register_loader (package_root_of root) d c e).
Proof.
  unfold _register_loader, loader_path. rewrite package_path. apply preserves_bind; [apply _| |].
  - intros s. unfold read_text. by destruct (dget _ s).
  - intros content. apply write_same.
Qed.
Lemma write_all_same root files :
  Forall (λ f, ∃ x, f.1 = root +:+ "/apps/core_api/src/core_api" +:+ x) files →
  preserves (same (version_files root)) (for_each (λ f, _write f.1 f.2) files).
Proof.
  induction 1 as [|f files (x & Hx) _ IH]; cbn; [apply preserves_ret; apply _|].
  apply preserves_bind; [apply _| |by intros _]. unfold _write. rewrite Hx.
  apply preserves_bind; [apply _|apply preserves_gets; apply _|]. intros b.
  apply preserves_bind; [apply _|apply preserves_raise_if; apply _|]. intros _. apply write_same.
Qed.
Lemma memory_paths root dir d e c parent rels notes :
  dir = root +:+ "/apps/core_api/src/core_api" +:+ "/modules/" +:+ d +:+ "/" →
  Forall (λ f, ∃ x, f.1 = root +:+ "/apps/core_api/src/core_api" +:+ x) (memory_files dir d e c parent rels notes).
Proof.
  intros ->. unfold memory_files. apply Forall_app. split; [|destruct (bool_decide _)];
    repeat (apply Forall_cons; split; [cbn [fst]; rewrite !append_assoc; eexists; reflexivity|]);
    by apply Forall_nil.
Qed.

(** *** Calls of the generator *)
Record domain_request := mkDomainRequest {
  requested_name : string; belongs_to : option string; many_to_many : option string;
  relationship_notes : option string; persistence : string
}.
Definition generate (project_root : string) (c : domain_request) : M Project (list string) :=
  generate_core_domain project_root (requested_name c) (belongs_to c) (many_to_many c)
    (relationship_notes c) (persistence c).

(** What a call does to the migrations. *)
Definition keeps_line root : relation Project :=
  λ s s', ∀ l, history root s l → ∃ l', history root s' l' ∧ grows l l'.
#[local] Instance keeps_line_preorder root : PreOrder (keeps_line root).
Proof.
  split; [intros s l Hh; exists l; split; [done|constructor]|].
  intros s1 s2 s3 H12 H23 l Hl. destruct (H12 l Hl) as (l2 & Hl2 & Hg). destruct (H23 l2 Hl2) as (l3 & ? & ?).
  exists l3. split; [done|]. by eapply migrations_grow_trans.
Qed.
Lemma same_keeps_line {A} root (m : M Project A) :
  preserves (same (version_files root)) m → preserves (keeps_line root) m.
Proof.
  apply preserves_mono. intros s s' E l Hh. exists l. split; [by apply (history_same root s)|constructor].
Qed.

Lemma memory_keeps_line root d e c parent rels notes :
  preserves (keeps_line root) (for_each (λ f, _write f.1 f.2)
    (memory_files (package_root_of root +:+ "/modules/" +:+ d +:+ "/") d e c parent rels notes)).
Proof. apply same_keeps_line, write_all_same, memory_paths. by rewrite package_path. Qed.
Lemma routes_keep_line root d e : preserves (keeps_line root) (_register_routes (package_root_of root) d e).
Proof. apply same_keeps_line, register_routes_same. Qed.
Lemma loader_keeps_line root d c e : preserves (keeps_line root) (_register_loader (package_root_of root) d c e).
Proof. apply same_keeps_line, register_loader_same. Qed.
Lemma relational_keeps_line `{!ParserLaws} root name belongs related notes :
  preserves (keeps_line root) (generate_relational_core_domain root name belongs related notes).
Proof. intros s l. apply relational_step. Qed.
#[local] Hint Resolve memory_keeps_line routes_keep_line loader_keeps_line relational_keeps_line : preserve.

Lemma generate_keeps_line `{!ParserLaws} root c : preserves (keeps_line root) (generate root c).
Proof. unfold generate, generate_core_domain. preserve. Qed.

(** *** No file is overwritten *)
Definition registers root (q : string) : Prop :=
  q = routes_path (package_root_of root) ∨ q = loader_path (package_root_of root).
Definition keeps_files root : relation Project :=
  λ s s', ∀ q t, dget q s = Some t → ¬ registers root q → dget q s' = Some t.
#[local] Instance keeps_files_preorder root : PreOrder (keeps_files root).
Proof. split; [by intros s q t|]. intros s1 s2 s3 H12 H23 q t Hq Hn. by apply H23, Hn; apply H12. Qed.
Lemma write_new root p t s : dget p s = None → keeps_files root s (dset p t s).
Proof. intros Hp q t' Hq _. rewrite dget_set_ne; [done|]. congruence. Qed.
Lemma write_keeps root p t : preserves (keeps_files root) (_write p t).
Proof.
  intros s. unfold _write. erewrite bind_step_ok by reflexivity. unfold path_exists.
  destruct (dget p s) eqn:E; cbn; [reflexivity|]. by apply write_new.
Qed.
Lemma register_keeps root p t : registers root p → preserves (keeps_files root) (write_text p t).
Proof. intros Hp s q t' Hq Hn. cbn. rewrite dget_set_ne; [done|]. congruence. Qed.
Lemma routes_keep root d e : preserves (keeps_files root) (_register_routes (package_root_of root) d e).
Proof.
  apply preserves_bind; [apply _| |].
  - intros s. unfold read_text. by destruct (dget _ s).
  - intros content. apply register_keeps. by left.
Qed.
Lemma loader_keep root d c e : preserves (keeps_files root) (_register_loader (package_root_of root) d c e).
Proof.
  apply preserves_bind; [apply _| |].
  - intros s. unfold read_text. by destruct (dget _ s).
  - intros content. apply register_keeps. by right.
Qed.
Lemma put_other files q s : q ∉ map fst files → dget q (put_files files s) = dget q s.
Proof.
  revert s. induction files as [|f files IH]; intros s; [done|]. cbn [map]. rewrite not_elem_of_cons.
  intros [Hne Hq]. change (put_files (f :: files) s) with (put_files files (dset f.1 f.2 s)).
  rewrite IH by done. by apply dget_set_ne.
Qed.
Lemma relational_keep root name belongs related notes :
  preserves (keeps_files root) (generate_relational_core_domain root name belongs related notes).
Proof.
  intros s. destruct (relational_run root name belongs related notes s)
    as [(e & ->)|(files & p & revision & _ & Hnew & ->)]; [reflexivity|].
  intros q t Hq _. cbn. rewrite put_other; [done|]. intros Hin%Hnew. congruence.
Qed.
#[local] Hint Resolve write_keeps routes_keep loader_keep relational_keep : preserve.
Lemma generate_keeps_files root c : preserves (keeps_files root) (generate root c).
Proof. unfold generate, generate_core_domain. preserve. Qed.

(** Files that are there stay there. *)
Definition stays : relation Project := λ s s', ∀ q, path_exists q s = true → path_exists q s' = true.
#[local] Instance stays_preorder : PreOrder stays.
Proof. split; [by intros s q|]. intros s1 s2 s3 H12 H23 q Hq. by apply H23, H12. Qed.
Lemma set_present p t s q : path_exists q (dset p t s) = true ↔ q = p ∨ path_exists q s = true.
Proof.
  unfold path_exists. destruct (decide (p = q)) as [->|Hne]; [rewrite dget_set; naive_solver|].
  rewrite dget_set_ne by done. naive_solver.
Qed.
Lemma write_text_stays p t : preserves stays (write_text p t).
Proof. intros s q Hq. apply set_present. by right. Qed.
Lemma read_text_stays p : preserves stays (read_text p).
Proof. intros s. unfold read_text. by destruct (dget p s). Qed.
#[local] Hint Resolve write_text_stays read_text_stays : preserve.
Lemma write_stays p t : preserves stays (_write p t).
Proof. unfold _write. preserve. Qed.
Lemma put_present files s q : path_exists q (put_files files s) = true ↔ q ∈ map fst files ∨ path_exists q s = true.
Proof.
  revert s. induction files as [|f files IH]; intros s; cbn [map]; [rewrite elem_of_nil; naive_solver|].
  change (put_files (f :: files) s) with (put_files files (dset f.1 f.2 s)).
  rewrite IH, set_present, elem_of_cons. naive_solver.
Qed.
Lemma write_all_present files s u s' :
  for_each (λ f, _write f.1 f.2) files s = (Ok u, s') → ∀ q, q ∈ map fst files → path_exists q s' = true.
Proof.
  revert s. induction files as [|f files IH]; intros s; cbn [for_each map]; [by intros _ q ?%not_elem_of_nil|].
  intros (v & s1 & Hf & Hrun)%bind_ok q [->|Hq]%elem_of_cons; [|by eapply IH].
  assert (Hs : stays s1 s').
  { apply (preserves_run _ _ _ _ _ (preserves_for_each stays (λ f, _write f.1 f.2) files (λ f, write_stays _ _)) Hrun). }
  apply Hs. unfold _write in Hf. erewrite bind_step_ok in Hf by reflexivity.
  destruct (path_exists f.1 s); [done|]. injection Hf as _ <-. apply set_present. by left.
Qed.
Lemma register_present {A} (k : string → M Project A) p s a s' :
  (content ← read_text p; k content) s = (Ok a, s') → path_exists p s = true.
Proof.
  unfold read_text, mbind, M_bind, path_exists. by destruct (dget p s).
Qed.

(** A refusal of the generator changes nothing. *)
Definition refuses_clean {A} (m : M Project A) : Prop :=
  ∀ s message s', m s = (Err (DomainGeneratorError message), s') → s' = s.
Definition never_refuses {A} (m : M Project A) : Prop :=
  ∀ s message s', m s ≠ (Err (DomainGeneratorError message), s').
Lemma pure_refuses {A B} (m : M Project A) (k : A → M Project B) :
  preserves (same id) m → (∀ a, refuses_clean (k a)) → refuses_clean (m ≫= k).
Proof.
  intros Hm Hk s message s' [Hrun|(a & s1 & Hrun & Hrun')]%bind_err.
  - exact (preserves_run _ _ _ _ _ Hm Hrun).
  - apply Hk in Hrun' as ->. exact (preserves_run _ _ _ _ _ Hm Hrun).
Qed.
Lemma bind_refuses {A B} (m : M Project A) (k : A → M Project B) :
  refuses_clean m → (∀ a, never_refuses (k a)) → refuses_clean (m ≫= k).
Proof.
  intros Hm Hk s message s' [Hrun|(a & s1 & _ & Hrun)]%bind_err; [by eapply Hm|by apply Hk in Hrun].
Qed.
Lemma bind_never {A B} (m : M Project A) (k : A → M Project B) :
  never_refuses m → (∀ a, never_refuses (k a)) → never_refuses (m ≫= k).
Proof.
  intros Hm Hk s message s' [Hrun|(a & s1 & _ & Hrun)]%bind_err; [by apply Hm in Hrun|by apply Hk in Hrun].
Qed.
Lemma register_never {A} p (k : string → M Project A) :
  (∀ t, never_refuses (k t)) → never_refuses (content ← read_text p; k content).
Proof. apply bind_never. intros s message s'. unfold read_text. by destruct (dget p s). Qed.
Lemma write_never p t : never_refuses (write_text p t).
Proof. by intros s message s'. Qed.

Lemma relational_refuses_clean root c : persistence c = "relational" → refuses_clean (generate root c).
Proof.
  intros Hc. unfold generate, generate_core_domain. rewrite Hc, String.eqb_refl.
  apply pure_refuses; [apply preserves_lift, _|intros d].
  apply pure_refuses; [preserve|intros parent].
  apply pure_refuses; [apply preserves_lift, _|intros rels].
  apply pure_refuses; [apply preserves_raise_if, _|intros _].
  apply bind_refuses; [|intros created].
  - intros s message s'. unfold try_catch.
    destruct (relational_run root d parent rels (relationship_notes c) s)
      as [(e & ->)|(files & p & revision & _ & _ & ->)]; [|done].
    destruct e; by intros [= _ <-].
  - apply bind_never; [apply register_never; intros t; apply write_never|intros _].
    apply bind_never; [apply register_never; intros t; apply write_never|intros _]. by intros s message s'.
Qed.

(** What is reported as created is there. *)
Lemma created_present root c s created s' :
  generate root c s = (Ok created, s') → ∀ q, q ∈ created → path_exists q s' = true.
Proof.
  unfold generate, generate_core_domain. intros Hrun.
  apply bind_ok in Hrun as (d & s1 & _ & Hrun). apply bind_ok in Hrun as (parent & s2 & _ & Hrun).
  apply bind_ok in Hrun as (rels & s3 & _ & Hrun). apply bind_ok in Hrun as ([] & s4 & _ & Hrun).
  apply bind_ok in Hrun as (files & s5 & Hfiles & Hrun). apply bind_ok in Hrun as ([] & s6 & Hroutes & Hrun).
  apply bind_ok in Hrun as ([] & s7 & Hloader & Hrun). apply ret_ok in Hrun as [-> ->].
  assert (H56 : stays s5 s6) by (refine (preserves_run _ _ _ _ _ _ Hroutes); unfold _register_routes; preserve).
  assert (H67 : stays s6 s7) by (refine (preserves_run _ _ _ _ _ _ Hloader); unfold _register_loader; preserve).
  intros q [Hq|[->|[->|Hq]%elem_of_cons]%elem_of_cons]%elem_of_app; [| | |by apply not_elem_of_nil in Hq].
  - apply H67, H56. destruct (String.eqb (persistence c) "relational").
    + apply try_catch_ok in Hfiles as [Hfiles|(e & s8 & _ & Hfiles)]; [|by destruct e].
      destruct (relational_run root d parent rels (relationship_notes c) s4)
        as [(e & E)|(l & p & revision & _ & _ & E)]; rewrite E in Hfiles; [done|].
      injection Hfiles as <- <-. apply put_present. by left.
    + apply bind_ok in Hfiles as (u & s8 & Hw & Hfiles). apply ret_ok in Hfiles as [-> ->].
      by eapply write_all_present.
  - apply H67, H56. exact (register_present _ _ _ _ _ Hroutes).
  - apply H67. exact (register_present _ _ _ _ _ Hloader).
Qed.
End history.

(** ** The properties *)

(** C22: The migrations of the project stay one line of revisions, whatever domains
    are added, when they are one to begin with, as those of the repository are
    ([history]: every migration of the directory reads, they are one on top of the
    other with revisions of letters, digits and "_" and no table created twice, and
    one whose revision ends in "_relational" is in the file of that name).  Over
    any calls of the generator, in both persistence modes and with any arguments,
    the migrations there were are still there, in their order; each new one is on
    top of the last, has a revision of its own and creates tables no other one
    creates; and its foreign keys refer to tables that exist when it runs. *)
Theorem migrations_stay_in_line `{ParserLaws} root calls s l :
  history root s l →
  ∃ l', history root (foldl (λ s c, (generate root c s).2) s calls) l' ∧ grows l l'.
Proof.
  revert s l. induction calls as [|c calls IH]; intros s l Hl; cbn [foldl].
  - exists l. split; [done|constructor].
  - destruct (generate_keeps_line root c s l Hl) as (l1 & Hl1 & Hg).
    destruct (IH _ _ Hl1) as (l2 & Hl2 & Hg2). exists l2. split; [done|]. by eapply migrations_grow_trans.
Qed.

(** C23: In a project whose migrations are one line ([history], as for the
    repository), a generated migration can be taken back: its downgrade is its
    upgrade undone, statement by statement in the reverse order, and the upgrade
    creates the table of the domain and then one table for each related domain. *)
Theorem downgrade_undoes_upgrade `{PythonParser} root s l name belongs related notes files p revision :
  history root s l →
  build_relational_core_domain_files root name belongs related notes s = Ok (files, p, revision) →
  ∃ d rels content, In (p, content) files ∧
    downgrade_of content = rev (map undo (upgrade_of content)) ∧
    created (upgrade_of content) = d :: map (_association_table d) rels ∧
    (∀ r, r ∈ rels ↔ ∃ v, v ∈ related ∧ _normalize_snake RelationalDomainError v "many_to_many" = Ok r) ∧
    _normalize_snake RelationalDomainError name "domain" = Ok d.
Proof.
  intros Hh Hb.
  destruct (build_ok _ _ _ _ _ _ _ _ _ Hb) as (d & parent & rels & down & others & Hn & Hnext & -> & _ & Ed & ns & Ens & Er).
  destruct (next_migration_ok _ _ _ _ _ _ _ _ _ Hh Hnext) as (_ & Hrev & Hdown & _).
  destruct (generated_plain _ _ _ _ _ _ _ _ Hh Hn Hrev Hdown) as (Hd & Hp & Hr & Hrp & Hdp).
  eexists d, rels, _. split; [apply in_app_iff; right; by left|].
  destruct (source_statements d parent rels Hd Hp Hr revision down Hrp Hdp) as [-> ->].
  rewrite created_tables. split_and!; [done|done| |exact Ed].
  intros r. rewrite Er, each_once_elem. exact (normalize_all_elem _ _ _ Ens r).
Qed.

(** The generator overwrites nothing: whatever is asked for, the files of the
    project keep their texts, except for the two it registers domains in; a
    refusal in relational mode changes nothing at all; and every file that is
    reported as created is there. *)
Theorem generator_overwrites_nothing `{PythonParser} root c s r s' :
  generate root c s = (r, s') →
  (∀ q t, dget q s = Some t → q ≠ routes_path (package_root_of root) →
     q ≠ loader_path (package_root_of root) → dget q s' = Some t) ∧
  (persistence c = "relational" → ∀ message, r = Err (DomainGeneratorError message) → s' = s) ∧
  (∀ created, r = Ok created → ∀ q, q ∈ created → path_exists q s' = true).
Proof.
  intros Hrun. split_and!.
  - intros q t Hq Hr Hl. refine (preserves_run _ _ _ _ _ (generate_keeps_files root c) Hrun q t Hq _).
    by intros [?|?].
  - intros Hc message ->. by eapply relational_refuses_clean.
  - intros created ->. by eapply created_present.
Qed.

(** ** The project in the repository *)
Module GeneratorExample.
Import LineParser.

(** A migration of apps/core_api/alembic/versions, by the name of its file: the lines
    with its revisions, as it spells them, and the tables it creates, a statement
    each. *)
Definition revision_lines (revision : string) (down : option string) (annotated : bool) : list string :=
  [q ((if annotated then "revision: str = ^" else "revision = ^") +:+ revision +:+ "^");
   q ((if annotated then "down_revision: str | None = " else "down_revision = ") +:+
      from_option (λ r, "^" +:+ r +:+ "^") "None" down)].
Definition repository_migration (file revision : string) (down : option string) (annotated : bool)
    (created_tables : list string) : migration :=
  (("app/apps/core_api/alembic/versions/" +:+ file +:+ ".py",
    join_lines (revision_lines revision down annotated ++ ["def upgrade() -> None:"] ++
      concat (map (λ t, ["    op.create_table("; q "        ^" +:+ t +:+ q "^,"]) created_tables) ++
      ["def downgrade() -> None:"])),
   mkMigrationState revision down created_tables).
Definition repository_migrations : list migration :=
  [repository_migration "0001_core_base" "0001_core_base" None false [];
   repository_migration "0002_signature_workflow" "0002_signature_workflow" (Some "0001_core_base") false ["documents"; "document_versions"; "signature_requests"; "signers"; "signatures"; "audit_events"];
   repository_migration "0003_signer_link_revocation" "0003_signer_link_revocation" (Some "0002_signature_workflow") false [];
   repository_migration "0004_request_signing_token" "0004_request_signing_token" (Some "0003_signer_link_revocation") false [];
   repository_migration "0005_signed_artifacts" "0005_signed_artifacts" (Some "0004_request_signing_token") false [];
   repository_migration "0006_tenants_and_billing" "0006_tenants_billing" (Some "0005_signed_artifacts") false ["tenants"; "tenant_members"; "billing_accounts"; "billing_events"];
   repository_migration "0007_uuid_identifiers" "0007_uuid_identifiers" (Some "0006_tenants_billing") false [];
   repository_migration "0008_tenant_localization" "0008_tenant_localization" (Some "0007_uuid_identifiers") true [];
   repository_migration "0009_stripe_subscription" "0009_stripe_subscription" (Some "0008_tenant_localization") true [];
   repository_migration "0010_signature_entitlements" "0010_signature_entitlements" (Some "0009_stripe_subscription") true [];
   repository_migration "0011_billing_webhook_ordering" "0011_billing_webhook_ordering" (Some "0010_signature_entitlements") true [];
   repository_migration "0012_billing_payments" "0012_billing_payments" (Some "0011_billing_webhook_ordering") true ["billing_payments"];
   repository_migration "0013_euro_tenant_currency" "0013_euro_tenant_currency" (Some "0012_billing_payments") true [];
   repository_migration "0014_complimentary_lifetime_access" "0014_complimentary_access" (Some "0013_euro_tenant_currency") true [];
   repository_migration "0015_monthly_file_allowances" "0015_monthly_file_allowances" (Some "0014_complimentary_access") true [];
   repository_migration "0016_subscription_cancellation_schedule" "0016_subscription_cancellation" (Some "0015_monthly_file_allowances") true [];
   repository_migration "0017_signer_preferred_locale" "0017_signer_preferred_locale" (Some "0016_subscription_cancellation") true [];
   repository_migration "0018_trusted_timestamp" "0018_trusted_timestamp" (Some "0017_signer_preferred_locale") true [];
   repository_migration "0019_signature_mode" "0019_signature_mode" (Some "0018_trusted_timestamp") true [];
   repository_migration "0020_business_tenants" "0020_business_tenants" (Some "0019_signature_mode") true [];
   repository_migration "0021_public_tenant_account_slugs" "0021_public_tenant_account_slugs" (Some "0020_business_tenants") true [];
   repository_migration "0022_stable_membership_identity" "0022_stable_membership_identity" (Some "0021_public_tenant_account_slugs") true [];
   repository_migration "0023_stripe_business_identity" "0023_stripe_business_identity" (Some "0022_stable_membership_identity") true [];
   repository_migration "0024_immutable_signature_records" "0024_immutable_signature_records" (Some "0023_stripe_business_identity") true []].
Definition new_project : Project :=
  [("app/apps/core_api/src/core_api/bootstrap/routes.py",
    join_lines ["from fastapi import FastAPI"; ""; "def register_routes(app: FastAPI) -> None:";
                "    app.include_router(ui_manifest_router)"; ""]);
   ("app/apps/core_api/src/core_api/infrastructure/database/loader.py",
    "# Generated relational domains register their ORM entities here." +:+ nl)] ++
  map fst repository_migrations.
Definition authors := mkDomainRequest "Authors" None None None "relational".
Definition tags := mkDomainRequest "tags" None None (Some "free words") "relational".
Definition books := mkDomainRequest "books" (Some "authors") (Some "tags, authors") None "relational".
Definition drafts := mkDomainRequest "drafts" (Some "books") None None "memory".
Definition two_domains : Project := foldl (λ s c, (generate "app" c s).2) new_project [authors; tags].
Definition library : Project := foldl (λ s c, (generate "app" c s).2) two_domains [books; drafts].

Definition revisions (s : Project) : result (list (string * option string * list string)) :=
  sts ← _migration_states "app" s;
  Ok (map (λ m, (revision_of m, down_revision_of m, tables_of m)) sts).
(** The migrations after the 24 of the repository. *)
Definition new_revisions (s : Project) : list (string * option string * list string) :=
  match revisions s with Ok l => skipn 24 l | Err _ => [] end.
Example library_revisions :
  new_revisions library =
    [("0025_authors_relational", Some "0024_immutable_signature_records", ["authors"]);
     ("0026_tags_relational", Some "0025_authors_relational", ["tags"]);
     ("0027_books_relational", Some "0026_tags_relational", ["books"; "books_tags"; "authors_books"])].
Proof. vm_compute. reflexivity. Qed.

Lemma repository_history : history "app" new_project repository_migrations.
Proof.
  split.
  - assert (E : version_files "app" new_project = map fst repository_migrations)
      by (vm_compute; reflexivity). by rewrite E.
  - repeat (apply Forall_cons; split; [vm_compute; reflexivity|]). by apply Forall_nil.
  - intros m Hm. repeat (destruct Hm as [<-|Hm]; [intros E; vm_compute in E; discriminate E|]). destruct Hm.
  - apply (checked_line [] _ no_migration). vm_compute. reflexivity.
Qed.

Lemma migrations_stay_in_line_witness :
  ∃ l', history "app" library l' ∧ grows repository_migrations l' ∧ new_revisions library =
    [("0025_authors_relational", Some "0024_immutable_signature_records", ["authors"]);
     ("0026_tags_relational", Some "0025_authors_relational", ["tags"]);
     ("0027_books_relational", Some "0026_tags_relational", ["books"; "books_tags"; "authors_books"])].
Proof.
  destruct (migrations_stay_in_line "app" [authors; tags; books; drafts] new_project _ repository_history)
    as (l' & Hl & Hg).
  exists l'. split; [exact Hl|split; [exact Hg|exact library_revisions]].
Defined.

Definition built := build_relational_core_domain_files "app" "books" (Some "authors") ["tags"; "authors"] None two_domains.
Lemma two_history : ∃ l, history "app" two_domains l.
Proof.
  destruct (generate_keeps_line "app" authors new_project _ repository_history) as (l1 & H1 & _).
  destruct (generate_keeps_line "app" tags _ l1 H1) as (l2 & H2 & _). by exists l2.
Qed.
Lemma built_files : ∃ files, built = Ok (files, "app/apps/core_api/alembic/versions/0027_books_relational.py", "0027_books_relational").
Proof. eexists. vm_compute. reflexivity. Qed.
Lemma downgrade_undoes_upgrade_witness :
  ∃ files d rels content, In ("app/apps/core_api/alembic/versions/0027_books_relational.py", content) files ∧
    downgrade_of content = rev (map undo (upgrade_of content)) ∧
    created (upgrade_of content) = d :: map (_association_table d) rels ∧
    _normalize_snake RelationalDomainError "books" "domain" = Ok d.
Proof.
  destruct two_history as (l & Hl). destruct built_files as (files & Hb).
  destruct (downgrade_undoes_upgrade "app" two_domains l "books" (Some "authors") ["tags"; "authors"] None
              files _ _ Hl Hb) as (d & rels & content & Hin & Hdown & Hcreated & _ & Hd).
  exists files, d, rels, content. split; [exact Hin|split; [exact Hdown|split; [exact Hcreated|exact Hd]]].
Defined.

Lemma generator_overwrites_nothing_witness :
  ∃ r s', generate "app" tags two_domains = (r, s') ∧ s' = two_domains ∧
    r = Err (DomainGeneratorError "Core migrations already create table(s): tags").
Proof.
  eexists _, _. split; [vm_compute; reflexivity|]. split; [|reflexivity].
  refine (proj1 (proj2 (generator_overwrites_nothing "app" tags two_domains _ _ _)) _ _ _);
    [vm_compute; reflexivity|reflexivity|reflexivity].
Defined.
End GeneratorExample.
