(* ===== verification/WorkflowSchema.v ===== *)
(** * Enumerations and payloads of the signature workflow (workflow_schema.py,
    document_schema.py) *)

From S2P Require Import Prelude.
From S2P Require Import PyText.
From S2P Require Import Json.

Inductive RequestStatus := DRAFT | OPEN | COMPLETED | EXPIRED | CANCELLED.
#[export] Instance RequestStatus_eq_dec : EqDecision RequestStatus.
Proof. solve_decision. Defined.
Definition request_status_value (s : RequestStatus) : string :=
  match s with
  | DRAFT => "draft" | OPEN => "open" | COMPLETED => "completed"
  | EXPIRED => "expired" | CANCELLED => "cancelled"
  end.

Inductive SignerStatus := PENDING | VIEWED | SIGNED | DECLINED | SIGNER_EXPIRED.
#[export] Instance SignerStatus_eq_dec : EqDecision SignerStatus.
Proof. solve_decision. Defined.
Definition signer_status_value (s : SignerStatus) : string :=
  match s with
  | PENDING => "pending" | VIEWED => "viewed" | SIGNED => "signed"
  | DECLINED => "declined" | SIGNER_EXPIRED => "expired"
  end.

Inductive ParticipantRole :=
| PERSONAL_SIGNER | EXTERNAL_SIGNER | COMPANY_REPRESENTATIVE | CORPORATE_SEAL.
#[export] Instance ParticipantRole_eq_dec : EqDecision ParticipantRole.
Proof. solve_decision. Defined.
Definition participant_role_value (r : ParticipantRole) : string :=
  match r with
  | PERSONAL_SIGNER => "personal_signer"
  | EXTERNAL_SIGNER => "external_signer"
  | COMPANY_REPRESENTATIVE => "company_representative"
  | CORPORATE_SEAL => "corporate_seal"
  end.

Inductive SignatureMode := EVIDENCE | SERPRO_TIMESTAMP | SERPROID.
#[export] Instance SignatureMode_eq_dec : EqDecision SignatureMode.
Proof. solve_decision. Defined.
Definition signature_mode_value (m : SignatureMode) : string :=
  match m with
  | EVIDENCE => "evidence" | SERPRO_TIMESTAMP => "serpro_timestamp"
  | SERPROID => "serproid"
  end.

Inductive DocumentStatus := DOCUMENT_DRAFT | READY | ARCHIVED.
#[export] Instance DocumentStatus_eq_dec : EqDecision DocumentStatus.
Proof. solve_decision. Defined.

(** Boolean equality of the enumerations, as the code's [==] and [in]. *)
Definition is_status {A} `{EqDecision A} (a b : A) : bool := bool_decide (a = b).
Definition one_of {A} `{EqDecision A} (a : A) (l : list A) : bool := bool_decide (a ∈ l).

(** ** Payloads and answers *)
Record DocumentCreate := mkDocumentCreate {
  dc_organization_id : string; dc_title : string; dc_original_filename : string;
  dc_content_type : string; dc_created_by : string
}.
Record DocumentRead := mkDocumentRead {
  dr_id : N; dr_organization_id : string; dr_title : string; dr_original_filename : string;
  dr_content_type : string; dr_sha256 : string; dr_version : Z; dr_status : DocumentStatus;
  dr_created_by : string; dr_created_at : Z; dr_size_bytes : option Z;
  dr_signature_request_count : Z; dr_completed_signature_count : Z
}.
Record DocumentVersionRead := mkDocumentVersionRead {
  vr_document_id : N; vr_version : Z; vr_original_filename : string; vr_content_type : string;
  vr_sha256 : string; vr_size_bytes : Z; vr_created_by : string; vr_created_at : Z
}.

Record SignatureRequestCreate := mkSignatureRequestCreate {
  rc_document_id : N; rc_expires_at : Z; rc_created_by : string
}.
Record SignatureRequestRead := mkSignatureRequestRead {
  rr_id : N; rr_document_id : N; rr_document_version : Z; rr_document_sha256 : string;
  rr_status : RequestStatus; rr_expires_at : Z; rr_created_by : string; rr_created_at : Z;
  rr_completed_at : option Z; rr_signer_count : Z; rr_signed_count : Z;
  rr_document_title : string; rr_original_filename : string;
  rr_signature_mode : SignatureMode; rr_issuer_snapshot : option json
}.

Record SignerCreate := mkSignerCreate {
  sc_name : string; sc_email : string; sc_preferred_locale : string;
  sc_token_ttl_seconds : Z; sc_participant_role : ParticipantRole;
  sc_represented_tenant_id : option N
}.
(** [SignerCreate.validate_representation] *)
Definition validate_representation (s : SignerCreate) : result SignerCreate :=
  let represents_company :=
    one_of (sc_participant_role s) [COMPANY_REPRESENTATIVE; CORPORATE_SEAL] in
  if negb (Bool.eqb represents_company (bool_decide (sc_represented_tenant_id s ≠ None)))
  then Err (ValueError "represented_tenant_id is required only for company representation")
  else Ok s.

Record SignerRead := mkSignerRead {
  sr_id : N; sr_signature_request_id : N; sr_auth_user_id : string; sr_name : string;
  sr_email : string; sr_preferred_locale : string; sr_status : SignerStatus;
  sr_token_expires_at : Z; sr_link_revoked_at : option Z; sr_signed_at : option Z;
  sr_participant_role : ParticipantRole; sr_represented_tenant_id : option N;
  sr_representation_snapshot : option json
}.
Record SignerContactRead := mkSignerContactRead { cr_name : string; cr_email : string }.
Record SigningLinkRead := mkSigningLinkRead { signing_url : string }.

(** Floating point numbers are kept by their text. *)
Record StampPosition := mkStampPosition {
  st_page : Z; st_x : string; st_y : string; st_template : string;
  st_country_code : option string; st_show_flag : bool; st_template_version : string;
  st_locale : string; st_timezone : string
}.
Record ClientEvidence := mkClientEvidence {
  ce_platform : string; ce_language : string; ce_timezone : string;
  ce_screen_width : option Z; ce_screen_height : option Z
}.
Record GeolocationEvidence := mkGeolocationEvidence {
  ge_status : string; ge_latitude : option string; ge_longitude : option string;
  ge_accuracy_meters : option string
}.
Definition default_client : ClientEvidence :=
  mkClientEvidence "unknown" "unknown" "unknown" None None.
Definition unavailable_geolocation : GeolocationEvidence :=
  mkGeolocationEvidence "unavailable" None None None.

(** [model_dump()] *)
Definition dump_stamp (s : StampPosition) : json := JObj
  [("page", JNum (st_page s)); ("x", JFloat (st_x s)); ("y", JFloat (st_y s));
   ("template", JStr (st_template s)); ("country_code", jopt_str (st_country_code s));
   ("show_flag", JBool (st_show_flag s)); ("template_version", JStr (st_template_version s));
   ("locale", JStr (st_locale s)); ("timezone", JStr (st_timezone s))].
Definition dump_client (c : ClientEvidence) : json := JObj
  [("platform", JStr (ce_platform c)); ("language", JStr (ce_language c));
   ("timezone", JStr (ce_timezone c));
   ("screen_width", from_option JNum JNull (ce_screen_width c));
   ("screen_height", from_option JNum JNull (ce_screen_height c))].
Definition dump_geolocation (g : GeolocationEvidence) : json := JObj
  [("status", JStr (ge_status g));
   ("latitude", from_option JFloat JNull (ge_latitude g));
   ("longitude", from_option JFloat JNull (ge_longitude g));
   ("accuracy_meters", from_option JFloat JNull (ge_accuracy_meters g))].

Record SigningRead := mkSigningRead {
  sg_request : SignatureRequestRead; sg_signer : SignerRead; sg_document_title : string;
  sg_original_filename : string; sg_account_country : option string; sg_stamp : option json;
  sg_viewer_mode : string; sg_issuer_snapshot : option json
}.
Record SignatureEvidenceRead := mkSignatureEvidenceRead {
  er_signature_id : N; er_signer_id : N; er_request_id : N; er_document_id : N;
  er_document_version : Z; er_signed_at : Z; er_signer_name : string; er_signer_email : string;
  er_subject_hmac_sha256 : string; er_original_sha256 : string; er_evidence_sha256 : string;
  er_artifact_sha256 : string; er_evidence : json
}.
