(* ===== verification/CoreDb.v ===== *)
(** * The core database and the process state of core_api

    One record per mapped class, with the columns the code reads or writes
    ([updated_at], which only the database maintains, is left out), the tables,
    the process state around them, and the constraints a flush checks. *)

From S2P Require Import Prelude.
From S2P Require Import PyText.
From S2P Require Import Json.
From S2P Require Import Orm.
From S2P Require Import WorkflowSchema.

(** ** Entities

    Identifiers are UUIDs as 128-bit numbers, instants are microseconds since
    the epoch in UTC (a value without a time zone is read as UTC, as the code
    does). *)

(** [tenants] (tenant_entity.py) *)
Module Tenant.
Record TenantEntity := make {
  id : N;
  name : string;
  slug : string;
  status : string;
  default_locale : string;
  country_code : option string;
  timezone : string;
  currency : string;
  kind : string;
  legal_name : option string;
  registration_country : option string;
  registration_type : option string;
  registration_value_encrypted : option string;
  registration_lookup_hmac : option string;
  registration_masked : option string;
  registration_verification_status : option string;
  registration_source : option string;
  registration_provider_reference : option string;
  created_at : Z;
  deleted_at : option Z
}.
#[global] Instance TenantEntity_eta : Eta TenantEntity := λ r,
  make (id r) (name r) (slug r) (status r) (default_locale r) (country_code
     r) (timezone r) (currency r) (kind r) (legal_name r)
     (registration_country r) (registration_type r)
     (registration_value_encrypted r) (registration_lookup_hmac r)
     (registration_masked r) (registration_verification_status r)
     (registration_source r) (registration_provider_reference r)
     (created_at r) (deleted_at r).
#[global] Instance TenantEntity_eq_dec : EqDecision TenantEntity.
Proof. solve_decision. Defined.
#[global] Instance TenantEntity_entity : Entity TenantEntity := id.
End Tenant.

(** [tenant_members] (tenant_entity.py) *)
Module Member.
Record TenantMemberEntity := make {
  id : N;
  tenant_id : N;
  auth_user_id : string;
  auth_user_uuid : option N;
  role : string;
  status : string;
  joined_at : option Z;
  created_at : Z;
  deleted_at : option Z
}.
#[global] Instance TenantMemberEntity_eta : Eta TenantMemberEntity := λ r,
  make (id r) (tenant_id r) (auth_user_id r) (auth_user_uuid r) (role r)
     (status r) (joined_at r) (created_at r) (deleted_at r).
#[global] Instance TenantMemberEntity_eq_dec : EqDecision TenantMemberEntity.
Proof. solve_decision. Defined.
#[global] Instance TenantMemberEntity_entity : Entity TenantMemberEntity := id.
End Member.

(** [billing_accounts] (billing_entity.py) *)
Module Account.
Record BillingAccountEntity := make {
  id : N;
  tenant_id : N;
  status : string;
  provider : option string;
  provider_customer_id : option string;
  provider_subscription_id : option string;
  current_product_code : option string;
  current_period_ends_at : option Z;
  cancel_at_period_end : bool;
  cancels_at : option Z;
  grace_period_ends_at : option Z;
  last_provider_event_created_at : option Z;
  free_signatures_limit : Z;
  signatures_used : Z;
  files_uploaded_in_period : Z;
  usage_period_starts_at : option Z;
  complimentary_lifetime : bool;
  complimentary_granted_at : option Z;
  complimentary_granted_by : option string;
  complimentary_grant_reason : option string;
  created_at : Z;
  deleted_at : option Z
}.
#[global] Instance BillingAccountEntity_eta : Eta BillingAccountEntity := λ r,
  make (id r) (tenant_id r) (status r) (provider r) (provider_customer_id r)
     (provider_subscription_id r) (current_product_code r)
     (current_period_ends_at r) (cancel_at_period_end r) (cancels_at r)
     (grace_period_ends_at r) (last_provider_event_created_at r)
     (free_signatures_limit r) (signatures_used r)
     (files_uploaded_in_period r) (usage_period_starts_at r)
     (complimentary_lifetime r) (complimentary_granted_at r)
     (complimentary_granted_by r) (complimentary_grant_reason r)
     (created_at r) (deleted_at r).
#[global] Instance BillingAccountEntity_eq_dec : EqDecision BillingAccountEntity.
Proof. solve_decision. Defined.
#[global] Instance BillingAccountEntity_entity : Entity BillingAccountEntity := id.
End Account.

(** [billing_events] (billing_entity.py) *)
Module BillingEvent.
Record BillingEventEntity := make {
  id : N;
  tenant_id : option N;
  provider : string;
  provider_event_id : string;
  event_type : string;
  resource_id : string;
  payload_hash : string;
  payload_sanitized : json;
  status : string;
  processed_at : option Z;
  error_code : option string;
  created_at : Z;
  deleted_at : option Z
}.
#[global] Instance BillingEventEntity_eta : Eta BillingEventEntity := λ r,
  make (id r) (tenant_id r) (provider r) (provider_event_id r) (event_type r)
     (resource_id r) (payload_hash r) (payload_sanitized r) (status r)
     (processed_at r) (error_code r) (created_at r) (deleted_at r).
#[global] Instance BillingEventEntity_entity : Entity BillingEventEntity := id.
End BillingEvent.

(** [billing_payments] (billing_entity.py) *)
Module Payment.
Record BillingPaymentEntity := make {
  id : N;
  tenant_id : N;
  provider : string;
  provider_payment_id : string;
  provider_subscription_id : option string;
  provider_event_id : string;
  status : string;
  currency : string;
  amount_due_minor : Z;
  amount_paid_minor : Z;
  period_starts_at : option Z;
  period_ends_at : option Z;
  paid_at : option Z;
  created_at : Z;
  deleted_at : option Z
}.
#[global] Instance BillingPaymentEntity_eta : Eta BillingPaymentEntity := λ r,
  make (id r) (tenant_id r) (provider r) (provider_payment_id r)
     (provider_subscription_id r) (provider_event_id r) (status r)
     (currency r) (amount_due_minor r) (amount_paid_minor r)
     (period_starts_at r) (period_ends_at r) (paid_at r) (created_at r)
     (deleted_at r).
#[global] Instance BillingPaymentEntity_eq_dec : EqDecision BillingPaymentEntity.
Proof. solve_decision. Defined.
#[global] Instance BillingPaymentEntity_entity : Entity BillingPaymentEntity := id.
End Payment.

(** [documents] (document_entity.py) *)
Module Document.
Record DocumentEntity := make {
  id : N;
  organization_id : string;
  tenant_id : N;
  title : string;
  original_filename : string;
  content_type : string;
  storage_key : string;
  sha256 : string;
  version : Z;
  status : DocumentStatus;
  created_by : string;
  created_at : Z;
  deleted_at : option Z
}.
#[global] Instance DocumentEntity_eta : Eta DocumentEntity := λ r,
  make (id r) (organization_id r) (tenant_id r) (title r) (original_filename
     r) (content_type r) (storage_key r) (sha256 r) (version r) (status r)
     (created_by r) (created_at r) (deleted_at r).
#[global] Instance DocumentEntity_eq_dec : EqDecision DocumentEntity.
Proof. solve_decision. Defined.
#[global] Instance DocumentEntity_entity : Entity DocumentEntity := id.
End Document.

(** [document_versions] (document_entity.py) *)
Module Version.
Record DocumentVersionEntity := make {
  id : N;
  document_id : N;
  version : Z;
  original_filename : string;
  content_type : string;
  storage_key : string;
  sha256 : string;
  size_bytes : Z;
  created_by : string;
  created_at : Z;
  deleted_at : option Z
}.
#[global] Instance DocumentVersionEntity_eta : Eta DocumentVersionEntity := λ r,
  make (id r) (document_id r) (version r) (original_filename r) (content_type
     r) (storage_key r) (sha256 r) (size_bytes r) (created_by r)
     (created_at r) (deleted_at r).
#[global] Instance DocumentVersionEntity_eq_dec : EqDecision DocumentVersionEntity.
Proof. solve_decision. Defined.
#[global] Instance DocumentVersionEntity_entity : Entity DocumentVersionEntity := id.
End Version.

(** [signature_requests] (signature_request_entity.py) *)
Module Request.
Record SignatureRequestEntity := make {
  id : N;
  document_id : N;
  document_version : Z;
  document_sha256 : string;
  status : RequestStatus;
  expires_at : Z;
  created_by : string;
  completed_at : option Z;
  signing_token_hash : option string;
  signing_token_nonce : option string;
  signature_mode : SignatureMode;
  issuer_snapshot : option json;
  created_at : Z;
  deleted_at : option Z
}.
#[global] Instance SignatureRequestEntity_eta : Eta SignatureRequestEntity := λ r,
  make (id r) (document_id r) (document_version r) (document_sha256 r)
     (status r) (expires_at r) (created_by r) (completed_at r)
     (signing_token_hash r) (signing_token_nonce r) (signature_mode r)
     (issuer_snapshot r) (created_at r) (deleted_at r).
#[global] Instance SignatureRequestEntity_entity : Entity SignatureRequestEntity := id.
End Request.

(** [signers] (signature_request_entity.py) *)
Module Signer.
Record SignerEntity := make {
  id : N;
  signature_request_id : N;
  auth_user_id : string;
  name : string;
  email : string;
  preferred_locale : string;
  signing_token_hash : string;
  token_expires_at : Z;
  link_revoked_at : option Z;
  status : SignerStatus;
  signed_at : option Z;
  participant_role : ParticipantRole;
  represented_tenant_id : option N;
  representation_snapshot : option json;
  created_at : Z;
  deleted_at : option Z
}.
#[global] Instance SignerEntity_eta : Eta SignerEntity := λ r,
  make (id r) (signature_request_id r) (auth_user_id r) (name r) (email r)
     (preferred_locale r) (signing_token_hash r) (token_expires_at r)
     (link_revoked_at r) (status r) (signed_at r) (participant_role r)
     (represented_tenant_id r) (representation_snapshot r) (created_at r)
     (deleted_at r).
#[global] Instance SignerEntity_entity : Entity SignerEntity := id.
End Signer.

(** [signatures] (signature_request_entity.py) *)
Module Signature.
Record SignatureEntity := make {
  id : N;
  signature_request_id : N;
  signer_id : N;
  auth_user_id : string;
  document_sha256 : string;
  signed_at : Z;
  evidence_json : json;
  evidence_sha256 : option string;
  artifact_storage_key : option string;
  artifact_sha256 : option string;
  trusted_timestamp_json : option json;
  created_at : Z;
  deleted_at : option Z
}.
#[global] Instance SignatureEntity_eta : Eta SignatureEntity := λ r,
  make (id r) (signature_request_id r) (signer_id r) (auth_user_id r)
     (document_sha256 r) (signed_at r) (evidence_json r) (evidence_sha256
     r) (artifact_storage_key r) (artifact_sha256 r)
     (trusted_timestamp_json r) (created_at r) (deleted_at r).
#[global] Instance SignatureEntity_eq_dec : EqDecision SignatureEntity.
Proof. solve_decision. Defined.
#[global] Instance SignatureEntity_entity : Entity SignatureEntity := id.
End Signature.

(** [audit_events] (signature_request_entity.py) *)
Module Audit.
Record AuditEventEntity := make {
  id : N;
  signature_request_id : option N;
  occurred_at : Z;
  actor_type : string;
  actor_id : string;
  action : string;
  entity_type : string;
  entity_id : N;
  correlation_id : N;
  metadata_sanitized : json
}.
#[global] Instance AuditEventEntity_eta : Eta AuditEventEntity := λ r,
  make (id r) (signature_request_id r) (occurred_at r) (actor_type r)
     (actor_id r) (action r) (entity_type r) (entity_id r) (correlation_id
     r) (metadata_sanitized r).
#[global] Instance AuditEventEntity_eq_dec : EqDecision AuditEventEntity.
Proof. solve_decision. Defined.
#[global] Instance AuditEventEntity_entity : Entity AuditEventEntity := id.
End Audit.

(** ** The process state *)

(** An e-mail handed to the notification service: recipient, subject, text, the
    idempotency key and the heading of the template. *)
Record Email := mkEmail {
  recipient : string;
  subject : string;
  body : string;
  idempotency_key : string;
  eyebrow : string
}.
#[export] Instance Email_eq_dec : EqDecision Email.
Proof. solve_decision. Defined.

(** [AuthContext] (auth_context.py). *)
Record AuthContext := mkAuthContext {
  ctx_subject : string;
  ctx_roles : list string;
  ctx_permission_keys : list string;
  ctx_user_id : option string;
  ctx_email : string
}.

(** The tables of the core database. *)
Module Db.
Record CoreDb := make {
  tenants : table Tenant.TenantEntity;
  tenant_members : table Member.TenantMemberEntity;
  billing_accounts : table Account.BillingAccountEntity;
  billing_events : table BillingEvent.BillingEventEntity;
  billing_payments : table Payment.BillingPaymentEntity;
  documents : table Document.DocumentEntity;
  document_versions : table Version.DocumentVersionEntity;
  signature_requests : table Request.SignatureRequestEntity;
  signers : table Signer.SignerEntity;
  signatures : table Signature.SignatureEntity;
  audit_events : table Audit.AuditEventEntity
}.
#[global] Instance CoreDb_eta : Eta CoreDb := λ r,
  make (tenants r) (tenant_members r) (billing_accounts r) (billing_events r) (billing_payments r) (documents r) (document_versions r) (signature_requests r) (signers r) (signatures r) (audit_events r).
End Db.
Abbreviation CoreDb := Db.CoreDb.

(** The process around the database: the clock a request reads, the number of
    random draws made so far, the e-mails handed to the notification service,
    the object store and the authentication context of the request. *)
Module Core.
Record Core := make {
  db : CoreDb;
  clock : Z;
  draws : N;
  outbox : list Email;
  objects : gmap string string;
  auth_context : option AuthContext
}.
#[global] Instance Core_eta : Eta Core := λ r,
  make (db r) (clock r) (draws r) (outbox r) (objects r) (auth_context r).
End Core.
Abbreviation Core := Core.Core.

#[export] Instance has_tenants : HasTable Core Tenant.TenantEntity := {|
  get_table s := Db.tenants (Core.db s);
  put_table t s := s <| Core.db ::= λ d, d <| Db.tenants := t |> |>
|}.
#[export] Instance has_tenant_members : HasTable Core Member.TenantMemberEntity := {|
  get_table s := Db.tenant_members (Core.db s);
  put_table t s := s <| Core.db ::= λ d, d <| Db.tenant_members := t |> |>
|}.
#[export] Instance has_billing_accounts : HasTable Core Account.BillingAccountEntity := {|
  get_table s := Db.billing_accounts (Core.db s);
  put_table t s := s <| Core.db ::= λ d, d <| Db.billing_accounts := t |> |>
|}.
#[export] Instance has_billing_events : HasTable Core BillingEvent.BillingEventEntity := {|
  get_table s := Db.billing_events (Core.db s);
  put_table t s := s <| Core.db ::= λ d, d <| Db.billing_events := t |> |>
|}.
#[export] Instance has_billing_payments : HasTable Core Payment.BillingPaymentEntity := {|
  get_table s := Db.billing_payments (Core.db s);
  put_table t s := s <| Core.db ::= λ d, d <| Db.billing_payments := t |> |>
|}.
#[export] Instance has_documents : HasTable Core Document.DocumentEntity := {|
  get_table s := Db.documents (Core.db s);
  put_table t s := s <| Core.db ::= λ d, d <| Db.documents := t |> |>
|}.
#[export] Instance has_document_versions : HasTable Core Version.DocumentVersionEntity := {|
  get_table s := Db.document_versions (Core.db s);
  put_table t s := s <| Core.db ::= λ d, d <| Db.document_versions := t |> |>
|}.
#[export] Instance has_signature_requests : HasTable Core Request.SignatureRequestEntity := {|
  get_table s := Db.signature_requests (Core.db s);
  put_table t s := s <| Core.db ::= λ d, d <| Db.signature_requests := t |> |>
|}.
#[export] Instance has_signers : HasTable Core Signer.SignerEntity := {|
  get_table s := Db.signers (Core.db s);
  put_table t s := s <| Core.db ::= λ d, d <| Db.signers := t |> |>
|}.
#[export] Instance has_signatures : HasTable Core Signature.SignatureEntity := {|
  get_table s := Db.signatures (Core.db s);
  put_table t s := s <| Core.db ::= λ d, d <| Db.signatures := t |> |>
|}.
#[export] Instance has_audit_events : HasTable Core Audit.AuditEventEntity := {|
  get_table s := Db.audit_events (Core.db s);
  put_table t s := s <| Core.db ::= λ d, d <| Db.audit_events := t |> |>
|}.

#[export] Instance tenants_laws : TableLaws Core Tenant.TenantEntity.
Proof. by split; [| |intros [[]]]. Qed.
#[export] Instance tenant_members_laws : TableLaws Core Member.TenantMemberEntity.
Proof. by split; [| |intros [[]]]. Qed.
#[export] Instance billing_accounts_laws : TableLaws Core Account.BillingAccountEntity.
Proof. by split; [| |intros [[]]]. Qed.
#[export] Instance billing_events_laws : TableLaws Core BillingEvent.BillingEventEntity.
Proof. by split; [| |intros [[]]]. Qed.
#[export] Instance billing_payments_laws : TableLaws Core Payment.BillingPaymentEntity.
Proof. by split; [| |intros [[]]]. Qed.
#[export] Instance documents_laws : TableLaws Core Document.DocumentEntity.
Proof. by split; [| |intros [[]]]. Qed.
#[export] Instance document_versions_laws : TableLaws Core Version.DocumentVersionEntity.
Proof. by split; [| |intros [[]]]. Qed.
#[export] Instance signature_requests_laws : TableLaws Core Request.SignatureRequestEntity.
Proof. by split; [| |intros [[]]]. Qed.
#[export] Instance signers_laws : TableLaws Core Signer.SignerEntity.
Proof. by split; [| |intros [[]]]. Qed.
#[export] Instance signatures_laws : TableLaws Core Signature.SignatureEntity.
Proof. by split; [| |intros [[]]]. Qed.
#[export] Instance audit_events_laws : TableLaws Core Audit.AuditEventEntity.
Proof. by split; [| |intros [[]]]. Qed.

(** ** Constraints and the session

    What a flush checks: primary keys, the unique constraints and the foreign
    keys declared by the mapped classes.  [NULL] never conflicts. *)

Section constraints.
Import Db.
Definition tenants_ok (d : CoreDb) : bool :=
  let l := live (tenants d) in
  primary_key l && unique_on (λ r, Some (Tenant.slug r)) l.
Definition members_ok (d : CoreDb) : bool :=
  let l := live (tenant_members d) in
  primary_key l &&
  unique_on (λ r, Some (Member.tenant_id r, Member.auth_user_id r)) l &&
  unique_on (λ r, match Member.auth_user_uuid r, Member.deleted_at r with
                  | Some u, None => Some (Member.tenant_id r, u)
                  | _, _ => None
                  end) l &&
  refers (λ r, Some (Member.tenant_id r)) l (live (tenants d)).
Definition accounts_ok (d : CoreDb) : bool :=
  let l := live (billing_accounts d) in
  primary_key l &&
  unique_on (λ r, Some (Account.tenant_id r)) l &&
  unique_on Account.provider_customer_id l &&
  unique_on Account.provider_subscription_id l &&
  refers (λ r, Some (Account.tenant_id r)) l (live (tenants d)).
Definition billing_events_ok (d : CoreDb) : bool :=
  let l := live (billing_events d) in
  primary_key l &&
  unique_on (λ r, Some (BillingEvent.provider r, BillingEvent.provider_event_id r)) l &&
  refers BillingEvent.tenant_id l (live (tenants d)).
Definition payments_ok (d : CoreDb) : bool :=
  let l := live (billing_payments d) in
  primary_key l &&
  unique_on (λ r, Some (Payment.provider r, Payment.provider_payment_id r)) l &&
  refers (λ r, Some (Payment.tenant_id r)) l (live (tenants d)).
Definition documents_ok (d : CoreDb) : bool :=
  let l := live (documents d) in
  let v := live (document_versions d) in
  primary_key l && unique_on (λ r, Some (Document.storage_key r)) l &&
  refers (λ r, Some (Document.tenant_id r)) l (live (tenants d)) &&
  primary_key v &&
  unique_on (λ r, Some (Version.document_id r, Version.version r)) v &&
  unique_on (λ r, Some (Version.storage_key r)) v &&
  refers (λ r, Some (Version.document_id r)) v l.
Definition requests_ok (d : CoreDb) : bool :=
  let l := live (signature_requests d) in
  let g := live (signers d) in
  let k := live (signatures d) in
  primary_key l && unique_on Request.signing_token_hash l &&
  unique_on Request.signing_token_nonce l &&
  refers (λ r, Some (Request.document_id r)) l (live (documents d)) &&
  primary_key g &&
  unique_on (λ r, Some (Signer.signature_request_id r, Signer.auth_user_id r)) g &&
  unique_on (λ r, Some (Signer.signing_token_hash r)) g &&
  refers (λ r, Some (Signer.signature_request_id r)) g l &&
  refers Signer.represented_tenant_id g (live (tenants d)) &&
  primary_key k &&
  unique_on (λ r, Some (Signature.signature_request_id r, Signature.signer_id r)) k &&
  unique_on (λ r, Some (Signature.signature_request_id r, Signature.auth_user_id r)) k &&
  unique_on Signature.artifact_storage_key k &&
  refers (λ r, Some (Signature.signature_request_id r)) k l &&
  refers (λ r, Some (Signature.signer_id r)) k g.
Definition audit_ok (d : CoreDb) : bool :=
  let l := live (audit_events d) in
  primary_key l && refers Audit.signature_request_id l (live (signature_requests d)).

Definition schema_ok (d : CoreDb) : bool :=
  tenants_ok d && members_ok d && accounts_ok d && billing_events_ok d &&
  payments_ok d && documents_ok d && requests_ok d && audit_ok d.

Definition flush_tables (d : CoreDb) : CoreDb :=
  make (flush_table (tenants d)) (flush_table (tenant_members d))
    (flush_table (billing_accounts d)) (flush_table (billing_events d))
    (flush_table (billing_payments d)) (flush_table (documents d))
    (flush_table (document_versions d)) (flush_table (signature_requests d))
    (flush_table (signers d)) (flush_table (signatures d))
    (flush_table (audit_events d)).

(** The triggers of alembic/versions/0024_immutable_signature_records.py: a row of
    these tables that is stored is neither changed nor removed. *)
Definition rubrica_reject_immutable_record_change (d : CoreDb) : bool :=
  negb (append_only (document_versions d) && append_only (signatures d) && append_only (audit_events d)).

(** Between transactions nothing is pending. *)
Definition clean_db (d : CoreDb) : Prop := flush_tables d = d.
Definition empty_db : CoreDb :=
  make empty_table empty_table empty_table empty_table empty_table empty_table
    empty_table empty_table empty_table empty_table empty_table.
End constraints.

#[export] Instance core_session : Session Core := {|
  flush_session s :=
    if schema_ok (Core.db s) && negb (rubrica_reject_immutable_record_change (Core.db s))
    then Some (s <| Core.db ::= flush_tables |>) else None;
  rollback_session s0 s := s <| Core.db := Core.db s0 |>
|}.

Lemma flush_core_kept s s' :
  flush_session s = Some s' ↔
  schema_ok (Core.db s) = true ∧ rubrica_reject_immutable_record_change (Core.db s) = false ∧
  s' = s <| Core.db ::= flush_tables |>.
Proof.
  unfold flush_session; simpl. destruct (schema_ok _), (rubrica_reject_immutable_record_change _);
    cbn; naive_solver.
Qed.
Lemma flush_core s s' :
  flush_session s = Some s' → schema_ok (Core.db s) = true ∧ s' = s <| Core.db ::= flush_tables |>.
Proof. rewrite flush_core_kept. tauto. Qed.

Lemma clean_tenants d : clean_db d → clean (Db.tenants d).
Proof. unfold clean_db, clean. destruct d as [[]]; simpl. by intros [=]. Qed.
Lemma clean_members d : clean_db d → clean (Db.tenant_members d).
Proof. unfold clean_db, clean. destruct d as [? []]; simpl. by intros [=]. Qed.
Lemma clean_accounts d : clean_db d → clean (Db.billing_accounts d).
Proof. unfold clean_db, clean. destruct d as [? ? []]; simpl. by intros [=]. Qed.

(** ** The environment of the services

    Everything the services call that is not code of the repository, and the
    configuration: hash functions, encryption, random draws, the e-mail
    service, the HTTP answers of other services. *)

Record Settings := mkSettings {
  BILLING_PROVIDER : string;
  PUBLIC_WEB_URL : string;
  SIGNING_APP_URL : string;
  ENVIRONMENT : string;
  BILLING_GRACE_PERIOD_DAYS : Z;
  EVIDENCE_SECRET : string;
  TENANT_IDENTITY_ENCRYPTION_KEY : string;
  TENANT_IDENTITY_HMAC_KEY : string;
  SERPROID_CLIENT_ID : string;
  SERPROID_CLIENT_SECRET : string;
  SERPRO_TIMESTAMP_PROVIDER : string;
  SERPRO_TIMESTAMP_CONSUMER_KEY : string;
  SERPRO_TIMESTAMP_CONSUMER_SECRET : string;
  DOCUMENT_MAX_SIZE_BYTES : Z;
  DOCUMENT_MAX_PAGES : Z;
  CORE_INTERNAL_SERVICE_KEY : string;
  CONTACT_INBOX_EMAIL : string;
  CONTACT_TURNSTILE_SITE_KEY : string;
  CONTACT_TURNSTILE_SECRET_KEY : string;
  (** [STRIPE_PRICE_<plan>_<interval>_<currency>] *)
  STRIPE_PRICE : string → string → string → option string
}.

(** The answer of another service to an HTTP call. *)
Inductive http_answer :=
| HttpOk (body : json)
| HttpStatus (code : Z) (body : option json)
| HttpDown.

Class Env := {
  settings : Settings;
  sha256_hex : string → string;
  hmac_sha256_hex : string → string → string;
  (** [urlsafe_b64encode(sha256(secret).digest())], and [Fernet(key).encrypt(value)]
      whose first argument is the random draw. *)
  derived_key : string → string;
  fernet_encrypt : N → string → string → string;
  (** The [n]-th random draw: [uuid4()], and [token_urlsafe(k)]. *)
  uuid4_of : N → N;
  token_of : N → nat → string;
  (** Does the notification service take this e-mail? *)
  email_accepted : Email → bool;
  (** auth_api: [/users/internal/resolve] and [/users/internal/invite]. *)
  auth_resolve : string → http_answer;
  auth_invite : json → http_answer;
  (** The collation of the database. *)
  text_le : string → string → bool
}.

(** [raise WorkflowError(message, status)] *)
Definition workflow_error (message : string) (status_code : Z) : exn :=
  WorkflowError message status_code None [].

Section core_ops.
Context `{Env}.

Definition utc_now : M Core Z := gets Core.clock.
Definition draw : M Core N :=
  λ s, (Ok (Core.draws s), s <| Core.draws ::= N.succ |>).
Definition uuid4 : M Core N := n ← draw; mret (uuid4_of n).
Definition token_urlsafe (bytes : nat) : M Core string :=
  n ← draw; mret (token_of n bytes).

(** The POST of an e-mail to the notification service; an answer other than a
    success is the given exception. *)
Definition post_email (e : Email) (failure : exn) : M Core unit :=
  if email_accepted e
  then modify (λ s, s <| Core.outbox ::= λ l, l ++ [e] |>)
  else raise failure.
End core_ops.

(** ** Consistent states

    Between transactions the database has no pending change and satisfies its
    constraints; every transaction keeps it so, whatever it runs. *)
Definition consistent (s : Core) : Prop :=
  clean_db (Core.db s) ∧ schema_ok (Core.db s) = true.

Lemma schema_ok_flush d : schema_ok (flush_tables d) = schema_ok d.
Proof. reflexivity. Qed.

Lemma flush_tables_idem d : flush_tables (flush_tables d) = flush_tables d.
Proof. reflexivity. Qed.

Lemma flush_consistent s s' : flush_session s = Some s' → consistent s'.
Proof.
  intros [Hok ->]%flush_core. split; [apply flush_tables_idem|].
  simpl. by rewrite schema_ok_flush.
Qed.

Lemma transaction_consistent {A} (m : M Core A) s :
  consistent s → consistent (transaction m s).2.
Proof.
  intros Hs. unfold transaction. destruct (m s) as [[a|e] s1]; [|exact Hs].
  destruct (flush_session s1) eqn:E; [by apply flush_consistent in E | exact Hs].
Qed.

Lemma clean_flush s : clean_db (Core.db s) → flush_tables (Core.db s) = Core.db s.
Proof. done. Qed.

Section consistent_tables.
Context (s : Core) (Hs : consistent s).

Lemma schema_parts :
  tenants_ok (Core.db s) = true ∧ members_ok (Core.db s) = true ∧
  accounts_ok (Core.db s) = true ∧ billing_events_ok (Core.db s) = true ∧
  payments_ok (Core.db s) = true ∧ documents_ok (Core.db s) = true ∧
  requests_ok (Core.db s) = true ∧ audit_ok (Core.db s) = true.
Proof.
  destruct Hs as [_ Hok]. unfold schema_ok in Hok. rewrite !andb_true_iff in Hok. naive_solver.
Qed.

Lemma members_distinct : keys_distinct (live (Db.tenant_members (Core.db s))).
Proof.
  destruct schema_parts as (_ & H & _). apply primary_key_distinct.
  unfold members_ok in H. rewrite !andb_true_iff in H. naive_solver.
Qed.
Lemma tenants_distinct : keys_distinct (live (Db.tenants (Core.db s))).
Proof.
  destruct schema_parts as (H & _). apply primary_key_distinct.
  unfold tenants_ok in H. rewrite !andb_true_iff in H. naive_solver.
Qed.
Lemma accounts_distinct : keys_distinct (live (Db.billing_accounts (Core.db s))).
Proof.
  destruct schema_parts as (_ & _ & H & _). apply primary_key_distinct.
  unfold accounts_ok in H. rewrite !andb_true_iff in H. naive_solver.
Qed.

Lemma consistent_members : clean (Db.tenant_members (Core.db s)).
Proof. apply clean_members, Hs. Qed.
Lemma consistent_tenants : clean (Db.tenants (Core.db s)).
Proof. apply clean_tenants, Hs. Qed.
Lemma consistent_accounts : clean (Db.billing_accounts (Core.db s)).
Proof. apply clean_accounts, Hs. Qed.
End consistent_tables.

(** ** Frames

    What an operation leaves alone: the contents of the tables (pending changes
    included) and the clock. *)
Definition member_rows (s : Core) := live (Db.tenant_members (Core.db s)).
Definition tenant_rows (s : Core) := live (Db.tenants (Core.db s)).
Definition account_rows (s : Core) := live (Db.billing_accounts (Core.db s)).
Definition tenancy (s : Core) := (tenant_rows s, member_rows s, account_rows s, Core.clock s).

Lemma flush_tenancy s s' : flush_session s = Some s' → tenancy s' = tenancy s.
Proof. by intros [_ ->]%flush_core. Qed.

(** In a consistent state a query reads the rows themselves. *)
Section consistent_queries.
Context (s : Core) (Hs : consistent s).

Lemma scalar_member P :
  scalar (R := Member.TenantMemberEntity) P s = (Ok (List.find P (member_rows s)), s).
Proof.
  unfold scalar, gets. simpl get_table.
  by rewrite select_clean, head_filter
    by (apply consistent_members || apply members_distinct; done).
Qed.
Lemma scalars_member P :
  scalars (R := Member.TenantMemberEntity) P s = (Ok (List.filter P (member_rows s)), s).
Proof.
  unfold scalars, gets. simpl get_table.
  by rewrite select_clean by (apply consistent_members || apply members_distinct; done).
Qed.
Lemma scalars_ordered_member le P :
  scalars_ordered (R := Member.TenantMemberEntity) le P s =
    (Ok (order_by le (List.filter P (member_rows s))), s).
Proof.
  unfold scalars_ordered, gets. simpl get_table.
  by rewrite select_ordered_clean by (apply consistent_members || apply members_distinct; done).
Qed.
Lemma count_member P :
  count (R := Member.TenantMemberEntity) P s =
    (Ok (Z.of_nat (length (List.filter P (member_rows s)))), s).
Proof.
  unfold count, gets, count_rows. simpl get_table.
  by rewrite select_stored_clean by (by apply consistent_members).
Qed.
Lemma scalar_tenant P :
  scalar (R := Tenant.TenantEntity) P s = (Ok (List.find P (tenant_rows s)), s).
Proof.
  unfold scalar, gets. simpl get_table.
  by rewrite select_clean, head_filter
    by (apply consistent_tenants || apply tenants_distinct; done).
Qed.
Lemma get_tenant k :
  get (R := Tenant.TenantEntity) k s = (Ok (find_row k (tenant_rows s)), s).
Proof.
  unfold get, gets. simpl get_table. by rewrite get_row_clean by (by apply consistent_tenants).
Qed.
Lemma scalar_account P :
  scalar (R := Account.BillingAccountEntity) P s = (Ok (List.find P (account_rows s)), s).
Proof.
  unfold scalar, gets. simpl get_table.
  by rewrite select_clean, head_filter
    by (apply consistent_accounts || apply accounts_distinct; done).
Qed.
End consistent_queries.

Section core_frames.
Context `{Env} (Q : relation Core) `{!PreOrder Q}.

Lemma preserves_utc_now : preserves Q utc_now.
Proof. intros s. simpl. reflexivity. Qed.
Lemma preserves_draw : (∀ s, Q s (s <| Core.draws ::= N.succ |>)) → preserves Q draw.
Proof. intros HQ s. apply HQ. Qed.
Lemma preserves_uuid4 : (∀ s, Q s (s <| Core.draws ::= N.succ |>)) → preserves Q uuid4.
Proof. intros HQ s. apply HQ. Qed.
Lemma preserves_flush :
  (∀ s, Q s (s <| Core.db ::= flush_tables |>)) → preserves Q flush.
Proof.
  intros HQ s. unfold flush, flush_session. simpl.
  destruct (_ && _); [apply HQ | reflexivity].
Qed.
End core_frames.

#[export] Hint Resolve preserves_utc_now : preserve.
#[export] Hint Extern 2 (preserves (same _) draw) =>
  apply preserves_draw; intros ?; reflexivity : preserve.
#[export] Hint Extern 2 (preserves (same _) uuid4) =>
  apply preserves_uuid4; intros ?; reflexivity : preserve.
#[export] Hint Extern 2 (preserves (same _) flush) =>
  apply preserves_flush; [apply _ | intros ?; reflexivity] : preserve.
#[export] Hint Extern 3 (preserves (same _) (add _)) =>
  apply preserves_modify; intros ?; reflexivity : preserve.
#[export] Hint Extern 3 (preserves (same _) (assign _ _)) =>
  apply preserves_modify; intros ?; reflexivity : preserve.

(** A transaction that fails before it writes leaves the state as it was. *)
Lemma rollback_same s : rollback_session s s = s.
Proof. by destruct s. Qed.

Lemma transaction_refused {A} (m : M Core A) s e :
  m s = (Err e, s) → transaction m s = (Err e, s).
Proof. unfold transaction. intros ->. by rewrite rollback_same. Qed.

(** Nothing that is stored was changed in a consistent state. *)
Lemma clean_records d : clean_db d →
  clean (Db.document_versions d) ∧ clean (Db.signatures d) ∧ clean (Db.audit_events d).
Proof.
  assert (Hclean : ∀ R (t : table R), flush_table t = t → clean t) by (by intros R t <-).
  unfold clean_db. destruct d. cbn. intros [=]. split_and!; by apply Hclean.
Qed.
Lemma consistent_kept s : consistent s → rubrica_reject_immutable_record_change (Core.db s) = false.
Proof.
  intros Hs. pose proof (schema_parts s Hs) as (_ & _ & _ & _ & _ & Hd & Hr & Ha).
  destruct Hs as [(Cv & Ck & Ca)%clean_records _].
  unfold documents_ok in Hd. unfold requests_ok in Hr. unfold audit_ok in Ha. cbv zeta in *.
  rewrite !andb_true_iff in Hd. rewrite !andb_true_iff in Hr. rewrite !andb_true_iff in Ha.
  apply negb_false_iff. rewrite !andb_true_iff.
  split_and!; (apply append_only_clean; [done|apply primary_key_distinct; tauto]).
Qed.

Lemma flush_same s : consistent s → flush_session s = Some s.
Proof.
  intros Hs. apply flush_core_kept. split; [apply Hs|]. split; [by apply consistent_kept|].
  destruct Hs as [Hc _]. simpl. rewrite Hc. by destruct s.
Qed.

Lemma consistent_db s s' : Core.db s' = Core.db s → consistent s → consistent s'.
Proof. unfold consistent. by intros ->. Qed.

(** A transaction that fails gives the tables back. *)
Lemma transaction_err_db {A} (m : M Core A) s e s' :
  transaction m s = (Err e, s') → Core.db s' = Core.db s.
Proof. by intros (r & s1 & _ & ->)%transaction_err. Qed.

(** The recorded events of the payment provider. *)
Definition event_rows (s : Core) := live (Db.billing_events (Core.db s)).
Definition payment_rows (s : Core) := live (Db.billing_payments (Core.db s)).
Definition audit_rows (s : Core) := live (Db.audit_events (Core.db s)).

Section consistent_events.
Context (s : Core) (Hs : consistent s).

Lemma consistent_events : clean (Db.billing_events (Core.db s)).
Proof.
  destruct Hs as [Hc _]. revert Hc. unfold clean_db, clean.
  destruct (Core.db s) as [? ? ? []]; simpl. by intros [=].
Qed.
Lemma events_distinct : keys_distinct (event_rows s).
Proof.
  destruct (schema_parts s Hs) as (_ & _ & _ & H & _). apply primary_key_distinct.
  unfold billing_events_ok in H. rewrite !andb_true_iff in H. naive_solver.
Qed.
Lemma scalar_event P :
  scalar (R := BillingEvent.BillingEventEntity) P s = (Ok (List.find P (event_rows s)), s).
Proof.
  unfold scalar, gets. simpl get_table.
  by rewrite select_clean, head_filter
    by (apply consistent_events || apply events_distinct; done).
Qed.
Lemma columns_event P :
  columns (R := BillingEvent.BillingEventEntity) P s =
    (Ok (List.filter P (event_rows s)), s).
Proof.
  unfold columns, gets. simpl get_table.
  by rewrite select_stored_clean by (by apply consistent_events).
Qed.
End consistent_events.

(** Everything a webhook may change besides its own record. *)
Definition business_rows (s : Core) :=
  (tenant_rows s, member_rows s, account_rows s, payment_rows s, audit_rows s).

Lemma flush_event_rows s s' : flush_session s = Some s' → event_rows s' = event_rows s.
Proof. by intros [_ ->]%flush_core. Qed.
Lemma flush_business_rows s s' : flush_session s = Some s' → business_rows s' = business_rows s.
Proof. by intros [_ ->]%flush_core. Qed.

Lemma read_session_db {A} (m : M Core A) : preserves (same Core.db) (read_session m).
Proof. intros s. unfold read_session. by destruct (m s). Qed.
#[export] Hint Resolve read_session_db : preserve.

(** Consistency as a relation between the states around an operation. *)
Definition stays_consistent : relation Core := λ s s', consistent s → consistent s'.
#[export] Instance stays_consistent_preorder : PreOrder stays_consistent.
Proof. split; unfold stays_consistent; intros ?; auto. Qed.
Lemma transaction_stays_consistent {A} (m : M Core A) :
  preserves stays_consistent (transaction m).
Proof. intros s Hs. by apply transaction_consistent. Qed.
Lemma same_db_stays_consistent {A} (m : M Core A) :
  preserves (same Core.db) m → preserves stays_consistent m.
Proof. intros Hm s Hs. apply (consistent_db s); [apply Hm | done]. Qed.
#[export] Hint Resolve transaction_stays_consistent : preserve.

(** The columns of an account a constraint mentions. *)
Definition account_keys (a : Account.BillingAccountEntity) :=
  (Account.id a, Account.tenant_id a, Account.provider_customer_id a,
   Account.provider_subscription_id a).

Lemma alter_account_flush s k f :
  consistent s → (∀ a, account_keys (f a) = account_keys a) →
  ∃ s', flush_session (put_table (mutate f k (Db.billing_accounts (Core.db s))) s) = Some s' ∧
    account_rows s' = alter_rows f k (account_rows s) ∧ Core.clock s' = Core.clock s ∧
    tenant_rows s' = tenant_rows s ∧ member_rows s' = member_rows s.
Proof.
  intros Hs Hf. pose proof (consistent_kept s Hs) as Hkept. destruct Hs as [Hc Hok].
  exists ((put_table (mutate f k (Db.billing_accounts (Core.db s))) s)
            <| Core.db ::= flush_tables |>).
  split; [|done]. apply flush_core_kept. split; [|split; [exact Hkept|reflexivity]].
  rewrite <- Hok. unfold schema_ok. simpl. do 5 f_equal.
  unfold accounts_ok, primary_key. simpl.
  assert (Hk : ∀ a, Account.id (f a) = Account.id a ∧ Account.tenant_id (f a) = Account.tenant_id a ∧
    Account.provider_customer_id (f a) = Account.provider_customer_id a ∧
    Account.provider_subscription_id (f a) = Account.provider_subscription_id a).
  { intros a. specialize (Hf a). unfold account_keys in Hf. by simplify_eq. }
  rewrite !unique_on_alter, refers_alter;
    [done|intros r; destruct (Hk r) as (E1 & E2 & E3 & E4);
     first [exact E3 | exact E4 | exact (f_equal Some E1) | exact (f_equal Some E2)]..].
Qed.

Section consistent_accounts.
Context (s : Core) (Hs : consistent s).
Lemma deref_account k :
  deref (R := Account.BillingAccountEntity) k s =
    (match find_row k (account_rows s) with Some a => Ok a | None => Err KeyError end, s).
Proof. unfold deref. simpl. unfold account_rows. by destruct (find_row _ _). Qed.
End consistent_accounts.

(** * A small database

    Concrete functions for the parameters of the services and a consistent
    database, on which the theorems with hypotheses are instantiated: a
    business tenant on the team plan with an administrator and a member, and a
    personal tenant without a plan. *)

Module Example.

Definition settings : Settings :=
  mkSettings "fake" "https://app.example" "https://sign.example" "test" 7 "evidence-secret"
    "encryption-key" "hmac-key" "" "" "" "" "" 10485760 100 "service-key" "contact@app.example"
    "site-key" "turnstile-key"
    (λ plan interval currency, Some (plan +:+ "_" +:+ interval +:+ "_" +:+ currency)).

#[export] Instance env : Env := {|
  CoreDb.settings := settings;
  sha256_hex v := "sha256:" +:+ v;
  hmac_sha256_hex k v := "hmac:" +:+ k +:+ ":" +:+ v;
  derived_key k := "key:" +:+ k;
  fernet_encrypt n k v := "fernet:" +:+ k +:+ ":" +:+ v;
  uuid4_of n := (1000 + n)%N;
  token_of n _ := "token-" +:+ show_Z (Z.of_N n);
  email_accepted _ := true;
  auth_resolve _ := HttpOk (JObj [("user_id", JStr (uuid_str 77))]);
  auth_invite _ := HttpOk (JObj [("user_id", JStr (uuid_str 78))]);
  text_le := String.leb
|}.

Definition now : Z := 1750000000000000.

Definition acme : Tenant.TenantEntity :=
  Tenant.make 1 "Acme" "acme" "active" "en" (Some "BR") "UTC" "BRL" "personal" None None None
    None None None None None None now None.
Definition solo : Tenant.TenantEntity :=
  Tenant.make 2 "Solo" "solo" "active" "en" (Some "BR") "UTC" "BRL" "personal" None None None
    None None None None None None now None.
Definition admin : Member.TenantMemberEntity :=
  Member.make 11 1 "admin@acme.com" (Some 501%N) "admin" "active" (Some now) now None.
Definition clerk : Member.TenantMemberEntity :=
  Member.make 12 1 "clerk@acme.com" (Some 502%N) "member" "active" (Some now) now None.
Definition loner : Member.TenantMemberEntity :=
  Member.make 13 2 "loner@solo.com" None "admin" "active" (Some now) now None.
Definition team_account : Account.BillingAccountEntity :=
  Account.make 21 1 "active" (Some "stripe") (Some "cus_1") (Some "sub_1") (Some "rubrica_team")
    None false None None None 5 0 0 (Some now) false None None None now None.
Definition free_account : Account.BillingAccountEntity :=
  Account.make 22 2 "not_configured" None None None None None false None None None 5 0 0 None
    false None None None now None.

Definition row {R} (l : list R) : table R := Table l l.

Definition db (members : list Member.TenantMemberEntity)
    (accounts : list Account.BillingAccountEntity) : CoreDb :=
  empty_db <| Db.tenants := row [acme; solo] |> <| Db.tenant_members := row members |>
           <| Db.billing_accounts := row accounts |>.

Definition context : AuthContext := mkAuthContext "admin@acme.com" [] [] (Some (uuid_str 501)) "admin@acme.com".

Definition core (d : CoreDb) : Core := Core.make d now 0 [] ∅ (Some context).

(** The whole example, and the variant after a downgrade of the first tenant. *)
Definition s0 : Core := core (db [admin; clerk; loner] [team_account; free_account]).
Definition downgraded : Core :=
  core (db [admin; clerk; loner]
    [team_account <| Account.status := "cancelled" |>; free_account]).

Lemma s0_consistent : consistent s0.
Proof. split; vm_compute; reflexivity. Qed.
Lemma downgraded_consistent : consistent downgraded.
Proof. split; vm_compute; reflexivity. Qed.
End Example.
