(* ===== verification/Storage.v ===== *)
(** * Document storage (document/storage.py)

    The object store of uploaded and signed documents: its interface with its
    laws, the local backend on the file tree below the storage root, and the
    R2 backend on an S3-compatible client.  Keys of the service end in a fresh
    32-digit name, so no key is a directory of another one; the model of the
    file tree has files only. *)

From S2P Require Import Prelude.
From S2P Require Import PyText.
From S2P Require Import Json.
From S2P Require Import Orm.
From S2P Require Import WorkflowSchema.
From S2P Require Import CoreDb.

Local Open Scope Z_scope.

(** ** Keys *)
Definition storage_char (c : ascii) : bool :=
  is_alnum c || Ascii.eqb c "_" || Ascii.eqb c "-".

(** The segments of a path. *)
Fixpoint split_slash (l : list ascii) : list (list ascii) :=
  match l with
  | [] => [[]]
  | c :: l' =>
      if Ascii.eqb c "/" then [] :: split_slash l'
      else match split_slash l' with
           | seg :: segs => (c :: seg) :: segs
           | [] => [[c]]
           end
  end.

(** [_STORAGE_KEY.fullmatch(key)]: non-empty segments of the allowed characters. *)
Definition storage_key_matches (key : string) : bool :=
  forallb (λ seg, negb (Nat.eqb (length seg) 0) && forallb storage_char seg)
    (split_slash (chars key)).

Definition validate_storage_key (key : string) : result unit :=
  if (240 <? Z.of_nat (String.length key)) || negb (storage_key_matches key)
  then Err (FileNotFoundError key) else Ok tt.

Definition document_storage_scope (tenant_id account_id : N) : string :=
  "tenants/" +:+ uuid_str tenant_id +:+ "/accounts/" +:+ uuid_str account_id +:+ "/files".

(** A fresh key: [f"{scope.strip('/')}/{uuid4().hex}" if scope else uuid4().hex] *)
Definition fresh_key `{Env} (scope : option string) : M Core string :=
  u ← uuid4;
  mret (match scope with
        | Some sc => if nonempty sc then strip_slash sc +:+ "/" +:+ uuid_hex u else uuid_hex u
        | None => uuid_hex u
        end).

(** ** The interface *)
Class DocumentStorage := {
  put (content filename : string) (sha256 scope : option string) : M Core (string * Z);
  get_object (storage_key : string) : M Core string;
  discard_uncommitted (storage_key : string) : M Core unit
}.

(** Everything of the process but the object store and the random draws. *)
Definition outside_view (s : Core) :=
  (Core.db s, Core.clock s, Core.outbox s, Core.auth_context s).

(** Draws are never taken back. *)
Definition draws_grow : relation Core := λ s s', (Core.draws s ≤ Core.draws s')%N.
#[export] Instance draws_grow_preorder : PreOrder draws_grow.
Proof. unfold draws_grow. split; [intros s; lia|intros s1 s2 s3; lia]. Qed.
Lemma uuid4_grows `{Env} : preserves draws_grow uuid4.
Proof. apply preserves_uuid4. intros s. unfold draws_grow. cbn. lia. Qed.
#[export] Hint Resolve uuid4_grows : preserve.

(** What the workflow relies on.  [held s k] is what the store holds under a
    key. *)
Class DocumentStorageLaws `{DocumentStorage} (held : Core → string → option string) : Prop := {
  put_outside c f h sc : preserves (same outside_view) (put c f h sc);
  get_outside k : preserves (same (λ s, (outside_view s, Core.draws s))) (get_object k);
  discard_outside k : preserves (same (λ s, (outside_view s, Core.draws s))) (discard_uncommitted k);
  (** A successful [put] stores the content under a key that was free, says its
      size, and touches no other key. *)
  put_stores c f h sc s key size s' :
    put c f h sc s = (Ok (key, size), s') →
    held s key = None ∧ held s' key = Some c ∧ size = Z.of_nat (String.length c) ∧
    ∀ k, k ≠ key → held s' k = held s k;
  put_fails c f h sc s e s' : put c f h sc s = (Err e, s') → ∀ k, held s' k = held s k;
  (** Reading changes nothing and returns what is held. *)
  get_returns k s c s' : get_object k s = (Ok c, s') → held s k = Some c;
  get_held k s s' r : get_object k s = (r, s') → ∀ k', held s' k' = held s k';
  (** Discarding touches no other key. *)
  discard_only k s r s' :
    discard_uncommitted k s = (r, s') → ∀ k', k' ≠ k → held s' k' = held s k';
  put_draws c f h sc : preserves draws_grow (put c f h sc);
  (** What is held is the object store of the state. *)
  held_outside s s' : Core.objects s' = Core.objects s → ∀ k, held s' k = held s k
}.

(** ** The local backend *)
Module LocalDocumentStorage.
Section local.
Context `{Env}.

(** The file of a new key is created exclusively and written. *)
Definition create_file (content key : string) : M Core (string * Z) :=
  lift (validate_storage_key key);;
  existing ← gets (λ s, Core.objects s !! key);
  raise_if (bool_decide (existing ≠ None)) (FileExistsError key);;
  modify (λ s, s <| Core.objects ::= λ o, <[key := content]> o |>);;
  mret (key, Z.of_nat (String.length content)).

Definition put (content filename : string) (sha256 scope : option string)
    : M Core (string * Z) :=
  key ← fresh_key scope; create_file content key.

Definition get (storage_key : string) : M Core string :=
  lift (validate_storage_key storage_key);;
  found ← gets (λ s, Core.objects s !! storage_key);
  some_or found (FileNotFoundError storage_key).

Definition discard_uncommitted (storage_key : string) : M Core unit :=
  lift (validate_storage_key storage_key);;
  modify (λ s, s <| Core.objects ::= λ o, delete storage_key o |>).

#[export] Instance storage : DocumentStorage := {|
  Storage.put := put; get_object := get; Storage.discard_uncommitted := discard_uncommitted
|}.

(** What can be read: the file of a valid key. *)
Definition held (s : Core) (key : string) : option string :=
  match validate_storage_key key with Ok _ => Core.objects s !! key | Err _ => None end.

(** A successful [put], step by step. *)
Lemma create_file_run c k s key size s' :
  create_file c k s = (Ok (key, size), s') →
  validate_storage_key key = Ok tt ∧ Core.objects s !! key = None ∧
  size = Z.of_nat (String.length c) ∧ Core.objects s' = <[key := c]> (Core.objects s).
Proof.
  unfold create_file. intros Hrun. run. apply ret_ok in Hrun as [[= -> ->] ->].
  case_bool_decide; [done|]. by destruct a.
Qed.
Lemma put_run c f h sc s key size s' :
  put c f h sc s = (Ok (key, size), s') →
  validate_storage_key key = Ok tt ∧ Core.objects s !! key = None ∧
  size = Z.of_nat (String.length c) ∧ Core.objects s' = <[key := c]> (Core.objects s).
Proof.
  intros (k & s1 & [= _ <-] & Hrun)%bind_ok. by apply create_file_run in Hrun.
Qed.

(** Reading a held key succeeds. *)
Lemma get_held_run k s c : held s k = Some c → get k s = (Ok c, s).
Proof.
  unfold held, get. intros Hk. destruct (validate_storage_key k) as [[]|] eqn:E; [|done].
  rewrite (bind_step_ok _ _ s tt s) by done.
  rewrite (bind_step_ok _ _ s (Core.objects s !! k) s) by done. by rewrite Hk.
Qed.

Lemma put_run_err c f h sc s e s' :
  put c f h sc s = (Err e, s') → Core.objects s' = Core.objects s.
Proof.
  intros [[=]|(k & s1 & [= _ <-] & Hrun)]%bind_err. revert Hrun.
  cbv [create_file mbind M_bind lift gets raise_if raise mret M_ret modify].
  destruct (validate_storage_key k); [|by intros [= _ <-]].
  case_bool_decide; [by intros [= _ <-]|done].
Qed.

#[export] Instance storage_laws : DocumentStorageLaws held.
Proof.
  split; unfold held.
  - intros c f h sc. unfold Storage.put, storage, put, create_file, fresh_key. preserve.
    by apply preserves_modify.
  - intros k. unfold get_object, storage, get. preserve.
  - intros k. unfold Storage.discard_uncommitted, storage, discard_uncommitted. preserve.
    by apply preserves_modify.
  - intros c f h sc s key size s' (-> & Hfree & -> & ->)%put_run. rewrite lookup_insert_eq.
    split_and!; [done..|]. intros k Hk. by rewrite lookup_insert_ne.
  - by intros c f h sc s e s' ->%put_run_err.
  - intros k s c s'. unfold get_object, storage, get. intros Hrun. run.
    by destruct (validate_storage_key k).
  - intros k s s' r Hrun k'. apply (preserves_run (same Core.objects)) in Hrun; [by rewrite Hrun|].
    unfold get_object, storage, get. preserve.
  - intros k s r s'. unfold Storage.discard_uncommitted, storage, discard_uncommitted. cbn.
    destruct (validate_storage_key k) eqn:E; cbn; intros [= <- <-] k' Hk; [|done].
    cbn. by rewrite lookup_delete_ne.
  - intros c f h sc. unfold Storage.put, storage, put, create_file, fresh_key. preserve.
    apply preserves_modify. intros s. unfold draws_grow. simpl. lia.
  - by intros s s' -> k.
Qed.
End local.
End LocalDocumentStorage.

(** ** The R2 backend

    The S3 client of the cloud library, by the three calls the backend makes;
    they raise [ClientError] with the code and the HTTP status of the answer. *)
Class S3Client := {
  (** [put_object(..., IfNoneMatch="*")] *)
  put_new_object (key body : string) (metadata : option string) : M Core unit;
  client_get_object (key : string) : M Core string;
  client_delete_object (key : string) : M Core unit
}.

(** The documented behaviour of the service: a conditional write never
    overwrites, reads return what was written, and no call touches another key. *)
Class S3ClientLaws `{S3Client} (bucket : Core → string → option string) : Prop := {
  put_new_view k b m : preserves (same outside_view) (put_new_object k b m);
  get_view k : preserves (same (λ s, (outside_view s, Core.draws s))) (client_get_object k);
  delete_view k : preserves (same (λ s, (outside_view s, Core.draws s))) (client_delete_object k);
  put_new_ok k b m s u s' :
    put_new_object k b m s = (Ok u, s') →
    bucket s k = None ∧ bucket s' k = Some b ∧ ∀ k', k' ≠ k → bucket s' k' = bucket s k';
  put_new_err k b m s e s' : put_new_object k b m s = (Err e, s') → bucket s' = bucket s;
  get_ok k s b s' : client_get_object k s = (Ok b, s') → bucket s k = Some b;
  get_keeps k s r s' : client_get_object k s = (r, s') → bucket s' = bucket s;
  delete_keeps k s r s' k' :
    client_delete_object k s = (r, s') → k' ≠ k → bucket s' k' = bucket s k';
  put_new_draws k b m : preserves draws_grow (put_new_object k b m);
  (** The bucket is the object store of the state. *)
  bucket_outside s s' : Core.objects s' = Core.objects s → bucket s' = bucket s
}.

Module R2DocumentStorage.
Section r2.
Context `{Env} `{S3Client} (prefix : string).

Definition _object_key (storage_key : string) : string :=
  if nonempty prefix then prefix +:+ "/" +:+ storage_key else storage_key.

Definition precondition_failed (code : string) (status : option Z) : bool :=
  mem_str code ["PreconditionFailed"; "412"] || bool_decide (status = Some 412).
Definition access_denied (code : string) (status : option Z) : bool :=
  mem_str code ["AccessDenied"; "InvalidRequest"; "403"] || bool_decide (status = Some 403).

Definition put_existing (storage_key content : string) (sha256 : option string) : M Core Z :=
  lift (validate_storage_key storage_key);;
  let metadata := match sha256 with
                  | Some h => if nonempty h then Some h else None
                  | None => None
                  end in
  try_catch (put_new_object (_object_key storage_key) content metadata)
    (λ e, match e with
          | ClientError code status =>
              if precondition_failed code status then raise (FileExistsError storage_key)
              else raise e
          | _ => raise e
          end);;
  mret (Z.of_nat (String.length content)).

Definition put (content filename : string) (sha256 scope : option string)
    : M Core (string * Z) :=
  storage_key ← fresh_key scope;
  size ← put_existing storage_key content sha256;
  mret (storage_key, size).

Definition get (storage_key : string) : M Core string :=
  lift (validate_storage_key storage_key);;
  try_catch (client_get_object (_object_key storage_key))
    (λ e, match e with
          | ClientError code _ =>
              if mem_str code ["NoSuchKey"; "404"; "NotFound"]
              then raise (FileNotFoundError storage_key) else raise e
          | _ => raise e
          end).

Definition discard_uncommitted (storage_key : string) : M Core unit :=
  lift (validate_storage_key storage_key);;
  try_catch (client_delete_object (_object_key storage_key))
    (λ e, match e with
          | ClientError code status =>
              (** A locked bucket keeps the orphan. *)
              if access_denied code status then mret tt else raise e
          | _ => raise e
          end).

#[local] Instance storage : DocumentStorage := {|
  Storage.put := put; get_object := get; Storage.discard_uncommitted := discard_uncommitted
|}.
End r2.

Section r2_laws.
Context `{Env} `{S3Client} (bucket : Core → string → option string) `{!S3ClientLaws bucket}
  (prefix : string).
#[local] Existing Instance storage.

Definition held (s : Core) (key : string) : option string := bucket s (_object_key prefix key).

Lemma object_key_inj k k' : _object_key prefix k = _object_key prefix k' → k = k'.
Proof.
  unfold _object_key. destruct (nonempty prefix); [|done].
  generalize (prefix : string). induction s as [|c s IH]; simpl; [by intros [=]|].
  intros [= E]. by apply IH.
Qed.

Lemma put_existing_run k c h s size s' :
  put_existing prefix k c h s = (Ok size, s') →
  held s k = None ∧ held s' k = Some c ∧ size = Z.of_nat (String.length c) ∧
  ∀ k', k' ≠ k → held s' k' = held s k'.
Proof.
  unfold put_existing, held. intros Hrun. run.
  apply try_catch_ok in Hrun1 as [Hput|(e & s3 & _ & Hh)].
  - apply put_new_ok in Hput as (? & ? & Hothers). split_and!; [done..|].
    intros k' Hk. apply Hothers. intros E. by apply object_key_inj in E.
  - destruct e; try done. by destruct (precondition_failed _ _).
Qed.

Lemma put_existing_err k c h s e s' :
  put_existing prefix k c h s = (Err e, s') → bucket s' = bucket s.
Proof.
  unfold put_existing. intros [?%lift_err|(u & s1 & [_ ->]%lift_ok & Hrun)]%bind_err; [naive_solver|].
  apply bind_err in Hrun as [Hrun|(? & ? & _ & [=])].
  unfold try_catch in Hrun.
  destruct (put_new_object _ _ _ s) as [[?|e1] s2] eqn:E; [done|].
  apply put_new_err in E. rewrite <- E.
  destruct e1; try by injection Hrun as _ <-.
  by destruct (precondition_failed _ _); injection Hrun as _ <-.
Qed.

Lemma get_run k s r s' : get prefix k s = (r, s') → bucket s' = bucket s.
Proof.
  intros Hrun. unfold get in Hrun.
  destruct (validate_storage_key k) eqn:Ev; [|by injection Hrun as _ <-].
  rewrite (bind_step_ok _ _ s a s) in Hrun by done. unfold try_catch in Hrun.
  destruct (client_get_object _ s) as [[b|e] s1] eqn:E; apply get_keeps in E.
  { by injection Hrun as _ <-. }
  destruct e; try by injection Hrun as _ <-.
  by destruct (mem_str _ _); injection Hrun as _ <-.
Qed.

#[local] Instance storage_laws : DocumentStorageLaws (H := storage prefix) held.
Proof.
  split.
  - intros c f h sc. unfold Storage.put, storage, put, put_existing, fresh_key. preserve.
    apply put_new_view.
  - intros k. unfold get_object, storage, get. preserve.
    apply get_view.
  - intros k. unfold Storage.discard_uncommitted, storage, discard_uncommitted. preserve.
    apply delete_view.
  - intros c f h sc s key size s' Hrun. unfold Storage.put, storage, put in Hrun.
    apply bind_ok in Hrun as (k & s1 & [= _ <-] & Hrun).
    apply bind_ok in Hrun as (sz & s2 & Hput & Hret). apply ret_ok in Hret as [[= -> ->] ->].
    apply put_existing_run in Hput. unfold held in *.
    rewrite (bucket_outside s) in Hput by done. exact Hput.
  - intros c f h sc s e s' Hrun k. unfold Storage.put, storage, put in Hrun.
    apply bind_err in Hrun as [[=]|(key & s1 & [= _ <-] & Hrun)].
    apply bind_err in Hrun as [Hrun|(? & ? & _ & [=])].
    apply put_existing_err in Hrun. unfold held. rewrite Hrun. by rewrite (bucket_outside s).
  - intros k s c s' Hrun. unfold get_object, storage, get in Hrun. run.
    apply try_catch_ok in Hrun as [Hget|(e & s1 & _ & Hh)]; [by apply get_ok in Hget|].
    destruct e; try done. by case_match.
  - intros k s s' r Hrun k'. unfold held. by rewrite (get_run _ _ _ _ Hrun).
  - intros k s r s' Hrun k' Hk. unfold held.
    unfold Storage.discard_uncommitted, storage, discard_uncommitted in Hrun.
    destruct (validate_storage_key k) eqn:Ev; [|by injection Hrun as _ <-].
    rewrite (bind_step_ok _ _ s a s) in Hrun by done. unfold try_catch in Hrun.
    assert (Hne : _object_key prefix k' ≠ _object_key prefix k)
      by (intros E; by apply object_key_inj in E).
    destruct (client_delete_object _ s) as [[u|e] s1] eqn:E;
      pose proof (delete_keeps _ _ _ _ _ E Hne) as Hd; rewrite <- Hd.
    { by injection Hrun as _ <-. }
    destruct e; try by injection Hrun as _ <-.
    by destruct (access_denied _ _); injection Hrun as _ <-.
  - intros c f h sc. unfold Storage.put, storage, put, put_existing, fresh_key. preserve.
    apply put_new_draws.
  - intros s s' E k. unfold held. by rewrite (bucket_outside s).
Qed.
End r2_laws.
End R2DocumentStorage.

(** ** What is stored stays stored *)
Section kept.
Context `{Env}.
Import LocalDocumentStorage.

(** Anything that happens to the store afterwards, except discarding the key:
    other uploads, successful or not, reads, and the discarding of other keys. *)
Inductive store_activity (key : string) : Core → Core → Prop :=
| nothing s s' : Core.objects s' = Core.objects s → store_activity key s s'
| then_put c f h sc s s' : store_activity key (put c f h sc s).2 s' → store_activity key s s'
| then_get k s s' : store_activity key (get k s).2 s' → store_activity key s s'
| then_discard k s s' :
    k ≠ key → store_activity key (discard_uncommitted k s).2 s' → store_activity key s s'.

Lemma activity_keeps key s s' c :
  held s key = Some c → store_activity key s s' → held s' key = Some c.
Proof.
  intros Hs Hact. revert Hs.
  induction Hact as [s s' E|c' f h sc s s' _ IH|k s s' _ IH|k s s' Hk _ IH]; intros Hs.
  - rewrite <- Hs. by apply held_outside.
  - apply IH. destruct (put c' f h sc s) as [[[k n]|e] s1] eqn:E; cbn.
    + change (Storage.put c' f h sc s = (Ok (k, n), s1)) in E.
      apply put_stores in E as (Hfree & _ & _ & Hothers).
      rewrite Hothers; [done|congruence].
    + change (Storage.put c' f h sc s = (Err e, s1)) in E.
      by rewrite (put_fails _ _ _ _ _ _ _ E).
  - apply IH. destruct (get k s) as [r s1] eqn:E; cbn.
    rewrite <- Hs. exact (get_held k s s1 r E key).
  - apply IH. destruct (discard_uncommitted k s) as [r s1] eqn:E; cbn.
    rewrite <- Hs. exact (discard_only k s r s1 E key (not_eq_sym Hk)).
Qed.
End kept.

(** A stored document is never lost nor overwritten: after a successful upload
    to the local store, and whatever other uploads, reads and discarded keys
    follow, reading the key returns the content that was uploaded. *)
Theorem stored_document_kept `{Env} (content filename : string) (sha256 scope : option string)
    (s s1 s2 : Core) (key : string) (size : Z) :
  LocalDocumentStorage.put content filename sha256 scope s = (Ok (key, size), s1) →
  store_activity key s1 s2 →
  LocalDocumentStorage.get key s2 = (Ok content, s2) ∧ size = Z.of_nat (String.length content).
Proof.
  intros Hput Hact.
  apply LocalDocumentStorage.put_run in Hput as (Hv & _ & -> & Ho). split; [|done].
  apply LocalDocumentStorage.get_held_run, (activity_keeps key s1); [|done].
  unfold LocalDocumentStorage.held. by rewrite Hv, Ho, lookup_insert_eq.
Qed.

(** ** Witnesses *)
Section witnesses.
#[local] Existing Instance Example.env.

Lemma stored_document_kept_witness :
  match LocalDocumentStorage.put "%PDF" "a.pdf" None (Some "tenants/1/") Example.s0 with
  | (Ok (key, _), s1) =>
      let s2 := (LocalDocumentStorage.put "other" "b.pdf" None None s1).2 in
      (LocalDocumentStorage.get key s2).1 = Ok "%PDF"
  | _ => False
  end.
Proof.
  destruct (LocalDocumentStorage.put _ _ _ _ _) as [[[key size]|e] s1] eqn:E;
    [|vm_compute in E; discriminate E]. cbv zeta.
  rewrite (proj1 (stored_document_kept _ _ _ _ _ _ _ _ _ E
    (then_put key "other" "b.pdf" None None s1 _ (nothing key _ _ eq_refl)))). reflexivity.
Defined.
End witnesses.
