(* ===== verification/MemoryWorkflow.v ===== *)
(** * The in-memory workflow (workflow_service.py)

    [SignatureWorkflowService]: the same workflow over dictionaries, with an
    injectable object store.  Every operation is one atomic step: the code holds
    a lock around its changes.  Unlike a transaction of the database, a call that
    raises keeps what it had changed.  [updated_at] of a document is left out, as
    in the rest of the development. *)

From S2P Require Import Prelude.
From S2P Require Import PyText.
From S2P Require Import Json.
From S2P Require Import DateTime.
From S2P Require Import Orm.
From S2P Require Import WorkflowSchema.
From S2P Require Import CoreDb.
From S2P Require Import Storage.

Local Open Scope Z_scope.

Record AuditEventRead := mkAuditEventRead {
  ae_id : N; ae_occurred_at : Z; ae_actor_type : string; ae_actor_id : string; ae_action : string;
  ae_entity_type : string; ae_entity_id : N; ae_correlation_id : N; ae_metadata_sanitized : json
}.
Record StoredVersion := mkStoredVersion { sv_read : DocumentVersionRead; sv_storage_key : string }.

(** [model_copy(update=...)] is the update of a record. *)
#[export] Instance DocumentRead_eta : Eta DocumentRead := λ d,
  mkDocumentRead (dr_id d) (dr_organization_id d) (dr_title d) (dr_original_filename d)
    (dr_content_type d) (dr_sha256 d) (dr_version d) (dr_status d) (dr_created_by d)
    (dr_created_at d) (dr_size_bytes d) (dr_signature_request_count d)
    (dr_completed_signature_count d).
#[export] Instance SignatureRequestRead_eta : Eta SignatureRequestRead := λ r,
  mkSignatureRequestRead (rr_id r) (rr_document_id r) (rr_document_version r)
    (rr_document_sha256 r) (rr_status r) (rr_expires_at r) (rr_created_by r) (rr_created_at r)
    (rr_completed_at r) (rr_signer_count r) (rr_signed_count r) (rr_document_title r)
    (rr_original_filename r) (rr_signature_mode r) (rr_issuer_snapshot r).
#[export] Instance SignerRead_eta : Eta SignerRead := λ g,
  mkSignerRead (sr_id g) (sr_signature_request_id g) (sr_auth_user_id g) (sr_name g) (sr_email g)
    (sr_preferred_locale g) (sr_status g) (sr_token_expires_at g) (sr_link_revoked_at g)
    (sr_signed_at g) (sr_participant_role g) (sr_represented_tenant_id g)
    (sr_representation_snapshot g).

(** The attributes of the service, and the process around it: clock, draws and
    object store. *)
Module Memory.
Record Memory := make {
  core : Core;
  documents : list (N * DocumentRead);
  versions : gmap N (list StoredVersion);
  requests : list (N * SignatureRequestRead);
  signers : gmap N SignerRead;
  request_signers : gmap N (list N);
  request_token_index : gmap string N;
  signatures : gset (N * N);
  signature_evidence : gmap (N * N) StampPosition;
  audit : gmap N (list AuditEventRead)
}.
#[global] Instance Memory_eta : Eta Memory := λ s,
  make (core s) (documents s) (versions s) (requests s) (signers s) (request_signers s)
    (request_token_index s) (signatures s) (signature_evidence s) (audit s).
(** [__init__] *)
Definition start (c : Core) : Memory := make c [] ∅ [] ∅ ∅ ∅ ∅ ∅ ∅.
End Memory.
Abbreviation Memory := Memory.Memory.

Definition on_core {A} (m : M Core A) : M Memory A := λ s,
  let '(r, c) := m (Memory.core s) in (r, s <| Memory.core := c |>).
(** [d[k]] *)
Definition item {A} (o : option A) : M Memory A := some_or o KeyError.

Module SignatureWorkflowService.
Section service.
Context `{Env} `{DocumentStorage}.

Definition mem_audit (scope_id : N) (actor_id action entity_type : string) (entity_id : N)
    (metadata : json) : M Memory unit :=
  i ← on_core uuid4; occurred_at ← on_core utc_now; correlation ← on_core uuid4;
  modify (λ s, s <| Memory.audit ::= λ a,
    <[scope_id := from_option id [] (a !! scope_id) ++
       [mkAuditEventRead i occurred_at "user" actor_id action entity_type entity_id correlation
          metadata]]> a |>).

Definition mem_document (document_id : N) : M Memory DocumentRead :=
  found ← gets (λ s, dget document_id (Memory.documents s));
  some_or found (workflow_error "Document not found" 404).
Definition mem_request (request_id : N) : M Memory SignatureRequestRead :=
  found ← gets (λ s, dget request_id (Memory.requests s));
  some_or found (workflow_error "Signature request not found" 404).

Definition put_request (request_id : N) (r : SignatureRequestRead) : M Memory unit :=
  modify (λ s, s <| Memory.requests ::= dset request_id r |>).
Definition put_signer (signer : SignerRead) : M Memory unit :=
  modify (λ s, s <| Memory.signers ::= λ g, <[sr_id signer := signer]> g |>).

(** [[self.signers[sid] for sid in ids]] *)
Definition signers_of (ids : list N) : M Memory (list SignerRead) :=
  mapM (λ sid, found ← gets (λ s, Memory.signers s !! sid); item found) ids.
Definition signer_ids (request_id : N) : M Memory (list N) :=
  found ← gets (λ s, Memory.request_signers s !! request_id); item found.

Definition has_signed (g : SignerRead) : bool := is_status (sr_status g) SIGNED.
Definition mem_counts (request : SignatureRequestRead) : M Memory SignatureRequestRead :=
  ids ← gets (λ s, from_option id [] (Memory.request_signers s !! rr_id request));
  signers ← signers_of ids;
  mret (request <| rr_signer_count := Z.of_nat (length signers) |>
                <| rr_signed_count := Z.of_nat (length (List.filter has_signed signers)) |>).

Definition mem_signing_url (token : string) : string :=
  rstrip_slash (SIGNING_APP_URL settings) +:+ "/" +:+ token.

(** ** Documents *)
Definition mem_create_document (payload : DocumentCreate) (content : string) : M Memory DocumentRead :=
  raise_if (negb (nonempty content)) (workflow_error "Document content cannot be empty" 400);;
  now ← on_core utc_now;
  document_id ← on_core uuid4;
  let digest := sha256_hex content in
  stored ← on_core (put content (dc_original_filename payload) None None);
  let item := mkDocumentRead document_id (dc_organization_id payload) (dc_title payload)
    (dc_original_filename payload) (dc_content_type payload) digest 1 READY (dc_created_by payload)
    now None 0 0 in
  let version := mkDocumentVersionRead document_id 1 (dc_original_filename payload)
    (dc_content_type payload) digest stored.2 (dc_created_by payload) now in
  modify (λ s, s <| Memory.documents ::= dset document_id item |>
                 <| Memory.versions ::= λ v, <[document_id := [mkStoredVersion version stored.1]]> v |>);;
  mem_audit document_id (dc_created_by payload) "document.uploaded" "document" document_id
    (JObj [("version", JNum 1); ("sha256", JStr digest)]);;
  mret item.

Definition mem_freezes (document_id : N) (r : SignatureRequestRead) : bool :=
  N.eqb (rr_document_id r) document_id && one_of (rr_status r) [OPEN; COMPLETED].
Definition mem_add_version (document_id : N) (filename content_type actor_id content : string)
    : M Memory DocumentRead :=
  raise_if (negb (nonempty content)) (workflow_error "Document content cannot be empty" 400);;
  current ← mem_document document_id;
  frozen ← gets (λ s, existsb (mem_freezes document_id) (dvalues (Memory.requests s)));
  raise_if frozen (workflow_error "A frozen document cannot receive a new version" 409);;
  now ← on_core utc_now;
  let number := dr_version current + 1 in
  let digest := sha256_hex content in
  stored ← on_core (put content filename None None);
  let version := mkDocumentVersionRead document_id number filename content_type digest stored.2
    actor_id now in
  let updated := current <| dr_original_filename := filename |> <| dr_content_type := content_type |>
    <| dr_sha256 := digest |> <| dr_version := number |> in
  before ← gets (λ s, Memory.versions s !! document_id); before ← item before;
  modify (λ s, s <| Memory.versions ::= λ v, <[document_id := before ++ [mkStoredVersion version stored.1]]> v |>
                 <| Memory.documents ::= dset document_id updated |>);;
  mem_audit document_id actor_id "document.version_created" "document" document_id
    (JObj [("version", JNum number); ("sha256", JStr digest)]);;
  mret updated.

Definition mem_list_documents : M Memory (list DocumentRead) := gets (λ s, dvalues (Memory.documents s)).
Definition mem_get_document (document_id : N) : M Memory DocumentRead := mem_document document_id.

Definition active_request (document_id : N) (r : SignatureRequestRead) : bool :=
  N.eqb (rr_document_id r) document_id && one_of (rr_status r) [DRAFT; OPEN].
Definition mem_delete_document (document_id : N) (actor_id : string) (force : bool) : M Memory unit :=
  mem_document document_id;;
  active ← gets (λ s, List.filter (active_request document_id) (dvalues (Memory.requests s)));
  let n := Z.of_nat (length active) in
  raise_if (negb (n =? 0) && negb force)
    (WorkflowError "Document has signature requests in progress" 409
       (Some "document_has_active_requests") [("active_request_count", n)]);;
  for_each (λ request,
    put_request (rr_id request) (request <| rr_status := CANCELLED |>);;
    mem_audit (rr_id request) actor_id "signature_request.cancelled" "signature_request"
      (rr_id request) (JObj [("reason", JStr "document_deleted")])) active;;
  modify (λ s, s <| Memory.documents ::= ddel document_id |>);;
  mem_audit document_id actor_id "document.deleted" "document" document_id
    (JObj [("cancelled_request_count", JNum n)]).

Definition mem_get_content (document_id : N) (version : option Z) : M Memory (DocumentVersionRead * string) :=
  current ← mem_document document_id;
  let target := match version with
                | Some v => if Z.eqb v 0 then dr_version current else v
                | None => dr_version current
                end in
  stored ← gets (λ s, Memory.versions s !! document_id); stored ← item stored;
  found ← some_or (List.find (λ v, Z.eqb (vr_version (sv_read v)) target) stored)
    (workflow_error "Document version not found" 404);
  content ← on_core (get_object (sv_storage_key found));
  raise_if (negb (String.eqb (sha256_hex content) (vr_sha256 (sv_read found))))
    (workflow_error "Stored document integrity check failed" 409);;
  mret (sv_read found, content).

(** ** Requests and signers *)
Definition mem_create_request (payload : SignatureRequestCreate) : M Memory SignatureRequestRead :=
  document ← mem_document (rc_document_id payload);
  now ← on_core utc_now;
  raise_if (rc_expires_at payload <=? now) (workflow_error "Expiration must be in the future" 400);;
  i ← on_core uuid4;
  let item := mkSignatureRequestRead i (dr_id document) (dr_version document) (dr_sha256 document)
    DRAFT (rc_expires_at payload) (rc_created_by payload) now None 0 0 "" "" EVIDENCE None in
  put_request i item;;
  modify (λ s, s <| Memory.request_signers ::= λ g, <[i := []]> g |>
                 <| Memory.audit ::= λ a, <[i := []]> a |>);;
  mem_audit i (rc_created_by payload) "signature_request.created" "signature_request" i
    (JObj [("document_version", JNum (dr_version document));
           ("document_sha256", JStr (dr_sha256 document))]);;
  mret item.

Definition mem_list_requests : M Memory (list SignatureRequestRead) :=
  shown ← gets (λ s, List.filter
    (λ r, bool_decide (dget (rr_document_id r) (Memory.documents s) ≠ None)) (dvalues (Memory.requests s)));
  mapM mem_counts shown.
Definition mem_get_request (request_id : N) : M Memory SignatureRequestRead :=
  request ← mem_request request_id; mem_counts request.

Definition mem_add_signer (request_id : N) (payload : SignerCreate) (actor_id : string) : M Memory SignerRead :=
  request ← mem_request request_id;
  raise_if (negb (is_status (rr_status request) DRAFT))
    (workflow_error "Signers can only be added to a draft request" 409);;
  let email := lower (sc_email payload) in
  ids ← signer_ids request_id;
  known ← signers_of ids;
  raise_if (existsb (λ g, String.eqb (sr_auth_user_id g) email) known)
    (workflow_error "This authenticated user is already a signer" 409);;
  now ← on_core utc_now;
  i ← on_core uuid4;
  let signer := mkSignerRead i (rr_id request) email (sc_name payload) email
    (sc_preferred_locale payload) PENDING
    (DateTimeService.add_seconds now (sc_token_ttl_seconds payload)) None None EXTERNAL_SIGNER None None in
  put_signer signer;;
  modify (λ s, s <| Memory.request_signers ::= λ g, <[request_id := ids ++ [i]]> g |>);;
  mem_audit request_id actor_id "signer.link_created" "signer" i
    (JObj [("token_expires_at", JStr (isoformat (sr_token_expires_at signer)))]);;
  mret signer.

Definition mem_create_signing_link (request_id : N) (actor_id : string) : M Memory SigningLinkRead :=
  request ← mem_request request_id;
  raise_if (negb (is_status (rr_status request) OPEN))
    (workflow_error "Only an open request can receive a signing link" 409);;
  token ← on_core (token_urlsafe 32);
  modify (λ s, s <| Memory.request_token_index ::= λ t, <[sha256_hex token := rr_id request]> t |>);;
  mem_audit (rr_id request) actor_id "signature_request.link_created" "signature_request"
    (rr_id request) (JObj []);;
  mret (mkSigningLinkRead (mem_signing_url token)).

Definition mem_list_signers (request_id : N) : M Memory (list SignerRead) :=
  mem_request request_id;; ids ← signer_ids request_id; signers_of ids.

Definition mem_revoke_signer_link (request_id signer_id : N) (actor_id : string) : M Memory SignerRead :=
  request ← mem_request request_id;
  found ← gets (λ s, Memory.signers s !! signer_id);
  signer ← some_or found (workflow_error "Signer not found" 404);
  raise_if (negb (N.eqb (sr_signature_request_id signer) (rr_id request)))
    (workflow_error "Signer not found" 404);;
  raise_if (has_signed signer) (workflow_error "A completed signature link cannot be revoked" 409);;
  match sr_link_revoked_at signer with
  | Some _ => mret signer
  | None =>
      now ← on_core utc_now;
      let signer := signer <| sr_link_revoked_at := Some now |> in
      put_signer signer;;
      mem_audit (rr_id request) actor_id "signer.link_revoked" "signer" (sr_id signer) (JObj []);;
      mret signer
  end.

Definition mem_open_request (request_id : N) (actor_id : string) (signature_mode : SignatureMode)
    : M Memory SignatureRequestRead :=
  request ← mem_request request_id;
  raise_if (negb (is_status (rr_status request) DRAFT))
    (workflow_error "Only a draft request can be opened" 409);;
  ids ← signer_ids request_id;
  raise_if (match ids with [] => true | _ => false end)
    (workflow_error "At least one signer is required" 409);;
  document ← mem_document (rr_document_id request);
  raise_if (negb (dr_version document =? rr_document_version request) ||
            negb (String.eqb (dr_sha256 document) (rr_document_sha256 request)))
    (workflow_error "Document changed after request creation" 409);;
  let updated := request <| rr_status := OPEN |> <| rr_signature_mode := signature_mode |> in
  put_request request_id updated;;
  mem_audit request_id actor_id "signature_request.opened" "signature_request" request_id (JObj []);;
  mem_counts updated.

Definition mem_cancel_request (request_id : N) (actor_id : string) : M Memory SignatureRequestRead :=
  request ← mem_request request_id;
  raise_if (negb (one_of (rr_status request) [DRAFT; OPEN]))
    (workflow_error "Request cannot be cancelled" 409);;
  let updated := request <| rr_status := CANCELLED |> in
  put_request request_id updated;;
  mem_audit request_id actor_id "signature_request.cancelled" "signature_request" request_id (JObj []);;
  mem_counts updated.

(** ** Signing *)
Definition answered (g : SignerRead) : bool := one_of (sr_status g) [SIGNED; DECLINED].
Definition mem_resolve_request (token auth_user_id : string) (allow_completed : bool)
    : M Memory (SignerRead * SignatureRequestRead) :=
  found ← gets (λ s, Memory.request_token_index s !! sha256_hex token);
  request_id ← some_or found (workflow_error "Signing link is invalid" 404);
  request ← mem_request request_id;
  signers ← mem_list_signers (rr_id request);
  match List.find (λ g, String.eqb (sr_auth_user_id g) (lower auth_user_id)) signers with
  | None =>
      mem_audit (rr_id request) auth_user_id "authorization.failed" "signature_request"
        (rr_id request) (JObj []);;
      raise (workflow_error "Authenticated user does not match a signer for this request" 403)
  | Some signer =>
      now ← on_core utc_now;
      raise_if (bool_decide (sr_link_revoked_at signer ≠ None))
        (workflow_error "Signing access has been revoked" 410);;
      (if rr_expires_at request <=? now then
         when (negb (answered signer)) (put_signer (signer <| sr_status := SIGNER_EXPIRED |>));;
         raise (workflow_error "Signature request has expired" 410)
       else mret tt);;
      raise_if (negb (is_status (rr_status request) OPEN) &&
                negb (allow_completed && is_status (rr_status request) COMPLETED && has_signed signer))
        (workflow_error "Signature request is not open" 409);;
      mret (signer, request)
  end.

Definition mem_signing_context (token auth_user_id : string) : M Memory SigningRead :=
  found ← mem_resolve_request token auth_user_id true;
  let '(signer, request) := found in
  document ← mem_document (rr_document_id request);
  counted ← mem_counts request;
  stamp ← gets (λ s, Memory.signature_evidence s !! (rr_id request, sr_id signer));
  mret (mkSigningRead counted signer (dr_title document) (dr_original_filename document) None
    (dump_stamp <$> stamp) "signer" None).

Definition mem_signing_document (token auth_user_id : string) : M Memory (DocumentVersionRead * string) :=
  found ← mem_resolve_request token auth_user_id true;
  mem_get_content (rr_document_id found.2) (Some (rr_document_version found.2)).

Definition mem_view (token auth_user_id : string) : M Memory SignerRead :=
  found ← mem_resolve_request token auth_user_id false;
  let '(signer, request) := found in
  if is_status (sr_status signer) PENDING then
    let signer := signer <| sr_status := VIEWED |> in
    put_signer signer;;
    mem_audit (rr_id request) auth_user_id "document.viewed" "signer" (sr_id signer) (JObj []);;
    mret signer
  else mret signer.

(** The signature is recorded, and the request completed when all have signed. *)
Definition mem_record (signer : SignerRead) (request : SignatureRequestRead) (auth_user_id : string)
    (stamp : StampPosition) (now : Z) : M Memory SignerRead :=
  let signer := signer <| sr_status := SIGNED |> <| sr_signed_at := Some now |> in
  modify (λ s, s <| Memory.signatures ::= λ k, {[(rr_id request, sr_id signer)]} ∪ k |>
                 <| Memory.signature_evidence ::= λ e, <[(rr_id request, sr_id signer) := stamp]> e |>);;
  put_signer signer;;
  mem_audit (rr_id request) auth_user_id "signature.completed" "signer" (sr_id signer)
    (JObj [("document_sha256", JStr (rr_document_sha256 request));
           ("document_version", JNum (rr_document_version request)); ("stamp", dump_stamp stamp)]);;
  ids ← signer_ids (rr_id request);
  signers ← signers_of ids;
  when (forallb has_signed signers) (
    put_request (rr_id request)
      (request <| rr_status := COMPLETED |> <| rr_completed_at := Some now |>);;
    mem_audit (rr_id request) auth_user_id "signature_request.completed" "signature_request"
      (rr_id request) (JObj []));;
  mret signer.

Definition mem_sign (token auth_user_id : string) (consent : bool) (stamp : StampPosition)
    : M Memory SignerRead :=
  raise_if (negb consent) (workflow_error "Explicit consent is required" 400);;
  found ← mem_resolve_request token auth_user_id false;
  let '(signer, request) := found in
  recorded ← gets (λ s, bool_decide ((rr_id request, sr_id signer) ∈ Memory.signatures s));
  raise_if (has_signed signer || recorded) (workflow_error "Signer has already signed" 409);;
  document ← mem_document (rr_document_id request);
  content ← mem_get_content (dr_id document) (Some (rr_document_version request));
  raise_if (negb (String.eqb (sha256_hex content.2) (rr_document_sha256 request)))
    (workflow_error "Document hash does not match the frozen request" 409);;
  now ← on_core utc_now;
  mem_record signer request auth_user_id stamp now.

Definition mem_decline (token auth_user_id : string) : M Memory SignerRead :=
  found ← mem_resolve_request token auth_user_id false;
  let '(signer, request) := found in
  raise_if (answered signer) (workflow_error "Signer already answered" 409);;
  let signer := signer <| sr_status := DECLINED |> in
  put_signer signer;;
  mem_audit (rr_id request) auth_user_id "signature.declined" "signer" (sr_id signer) (JObj []);;
  mret signer.

Definition mem_audit_events (request_id : N) : M Memory (list AuditEventRead) :=
  mem_request request_id;;
  found ← gets (λ s, Memory.audit s !! request_id); item found.
End service.
End SignatureWorkflowService.
