(* ===== verification/PdfValidation.v ===== *)
(** * Validation of uploaded PDFs (document/pdf_validation.py)

    The PDF library is a parameter: what its reader says of a file, the object
    graph behind the trailer and how an indirect reference resolves.  The scan
    for active content walks that graph, which may have cycles. *)

From S2P Require Import Prelude.
From S2P Require Import PyText.
From S2P Require Import Json.
From S2P Require Import Orm.
From S2P Require Import WorkflowSchema.
From S2P Require Import CoreDb.
From S2P Require Import Storage.
From Stdlib Require Import QArith.

Local Open Scope Z_scope.

(** ** What the PDF library says of a file *)

(** Objects of a PDF: references, dictionaries (streams included), arrays and
    everything else. *)
Inductive pdf_value :=
| IndirectObject (idnum generation : N)
| DictionaryObject (items : list (string * pdf_value))
| ArrayObject (items : list pdf_value)
| AtomObject.

Record PdfPage := mkPdfPage { mediabox_width : result Q; mediabox_height : result Q }.
Record PdfReader := mkPdfReader {
  is_encrypted : result bool;
  pages : result (list PdfPage);
  trailer : pdf_value;
  (** [IndirectObject.get_object()] *)
  get_indirect : N * N → result pdf_value
}.
(** [PdfReader(BytesIO(content), strict=False)] *)
Class PdfLibrary := read_pdf : string → result PdfReader.

(** ** The scan for active content *)
Definition _ACTIVE_PDF_KEYS : list string :=
  ["/AA"; "/EmbeddedFile"; "/EmbeddedFiles"; "/ImportData"; "/JavaScript"; "/JS"; "/Launch";
   "/OpenAction"; "/RichMedia"; "/SubmitForm"; "/XFA"].

Definition has_active_key (items : list (string * pdf_value)) : bool :=
  existsb (λ kv, mem_str kv.1 _ACTIVE_PDF_KEYS) items.

Section scan.
Context (resolve : N * N → result pdf_value).

(** The [while] loop: [pending] is the stack, its top first; [budget] is how
    many values may still be inspected. *)
Fixpoint scan (budget : nat) (pending : list pdf_value) (visited : list (N * N)) : result unit :=
  match pending with
  | [] => Ok tt
  | value :: pending =>
      match budget with
      | O => Err (workflow_error "PDF structure is too complex" 400)
      | S budget =>
          match value with
          | IndirectObject idnum generation =>
              if bool_decide ((idnum, generation) ∈ visited) then scan budget pending visited
              else match resolve (idnum, generation) with
                   | Ok v => scan budget (v :: pending) ((idnum, generation) :: visited)
                   | Err _ => Err (workflow_error "PDF contains an invalid object" 400)
                   end
          | DictionaryObject items =>
              if has_active_key items
              then Err (workflow_error "PDF contains active or embedded content" 400)
              else scan budget (rev (map snd items) ++ pending) visited
          | ArrayObject items => scan budget (rev items ++ pending) visited
          | AtomObject => scan budget pending visited
          end
      end
  end.

Definition MAX_INSPECTED : nat := N.to_nat 100000.

Definition _reject_active_content (root : pdf_value) : result unit :=
  scan MAX_INSPECTED [root] [].

(** What can be reached from a value through dictionaries, arrays and references. *)
Inductive reaches : pdf_value → pdf_value → Prop :=
| reaches_here v : reaches v v
| reaches_item k v items w : In (k, v) items → reaches v w → reaches (DictionaryObject items) w
| reaches_element v items w : In v items → reaches v w → reaches (ArrayObject items) w
| reaches_target i g v w :
    resolve (i, g) = Ok v → reaches v w → reaches (IndirectObject i g) w.

(** A value is covered by a set of references when every dictionary in it is
    harmless and every reference in it belongs to the set. *)
Inductive covered (V : N * N → Prop) : pdf_value → Prop :=
| covered_reference i g : V (i, g) → covered V (IndirectObject i g)
| covered_dictionary items :
    has_active_key items = false → (∀ k v, In (k, v) items → covered V v) →
    covered V (DictionaryObject items)
| covered_array items : (∀ v, In v items → covered V v) → covered V (ArrayObject items)
| covered_atom : covered V AtomObject.

(** The references of [V] that are not in [visited] resolve to covered values. *)
Definition resolved_beyond (visited : list (N * N)) (V : N * N → Prop) : Prop :=
  ∀ r, V r → r ∉ visited → ∃ v, resolve r = Ok v ∧ covered V v.

Lemma scan_covers budget pending visited :
  scan budget pending visited = Ok tt →
  ∃ V, (∀ r, r ∈ visited → V r) ∧ (∀ v, In v pending → covered V v) ∧ resolved_beyond visited V.
Proof.
  revert pending visited. induction budget as [|budget IH]; intros [|value pending] visited.
  1,3: intros _; exists (λ r, r ∈ visited); split_and!; [done|by intros ? []|by intros r].
  { done. }
  cbn [scan]. destruct value as [i g|items|items|].
  - case_bool_decide as Hvis.
    + intros (V & HV & Hc & Hr)%IH. exists V. split_and!; [done| |done].
      intros v [<-|Hv]; [constructor; by apply HV|by apply Hc].
    + destruct (resolve (i, g)) as [w|] eqn:E; [|done].
      intros (V & HV & Hc & Hr)%IH. exists V. split_and!.
      * intros r Hin. apply HV. by right.
      * intros v [<-|Hv]; [constructor; apply HV; by left|apply Hc; by right].
      * intros r Hin Hout. destruct (decide (r = (i, g))) as [->|Hne].
        { exists w. split; [done|]. apply Hc. by left. }
        apply Hr; [done|]. by intros [?|?]%elem_of_cons.
  - destruct (has_active_key items) eqn:Hact; [done|].
    intros (V & HV & Hc & Hr)%IH. exists V. split_and!; [done| |done].
    intros v [<-|Hv]; [|apply Hc, in_or_app; by right].
    constructor; [done|]. intros k v Hin. apply Hc, in_or_app. left.
    apply -> in_rev. by apply (in_map snd) in Hin.
  - intros (V & HV & Hc & Hr)%IH. exists V. split_and!; [done| |done].
    intros v [<-|Hv]; [|apply Hc, in_or_app; by right].
    constructor. intros w Hin. apply Hc, in_or_app. left. by apply -> in_rev.
  - intros (V & HV & Hc & Hr)%IH. exists V. split_and!; [done| |done].
    intros v [<-|Hv]; [constructor|by apply Hc].
Qed.

Lemma covered_reaches V v w :
  (∀ r, V r → ∃ u, resolve r = Ok u ∧ covered V u) → covered V v → reaches v w → covered V w.
Proof.
  intros Hclosed Hv Hr. revert Hv.
  induction Hr as [v|k v items w Hin _ IH|v items w Hin _ IH|i g v w E _ IH]; intros Hv; [done|..];
    apply IH; inversion Hv as [? ? HV|? ? Hall|? Hall|]; subst.
  - by eapply Hall.
  - by apply Hall.
  - destruct (Hclosed _ HV) as (u & Eu & Hu). congruence.
Qed.

Definition too_complex : exn := workflow_error "PDF structure is too complex" 400.
(** Why a scan refuses, when it is not over the number of values. *)
Definition refusal (root : pdf_value) (e : exn) : Prop :=
  e = too_complex ∨
  (e = workflow_error "PDF contains an invalid object" 400 ∧
   ∃ i g x, reaches root (IndirectObject i g) ∧ resolve (i, g) = Err x) ∨
  (e = workflow_error "PDF contains active or embedded content" 400 ∧
   ∃ items, reaches root (DictionaryObject items) ∧ has_active_key items = true).

Lemma reaches_trans u v w : reaches u v → reaches v w → reaches u w.
Proof. induction 1; intros; [done|..]; econstructor; eauto. Qed.

Lemma scan_refuses root budget pending visited e :
  (∀ v, In v pending → reaches root v) → scan budget pending visited = Err e → refusal root e.
Proof.
  revert pending visited. induction budget as [|budget IH]; intros [|value pending] visited Hp;
    cbn [scan]; try done.
  { intros [= <-]. by left. }
  assert (Hv : reaches root value) by (apply Hp; by left).
  assert (Hrest : ∀ v, In v pending → reaches root v) by (intros; apply Hp; by right).
  destruct value as [i g|items|items|].
  - case_bool_decide; [by apply IH|].
    destruct (resolve (i, g)) as [w|x] eqn:E.
    + apply IH. intros v [<-|Hin]; [|by apply Hrest].
      eapply reaches_trans; [exact Hv|]. econstructor; [exact E|constructor].
    + intros [= <-]. right. left. split; [done|]. by exists i, g, x.
  - destruct (has_active_key items) eqn:E.
    + intros [= <-]. right. right. split; [done|]. by exists items.
    + apply IH. intros v [Hin|Hin]%in_app_or; [|by apply Hrest].
      apply in_rev, in_map_iff in Hin as ([k u] & <- & Hin).
      eapply reaches_trans; [exact Hv|]. econstructor; [exact Hin|constructor].
  - apply IH. intros v [Hin|Hin]%in_app_or; [|by apply Hrest]. apply in_rev in Hin.
    eapply reaches_trans; [exact Hv|]. econstructor; [exact Hin|constructor].
  - by apply IH.
Qed.

(** No dictionary that can be reached carries an active key, and every reference
    that can be reached resolves. *)
Definition harmless (root : pdf_value) : Prop :=
  (∀ items, reaches root (DictionaryObject items) → has_active_key items = false) ∧
  (∀ i g, reaches root (IndirectObject i g) → ∃ v, resolve (i, g) = Ok v).

Lemma scan_accepts budget root : scan budget [root] [] = Ok tt → harmless root.
Proof.
  intros (V & _ & Hc & Hr)%scan_covers.
  assert (Hclosed : ∀ r, V r → ∃ u, resolve r = Ok u ∧ covered V u).
  { intros r Hin. apply Hr; [done|]. by intros ?%elem_of_nil. }
  assert (Hroot : covered V root) by (apply Hc; by left). split.
  - intros items Hreach. pose proof (covered_reaches _ _ _ Hclosed Hroot Hreach) as Hi.
    by inversion Hi.
  - intros i g Hreach. pose proof (covered_reaches _ _ _ Hclosed Hroot Hreach) as Hi.
    inversion Hi as [? ? HV| | |]; subst. destruct (Hclosed _ HV) as (u & E & _). eauto.
Qed.
End scan.

Lemma active_content_accepted (resolve : N * N → result pdf_value) (root : pdf_value) :
  _reject_active_content resolve root = Ok tt → harmless resolve root.
Proof.
  unfold _reject_active_content. generalize MAX_INSPECTED. intros budget. apply scan_accepts.
Qed.

(** ** The scan reaches its end *)
(** The values of a tree, a reference counting as one. *)
Fixpoint weight (v : pdf_value) : nat :=
  S (match v with
     | DictionaryObject items => list_sum (map (λ kv, weight kv.2) items)
     | ArrayObject items => list_sum (map weight items)
     | _ => 0
     end).

Section completes.
Context (resolve : N * N → result pdf_value) (root : pdf_value).

Definition target_weight (r : N * N) : nat :=
  match resolve r with Ok v => weight v | Err _ => 0 end.
(** What is left of the references [L]. *)
Definition unvisited (L visited : list (N * N)) : nat :=
  list_sum (map (λ r, if bool_decide (r ∈ visited) then 0 else target_weight r) L)%nat.
Definition pending_weight (pending : list pdf_value) : nat := list_sum (map weight pending).

Lemma pending_app l l' : pending_weight (l ++ l') = (pending_weight l + pending_weight l')%nat.
Proof. unfold pending_weight. by rewrite map_app, list_sum_app. Qed.
Lemma pending_rev l : pending_weight (rev l) = pending_weight l.
Proof.
  induction l as [|v l IH]; [done|]. simpl. rewrite pending_app, IH. unfold pending_weight. simpl. lia.
Qed.
Lemma visit_reference L visited r :
  NoDup L → r ∈ L → r ∉ visited →
  unvisited L visited = (target_weight r + unvisited L (r :: visited))%nat.
Proof.
  unfold unvisited. intros Hd Hin Hnew. induction Hd as [|x l Hx Hd IH]; [by apply elem_of_nil in Hin|].
  cbn [map]. apply elem_of_cons in Hin as [<-|Hin].
  - rewrite bool_decide_eq_false_2 by done. rewrite (bool_decide_eq_true_2 (r ∈ r :: visited)) by set_solver.
    simpl. f_equal. f_equal. apply map_ext_in. intros y Hy%list_elem_of_In.
    assert (y ≠ r) by congruence. by rewrite (bool_decide_ext (y ∈ r :: visited) (y ∈ visited)) by set_solver.
  - assert (x ≠ r) by congruence.
    rewrite (bool_decide_ext (x ∈ r :: visited) (x ∈ visited)) by set_solver.
    simpl. rewrite IH by done. lia.
Qed.

Lemma scan_completes L budget pending visited :
  NoDup L → harmless resolve root → (∀ i g, reaches resolve root (IndirectObject i g) → (i, g) ∈ L) →
  (∀ v, In v pending → reaches resolve root v) →
  (pending_weight pending + unvisited L visited <= budget)%nat →
  scan resolve budget pending visited = Ok tt.
Proof.
  intros Hd [Hact Href] HL. revert pending visited.
  induction budget as [|budget IH]; intros [|value pending] visited Hp Hb; try done.
  { destruct value; cbn in Hb; lia. }
  assert (Hv : reaches resolve root value) by (apply Hp; by left).
  assert (Hrest : ∀ v, In v pending → reaches resolve root v) by (intros; apply Hp; by right).
  change (pending_weight (value :: pending)) with (weight value + pending_weight pending)%nat in Hb.
  cbn [scan]. destruct value as [i g|items|items|]; cbn [weight] in Hb.
  - case_bool_decide as Hvis; [apply IH; [done|lia]|].
    destruct (Href i g Hv) as [w Hw]. rewrite Hw. apply IH.
    + intros v [<-|Hin]; [|by apply Hrest].
      eapply reaches_trans; [exact Hv|]. econstructor; [exact Hw|constructor].
    + rewrite (visit_reference L visited (i, g)) in Hb by auto. unfold target_weight in Hb.
      rewrite Hw in Hb. unfold pending_weight in *. simpl. lia.
  - rewrite (Hact items Hv). apply IH.
    + intros v [Hin|Hin]%in_app_or; [|by apply Hrest].
      apply in_rev, in_map_iff in Hin as ([k u] & <- & Hin).
      eapply reaches_trans; [exact Hv|]. econstructor; [exact Hin|constructor].
    + rewrite pending_app, pending_rev. unfold pending_weight at 1. rewrite map_map. lia.
  - apply IH.
    + intros v [Hin|Hin]%in_app_or; [|by apply Hrest]. apply in_rev in Hin.
      eapply reaches_trans; [exact Hv|]. econstructor; [exact Hin|constructor].
    + rewrite pending_app, pending_rev. unfold pending_weight at 1. lia.
  - apply IH; [done|lia].
Qed.

(** A scan that gives up has met more values than it inspects. *)
Lemma scan_gives_up L budget pending visited :
  NoDup L → (∀ i g, reaches resolve root (IndirectObject i g) → (i, g) ∈ L) →
  (∀ v, In v pending → reaches resolve root v) →
  scan resolve budget pending visited = Err too_complex →
  (budget < pending_weight pending + unvisited L visited)%nat.
Proof.
  intros Hd HL. revert pending visited.
  induction budget as [|budget IH]; intros [|value pending] visited Hp; cbn [scan]; try done.
  { intros _. unfold pending_weight. destruct value; cbn; lia. }
  assert (Hv : reaches resolve root value) by (apply Hp; by left).
  assert (Hrest : ∀ v, In v pending → reaches resolve root v) by (intros; apply Hp; by right).
  change (pending_weight (value :: pending)) with (weight value + pending_weight pending)%nat.
  destruct value as [i g|items|items|]; cbn [weight].
  - case_bool_decide as Hvis; [intros Hs%IH; [lia|done]|].
    destruct (resolve (i, g)) as [w|] eqn:Hw; [|done]. intros Hs%IH.
    + rewrite (visit_reference L visited (i, g)) by auto. unfold target_weight. rewrite Hw.
      unfold pending_weight in *. simpl in Hs. lia.
    + intros v [<-|Hin]; [|by apply Hrest].
      eapply reaches_trans; [exact Hv|]. econstructor; [exact Hw|constructor].
  - destruct (has_active_key items); [done|]. intros Hs%IH.
    + rewrite pending_app, pending_rev in Hs. unfold pending_weight at 1 in Hs.
      rewrite map_map in Hs. lia.
    + intros v [Hin|Hin]%in_app_or; [|by apply Hrest].
      apply in_rev, in_map_iff in Hin as ([k u] & <- & Hin).
      eapply reaches_trans; [exact Hv|]. econstructor; [exact Hin|constructor].
  - intros Hs%IH.
    + rewrite pending_app, pending_rev in Hs. unfold pending_weight at 1 in Hs. lia.
    + intros v [Hin|Hin]%in_app_or; [|by apply Hrest]. apply in_rev in Hin.
      eapply reaches_trans; [exact Hv|]. econstructor; [exact Hin|constructor].
  - intros Hs%IH; [lia|done].
Qed.
End completes.

Lemma max_inspected : Z.of_nat MAX_INSPECTED = 100000.
Proof. exact (N_nat_Z 100000). Qed.

Lemma reject_active_content_scan resolve root :
  _reject_active_content resolve root = scan resolve MAX_INSPECTED [root] [].
Proof. unfold _reject_active_content. generalize MAX_INSPECTED. reflexivity. Qed.

Lemma scan_exceeds resolve root budget L :
  NoDup L → (∀ i g, reaches resolve root (IndirectObject i g) → (i, g) ∈ L) →
  Z.of_nat budget = 100000 → scan resolve budget [root] [] = Err too_complex →
  100000 < Z.of_nat (weight root + list_sum (map (target_weight resolve) L)).
Proof.
  intros Hd HL Hmax E. apply (scan_gives_up resolve root L) in E; try done.
  - unfold unvisited in E. rewrite (map_ext _ (target_weight resolve)) in E by done.
    unfold pending_weight in E. cbn [map list_sum fold_right] in E. lia.
  - intros v [<-|[]]. constructor.
Qed.

(** C32: The scan for active content is exact on the whole object graph, cycles
    included: an accepted file has no active or embedded key in any dictionary
    that can be reached from the trailer, and every reference that can be reached
    resolves; a refused one has such a key, or a reachable reference that does not
    resolve, or more than 100000 values to inspect: whatever list [L] the
    reachable references are in, the trees of the trailer and of the objects of
    [L] have more than 100000 values. *)
Theorem active_content_is_found (resolve : N * N → result pdf_value) (root : pdf_value) :
  match _reject_active_content resolve root with
  | Ok _ => harmless resolve root
  | Err e =>
      (e = workflow_error "PDF structure is too complex" 400 ∧
       ∀ L, NoDup L → (∀ i g, reaches resolve root (IndirectObject i g) → (i, g) ∈ L) →
         100000 < Z.of_nat (weight root + list_sum (map (target_weight resolve) L))) ∨
      (e = workflow_error "PDF contains an invalid object" 400 ∧
       ∃ i g x, reaches resolve root (IndirectObject i g) ∧ resolve (i, g) = Err x) ∨
      (e = workflow_error "PDF contains active or embedded content" 400 ∧
       ∃ items, reaches resolve root (DictionaryObject items) ∧ has_active_key items = true)
  end.
Proof.
  destruct (_reject_active_content resolve root) as [[]|e] eqn:E.
  - by apply active_content_accepted.
  - rewrite reject_active_content_scan in E.
    assert (Hp : ∀ v, In v [root] → reaches resolve root v) by (intros v [<-|[]]; constructor).
    destruct (scan_refuses _ _ _ _ _ _ Hp E) as [->|[?|?]]; [|by right; left|by right; right].
    left. split; [done|]. intros L Hd HL.
    exact (scan_exceeds resolve root _ L Hd HL max_inspected E).
Qed.

(** C33: The scan ends by itself, cycles of references included: a harmless graph,
    whose references are among [L], is accepted when the values of its trees -
    each reference followed once - are no more than the code inspects. *)
Theorem harmless_graph_is_accepted (resolve : N * N → result pdf_value) (root : pdf_value)
    (L : list (N * N)) :
  NoDup L → harmless resolve root → (∀ i g, reaches resolve root (IndirectObject i g) → (i, g) ∈ L) →
  Z.of_nat (weight root + list_sum (map (target_weight resolve) L)) <= 100000 →
  _reject_active_content resolve root = Ok tt.
Proof.
  intros Hd Hh HL Hw. unfold _reject_active_content. apply (scan_completes resolve root L); try done.
  - intros v [<-|[]]. constructor.
  - unfold unvisited. rewrite (map_ext _ (target_weight resolve)) by done.
    unfold pending_weight. cbn [map list_sum fold_right]. unfold MAX_INSPECTED. lia.
Qed.

(** ** The validation *)

(** [PurePath(filename).name]: the last component, [.] and empty components
    left out. *)
Definition path_name (filename : string) : string :=
  from_option id "" (last (List.filter (λ c, nonempty c && negb (String.eqb c "."))
    (map text (split_slash (chars filename))))).

Definition invalid_filename (filename : string) : bool :=
  negb (String.eqb (path_name filename) filename) || contains "\" filename ||
  negb (ends_with ".pdf" (lower filename)) ||
  existsb (λ c, (N_of_ascii c <? 32)%N) (chars filename).

(** [content_type.split(";", 1)[0]] *)
Fixpoint before_char (c : ascii) (l : list ascii) : list ascii :=
  match l with
  | [] => []
  | x :: l' => if Ascii.eqb x c then [] else x :: before_char c l'
  end.
Definition media_type (content_type : string) : string :=
  lower (strip (text (before_char ";" (chars content_type)))).

(** The exceptions of the reader that mean a malformed file. *)
Definition malformed (e : exn) : bool :=
  match e with
  | PdfReadError | ValueError _ | TypeError | RecursionError | KeyError | AssertionError => true
  | _ => false
  end.

Definition positive (q : Q) : bool := negb (Qle_bool q 0).

Section validation.
Context `{Env} `{PdfLibrary}.

Fixpoint check_pages (l : list PdfPage) : result unit :=
  match l with
  | [] => Ok tt
  | page :: l =>
      width ← mediabox_width page;
      if negb (positive width) then Err (workflow_error "PDF contains an invalid page" 400)
      else
        height ← mediabox_height page;
        if negb (positive height) then Err (workflow_error "PDF contains an invalid page" 400)
        else check_pages l
  end.

Definition check_structure (content : string) : result unit :=
  reader ← read_pdf content;
  encrypted ← is_encrypted reader;
  if (encrypted : bool) then Err (workflow_error "Encrypted PDFs are not supported" 400)
  else
    l ← pages reader;
    let page_count := Z.of_nat (length l) in
    if (page_count <? 1) || (DOCUMENT_MAX_PAGES settings <? page_count)
    then Err (workflow_error "PDF page count is outside the allowed range" 400)
    else check_pages l;; _reject_active_content (get_indirect reader) (trailer reader).

Definition validate_pdf_upload (content filename content_type : string) : result unit :=
  if String.eqb content "" then Err (workflow_error "Document content cannot be empty" 400)
  else if DOCUMENT_MAX_SIZE_BYTES settings <? Z.of_nat (String.length content)
  then Err (workflow_error "Document exceeds the allowed size" 413)
  else if negb (String.eqb (media_type content_type) "application/pdf")
  then Err (workflow_error "Only PDF documents are accepted" 415)
  else if invalid_filename filename then Err (workflow_error "Invalid PDF filename" 400)
  else if negb (starts_with "%PDF-" content) || negb (contains "%%EOF" (last_str 2048 content))
  then Err (workflow_error "File content is not a PDF" 415)
  else match check_structure content with
       | Err e => if malformed e
                  then Err (workflow_error "PDF is malformed or unsupported" 400) else Err e
       | Ok u => Ok u
       end.

Lemma check_pages_ok l :
  check_pages l = Ok tt →
  ∀ p, In p l → ∃ w h, mediabox_width p = Ok w ∧ mediabox_height p = Ok h ∧ (0 < w)%Q ∧ (0 < h)%Q.
Proof.
  assert (Hpos : ∀ q, positive q = true → (0 < q)%Q).
  { intros q. unfold positive. destruct (Qle_bool q 0) eqn:E; [done|]. intros _.
    apply Qnot_le_lt. rewrite <- Qle_bool_iff. congruence. }
  induction l as [|p l IH]; intros Hl q; [by intros []|]. cbn in Hl.
  destruct (mediabox_width p) as [w|] eqn:Ew; [|done]. cbn in Hl.
  destruct (positive w) eqn:Hw; [|done]. cbn in Hl.
  destruct (mediabox_height p) as [h|] eqn:Eh; [|done]. cbn in Hl.
  destruct (positive h) eqn:Hh; [|done]. intros [<-|Hin]; [|by apply IH].
  exists w, h. auto.
Qed.

Lemma check_structure_ok content :
  check_structure content = Ok tt →
  ∃ reader l, read_pdf content = Ok reader ∧ is_encrypted reader = Ok false ∧
    pages reader = Ok l ∧ 1 <= Z.of_nat (length l) <= DOCUMENT_MAX_PAGES settings ∧
    check_pages l = Ok tt ∧ _reject_active_content (get_indirect reader) (trailer reader) = Ok tt.
Proof.
  unfold check_structure. intros (reader & E1 & Hr)%result_bind_ok.
  apply result_bind_ok in Hr as ([] & E2 & Hr); [done|].
  apply result_bind_ok in Hr as (l & E3 & Hr).
  destruct (_ || _) eqn:Hc; [done|]. apply orb_false_iff in Hc as [H1%Z.ltb_ge H2%Z.ltb_ge].
  apply result_bind_ok in Hr as ([] & E4 & Hr). exists reader, l. auto 10.
Qed.
End validation.

(** What the upload accepts is what it promises: a PDF by its name, its
    declared type and its first and last bytes, of the allowed size, readable,
    not encrypted, with at least one and not too many pages of positive size,
    and without active content anywhere in its object graph. *)
Theorem accepted_pdf_is_safe `{Env} `{PdfLibrary} (content filename content_type : string) :
  validate_pdf_upload content filename content_type = Ok tt →
  0 < Z.of_nat (String.length content) <= DOCUMENT_MAX_SIZE_BYTES settings ∧
  media_type content_type = "application/pdf" ∧ ends_with ".pdf" (lower filename) = true ∧
  path_name filename = filename ∧ starts_with "%PDF-" content = true ∧
  contains "%%EOF" (last_str 2048 content) = true ∧
  ∃ reader l, read_pdf content = Ok reader ∧ is_encrypted reader = Ok false ∧
    pages reader = Ok l ∧ 1 <= Z.of_nat (length l) <= DOCUMENT_MAX_PAGES settings ∧
    (∀ p, In p l → ∃ w h,
       mediabox_width p = Ok w ∧ mediabox_height p = Ok h ∧ (0 < w)%Q ∧ (0 < h)%Q) ∧
    harmless (get_indirect reader) (trailer reader).
Proof.
  unfold validate_pdf_upload, invalid_filename.
  destruct (String.eqb_spec content "") as [|Hne]; [done|].
  destruct (Z.ltb_spec (DOCUMENT_MAX_SIZE_BYTES settings) (Z.of_nat (String.length content)));
    [done|].
  destruct (String.eqb_spec (media_type content_type) "application/pdf"); [|done]. cbn [negb].
  destruct (String.eqb_spec (path_name filename) filename); [|done]. cbn [negb orb].
  destruct (contains "\" filename); [done|]. cbn [orb].
  destruct (ends_with ".pdf" (lower filename)); [|done]. cbn [negb orb].
  destruct (existsb _ (chars filename)); [done|].
  destruct (starts_with "%PDF-" content); [|done]. cbn [negb orb].
  destruct (contains "%%EOF" _); [|done]. cbn [negb].
  destruct (check_structure content) as [[]|x] eqn:E; [|by destruct (malformed x)]. intros _.
  apply check_structure_ok in E as (reader & l & E1 & E2 & E3 & E4 & E5 & E6).
  split_and!; try done; [destruct content; [done|cbn; lia]|].
  exists reader, l. split_and!; try done; try lia.
  - by apply check_pages_ok.
  - pose proof (active_content_accepted _ _ E6). done.
Qed.

(** ** Witnesses *)
Section witnesses.
#[local] Existing Instance Example.env.

(** A file with a page tree that points back to its root. *)
Definition small_pdf : PdfReader :=
  mkPdfReader (Ok false) (Ok [mkPdfPage (Ok 595%Q) (Ok 842%Q)])
    (DictionaryObject [("/Root", IndirectObject 1 0)])
    (λ r, if bool_decide (r = (1%N, 0%N))
          then Ok (DictionaryObject
                 [("/Pages", ArrayObject [IndirectObject 1 0; AtomObject])])
          else Err KeyError).
#[local] Instance library : PdfLibrary := λ _, Ok small_pdf.

Lemma small_references i g :
  reaches (get_indirect small_pdf) (trailer small_pdf) (IndirectObject i g) → (i, g) = (1%N, 0%N).
Proof.
  assert (Hc : ∀ v w, reaches (get_indirect small_pdf) v w → covered (λ r, r = (1%N, 0%N)) v →
            covered (λ r, r = (1%N, 0%N)) w).
  { intros v w Hr Hv. eapply covered_reaches; [|exact Hv|exact Hr]. intros r ->. eexists. split; [done|].
    constructor; [done|]. intros k u [[= <- <-]|[]]. constructor. intros x [<-|[<-|[]]]; by constructor. }
  intros Hr%Hc; [by inversion Hr|]. constructor; [done|]. intros k u [[= <- <-]|[]]. by constructor.
Qed.

(** The page tree points back to its root, and the scan ends. *)
Lemma harmless_graph_is_accepted_witness :
  _reject_active_content (get_indirect small_pdf) (trailer small_pdf) = Ok tt.
Proof.
  apply (harmless_graph_is_accepted _ _ [(1%N, 0%N)]).
  - apply NoDup_singleton.
  - apply (scan_accepts _ 10). vm_compute. reflexivity.
  - intros i g ->%small_references. by left.
  - vm_compute. discriminate.
Defined.

Lemma accepted_pdf_is_safe_witness :
  media_type "Application/PDF; x=1" = "application/pdf" ∧
  harmless (get_indirect small_pdf) (trailer small_pdf).
Proof.
  destruct (accepted_pdf_is_safe "%PDF-1.7 %%EOF" "contract.pdf" "Application/PDF; x=1")
    as (_ & Hm & _ & _ & _ & _ & reader & l & [= <-] & _ & _ & _ & _ & Hh).
  { vm_compute. reflexivity. }
  split; [exact Hm | exact Hh].
Defined.
End witnesses.
