(* ===== verification/Identity.v ===== *)
(** * Identity documents (tenant_identity.py, user_identifier_service.py)

    Normalisation and check digits of Brazilian CPF and CNPJ numbers, the other
    document types, and what is stored of them. *)

From S2P Require Import Prelude.
From S2P Require Import PyText.
From S2P Require Import Json.
From S2P Require Import Orm.
From S2P Require Import WorkflowSchema.
From S2P Require Import CoreDb.

Local Open Scope Z_scope.

(** ** Check digits *)

(** [sum(int(d) * w for d, w in zip(digits, weights))] *)
Definition weighted_sum (digits : list ascii) (weights : list Z) : Z :=
  fold_right Z.add 0 (zip_with (λ c w, digit_value c * w) digits weights).

Definition cnpj_weights : list (list Z) :=
  [[5; 4; 3; 2; 9; 8; 7; 6; 5; 4; 3; 2]; [6; 5; 4; 3; 2; 9; 8; 7; 6; 5; 4; 3; 2]].

(** The digit a CNPJ must have after [digits]. *)
Definition cnpj_digit (digits : list ascii) (weights : list Z) : Z :=
  let remainder := weighted_sum digits weights mod 11 in
  if remainder <? 2 then 0 else 11 - remainder.

(** [expected == int(normalized[index])] for index 12 and 13. *)
Definition cnpj_digits_ok (n : list ascii) : bool :=
  forallb (λ '(index, weights),
    match n !! index with
    | Some c => cnpj_digit (take index n) weights =? digit_value c
    | None => false
    end) (zip [12%nat; 13%nat] cnpj_weights).

(** [normalized == normalized[0] * len] *)
Definition uniform (n : list ascii) : bool :=
  match n with [] => true | c :: _ => forallb (Ascii.eqb c) n end.

(** [normalize_cnpj] of core_api: separators and any other character that is
    not a digit are dropped. *)
Definition normalize_cnpj (value : string) : result string :=
  let n := chars (keep_chars is_digit value) in
  if negb (Nat.eqb (length n) 14) || uniform n
  then Err (InvalidBusinessIdentifierError "Invalid Brazilian CNPJ")
  else if negb (cnpj_digits_ok n)
  then Err (InvalidBusinessIdentifierError "Invalid Brazilian CNPJ")
  else Ok (text n).

Section protect.
Context `{Env}.

(** [protect_cnpj]: ciphertext, lookup key and masked form. *)
Definition protect_cnpj (value : string) : M Core (string * string * string) :=
  normalized ← lift (normalize_cnpj value);
  n ← draw;
  let encrypted :=
    fernet_encrypt n (derived_key (TENANT_IDENTITY_ENCRYPTION_KEY settings)) normalized in
  let lookup := hmac_sha256_hex (TENANT_IDENTITY_HMAC_KEY settings) normalized in
  mret (encrypted, lookup, "••.•••.•••/••••-" +:+ last_str 2 normalized).
End protect.

(** ** auth_api: identifiers of a user *)
Definition ALIASES : list (string * string) :=
  [("passport", "PASSPORT"); ("national_id", "NATIONAL_ID");
   ("residence_card", "RESIDENCE_CARD"); ("driver_license", "DRIVER_LICENSE");
   ("tax_id", "TAX_ID"); ("other", "OTHER"); ("br_cpf", "BR_CPF");
   ("br_cnpj", "BR_CNPJ"); ("pt_nif", "PT_NIF"); ("jp_my_number", "JP_MY_NUMBER")].

Fixpoint alias_get (k : string) (l : list (string * string)) : option string :=
  match l with
  | [] => None
  | (k', v) :: l' => if String.eqb k k' then Some v else alias_get k l'
  end.

Definition normalize_identifier_type (value : string) : string :=
  let normalized := lower (strip value) in
  from_option id (upper (strip value)) (alias_get normalized ALIASES).

Definition normalize_identifier (value : string) : string :=
  keep_chars is_alnum (strip (upper value)).

(** [zip(normalized[:size], range(size + 1, 1, -1))] *)
Definition cpf_weights (size : nat) : list Z :=
  map (λ i, Z.of_nat (size + 1 - i)) (seq 0 size).
Definition cpf_digit (n : list ascii) (size : nat) : Z :=
  (weighted_sum (take size n) (cpf_weights size) * 10 mod 11) mod 10.
Definition cpf_digits_ok (n : list ascii) : bool :=
  forallb (λ size, match n !! size with
                   | Some c => cpf_digit n size =? digit_value c
                   | None => false
                   end) [9%nat; 10%nat].

Definition validate_identifier (my_number_enabled : bool) (identifier_type value : string)
    : result string :=
  let normalized_type := normalize_identifier_type identifier_type in
  let normalized := normalize_identifier value in
  let n := chars normalized in
  if String.eqb normalized_type "JP_MY_NUMBER" && negb my_number_enabled
  then Err (InvalidIdentifierError "JP My Number is not enabled")
  else if String.eqb normalized_type "BR_CPF" then
    if negb (Nat.eqb (length n) 11) || negb (forallb is_digit n) || uniform n
    then Err (InvalidIdentifierError "Invalid Brazilian CPF")
    else if negb (cpf_digits_ok n)
    then Err (InvalidIdentifierError "Invalid Brazilian CPF")
    else Ok normalized
  else if String.eqb normalized_type "BR_CNPJ" then
    if negb (Nat.eqb (length n) 14) || negb (forallb is_digit n) || uniform n
    then Err (InvalidIdentifierError "Invalid Brazilian CNPJ")
    else if negb (cnpj_digits_ok n)
    then Err (InvalidIdentifierError "Invalid Brazilian CNPJ")
    else Ok normalized
  else if String.eqb normalized_type "PT_NIF" then
    if negb (Nat.eqb (length n) 9) || negb (forallb is_digit n)
    then Err (InvalidIdentifierError "Invalid Portuguese NIF format")
    else Ok normalized
  else if negb (Nat.leb 4 (length n) && Nat.leb (length n) 80)
  then Err (InvalidIdentifierError "Invalid identity document format")
  else Ok normalized.

(** [masked_identifier]: the last four characters after at least four bullets. *)
Definition masked_identifier (value : string) : string :=
  fold_right (λ _ acc, "•" +:+ acc) (last_str 4 value)
    (seq 0 (Nat.max (String.length value - 4) 4)).

(** * Theorems *)

(** The decimal digit of a value between 0 and 9. *)
Definition digit_char (d : Z) : ascii := ascii_of_N (Z.to_N (d + 48)).

(** The only CNPJ on a twelve-digit base. *)
Definition cnpj_complete (base : list ascii) : list ascii :=
  let c1 := digit_char (cnpj_digit base [5; 4; 3; 2; 9; 8; 7; 6; 5; 4; 3; 2]) in
  let c2 := digit_char (cnpj_digit (base ++ [c1]) [6; 5; 4; 3; 2; 9; 8; 7; 6; 5; 4; 3; 2]) in
  base ++ [c1; c2].

Section check_digits.
Lemma cnpj_digit_range n w : 0 <= cnpj_digit n w <= 9.
Proof.
  unfold cnpj_digit. pose proof (Z.mod_pos_bound (weighted_sum n w) 11 ltac:(lia)).
  destruct (Z.ltb_spec (weighted_sum n w mod 11) 2); lia.
Qed.

Lemma digit_char_value d : 0 <= d <= 9 → digit_value (digit_char d) = d.
Proof.
  intros Hd. unfold digit_value, digit_char. rewrite N_ascii_embedding; lia.
Qed.

Lemma digit_value_inj c d : digit_value c = digit_value d → c = d.
Proof.
  unfold digit_value. intros H.
  rewrite <- (ascii_N_embedding c), <- (ascii_N_embedding d). f_equal. lia.
Qed.

Lemma digit_char_digit d : 0 <= d <= 9 → is_digit (digit_char d) = true.
Proof.
  intros Hd. unfold is_digit, digit_char. rewrite N_ascii_embedding by lia.
  apply andb_true_iff; split; apply N.leb_le; lia.
Qed.

Lemma digit_char_eq d c : 0 <= d <= 9 → d = digit_value c ↔ c = digit_char d.
Proof.
  intros Hd. split.
  - intros E. apply digit_value_inj. by rewrite digit_char_value.
  - intros ->. by rewrite digit_char_value.
Qed.

(** Both comparisons of the loop hold exactly on the completed base. *)
Lemma cnpj_digits_ok_complete base c1 c2 :
  length base = 12%nat →
  cnpj_digits_ok (base ++ [c1; c2]) = true ↔ base ++ [c1; c2] = cnpj_complete base.
Proof.
  intros Hl. unfold cnpj_digits_ok, cnpj_complete. simpl zip.
  cbn [forallb]. rewrite !lookup_app_r by lia. rewrite Hl. cbn [Nat.sub lookup list_lookup].
  assert (T1 : take 12 (base ++ [c1; c2]) = base) by (rewrite <- Hl; apply take_app_length).
  assert (T2 : take 13 (base ++ [c1; c2]) = base ++ [c1]).
  { change [c1; c2] with ([c1] ++ [c2]). rewrite app_assoc.
    replace 13%nat with (length (base ++ [c1])) by (rewrite length_app; simpl; lia).
    apply take_app_length. }
  rewrite T1, T2, andb_true_r, andb_true_iff, !Z.eqb_eq.
  rewrite (digit_char_eq _ c1), (digit_char_eq _ c2) by apply cnpj_digit_range.
  split; [by intros [<- <-] | by intros [= -> ->]%(inj (app base))].
Qed.
End check_digits.

Section normalisation.
Lemma filter_length_le (p : ascii → bool) l : (length (List.filter p l) <= length l)%nat.
Proof. induction l as [|x l IH]; simpl; [lia|]. destruct (p x); simpl; lia. Qed.

Lemma filter_idem {A} (p : A → bool) l : List.filter p (List.filter p l) = List.filter p l.
Proof.
  apply filter_all, List.Forall_forall. intros x [_ Hx]%filter_In. exact Hx.
Qed.

Lemma keep_chars_idem p s : keep_chars p (keep_chars p s) = keep_chars p s.
Proof. unfold keep_chars. by rewrite chars_text, filter_idem. Qed.

Lemma keep_chars_all p s : forallb p (chars (keep_chars p s)) = true.
Proof.
  unfold keep_chars. rewrite chars_text. apply forallb_forall.
  by intros x [_ Hx]%filter_In.
Qed.

(** The acceptance condition, as one boolean. *)
Lemma normalize_cnpj_ok value n :
  normalize_cnpj value = Ok n ↔
  n = keep_chars is_digit value ∧ length (chars n) = 14%nat ∧
  uniform (chars n) = false ∧ cnpj_digits_ok (chars n) = true.
Proof.
  unfold normalize_cnpj. set (m := keep_chars is_digit value).
  destruct (Nat.eqb_spec (length (chars m)) 14), (uniform (chars m)) eqn:E; simpl;
    try (split; [done | intros (-> & ? & ? & ?); congruence]).
  rewrite text_chars.
  destruct (cnpj_digits_ok (chars m)) eqn:E'; simpl;
    (split; [intros [= <-]; done | intros (-> & ? & ? & ?); congruence]).
Qed.

(** Dropping what is not alphanumeric and upper-casing leaves the digits of a
    text without letters. *)
Lemma upper_char_other c : is_alpha c = false → upper_char c = c.
Proof. destruct c as [[] [] [] [] [] [] [] []]; reflexivity || discriminate. Qed.

Lemma space_not_alnum c : is_space c = true → is_alnum c = false.
Proof. destruct c as [[] [] [] [] [] [] [] []]; reflexivity || discriminate. Qed.

Lemma filter_drop_while (p q : ascii → bool) l :
  (∀ c, q c = true → p c = false) → List.filter p (drop_while q l) = List.filter p l.
Proof.
  intros H. induction l as [|x l IH]; simpl; [done|].
  destruct (q x) eqn:E; [by rewrite IH, (H _ E) | done].
Qed.

Lemma filter_strip p s :
  (∀ c, is_space c = true → p c = false) → keep_chars p (strip s) = keep_chars p s.
Proof.
  intros H. unfold keep_chars, strip, rstrip_by, lstrip_by. rewrite !chars_text. f_equal.
  rewrite List.filter_rev, filter_drop_while by done.
  by rewrite List.filter_rev, rev_involutive, filter_drop_while.
Qed.

Lemma normalize_identifier_digits value :
  Forall (λ c, is_alpha c = false) (chars value) →
  normalize_identifier value = keep_chars is_digit value.
Proof.
  intros Hv. unfold normalize_identifier.
  rewrite filter_strip by apply space_not_alnum.
  unfold keep_chars, upper. rewrite chars_text. f_equal.
  induction Hv as [|c l Hc _ IH]; simpl; [done|].
  rewrite upper_char_other, IH by done. unfold is_alnum. by rewrite Hc.
Qed.
End normalisation.

(** [normalize_cnpj] accepts a text exactly when its digits are a
    twelve-digit base, not all equal, followed by the two check digits the base
    determines; so for each base there is one pair of check digits that is
    accepted, and the result is the bare digits. *)
Theorem normalize_cnpj_check_digits (value n : string) :
  normalize_cnpj value = Ok n ↔
  n = keep_chars is_digit value ∧ uniform (chars n) = false ∧
  ∃ base, length base = 12%nat ∧ chars n = cnpj_complete base.
Proof.
  rewrite normalize_cnpj_ok. split.
  - intros (-> & Hl & Hu & Hd). split; [done|]. split; [done|].
    set (m := chars _) in *. exists (take 12 m).
    assert (Hb : length (take 12 m) = 12%nat) by (rewrite length_take; lia).
    split; [done|].
    assert (∃ c1 c2, m = take 12 m ++ [c1; c2]) as (c1 & c2 & E).
    { assert (length (drop 12 m) = 2%nat) by (rewrite length_drop; lia).
      destruct (drop 12 m) as [|c1 [|c2 [|]]] eqn:Ed; try done.
      exists c1, c2. by rewrite <- Ed, take_drop. }
    rewrite E at 1. apply cnpj_digits_ok_complete; [done|]. by rewrite <- E.
  - intros (-> & Hu & base & Hl & E). split; [done|].
    assert (length (chars (keep_chars is_digit value)) = 14%nat) as Hn.
    { rewrite E. unfold cnpj_complete. rewrite length_app, Hl. done. }
    split; [done|]. split; [done|]. rewrite E. by apply cnpj_digits_ok_complete.
Qed.

(** Normalising is idempotent: a normalised CNPJ is accepted again and
    unchanged, and two spellings with the same digits have the same result. *)
Theorem normalize_cnpj_idempotent (value n : string) :
  normalize_cnpj value = Ok n →
  normalize_cnpj n = Ok n ∧
  ∀ other, keep_chars is_digit other = n → normalize_cnpj other = Ok n.
Proof.
  rewrite normalize_cnpj_ok. intros (-> & Hl & Hu & Hd). split.
  - apply normalize_cnpj_ok. by rewrite keep_chars_idem.
  - intros other E. apply normalize_cnpj_ok. by rewrite E.
Qed.

Lemma normalize_cnpj_idempotent_witness :
  normalize_cnpj "11222333000181" = Ok "11222333000181".
Proof.
  apply (proj1 (normalize_cnpj_idempotent "11.222.333/0001-81" "11222333000181"
    ltac:(vm_compute; reflexivity))).
Defined.

(** On a text without letters the two services agree on what a CNPJ is:
    [validate_identifier] of auth_api accepts a BR_CNPJ exactly when
    [normalize_cnpj] of core_api does, with the same result. *)
Theorem cnpj_validators_agree (my_number_enabled : bool) (value n : string) :
  Forall (λ c, is_alpha c = false) (chars value) →
  validate_identifier my_number_enabled "br_cnpj" value = Ok n ↔
  normalize_cnpj value = Ok n.
Proof.
  intros Hv. unfold validate_identifier, normalize_cnpj.
  change (normalize_identifier_type "br_cnpj") with "BR_CNPJ".
  cbn [String.eqb Ascii.eqb Bool.eqb andb].
  rewrite normalize_identifier_digits by done. rewrite text_chars, keep_chars_all.
  destruct (Nat.eqb _ _); simpl; [|done].
  destruct (uniform _); simpl; [done|]. by destruct (cnpj_digits_ok _).
Qed.

Lemma cnpj_validators_agree_witness :
  validate_identifier false "br_cnpj" " 11.222.333/0001-81" = Ok "11222333000181".
Proof.
  apply (proj2 (cnpj_validators_agree false " 11.222.333/0001-81" "11222333000181"
    ltac:(repeat constructor))). vm_compute. reflexivity.
Defined.

(** With a letter they differ: core_api drops it, auth_api refuses the value. *)
Lemma cnpj_validators_differ :
  normalize_cnpj "11222333X000181" = Ok "11222333000181" ∧
  validate_identifier false "br_cnpj" "11222333X000181"
    = Err (InvalidIdentifierError "Invalid Brazilian CNPJ").
Proof. split; vm_compute; reflexivity. Qed.
