(* ===== verification/Localization.v ===== *)
(** * Locales, countries, currencies, time zones (shared_kernel/localization.py)

    The normalisers every request payload with localisation fields goes
    through.  [zone_known] is the time-zone database of the host. *)

From S2P Require Import Prelude.
From S2P Require Import PyText.
From S2P Require Import Json.

Definition SUPPORTED_LOCALES : list string := ["pt-BR"; "en"; "es"; "ja-JP"].
Definition DEFAULT_LOCALE : string := "en".

(** [str(value or "").strip()] *)
Definition stripped (value : json) : string := strip (py_str (jor value (JStr ""))).

Definition normalize_locale (value : json) : string :=
  let candidate := lower (replace_char "_" "-" (stripped value)) in
  if String.eqb candidate "pt" || starts_with "pt-" candidate then "pt-BR"
  else if String.eqb candidate "ja" || starts_with "ja-" candidate then "ja-JP"
  else if String.eqb candidate "es" || starts_with "es-" candidate then "es"
  else if String.eqb candidate "en" || starts_with "en-" candidate then "en"
  else DEFAULT_LOCALE.

(** [len(s) == n and s.isascii() and s.isalpha()] *)
Definition alpha_code (n : nat) (s : string) : bool :=
  Nat.eqb (String.length s) n && all_chars is_ascii s && all_chars is_alpha s.

Definition normalize_country_code (value : json) : result (option string) :=
  let candidate := upper (stripped value) in
  if negb (nonempty candidate) then Ok None
  else if negb (alpha_code 2 candidate)
  then Err (ValueError "country_code must use ISO 3166-1 alpha-2 format")
  else Ok (Some candidate).

Definition normalize_currency (value : json) : result string :=
  let candidate := upper (stripped value) in
  if negb (alpha_code 3 candidate)
  then Err (ValueError "currency must use ISO 4217 format")
  else Ok candidate.

Definition normalize_timezone (zone_known : string → bool) (value : json) : result string :=
  let candidate := stripped value in
  if zone_known candidate then Ok candidate
  else Err (ValueError "timezone must be a valid IANA timezone").

(** * Theorems *)

Lemma upper_char_idem c : upper_char (upper_char c) = upper_char c.
Proof. destruct c as [[] [] [] [] [] [] [] []]; reflexivity. Qed.

Lemma upper_idem s : upper (upper s) = upper s.
Proof. unfold upper. by rewrite chars_text, map_map, (map_ext _ _ upper_char_idem). Qed.

Lemma alpha_not_space c : is_alpha c = true → is_space c = false.
Proof. destruct c as [[] [] [] [] [] [] [] []]; reflexivity || discriminate. Qed.

(** Stripping a word of letters does nothing. *)
Lemma strip_alpha s : all_chars is_alpha s = true → strip s = s.
Proof.
  intros Hs. unfold strip. apply strip_by_none, List.Forall_forall. intros c Hc.
  apply alpha_not_space. by eapply forallb_forall in Hs.
Qed.

Lemma stripped_code n s : alpha_code (S n) s = true → stripped (JStr s) = s.
Proof.
  unfold alpha_code. rewrite !andb_true_iff. intros [[Hl _] Ha].
  unfold stripped, jor. destruct s; [done|]. by apply strip_alpha.
Qed.

(** Localisation values are canonical: a locale is always one of the four
    supported ones, and normalising an accepted locale, country or currency
    again changes nothing, so a value read back from the database and sent in a
    new request is accepted as it is. *)
Theorem localization_idempotent (value : json) :
  mem_str (normalize_locale value) SUPPORTED_LOCALES = true ∧
  normalize_locale (JStr (normalize_locale value)) = normalize_locale value ∧
  (∀ c, normalize_country_code value = Ok (Some c) →
        normalize_country_code (JStr c) = Ok (Some c)) ∧
  (∀ c, normalize_currency value = Ok c → normalize_currency (JStr c) = Ok c).
Proof.
  split; [|split; [|split]].
  - unfold normalize_locale. by repeat case_match.
  - assert (In (normalize_locale value) SUPPORTED_LOCALES) as Hl.
    { unfold normalize_locale. repeat case_match; simpl; auto. }
    by repeat destruct Hl as [<-|Hl].
  - unfold normalize_country_code at 1. intros c.
    destruct (nonempty _) eqn:Hn; simpl; [|done].
    destruct (alpha_code 2 _) eqn:Ha; simpl; [|done]. intros [= <-].
    unfold normalize_country_code. rewrite (stripped_code 1) by done.
    by rewrite upper_idem, Hn, Ha.
  - unfold normalize_currency at 1. intros c.
    destruct (alpha_code 3 _) eqn:Ha; simpl; [|done]. intros [= <-].
    unfold normalize_currency. rewrite (stripped_code 2) by done.
    by rewrite upper_idem, Ha.
Qed.
