(* ===== verification/BillingPolicy.v ===== *)
(** * Billing rules (billing_service.py): plans, prices, statuses, periods

    The rules of the billing service that read one account or one provider
    resource, and the queries other services ask about the plan of a tenant. *)

From S2P Require Import Prelude.
From S2P Require Import PyText.
From S2P Require Import Json.
From S2P Require Import Orm.
From S2P Require Import WorkflowSchema.
From S2P Require Import CoreDb.

(** ** Plans *)
Definition PLAN_FILE_LIMITS : list (string * Z) :=
  [("rubrica_base", 20); ("rubrica_intermediate", 80); ("rubrica_team", 200)]%Z.
Definition BUSINESS_PRODUCT_CODES : list string := ["rubrica_intermediate"; "rubrica_team"].
Definition PLAN_MEMBER_LIMITS : list (string * Z) :=
  [("rubrica_intermediate", 3); ("rubrica_team", 10)]%Z.

(** [d.get(k)] on a constant dictionary. *)
Fixpoint plan_get {A} (k : string) (l : list (string * A)) : option A :=
  match l with
  | [] => None
  | (k', v) :: l' => if String.eqb k k' then Some v else plan_get k l'
  end.

(** [str(product_code or "rubrica_base")], with the former name of the base plan. *)
Definition _normalize_product_code (product_code : json) : string :=
  let value := py_str (jor product_code (JStr "rubrica_base")) in
  if String.eqb value "rubrica_mvp" then "rubrica_base" else value.

(** ** Access of an account *)
Section account.
Implicit Types a : Account.BillingAccountEntity.

Definition _has_unlimited_signatures a : bool := Account.complimentary_lifetime a.

Definition _paid_access_enabled (now : Z) a : bool :=
  if String.eqb (Account.status a) "active" then true
  else match Account.grace_period_ends_at a with
       | None => false
       | Some grace =>
           if negb (String.eqb (Account.status a) "past_due") then false
           else Z.ltb now grace
       end.

Definition _active_plan_file_limit (now : Z) a : option Z :=
  if negb (_paid_access_enabled now a) then None
  else plan_get (_normalize_product_code (jopt_str (Account.current_product_code a)))
         PLAN_FILE_LIMITS.

Definition _subscription_requires_portal a : bool :=
  opt_nonempty (Account.provider_subscription_id a) &&
  mem_str (Account.status a) ["active"; "pending"; "past_due"; "unpaid"; "paused"].

(** The condition both plan queries share. *)
Definition business_plan (now : Z) a : bool :=
  Account.complimentary_lifetime a ||
  (mem_str (_normalize_product_code (jopt_str (Account.current_product_code a)))
     BUSINESS_PRODUCT_CODES && _paid_access_enabled now a).

(** [_sync_usage_period]: the counter is reset, and the period moved, only by
    a renewal that starts later than the current period. *)
Definition _sync_usage_period (period_start period_end : option Z)
    (reset_usage : bool) a : Account.BillingAccountEntity :=
  let a := match period_end with
           | Some e => a <| Account.current_period_ends_at := Some e |>
           | None => a
           end in
  match period_start with
  | None => a
  | Some start =>
      let current_start := Account.usage_period_starts_at a in
      let later := match current_start with Some c => Z.ltb c start | None => false end in
      let a := if reset_usage && later
               then a <| Account.files_uploaded_in_period := 0%Z |> else a in
      if match current_start with None => true | Some _ => reset_usage && later end
      then a <| Account.usage_period_starts_at := Some start |> else a
  end.
End account.

Definition _subscription_status (provider_status : string) : string :=
  if mem_str provider_status ["active"; "trialing"] then "active"
  else if mem_str provider_status ["past_due"; "incomplete"] then "past_due"
  else if String.eqb provider_status "unpaid" then "unpaid"
  else if mem_str provider_status ["canceled"; "incomplete_expired"] then "cancelled"
  else if String.eqb provider_status "paused" then "paused"
  else "not_configured".

(** ** Reading provider resources *)

(** [datetime.fromtimestamp(t, tz=UTC)]: years 1 to 9999. *)
Definition fromtimestamp (t : Z) : result Z :=
  if (Z.leb (-62135596800) t) && (Z.leb t 253402300799)
  then Ok (t * 1000000)%Z else Err (ValueError "year is out of range").

Definition _timestamp (value : json) : result (option Z) :=
  if truthy value
  then z ← py_int value; t ← fromtimestamp z; Ok (Some t)
  else Ok None.

Definition _event_created_at (now : Z) (event : json) : result Z :=
  raw ← jget event "created";
  match raw with
  | JNull => Ok now
  | _ => z ← py_int raw; fromtimestamp z
  end.

(** [(resource.get(k) or {}).get("data") or []] *)
Definition nested_data (resource : json) (k : string) : result (list json) :=
  holder ← jget resource k;
  data ← jget (jor holder (JObj [])) "data";
  jitems (jor data (JArr [])).

Fixpoint first_period (lines : list json) : result (option (option Z * option Z)) :=
  match lines with
  | [] => Ok None
  | line :: rest =>
      p ← jget line "period";
      let period := jor p (JObj []) in
      start ← jget period "start";
      stop ← jget period "end";
      if truthy start && truthy stop then
        a ← _timestamp start; b ← _timestamp stop; Ok (Some (a, b))
      else first_period rest
  end.
Definition _invoice_service_period (resource : json) : result (option Z * option Z) :=
  lines ← nested_data resource "lines";
  found ← first_period lines;
  match found with
  | Some p => Ok p
  | None =>
      s ← jget resource "period_start"; e ← jget resource "period_end";
      a ← _timestamp s; b ← _timestamp e; Ok (a, b)
  end.

Fixpoint first_price (items : list json) : result (option string) :=
  match items with
  | [] => Ok None
  | item :: rest =>
      p ← jget item "price";
      plan ← (if truthy p then Ok p else jget item "plan");
      id ← jget (jor plan (JObj [])) "id";
      let price_id := py_str (jor id (JStr "")) in
      if nonempty price_id then Ok (Some price_id) else first_price rest
  end.
Definition _subscription_price_id (resource : json) : result (option string) :=
  items ← nested_data resource "items"; first_price items.

Definition _subscription_period (resource : json) : result (option Z * option Z) :=
  start ← jget resource "current_period_start";
  stop ← jget resource "current_period_end";
  bounds ←
    (if truthy start && truthy stop then Ok (start, stop)
     else
       items ← nested_data resource "items";
       match items with
       | [] => Ok (start, stop)
       | item :: _ =>
           s ← (if truthy start then Ok start else jget item "current_period_start");
           e ← (if truthy stop then Ok stop else jget item "current_period_end");
           Ok (s, e)
       end);
  a ← _timestamp bounds.1; b ← _timestamp bounds.2; Ok (a, b).

Definition _tenant_id (resource : json) : result (option N) :=
  metadata ← jget_or resource "metadata" (JObj []);
  in_metadata ← jget metadata "tenant_id";
  raw ← (if truthy in_metadata then Ok in_metadata
         else jget resource "client_reference_id");
  Ok (if truthy raw then parse_uuid (py_str raw) else None).

(** ** Prices *)
Section prices.
Context `{Env}.

(** [_configured_prices(plan, interval)] *)
Definition _configured_prices (plan interval : string) : list (string * option string) :=
  map (λ currency, (currency, STRIPE_PRICE settings plan interval currency))
    ["BRL"; "USD"; "EUR"; "JPY"].

Definition price_table : list (string * list (string * list (string * option string))) :=
  map (λ '(product, plan),
    (product, [("month", _configured_prices plan "MONTHLY");
               ("year", _configured_prices plan "ANNUAL")]))
    [("rubrica_base", "ESSENTIAL"); ("rubrica_intermediate", "PROFESSIONAL");
     ("rubrica_team", "TEAM")].

Definition _price_for_currency (currency product_code billing_interval : string)
    : result string :=
  let configured :=
    from_option id [] (plan_get billing_interval
      (from_option id [] (plan_get product_code price_table))) in
  match plan_get (upper currency) configured with
  | Some (Some price_id) =>
      if nonempty price_id then Ok price_id
      else Err (WorkflowError ("Stripe price is not configured for " +:+ product_code
                  +:+ " in " +:+ currency) 503 None [])
  | _ => Err (WorkflowError ("Stripe price is not configured for " +:+ product_code
                +:+ " in " +:+ currency) 503 None [])
  end.

(** The settings of a plan in the order the dictionary of [_product_code]
    lists them: monthly prices, then annual prices. *)
Definition plan_prices (plan : string) : list (option string) :=
  map snd (_configured_prices plan "MONTHLY") ++ map snd (_configured_prices plan "ANNUAL").

(** The items of [configured_prices], in insertion order; a later item with
    the same key replaces an earlier one. *)
Definition configured_prices : list (string * string) :=
  concat (map (λ '(product, plan),
    omap (λ price : option string,
      match price with
      | Some p => if nonempty p then Some (p, product) else None
      | None => None
      end) (plan_prices plan))
    [("rubrica_base", "ESSENTIAL"); ("rubrica_intermediate", "PROFESSIONAL");
     ("rubrica_team", "TEAM")]).

Definition _product_code (resource : json) : result string :=
  price_id ← _subscription_price_id resource;
  match (match price_id with Some p => plan_get p (rev configured_prices) | None => None end) with
  | Some product => Ok product
  | None =>
      metadata ← jget resource "metadata";
      code ← jget (jor metadata (JObj [])) "product_code";
      let normalized := _normalize_product_code code in
      Ok (if mem_str normalized (map fst PLAN_FILE_LIMITS) then normalized
          else "rubrica_base")
  end.
End prices.

(** ** Plan queries *)
Section queries.
Context `{Env}.

(** The non-deleted account of a tenant. *)
Definition account_of (tenant_id : N) (a : Account.BillingAccountEntity) : bool :=
  N.eqb (Account.tenant_id a) tenant_id.
Definition open_account_of (tenant_id : N) (a : Account.BillingAccountEntity) : bool :=
  N.eqb (Account.tenant_id a) tenant_id && bool_decide (Account.deleted_at a = None).

Definition business_features_enabled (tenant_id : N) : M Core bool :=
  account ← scalar (open_account_of tenant_id);
  now ← utc_now;
  mret (from_option (business_plan now) false account).

Definition email_invitations_enabled (tenant_id : N) : M Core bool :=
  account ← scalar (open_account_of tenant_id);
  now ← utc_now;
  mret (from_option (business_plan now) false account).
End queries.

(** * Theorems *)

Section plan_tables.
Context {A : Type}.
Implicit Types l : list (string * A).

Lemma plan_get_some_in k v l : plan_get k l = Some v → In (k, v) l.
Proof.
  induction l as [|[k' v'] l IH]; simpl; [done|].
  destruct (String.eqb_spec k k') as [->|]; [intros [= ->]; by left | by right; apply IH].
Qed.

Lemma plan_get_in k v l : NoDup (map fst l) → In (k, v) l → plan_get k l = Some v.
Proof.
  induction l as [|[k' v'] l IH]; simpl; [done|]. intros [Hk Hl]%NoDup_cons.
  intros [[= -> ->]|Hin]; [by rewrite String.eqb_refl|].
  destruct (String.eqb_spec k k') as [->|]; [|by apply IH].
  destruct Hk. rewrite list_elem_of_In, in_map_iff. by exists (k', v).
Qed.

Lemma plan_get_rev k v l :
  NoDup (map fst l) → In (k, v) l → plan_get k (rev l) = Some v.
Proof.
  intros Hl Hin. apply plan_get_in; [|by rewrite <- in_rev].
  rewrite map_rev. rewrite (Permutation_rev (map fst l)) in Hl. done.
Qed.
End plan_tables.

Section price_lemmas.
Context `{Env}.

Lemma in_configured_prices product plan price :
  In (product, plan)
    [("rubrica_base", "ESSENTIAL"); ("rubrica_intermediate", "PROFESSIONAL");
     ("rubrica_team", "TEAM")] →
  In (Some price) (plan_prices plan) → nonempty price = true →
  In (price, product) configured_prices.
Proof.
  intros Hp Hin Hne. unfold configured_prices. apply in_concat.
  exists (omap (λ q : option string,
    match q with
    | Some p => if nonempty p then Some (p, product) else None
    | None => None
    end) (plan_prices plan)).
  split; [apply in_map_iff; by exists (product, plan)|].
  apply list_elem_of_In, list_elem_of_omap. exists (Some price).
  rewrite list_elem_of_In, Hne. done.
Qed.

Lemma price_for_currency_configured currency product interval price :
  _price_for_currency currency product interval = Ok price →
  In (price, product) configured_prices.
Proof.
  unfold _price_for_currency, price_table. intros Hp.
  destruct (plan_get product _) as [intervals|] eqn:E1; [|done].
  apply plan_get_some_in, in_map_iff in E1 as ([? plan] & [= -> <-] & Hplan).
  cbn [from_option id] in Hp.
  destruct (plan_get interval _) as [prices|] eqn:E2; [|done].
  apply plan_get_some_in in E2. cbn [from_option id] in Hp.
  destruct (plan_get (upper currency) prices) as [[p|]|] eqn:E3; [|done..].
  destruct (nonempty p) eqn:Hne; [|done]. injection Hp as ->.
  apply plan_get_some_in in E3.
  apply (in_configured_prices _ _ _ Hplan); [|done].
  apply (in_map snd) in E3. unfold plan_prices. apply in_app_iff.
  destruct E2 as [[= _ <-]|[[= _ <-]|[]]]; [by left | by right].
Qed.
End price_lemmas.

(** The price the checkout asks for is the price the webhook recognises:
    when no price identifier is configured twice, a subscription that carries
    the price chosen for a product, interval and currency is read back as that
    product. *)
Theorem price_product_roundtrip `{Env} (currency product interval price : string)
    (resource : json) :
  NoDup (map fst configured_prices) →
  _price_for_currency currency product interval = Ok price →
  _subscription_price_id resource = Ok (Some price) →
  _product_code resource = Ok product.
Proof.
  intros Hd Hp Hs. unfold _product_code. rewrite Hs. cbn [mbind result_bind].
  by rewrite (plan_get_rev price product _ Hd (price_for_currency_configured _ _ _ _ Hp)).
Qed.

Section usage_period.
Implicit Types a : Account.BillingAccountEntity.

(** A renewal, as the [invoice.paid] handler reads it. *)
Definition renew (period : Z * Z) a : Account.BillingAccountEntity :=
  _sync_usage_period (Some period.1) (Some period.2) true a.

Lemma renew_usage period c a :
  Account.usage_period_starts_at a = Some c →
  Account.usage_period_starts_at (renew period a) = Some (Z.max c period.1) ∧
  Account.files_uploaded_in_period (renew period a) =
    (if Z.ltb c period.1 then 0 else Account.files_uploaded_in_period a)%Z.
Proof.
  intros Hc. unfold renew, _sync_usage_period. simpl. rewrite Hc. simpl.
  destruct (Z.ltb_spec c period.1); simpl; split; auto; rewrite ?Hc; f_equal; lia.
Qed.
End usage_period.

(** Renewals may arrive in any order: after a sequence of them the usage
    period starts at the latest start seen, and the upload counter is zero
    exactly when one of them started a new period (otherwise it is untouched);
    neither depends on the order or on repetitions. *)
Theorem renewals_any_order (renewals : list (Z * Z)) (c : Z)
    (a : Account.BillingAccountEntity) :
  Account.usage_period_starts_at a = Some c →
  let after := fold_left (λ a r, renew r a) renewals a in
  Account.usage_period_starts_at after = Some (fold_right Z.max c (map fst renewals)) ∧
  Account.files_uploaded_in_period after =
    (if existsb (Z.ltb c) (map fst renewals) then 0
     else Account.files_uploaded_in_period a)%Z.
Proof.
  revert a c. induction renewals as [|r l IH]; intros a c Hc; simpl; [done|].
  destruct (renew_usage r c a Hc) as [Hs Hf].
  destruct (IH (renew r a) _ Hs) as [IHs IHf]. rewrite IHs, IHf, Hf. split.
  - f_equal. clear. induction l as [|x l IH]; simpl; lia.
  - destruct (Z.ltb_spec c r.1) as [Hlt|Hge]; simpl.
    + by destruct (existsb _ _).
    + by rewrite Z.max_l.
Qed.

(** Paid access is lost by time alone and never gained: an account that
    still has access later has it now; an active account always has it, one
    that is not active only before the end of its grace period. *)
Theorem paid_access_over_time (now later : Z) (a : Account.BillingAccountEntity) :
  (now <= later)%Z →
  (_paid_access_enabled later a = true → _paid_access_enabled now a = true) ∧
  (_paid_access_enabled now a = true ↔
   Account.status a = "active" ∨
   Account.status a = "past_due" ∧
   ∃ grace, Account.grace_period_ends_at a = Some grace ∧ (now < grace)%Z).
Proof.
  intros Hle. unfold _paid_access_enabled.
  destruct (String.eqb_spec (Account.status a) "active") as [->|Ha]; [naive_solver|].
  destruct (Account.grace_period_ends_at a) as [g|]; [|naive_solver].
  destruct (String.eqb_spec (Account.status a) "past_due") as [->|Hp]; simpl; [|naive_solver].
  rewrite !Z.ltb_lt. split; [lia|]. split.
  - intros Hg. right. eauto.
  - intros [?|(_ & ? & [= <-] & ?)]; done.
Qed.

(** The tenant of a provider event is found where [create_checkout] put it:
    a resource whose metadata carry the text of a tenant identifier is resolved
    to that identifier, whatever the reference of the client; without it, the
    reference decides. *)
Theorem tenant_id_roundtrip (resource metadata : json) (tenant_id : N) :
  (tenant_id < 2 ^ 128)%N →
  jget_or resource "metadata" (JObj []) = Ok metadata →
  (jget metadata "tenant_id" = Ok (JStr (uuid_str tenant_id)) →
   _tenant_id resource = Ok (Some tenant_id)) ∧
  (jget metadata "tenant_id" = Ok JNull →
   jget resource "client_reference_id" = Ok (JStr (uuid_str tenant_id)) →
   _tenant_id resource = Ok (Some tenant_id)).
Proof.
  intros Hu Hm. unfold _tenant_id. rewrite Hm. cbn [mbind result_bind].
  assert (Ht : truthy (JStr (uuid_str tenant_id)) = true) by done.
  split; [intros ->|intros -> E]; cbn [mbind result_bind].
  - rewrite Ht. cbn [mbind result_bind]. rewrite Ht. cbn [py_str]. by rewrite (parse_uuid_str _ Hu).
  - change (truthy JNull) with false. cbv iota. rewrite E. cbn [mbind result_bind].
    rewrite Ht. cbn [py_str]. by rewrite (parse_uuid_str _ Hu).
Qed.

(** ** Witnesses *)
Section witnesses.
#[local] Existing Instance Example.env.

Definition priced (price : string) : json :=
  JObj [("items", JObj [("data", JArr [JObj [("price", JObj [("id", JStr price)])]])])].

Lemma price_product_roundtrip_witness :
  _product_code (priced "TEAM_ANNUAL_EUR") = Ok "rubrica_team".
Proof.
  apply (price_product_roundtrip "eur" "rubrica_team" "year" "TEAM_ANNUAL_EUR").
  - refine (bool_decide_unpack _ _). vm_compute. exact I.
  - vm_compute. reflexivity.
  - vm_compute. reflexivity.
Defined.

Lemma renewals_any_order_witness :
  Account.usage_period_starts_at
    (fold_left (λ a r, renew r a) [(30, 40); (10, 20); (30, 40)]%Z
       (Example.team_account <| Account.usage_period_starts_at := Some 5%Z |>)) = Some 30%Z.
Proof.
  exact (proj1 (renewals_any_order [(30, 40); (10, 20); (30, 40)]%Z 5
    (Example.team_account <| Account.usage_period_starts_at := Some 5%Z |>) eq_refl)).
Defined.

Lemma paid_access_over_time_witness :
  _paid_access_enabled 10 (Example.team_account <| Account.status := "past_due" |>
    <| Account.grace_period_ends_at := Some 50%Z |>) = true.
Proof.
  refine (proj1 (paid_access_over_time 10 49 _ ltac:(lia)) _). vm_compute. reflexivity.
Defined.

Lemma tenant_id_roundtrip_witness :
  _tenant_id (JObj [("metadata", JObj [("tenant_id", JStr (uuid_str 7))])]) = Ok (Some 7%N).
Proof.
  refine (proj1 (tenant_id_roundtrip _ (JObj [("tenant_id", JStr (uuid_str 7))]) 7 _ _) _);
    vm_compute; reflexivity.
Defined.
End witnesses.
