(* ===== verification/Tenant.v ===== *)
(** * Tenants and their members (tenant_service.py, user_client.py)

    The operations on workspaces: provisioning, membership under the limits of
    the plan, suspension after a downgrade, the business identity.  The queries
    about the plan come from BillingPolicy. *)

From S2P Require Import Prelude.
From S2P Require Import PyText.
From S2P Require Import Json.
From S2P Require Import Orm.
From S2P Require Import WorkflowSchema.
From S2P Require Import CoreDb.
From S2P Require Import Identity.
From S2P Require Import BillingPolicy.

Local Open Scope Z_scope.

(** ** Calls to auth_api (user_client.py) *)
Module UserClient.
Section client.
Context `{Env}.

(** [UUID(json.loads(body)["user_id"])] *)
Definition user_id_of (body : json) : result N :=
  raw ← jindex body "user_id";
  match raw with
  | JStr s => match parse_uuid s with Some u => Ok u | None => Err (ValueError s) end
  | JNull => Err TypeError
  | _ => Err AttributeError
  end.

(** The handler of a failed answer: [ValueError] and [KeyError] are the
    service being unavailable, other exceptions propagate. *)
Definition unavailable (message : string) (r : result N) : result N :=
  match r with
  | Err (ValueError _) | Err KeyError => Err (workflow_error message 503)
  | _ => r
  end.

Definition resolve_auth_user (email : string) : result N :=
  match auth_resolve email with
  | HttpOk body => unavailable "Auth service is unavailable" (user_id_of body)
  | HttpStatus code _ =>
      if Z.eqb code 404
      then Err (workflow_error "The invited user does not exist or is inactive" 422)
      else Err (workflow_error "Auth service is unavailable" 503)
  | HttpDown => Err (workflow_error "Auth service is unavailable" 503)
  end.

Definition invite_auth_user (name email document locale country : string) : result N :=
  let payload := JObj
    [("name", JStr name); ("email", JStr email);
     ("identity_document_type",
       JStr (if String.eqb country "BR" then "BR_CPF" else "NATIONAL_ID"));
     ("identity_document_country", JStr country);
     ("identity_document_value", JStr document);
     ("preferred_locale", JStr locale)] in
  match auth_invite payload with
  | HttpOk body => unavailable "Auth invitation service is unavailable" (user_id_of body)
  | HttpStatus code body =>
      detail ← match body with
               | Some b => d ← jget_or b "detail" (JStr ""); Ok (py_str d)
               | None => Ok ""
               end;
      if (code =? 409) || (code =? 422)
      then Err (workflow_error
        (if nonempty detail then detail
         else "E-mail or identity document is already registered") code)
      else Err (workflow_error "Auth invitation service is unavailable" 503)
  | HttpDown => Err (workflow_error "Auth invitation service is unavailable" 503)
  end.
End client.
End UserClient.

(** ** Payloads and answers (tenant_schema.py) *)
Record TenantCreate := mkTenantCreate {
  tc_name : string; tc_default_locale : string; tc_country_code : option string;
  tc_timezone : string; tc_currency : string
}.
Record TenantProvision := mkTenantProvision {
  tp_owner_user_id : option N; tp_owner_email : string; tp_name : string;
  tp_default_locale : string; tp_country_code : option string
}.
Record TenantPreferencesUpdate := mkTenantPreferencesUpdate {
  pu_default_locale : string; pu_country_code : option string;
  pu_timezone : string; pu_currency : string
}.
Record TenantMemberCreate := mkTenantMemberCreate { mc_auth_user_id : string; mc_role : string }.
Record TenantMemberInvitation := mkTenantMemberInvitation {
  mi_name : string; mi_email : string; mi_document : string; mi_role : string
}.
Record TenantBusinessConversion := mkTenantBusinessConversion {
  bc_legal_name : string; bc_cnpj : string
}.

Record TenantRead := mkTenantRead {
  tr_id : N; tr_name : string; tr_slug : string; tr_status : string; tr_role : string;
  tr_created_at : Z; tr_default_locale : string; tr_country_code : option string;
  tr_timezone : string; tr_currency : string; tr_kind : string;
  tr_legal_name : option string; tr_registration_country : option string;
  tr_registration_type : option string; tr_registration_masked : option string;
  tr_registration_verification_status : option string
}.
Record TenantMemberRead := mkTenantMemberRead {
  mr_id : N; mr_auth_user_id : string; mr_role : string; mr_status : string;
  mr_joined_at : option Z
}.
Record TenantTeamRead := mkTenantTeamRead {
  members : list TenantMemberRead; team_member_limit : option Z; active_count : Z;
  requires_selection : bool; can_manage : bool; current_member_id : N
}.
Record SuspendedTenantAccess := mkSuspendedTenantAccess {
  sa_tenant_id : N; sa_tenant_name : string; sa_tenant_kind : string; sa_role : string;
  sa_default_locale : string; sa_country_code : option string; sa_currency : string
}.
Record TenantAccessState := mkTenantAccessState {
  active_tenant_count : Z; suspended_tenants : list SuspendedTenantAccess;
  can_create_personal_tenant : bool
}.

(** [TenantTeamUpdate.unique_members] *)
Definition unique_members (value : list N) : result (list N) :=
  if bool_decide (NoDup value) then Ok value else Err (ValueError "Duplicate members").

Module TenantService.

Definition EURO_COUNTRY_CODES : list string :=
  ["AD"; "AT"; "BE"; "CY"; "DE"; "EE"; "ES"; "FI"; "FR"; "GR"; "HR"; "IE"; "IT"; "LT";
   "LU"; "LV"; "MC"; "ME"; "MT"; "NL"; "PT"; "SI"; "SK"; "SM"; "VA"; "XK"].

Definition billing_currency_for_country (country_code : option string) : string :=
  let code := upper (from_option id "" country_code) in
  if String.eqb code "BR" then "BRL"
  else if String.eqb code "JP" then "JPY"
  else if mem_str code EURO_COUNTRY_CODES then "EUR"
  else "USD".

(** Shorthands for the attributes the queries test. *)
Definition not_deleted (m : Member.TenantMemberEntity) : bool :=
  bool_decide (Member.deleted_at m = None).
Definition open_tenant (t : Tenant.TenantEntity) : bool :=
  bool_decide (Tenant.deleted_at t = None).
Definition member_of (tenant_id : N) (m : Member.TenantMemberEntity) : bool :=
  N.eqb (Member.tenant_id m) tenant_id && not_deleted m.
Definition is_active (m : Member.TenantMemberEntity) : bool :=
  String.eqb (Member.status m) "active".
Definition is_admin (m : Member.TenantMemberEntity) : bool :=
  String.eqb (Member.role m) "admin".
Definition active_member_of (tenant_id : N) (m : Member.TenantMemberEntity) : bool :=
  member_of tenant_id m && is_active m.

Section service.
Context `{Env}.

Definition _public_slug : M Core string := token_urlsafe 18.

(** The account the mapped class builds with its column defaults. *)
Definition new_account (tenant_id : N) : M Core unit :=
  i ← uuid4; now ← utc_now;
  add (Account.make i tenant_id "not_configured" None None None None None false None None
         None 5 0 0 None false None None None now None).

Definition new_tenant (name locale : string) (country : option string)
    (timezone currency : string) : M Core Tenant.TenantEntity :=
  slug ← _public_slug; i ← uuid4; now ← utc_now;
  let t := Tenant.make i (strip name) slug "active" locale country timezone currency
    "personal" None None None None None None None None None now None in
  add t;; mret t.

Definition new_member (tenant_id : N) (auth_user_id : string) (auth_user_uuid : option N)
    (role : string) (joined_at : option Z) : M Core Member.TenantMemberEntity :=
  i ← uuid4; now ← utc_now;
  let m := Member.make i tenant_id auth_user_id auth_user_uuid role "active" joined_at
    now None in
  add m;; mret m.

Definition _audit (tenant_id : N) (actor_id action : string) (metadata : json)
    : M Core unit :=
  i ← uuid4; correlation ← uuid4; now ← utc_now;
  add (Audit.make i None now "user" actor_id action "tenant" tenant_id correlation metadata).

Definition _read (t : Tenant.TenantEntity) (role : string) : TenantRead :=
  mkTenantRead (Tenant.id t) (Tenant.name t) (Tenant.slug t) (Tenant.status t) role
    (Tenant.created_at t) (Tenant.default_locale t) (Tenant.country_code t)
    (Tenant.timezone t) (Tenant.currency t) (Tenant.kind t) (Tenant.legal_name t)
    (Tenant.registration_country t) (Tenant.registration_type t)
    (Tenant.registration_masked t) (Tenant.registration_verification_status t).

(** The WHERE clause that recognises the memberships of a person: by user
    identifier when one is known, and otherwise, or for a membership without
    one, by the e-mail. *)
Definition membership_identity_filter (subject : string) (user_id : option N)
    : M Core (Member.TenantMemberEntity → bool) :=
  context ← gets Core.auth_context;
  let resolved :=
    match user_id with
    | Some u => Some u
    | None => match context with
              | Some c => match ctx_user_id c with
                          | Some u => if nonempty u then parse_uuid u else None
                          | None => None
                          end
              | None => None
              end
    end in
  mret (λ m,
    let legacy := bool_decide (Member.auth_user_uuid m = None) &&
                  String.eqb (Member.auth_user_id m) (lower subject) in
    match resolved with
    | Some u => bool_decide (Member.auth_user_uuid m = Some u) || legacy
    | None => legacy
    end).

Definition member_limit (tenant_id : N) : M Core (option Z) :=
  account ← scalar (open_account_of tenant_id);
  now ← utc_now;
  mret (match account with
        | None => Some 1
        | Some a =>
            if Account.complimentary_lifetime a then None
            else if negb (_paid_access_enabled now a) then Some 1
            else Some (match Account.current_product_code a with
                       | Some code => from_option id 1 (plan_get code PLAN_MEMBER_LIMITS)
                       | None => 1
                       end)
        end).

Definition team_over_limit (tenant_id : N) : M Core bool :=
  n ← count (active_member_of tenant_id);
  limit ← member_limit tenant_id;
  mret (match limit with Some l => Z.ltb l n | None => false end).

Definition require_role (tenant_id : N) (subject : string) (roles : option (list string))
    (allow_over_limit : bool) : M Core Member.TenantMemberEntity :=
  identity ← membership_identity_filter subject None;
  found ← scalar (λ m, N.eqb (Member.tenant_id m) tenant_id && identity m &&
                       not_deleted m && is_active m);
  member ← some_or found (workflow_error "Tenant access denied" 403);
  raise_if (match roles with
            | Some rs => negb (mem_str (Member.role member) rs)
            | None => false
            end) (workflow_error "Tenant access denied" 403);;
  over ← (if allow_over_limit then mret false else team_over_limit tenant_id);
  raise_if over (workflow_error "Select the active team members for the current plan" 409);;
  mret member.

Definition _lock_team (tenant_id : N) : M Core unit :=
  account ← scalar (open_account_of tenant_id);
  some_or account (workflow_error "Tenant not found" 404);;
  mret tt.

Definition provision_owner (payload : TenantProvision) : M Core TenantRead :=
  let owner := lower (strip (tp_owner_email payload)) in
  transaction (
    identity ← membership_identity_filter owner (tp_owner_user_id payload);
    rows ← joined (λ p q, Z.leb (Tenant.created_at p.1) (Tenant.created_at q.1))
      (λ t m, N.eqb (Member.tenant_id m) (Tenant.id t) && identity m && is_admin m &&
              open_tenant t);
    match head rows with
    | Some (tenant, m) =>
        member ← scalar (λ m, N.eqb (Member.tenant_id m) (Tenant.id tenant) && identity m);
        match member with
        | Some m' =>
            when (bool_decide (Member.auth_user_uuid m' = None))
              (assign (Member.id m')
                 (λ r, r <| Member.auth_user_uuid := tp_owner_user_id payload |>);;
               flush)
        | None => mret tt
        end;;
        mret (_read tenant (Member.role m))
    | None =>
        tenant ← new_tenant (tp_name payload) (tp_default_locale payload)
          (tp_country_code payload) "UTC"
          (billing_currency_for_country (tp_country_code payload));
        flush;;
        now ← utc_now;
        new_member (Tenant.id tenant) owner (tp_owner_user_id payload) "admin" (Some now);;
        new_account (Tenant.id tenant);;
        flush;;
        mret (_read tenant "admin")
    end).

Definition list_for (subject : string) : M Core (list TenantRead) :=
  read_session (
    identity ← membership_identity_filter subject None;
    rows ← joined (λ p q, text_le (Tenant.name p.1) (Tenant.name q.1))
      (λ t m, N.eqb (Member.tenant_id m) (Tenant.id t) && identity m && open_tenant t &&
              not_deleted m && is_active m);
    mret (map (λ '(t, m), _read t (Member.role m)) rows)).

Definition access_state (subject : string) : M Core TenantAccessState :=
  read_session (
    identity ← membership_identity_filter subject None;
    memberships ← joined (λ p q, text_le (Tenant.name p.1) (Tenant.name q.1))
      (λ t m, N.eqb (Member.tenant_id m) (Tenant.id t) && identity m && open_tenant t &&
              not_deleted m);
    let active := Z.of_nat (length (List.filter (λ p, is_active p.2) memberships)) in
    let suspended :=
      map (λ '(t, m), mkSuspendedTenantAccess (Tenant.id t) (Tenant.name t) (Tenant.kind t)
                        (Member.role m) (Tenant.default_locale t) (Tenant.country_code t)
                        (Tenant.currency t))
        (List.filter (λ p, String.eqb (Member.status p.2) "suspended") memberships) in
    mret (mkTenantAccessState active suspended
            ((active =? 0) && negb (Nat.eqb (length suspended) 0)))).

Definition create_personal_after_suspension (payload : TenantCreate) (subject : string)
    (user_id : option string) : M Core TenantRead :=
  transaction (
    identity ← membership_identity_filter subject None;
    memberships ← scalars (λ m, identity m && not_deleted m);
    raise_if (existsb is_active memberships)
      (workflow_error "An active workspace already exists" 409);;
    raise_if (negb (existsb (λ m, String.eqb (Member.status m) "suspended") memberships))
      (workflow_error "No suspended workspace access was found" 409);;
    let auth_user_uuid :=
      match user_id with
      | Some u => if nonempty u then parse_uuid u else None
      | None => None
      end in
    tenant ← new_tenant (tc_name payload) (tc_default_locale payload)
      (tc_country_code payload) (tc_timezone payload) (tc_currency payload);
    flush;;
    now ← utc_now;
    member ← new_member (Tenant.id tenant) (lower subject) auth_user_uuid "admin" (Some now);
    new_account (Tenant.id tenant);;
    _audit (Tenant.id tenant) subject "tenant.personal_created_after_suspension"
      (JObj [("suspended_membership_count", JNum (Z.of_nat (length memberships)))]);;
    flush;;
    mret (_read tenant (Member.role member))).

Definition create (payload : TenantCreate) (subject : string) : M Core TenantRead :=
  transaction (
    tenant ← new_tenant (tc_name payload) (tc_default_locale payload)
      (tc_country_code payload) (tc_timezone payload) (tc_currency payload);
    try_catch flush (λ e,
      match e with
      | IntegrityError => raise (workflow_error "Tenant slug is already in use" 409)
      | _ => raise e
      end);;
    new_member (Tenant.id tenant) (lower subject) None "admin" None;;
    new_account (Tenant.id tenant);;
    flush;;
    mret (_read tenant "admin")).

(** [db.get(TenantEntity, id)] of a tenant that is not deleted. *)
Definition existing_tenant (tenant_id : N) : M Core Tenant.TenantEntity :=
  found ← get (R := Tenant.TenantEntity) tenant_id;
  tenant ← some_or found (workflow_error "Tenant not found" 404);
  raise_if (negb (open_tenant tenant)) (workflow_error "Tenant not found" 404);;
  mret tenant.

Definition limit_message (limit : Z) : string :=
  "The current plan allows up to " +:+ show_Z limit +:+ " tenant members".

(** The checks [add_member] and [invite_member] start with: the lock, the
    administrator, the tenant, the plan and the free seat.  The result is the
    tenant and the number of active members. *)
Definition open_seat (tenant_id : N) (subject : string) : M Core (Tenant.TenantEntity * Z) :=
  _lock_team tenant_id;;
  require_role tenant_id subject (Some ["admin"]) true;;
  tenant ← existing_tenant tenant_id;
  enabled ← business_features_enabled tenant_id;
  raise_if (negb enabled)
    (workflow_error "A Professional or Team plan is required for business members" 403);;
  limit ← member_limit tenant_id;
  active_members ← count (active_member_of tenant_id);
  match limit with
  | Some l => raise_if (Z.leb l active_members) (workflow_error (limit_message l) 409)
  | None => mret tt
  end;;
  mret (tenant, active_members).

Definition member_count_metadata (role : string) (active_members : Z) : json :=
  JObj [("member_role", JStr role); ("member_count", JNum (active_members + 1))].

Definition add_member (tenant_id : N) (payload : TenantMemberCreate) (subject : string)
    : M Core unit :=
  transaction (
    seat ← open_seat tenant_id subject;
    member_user_uuid ← lift (UserClient.resolve_auth_user (lower (mc_auth_user_id payload)));
    now ← utc_now;
    new_member tenant_id (lower (mc_auth_user_id payload)) (Some member_user_uuid)
      (mc_role payload) (Some now);;
    try_catch flush (λ e,
      match e with
      | IntegrityError => raise (workflow_error "User is already a tenant member" 409)
      | _ => raise e
      end);;
    _audit tenant_id subject "tenant.member_added"
      (member_count_metadata (mc_role payload) seat.2)).

Definition invite_member (tenant_id : N) (payload : TenantMemberInvitation)
    (subject : string) : M Core unit :=
  transaction (
    seat ← open_seat tenant_id subject;
    let email := lower (strip (mi_email payload)) in
    existing ← scalar (λ m, N.eqb (Member.tenant_id m) tenant_id &&
                            String.eqb (Member.auth_user_id m) email && not_deleted m);
    raise_if (bool_decide (existing ≠ None))
      (workflow_error "User is already a tenant member" 409);;
    user_uuid ← lift (UserClient.invite_auth_user (strip (mi_name payload)) email
      (mi_document payload) (Tenant.default_locale seat.1)
      (match Tenant.country_code seat.1 with
       | Some c => if nonempty c then c else "BR"
       | None => "BR"
       end));
    now ← utc_now;
    new_member tenant_id email (Some user_uuid) (mi_role payload) (Some now);;
    _audit tenant_id subject "tenant.member_invited"
      (member_count_metadata (mi_role payload) seat.2)).

Definition member_read (m : Member.TenantMemberEntity) : TenantMemberRead :=
  mkTenantMemberRead (Member.id m) (Member.auth_user_id m) (Member.role m)
    (Member.status m) (Member.joined_at m).

Definition list_members (tenant_id : N) (subject : string)
    : M Core (list TenantMemberRead) :=
  read_session (
    require_role tenant_id subject (Some ["admin"; "auditor"]) true;;
    rows ← scalars_ordered
      (lexico (λ a b, nulls_last Z.leb (Member.joined_at a) (Member.joined_at b))
              (λ a b, Z.leb (Member.created_at a) (Member.created_at b)))
      (member_of tenant_id);
    mret (map member_read rows)).

Definition _team_read (tenant_id : N) (member : Member.TenantMemberEntity)
    : M Core TenantTeamRead :=
  rows ← scalars_ordered
    (lexico (λ a b, text_le (Member.role a) (Member.role b))
       (lexico (λ a b, text_le (Member.auth_user_id a) (Member.auth_user_id b))
          (λ a b, N.leb (Member.id a) (Member.id b))))
    (member_of tenant_id);
  limit ← member_limit tenant_id;
  let active := Z.of_nat (length (List.filter is_active rows)) in
  mret (mkTenantTeamRead (map member_read rows) limit active
          (match limit with Some l => Z.ltb l active | None => false end)
          (is_admin member) (Member.id member)).

(** The order in which a downgrade looks for the administrator to keep. *)
Definition seniority : Member.TenantMemberEntity → Member.TenantMemberEntity → bool :=
  lexico (λ a b, nulls_last Z.leb (Member.joined_at a) (Member.joined_at b))
    (lexico (λ a b, Z.leb (Member.created_at a) (Member.created_at b))
       (λ a b, N.leb (Member.id a) (Member.id b))).

Definition set_status (status : string) (m : Member.TenantMemberEntity) : M Core unit :=
  assign (Member.id m) (λ r, r <| Member.status := status |>).

Definition reconcile_single_member_plan (tenant_id : N) : M Core unit :=
  limit ← member_limit tenant_id;
  if negb (bool_decide (limit = Some 1)) then mret tt
  else
    active_members ← scalars_ordered seniority (active_member_of tenant_id);
    match List.find is_admin active_members with
    | None => mret tt
    | Some administrator =>
        let others := List.filter
          (λ m, negb (N.eqb (Member.id m) (Member.id administrator))) active_members in
        for_each (set_status "suspended") others;;
        when (negb (Nat.eqb (length others) 0))
          (_audit tenant_id (Member.auth_user_id administrator)
             "tenant.team_reconciled_after_downgrade"
             (JObj [("active_member_id", JStr (uuid_str (Member.id administrator)));
                    ("suspended_member_ids",
                      JArr (map (λ m, JStr (uuid_str (Member.id m))) others))]))
    end.

Definition team (tenant_id : N) (subject : string) : M Core TenantTeamRead :=
  transaction (
    member ← require_role tenant_id subject (Some ["admin"]) true;
    reconcile_single_member_plan tenant_id;;
    _team_read tenant_id member).

(** The status [update_team] gives a member. *)
Definition selected_status (selected : list N) (m : Member.TenantMemberEntity) : string :=
  if existsb (N.eqb (Member.id m)) selected then "active" else "suspended".

Definition update_team (tenant_id : N) (active_member_ids : list N) (subject : string)
    : M Core TenantTeamRead :=
  transaction (
    _lock_team tenant_id;;
    actor ← require_role tenant_id subject (Some ["admin"]) true;
    rows ← scalars (member_of tenant_id);
    let selected := remove_dups active_member_ids in
    raise_if (negb (forallb (λ i, existsb (λ m, N.eqb i (Member.id m)) rows) selected))
      (workflow_error "Member does not belong to this tenant" 422);;
    raise_if (negb (existsb (N.eqb (Member.id actor)) selected))
      (workflow_error "Keep your administrator account active" 409);;
    limit ← member_limit tenant_id;
    match limit with
    | Some l => raise_if (Z.ltb l (Z.of_nat (length selected)))
                  (workflow_error (limit_message l) 409)
    | None => mret tt
    end;;
    let changed := List.filter
      (λ m, negb (String.eqb (Member.status m) (selected_status selected m))) rows in
    for_each (λ m, set_status (selected_status selected m) m) changed;;
    when (negb (Nat.eqb (length changed) 0))
      (_audit tenant_id subject "tenant.team_updated"
         (JObj [("changes", JArr (map (λ m, JObj
                   [("member_id", JStr (uuid_str (Member.id m)));
                    ("previous_status", JStr (Member.status m));
                    ("status", JStr (selected_status selected m))]) changed));
                ("member_limit", from_option JNum JNull limit)]));;
    flush;;
    _team_read tenant_id actor).

Definition update_member_role (tenant_id member_id : N) (role subject : string)
    : M Core TenantTeamRead :=
  transaction (
    _lock_team tenant_id;;
    actor ← require_role tenant_id subject (Some ["admin"]) true;
    found ← scalar (λ m, N.eqb (Member.id m) member_id && member_of tenant_id m);
    member ← some_or found (workflow_error "Member does not belong to this tenant" 404);
    raise_if (N.eqb (Member.id member) (Member.id actor) || is_admin member)
      (workflow_error "The tenant administrator role cannot be changed" 409);;
    assign (Member.id member) (λ r, r <| Member.role := role |>);;
    when (negb (String.eqb (Member.role member) role))
      (_audit tenant_id subject "tenant.member_role_updated"
         (JObj [("member_id", JStr (uuid_str (Member.id member)));
                ("previous_role", JStr (Member.role member)); ("role", JStr role)]));;
    flush;;
    _team_read tenant_id actor).

Definition conflicting_tenant (lookup : string) (tenant_id : N)
    (t : Tenant.TenantEntity) : bool :=
  bool_decide (Tenant.registration_lookup_hmac t = Some lookup) && open_tenant t &&
  negb (N.eqb (Tenant.id t) tenant_id).

(** The attributes a business identity sets. *)
Definition set_business_identity (legal_name encrypted lookup masked verification : string)
    (t : Tenant.TenantEntity) : Tenant.TenantEntity :=
  t <| Tenant.kind := "business" |> <| Tenant.name := legal_name |>
    <| Tenant.legal_name := Some legal_name |>
    <| Tenant.registration_country := Some "BR" |>
    <| Tenant.registration_type := Some "BR_CNPJ" |>
    <| Tenant.registration_value_encrypted := Some encrypted |>
    <| Tenant.registration_lookup_hmac := Some lookup |>
    <| Tenant.registration_masked := Some masked |>
    <| Tenant.registration_verification_status := Some verification |>.

Definition convert_to_business (tenant_id : N) (payload : TenantBusinessConversion)
    (subject : string) : M Core TenantRead :=
  transaction (
    member ← require_role tenant_id subject (Some ["admin"]) false;
    found ← scalar (λ t, N.eqb (Tenant.id t) tenant_id && open_tenant t);
    tenant ← some_or found (workflow_error "Tenant not found" 404);
    raise_if (String.eqb (Tenant.kind tenant) "business")
      (workflow_error "Tenant is already a business tenant" 409);;
    enabled ← business_features_enabled tenant_id;
    raise_if (negb enabled)
      (workflow_error "A Professional or Team plan is required for a business tenant" 403);;
    protected ← try_catch (protect_cnpj (bc_cnpj payload)) (λ e,
      match e with
      | InvalidBusinessIdentifierError m => raise (workflow_error m 422)
      | _ => raise e
      end);
    let '(encrypted, lookup, masked) := protected in
    conflict ← scalar (conflicting_tenant lookup tenant_id);
    raise_if (bool_decide (conflict ≠ None))
      (workflow_error "This CNPJ is already associated with another tenant" 409);;
    assign (Tenant.id tenant) (set_business_identity (strip (bc_legal_name payload))
      encrypted lookup masked "format_valid");;
    flush;;
    _audit (Tenant.id tenant) subject "tenant.converted_to_business"
      (JObj [("registration_country", JStr "BR"); ("registration_type", JStr "BR_CNPJ");
             ("registration_masked", JStr masked);
             ("verification_status", JStr "format_valid")]);;
    converted ← deref (Tenant.id tenant);
    mret (_read converted (Member.role member))).

Definition set_verification (status : string) (t : Tenant.TenantEntity)
    : Tenant.TenantEntity :=
  t <| Tenant.registration_verification_status := Some status |>.

(** Called inside the transaction of a billing event; the result is the
    verification status the tenant is left with. *)
Definition apply_billing_business_identity (tenant_id : N)
    (legal_name cnpj provider_reference : option string) : M Core string :=
  found ← scalar (λ t, N.eqb (Tenant.id t) tenant_id && open_tenant t);
  tenant ← some_or found (workflow_error "Tenant not found" 404);
  let self := Tenant.id tenant in
  let verified status := assign self (set_verification status);; mret status in
  assign self (λ t, t <| Tenant.registration_source := Some "stripe" |>
                      <| Tenant.registration_provider_reference := provider_reference |>);;
  match (if opt_nonempty cnpj then cnpj else None) with
  | None => verified "stripe_cnpj_required"
  | Some value =>
      protected ← try_catch (p ← protect_cnpj value; mret (Some p)) (λ e,
        match e with
        | InvalidBusinessIdentifierError _ => mret None
        | _ => raise e
        end);
      match protected with
      | None => verified "stripe_cnpj_invalid"
      | Some (encrypted, lookup, masked) =>
          if String.eqb (Tenant.kind tenant) "business" &&
             negb (bool_decide (Tenant.registration_lookup_hmac tenant = Some lookup))
          then verified "stripe_cnpj_mismatch"
          else
            conflict ← scalar (conflicting_tenant lookup tenant_id);
            if bool_decide (conflict ≠ None) then verified "stripe_cnpj_conflict"
            else
              let normalized_name := strip (from_option id "" legal_name) in
              if negb (nonempty normalized_name) then verified "stripe_name_required"
              else
                assign self (set_business_identity normalized_name encrypted lookup masked
                               "stripe_format_valid");;
                when (String.eqb (Tenant.kind tenant) "personal")
                  (_audit self "stripe" "tenant.converted_to_business_from_billing"
                    (JObj [("registration_country", JStr "BR");
                           ("registration_type", JStr "BR_CNPJ");
                           ("registration_masked", JStr masked);
                           ("verification_status", JStr "stripe_format_valid");
                           ("provider_reference", jopt_str provider_reference)]));;
                mret "stripe_format_valid"
      end
  end.

Definition issuer_snapshot (t : Tenant.TenantEntity) : json :=
  JObj [("tenant_id", JStr (uuid_str (Tenant.id t)));
        ("tenant_kind", JStr (Tenant.kind t));
        ("display_name", JStr (Tenant.name t));
        ("legal_name", jopt_str (Tenant.legal_name t));
        ("registration_country", jopt_str (Tenant.registration_country t));
        ("registration_type", jopt_str (Tenant.registration_type t));
        ("registration_masked", jopt_str (Tenant.registration_masked t));
        ("registration_verification_status",
          jopt_str (Tenant.registration_verification_status t))].

Definition update_preferences (tenant_id : N) (payload : TenantPreferencesUpdate)
    (subject : string) : M Core TenantRead :=
  transaction (
    member ← require_role tenant_id subject (Some ["admin"]) false;
    tenant ← existing_tenant tenant_id;
    assign (Tenant.id tenant) (λ t,
      t <| Tenant.default_locale := pu_default_locale payload |>
        <| Tenant.country_code := pu_country_code payload |>
        <| Tenant.timezone := pu_timezone payload |>
        <| Tenant.currency := pu_currency payload |>);;
    flush;;
    updated ← deref (Tenant.id tenant);
    mret (_read updated (Member.role member))).
End service.
End TenantService.
