(* ===== verification/TenantFacts.v ===== *)
(** * Tenants and members: theorems

    Seats and plans, who may change a team, the administrator a downgrade keeps,
    and the uniqueness of a business identity. *)
From S2P Require Import Prelude.
From S2P Require Import PyText.
From S2P Require Import Json.
From S2P Require Import Orm.
From S2P Require Import WorkflowSchema.
From S2P Require Import CoreDb.
From S2P Require Import Identity.
From S2P Require Import BillingPolicy.
From S2P Require Import Tenant.
Import TenantService.

Local Open Scope Z_scope.

(** ** What the state says of a team *)
Section team_state.
Context `{Env}.

Definition seats_taken (tenant_id : N) (s : Core) : Z :=
  Z.of_nat (length (List.filter (active_member_of tenant_id) (member_rows s))).

(** The number of seats of the plan; [None] is unlimited. *)
Definition seat_limit (tenant_id : N) (s : Core) : option Z :=
  match List.find (open_account_of tenant_id) (account_rows s) with
  | None => Some 1
  | Some a =>
      if Account.complimentary_lifetime a then None
      else if negb (_paid_access_enabled (Core.clock s) a) then Some 1
      else Some (match Account.current_product_code a with
                 | Some code => from_option id 1 (plan_get code PLAN_MEMBER_LIMITS)
                 | None => 1
                 end)
  end.
Definition within_limit (n : Z) (limit : option Z) : Prop :=
  match limit with Some l => n <= l | None => True end.

(** Is this membership recognised as [subject]'s? *)
Definition recognised (s : Core) (subject : string) (user_id : option N)
    (m : Member.TenantMemberEntity) : bool :=
  match membership_identity_filter subject user_id s with
  | (Ok f, _) => f m
  | _ => false
  end.

Definition acting_member (s : Core) (tenant_id : N) (subject : string)
    : option Member.TenantMemberEntity :=
  List.find (λ m, N.eqb (Member.tenant_id m) tenant_id && recognised s subject None m &&
                  not_deleted m && is_active m) (member_rows s).
End team_state.

(** ** Reading the team of a consistent state *)
Section reads.
Context `{Env} (s : Core) (Hs : consistent s).

Lemma identity_run subject user_id :
  membership_identity_filter subject user_id s = (Ok (recognised s subject user_id), s).
Proof. reflexivity. Qed.

Lemma member_limit_run tenant_id : member_limit tenant_id s = (Ok (seat_limit tenant_id s), s).
Proof.
  unfold member_limit. rewrite (bind_step_ok _ _ _ _ _ (scalar_account s Hs _)).
  reflexivity.
Qed.

Lemma over_limit_run tenant_id :
  team_over_limit tenant_id s =
    (Ok (match seat_limit tenant_id s with
         | Some l => Z.ltb l (seats_taken tenant_id s)
         | None => false
         end), s).
Proof.
  unfold team_over_limit. rewrite (bind_step_ok _ _ _ _ _ (count_member s Hs _)).
  by rewrite (bind_step_ok _ _ _ _ _ (member_limit_run _)).
Qed.

(** [require_role] as a decision on the acting member. *)
Lemma require_role_run tenant_id subject roles lenient :
  require_role tenant_id subject roles lenient s =
    (match acting_member s tenant_id subject with
     | None => Err (workflow_error "Tenant access denied" 403)
     | Some m =>
         if match roles with
            | Some rs => negb (mem_str (Member.role m) rs)
            | None => false
            end
         then Err (workflow_error "Tenant access denied" 403)
         else if negb lenient && match seat_limit tenant_id s with
                                 | Some l => Z.ltb l (seats_taken tenant_id s)
                                 | None => false
                                 end
         then Err (workflow_error "Select the active team members for the current plan" 409)
         else Ok m
     end, s).
Proof.
  unfold require_role. rewrite (bind_step_ok _ _ _ _ _ (identity_run _ _)).
  rewrite (bind_step_ok _ _ _ _ _ (scalar_member s Hs _)).
  fold (acting_member s tenant_id subject).
  destruct (acting_member s tenant_id subject) as [m|]; [|reflexivity].
  unfold some_or. rewrite (bind_step_ok _ _ s m s) by reflexivity.
  destruct (match roles with Some _ => _ | None => _ end); [reflexivity|].
  unfold raise_if at 1. rewrite (bind_step_ok _ _ s tt s) by reflexivity.
  destruct lenient.
  - by rewrite (bind_step_ok _ _ s false s) by reflexivity.
  - rewrite (bind_step_ok _ _ _ _ _ (over_limit_run _)). simpl negb.
    by destruct (match seat_limit _ _ with Some _ => _ | None => _ end).
Qed.

Lemma acting_member_some tenant_id subject m :
  acting_member s tenant_id subject = Some m →
  In m (member_rows s) ∧ active_member_of tenant_id m = true ∧
  recognised s subject None m = true.
Proof.
  unfold acting_member. intros [Hin Hm]%List.find_some.
  unfold active_member_of, member_of. rewrite !andb_true_iff in *. naive_solver.
Qed.

(** The administrator acting in a successful operation. *)
Lemma require_admin_ok tenant_id subject lenient m s' :
  require_role tenant_id subject (Some ["admin"]) lenient s = (Ok m, s') →
  s' = s ∧ acting_member s tenant_id subject = Some m ∧ is_admin m = true ∧
  (lenient = false → within_limit (seats_taken tenant_id s) (seat_limit tenant_id s)).
Proof.
  rewrite require_role_run. destruct (acting_member s tenant_id subject) as [m'|]; [|done].
  unfold mem_str, is_admin. simpl. rewrite orb_false_r.
  destruct (String.eqb (Member.role m') "admin") eqn:E; [|done]. simpl.
  unfold within_limit. destruct lenient; simpl; [intros [= -> ->]; done|].
  destruct (seat_limit tenant_id s) as [l|]; [|intros [= -> ->]; done].
  destruct (Z.ltb_spec l (seats_taken tenant_id s)); [done|].
  intros [= -> ->]. repeat split; auto.
Qed.

Lemma lock_team_ok tenant_id u s' : _lock_team tenant_id s = (Ok u, s') → s' = s.
Proof.
  unfold _lock_team. rewrite (bind_step_ok _ _ _ _ _ (scalar_account s Hs _)).
  intros Hrun. by run.
Qed.

Lemma existing_tenant_ok tenant_id t s' :
  existing_tenant tenant_id s = (Ok t, s') →
  s' = s ∧ find_row tenant_id (tenant_rows s) = Some t ∧ open_tenant t = true.
Proof.
  unfold existing_tenant. rewrite (bind_step_ok _ _ _ _ _ (get_tenant s Hs _)).
  intros Hrun. run. by rewrite negb_false_iff in *.
Qed.

Lemma business_features_run tenant_id :
  business_features_enabled tenant_id s =
    (Ok (from_option (business_plan (Core.clock s)) false
           (List.find (open_account_of tenant_id) (account_rows s))), s).
Proof.
  unfold business_features_enabled.
  by rewrite (bind_step_ok _ _ _ _ _ (scalar_account s Hs _)).
Qed.

End reads.

(** Inverting a successful run that starts in a consistent state. *)
Ltac team_step :=
  match goal with
  | Hs : consistent ?s, H : require_role _ _ (Some ["admin"]) _ ?s = (Ok _, _) |- _ =>
      apply (require_admin_ok _ Hs) in H as (-> & ? & ? & ?)
  | Hs : consistent ?s, H : _lock_team _ ?s = (Ok _, _) |- _ =>
      apply (lock_team_ok _ Hs) in H as ->
  | Hs : consistent ?s, H : existing_tenant _ ?s = (Ok _, _) |- _ =>
      apply (existing_tenant_ok _ Hs) in H as (-> & ? & ?)
  | Hs : consistent ?s, H : member_limit _ ?s = (Ok _, _) |- _ =>
      rewrite (member_limit_run _ Hs) in H; injection H as <- <-
  | Hs : consistent ?s, H : business_features_enabled _ ?s = (Ok _, _) |- _ =>
      rewrite (business_features_run _ Hs) in H; injection H as <- <-
  | Hs : consistent ?s, H : membership_identity_filter _ _ ?s = (Ok _, _) |- _ =>
      rewrite identity_run in H; injection H as <- <-
  | Hs : consistent ?s, H : count _ ?s = (Ok _, _) |- _ =>
      rewrite (count_member _ Hs) in H; injection H as <- <-
  | Hs : consistent ?s, H : scalars _ ?s = (Ok _, _) |- _ =>
      rewrite (scalars_member _ Hs) in H; injection H as <- <-
  | Hs : consistent ?s, H : scalars_ordered _ _ ?s = (Ok _, _) |- _ =>
      rewrite (scalars_ordered_member _ Hs) in H; injection H as <- <-
  | Hs : consistent ?s, H : scalar _ ?s = (Ok _, _) |- _ =>
      first [rewrite (scalar_member _ Hs) in H | rewrite (scalar_tenant _ Hs) in H
            |rewrite (scalar_account _ Hs) in H]; injection H as <- <-
  | H : utc_now _ = (Ok _, _) |- _ => injection H as <- <-
  | _ => effect_step
  end.
Ltac team_run := repeat team_step.

Section team_ops.
Context `{Env}.

(** The common guard of the two ways a member is added. *)
Lemma open_seat_ok s tenant_id subject t n s' :
  consistent s → open_seat tenant_id subject s = (Ok (t, n), s') →
  s' = s ∧ n = seats_taken tenant_id s ∧
  within_limit (n + 1) (seat_limit tenant_id s) ∧
  find_row tenant_id (tenant_rows s) = Some t ∧
  ∃ actor, acting_member s tenant_id subject = Some actor ∧ is_admin actor = true.
Proof.
  intros Hs Hrun. unfold open_seat in Hrun. team_run.
  unfold within_limit. destruct (seat_limit tenant_id s) as [l|]; team_run;
    injection Hrun as <- <-; split_and!; eauto.
  unfold seats_taken in *. lia.
Qed.

(** What [new_member] adds, and what it leaves alone. *)
Lemma new_member_ok tenant_id who uuid role joined s m s' :
  new_member tenant_id who uuid role joined s = (Ok m, s') →
  m = Member.make (uuid4_of (Core.draws s)) tenant_id who uuid role "active" joined
        (Core.clock s) None ∧
  member_rows s' = member_rows s ++ [m] ∧ tenant_rows s' = tenant_rows s ∧
  account_rows s' = account_rows s ∧ Core.clock s' = Core.clock s.
Proof. intros [= <- <-]. done. Qed.

Lemma member_rows_assign k f s :
  member_rows (put_table (mutate f k (get_table s)) s) = alter_rows f k (member_rows s).
Proof. reflexivity. Qed.

Lemma tenant_rows_assign k f s :
  tenant_rows (put_table (mutate f k (get_table s)) s) = alter_rows f k (tenant_rows s).
Proof. reflexivity. Qed.

Lemma audit_tenancy tenant_id actor action metadata :
  preserves (same tenancy) (_audit tenant_id actor action metadata).
Proof. unfold _audit. preserve. Qed.

Lemma flush_or_conflict_tenancy message :
  preserves (same tenancy) (try_catch flush (λ e,
    match e with
    | IntegrityError => raise (workflow_error message 409)
    | _ => raise e
    end)).
Proof. preserve. Qed.

Lemma team_read_tenancy tenant_id m : preserves (same tenancy) (_team_read tenant_id m).
Proof. unfold _team_read, member_limit. preserve. Qed.

Lemma new_member_seat tenant_id who uuid role joined s m s' :
  new_member tenant_id who uuid role joined s = (Ok m, s') →
  seats_taken tenant_id s' = seats_taken tenant_id s + 1 ∧
  seat_limit tenant_id s' = seat_limit tenant_id s.
Proof.
  intros (-> & Hm & _ & Ha & Hc)%new_member_ok. unfold seats_taken, seat_limit.
  rewrite Hm, Ha, Hc, List.filter_app, length_app. split; [|done].
  simpl. unfold active_member_of, member_of, is_active, not_deleted. simpl.
  rewrite N.eqb_refl. simpl. lia.
Qed.

Lemma same_team s s' tenant_id :
  tenancy s' = tenancy s →
  seats_taken tenant_id s' = seats_taken tenant_id s ∧
  seat_limit tenant_id s' = seat_limit tenant_id s ∧ member_rows s' = member_rows s.
Proof.
  unfold tenancy, seats_taken, seat_limit. intros [= Ht Hm Ha Hc]. by rewrite Hm, Ha, Hc.
Qed.
End team_ops.
#[export] Hint Resolve audit_tenancy team_read_tenancy : preserve.

(** Follow the tables through the steps that leave them alone. *)
Ltac tenancy_chain :=
  repeat match goal with
  | H : flush_session _ = Some _ |- _ => apply flush_tenancy in H
  | H : _ _ = (Ok _, _) |- _ => frame tenancy H
  end;
  unfold tenancy in *; simplify_eq.

(** ** New members *)
Section new_members.
Context `{Env}.

(** A member was added in a seat the plan has. *)
Definition seated (tenant_id : N) (who role : string) (s s' : Core) : Prop :=
  seats_taken tenant_id s' = seats_taken tenant_id s + 1 ∧
  within_limit (seats_taken tenant_id s') (seat_limit tenant_id s') ∧
  ∃ m, member_rows s' = member_rows s ++ [m] ∧ Member.tenant_id m = tenant_id ∧
       Member.auth_user_id m = who ∧ Member.role m = role ∧ is_active m = true.

Lemma seated_after tenant_id who uuid role joined s1 s2 s3 m :
  new_member tenant_id who uuid role joined s1 = (Ok m, s2) →
  tenancy s3 = tenancy s2 →
  within_limit (seats_taken tenant_id s1 + 1) (seat_limit tenant_id s1) →
  seated tenant_id who role s1 s3.
Proof.
  intros Hm Ht Hl. destruct (same_team _ _ tenant_id Ht) as (Hc & Hlim & Hrows).
  destruct (new_member_seat _ _ _ _ _ _ _ _ Hm) as [Hc' Hl'].
  apply new_member_ok in Hm as (-> & Hr & _). unfold seated.
  rewrite Hc, Hc', Hlim, Hl', Hrows, Hr. split_and!; [done..|]. by eexists.
Qed.
End new_members.

(** C31: A member is only added by an acting administrator and only in a free
    seat: when [add_member] or [invite_member] succeeds, the caller was an active
    member of the tenant with the role of an administrator, and the tenant has
    exactly one more active member, with the e-mail and role asked for, and no
    more active members than its plan allows. *)
Theorem new_members_fit_the_plan `{Env} (tenant_id : N) (subject : string)
    (direct : TenantMemberCreate) (invited : TenantMemberInvitation) (s s' : Core) :
  consistent s →
  (add_member tenant_id direct subject s = (Ok tt, s') →
   (∃ actor, acting_member s tenant_id subject = Some actor ∧ is_admin actor = true) ∧
   seated tenant_id (lower (mc_auth_user_id direct)) (mc_role direct) s s') ∧
  (invite_member tenant_id invited subject s = (Ok tt, s') →
   (∃ actor, acting_member s tenant_id subject = Some actor ∧ is_admin actor = true) ∧
   seated tenant_id (lower (strip (mi_email invited))) (mi_role invited) s s').
Proof.
  intros Hs. split; intros Hrun.
  - unfold add_member in Hrun. team_run. destruct a as [t n].
    apply (open_seat_ok _ _ _ _ _ _ Hs) in Hrun1 as (-> & -> & Hl & _ & Hactor). team_run.
    split; [exact Hactor|]. eapply seated_after; [eassumption| |done].
    rewrite (flush_tenancy _ _ Hrun).
    rewrite (preserves_run _ _ _ _ _ (audit_tenancy _ _ _ _) Hrun0).
    exact (preserves_run _ _ _ _ _ (flush_or_conflict_tenancy _) Hrun4).
  - unfold invite_member in Hrun. team_run. destruct a as [t n].
    apply (open_seat_ok _ _ _ _ _ _ Hs) in Hrun1 as (-> & -> & Hl & _ & Hactor). team_run.
    split; [exact Hactor|]. eapply seated_after; [eassumption| |done].
    rewrite (flush_tenancy _ _ Hrun).
    exact (preserves_run _ _ _ _ _ (audit_tenancy _ _ _ _) Hrun0).
Qed.


(** ** Who may change a team *)
Section denial.
Context `{Env}.

(** The run refuses: nothing is stored, no mail is sent, nothing is drawn. *)
Definition refused {A} (m : M Core A) (s : Core) : Prop :=
  m s = (Err (workflow_error "Tenant access denied" 403), s) ∨
  m s = (Err (workflow_error "Tenant not found" 404), s).

Lemma refused_bind {A B} (m : M Core A) (k : A → M Core B) s :
  refused m s → refused (m ≫= k) s.
Proof. intros [E|E]; [left|right]; by rewrite (bind_step_err _ _ _ _ _ E). Qed.

Lemma refused_after {A B} (m : M Core A) (k : A → M Core B) a s :
  m s = (Ok a, s) → refused (k a) s → refused (m ≫= k) s.
Proof. intros E. unfold refused. by rewrite (bind_step_ok _ _ _ _ _ E). Qed.

Lemma refused_transaction {A} (m : M Core A) s : refused m s → refused (transaction m) s.
Proof. intros [E|E]; [left|right]; by apply transaction_refused. Qed.

Context (s : Core) (Hs : consistent s) (tenant_id : N) (subject : string).
Hypothesis Hdenied : ∀ m, acting_member s tenant_id subject = Some m → is_admin m = false.

Lemma require_role_refused lenient :
  refused (require_role tenant_id subject (Some ["admin"]) lenient) s.
Proof.
  left. rewrite require_role_run by done.
  destruct (acting_member s tenant_id subject) as [m|] eqn:E; [|done].
  pose proof (Hdenied _ eq_refl) as Hr. unfold is_admin in Hr.
  unfold mem_str. simpl. by rewrite Hr.
Qed.

(** After the lock the role is the first thing checked. *)
Lemma locked_refused {A} lenient (k : Member.TenantMemberEntity → M Core A) :
  refused (_lock_team tenant_id;;
           m ← require_role tenant_id subject (Some ["admin"]) lenient; k m) s.
Proof.
  assert (E : _lock_team tenant_id s =
    (match List.find (open_account_of tenant_id) (account_rows s) with
     | Some _ => Ok tt
     | None => Err (workflow_error "Tenant not found" 404)
     end, s)).
  { unfold _lock_team. rewrite (bind_step_ok _ _ _ _ _ (scalar_account s Hs _)).
    by destruct (List.find _ _). }
  destruct (List.find _ _).
  - eapply refused_after; [exact E|]. apply refused_bind, require_role_refused.
  - apply refused_bind. by right.
Qed.
End denial.

(** Only an acting administrator changes a tenant: for anybody else (no
    active membership, another tenant, another role) every operation that
    changes the team, the identity or the preferences of the tenant is refused
    with 403, or 404 when the tenant has no account, and leaves the whole state
    as it was. *)
Theorem admin_operations_denied `{Env} (s : Core) (tenant_id member_id : N)
    (subject role : string) (ids : list N) (direct : TenantMemberCreate)
    (invited : TenantMemberInvitation) (conversion : TenantBusinessConversion)
    (preferences : TenantPreferencesUpdate) :
  consistent s →
  (∀ m, acting_member s tenant_id subject = Some m → is_admin m = false) →
  refused (add_member tenant_id direct subject) s ∧
  refused (invite_member tenant_id invited subject) s ∧
  refused (team tenant_id subject) s ∧
  refused (update_team tenant_id ids subject) s ∧
  refused (update_member_role tenant_id member_id role subject) s ∧
  refused (convert_to_business tenant_id conversion subject) s ∧
  refused (update_preferences tenant_id preferences subject) s.
Proof.
  intros Hs Hd.
  pose proof (require_role_refused s Hs tenant_id subject Hd) as Hr.
  assert (Hseat : refused (open_seat tenant_id subject) s) by (by apply locked_refused).
  split_and!; apply refused_transaction;
    first [by apply refused_bind | by apply locked_refused].
Qed.

(** ** Roles *)

(** The administrators of a tenant never change through
    [update_member_role]: a successful call changes the role of one member of
    that tenant who is neither the caller nor an administrator, and nobody
    else's; with the roles the endpoint accepts the administrators after the
    call are the administrators before it. *)
Theorem role_update_keeps_administrators `{Env} (tenant_id member_id : N)
    (role subject : string) (s s' : Core) (r : TenantTeamRead) :
  consistent s → In role ["member"; "auditor"] →
  update_member_role tenant_id member_id role subject s = (Ok r, s') →
  (∃ m, find_row member_id (member_rows s) = Some m ∧ member_of tenant_id m = true ∧
        is_admin m = false) ∧
  member_rows s' =
    alter_rows (λ m, m <| Member.role := role |>) member_id (member_rows s) ∧
  List.filter is_admin (member_rows s') = List.filter is_admin (member_rows s).
Proof.
  intros Hs Hrole Hrun. unfold update_member_role in Hrun. team_run.
  match goal with H : List.find _ _ = Some _ |- _ =>
    apply List.find_some in H as [Hin Hm] end.
  apply andb_true_iff in Hm as [<-%N.eqb_eq Hm].
  match goal with H : _ || _ = false |- _ => apply orb_false_iff in H as [_ Ha] end.
  assert (Hrows : member_rows s' =
    alter_rows (λ m, m <| Member.role := role |>) (Member.id a1) (member_rows s)).
  { tenancy_chain. etrans; [|apply member_rows_assign]. congruence. }
  split; [|split; [done|]].
  - exists a1. split; [|done]. by apply (find_row_in _ _ (members_distinct s Hs)).
  - rewrite Hrows. apply (alter_filter_out _ _ _ _ a1 (members_distinct s Hs) Hin Ha); [|done].
    unfold is_admin. simpl. by repeat destruct Hrole as [<-|Hrole].
Qed.

(** ** Statuses *)
Section statuses.
Context `{Env}.

Lemma set_status_keeps_id status : keeps_id (λ r : Member.TenantMemberEntity,
  r <| Member.status := status |>).
Proof. done. Qed.

Lemma same_status (m : Member.TenantMemberEntity) : m <| Member.status := Member.status m |> = m.
Proof. by destruct m. Qed.

(** A loop of [set_status] over selected rows of the table, in any order. *)
Lemma for_each_set_status (st : Member.TenantMemberEntity → string) P l s :
  keys_distinct (member_rows s) → l ≡ₚ List.filter P (member_rows s) →
  ∃ s', for_each (λ m, set_status (st m) m) l s = (Ok tt, s') ∧
    member_rows s' =
      map (λ m, if P m then m <| Member.status := st m |> else m) (member_rows s) ∧
    tenant_rows s' = tenant_rows s ∧ account_rows s' = account_rows s ∧
    Core.clock s' = Core.clock s.
Proof.
  intros Hd Hl.
  assert (Hdl : keys_distinct l).
  { unfold keys_distinct. rewrite (Permutation_map ent_id Hl).
    by apply (keys_distinct_filter P) in Hd. }
  pose proof (for_each_assign (λ m r : Member.TenantMemberEntity,
    r <| Member.status := st m |>) l s) as E.
  eexists. split; [exact E|]. split_and!; [|done..].
  change (alter_each (λ m r : Member.TenantMemberEntity, r <| Member.status := st m |>)
    l (member_rows s) =
    map (λ m, if P m then m <| Member.status := st m |> else m) (member_rows s)).
  rewrite alter_each_map by done.
  apply map_ext_in. intros r Hr.
  rewrite (find_row_permutation _ _ _ Hdl Hl), find_row_filter by done. by destruct (P r).
Qed.

Lemma selected_remove_dups ids m :
  selected_status (remove_dups ids) m = selected_status ids m.
Proof.
  unfold selected_status.
  replace (existsb (N.eqb (Member.id m)) (remove_dups ids))
    with (existsb (N.eqb (Member.id m)) ids); [done|].
  apply eq_iff_eq_true. rewrite !existsb_exists.
  by setoid_rewrite <- list_elem_of_In; setoid_rewrite elem_of_remove_dups.
Qed.

(** The team after the selection [ids]. *)
Definition select_members (tenant_id : N) (ids : list N) (rows : list Member.TenantMemberEntity) :=
  map (λ m, if member_of tenant_id m then m <| Member.status := selected_status ids m |> else m)
    rows.

Lemma select_members_active tenant_id ids rows :
  keys_distinct rows →
  (length (List.filter (active_member_of tenant_id) (select_members tenant_id ids rows))
    <= length (remove_dups ids))%nat.
Proof.
  intros Hd.
  set (sel := List.filter (active_member_of tenant_id) (select_members tenant_id ids rows)).
  assert (Hk : keys_distinct sel).
  { apply keys_distinct_filter. unfold keys_distinct, select_members.
    rewrite map_map. rewrite (map_ext _ ent_id); [done|]. intros m. by destruct (member_of _ _). }
  rewrite <- (length_map ent_id sel).
  apply submseteq_length, NoDup_submseteq; [exact Hk|].
  intros k. rewrite elem_of_remove_dups, list_elem_of_In, in_map_iff.
  intros (m & <- & Hm). apply filter_In in Hm as [Hin Ha].
  apply in_map_iff in Hin as (m0 & <- & Hin).
  destruct (member_of tenant_id m0) eqn:E.
  - unfold active_member_of, is_active in Ha. simpl in Ha.
    apply andb_true_iff in Ha as [_ Ha]. unfold selected_status in Ha.
    destruct (existsb (N.eqb (Member.id m0)) ids) eqn:Ex; [|done].
    apply existsb_exists in Ex as (i & Hi & <-%N.eqb_eq). by apply list_elem_of_In.
  - unfold active_member_of in Ha. by rewrite E in Ha.
Qed.
End statuses.

(** [update_team] makes the selected members of the tenant active, suspends
    its other members and touches nobody else; the selection has the caller, an
    administrator, and fits the plan, so the team is within its limit after a
    successful call. *)
Theorem update_team_selects `{Env} (tenant_id : N) (ids : list N) (subject : string)
    (s s' : Core) (r : TenantTeamRead) :
  consistent s →
  update_team tenant_id ids subject s = (Ok r, s') →
  member_rows s' = select_members tenant_id ids (member_rows s) ∧
  within_limit (seats_taken tenant_id s') (seat_limit tenant_id s') ∧
  ∃ actor, acting_member s tenant_id subject = Some actor ∧ is_admin actor = true ∧
           In (Member.id actor) ids.
Proof.
  intros Hs Hrun. unfold update_team in Hrun. team_run.
  assert (s4 = s ∧ within_limit (Z.of_nat (length (remove_dups ids))) (seat_limit tenant_id s))
    as [-> Hlim].
  { unfold within_limit. destruct (seat_limit tenant_id s) as [l|]; run; split; auto; lia. }
  match goal with H : _ s = (Ok a5, _) |- _ => rename H into Hloop end.
  rewrite filter_filter in Hloop.
  destruct (for_each_set_status (selected_status (remove_dups ids))
    (λ m, member_of tenant_id m &&
          negb (String.eqb (Member.status m) (selected_status (remove_dups ids) m))) _ s
    (members_distinct s Hs) (reflexivity _)) as (s1 & E & Hrows & Ht & Ha & Hc).
  rewrite E in Hloop. injection Hloop as <- <-.
  assert (Hsel : member_rows s' = select_members tenant_id ids (member_rows s)).
  { trans (member_rows s1); [tenancy_chain; congruence|]. rewrite Hrows.
    apply map_ext. intros m. rewrite selected_remove_dups.
    destruct (member_of tenant_id m); [|done]. cbn [andb].
    destruct (String.eqb_spec (Member.status m) (selected_status ids m)) as [Es|]; [|done].
    cbn [negb]. by rewrite <- Es, same_status. }
  split; [done|]. split.
  - assert (seat_limit tenant_id s' = seat_limit tenant_id s) as ->.
    { unfold seat_limit. tenancy_chain.
      replace (account_rows s') with (account_rows s) by congruence.
      by replace (Core.clock s') with (Core.clock s) by congruence. }
    unfold seats_taken. rewrite Hsel.
    unfold within_limit in *. destruct (seat_limit tenant_id s); [|done].
    etrans; [|exact Hlim].
    apply Nat2Z.inj_le, select_members_active, members_distinct, Hs.
  - exists a0. split_and!; [done..|].
    match goal with H : negb (existsb (N.eqb (Member.id a0)) _) = false |- _ =>
      apply negb_false_iff, existsb_exists in H as (i & Hi & ->%N.eqb_eq) end.
    rewrite <- list_elem_of_In, elem_of_remove_dups in Hi. by apply list_elem_of_In.
Qed.

(** ** Downgrades *)
Section reconcile.
Context `{Env}.

Lemma seniority_total : total_order seniority.
Proof. unfold seniority. auto with orders. Qed.
Lemma seniority_transitive : transitive_order seniority.
Proof. unfold seniority. auto with orders. Qed.

(** The administrator a downgrade keeps: the first by seniority. *)
Definition senior_administrator (tenant_id : N) (s : Core) : option Member.TenantMemberEntity :=
  List.find is_admin
    (order_by seniority (List.filter (active_member_of tenant_id) (member_rows s))).

Lemma senior_administrator_some tenant_id s a :
  senior_administrator tenant_id s = Some a →
  In a (member_rows s) ∧ active_member_of tenant_id a = true ∧ is_admin a = true ∧
  ∀ b, In b (member_rows s) → active_member_of tenant_id b = true → is_admin b = true →
       seniority a b = true.
Proof.
  intros Hf. destruct (find_order_by _ _ _ _ seniority_total seniority_transitive Hf)
    as ([Hin Ha]%filter_In & Had & Hmin).
  split_and!; [done..|]. intros b Hb Hab Hadb. apply Hmin; [by apply filter_In|done].
Qed.

(** Everybody of the team but [a] suspended. *)
Definition only_active (tenant_id : N) (a : Member.TenantMemberEntity)
    (rows : list Member.TenantMemberEntity) : list Member.TenantMemberEntity :=
  map (λ m, if active_member_of tenant_id m && negb (N.eqb (Member.id m) (Member.id a))
            then m <| Member.status := "suspended" |> else m) rows.

Lemma only_active_team tenant_id a rows :
  keys_distinct rows → In a rows → active_member_of tenant_id a = true →
  List.filter (active_member_of tenant_id) (only_active tenant_id a rows) = [a].
Proof.
  unfold keys_distinct, only_active. intros Hd Hin Ha.
  induction rows as [|m rows IH]; [done|].
  cbn [map List.filter].
  simpl in Hd. apply NoDup_cons in Hd as [Hm Hd].
  assert (Hrest : ∀ l, (∀ x, In x l → ent_id x ≠ Member.id a) →
    List.filter (active_member_of tenant_id) (map (λ m,
      if active_member_of tenant_id m && negb (N.eqb (Member.id m) (Member.id a))
      then m <| Member.status := "suspended" |> else m) l) = []).
  { induction l as [|x l IHl]; [done|]. intros Hl. cbn [map List.filter].
    rewrite IHl by (intros; apply Hl; by right). specialize (Hl x (or_introl eq_refl)).
    apply N.eqb_neq in Hl. change (ent_id x) with (Member.id x) in Hl. rewrite Hl.
    destruct (active_member_of tenant_id x) eqn:E; cbn [andb negb].
    - unfold active_member_of, is_active. simpl. by rewrite andb_false_r.
    - by rewrite E. }
  destruct Hin as [->|Hin].
  - rewrite N.eqb_refl, andb_false_r, Ha. f_equal. apply Hrest.
    intros x Hx E. apply Hm. change (Member.id a ∈ map ent_id rows). rewrite <- E. by apply list_elem_of_In, in_map.
  - assert (ent_id m ≠ Member.id a) as Hne.
    { intros E. apply Hm. rewrite E. apply list_elem_of_In. by apply (in_map ent_id _ a). }
    apply N.eqb_neq in Hne. change (ent_id m) with (Member.id m) in Hne. rewrite Hne.
    destruct (active_member_of tenant_id m) eqn:E; cbn [andb negb].
    + unfold active_member_of at 1, is_active. simpl. rewrite andb_false_r. by apply IH.
    + rewrite E. by apply IH.
Qed.

(** The run, from a consistent state. *)
Lemma reconcile_ok tenant_id s u s' :
  consistent s → seat_limit tenant_id s = Some 1 →
  reconcile_single_member_plan tenant_id s = (Ok u, s') →
  match senior_administrator tenant_id s with
  | None => s' = s
  | Some a =>
      member_rows s' = only_active tenant_id a (member_rows s) ∧
      tenant_rows s' = tenant_rows s ∧ account_rows s' = account_rows s ∧
      Core.clock s' = Core.clock s
  end.
Proof.
  intros Hs Hl Hrun. unfold reconcile_single_member_plan in Hrun. team_step. team_step.
  rewrite Hl in Hrun. simpl in Hrun. team_step. team_step.
  fold (senior_administrator tenant_id s) in Hrun.
  destruct (senior_administrator tenant_id s) as [a|] eqn:Ha; [|by run].
  apply bind_ok in Hrun as (u1 & s1 & Hloop & Hwhen).
  set (l := List.filter (λ m, negb (N.eqb (Member.id m) (Member.id a)))
    (order_by seniority (List.filter (active_member_of tenant_id) (member_rows s)))) in *.
  assert (Hl' : l ≡ₚ List.filter (λ m, active_member_of tenant_id m &&
    negb (N.eqb (Member.id m) (Member.id a))) (member_rows s)).
  { unfold l. rewrite <- filter_filter.
    apply filter_permutation, order_by_permutation. }
  destruct (for_each_set_status (λ _, "suspended") _ l s (members_distinct s Hs) Hl')
    as (s2 & E & Hrows & Ht & Hacc & Hc).
  change (for_each (set_status "suspended") l s = (Ok tt, s2)) in E.
  rewrite E in Hloop. injection Hloop as <- <-.
  assert (Hframe : tenancy s' = tenancy s2) by (by frame tenancy Hwhen).
  unfold tenancy in Hframe. injection Hframe as Ht' Hm' Ha' Hc'.
  split_and!; [by rewrite Hm', Hrows|congruence..].
Qed.

(** Nothing to do: no administrator, or nobody else active. *)
Lemma reconcile_settled tenant_id s :
  consistent s → seat_limit tenant_id s = Some 1 →
  match senior_administrator tenant_id s with
  | None => True
  | Some a => List.filter (active_member_of tenant_id) (member_rows s) = [a]
  end →
  transaction (reconcile_single_member_plan tenant_id) s = (Ok tt, s).
Proof.
  intros Hs Hl Hone. apply transaction_ok. exists s. split; [|by apply flush_same].
  unfold reconcile_single_member_plan.
  rewrite (bind_step_ok _ _ _ _ _ (member_limit_run s Hs _)), Hl.
  rewrite bool_decide_true by done. cbn [negb].
  rewrite (bind_step_ok _ _ _ _ _ (scalars_ordered_member s Hs _ _)).
  fold (senior_administrator tenant_id s).
  destruct (senior_administrator tenant_id s) as [a|]; [|done].
  assert (Hnil : order_by seniority (List.filter (active_member_of tenant_id) (member_rows s))
    = [a]).
  { apply Permutation_length_1_inv. rewrite order_by_permutation. by rewrite Hone. }
  rewrite Hnil. simpl. by rewrite N.eqb_refl.
Qed.
End reconcile.

(** When the plan leaves one seat, the team keeps exactly one active member,
    the longest-standing active administrator: nobody else of the tenant stays
    active, other tenants are untouched, a tenant without an active
    administrator is left alone, and running the reconciliation again changes
    nothing. *)
Theorem reconcile_keeps_one_administrator `{Env} (tenant_id : N) (s s' : Core) (u : unit) :
  consistent s → seat_limit tenant_id s = Some 1 →
  transaction (reconcile_single_member_plan tenant_id) s = (Ok u, s') →
  match senior_administrator tenant_id s with
  | None => s' = s
  | Some a =>
      is_admin a = true ∧ active_member_of tenant_id a = true ∧
      (∀ b, In b (member_rows s) → active_member_of tenant_id b = true →
            is_admin b = true → seniority a b = true) ∧
      member_rows s' = only_active tenant_id a (member_rows s) ∧
      List.filter (active_member_of tenant_id) (member_rows s') = [a]
  end ∧
  transaction (reconcile_single_member_plan tenant_id) s' = (Ok tt, s').
Proof.
  intros Hs Hl Hrun. apply transaction_ok in Hrun as (s1 & Hrun & Hflush).
  pose proof (flush_consistent _ _ Hflush) as Hs'.
  pose proof (reconcile_ok _ _ _ _ Hs Hl Hrun) as Hok.
  destruct (senior_administrator tenant_id s) as [a|] eqn:Hsenior.
  - apply senior_administrator_some in Hsenior as (Hin & Ha & Had & Hmin).
    destruct Hok as (Hm & Ht & Hacc & Hc). apply flush_tenancy in Hflush.
    injection Hflush as Ht' Hm' Ha' Hc'.
    assert (Hteam : List.filter (active_member_of tenant_id) (member_rows s') = [a]).
    { rewrite Hm', Hm. apply only_active_team; [by apply members_distinct|done..]. }
    split; [split_and!; [done..| |done]; by rewrite Hm'|].
    apply reconcile_settled; [done| |].
    + unfold seat_limit. by rewrite Ha', Hacc, Hc', Hc.
    + unfold senior_administrator. rewrite Hteam. simpl. by rewrite Had.
  - subst s1. rewrite (flush_same _ Hs) in Hflush. injection Hflush as <-.
    split; [done|]. apply reconcile_settled; [done..|]. by rewrite Hsenior.
Qed.

(** ** Business identities *)
Section identity.
Context `{Env}.

(** No two tenants that are not deleted have the same CNPJ. *)
Definition one_tenant_per_cnpj (rows : list Tenant.TenantEntity) : Prop :=
  ∀ t1 t2 lookup, In t1 rows → In t2 rows → open_tenant t1 = true → open_tenant t2 = true →
    Tenant.registration_lookup_hmac t1 = Some lookup →
    Tenant.registration_lookup_hmac t2 = Some lookup → Tenant.id t1 = Tenant.id t2.

(** Two kinds of assignments: those that leave the CNPJ alone, and those that
    set one nobody else has. *)
Lemma alter_keeps_cnpj f k rows :
  (∀ t, Tenant.id (f t) = Tenant.id t ∧ Tenant.deleted_at (f t) = Tenant.deleted_at t ∧
        Tenant.registration_lookup_hmac (f t) = Tenant.registration_lookup_hmac t) →
  one_tenant_per_cnpj rows → one_tenant_per_cnpj (alter_rows f k rows).
Proof.
  intros Hf Hone t1 t2 lookup H1 H2.
  apply in_map_iff in H1 as (u1 & <- & H1), H2 as (u2 & <- & H2).
  assert (Hg : ∀ u, open_tenant (if has_id k u then f u else u) = open_tenant u ∧
    Tenant.registration_lookup_hmac (if has_id k u then f u else u) =
      Tenant.registration_lookup_hmac u ∧
    Tenant.id (if has_id k u then f u else u) = Tenant.id u).
  { intros u. unfold open_tenant. destruct (has_id k u); [|done].
    by destruct (Hf u) as (-> & -> & ->). }
  destruct (Hg u1) as (-> & -> & ->), (Hg u2) as (-> & -> & ->). eauto.
Qed.

Lemma alter_sets_cnpj f k rows lookup :
  (∀ t, Tenant.id (f t) = Tenant.id t ∧
        Tenant.registration_lookup_hmac (f t) = Some lookup) →
  (∀ t, In t rows → conflicting_tenant lookup k t = false) →
  one_tenant_per_cnpj rows → one_tenant_per_cnpj (alter_rows f k rows).
Proof.
  intros Hf Hfree Hone t1 t2 l H1 H2.
  apply in_map_iff in H1 as (u1 & <- & H1), H2 as (u2 & <- & H2).
  assert (Hid : ∀ u, Tenant.id (if has_id k u then f u else u) = Tenant.id u).
  { intros u. destruct (has_id k u); [apply Hf | done]. }
  rewrite !Hid.
  assert (Hother : ∀ u, In u rows → has_id k u = false → open_tenant u = true →
    Tenant.registration_lookup_hmac u = Some lookup → False).
  { intros u Hu Hk Ho Hl. specialize (Hfree u Hu). unfold conflicting_tenant in Hfree.
    unfold has_id in Hk. change (ent_id u) with (Tenant.id u) in Hk.
    rewrite Ho, Hk, bool_decide_true in Hfree by done. done. }
  destruct (has_id k u1) eqn:E1, (has_id k u2) eqn:E2.
  - intros _ _ _ _. apply has_id_true in E1, E2. trans k; [exact E1 | symmetry; exact E2].
  - rewrite (proj2 (Hf u1)). intros _ Ho [= <-] Hl. by destruct (Hother u2).
  - rewrite (proj2 (Hf u2)). intros Ho _ Hl [= <-]. by destruct (Hother u1).
  - eauto.
Qed.

Lemma protect_cnpj_db value : preserves (same Core.db) (protect_cnpj value).
Proof. unfold protect_cnpj. preserve. Qed.

Lemma audit_db_tenants tenant_id actor action metadata :
  preserves (same (λ s, Db.tenants (Core.db s))) (_audit tenant_id actor action metadata).
Proof. unfold _audit. preserve. Qed.
End identity.

Section conversion.
Context `{Env}.

Lemma convert_keeps_cnpj_unique tenant_id payload subject s r s' :
  consistent s → one_tenant_per_cnpj (tenant_rows s) →
  convert_to_business tenant_id payload subject s = (r, s') →
  one_tenant_per_cnpj (tenant_rows s').
Proof.
  intros Hs Hone Hrun. unfold convert_to_business in Hrun. destruct r as [r|e].
  2:{ apply transaction_err_db in Hrun. unfold tenant_rows. by rewrite Hrun. }
  team_run. destruct a4 as [[encrypted lookup] masked].
  assert (Hdb : Core.db s5 = Core.db s).
  { match goal with H : try_catch _ _ s = _ |- _ => rename H into Hp end.
    apply try_catch_ok in Hp as [Hp|(e & s6 & _ & Hp)].
    - by apply (preserves_run _ _ _ _ _ (protect_cnpj_db _)) in Hp.
    - by destruct e. }
  assert (Hs5 : consistent s5) by (by apply (consistent_db s)).
  team_run.
  assert (Hrows : tenant_rows s' = alter_rows (set_business_identity
    (strip (bc_legal_name payload)) encrypted lookup masked "format_valid")
    (Tenant.id a0) (tenant_rows s5)).
  { tenancy_chain. etrans; [|apply tenant_rows_assign]. congruence. }
  rewrite Hrows.
  match goal with H : List.find _ (tenant_rows s) = Some a0 |- _ =>
    apply List.find_some in H as [_ [->%N.eqb_eq _]%andb_true_iff] end.
  apply (alter_sets_cnpj _ _ _ lookup); [done| |].
  - intros t Ht. match goal with H : bool_decide (List.find ?P _ ≠ None) = false |- _ =>
      apply bool_decide_eq_false, dec_stable in H; exact (List.find_none P _ H t Ht) end.
  - unfold tenant_rows. by rewrite Hdb.
Qed.

(** The query for a conflicting tenant, while attributes of a tenant are
    pending. *)
Lemma no_conflict lookup tenant_id s s1 f k :
  clean (Db.tenants (Core.db s)) → keys_distinct (tenant_rows s) →
  Db.tenants (Core.db s1) = mutate f k (Db.tenants (Core.db s)) → keeps_id f →
  head (select (conflicting_tenant lookup tenant_id) (Db.tenants (Core.db s1))) = None →
  ∀ t, In t (tenant_rows s) → conflicting_tenant lookup tenant_id t = false.
Proof.
  intros Hc Hd E Hf Hn t Ht. eapply select_none; [| |exact Hn|]; rewrite E; simpl; rewrite ?Hc.
  - by apply alter_rows_ids.
  - done.
  - done.
Qed.

Lemma verified_keeps_cnpj k answer s status s' :
  one_tenant_per_cnpj (tenant_rows s) →
  (assign k (set_verification answer);; mret answer) s = (Ok status, s') →
  one_tenant_per_cnpj (tenant_rows s').
Proof.
  intros Hone Hrun. db_run. by apply (alter_keeps_cnpj (set_verification answer) k).
Qed.

Lemma apply_keeps_cnpj_unique tenant_id legal_name cnpj reference s status s' :
  clean (Db.tenants (Core.db s)) → keys_distinct (tenant_rows s) →
  one_tenant_per_cnpj (tenant_rows s) →
  apply_billing_business_identity tenant_id legal_name cnpj reference s = (Ok status, s') →
  one_tenant_per_cnpj (tenant_rows s').
Proof.
  intros Hc Hd Hone Hrun. unfold apply_billing_business_identity in Hrun.
  do 6 db_step. cbv zeta in Hrun. set (f := λ t : Tenant.TenantEntity, _) in Hrun.
  set (s1 := put_table _ s) in Hrun.
  assert (Hone1 : one_tenant_per_cnpj (tenant_rows s1)).
  { apply (alter_keeps_cnpj f (Tenant.id a)); done. }
  destruct (if opt_nonempty cnpj then cnpj else None) as [value|];
    [|by eapply verified_keeps_cnpj].
  apply bind_ok in Hrun as (p & s2 & Hp & Hrun).
  assert (Hdb : Core.db s2 = Core.db s1).
  { apply try_catch_ok in Hp as [Hp|(e & s3 & Hp & Hh)].
    - repeat db_step. by apply (preserves_run _ _ _ _ _ (protect_cnpj_db _)) in Hrun0.
    - destruct e; try discriminate Hh. injection Hh as _ <-.
      apply bind_err in Hp as [Hp|(? & ? & _ & ?)]; [|done].
      by apply (preserves_run _ _ _ _ _ (protect_cnpj_db _)) in Hp. }
  assert (Hone2 : one_tenant_per_cnpj (tenant_rows s2)) by (by unfold tenant_rows; rewrite Hdb).
  destruct p as [[[encrypted lookup] masked]|]; [|by eapply verified_keeps_cnpj].
  destruct (_ && _); [by eapply verified_keeps_cnpj|].
  do 2 db_step. destruct (bool_decide _) eqn:Hconf; [by eapply verified_keeps_cnpj|].
  destruct (negb (nonempty _)); [by eapply verified_keeps_cnpj|].
  apply bool_decide_eq_false, dec_stable in Hconf.
  repeat db_step.
  match goal with |- one_tenant_per_cnpj (tenant_rows ?s3) =>
    assert (tenant_rows s3 = alter_rows (set_business_identity
      (strip (default "" legal_name)) encrypted lookup masked "stripe_format_valid")
      (Tenant.id a) (tenant_rows s2)) as ->
      by (tenancy_chain; etrans; [|apply tenant_rows_assign]; congruence) end.
  match goal with H : head (select _ _) = Some a |- _ => rename H into Ha end.
  rewrite select_clean, head_filter in Ha by done.
  apply List.find_some in Ha as [_ [Hid%N.eqb_eq _]%andb_true_iff].
  assert (Htab : Db.tenants (Core.db s2) = mutate f (Tenant.id a) (Db.tenants (Core.db s)))
    by (by rewrite Hdb).
  apply (alter_sets_cnpj _ _ _ lookup); [done| |done].
  intros t Ht. unfold tenant_rows in Ht. rewrite Htab in Ht.
  apply in_map_iff in Ht as (u & <- & Hu). rewrite Hid.
  pose proof (no_conflict lookup tenant_id s s2 f (Tenant.id a) Hc Hd Htab
    ltac:(done) Hconf u Hu) as Hfree.
  by destruct (has_id _ u).
Qed.
End conversion.


(** ** The theorems on the example database *)
Section witnesses.
#[local] Existing Instance Example.env.

Lemma new_members_fit_the_plan_witness :
  match add_member 1 (mkTenantMemberCreate "New@acme.com" "auditor") "admin@acme.com"
          Example.s0 with
  | (Ok _, s') =>
      (∃ actor, acting_member Example.s0 1 "admin@acme.com" = Some actor ∧ is_admin actor = true) ∧
      seated 1 "new@acme.com" "auditor" Example.s0 s'
  | _ => False
  end ∧
  match invite_member 1 (mkTenantMemberInvitation "Ana" " ana@acme.com" "52998224725" "member")
          "admin@acme.com" Example.s0 with
  | (Ok _, s') =>
      (∃ actor, acting_member Example.s0 1 "admin@acme.com" = Some actor ∧ is_admin actor = true) ∧
      seated 1 "ana@acme.com" "member" Example.s0 s'
  | _ => False
  end.
Proof.
  split; ok_run E; destruct a.
  - exact (proj1 (new_members_fit_the_plan 1 _ _ (mkTenantMemberInvitation "" "" "" "") _ _
      Example.s0_consistent) E).
  - exact (proj2 (new_members_fit_the_plan 1 _ (mkTenantMemberCreate "" "") _ _ _
      Example.s0_consistent) E).
Defined.

Lemma admin_operations_denied_witness :
  refused (add_member 1 (mkTenantMemberCreate "x@y.zz" "admin") "clerk@acme.com")
    (Example.s0 <| Core.auth_context := None |>).
Proof.
  refine (proj1 (admin_operations_denied (Example.s0 <| Core.auth_context := None |>) 1 12
    "clerk@acme.com" "member" [] (mkTenantMemberCreate "x@y.zz" "admin")
    (mkTenantMemberInvitation "" "" "" "") (mkTenantBusinessConversion "" "")
    (mkTenantPreferencesUpdate "en" None "UTC" "USD") _ _)).
  - split; vm_compute; reflexivity.
  - vm_compute. discriminate.
Defined.

Lemma role_update_keeps_administrators_witness :
  match update_member_role 1 12 "auditor" "admin@acme.com" Example.s0 with
  | (Ok _, s') => List.filter is_admin (member_rows s') = List.filter is_admin (member_rows Example.s0)
  | _ => False
  end.
Proof.
  ok_run E.
  exact (proj2 (proj2 (role_update_keeps_administrators 1 12 "auditor" "admin@acme.com" _ _ _
    Example.s0_consistent (or_intror (or_introl eq_refl)) E))).
Defined.

Lemma update_team_selects_witness :
  match update_team 1 [11%N] "admin@acme.com" Example.s0 with
  | (Ok _, s') => member_rows s' = select_members 1 [11%N] (member_rows Example.s0)
  | _ => False
  end.
Proof.
  ok_run E.
  exact (proj1 (update_team_selects 1 [11%N] "admin@acme.com" _ _ _ Example.s0_consistent E)).
Defined.

Lemma reconcile_keeps_one_administrator_witness :
  match transaction (reconcile_single_member_plan 1) Example.downgraded with
  | (Ok _, s') => transaction (reconcile_single_member_plan 1) s' = (Ok tt, s')
  | _ => False
  end.
Proof.
  ok_run E.
  exact (proj2 (reconcile_keeps_one_administrator 1 _ _ _ Example.downgraded_consistent
    ltac:(vm_compute; reflexivity) E)).
Defined.

End witnesses.
