(* ===== verification/Billing.v ===== *)
(** * The billing service (billing_service.py)

    The account of a tenant, its allowances, checkout and portal sessions, and
    the webhook of the payment provider.  The provider is an interface
    (providers/protocol.py) with its laws; the local fake provider implements
    it. *)

From S2P Require Import Prelude.
From S2P Require Import PyText.
From S2P Require Import Json.
From S2P Require Import DateTime.
From S2P Require Import Orm.
From S2P Require Import WorkflowSchema.
From S2P Require Import CoreDb.
From S2P Require Import Identity.
From S2P Require Import BillingPolicy.
From S2P Require Import Tenant.

Local Open Scope Z_scope.

(** ** The payment provider *)
Record ProviderTaxId := mkProviderTaxId { tax_id : string; tax_type : string; tax_value : string }.
Record ProviderBusinessIdentity := mkProviderBusinessIdentity {
  identity_name : option string; tax_ids : list ProviderTaxId
}.

Class BillingProvider := {
  (** What building the provider raises, if anything. *)
  provider_available : result unit;
  create_customer (email name : string) (metadata : json) : M Core string;
  create_checkout_session
    (customer_id price_id product_code tenant_id success_url cancel_url : string) : M Core string;
  create_portal_session (customer_id return_url : string)
    (subscription_id : option string) (completion_url price_id : string) : M Core string;
  retrieve_subscription (subscription_id : string) : M Core json;
  retrieve_customer_business_identity (customer_id : string) : M Core ProviderBusinessIdentity;
  construct_webhook_event (payload signature : string) : result json
}.

(** What the provider does not touch: the database, the clock, the mail and the
    context of the request. *)
Definition core_view (s : Core) :=
  (Core.db s, Core.clock s, Core.outbox s, Core.objects s, Core.auth_context s).

Class BillingProviderLaws `{BillingProvider} : Prop := {
  create_customer_view e n m : preserves (same core_view) (create_customer e n m);
  create_checkout_view c p q t s x :
    preserves (same core_view) (create_checkout_session c p q t s x);
  create_portal_view c r i u p : preserves (same core_view) (create_portal_session c r i u p);
  retrieve_subscription_view i : preserves (same core_view) (retrieve_subscription i);
  retrieve_identity_view c :
    preserves (same core_view) (retrieve_customer_business_identity c)
}.

(** [FakeBillingProvider]; [json_loads] is the JSON parser of the standard
    library. *)
Module FakeBillingProvider.
Section fake.
Context `{Env} (json_loads : string → result json).

Definition create_customer (email name : string) (metadata : json) : M Core string :=
  u ← uuid4; mret ("fake_customer_" +:+ uuid_str u).
Definition create_checkout_session
    (customer_id price_id product_code tenant_id success_url cancel_url : string)
    : M Core string := mret success_url.
Definition create_portal_session (customer_id return_url : string)
    (subscription_id : option string) (completion_url price_id : string) : M Core string :=
  mret return_url.
Definition retrieve_subscription (subscription_id : string) : M Core json :=
  mret (JObj [("id", JStr subscription_id); ("status", JStr "active");
              ("metadata", JObj [("product_code", JStr "rubrica_base")])]).
Definition retrieve_customer_business_identity (customer_id : string)
    : M Core ProviderBusinessIdentity := mret (mkProviderBusinessIdentity None []).
Definition construct_webhook_event (payload signature : string) : result json :=
  value ← json_loads payload;
  match value with
  | JObj _ => Ok value
  | _ => Err (ValueError "Fake billing event must be a JSON object")
  end.

Definition provider : BillingProvider := {|
  provider_available := Ok tt;
  Billing.create_customer := create_customer;
  Billing.create_checkout_session := create_checkout_session;
  Billing.create_portal_session := create_portal_session;
  Billing.retrieve_subscription := retrieve_subscription;
  Billing.retrieve_customer_business_identity := retrieve_customer_business_identity;
  Billing.construct_webhook_event := construct_webhook_event
|}.

Lemma fake_provider_laws : @BillingProviderLaws provider.
Proof. split; repeat intro; reflexivity. Qed.
End fake.
End FakeBillingProvider.

(** ** Answers (billing_schema.py) *)
Record BillingAccountRead := mkBillingAccountRead {
  ar_id : N; ar_tenant_id : N; ar_status : string; ar_provider : option string;
  ar_provider_customer_id : option string; ar_provider_subscription_id : option string;
  ar_current_product_code : option string; ar_current_period_ends_at : option Z;
  ar_cancel_at_period_end : bool; ar_cancels_at : option Z; ar_grace_period_ends_at : option Z;
  ar_free_signatures_limit : Z; ar_signatures_used : Z; signatures_remaining : option Z;
  unlimited_signatures : bool; ar_files_uploaded_in_period : Z; files_limit : option Z;
  files_remaining : option Z; unlimited_files : bool; ar_email_invitations_enabled : bool;
  ar_usage_period_starts_at : option Z; ar_complimentary_lifetime : bool; ar_created_at : Z
}.
Record BillingWebhookRead := mkBillingWebhookRead { accepted : bool; duplicate : bool }.
Record BillingPaymentRead := mkBillingPaymentRead {
  pr_id : N; pr_tenant_id : N; pr_provider : string; pr_provider_payment_id : string;
  pr_provider_subscription_id : option string; pr_status : string; pr_currency : string;
  pr_amount_due_minor : Z; pr_amount_paid_minor : Z; pr_period_starts_at : option Z;
  pr_period_ends_at : option Z; pr_paid_at : option Z; pr_created_at : Z
}.

(** ** Messages *)

(** [_billing_message]: the kind of message an event deserves. *)
Definition subscription_message_kind (mapped_status : string) : option string :=
  plan_get mapped_status
    [("active", "active"); ("past_due", "failed"); ("unpaid", "failed");
     ("cancelled", "cancelled"); ("paused", "paused")].

Definition message_kind (event_type provider_status : string) (previous_status : option string)
    (previous_product current_product : option string) : option string :=
  let key := plan_get event_type
    [("checkout.session.completed", "checkout"); ("invoice.payment_succeeded", "paid");
     ("invoice.payment_failed", "failed")] in
  if starts_with "customer.subscription." event_type then
    let mapped_status := _subscription_status provider_status in
    let product_changed :=
      String.eqb event_type "customer.subscription.updated" &&
      opt_nonempty previous_product && opt_nonempty current_product &&
      negb (bool_decide (previous_product = current_product)) in
    if product_changed then Some "plan_changed"
    else if negb (String.eqb event_type "customer.subscription.created") &&
            bool_decide (Some mapped_status = previous_status) then None
    else subscription_message_kind mapped_status
  else key.

Definition messages : list (string * list (string * (string * string))) :=
  [("en",
    [("checkout", ("Rubrica payment received", "We received the checkout for {tenant}. The monthly file allowance will be enabled after Stripe confirms the subscription."));
     ("active", ("Rubrica subscription active", "The subscription for {tenant} is active. Its monthly file allowance is available."));
     ("cancelled", ("Rubrica subscription cancelled", "The subscription for {tenant} was cancelled."));
     ("paid", ("Rubrica payment confirmed", "Stripe confirmed the payment for {tenant}."));
     ("failed", ("Rubrica payment failed", "Stripe could not confirm the payment for {tenant}. Please review your payment method in the billing portal."));
     ("paused", ("Rubrica subscription paused", "The subscription for {tenant} was paused. Review its status in the billing portal."));
     ("plan_changed", ("Rubrica plan updated", "The plan for {tenant} was updated from {previous_plan} to {current_plan}. The new allowance is {limit} PDFs per billing period, and current usage was preserved."))]);
   ("pt-BR",
    [("checkout", ("Pagamento recebido pelo Rubrica", "Recebemos o checkout de {tenant}. A franquia mensal de arquivos será liberada após a confirmação do Stripe."));
     ("active", ("Assinatura Rubrica ativa", "A assinatura de {tenant} está ativa. A franquia mensal de arquivos está disponível."));
     ("cancelled", ("Assinatura Rubrica cancelada", "A assinatura de {tenant} foi cancelada."));
     ("paid", ("Pagamento Rubrica confirmado", "O Stripe confirmou o pagamento de {tenant}."));
     ("failed", ("Falha no pagamento Rubrica", "O Stripe não confirmou o pagamento de {tenant}. Revise a forma de pagamento no portal de cobrança."));
     ("paused", ("Assinatura Rubrica pausada", "A assinatura de {tenant} foi pausada. Revise a situação no portal de cobrança."));
     ("plan_changed", ("Plano Rubrica atualizado", "O plano de {tenant} foi atualizado de {previous_plan} para {current_plan}. A nova franquia é de {limit} PDFs por período, e o uso atual foi preservado."))]);
   ("ja-JP",
    [("checkout", ("Rubrica お支払い受付", "{tenant} のチェックアウトを受け付けました。Stripe の確認後、月間ファイル枠が有効になります。"));
     ("active", ("Rubrica サブスクリプション有効", "{tenant} のサブスクリプションが有効になり、月間ファイル枠を利用できます。"));
     ("cancelled", ("Rubrica サブスクリプション解約", "{tenant} のサブスクリプションは解約されました。"));
     ("paid", ("Rubrica お支払い確認", "Stripe が {tenant} のお支払いを確認しました。"));
     ("failed", ("Rubrica お支払い失敗", "{tenant} のお支払いを確認できませんでした。請求ポータルでお支払い方法をご確認ください。"));
     ("paused", ("Rubrica サブスクリプション一時停止", "{tenant} のサブスクリプションは一時停止されています。請求ポータルで状態をご確認ください。"));
     ("plan_changed", ("Rubrica プラン更新", "{tenant} のプランが {previous_plan} から {current_plan} に更新されました。新しい上限は請求期間ごとに PDF {limit} 件で、現在の利用数は引き継がれます。"))]);
   ("es",
    [("checkout", ("Pago recibido por Rubrica", "Recibimos el pago de {tenant}. La cuota mensual de archivos se habilitará cuando Stripe confirme la suscripción."));
     ("active", ("Suscripción Rubrica activa", "La suscripción de {tenant} está activa y su cuota mensual de archivos está disponible."));
     ("cancelled", ("Suscripción Rubrica cancelada", "La suscripción de {tenant} fue cancelada."));
     ("paid", ("Pago Rubrica confirmado", "Stripe confirmó el pago de {tenant}."));
     ("failed", ("Error en el pago de Rubrica", "Stripe no pudo confirmar el pago de {tenant}. Revisa el método de pago en el portal de facturación."));
     ("paused", ("Suscripción Rubrica pausada", "La suscripción de {tenant} fue pausada. Revisa su estado en el portal de facturación."));
     ("plan_changed", ("Plan Rubrica actualizado", "El plan de {tenant} se actualizó de {previous_plan} a {current_plan}. El nuevo límite es de {limit} PDF por período y se conservó el uso actual."))])].

Definition plan_names : list (string * list (string * string)) :=
  [("en", [("rubrica_base", "Essential"); ("rubrica_intermediate", "Professional"); ("rubrica_team", "Team")]);
   ("pt-BR", [("rubrica_base", "Essencial"); ("rubrica_intermediate", "Profissional"); ("rubrica_team", "Equipe")]);
   ("es", [("rubrica_base", "Esencial"); ("rubrica_intermediate", "Profesional"); ("rubrica_team", "Equipo")]);
   ("ja-JP", [("rubrica_base", "エッセンシャル"); ("rubrica_intermediate", "プロフェッショナル"); ("rubrica_team", "チーム")])].

Definition plan_eyebrows : list (string * string) :=
  [("pt-BR", "ATUALIZAÇÃO DE PLANO"); ("es", "ACTUALIZACIÓN DEL PLAN"); ("ja-JP", "プラン更新")].

(** [d.get(locale, d["en"])] *)
Definition for_locale {A} (locale : string) (d : list (string * list A)) : list A :=
  match plan_get locale d with
  | Some v => v
  | None => from_option id [] (plan_get "en" d)
  end.

Definition _billing_message (locale event_type provider_status : string)
    (previous_status previous_product current_product : option string)
    : result (option (string * string * string)) :=
  match message_kind event_type provider_status previous_status previous_product
          current_product with
  | None => Ok None
  | Some key =>
      match plan_get key (for_locale locale messages) with
      | None => Err KeyError
      | Some (subject, body) =>
          if negb (String.eqb key "plan_changed")
          then Ok (Some (subject, body, "RUBRICA NOTIFICATION"))
          else
            let names := for_locale locale plan_names in
            let previous := _normalize_product_code (jopt_str previous_product) in
            let current := _normalize_product_code (jopt_str current_product) in
            text ← py_format body
              [("previous_plan", from_option id previous (plan_get previous names));
               ("current_plan", from_option id current (plan_get current names));
               ("limit", show_Z (from_option id 0 (plan_get current PLAN_FILE_LIMITS)));
               ("tenant", "{tenant}")];
            Ok (Some (subject, text, from_option id "PLAN UPDATE" (plan_get locale plan_eyebrows)))
      end
  end.

(** ** The service *)
Module BillingService.
Section service.
Context `{Env} `{BillingProvider}.

(** [str(exc)] of a provider error; [None] for any other exception. *)
Definition provider_error (e : exn) : option string :=
  match e with
  | BillingProviderError m => Some m
  | InvalidWebhookSignatureError => Some ""
  | _ => None
  end.
(** [except BillingProviderError as exc: raise WorkflowError(str(exc), status)] *)
Definition provider_failure {A} (status : Z) (e : exn) : M Core A :=
  match provider_error e with
  | Some m => raise (workflow_error m status)
  | None => raise e
  end.

Definition _get_provider : M Core unit :=
  try_catch (lift provider_available) (provider_failure 503).

(** Attributes of an account object. *)
Definition set_account (i : N) (f : Account.BillingAccountEntity → Account.BillingAccountEntity)
    : M Core unit := assign i f.

(** The account of a tenant, created or revived when needed; the result is the
    object, by its key. *)
Definition _account_entity (tenant_id : N) : M Core N :=
  found ← scalar (account_of tenant_id);
  match found with
  | None =>
      i ← uuid4; now ← utc_now;
      add (Account.make i tenant_id "not_configured" None None None None None false None None
             None 5 0 0 None false None None None now None);;
      flush;;
      mret i
  | Some a =>
      when (negb (bool_decide (Account.deleted_at a = None)))
        (set_account (Account.id a) (λ a, a <| Account.deleted_at := None |>));;
      mret (Account.id a)
  end.

Definition account_read (now : Z) (a : Account.BillingAccountEntity) : BillingAccountRead :=
  let unlimited := _has_unlimited_signatures a in
  let paid_access := _paid_access_enabled now a in
  let limit := _active_plan_file_limit now a in
  let unlimited_files := Account.complimentary_lifetime a in
  mkBillingAccountRead (Account.id a) (Account.tenant_id a) (Account.status a)
    (Account.provider a) (Account.provider_customer_id a) (Account.provider_subscription_id a)
    (Account.current_product_code a) (Account.current_period_ends_at a)
    (Account.cancel_at_period_end a) (Account.cancels_at a) (Account.grace_period_ends_at a)
    (Account.free_signatures_limit a) (Account.signatures_used a)
    (if unlimited || paid_access then None
     else Some (Z.max (Account.free_signatures_limit a - Account.signatures_used a) 0))
    unlimited (Account.files_uploaded_in_period a) limit
    (if unlimited_files then None
     else match limit with
          | None => None
          | Some l => Some (Z.max (l - Account.files_uploaded_in_period a) 0)
          end)
    unlimited_files
    (business_plan now a)
    (Account.usage_period_starts_at a) (Account.complimentary_lifetime a) (Account.created_at a).

Definition _account (tenant_id : N) (subject : string) (roles : list string)
    : M Core BillingAccountRead :=
  transaction (
    TenantService.require_role tenant_id subject (Some roles) true;;
    i ← _account_entity tenant_id;
    now ← utc_now;
    a ← deref (R := Account.BillingAccountEntity) i;
    mret (account_read now a)).

Definition account (tenant_id : N) (subject : string) : M Core BillingAccountRead :=
  _account tenant_id subject ["admin"; "auditor"].
Definition initialize (tenant_id : N) (subject : string) : M Core BillingAccountRead :=
  _account tenant_id subject ["admin"].

Definition payment_read (p : Payment.BillingPaymentEntity) : BillingPaymentRead :=
  mkBillingPaymentRead (Payment.id p) (Payment.tenant_id p) (Payment.provider p)
    (Payment.provider_payment_id p) (Payment.provider_subscription_id p) (Payment.status p)
    (Payment.currency p) (Payment.amount_due_minor p) (Payment.amount_paid_minor p)
    (Payment.period_starts_at p) (Payment.period_ends_at p) (Payment.paid_at p)
    (Payment.created_at p).

Definition payments (tenant_id : N) (subject : string) : M Core (list BillingPaymentRead) :=
  read_session (
    TenantService.require_role tenant_id subject (Some ["admin"; "auditor"]) true;;
    rows ← scalars_ordered (λ p q, Z.leb (Payment.created_at q) (Payment.created_at p))
      (λ p, N.eqb (Payment.tenant_id p) tenant_id && bool_decide (Payment.deleted_at p = None));
    mret (map payment_read rows)).

(** ** Allowances: called inside the transaction of the operation that uses them *)
Definition consume_signature (tenant_id : N) : M Core unit :=
  i ← _account_entity tenant_id;
  now ← utc_now;
  a ← deref (R := Account.BillingAccountEntity) i;
  if _has_unlimited_signatures a || _paid_access_enabled now a then mret tt
  else
    raise_if (Account.free_signatures_limit a <=? Account.signatures_used a)
      (workflow_error
         "Free signature allowance exhausted. An active subscription is required" 402);;
    set_account i (λ a, a <| Account.signatures_used ::= λ n, n + 1 |>).

Definition consume_document (tenant_id : N) : M Core unit :=
  i ← _account_entity tenant_id;
  now ← utc_now;
  a ← deref (R := Account.BillingAccountEntity) i;
  if Account.complimentary_lifetime a then mret tt
  else
    match _active_plan_file_limit now a with
    | None => mret tt
    | Some limit =>
        raise_if (limit <=? Account.files_uploaded_in_period a)
          (workflow_error
             "Monthly file allowance exhausted. Wait for the next billing period or change plan"
             402);;
        set_account i (λ a, a <| Account.files_uploaded_in_period ::= λ n, n + 1 |>)
    end.

(** ** Checkout and portal *)
Definition plan_url (suffix : string) : string :=
  rstrip_slash (PUBLIC_WEB_URL settings) +:+ "/plan" +:+ suffix.

(** The product codes of two plans, as [_normalize_product_code] compares them. *)
Definition same_plan (a b : option string) : bool :=
  String.eqb (_normalize_product_code (jopt_str a)) (_normalize_product_code (jopt_str b)).

Definition create_checkout (tenant_id : N) (subject product_code billing_interval : string)
    : M Core string :=
  _get_provider;;
  transaction (
    TenantService.require_role tenant_id subject (Some ["admin"]) true;;
    tenant ← TenantService.existing_tenant tenant_id;
    i ← _account_entity tenant_id;
    a ← deref (R := Account.BillingAccountEntity) i;
    raise_if (Account.complimentary_lifetime a)
      (workflow_error "This account already has complimentary lifetime access" 409);;
    raise_if (_subscription_requires_portal a)
      (workflow_error "Use the billing portal to change the existing subscription" 409);;
    raise_if (String.eqb (Account.status a) "active" &&
              same_plan (Some product_code) (Account.current_product_code a))
      (workflow_error "The selected plan is already active" 409);;
    price_id ← lift (_price_for_currency (Tenant.currency tenant) product_code billing_interval);
    try_catch (
      customer_id ←
        (if opt_nonempty (Account.provider_customer_id a)
         then mret (from_option id "" (Account.provider_customer_id a))
         else
           c ← create_customer subject (Tenant.name tenant)
             (JObj [("tenant_id", JStr (uuid_str (Tenant.id tenant)))]);
           set_account i (λ a, a <| Account.provider := Some (BILLING_PROVIDER settings) |>
                                 <| Account.provider_customer_id := Some c |>);;
           mret c);
      create_checkout_session customer_id price_id product_code
        (uuid_str (Tenant.id tenant)) (plan_url "?checkout=success")
        (plan_url "?checkout=cancelled"))
      (provider_failure 502)).

Definition create_portal (tenant_id : N) (subject product_code billing_interval : string)
    : M Core string :=
  _get_provider;;
  transaction (
    TenantService.require_role tenant_id subject (Some ["admin"]) true;;
    i ← _account_entity tenant_id;
    a ← deref (R := Account.BillingAccountEntity) i;
    raise_if (negb (opt_nonempty (Account.provider_customer_id a)))
      (workflow_error "Stripe customer is not configured" 409);;
    raise_if (same_plan (Account.current_product_code a) (Some product_code))
      (workflow_error "The selected plan is already active" 409);;
    try_catch (
      tenant ← TenantService.existing_tenant tenant_id;
      price_id ← lift (_price_for_currency (Tenant.currency tenant) product_code billing_interval);
      create_portal_session (from_option id "" (Account.provider_customer_id a)) (plan_url "")
        (if String.eqb (Account.status a) "active" then Account.provider_subscription_id a
         else None)
        (plan_url "?billing=updated&from_plan=" +:+
         _normalize_product_code (jopt_str (Account.current_product_code a)))
        price_id)
      (provider_failure 502)).

(** ** Applying an event of the provider *)
Definition grace_end (now : Z) : Z :=
  DateTimeService.add_days now (BILLING_GRACE_PERIOD_DAYS settings).

(** The attributes of a payment an invoice event sets. *)
Record payment_update := mkPaymentUpdate {
  pay_subscription : option string; pay_event : string; pay_status : string;
  pay_currency : string; pay_due : Z; pay_paid : Z; pay_start : option Z; pay_end : option Z;
  pay_paid_at : option Z
}.

Definition set_payment (u : payment_update) (p : Payment.BillingPaymentEntity)
    : Payment.BillingPaymentEntity :=
  p <| Payment.provider_subscription_id := pay_subscription u |>
    <| Payment.provider_event_id := pay_event u |> <| Payment.status := pay_status u |>
    <| Payment.currency := pay_currency u |> <| Payment.amount_due_minor := pay_due u |>
    <| Payment.amount_paid_minor := pay_paid u |> <| Payment.period_starts_at := pay_start u |>
    <| Payment.period_ends_at := pay_end u |> <| Payment.paid_at := pay_paid_at u |>.

(** [str(v)] of a truthy value, [None] otherwise. *)
Definition str_or_none (v : json) : option string := if truthy v then Some (py_str v) else None.

Definition read_payment (event_type event_id : string) (resource : json)
    : result payment_update :=
  st ← jget resource "status_transitions";
  pa ← jget resource "parent";
  sd ← jget (jor pa (JObj [])) "subscription_details";
  subscription ← jget resource "subscription";
  subscription_id ←
    (if truthy subscription then Ok subscription
     else jget (jor sd (JObj [])) "subscription");
  currency ← jget_or resource "currency" (JStr "USD");
  due ← jget resource "amount_due";
  due_minor ← py_int (jor due (JNum 0));
  paid ← jget resource "amount_paid";
  paid_minor ← py_int (jor paid (JNum 0));
  period ← _invoice_service_period resource;
  paid_at ← jget (jor st (JObj [])) "paid_at";
  paid_time ← _timestamp paid_at;
  Ok (mkPaymentUpdate (str_or_none subscription_id) event_id
        (if String.eqb event_type "invoice.payment_succeeded" then "paid" else "failed")
        (upper (py_str currency)) due_minor paid_minor period.1 period.2 paid_time).

Definition payment_of (provider_payment_id : string) (p : Payment.BillingPaymentEntity) : bool :=
  String.eqb (Payment.provider p) "stripe" &&
  String.eqb (Payment.provider_payment_id p) provider_payment_id.

Definition _record_payment (tenant_id : N) (event_type : string) (resource : json)
    (provider_event_id : string) : M Core unit :=
  id_value ← lift (jget_or resource "id" (JStr ""));
  let provider_payment_id := py_str id_value in
  let event_id := if nonempty provider_event_id then provider_event_id else event_type in
  raise_if (negb (nonempty provider_payment_id))
    (workflow_error "Stripe invoice does not include an id" 422);;
  found ← scalar (payment_of provider_payment_id);
  i ← match found with
      | Some p => mret (Payment.id p)
      | None =>
          i ← uuid4; now ← utc_now;
          add (Payment.make i tenant_id "stripe" provider_payment_id None event_id "pending"
                 "USD" 0 0 None None None now None);;
          mret i
      end;
  u ← lift (read_payment event_type event_id resource);
  assign i (set_payment u).

Definition _apply_business_identity (tenant_id : N) (product_code : option string)
    (identity : option ProviderBusinessIdentity) : M Core unit :=
  match identity with
  | None => mret tt
  | Some identity =>
      if negb (mem_str (_normalize_product_code (jopt_str product_code))
                 BUSINESS_PRODUCT_CODES)
      then mret tt
      else
        let cnpj := List.find (λ t, String.eqb (tax_type t) "br_cnpj") (tax_ids identity) in
        TenantService.apply_billing_business_identity tenant_id (identity_name identity)
          (tax_value <$> cnpj) (tax_id <$> cnpj);;
        mret tt
  end.

(** A paid or failed invoice. *)
Definition apply_invoice (i tenant_id : N) (event_type : string) (resource : json)
    (provider_event_id : string) : M Core unit :=
  _record_payment tenant_id event_type resource provider_event_id;;
  now ← utc_now;
  a ← deref (R := Account.BillingAccountEntity) i;
  if String.eqb event_type "invoice.payment_succeeded" then
    set_account i (λ a, a <| Account.status := "active" |>
                          <| Account.grace_period_ends_at := None |>);;
    period ← lift (_invoice_service_period resource);
    reason ← lift (jget resource "billing_reason");
    set_account i (_sync_usage_period period.1 period.2
      match reason with JStr r => String.eqb r "subscription_cycle" | _ => false end)
  else
    when (negb (String.eqb (Account.status a) "past_due") ||
          bool_decide (Account.grace_period_ends_at a = None))
      (set_account i (λ a, a <| Account.status := "past_due" |>
                            <| Account.grace_period_ends_at := Some (grace_end now) |>)).

(** Is a subscription event older than the last one applied? *)
Definition stale_event (event_created_at : option Z) (a : Account.BillingAccountEntity) : bool :=
  match event_created_at, Account.last_provider_event_created_at a with
  | Some t, Some last => Z.ltb t last
  | _, _ => false
  end.

(** What a subscription resource says. *)
Record subscription_reading := mkSubscription {
  sub_id : string; sub_product : string; sub_status : string; sub_cancelling : bool;
  sub_cancels_at : option Z; sub_period : option Z * option Z
}.

Definition read_subscription (resource : json) : result subscription_reading :=
  subscription ← jget resource "id";
  product ← _product_code resource;
  status ← jget_or resource "status" (JStr "");
  period ← _subscription_period resource;
  cancelling ← jget_or resource "cancel_at_period_end" (JBool false);
  cancels_at ←
    (if truthy cancelling then
       v ← jget resource "cancel_at"; t ← _timestamp v;
       Ok (match t with Some t => Some t | None => period.2 end)
     else Ok None);
  Ok (mkSubscription (py_str subscription) product (_subscription_status (py_str status))
        (truthy cancelling) cancels_at period).

(** The attributes of the account a subscription event sets. *)
Definition set_subscription (now : Z) (r : subscription_reading) (event_created_at : option Z)
    (a : Account.BillingAccountEntity) : Account.BillingAccountEntity :=
  let a := a <| Account.provider_subscription_id := Some (sub_id r) |>
             <| Account.current_product_code := Some (sub_product r) |>
             <| Account.status := sub_status r |> in
  let a :=
    if String.eqb (sub_status r) "past_due" &&
       bool_decide (Account.grace_period_ends_at a = None)
    then a <| Account.grace_period_ends_at := Some (grace_end now) |>
    else if mem_str (sub_status r) ["active"; "cancelled"; "unpaid"; "paused"]
    then a <| Account.grace_period_ends_at := None |>
    else a in
  let a := match event_created_at with
           | Some t => a <| Account.last_provider_event_created_at := Some t |>
           | None => a
           end in
  let a := a <| Account.cancel_at_period_end := sub_cancelling r |>
             <| Account.cancels_at := sub_cancels_at r |> in
  if String.eqb (sub_status r) "active"
  then _sync_usage_period (sub_period r).1 (sub_period r).2 false a
  else match (sub_period r).2 with
       | Some e => a <| Account.current_period_ends_at := Some e |>
       | None => a
       end.

Definition apply_subscription (i tenant_id : N) (resource : json) (event_created_at : option Z)
    (identity : option ProviderBusinessIdentity) : M Core bool :=
  now ← utc_now;
  a ← deref (R := Account.BillingAccountEntity) i;
  if stale_event event_created_at a then mret false
  else
    r ← lift (read_subscription resource);
    set_account i (set_subscription now r event_created_at);;
    _apply_business_identity tenant_id (Some (sub_product r)) identity;;
    TenantService.reconcile_single_member_plan tenant_id;;
    mret true.

(** [False] when the event is older than what the account already reflects. *)
Definition _apply_event (event_type : string) (resource : json) (tenant_id : option N)
    (event_created_at : option Z) (provider_event_id : string)
    (identity : option ProviderBusinessIdentity) : M Core bool :=
  match tenant_id with
  | None => mret true
  | Some tenant_id =>
      i ← _account_entity tenant_id;
      set_account i (λ a, a <| Account.provider := Some "stripe" |>);;
      customer ← lift (jget resource "customer");
      when (truthy customer)
        (set_account i (λ a, a <| Account.provider_customer_id := Some (py_str customer) |>));;
      if String.eqb event_type "checkout.session.completed" then
        subscription ← lift (jget resource "subscription");
        product ← lift (_product_code resource);
        set_account i (λ a,
          a <| Account.provider_subscription_id := str_or_none subscription |>
            <| Account.current_product_code := Some product |>
            <| Account.status ::= λ s, if String.eqb s "active" then s else "pending" |>);;
        _apply_business_identity tenant_id (Some product) identity;;
        mret true
      else if mem_str event_type ["invoice.payment_succeeded"; "invoice.payment_failed"] then
        apply_invoice i tenant_id event_type resource provider_event_id;;
        mret true
      else if starts_with "customer.subscription." event_type then
        apply_subscription i tenant_id resource event_created_at identity
      else mret true
  end.

(** ** Notifications *)

(** [request_billing_email] (notification_client.py); the template that wraps
    the text is presentation. *)
Definition request_billing_email (e : Email) : M Core unit :=
  post_email e (BillingEmailDeliveryError "Billing e-mail delivery is unavailable").

Definition admin_of (tenant_id : N) (m : Member.TenantMemberEntity) : bool :=
  N.eqb (Member.tenant_id m) tenant_id && TenantService.is_admin m &&
  TenantService.not_deleted m.

Definition _notify_billing_event (event_id event_type : string) (tenant_id : option N)
    (resource : json) (previous_status previous_product : option string) : M Core unit :=
  match tenant_id with
  | None => mret tt
  | Some tenant_id =>
      found ← get (R := Tenant.TenantEntity) tenant_id;
      match found with
      | None => mret tt
      | Some tenant =>
          status ← lift (jget_or resource "status" (JStr ""));
          current_product ← lift (_product_code resource);
          message ← lift (_billing_message (Tenant.default_locale tenant) event_type
            (py_str status) previous_status previous_product (Some current_product));
          match message with
          | None => mret tt
          | Some (subject, body, eyebrow) =>
              admins ← columns (admin_of tenant_id);
              for_each (λ m,
                let recipient := Member.auth_user_id m in
                let recipient_key := take_str 16 (sha256_hex recipient) in
                text ← lift (py_format body [("tenant", Tenant.name tenant)]);
                request_billing_email (mkEmail recipient subject text
                  ("stripe:" +:+ event_id +:+ ":" +:+ recipient_key) eyebrow)) admins
          end
      end
  end.

(** [except BillingEmailDeliveryError: logger.exception(...)] *)
Definition undelivered_is_logged (m : M Core unit) : M Core unit :=
  try_catch m (λ e, match e with
                    | BillingEmailDeliveryError _ => mret tt
                    | _ => raise e
                    end).

(** ** Synchronisation with the provider *)
Definition synchronize_account (tenant_id : N) (subject : string) : M Core BillingAccountRead :=
  _get_provider;;
  notification ← transaction (
    TenantService.require_role tenant_id subject (Some ["admin"]) true;;
    i ← _account_entity tenant_id;
    a ← deref (R := Account.BillingAccountEntity) i;
    raise_if (negb (opt_nonempty (Account.provider_subscription_id a)))
      (workflow_error "Stripe subscription is not configured" 409);;
    let previous_status := Account.status a in
    let previous_product := _normalize_product_code (jopt_str (Account.current_product_code a)) in
    fetched ← try_catch (
      resource ← retrieve_subscription (from_option id "" (Account.provider_subscription_id a));
      business ←
        (if opt_nonempty (Account.provider_customer_id a)
         then p ← lift (_product_code resource); mret (mem_str p BUSINESS_PRODUCT_CODES)
         else mret false);
      identity ←
        (if (business : bool)
         then v ← retrieve_customer_business_identity
                    (from_option id "" (Account.provider_customer_id a));
              mret (Some v)
         else mret None);
      mret (resource, identity)) (provider_failure 502);
    _apply_event "customer.subscription.updated" fetched.1 (Some tenant_id) None "" fetched.2;;
    a ← deref (R := Account.BillingAccountEntity) i;
    let current_product := _normalize_product_code (jopt_str (Account.current_product_code a)) in
    mret (if String.eqb current_product previous_product then None
          else Some ("sync:" +:+ from_option id "None" (Account.provider_subscription_id a)
                       +:+ ":" +:+ current_product,
                     fetched.1, previous_status, previous_product)));
  match notification with
  | None => mret tt
  | Some (event_id, resource, previous_status, previous_product) =>
      undelivered_is_logged (read_session (
        _notify_billing_event event_id "customer.subscription.updated" (Some tenant_id) resource
          (Some previous_status) (Some previous_product)))
  end;;
  _account tenant_id subject ["admin"].

(** ** The webhook *)
Definition stripe_event (event_id : string) (e : BillingEvent.BillingEventEntity) : bool :=
  String.eqb (BillingEvent.provider e) "stripe" &&
  String.eqb (BillingEvent.provider_event_id e) event_id.

Definition terminal (status : string) : bool := mem_str status ["processed"; "ignored_stale"].

(** The tenant of an event: the metadata of the resource, or the account of its
    customer. *)
Definition event_tenant (resource : json) : M Core (option N) :=
  tenant_id ← lift (_tenant_id resource);
  match tenant_id with
  | Some t => mret (Some t)
  | None =>
      customer ← lift (jget resource "customer");
      if negb (truthy customer) then mret None
      else read_session (
        rows ← columns (λ a, bool_decide
          (Account.provider_customer_id a = Some (py_str customer)));
        mret (Account.tenant_id <$> head rows))
  end.

(** The identity of the customer, for events that put a tenant on a business
    plan. *)
Definition event_identity (event_type : string) (resource : json) (tenant_id : option N)
    : M Core (option ProviderBusinessIdentity) :=
  match tenant_id with
  | None => mret None
  | Some _ =>
      customer ← lift (jget resource "customer");
      if negb (truthy customer) ||
         negb (mem_str event_type ["checkout.session.completed"; "customer.subscription.created";
                                   "customer.subscription.updated"])
      then mret None
      else
        product ← lift (_product_code resource);
        if negb (mem_str product BUSINESS_PRODUCT_CODES) then mret None
        else
          customer ← lift (jindex resource "customer");
          v ← try_catch (retrieve_customer_business_identity (py_str customer))
                (provider_failure 503);
          mret (Some v)
  end.

Definition sanitized_event (event_type resource_id : string) (resource : json)
    (tenant_id : option N) (event_created_at : Z) : result json :=
  customer ← jget resource "customer";
  subscription ← jget resource "subscription";
  status ← jget resource "status";
  cancel_at_period_end ← jget resource "cancel_at_period_end";
  cancel_at ← jget resource "cancel_at";
  price ← _subscription_price_id resource;
  Ok (JObj
    [("type", JStr event_type); ("resource_id", JStr resource_id);
     ("tenant_id", jopt_str (uuid_str <$> tenant_id));
     ("customer_id", customer); ("subscription_id", subscription); ("status", status);
     ("cancel_at_period_end", cancel_at_period_end); ("cancel_at", cancel_at);
     ("price_id", jopt_str price);
     ("event_created_at", JStr (isoformat event_created_at))]).

(** First transaction: the event is recorded as received. *)
Definition record_event (payload event_id event_type resource_id : string)
    (tenant_id : option N) (sanitized : json) : M Core unit :=
  transaction (
    i ← uuid4; now ← utc_now;
    add (BillingEvent.make i tenant_id "stripe" event_id event_type resource_id
           (sha256_hex payload) sanitized "received" None None now None)).

(** Second transaction: the event is applied; [true] when it already was. *)
Definition process_event (event_id event_type : string) (resource : json)
    (tenant_id : option N) (event_created_at : Z)
    (identity : option ProviderBusinessIdentity) : M Core bool :=
  transaction (
    found ← scalar (stripe_event event_id);
    event ← some_or found (workflow_error "Persisted billing event was not found" 500);
    if terminal (BillingEvent.status event) then mret true
    else
      previous ← match tenant_id with
                 | Some t => i ← _account_entity t;
                             a ← deref (R := Account.BillingAccountEntity) i;
                             mret (Some a)
                 | None => mret None
                 end;
      let previous_product :=
        (λ a, _normalize_product_code (jopt_str (Account.current_product_code a))) <$> previous in
      applied ← _apply_event event_type resource tenant_id (Some event_created_at) event_id
                  identity;
      when applied (undelivered_is_logged
        (_notify_billing_event event_id event_type tenant_id resource
           (Account.status <$> previous) previous_product));;
      now ← utc_now;
      assign (BillingEvent.id event) (λ e,
        e <| BillingEvent.status := if (applied : bool) then "processed" else "ignored_stale" |>
          <| BillingEvent.processed_at := Some now |>
          <| BillingEvent.error_code := None |>);;
      mret false).

(** Third transaction, after a failure: the event is marked for a retry. *)
Definition mark_failed (event_id error_code : string) : M Core unit :=
  transaction (
    found ← scalar (stripe_event event_id);
    match found with
    | Some event =>
        assign (BillingEvent.id event) (λ e,
          e <| BillingEvent.status := "failed" |>
            <| BillingEvent.error_code := Some error_code |>)
    | None => mret tt
    end).

(** [_tenant_id], [_event_created_at] and the rest of what is read from the event
    before anything is stored. *)
Record delivery := mkDelivery {
  d_type : string; d_resource : json; d_resource_id : string; d_tenant : option N;
  d_created_at : Z; d_identity : option ProviderBusinessIdentity; d_sanitized : json
}.

Definition construct_event (payload signature : string) : M Core json :=
  match construct_webhook_event payload signature with
  | Ok event => mret event
  | Err e =>
      if bool_decide (e = InvalidWebhookSignatureError)
      then raise (workflow_error "Invalid Stripe webhook signature" 400)
      else provider_failure 503 e
  end.

Definition read_delivery (event : json) : M Core delivery :=
  type_value ← lift (jindex event "type");
  let event_type := py_str type_value in
  data ← lift (jindex event "data");
  resource ← lift (jindex data "object");
  resource_value ← lift (jget_or resource "id" (JStr "unknown"));
  let resource_id := py_str resource_value in
  lift (_tenant_id resource);;
  now ← utc_now;
  event_created_at ← lift (_event_created_at now event);
  tenant_id ← event_tenant resource;
  identity ← event_identity event_type resource tenant_id;
  sanitized ← lift (sanitized_event event_type resource_id resource tenant_id
                      event_created_at);
  mret (mkDelivery event_type resource resource_id tenant_id event_created_at identity sanitized).

(** [True] when another delivery recorded the event first. *)
Definition record_once (payload event_id : string) (d : delivery) : M Core bool :=
  try_catch
    (record_event payload event_id (d_type d) (d_resource_id d) (d_tenant d) (d_sanitized d);;
     mret false)
    (λ e, match e with IntegrityError => mret true | _ => raise e end).

Definition process_or_mark (event_id : string) (d : delivery) : M Core BillingWebhookRead :=
  already ← try_catch
    (process_event event_id (d_type d) (d_resource d) (d_tenant d) (d_created_at d)
       (d_identity d))
    (λ e, mark_failed event_id (exn_name e);; raise e);
  mret (mkBillingWebhookRead true already).

Definition existing_status (event_id : string) : M Core (option string) :=
  rows ← read_session (columns (stripe_event event_id));
  mret (BillingEvent.status <$> head rows).

Definition receive_webhook (payload signature : string) : M Core BillingWebhookRead :=
  _get_provider;;
  event ← construct_event payload signature;
  id_value ← lift (jindex event "id");
  let event_id := py_str id_value in
  existing ← existing_status event_id;
  if match existing with Some st => terminal st | None => false end
  then mret (mkBillingWebhookRead true true)
  else
    d ← read_delivery event;
    raced ← (if bool_decide (existing = None) then record_once payload event_id d
             else mret false);
    if (raced : bool) then mret (mkBillingWebhookRead true true)
    else process_or_mark event_id d.
End service.
End BillingService.
