(* ===== verification/BillingFacts.v ===== *)
(** * The webhook: theorems

    At-most-once processing, atomicity of failures and the life of a recorded
    event. *)
From S2P Require Import Prelude.
From S2P Require Import PyText.
From S2P Require Import Json.
From S2P Require Import DateTime.
From S2P Require Import Orm.
From S2P Require Import WorkflowSchema.
From S2P Require Import CoreDb.
From S2P Require Import Identity.
From S2P Require Import BillingPolicy.
From S2P Require Import Tenant.
From S2P Require Import Billing.
From S2P Require Import TenantFacts.
Import BillingService.

Local Open Scope Z_scope.

(** ** Frames of the operations of an event *)
Section frames.
Context `{Env} `{BillingProvider} `{!BillingProviderLaws}.

(** A projection of the state that applying an event leaves alone. *)
Class Untouched {T} (f : Core → T) : Prop := {
  untouched_flush s : f (s <| Core.db ::= flush_tables |>) = f s;
  untouched_draws s : f (s <| Core.draws ::= N.succ |>) = f s;
  untouched_accounts s t : f (s <| Core.db ::= λ d, d <| Db.billing_accounts := t |> |>) = f s;
  untouched_payments s t : f (s <| Core.db ::= λ d, d <| Db.billing_payments := t |> |>) = f s;
  untouched_tenants s t : f (s <| Core.db ::= λ d, d <| Db.tenants := t |> |>) = f s;
  untouched_members s t : f (s <| Core.db ::= λ d, d <| Db.tenant_members := t |> |>) = f s;
  untouched_audit s t : f (s <| Core.db ::= λ d, d <| Db.audit_events := t |> |>) = f s;
  untouched_outbox s l : f (s <| Core.outbox := l |>) = f s
}.

#[export] Instance untouched_events : Untouched event_rows.
Proof. by split. Qed.
#[export] Instance untouched_clock : Untouched Core.clock.
Proof. by split. Qed.
End frames.

Section apply_frames.
Context `{Env} {T} (f : Core → T) `{!Untouched f}.

Lemma touch_uuid4 : preserves (same f) uuid4.
Proof. apply preserves_uuid4. intros s. apply untouched_draws. Qed.
Lemma touch_draw : preserves (same f) draw.
Proof. apply preserves_draw. intros s. apply untouched_draws. Qed.
Lemma touch_flush : preserves (same f) flush.
Proof. apply preserves_flush; [apply _|]. intros s. apply untouched_flush. Qed.
Lemma touch_account k g :
  preserves (same f) (assign (R := Account.BillingAccountEntity) k g : M Core unit).
Proof. apply preserves_modify. intros s. apply untouched_accounts. Qed.
Lemma touch_new_account a :
  preserves (same f) (add (R := Account.BillingAccountEntity) a : M Core unit).
Proof. apply preserves_modify. intros s. apply untouched_accounts. Qed.
Lemma touch_payment k g :
  preserves (same f) (assign (R := Payment.BillingPaymentEntity) k g : M Core unit).
Proof. apply preserves_modify. intros s. apply untouched_payments. Qed.
Lemma touch_new_payment a :
  preserves (same f) (add (R := Payment.BillingPaymentEntity) a : M Core unit).
Proof. apply preserves_modify. intros s. apply untouched_payments. Qed.
Lemma touch_tenant k g :
  preserves (same f) (assign (R := Tenant.TenantEntity) k g : M Core unit).
Proof. apply preserves_modify. intros s. apply untouched_tenants. Qed.
Lemma touch_member k g :
  preserves (same f) (assign (R := Member.TenantMemberEntity) k g : M Core unit).
Proof. apply preserves_modify. intros s. apply untouched_members. Qed.
Lemma touch_new_audit a :
  preserves (same f) (add (R := Audit.AuditEventEntity) a : M Core unit).
Proof. apply preserves_modify. intros s. apply untouched_audit. Qed.
Lemma touch_email e x : preserves (same f) (post_email e x).
Proof.
  unfold post_email. destruct (email_accepted e); [|preserve].
  apply preserves_modify. intros s. apply untouched_outbox.
Qed.
End apply_frames.
#[export] Hint Resolve touch_uuid4 touch_draw touch_flush touch_account touch_new_account
  touch_payment touch_new_payment touch_tenant touch_member touch_new_audit touch_email
  : preserve.

Section event_frames.
Context `{Env} {T} (f : Core → T) `{!Untouched f}.

Lemma account_entity_frame tenant_id : preserves (same f) (_account_entity tenant_id).
Proof. unfold _account_entity, set_account. preserve. Qed.
Lemma apply_event_frame ty res t at_ id_ ident :
  preserves (same f) (_apply_event ty res t at_ id_ ident).
Proof.
  unfold _apply_event, apply_invoice, apply_subscription, _record_payment,
    _apply_business_identity, TenantService.apply_billing_business_identity,
    TenantService.reconcile_single_member_plan, TenantService.set_status, TenantService._audit,
    TenantService.member_limit, protect_cnpj, set_account, _account_entity, set_account.
  preserve.
Qed.
Lemma notify_frame id_ ty t res st pr :
  preserves (same f) (undelivered_is_logged (_notify_billing_event id_ ty t res st pr)).
Proof.
  unfold undelivered_is_logged, _notify_billing_event, request_billing_email. preserve.
Qed.
End event_frames.
#[export] Hint Resolve account_entity_frame apply_event_frame notify_frame : preserve.

(** ** The three transactions of an event *)
Section transactions.
Context `{Env} `{BillingProvider}.

(** The status a processed event ends with. *)
Definition settle (applied : bool) (now : Z) (e : BillingEvent.BillingEventEntity) :=
  e <| BillingEvent.status := if applied then "processed" else "ignored_stale" |>
    <| BillingEvent.processed_at := Some now |>
    <| BillingEvent.error_code := None |>.
Definition fail_with (error_code : string) (e : BillingEvent.BillingEventEntity) :=
  e <| BillingEvent.status := "failed" |> <| BillingEvent.error_code := Some error_code |>.

Lemma process_event_ok id_ ty res t at_ ident b s s' :
  consistent s →
  process_event id_ ty res t at_ ident s = (Ok b, s') →
  ∃ e, List.find (stripe_event id_) (event_rows s) = Some e ∧
    if terminal (BillingEvent.status e) then b = true ∧ s' = s
    else b = false ∧ ∃ applied, event_rows s' =
           alter_rows (settle applied (Core.clock s)) (BillingEvent.id e) (event_rows s).
Proof.
  intros Hs Hrun. unfold process_event in Hrun. apply transaction_ok in Hrun as (s1 & Hrun & Hf).
  rewrite (bind_step_ok _ _ _ _ _ (scalar_event s Hs _)) in Hrun.
  destruct (List.find _ _) as [e|] eqn:Hfind; [|by run_step; run_step].
  run_step. run_step. simplify_eq. exists a. split; [done|].
  destruct (terminal (BillingEvent.status a)) eqn:Hterm.
  - run_step. split; [done|]. rewrite (flush_same _ Hs) in Hf. by injection Hf.
  - apply bind_ok in Hrun as (prev & s2 & Hprev & Hrun).
    apply bind_ok in Hrun as (applied & s3 & Happly & Hrun).
    apply bind_ok in Hrun as (u & s4 & Hnotify & Hrun).
    assert (Hc : Core.clock s4 = Core.clock s ∧ event_rows s4 = event_rows s).
    { split; [set (f := Core.clock)|set (f := event_rows)];
        (assert (f s4 = f s3) by (unfold f; by frame f Hnotify));
        (assert (f s3 = f s2) by (unfold f; by frame f Happly));
        (assert (f s2 = f s) by (unfold f; destruct t; by frame f Hprev)); congruence. }
    destruct Hc as [Hclock Hrows]. repeat run_step.
    injection Hrun0 as <- <-. injection Hrun1 as _ <-. split; [done|]. exists applied.
    rewrite (flush_event_rows _ _ Hf). rewrite <- Hrows, <- Hclock. reflexivity.
Qed.

(** An event that already has a terminal status is left alone. *)
Lemma process_event_terminal id_ ty res t at_ ident s e :
  consistent s → List.find (stripe_event id_) (event_rows s) = Some e →
  terminal (BillingEvent.status e) = true →
  process_event id_ ty res t at_ ident s = (Ok true, s).
Proof.
  intros Hs Hfind Hterm. unfold process_event. apply transaction_ok. exists s.
  split; [|by apply flush_same].
  rewrite (bind_step_ok _ _ _ _ _ (scalar_event s Hs _)), Hfind.
  unfold some_or. rewrite (bind_step_ok _ _ s e s) by reflexivity. by rewrite Hterm.
Qed.

Lemma process_event_err id_ ty res t at_ ident s e s' :
  consistent s →
  process_event id_ ty res t at_ ident s = (Err e, s') →
  Core.db s' = Core.db s ∧
  (∀ ev, List.find (stripe_event id_) (event_rows s) = Some ev →
         terminal (BillingEvent.status ev) = false).
Proof.
  intros Hs Hrun. split; [by apply transaction_err_db in Hrun|].
  intros ev Hfind. destruct (terminal (BillingEvent.status ev)) eqn:Hterm; [|done].
  by rewrite (process_event_terminal _ _ _ _ _ _ _ _ Hs Hfind Hterm) in Hrun.
Qed.

Lemma mark_failed_ok id_ code s r s' :
  consistent s → mark_failed id_ code s = (r, s') →
  business_rows s' = business_rows s ∧
  (event_rows s' = event_rows s ∧ r ≠ Ok tt ∨
   r = Ok tt ∧
   event_rows s' = match List.find (stripe_event id_) (event_rows s) with
                   | Some e => alter_rows (fail_with code) (BillingEvent.id e) (event_rows s)
                   | None => event_rows s
                   end).
Proof.
  intros Hs Hrun. destruct r as [[]|e].
  - apply transaction_ok in Hrun as (s1 & Hrun & Hf).
    rewrite (bind_step_ok _ _ _ _ _ (scalar_event s Hs _)) in Hrun.
    rewrite (flush_business_rows _ _ Hf), (flush_event_rows _ _ Hf).
    destruct (List.find _ _) as [ev|]; injection Hrun as <-; auto.
  - apply transaction_err_db in Hrun. unfold business_rows, event_rows, tenant_rows,
      member_rows, account_rows, payment_rows, audit_rows. rewrite Hrun. auto.
Qed.

Lemma record_event_ok payload id_ ty rid t js u s s' :
  consistent s → record_event payload id_ ty rid t js s = (Ok u, s') →
  business_rows s' = business_rows s ∧
  ∃ e, event_rows s' = event_rows s ++ [e] ∧ BillingEvent.status e = "received" ∧
       stripe_event id_ e = true.
Proof.
  intros Hs Hrun. apply transaction_ok in Hrun as (s1 & Hrun & Hf).
  rewrite (flush_business_rows _ _ Hf), (flush_event_rows _ _ Hf).
  injection Hrun as _ <-. split; [done|]. eexists. split; [reflexivity|]. split; [done|].
  unfold stripe_event. simpl. by rewrite String.eqb_refl.
Qed.
End transactions.

(** ** One delivery *)
Section delivery.
Context `{Env} `{BillingProvider} `{!BillingProviderLaws}.

Lemma get_provider_db : preserves (same Core.db) _get_provider.
Proof. unfold _get_provider, provider_failure. preserve. Qed.

Lemma get_provider_available s u s' :
  _get_provider s = (Ok u, s') → provider_available = Ok tt.
Proof.
  intros [Hp|(e & s1 & _ & Hp)]%try_catch_ok.
  - apply lift_ok in Hp as [Hp _]. by destruct u.
  - unfold provider_failure in Hp. by destruct (provider_error e).
Qed.

Lemma provider_db {A} (m : M Core A) : preserves (same core_view) m → preserves (same Core.db) m.
Proof. intros Hm s. specialize (Hm s). unfold same, core_view in *. congruence. Qed.

Lemma event_tenant_db res : preserves (same Core.db) (event_tenant res).
Proof. unfold event_tenant. preserve. Qed.
Lemma event_identity_db ty res t : preserves (same Core.db) (event_identity ty res t).
Proof.
  unfold event_identity, provider_failure. preserve. apply provider_db, retrieve_identity_view.
Qed.

Lemma construct_event_db p g : preserves (same Core.db) (construct_event p g).
Proof. unfold construct_event, provider_failure. preserve. Qed.
Lemma read_delivery_db ev : preserves (same Core.db) (read_delivery ev).
Proof. unfold read_delivery. preserve; [apply event_tenant_db | apply event_identity_db]. Qed.

Lemma existing_status_run id_ s :
  consistent s →
  existing_status id_ s =
    (Ok (BillingEvent.status <$> List.find (stripe_event id_) (event_rows s)), s).
Proof.
  intros Hs. unfold existing_status, read_session.
  erewrite bind_step_ok.
  2:{ rewrite (columns_event s Hs), rollback_same. reflexivity. }
  by rewrite head_filter.
Qed.

(** The key of the event of a delivery. *)
Definition delivered_id (payload signature : string) : option string :=
  match construct_webhook_event payload signature with
  | Ok event => match jindex event "id" with Ok v => Some (py_str v) | Err _ => None end
  | Err _ => None
  end.

(** How a delivery runs: it stops before anything is stored; or its event is on
    record, perhaps since just now, and is processed. *)
Inductive delivery_run (payload signature : string) (s : Core)
    (r : result BillingWebhookRead) (s' : Core) : Prop :=
| delivery_failed_early e :
    r = Err e → Core.db s' = Core.db s → delivery_run payload signature s r s'
| delivery_duplicate :
    r = Ok (mkBillingWebhookRead true true) → Core.db s' = Core.db s →
    delivery_run payload signature s r s'
| delivery_processed id_ d s1 :
    provider_available = Ok tt → delivered_id payload signature = Some id_ →
    consistent s1 → business_rows s1 = business_rows s →
    (event_rows s1 = event_rows s ∨
     ∃ e, event_rows s1 = event_rows s ++ [e] ∧ BillingEvent.status e = "received" ∧
          stripe_event id_ e = true ∧ List.find (stripe_event id_) (event_rows s) = None) →
    match List.find (stripe_event id_) (event_rows s) with
    | Some e => terminal (BillingEvent.status e) = false
    | None => True
    end →
    process_or_mark id_ d s1 = (r, s') →
    delivery_run payload signature s r s'.

Lemma business_rows_db s s' : Core.db s' = Core.db s → business_rows s' = business_rows s.
Proof.
  intros E. unfold business_rows, tenant_rows, member_rows, account_rows, payment_rows,
    audit_rows. by rewrite E.
Qed.
Lemma event_rows_db s s' : Core.db s' = Core.db s → event_rows s' = event_rows s.
Proof. intros E. unfold event_rows. by rewrite E. Qed.

(** A step that stores nothing: either the run ends there, or it goes on. *)
Lemma quiet_bind {A B} (m : M Core A) (k : A → M Core B) s r s' :
  preserves (same Core.db) m → (m ≫= k) s = (r, s') →
  (∃ e, r = Err e ∧ Core.db s' = Core.db s) ∨
  ∃ a s1, m s = (Ok a, s1) ∧ Core.db s1 = Core.db s ∧ k a s1 = (r, s').
Proof.
  intros Hm Hrun. pose proof (Hm s) as Hdb. unfold same in Hdb.
  destruct (m s) as [[a|e] s1] eqn:E.
  - right. rewrite (bind_step_ok _ _ _ _ _ E) in Hrun. eauto.
  - left. rewrite (bind_step_err _ _ _ _ _ E) in Hrun. injection Hrun as <- <-. eauto.
Qed.

Lemma receive_webhook_run payload signature s r s' :
  consistent s → receive_webhook payload signature s = (r, s') →
  delivery_run payload signature s r s'.
Proof.
  intros Hs Hrun. unfold receive_webhook in Hrun.
  apply quiet_bind in Hrun as [(e & -> & ?)|(u & s1 & Hprov & Hdb1 & Hrun)];
    [by eapply delivery_failed_early| |apply get_provider_db].
  assert (Hav : provider_available = Ok tt) by (by eapply get_provider_available).
  apply quiet_bind in Hrun as [(e & -> & ?)|(ev & s2 & Hev & Hdb2 & Hrun)];
    [eapply delivery_failed_early; [reflexivity|congruence]| |apply construct_event_db].
  apply quiet_bind in Hrun as [(e & -> & ?)|(v & s3 & Hv & Hdb3 & Hrun)];
    [eapply delivery_failed_early; [reflexivity|congruence]| |preserve].
  assert (Hs3 : consistent s3) by (apply (consistent_db s); [congruence|done]).
  assert (Hid : delivered_id payload signature = Some (py_str v)).
  { unfold delivered_id. unfold construct_event in Hev.
    destruct (construct_webhook_event payload signature) as [ev'|e].
    - injection Hev as -> _. by injection Hv as -> _.
    - unfold provider_failure in Hev. destruct (bool_decide _), (provider_error e); done. }
  rewrite (bind_step_ok _ _ _ _ _ (existing_status_run _ _ Hs3)) in Hrun.
  rewrite (event_rows_db s s3) in Hrun by congruence.
  destruct (List.find (stripe_event (py_str v)) (event_rows s)) as [old|] eqn:Hfind;
    cbn [fmap option_fmap option_map] in Hrun.
  - destruct (terminal (BillingEvent.status old)) eqn:Hterm.
    { injection Hrun as <- <-. apply delivery_duplicate; congruence. }
    apply quiet_bind in Hrun as [(e & -> & ?)|(d & s4 & _ & Hdb4 & Hrun)];
      [eapply delivery_failed_early; [reflexivity|congruence]| |apply read_delivery_db].
    rewrite bool_decide_false in Hrun by done.
    apply (delivery_processed _ _ _ _ _ (py_str v) d s4); try done.
    + apply (consistent_db s); [congruence|done].
    + apply business_rows_db. congruence.
    + left. apply event_rows_db. congruence.
    + by rewrite Hfind.
  - apply quiet_bind in Hrun as [(e & -> & ?)|(d & s4 & _ & Hdb4 & Hrun)];
      [eapply delivery_failed_early; [reflexivity|congruence]| |apply read_delivery_db].
    assert (Hs4 : consistent s4) by (apply (consistent_db s); [congruence|done]).
    rewrite bool_decide_true in Hrun by done.
    destruct (record_event payload (py_str v) (d_type d) (d_resource_id d) (d_tenant d)
                (d_sanitized d) s4) as [[w|e] s5] eqn:Hrec.
    + destruct (record_event_ok _ _ _ _ _ _ _ _ _ Hs4 Hrec) as (Hbus & ev1 & Hrows & Hst & Hse).
      assert (Hs5 : consistent s5) by (by apply transaction_ok in Hrec as (? & _ & ?%flush_consistent)).
      rewrite (bind_step_ok _ _ _ false s5) in Hrun.
      2:{ unfold record_once, try_catch. by rewrite (bind_step_ok _ _ _ _ _ Hrec). }
      apply (delivery_processed _ _ _ _ _ (py_str v) d s5); try done.
      * rewrite Hbus. apply business_rows_db. congruence.
      * right. exists ev1. rewrite Hrows, (event_rows_db s s4) by congruence. done.
      * by rewrite Hfind.
    + assert (Hdb5 : Core.db s5 = Core.db s).
      { apply transaction_err_db in Hrec. congruence. }
      assert (Honce : record_once payload (py_str v) d s4 =
        (match e with IntegrityError => Ok true | _ => Err e end, s5)).
      { unfold record_once, try_catch. rewrite (bind_step_err _ _ _ _ _ Hrec).
        by destruct e. }
      destruct e; (rewrite (bind_step_err _ _ _ _ _ Honce) in Hrun ||
                   rewrite (bind_step_ok _ _ _ _ _ Honce) in Hrun); injection Hrun as <- <-;
        solve [by eapply delivery_failed_early | by apply delivery_duplicate].
Qed.

Lemma process_or_mark_run id_ d s r s' :
  consistent s → process_or_mark id_ d s = (r, s') →
  (∃ b, r = Ok (mkBillingWebhookRead true b) ∧
        process_event id_ (d_type d) (d_resource d) (d_tenant d) (d_created_at d)
          (d_identity d) s = (Ok b, s')) ∨
  (∃ e, r = Err e ∧ business_rows s' = business_rows s ∧
        (∀ ev, List.find (stripe_event id_) (event_rows s) = Some ev →
               terminal (BillingEvent.status ev) = false) ∧
        (event_rows s' = event_rows s ∨
         event_rows s' = match List.find (stripe_event id_) (event_rows s) with
                         | Some ev => alter_rows (fail_with (exn_name e)) (BillingEvent.id ev)
                                        (event_rows s)
                         | None => event_rows s
                         end)).
Proof.
  intros Hs Hrun. unfold process_or_mark in Hrun.
  destruct (process_event _ _ _ _ _ _ s) as [[b|e] s1] eqn:E.
  - left. exists b. rewrite (bind_step_ok _ _ _ b s1) in Hrun by (by unfold try_catch; rewrite E).
    by injection Hrun as <- <-.
  - right. destruct (process_event_err _ _ _ _ _ _ _ _ _ Hs E) as [Hdb Hterm].
    assert (Hs1 : consistent s1) by (by apply (consistent_db s)).
    destruct (mark_failed id_ (exn_name e) s1) as [[[]|e'] s2] eqn:Em.
    + rewrite (bind_step_err _ _ _ e s2) in Hrun.
      2:{ unfold try_catch. rewrite E. by rewrite (bind_step_ok _ _ _ _ _ Em). }
      injection Hrun as <- <-. exists e.
      destruct (mark_failed_ok _ _ _ _ _ Hs1 Em) as (Hb & [[_ []]|[_ Hrows]]); [done|].
      rewrite (business_rows_db _ _ Hdb) in Hb. rewrite (event_rows_db _ _ Hdb) in Hrows. auto.
    + rewrite (bind_step_err _ _ _ e' s2) in Hrun.
      2:{ unfold try_catch. rewrite E. by rewrite (bind_step_err _ _ _ _ _ Em). }
      injection Hrun as <- <-. exists e'.
      destruct (mark_failed_ok _ _ _ _ _ Hs1 Em) as (Hb & [[Hrows _]|[[=] _]]).
      rewrite (business_rows_db _ _ Hdb) in Hb. rewrite (event_rows_db _ _ Hdb) in Hrows. auto.
Qed.

Lemma webhook_consistent payload signature s :
  consistent s → consistent (receive_webhook payload signature s).2.
Proof.
  intros Hs. destruct (receive_webhook payload signature s) as [r s'] eqn:Hrun.
  apply receive_webhook_run in Hrun as
    [e _ Hdb | _ Hdb | id_ d s1 _ _ Hs1 _ _ _ Hrun]; [by apply (consistent_db s)..| |done].
  assert (Hp : preserves stays_consistent (process_or_mark id_ d)).
  { unfold process_or_mark, process_event, mark_failed. preserve. }
  apply (preserves_run _ _ _ _ _ Hp) in Hrun. by apply Hrun.
Qed.
End delivery.

(** ** What deliveries do to the record *)
Section record.
Context `{Env} `{BillingProvider} `{!BillingProviderLaws}.

(** Any number of deliveries, genuine or forged, successful or not. *)
Inductive deliveries : Core → Core → Prop :=
| no_delivery s : deliveries s s
| one_more payload signature s s' :
    deliveries (receive_webhook payload signature s).2 s' → deliveries s s'.

(** The life of a recorded event. *)
Inductive event_transition : string → string → Prop :=
| event_unchanged st : event_transition st st
| event_settled st st' : terminal st = false → terminal st' = true → event_transition st st'
| event_failed st : terminal st = false → event_transition st "failed".

Definition event_keeps (e e' : BillingEvent.BillingEventEntity) : Prop :=
  BillingEvent.id e' = BillingEvent.id e ∧
  event_transition (BillingEvent.status e) (BillingEvent.status e') ∧
  (terminal (BillingEvent.status e) = true → e' = e).

Lemma event_keeps_refl e : event_keeps e e.
Proof. split_and!; [done|constructor|done]. Qed.
Lemma event_keeps_trans e1 e2 e3 : event_keeps e1 e2 → event_keeps e2 e3 → event_keeps e1 e3.
Proof.
  intros (Hi & Ht & Hk) (Hi' & Ht' & Hk').
  destruct (terminal (BillingEvent.status e1)) eqn:E1.
  { specialize (Hk eq_refl). subst e2. split_and!; auto. }
  split; [congruence|split; [|congruence]].
  destruct Ht' as [|? ? ? ?|]; [done| |].
  - inversion Ht; subst; [by apply event_settled|by apply event_settled|by apply event_settled].
  - inversion Ht; subst; by apply event_failed.
Qed.

(** Rewriting the event an operation found, when it was not settled. *)
Lemma alter_found_keeps f P rows e0 :
  keeps_id f → List.find P rows = Some e0 → keys_distinct rows →
  terminal (BillingEvent.status e0) = false →
  event_transition (BillingEvent.status e0) (BillingEvent.status (f e0)) →
  ∀ e, In e rows → ∃ e', In e' (alter_rows f (BillingEvent.id e0) rows) ∧ event_keeps e e'.
Proof.
  intros Hf Hfind Hd Hterm Htr e He.
  exists (if has_id (BillingEvent.id e0) e then f e else e). split.
  { by apply (in_map (λ r, if has_id (BillingEvent.id e0) r then f r else r)). }
  destruct (has_id (BillingEvent.id e0) e) eqn:E; [|apply event_keeps_refl].
  apply List.find_some in Hfind as [Hin _]. apply has_id_true in E.
  assert (e = e0) as ->.
  { pose proof (find_row_in _ _ Hd He) as Fe. rewrite E in Fe.
    pose proof (find_row_in _ _ Hd Hin) as F0.
    change (ent_id e0) with (BillingEvent.id e0) in F0.
    congruence. }
  split_and!; [apply Hf|done|congruence].
Qed.

Lemma webhook_event_keeps payload signature s :
  consistent s →
  ∀ e, In e (event_rows s) →
    ∃ e', In e' (event_rows (receive_webhook payload signature s).2) ∧ event_keeps e e'.
Proof.
  intros Hs e He. destruct (receive_webhook payload signature s) as [r s'] eqn:Hrun.
  assert (Hsame : ∀ s2, event_rows s2 = event_rows s →
    ∃ e', In e' (event_rows s2) ∧ event_keeps e e').
  { intros s2 ->. exists e. split; [done|apply event_keeps_refl]. }
  apply (receive_webhook_run _ _ _ _ _ Hs) in Hrun as
    [e1 _ Hdb | _ Hdb | id_ d s1 _ _ Hs1 _ Hrows _ Hrun];
    [by apply Hsame, event_rows_db..|]. simpl.
  assert (He1 : In e (event_rows s1)).
  { destruct Hrows as [->|(e1 & -> & _)]; [done|]. apply in_app_iff. by left. }
  apply (process_or_mark_run _ _ _ _ _ Hs1) in Hrun as
    [(b & _ & Hp)|(x & _ & _ & Hterm & [-> | ->])].
  - apply (process_event_ok _ _ _ _ _ _ _ _ _ Hs1) in Hp as (e0 & Hfind & Hp).
    destruct (terminal (BillingEvent.status e0)) eqn:Hterm.
    + destruct Hp as [_ ->]. exists e. split; [done|apply event_keeps_refl].
    + destruct Hp as (_ & applied & ->).
      eapply alter_found_keeps; [done|exact Hfind|by apply events_distinct|done| |done].
      apply event_settled; [done|]. by destruct applied.
  - exists e. split; [done|apply event_keeps_refl].
  - destruct (List.find (stripe_event id_) (event_rows s1)) as [e0|] eqn:Hfind.
    + eapply alter_found_keeps; [done|exact Hfind|by apply events_distinct|by apply Hterm| |done].
      apply event_failed. by apply Hterm.
    + exists e. split; [done|apply event_keeps_refl].
Qed.
End record.

(** A recorded event lives by its state machine, whatever deliveries follow:
    it moves from received or failed to processed, ignored_stale or failed, and
    once processed or ignored_stale its record never changes again. *)
Theorem events_settle_once `{Env} `{BillingProvider} `{!BillingProviderLaws} (s s' : Core) :
  consistent s → deliveries s s' →
  consistent s' ∧
  ∀ e, In e (event_rows s) → ∃ e', In e' (event_rows s') ∧ event_keeps e e'.
Proof.
  intros Hs Hd. revert Hs. induction Hd as [s|payload signature s s' Hd IH]; intros Hs.
  - split; [done|]. intros e He. exists e. split; [done|apply event_keeps_refl].
  - destruct (IH (webhook_consistent _ _ _ Hs)) as [Hs' Hkeep]. split; [done|].
    intros e He. destruct (webhook_event_keeps payload signature s Hs e He) as (e1 & He1 & Hk1).
    destruct (Hkeep e1 He1) as (e2 & He2 & Hk2). exists e2. split; [done|].
    by eapply event_keeps_trans.
Qed.

(** The first match of a query, rewritten by an assignment that keeps matches. *)
Lemma find_alter_first {R} `{Entity R} (P : R → bool) (f : R → R) (rows : list R) e :
  (∀ r, P (f r) = P r) → List.find P rows = Some e →
  List.find P (alter_rows f (ent_id e) rows) = Some (f e).
Proof.
  intros HP. induction rows as [|x rows IH]; simpl; [done|].
  destruct (P x) eqn:E.
  - intros [= ->]. by rewrite (proj2 (has_id_true _ _) eq_refl), HP, E.
  - intros Hf. destruct (has_id (ent_id e) x); rewrite ?HP, E; auto.
Qed.

(** C9: A delivery is processed at most once: after a webhook was answered as
    processed, the same delivery is answered as a duplicate and leaves the whole
    state, mail included, as it is. *)
Theorem webhook_redelivery `{Env} `{BillingProvider} `{!BillingProviderLaws}
    (payload signature : string) (s s' : Core) (r : BillingWebhookRead) :
  consistent s → receive_webhook payload signature s = (Ok r, s') → duplicate r = false →
  receive_webhook payload signature s' = (Ok (mkBillingWebhookRead true true), s').
Proof.
  intros Hs Hrun Hdup. pose proof (webhook_consistent payload signature s Hs) as Hs'.
  rewrite Hrun in Hs'. simpl in Hs'.
  apply (receive_webhook_run _ _ _ _ _ Hs) in Hrun as
    [e [=] _ | [= ->] _ | id_ d s1 Hav Hid Hs1 _ _ _ Hrun]; [done|].
  assert (∃ e, List.find (stripe_event id_) (event_rows s') = Some e ∧
               terminal (BillingEvent.status e) = true) as (e & Hfind & Hterm).
  { apply (process_or_mark_run _ _ _ _ _ Hs1) in Hrun as
      [(b & [= ->] & Hp)|(x & [=] & _)].
    apply (process_event_ok _ _ _ _ _ _ _ _ _ Hs1) in Hp as (e0 & Hfind & Hp).
    destruct (terminal (BillingEvent.status e0)); [by destruct Hp as [-> _]|].
    destruct Hp as (_ & applied & ->). exists (settle applied (Core.clock s1) e0). split.
    - by apply (find_alter_first (stripe_event id_) (settle applied (Core.clock s1))).
    - by destruct applied. }
  unfold receive_webhook.
  rewrite (bind_step_ok _ _ s' tt s') by (unfold _get_provider, try_catch; by rewrite Hav).
  unfold delivered_id in Hid. unfold construct_event.
  destruct (construct_webhook_event payload signature) as [ev|]; [|done].
  destruct (jindex ev "id") as [v|] eqn:Hv; [|done]. injection Hid as <-.
  rewrite (bind_step_ok _ _ s' ev s') by reflexivity.
  rewrite (bind_step_ok _ _ s' v s') by (by unfold lift; rewrite Hv).
  rewrite (bind_step_ok _ _ _ _ _ (existing_status_run _ _ Hs')), Hfind.
  cbn [fmap option_fmap option_map]. by rewrite Hterm.
Qed.

(** A failed delivery changes nothing but its own record: whatever exception
    ends a webhook, the tenants, members, accounts, payments and the audit trail
    are as before, and an event it recorded or marked is not settled, so that the
    retry of the provider is processed. *)
Theorem webhook_failure_atomic `{Env} `{BillingProvider} `{!BillingProviderLaws}
    (payload signature : string) (s s' : Core) (e : exn) :
  consistent s → receive_webhook payload signature s = (Err e, s') →
  business_rows s' = business_rows s ∧
  ∀ ev, In ev (event_rows s') → In ev (event_rows s) ∨ terminal (BillingEvent.status ev) = false.
Proof.
  intros Hs Hrun. apply (receive_webhook_run _ _ _ _ _ Hs) in Hrun as
    [e1 _ Hdb | [=] _ | id_ d s1 _ _ Hs1 Hbus Hrows _ Hrun].
  { split; [by apply business_rows_db|]. rewrite (event_rows_db _ _ Hdb). auto. }
  assert (Hin1 : ∀ ev, In ev (event_rows s1) →
    In ev (event_rows s) ∨ terminal (BillingEvent.status ev) = false).
  { destruct Hrows as [->|(e1 & -> & Hst & _)]; [auto|].
    intros ev [Hev|[<-|[]]]%in_app_iff; [by left|right]. by rewrite Hst. }
  apply (process_or_mark_run _ _ _ _ _ Hs1) in Hrun as
    [(b & [=] & _)|(x & _ & Hb & _ & Hev)]. split; [congruence|].
  destruct Hev as [-> | ->]; [exact Hin1|].
  destruct (List.find (stripe_event id_) (event_rows s1)) as [e0|]; [|exact Hin1].
  intros ev Hev. apply in_map_iff in Hev as (e2 & <- & He2).
  destruct (has_id (BillingEvent.id e0) e2); [by right | by apply Hin1].
Qed.

Section unknown_tenant.
Context `{Env} `{BillingProvider} `{!BillingProviderLaws}.

Lemma refers_missing {R R'} `{Entity R'} (key : R → option N) l (r : R) (l' : list R') k :
  key r = Some k → find_row k l' = None → refers key (l ++ [r]) l' = false.
Proof.
  intros Hk Hfind. unfold refers. rewrite forallb_app. simpl. rewrite Hk.
  assert (existsb (λ r', N.eqb (ent_id r') k) l' = false) as ->; [|by rewrite andb_false_r].
  apply not_true_iff_false. intros (x & Hx & E%N.eqb_eq)%existsb_exists.
  apply find_row_none in Hfind. apply Hfind. rewrite <- E.
  by apply list_elem_of_In, in_map.
Qed.

(** A record that refers to a tenant that does not exist is refused by the
    foreign key. *)
Lemma record_event_refused payload id_ ty rid t js s :
  find_row t (tenant_rows s) = None →
  ∃ s', record_event payload id_ ty rid (Some t) js s = (Err IntegrityError, s').
Proof.
  intros Hfind. unfold record_event, transaction.
  destruct ((i ← uuid4; now ← utc_now; add (BillingEvent.make i (Some t) "stripe" id_ ty rid
    (sha256_hex payload) js "received" None None now None)) s) as [r s1] eqn:E.
  injection E as <- <-.
  match goal with |- context [flush_session ?s1] =>
    assert (flush_session s1 = None) as -> end; [|by eexists].
  unfold flush_session. cbn [core_session]. 
  match goal with |- (if schema_ok ?d && _ then _ else _) = _ =>
    assert (schema_ok d = false) as ->; [|done] end.
  unfold schema_ok. rewrite !andb_false_iff. left. left. left. left. right.
  unfold billing_events_ok. rewrite andb_false_iff. right.
  apply (refers_missing BillingEvent.tenant_id (event_rows s)
    (BillingEvent.make (uuid4_of (Core.draws s)) (Some t) "stripe" id_ ty rid
       (sha256_hex payload) js "received" None None (Core.clock s) None)
    (tenant_rows s) t); done.
Qed.
End unknown_tenant.

(** A first delivery for a tenant that does not exist is answered as a
    duplicate although nothing of it is stored: the foreign key of the record
    raises the same exception as a concurrent delivery of the same event. *)
Theorem unknown_tenant_reported_duplicate `{Env} `{BillingProvider} `{!BillingProviderLaws}
    (payload signature : string) (s s2 : Core) (event id_value : json) (d : delivery)
    (tenant_id : N) :
  consistent s → provider_available = Ok tt →
  construct_webhook_event payload signature = Ok event →
  jindex event "id" = Ok id_value →
  List.find (stripe_event (py_str id_value)) (event_rows s) = None →
  read_delivery event s = (Ok d, s2) → d_tenant d = Some tenant_id →
  find_row tenant_id (tenant_rows s) = None →
  ∃ s', receive_webhook payload signature s = (Ok (mkBillingWebhookRead true true), s') ∧
        Core.db s' = Core.db s.
Proof.
  intros Hs Hav Hc Hid Hnew Hd Ht Hmissing. unfold receive_webhook.
  rewrite (bind_step_ok _ _ s tt s) by (unfold _get_provider, try_catch; by rewrite Hav).
  rewrite (bind_step_ok _ _ s event s) by (unfold construct_event; by rewrite Hc).
  rewrite (bind_step_ok _ _ s id_value s) by (unfold lift; by rewrite Hid).
  rewrite (bind_step_ok _ _ _ _ _ (existing_status_run _ _ Hs)), Hnew.
  cbn [fmap option_fmap option_map]. rewrite (bind_step_ok _ _ _ _ _ Hd).
  rewrite bool_decide_true by done.
  apply (preserves_run _ _ _ _ _ (read_delivery_db _)) in Hd. unfold same in Hd.
  destruct (record_event_refused payload (py_str id_value) (d_type d) (d_resource_id d)
    tenant_id (d_sanitized d) s2) as [s3 Hr].
  { unfold tenant_rows. by rewrite Hd. }
  rewrite <- Ht in Hr. exists s3.
  rewrite (bind_step_ok _ _ s2 true s3).
  2:{ unfold record_once, try_catch. by rewrite (bind_step_err _ _ _ _ _ Hr). }
  split; [done|]. apply transaction_err_db in Hr. congruence.
Qed.

(** ** Witnesses *)
Section witnesses.
#[local] Existing Instance Example.env.

(** A subscription event of the provider, by its payload. *)
Definition subscription_event (payload : string) (tenant_id : N) (status price : string) : json :=
  JObj [("id", JStr ("evt_" +:+ payload)); ("type", JStr "customer.subscription.updated");
        ("created", JNum 1750000000);
        ("data", JObj [("object", JObj
           [("id", JStr "sub_1"); ("customer", JStr "cus_1"); ("status", JStr status);
            ("metadata", JObj [("tenant_id", JStr (uuid_str tenant_id))]);
            ("items", JObj [("data",
               JArr [JObj [("price", JObj [("id", JStr price)])]])])])])].

(** The parser, on the payloads of the examples. *)
Definition loads (payload : string) : result json :=
  if String.eqb payload "upgrade" then Ok (subscription_event payload 1 "active" "ESSENTIAL_MONTHLY_BRL")
  else if String.eqb payload "stranger" then Ok (subscription_event payload 9 "active" "TEAM_MONTHLY_BRL")
  else if String.eqb payload "malformed" then
    Ok (JObj [("id", JStr "evt_m"); ("type", JStr "customer.subscription.updated");
              ("created", JNum 1750000000);
              ("data", JObj [("object", JObj [("status", JStr "active");
                 ("cancel_at_period_end", JBool true); ("cancel_at", JStr "soon");
                 ("metadata", JObj [("tenant_id", JStr (uuid_str 1))])])])])
  else Err (ValueError "Expecting value").

#[local] Instance provider : BillingProvider := FakeBillingProvider.provider loads.
#[local] Instance provider_laws : BillingProviderLaws := FakeBillingProvider.fake_provider_laws loads.

Lemma events_settle_once_witness :
  consistent (receive_webhook "upgrade" "sig" Example.s0).2.
Proof.
  refine (proj1 (events_settle_once Example.s0 _ Example.s0_consistent _)).
  apply (one_more "upgrade" "sig"). constructor.
Defined.

Lemma webhook_redelivery_witness :
  match receive_webhook "upgrade" "sig" Example.s0 with
  | (Ok r, s') => duplicate r = false ∧
      receive_webhook "upgrade" "sig" s' = (Ok (mkBillingWebhookRead true true), s')
  | _ => False
  end.
Proof.
  ok_run E. assert (Hr : duplicate a = false)
    by (apply (f_equal fst) in E; vm_compute in E; injection E as <-; reflexivity).
  split; [exact Hr|].
  exact (webhook_redelivery "upgrade" "sig" _ _ _ Example.s0_consistent E Hr).
Defined.

Lemma webhook_failure_atomic_witness :
  match receive_webhook "malformed" "sig" Example.s0 with
  | (Err _, s') => business_rows s' = business_rows Example.s0
  | _ => False
  end.
Proof.
  destruct (receive_webhook "malformed" "sig" Example.s0) as [[a|e] s'] eqn:E;
    [vm_compute in E; discriminate E|].
  exact (proj1 (webhook_failure_atomic "malformed" "sig" _ _ _ Example.s0_consistent E)).
Defined.

Lemma unknown_tenant_reported_duplicate_witness :
  ∃ s', receive_webhook "stranger" "sig" Example.s0 = (Ok (mkBillingWebhookRead true true), s') ∧
        Core.db s' = Core.db Example.s0.
Proof.
  assert (Hd : match read_delivery (subscription_event "stranger" 9 "active" "TEAM_MONTHLY_BRL")
                       Example.s0 with
               | (Ok d, _) => d_tenant d = Some 9%N | _ => False end)
    by (vm_compute; reflexivity).
  destruct (read_delivery _ _) as [[d|] s2] eqn:E; [|destruct Hd].
  refine (unknown_tenant_reported_duplicate "stranger" "sig" _ s2 _ (JStr "evt_stranger") d 9
    Example.s0_consistent _ _ _ _ E Hd _); vm_compute; reflexivity.
Defined.
End witnesses.
