(* ===== verification/AllowanceFacts.v ===== *)
(** * Allowances, accounts and messages: theorems *)
From S2P Require Import Prelude.
From S2P Require Import PyText.
From S2P Require Import Json.
From S2P Require Import DateTime.
From S2P Require Import Orm.
From S2P Require Import WorkflowSchema.
From S2P Require Import CoreDb.
From S2P Require Import Identity.
From S2P Require Import BillingPolicy.
From S2P Require Import Tenant.
From S2P Require Import Billing.
From S2P Require Import TenantFacts.
From S2P Require Import BillingFacts.
Import BillingService.

Local Open Scope Z_scope.

(** ** Consuming an allowance *)
Section allowances.
Context `{Env} `{BillingProvider}.

(** The account of a tenant, when it has one that is not deleted. *)
Definition has_account (tenant_id : N) (s : Core) (a : Account.BillingAccountEntity) : Prop :=
  List.find (account_of tenant_id) (account_rows s) = Some a ∧ Account.deleted_at a = None.

Lemma account_entity_run tenant_id s a :
  consistent s → has_account tenant_id s a →
  _account_entity tenant_id s = (Ok (Account.id a), s) ∧
  deref (Account.id a) s = (Ok a, s).
Proof.
  intros Hs [Hfind Hopen]. split.
  - unfold _account_entity. rewrite (bind_step_ok _ _ _ _ _ (scalar_account s Hs _)), Hfind.
    by rewrite bool_decide_true.
  - rewrite deref_account. apply List.find_some in Hfind as [Hin _].
    pose proof (find_row_in _ a (accounts_distinct s Hs) Hin) as E.
    change (find_row (Account.id a) (account_rows s) = Some a) in E. by rewrite E.
Qed.

(** [n] uses of an allowance, each in a transaction of its own: how many are
    granted, the errors of the others, and the state after them. *)
Fixpoint uses (op : M Core unit) (n : nat) (s : Core) : nat * list exn * Core :=
  match n with
  | O => (O, [], s)
  | S n' =>
      match transaction op s with
      | (Ok _, s1) => let '(k, es, s2) := uses op n' s1 in (S k, es, s2)
      | (Err e, s1) => let '(k, es, s2) := uses op n' s1 in (k, e :: es, s2)
      end
  end.

(** One more unit of a counter of the account is used. *)
Lemma use_one tenant_id s a f :
  consistent s → has_account tenant_id s a →
  (∀ x, account_keys (f x) = account_keys x ∧ Account.deleted_at (f x) = Account.deleted_at x) →
  ∃ s', transaction (set_account (Account.id a) f) s = (Ok tt, s') ∧ consistent s' ∧
        has_account tenant_id s' (f a) ∧ Core.clock s' = Core.clock s.
Proof.
  intros Hs [Hfind Hopen] Hf.
  destruct (alter_account_flush s (Account.id a) f Hs (λ x, proj1 (Hf x)))
    as (s' & Hflush & Hrows & Hc & _).
  exists s'. split_and!; [|by apply flush_consistent in Hflush| |done].
  - apply transaction_ok. eexists. split; [reflexivity|exact Hflush].
  - destruct (Hf a) as [Hk Hd]. split; [|by rewrite Hd].
    rewrite Hrows. apply (find_alter_first (account_of tenant_id) f); [|done].
    intros r. destruct (Hf r) as [Hr _]. unfold account_keys in Hr. unfold account_of.
    by injection Hr as _ -> _ _.
Qed.

(** What [n] uses come to: [k] of them granted, each counted once, the others
    refused with the given error. *)
Definition spent (tenant_id : N) (op : M Core unit) (n : nat) (s : Core) (k : nat) (refusal : exn)
    (counted : nat → Account.BillingAccountEntity) : Prop :=
  ∃ es s', uses op n s = (k, es, s') ∧ (length es + k = n)%nat ∧ Forall (λ e, e = refusal) es ∧
    has_account tenant_id s' (counted k).

(** An operation that grants while a counter is below a limit grants exactly the
    uses that are left. *)
Lemma spent_count (op : M Core unit) tenant_id (used limit : Account.BillingAccountEntity → Z)
    (metered : Z → Account.BillingAccountEntity → Prop) f refusal :
  (∀ x, account_keys (f x) = account_keys x ∧ Account.deleted_at (f x) = Account.deleted_at x) →
  (∀ now x, metered now x → used (f x) = used x + 1 ∧ limit (f x) = limit x ∧ metered now (f x)) →
  (∀ s a, consistent s → has_account tenant_id s a → metered (Core.clock s) a →
     limit a <= used a ∧ op s = (Err refusal, s) ∨
     used a < limit a ∧ op s = set_account (Account.id a) f s) →
  ∀ n s a, consistent s → has_account tenant_id s a → metered (Core.clock s) a →
  spent tenant_id op n s (Nat.min n (Z.to_nat (limit a - used a))) refusal (λ k, Nat.iter k f a).
Proof.
  intros Hf Hstep Hop. induction n as [|n IH]; intros s a Hs Ha Hm; [by exists [], s|].
  unfold spent. cbn [uses]. destruct (Hop s a Hs Ha Hm) as [(Hle & E)|(Hlt & E)].
  - rewrite (transaction_refused _ _ _ E).
    destruct (IH s a Hs Ha Hm) as (es & s' & -> & Hn & He & Ha').
    assert (Hk : ∀ m, Nat.min m (Z.to_nat (limit a - used a)) = 0%nat) by lia.
    rewrite (Hk (S n)). rewrite (Hk n) in Hn, Ha' |- *.
    exists (refusal :: es), s'. split_and!; [done|simpl; lia|by constructor|done].
  - destruct (use_one tenant_id s a f Hs Ha Hf) as (s' & Hrun & Hs' & Ha' & Hc).
    assert (Htx : transaction op s = (Ok tt, s')).
    { rewrite <- Hrun. unfold transaction. by rewrite E. }
    rewrite Htx. destruct (Hstep _ _ Hm) as (Hu & Hl & Hm').
    rewrite <- Hc in Hm'. destruct (IH s' (f a) Hs' Ha' Hm') as (es & s2 & -> & Hn & He & Ha2).
    rewrite Hu, Hl in *.
    assert (Hk : Nat.min (S n) (Z.to_nat (limit a - used a)) =
                 S (Nat.min n (Z.to_nat (limit a - (used a + 1))))) by lia.
    rewrite Hk. exists es, s2. split_and!; [done|lia|done|]. by rewrite Nat.iter_succ_r.
Qed.

Definition one_signature (a : Account.BillingAccountEntity) :=
  a <| Account.signatures_used ::= λ n, n + 1 |>.
Definition one_document (a : Account.BillingAccountEntity) :=
  a <| Account.files_uploaded_in_period ::= λ n, n + 1 |>.

Lemma consume_signature_run tenant_id s a :
  consistent s → has_account tenant_id s a →
  consume_signature tenant_id s =
    if _has_unlimited_signatures a || _paid_access_enabled (Core.clock s) a then (Ok tt, s)
    else if Account.free_signatures_limit a <=? Account.signatures_used a
    then (Err (workflow_error
       "Free signature allowance exhausted. An active subscription is required" 402), s)
    else set_account (Account.id a) one_signature s.
Proof.
  intros Hs Ha. destruct (account_entity_run _ _ _ Hs Ha) as [E1 E2].
  unfold consume_signature. rewrite (bind_step_ok _ _ _ _ _ E1).
  rewrite (bind_step_ok _ _ s (Core.clock s) s) by reflexivity.
  rewrite (bind_step_ok _ _ _ _ _ E2). destruct (_ || _); [done|].
  by destruct (_ <=? _).
Qed.

Lemma consume_document_run tenant_id s a :
  consistent s → has_account tenant_id s a →
  consume_document tenant_id s =
    if Account.complimentary_lifetime a then (Ok tt, s)
    else match _active_plan_file_limit (Core.clock s) a with
         | None => (Ok tt, s)
         | Some limit =>
             if limit <=? Account.files_uploaded_in_period a
             then (Err (workflow_error
               "Monthly file allowance exhausted. Wait for the next billing period or change plan"
               402), s)
             else set_account (Account.id a) one_document s
         end.
Proof.
  intros Hs Ha. destruct (account_entity_run _ _ _ Hs Ha) as [E1 E2].
  unfold consume_document. rewrite (bind_step_ok _ _ _ _ _ E1).
  rewrite (bind_step_ok _ _ s (Core.clock s) s) by reflexivity.
  rewrite (bind_step_ok _ _ _ _ _ E2). destruct (Account.complimentary_lifetime a); [done|].
  destruct (_active_plan_file_limit _ _) as [l|]; [|done]. by destruct (_ <=? _).
Qed.
End allowances.

Section exact.
Context `{Env} `{BillingProvider}.

Definition signatures_exhausted : exn := workflow_error
  "Free signature allowance exhausted. An active subscription is required" 402.
Definition files_exhausted : exn := workflow_error
  "Monthly file allowance exhausted. Wait for the next billing period or change plan" 402.

Lemma iter_signatures k a :
  Nat.iter k one_signature a = a <| Account.signatures_used ::= λ n, n + Z.of_nat k |>.
Proof.
  induction k as [|k IH]; cbn [Nat.iter nat_rect].
  - destruct a. unfold set_field. cbn. f_equal. lia.
  - fold (Nat.iter k one_signature a). rewrite IH. unfold one_signature. destruct a. cbn. f_equal. lia.
Qed.
Lemma iter_documents k a :
  Nat.iter k one_document a = a <| Account.files_uploaded_in_period ::= λ n, n + Z.of_nat k |>.
Proof.
  induction k as [|k IH]; cbn [Nat.iter nat_rect].
  - destruct a. unfold set_field. cbn. f_equal. lia.
  - fold (Nat.iter k one_document a). rewrite IH. unfold one_document. destruct a. cbn. f_equal. lia.
Qed.

Lemma metered_signatures tenant_id n s a :
  consistent s → has_account tenant_id s a →
  _has_unlimited_signatures a = false → _paid_access_enabled (Core.clock s) a = false →
  spent tenant_id (consume_signature tenant_id) n s
    (Nat.min n (Z.to_nat (Account.free_signatures_limit a - Account.signatures_used a)))
    signatures_exhausted (λ k, Nat.iter k one_signature a).
Proof.
  intros Hs Ha Hu Hp.
  apply (spent_count _ tenant_id Account.signatures_used Account.free_signatures_limit
    (λ now x, _has_unlimited_signatures x = false ∧ _paid_access_enabled now x = false)
    one_signature); [done|by intros ? ? []| |done..].
  intros s1 a1 Hs1 Ha1 [Hu1 Hp1]. rewrite (consume_signature_run _ _ _ Hs1 Ha1), Hu1, Hp1.
  simpl orb. destruct (Z.leb_spec (Account.free_signatures_limit a1) (Account.signatures_used a1));
    [left|right]; eauto.
Qed.

Lemma metered_documents tenant_id n s a limit :
  consistent s → has_account tenant_id s a → Account.complimentary_lifetime a = false →
  _active_plan_file_limit (Core.clock s) a = Some limit →
  spent tenant_id (consume_document tenant_id) n s
    (Nat.min n (Z.to_nat (limit - Account.files_uploaded_in_period a)))
    files_exhausted (λ k, Nat.iter k one_document a).
Proof.
  intros Hs Ha Hc Hl.
  apply (spent_count _ tenant_id Account.files_uploaded_in_period (λ _, limit)
    (λ now x, Account.complimentary_lifetime x = false ∧
              _active_plan_file_limit now x = Some limit)
    one_document); [done|by intros ? ? []| |done..].
  intros s1 a1 Hs1 Ha1 [Hc1 Hl1]. rewrite (consume_document_run _ _ _ Hs1 Ha1), Hc1, Hl1.
  destruct (Z.leb_spec limit (Account.files_uploaded_in_period a1)); [left|right]; eauto.
Qed.

(** An operation that does nothing is granted every time. *)
Lemma spent_free tenant_id (op : M Core unit) n s a refusal :
  consistent s → has_account tenant_id s a → op s = (Ok tt, s) →
  spent tenant_id op n s n refusal (λ _, a).
Proof.
  intros Hs Ha Hop.
  assert (E : transaction op s = (Ok tt, s))
    by (apply transaction_ok; exists s; split; [done|by apply flush_same]).
  assert (Hn : uses op n s = (n, [], s)) by (induction n as [|n IH]; [done|]; cbn [uses]; by rewrite E, IH).
  exists [], s. by rewrite Hn.
Qed.
End exact.

(** The uses an answer of the billing screen promises: all, or the given number;
    and how many of [k] uses are counted: none where there is no limit. *)
Definition promised (remaining : option Z) (n : nat) : nat :=
  match remaining with Some k => Nat.min n (Z.to_nat k) | None => n end.
Definition counted (remaining : option Z) (k : nat) : Z :=
  match remaining with Some _ => Z.of_nat k | None => 0 end.

(** C39: Allowances are exact, and the billing screen tells them.  Of any number of
    signatures or uploads a tenant tries at one instant, as many are granted as
    the account reports as remaining at that instant (all of them when it reports
    no limit); the rest are refused with the error of an exhausted allowance
    (402); and the account counts exactly the granted ones (none where there is
    no limit), nothing else of it changes. *)
Theorem allowances_are_exact `{Env} `{BillingProvider} (tenant_id : N) (n : nat) (s : Core)
    (a : Account.BillingAccountEntity) :
  consistent s → has_account tenant_id s a →
  let screen := account_read (Core.clock s) a in
  let signatures := signatures_remaining screen in
  let files := files_remaining screen in
  spent tenant_id (consume_signature tenant_id) n s (promised signatures n) signatures_exhausted
    (λ k, a <| Account.signatures_used ::= λ m, m + counted signatures k |>) ∧
  spent tenant_id (consume_document tenant_id) n s (promised files n) files_exhausted
    (λ k, a <| Account.files_uploaded_in_period ::= λ m, m + counted files k |>).
Proof.
  intros Hs Ha. cbv zeta. unfold account_read. cbn [signatures_remaining files_remaining].
  assert (Hfree : ∀ op refusal (counts : nat → Account.BillingAccountEntity), op s = (Ok tt, s) →
    counts n = a → spent tenant_id op n s n refusal counts).
  { intros op refusal counts Hop Hn. destruct (spent_free tenant_id op n s a refusal Hs Ha Hop)
      as (es & s' & Hu & Hl & He & Ha'). exists es, s'. by rewrite Hn. }
  assert (Hzero : ∀ m, m + 0 = m) by lia. split.
  - destruct (_has_unlimited_signatures a) eqn:Hu, (_paid_access_enabled (Core.clock s) a) eqn:Hp;
      cbn [orb promised counted].
    1-3: apply Hfree; [by rewrite (consume_signature_run _ _ _ Hs Ha), Hu, Hp|];
      destruct a; unfold set_field; cbn; f_equal; lia.
    destruct (metered_signatures tenant_id n s a Hs Ha Hu Hp) as (es & s' & Huse & Hl & He & Ha').
    rewrite iter_signatures in Ha'.
    replace (Z.to_nat (Z.max _ 0)) with
      (Z.to_nat (Account.free_signatures_limit a - Account.signatures_used a)) by lia.
    by exists es, s'.
  - destruct (Account.complimentary_lifetime a) eqn:Hc; cbn [promised counted].
    { apply Hfree; [by rewrite (consume_document_run _ _ _ Hs Ha), Hc|].
      destruct a; unfold set_field; cbn; f_equal; lia. }
    destruct (_active_plan_file_limit (Core.clock s) a) as [limit|] eqn:Hl; cbn [promised counted].
    + destruct (metered_documents tenant_id n s a limit Hs Ha Hc Hl) as (es & s' & Huse & Hn & He & Ha').
      rewrite iter_documents in Ha'.
      replace (Z.to_nat (Z.max _ 0)) with
        (Z.to_nat (limit - Account.files_uploaded_in_period a)) by lia.
      by exists es, s'.
    + apply Hfree; [by rewrite (consume_document_run _ _ _ Hs Ha), Hc, Hl|].
      destruct a; unfold set_field; cbn; f_equal; lia.
Qed.

(** ** Messages *)
Section rendering.

(** The text of a template does not depend on the name of the tenant to render. *)
Definition renders (body : string) : Prop :=
  ∀ tenant, ∃ text, py_format body [("tenant", tenant)] = Ok text.

Definition plan_codes : list string := map fst PLAN_FILE_LIMITS.

Definition message_renders (r : result (option (string * string * string))) : Prop :=
  match r with
  | Ok None => True
  | Ok (Some (_, body, _)) => renders body
  | Err _ => False
  end.

(** The locale whose texts are used. *)
Definition effective_locale (locale : string) : string :=
  if mem_str locale ["en"; "pt-BR"; "ja-JP"; "es"] then locale else "en".

Lemma effective_locale_cases locale : In (effective_locale locale) ["en"; "pt-BR"; "ja-JP"; "es"].
Proof.
  unfold effective_locale. destruct (mem_str locale _) eqn:E; [|by left].
  unfold mem_str in E. apply existsb_exists in E as (x & Hx & ->%String.eqb_eq). done.
Qed.

Lemma effective_locale_texts locale :
  for_locale locale messages = for_locale (effective_locale locale) messages ∧
  for_locale locale plan_names = for_locale (effective_locale locale) plan_names ∧
  plan_get locale plan_eyebrows = plan_get (effective_locale locale) plan_eyebrows.
Proof.
  unfold effective_locale, mem_str. cbn [existsb].
  destruct (String.eqb locale "en") eqn:E1; [done|].
  destruct (String.eqb locale "pt-BR") eqn:E2; [done|].
  destruct (String.eqb locale "ja-JP") eqn:E3; [done|].
  destruct (String.eqb locale "es") eqn:E4; [done|]. cbn [orb].
  unfold for_locale, messages, plan_names, plan_eyebrows. cbn [plan_get].
  by rewrite E1, E2, E3, E4.
Qed.

Lemma message_kind_cases ty st ps pp cp key :
  message_kind ty st ps pp cp = Some key →
  In key ["checkout"; "paid"; "failed"; "plan_changed"; "active"; "cancelled"; "paused"].
Proof.
  unfold message_kind, subscription_message_kind. intros Hk.
  repeat case_match; simplify_eq; try (apply plan_get_some_in in Hk; simpl in Hk);
    repeat destruct Hk as [Hk|Hk]; simplify_eq; simpl; auto 10.
Qed.

(** Every text of every locale renders. *)
Lemma texts_render key l :
  In key ["checkout"; "paid"; "failed"; "active"; "cancelled"; "paused"] →
  In l ["en"; "pt-BR"; "ja-JP"; "es"] →
  ∃ subject body, plan_get key (for_locale l messages) = Some (subject, body) ∧ renders body.
Proof.
  intros Hk Hl. repeat destruct Hk as [<-|Hk]; try done;
    repeat destruct Hl as [<-|Hl]; try done;
    (eexists _, _; split; [vm_compute; reflexivity|]; intros tenant; eexists;
     vm_compute; reflexivity).
Qed.

(** So does the text of a plan change, once the plans are filled in. *)
Definition plan_change_text (l previous current : string) : result string :=
  match plan_get "plan_changed" (for_locale l messages) with
  | None => Err KeyError
  | Some (_, body) =>
      py_format body
        [("previous_plan", from_option id previous (plan_get previous (for_locale l plan_names)));
         ("current_plan", from_option id current (plan_get current (for_locale l plan_names)));
         ("limit", show_Z (from_option id 0 (plan_get current PLAN_FILE_LIMITS)));
         ("tenant", "{tenant}")]
  end.

Lemma plan_change_renders l previous current :
  In l ["en"; "pt-BR"; "ja-JP"; "es"] → In previous plan_codes → In current plan_codes →
  ∃ body, plan_change_text l previous current = Ok body ∧ renders body.
Proof.
  intros Hl Hp Hc. repeat destruct Hp as [<-|Hp]; try done;
    repeat destruct Hc as [<-|Hc]; try done;
    repeat destruct Hl as [<-|Hl]; try done;
    (eexists; split; [vm_compute; reflexivity|]; intros tenant; eexists;
     vm_compute; reflexivity).
Qed.
End rendering.

(** A billing notification always renders: for every locale, event and status,
    and plans the product knows, the message is either none or a text into which
    the name of any tenant can be inserted, whatever characters it has. *)
Theorem billing_messages_render (locale event_type provider_status current : string)
    (previous_status previous : option string) :
  In (_normalize_product_code (jopt_str previous)) plan_codes →
  In (_normalize_product_code (JStr current)) plan_codes →
  message_renders
    (_billing_message locale event_type provider_status previous_status previous (Some current)).
Proof.
  intros Hprev Hcur. unfold _billing_message.
  destruct (effective_locale_texts locale) as (-> & -> & _).
  pose proof (effective_locale_cases locale) as Hl.
  destruct (message_kind _ _ _ _ _) as [key|] eqn:Hkind; [|done].
  apply message_kind_cases in Hkind.
  destruct (String.eqb_spec key "plan_changed") as [->|Hne].
  - destruct (plan_change_renders _ _ _ Hl Hprev Hcur) as (body & Hbody & Hr).
    unfold plan_change_text in Hbody.
    destruct (plan_get "plan_changed" _) as [[subject text]|]; [|done].
    cbn [negb jopt_str from_option]. cbn [jopt_str from_option] in Hbody. by rewrite Hbody.
  - destruct (texts_render key (effective_locale locale)) as (subject & body & -> & Hr).
    { simpl in Hkind |- *. naive_solver. }
    { done. }
    cbn [negb]. exact Hr.
Qed.

(** ** Witnesses *)
Section witnesses.
#[local] Existing Instance Example.env.
#[local] Instance no_provider : BillingProvider :=
  FakeBillingProvider.provider (λ _, Err (ValueError "Expecting value")).

(** Nine tries of a tenant with five free signatures. *)
Lemma allowances_are_exact_witness :
  ∃ es s', uses (consume_signature 2) 9 Example.s0 = (5%nat, es, s') ∧ length es = 4%nat ∧
    has_account 2 s' (Example.free_account <| Account.signatures_used := 5 |>).
Proof.
  assert (Ha : has_account 2 Example.s0 Example.free_account) by (split; vm_compute; reflexivity).
  destruct (proj1 (allowances_are_exact 2 9 Example.s0 Example.free_account Example.s0_consistent Ha))
    as (es & s' & Hu & Hn & _ & Ha').
  exists es, s'. split; [exact Hu|]. split; [|exact Ha'].
  change (length es + 5 = 9)%nat in Hn. lia.
Defined.

Lemma billing_messages_render_witness :
  message_renders (_billing_message "pt-BR" "customer.subscription.updated" "active"
    (Some "active") (Some "rubrica_mvp") (Some "rubrica_team")).
Proof.
  apply billing_messages_render; vm_compute; tauto.
Defined.
End witnesses.
