(* ===== verification/SubscriptionFacts.v ===== *)
(** * Subscription events: theorems

    What a subscription event does to the account of its tenant, and that the
    order in which events arrive does not matter. *)
From S2P Require Import Prelude.
From S2P Require Import PyText.
From S2P Require Import Json.
From S2P Require Import DateTime.
From S2P Require Import Orm.
From S2P Require Import WorkflowSchema.
From S2P Require Import CoreDb.
From S2P Require Import Identity.
From S2P Require Import BillingPolicy.
From S2P Require Import Tenant.
From S2P Require Import Billing.
From S2P Require Import TenantFacts.
From S2P Require Import BillingFacts.
From S2P Require Import AllowanceFacts.
Import BillingService.

Local Open Scope Z_scope.

Section account_object.
Context `{Env} `{BillingProvider}.

(** The object of the account of a tenant, pending changes included. *)
Definition holds (tenant_id : N) (s : Core) (a : Account.BillingAccountEntity) : Prop :=
  List.find (account_of tenant_id) (account_rows s) = Some a ∧
  find_row (Account.id a) (account_rows s) = Some a.

Definition keeps_account (f : Account.BillingAccountEntity → Account.BillingAccountEntity) :=
  ∀ a, Account.id (f a) = Account.id a ∧ Account.tenant_id (f a) = Account.tenant_id a.

Lemma set_account_holds tenant_id s a f u s' :
  holds tenant_id s a → keeps_account f →
  set_account (Account.id a) f s = (Ok u, s') →
  holds tenant_id s' (f a) ∧ Core.clock s' = Core.clock s.
Proof.
  intros [Hfind Hrow] Hf Hrun. unfold set_account in Hrun. apply modify_ok in Hrun as ->.
  split; [|done]. unfold holds.
  change (account_rows _) with (alter_rows f (Account.id a) (account_rows s)). split.
  - apply (find_alter_first (account_of tenant_id) f); [|done].
    intros r. unfold account_of. by destruct (Hf r) as [_ ->].
  - destruct (Hf a) as [-> _].
    rewrite find_row_alter by (intros r; apply Hf). by rewrite Hrow.
Qed.

Lemma holds_same tenant_id s s' a :
  account_rows s' = account_rows s → holds tenant_id s a → holds tenant_id s' a.
Proof. unfold holds. by intros ->. Qed.

Lemma holds_account tenant_id s a :
  consistent s → List.find (account_of tenant_id) (account_rows s) = Some a →
  holds tenant_id s a.
Proof.
  intros Hs Hfind. split; [done|]. apply List.find_some in Hfind as [Hin _].
  exact (find_row_in _ a (accounts_distinct s Hs) Hin).
Qed.

Lemma deref_holds tenant_id s a : holds tenant_id s a → deref (Account.id a) s = (Ok a, s).
Proof. intros [_ Hrow]. by rewrite deref_account, Hrow. Qed.

(** The parts of an event that do not change accounts. *)
Lemma business_identity_accounts tenant_id product identity :
  preserves (same (λ s, (account_rows s, Core.clock s)))
    (_apply_business_identity tenant_id product identity).
Proof.
  unfold _apply_business_identity, TenantService.apply_billing_business_identity,
    TenantService._audit, protect_cnpj. preserve.
Qed.
Lemma reconcile_accounts tenant_id :
  preserves (same (λ s, (account_rows s, Core.clock s)))
    (TenantService.reconcile_single_member_plan tenant_id).
Proof.
  unfold TenantService.reconcile_single_member_plan, TenantService.member_limit,
    TenantService.set_status, TenantService._audit. preserve.
Qed.

(** The attributes every event of a tenant sets. *)
Definition touch (customer : json) (a : Account.BillingAccountEntity)
    : Account.BillingAccountEntity :=
  let a := a <| Account.provider := Some "stripe" |> in
  if truthy customer then a <| Account.provider_customer_id := Some (py_str customer) |> else a.

Lemma sync_usage_keeps p1 p2 reset : keeps_account (_sync_usage_period p1 p2 reset).
Proof.
  intros a. unfold _sync_usage_period.
  destruct p2, p1; cbn; repeat case_match; done.
Qed.

Lemma set_subscription_keeps now r t : keeps_account (set_subscription now r t).
Proof.
  intros a. unfold set_subscription. cbv zeta.
  destruct (String.eqb (sub_status r) "active").
  - match goal with |- Account.id (_sync_usage_period _ _ _ ?x) = _ ∧ _ =>
      destruct (sync_usage_keeps (sub_period r).1 (sub_period r).2 false x) as [-> ->] end.
    by repeat case_match.
  - by repeat case_match.
Qed.

Lemma set_subscription_deleted now r t a :
  Account.deleted_at (set_subscription now r t a) = Account.deleted_at a.
Proof.
  unfold set_subscription, _sync_usage_period. cbv zeta.
  destruct (sub_period r) as [[?|] [?|]], (String.eqb (sub_status r) "active"), t;
    cbn; by repeat case_match.
Qed.

(** A subscription event, applied: stale, or reflected by the account. *)
Lemma apply_subscription_run tenant_id ty res at_ id_ ident s a b s' :
  starts_with "customer.subscription." ty = true → holds tenant_id s a →
  _account_entity tenant_id s = (Ok (Account.id a), s) →
  _apply_event ty res (Some tenant_id) at_ id_ ident s = (Ok b, s') →
  ∃ customer a', jget res "customer" = Ok customer ∧ holds tenant_id s' a' ∧
    Core.clock s' = Core.clock s ∧
    if stale_event at_ a then b = false ∧ a' = touch customer a
    else b = true ∧ ∃ r, read_subscription res = Ok r ∧
         a' = set_subscription (Core.clock s) r at_ (touch customer a).
Proof.
  intros Hty Hholds Hent Hrun. unfold _apply_event in Hrun.
  rewrite (bind_step_ok _ _ _ _ _ Hent) in Hrun.
  apply bind_ok in Hrun as (u1 & s1 & E1 & Hrun).
  apply (set_account_holds _ _ _ _ _ _ Hholds) in E1 as [H1 C1]; [|done].
  apply bind_ok in Hrun as (customer & s2 & E2 & Hrun). apply lift_ok in E2 as [Hcust ->].
  apply bind_ok in Hrun as (u3 & s3 & E3 & Hrun).
  assert (holds tenant_id s3 (touch customer a) ∧ Core.clock s3 = Core.clock s) as [H3 C3].
  { unfold touch. unfold when in E3. destruct (truthy customer).
    - change (Account.id a) with (Account.id (a <| Account.provider := Some "stripe" |>)) in E3.
      apply (set_account_holds _ _ _ _ _ _ H1) in E3 as [H3 C3]; [|done].
      split; [exact H3|congruence].
    - apply ret_ok in E3 as [_ ->]. done. }
  assert (String.eqb ty "checkout.session.completed" = false ∧
    mem_str ty ["invoice.payment_succeeded"; "invoice.payment_failed"] = false) as [E4 E5].
  { split; apply not_true_iff_false; [intros ->%String.eqb_eq; done|].
    unfold mem_str. simpl. rewrite !orb_true_iff.
    by intros [->%String.eqb_eq|[->%String.eqb_eq|]]. }
  rewrite E4, E5, Hty in Hrun.
  assert (Htouch : Account.id (touch customer a) = Account.id a ∧
    stale_event at_ (touch customer a) = stale_event at_ a)
    by (unfold touch; by destruct (truthy customer)).
  destruct Htouch as [Hid Hstale]. rewrite <- Hid in Hrun. rewrite <- Hstale.
  unfold apply_subscription in Hrun.
  rewrite (bind_step_ok _ _ s3 (Core.clock s3) s3) in Hrun by reflexivity.
  rewrite (bind_step_ok _ _ _ _ _ (deref_holds _ _ _ H3)) in Hrun.
  exists customer. destruct (stale_event at_ (touch customer a)).
  - apply ret_ok in Hrun as [-> ->]. exists (touch customer a). done.
  - apply bind_ok in Hrun as (r & s4 & E6 & Hrun). apply lift_ok in E6 as [Hread ->].
    apply bind_ok in Hrun as (u7 & s7 & E7 & Hrun).
    apply (set_account_holds _ _ _ _ _ _ H3) in E7 as [H7 C7];
      [|apply set_subscription_keeps].
    apply bind_ok in Hrun as (u8 & s8 & E8 & Hrun).
    apply bind_ok in Hrun as (u9 & s9 & E9 & Hrun). apply ret_ok in Hrun as [-> ->].
    apply (preserves_run _ _ _ _ _ (business_identity_accounts _ _ _)) in E8.
    apply (preserves_run _ _ _ _ _ (reconcile_accounts _)) in E9.
    unfold same in E8, E9. injection E8 as R8 C8. injection E9 as R9 C9.
    eexists. split; [done|]. split_and!; [| |done|].
    + eapply holds_same; [|exact H7]. congruence.
    + congruence.
    + exists r. rewrite <- C3. done.
Qed.
End account_object.

(** ** The order of events *)
Section ordering.
Context `{Env} `{BillingProvider}.

(** An event of a subscription of one tenant, as the webhook hands it on. *)
Record subscription_event := mkSubscriptionEvent {
  ev_type : string; ev_resource : json; ev_created_at : Z; ev_id : string;
  ev_identity : option ProviderBusinessIdentity
}.

(** Applying events one after the other, each successfully in a transaction of
    its own, at any times. *)
Inductive applied (tenant_id : N) : list subscription_event → Core → Core → Prop :=
| applied_none s : applied tenant_id [] s s
| applied_next e es now b s s1 s2 :
    starts_with "customer.subscription." (ev_type e) = true →
    transaction (_apply_event (ev_type e) (ev_resource e) (Some tenant_id)
      (Some (ev_created_at e)) (ev_id e) (ev_identity e)) (s <| Core.clock := now |>)
      = (Ok b, s1) →
    applied tenant_id es s1 s2 → applied tenant_id (e :: es) s s2.

(** What governs access and renewal. *)
Definition governing (a : Account.BillingAccountEntity) :=
  (Account.provider_subscription_id a, Account.current_product_code a, Account.status a,
   Account.cancel_at_period_end a, Account.cancels_at a, Account.last_provider_event_created_at a).

(** The effect of an event on it: none when it is older than the last one. *)
Definition govern (e : subscription_event)
    (g : option string * option string * string * bool * option Z * option Z) :=
  if match g.2 with Some last => ev_created_at e <? last | None => false end then g
  else match read_subscription (ev_resource e) with
       | Ok r => (Some (sub_id r), Some (sub_product r), sub_status r, sub_cancelling r,
                  sub_cancels_at r, Some (ev_created_at e))
       | Err _ => g
       end.

Lemma governing_touch customer a : governing (touch customer a) = governing a.
Proof. unfold touch. by destruct (truthy customer). Qed.

Lemma governing_sync p1 p2 reset a : governing (_sync_usage_period p1 p2 reset a) = governing a.
Proof. unfold _sync_usage_period. destruct p2, p1; cbn; by repeat case_match. Qed.

Lemma governing_set now r t a :
  governing (set_subscription now r (Some t) a) =
    (Some (sub_id r), Some (sub_product r), sub_status r, sub_cancelling r, sub_cancels_at r,
     Some t).
Proof.
  unfold set_subscription. cbv zeta. destruct (String.eqb (sub_status r) "active").
  - rewrite governing_sync. by repeat case_match.
  - by repeat case_match.
Qed.

Lemma consistent_clock s now : consistent s → consistent (s <| Core.clock := now |>).
Proof. by apply consistent_db. Qed.

Lemma applied_governing tenant_id es s s' a :
  consistent s → has_account tenant_id s a → applied tenant_id es s s' →
  ∃ a', has_account tenant_id s' a' ∧
        governing a' = fold_left (λ g e, govern e g) es (governing a).
Proof.
  intros Hs Ha Happ. revert a Hs Ha.
  induction Happ as [s|e es now b s s1 s2 Hty Hrun Happ IH]; intros a Hs Ha.
  { exists a. done. }
  apply (consistent_clock _ now) in Hs.
  change (has_account tenant_id (s <| Core.clock := now |>) a) in Ha.
  set (s0 := s <| Core.clock := now |>) in *. clearbody s0.
  destruct (account_entity_run _ _ _ Hs Ha) as [Hent _].
  pose proof (holds_account _ _ _ Hs (proj1 Ha)) as Hh.
  apply transaction_ok in Hrun as (s3 & Hrun & Hflush).
  destruct (apply_subscription_run _ _ _ _ _ _ _ _ _ _ Hty Hh Hent Hrun)
    as (customer & a1 & _ & [Hfind _] & _ & Hcase).
  pose proof (flush_tenancy _ _ Hflush) as Hten.
  assert (Hacc : account_rows s1 = account_rows s3) by (unfold tenancy in Hten; by simplify_eq).
  assert (Hopen : Account.deleted_at a1 = None).
  { destruct Ha as [_ Hd]. destruct (stale_event _ _).
    - destruct Hcase as [_ ->]. unfold touch. by destruct (truthy customer).
    - destruct Hcase as (_ & r & _ & ->). rewrite set_subscription_deleted.
      unfold touch. by destruct (truthy customer). }
  destruct (IH a1) as (a2 & Ha2 & Hg).
  { by apply flush_consistent in Hflush. }
  { split; [by rewrite Hacc|done]. }
  exists a2. split; [done|]. rewrite Hg. simpl. f_equal.
  unfold govern. change (governing a).2 with (Account.last_provider_event_created_at a).
  unfold stale_event in Hcase.
  destruct (match Account.last_provider_event_created_at a with Some _ => _ | None => _ end).
  - destruct Hcase as [_ ->]. apply governing_touch.
  - destruct Hcase as (_ & r & -> & ->). apply governing_set.
Qed.

Lemma govern_swap e1 e2 g :
  ev_created_at e1 ≠ ev_created_at e2 → govern e1 (govern e2 g) = govern e2 (govern e1 g).
Proof.
  intros Hne. unfold govern. destruct g as [g last]. cbn [snd].
  destruct (read_subscription (ev_resource e1)), (read_subscription (ev_resource e2)), last as [l|];
    cbn [snd];
    try destruct (Z.ltb_spec (ev_created_at e1) l); try destruct (Z.ltb_spec (ev_created_at e2) l);
    cbn [snd];
    try destruct (Z.ltb_spec (ev_created_at e1) l); try destruct (Z.ltb_spec (ev_created_at e2) l);
    try destruct (Z.ltb_spec (ev_created_at e1) (ev_created_at e2));
    try destruct (Z.ltb_spec (ev_created_at e2) (ev_created_at e1));
    try done; lia.
Qed.

Lemma govern_permutation es es' g :
  NoDup (map ev_created_at es) → es ≡ₚ es' →
  fold_left (λ g e, govern e g) es g = fold_left (λ g e, govern e g) es' g.
Proof.
  intros Hd Hp. revert g Hd. induction Hp as [|e es es' Hp IH|e1 e2 es|l1 l2 l3 H1 IH1 H2 IH2];
    intros g Hd; simpl.
  - done.
  - apply NoDup_cons in Hd as [_ Hd]. by apply IH.
  - simpl in Hd. apply NoDup_cons in Hd as [Hne _].
    rewrite govern_swap; [done|]. intros E. apply Hne. rewrite E. by left.
  - rewrite (IH1 g Hd). apply IH2. by rewrite <- H1.
Qed.

(** The time of the last event after a run is at most the newest of them. *)
Lemma govern_last es g t :
  (∀ last, g.2 = Some last → last <= t) → (∀ e, In e es → ev_created_at e <= t) →
  ∀ last, (fold_left (λ g e, govern e g) es g).2 = Some last → last <= t.
Proof.
  revert g. induction es as [|e es IH]; intros g Hg Hes; simpl; [done|].
  apply IH; [|intros; apply Hes; by right].
  specialize (Hes e (or_introl eq_refl)). unfold govern.
  destruct (match g.2 with Some _ => _ | None => _ end); [done|].
  destruct (read_subscription _); [by intros ? [= <-]|done].
Qed.
End ordering.

(** C28: The order of delivery does not matter for subscription events of a tenant
    that were created at distinct times and are all processed without an error:
    however they are permuted, the account ends with the same subscription,
    product, status, cancellation and event time; they are those of the event
    created last, if it is not older than what the account reflected before.  (Of
    events with the same creation time the one delivered last wins, so there the
    order does matter.) *)
Theorem subscription_events_converge `{Env} `{BillingProvider} (tenant_id : N)
    (es es' : list subscription_event) (s s1 s2 : Core) (a : Account.BillingAccountEntity) :
  consistent s → has_account tenant_id s a →
  NoDup (map ev_created_at es) → es ≡ₚ es' →
  applied tenant_id es s s1 → applied tenant_id es' s s2 →
  ∃ a1 a2, has_account tenant_id s1 a1 ∧ has_account tenant_id s2 a2 ∧
    governing a1 = governing a2 ∧
    ∀ e r, In e es → (∀ e', In e' es → ev_created_at e' <= ev_created_at e) →
      (∀ last, Account.last_provider_event_created_at a = Some last → last <= ev_created_at e) →
      read_subscription (ev_resource e) = Ok r →
      governing a1 = (Some (sub_id r), Some (sub_product r), sub_status r, sub_cancelling r,
                      sub_cancels_at r, Some (ev_created_at e)).
Proof.
  intros Hs Ha Hd Hp H1 H2.
  destruct (applied_governing _ _ _ _ _ Hs Ha H1) as (a1 & Ha1 & G1).
  destruct (applied_governing _ _ _ _ _ Hs Ha H2) as (a2 & Ha2 & G2).
  exists a1, a2. split_and!; [done|done| |].
  - by rewrite G1, G2, (govern_permutation es es').
  - intros e r Hin Hmax Hlast Hread.
    apply in_split in Hin as (l1 & l2 & ->).
    rewrite G1, (govern_permutation _ ((l1 ++ l2) ++ [e])).
    + rewrite fold_left_app. simpl. set (g := fold_left _ (l1 ++ l2) _).
      unfold govern. rewrite Hread.
      assert (Hg : ∀ last, g.2 = Some last → last <= ev_created_at e).
      { apply govern_last; [exact Hlast|]. intros e' He'. apply Hmax.
        apply in_app_iff in He' as [He'|He']; apply in_app_iff; [by left|by right; right]. }
      destruct g.2 as [last|]; [|done].
      destruct (Z.ltb_spec (ev_created_at e) last); [|done].
      specialize (Hg last eq_refl). lia.
    + done.
    + rewrite <- (app_assoc l1 l2 [e]). apply Permutation_app_head. apply Permutation_cons_append.
Qed.

(** ** Witnesses *)
Section witnesses.
#[local] Existing Instance Example.env.
#[local] Instance no_provider : BillingProvider :=
  FakeBillingProvider.provider (λ _, Err (ValueError "Expecting value")).

Definition upgrade_event (status price : string) (at_ : Z) : subscription_event :=
  mkSubscriptionEvent "customer.subscription.updated"
    (JObj [("id", JStr "sub_1"); ("status", JStr status);
           ("items", JObj [("data", JArr [JObj [("price", JObj [("id", JStr price)])]])])])
    at_ "evt" None.
Definition older := upgrade_event "active" "ESSENTIAL_MONTHLY_BRL" 10.
Definition newer := upgrade_event "active" "TEAM_MONTHLY_BRL" 20.

(** The state after two events. *)
Definition after_two (e1 e2 : subscription_event) : Core :=
  let run e s := (transaction (_apply_event (ev_type e) (ev_resource e) (Some 1%N)
     (Some (ev_created_at e)) (ev_id e) (ev_identity e)) (s <| Core.clock := Example.now |>)).2 in
  run e2 (run e1 Example.s0).

Lemma subscription_events_converge_witness :
  ∃ a1 a2, has_account 1 (after_two older newer) a1 ∧ has_account 1 (after_two newer older) a2 ∧
           governing a1 = governing a2.
Proof.
  destruct (subscription_events_converge 1 [older; newer] [newer; older] Example.s0
    (after_two older newer) (after_two newer older) Example.team_account)
    as (a1 & a2 & H1 & H2 & H3 & _).
  - apply Example.s0_consistent.
  - split; vm_compute; reflexivity.
  - refine (bool_decide_unpack _ _). vm_compute. exact I.
  - apply Permutation_swap.
  - eapply (applied_next _ _ _ Example.now true); [reflexivity|vm_compute; reflexivity|].
    eapply (applied_next _ _ _ Example.now true); [reflexivity|vm_compute; reflexivity|].
    replace (after_two older newer) with (ltac:(let x := eval vm_compute in (after_two older newer) in exact x)) by (vm_compute; reflexivity).
    constructor.
  - eapply (applied_next _ _ _ Example.now true); [reflexivity|vm_compute; reflexivity|].
    eapply (applied_next _ _ _ Example.now false); [reflexivity|vm_compute; reflexivity|].
    replace (after_two newer older) with (ltac:(let x := eval vm_compute in (after_two newer older) in exact x)) by (vm_compute; reflexivity).
    constructor.
  - eauto.
Defined.
End witnesses.
