(* ===== verification/StripeProvider.v ===== *)
(** * The Stripe provider (providers/stripe_provider.py)

    [StripeBillingProvider]: the calls of the Stripe library with their parameters,
    and what is made of the answers and of the errors.  The library is the class
    [StripeClient], its effect on the subscriptions the laws [StripeClientLaws];
    the provider is an instance of the interface of Billing with its laws. *)

From S2P Require Import Prelude.
From S2P Require Import PyText.
From S2P Require Import Json.
From S2P Require Import DateTime.
From S2P Require Import Orm.
From S2P Require Import WorkflowSchema.
From S2P Require Import CoreDb.
From S2P Require Import Billing.

Local Open Scope Z_scope.

(** The settings of Stripe, and the library: a call takes its keyword arguments and
    answers an object or raises. *)
Class StripeClient := {
  STRIPE_SECRET_KEY : option string;
  STRIPE_PORTAL_CONFIGURATION_ID : option string;
  STRIPE_WEBHOOK_SECRET : option string;
  STRIPE_RUNTIME_WEBHOOK_SECRET_FILE : option string;
  customer_create : json → M Core json;
  checkout_session_create : json → M Core json;
  portal_session_create : json → M Core json;
  subscription_retrieve : string → M Core json;
  (** [stripe.Subscription.modify(id, cancel_at_period_end=...)] *)
  subscription_modify : string → bool → M Core json;
  customer_retrieve : string → M Core json;
  (** [stripe.Customer.list_tax_ids(id, limit=100)] *)
  customer_tax_ids : string → M Core json;
  (** [stripe.Webhook.construct_event(payload, signature, secret)] *)
  webhook_event : string → string → string → result json;
  (** [Path(path).read_text(encoding="utf-8")] *)
  read_text : string → result string
}.

(** The attribute of an object of the library. *)
Definition attribute (d : json) (k : string) : result json :=
  match d with
  | JObj l => match assoc k l with Some v => Ok v | None => Err AttributeError end
  | _ => Err AttributeError
  end.
(** [items[0].get("id")] *)
Definition first_item_id (items : json) : result json :=
  match items with
  | JArr (x :: _) => jget x "id"
  | JStr _ => Err AttributeError
  | JObj _ => Err KeyError
  | _ => Err TypeError
  end.
Definition is_os_error (e : exn) : bool :=
  match e with OSError | FileNotFoundError _ | FileExistsError _ => true | _ => false end.

Module StripeBillingProvider.
Section stripe.
Context `{StripeClient}.

(** [__init__] *)
Definition available : result unit :=
  if opt_nonempty STRIPE_SECRET_KEY then Ok tt
  else Err (BillingProviderError "Stripe is not configured").

Definition create_customer (email name : string) (metadata : json) : M Core string :=
  customer ← customer_create (JObj [("email", JStr email); ("name", JStr name); ("metadata", metadata)]);
  identifier ← lift (attribute customer "id");
  mret (py_str identifier).

Definition checkout_parameters
    (customer_id price_id product_code tenant_id success_url cancel_url : string) : json :=
  let metadata := JObj [("tenant_id", JStr tenant_id); ("product_code", JStr product_code)] in
  JObj ([("mode", JStr "subscription"); ("customer", JStr customer_id);
         ("line_items", JArr [JObj [("price", JStr price_id); ("quantity", JNum 1)]]);
         ("success_url", JStr success_url); ("cancel_url", JStr cancel_url);
         ("client_reference_id", JStr tenant_id);
         ("subscription_data", JObj [("metadata", metadata)]); ("metadata", metadata)] ++
        if mem_str product_code ["rubrica_intermediate"; "rubrica_team"]
        then [("tax_id_collection", JObj [("enabled", JBool true)]);
              ("customer_update", JObj [("name", JStr "auto"); ("address", JStr "auto")])]
        else []).

(** The address of an opened session. *)
Definition session_url (session : json) (message : string) : M Core string :=
  url ← lift (attribute session "url");
  raise_if (negb (truthy url)) (BillingProviderError message);;
  mret (py_str url).

Definition create_checkout_session
    (customer_id price_id product_code tenant_id success_url cancel_url : string) : M Core string :=
  checkout ← try_catch
    (checkout_session_create
       (checkout_parameters customer_id price_id product_code tenant_id success_url cancel_url))
    (λ _, raise (BillingProviderError "Stripe checkout could not be opened"));
  session_url checkout "Stripe did not return a checkout URL".

Definition portal_parameters (customer_id return_url : string) : json :=
  JObj ([("customer", JStr customer_id); ("return_url", JStr return_url)] ++
        if opt_nonempty STRIPE_PORTAL_CONFIGURATION_ID
        then [("configuration", JStr (from_option id "" STRIPE_PORTAL_CONFIGURATION_ID))] else []).

(** [parameters["flow_data"]]: a change of the subscription, to a given price. *)
Definition flow_data (subscription_id return_url : string) (completion_url price_id : option string)
    (items : json) : result json :=
  let flow_type := if opt_nonempty price_id then "subscription_update_confirm"
                   else "subscription_update" in
  flow_payload ←
    (if opt_nonempty price_id
     then identifier ← first_item_id items;
          Ok (JObj [("subscription", JStr subscription_id);
                    ("items", JArr [JObj [("id", JStr (py_str identifier));
                       ("price", JStr (from_option id "" price_id)); ("quantity", JNum 1)]])])
     else Ok (JObj [("subscription", JStr subscription_id)]));
  Ok (JObj [("type", JStr flow_type); (flow_type, flow_payload);
            ("after_completion", JObj [("type", JStr "redirect");
               ("redirect", JObj [("return_url",
                  JStr (if opt_nonempty completion_url then from_option id "" completion_url
                        else return_url))])])]).

(** A scheduled cancellation is taken back before the portal is asked for; the
    answer is whether it was scheduled. *)
Definition no_changeable_item : exn := BillingProviderError "Stripe subscription has no changeable item".
Definition prepare_change (subscription_id return_url : string) (completion_url price_id : option string)
    : M Core (json * bool) :=
  subscription ← subscription_retrieve subscription_id;
  flag ← lift (jget_or subscription "cancel_at_period_end" (JBool false));
  when (truthy flag) (subscription_modify subscription_id false;; mret tt);;
  items ← lift (d ← jget_or subscription "items" (JObj []); jget_or d "data" (JArr []));
  raise_if (opt_nonempty price_id && negb (truthy items)) no_changeable_item;;
  flow ← lift (flow_data subscription_id return_url completion_url price_id items);
  mret (flow, truthy flag).

Definition not_opened : exn := BillingProviderError "Stripe billing portal could not be opened".
Definition create_portal_session (customer_id return_url : string)
    (subscription_id completion_url price_id : option string) : M Core string :=
  let parameters := portal_parameters customer_id return_url in
  let change := match subscription_id with Some i => if nonempty i then Some i else None | None => None end in
  prepared ← match change with
             | Some i =>
                 made ← prepare_change i return_url completion_url price_id;
                 mret (jset parameters "flow_data" made.1, made.2)
             | None => mret (parameters, false)
             end;
  let '(parameters, cancellation_was_scheduled) := prepared in
  portal ← try_catch (portal_session_create parameters) (λ _,
    match change with
    | Some i => when cancellation_was_scheduled (subscription_modify i true;; mret tt)
    | None => mret tt
    end;;
    raise not_opened);
  session_url portal "Stripe did not return a portal URL".

Definition retrieve_subscription (subscription_id : string) : M Core json :=
  try_catch (subscription_retrieve subscription_id)
    (λ _, raise (BillingProviderError "Stripe subscription could not be synchronized")).

(** [str(item.get(k) or "")] *)
Definition text_of (item : json) (k : string) : result string :=
  v ← jget item k; Ok (py_str (jor v (JStr ""))).
Definition read_tax_id (item : json) : result ProviderTaxId :=
  i ← text_of item "id"; t ← text_of item "type"; v ← text_of item "value";
  Ok (mkProviderTaxId i t v).
Definition retrieve_customer_business_identity (customer_id : string) : M Core ProviderBusinessIdentity :=
  found ← try_catch
    (customer ← customer_retrieve customer_id; tax_ids ← customer_tax_ids customer_id;
     mret (customer, tax_ids))
    (λ _, raise (BillingProviderError "Stripe customer business identity could not be retrieved"));
  name ← lift (text_of found.1 "name");
  data ← lift (jget_or found.2 "data" (JArr []));
  items ← lift (jitems data);
  tax_ids ← lift (mapM read_tax_id items);
  let name := strip name in
  mret (mkProviderBusinessIdentity (if nonempty name then Some name else None) tax_ids).

Definition _webhook_secret : result (option string) :=
  match STRIPE_RUNTIME_WEBHOOK_SECRET_FILE with
  | Some path =>
      if nonempty path then
        runtime_secret ← match read_text path with
                         | Ok t => Ok (strip t)
                         | Err (FileNotFoundError _) => Ok ""
                         | Err e => if is_os_error e
                             then Err (BillingProviderError "Stripe runtime webhook secret could not be read")
                             else Err e
                         end;
        Ok (if nonempty runtime_secret then Some runtime_secret else STRIPE_WEBHOOK_SECRET)
      else Ok STRIPE_WEBHOOK_SECRET
  | None => Ok STRIPE_WEBHOOK_SECRET
  end.
Definition construct_webhook_event (payload signature : string) : result json :=
  webhook_secret ← _webhook_secret;
  if opt_nonempty webhook_secret then
    match webhook_event payload signature (from_option id "" webhook_secret) with
    | Err (ValueError _) | Err SignatureVerificationError => Err InvalidWebhookSignatureError
    | answer => answer
    end
  else Err (BillingProviderError "Stripe webhook is not configured").

(** The services always name the completion and the price. *)
Definition provider : BillingProvider := {|
  provider_available := available;
  Billing.create_customer := create_customer;
  Billing.create_checkout_session := create_checkout_session;
  Billing.create_portal_session c r i u p := create_portal_session c r i (Some u) (Some p);
  Billing.retrieve_subscription := retrieve_subscription;
  Billing.retrieve_customer_business_identity := retrieve_customer_business_identity;
  Billing.construct_webhook_event := construct_webhook_event
|}.
End stripe.
End StripeBillingProvider.

(** ** The laws of the library, and of the provider *)

(** [cancels s i]: whether the subscription [i] is to be cancelled at the end of its
    period, [None] for no subscription.  Reading answers it, [modify] sets it,
    opening a portal leaves it; none touches core_api. *)
Class StripeClientLaws `{StripeClient} (cancels : Core → string → option bool) : Prop := {
  customer_create_view p : preserves (same core_view) (customer_create p);
  checkout_create_view p : preserves (same core_view) (checkout_session_create p);
  portal_create_view p : preserves (same core_view) (portal_session_create p);
  subscription_retrieve_view i : preserves (same core_view) (subscription_retrieve i);
  subscription_modify_view i b : preserves (same core_view) (subscription_modify i b);
  customer_retrieve_view i : preserves (same core_view) (customer_retrieve i);
  customer_tax_ids_view i : preserves (same core_view) (customer_tax_ids i);
  subscription_retrieve_keeps i : preserves (same cancels) (subscription_retrieve i);
  portal_create_keeps p : preserves (same cancels) (portal_session_create p);
  subscription_retrieve_ok i s o s' :
    subscription_retrieve i s = (Ok o, s') →
    ∃ flag, jget_or o "cancel_at_period_end" (JBool false) = Ok flag ∧ cancels s i = Some (truthy flag);
  subscription_modify_ok i b s o s' :
    subscription_modify i b s = (Ok o, s') →
    cancels s' i = Some b ∧ ∀ j, j ≠ i → cancels s' j = cancels s j;
  (** The library raises its own errors. *)
  subscription_retrieve_err i s m s' : subscription_retrieve i s ≠ (Err (BillingProviderError m), s');
  subscription_modify_err i b s m s' : subscription_modify i b s ≠ (Err (BillingProviderError m), s')
}.

Section laws.
Context `{StripeClient} (cancels : Core → string → option bool) `{!StripeClientLaws cancels}.
Import StripeBillingProvider.

#[local] Hint Resolve customer_create_view checkout_create_view portal_create_view
  subscription_retrieve_view subscription_modify_view customer_retrieve_view
  customer_tax_ids_view : preserve.

(** The provider leaves core_api alone. *)
#[export] Instance stripe_provider_laws : @BillingProviderLaws provider.
Proof.
  split; intros; cbn.
  - unfold create_customer. preserve.
  - unfold create_checkout_session, session_url. preserve.
  - unfold create_portal_session, session_url, prepare_change. preserve.
  - unfold retrieve_subscription. preserve.
  - unfold retrieve_customer_business_identity. preserve.
Qed.

(** ** A scheduled cancellation *)
Lemma flow_data_err i r u p items m : flow_data i r u p items ≠ Err (BillingProviderError m).
Proof.
  unfold flow_data. destruct (opt_nonempty p); [|done].
  destruct items as [|b|z|f|t|[|x l]|l]; try done. cbn. by destruct x.
Qed.
Lemma jget_err o k v m : jget_or o k v ≠ Err (BillingProviderError m).
Proof. by destruct o. Qed.

(** The state after the cancellation was taken back. *)
Definition taken_back (i : string) (s s' : Core) : Prop :=
  cancels s' i = Some false ∧ ∀ j, j ≠ i → cancels s' j = cancels s j.

Lemma take_back_run i flag s s1 u :
  cancels s i = Some (truthy flag) →
  when (truthy flag) (subscription_modify i false;; mret tt) s = (Ok u, s1) → taken_back i s s1.
Proof.
  intros Hc. unfold when. destruct (truthy flag); [|by intros [_ ->]%ret_ok].
  intros Hrun. apply bind_ok in Hrun as (o & s2 & Hm & [_ ->]%ret_ok).
  exact (subscription_modify_ok _ _ _ _ _ Hm).
Qed.

Lemma prepare_change_ok i r u p s flow scheduled s' :
  prepare_change i r u p s = (Ok (flow, scheduled), s') →
  cancels s i = Some scheduled ∧ taken_back i s s'.
Proof.
  unfold prepare_change. intros Hrun.
  apply bind_ok in Hrun as (o & s1 & Ho & Hrun).
  pose proof (preserves_run (same cancels) _ _ _ _ (subscription_retrieve_keeps i) Ho) as Hk.
  destruct (subscription_retrieve_ok _ _ _ _ Ho) as (flag & Hf & Hc).
  apply bind_ok in Hrun as (f & ? & [Ef ->]%lift_ok & Hrun). rewrite Hf in Ef. injection Ef as <-.
  apply bind_ok in Hrun as (t & s2 & Hw & Hrun).
  apply bind_ok in Hrun as (items & ? & [_ ->]%lift_ok & Hrun).
  apply bind_ok in Hrun as (t1 & ? & [_ ->]%raise_if_ok & Hrun).
  apply bind_ok in Hrun as (fl & ? & [_ ->]%lift_ok & Hrun). apply ret_ok in Hrun as [[= -> ->] ->].
  split; [done|]. unfold same in Hk. apply take_back_run in Hw; [|by rewrite Hk].
  unfold taken_back in *. by rewrite Hk in Hw.
Qed.

Lemma prepare_change_err i r u p s m s' :
  prepare_change i r u p s = (Err (BillingProviderError m), s') →
  Err (BillingProviderError m) = Err (A := unit) no_changeable_item ∧ taken_back i s s'.
Proof.
  unfold prepare_change. intros Hrun.
  apply bind_err in Hrun as [Hrun|(o & s1 & Ho & Hrun)]; [by apply subscription_retrieve_err in Hrun|].
  pose proof (preserves_run (same cancels) _ _ _ _ (subscription_retrieve_keeps i) Ho) as Hk.
  destruct (subscription_retrieve_ok _ _ _ _ Ho) as (flag & Hf & Hc).
  apply bind_err in Hrun as [[Ef _]%lift_err|(f & ? & [Ef ->]%lift_ok & Hrun)];
    [by rewrite Hf in Ef|]. rewrite Hf in Ef. injection Ef as <-.
  apply bind_err in Hrun as [Hrun|(t & s2 & Hw & Hrun)].
  { unfold when in Hrun. destruct (truthy flag); [|done].
    apply bind_err in Hrun as [Hrun|(? & ? & _ & [=])]. by apply subscription_modify_err in Hrun. }
  unfold same in Hk. apply take_back_run in Hw; [|by rewrite Hk].
  assert (Ht : taken_back i s s2) by (unfold taken_back in *; by rewrite Hk in Hw).
  apply bind_err in Hrun as [[Ei ->]%lift_err|(items & ? & [_ ->]%lift_ok & Hrun)].
  { destruct (jget_or o "items" (JObj [])) as [d|e] eqn:E; cbn in Ei.
    - by apply jget_err in Ei.
    - injection Ei as ->. by apply jget_err in E. }
  apply bind_err in Hrun as [Hrun|(t1 & ? & [_ ->]%raise_if_ok & Hrun)].
  { unfold raise_if in Hrun. destruct (_ && _); [|done]. injection Hrun as <- <-. done. }
  apply bind_err in Hrun as [[Ei _]%lift_err|(fl & ? & _ & [=])]. by apply flow_data_err in Ei.
Qed.
(** The portal is asked for after the cancellation was taken back. *)
Lemma open_portal_ok i scheduled parameters s s1 portal :
  try_catch (portal_session_create parameters) (λ _,
    when scheduled (subscription_modify i true;; mret tt);; raise not_opened) s = (Ok portal, s1) →
  ∀ j, cancels s1 j = cancels s j.
Proof.
  intros [Hrun|(e & s2 & _ & Hrun)]%try_catch_ok j.
  - pose proof (preserves_run (same cancels) _ _ _ _ (portal_create_keeps _) Hrun) as Hk.
    unfold same in Hk. by rewrite Hk.
  - apply bind_ok in Hrun as (? & ? & _ & [=]).
Qed.
Lemma open_portal_err i scheduled parameters s0 s s1 m :
  cancels s0 i = Some scheduled → taken_back i s0 s →
  try_catch (portal_session_create parameters) (λ _,
    when scheduled (subscription_modify i true;; mret tt);; raise not_opened) s =
    (Err (BillingProviderError m), s1) →
  Err (BillingProviderError m) = Err (A := unit) not_opened ∧ ∀ j, cancels s1 j = cancels s0 j.
Proof.
  intros H0 [Hi Hj] Hrun. unfold try_catch in Hrun.
  destruct (portal_session_create parameters s) as [[o|e] s2] eqn:E; [done|].
  pose proof (preserves_run (same cancels) _ _ _ _ (portal_create_keeps _) E) as Hk. unfold same in Hk.
  apply bind_err in Hrun as [Hrun|(u & s3 & Hw & Hraise)].
  - unfold when in Hrun. destruct scheduled; [|done].
    apply bind_err in Hrun as [Hrun|(? & ? & _ & [=])]. by apply subscription_modify_err in Hrun.
  - injection Hraise as <- <-. split; [done|]. intros j. unfold when in Hw. destruct scheduled.
    + apply bind_ok in Hw as (x & s4 & Hm & [_ ->]%ret_ok).
      destruct (subscription_modify_ok _ _ _ _ _ Hm) as [H1 H2].
      destruct (decide (j = i)) as [->|Hne]; [congruence|]. rewrite H2, Hk by done. by apply Hj.
    + apply ret_ok in Hw as [_ ->]. rewrite Hk.
      destruct (decide (j = i)) as [->|Hne]; [congruence|by apply Hj].
Qed.
Lemma session_url_ok o m s r s' : session_url o m s = (r, s') →
  s' = s ∧ (r = Err (BillingProviderError m) ∨ r = Err AttributeError ∨ ∃ u, r = Ok u).
Proof.
  unfold session_url, lift, mbind, M_bind. destruct o; cbn; try (intros [= <- <-]; auto).
  destruct (assoc "url" _); cbn; [|intros [= <- <-]; auto].
  destruct (truthy _); intros [= <- <-]; eauto.
Qed.
End laws.

(** What the service raises of a session that has no address. *)
Definition no_portal_url : exn := BillingProviderError "Stripe did not return a portal URL".

(** C10: The portal and a scheduled cancellation, by the answer of the call for a
    subscription.  When it answers an address, a scheduled cancellation was taken
    back and no other subscription changed.  When it answers that the portal could
    not be opened, every subscription is as it was: the cancellation was put back
    (where putting it back fails too, the library's own error is the answer, and
    nothing is promised).  When it answers that the subscription has no item to
    change, or that the session has no address, the cancellation stays taken back. *)
Theorem portal_and_scheduled_cancellation `{StripeClient} (cancels : Core → string → option bool)
    `{!StripeClientLaws cancels} (customer_id return_url i : string) (completion_url price_id : option string)
    (s s' : Core) (answer : result string) :
  StripeBillingProvider.create_portal_session customer_id return_url (Some i) completion_url price_id s = (answer, s') →
  nonempty i = true →
  (∀ url, answer = Ok url → cancels s' i = Some false ∧ ∀ j, j ≠ i → cancels s' j = cancels s j) ∧
  (answer = Err StripeBillingProvider.not_opened → ∀ j, cancels s' j = cancels s j) ∧
  (answer = Err StripeBillingProvider.no_changeable_item ∨ answer = Err no_portal_url →
   cancels s' i = Some false ∧ ∀ j, j ≠ i → cancels s' j = cancels s j).
Proof.
  intros Hrun Hi. unfold StripeBillingProvider.create_portal_session in Hrun. rewrite Hi in Hrun.
  destruct (StripeBillingProvider.prepare_change i return_url completion_url price_id s)
    as [[[flow scheduled]|e] s1] eqn:Hp.
  - erewrite bind_step_ok in Hrun by (erewrite bind_step_ok by exact Hp; reflexivity).
    cbn beta iota in Hrun. apply (prepare_change_ok cancels) in Hp as [H0 Ht].
    match type of Hrun with (?m ≫= _) _ = _ => destruct (m s1) as [[portal|e] s2] eqn:Ep end.
    + rewrite (bind_step_ok _ _ _ _ _ Ep) in Hrun. cbn beta in Hrun.
      pose proof (open_portal_ok cancels _ _ _ _ _ _ Ep) as Hk.
      apply session_url_ok in Hrun as [-> Hcases]. unfold taken_back in Ht. rewrite <- (Hk i) in Ht.
      split_and!.
      * intros url _. split; [apply Ht|]. intros j Hj. rewrite Hk. by apply Ht.
      * intros ->. by destruct Hcases as [[=]|[[=]|(u & [=])]].
      * intros _. split; [apply Ht|]. intros j Hj. rewrite Hk. by apply Ht.
    + rewrite (bind_step_err _ _ _ _ _ Ep) in Hrun. injection Hrun as <- <-.
      split_and!; [done| |].
      * intros [= ->]. by apply (open_portal_err cancels _ _ _ s) in Ep as [_ Hk].
      * intros [[= ->]|[= ->]]; by apply (open_portal_err cancels _ _ _ s) in Ep as [[=] _].
  - erewrite bind_step_err in Hrun by (erewrite bind_step_err by exact Hp; reflexivity).
    injection Hrun as <- <-. split_and!; [done| |].
    + intros [= ->]. by apply (prepare_change_err cancels) in Hp as [[=] _].
    + intros [[= ->]|[= ->]]; apply (prepare_change_err cancels) in Hp as [E Ht]; [exact Ht|discriminate E].
Qed.

(** ** The theorem on an example *)
Module StripeExample.

(** One subscription without items, whose flag is the parity of the draws; the
    portal is down. *)
Definition flag (s : Core) : bool := N.odd (Core.draws s).
Definition cancels (s : Core) (i : string) : option bool :=
  if String.eqb i "sub_1" then Some (flag s) else None.
Definition down {A} : M Core A := raise (RuntimeError "connection error").
#[local] Instance client : StripeClient := {|
  STRIPE_SECRET_KEY := Some "sk"; STRIPE_PORTAL_CONFIGURATION_ID := None;
  STRIPE_WEBHOOK_SECRET := Some "whsec"; STRIPE_RUNTIME_WEBHOOK_SECRET_FILE := None;
  customer_create _ := down; checkout_session_create _ := down; portal_session_create _ := down;
  subscription_retrieve i s :=
    if String.eqb i "sub_1"
    then (Ok (JObj [("cancel_at_period_end", JBool (flag s)); ("items", JObj [("data", JArr [])])]), s)
    else down s;
  subscription_modify i b s :=
    if String.eqb i "sub_1"
    then (Ok JNull, if Bool.eqb (flag s) b then s else s <| Core.draws ::= N.succ |>)
    else down s;
  customer_retrieve _ := down; customer_tax_ids _ := down;
  webhook_event _ _ _ := Err SignatureVerificationError;
  read_text path := Err (FileNotFoundError path)
|}.

Lemma flag_succ s : flag (s <| Core.draws ::= N.succ |>) = negb (flag s).
Proof. unfold flag. cbn. by rewrite N.odd_succ, N.negb_odd. Qed.
Lemma flag_set s b : flag (if Bool.eqb (flag s) b then s else s <| Core.draws ::= N.succ |>) = b.
Proof.
  destruct (Bool.eqb (flag s) b) eqn:E; [by apply Bool.eqb_prop in E|].
  rewrite flag_succ. by destruct (flag s), b.
Qed.

#[local] Instance client_laws : StripeClientLaws cancels.
Proof.
  split; try done; unfold cancels; cbn.
  - intros i s. cbn. by destruct (String.eqb i "sub_1").
  - intros i b s. cbn. destruct (String.eqb i "sub_1"); [|done]. cbn. by destruct (Bool.eqb _ _).
  - intros i s. cbn. by destruct (String.eqb i "sub_1").
  - intros i s o s'. destruct (String.eqb i "sub_1"); [|done]. intros [= <- <-].
    exists (JBool (flag s)). done.
  - intros i b s o s'. destruct (String.eqb_spec i "sub_1") as [->|]; [|done]. intros [= <- <-].
    split; [by rewrite flag_set|]. intros j Hj. by destruct (String.eqb_spec j "sub_1").
  - intros i s m s'. by destruct (String.eqb i "sub_1").
  - intros i b s m s'. by destruct (String.eqb i "sub_1").
Qed.

Definition scheduled : Core := Example.s0 <| Core.draws := 1%N |>.
Definition portal (price_id : option string) : result string * Core :=
  StripeBillingProvider.create_portal_session "cus_1" "https://app.example" (Some "sub_1") None price_id scheduled.

(** Without a price the cancellation is put back, with one it is lost. *)
Lemma portal_and_scheduled_cancellation_witness :
  cancels scheduled "sub_1" = Some true ∧
  cancels (portal None).2 "sub_1" = Some true ∧ cancels (portal (Some "price")).2 "sub_1" = Some false.
Proof.
  split; [reflexivity|]. split.
  - exact (proj1 (proj2 (portal_and_scheduled_cancellation cancels "cus_1" "https://app.example" "sub_1"
      None None scheduled (portal None).2 (Err StripeBillingProvider.not_opened)
      (run_outcome (portal None) _ ltac:(vm_compute; reflexivity)) eq_refl)) eq_refl "sub_1").
  - exact (proj1 (proj2 (proj2 (portal_and_scheduled_cancellation cancels "cus_1" "https://app.example" "sub_1"
      None (Some "price") scheduled (portal (Some "price")).2 (Err StripeBillingProvider.no_changeable_item)
      (run_outcome (portal (Some "price")) _ ltac:(vm_compute; reflexivity)) eq_refl)) (or_introl eq_refl))).
Defined.
End StripeExample.
