(* ===== verification/DbWorkflow.v ===== *)
(** * The signature workflow (database_workflow_service.py)

    Documents and their versions, signature requests, signers, signing links,
    signatures and the audit trail.  The database is the state of CoreDb; the
    document store, the PDF library and the document rendering are interfaces. *)

From S2P Require Import Prelude.
From S2P Require Import PyText.
From S2P Require Import Json.
From S2P Require Import DateTime.
From S2P Require Import Orm.
From S2P Require Import WorkflowSchema.
From S2P Require Import CoreDb.
From S2P Require Import Identity.
From S2P Require Import BillingPolicy.
From S2P Require Import Tenant.
From S2P Require Import Billing.
From S2P Require Import Storage.
From S2P Require Import PdfValidation.

Local Open Scope Z_scope.

(** ** What the workflow calls *)

(** Services and libraries outside the repository, and the drawing of the
    signed PDF (signed_pdf.py), which is presentation. *)
Class WorkflowEnv := {
  (** auth_api: [/users/internal/identity-summary] for an e-mail. *)
  auth_identity : string → http_answer;
  (** [generate_signed_pdf(original, stamps=..., metadata=...)] *)
  generate_signed_pdf : string → list json → json → result string;
  (** [PdfFileReader(...).embedded_signatures] is not empty *)
  has_embedded_signatures : string → result bool;
  (** the time stamping of the PDF with the authority's answer *)
  timestamp_pdf : string → result (string * json);
  (** [uuid5(NAMESPACE_URL, name)] *)
  uuid5_url : string → N;
  (** [signature_invitation_email(...)]: subject and text *)
  invitation_email : string → string → string → string → string * string
}.

(** [identity_summary] (identity_client.py) *)
Record IdentitySummary := mkIdentitySummary {
  identifier_type : json; issuing_country : json; masked_display : json
}.
Definition no_identity : IdentitySummary := mkIdentitySummary JNull JNull JNull.

Section clients.
Context `{Env} `{WorkflowEnv}.

Definition identity_summary (email : string) : IdentitySummary :=
  match auth_identity (lower (strip email)) with
  | HttpOk payload =>
      match (t ← jget payload "identifier_type"; c ← jget payload "issuing_country";
             d ← jget payload "masked_display"; Ok (mkIdentitySummary t c d)) with
      | Ok summary => summary
      | Err _ => no_identity
      end
  | HttpStatus _ _ | HttpDown => no_identity
  end.

(** [timestamp_enabled] and [apply_serpro_timestamp] (serpro_timestamp_service.py) *)
Definition timestamp_enabled : bool :=
  String.eqb (SERPRO_TIMESTAMP_PROVIDER settings) "serpro" &&
  nonempty (SERPRO_TIMESTAMP_CONSUMER_KEY settings) &&
  nonempty (SERPRO_TIMESTAMP_CONSUMER_SECRET settings).
Definition apply_serpro_timestamp (pdf : string) : result (string * option json) :=
  if negb timestamp_enabled then Ok (pdf, None)
  else match timestamp_pdf pdf with
       | Ok (output, metadata) => Ok (output, Some metadata)
       | Err (WorkflowError m c k x) => Err (WorkflowError m c k x)
       | Err _ => Err (workflow_error "Could not apply the SERPRO timestamp" 502)
       end.

(** [send_signature_invitation] (notification_client.py) *)
Definition send_signature_invitation (recipient signer_name document_title signing_url locale
    idempotency_key : string) : M Core unit :=
  if negb (mem_str (lower (ENVIRONMENT settings)) ["production"; "prod"]) &&
     ends_with ".local" (lower (strip recipient))
  then mret tt
  else
    let email := invitation_email signer_name document_title signing_url locale in
    post_email (mkEmail recipient email.1 email.2 idempotency_key "")
      (SignatureInvitationDeliveryError "Signature invitation delivery is unavailable").

(** [evidence_sha256] (signed_pdf.py) *)
Definition evidence_sha256 (payload : json) : string := sha256_hex (canonical_json payload).
End clients.

(** The element of a set literal: a list or a dictionary cannot be looked up. *)
Definition in_texts (v : json) (l : list string) : result bool :=
  match v with
  | JStr s => Ok (mem_str s l)
  | JArr _ | JObj _ => Err TypeError
  | _ => Ok false
  end.

Module WorkflowService.
Section service.
Context `{Env} `{WorkflowEnv} `{DocumentStorage} `{PdfLibrary}.

(** ** Lookups and answers *)
Definition open_document (d : Document.DocumentEntity) : bool :=
  bool_decide (Document.deleted_at d = None).
Definition open_signature_request (r : Request.SignatureRequestEntity) : bool :=
  bool_decide (Request.deleted_at r = None).

Definition _audit (request_id : option N) (actor_id action entity_type : string)
    (entity_id : N) (metadata : json) : M Core unit :=
  i ← uuid4; correlation ← uuid4; now ← utc_now;
  add (Audit.make i request_id now "user" actor_id action entity_type entity_id correlation
         metadata).

Definition _account_storage_id (member : option Member.TenantMemberEntity) (subject : string) : N :=
  match member with
  | Some m => match Member.auth_user_uuid m with
              | Some u => u
              | None => uuid5_url ("rubrica-account:" +:+ lower (strip subject))
              end
  | None => uuid5_url ("rubrica-account:" +:+ lower (strip subject))
  end.

Definition _document_owner_storage_id (document : Document.DocumentEntity) : M Core N :=
  owner ← scalar (λ m, N.eqb (Member.tenant_id m) (Document.tenant_id document) &&
    String.eqb (lower (Member.auth_user_id m)) (lower (Document.created_by document)) &&
    TenantService.not_deleted m);
  mret (_account_storage_id owner (Document.created_by document)).

(** [_document(db, str(value))] of an identifier: [UUID(str(value))] is [value]. *)
Definition _document_of (value : N) : M Core Document.DocumentEntity :=
  found ← scalar (λ d, N.eqb (Document.id d) value && open_document d);
  some_or found (workflow_error "Document not found" 404).
Definition _document (identifier : string) : M Core Document.DocumentEntity :=
  value ← some_or (parse_uuid identifier) (workflow_error "Document not found" 404);
  _document_of value.

Definition _request (identifier : string) : M Core Request.SignatureRequestEntity :=
  value ← some_or (parse_uuid identifier) (workflow_error "Signature request not found" 404);
  found ← scalar (λ r, N.eqb (Request.id r) value && open_signature_request r);
  some_or found (workflow_error "Signature request not found" 404).

Definition _signer (identifier : string) (request_id : N) : M Core Signer.SignerEntity :=
  value ← some_or (parse_uuid identifier) (workflow_error "Signer not found" 404);
  found ← scalar (λ g, N.eqb (Signer.id g) value && N.eqb (Signer.signature_request_id g) request_id);
  some_or found (workflow_error "Signer not found" 404).

Definition signer_of (request_id : N) (g : Signer.SignerEntity) : bool :=
  N.eqb (Signer.signature_request_id g) request_id.
Definition identified_as (actor : string) (g : Signer.SignerEntity) : bool :=
  String.eqb (Signer.auth_user_id g) actor || String.eqb (Signer.email g) actor.

(** The invitations of an actor: signers with their request, not deleted. *)
Definition invitations_of (actor : string) : M Core (list (Signer.SignerEntity * Request.SignatureRequestEntity)) :=
  joined (λ _ _, true) (λ g r,
    N.eqb (Request.id r) (Signer.signature_request_id g) && open_signature_request r &&
    identified_as actor g).

Definition _require_document_access (document : Document.DocumentEntity) (actor_id : string)
    (request : option Request.SignatureRequestEntity) : M Core unit :=
  member ← TenantService.require_role (Document.tenant_id document) actor_id None false;
  let normalized_actor := lower actor_id in
  if TenantService.is_admin member || String.eqb (lower (Document.created_by document)) normalized_actor
  then mret tt
  else
    rows ← joined (λ _ _, true) (λ g r,
      N.eqb (Request.id r) (Signer.signature_request_id g) &&
      N.eqb (Request.document_id r) (Document.id document) && open_signature_request r &&
      identified_as normalized_actor g &&
      match request with Some q => N.eqb (Request.id r) (Request.id q) | None => true end);
    raise_if (match head rows with Some _ => false | None => true end)
      (workflow_error "Document access is not allowed" 403).

Definition _require_request_access (request : Request.SignatureRequestEntity)
    (actor_id : string) : M Core unit :=
  found ← get (R := Document.DocumentEntity) (Request.document_id request);
  document ← some_or found (workflow_error "Document not found" 404);
  _require_document_access document actor_id (Some request).

Definition is_signed (g : Signer.SignerEntity) : bool := is_status (Signer.status g) SIGNED.

Definition _request_read (item : Request.SignatureRequestEntity) : M Core SignatureRequestRead :=
  signer_count ← count (signer_of (Request.id item));
  signed_count ← count (λ g, signer_of (Request.id item) g && is_signed g);
  document ← get (R := Document.DocumentEntity) (Request.document_id item);
  mret (mkSignatureRequestRead (Request.id item) (Request.document_id item)
    (Request.document_version item) (Request.document_sha256 item) (Request.status item)
    (Request.expires_at item) (Request.created_by item) (Request.created_at item)
    (Request.completed_at item) signer_count signed_count
    (match document with Some d => Document.title d | None => "" end)
    (match document with Some d => Document.original_filename d | None => "" end)
    (Request.signature_mode item) (Request.issuer_snapshot item)).

Definition _document_read (x : Document.DocumentEntity) : M Core DocumentRead :=
  versions ← columns (λ v, N.eqb (Version.document_id v) (Document.id x) &&
                           Z.eqb (Version.version v) (Document.version x));
  request_count ← count (λ r, N.eqb (Request.document_id r) (Document.id x) &&
                              open_signature_request r);
  signed ← joined (λ _ _, true) (λ g r,
    N.eqb (Request.id r) (Signer.signature_request_id g) &&
    N.eqb (Request.document_id r) (Document.id x) && open_signature_request r && is_signed g);
  mret (mkDocumentRead (Document.id x) (Document.organization_id x) (Document.title x)
    (Document.original_filename x) (Document.content_type x) (Document.sha256 x)
    (Document.version x) (Document.status x) (Document.created_by x) (Document.created_at x)
    (Version.size_bytes <$> head versions) request_count (Z.of_nat (length signed))).

Definition _version_read (x : Version.DocumentVersionEntity) : DocumentVersionRead :=
  mkDocumentVersionRead (Version.document_id x) (Version.version x)
    (Version.original_filename x) (Version.content_type x) (Version.sha256 x)
    (Version.size_bytes x) (Version.created_by x) (Version.created_at x).

Definition _signer_read (x : Signer.SignerEntity) : SignerRead :=
  mkSignerRead (Signer.id x) (Signer.signature_request_id x) (Signer.auth_user_id x)
    (Signer.name x) (Signer.email x) (Signer.preferred_locale x) (Signer.status x)
    (Signer.token_expires_at x) (Signer.link_revoked_at x) (Signer.signed_at x)
    (Signer.participant_role x) (Signer.represented_tenant_id x)
    (Signer.representation_snapshot x).

Definition _signing_url (token : string) : string :=
  rstrip_slash (SIGNING_APP_URL settings) +:+ "/" +:+ token.

Definition _request_token (request_id : N) (nonce : string) : string :=
  let token_identifier :=
    if (request_id <=? 2147483647)%N then show_Z (Z.of_N request_id) else uuid_str request_id in
  hmac_sha256_hex (EVIDENCE_SECRET settings)
    ("rubrica-request:" +:+ token_identifier +:+ ":" +:+ nonce).

(** ** Documents *)

(** [with SessionLocal.begin() as db: ...] around a body that stores an object:
    [prepare] is the part up to and including [storage.put], whose key the
    handler outside the transaction discards when the rest or the commit
    fails. *)
Definition discarding_on_failure {P A} (prepare : M Core (P * string))
    (finish : P → string → M Core A) : M Core A := λ s,
  match prepare s with
  | (Err e, s1) => (Err e, rollback_session s s1)
  | (Ok (p, key), s1) =>
      match transaction (λ _, finish p key s1) s with
      | (Ok a, s2) => (Ok a, s2)
      | (Err e, s2) =>
          (when (nonempty key) (discard_uncommitted key);; raise e) s2
      end
  end.

Definition add_document_version (document_id : N) (version : Z)
    (filename content_type key digest : string) (size : Z) (created_by : string) : M Core unit :=
  i ← uuid4; now ← utc_now;
  add (Version.make i document_id version filename content_type key digest size created_by
         now None).

Definition create_document (payload : DocumentCreate) (content : string) : M Core DocumentRead :=
  raise_if (String.eqb content "") (workflow_error "Document content cannot be empty" 400);;
  let digest := sha256_hex content in
  discarding_on_failure
    (found ← scalar (λ t, String.eqb (Tenant.slug t) (dc_organization_id payload) &&
                          TenantService.open_tenant t);
     tenant ← some_or found (workflow_error "Tenant not found" 404);
     member ← TenantService.require_role (Tenant.id tenant) (dc_created_by payload)
                (Some ["admin"; "member"]) false;
     BillingService.consume_document (Tenant.id tenant);;
     stored ← put content (dc_original_filename payload) (Some digest)
       (Some (document_storage_scope (Tenant.id tenant)
          (_account_storage_id (Some member) (dc_created_by payload))));
     mret ((tenant, stored.2), stored.1))
    (λ '(tenant, size) key,
     i ← uuid4; now ← utc_now;
     let item := Document.make i (dc_organization_id payload) (Tenant.id tenant)
       (dc_title payload) (dc_original_filename payload) (dc_content_type payload) key digest 1
       READY (dc_created_by payload) now None in
     add item;;
     flush;;
     add_document_version i 1 (dc_original_filename payload) (dc_content_type payload) key digest
       size (dc_created_by payload);;
     flush;;
     _audit None (dc_created_by payload) "document.uploaded" "document" i
       (JObj [("version", JNum 1); ("sha256", JStr digest)]);;
     _document_read item).

(** The statuses that freeze the version of a document. *)
Definition freezes (r : Request.SignatureRequestEntity) : bool :=
  one_of (Request.status r) [OPEN; COMPLETED].

Definition add_version (document_id filename content_type actor_id content : string)
    : M Core DocumentRead :=
  raise_if (String.eqb content "") (workflow_error "Document content cannot be empty" 400);;
  let digest := sha256_hex content in
  discarding_on_failure
    (item ← _document document_id;
     member ← TenantService.require_role (Document.tenant_id item) actor_id
                (Some ["admin"; "member"]) false;
     frozen ← columns (λ r, N.eqb (Request.document_id r) (Document.id item) && freezes r);
     raise_if (match head frozen with Some _ => true | None => false end)
       (workflow_error "A frozen document cannot receive a new version" 409);;
     stored ← put content filename (Some digest)
       (Some (document_storage_scope (Document.tenant_id item)
          (_account_storage_id (Some member) actor_id)));
     mret ((item, stored.2), stored.1))
    (λ '(item, size) key,
     let version := Document.version item + 1 in
     assign (Document.id item) (λ d,
       d <| Document.version := version |> <| Document.original_filename := filename |>
         <| Document.content_type := content_type |> <| Document.storage_key := key |>
         <| Document.sha256 := digest |>);;
     add_document_version (Document.id item) version filename content_type key digest size
       actor_id;;
     flush;;
     _audit None actor_id "document.version_created" "document" (Document.id item)
       (JObj [("version", JNum version); ("sha256", JStr digest)]);;
     updated ← deref (R := Document.DocumentEntity) (Document.id item);
     _document_read updated).

(** [[read(x) for x in l if not over_limit(x)]] *)
Definition reads_within_limit {A B} (tenant_of : A → M Core N) (read : A → M Core B)
    (l : list A) : M Core (list B) :=
  answers ← mapM (λ x,
    tenant_id ← tenant_of x;
    over ← TenantService.team_over_limit tenant_id;
    if (over : bool) then mret None else r ← read x; mret (Some r)) l;
  mret (omap id answers).

(** Who sees the work of a tenant: its administrators, the author, the invited. *)
Definition visible_membership (identity : Member.TenantMemberEntity → bool)
    (tenant_id : N) (own : bool) (m : Member.TenantMemberEntity) : bool :=
  N.eqb (Member.tenant_id m) tenant_id && TenantService.not_deleted m &&
  TenantService.is_active m && identity m && (TenantService.is_admin m || own).

Definition list_documents (actor_id : string) : M Core (list DocumentRead) :=
  read_session (
    let normalized_actor := lower actor_id in
    invitations ← invitations_of normalized_actor;
    identity ← TenantService.membership_identity_filter actor_id None;
    rows ← joined (λ p q, N.leb (Document.id p.1) (Document.id q.1)) (λ d m,
      open_document d &&
      visible_membership identity (Document.tenant_id d)
        (String.eqb (lower (Document.created_by d)) normalized_actor ||
         existsb (λ p, N.eqb (Request.document_id p.2) (Document.id d)) invitations) m);
    reads_within_limit (λ d, mret (Document.tenant_id d)) _document_read (map fst rows)).

Definition get_document (document_id actor_id : string) : M Core DocumentRead :=
  read_session (
    item ← _document document_id;
    _require_document_access item actor_id None;;
    _document_read item).

Definition cancel_for_deletion (actor_id : string) (request : Request.SignatureRequestEntity)
    : M Core unit :=
  assign (Request.id request) (λ r, r <| Request.status := CANCELLED |>);;
  _audit (Some (Request.id request)) actor_id "signature_request.cancelled" "signature_request"
    (Request.id request) (JObj [("reason", JStr "document_deleted")]).

Definition delete_document (document_id actor_id : string) (force : bool) : M Core unit :=
  transaction (
    item ← _document document_id;
    TenantService.require_role (Document.tenant_id item) actor_id (Some ["admin"]) false;;
    active_requests ← scalars (λ r, N.eqb (Request.document_id r) (Document.id item) &&
                                    one_of (Request.status r) [DRAFT; OPEN]);
    let n := Z.of_nat (length active_requests) in
    raise_if (negb (n =? 0) && negb force)
      (WorkflowError "Document has signature requests in progress" 409
         (Some "document_has_active_requests") [("active_request_count", n)]);;
    for_each (cancel_for_deletion actor_id) active_requests;;
    now ← utc_now;
    assign (Document.id item) (λ d, d <| Document.deleted_at := Some now |>);;
    _audit None actor_id "document.deleted" "document" (Document.id item)
      (JObj [("cancelled_request_count", JNum n)])).

(** The stored bytes of a version, checked against the recorded digest. *)
Definition verified_content (metadata : DocumentVersionRead) (storage_key : string)
    : M Core (DocumentVersionRead * string) :=
  content ← get_object storage_key;
  raise_if (negb (String.eqb (sha256_hex content) (vr_sha256 metadata)))
    (workflow_error "Stored document integrity check failed" 409);;
  lift (validate_pdf_upload content (vr_original_filename metadata) "application/pdf");;
  mret (metadata, content).

Definition get_content (document_id : string) (version : option Z) (actor_id : option string)
    : M Core (DocumentVersionRead * string) :=
  found ← read_session (
    document ← _document document_id;
    match actor_id with
    | Some a => _require_document_access document a None
    | None => mret tt
    end;;
    let target := match version with
                  | Some v => if Z.eqb v 0 then Document.version document else v
                  | None => Document.version document
                  end in
    item ← scalar (λ v, N.eqb (Version.document_id v) (Document.id document) &&
                        Z.eqb (Version.version v) target);
    item ← some_or item (workflow_error "Document version not found" 404);
    mret (_version_read item, Version.storage_key item));
  verified_content found.1 found.2.

(** ** Requests *)
Definition set_request (i : N) (f : Request.SignatureRequestEntity → Request.SignatureRequestEntity)
    : M Core unit := assign i f.
Definition set_signer (i : N) (f : Signer.SignerEntity → Signer.SignerEntity) : M Core unit :=
  assign i f.

(** The answer about an object the session has changed. *)
Definition request_read_of (i : N) : M Core SignatureRequestRead :=
  item ← deref (R := Request.SignatureRequestEntity) i; _request_read item.
Definition signer_read_of (i : N) : M Core SignerRead :=
  item ← deref (R := Signer.SignerEntity) i; mret (_signer_read item).

Definition create_request (payload : SignatureRequestCreate) : M Core SignatureRequestRead :=
  now ← utc_now;
  raise_if (rc_expires_at payload <=? now)
    (workflow_error "Expiration must be in the future" 400);;
  transaction (
    document ← _document_of (rc_document_id payload);
    TenantService.require_role (Document.tenant_id document) (rc_created_by payload)
      (Some ["admin"; "member"]) false;;
    tenant ← TenantService.existing_tenant (Document.tenant_id document);
    i ← uuid4; now ← utc_now;
    let item := Request.make i (Document.id document) (Document.version document)
      (Document.sha256 document) DRAFT (rc_expires_at payload) (rc_created_by payload) None None
      None EVIDENCE (Some (TenantService.issuer_snapshot tenant)) now None in
    add item;;
    flush;;
    _audit (Some i) (rc_created_by payload) "signature_request.created" "signature_request" i
      (JObj [("document_version", JNum (Document.version document));
             ("document_sha256", JStr (Document.sha256 document))]);;
    _request_read item).

Definition list_requests (actor_id : string) : M Core (list SignatureRequestRead) :=
  read_session (
    let normalized_actor := lower actor_id in
    invited ← columns (identified_as normalized_actor);
    identity ← TenantService.membership_identity_filter actor_id None;
    documents ← columns open_document;
    rows ← joined (λ p q, N.leb (Request.id p.1) (Request.id q.1)) (λ r m,
      open_signature_request r &&
      existsb (λ d, N.eqb (Document.id d) (Request.document_id r) &&
        visible_membership identity (Document.tenant_id d)
          (String.eqb (lower (Request.created_by r)) normalized_actor ||
           existsb (signer_of (Request.id r)) invited) m) documents);
    reads_within_limit
      (λ r, d ← _document_of (Request.document_id r); mret (Document.tenant_id d))
      _request_read (map fst rows)).

Definition get_request (request_id actor_id : string) : M Core SignatureRequestRead :=
  read_session (
    request ← _request request_id;
    _require_request_access request actor_id;;
    _request_read request).

(** The request of an operation that changes it: locked and accessible. *)
Definition accessible_request (request_id actor_id : string)
    : M Core Request.SignatureRequestEntity :=
  request ← _request request_id;
  _require_request_access request actor_id;;
  mret request.

(** ** Signers *)
Definition active_representative (tenant_id : N) (identity : Member.TenantMemberEntity → bool)
    (m : Member.TenantMemberEntity) : bool :=
  N.eqb (Member.tenant_id m) tenant_id && identity m && TenantService.is_active m &&
  mem_str (Member.role m) ["admin"; "member"] && TenantService.not_deleted m.

(** The snapshot of a company representation, with the checks that allow it. *)
Definition representation_of (request : Request.SignatureRequestEntity)
    (payload : SignerCreate) (email : string) : M Core json :=
  document ← _document_of (Request.document_id request);
  raise_if (negb (bool_decide (sc_represented_tenant_id payload = Some (Document.tenant_id document))))
    (workflow_error "The represented company must be the document tenant" 422);;
  found ← get (R := Tenant.TenantEntity) (Document.tenant_id document);
  tenant ← some_or found (workflow_error "Company representation requires a business tenant" 409);
  raise_if (negb (String.eqb (Tenant.kind tenant) "business"))
    (workflow_error "Company representation requires a business tenant" 409);;
  enabled ← business_features_enabled (Tenant.id tenant);
  raise_if (negb enabled)
    (workflow_error "A Professional or Team plan is required for company representation" 403);;
  found ← scalar (active_representative (Tenant.id tenant)
    (λ m, String.eqb (Member.auth_user_id m) email));
  member ← some_or found
    (workflow_error "The representative must be an active authorized tenant member" 422);
  now ← utc_now;
  mret (junion (TenantService.issuer_snapshot tenant) (JObj
    [("representative_role", JStr (Member.role member));
     ("authorization_status", JStr "active_membership");
     ("authorized_at", JStr (isoformat now))])).

Definition add_signer (request_id : string) (payload : SignerCreate) (actor_id : string)
    : M Core SignerRead :=
  token ← token_urlsafe 32;
  transaction (
    request ← accessible_request request_id actor_id;
    raise_if (negb (is_status (Request.status request) DRAFT))
      (workflow_error "Signers can only be added to a draft request" 409);;
    let email := lower (sc_email payload) in
    raise_if (is_status (sc_participant_role payload) CORPORATE_SEAL)
      (workflow_error
         "Corporate seal requires a configured organizational credential provider" 409);;
    snapshot ←
      (if is_status (sc_participant_role payload) COMPANY_REPRESENTATIVE
       then j ← representation_of request payload email; mret (Some j)
       else mret None);
    i ← uuid4; now ← utc_now;
    let item := Signer.make i (Request.id request) email (sc_name payload) email
      (sc_preferred_locale payload) (sha256_hex token)
      (DateTimeService.add_seconds now (sc_token_ttl_seconds payload)) None PENDING None
      (sc_participant_role payload) (sc_represented_tenant_id payload) snapshot now None in
    add item;;
    try_catch flush (λ e,
      match e with
      | IntegrityError =>
          raise (workflow_error "This authenticated user is already a signer" 409)
      | _ => raise e
      end);;
    _audit (Some (Request.id request)) actor_id "signer.link_created" "signer" i
      (JObj [("token_expires_at", JStr (isoformat (Signer.token_expires_at item)))]);;
    mret (_signer_read item)).

Definition list_signers (request_id actor_id : string) : M Core (list SignerRead) :=
  read_session (
    request ← accessible_request request_id actor_id;
    rows ← scalars_ordered (λ a b, N.leb (Signer.id a) (Signer.id b)) (signer_of (Request.id request));
    mret (map _signer_read rows)).

(** The first fifty contacts, each e-mail once, most recent first. *)
Fixpoint collect_contacts (search : string) (room : nat) (seen : list string)
    (l : list Signer.SignerEntity) : list SignerContactRead :=
  match room, l with
  | O, _ | _, [] => []
  | S room', signer :: l =>
      let email := lower (strip (Signer.email signer)) in
      if mem_str email seen ||
         (nonempty search && negb (contains search (lower (Signer.name signer))) &&
          negb (contains search email))
      then collect_contacts search room seen l
      else mkSignerContactRead (Signer.name signer) email ::
           collect_contacts search room' (email :: seen) l
  end.

Definition list_signer_contacts (tenant_id : N) (actor_id query : string)
    : M Core (list SignerContactRead) :=
  let search := lower (strip query) in
  read_session (
    TenantService.require_role tenant_id actor_id (Some ["admin"; "member"]) false;;
    documents ← columns (λ d, N.eqb (Document.tenant_id d) tenant_id);
    rows ← joined (λ p q, Z.leb (Signer.created_at q.1) (Signer.created_at p.1)) (λ g r,
      N.eqb (Request.id r) (Signer.signature_request_id g) &&
      existsb (λ d, N.eqb (Document.id d) (Request.document_id r)) documents &&
      bool_decide (Signer.deleted_at g = None));
    mret (collect_contacts search 50 [] (map fst rows))).

Definition revoke_signer_link (request_id signer_id actor_id : string) : M Core SignerRead :=
  transaction (
    request ← accessible_request request_id actor_id;
    signer ← _signer signer_id (Request.id request);
    raise_if (is_signed signer)
      (workflow_error "A completed signature link cannot be revoked" 409);;
    when (bool_decide (Signer.link_revoked_at signer = None)) (
      now ← utc_now;
      set_signer (Signer.id signer) (λ g, g <| Signer.link_revoked_at := Some now |>);;
      _audit (Some (Request.id request)) actor_id "signer.link_revoked" "signer"
        (Signer.id signer) (JObj []));;
    flush;;
    signer_read_of (Signer.id signer)).

(** ** Signing links *)
Definition create_signing_link (request_id actor_id : string) : M Core SigningLinkRead :=
  made ← transaction (
    request ← accessible_request request_id actor_id;
    raise_if (negb (one_of (Request.status request) [OPEN; COMPLETED]))
      (workflow_error "Only an open or completed request can receive a signing link" 409);;
    nonce ← token_urlsafe 24;
    let token := _request_token (Request.id request) nonce in
    set_request (Request.id request) (λ r,
      r <| Request.signing_token_nonce := Some nonce |>
        <| Request.signing_token_hash := Some (sha256_hex token) |>);;
    _audit (Some (Request.id request)) actor_id "signature_request.link_created"
      "signature_request" (Request.id request) (JObj []);;
    document ← _document_of (Request.document_id request);
    signers ← scalars (λ g, signer_of (Request.id request) g &&
      one_of (Signer.status g) [PENDING; VIEWED] &&
      bool_decide (Signer.link_revoked_at g = None));
    send_email ← email_invitations_enabled (Document.tenant_id document);
    mret (token, Document.title document, send_email, map (λ g,
      (g, "signature-invite:" +:+ uuid_str (Request.id request) +:+ ":" +:+
          uuid_str (Signer.id g) +:+ ":" +:+ nonce)) signers));
  let '(token, title, send_email, invitations) := made in
  when send_email (for_each (λ '(g, key),
    send_signature_invitation (Signer.email g) (Signer.name g) title (_signing_url token)
      (Signer.preferred_locale g) key) invitations);;
  mret (mkSigningLinkRead (_signing_url token)).

Definition get_signing_link (request_id actor_id : string) : M Core SigningLinkRead :=
  read_session (
    request ← accessible_request request_id actor_id;
    raise_if (negb (opt_nonempty (Request.signing_token_nonce request)))
      (workflow_error "Signing link must be generated again" 404);;
    let token := _request_token (Request.id request)
                   (from_option id "" (Request.signing_token_nonce request)) in
    raise_if (negb (bool_decide (Request.signing_token_hash request = Some (sha256_hex token))))
      (workflow_error "Signing link integrity check failed" 409);;
    mret (mkSigningLinkRead (_signing_url token))).

(** ** Opening and cancelling *)

(** The checks of the mode a request is opened with. *)
Definition check_signature_mode (request : Request.SignatureRequestEntity) (mode : SignatureMode)
    (signer_count : Z) : M Core unit :=
  raise_if (is_status mode SERPRO_TIMESTAMP && negb timestamp_enabled)
    (workflow_error "SERPRO timestamp is not configured" 409);;
  when (is_status mode SERPROID) (
    raise_if (negb (nonempty (SERPROID_CLIENT_ID settings)) ||
              negb (nonempty (SERPROID_CLIENT_SECRET settings)))
      (workflow_error "Serpro ID is not configured" 409);;
    raise_if (negb (signer_count =? 1))
      (workflow_error "Serpro ID requests currently require exactly one signer" 409);;
    found ← scalar (signer_of (Request.id request));
    signer ← some_or found
      (workflow_error "The Serpro ID signer must have a Brazilian CPF or CNPJ" 409);
    brazilian ← lift (in_texts (identifier_type (identity_summary (Signer.email signer)))
                        ["BR_CPF"; "BR_CNPJ"]);
    raise_if (negb brazilian)
      (workflow_error "The Serpro ID signer must have a Brazilian CPF or CNPJ" 409)).

Definition open_request (request_id actor_id : string) (mode : SignatureMode)
    : M Core SignatureRequestRead :=
  transaction (
    request ← accessible_request request_id actor_id;
    raise_if (negb (is_status (Request.status request) DRAFT))
      (workflow_error "Only a draft request can be opened" 409);;
    signer_count ← count (signer_of (Request.id request));
    raise_if (signer_count =? 0) (workflow_error "At least one signer is required" 409);;
    check_signature_mode request mode signer_count;;
    document ← _document_of (Request.document_id request);
    raise_if (negb (Document.version document =? Request.document_version request) ||
              negb (String.eqb (Document.sha256 document) (Request.document_sha256 request)))
      (workflow_error "Document changed after request creation" 409);;
    set_request (Request.id request) (λ r,
      r <| Request.status := OPEN |> <| Request.signature_mode := mode |>);;
    _audit (Some (Request.id request)) actor_id "signature_request.opened" "signature_request"
      (Request.id request) (JObj [("signature_mode", JStr (signature_mode_value mode))]);;
    flush;;
    request_read_of (Request.id request)).

Definition cancel_request (request_id actor_id : string) : M Core SignatureRequestRead :=
  transaction (
    request ← accessible_request request_id actor_id;
    raise_if (negb (one_of (Request.status request) [DRAFT; OPEN]))
      (workflow_error "Request cannot be cancelled" 409);;
    set_request (Request.id request) (λ r, r <| Request.status := CANCELLED |>);;
    _audit (Some (Request.id request)) actor_id "signature_request.cancelled"
      "signature_request" (Request.id request) (JObj []);;
    flush;;
    request_read_of (Request.id request)).

(** ** Signing *)
Definition _request_from_token (token : string) : M Core Request.SignatureRequestEntity :=
  found ← scalar (λ r, bool_decide (Request.signing_token_hash r = Some (sha256_hex token)) &&
                       open_signature_request r);
  some_or found (workflow_error "Signing link is invalid" 404).

Definition signer_identity (request_id : N) (auth_user_id : string) (g : Signer.SignerEntity) : bool :=
  signer_of request_id g && String.eqb (Signer.auth_user_id g) (lower auth_user_id).

Definition _resolve_request (token auth_user_id : string) (allow_completed : bool)
    : M Core (Signer.SignerEntity * Request.SignatureRequestEntity) :=
  request ← _request_from_token token;
  found ← scalar (signer_identity (Request.id request) auth_user_id);
  match found with
  | None =>
      _audit (Some (Request.id request)) auth_user_id "authorization.failed" "signature_request"
        (Request.id request) (JObj []);;
      raise (workflow_error "Authenticated user does not match a signer for this request" 403)
  | Some signer =>
      now ← utc_now;
      raise_if (bool_decide (Signer.link_revoked_at signer ≠ None))
        (workflow_error "Signing access has been revoked" 410);;
      let signed_history := allow_completed && is_signed signer in
      raise_if ((Request.expires_at request <=? now) && negb signed_history)
        (workflow_error "Signature request has expired" 410);;
      raise_if (negb (is_status (Request.status request) OPEN) && negb signed_history)
        (workflow_error "Signature request is not open" 409);;
      mret (signer, request)
  end.

(** What is drawn on the signer's page: latest signature first. *)
Definition signed_last (a b : Signer.SignerEntity) : bool :=
  lexico (λ x y, nulls_last (λ u v, Z.leb v u) (Signer.signed_at x) (Signer.signed_at y))
         (λ x y, N.leb (Signer.id x) (Signer.id y)) a b.

Definition signing_context (token auth_user_id : string) (administrator : bool)
    : M Core SigningRead :=
  read_session (
    request ← _request_from_token token;
    authenticated ← scalar (signer_identity (Request.id request) auth_user_id);
    let administrative_view := administrator && bool_decide ((Signer.id <$> authenticated) = None) in
    parties ←
      (if administrative_view
       then
         _require_request_access request auth_user_id;;
         rows ← scalars_ordered signed_last (signer_of (Request.id request));
         signer ← some_or (head rows) (workflow_error "Signature request has no signers" 409);
         mret (signer, request)
       else _resolve_request token auth_user_id true);
    let '(signer, request) := parties in
    document ← _document_of (Request.document_id request);
    tenant ← get (R := Tenant.TenantEntity) (Document.tenant_id document);
    signature ← scalar (λ k, N.eqb (Signature.signature_request_id k) (Request.id request) &&
                             N.eqb (Signature.signer_id k) (Signer.id signer));
    stamp ← match signature with
            | Some k =>
                if administrative_view then mret None
                else v ← lift (jget (Signature.evidence_json k) "stamp");
                     mret (match v with JNull => None | _ => Some v end)
            | None => mret None
            end;
    read ← _request_read request;
    mret (mkSigningRead read (_signer_read signer) (Document.title document)
      (Document.original_filename document) (tenant ≫= Tenant.country_code) stamp
      (if administrative_view then "administrator" else "signer")
      (Request.issuer_snapshot request))).

(** The request behind a link, for its signer or an administrator. *)
Definition request_for_reader (token auth_user_id : string) (administrator : bool)
    : M Core Request.SignatureRequestEntity :=
  if administrator then
    request ← _request_from_token token;
    signer ← scalar (signer_identity (Request.id request) auth_user_id);
    match signer with
    | Some _ => mret tt
    | None => _require_request_access request auth_user_id
    end;;
    mret request
  else
    found ← _resolve_request token auth_user_id true;
    mret found.2.

Definition signing_document (token auth_user_id : string) (administrator : bool)
    : M Core (DocumentVersionRead * string) :=
  found ← read_session (
    request ← request_for_reader token auth_user_id administrator;
    item ← scalar (λ v, N.eqb (Version.document_id v) (Request.document_id request) &&
                        Z.eqb (Version.version v) (Request.document_version request));
    version ← some_or item (workflow_error "Document version not found" 404);
    mret (_version_read version, Version.storage_key version));
  verified_content found.1 found.2.

Definition view (token auth_user_id : string) : M Core SignerRead :=
  transaction (
    found ← _resolve_request token auth_user_id false;
    let '(signer, request) := found in
    when (is_status (Signer.status signer) PENDING) (
      set_signer (Signer.id signer) (λ g, g <| Signer.status := VIEWED |>);;
      _audit (Some (Request.id request)) auth_user_id "document.viewed" "signer"
        (Signer.id signer) (JObj []));;
    flush;;
    signer_read_of (Signer.id signer)).

Definition decline (token auth_user_id : string) : M Core SignerRead :=
  transaction (
    found ← _resolve_request token auth_user_id false;
    let '(signer, request) := found in
    raise_if (one_of (Signer.status signer) [SIGNED; DECLINED])
      (workflow_error "Signer already answered" 409);;
    set_signer (Signer.id signer) (λ g, g <| Signer.status := DECLINED |>);;
    _audit (Some (Request.id request)) auth_user_id "signature.declined" "signer"
      (Signer.id signer) (JObj []);;
    flush;;
    signer_read_of (Signer.id signer)).

(** *** The evidence of a signature *)
Definition device_type (agent : string) : string :=
  let lowered := lower agent in
  if existsb (λ w, contains w lowered) ["mobile"; "android"; "iphone"] then "mobile"
  else if contains "ipad" lowered then "tablet" else "desktop".

Definition _signature_evidence (request : Request.SignatureRequestEntity)
    (signer : Signer.SignerEntity) (auth_user_id : string) (signed_at : Z)
    (stamp : StampPosition) (consent_version : string) (client : option ClientEvidence)
    (geolocation : option GeolocationEvidence) (ip_address user_agent : string)
    (identity : IdentitySummary) (tenant_country : option string) : result json :=
  let hmac v := hmac_sha256_hex (EVIDENCE_SECRET settings) v in
  let binding := lower auth_user_id +:+ "|" +:+ uuid_str (Request.id request) +:+ "|" +:+
    uuid_str (Signer.id signer) +:+ "|" +:+ uuid_str (Request.document_id request) +:+ "|" +:+
    show_Z (Request.document_version request) in
  let cut := take_str 1000 user_agent in
  let normalized_agent := if nonempty cut then cut else "unknown" in
  let evidence_country := jor (issuing_country identity) (jopt_str tenant_country) in
  local_template ← in_texts evidence_country ["BR"; "JP"];
  let stamp_payload :=
    jset (jset (jset (dump_stamp stamp) "country_code" evidence_country)
            "show_flag" (JBool (truthy evidence_country)))
      "template" (if (local_template : bool) then evidence_country else JStr "INTL") in
  Ok (JObj
    [("schema", JStr "rubrica-signature-evidence-v1"); ("consent", JBool true);
     ("consent_version", JStr consent_version);
     ("request_id", JStr (uuid_str (Request.id request)));
     ("signer_id", JStr (uuid_str (Signer.id signer)));
     ("document_id", JStr (uuid_str (Request.document_id request)));
     ("document_version", JNum (Request.document_version request));
     ("original_sha256", JStr (Request.document_sha256 request));
     ("subject_hmac_sha256", JStr (hmac (lower auth_user_id)));
     ("identity_binding_hmac_sha256", JStr (hmac binding));
     ("signer_name", JStr (Signer.name signer));
     ("identity_document_type", identifier_type identity);
     ("identity_document_country", issuing_country identity);
     ("identity_document_masked", masked_display identity);
     ("signer_email", JStr (Signer.email signer));
     ("participant_role", JStr (participant_role_value (Signer.participant_role signer)));
     ("represented_tenant_id", jopt_str (uuid_str <$> Signer.represented_tenant_id signer));
     ("representation_snapshot", from_option id JNull (Signer.representation_snapshot signer));
     ("issuer_snapshot", from_option id JNull (Request.issuer_snapshot request));
     ("signed_at", JStr (isoformat signed_at)); ("stamp", stamp_payload);
     ("network", JObj [("ip_address", JStr (take_str 64 ip_address));
                       ("user_agent", JStr normalized_agent);
                       ("device_type", JStr (device_type normalized_agent))]);
     ("client", dump_client (from_option id default_client client));
     ("geolocation", dump_geolocation (from_option id unavailable_geolocation geolocation))]).

(** A stored signature with the digest of its evidence. *)
Definition recorded_digest (k : Signature.SignatureEntity) : string :=
  match Signature.evidence_sha256 k with
  | Some h => if nonempty h then h else evidence_sha256 (Signature.evidence_json k)
  | None => evidence_sha256 (Signature.evidence_json k)
  end.
Definition stamp_record (evidence : json) (digest : string) : json :=
  junion evidence (JObj [("evidence_sha256", JStr digest)]).

(** [d[k]] where a text is needed. *)
Definition jtext (d : json) (k : string) : result string :=
  v ← jindex d k; match v with JStr s => Ok s | _ => Err TypeError end.

Definition manifest_line (item : json) : result string :=
  name ← jindex item "signer_name"; signed_at ← jindex item "signed_at";
  subject ← jtext item "subject_hmac_sha256";
  Ok (py_str name +:+ "|" +:+ py_str signed_at +:+ "|" +:+ take_str 16 subject).

(** The metadata written into the signed PDF. *)
Definition artifact_metadata (request : Request.SignatureRequestEntity) (artifact_id : string)
    (evidence : json) (stamp_records : list json) (now : Z) : result json :=
  digests ← mapM (λ item, jtext item "evidence_sha256") stamp_records;
  lines ← mapM manifest_line stamp_records;
  binding ← jindex evidence "identity_binding_hmac_sha256";
  Ok (JObj
    [("RubricaArtifactId", JStr artifact_id);
     ("RubricaRequestId", JStr (uuid_str (Request.id request)));
     ("RubricaDocumentId", JStr (uuid_str (Request.document_id request)));
     ("RubricaDocumentVersion", JStr (show_Z (Request.document_version request)));
     ("RubricaOriginalSHA256", JStr (Request.document_sha256 request));
     ("RubricaEvidenceManifestSHA256", JStr (sha256_hex (join "|" digests)));
     ("RubricaSignerManifest", JStr (join ";" lines));
     ("RubricaIdentityBindingHMACSHA256", binding);
     ("RubricaLastSignedAt", JStr (isoformat now));
     ("RubricaEvidenceJSON", JStr (canonical_json (JArr stamp_records)))]).

(** *** [sign] *)

(** The arguments of the command. *)
Record SignCommand := mkSignCommand {
  cmd_token : string; cmd_auth_user_id : string; cmd_consent : bool; cmd_stamp : StampPosition;
  cmd_consent_version : string; cmd_client : option ClientEvidence;
  cmd_geolocation : option GeolocationEvidence; cmd_ip_address : string; cmd_user_agent : string;
  cmd_certificate_signer : option (string → result string); cmd_certificate_info : option json
}.

Definition unsigned_of (request_id : N) (g : Signer.SignerEntity) : bool :=
  signer_of request_id g && negb (is_signed g).

(** The checks of a certificate signature: it must be the last one. *)
Definition check_certificate (signer : Signer.SignerEntity)
    (request : Request.SignatureRequestEntity) : M Core unit :=
  raise_if (negb (one_of (Signer.status signer) [PENDING; VIEWED]))
    (workflow_error "Signer cannot authorize a certificate signature in the current state" 409);;
  remaining ← count (unsigned_of (Request.id request));
  raise_if (negb (remaining =? 1))
    (workflow_error "Certificate signing must be the final signature on this PDF" 409).

(** The frozen version of the request and its document. *)
Definition frozen_document (request : Request.SignatureRequestEntity)
    : M Core (Version.DocumentVersionEntity * Document.DocumentEntity) :=
  item ← scalar (λ v, N.eqb (Version.document_id v) (Request.document_id request) &&
                      Z.eqb (Version.version v) (Request.document_version request));
  version ← some_or item (workflow_error "Document hash does not match the frozen request" 409);
  raise_if (negb (String.eqb (Version.sha256 version) (Request.document_sha256 request)))
    (workflow_error "Document hash does not match the frozen request" 409);;
  found ← get (R := Document.DocumentEntity) (Request.document_id request);
  document ← some_or found (workflow_error "Document not found" 404);
  raise_if (negb (open_document document)) (workflow_error "Document not found" 404);;
  mret (version, document).

Definition check_representation (signer : Signer.SignerEntity) (auth_user_id : string)
    : M Core unit :=
  when (is_status (Signer.participant_role signer) COMPANY_REPRESENTATIVE) (
    identity ← TenantService.membership_identity_filter auth_user_id None;
    rows ← columns (λ m, match Signer.represented_tenant_id signer with
                         | Some t => active_representative t identity m
                         | None => false
                         end);
    raise_if (match head rows with Some _ => false | None => true end)
      (workflow_error "Company representation authorization is no longer active" 403)).

(** The original bytes, checked. *)
Definition original_content (request : Request.SignatureRequestEntity)
    (version : Version.DocumentVersionEntity) (certificate : bool) : M Core string :=
  original ← get_object (Version.storage_key version);
  raise_if (negb (String.eqb (sha256_hex original) (Request.document_sha256 request)))
    (workflow_error "Document hash does not match the frozen request" 409);;
  lift (validate_pdf_upload original (Version.original_filename version) "application/pdf");;
  when certificate (
    already ← lift (has_embedded_signatures original);
    raise_if already (workflow_error "Uploaded PDF already has certificate signatures; this workflow cannot rewrite it safely" 409));;
  mret original.

(** What a signature stores. *)
Record signature_data := mkSignatureData {
  sd_signer : Signer.SignerEntity; sd_request : Request.SignatureRequestEntity; sd_now : Z;
  sd_evidence : json; sd_evidence_hash : string; sd_artifact_hash : string;
  sd_timestamp : option json
}.

(** The evidence with the mode of the request and the certificate. *)
Definition complete_evidence (cmd : SignCommand) (request : Request.SignatureRequestEntity)
    (evidence : json) : json :=
  let evidence := jset evidence "signature_mode"
                    (JStr (signature_mode_value (Request.signature_mode request))) in
  match cmd_certificate_info cmd with
  | Some info => jset evidence "certificate_signature" info
  | None => evidence
  end.

(** The signed PDF: stamped, signed with the certificate, time stamped. *)
Definition make_artifact (cmd : SignCommand) (request : Request.SignatureRequestEntity)
    (original : string) (stamp_records : list json) (metadata : json)
    : result (string * option json) :=
  artifact ← generate_signed_pdf original stamp_records metadata;
  artifact ← match cmd_certificate_signer cmd with
             | Some sign_pdf => sign_pdf artifact
             | None => Ok artifact
             end;
  if is_status (Request.signature_mode request) SERPRO_TIMESTAMP
  then apply_serpro_timestamp artifact else Ok (artifact, None).

(** Who may sign, in which mode. *)
Definition check_signature (cmd : SignCommand) (signer : Signer.SignerEntity)
    (request : Request.SignatureRequestEntity) : M Core unit :=
  let certificate := match cmd_certificate_signer cmd with Some _ => true | None => false end in
  let serproid := is_status (Request.signature_mode request) SERPROID in
  raise_if (is_signed signer) (workflow_error "Signer has already signed" 409);;
  raise_if (serproid && negb certificate)
    (workflow_error "This request requires a Serpro ID certificate signature" 409);;
  raise_if (negb serproid && certificate)
    (workflow_error "This request does not accept a Serpro ID certificate signature" 409);;
  when certificate (check_certificate signer request).

(** Up to the storing of the artifact. *)
Definition prepare_signature (cmd : SignCommand) (identity : IdentitySummary)
    : M Core (signature_data * string) :=
  found ← _resolve_request (cmd_token cmd) (cmd_auth_user_id cmd) false;
  let '(signer, request) := found in
  let certificate := match cmd_certificate_signer cmd with Some _ => true | None => false end in
  check_signature cmd signer request;;
  frozen ← frozen_document request;
  let '(version, document) := frozen in
  tenant ← get (R := Tenant.TenantEntity) (Document.tenant_id document);
  check_representation signer (cmd_auth_user_id cmd);;
  BillingService.consume_signature (Document.tenant_id document);;
  original ← original_content request version certificate;
  now ← utc_now;
  evidence ← lift (_signature_evidence request signer (cmd_auth_user_id cmd) now (cmd_stamp cmd)
    (cmd_consent_version cmd) (cmd_client cmd) (cmd_geolocation cmd) (cmd_ip_address cmd)
    (cmd_user_agent cmd) identity (tenant ≫= Tenant.country_code));
  let evidence := complete_evidence cmd request evidence in
  let evidence_hash := evidence_sha256 evidence in
  existing ← scalars_ordered (λ a b, N.leb (Signature.id a) (Signature.id b))
    (λ k, N.eqb (Signature.signature_request_id k) (Request.id request));
  let stamp_records :=
    map (λ k, stamp_record (Signature.evidence_json k) (recorded_digest k)) existing ++
    [stamp_record evidence evidence_hash] in
  artifact_id ← uuid4;
  metadata ← lift (artifact_metadata request (uuid_str artifact_id) evidence stamp_records now);
  made ← lift (make_artifact cmd request original stamp_records metadata);
  let '(artifact, trusted_timestamp) := made in
  let artifact_hash := sha256_hex artifact in
  owner ← _document_owner_storage_id document;
  stored ← put artifact ("rubrica-" +:+ uuid_str (Request.id request) +:+ "-signed.pdf")
    (Some artifact_hash) (Some (document_storage_scope (Document.tenant_id document) owner));
  mret (mkSignatureData signer request now evidence evidence_hash artifact_hash trusted_timestamp,
        stored.1).

(** From the stored artifact to the commit. *)
Definition record_signature (cmd : SignCommand) (d : signature_data) (artifact_key : string)
    : M Core SignerRead :=
  let signer := sd_signer d in
  let request := sd_request d in
  i ← uuid4; created ← utc_now;
  add (Signature.make i (Request.id request) (Signer.id signer) (cmd_auth_user_id cmd)
    (Request.document_sha256 request) (sd_now d) (sd_evidence d) (Some (sd_evidence_hash d))
    (Some artifact_key) (Some (sd_artifact_hash d)) (sd_timestamp d) created None);;
  set_signer (Signer.id signer) (λ g,
    g <| Signer.status := SIGNED |> <| Signer.signed_at := Some (sd_now d) |>);;
  _audit (Some (Request.id request)) (cmd_auth_user_id cmd) "signature.completed" "signer"
    (Signer.id signer)
    (JObj [("document_sha256", JStr (Request.document_sha256 request));
           ("document_version", JNum (Request.document_version request));
           ("evidence_sha256", JStr (sd_evidence_hash d));
           ("artifact_sha256", JStr (sd_artifact_hash d))]);;
  flush;;
  pending ← count (unsigned_of (Request.id request));
  when (pending =? 0) (
    set_request (Request.id request) (λ r,
      r <| Request.status := COMPLETED |> <| Request.completed_at := Some (sd_now d) |>);;
    _audit (Some (Request.id request)) (cmd_auth_user_id cmd) "signature_request.completed"
      "signature_request" (Request.id request)
      (JObj [("artifact_sha256", JStr (sd_artifact_hash d))]));;
  signer_read_of (Signer.id signer).

Definition sign (cmd : SignCommand) : M Core SignerRead :=
  raise_if (negb (cmd_consent cmd)) (workflow_error "Explicit consent is required" 400);;
  let identity := identity_summary (cmd_auth_user_id cmd) in
  discarding_on_failure (prepare_signature cmd identity) (record_signature cmd).

(** ** Signed documents and the trail *)
Definition signed_document (request_id : string) (actor_id : option string)
    : M Core (string * string * string) :=
  found ← read_session (
    request ← _request request_id;
    match actor_id with
    | Some a => _require_request_access request a
    | None => mret tt
    end;;
    rows ← scalars_ordered (λ a b, N.leb (Signature.id b) (Signature.id a))
      (λ k, N.eqb (Signature.signature_request_id k) (Request.id request) &&
            bool_decide (Signature.artifact_storage_key k ≠ None));
    match head rows with
    | Some k =>
        raise_if (negb (opt_nonempty (Signature.artifact_storage_key k)) ||
                  negb (opt_nonempty (Signature.artifact_sha256 k)))
          (workflow_error "Signed document is not available" 404);;
        mret (from_option id "" (Signature.artifact_storage_key k),
              from_option id "" (Signature.artifact_sha256 k))
    | None => raise (workflow_error "Signed document is not available" 404)
    end);
  let '(key, digest) := found in
  content ← get_object key;
  raise_if (negb (String.eqb (sha256_hex content) digest))
    (workflow_error "Signed document integrity check failed" 409);;
  mret ("rubrica-request-" +:+ request_id +:+ "-signed.pdf", digest, content).

Definition signing_signed_document (token auth_user_id : string) (administrator : bool)
    : M Core (string * string * string) :=
  request_id ← read_session (
    request ← request_for_reader token auth_user_id administrator;
    mret (uuid_str (Request.id request)));
  signed_document request_id None.

Definition evidence_read (request : Request.SignatureRequestEntity)
    (signature : Signature.SignatureEntity) (signer : Signer.SignerEntity)
    : result SignatureEvidenceRead :=
  subject ← jget_or (Signature.evidence_json signature) "subject_hmac_sha256" (JStr "");
  Ok (mkSignatureEvidenceRead (Signature.id signature) (Signer.id signer) (Request.id request)
    (Request.document_id request) (Request.document_version request)
    (Signature.signed_at signature) (Signer.name signer) (Signer.email signer) (py_str subject)
    (Signature.document_sha256 signature) (recorded_digest signature)
    (from_option id "" (Signature.artifact_sha256 signature))
    (junion (Signature.evidence_json signature)
       (match Signature.trusted_timestamp_json signature with
        | Some v => if truthy v then JObj [("trusted_timestamp", v)] else JObj []
        | None => JObj []
        end))).

Definition signature_evidence (request_id actor_id : string) : M Core (list SignatureEvidenceRead) :=
  read_session (
    request ← accessible_request request_id actor_id;
    rows ← joined (λ p q, N.leb (Signature.id p.1) (Signature.id q.1)) (λ k g,
      N.eqb (Signer.id g) (Signature.signer_id k) &&
      N.eqb (Signature.signature_request_id k) (Request.id request));
    lift (mapM (λ '(k, g), evidence_read request k g) rows)).

Definition audit_events (request_id actor_id : string) : M Core (list Audit.AuditEventEntity) :=
  read_session (
    request ← accessible_request request_id actor_id;
    scalars_ordered (λ a b, N.leb (Audit.id a) (Audit.id b))
      (λ x, bool_decide (Audit.signature_request_id x = Some (Request.id request)))).
End service.
End WorkflowService.
