(* ===== verification/WorkflowMachine.v ===== *)
(** * The signature workflow as a state machine

    The abstract specification of database_workflow_service.py: the documents,
    requests, signers and signatures, the steps an operation may take on them,
    and what every run of steps keeps.  DbWorkflowFacts shows that the service
    takes only these steps. *)

From S2P Require Import Prelude.
From S2P Require Import PyText.
From S2P Require Import Json.
From S2P Require Import Orm.
From S2P Require Import WorkflowSchema.
From S2P Require Import CoreDb.
From S2P Require Import DbWorkflow.
Import WorkflowService.

Local Open Scope Z_scope.

Record view := mkView {
  v_documents : list Document.DocumentEntity;
  v_requests : list Request.SignatureRequestEntity;
  v_signers : list Signer.SignerEntity;
  v_signatures : list Signature.SignatureEntity
}.
#[export] Instance view_eta : Eta view := λ v,
  mkView (v_documents v) (v_requests v) (v_signers v) (v_signatures v).

(** ** Steps *)

(** The document still is what the request froze. *)
Definition matches_document (r : Request.SignatureRequestEntity) (d : Document.DocumentEntity) : Prop :=
  Document.id d = Request.document_id r ∧ Document.version d = Request.document_version r ∧
  Document.sha256 d = Request.document_sha256 r.

(** Attributes of a document an operation may set without a new version. *)
Definition same_content (f : Document.DocumentEntity → Document.DocumentEntity) : Prop :=
  ∀ d, Document.id (f d) = Document.id d ∧ Document.version (f d) = Document.version d ∧
       Document.sha256 (f d) = Document.sha256 d.
(** Attributes of a request besides its status, mode, link and completion. *)
Definition request_terms (r : Request.SignatureRequestEntity) :=
  (Request.id r, Request.document_id r, Request.document_version r, Request.document_sha256 r,
   Request.expires_at r, Request.created_by r, Request.issuer_snapshot r, Request.created_at r,
   Request.deleted_at r).
Definition same_progress (f : Request.SignatureRequestEntity → Request.SignatureRequestEntity) : Prop :=
  ∀ r, request_terms (f r) = request_terms r ∧ Request.status (f r) = Request.status r.
(** Who a signer is, and for which request. *)
Definition signer_terms (g : Signer.SignerEntity) :=
  (Signer.id g, Signer.signature_request_id g, Signer.auth_user_id g, Signer.name g,
   Signer.email g, Signer.participant_role g, Signer.represented_tenant_id g,
   Signer.representation_snapshot g).
Definition same_answer (f : Signer.SignerEntity → Signer.SignerEntity) : Prop :=
  ∀ g, signer_terms (f g) = signer_terms g ∧ Signer.status (f g) = Signer.status g.

(** Cancelling the drafts and open requests of a document. *)
Definition cancel_active (document_id : N) (r : Request.SignatureRequestEntity) :=
  if N.eqb (Request.document_id r) document_id && one_of (Request.status r) [DRAFT; OPEN]
  then r <| Request.status := CANCELLED |> else r.

Definition all_signed (request_id : N) (l : list Signer.SignerEntity) : bool :=
  forallb (λ g, negb (unsigned_of request_id g)) l.

Definition mark_signed (now : Z) (g : Signer.SignerEntity) : Signer.SignerEntity :=
  g <| Signer.status := SIGNED |> <| Signer.signed_at := Some now |>.
Definition mark_completed (now : Z) (r : Request.SignatureRequestEntity) :=
  r <| Request.status := COMPLETED |> <| Request.completed_at := Some now |>.

Inductive step : view → view → Prop :=
| no_step v : step v v
| uploaded v d : Document.id d ∉ map Document.id (v_documents v) →
    step v (v <| v_documents ::= λ l, l ++ [d] |>)
| revised v k f :
    (∀ d, Document.id (f d) = Document.id d) →
    (∀ r, In r (v_requests v) → Request.document_id r = k → freezes r = false) →
    step v (v <| v_documents ::= alter_rows f k |>)
| deleted v k f : same_content f →
    step v (v <| v_documents ::= alter_rows f k |> <| v_requests ::= map (cancel_active k) |>)
| drafted v r : Request.id r ∉ map Request.id (v_requests v) → Request.status r = DRAFT →
    (∀ g, In g (v_signers v) → Signer.signature_request_id g ≠ Request.id r) →
    step v (v <| v_requests ::= λ l, l ++ [r] |>)
| signer_added v g r : In r (v_requests v) → Request.id r = Signer.signature_request_id g →
    Request.status r = DRAFT → Signer.status g = PENDING →
    Signer.id g ∉ map Signer.id (v_signers v) →
    (∀ h, In h (v_signers v) → Signer.signature_request_id h = Signer.signature_request_id g →
          Signer.auth_user_id h ≠ Signer.auth_user_id g) →
    step v (v <| v_signers ::= λ l, l ++ [g] |>)
| link_made v k f : same_progress f → step v (v <| v_requests ::= alter_rows f k |>)
| link_revoked v k f : same_answer f → step v (v <| v_signers ::= alter_rows f k |>)
| opened v r d mode : In r (v_requests v) → Request.status r = DRAFT →
    In d (v_documents v) → matches_document r d →
    (∃ g, In g (v_signers v) ∧ signer_of (Request.id r) g = true) →
    step v (v <| v_requests ::= alter_rows
                   (λ x, x <| Request.status := OPEN |> <| Request.signature_mode := mode |>)
                   (Request.id r) |>)
| cancelled v r : In r (v_requests v) → one_of (Request.status r) [DRAFT; OPEN] = true →
    step v (v <| v_requests ::= alter_rows (λ x, x <| Request.status := CANCELLED |>)
                   (Request.id r) |>)
| viewed v g r : In g (v_signers v) → In r (v_requests v) →
    Signer.signature_request_id g = Request.id r → Request.status r = OPEN →
    Signer.status g = PENDING →
    step v (v <| v_signers ::= alter_rows (λ x, x <| Signer.status := VIEWED |>) (Signer.id g) |>)
| declined v g r : In g (v_signers v) → In r (v_requests v) →
    Signer.signature_request_id g = Request.id r → Request.status r = OPEN →
    one_of (Signer.status g) [SIGNED; DECLINED] = false →
    step v (v <| v_signers ::= alter_rows (λ x, x <| Signer.status := DECLINED |>) (Signer.id g) |>)
| signed v g r k now : In g (v_signers v) → In r (v_requests v) →
    Signer.signature_request_id g = Request.id r → Request.status r = OPEN →
    is_signed g = false →
    Signature.signature_request_id k = Request.id r → Signature.signer_id k = Signer.id g →
    Signature.document_sha256 k = Request.document_sha256 r → Signature.signed_at k = now →
    let signers := alter_rows (mark_signed now) (Signer.id g) (v_signers v) in
    step v (mkView (v_documents v)
      (if all_signed (Request.id r) signers
       then alter_rows (mark_completed now) (Request.id r) (v_requests v) else v_requests v)
      signers (v_signatures v ++ [k])).

(** ** The invariant *)
Definition keyed (v : view) : Prop :=
  keys_distinct (v_documents v) ∧ keys_distinct (v_requests v) ∧ keys_distinct (v_signers v).

(** A request that is open or completed matches its document. *)
Definition frozen_match (v : view) : Prop :=
  ∀ r, In r (v_requests v) → freezes r = true →
    ∃ d, In d (v_documents v) ∧ matches_document r d.

(** A completed request has signers, all of whom have signed. *)
Definition completed_signed (v : view) : Prop :=
  ∀ r, In r (v_requests v) → Request.status r = COMPLETED →
    all_signed (Request.id r) (v_signers v) = true ∧
    ∃ g, In g (v_signers v) ∧ signer_of (Request.id r) g = true.

(** A signer has signed exactly when a signature says so, and it is about the
    content the request froze. *)
Definition signatures_match (v : view) : Prop :=
  (∀ g, In g (v_signers v) →
     (Signer.status g = SIGNED ↔ ∃ k, In k (v_signatures v) ∧ Signature.signer_id k = Signer.id g)) ∧
  ∀ k, In k (v_signatures v) →
    ∃ g r, In g (v_signers v) ∧ In r (v_requests v) ∧ Signer.id g = Signature.signer_id k ∧
      Request.id r = Signature.signature_request_id k ∧
      Signer.signature_request_id g = Request.id r ∧
      Request.document_sha256 r = Signature.document_sha256 k.

Record valid (v : view) : Prop := mkValid {
  valid_keyed : keyed v;
  valid_frozen : frozen_match v;
  valid_completed : completed_signed v;
  valid_signatures : signatures_match v
}.

Lemma empty_valid : valid (mkView [] [] [] []).
Proof.
  split.
  - split_and!; apply NoDup_nil; done.
  - by intros r [].
  - by intros r [].
  - split; [by intros g []|by intros k []].
Qed.

(** ** Rows *)
Section rows.
Context {R : Type} `{Entity R}.

Lemma in_alter (f : R → R) k l x :
  In x (alter_rows f k l) → ∃ y, In y l ∧ x = if has_id k y then f y else y.
Proof. intros (y & <- & Hy)%in_map_iff. eauto. Qed.

Lemma alter_in (f : R → R) k l y :
  In y l → In (if has_id k y then f y else y) (alter_rows f k l).
Proof. intros Hy. apply in_map_iff. eauto. Qed.

Lemma in_append l (x y : R) : In x (l ++ [y]) ↔ In x l ∨ x = y.
Proof. rewrite in_app_iff. simpl. naive_solver. Qed.

Lemma same_key l x y : keys_distinct l → In x l → In y l → ent_id x = ent_id y → x = y.
Proof.
  intros Hd Hx Hy E. pose proof (find_row_in _ _ Hd Hx) as Ex.
  rewrite E, (find_row_in _ _ Hd Hy) in Ex. congruence.
Qed.

Lemma distinct_append l x : keys_distinct l → ent_id x ∉ map ent_id l → keys_distinct (l ++ [x]).
Proof.
  unfold keys_distinct. intros Hd Hx. rewrite map_app. apply NoDup_app. split_and!; [done| |].
  - intros k Hk ->%list_elem_of_singleton. done.
  - apply NoDup_singleton.
Qed.

Lemma distinct_alter f k l : keeps_id f → keys_distinct l → keys_distinct (alter_rows f k l).
Proof. unfold keys_distinct. intros Hf. by rewrite alter_rows_ids. Qed.
End rows.

Lemma all_signed_spec i l :
  all_signed i l = true ↔ ∀ g, In g l → Signer.signature_request_id g = i → Signer.status g = SIGNED.
Proof.
  unfold all_signed. rewrite forallb_forall. apply forall_proper. intros g.
  unfold unsigned_of, signer_of, is_signed, is_status.
  destruct (N.eqb_spec (Signer.signature_request_id g) i); simpl; [|naive_solver].
  rewrite negb_involutive, bool_decide_eq_true. naive_solver.
Qed.
Lemma signer_of_spec i g : signer_of i g = true ↔ Signer.signature_request_id g = i.
Proof. apply N.eqb_eq. Qed.

Lemma freezes_spec r :
  freezes r = true ↔ Request.status r = OPEN ∨ Request.status r = COMPLETED.
Proof.
  unfold freezes, one_of. rewrite bool_decide_eq_true, !elem_of_cons, elem_of_nil. naive_solver.
Qed.
Lemma cancel_active_terms k r : request_terms (cancel_active k r) = request_terms r.
Proof. unfold cancel_active. by destruct (_ && _). Qed.
(** What deletion leaves frozen was not cancelled. *)
Lemma cancel_active_status k r :
  cancel_active k r = r ∨ Request.status (cancel_active k r) = CANCELLED.
Proof. unfold cancel_active. destruct (_ && _); auto. Qed.

Section preserved.
Implicit Types v : view.

Lemma step_keyed v v' : keyed v → step v v' → keyed v'.
Proof.
  intros (Hd & Hr & Hg) Hs. unfold keyed. destruct Hs; simpl; split_and!; try done;
    try (by apply distinct_append); try (apply distinct_alter; [|done]); try done.
  all: try (match goal with
       | Hf : same_content _ |- _ => intros x; apply Hf
       | Hf : same_progress _ |- _ => intros x; destruct (Hf x) as [E _]; by injection E
       | Hf : same_answer _ |- _ => intros x; destruct (Hf x) as [E _]; by injection E
       end).
  - unfold keys_distinct. rewrite map_map. erewrite map_ext; [exact Hr|].
    intros r. pose proof (cancel_active_terms k r) as E. by injection E.
  - destruct (all_signed _ _); [|done]. by apply distinct_alter.
Qed.

Lemma matches_terms r r' d :
  request_terms r' = request_terms r → matches_document r d → matches_document r' d.
Proof. unfold matches_document. intros [= _ -> -> -> _ _ _ _ _]. done. Qed.

(** A request a step alters, when its terms stay. *)
Lemma altered_terms f k r :
  (∀ x, request_terms (f x) = request_terms x) →
  request_terms (if has_id k r then f r else r) = request_terms r.
Proof. intros Hf. by destruct (has_id k r). Qed.

Lemma step_frozen v v' : valid v → step v v' → frozen_match v'.
Proof.
  intros [(Hkd & Hkr & Hkg) Hfz _ _] Hs. unfold frozen_match.
  destruct Hs as [v|v d Hd|v k f Hf Hno|v k f Hf|v r0 Hr0 Hst _|v g r0 _ _ _ _ _|v k f Hf|v k f Hf|
                  v r0 d0 mode Hr0 Hst Hd0 Hmt _|v r0 Hr0 Hst|v g r0 _ _ _ _ _|v g r0 _ _ _ _ _|
                  v g r0 k now Hg Hr0 Hgr Hst Hus Hkr0 Hkg0 Hsha Hnow signers];
    cbn [v_documents v_requests v_signers v_signatures set_field]; intros r Hr Hfr; try by apply Hfz.
  - destruct (Hfz r Hr Hfr) as (d' & Hd' & Hm). exists d'. split; [apply in_append; auto|done].
  - destruct (Hfz r Hr Hfr) as (d & Hin & Hm). exists d. split; [|done].
    pose proof (alter_in f k _ d Hin) as Ha. destruct (has_id k d) eqn:E; [|done].
    apply has_id_true in E. destruct Hm as [Hm _]. change (ent_id d) with (Document.id d) in E.
    rewrite Hno in Hfr; [done..|congruence].
  - apply in_map_iff in Hr as (r0 & <- & Hr0).
    destruct (cancel_active_status k r0) as [E|E].
    + rewrite E in *. destruct (Hfz r0 Hr0 Hfr) as (d & Hin & Hm).
      exists (if has_id k d then f d else d). split; [by apply alter_in|].
      destruct (has_id k d); [|done]. destruct (Hf d) as (E1 & E2 & E3).
      unfold matches_document. by rewrite E1, E2, E3.
    + apply freezes_spec in Hfr as [?|?]; congruence.
  - apply in_append in Hr as [Hr| ->]; [by apply Hfz|].
    apply freezes_spec in Hfr as [?|?]; congruence.
  - apply in_alter in Hr as (r1 & Hr1 & ->).
    destruct (Hfz r1 Hr1) as (d & Hd & Hm).
    { destruct (has_id k r1); [|done]. unfold freezes in *. by rewrite (proj2 (Hf r1)) in Hfr. }
    exists d. split; [done|]. eapply matches_terms; [|exact Hm].
    apply altered_terms. intros. apply Hf.
  - apply in_alter in Hr as (r1 & Hr1 & ->). destruct (has_id (Request.id r0) r1) eqn:E; [|by apply Hfz].
    apply has_id_true in E. assert (r1 = r0) as -> by (by eapply same_key).
    exists d0. split; [done|]. by eapply matches_terms; [|exact Hmt].
  - apply in_alter in Hr as (r1 & Hr1 & ->). destruct (has_id (Request.id r0) r1); [|by apply Hfz].
    by apply freezes_spec in Hfr as [?|?].
  - destruct (all_signed _ signers); [|by apply Hfz].
    apply in_alter in Hr as (r1 & Hr1 & ->). destruct (has_id (Request.id r0) r1) eqn:E; [|by apply Hfz].
    apply has_id_true in E. assert (r1 = r0) as -> by (by eapply same_key).
    destruct (Hfz r0 Hr0) as (d & Hd & Hm); [apply freezes_spec; auto|]. exists d. by split.
Qed.
(** An answer of a signer whose request is open leaves the completed requests
    complete. *)
Lemma answer_completed v g r f i :
  keyed v → In g (v_signers v) → In r (v_requests v) →
  Signer.signature_request_id g = Request.id r → Request.status r = OPEN →
  (∀ x, Signer.signature_request_id (f x) = Signer.signature_request_id x) →
  In i (v_requests v) → Request.status i = COMPLETED →
  all_signed (Request.id i) (v_signers v) = true →
  all_signed (Request.id i) (alter_rows f (Signer.id g) (v_signers v)) = true.
Proof.
  intros (_ & Hkr & Hkg) Hg Hr Hgr Ho Hf Hi Hc Hall. rewrite all_signed_spec in Hall |- *.
  intros x Hx E. apply in_alter in Hx as (y & Hy & ->).
  destruct (has_id (Signer.id g) y) eqn:Ek; [|by apply Hall].
  apply has_id_true in Ek. assert (y = g) as -> by (by eapply same_key).
  rewrite Hf, Hgr in E. assert (r = i) by (by eapply same_key). congruence.
Qed.

Lemma signer_remains f k i l :
  (∀ x, Signer.signature_request_id (f x) = Signer.signature_request_id x) →
  (∃ g, In g l ∧ signer_of i g = true) → ∃ g, In g (alter_rows f k l) ∧ signer_of i g = true.
Proof.
  intros Hf (g & Hg & Hs). exists (if has_id k g then f g else g). split; [by apply alter_in|].
  unfold signer_of in *. destruct (has_id k g); [by rewrite Hf|done].
Qed.

Lemma all_signed_kept f k i l :
  (∀ x, Signer.signature_request_id (f x) = Signer.signature_request_id x) →
  (∀ x, Signer.status x = SIGNED → Signer.status (f x) = SIGNED) →
  all_signed i l = true → all_signed i (alter_rows f k l) = true.
Proof.
  intros Hf Hst. rewrite !all_signed_spec. intros Hall x Hx E.
  apply in_alter in Hx as (y & Hy & ->). destruct (has_id k y); [|by apply Hall].
  rewrite Hf in E. by apply Hst, Hall.
Qed.

Lemma step_completed v v' : valid v → step v v' → completed_signed v'.
Proof.
  intros [Hk _ Hc _] Hs. pose proof Hk as (Hkd & Hkr & Hkg). unfold completed_signed.
  destruct Hs as [v|v d Hd|v k f Hf Hno|v k f Hf|v r0 Hr0 Hst _|v g r0 Hr0 Hgr Hst Hp _|v k f Hf|
                  v k f Hf|v r0 d0 mode Hr0 Hst Hd0 Hmt _|v r0 Hr0 Hst|
                  v g r0 Hg Hr0 Hgr Hst Hp|v g r0 Hg Hr0 Hgr Hst Hp|
                  v g r0 k now Hg Hr0 Hgr Hst Hus Hkr0 Hkg0 Hsha Hnow signers];
    cbn [v_documents v_requests v_signers v_signatures set_field]; intros r Hr Hcr; try by apply Hc.
  - apply in_map_iff in Hr as (r1 & <- & Hr1).
    destruct (cancel_active_status k r1) as [E|E]; [rewrite E in *; by apply Hc|congruence].
  - apply in_append in Hr as [Hr| ->]; [by apply Hc|congruence].
  - destruct (Hc r Hr Hcr) as [Hall (h & Hh & Hs)]. split.
    + rewrite all_signed_spec in Hall |- *. intros x [Hx| ->]%in_append E; [by apply Hall|].
      assert (r0 = r) by (eapply same_key; [exact Hkr|done..|]; change (Request.id r0 = Request.id r); congruence).
      congruence.
    + exists h. split; [apply in_append; auto|done].
  - apply in_alter in Hr as (r1 & Hr1 & ->).
    assert (Hr1c : Request.status r1 = COMPLETED)
      by (destruct (has_id k r1); [by rewrite (proj2 (Hf r1)) in Hcr|done]).
    assert (Hid : Request.id (if has_id k r1 then f r1 else r1) = Request.id r1).
    { pose proof (altered_terms f k r1 (λ x, proj1 (Hf x))) as E. by injection E. }
    rewrite Hid. by apply Hc.
  - assert (Hreq : ∀ x, Signer.signature_request_id (f x) = Signer.signature_request_id x)
      by (intros x; destruct (Hf x) as [E _]; by injection E).
    destruct (Hc r Hr Hcr) as [Hall Hex]. split; [|by apply signer_remains].
    apply all_signed_kept; [done| |done]. intros x Hx. by rewrite (proj2 (Hf x)).
  - apply in_alter in Hr as (r1 & Hr1 & ->). destruct (has_id _ r1); [done|by apply Hc].
  - apply in_alter in Hr as (r1 & Hr1 & ->). destruct (has_id _ r1); [done|by apply Hc].
  - destruct (Hc r Hr Hcr) as [Hall Hex]. split; [by apply (answer_completed v g r0 _ r)|by apply signer_remains].
  - destruct (Hc r Hr Hcr) as [Hall Hex]. split; [by apply (answer_completed v g r0 _ r)|by apply signer_remains].
  - assert (Hex : ∀ i, (∃ g, In g (v_signers v) ∧ signer_of i g = true) →
                       ∃ g, In g signers ∧ signer_of i g = true) by (intros i; by apply signer_remains).
    assert (Hold : ∀ x, In x (v_requests v) → Request.status x = COMPLETED →
      all_signed (Request.id x) signers = true ∧ ∃ g, In g signers ∧ signer_of (Request.id x) g = true).
    { intros x Hx Hcx. destruct (Hc x Hx Hcx) as [Hall He]. split; [|by apply Hex].
      by apply all_signed_kept. }
    destruct (all_signed (Request.id r0) signers) eqn:Hall; [|by apply Hold].
    apply in_alter in Hr as (r1 & Hr1 & ->).
    destruct (has_id (Request.id r0) r1) eqn:E; [|by apply Hold].
    apply has_id_true in E. change (ent_id r1) with (Request.id r1) in E.
    unfold mark_completed in *. cbn in *. rewrite E. split; [done|]. apply Hex.
    exists g. by rewrite signer_of_spec.
Qed.

(** Signatures under changes that keep the terms and who has signed. *)
Lemma signatures_signers v k f :
  signatures_match v → (∀ x, signer_terms (f x) = signer_terms x) →
  (∀ x, In x (v_signers v) → Signer.id x = k →
        (Signer.status (f x) = SIGNED ↔ Signer.status x = SIGNED)) →
  signatures_match (v <| v_signers ::= alter_rows f k |>).
Proof.
  intros [Hiff Hback] Hterms Hst.
  assert (Hid : ∀ x, signer_terms (if has_id k x then f x else x) = signer_terms x)
    by (intros x; by destruct (has_id k x)).
  split; cbn [v_signers v_signatures v_requests set_field].
  - intros x Hx. apply in_alter in Hx as (y & Hy & ->).
    pose proof (Hid y) as E. injection E as -> _ _ _ _ _ _ _. rewrite <- Hiff by done.
    destruct (has_id k y) eqn:Ek; [|done]. apply Hst; [done|]. by apply has_id_true in Ek.
  - intros s Hs. destruct (Hback s Hs) as (h & r & Hh & Hr & E1 & E2 & E3 & E4).
    exists (if has_id k h then f h else h), r. pose proof (Hid h) as E.
    injection E as -> -> _ _ _ _ _ _. split_and!; try done. by apply alter_in.
Qed.

Lemma signatures_requests v f :
  signatures_match v → (∀ r, request_terms (f r) = request_terms r) →
  signatures_match (v <| v_requests ::= map f |>).
Proof.
  intros [Hiff Hback] Hterms. split; [done|]. cbn [v_signers v_signatures v_requests set_field].
  intros s Hs. destruct (Hback s Hs) as (h & r & Hh & Hr & E1 & E2 & E3 & E4).
  exists h, (f r). pose proof (Hterms r) as E. injection E as -> _ _ -> _ _ _ _ _.
  split_and!; try done. by apply in_map.
Qed.

(** The signature of a signer who had not signed. *)
Lemma signatures_signed v g r k now :
  keyed v → signatures_match v → In g (v_signers v) → In r (v_requests v) →
  Signer.signature_request_id g = Request.id r → Signature.signature_request_id k = Request.id r →
  Signature.signer_id k = Signer.id g →
  Signature.document_sha256 k = Request.document_sha256 r →
  signatures_match (mkView (v_documents v) (v_requests v)
    (alter_rows (mark_signed now) (Signer.id g) (v_signers v)) (v_signatures v ++ [k])).
Proof.
  intros (_ & _ & Hkg) [Hiff Hback] Hg Hr Hgr Hkr Hks Hsha.
  split; cbn [v_signers v_signatures v_requests].
  - intros x Hx. apply in_alter in Hx as (y & Hy & ->).
    destruct (has_id (Signer.id g) y) eqn:E.
    + apply has_id_true in E. split; [|done]. intros _. exists k.
      split; [apply in_app_iff; right; by left|by rewrite Hks, <- E].
    + apply has_id_false in E. rewrite Hiff by done. split.
      * intros (k' & Hk' & Ek). exists k'. split; [apply in_app_iff; auto|done].
      * intros (k' & [Hk'|[<-|[]]]%in_app_iff & Ek); [eauto|]. destruct E. by rewrite Hks in Ek.
  - intros k' [Hk'|[<-|[]]]%in_app_iff.
    + destruct (Hback k' Hk') as (h & r' & Hh & Hr' & E1 & E2 & E3 & E4).
      exists (if has_id (Signer.id g) h then mark_signed now h else h), r'.
      split_and!; try done; [by apply alter_in|by destruct (has_id _ h)..].
    + exists (if has_id (Signer.id g) g then mark_signed now g else g), r.
      split_and!; try done; [by apply alter_in|by destruct (has_id _ g)..].
Qed.

Lemma step_signatures v v' : valid v → step v v' → signatures_match v'.
Proof.
  intros [Hk _ _ Hm] Hs. pose proof Hk as (Hkd & Hkr & Hkg). pose proof Hm as [Hiff Hback].
  assert (Honly : ∀ g x, In g (v_signers v) → In x (v_signers v) → Signer.id x = Signer.id g → x = g)
    by (intros; by eapply same_key).
  destruct Hs as [v|v d Hd|v k f Hf Hno|v k f Hf|v r0 Hr0 Hst _|v g r0 Hr0 Hgr Hst Hp Hfresh _|v k f Hf|
                  v k f Hf|v r0 d0 mode Hr0 Hst Hd0 Hmt _|v r0 Hr0 Hst|
                  v g r0 Hg Hr0 Hgr Hst Hp|v g r0 Hg Hr0 Hgr Hst Hp|
                  v g r0 k now Hg Hr0 Hgr Hst Hus Hkr0 Hkg0 Hsha Hnow signers]; try done.
  - exact (signatures_requests v _ Hm (cancel_active_terms k)).
  - split; [done|]. cbn [v_signers v_signatures v_requests set_field]. intros s Hs.
    destruct (Hback s Hs) as (h & r & Hh & Hr & E). exists h, r. rewrite in_append. auto.
  - split; cbn [v_signers v_signatures v_requests set_field].
    + intros x [Hx| ->]%in_append; [by apply Hiff|]. split; [congruence|].
      intros (s & Hs & E). destruct (Hback s Hs) as (h & r & Hh & _ & E1 & _).
      destruct Hfresh. rewrite <- E, <- E1. apply list_elem_of_In. by apply in_map.
    + intros s Hs. destruct (Hback s Hs) as (h & r & Hh & Hr & E). exists h, r.
      rewrite in_append. auto.
  - apply (signatures_requests v _ Hm). intros r. apply altered_terms. intros. apply Hf.
  - apply signatures_signers; [done|apply Hf|]. intros x _ _. by rewrite (proj2 (Hf x)).
  - apply (signatures_requests v _ Hm). intros r. by destruct (has_id _ r).
  - apply (signatures_requests v _ Hm). intros r. by destruct (has_id _ r).
  - apply signatures_signers; [done..|]. intros x Hx E. rewrite (Honly g x) by done.
    cbn. rewrite Hp. done.
  - apply signatures_signers; [done..|]. intros x Hx E. rewrite (Honly g x) by done.
    cbn. unfold one_of in Hp. apply bool_decide_eq_false in Hp. set_solver.
  - pose proof (signatures_signed v g r0 k now Hk Hm Hg Hr0 Hgr Hkr0 Hkg0 Hsha) as Hv.
    fold signers in Hv. destruct (all_signed _ signers); [|exact Hv].
    apply (signatures_requests _ _ Hv). intros r. by destruct (has_id _ r).
Qed.

Lemma step_valid v v' : valid v → step v v' → valid v'.
Proof.
  intros Hv Hs. constructor.
  - eapply step_keyed; [apply Hv|done].
  - by eapply step_frozen.
  - by eapply step_completed.
  - by eapply step_signatures.
Qed.
End preserved.

(** ** What a run of steps keeps *)
Inductive steps : view → view → Prop :=
| steps_none v : steps v v
| steps_one v1 v2 v3 : step v1 v2 → steps v2 v3 → steps v1 v3.

Lemma steps_trans v1 v2 v3 : steps v1 v2 → steps v2 v3 → steps v1 v3.
Proof. induction 1; [done|]. eauto using steps. Qed.

Lemma steps_valid v v' : valid v → steps v v' → valid v'.
Proof. intros Hv Hs. induction Hs; [done|]. eauto using step_valid. Qed.

(** The life of a request and of a signer. *)
Inductive request_move : RequestStatus → RequestStatus → Prop :=
| request_opens : request_move DRAFT OPEN
| request_completes : request_move OPEN COMPLETED
| draft_cancelled : request_move DRAFT CANCELLED
| open_cancelled : request_move OPEN CANCELLED.

Inductive signer_move : SignerStatus → SignerStatus → Prop :=
| signer_views : signer_move PENDING VIEWED
| signer_declines st : st ≠ SIGNED → st ≠ DECLINED → signer_move st DECLINED
| signer_signs st : st ≠ SIGNED → signer_move st SIGNED.

(** Nothing follows completion, cancellation and a signature. *)
Lemma request_final a b :
  rtc request_move a b → one_of a [COMPLETED; CANCELLED] = true → b = a.
Proof.
  intros Hm Hf. destruct Hm as [|a b c Hab _]; [done|].
  unfold one_of in Hf. apply bool_decide_eq_true in Hf. destruct Hab; set_solver.
Qed.
Lemma signed_final a b : rtc signer_move a b → a = SIGNED → b = SIGNED.
Proof. intros Hm ->. remember SIGNED as a eqn:E. destruct Hm as [|x y z Hxy _]; [done|]. by destruct Hxy. Qed.

Definition request_keeps (r r' : Request.SignatureRequestEntity) : Prop :=
  request_terms r' = request_terms r ∧ rtc request_move (Request.status r) (Request.status r').
Definition signer_keeps (g g' : Signer.SignerEntity) : Prop :=
  signer_terms g' = signer_terms g ∧ rtc signer_move (Signer.status g) (Signer.status g').

Lemma request_keeps_refl r : request_keeps r r.
Proof. split; [done|apply rtc_refl]. Qed.
Lemma signer_keeps_refl g : signer_keeps g g.
Proof. split; [done|apply rtc_refl]. Qed.

(** Every row of a list goes on as a row of the other. *)
Definition all_keep {R} (keeps : R → R → Prop) (l l' : list R) : Prop :=
  ∀ x, In x l → ∃ x', In x' l' ∧ keeps x x'.

Section all_keep.
Context {R : Type} `{Entity R} (keeps : R → R → Prop) (Hrefl : ∀ x, keeps x x).

Lemma all_keep_refl l : all_keep keeps l l.
Proof. intros x Hx. eauto. Qed.
Lemma all_keep_app l l' : all_keep keeps l (l ++ l').
Proof. intros x Hx. exists x. rewrite in_app_iff. auto. Qed.
Lemma all_keep_map f l : (∀ x, In x l → keeps x (f x)) → all_keep keeps l (map f l).
Proof. intros Hf x Hx. exists (f x). split; [by apply in_map|by apply Hf]. Qed.
Lemma all_keep_alter f k l :
  (∀ x, In x l → ent_id x = k → keeps x (f x)) → all_keep keeps l (alter_rows f k l).
Proof.
  intros Hf. apply all_keep_map. intros x Hx. destruct (has_id k x) eqn:E; [|apply Hrefl].
  apply Hf; [done|]. by apply has_id_true.
Qed.
End all_keep.

(** What one step makes of the requests, the signers and the signatures. *)
Definition goes_on (v v' : view) : Prop :=
  all_keep request_keeps (v_requests v) (v_requests v') ∧
  all_keep signer_keeps (v_signers v) (v_signers v') ∧
  ∃ l, v_signatures v' = v_signatures v ++ l.

Lemma cancel_active_keeps k r : request_keeps r (cancel_active k r).
Proof.
  split; [apply cancel_active_terms|]. unfold cancel_active, one_of.
  destruct (_ && _) eqn:E; [|apply rtc_refl].
  apply andb_true_iff in E as [_ E%bool_decide_eq_true]. apply rtc_once. cbn.
  rewrite !elem_of_cons, elem_of_nil in E. destruct E as [-> |[-> |[]]]; constructor.
Qed.

Lemma step_goes_on v v' : keyed v → step v v' → goes_on v v'.
Proof.
  intros (_ & Hkr & Hkg) Hs.
  assert (Hself : ∃ l, v_signatures v = v_signatures v ++ l) by (exists []; by rewrite app_nil_r).
  assert (Honly : ∀ r x, In r (v_requests v) → In x (v_requests v) → Request.id x = Request.id r → x = r)
    by (intros; by eapply same_key).
  assert (Honly' : ∀ g x, In g (v_signers v) → In x (v_signers v) → Signer.id x = Signer.id g → x = g)
    by (intros; by eapply same_key).
  pose proof (all_keep_refl _ request_keeps_refl (v_requests v)) as Hreq.
  pose proof (all_keep_refl _ signer_keeps_refl (v_signers v)) as Hsig.
  destruct Hs as [v|v d Hd|v k f Hf Hno|v k f Hf|v r0 Hr0 Hst _|v g r0 Hr0 Hgr Hst Hp Hfresh _|v k f Hf|
                  v k f Hf|v r0 d0 mode Hr0 Hst Hd0 Hmt _|v r0 Hr0 Hst|
                  v g r0 Hg Hr0 Hgr Hst Hp|v g r0 Hg Hr0 Hgr Hst Hp|
                  v g r0 k now Hg Hr0 Hgr Hst Hus Hkr0 Hkg0 Hsha Hnow signers];
    unfold goes_on; cbn [v_requests v_signers v_signatures set_field]; split_and!; try done.
  - apply all_keep_map. intros. apply cancel_active_keeps.
  - apply all_keep_app, request_keeps_refl.
  - apply all_keep_app, signer_keeps_refl.
  - apply all_keep_alter; [apply request_keeps_refl|]. intros x _ _. destruct (Hf x) as [E1 E2].
    split; [done|]. rewrite E2. apply rtc_refl.
  - apply all_keep_alter; [apply signer_keeps_refl|]. intros x _ _. destruct (Hf x) as [E1 E2].
    split; [done|]. rewrite E2. apply rtc_refl.
  - apply all_keep_alter; [apply request_keeps_refl|]. intros x Hx E. rewrite (Honly r0 x) by done.
    split; [done|]. rewrite Hst. apply rtc_once. constructor.
  - apply all_keep_alter; [apply request_keeps_refl|]. intros x Hx E. rewrite (Honly r0 x) by done.
    split; [done|]. apply rtc_once. unfold one_of in Hst. apply bool_decide_eq_true in Hst.
    rewrite !elem_of_cons, elem_of_nil in Hst. destruct Hst as [-> |[-> |[]]]; constructor.
  - apply all_keep_alter; [apply signer_keeps_refl|]. intros x Hx E. rewrite (Honly' g x) by done.
    split; [done|]. rewrite Hp. apply rtc_once. constructor.
  - apply all_keep_alter; [apply signer_keeps_refl|]. intros x Hx E. rewrite (Honly' g x) by done.
    split; [done|]. apply rtc_once. unfold one_of in Hp. apply bool_decide_eq_false in Hp.
    constructor; intros E'; rewrite E' in Hp; set_solver.
  - destruct (all_signed _ _); [|done].
    apply all_keep_alter; [apply request_keeps_refl|]. intros x Hx E. rewrite (Honly r0 x) by done.
    split; [done|]. rewrite Hst. apply rtc_once. constructor.
  - apply all_keep_alter; [apply signer_keeps_refl|]. intros x Hx E. rewrite (Honly' g x) by done.
    split; [done|]. apply rtc_once. constructor. unfold is_signed, is_status in Hus.
    by apply bool_decide_eq_false in Hus.
  - by exists [k].
Qed.

Lemma steps_go_on v v' : valid v → steps v v' → goes_on v v'.
Proof.
  intros Hv Hs. induction Hs as [v|v1 v2 v3 H1 H2 IH].
  - split_and!; [apply all_keep_refl, request_keeps_refl|apply all_keep_refl, signer_keeps_refl|].
    exists []. by rewrite app_nil_r.
  - destruct (step_goes_on _ _ (valid_keyed _ Hv) H1) as (Ra & Ga & la & Ea).
    destruct (IH (step_valid _ _ Hv H1)) as (Rb & Gb & lb & Eb). split_and!.
    + intros r Hr. destruct (Ra r Hr) as (r1 & Hr1 & E1 & M1).
      destruct (Rb r1 Hr1) as (r2 & Hr2 & E2 & M2). exists r2. split; [done|].
      split; [congruence|by etrans].
    + intros g Hg. destruct (Ga g Hg) as (g1 & Hg1 & E1 & M1).
      destruct (Gb g1 Hg1) as (g2 & Hg2 & E2 & M2). exists g2. split; [done|].
      split; [congruence|by etrans].
    + exists (la ++ lb). by rewrite Eb, Ea, app_assoc.
Qed.
