(* ===== verification/DbWorkflowFacts.v ===== *)
(** * The signature workflow refines its state machine

    Every operation of database_workflow_service.py takes one step of
    WorkflowMachine on the rows of the database, or none; the invariants of the
    machine therefore hold in every state the service reaches. *)

From S2P Require Import Prelude.
From S2P Require Import PyText.
From S2P Require Import Json.
From S2P Require Import DateTime.
From S2P Require Import Orm.
From S2P Require Import WorkflowSchema.
From S2P Require Import CoreDb.
From S2P Require Import Identity.
From S2P Require Import BillingPolicy.
From S2P Require Import Tenant.
From S2P Require Import Billing.
From S2P Require Import Storage.
From S2P Require Import PdfValidation.
From S2P Require Import DbWorkflow.
From S2P Require Import WorkflowMachine.
Import WorkflowService.

Local Open Scope Z_scope.

(** The rows of the workflow, pending changes included. *)
Definition view_of (s : Core) : WorkflowMachine.view :=
  mkView (live (Db.documents (Core.db s))) (live (Db.signature_requests (Core.db s)))
    (live (Db.signers (Core.db s))) (live (Db.signatures (Core.db s))).

Definition workflow_tables (s : Core) :=
  (Db.documents (Core.db s), Db.signature_requests (Core.db s), Db.signers (Core.db s),
   Db.signatures (Core.db s)).

(** No pending change to them, and distinct keys. *)
Definition settled_table {R} `{Entity R} (t : table R) : Prop := clean t ∧ keys_distinct (live t).
Record settled (s : Core) : Prop := mkSettled {
  settled_documents : settled_table (Db.documents (Core.db s));
  settled_requests : settled_table (Db.signature_requests (Core.db s));
  settled_signers : settled_table (Db.signers (Core.db s));
  settled_signatures : settled_table (Db.signatures (Core.db s))
}.

Lemma consistent_settled s : consistent s → settled s.
Proof.
  intros Hs. destruct (schema_parts s Hs) as (_ & _ & _ & _ & _ & Hd & Hr & _).
  destruct Hs as [Hc _]. unfold clean_db in Hc.
  unfold documents_ok, requests_ok in *. cbv zeta in Hd, Hr.
  rewrite !andb_true_iff in Hd. rewrite !andb_true_iff in Hr.
  assert (Hclean : clean (Db.documents (Core.db s)) ∧ clean (Db.signature_requests (Core.db s)) ∧
                   clean (Db.signers (Core.db s)) ∧ clean (Db.signatures (Core.db s))).
  { revert Hc. unfold clean. destruct (Core.db s) as [? ? ? ? ? [] ? [] [] [] ?]; simpl.
    by intros [=]. }
  destruct Hclean as (C1 & C2 & C3 & C4).
  split; split; try done; apply primary_key_distinct; tauto.
Qed.

Lemma settled_same s s' : workflow_tables s' = workflow_tables s → settled s → settled s'.
Proof. intros [= E1 E2 E3 E4] []. split; by rewrite ?E1, ?E2, ?E3, ?E4. Qed.

Lemma view_same s s' : workflow_tables s' = workflow_tables s → view_of s' = view_of s.
Proof. unfold view_of. by intros [= -> -> -> ->]. Qed.

Lemma view_flush s s' : flush_session s = Some s' → view_of s' = view_of s.
Proof. by intros [_ ->]%flush_core. Qed.
Lemma view_db s s' : Core.db s' = Core.db s → view_of s' = view_of s.
Proof. unfold view_of. by intros ->. Qed.

(** ** Queries on settled tables *)
Section queries.
Context {S R : Type} `{Entity R} `{HasTable S R}.
Implicit Types P : R → bool.

Lemma scalar_settled P s r s' :
  settled_table (get_table s) → scalar P s = (Ok r, s') →
  s' = s ∧ r = List.find P (live (get_table s)).
Proof.
  intros [Hc Hd]. unfold scalar, gets. rewrite select_clean, head_filter by done.
  by intros [= <- <-].
Qed.
Lemma scalars_settled P s l s' :
  settled_table (get_table s) → scalars P s = (Ok l, s') →
  s' = s ∧ l = List.filter P (live (get_table s)).
Proof. intros [Hc Hd]. unfold scalars, gets. rewrite select_clean by done. by intros [= <- <-]. Qed.
Lemma columns_settled P s l s' :
  settled_table (get_table s) → columns P s = (Ok l, s') →
  s' = s ∧ l = List.filter P (live (get_table s)).
Proof.
  intros [Hc Hd]. unfold columns, gets. rewrite select_stored_clean by done. by intros [= <- <-].
Qed.
Lemma count_settled P s n s' :
  settled_table (get_table s) → count P s = (Ok n, s') →
  s' = s ∧ n = Z.of_nat (length (List.filter P (live (get_table s)))).
Proof.
  intros [Hc Hd]. unfold count, gets, count_rows. rewrite select_stored_clean by done.
  by intros [= <- <-].
Qed.
Lemma get_settled k s r s' :
  settled_table (get_table (R := R) s) → get k s = (Ok r, s') →
  s' = s ∧ r = find_row k (live (get_table s)).
Proof. intros [Hc Hd]. unfold get, gets. rewrite get_row_clean by done. by intros [= <- <-]. Qed.
End queries.

Lemma unchanged {A} (m : M Core A) s r s' : preserves eq m → m s = (r, s') → s' = s.
Proof. intros Hm E. symmetry. by apply (preserves_run eq m s r s'). Qed.

(** ** What operations leave alone *)
Definition quiet : relation Core := λ s s', settled s → workflow_tables s' = workflow_tables s.
#[export] Instance quiet_preorder : PreOrder quiet.
Proof.
  split; [by intros s Hs|]. intros s1 s2 s3 H12 H23 Hs1. pose proof (H12 Hs1) as E.
  rewrite H23; [done|]. by apply (settled_same s1).
Qed.

Lemma settled_flush s s' :
  settled s → flush_session s = Some s' → workflow_tables s' = workflow_tables s.
Proof.
  intros [[C1 _] [C2 _] [C3 _] [C4 _]] [_ ->]%flush_core. revert C1 C2 C3 C4.
  unfold workflow_tables, clean. simpl. destruct (Core.db s) as [? ? ? ? ? [] ? [] [] [] ?]; simpl.
  by intros -> -> -> ->.
Qed.

Lemma quiet_flush : preserves quiet flush.
Proof.
  intros s Hs. unfold flush. destruct (flush_session s) as [s'|] eqn:E; [|done].
  by apply settled_flush.
Qed.
Lemma quiet_same {A} (m : M Core A) : preserves (same workflow_tables) m → preserves quiet m.
Proof. intros Hm s _. apply Hm. Qed.
Lemma quiet_reads {A} (m : M Core A) : preserves eq m → preserves quiet m.
Proof. intros Hm s _. by rewrite <- (Hm s). Qed.
#[export] Hint Resolve quiet_flush : preserve.
#[export] Hint Extern 2 (preserves quiet uuid4) =>
  apply quiet_same, preserves_uuid4; intros ?; reflexivity : preserve.
#[export] Hint Extern 3 (preserves quiet (add _)) =>
  apply quiet_same, preserves_modify; intros ?; reflexivity : preserve.
#[export] Hint Extern 3 (preserves quiet (assign _ _)) =>
  apply quiet_same, preserves_modify; intros ?; reflexivity : preserve.

Section frames.
Context `{Env} `{WorkflowEnv} `{DocumentStorage} `{PdfLibrary} (held : Core → string → option string)
  `{!DocumentStorageLaws held}.

Lemma require_role_reads t a roles lenient : preserves eq (TenantService.require_role t a roles lenient).
Proof.
  unfold TenantService.require_role, TenantService.membership_identity_filter,
    TenantService.team_over_limit, TenantService.member_limit. preserve.
Qed.
Lemma document_access_reads d a r : preserves eq (_require_document_access d a r).
Proof. unfold _require_document_access. preserve. apply require_role_reads. Qed.
Lemma accessible_request_reads i a : preserves eq (accessible_request i a).
Proof.
  unfold accessible_request, _request, _require_request_access. preserve.
  apply document_access_reads.
Qed.
Lemma document_of_reads i : preserves eq (_document_of i).
Proof. unfold _document_of. preserve. Qed.
Lemma document_reads i : preserves eq (_document i).
Proof. unfold _document, _document_of. preserve. Qed.
Lemma signature_mode_reads r mode n : preserves eq (check_signature_mode r mode n).
Proof. unfold check_signature_mode. preserve. Qed.
Lemma request_read_reads r : preserves eq (_request_read r).
Proof. unfold _request_read. preserve. Qed.
Lemma document_read_reads d : preserves eq (_document_read d).
Proof. unfold _document_read. preserve. Qed.

Lemma audit_view q a x y i m : preserves (same view_of) (_audit q a x y i m).
Proof. unfold _audit. preserve. Qed.
Lemma audit_quiet q a x y i m : preserves quiet (_audit q a x y i m).
Proof. unfold _audit. preserve. Qed.
Lemma flush_view : preserves (same view_of) flush.
Proof.
  intros s. unfold flush, same. destruct (flush_session s) as [s'|] eqn:E; [|done].
  by apply view_flush.
Qed.

Lemma put_quiet c f h sc : preserves quiet (put c f h sc).
Proof.
  intros s _. pose proof (put_outside c f h sc s) as E. unfold same, outside_view in E.
  injection E as E _ _ _. unfold workflow_tables. by rewrite E.
Qed.
Lemma get_object_quiet k : preserves quiet (get_object k).
Proof.
  intros s _. pose proof (get_outside k s) as E. unfold same, outside_view in E.
  injection E as E _ _ _ _. unfold workflow_tables. by rewrite E.
Qed.
Lemma discard_db k s : Core.db (discard_uncommitted k s).2 = Core.db s.
Proof.
  pose proof (discard_outside k s) as E. unfold same, outside_view in E. by injection E.
Qed.
Lemma account_entity_quiet t : preserves quiet (BillingService._account_entity t).
Proof. unfold BillingService._account_entity, BillingService.set_account. preserve. Qed.
Lemma consume_signature_quiet t : preserves quiet (BillingService.consume_signature t).
Proof.
  unfold BillingService.consume_signature, BillingService.set_account. preserve.
  all: apply account_entity_quiet.
Qed.
Lemma consume_document_quiet t : preserves quiet (BillingService.consume_document t).
Proof.
  unfold BillingService.consume_document, BillingService.set_account. preserve.
  all: apply account_entity_quiet.
Qed.
End frames.

(** Inverting a run of lookups on settled tables. *)
Ltac settled_step Hs :=
  match goal with
  | H : scalar _ _ = (Ok _, _) |- _ =>
      apply scalar_settled in H; [destruct H as [-> ->] | solve [apply Hs]]
  | H : scalars _ _ = (Ok _, _) |- _ =>
      apply scalars_settled in H; [destruct H as [-> ->] | solve [apply Hs]]
  | H : columns _ _ = (Ok _, _) |- _ =>
      apply columns_settled in H; [destruct H as [-> ->] | solve [apply Hs]]
  | H : count _ _ = (Ok _, _) |- _ =>
      apply count_settled in H; [destruct H as [-> ->] | solve [apply Hs]]
  | H : get _ _ = (Ok _, _) |- _ =>
      apply get_settled in H; [destruct H as [-> ->] | solve [apply Hs]]
  | H : utc_now _ = (Ok _, _) |- _ => apply gets_ok in H; destruct H as [-> ->]
  end.
Ltac lookups Hs := repeat first [run_step | settled_step Hs].
Ltac found H :=
  match goal with
  | Hq : List.find _ _ = Some _ |- _ =>
      apply List.find_some in Hq; destruct Hq as [H Hq]; rewrite ?andb_true_iff in Hq
  end.

(** ** What a successful lookup says *)
Section lookups.
Context `{Env} `{WorkflowEnv} `{DocumentStorage} `{PdfLibrary}.
Implicit Types s : Core.

Lemma document_of_ok i s d s' :
  settled s → _document_of i s = (Ok d, s') →
  s' = s ∧ In d (v_documents (view_of s)) ∧ open_document d = true ∧ Document.id d = i.
Proof.
  intros Hs. unfold _document_of. intros Hrun. lookups Hs. found Hin.
  match goal with Hq : _ ∧ _ |- _ => destruct Hq as [Hi%N.eqb_eq Ho] end. by subst.
Qed.

Lemma document_ok i s d s' :
  settled s → _document i s = (Ok d, s') →
  s' = s ∧ In d (v_documents (view_of s)) ∧ open_document d = true.
Proof.
  intros Hs. unfold _document. intros Hrun. run_step. run_step.
  apply document_of_ok in Hrun; naive_solver.
Qed.

Lemma request_ok i s r s' :
  settled s → _request i s = (Ok r, s') → s' = s ∧ In r (v_requests (view_of s)).
Proof.
  intros Hs. unfold _request. intros Hrun. lookups Hs. by found Hin.
Qed.

Lemma accessible_ok i a s r s' :
  settled s → accessible_request i a s = (Ok r, s') → s' = s ∧ In r (v_requests (view_of s)).
Proof.
  intros Hs. unfold accessible_request. intros Hrun. repeat run_step.
  apply request_ok in Hrun0 as [-> Hin]; [|done]. split; [|done].
  apply unchanged in Hrun1; [done|]. unfold _require_request_access. preserve.
  apply document_access_reads.
Qed.

Lemma signer_ok i q s g s' :
  settled s → _signer i q s = (Ok g, s') →
  s' = s ∧ In g (v_signers (view_of s)) ∧ Signer.signature_request_id g = q.
Proof.
  intros Hs. unfold _signer. intros Hrun. lookups Hs. found Hin.
  match goal with Hq : _ ∧ _ |- _ => destruct Hq as [_ Hi%N.eqb_eq] end. done.
Qed.

(** A resolved link: a signer of an open request that has not expired. *)
Lemma resolve_ok token who s g r s' :
  settled s → _resolve_request token who false s = (Ok (g, r), s') →
  s' = s ∧ In g (v_signers (view_of s)) ∧ In r (v_requests (view_of s)) ∧
  Signer.signature_request_id g = Request.id r ∧ Request.status r = OPEN ∧
  Signer.auth_user_id g = lower who ∧ Request.signing_token_hash r = Some (sha256_hex token) ∧
  Signer.link_revoked_at g = None ∧ Core.clock s < Request.expires_at r.
Proof.
  intros Hs. unfold _resolve_request, _request_from_token. intros Hrun. lookups Hs.
  found Hr. match goal with Hq : _ ∧ _ |- _ => destruct Hq as [Htok%bool_decide_eq_true _] end.
  destruct (List.find (signer_identity _ _) _) as [g'|] eqn:Hg; [|by lookups Hs].
  apply List.find_some in Hg as [Hg Hid]. unfold signer_identity, signer_of in Hid.
  apply andb_true_iff in Hid as [Hreq%N.eqb_eq Hauth%String.eqb_eq].
  lookups Hs. apply ret_ok in Hrun as [[= -> ->] ->].
  rewrite andb_false_l, andb_true_r in *. split_and!; try done.
  - match goal with Hq : negb _ = false |- _ =>
      by apply negb_false_iff, bool_decide_eq_true in Hq end.
  - match goal with Hq : bool_decide (_ ≠ None) = false |- _ =>
      by apply bool_decide_eq_false, dec_stable in Hq end.
  - by apply Z.leb_gt.
Qed.
End lookups.

(** ** One step of the machine per operation *)
Section refinement.
Context `{Env} `{WorkflowEnv} `{DocumentStorage} `{PdfLibrary} (held : Core → string → option string)
  `{!DocumentStorageLaws held}.
Implicit Types s : Core.

(** The step an operation takes; the database stays consistent. *)
Definition takes_step {A} (m : M Core A) : Prop :=
  ∀ s, consistent s → step (view_of s) (view_of (m s).2) ∧ consistent (m s).2.

Lemma unchanged_db_step s s' :
  consistent s → Core.db s' = Core.db s → step (view_of s) (view_of s') ∧ consistent s'.
Proof.
  intros Hs E. rewrite (view_db s s') by done. split; [constructor|by apply (consistent_db s)].
Qed.

Lemma transaction_takes_step {A} (m : M Core A) :
  (∀ s a s1, consistent s → m s = (Ok a, s1) → step (view_of s) (view_of s1)) →
  takes_step (transaction m).
Proof.
  intros Hm s Hs. destruct (transaction m s) as [[a|e] s'] eqn:E; cbn.
  - apply transaction_ok in E as (s1 & E & Hf). rewrite (view_flush _ _ Hf).
    split; [by eapply Hm|by apply flush_consistent in Hf].
  - apply unchanged_db_step; [done|]. by eapply transaction_err_db.
Qed.

(** The removal of the object leaves the database of the failed transaction. *)
Lemma discarding_err_db {P A} (prepare : M Core (P * string)) (finish : P → string → M Core A) s e s' :
  discarding_on_failure prepare finish s = (Err e, s') → Core.db s' = Core.db s.
Proof.
  unfold discarding_on_failure. destruct (prepare s) as [[[p key]|e1] s1]; [|by intros [= _ <-]].
  destruct (transaction (λ _, finish p key s1) s) as [[a|e2] s2] eqn:E; [done|].
  apply transaction_err_db in E. rewrite <- E. destruct (nonempty key); cbn; [|by intros [= _ <-]].
  unfold mbind, M_bind. pose proof (discard_db held key s2) as Hd.
  destruct (discard_uncommitted key s2) as [[u|e'] s3]; cbn in *; by intros [= _ <-].
Qed.

Lemma discarding_takes_step {P A} (prepare : M Core (P * string)) (finish : P → string → M Core A) :
  (∀ s p key s1 a s2, consistent s → prepare s = (Ok (p, key), s1) →
     finish p key s1 = (Ok a, s2) → step (view_of s) (view_of s2)) →
  takes_step (discarding_on_failure prepare finish).
Proof.
  intros Hm s Hs. destruct (discarding_on_failure prepare finish s) as [[a|e] s'] eqn:Ed; cbn.
  2:{ apply unchanged_db_step; [done|]. by eapply discarding_err_db. }
  revert Ed. unfold discarding_on_failure.
  destruct (prepare s) as [[[p key]|e] s1] eqn:E; [|done].
  destruct (transaction (λ _, finish p key s1) s) as [[a'|e] s2] eqn:E2.
  - intros [= <- <-]. apply transaction_ok in E2 as (s3 & E3 & Hf). rewrite (view_flush _ _ Hf).
    split; [by eapply Hm|by apply flush_consistent in Hf].
  - by intros (? & ? & _ & [=])%bind_ok.
Qed.

Lemma reading_takes_step {A} (m : M Core A) :
  preserves (same Core.db) m → takes_step m.
Proof. intros Hm s Hs. apply unchanged_db_step; [done|apply Hm]. Qed.

(** Rewriting the view after the writes of an operation. *)
Lemma view_after_audit s q a x y i m r s' : _audit q a x y i m s = (r, s') → view_of s' = view_of s.
Proof. intros E. by apply (preserves_run (same view_of) _ _ _ _ (audit_view q a x y i m)) in E. Qed.

Lemma request_read_of_reads i : preserves eq (request_read_of i).
Proof. unfold request_read_of. preserve. Qed.
Lemma signer_read_of_reads i : preserves eq (signer_read_of i).
Proof. unfold signer_read_of. preserve. Qed.

(** Equations between the views around the writes of an operation; assignments
    and insertions are computed. *)
Ltac view_step :=
  match goal with
  | Hw : utc_now _ = (Ok _, _) |- _ => apply gets_ok in Hw; destruct Hw as [-> ->]
  | Hw : uuid4 _ = (Ok _, _) |- _ => frame view_of Hw
  | Hw : _audit _ _ _ _ _ _ _ = _ |- _ => apply view_after_audit in Hw
  | Hw : flush_session _ = Some _ |- _ => apply view_flush in Hw
  | Hw : set_request _ _ _ = (Ok _, _) |- _ => apply modify_ok in Hw as ->
  | Hw : set_signer _ _ _ = (Ok _, _) |- _ => apply modify_ok in Hw as ->
  | Hw : request_read_of _ _ = (_, _) |- _ =>
      apply unchanged in Hw; [subst|apply request_read_of_reads]
  | Hw : signer_read_of _ _ = (_, _) |- _ =>
      apply unchanged in Hw; [subst|apply signer_read_of_reads]
  | Hw : _request_read _ _ = (_, _) |- _ =>
      apply unchanged in Hw; [subst|apply request_read_reads]
  | Hw : _document_read _ _ = (_, _) |- _ =>
      apply unchanged in Hw; [subst|apply document_read_reads]
  end.
Ltac views :=
  repeat view_step;
  repeat match goal with Hw : view_of ?x = view_of _ |- context [view_of ?x] => rewrite Hw end.

(** The start of every proof: the run, and the tables at its start. *)
Ltac start s Hs Hset :=
  apply transaction_takes_step; intros s ? ? Hs ?;
  pose proof (consistent_settled s Hs) as Hset; repeat effect_step.
Ltac accessible Hset Hin :=
  match goal with
  | Hq : accessible_request _ _ _ = (Ok _, _) |- _ =>
      apply accessible_ok in Hq; [destruct Hq as [-> Hin] | exact Hset]
  end.

Lemma not_false b : negb b = false → b = true.
Proof. apply negb_false_iff. Qed.

Lemma cancel_request_step i a : takes_step (cancel_request i a).
Proof.
  start s Hs Hset. accessible Hset Hin. views.
  apply (cancelled (view_of s)); [exact Hin|by apply not_false].
Qed.

Lemma get_db {A} (m : M Core A) s : preserves eq m → Core.db (m s).2 = Core.db s.
Proof. intros Hm. by rewrite <- (Hm s). Qed.

Lemma open_request_step i a mode : takes_step (open_request i a mode).
Proof.
  start s Hs Hset. accessible Hset Hin. settled_step Hset.
  apply unchanged in Hrun3 as ->; [|apply signature_mode_reads].
  apply document_of_ok in Hrun4 as (-> & Hd & _ & Hid); [|exact Hset].
  match goal with Hq : _ || _ = false |- _ => apply orb_false_iff in Hq as [Hv Hsha] end.
  apply not_false, Z.eqb_eq in Hv. apply not_false, String.eqb_eq in Hsha.
  views. eapply (opened (view_of s)); [exact Hin| |exact Hd|done|].
  - match goal with Hq : negb (is_status _ _) = false |- _ =>
      by apply not_false, bool_decide_eq_true in Hq end.
  - destruct (List.filter (signer_of (Request.id a1)) (live (Db.signers (Core.db s)))) as [|g l] eqn:E.
    + match goal with Hq : (_ =? 0) = false |- _ => cbn in Hq; by rewrite E in Hq end.
    + exists g. assert (Hf : In g (g :: l)) by (by left). rewrite <- E in Hf.
      by apply filter_In in Hf.
Qed.

Lemma view_step_ok token who : takes_step (view token who).
Proof.
  start s Hs Hset. destruct a0 as [g r].
  match goal with Hq : _resolve_request _ _ _ _ = _ |- _ =>
    apply resolve_ok in Hq as (-> & Hg & Hr & Hgr & Hopen & _); [|exact Hset] end.
  destruct (is_status (Signer.status g) PENDING) eqn:Hp; cbn [when] in *; repeat effect_step; views.
  - apply bool_decide_eq_true in Hp. by apply (viewed (view_of s) g r).
  - constructor.
Qed.

Lemma decline_step token who : takes_step (decline token who).
Proof.
  start s Hs Hset. destruct a0 as [g r].
  match goal with Hq : _resolve_request _ _ _ _ = _ |- _ =>
    apply resolve_ok in Hq as (-> & Hg & Hr & Hgr & Hopen & _); [|exact Hset] end.
  repeat effect_step. views. by apply (declined (view_of s) g r).
Qed.

Lemma revoke_step i j a : takes_step (revoke_signer_link i j a).
Proof.
  start s Hs Hset. accessible Hset Hin.
  match goal with Hq : _signer _ _ _ = _ |- _ =>
    apply signer_ok in Hq as (-> & Hg & _); [|exact Hset] end.
  destruct (bool_decide _); cbn [when] in *; repeat effect_step; views.
  - by apply (link_revoked (view_of s)).
  - constructor.
Qed.

Lemma bind_takes_step {A B} (m : M Core A) (k : A → M Core B) :
  takes_step m → (∀ a, preserves (same Core.db) (k a)) → takes_step (m ≫= k).
Proof.
  intros Hm Hk s Hs. destruct (Hm s Hs) as [Hst Hc]. unfold mbind, M_bind.
  destruct (m s) as [[a|e] s1]; cbn in *; [|done].
  rewrite (view_db s1 (k a s1).2); [|apply Hk]. split; [done|].
  apply (consistent_db s1); [apply Hk|done].
Qed.

Lemma email_db e x : preserves (same Core.db) (post_email e x).
Proof. unfold post_email. preserve. by apply preserves_modify. Qed.

Lemma create_link_step i a : takes_step (create_signing_link i a).
Proof.
  apply bind_takes_step.
  - start s Hs Hset. accessible Hset Hin.
    match goal with Hq : token_urlsafe _ _ = _ |- _ =>
      apply (preserves_run (same view_of)) in Hq; [|unfold token_urlsafe; preserve] end.
    cbv zeta in *. repeat db_step.
    match goal with Hq : _document_of _ _ = _ |- _ =>
      apply unchanged in Hq as ->; [|apply document_of_reads] end.
    match goal with Hq : email_invitations_enabled _ _ = _ |- _ =>
      apply unchanged in Hq as ->; [|unfold email_invitations_enabled; preserve] end.
    views.
    match goal with Hq : same view_of s ?s2 |- _ => unfold same in Hq; rewrite <- Hq; clear Hq end.
    by apply (link_made (view_of s3)).
  - intros [[[token title] send_email] invitations]. preserve.
    all: unfold send_signature_invitation; preserve; apply email_db.
Qed.

Lemma role_reads_ok t a roles lenient s m s' :
  TenantService.require_role t a roles lenient s = (Ok m, s') → s' = s.
Proof. apply unchanged, require_role_reads. Qed.
Lemma existing_tenant_reads t : preserves eq (TenantService.existing_tenant t).
Proof. unfold TenantService.existing_tenant. preserve. Qed.

(** A row whose insertion a flush accepted had a new key. *)
Lemma fresh_key_of {R} `{Entity R} (l : list R) x :
  keys_distinct (l ++ [x]) → ent_id x ∉ map ent_id l.
Proof.
  unfold keys_distinct. rewrite map_app. intros (_ & Hd & _)%NoDup_app Hin.
  by apply (Hd _ Hin); left.
Qed.

Definition set_cancelled (r : Request.SignatureRequestEntity) : Request.SignatureRequestEntity :=
  r <| Request.status := CANCELLED |>.

Lemma cancel_each a l s u s' :
  for_each (cancel_for_deletion a) l s = (Ok u, s') →
  view_of s' = (view_of s) <| v_requests ::= alter_each (λ _, set_cancelled) l |>.
Proof.
  revert s. induction l as [|r l IH]; intros s Hrun; cbn [for_each] in Hrun.
  - apply ret_ok in Hrun as [_ ->]. by destruct (view_of s).
  - apply bind_ok in Hrun as (? & s1 & Hr & Hrun). rewrite (IH _ Hrun).
    unfold cancel_for_deletion in Hr. repeat effect_step. views. reflexivity.
Qed.

Lemma cancel_active_rows k (l : list Request.SignatureRequestEntity) :
  keys_distinct l →
  alter_each (λ _, set_cancelled)
    (List.filter (λ r, N.eqb (Request.document_id r) k && one_of (Request.status r) [DRAFT; OPEN]) l) l
  = map (cancel_active k) l.
Proof.
  intros Hd. rewrite alter_each_map; [|done|by apply keys_distinct_filter].
  apply map_ext_in. intros r Hr. rewrite find_row_filter by done. unfold cancel_active.
  by destruct (_ && _).
Qed.

Lemma delete_document_step i a force : takes_step (delete_document i a force).
Proof.
  start s Hs Hset. apply document_ok in Hrun as (-> & Hd & _); [|exact Hset].
  apply role_reads_ok in Hrun0 as ->. settled_step Hset. cbv zeta in *. repeat effect_step.
  match goal with Hq : for_each _ _ _ = _ |- _ => apply cancel_each in Hq end.
  views.
  match goal with Hq : view_of ?s2 = _ |- _ =>
    generalize (Core.clock s2); intros now;
    change (step (view_of s) ((view_of s2) <| v_documents ::= alter_rows
      (λ d, d <| Document.deleted_at := Some now |>) (Document.id a1) |>)); rewrite Hq end.
  match goal with |- step ?v ?w =>
    replace w with (v <| v_documents ::= alter_rows
      (λ d, d <| Document.deleted_at := Some now |>) (Document.id a1) |>
      <| v_requests ::= map (cancel_active (Document.id a1)) |>) end.
  - by apply deleted.
  - cbn. f_equal. symmetry. apply cancel_active_rows, (settled_requests s Hset).
Qed.

Lemma after_takes_step {A B} (m : M Core A) (k : A → M Core B) :
  preserves (same Core.db) m → (∀ a, takes_step (k a)) → takes_step (m ≫= k).
Proof.
  intros Hm Hk s Hs. unfold mbind, M_bind. specialize (Hm s).
  destruct (m s) as [[a|e] s1]; cbn in *; [|by apply unchanged_db_step].
  rewrite <- (view_db s s1 Hm). apply Hk. by apply (consistent_db s).
Qed.

(** What a flush checked of the rows. *)
Lemma flushed_keyed s s' : flush_session s = Some s' → keyed (view_of s).
Proof.
  intros Hf. rewrite <- (view_flush _ _ Hf). apply flush_consistent, consistent_settled in Hf.
  split_and!; apply Hf.
Qed.

Lemma refers_in {R R'} `{Entity R} `{Entity R'} key (l : list R) (l' : list R') r k :
  refers key l l' = true → In r l → key r = Some k → k ∈ map ent_id l'.
Proof.
  unfold refers. rewrite forallb_forall. intros Hall Hr Hk. specialize (Hall r Hr).
  rewrite Hk in Hall. apply existsb_exists in Hall as (r' & Hr' & <-%N.eqb_eq).
  apply list_elem_of_In. by apply in_map.
Qed.

Lemma signers_refer s g :
  consistent s → In g (v_signers (view_of s)) →
  Signer.signature_request_id g ∈ map Request.id (v_requests (view_of s)).
Proof.
  intros Hs Hg. destruct (schema_parts s Hs) as (_ & _ & _ & _ & _ & _ & Hr & _).
  unfold requests_ok in Hr. cbv zeta in Hr. rewrite !andb_true_iff in Hr.
  apply (refers_in (λ r, Some (Signer.signature_request_id r)) (live (Db.signers (Core.db s)))
    (live (Db.signature_requests (Core.db s))) g); [tauto|done..].
Qed.

(** The view after an insertion. *)
Lemma view_add_document s x :
  view_of (put_table (add_row x (get_table (R := Document.DocumentEntity) s)) s) =
    (view_of s) <| v_documents ::= λ l, l ++ [x] |>.
Proof. done. Qed.
Lemma view_add_request s x :
  view_of (put_table (add_row x (get_table (R := Request.SignatureRequestEntity) s)) s) =
    (view_of s) <| v_requests ::= λ l, l ++ [x] |>.
Proof. done. Qed.
Lemma view_add_signer s x :
  view_of (put_table (add_row x (get_table (R := Signer.SignerEntity) s)) s) =
    (view_of s) <| v_signers ::= λ l, l ++ [x] |>.
Proof. done. Qed.
Ltac tenant_lookups :=
  repeat match goal with
  | Hq : TenantService.require_role _ _ _ _ _ = _ |- _ => apply role_reads_ok in Hq as ->
  | Hq : TenantService.existing_tenant _ _ = _ |- _ =>
      apply unchanged in Hq as ->; [|apply existing_tenant_reads]
  end.

Lemma create_request_step payload : takes_step (create_request payload).
Proof.
  apply after_takes_step; [by preserve|]. intros now. apply after_takes_step; [by preserve|].
  intros []. start s Hs Hset.
  match goal with Hq : _document_of _ _ = _ |- _ =>
    apply document_of_ok in Hq as (-> & Hd & _); [|exact Hset] end.
  tenant_lookups. cbv zeta in *. repeat effect_step.
  match goal with Hq : flush_session _ = Some _ |- _ => pose proof (flushed_keyed _ _ Hq) as Hk end.
  rewrite view_add_request in Hk. views. rewrite view_add_request. views.
  match goal with Hq : view_of _ = view_of s |- _ => rewrite Hq in * end.
  destruct Hk as (_ & Hk & _). apply (fresh_key_of (v_requests (view_of s))) in Hk.
  apply drafted; [exact Hk|done|]. intros g Hg E. apply Hk. cbn in E. rewrite <- E.
  by apply signers_refer.
Qed.

Lemma representation_reads r p e : preserves eq (representation_of r p e).
Proof.
  unfold representation_of, business_features_enabled, _document_of. preserve.
Qed.

Definition signer_key (g : Signer.SignerEntity) : N * string :=
  (Signer.signature_request_id g, Signer.auth_user_id g).

Lemma omap_some {A B} (f : A → B) (l : list A) : omap (λ x, Some (f x)) l = map f l.
Proof. induction l as [|x l IH]; [done|]. cbn. by f_equal. Qed.

(** A flush accepts one signer per request and person. *)
Lemma flushed_signers s s' :
  flush_session s = Some s' → NoDup (map signer_key (v_signers (view_of s))).
Proof.
  intros [Hok _]%flush_core. unfold schema_ok, requests_ok in Hok. cbv zeta in Hok.
  rewrite !andb_true_iff in Hok.
  assert (Hu : unique_on (λ r, Some (signer_key r)) (live (Db.signers (Core.db s))) = true)
    by (unfold signer_key; tauto).
  unfold unique_on in Hu. rewrite omap_some in Hu. by apply bool_decide_eq_true in Hu.
Qed.

Lemma flush_or_conflict message code s u s' :
  try_catch flush (λ e, match e with
                        | IntegrityError => raise (workflow_error message code)
                        | _ => raise e
                        end) s = (Ok u, s') → flush_session s = Some s'.
Proof.
  intros [Hf%flush_ok|(e & s1 & _ & Hh)]%try_catch_ok; [done|]. by destruct e.
Qed.

Lemma add_signer_step i payload a : takes_step (add_signer i payload a).
Proof.
  apply after_takes_step; [unfold token_urlsafe; by preserve|]. intros token.
  start s Hs Hset. accessible Hset Hin. cbv zeta in *. repeat effect_step.
  match goal with Hq : (if _ then _ else _) s = _ |- _ =>
    apply unchanged in Hq as ->;
    [|preserve; apply representation_reads] end.
  match goal with Hq : try_catch _ _ _ = _ |- _ => apply flush_or_conflict in Hq end.
  match goal with Hq : flush_session _ = Some _ |- _ =>
    pose proof (flushed_keyed _ _ Hq) as Hk; pose proof (flushed_signers _ _ Hq) as Hu end.
  rewrite view_add_signer in Hk, Hu. views. rewrite view_add_signer. views.
  match goal with Hq : view_of _ = view_of s |- _ => rewrite Hq in * end.
  destruct Hk as (_ & _ & Hk). apply (fresh_key_of (v_signers (view_of s))) in Hk.
  eapply (signer_added (view_of s)); [exact Hin|done| |done|exact Hk|].
  - match goal with Hq : negb (is_status _ DRAFT) = false |- _ =>
      by apply not_false, bool_decide_eq_true in Hq end.
  - intros h Hh E E'. cbn [v_signers set_field] in Hu. rewrite map_app in Hu.
    apply NoDup_app in Hu as (_ & Hu & _). apply (Hu (signer_key h)).
    + apply list_elem_of_In. by apply in_map.
    + apply list_elem_of_In. left. unfold signer_key. cbn in *. by rewrite E, E'.
Qed.

Lemma add_document_version_view d v f c k h n by_ s r s' :
  add_document_version d v f c k h n by_ s = (r, s') → view_of s' = view_of s.
Proof. intros Hrun. unfold add_document_version in Hrun. by frame view_of Hrun. Qed.

Lemma create_document_step payload content : takes_step (create_document payload content).
Proof.
  apply after_takes_step; [by preserve|]. intros []. cbv zeta.
  apply discarding_takes_step. intros s [tenant size] key s1 read s2 Hs Hprep Hfin.
  pose proof (consistent_settled s Hs) as Hset.
  assert (Hq : workflow_tables s1 = workflow_tables s).
  { refine (preserves_run quiet _ _ _ _ _ Hprep Hset). preserve.
    - apply quiet_reads, require_role_reads.
    - apply consume_document_quiet.
    - by apply (put_quiet held). }
  rewrite <- (view_same _ _ Hq). clear Hprep Hset Hs Hq. cbv zeta in *. repeat effect_step.
  match goal with Hq : add_document_version _ _ _ _ _ _ _ _ _ = _ |- _ =>
    apply add_document_version_view in Hq end.
  match goal with Hq : flush_session (put_table _ _) = Some _ |- _ =>
    pose proof (flushed_keyed _ _ Hq) as (Hk & _) end.
  rewrite view_add_document in Hk. views. rewrite view_add_document. views.
  match goal with Hq : view_of _ = view_of s1 |- _ => rewrite Hq in * end.
  apply (fresh_key_of (v_documents (view_of s1))) in Hk. by apply uploaded.
Qed.

Lemma add_version_step i f c a content : takes_step (add_version i f c a content).
Proof.
  apply after_takes_step; [by preserve|]. intros []. cbv zeta.
  apply discarding_takes_step. intros s [item size] key s1 read s2 Hs Hprep Hfin.
  pose proof (consistent_settled s Hs) as Hset.
  repeat effect_step.
  match goal with Hq : _document _ _ = _ |- _ =>
    apply document_ok in Hq as (-> & Hd & _); [|exact Hset] end.
  tenant_lookups. settled_step Hset.
  match goal with Hq : put _ _ _ _ _ = _ |- _ =>
    apply (preserves_run quiet) in Hq; [specialize (Hq Hset)|by apply (put_quiet held)] end.
  match goal with Hq : mret _ _ = _ |- _ => apply ret_ok in Hq as [[= -> _ _] ->] end.
  match goal with Hq : workflow_tables _ = workflow_tables s |- _ => apply view_same in Hq end.
  match goal with Hq : add_document_version _ _ _ _ _ _ _ _ _ = _ |- _ =>
    apply add_document_version_view in Hq end.
  views.
  match goal with Hq : view_of ?s3 = view_of s |- _ => rewrite <- Hq; apply revised; [done|]; rewrite Hq end.
  intros r Hr Hdoc. destruct (freezes r) eqn:Hf; [|done].
  match goal with Hq : match head ?l with _ => _ end = false |- _ =>
    assert (Hin : In r l); [|by destruct l] end.
  apply filter_In. split; [exact Hr|]. by rewrite Hdoc, N.eqb_refl, Hf.
Qed.

Lemma check_signature_reads cmd g r : preserves eq (check_signature cmd g r).
Proof. unfold check_signature, check_certificate. preserve. Qed.
Lemma frozen_document_reads r : preserves eq (frozen_document r).
Proof. unfold frozen_document. preserve. Qed.
Lemma check_representation_reads g who : preserves eq (check_representation g who).
Proof. unfold check_representation, TenantService.membership_identity_filter. preserve. Qed.
Lemma original_content_quiet r v b : preserves quiet (original_content r v b).
Proof. unfold original_content. preserve. by apply (get_object_quiet held). Qed.
Lemma owner_reads d : preserves eq (_document_owner_storage_id d).
Proof. unfold _document_owner_storage_id. preserve. Qed.

Lemma check_signature_ok cmd g r s u s' :
  check_signature cmd g r s = (Ok u, s') → s' = s ∧ is_signed g = false.
Proof.
  intros Hrun. split; [by apply unchanged in Hrun; [|apply check_signature_reads]|].
  unfold check_signature in Hrun. repeat run_step. done.
Qed.

(** What the preparation of a signature established. *)
Lemma prepare_signature_ok cmd identity s d key s1 :
  settled s → prepare_signature cmd identity s = (Ok (d, key), s1) →
  workflow_tables s1 = workflow_tables s ∧
  In (sd_signer d) (v_signers (view_of s)) ∧ In (sd_request d) (v_requests (view_of s)) ∧
  Signer.signature_request_id (sd_signer d) = Request.id (sd_request d) ∧
  Request.status (sd_request d) = OPEN ∧ is_signed (sd_signer d) = false.
Proof.
  intros Hset Hrun. unfold prepare_signature in Hrun.
  apply bind_ok in Hrun as ([g r] & s' & Hres & Hrun).
  apply resolve_ok in Hres as (-> & Hg & Hr & Hgr & Hopen & _); [|exact Hset].
  cbv zeta in Hrun. apply bind_ok in Hrun as ([] & s' & Hcheck & Hrun).
  apply check_signature_ok in Hcheck as [-> Hns]. split.
  - refine (preserves_run quiet _ _ _ _ _ Hrun Hset). preserve.
    + apply quiet_reads, frozen_document_reads.
    + apply quiet_reads, check_representation_reads.
    + apply consume_signature_quiet.
    + apply original_content_quiet.
    + by apply (put_quiet held).
  - repeat (effect_step; try match goal with x : _ * _ |- _ => destruct x end).
    match goal with Hq : mret _ _ = _ |- _ => apply ret_ok in Hq as [[= -> _] _] end. done.
Qed.

(** The pending signers the code counts are those of the machine. *)
Lemma none_pending i l :
  (Z.of_nat (length (List.filter (unsigned_of i) l)) =? 0) = all_signed i l.
Proof.
  unfold all_signed. induction l as [|g l IH]; [done|]. cbn.
  destruct (unsigned_of i g); cbn; [|exact IH]. apply Z.eqb_neq. lia.
Qed.

(** The view after the signature is added and its signer marked. *)
Definition after_signature (now : Z) (k : N) (x : Signature.SignatureEntity) (v : WorkflowMachine.view) :=
  mkView (v_documents v) (v_requests v) (alter_rows (mark_signed now) k (v_signers v))
    (v_signatures v ++ [x]).
Lemma view_after_signature s now k x :
  view_of (put_table (mutate (mark_signed now) k
    (get_table (put_table (add_row x (get_table (R := Signature.SignatureEntity) s)) s)))
    (put_table (add_row x (get_table (R := Signature.SignatureEntity) s)) s)) =
  after_signature now k x (view_of s).
Proof. done. Qed.
Lemma view_set_request s f k :
  view_of (put_table (mutate f k (get_table (R := Request.SignatureRequestEntity) s)) s) =
    (view_of s) <| v_requests ::= alter_rows f k |>.
Proof. done. Qed.

Lemma record_signature_ok cmd d key s read s' :
  record_signature cmd d key s = (Ok read, s') →
  ∃ k, Signature.signature_request_id k = Request.id (sd_request d) ∧
    Signature.signer_id k = Signer.id (sd_signer d) ∧
    Signature.document_sha256 k = Request.document_sha256 (sd_request d) ∧
    Signature.signed_at k = sd_now d ∧
    let signers := alter_rows (mark_signed (sd_now d)) (Signer.id (sd_signer d))
                     (v_signers (view_of s)) in
    view_of s' = mkView (v_documents (view_of s))
      (if all_signed (Request.id (sd_request d)) signers
       then alter_rows (mark_completed (sd_now d)) (Request.id (sd_request d)) (v_requests (view_of s))
       else v_requests (view_of s))
      signers (v_signatures (view_of s) ++ [k]).
Proof.
  intros Hrun. unfold record_signature in Hrun. cbv zeta in Hrun. repeat effect_step.
  match goal with Hq : flush_session _ = Some ?s4, Hc : count _ _ = _ |- _ =>
    pose proof (consistent_settled _ (flush_consistent _ _ Hq)) as Hset;
    apply count_settled in Hc as [-> ->]; [|apply Hset];
    rewrite none_pending in *; change (live (get_table s4)) with (v_signers (view_of s4)) in *
  end.
  repeat view_step.
  match goal with Hq : view_of _ = view_of (put_table _ (put_table (add_row ?x _) _)) |- _ => exists x end.
  split_and!; [done..|]. cbv zeta.
  match goal with
  | Ha : view_of ?s0 = view_of s, Hb : view_of ?s3 = view_of (put_table _ (put_table (add_row ?x _) ?s0)),
    Hc : view_of ?s4 = view_of ?s3 |- _ =>
    assert (Hv : view_of s4 = after_signature (sd_now d) (Signer.id (sd_signer d)) x (view_of s));
    [rewrite Hc, Hb; refine (eq_trans (view_after_signature _ _ _ _) _); by rewrite Ha|];
    clear Ha Hb Hc
  end.
  rewrite Hv in *. unfold after_signature in *. cbn [v_signers] in *.
  destruct (all_signed _ _) eqn:Hall; cbn [when] in *; repeat effect_step; views.
  - rewrite view_set_request, Hv. reflexivity.
  - rewrite Hv. reflexivity.
Qed.

Lemma sign_step cmd : takes_step (sign cmd).
Proof.
  apply after_takes_step; [by preserve|]. intros []. cbv zeta.
  apply discarding_takes_step. intros s d key s1 read s2 Hs Hprep Hfin.
  apply prepare_signature_ok in Hprep as (Hq & Hg & Hr & Hgr & Hopen & Hns);
    [|by apply consistent_settled].
  apply view_same in Hq. apply record_signature_ok in Hfin as (k & E1 & E2 & E3 & E4 & Hv).
  rewrite Hv, Hq. by apply signed.
Qed.
End refinement.
