(* ===== verification/DbWorkflowCalls.v ===== *)
(** * The calls of the signature workflow

    Every public operation of database_workflow_service.py as one datatype, and
    what any sequence of calls keeps: the machine's invariants and histories,
    the database on failures, and the stored documents. *)

From S2P Require Import Prelude.
From S2P Require Import PyText.
From S2P Require Import Json.
From S2P Require Import DateTime.
From S2P Require Import Orm.
From S2P Require Import WorkflowSchema.
From S2P Require Import CoreDb.
From S2P Require Import Identity.
From S2P Require Import BillingPolicy.
From S2P Require Import Tenant.
From S2P Require Import Billing.
From S2P Require Import Storage.
From S2P Require Import PdfValidation.
From S2P Require Import DbWorkflow.
From S2P Require Import WorkflowMachine.
From S2P Require Import DbWorkflowFacts.
Import WorkflowService.

Local Open Scope Z_scope.

(** ** The operations *)
Inductive operation :=
| CreateDocument (payload : DocumentCreate) (content : string)
| AddVersion (document_id filename content_type actor_id content : string)
| ListDocuments (actor_id : string)
| GetDocument (document_id actor_id : string)
| DeleteDocument (document_id actor_id : string) (force : bool)
| GetContent (document_id : string) (version : option Z) (actor_id : option string)
| CreateRequest (payload : SignatureRequestCreate)
| ListRequests (actor_id : string)
| GetRequest (request_id actor_id : string)
| AddSigner (request_id : string) (payload : SignerCreate) (actor_id : string)
| ListSigners (request_id actor_id : string)
| ListSignerContacts (tenant_id : N) (actor_id query : string)
| RevokeSignerLink (request_id signer_id actor_id : string)
| CreateSigningLink (request_id actor_id : string)
| GetSigningLink (request_id actor_id : string)
| OpenRequest (request_id actor_id : string) (mode : SignatureMode)
| CancelRequest (request_id actor_id : string)
| SigningContext (token auth_user_id : string) (administrator : bool)
| SigningDocument (token auth_user_id : string) (administrator : bool)
| ViewRequest (token auth_user_id : string)
| Decline (token auth_user_id : string)
| Sign (cmd : SignCommand)
| SignedDocument (request_id : string) (actor_id : option string)
| SigningSignedDocument (token auth_user_id : string) (administrator : bool)
| SignatureEvidence (request_id actor_id : string)
| AuditEvents (request_id actor_id : string).

Section calls.
Context `{Env} `{WorkflowEnv} `{DocumentStorage} `{PdfLibrary}.

Definition done_with {A} (m : M Core A) : M Core unit := m;; mret tt.

(** The effect of an operation, its answer dropped. *)
Definition operate (op : operation) : M Core unit :=
  match op with
  | CreateDocument p c => done_with (create_document p c)
  | AddVersion i f t a c => done_with (add_version i f t a c)
  | ListDocuments a => done_with (list_documents a)
  | GetDocument i a => done_with (get_document i a)
  | DeleteDocument i a force => done_with (delete_document i a force)
  | GetContent i v a => done_with (get_content i v a)
  | CreateRequest p => done_with (create_request p)
  | ListRequests a => done_with (list_requests a)
  | GetRequest i a => done_with (get_request i a)
  | AddSigner i p a => done_with (add_signer i p a)
  | ListSigners i a => done_with (list_signers i a)
  | ListSignerContacts t a q => done_with (list_signer_contacts t a q)
  | RevokeSignerLink i j a => done_with (revoke_signer_link i j a)
  | CreateSigningLink i a => done_with (create_signing_link i a)
  | GetSigningLink i a => done_with (get_signing_link i a)
  | OpenRequest i a mode => done_with (open_request i a mode)
  | CancelRequest i a => done_with (cancel_request i a)
  | SigningContext t a adm => done_with (signing_context t a adm)
  | SigningDocument t a adm => done_with (signing_document t a adm)
  | ViewRequest t a => done_with (view t a)
  | Decline t a => done_with (decline t a)
  | Sign cmd => done_with (sign cmd)
  | SignedDocument i a => done_with (signed_document i a)
  | SigningSignedDocument t a adm => done_with (signing_signed_document t a adm)
  | SignatureEvidence i a => done_with (signature_evidence i a)
  | AuditEvents i a => done_with (audit_events i a)
  end.

(** The links are mailed after the commit: only this operation may fail with
    its changes stored. *)
Definition commits_first (op : operation) : bool :=
  match op with CreateSigningLink _ _ => true | _ => false end.

(** The calls, and what the rest of the process does between two of them: it
    touches neither the tables of the workflow nor the object store. *)
Inductive workflow_runs : Core → Core → Prop :=
| workflow_starts s : workflow_runs s s
| then_operates s s' op : workflow_runs s s' → workflow_runs s (operate op s').2
| then_elsewhere s s1 s2 : workflow_runs s s1 → consistent s2 →
    workflow_tables s2 = workflow_tables s1 →
    Db.document_versions (Core.db s2) = Db.document_versions (Core.db s1) →
    Core.objects s2 = Core.objects s1 → workflow_runs s s2.
End calls.

Section calls_facts.
Context `{Env} `{WorkflowEnv} `{DocumentStorage} `{PdfLibrary} (held : Core → string → option string)
  `{!DocumentStorageLaws held}.
Implicit Types s : Core.

(** ** Each operation takes one step *)
Lemma done_takes_step {A} (m : M Core A) : takes_step m → takes_step (done_with m).
Proof. intros Hm. apply bind_takes_step; [done|]. intros ?. by preserve. Qed.

Lemma get_object_db k : preserves (same Core.db) (get_object k).
Proof.
  intros s. pose proof (get_outside k s) as E. unfold same, outside_view in *. by injection E.
Qed.
Lemma verified_content_db d k : preserves (same Core.db) (verified_content d k).
Proof. unfold verified_content. preserve. apply get_object_db. Qed.
Lemma get_content_db i v a : preserves (same Core.db) (get_content i v a).
Proof. unfold get_content. preserve. apply verified_content_db. Qed.
Lemma signing_document_db t a adm : preserves (same Core.db) (signing_document t a adm).
Proof. unfold signing_document. preserve. apply verified_content_db. Qed.
Lemma signed_document_db i a : preserves (same Core.db) (signed_document i a).
Proof. unfold signed_document. preserve. apply get_object_db. Qed.
Lemma signing_signed_db t a adm : preserves (same Core.db) (signing_signed_document t a adm).
Proof. unfold signing_signed_document. preserve. apply signed_document_db. Qed.

Lemma operate_takes_step op : takes_step (operate op).
Proof.
  destruct op; cbn; apply done_takes_step;
    try (by apply reading_takes_step, read_session_db).
  - by apply (create_document_step held).
  - by apply (add_version_step held).
  - apply delete_document_step.
  - apply reading_takes_step, get_content_db.
  - apply create_request_step.
  - apply add_signer_step.
  - apply revoke_step.
  - apply create_link_step.
  - apply open_request_step.
  - apply cancel_request_step.
  - apply reading_takes_step, signing_document_db.
  - apply view_step_ok.
  - apply decline_step.
  - by apply (sign_step held).
  - apply reading_takes_step, signed_document_db.
  - apply reading_takes_step, signing_signed_db.
Qed.

Lemma runs_take_steps s s' :
  consistent s → workflow_runs s s' → steps (view_of s) (view_of s') ∧ consistent s'.
Proof.
  intros Hs Hrun. induction Hrun as [s|s s' op Hrun IH|s s1 s2 Hrun IH Hc Hq _ _].
  - split; [constructor|done].
  - destruct (IH Hs) as [Hst Hc]. destruct (operate_takes_step op s' Hc) as [Hone Hc'].
    split; [|done]. eapply steps_trans; [exact Hst|]. econstructor; [exact Hone|constructor].
  - destruct (IH Hs) as [Hst _]. split; [|done]. by rewrite (view_same _ _ Hq).
Qed.

(** ** Failures *)
Definition leaves_db_on_error {A} (m : M Core A) : Prop :=
  ∀ s e s', m s = (Err e, s') → Core.db s' = Core.db s.

Lemma done_leaves_db {A} (m : M Core A) : leaves_db_on_error m → leaves_db_on_error (done_with m).
Proof. intros Hm s e s' [Hrun|(? & ? & _ & [=])]%bind_err. by eapply Hm. Qed.
Lemma reading_leaves_db {A} (m : M Core A) : preserves (same Core.db) m → leaves_db_on_error m.
Proof. intros Hm s e s' Hrun. by apply (preserves_run (same Core.db)) in Hrun. Qed.
Lemma after_leaves_db {A B} (m : M Core A) (k : A → M Core B) :
  preserves (same Core.db) m → (∀ a, leaves_db_on_error (k a)) → leaves_db_on_error (m ≫= k).
Proof.
  intros Hm Hk s e s' [Hrun|(a & s1 & Hrun & Hend)]%bind_err;
    apply (preserves_run (same Core.db)) in Hrun; try done.
  apply Hk in Hend. unfold same in Hrun. congruence.
Qed.
Lemma transaction_leaves_db {A} (m : M Core A) : leaves_db_on_error (transaction m).
Proof. intros s e s'. apply transaction_err_db. Qed.

Lemma operate_leaves_db op : commits_first op = false → leaves_db_on_error (operate op).
Proof.
  destruct op; cbn; intros Hno; try done; apply done_leaves_db;
    try apply transaction_leaves_db; try (by apply reading_leaves_db, read_session_db).
  - apply after_leaves_db; [by preserve|]. intros []. cbv zeta.
    intros s e s'. by apply (discarding_err_db held).
  - apply after_leaves_db; [by preserve|]. intros []. cbv zeta.
    intros s e s'. by apply (discarding_err_db held).
  - apply reading_leaves_db, get_content_db.
  - apply after_leaves_db; [by preserve|]. intros now. apply after_leaves_db; [by preserve|].
    intros []. apply transaction_leaves_db.
  - apply reading_leaves_db, signing_document_db.
  - apply after_leaves_db; [by preserve|]. intros []. cbv zeta.
    intros s e s'. by apply (discarding_err_db held).
  - apply reading_leaves_db, signed_document_db.
  - apply reading_leaves_db, signing_signed_db.
Qed.
End calls_facts.

(** ** Projections an operation leaves alone *)
Section projections.
Context {T : Type} (f : Core → T).

(** A projection that flushing and rolling back respect. *)
Class SessionProjection : Prop := {
  flush_projection s s' : flush_session s = Some s' → f s' = f s;
  rollback_projection s s' : f s' = f s → f (rollback_session s s') = f s
}.
Context `{!SessionProjection}.

Lemma transaction_same {A} (m : M Core A) :
  preserves (same f) m → preserves (same f) (transaction m).
Proof.
  intros Hm s. pose proof (Hm s) as Hk. unfold transaction, same in *.
  destruct (m s) as [[a|e] s1]; cbn in *; [|by apply rollback_projection].
  destruct (flush_session s1) as [s2|] eqn:Ef; cbn; [|by apply rollback_projection].
  by rewrite (flush_projection _ _ Ef).
Qed.
Lemma reading_same {A} (m : M Core A) :
  preserves (same f) m → preserves (same f) (read_session m).
Proof.
  intros Hm s. pose proof (Hm s) as Hk. unfold read_session.
  destruct (m s) as [r s1]. by apply rollback_projection.
Qed.
End projections.

#[export] Instance objects_projection : SessionProjection Core.objects.
Proof. split; [|done]. by intros s s' [_ ->]%flush_core. Qed.

(** Through the definitions of the operations. *)
Ltac operation_head m :=
  lazymatch m with ?f _ => operation_head f | _ => m end.
Ltac through_operation :=
  repeat first
    [ solve [eauto 2 with preserve typeclass_instances]
    | match goal with
      | |- preserves _ (transaction _) => apply transaction_same; [apply _|]
      | |- preserves _ (read_session _) => apply reading_same; [apply _|]
      | |- preserves _ (mapM _ _) => apply preserves_mapM; [apply _|intros ?]
      end
    | preserve_step
    | apply preserves_modify; intros ?; reflexivity
    | match goal with |- preserves _ ?m => let f := operation_head m in unfold f end ].

(** ** What is stored stays stored *)
Section stored.
Context `{Env} `{WorkflowEnv} `{DocumentStorage} `{PdfLibrary} (held : Core → string → option string)
  `{!DocumentStorageLaws held}.
Implicit Types s : Core.

Definition keeps_stored : relation Core := λ s s', ∀ k c, held s k = Some c → held s' k = Some c.
#[local] Instance keeps_stored_preorder : PreOrder keeps_stored.
Proof. split; [by intros s k c|]. intros s1 s2 s3 H12 H23 k c Hk. by apply H23, H12. Qed.

Lemma objects_keep s s' : Core.objects s' = Core.objects s → keeps_stored s s'.
Proof. intros E k c <-. by apply held_outside. Qed.
Lemma quiet_keeps {A} (m : M Core A) : preserves (same Core.objects) m → preserves keeps_stored m.
Proof. intros Hm s. apply objects_keep, Hm. Qed.
Lemma transaction_keeps {A} (m : M Core A) :
  preserves keeps_stored m → preserves keeps_stored (transaction m).
Proof.
  intros Hm s. pose proof (Hm s) as Hk. unfold transaction.
  destruct (m s) as [[a|e] s1]; cbn in *.
  - destruct (flush_session s1) as [s2|] eqn:Ef; cbn.
    + apply flush_core in Ef as [_ ->]. etrans; [exact Hk|]. by apply objects_keep.
    + etrans; [exact Hk|]. by apply objects_keep.
  - etrans; [exact Hk|]. by apply objects_keep.
Qed.
Lemma reading_keeps {A} (m : M Core A) :
  preserves keeps_stored m → preserves keeps_stored (read_session m).
Proof.
  intros Hm s. pose proof (Hm s) as Hk. unfold read_session. destruct (m s) as [r s1]; cbn in *.
  etrans; [exact Hk|]. by apply objects_keep.
Qed.
Lemma put_keeps c f h sc : preserves keeps_stored (put c f h sc).
Proof.
  intros s. destruct (put c f h sc s) as [[[key n]|e] s'] eqn:Hput; intros k x Hk; cbn.
  - apply put_stores in Hput as (Hfree & _ & _ & Hothers). rewrite Hothers; [done|congruence].
  - by rewrite (put_fails _ _ _ _ _ _ _ Hput).
Qed.
Lemma get_keeps k : preserves keeps_stored (get_object k).
Proof.
  intros s. destruct (get_object k s) as [r s'] eqn:Hget; intros k' x Hk; cbn.
  by rewrite (get_held _ _ _ _ Hget).
Qed.

(** Preparing an upload: the key it stores under was free. *)
Definition same_held : relation Core := λ s s', ∀ k, held s' k = held s k.
#[local] Instance same_held_preorder : PreOrder same_held.
Proof. split; [by intros s k|]. intros s1 s2 s3 H12 H23 k. by rewrite H23. Qed.
Lemma objects_same_held {A} (m : M Core A) :
  preserves (same Core.objects) m → preserves same_held m.
Proof. intros Hm s k. apply held_outside, Hm. Qed.

Definition finds_free {P} (prepare : M Core (P * string)) : Prop :=
  ∀ s p key s1, prepare s = (Ok (p, key), s1) → held s key = None.
Lemma put_finds_free {P} c f h sc (g : string * Z → P) :
  finds_free (stored ← put c f h sc; mret (g stored, stored.1)).
Proof.
  intros s p key s1 ([k n] & s2 & Hput & Hret)%bind_ok. apply ret_ok in Hret as [[= _ ->] _].
  by apply put_stores in Hput as [? _].
Qed.
Lemma after_finds_free {A P} (m : M Core A) (k : A → M Core (P * string)) :
  preserves same_held m → (∀ a, finds_free (k a)) → finds_free (m ≫= k).
Proof.
  intros Hm Hk s p key s1 (a & s2 & Hrun & Hend)%bind_ok.
  apply (preserves_run same_held) in Hrun; [|done]. rewrite <- Hrun. by eapply Hk.
Qed.

Lemma discarding_keeps {P A} (prepare : M Core (P * string)) (finish : P → string → M Core A) :
  finds_free prepare → preserves keeps_stored prepare →
  (∀ p key, preserves keeps_stored (finish p key)) →
  preserves keeps_stored (discarding_on_failure prepare finish).
Proof.
  intros Hfree Hp Hfin s. specialize (Hp s). unfold discarding_on_failure.
  destruct (prepare s) as [[[p key]|e] s1] eqn:E; cbn in *.
  2:{ etrans; [exact Hp|]. by apply objects_keep. }
  assert (Ht : keeps_stored s (transaction (λ _, finish p key s1) s).2).
  { etrans; [exact Hp|]. pose proof (transaction_keeps _ (Hfin p key) s1) as Hk.
    unfold transaction in *. destruct (finish p key s1) as [[a|e] s2]; cbn in *.
    - destruct (flush_session s2); [done|]. etrans; [exact Hk|]. by apply objects_keep.
    - etrans; [exact Hk|]. by apply objects_keep. }
  destruct (transaction _ s) as [[a|e] s2]; cbn in *; [done|].
  destruct (nonempty key); cbn; [|done]. unfold mbind, M_bind.
  destruct (discard_uncommitted key s2) as [r s3] eqn:Ed.
  assert (Hk3 : keeps_stored s s3).
  { intros k c Hk. rewrite (discard_only _ _ _ _ Ed).
    - by apply Ht.
    - intros ->. rewrite (Hfree _ _ _ _ E) in Hk. discriminate. }
  by destruct r.
Qed.

Lemma create_document_keeps p c : preserves keeps_stored (create_document p c).
Proof.
  unfold create_document. apply preserves_bind; [apply _|by preserve|intros _]. cbv zeta.
  apply discarding_keeps.
  - repeat (apply after_finds_free; [solve [apply objects_same_held; through_operation]|intros ?]).
    apply put_finds_free.
  - preserve; try apply put_keeps; apply quiet_keeps; through_operation.
  - intros [t n] key. apply quiet_keeps. through_operation.
Qed.

Lemma add_version_keeps i f t a c : preserves keeps_stored (add_version i f t a c).
Proof.
  unfold add_version. apply preserves_bind; [apply _|by preserve|intros _]. cbv zeta.
  apply discarding_keeps.
  - repeat (apply after_finds_free; [solve [apply objects_same_held; through_operation]|intros ?]).
    apply put_finds_free.
  - preserve; try apply put_keeps; apply quiet_keeps; through_operation.
  - intros [d n] key. apply quiet_keeps. through_operation.
Qed.

Lemma original_content_held r v b : preserves same_held (original_content r v b).
Proof.
  unfold original_content. preserve. intros s k.
  destruct (get_object _ s) as [x s'] eqn:Hget. by apply (get_held _ _ _ _ Hget).
Qed.

Lemma sign_keeps cmd : preserves keeps_stored (sign cmd).
Proof.
  unfold sign. apply preserves_bind; [apply _|by preserve|intros _]. cbv zeta.
  apply discarding_keeps.
  - unfold prepare_signature.
    repeat first [ apply after_finds_free;
                   [first [apply original_content_held | solve [apply objects_same_held; through_operation]]|intros ?]
                 | match goal with |- finds_free (match ?x with _ => _ end) => destruct x end
                 | progress cbv zeta ].
    apply put_finds_free.
  - unfold prepare_signature. preserve; try apply put_keeps; try (apply quiet_keeps; solve [through_operation]).
    unfold original_content. preserve. apply get_keeps.
  - intros d key. apply quiet_keeps. through_operation.
Qed.

Lemma verified_content_keeps d k : preserves keeps_stored (verified_content d k).
Proof. unfold verified_content. preserve. apply get_keeps. Qed.
Lemma signed_document_keeps i a : preserves keeps_stored (signed_document i a).
Proof. unfold signed_document. preserve; [apply quiet_keeps; through_operation|apply get_keeps]. Qed.

Lemma operate_keeps op : preserves keeps_stored (operate op).
Proof.
  destruct op; cbn; unfold done_with; preserve;
    try first [ apply create_document_keeps | apply add_version_keeps | apply sign_keeps
              | apply signed_document_keeps ].
  all: try (apply quiet_keeps; solve [through_operation]).
  all: unfold get_content, signing_document, signing_signed_document; preserve;
    try (apply quiet_keeps; solve [through_operation]); try apply verified_content_keeps.
  apply signed_document_keeps.
Qed.
End stored.
