(* ===== verification/WorkflowExample.v ===== *)
(** * A run of the signature workflow

    Concrete functions for the services the workflow calls, and one request
    from the upload of its document to the last signature, on which the
    theorems with hypotheses are instantiated. *)

From Stdlib Require Import QArith.
From S2P Require Import Prelude.
From S2P Require Import PyText.
From S2P Require Import Json.
From S2P Require Import DateTime.
From S2P Require Import Orm.
From S2P Require Import WorkflowSchema.
From S2P Require Import CoreDb.
From S2P Require Import Tenant.
From S2P Require Import Billing.
From S2P Require Import Storage.
From S2P Require Import PdfValidation.
From S2P Require Import DbWorkflow.
From S2P Require Import WorkflowMachine.
From S2P Require Import DbWorkflowFacts.
From S2P Require Import DbWorkflowCalls.
Import WorkflowService.

Local Open Scope Z_scope.

Module WorkflowExample.

#[export] Existing Instance Example.env.
#[export] Existing Instance LocalDocumentStorage.storage.

(** A reader that finds one page and nothing active. *)
#[export] Instance library : PdfLibrary := λ _, Ok (mkPdfReader (Ok false)
  (Ok [mkPdfPage (Ok 595%Q) (Ok 842%Q)]) (DictionaryObject []) (λ _, Err KeyError)).

#[export] Instance workflow_env : WorkflowEnv := {|
  auth_identity _ := HttpOk (JObj [("identifier_type", JStr "BR_CPF")]);
  generate_signed_pdf original stamps _ :=
    Ok (original +:+ " signed by " +:+ show_Z (Z.of_nat (length stamps)));
  has_embedded_signatures _ := Ok false;
  timestamp_pdf pdf := Ok (pdf, JNull);
  uuid5_url _ := 9%N;
  invitation_email name title url _ := ("Sign " +:+ title, name +:+ " " +:+ url)
|}.

Definition pdf : string := "%PDF-1.7 contract %%EOF".
Definition perform (s : Core) (op : operation) : Core := (operate op s).2.

Definition first_document (s : Core) : N :=
  from_option Document.id 0%N (head (v_documents (view_of s))).
Definition first_request (s : Core) : N :=
  from_option Request.id 0%N (head (v_requests (view_of s))).

Definition signer_named (name email : string) : SignerCreate :=
  mkSignerCreate name email "en" 3600 EXTERNAL_SIGNER None.
Definition signing (token who : string) : operation :=
  Sign (mkSignCommand token who true
    (mkStampPosition 1 "0.5" "0.5" "classic" None false "1" "en" "UTC") "2026" None None
    "10.0.0.1" "Mozilla" None None).

(** Upload, draft, signers, opening, link. *)
Definition uploading : operation :=
  CreateDocument (mkDocumentCreate "acme" "Contract" "contract.pdf" "application/pdf"
    "admin@acme.com") pdf.
Definition s1 : Core := Eval vm_compute in perform Example.s0 uploading.
Definition drafting : operation := CreateRequest
  (mkSignatureRequestCreate (first_document s1) (Example.now + 86400000000) "admin@acme.com").
Definition s2 : Core := Eval vm_compute in perform s1 drafting.
Definition request_id : string := Eval vm_compute in uuid_str (first_request s2).
Definition opening : list operation :=
  [AddSigner request_id (signer_named "Ana" "Ana@mail.com") "admin@acme.com";
   AddSigner request_id (signer_named "Bob" "bob@mail.com") "admin@acme.com";
   OpenRequest request_id "admin@acme.com" EVIDENCE;
   CreateSigningLink request_id "admin@acme.com"].
Definition opened_state : Core := Eval vm_compute in fold_left perform opening s2.
Definition token : string := Eval vm_compute in
  match head (v_requests (view_of opened_state)) with
  | Some r => _request_token (Request.id r) (from_option id "" (Request.signing_token_nonce r))
  | None => ""
  end.

(** Both signers answer: one reads and signs, the other declines. *)
Definition answering : list operation :=
  [ViewRequest token "ana@mail.com"; signing token "ana@mail.com"; Decline token "bob@mail.com"].
Definition declined_state : Core := Eval vm_compute in fold_left perform answering opened_state.
(** And signs after all. *)
Definition completed_state : Core := Eval vm_compute in
  perform declined_state (signing token "bob@mail.com").

Definition statuses (s : Core) : list RequestStatus * list SignerStatus :=
  (map Request.status (v_requests (view_of s)), map Signer.status (v_signers (view_of s))).

(** A signer who has declined can still sign, and the request completes. *)
Lemma declined_signer_signs :
  statuses declined_state = ([OPEN], [SIGNED; DECLINED]) ∧
  (operate (signing token "bob@mail.com") declined_state).1 = Ok tt ∧
  statuses completed_state = ([COMPLETED], [SIGNED; SIGNED]).
Proof. vm_compute. done. Qed.

(** The states are what the calls make of the example database. *)
Lemma runs_of_calls ops s0 s : workflow_runs s0 s → workflow_runs s0 (fold_left perform ops s).
Proof.
  revert s. induction ops as [|op ops IH]; intros s Hs; [done|]. apply IH. by apply then_operates.
Qed.
Lemma opened_run : workflow_runs Example.s0 opened_state.
Proof.
  replace opened_state with (fold_left perform (uploading :: drafting :: opening) Example.s0)
    by (vm_compute; reflexivity).
  apply runs_of_calls, workflow_starts.
Qed.
Lemma completed_run : workflow_runs opened_state completed_state.
Proof.
  replace completed_state
    with (fold_left perform (answering ++ [signing token "bob@mail.com"]) opened_state)
    by (vm_compute; reflexivity).
  apply runs_of_calls, workflow_starts.
Qed.
Lemma opened_consistent : consistent opened_state.
Proof. split; vm_compute; reflexivity. Qed.
Lemma completed_consistent : consistent completed_state.
Proof. split; vm_compute; reflexivity. Qed.
Lemma start_valid : WorkflowMachine.valid (view_of Example.s0).
Proof. apply empty_valid. Qed.
End WorkflowExample.
