(* ===== verification/WorkflowTheorems.v ===== *)
(** * What the signature workflow guarantees

    The properties of database_workflow_service.py: refinement of the state
    machine, its invariant and histories in every reachable state, failures,
    stored documents, links and signatures. *)

From S2P Require Import Prelude.
From S2P Require Import PyText.
From S2P Require Import Json.
From S2P Require Import DateTime.
From S2P Require Import Orm.
From S2P Require Import WorkflowSchema.
From S2P Require Import CoreDb.
From S2P Require Import Identity.
From S2P Require Import BillingPolicy.
From S2P Require Import Tenant.
From S2P Require Import Billing.
From S2P Require Import Storage.
From S2P Require Import PdfValidation.
From S2P Require Import DbWorkflow.
From S2P Require Import WorkflowMachine.
From S2P Require Import DbWorkflowFacts.
From S2P Require Import DbWorkflowCalls.
From S2P Require Import WorkflowExample.
Import WorkflowService.

Local Open Scope Z_scope.

(** C1: Every public operation of the workflow refines the abstract state
    machine: whatever its arguments and its outcome, on a database between two
    transactions it takes exactly one step of the machine on the documents,
    requests, signers and signatures (or none), and leaves the database
    consistent with its constraints. *)
Theorem workflow_refines_machine `{Env} `{WorkflowEnv} `{DocumentStorage} `{PdfLibrary}
    (held : Core → string → option string) `{!DocumentStorageLaws held} (op : operation) (s : Core) :
  consistent s →
  WorkflowMachine.step (view_of s) (view_of (operate op s).2) ∧ consistent (operate op s).2.
Proof. by apply (operate_takes_step held). Qed.

(** C2: In every state that any sequence of calls reaches from a valid database,
    whatever the rest of the process does in between, the workflow is valid: an
    open or completed request still matches the version and digest of its
    document, a completed request has signers and all of them have signed, a
    signer has signed exactly when a signature of theirs is recorded, and every
    signature is of a signer of its request and about the digest the request
    froze. *)
Theorem workflow_stays_valid `{Env} `{WorkflowEnv} `{DocumentStorage} `{PdfLibrary}
    (held : Core → string → option string) `{!DocumentStorageLaws held} (s s' : Core) :
  consistent s → WorkflowMachine.valid (view_of s) → workflow_runs s s' →
  WorkflowMachine.valid (view_of s') ∧ consistent s'.
Proof.
  intros Hs Hv Hrun. destruct (runs_take_steps held s s' Hs Hrun) as [Hst Hc].
  split; [|done]. by eapply steps_valid.
Qed.

(** C3: The history of the workflow: over any sequence of calls no request and no
    signer disappears or changes its terms (document, version, digest, expiry,
    author, person); a request only moves from draft to open, from open to
    completed, or from those two to cancelled, so that completed and cancelled
    requests stay as they are; a signer who has signed stays so; and recorded
    signatures are only ever appended to, never changed or removed. *)
Theorem workflow_history `{Env} `{WorkflowEnv} `{DocumentStorage} `{PdfLibrary}
    (held : Core → string → option string) `{!DocumentStorageLaws held} (s s' : Core) :
  consistent s → WorkflowMachine.valid (view_of s) → workflow_runs s s' →
  (∀ r, In r (v_requests (view_of s)) → ∃ r', In r' (v_requests (view_of s')) ∧
     request_terms r' = request_terms r ∧
     rtc request_move (Request.status r) (Request.status r') ∧
     (one_of (Request.status r) [COMPLETED; CANCELLED] = true → Request.status r' = Request.status r)) ∧
  (∀ g, In g (v_signers (view_of s)) → ∃ g', In g' (v_signers (view_of s')) ∧
     signer_terms g' = signer_terms g ∧
     rtc signer_move (Signer.status g) (Signer.status g') ∧
     (Signer.status g = SIGNED → Signer.status g' = SIGNED)) ∧
  ∃ l, v_signatures (view_of s') = v_signatures (view_of s) ++ l.
Proof.
  intros Hs Hv Hrun. destruct (runs_take_steps held s s' Hs Hrun) as [Hst _].
  destruct (steps_go_on _ _ Hv Hst) as (Hr & Hg & Hl). split_and!; [| |done].
  - intros r (r' & Hin & Ht & Hm)%Hr. exists r'. split_and!; try done. by apply request_final.
  - intros g (g' & Hin & Ht & Hm)%Hg. exists g'. split_and!; try done. by apply signed_final.
Qed.

(** A call that fails changes nothing in the database, whatever it had done
    before failing: an upload whose commit fails leaves no document, a signature
    whose storage or time stamp fails leaves the signer unsigned.  The one
    exception is the creation of a link, which commits before it mails. *)
Theorem failed_calls_leave_the_database `{Env} `{WorkflowEnv} `{DocumentStorage} `{PdfLibrary}
    (held : Core → string → option string) `{!DocumentStorageLaws held}
    (op : operation) (s s' : Core) (e : exn) :
  commits_first op = false → operate op s = (Err e, s') → Core.db s' = Core.db s.
Proof. intros Hop. by apply (operate_leaves_db held op). Qed.

(** No call of the workflow, failed or not, loses or overwrites a stored
    document: what the object store held under a key it still holds, even when
    the object of a failed upload or signature is discarded. *)
Theorem stored_content_survives `{Env} `{WorkflowEnv} `{DocumentStorage} `{PdfLibrary}
    (held : Core → string → option string) `{!DocumentStorageLaws held}
    (op : operation) (s : Core) (key content : string) :
  held s key = Some content → held (operate op s).2 key = Some content.
Proof. apply (operate_keeps held op s). Qed.

(** ** The theorems on the example run *)
Section witnesses.
Import WorkflowExample.
#[local] Existing Instance LocalDocumentStorage.storage_laws.

Lemma workflow_refines_machine_witness :
  WorkflowMachine.step (view_of opened_state)
    (view_of (operate (signing token "ana@mail.com") opened_state).2).
Proof.
  exact (proj1 (workflow_refines_machine LocalDocumentStorage.held _ _ opened_consistent)).
Defined.

Lemma workflow_stays_valid_witness : WorkflowMachine.valid (view_of opened_state).
Proof.
  exact (proj1 (workflow_stays_valid LocalDocumentStorage.held _ _ Example.s0_consistent
    start_valid opened_run)).
Defined.

Lemma workflow_history_witness :
  ∃ l, v_signatures (view_of opened_state) = v_signatures (view_of Example.s0) ++ l.
Proof.
  exact (proj2 (proj2 (workflow_history LocalDocumentStorage.held _ _ Example.s0_consistent
    start_valid opened_run))).
Defined.

(** A stranger does not sign. *)
Lemma failed_calls_leave_the_database_witness :
  Core.db (operate (signing token "eve@mail.com") opened_state).2 = Core.db opened_state.
Proof.
  refine (failed_calls_leave_the_database LocalDocumentStorage.held
    (signing token "eve@mail.com") _ _
    (workflow_error "Authenticated user does not match a signer for this request" 403) eq_refl
    (run_outcome _ _ _)).
  vm_compute. reflexivity.
Defined.

Lemma stored_content_survives_witness :
  match head (v_documents (view_of opened_state)) with
  | Some d => LocalDocumentStorage.held
                (operate (signing token "ana@mail.com") opened_state).2 (Document.storage_key d) = Some pdf
  | None => False
  end.
Proof.
  refine (stored_content_survives LocalDocumentStorage.held (signing token "ana@mail.com")
    opened_state _ pdf _). vm_compute. reflexivity.
Defined.
End witnesses.
