(* ===== verification/WorkflowProgress.v ===== *)
(** * The progress of an open request

    What the steps of the workflow make of one request: its status, the signers
    who have not signed and the signatures recorded for it, as a small counter
    machine.  An open request always has a signer left to sign, every signature
    brings it nearer to its completion, and the last one completes it. *)

From S2P Require Import Prelude.
From S2P Require Import PyText.
From S2P Require Import Json.
From S2P Require Import DateTime.
From S2P Require Import Orm.
From S2P Require Import WorkflowSchema.
From S2P Require Import CoreDb.
From S2P Require Import Storage.
From S2P Require Import PdfValidation.
From S2P Require Import DbWorkflow.
From S2P Require Import WorkflowMachine.
From S2P Require Import DbWorkflowFacts.
From S2P Require Import DbWorkflowCalls.
From S2P Require Import WorkflowExample.
Import WorkflowService.

Local Open Scope nat_scope.

(** ** The tally of a request *)
Definition signature_of (i : N) (k : Signature.SignatureEntity) : bool :=
  N.eqb (Signature.signature_request_id k) i.
Definition pending (i : N) (v : WorkflowMachine.view) : nat := length (List.filter (unsigned_of i) (v_signers v)).
Definition recorded (i : N) (v : WorkflowMachine.view) : nat := length (List.filter (signature_of i) (v_signatures v)).
Definition tally (r : Request.SignatureRequestEntity) (v : WorkflowMachine.view) : RequestStatus * nat * nat :=
  (Request.status r, pending (Request.id r) v, recorded (Request.id r) v).

(** What one step makes of it. *)
Inductive tick : RequestStatus * nat * nat → RequestStatus * nat * nat → Prop :=
| tick_none t : tick t t
| tick_signer p n : tick (DRAFT, p, n) (DRAFT, S p, n)
| tick_open p n : tick (DRAFT, S p, n) (OPEN, S p, n)
| tick_cancel st p n : one_of st [DRAFT; OPEN] = true → tick (st, p, n) (CANCELLED, p, n)
| tick_sign p n : tick (OPEN, S (S p), n) (OPEN, S p, S n)
| tick_complete n : tick (OPEN, 1, n) (COMPLETED, 0, S n).

(** Nobody has signed a draft, and an open request waits for somebody. *)
Definition waits (t : RequestStatus * nat * nat) : Prop :=
  match t with (DRAFT, _, n) => n = 0 | (OPEN, p, _) => 0 < p | _ => True end.
Definition awaiting (v : WorkflowMachine.view) : Prop := ∀ r, In r (v_requests v) → waits (tally r v).

Lemma tick_waits t t' : tick t t' → waits t → waits t'.
Proof. intros []; simpl; try done; lia. Qed.

(** ** Counting *)
Section counting.
Context {R : Type} `{Entity R} (P : R → bool).

Lemma count_map f l :
  (∀ x, In x l → P (f x) = P x) → length (List.filter P (map f l)) = length (List.filter P l).
Proof.
  induction l as [|x l IH]; intros Hf; [done|]. simpl. rewrite Hf by (by left).
  destruct (P x); simpl; rewrite IH; auto; intros y Hy; apply Hf; by right.
Qed.
Lemma count_alter f k l :
  (∀ x, In x l → ent_id x = k → P (f x) = P x) →
  length (List.filter P (alter_rows f k l)) = length (List.filter P l).
Proof.
  intros Hf. apply count_map. intros x Hx. destruct (has_id k x) eqn:E; [|done].
  apply Hf; [done|]. by apply has_id_true.
Qed.
Lemma count_marked f l g :
  keys_distinct l → In g l → P g = true → P (f g) = false →
  length (List.filter P l) = S (length (List.filter P (alter_rows f (ent_id g) l))).
Proof.
  unfold keys_distinct. induction l as [|x l IH]; intros Hd Hg Hp Hf; [done|].
  simpl in Hd. apply NoDup_cons in Hd as [Hx Hd]. simpl. destruct Hg as [->|Hg].
  - rewrite (proj2 (has_id_true (ent_id g) g)) by done. rewrite Hp, Hf. simpl. f_equal.
    fold (alter_rows f (ent_id g) l).
    by rewrite (alter_rows_missing f (ent_id g) l).
  - fold (alter_rows f (ent_id g) l). assert (E : has_id (ent_id g) x = false).
    { apply has_id_false. intros E. apply Hx. rewrite E. apply list_elem_of_In. by apply in_map. }
    rewrite E. destruct (P x); simpl; rewrite IH by done; done.
Qed.
End counting.

Lemma none_pending_0 i v : all_signed i (v_signers v) = true ↔ pending i v = 0.
Proof.
  rewrite <- none_pending, Z.eqb_eq. unfold pending. lia.
Qed.

Section ticks.
Implicit Types v : WorkflowMachine.view.

Lemma signed_recorded v g :
  valid v → In g (v_signers v) → is_signed g = true →
  0 < recorded (Signer.signature_request_id g) v.
Proof.
  intros [(_ & _ & Hk) _ _ [Hiff Hback]] Hg Hs. unfold is_signed, is_status in Hs.
  apply bool_decide_eq_true, Hiff in Hs as (k & Hin & E); [|done].
  destruct (Hback k Hin) as (h & r & Hh & _ & E1 & E2 & E3 & _).
  assert (h = g) as -> by (eapply same_key; [exact Hk|done..|]; change (Signer.id h = Signer.id g); congruence).
  assert (Hf : In k (List.filter (signature_of (Signer.signature_request_id g)) (v_signatures v))).
  { apply filter_In. split; [done|]. apply N.eqb_eq. congruence. }
  unfold recorded. destruct (List.filter _ _); [done|simpl; lia].
Qed.

(** A request nobody has signed counts all its signers. *)
Lemma unsigned_pending v i :
  valid v → recorded i v = 0 → (∃ g, In g (v_signers v) ∧ signer_of i g = true) → 0 < pending i v.
Proof.
  intros Hv Hn (g & Hg & Hs). destruct (is_signed g) eqn:E.
  - apply signer_of_spec in Hs. pose proof (signed_recorded v g Hv Hg E). rewrite Hs in *. lia.
  - assert (Hf : In g (List.filter (unsigned_of i) (v_signers v))).
    { apply filter_In. split; [done|]. unfold unsigned_of. by rewrite Hs, E. }
    unfold pending. destruct (List.filter _ _); [done|simpl; lia].
Qed.

(** A change of the signers that keeps who has signed. *)
Lemma pending_answer v i f k :
  (∀ x, In x (v_signers v) → Signer.id x = k →
     Signer.signature_request_id (f x) = Signer.signature_request_id x ∧
     is_signed (f x) = is_signed x) →
  length (List.filter (unsigned_of i) (alter_rows f k (v_signers v))) = pending i v.
Proof.
  intros Hf. apply (count_alter (unsigned_of i)). intros x Hx E. destruct (Hf x Hx E) as [E1 E2].
  unfold unsigned_of, signer_of. by rewrite E1, E2.
Qed.

Lemma is_signed_status g g' : Signer.status g = Signer.status g' → is_signed g = is_signed g'.
Proof. unfold is_signed. by intros ->. Qed.

Lemma filter_snoc {A} (P : A → bool) l x :
  length (List.filter P (l ++ [x])) = length (List.filter P l) + (if P x then 1 else 0).
Proof. rewrite List.filter_app, length_app. simpl. by destruct (P x). Qed.

(** Adding a signer counts for the request it is of. *)
Lemma signer_added_tick v g r0 r :
  valid v → In r0 (v_requests v) → Request.id r0 = Signer.signature_request_id g →
  Request.status r0 = DRAFT → Signer.status g = PENDING → In r (v_requests v) →
  tick (tally r v) (tally r (v <| v_signers ::= λ l, l ++ [g] |>)).
Proof.
  intros [(_ & Hk & _) _ _ _] Hr0 E0 Hst Hg Hr. unfold tally, pending, recorded.
  cbn [v_signers v_signatures set_field]. rewrite filter_snoc. unfold unsigned_of, signer_of.
  destruct (N.eqb_spec (Signer.signature_request_id g) (Request.id r)) as [E|E].
  - assert (r0 = r) as -> by (eapply same_key; [exact Hk|done..|]; change (Request.id r0 = Request.id r); congruence).
    rewrite Hst. unfold is_signed, is_status. rewrite Hg. cbn.
    rewrite Nat.add_1_r. constructor.
  - cbn. rewrite Nat.add_0_r. constructor.
Qed.

(** The signature of a signer of [r0]. *)
Lemma signature_counts v g r0 k now i :
  keyed v → In g (v_signers v) → Signer.signature_request_id g = Request.id r0 → is_signed g = false →
  Signature.signature_request_id k = Request.id r0 →
  let v' := after_signature now (Signer.id g) k v in
  if N.eqb (Request.id r0) i then pending i v = S (pending i v') ∧ recorded i v' = S (recorded i v)
  else pending i v' = pending i v ∧ recorded i v' = recorded i v.
Proof.
  intros (_ & _ & Hkg) Hg Hgr Hns Hkr v'. unfold recorded, v', after_signature.
  cbn [v_signatures]. rewrite filter_snoc.
  change (signature_of i k) with (N.eqb (Signature.signature_request_id k) i). rewrite Hkr.
  destruct (N.eqb_spec (Request.id r0) i) as [<-|Hne].
  - split; [|lia]. apply (count_marked (unsigned_of (Request.id r0)) (mark_signed now)); [done..| |].
    + unfold unsigned_of, signer_of. by rewrite Hns, Hgr, N.eqb_refl.
    + unfold unsigned_of. cbn. by destruct (signer_of _ _).
  - split; [|lia]. apply (count_alter (unsigned_of i)). intros x Hx E.
    assert (x = g) as -> by (by eapply same_key). unfold unsigned_of, signer_of, mark_signed. cbn.
    apply N.eqb_neq in Hne. by rewrite Hgr, Hne.
Qed.

Lemma signed_tick v g r0 k now r :
  valid v → In g (v_signers v) → In r0 (v_requests v) →
  Signer.signature_request_id g = Request.id r0 → Request.status r0 = OPEN → is_signed g = false →
  Signature.signature_request_id k = Request.id r0 → In r (v_requests v) →
  let v1 := after_signature now (Signer.id g) k v in
  let v' := v1 <| v_requests := if all_signed (Request.id r0) (v_signers v1)
       then alter_rows (mark_completed now) (Request.id r0) (v_requests v) else v_requests v |> in
  ∃ r', In r' (v_requests v') ∧ request_terms r' = request_terms r ∧ tick (tally r v) (tally r' v').
Proof.
  intros [Hk _ _ _] Hg Hr0 Hgr Hst Hns Hkr Hr v1 v'. pose proof Hk as (_ & Hkq & _).
  pose proof (signature_counts v g r0 k now (Request.id r) Hk Hg Hgr Hns Hkr) as Hc.
  fold v1 in Hc. cbn zeta in Hc. pose proof (none_pending_0 (Request.id r0) v1) as Hall.
  assert (Ht : ∀ x, tally x v' = (Request.status x, pending (Request.id x) v1, recorded (Request.id x) v1))
    by done.
  setoid_rewrite Ht. unfold tally, v'. cbn [v_requests set_field].
  destruct (N.eqb_spec (Request.id r0) (Request.id r)) as [E|E].
  - assert (r = r0) as -> by (symmetry; by eapply same_key). destruct Hc as [-> Hrec]. rewrite Hst.
    destruct (all_signed _ _).
    + exists (mark_completed now r0). split; [|split; [done|]].
      * pose proof (alter_in (mark_completed now) (Request.id r0) _ r0 Hr0) as Hin.
        by rewrite (proj2 (has_id_true (Request.id r0) r0)) in Hin by done.
      * change (Request.id (mark_completed now r0)) with (Request.id r0).
        rewrite (proj1 Hall eq_refl), Hrec. constructor.
    + exists r0. split; [done|]. split; [done|]. rewrite Hst, Hrec.
      destruct (pending (Request.id r0) v1); [by discriminate (proj2 Hall eq_refl)|constructor].
  - destruct Hc as [Hp Hrec]. exists r. split; [|split; [done|]]; [|rewrite Hp, Hrec; constructor].
    destruct (all_signed _ _); [|done].
    pose proof (alter_in (mark_completed now) (Request.id r0) _ r Hr) as Hin.
    by rewrite (proj2 (has_id_false (Request.id r0) r)) in Hin by (by intros ?).
Qed.

(** Every step is a tick of every request. *)
Lemma step_ticks v v' r :
  valid v → awaiting v → step v v' → In r (v_requests v) →
  ∃ r', In r' (v_requests v') ∧ request_terms r' = request_terms r ∧ tick (tally r v) (tally r' v').
Proof.
  intros Hv Ha Hs Hr. pose proof Hv as [(_ & Hkr & Hkg) _ _ _].
  assert (Hsame : ∀ f k, (∀ x, request_terms (f x) = request_terms x) →
    (∀ x, In x (v_requests v) → Request.id x = k → tick (tally x v) (tally (f x) v)) →
    ∃ r', In r' (alter_rows f k (v_requests v)) ∧ request_terms r' = request_terms r ∧
          tick (tally r v) (tally r' v)).
  { intros f k Hf Ht. exists (if has_id k r then f r else r). split; [by apply alter_in|].
    destruct (has_id k r) eqn:E; [|by split; [|constructor]]. split; [apply Hf|].
    apply Ht; [done|]. by apply has_id_true in E. }
  assert (Hanswer : ∀ f k, (∀ x, In x (v_signers v) → Signer.id x = k →
       Signer.signature_request_id (f x) = Signer.signature_request_id x ∧ is_signed (f x) = is_signed x) →
    ∃ r', In r' (v_requests v) ∧ request_terms r' = request_terms r ∧
          tick (tally r v) (tally r' (v <| v_signers ::= alter_rows f k |>))).
  { intros f k Hf. exists r. split; [done|]. split; [done|]. unfold tally, pending at 2.
    cbn [v_signers set_field]. rewrite pending_answer by done. constructor. }
  destruct Hs as [v|v d Hd|v k f Hf Hno|v k f Hf|v r0 Hr0 Hst _|v g r0 Hr0 Hgr Hst Hp Hfresh _|v k f Hf|
                  v k f Hf|v r0 d0 mode Hr0 Hst Hd0 Hmt Hex|v r0 Hr0 Hst|
                  v g r0 Hg Hr0 Hgr Hst Hp|v g r0 Hg Hr0 Hgr Hst Hp|
                  v g r0 k now Hg Hr0 Hgr Hst Hus Hkr0 Hkg0 Hsha Hnow signers];
    cbn [v_requests set_field].
  1-3: by exists r; repeat split; [|constructor].
  - exists (cancel_active k r). split; [by apply in_map|]. split; [apply cancel_active_terms|].
    unfold cancel_active. destruct (_ && _) eqn:E; [|constructor].
    apply andb_true_iff in E as [_ E]. by constructor.
  - exists r. rewrite in_app_iff. repeat split; [by left|constructor].
  - exists r. repeat split; [done|]. by apply (signer_added_tick v g r0).
  - apply Hsame; [apply Hf|]. intros x _ _. unfold tally. destruct (Hf x) as [E ->].
    injection E as -> _ _ _ _ _ _ _ _. constructor.
  - apply Hanswer. intros x _ _. destruct (Hf x) as [E Es]. injection E as _ -> _ _ _ _ _ _.
    split; [done|]. by apply is_signed_status.
  - apply Hsame; [done|]. intros x Hx E. assert (x = r0) as -> by (by eapply same_key).
    specialize (Ha r0 Hr0). unfold tally in *. cbn. rewrite Hst in *. cbn in Ha.
    pose proof (unsigned_pending v (Request.id r0) Hv Ha Hex).
    destruct (pending (Request.id r0) v); [lia|constructor].
  - apply Hsame; [done|]. intros x Hx E. assert (x = r0) as -> by (by eapply same_key).
    by constructor.
  - apply Hanswer. intros x Hx E. assert (x = g) as -> by (by eapply same_key). split; [done|].
    unfold is_signed, is_status. cbn. by rewrite Hp.
  - apply Hanswer. intros x Hx E. assert (x = g) as -> by (by eapply same_key). split; [done|].
    unfold is_signed, is_status. cbn. unfold one_of in Hp. apply bool_decide_eq_false in Hp.
    symmetry. apply bool_decide_eq_false. set_solver.
  - exact (signed_tick v g r0 k now r Hv Hg Hr0 Hgr Hst Hus Hkr0 Hr).
Qed.
End ticks.

(** ** Runs *)
Section runs.
Implicit Types v : WorkflowMachine.view.

(** A request a step brings into being is a draft without signatures. *)
Lemma step_new v v' r :
  valid v → step v v' → In r (v_requests v') → Request.id r ∉ map Request.id (v_requests v) →
  Request.status r = DRAFT ∧ recorded (Request.id r) v' = 0.
Proof.
  intros Hv Hs Hr Hnew.
  assert (Hids : ∀ l, map Request.id l = map Request.id (v_requests v) → In r l → False).
  { intros l E Hin. apply Hnew. rewrite <- E. by apply list_elem_of_In, in_map. }
  assert (Halter : ∀ f k, (∀ x, Request.id (f x) = Request.id x) →
            In r (alter_rows f k (v_requests v)) → False).
  { intros f k Hf. apply Hids. by apply (alter_rows_ids f). }
  destruct Hs as [v|v d Hd|v k f Hf Hno|v k f Hf|v r0 Hr0 Hst _|v g r0 Hr0 Hgr Hst Hp Hfresh _|v k f Hf|
                  v k f Hf|v r0 d0 mode Hr0 Hst Hd0 Hmt Hex|v r0 Hr0 Hst|
                  v g r0 Hg Hr0 Hgr Hst Hp|v g r0 Hg Hr0 Hgr Hst Hp|
                  v g r0 k now Hg Hr0 Hgr Hst Hus Hkr0 Hkg0 Hsha Hnow signers];
    cbn [v_requests set_field] in Hr; try by destruct (Hids _ eq_refl Hr).
  - destruct (Hids (map (cancel_active k) (v_requests v))); [|done].
    rewrite map_map. apply map_ext. intros x. pose proof (cancel_active_terms k x) as E. by injection E.
  - apply in_append in Hr as [Hr| ->]; [by destruct (Hids _ eq_refl Hr)|]. split; [done|].
    destruct Hv as [_ _ _ [_ Hback]]. unfold recorded. cbn [v_signatures set_field].
    destruct (List.filter (signature_of (Request.id r0)) (v_signatures v)) as [|k l] eqn:E; [done|].
    assert (Hk : In k (k :: l)) by (by left). rewrite <- E in Hk.
    apply filter_In in Hk as [Hk Ek%N.eqb_eq]. destruct (Hback k Hk) as (_ & r & _ & Hr & _ & E2 & _).
    destruct Hnew. apply list_elem_of_In, in_map_iff. exists r. split; [congruence|done].
  - edestruct Halter; [|exact Hr]. intros x. destruct (Hf x) as [E _]. by injection E.
  - by edestruct Halter; [|exact Hr].
  - by edestruct Halter; [|exact Hr].
  - destruct (all_signed _ _); [by edestruct Halter; [|exact Hr]|by destruct (Hids _ eq_refl Hr)].
Qed.

Lemma step_awaiting v v' : valid v → awaiting v → step v v' → awaiting v'.
Proof.
  intros Hv Ha Hs r' Hr'. destruct (decide (Request.id r' ∈ map Request.id (v_requests v))) as [Hin|Hnew].
  - apply list_elem_of_In, in_map_iff in Hin as (r & E & Hr).
    destruct (step_ticks v v' r Hv Ha Hs Hr) as (r2 & Hr2 & Et & Htick).
    pose proof (step_valid _ _ Hv Hs) as [(_ & Hk & _) _ _ _].
    assert (r2 = r') as ->.
    { eapply same_key; [exact Hk|done..|]. injection Et as Et _ _ _ _ _ _ _ _.
      change (Request.id r2 = Request.id r'). congruence. }
    eapply tick_waits; [exact Htick|]. by apply Ha.
  - destruct (step_new v v' r' Hv Hs Hr' Hnew) as [E1 E2]. unfold tally. by rewrite E1.
Qed.

Lemma steps_tick v v' :
  valid v → awaiting v → steps v v' →
  awaiting v' ∧ ∀ r, In r (v_requests v) →
    ∃ r', In r' (v_requests v') ∧ request_terms r' = request_terms r ∧
          rtc tick (tally r v) (tally r' v').
Proof.
  intros Hv Ha Hs. induction Hs as [v|v1 v2 v3 H1 _ IH].
  - split; [done|]. intros r Hr. by exists r.
  - destruct IH as [Ha3 Ht]; [by eapply step_valid|by eapply step_awaiting|]. split; [done|].
    intros r Hr. destruct (step_ticks v1 v2 r Hv Ha H1 Hr) as (r2 & Hr2 & E2 & T2).
    destruct (Ht r2 Hr2) as (r3 & Hr3 & E3 & T3). exists r3. split; [done|].
    split; [congruence|]. by eapply rtc_l.
Qed.

(** How an open request with [p] signers to go and [n] signatures goes on. *)
Definition outcome (p n : nat) (t : RequestStatus * nat * nat) : Prop :=
  let '(status, p', n') := t in
  n' + p' = n + p ∧ p' <= p ∧
  match status with
  | DRAFT | EXPIRED => False
  | OPEN => 0 < p'
  | COMPLETED => p' = 0
  | CANCELLED => 0 < p'
  end.

Lemma open_outcome p n t : 0 < p → rtc tick (OPEN, p, n) t → outcome p n t.
Proof.
  intros Hp Hr. assert (Hinv : ∀ t1 t2, tick t1 t2 → outcome p n t1 → outcome p n t2).
  { unfold outcome. intros t1 t2 []; simpl; try lia; try tauto.
    destruct st; unfold one_of in *; naive_solver. }
  remember (OPEN, p, n) as t0 eqn:E0. assert (H0 : outcome p n t0) by (rewrite E0; simpl; lia).
  clear E0. induction Hr as [|t1 t2 t3 H1 _ IH]; [done|]. eauto.
Qed.
End runs.

Lemma empty_awaiting : awaiting (mkView [] [] [] []).
Proof. by intros r []. Qed.


(** ** The theorem on the example run *)
Section witnesses.
Import WorkflowExample.
#[local] Existing Instance LocalDocumentStorage.storage_laws.

Lemma opened_steps : steps (view_of Example.s0) (view_of opened_state).
Proof. exact (proj1 (runs_take_steps LocalDocumentStorage.held _ _ Example.s0_consistent opened_run)). Qed.
Lemma opened_valid : WorkflowMachine.valid (view_of opened_state).
Proof. exact (steps_valid _ _ start_valid opened_steps). Qed.
Lemma opened_awaiting : awaiting (view_of opened_state).
Proof. exact (proj1 (steps_tick _ _ start_valid empty_awaiting opened_steps)). Qed.

Definition open_request : Request.SignatureRequestEntity :=
  Eval vm_compute in from_option id
    (Request.make 0 0 0 "" DRAFT 0 "" None None None EVIDENCE None 0 None)
    (head (v_requests (view_of opened_state))).

End witnesses.
