(* ===== verification/MemoryFacts.v ===== *)
(** * The in-memory workflow: invariant and tallies

    The second implementation of the workflow against the counter machine of
    WorkflowProgress: whatever is called, each request only ticks. *)

From S2P Require Import Prelude.
From S2P Require Import PyText.
From S2P Require Import Json.
From S2P Require Import DateTime.
From S2P Require Import Orm.
From S2P Require Import WorkflowSchema.
From S2P Require Import CoreDb.
From S2P Require Import Storage.
From S2P Require Import WorkflowProgress.
From S2P Require Import MemoryWorkflow.
Import SignatureWorkflowService.

Local Open Scope Z_scope.

(** ** The tally of a request *)
Definition signed_id (signers : gmap N SignerRead) (sid : N) : bool :=
  match signers !! sid with Some g => has_signed g | None => false end.
Definition ids_of (s : Memory) (i : N) : list N := from_option id [] (Memory.request_signers s !! i).
Definition mem_pending (i : N) (s : Memory) : nat :=
  length (List.filter (λ sid, negb (signed_id (Memory.signers s) sid)) (ids_of s i)).
Definition mem_recorded (i : N) (s : Memory) : nat :=
  size (filter (λ p, p.1 = i) (Memory.signatures s)).
Definition mem_tally (i : N) (s : Memory) : option (RequestStatus * nat * nat) :=
  (λ r, (rr_status r, mem_pending i s, mem_recorded i s)) <$> dget i (Memory.requests s).

(** Each request of [s0] is there in [s] and has only ticked. *)
Definition ticks (s0 s : Memory) : Prop :=
  ∀ i t, mem_tally i s0 = Some t → ∃ t', mem_tally i s = Some t' ∧ rtc tick t t'.

(** What the tallies depend on. *)
Definition memory_view (s : Memory) :=
  (Memory.requests s, Memory.signers s, Memory.request_signers s, Memory.signatures s).

Section invariant.
Context `{Env}.
Implicit Types s : Memory.

Definition drawn s (i : N) : Prop := ∃ n, (n < Core.draws (Memory.core s))%N ∧ i = uuid4_of n.

Record mem_inv s : Prop := {
  inv_keys : NoDup (dkeys (Memory.requests s));
  inv_requests : ∀ i r, dget i (Memory.requests s) = Some r →
    rr_id r = i ∧ drawn s i ∧ is_Some (Memory.request_signers s !! i);
  inv_listed : ∀ i ids, Memory.request_signers s !! i = Some ids →
    is_Some (dget i (Memory.requests s)) ∧ NoDup ids ∧
    ∀ sid, sid ∈ ids → ∃ g, Memory.signers s !! sid = Some g ∧ sr_signature_request_id g = i;
  inv_signers : ∀ sid g, Memory.signers s !! sid = Some g → sr_id g = sid ∧ drawn s sid ∧
    ∃ ids, Memory.request_signers s !! sr_signature_request_id g = Some ids ∧ sid ∈ ids;
  inv_signatures : ∀ i sid, (i, sid) ∈ Memory.signatures s ↔
    ∃ g, Memory.signers s !! sid = Some g ∧ sr_signature_request_id g = i ∧ has_signed g = true;
  inv_waits : ∀ i t, mem_tally i s = Some t → waits t
}.

(** From [s0], the state is in order and the requests have only ticked. *)
Definition good s0 s : Prop := mem_inv s ∧ ticks s0 s.

Lemma tally_view s s' i : memory_view s' = memory_view s → mem_tally i s' = mem_tally i s.
Proof.
  intros E. injection E as E1 E2 E3 E4.
  unfold mem_tally, mem_pending, mem_recorded, ids_of. by rewrite E1, E2, E3, E4.
Qed.

Lemma drawn_later s s' i :
  (Core.draws (Memory.core s) ≤ Core.draws (Memory.core s'))%N → drawn s i → drawn s' i.
Proof. intros Hd (n & Hn & ->). exists n. split; [lia|done]. Qed.

Lemma quiet_good s0 s s' :
  memory_view s' = memory_view s → (Core.draws (Memory.core s) ≤ Core.draws (Memory.core s'))%N →
  good s0 s → good s0 s'.
Proof.
  intros E Hd [[Hk Hr Hl Hg Hs Hw] Ht]. pose proof E as Ev. injection E as E1 E2 E3 E4. split.
  - split.
    + by rewrite E1.
    + rewrite E1, E3. intros i r Hi. destruct (Hr i r Hi) as (? & ? & ?).
      split_and!; [done|by eapply drawn_later|done].
    + rewrite E1, E2, E3. apply Hl.
    + rewrite E2, E3. intros sid g Hsid. destruct (Hg sid g Hsid) as (? & ? & ?).
      split_and!; [done|by eapply drawn_later|done].
    + rewrite E2, E4. apply Hs.
    + intros i t. rewrite (tally_view s s' i Ev). apply Hw.
  - intros i t Hi. rewrite (tally_view s s' i Ev). by apply Ht.
Qed.

Lemma ticks_refl s : ticks s s.
Proof. intros i t Hi. by exists t. Qed.
Lemma good_start s : mem_inv s → good s s.
Proof. intros Hi. split; [done|apply ticks_refl]. Qed.
Lemma memory_start_inv c : mem_inv (Memory.start c).
Proof. split; cbn; try done; [apply NoDup_nil_2|]. intros i sid. split; [set_solver|by intros (? & ? & _)]. Qed.

(** One request ticks, the others keep their tally. *)
Lemma ticks_one s0 s s' i :
  ticks s0 s → (∀ j, j ≠ i → mem_tally j s' = mem_tally j s) →
  (∀ t, mem_tally i s = Some t → ∃ t', mem_tally i s' = Some t' ∧ rtc tick t t') → ticks s0 s'.
Proof.
  intros Ht Hother Hi j t Hj. destruct (Ht j t Hj) as (t1 & Hj1 & Hr).
  destruct (decide (j = i)) as [->|Hne].
  - destruct (Hi t1 Hj1) as (t2 & ? & ?). exists t2. split; [done|by etrans].
  - exists t1. by rewrite Hother.
Qed.
Lemma ticks_waits s s' : ticks s s' → (∀ i t, mem_tally i s = Some t → waits t) →
  ∀ i t t', mem_tally i s = Some t → mem_tally i s' = Some t' → waits t'.
Proof.
  intros Ht Hw i t t' Hi Hi'. destruct (Ht i t Hi) as (t2 & E & Hr). rewrite Hi' in E.
  injection E as ->. specialize (Hw i t Hi). clear Hi Hi'.
  induction Hr as [|x y z Hxy _ IH]; [done|]. apply IH. by eapply tick_waits.
Qed.
End invariant.

(** ** Updates of the state *)
Section updates.
Context `{Env}.
Implicit Types s : Memory.

Lemma signed_insert g signers sid :
  signed_id (<[sr_id g := g]> signers) sid =
  if bool_decide (sid = sr_id g) then has_signed g else signed_id signers sid.
Proof.
  unfold signed_id. case_bool_decide as E; [by rewrite E, lookup_insert_eq|]. by rewrite lookup_insert_ne.
Qed.

(** An answer of a signer that is not a signature. *)
Lemma answer_good s0 s g g' :
  Memory.signers s !! sr_id g = Some g → sr_id g' = sr_id g →
  sr_signature_request_id g' = sr_signature_request_id g → has_signed g' = has_signed g →
  good s0 s → good s0 (s <| Memory.signers ::= λ m, <[sr_id g' := g']> m |>).
Proof.
  intros Hg Eid Erq Esg [[Hk Hr Hl Hgs Hs Hw] Ht].
  assert (Hsame : ∀ sid, signed_id (<[sr_id g' := g']> (Memory.signers s)) sid = signed_id (Memory.signers s) sid).
  { intros sid. rewrite signed_insert. case_bool_decide as E; [|done].
    unfold signed_id. by rewrite E, Eid, Hg. }
  assert (Htally : ∀ i, mem_tally i (s <| Memory.signers ::= λ m, <[sr_id g' := g']> m |>) = mem_tally i s).
  { intros i. unfold mem_tally, mem_pending, ids_of. cbn. destruct (dget i _); [|done]. cbn.
    do 4 f_equal. apply List.filter_ext. intros sid. by rewrite Hsame. }
  assert (Hlook : ∀ sid x, <[sr_id g' := g']> (Memory.signers s) !! sid = Some x →
    ∃ y, Memory.signers s !! sid = Some y ∧ sr_id x = sr_id y ∧
         sr_signature_request_id x = sr_signature_request_id y ∧ has_signed x = has_signed y).
  { intros sid x [[<- <-]|[Hne Hx]]%lookup_insert_Some; [|by exists x].
    exists g. rewrite Eid. done. }
  assert (Hback : ∀ sid y, Memory.signers s !! sid = Some y → ∃ x,
    <[sr_id g' := g']> (Memory.signers s) !! sid = Some x ∧
    sr_signature_request_id x = sr_signature_request_id y ∧ has_signed x = has_signed y).
  { intros sid y Hy. destruct (decide (sid = sr_id g')) as [->|Hne].
    - exists g'. rewrite lookup_insert_eq. rewrite Eid, Hg in Hy. by injection Hy as <-.
    - exists y. by rewrite lookup_insert_ne. }
  split.
  - split; try done.
    + intros i ids Hi. destruct (Hl i ids Hi) as (? & ? & Hm). split_and!; [done..|].
      intros sid Hsid. destruct (Hm sid Hsid) as (y & Hy & E).
      destruct (Hback sid y Hy) as (x & Hx & Ex & _). exists x. split; [done|congruence].
    + intros sid x Hx. destruct (Hlook sid x Hx) as (y & Hy & E1 & E2 & _).
      destruct (Hgs sid y Hy) as (? & ? & ?). rewrite E1, E2. split_and!; done.
    + intros i sid. rewrite Hs. split.
      * intros (y & Hy & Ey & Sy). destruct (Hback sid y Hy) as (x & Hx & E1 & E2).
        exists x. split_and!; [exact Hx|congruence..].
      * intros (x & Hx & Ex & Sx). destruct (Hlook sid x Hx) as (y & Hy & _ & E1 & E2).
        exists y. split_and!; [exact Hy|congruence..].
    + intros i t. rewrite Htally. apply Hw.
  - intros i t Hi. rewrite Htally. by apply Ht.
Qed.

(** A change of the status of a request. *)
Lemma status_good s0 s r r' :
  dget (rr_id r) (Memory.requests s) = Some r → rr_id r' = rr_id r →
  (∀ p n, waits (rr_status r, p, n) → p = mem_pending (rr_id r) s → tick (rr_status r, p, n) (rr_status r', p, n)) →
  good s0 s → good s0 (s <| Memory.requests ::= dset (rr_id r) r' |>).
Proof.
  intros Hr Eid Htick [Hinv Ht]. pose proof Hinv as [Hk Hrq Hl Hgs Hs Hw].
  set (s' := s <| Memory.requests ::= dset (rr_id r) r' |>).
  assert (Hother : ∀ j, j ≠ rr_id r → mem_tally j s' = mem_tally j s).
  { intros j Hj. unfold mem_tally, s'. cbn. rewrite dget_set_ne by done. done. }
  assert (Hone : ∀ t, mem_tally (rr_id r) s = Some t → ∃ t', mem_tally (rr_id r) s' = Some t' ∧ rtc tick t t').
  { intros t E. pose proof (Hw _ _ E) as Hwt. unfold mem_tally in *. rewrite Hr in E.
    injection E as <-. unfold s'. cbn. rewrite dget_set. eexists. split; [reflexivity|].
    apply rtc_once. by apply Htick. }
  assert (Hts : ticks s s').
  { eapply ticks_one; [apply ticks_refl|exact Hother|exact Hone]. }
  split; [split|].
  - by apply dkeys_set_distinct.
  - intros i x Hi. cbn in Hi. destruct (decide (i = rr_id r)) as [->|Hne].
    + rewrite dget_set in Hi. injection Hi as <-. destruct (Hrq _ _ Hr) as (_ & ? & ?). done.
    + rewrite dget_set_ne in Hi by done. by apply (Hrq i x).
  - intros i ids Hi. destruct (Hl i ids Hi) as ([x Hx] & ? & ?). split; [|done].
    cbn. destruct (decide (i = rr_id r)) as [->|Hne]; [rewrite dget_set; by eexists|].
    rewrite dget_set_ne by done. by eexists.
  - exact Hgs.
  - exact Hs.
  - intros i t Hi. destruct (mem_tally i s) as [t0|] eqn:E0.
    + by eapply (ticks_waits s s' Hts Hw).
    + destruct (decide (i = rr_id r)) as [->|Hne]; [|rewrite Hother in Hi by done; congruence].
      unfold mem_tally in E0. by rewrite Hr in E0.
  - eapply ticks_one; [exact Ht|exact Hother|exact Hone].
Qed.

(** A new request under a fresh identifier. *)
Lemma request_good s0 s r n :
  uuid4_of n = rr_id r → (n < Core.draws (Memory.core s))%N →
  dget (rr_id r) (Memory.requests s) = None → rr_status r = DRAFT → good s0 s →
  good s0 (s <| Memory.requests ::= dset (rr_id r) r |>
             <| Memory.request_signers ::= λ m, <[rr_id r := []]> m |>).
Proof.
  intros Hn Hd Hnew Hst [Hinv Ht]. pose proof Hinv as [Hk Hrq Hl Hgs Hs Hw].
  set (s' := s <| Memory.requests ::= _ |> <| Memory.request_signers ::= _ |>).
  assert (Hfree : Memory.request_signers s !! rr_id r = None).
  { destruct (Memory.request_signers s !! rr_id r) as [ids|] eqn:E; [|done].
    destruct (Hl _ _ E) as ([x Hx] & _). congruence. }
  assert (Hother : ∀ j, j ≠ rr_id r → mem_tally j s' = mem_tally j s).
  { intros j Hj. unfold mem_tally, mem_pending, ids_of, s'. cbn.
    rewrite dget_set_ne, lookup_insert_ne by done. done. }
  assert (Hzero : mem_tally (rr_id r) s' = Some (DRAFT, 0, 0)%nat).
  { unfold mem_tally, mem_pending, ids_of, mem_recorded, s'. cbn.
    rewrite dget_set, lookup_insert_eq. cbn. rewrite Hst. do 2 f_equal.
    apply size_empty_iff. intros [i sid]. rewrite elem_of_filter, Hs. cbn. split; [|set_solver].
    intros [-> (g & Hg & Eg & _)]. destruct (Hgs _ _ Hg) as (_ & _ & ids & Hids & _). congruence. }
  split; [split|].
  - by apply dkeys_set_distinct.
  - intros i x Hi. cbn in Hi |- *. destruct (decide (i = rr_id r)) as [->|Hne].
    + rewrite dget_set in Hi. injection Hi as <-. rewrite lookup_insert_eq.
      split_and!; [done|by exists n|by eexists].
    + rewrite dget_set_ne in Hi by done. rewrite lookup_insert_ne by done. by apply (Hrq i x).
  - intros i ids Hi. cbn in Hi. apply lookup_insert_Some in Hi as [[<- <-]|[Hne Hi]]; cbn.
    + rewrite dget_set. split_and!; [by eexists|apply NoDup_nil_2|set_solver].
    + rewrite dget_set_ne by done. by apply Hl.
  - intros sid g Hg. cbn in Hg |- *. destruct (Hgs sid g Hg) as (? & ? & ids & Hids & Hin).
    split_and!; [done..|]. exists ids. split; [|done]. rewrite lookup_insert_ne by congruence. done.
  - exact Hs.
  - intros i t Hi. destruct (decide (i = rr_id r)) as [->|Hne].
    + rewrite Hzero in Hi. by injection Hi as <-.
    + rewrite Hother in Hi by done. by apply Hw in Hi.
  - eapply ticks_one; [exact Ht|exact Hother|]. intros t E. unfold mem_tally in E. by rewrite Hnew in E.
Qed.

(** A new signer of a draft under a fresh identifier. *)
Lemma signer_good s0 s r g ids n :
  uuid4_of n = sr_id g → (n < Core.draws (Memory.core s))%N → Memory.signers s !! sr_id g = None →
  dget (sr_signature_request_id g) (Memory.requests s) = Some r → rr_status r = DRAFT →
  Memory.request_signers s !! sr_signature_request_id g = Some ids → has_signed g = false →
  good s0 s →
  good s0 (s <| Memory.signers ::= λ m, <[sr_id g := g]> m |>
             <| Memory.request_signers ::= λ m, <[sr_signature_request_id g := ids ++ [sr_id g]]> m |>).
Proof.
  intros Hn Hd Hnew Hr Hst Hids Hns [Hinv Ht]. pose proof Hinv as [Hk Hrq Hl Hgs Hs Hw].
  set (i := sr_signature_request_id g) in *.
  set (s' := s <| Memory.signers ::= _ |> <| Memory.request_signers ::= _ |>).
  assert (Hout : ∀ j l, Memory.request_signers s !! j = Some l → sr_id g ∉ l).
  { intros j l Hj Hin. destruct (Hl j l Hj) as (_ & _ & Hm). destruct (Hm _ Hin) as (y & Hy & _). congruence. }
  assert (Hold : ∀ l, sr_id g ∉ l →
    List.filter (λ sid, negb (signed_id (Memory.signers s') sid)) l =
    List.filter (λ sid, negb (signed_id (Memory.signers s) sid)) l).
  { intros l Hl'. apply filter_ext_in. intros sid Hsid%list_elem_of_In. unfold s'. cbn.
    rewrite signed_insert, bool_decide_eq_false_2 by congruence. done. }
  assert (Hother : ∀ j, j ≠ i → mem_tally j s' = mem_tally j s).
  { intros j Hj. unfold mem_tally, mem_pending. replace (ids_of s' j) with (ids_of s j)
      by (unfold ids_of, s'; cbn; by rewrite lookup_insert_ne).
    rewrite Hold; [done|]. unfold ids_of. destruct (_ !! j) as [l|] eqn:E; [by eapply Hout|set_solver]. }
  assert (Hone : ∀ t, mem_tally i s = Some t → ∃ t', mem_tally i s' = Some t' ∧ rtc tick t t').
  { assert (Hp : mem_pending i s' = S (mem_pending i s)).
    { unfold mem_pending at 1. replace (ids_of s' i) with (ids ++ [sr_id g])
        by (unfold ids_of, s'; cbn; by rewrite lookup_insert_eq).
      rewrite List.filter_app, length_app, Hold by (by eapply Hout). cbn.
      rewrite signed_insert, bool_decide_eq_true_2, Hns by done. cbn. rewrite Nat.add_1_r.
      unfold mem_pending, ids_of. by rewrite Hids. }
    intros t. unfold mem_tally. rewrite Hr. intros [= <-].
    exists (rr_status r, mem_pending i s', mem_recorded i s').
    split; [unfold s' at 1; cbn -[mem_pending mem_recorded]; by rewrite Hr|].
    rewrite Hp, Hst. apply rtc_once. constructor. }
  assert (Hts : ticks s s') by (eapply ticks_one; [apply ticks_refl|exact Hother|exact Hone]).
  split; [split|].
  - exact Hk.
  - intros j x Hj. cbn in Hj |- *. destruct (Hrq j x Hj) as (? & ? & ?). split_and!; [done..|].
    destruct (decide (j = i)) as [->|Hne]; [rewrite lookup_insert_eq; by eexists|by rewrite lookup_insert_ne].
  - intros j l Hj. cbn in Hj. apply lookup_insert_Some in Hj as [[<- <-]|[Hne Hj]]; cbn.
    + destruct (Hl i ids Hids) as (? & Hnd & Hm). split_and!; [done| |].
      * apply NoDup_app. split_and!; [done| |apply NoDup_singleton].
        intros x Hx ->%list_elem_of_singleton. by apply (Hout i ids).
      * intros sid [Hsid| ->%list_elem_of_singleton]%elem_of_app; [|by exists g; rewrite lookup_insert_eq].
        destruct (Hm sid Hsid) as (y & Hy & E). exists y.
        rewrite lookup_insert_ne; [done|]. intros <-. congruence.
    + destruct (Hl j l Hj) as (? & ? & Hm). split_and!; [done..|]. intros sid Hsid.
      destruct (Hm sid Hsid) as (y & Hy & E). exists y. rewrite lookup_insert_ne; [done|].
      intros <-. congruence.
  - intros sid x Hx. cbn in Hx. apply lookup_insert_Some in Hx as [[<- <-]|[Hne Hx]]; cbn.
    + split_and!; [done|by exists n|]. exists (ids ++ [sr_id g]). rewrite lookup_insert_eq.
      split; [done|set_solver].
    + destruct (Hgs sid x Hx) as (? & ? & l & Hl' & Hin). split_and!; [done..|].
      destruct (decide (sr_signature_request_id x = i)) as [E|Hne'].
      * exists (ids ++ [sr_id g]). rewrite E, lookup_insert_eq. split; [done|].
        rewrite E, Hids in Hl'. injection Hl' as <-. set_solver.
      * exists l. by rewrite lookup_insert_ne.
  - intros j sid. cbn. rewrite Hs. split.
    + intros (y & Hy & Ey & Sy). exists y. rewrite lookup_insert_ne; [done|]. intros <-. congruence.
    + intros (y & [[<- <-]|[Hne Hy]]%lookup_insert_Some & Ey & Sy); [congruence|by exists y].
  - intros j t Hj. destruct (mem_tally j s) as [t0|] eqn:E0.
    + by eapply (ticks_waits s s' Hts Hw).
    + destruct (decide (j = i)) as [->|Hne]; [|rewrite Hother in Hj by done; congruence].
      unfold mem_tally in E0. by rewrite Hr in E0.
  - eapply ticks_one; [exact Ht|exact Hother|exact Hone].
Qed.
End updates.

(** ** A signature *)
Lemma count_one {A} `{EqDecision A} (P Q : A → bool) x l :
  NoDup l → x ∈ l → P x = true → Q x = false → (∀ y, y ≠ x → Q y = P y) →
  length (List.filter P l) = S (length (List.filter Q l)).
Proof.
  intros Hd Hx HP HQ Hother. induction Hd as [|y l Hy Hd IH]; [by apply elem_of_nil in Hx|].
  simpl. destruct (decide (y = x)) as [->|Hne].
  - rewrite HP, HQ. simpl. do 2 f_equal. apply filter_ext_in. intros z Hz%list_elem_of_In.
    symmetry. apply Hother. congruence.
  - rewrite (Hother y Hne). apply elem_of_cons in Hx as [->|Hx]; [done|].
    destruct (P y); simpl; by rewrite IH.
Qed.

Lemma none_unsigned signers ids :
  forallb (signed_id signers) ids = true ↔
  length (List.filter (λ sid, negb (signed_id signers sid)) ids) = 0%nat.
Proof.
  induction ids as [|x l IH]; [done|]. simpl. destruct (signed_id signers x); simpl; [exact IH|done].
Qed.

(** The state after the signature of [g], step by step: the request is completed
    when all its signers have signed. *)
Section signature.
Context `{Env}.
Variables (s s' : Memory) (r r' : SignatureRequestRead) (g g' : SignerRead) (ids : list N).
Hypotheses (Hinv : mem_inv s)
  (Hg : Memory.signers s !! sr_id g = Some g) (Hgr : sr_signature_request_id g = rr_id r)
  (Hns : has_signed g = false)
  (Eid : sr_id g' = sr_id g) (Erq : sr_signature_request_id g' = rr_id r) (Hsg : has_signed g' = true)
  (Hr : dget (rr_id r) (Memory.requests s) = Some r) (Hst : rr_status r = OPEN)
  (Er' : rr_id r' = rr_id r) (Est' : rr_status r' = COMPLETED)
  (Hids : Memory.request_signers s !! rr_id r = Some ids)
  (Es : Memory.signers s' = <[sr_id g' := g']> (Memory.signers s))
  (Ers : Memory.request_signers s' = Memory.request_signers s)
  (Esig : Memory.signatures s' = {[(rr_id r, sr_id g)]} ∪ Memory.signatures s)
  (Ereq : Memory.requests s' = if forallb (signed_id (Memory.signers s')) ids
                               then dset (rr_id r) r' (Memory.requests s) else Memory.requests s)
  (Hd : (Core.draws (Memory.core s) ≤ Core.draws (Memory.core s'))%N).

Lemma signed_after sid :
  signed_id (Memory.signers s') sid =
  if bool_decide (sid = sr_id g) then true else signed_id (Memory.signers s) sid.
Proof. rewrite Es, signed_insert, Eid, Hsg. done. Qed.

Lemma signer_in_ids : sr_id g ∈ ids.
Proof.
  destruct (inv_signers s Hinv _ _ Hg) as (_ & _ & l & Hl & Hin). rewrite Hgr, Hids in Hl.
  by injection Hl as <-.
Qed.

Lemma request_after i x :
  dget i (Memory.requests s') = Some x → ∃ y, dget i (Memory.requests s) = Some y ∧ rr_id x = rr_id y.
Proof.
  rewrite Ereq. destruct (forallb _ _); [|by exists x]. destruct (decide (i = rr_id r)) as [->|Hne].
  - rewrite dget_set. intros [= <-]. by exists r.
  - rewrite dget_set_ne by done. by exists x.
Qed.
Lemma request_before i :
  is_Some (dget i (Memory.requests s)) → is_Some (dget i (Memory.requests s')).
Proof.
  intros [x Hx]. rewrite Ereq. destruct (forallb _ _); [|by exists x].
  destruct (decide (i = rr_id r)) as [->|Hne]; [rewrite dget_set; by eexists|].
  rewrite dget_set_ne by done. by exists x.
Qed.

Lemma others_keep_tally j : j ≠ rr_id r → mem_tally j s' = mem_tally j s.
Proof.
  intros Hj. unfold mem_tally.
  assert (dget j (Memory.requests s') = dget j (Memory.requests s)) as ->.
  { rewrite Ereq. destruct (forallb _ _); [|done]. by rewrite dget_set_ne. }
  destruct (dget j (Memory.requests s)) as [x|] eqn:Ex; [|done]. cbn. do 2 f_equal; [f_equal|].
  - unfold mem_pending, ids_of. rewrite Ers.
    destruct (Memory.request_signers s !! j) as [l|] eqn:El; [|done].
    cbn. f_equal. apply filter_ext_in. intros sid Hsid%list_elem_of_In.
    rewrite signed_after, bool_decide_eq_false_2; [done|]. intros ->.
    destruct (inv_listed s Hinv _ _ El) as (_ & _ & Hm). destruct (Hm _ Hsid) as (y & Hy & E). congruence.
  - unfold mem_recorded. rewrite Esig. f_equal. apply set_eq. intros [i sid].
    rewrite !elem_of_filter, elem_of_union, elem_of_singleton. cbn. naive_solver.
Qed.

Lemma pending_drops : mem_pending (rr_id r) s = S (mem_pending (rr_id r) s').
Proof.
  unfold mem_pending, ids_of. rewrite Ers, Hids. cbn. apply (count_one _ _ (sr_id g)).
  - by destruct (inv_listed s Hinv _ _ Hids) as (_ & ? & _).
  - exact signer_in_ids.
  - unfold signed_id. by rewrite Hg, Hns.
  - by rewrite signed_after, bool_decide_eq_true_2.
  - intros y Hy. by rewrite signed_after, bool_decide_eq_false_2.
Qed.

Lemma recorded_grows : mem_recorded (rr_id r) s' = S (mem_recorded (rr_id r) s).
Proof.
  assert (Hnew : (rr_id r, sr_id g) ∉ Memory.signatures s).
  { rewrite (inv_signatures s Hinv). intros (y & Hy & _ & Sy). congruence. }
  unfold mem_recorded. rewrite Esig.
  assert (filter (λ p, p.1 = rr_id r) ({[(rr_id r, sr_id g)]} ∪ Memory.signatures s) =
          {[(rr_id r, sr_id g)]} ∪ filter (λ p, p.1 = rr_id r) (Memory.signatures s)) as ->
    by (apply set_eq; intros [i sid]; rewrite elem_of_union, !elem_of_filter, elem_of_union,
          !elem_of_singleton; cbn; naive_solver).
  rewrite size_union by (apply disjoint_singleton_l; rewrite elem_of_filter; tauto).
  by rewrite size_singleton.
Qed.

Lemma request_ticks t :
  mem_tally (rr_id r) s = Some t → ∃ t', mem_tally (rr_id r) s' = Some t' ∧ rtc tick t t'.
Proof.
  unfold mem_tally. rewrite Hr. cbn. intros [= <-]. rewrite pending_drops, Hst, recorded_grows.
  assert (Hz : mem_pending (rr_id r) s' = 0%nat ↔ forallb (signed_id (Memory.signers s')) ids = true).
  { rewrite none_unsigned. unfold mem_pending, ids_of. by rewrite Ers, Hids. }
  rewrite Ereq. destruct (forallb _ _).
  - rewrite dget_set. cbn. eexists. split; [reflexivity|]. rewrite Est', (proj2 Hz) by done.
    apply rtc_once. constructor.
  - rewrite Hr. cbn. eexists. split; [reflexivity|]. rewrite Hst.
    destruct (mem_pending (rr_id r) s'); [by discriminate (proj1 Hz eq_refl)|apply rtc_once; constructor].
Qed.

Lemma signature_listed sid x :
  Memory.signers s' !! sid = Some x → sr_id x = sid ∧ drawn s' sid ∧
  ∃ l, Memory.request_signers s' !! sr_signature_request_id x = Some l ∧ sid ∈ l.
Proof.
  rewrite Es, Ers. intros [[<- <-]|[Hne Hx]]%lookup_insert_Some.
  - rewrite Eid, Erq. destruct (inv_signers s Hinv _ _ Hg) as (_ & ? & l & Hl & ?). rewrite Hgr in Hl.
    split_and!; [done|by eapply drawn_later|by exists l].
  - destruct (inv_signers s Hinv sid x Hx) as (? & ? & ?). split_and!; [done|by eapply drawn_later|done].
Qed.

Lemma signature_signers i l :
  Memory.request_signers s' !! i = Some l → is_Some (dget i (Memory.requests s')) ∧ NoDup l ∧
  ∀ sid, sid ∈ l → ∃ x, Memory.signers s' !! sid = Some x ∧ sr_signature_request_id x = i.
Proof.
  rewrite Ers. intros Hi. destruct (inv_listed s Hinv i l Hi) as (? & ? & Hm).
  split_and!; [by apply request_before|done|].
  intros sid Hsid. destruct (Hm sid Hsid) as (y & Hy & E). rewrite Es.
  destruct (decide (sid = sr_id g')) as [->|Hne].
  - exists g'. rewrite lookup_insert_eq. split; [done|]. rewrite Eid, Hg in Hy. injection Hy as <-. congruence.
  - exists y. by rewrite lookup_insert_ne.
Qed.

Lemma record_good s0 : ticks s0 s → good s0 s'.
Proof.
  intros Ht.
  assert (Hts : ticks s s')
    by (eapply ticks_one; [apply ticks_refl|exact others_keep_tally|exact request_ticks]).
  split; [split|].
  - rewrite Ereq. destruct (forallb _ _); [apply dkeys_set_distinct|]; apply Hinv.
  - intros i x Hx. destruct (request_after i x Hx) as (y & Hy & E).
    destruct (inv_requests s Hinv i y Hy) as (? & ? & ?).
    rewrite Ers. split_and!; [congruence|by eapply drawn_later|done].
  - exact signature_signers.
  - exact signature_listed.
  - intros i sid. rewrite Esig, elem_of_union, elem_of_singleton, (inv_signatures s Hinv), Es. split.
    + intros [[= -> ->]|(y & Hy & Ey & Sy)].
      * exists g'. rewrite <- Eid. by rewrite lookup_insert_eq.
      * exists y. rewrite lookup_insert_ne; [done|]. rewrite Eid. intros <-. congruence.
    + intros (y & [[<- <-]|[Hne Hy]]%lookup_insert_Some & Ey & Sy); [left; congruence|right; by exists y].
  - intros i t Hi. destruct (mem_tally i s) as [t0|] eqn:E0.
    + by eapply (ticks_waits s s' Hts (inv_waits s Hinv)).
    + destruct (decide (i = rr_id r)) as [->|Hne]; [|rewrite others_keep_tally in Hi by done; congruence].
      unfold mem_tally in E0. by rewrite Hr in E0.
  - eapply ticks_one; [exact Ht|exact others_keep_tally|exact request_ticks].
Qed.
End signature.
