(* ===== verification/MemoryCalls.v ===== *)
(** * The calls of the in-memory workflow

    Every operation of the service against the invariant of MemoryFacts, runs of
    calls, and the refinement of the counter machine, on an example run. *)

From S2P Require Import Prelude.
From S2P Require Import PyText.
From S2P Require Import Json.
From S2P Require Import DateTime.
From S2P Require Import Orm.
From S2P Require Import WorkflowSchema.
From S2P Require Import CoreDb.
From S2P Require Import Storage.
From S2P Require Import WorkflowProgress.
From S2P Require Import MemoryWorkflow.
From S2P Require Import WorkflowExample.
From S2P Require Import MemoryFacts.
Import SignatureWorkflowService.

Local Open Scope Z_scope.

(** ** Steps that leave the requests alone *)
Definition mem_quiet : relation Memory := λ s s',
  memory_view s' = memory_view s ∧ draws_grow (Memory.core s) (Memory.core s').
#[export] Instance mem_quiet_preorder : PreOrder mem_quiet.
Proof.
  split; [by intros s|]. intros s1 s2 s3 [E1 D1] [E2 D2]. split; [congruence|by etrans].
Qed.

Lemma on_core_quiet {A} (m : M Core A) : preserves draws_grow m → preserves mem_quiet (on_core m).
Proof.
  intros Hm s. unfold on_core. specialize (Hm (Memory.core s)). by destruct (m (Memory.core s)).
Qed.
Lemma same_draws_grow {A} (m : M Core A) : preserves (same Core.draws) m → preserves draws_grow m.
Proof. apply preserves_mono. intros s s' E. unfold draws_grow. rewrite E. lia. Qed.
Lemma utc_now_grows : preserves draws_grow utc_now.
Proof. by intros s. Qed.
Lemma token_grows `{Env} n : preserves draws_grow (token_urlsafe n).
Proof. intros s. unfold draws_grow. simpl. lia. Qed.
Lemma get_object_grows `{DocumentStorage} `{!DocumentStorageLaws held} k :
  preserves draws_grow (get_object k).
Proof.
  eapply preserves_mono; [|apply (get_outside (held := held) k)]. intros s s' E.
  assert (Ed : Core.draws s' = Core.draws s) by (by injection E). unfold draws_grow. rewrite Ed. lia.
Qed.

Section quiet.
Context `{Env} `{DocumentStorage} (held : Core → string → option string) `{!DocumentStorageLaws held}.

#[local] Hint Resolve on_core_quiet utc_now_grows uuid4_grows token_grows : preserve.
Lemma stored_quiet c f h sc : preserves mem_quiet (on_core (put c f h sc)).
Proof. apply on_core_quiet, (put_draws (held := held)). Qed.
Lemma content_quiet k : preserves mem_quiet (on_core (get_object k)).
Proof. apply on_core_quiet. apply (get_object_grows (held := held)). Qed.
#[local] Hint Resolve stored_quiet content_quiet : preserve.
(** An update of the other attributes. *)
#[local] Hint Extern 2 (preserves mem_quiet (modify _)) =>
  apply preserves_modify; intros ?; split; [reflexivity|unfold draws_grow; simpl; lia] : preserve.

Lemma audit_quiet_mem i a x e k j : preserves mem_quiet (mem_audit i a x e k j).
Proof. unfold mem_audit. preserve. Qed.
#[local] Hint Resolve audit_quiet_mem : preserve.

Lemma create_document_quiet p c : preserves mem_quiet (mem_create_document p c).
Proof. unfold mem_create_document. preserve. Qed.
Lemma add_version_quiet i f t a c : preserves mem_quiet (mem_add_version i f t a c).
Proof. unfold mem_add_version, mem_document, item. preserve. Qed.
Lemma get_content_quiet i v : preserves mem_quiet (mem_get_content i v).
Proof. unfold mem_get_content, mem_document, item. preserve. Qed.
Lemma signing_link_quiet i a : preserves mem_quiet (mem_create_signing_link i a).
Proof. unfold mem_create_signing_link, mem_request. preserve. Qed.

(** Reading. *)
Lemma mem_document_reads i : preserves eq (mem_document i).
Proof. unfold mem_document. preserve. Qed.
Lemma mem_request_reads i : preserves eq (mem_request i).
Proof. unfold mem_request. preserve. Qed.
Lemma signer_ids_reads i : preserves eq (signer_ids i).
Proof. unfold signer_ids, item. preserve. Qed.
Lemma signers_of_reads ids : preserves eq (signers_of ids).
Proof. unfold signers_of. apply preserves_mapM; [apply _|]. intros i. unfold item. preserve. Qed.
#[local] Hint Resolve mem_document_reads mem_request_reads signer_ids_reads signers_of_reads : preserve.
Lemma counts_reads r : preserves eq (mem_counts r).
Proof. unfold mem_counts. preserve. Qed.
#[local] Hint Resolve counts_reads : preserve.
Lemma list_signers_reads i : preserves eq (mem_list_signers i).
Proof. unfold mem_list_signers. preserve. Qed.
Lemma list_requests_reads : preserves eq mem_list_requests.
Proof. unfold mem_list_requests. preserve. apply preserves_mapM; [apply _|]. intros. preserve. Qed.
Lemma get_request_reads i : preserves eq (mem_get_request i).
Proof. unfold mem_get_request. preserve. Qed.
Lemma audit_events_reads i : preserves eq (mem_audit_events i).
Proof. unfold mem_audit_events, item. preserve. Qed.

(** ** Walking through an operation *)
Implicit Types s : Memory.

Lemma good_quiet {A} s0 s (m : M Memory A) : preserves mem_quiet m → good s0 s → good s0 (m s).2.
Proof. intros Hm Hs. destruct (Hm s) as [Hv Hd]. by eapply quiet_good. Qed.
Lemma good_reads {A} s0 s (m : M Memory A) : preserves eq m → good s0 s → good s0 (m s).2.
Proof. intros Hm Hs. by rewrite <- (Hm s). Qed.

Lemma after_read {A B} s0 s (m : M Memory A) (k : A → M Memory B) :
  preserves eq m → good s0 s → (∀ a, m s = (Ok a, s) → good s0 (k a s).2) → good s0 ((m ≫= k) s).2.
Proof.
  intros Hm Hs Hk. specialize (Hm s). unfold mbind, M_bind.
  destruct (m s) as [[a|e] s1]; cbn in Hm; subst; [by apply Hk|done].
Qed.
Lemma after_quiet {A B} s0 s (m : M Memory A) (k : A → M Memory B) :
  preserves mem_quiet m → good s0 s →
  (∀ a s1, m s = (Ok a, s1) → mem_quiet s s1 → good s0 s1 → good s0 (k a s1).2) →
  good s0 ((m ≫= k) s).2.
Proof.
  intros Hm Hs Hk. pose proof (good_quiet s0 s m Hm Hs) as Hg. specialize (Hm s).
  unfold mbind, M_bind. destruct (m s) as [[a|e] s1]; cbn in *; [by apply Hk|done].
Qed.
Lemma after_modify {B} s0 s f (k : unit → M Memory B) :
  good s0 (k tt (f s)).2 → good s0 ((modify f ≫= k) s).2.
Proof. done. Qed.
End quiet.

(** ** The operations *)
Section operations.
Context `{Env} `{!Inj (=) (=) uuid4_of} `{DocumentStorage} (held : Core → string → option string)
  `{!DocumentStorageLaws held}.
Implicit Types s : Memory.

#[local] Hint Resolve on_core_quiet utc_now_grows uuid4_grows token_grows : preserve.
#[local] Hint Resolve audit_quiet_mem : preserve.
#[local] Hint Extern 1 (preserves mem_quiet (on_core (put _ _ _ _))) => apply (stored_quiet held) : preserve.
#[local] Hint Extern 1 (preserves mem_quiet (mem_get_content _ _)) => apply (get_content_quiet held) : preserve.
#[local] Hint Resolve mem_document_reads mem_request_reads signer_ids_reads signers_of_reads
  counts_reads list_signers_reads list_requests_reads get_request_reads audit_events_reads : preserve.

(** A drawn identifier is not in use. *)
Lemma fresh_identifier s i s1 :
  mem_inv s → on_core uuid4 s = (Ok i, s1) →
  uuid4_of (Core.draws (Memory.core s)) = i ∧ (Core.draws (Memory.core s) < Core.draws (Memory.core s1))%N ∧
  dget i (Memory.requests s) = None ∧ Memory.signers s !! i = None.
Proof.
  intros Hi [= <- <-]. assert (Hnd : ¬ drawn s (uuid4_of (Core.draws (Memory.core s)))).
  { intros (n & Hn & E). apply (inj uuid4_of) in E. lia. }
  split_and!; [done|simpl; lia|..].
  - destruct (dget _ _) as [r|] eqn:E; [|done]. by destruct (inv_requests s Hi _ _ E) as (_ & ? & _).
  - destruct (Memory.signers s !! _) as [g|] eqn:E; [|done]. by destruct (inv_signers s Hi _ _ E) as (_ & ? & _).
Qed.

Lemma mem_request_ok i s r s1 : mem_request i s = (Ok r, s1) → s1 = s ∧ dget i (Memory.requests s) = Some r.
Proof. unfold mem_request. intros Hr. run. done. Qed.
Lemma signer_ids_ok i s ids s1 :
  signer_ids i s = (Ok ids, s1) → s1 = s ∧ Memory.request_signers s !! i = Some ids.
Proof. unfold signer_ids, item. intros Hr. run. done. Qed.

(** The last steps of an operation. *)
Lemma finish_quiet {A B} s0 s (m : M Memory A) (b : B) :
  preserves mem_quiet m → good s0 s → good s0 ((m;; mret b) s).2.
Proof. intros Hm Hs. rewrite then_ret_state. by apply good_quiet. Qed.
Lemma finish_read {A B} s0 s (m : M Memory A) (m' : M Memory B) :
  preserves mem_quiet m → preserves eq m' → good s0 s → good s0 ((m;; m') s).2.
Proof.
  intros Hm Hm' Hs. apply after_quiet; [done..|]. intros a s1 _ _ H1. by apply good_reads.
Qed.

Lemma quiet_requests s s1 : mem_quiet s s1 → Memory.requests s1 = Memory.requests s.
Proof. intros [E _]. by injection E. Qed.
Lemma quiet_signers s s1 : mem_quiet s s1 → Memory.signers s1 = Memory.signers s.
Proof. intros [E _]. by injection E. Qed.
Lemma quiet_lists s s1 : mem_quiet s s1 → Memory.request_signers s1 = Memory.request_signers s.
Proof. intros [E _]. by injection E. Qed.

Lemma create_request_good s0 s p : good s0 s → good s0 (mem_create_request p s).2.
Proof.
  intros Hs. unfold mem_create_request.
  apply after_read; [by preserve|done|]. intros d _.
  apply after_quiet; [by preserve|done|]. intros now s1 _ _ H1.
  apply after_read; [by preserve|done|]. intros _ _.
  apply after_quiet; [by preserve|done|]. intros i s2 Hi Hq H2.
  destruct (fresh_identifier s1 i s2 (proj1 H1) Hi) as (En & Hlt & Hfree & _).
  apply after_modify, after_modify, finish_quiet; [by preserve|].
  set (r := mkSignatureRequestRead i _ _ _ _ _ _ _ _ _ _ _ _ _ _).
  assert (Hnew : good s0 (s2 <| Memory.requests ::= dset i r |>
                             <| Memory.request_signers ::= λ g, <[i := []]> g |>)).
  { apply (request_good s0 s2 r (Core.draws (Memory.core s1))); try done. cbn.
    by rewrite (quiet_requests _ _ Hq). }
  eapply quiet_good; [..|exact Hnew]; done.
Qed.

Lemma add_signer_good s0 s i p a : good s0 s → good s0 (mem_add_signer i p a s).2.
Proof.
  intros Hs. unfold mem_add_signer.
  apply after_read; [by preserve|done|]. intros r [_ Hr]%mem_request_ok.
  apply after_read; [by preserve|done|]. intros [] [Hst _]%raise_if_ok.
  apply negb_false_iff, bool_decide_eq_true in Hst.
  apply after_read; [by preserve|done|]. intros ids [_ Hids]%signer_ids_ok.
  apply after_read; [by preserve|done|]. intros known _.
  apply after_read; [by preserve|done|]. intros _ _.
  apply after_quiet; [by preserve|done|]. intros now s1 _ Hq1 H1.
  apply after_quiet; [by preserve|done|]. intros n s2 Hn Hq2 H2.
  destruct (fresh_identifier s1 n s2 (proj1 H1) Hn) as (En & Hlt & _ & Hfree).
  assert (Eid : rr_id r = i) by (by destruct (inv_requests s (proj1 Hs) _ _ Hr)).
  apply after_modify, after_modify, finish_quiet; [by preserve|].
  set (g := mkSignerRead n (rr_id r) _ _ _ _ _ _ _ _ _ _ _).
  pose proof (signer_good s0 s2 r g ids (Core.draws (Memory.core s1))) as Hg. rewrite <- Eid.
  apply Hg; try done; unfold g; cbn.
  - by rewrite (quiet_signers _ _ Hq2).
  - rewrite (quiet_requests _ _ Hq2), (quiet_requests _ _ Hq1), Eid. done.
  - rewrite (quiet_lists _ _ Hq2), (quiet_lists _ _ Hq1), Eid. done.
Qed.

(** A change of status and what follows. *)
Lemma set_status_good {B} s0 s i r r' (k : unit → M Memory B) :
  dget i (Memory.requests s) = Some r → rr_id r' = rr_id r →
  (∀ p n, waits (rr_status r, p, n) → p = mem_pending (rr_id r) s → tick (rr_status r, p, n) (rr_status r', p, n)) →
  good s0 s → (∀ s1, good s0 s1 → good s0 (k tt s1).2) → good s0 ((put_request i r' ≫= k) s).2.
Proof.
  intros Hr Eid Ht Hs Hk. apply after_modify, Hk.
  destruct (inv_requests s (proj1 Hs) _ _ Hr) as (<- & _). by apply (status_good s0 s r r').
Qed.

(** A draft counts all its signers. *)
Lemma draft_pending s i r ids :
  mem_inv s → dget i (Memory.requests s) = Some r → rr_status r = DRAFT →
  Memory.request_signers s !! i = Some ids → ids ≠ [] → (0 < mem_pending i s)%nat.
Proof.
  intros Hi Hr Hst Hids Hne.
  assert (Hw : mem_recorded i s = 0%nat).
  { assert (Ht : mem_tally i s = Some (DRAFT, mem_pending i s, mem_recorded i s))
      by (unfold mem_tally; rewrite Hr; cbn; by rewrite Hst). exact (inv_waits s Hi _ _ Ht). }
  destruct ids as [|sid ids]; [done|]. unfold mem_pending, ids_of. rewrite Hids. cbn.
  destruct (signed_id _ sid) eqn:E; cbn; [|lia]. exfalso.
  destruct (inv_listed s Hi _ _ Hids) as (_ & _ & Hm). destruct (Hm sid ltac:(by left)) as (g & Hg & Eg).
  unfold signed_id in E. rewrite Hg in E. apply size_empty_iff in Hw.
  apply (not_elem_of_empty (C := gset (N * N)) (i, sid)), Hw, elem_of_filter.
  rewrite (inv_signatures s Hi). split; [done|by exists g].
Qed.

Lemma open_request_good s0 s i a m : good s0 s → good s0 (mem_open_request i a m s).2.
Proof.
  intros Hs. unfold mem_open_request.
  apply after_read; [by preserve|done|]. intros r [_ Hr]%mem_request_ok.
  apply after_read; [by preserve|done|]. intros [] [Hst _]%raise_if_ok.
  apply negb_false_iff, bool_decide_eq_true in Hst.
  apply after_read; [by preserve|done|]. intros ids [_ Hids]%signer_ids_ok.
  apply after_read; [by preserve|done|]. intros [] [Hne _]%raise_if_ok.
  apply after_read; [by preserve|done|]. intros d _.
  apply after_read; [by preserve|done|]. intros _ _.
  eapply set_status_good; [exact Hr|done| |done|].
  - assert (Eid : rr_id r = i) by (by destruct (inv_requests s (proj1 Hs) _ _ Hr)).
    pose proof (draft_pending s i r ids (proj1 Hs) Hr Hst Hids ltac:(by destruct ids)) as Hpos.
    rewrite Hst, Eid. cbn. intros p n _ ->. destruct (mem_pending i s); [lia|constructor].
  - intros s1 H1. apply finish_read; [by preserve|by preserve|done].
Qed.

Lemma cancel_request_good s0 s i a : good s0 s → good s0 (mem_cancel_request i a s).2.
Proof.
  intros Hs. unfold mem_cancel_request.
  apply after_read; [by preserve|done|]. intros r [_ Hr]%mem_request_ok.
  apply after_read; [by preserve|done|]. intros [] [Hst _]%raise_if_ok. apply negb_false_iff in Hst.
  eapply set_status_good; [exact Hr|done| |done|].
  - intros p n _ _. by constructor.
  - intros s1 H1. apply finish_read; [by preserve|by preserve|done].
Qed.

(** *** Withdrawing a document *)
Lemma mem_audit_run i a x e k j s :
  ∃ s1, mem_audit i a x e k j s = (Ok tt, s1) ∧ mem_quiet s s1.
Proof.
  eexists. split; [reflexivity|].
  exact (preserves_run mem_quiet (mem_audit i a x e k j) s _ _ (audit_quiet_mem i a x e k j) eq_refl).
Qed.

Lemma cancel_all_good s0 (f : SignatureRequestRead → M Memory unit) a j l :
  (∀ r, f r = (put_request (rr_id r) (r <| rr_status := CANCELLED |>);;
               mem_audit (rr_id r) a "signature_request.cancelled" "signature_request" (rr_id r) j)) →
  NoDup (map rr_id l) → ∀ s,
  (∀ r, In r l → dget (rr_id r) (Memory.requests s) = Some r ∧ one_of (rr_status r) [DRAFT; OPEN] = true) →
  good s0 s → good s0 (for_each f l s).2 ∧ (for_each f l s).1 = Ok tt.
Proof.
  intros Hf. induction l as [|r l IH]; intros Hd s Hl Hs; [done|]. cbn [for_each].
  apply NoDup_cons in Hd as [Hr Hd]. destruct (Hl r ltac:(by left)) as [Hget Hst].
  set (s1 := s <| Memory.requests ::= dset (rr_id r) (r <| rr_status := CANCELLED |>) |>).
  assert (H1 : good s0 s1).
  { apply (status_good s0 s r); try done. intros p n _ _. by constructor. }
  destruct (mem_audit_run (rr_id r) a "signature_request.cancelled" "signature_request" (rr_id r) j s1)
    as (s2 & E2 & Hq).
  assert (E : f r s = (Ok tt, s2)) by (rewrite Hf; exact E2).
  rewrite (bind_step_ok _ _ _ _ _ E). apply IH; [done| |by destruct Hq; eapply quiet_good].
  intros x Hx. destruct (Hl x ltac:(by right)) as [Hgx Hsx]. split; [|done].
  rewrite (quiet_requests _ _ Hq). unfold s1. cbn. rewrite dget_set_ne; [done|].
  intros Ex. apply Hr. rewrite Ex. apply list_elem_of_In. by apply in_map.
Qed.

Lemma request_keys s : mem_inv s → map rr_id (dvalues (Memory.requests s)) = dkeys (Memory.requests s).
Proof.
  intros Hi. unfold dvalues, dkeys. rewrite map_map. apply map_ext_in. intros [k r] Hin.
  exact (proj1 (inv_requests s Hi k r (dget_distinct _ _ _ (inv_keys s Hi) Hin))).
Qed.
Lemma request_value s r :
  mem_inv s → In r (dvalues (Memory.requests s)) → dget (rr_id r) (Memory.requests s) = Some r.
Proof.
  intros Hi Hin. unfold dvalues in Hin. apply in_map_iff in Hin as ([k x] & E & Hin). cbn in E. subst x.
  pose proof (dget_distinct _ _ _ (inv_keys s Hi) Hin) as Hg.
  by rewrite (proj1 (inv_requests s Hi k r Hg)).
Qed.
Lemma filter_map_distinct {A B} (f : A → B) (P : A → bool) l :
  NoDup (map f l) → NoDup (map f (List.filter P l)).
Proof.
  induction l as [|x l IH]; cbn; [done|]. intros [Hx Hd]%NoDup_cons.
  destruct (P x); cbn; [|by apply IH]. apply NoDup_cons. split; [|by apply IH].
  rewrite !list_elem_of_In, !in_map_iff in *. intros (y & E & [Hy _]%filter_In). apply Hx. by exists y.
Qed.

Lemma delete_document_good s0 s i a force : good s0 s → good s0 (mem_delete_document i a force s).2.
Proof.
  intros Hs. unfold mem_delete_document.
  apply after_read; [by preserve|done|]. intros d _.
  apply after_read; [by preserve|done|]. intros active [= <-].
  apply after_read; [by preserve|done|]. intros _ _.
  set (active := List.filter _ _). set (f := λ request : SignatureRequestRead, _).
  destruct (cancel_all_good s0 f a (JObj [("reason", JStr "document_deleted")]) active ltac:(done)
    ltac:(apply filter_map_distinct; rewrite (request_keys s (proj1 Hs)); apply (inv_keys s (proj1 Hs))) s)
    as [Hg Hok]; [|done|].
  { intros r [Hin Ha]%filter_In. split; [by apply request_value; [apply Hs|]|].
    by apply andb_true_iff in Ha as [_ ?]. }
  destruct (for_each f active s) as [o s1] eqn:E. cbn in Hg, Hok. subst o.
  rewrite (bind_step_ok _ _ _ _ _ E). apply after_modify.
  eapply good_quiet; [by preserve|]. eapply quiet_good; [..|exact Hg]; done.
Qed.

Lemma revoke_good s0 s i g a : good s0 s → good s0 (mem_revoke_signer_link i g a s).2.
Proof.
  intros Hs. unfold mem_revoke_signer_link.
  apply after_read; [by preserve|done|]. intros r [_ Hr]%mem_request_ok.
  apply after_read; [by preserve|done|]. intros found [= <-].
  apply after_read; [by preserve|done|]. intros x [Hx _]%some_or_ok.
  apply after_read; [by preserve|done|]. intros _ _.
  apply after_read; [by preserve|done|]. intros _ _.
  destruct (sr_link_revoked_at x); [done|].
  apply after_quiet; [by preserve|done|]. intros now s1 _ Hq H1.
  apply after_modify, finish_quiet; [by preserve|].
  apply (answer_good s0 s1 x); try done. rewrite (quiet_signers _ _ Hq).
  by destruct (inv_signers s (proj1 Hs) _ _ Hx) as (-> & _).
Qed.

(** *** The signer of a link *)
Lemma signers_of_run s ids :
  (∀ sid, sid ∈ ids → is_Some (Memory.signers s !! sid)) →
  ∃ l, signers_of ids s = (Ok l, s) ∧ forallb has_signed l = forallb (signed_id (Memory.signers s)) ids ∧
    ∀ g, In g l → ∃ sid, sid ∈ ids ∧ Memory.signers s !! sid = Some g.
Proof.
  induction ids as [|sid ids IH]; intros Hin; [by exists []|].
  destruct (Hin sid ltac:(by left)) as [g Hg].
  destruct IH as (l & E & Ef & Hl); [intros x Hx; apply Hin; by right|]. exists (g :: l).
  split_and!.
  - unfold signers_of in *. cbn. unfold gets, item, some_or, mbind, M_bind in *. rewrite Hg. cbn.
    by rewrite E.
  - cbn. unfold signed_id at 1. by rewrite Hg, Ef.
  - intros x [<-|Hx]; [exists sid; split; [by left|done]|].
    destruct (Hl x Hx) as (y & ? & ?). exists y. split; [by right|done].
Qed.

Lemma listed_signers s i ids :
  mem_inv s → Memory.request_signers s !! i = Some ids →
  ∃ l, signers_of ids s = (Ok l, s) ∧ forallb has_signed l = forallb (signed_id (Memory.signers s)) ids ∧
    ∀ g, In g l → Memory.signers s !! sr_id g = Some g ∧ sr_signature_request_id g = i.
Proof.
  intros Hi Hids. destruct (inv_listed s Hi i ids Hids) as (_ & _ & Hm).
  destruct (signers_of_run s ids) as (l & E & Ef & Hl).
  { intros sid Hsid. destruct (Hm sid Hsid) as (g & ? & _). by exists g. }
  exists l. split_and!; [done..|]. intros g Hg. destruct (Hl g Hg) as (sid & Hsid & Ex).
  destruct (Hm sid Hsid) as (y & Hy & Ey). rewrite Ex in Hy. injection Hy as <-. split; [|done].
  by destruct (inv_signers s Hi _ _ Ex) as (-> & _).
Qed.

(** What a resolved link says: a signer of the request, both as they are stored. *)
Definition resolved s (g : SignerRead) (r : SignatureRequestRead) : Prop :=
  Memory.signers s !! sr_id g = Some g ∧ dget (rr_id r) (Memory.requests s) = Some r ∧
  sr_signature_request_id g = rr_id r.

Lemma resolved_quiet s s1 g r : mem_quiet s s1 → resolved s g r → resolved s1 g r.
Proof. intros Hq. unfold resolved. by rewrite (quiet_signers _ _ Hq), (quiet_requests _ _ Hq). Qed.

Lemma bind_assoc {S A B C} (m : M S A) (f : A → M S B) (k : B → M S C) (c : S) :
  ((m ≫= f) ≫= k) c = (m ≫= (λ a, f a ≫= k)) c.
Proof. unfold mbind, M_bind. by destruct (m c) as [[?|?] ?]. Qed.
Lemma bind_raise {S A B} e (k : A → M S B) (c : S) : (raise e ≫= k) c = (Err e, c).
Proof. done. Qed.

Lemma after_resolve {B} s0 s token u allow (k : SignerRead * SignatureRequestRead → M Memory B) :
  good s0 s →
  (∀ g r s1, good s0 s1 → resolved s1 g r → (allow = false → rr_status r = OPEN) → good s0 (k (g, r) s1).2) →
  good s0 ((mem_resolve_request token u allow ≫= k) s).2.
Proof.
  intros Hs Hk. unfold mem_resolve_request. rewrite bind_assoc.
  apply after_read; [by preserve|done|]. intros found [= <-]. rewrite bind_assoc.
  apply after_read; [by preserve|done|]. intros i _. rewrite bind_assoc.
  apply after_read; [by preserve|done|]. intros r [_ Hr]%mem_request_ok. rewrite bind_assoc.
  assert (Eid : rr_id r = i) by (by destruct (inv_requests s (proj1 Hs) _ _ Hr)).
  apply after_read; [by preserve|done|]. intros l Hl.
  assert (Hmem : ∀ g, In g l → resolved s g r).
  { unfold mem_list_signers in Hl. apply bind_ok in Hl as (x & s1 & [-> _]%mem_request_ok & Hl).
    apply bind_ok in Hl as (ids & s2 & [-> Hids]%signer_ids_ok & Hl).
    destruct (listed_signers s _ _ (proj1 Hs) Hids) as (l' & E & _ & Hm). rewrite E in Hl.
    injection Hl as <-. intros g Hg. destruct (Hm g Hg). unfold resolved. by rewrite Eid in *. }
  destruct (List.find _ l) as [g|] eqn:Ef.
  - apply find_some in Ef as [Hg _]. specialize (Hmem g Hg). rewrite bind_assoc.
    apply after_quiet; [by preserve|done|]. intros now s1 _ Hq H1. rewrite bind_assoc.
    apply after_read; [by preserve|done|]. intros _ _. pose proof (resolved_quiet _ _ _ _ Hq Hmem) as Hres.
    rewrite bind_assoc. destruct (rr_expires_at r <=? now).
    + rewrite bind_assoc. unfold when. destruct (answered g) eqn:Ea; [done|]. cbn [negb].
      apply after_modify. rewrite bind_raise.
      assert (Hn : has_signed g = false).
      { unfold answered, one_of in Ea. unfold has_signed, is_status. apply bool_decide_eq_false in Ea.
        apply bool_decide_eq_false. set_solver. }
      by apply (answer_good s0 s1 g); [apply Hres|..].
    + apply after_read; [by preserve|done|]. intros _ _. rewrite bind_assoc.
      apply after_read; [by preserve|done|]. intros [] [Hop _]%raise_if_ok.
      apply Hk; [done|done|]. intros ->. cbn in Hop. rewrite andb_true_r in Hop.
      by apply negb_false_iff, bool_decide_eq_true in Hop.
  - rewrite bind_assoc. apply after_quiet; [by preserve|done|]. done.
Qed.

Lemma resolve_good s0 s token u allow : good s0 s → good s0 (mem_resolve_request token u allow s).2.
Proof.
  intros Hs. pose proof (after_resolve s0 s token u allow mret Hs) as Hg.
  unfold mbind, M_bind in Hg. destruct (mem_resolve_request token u allow s) as [[[g r]|e] s1];
    cbn in *; by apply Hg.
Qed.

Lemma signing_context_good s0 s token u : good s0 s → good s0 (mem_signing_context token u s).2.
Proof.
  intros Hs. unfold mem_signing_context. apply after_resolve; [done|]. intros g r s1 H1 _ _.
  apply good_reads; [by preserve|done].
Qed.
Lemma signing_document_good s0 s token u : good s0 s → good s0 (mem_signing_document token u s).2.
Proof.
  intros Hs. unfold mem_signing_document. apply after_resolve; [done|]. intros g r s1 H1 _ _.
  apply good_quiet; [by preserve|done].
Qed.

(** An answer of the resolved signer and its audit event. *)
Lemma answer_audited s0 s g g' i a x e k j :
  resolved s g i → sr_id g' = sr_id g → sr_signature_request_id g' = sr_signature_request_id g →
  has_signed g' = has_signed g → good s0 s →
  good s0 ((put_signer g';; mem_audit (rr_id i) a x e k j;; mret g') s).2.
Proof.
  intros (Hg & _ & _) E1 E2 E3 Hs. apply after_modify, finish_quiet; [by preserve|].
  by apply (answer_good s0 s g).
Qed.

Lemma view_good s0 s token u : good s0 s → good s0 (mem_view token u s).2.
Proof.
  intros Hs. unfold mem_view. apply after_resolve; [done|]. intros g r s1 H1 Hres _.
  destruct (is_status (sr_status g) PENDING) eqn:E; [|done].
  eapply answer_audited; try done. unfold has_signed. apply bool_decide_eq_true in E. by rewrite E.
Qed.
Lemma decline_good s0 s token u : good s0 s → good s0 (mem_decline token u s).2.
Proof.
  intros Hs. unfold mem_decline. apply after_resolve; [done|]. intros g r s1 H1 Hres _.
  apply after_read; [by preserve|done|]. intros [] [Ha _]%raise_if_ok.
  eapply answer_audited; try done. unfold answered, one_of in Ha. unfold has_signed, is_status.
  apply bool_decide_eq_false in Ha. symmetry. apply bool_decide_eq_false. set_solver.
Qed.

(** *** Signing *)
Lemma record_request_good s0 s g r u stamp now :
  resolved s g r → rr_status r = OPEN → has_signed g = false → good s0 s →
  good s0 (mem_record g r u stamp now s).2.
Proof.
  intros (Hg & Hr & Hgr) Hst Hns [Hinv Ht]. unfold mem_record.
  set (g' := g <| sr_status := SIGNED |> <| sr_signed_at := Some now |>).
  set (r' := r <| rr_status := COMPLETED |> <| rr_completed_at := Some now |>).
  rewrite bind_step_ok with (a := tt) (s1 := s <| Memory.signatures ::= λ k, {[(rr_id r, sr_id g)]} ∪ k |>
    <| Memory.signature_evidence ::= λ e, <[(rr_id r, sr_id g) := stamp]> e |>) by done.
  match goal with |- context [(put_signer g' ≫= _) ?x] => set (s1 := x) end.
  rewrite bind_step_ok with (a := tt) (s1 := s1 <| Memory.signers ::= λ m, <[sr_id g' := g']> m |>) by done.
  match goal with |- context [(_ ≫= _) ?x] => set (s2 := x) end.
  match goal with |- context [(mem_audit ?i ?a ?x ?e ?k ?j ≫= _) s2] =>
    destruct (mem_audit_run i a x e k j s2) as (s3 & E3 & Hq) end.
  rewrite (bind_step_ok _ _ _ _ _ E3). clear E3.
  assert (Hids : is_Some (Memory.request_signers s !! rr_id r)) by apply (inv_requests s Hinv _ _ Hr).
  destruct Hids as [ids Hids].
  assert (E3 : signer_ids (rr_id r) s3 = (Ok ids, s3)).
  { unfold signer_ids, item, gets, mbind, M_bind. rewrite (quiet_lists _ _ Hq).
    change (Memory.request_signers s2) with (Memory.request_signers s). by rewrite Hids. }
  rewrite (bind_step_ok _ _ _ _ _ E3).
  destruct (signers_of_run s3 ids) as (l & El & Ef & _).
  { intros sid Hsid. rewrite (quiet_signers _ _ Hq). cbn.
    destruct (inv_listed s Hinv _ _ Hids) as (_ & _ & Hm). destruct (Hm sid Hsid) as (y & Hy & _).
    destruct (decide (sid = sr_id g')) as [->|Hne]; [rewrite lookup_insert_eq; by eexists|].
    rewrite lookup_insert_ne by done. by eexists. }
  rewrite (bind_step_ok _ _ _ _ _ El), then_ret_state, Ef.
  set (all := forallb _ ids). set (s4 := if all then s3 <| Memory.requests ::= dset (rr_id r) r' |> else s3).
  assert (H4 : good s0 s4).
  { assert (Hv : memory_view s3 = memory_view s2) by apply Hq.
    assert (Hd3 : draws_grow (Memory.core s) (Memory.core s3)) by apply Hq.
    injection Hv as V1 V2 V3 V4.
    apply (record_good s s4 r r' g g' ids); try done; unfold s4; destruct all eqn:Ed; cbn; try done;
      rewrite ?V1, ?V2, ?V3, ?V4; try done; fold all; rewrite <- ?V2; unfold all in Ed; by rewrite Ed. }
  unfold when. destruct all; [|done]. apply after_modify, good_quiet; [by preserve|done].
Qed.

Lemma sign_good s0 s token u consent stamp : good s0 s → good s0 (mem_sign token u consent stamp s).2.
Proof.
  intros Hs. unfold mem_sign. apply after_read; [by preserve|done|]. intros _ _.
  apply after_resolve; [done|]. intros g r s1 H1 Hres Hop.
  apply after_read; [by preserve|done|]. intros recorded _.
  apply after_read; [by preserve|done|]. intros [] [[Hns _]%orb_false_iff _]%raise_if_ok.
  apply after_read; [by preserve|done|]. intros d _.
  apply after_quiet; [by preserve|done|]. intros content s2 _ Hq2 H2.
  apply after_read; [by preserve|done|]. intros _ _.
  apply after_quiet; [by preserve|done|]. intros now s3 _ Hq3 H3.
  apply record_request_good; [|by apply Hop|done|done]. by do 2 (eapply resolved_quiet; [done|]).
Qed.
End operations.

(** ** Runs *)
Inductive memory_call :=
| MCreateDocument (payload : DocumentCreate) (content : string)
| MAddVersion (document_id : N) (filename content_type actor_id content : string)
| MListDocuments
| MGetDocument (document_id : N)
| MDeleteDocument (document_id : N) (actor_id : string) (force : bool)
| MGetContent (document_id : N) (version : option Z)
| MCreateRequest (payload : SignatureRequestCreate)
| MListRequests
| MGetRequest (request_id : N)
| MAddSigner (request_id : N) (payload : SignerCreate) (actor_id : string)
| MCreateSigningLink (request_id : N) (actor_id : string)
| MListSigners (request_id : N)
| MRevokeSignerLink (request_id signer_id : N) (actor_id : string)
| MOpenRequest (request_id : N) (actor_id : string) (mode : SignatureMode)
| MCancelRequest (request_id : N) (actor_id : string)
| MSigningContext (token auth_user_id : string)
| MSigningDocument (token auth_user_id : string)
| MView (token auth_user_id : string)
| MSign (token auth_user_id : string) (consent : bool) (stamp : StampPosition)
| MDecline (token auth_user_id : string)
| MAuditEvents (request_id : N).

Section run.
Context `{Env} `{DocumentStorage}.

Definition ignore {A} (m : M Memory A) : M Memory unit := m;; mret tt.
Definition memory_operate (call : memory_call) : M Memory unit :=
  match call with
  | MCreateDocument p c => ignore (mem_create_document p c)
  | MAddVersion d f t a c => ignore (mem_add_version d f t a c)
  | MListDocuments => ignore mem_list_documents
  | MGetDocument d => ignore (mem_get_document d)
  | MDeleteDocument d a force => mem_delete_document d a force
  | MGetContent d v => ignore (mem_get_content d v)
  | MCreateRequest p => ignore (mem_create_request p)
  | MListRequests => ignore mem_list_requests
  | MGetRequest i => ignore (mem_get_request i)
  | MAddSigner i p a => ignore (mem_add_signer i p a)
  | MCreateSigningLink i a => ignore (mem_create_signing_link i a)
  | MListSigners i => ignore (mem_list_signers i)
  | MRevokeSignerLink i g a => ignore (mem_revoke_signer_link i g a)
  | MOpenRequest i a m => ignore (mem_open_request i a m)
  | MCancelRequest i a => ignore (mem_cancel_request i a)
  | MSigningContext t u => ignore (mem_signing_context t u)
  | MSigningDocument t u => ignore (mem_signing_document t u)
  | MView t u => ignore (mem_view t u)
  | MSign t u c p => ignore (mem_sign t u c p)
  | MDecline t u => ignore (mem_decline t u)
  | MAuditEvents i => ignore (mem_audit_events i)
  end.

(** A call, whether it returns or raises, or the passing of time: the rest of the
    process moves on. *)
Inductive memory_step : relation Memory :=
| step_call call s : memory_step s (memory_operate call s).2
| step_outside c s : draws_grow (Memory.core s) c → memory_step s (s <| Memory.core := c |>).

Context `{!Inj (=) (=) uuid4_of} (held : Core → string → option string) `{!DocumentStorageLaws held}.

Lemma ignore_state {A} (m : M Memory A) s : (ignore m s).2 = (m s).2.
Proof. apply then_ret_state. Qed.

Lemma operate_good s0 s call : good s0 s → good s0 (memory_operate call s).2.
Proof.
  intros Hs. destruct call; cbn [memory_operate]; rewrite ?ignore_state.
  - by eapply good_quiet; [first [apply create_document_quiet | apply (create_document_quiet held)]|].
  - by eapply good_quiet; [first [apply add_version_quiet | apply (add_version_quiet held)]|].
  - done.
  - by eapply good_reads; [first [apply mem_document_reads | apply (mem_document_reads held)]|].
  - first [by apply delete_document_good | by apply (delete_document_good held)].
  - by eapply good_quiet; [first [apply get_content_quiet | apply (get_content_quiet held)]|].
  - first [by apply create_request_good | by apply (create_request_good held)].
  - by eapply good_reads; [first [apply list_requests_reads | apply (list_requests_reads held)]|].
  - by eapply good_reads; [first [apply get_request_reads | apply (get_request_reads held)]|].
  - first [by apply add_signer_good | by apply (add_signer_good held)].
  - by eapply good_quiet; [first [apply signing_link_quiet | apply (signing_link_quiet held)]|].
  - by eapply good_reads; [first [apply list_signers_reads | apply (list_signers_reads held)]|].
  - first [by apply revoke_good | by apply (revoke_good held)].
  - first [by apply open_request_good | by apply (open_request_good held)].
  - first [by apply cancel_request_good | by apply (cancel_request_good held)].
  - first [by apply signing_context_good | by apply (signing_context_good held)].
  - first [by apply signing_document_good | by apply (signing_document_good held)].
  - first [by apply view_good | by apply (view_good held)].
  - first [by apply sign_good | by apply (sign_good held)].
  - first [by apply decline_good | by apply (decline_good held)].
  - by eapply good_reads; [first [apply audit_events_reads | apply (audit_events_reads held)]|].
Qed.

Lemma runs_good s0 s s' : rtc memory_step s s' → good s0 s → good s0 s'.
Proof.
  induction 1 as [|s1 s2 s3 Hstep _ IH]; [done|]. intros H1. apply IH.
  destruct Hstep as [call s|c s Hc]; [by apply operate_good|]. by apply (quiet_good s0 s).
Qed.
End run.

(** C5: The in-memory workflow refines the counter machine of the workflow over
    the database.  From the empty service, whatever is called and whether it
    returns or raises, each request only ticks from any moment to any later one:
    its signers are fixed once it is open, every signature counts down by one, the
    last one completes it, and nothing else does.  In particular an open request
    has a signer left, and is completed exactly when all of them signed. *)
Theorem memory_workflow_refines_the_counter `{Env} `{DocumentStorage} `{!Inj (=) (=) uuid4_of}
    (held : Core → string → option string) `{!DocumentStorageLaws held} (c : Core) (s s' : Memory)
    (i : N) (t : RequestStatus * nat * nat) :
  rtc memory_step (Memory.start c) s → rtc memory_step s s' → mem_tally i s = Some t →
  waits t ∧ ∃ t', mem_tally i s' = Some t' ∧ rtc tick t t' ∧
    match t with (OPEN, p, n) => outcome p n t' | _ => True end.
Proof.
  intros Hstart Hrun Ht.
  destruct (runs_good held _ _ _ Hstart (good_start _ (memory_start_inv c))) as [Hinv _].
  destruct (runs_good held _ _ _ Hrun (good_start _ Hinv)) as [_ Hticks].
  pose proof (inv_waits s Hinv i t Ht) as Hw. split; [done|].
  destruct (Hticks i t Ht) as (t' & Ht' & Hr). exists t'. split_and!; [done..|].
  destruct t as [[[] p] n]; try done. by apply open_outcome.
Qed.

(** ** The theorem on a run *)
Module MemoryExample.
Import WorkflowExample.
#[local] Existing Instance LocalDocumentStorage.storage_laws.

#[export] Instance uuid4_injective : Inj (=) (=) uuid4_of.
Proof. intros m n. cbn. lia. Qed.

Definition memory_perform (s : Memory) (call : memory_call) : Memory := (memory_operate call s).2.
Definition empty : Memory := Memory.start Example.s0.

(** One document, a request with two signers, its opening and its link. *)
Definition uploading : memory_call :=
  (MCreateDocument (mkDocumentCreate "acme" "Contract" "contract.pdf" "application/pdf" "admin@acme.com") pdf).
Definition uploaded : Memory := Eval vm_compute in memory_perform empty uploading.
Definition document : N := Eval vm_compute in from_option id 0%N (head (dkeys (Memory.documents uploaded))).
Definition drafting : memory_call :=
  (MCreateRequest (mkSignatureRequestCreate document (Example.now + 86400000000) "admin@acme.com")).
Definition drafted : Memory := Eval vm_compute in memory_perform uploaded drafting.
Definition request : N := Eval vm_compute in from_option id 0%N (head (dkeys (Memory.requests drafted))).
Definition opening : list memory_call :=
  [MAddSigner request (signer_named "Ana" "Ana@mail.com") "admin@acme.com";
   MAddSigner request (signer_named "Bob" "bob@mail.com") "admin@acme.com";
   MOpenRequest request "admin@acme.com" EVIDENCE;
   MCreateSigningLink request "admin@acme.com"].
Definition opened : Memory := Eval vm_compute in fold_left memory_perform opening drafted.
(** The draw of its token, before the two of the audit event. *)
Definition link : string := Eval vm_compute in token_of (Core.draws (Memory.core opened) - 3)%N 32.
Definition stamp : StampPosition := mkStampPosition 1 "0.5" "0.5" "classic" None false "1" "en" "UTC".
Definition signatures : list memory_call :=
  [MView link "ana@mail.com"; MSign link "ana@mail.com" true stamp; MDecline link "bob@mail.com";
   MSign link "bob@mail.com" true stamp].
Definition finished : Memory := Eval vm_compute in fold_left memory_perform signatures opened.

Lemma runs_calls calls s0 s : rtc memory_step s0 s → rtc memory_step s0 (fold_left memory_perform calls s).
Proof.
  revert s. induction calls as [|call calls IH]; intros s Hs; [done|]. apply IH.
  eapply rtc_r; [exact Hs|constructor].
Qed.
Lemma opened_runs : rtc memory_step empty opened.
Proof.
  replace opened with (fold_left memory_perform (uploading :: drafting :: opening) empty)
    by (vm_compute; reflexivity).
  by apply runs_calls.
Qed.

(** One reads and signs, the other declines and then signs: two signatures
    complete the request of two signers. *)
Lemma memory_workflow_refines_the_counter_witness :
  mem_tally request opened = Some (OPEN, 2, 0)%nat ∧
  ∃ t, mem_tally request finished = Some t ∧ t = (COMPLETED, 0, 2)%nat ∧
    rtc tick (OPEN, 2, 0)%nat t ∧ outcome 2 0 t.
Proof.
  split; [vm_compute; reflexivity|].
  destruct (memory_workflow_refines_the_counter LocalDocumentStorage.held Example.s0 opened finished
    request (OPEN, 2, 0)%nat opened_runs (runs_calls signatures opened opened (rtc_refl _ _)))
    as (_ & t & Ht & Hr & Ho); [vm_compute; reflexivity|].
  exists t. split_and!; [exact Ht| |exact Hr|exact Ho].
  assert (E : mem_tally request finished = Some (COMPLETED, 0, 2)%nat) by (vm_compute; reflexivity).
  change (fold_left memory_perform signatures opened) with finished in Ht. congruence.
Defined.
End MemoryExample.
