(* ===== verification/DocumentIntegrity.v ===== *)
(** * The stored documents and the database agree

    Every recorded version of a document and every signature has its bytes in
    the object store, with the digest (and the size) the row records; signing
    and uploading keep it so, and reading back never finds otherwise. *)

From S2P Require Import Prelude.
From S2P Require Import PyText.
From S2P Require Import Json.
From S2P Require Import DateTime.
From S2P Require Import Orm.
From S2P Require Import WorkflowSchema.
From S2P Require Import CoreDb.
From S2P Require Import Identity.
From S2P Require Import BillingPolicy.
From S2P Require Import Tenant.
From S2P Require Import Billing.
From S2P Require Import Storage.
From S2P Require Import PdfValidation.
From S2P Require Import DbWorkflow.
From S2P Require Import WorkflowMachine.
From S2P Require Import DbWorkflowFacts.
From S2P Require Import DbWorkflowCalls.
From S2P Require Import WorkflowExample.
Import WorkflowService.

Local Open Scope Z_scope.

Definition version_rows (s : Core) := live (Db.document_versions (Core.db s)).
Definition signature_rows (s : Core) := live (Db.signatures (Core.db s)).
Definition contents (s : Core) := (version_rows s, signature_rows s).

#[export] Instance contents_projection : SessionProjection contents.
Proof. split; [|done]. by intros s s' [_ ->]%flush_core. Qed.

Section integrity.
Context `{Env} `{WorkflowEnv} `{DocumentStorage} `{PdfLibrary} (held : Core → string → option string)
  `{!DocumentStorageLaws held}.
Implicit Types s : Core.

Definition version_stored (s : Core) (v : Version.DocumentVersionEntity) : Prop :=
  ∃ c, held s (Version.storage_key v) = Some c ∧ Version.sha256 v = sha256_hex c ∧
       Version.size_bytes v = Z.of_nat (String.length c).
Definition signature_stored (s : Core) (k : Signature.SignatureEntity) : Prop :=
  ∃ key c, Signature.artifact_storage_key k = Some key ∧ held s key = Some c ∧
           Signature.artifact_sha256 k = Some (sha256_hex c) ∧
           Signature.evidence_sha256 k = Some (evidence_sha256 (Signature.evidence_json k)).
Record intact (s : Core) : Prop := mkIntact {
  versions_stored : ∀ v, In v (version_rows s) → version_stored s v;
  signatures_stored : ∀ k, In k (signature_rows s) → signature_stored s k
}.

Lemma version_stays s s' v : keeps_stored held s s' → version_stored s v → version_stored s' v.
Proof. intros Hk (c & Hc & E). exists c. split; [by apply Hk|done]. Qed.
Lemma signature_stays s s' k : keeps_stored held s s' → signature_stored s k → signature_stored s' k.
Proof. intros Hk (key & c & E & Hc & E'). exists key, c. split_and!; [done|by apply Hk|apply E'..]. Qed.

(** New rows are added, each stored; nothing recorded or stored is lost. *)
Definition grows (s s' : Core) : Prop :=
  keeps_stored held s s' ∧
  ∃ vs ks, contents s' = (version_rows s ++ vs, signature_rows s ++ ks) ∧
    (∀ v, In v vs → version_stored s' v) ∧ (∀ k, In k ks → signature_stored s' k).

Lemma grows_same s s' : keeps_stored held s s' → contents s' = contents s → grows s s'.
Proof.
  intros Hk E. split; [done|]. exists [], []. rewrite !app_nil_r.
  split_and!; [exact E|by intros ? []..].
Qed.
Lemma grows_trans s1 s2 s3 : grows s1 s2 → grows s2 s3 → grows s1 s3.
Proof.
  intros [K1 (vs1 & ks1 & [= Ev1 Es1] & Hv1 & Hs1)] [K2 (vs2 & ks2 & [= Ev2 Es2] & Hv2 & Hs2)].
  split; [intros k c Hk; by apply K2, K1|]. exists (vs1 ++ vs2), (ks1 ++ ks2). split_and!.
  - unfold contents. by rewrite Ev2, Es2, Ev1, Es1, !app_assoc.
  - intros v [Hv|Hv]%in_app_iff; [|by apply Hv2]. eapply version_stays; [exact K2|by apply Hv1].
  - intros k [Hk|Hk]%in_app_iff; [|by apply Hs2]. eapply signature_stays; [exact K2|by apply Hs1].
Qed.
Lemma grows_intact s s' : grows s s' → intact s → intact s'.
Proof.
  intros [Hk (vs & ks & [= Ev Es] & Hv & Hs)] [Iv Is]. split.
  - intros v. rewrite Ev, in_app_iff. intros [Hin|Hin]; [|by apply Hv].
    eapply version_stays; [exact Hk|by apply Iv].
  - intros k. rewrite Es, in_app_iff. intros [Hin|Hin]; [|by apply Hs].
    eapply signature_stays; [exact Hk|by apply Is].
Qed.

Lemma objects_hold s s' : Core.objects s' = Core.objects s → ∀ k, held s' k = held s k.
Proof. apply held_outside. Qed.

(** Storing an object leaves the rows alone. *)
Lemma put_contents c f h sc : preserves (same contents) (put c f h sc).
Proof.
  intros s. pose proof (put_outside c f h sc s) as E. unfold same, outside_view in E.
  injection E as E _ _ _. unfold same, contents, version_rows, signature_rows. by rewrite E.
Qed.
Lemma get_contents k : preserves (same contents) (get_object k).
Proof.
  intros s. pose proof (get_object_db held k s) as E. unfold same in E.
  unfold same, contents, version_rows, signature_rows. by rewrite E.
Qed.

(** ** Uploads and signatures *)
Definition grows_after {A} (m : M Core A) : Prop := ∀ s, grows s (m s).2.

(** The rows the second part adds, from what the first one stored. *)
Lemma discarding_grows {P A} b e (prepare : M Core (P * string)) (finish : P → string → M Core A) :
  preserves (keeps_stored held) (raise_if b e;; discarding_on_failure prepare finish) →
  (∀ s p key s1 a s2, prepare s = (Ok (p, key), s1) → finish p key s1 = (Ok a, s2) →
     ∃ vs ks, contents s2 = (version_rows s ++ vs, signature_rows s ++ ks) ∧
       (∀ v, In v vs → version_stored s2 v) ∧ (∀ k, In k ks → signature_stored s2 k)) →
  grows_after (raise_if b e;; discarding_on_failure prepare finish).
Proof.
  intros Hk Hrows s. specialize (Hk s). destruct b; [by apply grows_same|].
  change ((raise_if false e;; discarding_on_failure prepare finish) s)
    with (discarding_on_failure prepare finish s) in *.
  destruct (discarding_on_failure prepare finish s) as [[a|e'] s'] eqn:Ed; cbn in *.
  2:{ apply (grows_same s); [done|]. apply (discarding_err_db held) in Ed.
      unfold contents, version_rows, signature_rows. by rewrite Ed. }
  revert Ed. unfold discarding_on_failure.
  destruct (prepare s) as [[[p key]|e1] s1] eqn:E; [|done].
  destruct (transaction (λ _, finish p key s1) s) as [[a'|e2] s2] eqn:E2.
  2:{ by intros (? & ? & _ & [=])%bind_ok. }
  intros [= <- <-]. apply transaction_ok in E2 as (s3 & E3 & Hf).
  destruct (Hrows _ _ _ _ _ _ E E3) as (vs & ks & Ec & Hv & Hks).
  assert (Hh : keeps_stored held s3 s2)
    by (apply (objects_keep held), (flush_projection Core.objects _ _ Hf)).
  split; [exact Hk|]. exists vs, ks. split_and!.
  - by rewrite (flush_projection contents _ _ Hf).
  - intros v Hin. eapply version_stays; [exact Hh|by apply Hv].
  - intros k Hin. eapply signature_stays; [exact Hh|by apply Hks].
Qed.

(** The preparation ends by storing the content. *)
Definition stores_content (s s1 : Core) (key content : string) (size : Z) : Prop :=
  contents s1 = contents s ∧ held s1 key = Some content ∧ size = Z.of_nat (String.length content).

Lemma stored_version s s1 s2 v key content size :
  stores_content s s1 key content size → contents s2 = (version_rows s1 ++ [v], signature_rows s1) →
  Core.objects s2 = Core.objects s1 → Version.storage_key v = key →
  Version.sha256 v = sha256_hex content → Version.size_bytes v = size →
  ∃ vs ks, contents s2 = (version_rows s ++ vs, signature_rows s ++ ks) ∧
    (∀ v, In v vs → version_stored s2 v) ∧ (∀ k, In k ks → signature_stored s2 k).
Proof.
  intros ([= E1 E2] & Hheld & Hsize) Ec Ho Ek Eh Es. exists [v], []. split_and!.
  - by rewrite Ec, E1, E2, app_nil_r.
  - intros w [<-|[]]. exists content. rewrite Ek, (objects_hold s1 s2 Ho). by subst.
  - by intros k [].
Qed.

Lemma added_version d v f c k h n by_ s u s' :
  add_document_version d v f c k h n by_ s = (Ok u, s') →
  ∃ row, contents s' = (version_rows s ++ [row], signature_rows s) ∧
    Version.storage_key row = k ∧ Version.sha256 row = h ∧ Version.size_bytes row = n ∧
    Core.objects s' = Core.objects s.
Proof.
  unfold add_document_version. intros Hrun. run_step. run_step.
  match goal with Hq : utc_now _ = _ |- _ => apply gets_ok in Hq as [-> ->] end.
  apply modify_ok in Hrun as ->.
  match goal with Hq : uuid4 _ = _ |- _ =>
    pose proof Hq as Ho; frame contents Hq; frame Core.objects Ho end.
  match goal with Ho : Core.objects ?s1 = _ |- _ =>
    exists (Version.make a d v f c k h n by_ (Core.clock s1) None) end.
  split_and!; try done.
  match goal with Hq : contents ?s1 = contents s |- _ => injection Hq as Ev Es end.
  rewrite <- Ev, <- Es. reflexivity.
Qed.

(** What the preparation of an upload or a signature ends with. *)
Definition ends_with {P} (Q : Core → P → string → Prop) (prepare : M Core (P * string)) : Prop :=
  ∀ s p key s1, prepare s = (Ok (p, key), s1) → contents s1 = contents s ∧ Q s1 p key.
Lemma put_ends_with {P} Q (g : string * Z → P) c f h sc :
  (∀ s key, held s key = Some c → Q s (g (key, Z.of_nat (String.length c))) key) →
  ends_with Q (stored ← put c f h sc; mret (g stored, stored.1)).
Proof.
  intros HQ s p key s1 ([k n] & s2 & Hput & Hret)%bind_ok. apply ret_ok in Hret as [[= -> ->] ->].
  pose proof (put_stores _ _ _ _ _ _ _ _ Hput) as (_ & Hheld & -> & _).
  apply (preserves_run (same contents)) in Hput; [|apply put_contents]. auto.
Qed.
Lemma after_ends_with {A P} Q (m : M Core A) (k : A → M Core (P * string)) :
  preserves (same contents) m → (∀ a, ends_with Q (k a)) → ends_with Q (m ≫= k).
Proof.
  intros Hm Hk s p key s1 (a & s2 & Hrun & Hend)%bind_ok.
  apply (preserves_run (same contents)) in Hrun; [|done].
  apply Hk in Hend as [E HQ]. split; [by rewrite E|done].
Qed.
Ltac to_the_end :=
  repeat first [ apply after_ends_with; [solve [through_operation]|intros ?]
               | match goal with |- ends_with _ (match ?x with _ => _ end) => destruct x end
               | progress cbv zeta ].

Definition holds_upload {P} (c : string) (s : Core) (p : P * Z) (key : string) : Prop :=
  held s key = Some c ∧ p.2 = Z.of_nat (String.length c).

(** The rows of versions and signatures, and the store. *)
Definition kept (s : Core) := (version_rows s, signature_rows s, Core.objects s).

Ltac frame_kept :=
  repeat match goal with
  | Hq : deref _ ?x = (Ok _, _) |- _ => apply deref_ok in Hq; destruct Hq as [_ ->]
  | Hq : ?m ?x = (Ok _, ?y) |- _ =>
      lazymatch m with
      | add_document_version _ _ _ _ _ _ _ _ => fail
      | add (R := Signature.SignatureEntity) _ => fail
      | _ => idtac
      end;
      apply (preserves_run (same kept)) in Hq; [unfold same, kept in Hq|solve [through_operation]]
  end.

(** The end of an upload: one version is added, the rest is framed. *)
Ltac version_added Hs1 :=
  frame_kept;
  match goal with Hq : add_document_version _ _ _ _ _ _ _ _ _ = _ |- _ =>
    let Ek := fresh in let Eh := fresh in let Es := fresh in
    apply added_version in Hq; destruct Hq as (row & Ec & Ek & Eh & Es & Eo);
    unfold contents in Ec; simplify_eq;
    eapply (stored_version _ _ _ row); [exact Hs1|unfold contents; congruence|congruence|done..]
  end.

Ltac upload_end Hprep :=
  match type of Hprep with ?m _ = (Ok (_, ?size, _), _) =>
    let He := fresh in
    match goal with Hfin : context [sha256_hex ?c] |- _ =>
      assert (He : ends_with (holds_upload c) m)
        by (to_the_end; by apply (put_ends_with _ (λ stored, (_, stored.2))));
      apply He in Hprep; clear He
    end
  end.

Lemma create_document_grows p c : grows_after (create_document p c).
Proof.
  unfold create_document. apply discarding_grows; [apply (create_document_keeps held p c)|].
  intros s [t size] key s1 a s2 Hprep Hfin. cbv zeta in *.
  upload_end Hprep. repeat run_step. version_added Hprep.
Qed.

Lemma add_version_grows i f t a c : grows_after (add_version i f t a c).
Proof.
  unfold add_version. apply discarding_grows; [apply (add_version_keeps held i f t a c)|].
  intros s [d size] key s1 read s2 Hprep Hfin. cbv zeta in *.
  upload_end Hprep. repeat run_step. version_added Hprep.
Qed.

Definition holds_artifact (s : Core) (d : signature_data) (key : string) : Prop :=
  sd_evidence_hash d = evidence_sha256 (sd_evidence d) ∧
  ∃ c, held s key = Some c ∧ sd_artifact_hash d = sha256_hex c.

Lemma original_content_contents r v b : preserves (same contents) (original_content r v b).
Proof. unfold original_content. preserve. apply get_contents. Qed.

Lemma added_signature (x : Signature.SignatureEntity) s u s' :
  add x s = (Ok u, s') → kept s' = (version_rows s, signature_rows s ++ [x], Core.objects s).
Proof. by intros ->%modify_ok. Qed.

Lemma prepare_signature_ends cmd identity :
  ends_with holds_artifact (prepare_signature cmd identity).
Proof.
  unfold prepare_signature.
  repeat first [ apply after_ends_with; [apply original_content_contents|intros ?] | progress to_the_end ].
  apply (put_ends_with _ (λ _, _)). intros ? ? Hh. split; [done|]. eauto.
Qed.

Lemma sign_grows cmd : grows_after (sign cmd).
Proof.
  unfold sign. cbv zeta. apply discarding_grows; [apply (sign_keeps held cmd)|].
  intros s d key s1 read s2 Hprep Hfin.
  apply prepare_signature_ends in Hprep as ([= Ev Es] & Hevidence & c & Hheld & Hhash).
  unfold record_signature in Hfin. cbv zeta in Hfin. repeat run_step. frame_kept.
  match goal with Hq : add ?k _ = _ |- _ => apply added_signature in Hq; exists [], [k] end.
  unfold kept, contents in *. simplify_eq.
  assert (Ho : Core.objects s2 = Core.objects s1) by congruence. split_and!.
  - rewrite app_nil_r. congruence.
  - by intros v [].
  - intros k [<-|[]]. exists key, c. rewrite (objects_hold s1 s2 Ho). cbn. split_and!; congruence.
Qed.

Lemma operate_contents op :
  match op with
  | CreateDocument _ _ | AddVersion _ _ _ _ _ | Sign _ => True
  | _ => preserves (same contents) (operate op)
  end.
Proof.
  destruct op; cbn; try done; unfold done_with; preserve; try solve [through_operation].
  all: unfold get_content, signing_document, signing_signed_document, signed_document, verified_content;
    preserve; try solve [through_operation]; apply get_contents.
Qed.

Lemma done_grows {A} (m : M Core A) : grows_after m → grows_after (done_with m).
Proof.
  intros Hm s. specialize (Hm s). unfold done_with, mbind, M_bind.
  by destruct (m s) as [[a|e] s'].
Qed.

Lemma operate_grows op : grows_after (operate op).
Proof.
  pose proof (operate_contents op) as Hc. pose proof (operate_keeps held op) as Hk.
  destruct op; try (intros s; apply grows_same; [apply Hk|apply Hc]); cbn; apply done_grows.
  - apply create_document_grows.
  - apply add_version_grows.
  - apply sign_grows.
Qed.

Lemma runs_grow s s' : workflow_runs s s' → grows s s'.
Proof.
  intros Hrun. induction Hrun as [s|s s' op Hrun IH|s s1 s2 Hrun IH _ [= _ _ _ Es] Ev Eo].
  - apply grows_same; [by intros k c|done].
  - eapply grows_trans; [exact IH|apply operate_grows].
  - eapply grows_trans; [exact IH|]. apply grows_same; [by apply (objects_keep held)|].
    unfold contents, version_rows, signature_rows. by rewrite Ev, Es.
Qed.
End integrity.

(** ** Reading a recorded version *)
Section reading.
Context `{Env} `{WorkflowEnv} `{DocumentStorage} `{PdfLibrary}.
Implicit Types s : Core.

Lemma versions_settled s : consistent s → settled_table (Db.document_versions (Core.db s)).
Proof.
  intros Hs. destruct (schema_parts s Hs) as (_ & _ & _ & _ & _ & Hd & _).
  destruct Hs as [Hc _]. unfold clean_db in Hc.
  unfold documents_ok in Hd. cbv zeta in Hd. rewrite !andb_true_iff in Hd. split.
  - revert Hc. unfold clean. destruct (Core.db s) as [? ? ? ? ? ? [] ? ? ? ?]; simpl. by intros [=].
  - apply primary_key_distinct. tauto.
Qed.

(** A query that settled rows answer. *)
Lemma scalar_finds {R} `{Entity R} `{HasTable Core R} (P : R → bool) s r :
  settled_table (get_table s) → List.find P (live (get_table s)) = Some r →
  scalar P s = (Ok (Some r), s).
Proof.
  intros Hset E. destruct (scalar P s) as [[x|e] s'] eqn:Hrun; [|done].
  by apply scalar_settled in Hrun as [-> ->]; [rewrite E|].
Qed.

Lemma find_unique {R K} (key : R → K) `{EqDecision K} (P : R → bool) l r :
  NoDup (map key l) → In r l → P r = true → (∀ x, P x = true → key x = key r) →
  List.find P l = Some r.
Proof.
  intros Hd Hin HP Hkey. induction l as [|x l IH]; [done|]. cbn in *.
  apply NoDup_cons in Hd as [Hx Hd]. destruct (P x) eqn:Ex.
  - destruct Hin as [->|Hin]; [done|]. destruct Hx. rewrite (Hkey x Ex).
    apply list_elem_of_In. by apply in_map.
  - destruct Hin as [->|Hin]; [congruence|]. by apply IH.
Qed.

Definition version_key (v : Version.DocumentVersionEntity) : N * Z :=
  (Version.document_id v, Version.version v).
Lemma version_keys_unique s : consistent s → NoDup (map version_key (version_rows s)).
Proof.
  intros Hs. destruct (schema_parts s Hs) as (_ & _ & _ & _ & _ & Hd & _).
  unfold documents_ok in Hd. cbv zeta in Hd. rewrite !andb_true_iff in Hd.
  assert (Hu : unique_on (λ r, Some (version_key r)) (live (Db.document_versions (Core.db s))) = true)
    by (unfold version_key; tauto).
  unfold unique_on in Hu. rewrite omap_some in Hu. by apply bool_decide_eq_true in Hu.
Qed.

Lemma document_found s d :
  consistent s → In d (v_documents (view_of s)) → open_document d = true →
  (Document.id d < 2 ^ 128)%N → _document (uuid_str (Document.id d)) s = (Ok d, s).
Proof.
  intros Hs Hin Ho Hu. pose proof (settled_documents s (consistent_settled s Hs)) as Hset.
  unfold _document. rewrite (parse_uuid_str _ Hu).
  rewrite (bind_step_ok _ _ s (Document.id d) s) by done. unfold _document_of.
  rewrite (bind_step_ok _ _ s (Some d) s); [done|]. apply scalar_finds; [exact Hset|].
  apply (find_unique Document.id); [apply Hset|exact Hin|by rewrite N.eqb_refl|].
  intros x [E%N.eqb_eq _]%andb_true_iff. done.
Qed.

Lemma version_found s v :
  consistent s → In v (version_rows s) →
  scalar (λ x, N.eqb (Version.document_id x) (Version.document_id v) &&
               Z.eqb (Version.version x) (Version.version v)) s = (Ok (Some v), s).
Proof.
  intros Hs Hin. apply scalar_finds; [by apply versions_settled|].
  apply (find_unique version_key); [by apply version_keys_unique|exact Hin|
    by rewrite N.eqb_refl, Z.eqb_refl|].
  intros x [E1%N.eqb_eq E2%Z.eqb_eq]%andb_true_iff. unfold version_key. congruence.
Qed.

(** The caller, if there is one, may read the document. *)
Definition may_read (d : Document.DocumentEntity) (actor_id : option string) (s : Core) : Prop :=
  match actor_id with
  | Some a => _require_document_access d a None s = (Ok tt, s)
  | None => True
  end.

Lemma get_content_run s d v c actor_id :
  consistent s → In d (v_documents (view_of s)) → open_document d = true →
  (Document.id d < 2 ^ 128)%N → In v (version_rows s) → Version.document_id v = Document.id d →
  Version.version v ≠ 0 → get_object (Version.storage_key v) s = (Ok c, s) →
  Version.sha256 v = sha256_hex c →
  validate_pdf_upload c (Version.original_filename v) "application/pdf" = Ok tt → may_read d actor_id s →
  get_content (uuid_str (Document.id d)) (Some (Version.version v)) actor_id s
    = (Ok (_version_read v, c), s).
Proof.
  intros Hs Hd Ho Hu Hv Eid Hnz Hget Hsha Hpdf Hactor. unfold get_content.
  rewrite (bind_step_ok _ _ s (_version_read v, Version.storage_key v) s).
  2:{ unfold read_session. rewrite (bind_step_ok _ _ s d s) by (by apply document_found).
      rewrite (bind_step_ok _ _ s tt s) by (by destruct actor_id). cbv zeta.
      rewrite (proj2 (Z.eqb_neq _ _) Hnz), <- Eid.
      rewrite (bind_step_ok _ _ s (Some v) s) by (by apply version_found).
      rewrite (bind_step_ok _ _ s v s) by done. cbn. by rewrite rollback_same. }
  unfold verified_content. rewrite (bind_step_ok _ _ s c s) by done.
  rewrite (bind_step_ok _ _ s tt s) by (unfold _version_read; cbn; by rewrite Hsha, String.eqb_refl).
  rewrite (bind_step_ok _ _ s tt s) by (unfold _version_read; cbn; by rewrite Hpdf). done.
Qed.
End reading.

(** C24: What the database records about stored bytes stays true over any sequence
    of calls: every recorded version of a document has its content in the object
    store, with the recorded digest and size; every signature has its signed PDF
    there with the recorded digest, and a digest of its evidence that matches.
    Versions and signatures are only appended to. *)
Theorem recorded_content_is_stored `{Env} `{WorkflowEnv} `{DocumentStorage} `{PdfLibrary}
    (held : Core → string → option string) `{!DocumentStorageLaws held} (s s' : Core) :
  intact held s → workflow_runs s s' →
  intact held s' ∧
  ∃ vs ks, version_rows s' = version_rows s ++ vs ∧ signature_rows s' = signature_rows s ++ ks.
Proof.
  intros Hi Hrun. pose proof (runs_grow held s s' Hrun) as Hg.
  split; [by apply (grows_intact held s)|].
  destruct Hg as [_ (vs & ks & [= E1 E2] & _)]. by exists vs, ks.
Qed.

#[local] Existing Instance LocalDocumentStorage.storage.
#[local] Existing Instance LocalDocumentStorage.storage_laws.

(** C25: A version of a document, once recorded, can be read back as long as the
    document is not deleted, whatever calls follow: with the local store,
    downloading it answers its recorded metadata and exactly the bytes stored
    when it was recorded, whose digest is the recorded one.  The version is recorded
    in a state whose recorded content is stored ([intact], which the calls keep).
    This is for a caller who may read the document (or none, inside the service), for content that
    passes the checks of an upload, as a download repeats them, and for a version
    number other than 0, which asks for the current version. *)
Theorem recorded_version_reads_back `{Env} `{WorkflowEnv} `{PdfLibrary} (s s' : Core)
    (v : Version.DocumentVersionEntity) (d : Document.DocumentEntity) (content : string)
    (actor_id : option string) :
  intact LocalDocumentStorage.held s → consistent s' → workflow_runs s s' →
  In v (version_rows s) → LocalDocumentStorage.held s (Version.storage_key v) = Some content →
  In d (v_documents (view_of s')) → open_document d = true →
  Document.id d = Version.document_id v → (Document.id d < 2 ^ 128)%N → Version.version v ≠ 0 →
  validate_pdf_upload content (Version.original_filename v) "application/pdf" = Ok tt →
  may_read d actor_id s' →
  get_content (uuid_str (Document.id d)) (Some (Version.version v)) actor_id s'
    = (Ok (_version_read v, content), s') ∧
  vr_sha256 (_version_read v) = sha256_hex content.
Proof.
  intros Hi Hs' Hrun Hv Hheld Hd Ho Eid Hu Hnz Hpdf Hactor.
  destruct (runs_grow LocalDocumentStorage.held s s' Hrun) as [Hk (vs & ks & [= Ev _] & _)].
  destruct (versions_stored _ _ Hi v Hv) as (c & Hc & Hsha & _). simplify_eq. split; [|done].
  apply get_content_run; try done.
  - rewrite Ev, in_app_iff. by left.
  - apply LocalDocumentStorage.get_held_run, Hk, Hheld.
Qed.

(** ** The theorems on the example run *)
Section witnesses.
Import WorkflowExample.

Lemma start_intact : intact LocalDocumentStorage.held Example.s0.
Proof. split; [intros v []|intros k []]. Qed.

Lemma recorded_content_is_stored_witness : intact LocalDocumentStorage.held completed_state.
Proof.
  refine (proj1 (recorded_content_is_stored LocalDocumentStorage.held _ _ _ completed_run)).
  refine (grows_intact LocalDocumentStorage.held _ _ _ start_intact).
  exact (runs_grow LocalDocumentStorage.held _ _ opened_run).
Defined.

Lemma recorded_version_reads_back_witness :
  ∃ v d, version_rows opened_state = [v] ∧ v_documents (view_of completed_state) = [d] ∧
    get_content (uuid_str (Document.id d)) (Some (Version.version v)) (Some "admin@acme.com") completed_state
      = (Ok (_version_read v, pdf), completed_state).
Proof.
  do 2 eexists. split; [reflexivity|]. split; [reflexivity|].
  refine (proj1 (recorded_version_reads_back opened_state completed_state _ _ pdf (Some "admin@acme.com") _
    completed_consistent completed_run _ _ _ _ _ _ _ _ _)).
  - refine (grows_intact LocalDocumentStorage.held _ _ _ start_intact).
    exact (runs_grow LocalDocumentStorage.held _ _ opened_run).
  - left. reflexivity.
  - vm_compute. reflexivity.
  - left. reflexivity.
  - vm_compute. reflexivity.
  - vm_compute. reflexivity.
  - vm_compute. reflexivity.
  - vm_compute. discriminate.
  - vm_compute. reflexivity.
  - vm_compute. reflexivity.
Defined.
End witnesses.
