(* ===== verification/R2Operations.v ===== *)
(** * Moving and saving the stored objects

    The commands that run over every object the database records: the backup
    (infrastructure/backup_export.py), the copy of the local files to R2
    (toolbox/operations/migrate_documents_to_r2.py) and the move of the objects
    below the prefixes of their tenants (toolbox/operations/
    reorganize_r2_documents.py).  A command is a function of its flags; what it
    prints is its result, and what a failed run had printed is left out.  The
    archive of a backup is the list of its members. *)

From S2P Require Import Prelude.
From S2P Require Import PyText.
From S2P Require Import Json.
From S2P Require Import Http.
From S2P Require Import Orm.
From S2P Require Import WorkflowSchema.
From S2P Require Import CoreDb.
From S2P Require Import Storage.

Local Open Scope Z_scope.

(** [sorted(d.items())]: the keys of a dictionary are distinct. *)
Definition item_le {A} (a b : string * A) : Prop :=
  match String.compare a.1 b.1 with Gt => False | _ => True end.
#[export] Instance item_le_dec {A} : RelDecision (@item_le A).
Proof. intros a b. unfold item_le. destruct (String.compare a.1 b.1); apply _. Defined.
Definition sorted_items {A} (d : list (string * A)) : list (string * A) := merge_sort item_le d.

(** [json.dumps(v, ensure_ascii=True, sort_keys=True)] on ASCII texts. *)
Fixpoint json_dumps (j : json) : string :=
  match j with
  | JNull => "null"
  | JBool true => "true"
  | JBool false => "false"
  | JNum z => show_Z z
  | JFloat r => r
  | JStr s => json_str s
  | JArr l => "[" +:+ join ", " (map json_dumps l) +:+ "]"
  | JObj l =>
      let items := map (λ kv, (kv.1, JStr (json_dumps kv.2))) l in
      "{" +:+ join ", " (map (λ kv, json_str kv.1 +:+ ": " +:+ py_str kv.2)
                          (merge_sort key_le items)) +:+ "}"
  end.

(** [key.rsplit("/", 1)[-1]] *)
Definition last_segment (key : string) : string :=
  text (List.last (split_slash (chars key)) []).
(** [f"{flag}"] *)
Definition show_bool (b : bool) : string := if b then "True" else "False".
Definition show_length {A} (l : list A) : string := show_Z (Z.of_nat (length l)).

(** The rows that record an object. *)
Definition artifacts (s : Signature.SignatureEntity) : bool :=
  match Signature.artifact_storage_key s with Some _ => true | None => false end.
(** [if key and digest] *)
Definition key_and_digest (key digest : option string) : option (string * string) :=
  match key, digest with
  | Some k, Some d => if nonempty k && nonempty d then Some (k, d) else None
  | _, _ => None
  end.

(** ** The backup (backup_export.py) *)
Section backup.
Context `{Env} `{DocumentStorage}.
Variable DOCUMENT_STORAGE_PROVIDER : string.

Definition referenced_objects : M Core (list (string * string)) :=
  read_session (
    versions ← columns (R := Version.DocumentVersionEntity) (λ _, true);
    let objects := foldl (λ d v, dset (Version.storage_key v) (Version.sha256 v) d) [] versions in
    signatures ← columns (R := Signature.SignatureEntity) artifacts;
    mret (foldl (λ d g,
      match key_and_digest (Signature.artifact_storage_key g) (Signature.artifact_sha256 g) with
      | Some (key, digest) => dset key digest d
      | None => d
      end) objects signatures)).

(** The archive written so far, next to the state of the service. *)
Definition Backup : Type := Core * list (string * string).
Definition backup_on_core {A} (m : M Core A) : M Backup A := λ s,
  let '(r, c) := m s.1 in (r, (c, s.2)).
Definition addfile (name content : string) : M Backup unit :=
  modify (λ s, (s.1, s.2 ++ [(name, content)])).

(** The object of a key, when it has the digest recorded for it. *)
Definition export_object (item : string * string) : M Backup json :=
  let '(key, expected_digest) := item in
  content ← backup_on_core (get_object key);
  let actual_digest := sha256_hex content in
  raise_if (negb (String.eqb actual_digest expected_digest))
    (RuntimeError ("Stored object integrity check failed: " +:+ key));;
  addfile ("objects/" +:+ key) content;;
  mret (JObj [("storage_key", JStr key); ("sha256", JStr actual_digest);
              ("size", JNum (Z.of_nat (String.length content)))]).

Definition backup_export : M Backup unit :=
  objects ← backup_on_core referenced_objects;
  manifest ← mapM export_object (sorted_items objects);
  addfile "manifest.json"
    (json_dumps (JObj [("provider", JStr DOCUMENT_STORAGE_PROVIDER); ("objects", JArr manifest)])).
End backup.

(** ** The configured storage *)
Section configured.
Context `{Env} `{S3Client}.
Variables (DOCUMENT_STORAGE_PROVIDER R2_DOCUMENTS_PREFIX : string).

Definition r2_prefix : string := strip_slash R2_DOCUMENTS_PREFIX.
Definition configured_document_storage : DocumentStorage :=
  if String.eqb DOCUMENT_STORAGE_PROVIDER "r2" then R2DocumentStorage.storage r2_prefix
  else LocalDocumentStorage.storage.
(** [if not isinstance(storage, R2DocumentStorage): raise SystemExit] *)
Definition require_r2 : M Core unit :=
  raise_if (negb (String.eqb DOCUMENT_STORAGE_PROVIDER "r2"))
    (SystemExit "DOCUMENT_STORAGE_PROVIDER must be r2").

(** [with storage.get(key) as source: ...], refused when the digest differs. *)
Definition verified_object (key : string) (expected_digest : option string) (e : exn) : M Core string :=
  content ← R2DocumentStorage.get r2_prefix key;
  raise_if (negb (bool_decide (Some (sha256_hex content) = expected_digest))) e;;
  mret content.

(** ** From the local files to R2 (migrate_documents_to_r2.py)

    [local_files]: the files below the source directory by their path in it. *)
Section migrate.
Variable local_files : gmap string string.

(** [for storage_key, digest in artifact_rows: ...] *)
Fixpoint add_artifacts (objects : list (string * string)) (rows : list Signature.SignatureEntity)
    : M Core (list (string * string)) :=
  match rows with
  | [] => mret objects
  | g :: rows =>
      match key_and_digest (Signature.artifact_storage_key g) (Signature.artifact_sha256 g) with
      | Some (storage_key, digest) =>
          raise_if (match dget storage_key objects with
                    | Some existing_digest => negb (String.eqb existing_digest digest)
                    | None => false
                    end) (SystemExit ("Conflicting SHA-256 for storage key: " +:+ storage_key));;
          add_artifacts (dset storage_key digest objects) rows
      | None => add_artifacts objects rows
      end
  end.
(** The distinct keys and digests of the versions, then those of the artifacts. *)
Definition recorded_objects : M Core (list (string * string)) :=
  rows ← read_session (
    document_rows ← columns (R := Version.DocumentVersionEntity) (λ _, true);
    artifact_rows ← columns (R := Signature.SignatureEntity) artifacts;
    mret (document_rows, artifact_rows));
  let objects := foldl (λ d '(storage_key, digest), dset storage_key digest d) []
    (remove_dups (map (λ v, (Version.storage_key v, Version.sha256 v)) rows.1)) in
  add_artifacts objects rows.2.

(** One object; [true] when it was copied. *)
Definition migrate_object (apply : bool) (item : string * string) : M Core bool :=
  let '(storage_key, expected_sha256) := item in
  try_catch (lift (validate_storage_key storage_key))
    (λ e, match e with
          | FileNotFoundError _ =>
              raise (SystemExit ("Invalid storage key in database: " +:+ repr_str storage_key))
          | _ => raise e
          end);;
  match local_files !! storage_key with
  | None =>
      uploaded ← try_catch (R2DocumentStorage.get r2_prefix storage_key)
        (λ e, match e with
              | FileNotFoundError _ =>
                  raise (SystemExit ("Object missing locally and in R2: " +:+ storage_key))
              | _ => raise e
              end);
      raise_if (negb (String.eqb (sha256_hex uploaded) expected_sha256))
        (SystemExit ("SHA-256 mismatch in R2: " +:+ storage_key));;
      mret false
  | Some content =>
      raise_if (negb (String.eqb (sha256_hex content) expected_sha256))
        (SystemExit ("SHA-256 mismatch before copy: " +:+ storage_key));;
      if apply then
        R2DocumentStorage.put_existing r2_prefix storage_key content (Some expected_sha256);;
        verified_object storage_key (Some expected_sha256)
          (SystemExit ("SHA-256 mismatch after copy: " +:+ storage_key));;
        mret true
      else mret false
  end.

Definition migrate_documents (apply : bool) : M Core string :=
  require_r2;;
  objects ← recorded_objects;
  outcomes ← mapM (migrate_object apply) (sorted_items objects);
  let copied := List.filter id outcomes in
  mret (if apply then "[ok] " +:+ show_length outcomes +:+ " objects checked; " +:+
                      show_length copied +:+ " copied and verified"
        else "[ok] " +:+ show_length outcomes +:+ " objects checked and ready to copy").
End migrate.

(** ** Below the prefixes of the tenants (reorganize_r2_documents.py)

    [uuid5_url name]: [uuid5(NAMESPACE_URL, name)]. *)
Section reorganize.
Variable uuid5_url : string → N.

Definition _account_id (members : list ((N * string) * Member.TenantMemberEntity))
    (tenant_id : N) (email : string) : N :=
  let name := lower (strip email) in
  match dget (tenant_id, name) members with
  | Some member =>
      match Member.auth_user_uuid member with
      | Some user => user
      | None => uuid5_url ("rubrica-account:" +:+ name)
      end
  | None => uuid5_url ("rubrica-account:" +:+ name)
  end.

Definition _target_key (old_key : string) (tenant_id account_id : N) : string :=
  if starts_with "tenants/" old_key then old_key
  else document_storage_scope tenant_id account_id +:+ "/" +:+ last_segment old_key.

(** A column that holds a key: [(version, "storage_key")] or
    [(signature, "artifact_storage_key")], with the digest recorded beside it and
    the key it is to have. *)
Inductive reference_entity :=
| VersionKey (id : N)
| ArtifactKey (id : N).
Record reference := mkReference {
  ref_entity : reference_entity;
  ref_digest : option string;
  ref_target : string
}.

(** [d[k]] on the dictionary of the documents or requests by identifier *)
Definition by_id {R} `{Entity R} (k : N) (l : list R) : M Core R := some_or (find_row k l) KeyError.

(** [getattr(entity, field)] *)
Definition current_key (e : reference_entity) : M Core string :=
  match e with
  | VersionKey k => v ← deref k; mret (Version.storage_key v)
  | ArtifactKey k => g ← deref k; some_or (Signature.artifact_storage_key g) AttributeError
  end.

Definition version_reference members documents (version : Version.DocumentVersionEntity)
    : M Core reference :=
  document ← by_id (Version.document_id version) documents;
  let tenant_id := Document.tenant_id document in
  let account_id := _account_id members tenant_id
    (or_str (Some (Version.created_by version)) (Document.created_by document)) in
  mret (mkReference (VersionKey (Version.id version)) (Some (Version.sha256 version))
          (_target_key (Version.storage_key version) tenant_id account_id)).

Definition artifact_reference members documents requests (signature : Signature.SignatureEntity)
    : M Core reference :=
  request ← by_id (Signature.signature_request_id signature) requests;
  document ← by_id (Request.document_id request) documents;
  old_key ← some_or (Signature.artifact_storage_key signature) AttributeError;
  let tenant_id := Document.tenant_id document in
  let account_id := _account_id members tenant_id (Document.created_by document) in
  mret (mkReference (ArtifactKey (Signature.id signature)) (Signature.artifact_sha256 signature)
          (_target_key old_key tenant_id account_id)).

(** Keys of the old layout that no row names any more, with the object that
    took their place. *)
Definition cleanup_candidates (references : list reference) (current_keys : list string)
    : list (string * (string * option string)) :=
  foldl (λ d r,
    let legacy_key := last_segment (ref_target r) in
    if starts_with "tenants/" (ref_target r) && negb (mem_str legacy_key current_keys)
    then dset legacy_key (ref_target r, ref_digest r) d else d) [] references.

Definition plan_move (moves : list (string * (string * option string))) (r : reference)
    : M Core (list (string * (string * option string))) :=
  source ← current_key (ref_entity r);
  if String.eqb source (ref_target r) then mret moves
  else
    raise_if (match dget source moves with
              | Some previous => negb (bool_decide (previous = (ref_target r, ref_digest r)))
              | None => false
              end) (RuntimeError ("Conflicting destination for " +:+ source));;
    mret (dset source (ref_target r, ref_digest r) moves).
Fixpoint plan_moves (moves : list (string * (string * option string))) (references : list reference)
    : M Core (list (string * (string * option string))) :=
  match references with
  | [] => mret moves
  | r :: rs => moves' ← plan_move moves r; plan_moves moves' rs
  end.

(** Copy and verify; an object that is already there only has to be the same. *)
Definition move_object (item : string * (string * option string)) : M Core (string * string) :=
  let '(source, (target, expected_digest)) := item in
  content ← verified_object source expected_digest
    (RuntimeError ("SHA-256 mismatch at source: " +:+ source));
  try_catch (R2DocumentStorage.put_existing r2_prefix target content expected_digest;; mret tt)
    (λ e, match e with FileExistsError _ => mret tt | _ => raise e end);;
  verified_object target expected_digest
    (RuntimeError ("SHA-256 mismatch at destination: " +:+ target));;
  mret (source, target).

Definition repoint (documents : list Document.DocumentEntity) (r : reference) : M Core unit :=
  old_key ← current_key (ref_entity r);
  if String.eqb old_key (ref_target r) then mret tt
  else
    match ref_entity r with
    | VersionKey k =>
        assign (R := Version.DocumentVersionEntity) k
          (λ v, v <| Version.storage_key := ref_target r |>);;
        version ← deref (R := Version.DocumentVersionEntity) k;
        found ← by_id (Version.document_id version) documents;
        document ← deref (Document.id found);
        when (String.eqb (Document.storage_key document) old_key)
          (assign (R := Document.DocumentEntity) (Document.id document)
             (λ d, d <| Document.storage_key := ref_target r |>))
    | ArtifactKey k =>
        assign (R := Signature.SignatureEntity) k
          (λ g, g <| Signature.artifact_storage_key := Some (ref_target r) |>)
    end.

Definition remove_source (item : string * (string * option string)) : M Core unit :=
  let '(source, (target, expected_digest)) := item in
  verified_object target expected_digest
    (RuntimeError ("SHA-256 mismatch before source cleanup: " +:+ target));;
  R2DocumentStorage.discard_uncommitted r2_prefix source.

(** What happens in the transaction: what was planned, and what was copied unless
    it is a dry run. *)
Definition reorganize_rows (apply delete_source : bool)
    : M Core (string * list (string * (string * option string)) * option (list (string * string))) :=
  member_rows ← scalars (R := Member.TenantMemberEntity)
    (λ m, bool_decide (Member.deleted_at m = None));
  let members := foldl (λ d m, dset (Member.tenant_id m, lower (Member.auth_user_id m)) m d)
    [] member_rows in
  documents ← scalars (R := Document.DocumentEntity) (λ _, true);
  versions ← scalars (R := Version.DocumentVersionEntity) (λ _, true);
  requests ← scalars (R := Request.SignatureRequestEntity) (λ _, true);
  signatures ← scalars (R := Signature.SignatureEntity) artifacts;
  version_references ← mapM (version_reference members documents) versions;
  artifact_references ← mapM (artifact_reference members documents requests) signatures;
  let references := version_references ++ artifact_references in
  current_keys ← mapM (λ r, current_key (ref_entity r)) references;
  let candidates := cleanup_candidates references current_keys in
  moves ← plan_moves [] references;
  let plan := "[plan] objects=" +:+ show_length moves +:+ " apply=" +:+ show_bool apply +:+
    " delete_source=" +:+ show_bool delete_source in
  if negb apply then mret (plan, candidates, None)
  else
    copied ← mapM move_object (sorted_items moves);
    for_each (repoint documents) references;;
    mret (plan, candidates, Some copied).

(** [with SessionLocal.begin() as database]; the rollback of a dry run has
    nothing to undo. *)
Definition reorganize_database (apply delete_source : bool) :=
  transaction (reorganize_rows apply delete_source).

Definition reorganize_documents (apply delete_source : bool) : M Core (list string) :=
  raise_if (delete_source && negb apply) (SystemExit "--delete-source requires --apply");;
  require_r2;;
  outcome ← reorganize_database apply delete_source;
  let '(plan, candidates, done) := outcome in
  match done with
  | None => mret [plan]
  | Some copied =>
      when delete_source (for_each remove_source (sorted_items candidates));;
      mret [plan; "[ok] copied=" +:+ show_length copied +:+ " database_updated=True sources_deleted=" +:+
              (if delete_source then show_length candidates else "0")]
  end.
End reorganize.
End configured.
