(* ===== verification/R2OperationsFacts.v ===== *)
(** * What the commands over the stored objects guarantee

    Moving the objects loses none and keeps the database true about them,
    however the command ends; a finished backup and a finished copy to R2 have
    every object the database records. *)

From S2P Require Import Prelude.
From S2P Require Import PyText.
From S2P Require Import Json.
From S2P Require Import Http.
From S2P Require Import Orm.
From S2P Require Import WorkflowSchema.
From S2P Require Import CoreDb.
From S2P Require Import Storage.
From S2P Require Import R2Operations.
From S2P Require Import DbWorkflowFacts.
From S2P Require Import DbWorkflowCalls.
From S2P Require Import DocumentIntegrity.

Local Open Scope Z_scope.

(** ** Lists of calls *)
Section calls.
Context {S A B : Type} (R : relation S) `{!PreOrder R}.

(** What a call establishes and later calls keep holds for all of them. *)
Lemma mapM_ok_all (f : A → M S B) (P : A → B → S → Prop) l s bs s' :
  (∀ a, preserves R (f a)) →
  (∀ a s1 b s2, R s s1 → f a s1 = (Ok b, s2) → P a b s2) →
  (∀ a b s1 s2, R s1 s2 → P a b s1 → P a b s2) →
  mapM f l s = (Ok bs, s') → Forall2 (λ a b, P a b s') l bs.
Proof.
  intros Hf Hok Hkeep. assert (Hs : R s s) by reflexivity. revert Hs.
  generalize s at 2 3 as s1. revert bs. induction l as [|a l IH]; intros bs s1 Hs1 Hrun; cbn in Hrun.
  { by injection Hrun as <- _. }
  apply bind_ok in Hrun as (b & s2 & Ha & Hrun).
  apply bind_ok in Hrun as (bs' & s3 & Hl & [= <- ->]).
  assert (Hs2 : R s s2) by (etrans; [exact Hs1|exact (preserves_run R _ _ _ _ (Hf a) Ha)]).
  constructor; [|exact (IH _ _ Hs2 Hl)]. apply (Hkeep _ _ s2); [|exact (Hok _ _ _ _ Hs1 Ha)].
  exact (preserves_run R _ _ _ _ (preserves_mapM R f l Hf) Hl).
Qed.
End calls.

Lemma forall2_right {A B} (P : A → B → Prop) l k y : Forall2 P l k → In y k → ∃ x, In x l ∧ P x y.
Proof. induction 1 as [|a b l k Hp _ IH]; [intros []|]. intros [<-|Hin]; [|destruct (IH Hin)]; naive_solver. Qed.
Lemma forall2_left {A B} (P : A → B → Prop) l k x : Forall2 P l k → In x l → ∃ y, In y k ∧ P x y.
Proof. induction 1 as [|a b l k Hp _ IH]; [intros []|]. intros [<-|Hin]; [|destruct (IH Hin)]; naive_solver. Qed.

Lemma in_alter_rows {R} `{Entity R} (f : R → R) k l x :
  In x (alter_rows f k l) ↔ ∃ y, In y l ∧ x = if has_id k y then f y else y.
Proof. unfold alter_rows. rewrite in_map_iff. naive_solver. Qed.

Lemma filter_every {A} (l : list A) : List.filter (λ _, true) l = l.
Proof. induction l as [|x l IH]; cbn; [done|by rewrite IH]. Qed.

Lemma sorted_items_in {A} (d : list (string * A)) x : In x (sorted_items d) ↔ In x d.
Proof.
  unfold sorted_items. rewrite <- !list_elem_of_In.
  by rewrite (merge_sort_Permutation item_le d).
Qed.

Lemma dset_in {K V} `{EqDecision K} (k : K) (v : V) d x : In x (dset k v d) → x = (k, v) ∨ In x d.
Proof.
  induction d as [|[k' v'] d IH]; cbn; [naive_solver|].
  case_bool_decide as E; cbn; [subst; naive_solver|]. intros [<-|Hin]; [auto|]. destruct (IH Hin); auto.
Qed.

(** ** Keys *)
Lemma split_slash_flat l seg : In seg (split_slash l) → ~ In "/"%char seg.
Proof.
  revert seg. induction l as [|c l IH]; intros seg; cbn [split_slash].
  { intros [<-|[]]. intros []. }
  destruct (Ascii.eqb_spec c "/").
  { intros [<-|Hin]; [intros []|by apply IH]. }
  destruct (split_slash l) as [|s segs]; intros [<-|Hin]; intros Hc.
  - by destruct Hc as [|[]].
  - done.
  - destruct Hc as [|Hc]; [done|]. by apply (IH s); [left|].
  - by apply (IH seg); [right|].
Qed.

(** A key of the old layout is not one of a tenant. *)
Lemma legacy_is_flat k : starts_with "tenants/" (last_segment k) = false.
Proof.
  destruct (starts_with "tenants/" (last_segment k)) eqn:E; [|done].
  apply starts_with_spec in E as (r & E).
  assert (Hin : In "/"%char (chars (last_segment k))).
  { rewrite E, chars_append. apply in_app_iff. left. by vm_compute; tauto. }
  unfold last_segment in Hin. rewrite chars_text in Hin. exfalso.
  set (segs := split_slash (chars k)) in *.
  assert (Hf : ∀ seg, In seg segs → ~ In "/"%char seg) by apply split_slash_flat.
  clearbody segs. clear E. induction segs as [|seg [|seg' segs] IH]; cbn in Hin.
  - done.
  - by apply (Hf seg); [left|].
  - apply IH; [exact Hin|]. intros x Hx. apply Hf. by right.
Qed.

Lemma target_of_a_tenant k tenant account :
  starts_with "tenants/" (_target_key k tenant account) = true.
Proof.
  unfold _target_key. destruct (starts_with "tenants/" k) eqn:E; [done|].
  apply starts_with_spec. eexists. unfold document_storage_scope.
  reflexivity.
Qed.

Lemma target_kept k tenant account : starts_with "tenants/" k = true → _target_key k tenant account = k.
Proof. unfold _target_key. by intros ->. Qed.

(** ** The objects while a command runs *)
Section objects.
Context `{Env} `{S3Client} (bucket : Core → string → option string) `{!S3ClientLaws bucket}.
Variable R2_DOCUMENTS_PREFIX : string.
Abbreviation prefix := (r2_prefix R2_DOCUMENTS_PREFIX).
Abbreviation held := (R2DocumentStorage.held bucket prefix).
Implicit Types s : Core.

(** The key holds an object with the digest. *)
Definition holds (s : Core) (key : string) (digest : option string) : Prop :=
  ∃ c, held s key = Some c ∧ digest = Some (sha256_hex c).

(** Objects are only added, and the database is left alone. *)
Definition copies : relation Core := λ s s',
  (∀ k c, held s k = Some c → held s' k = Some c) ∧ Core.db s' = Core.db s.
#[export] Instance copies_preorder : PreOrder copies.
Proof.
  split; [done|]. intros s1 s2 s3 [K1 E1] [K2 E2]. split; [|congruence]. auto.
Qed.
Lemma copies_holds s s' k d : copies s s' → holds s k d → holds s' k d.
Proof. intros [Hk _] (c & Hc & E). exists c. auto. Qed.
Lemma recorded_holds_same s k d d' : holds s k d → holds s k d' → d = d'.
Proof. intros (c & Hc & ->) (c' & Hc' & ->). congruence. Qed.
Lemma held_objects s s' k : Core.objects s' = Core.objects s → held s' k = held s k.
Proof. intros E. unfold R2DocumentStorage.held. by rewrite (bucket_outside s s' E). Qed.

Lemma get_copies k : preserves copies (R2DocumentStorage.get prefix k).
Proof.
  intros s. destruct (R2DocumentStorage.get prefix k s) as [r s'] eqn:E. cbn.
  pose proof (R2DocumentStorage.get_run _ _ _ _ _ _ E) as Hb. split.
  - intros k' c. unfold R2DocumentStorage.held. by rewrite Hb.
  - revert E. assert (Hv : preserves (same (λ s, (outside_view s, Core.draws s))) (R2DocumentStorage.get prefix k)).
    { unfold R2DocumentStorage.get. preserve. apply get_view. }
    intros E. apply (preserves_run _ _ _ _ _ Hv) in E. unfold same, outside_view in E. congruence.
Qed.
Lemma put_copies k c d : preserves copies (R2DocumentStorage.put_existing prefix k c d).
Proof.
  intros s. destruct (R2DocumentStorage.put_existing prefix k c d s) as [r s'] eqn:E. cbn. split.
  - intros k' c' Hk. destruct r as [size|e].
    + apply R2DocumentStorage.put_existing_run with (bucket := bucket) in E as (Hfree & _ & _ & Hothers); [|done].
      rewrite Hothers; [done|congruence].
    + apply R2DocumentStorage.put_existing_err with (bucket := bucket) in E; [|done].
      revert Hk. unfold R2DocumentStorage.held. by rewrite E.
  - revert E. assert (Hv : preserves (same outside_view) (R2DocumentStorage.put_existing prefix k c d)).
    { unfold R2DocumentStorage.put_existing. preserve. apply put_new_view. }
    intros E. apply (preserves_run _ _ _ _ _ Hv) in E. unfold same, outside_view in E. congruence.
Qed.
#[local] Hint Resolve get_copies put_copies : preserve.

Lemma get_ok_held k s c s' : R2DocumentStorage.get prefix k s = (Ok c, s') → held s' k = Some c.
Proof.
  intros E. pose proof (R2DocumentStorage.get_run _ _ _ _ _ _ E) as Hb. unfold R2DocumentStorage.held.
  rewrite Hb. unfold R2DocumentStorage.get in E.
  apply bind_ok in E as (u & s0 & [_ ->]%lift_ok & E).
  apply try_catch_ok in E as [Hget|(e & s1 & _ & Hh)]; [by apply get_ok in Hget|].
  destruct e; try done. by case_match.
Qed.

Lemma verified_copies k d e : preserves copies (verified_object R2_DOCUMENTS_PREFIX k d e).
Proof. unfold verified_object. preserve. Qed.
#[local] Hint Resolve verified_copies : preserve.
Lemma verified_holds k d e s c s' :
  verified_object R2_DOCUMENTS_PREFIX k d e s = (Ok c, s') → holds s' k d.
Proof.
  unfold verified_object. intros (c' & s1 & Hget & Hrun)%bind_ok.
  apply bind_ok in Hrun as (u & s2 & [Hd ->]%raise_if_ok & [= _ <-]).
  apply get_ok_held in Hget. exists c'. split; [done|].
  symmetry. by apply negb_false_iff, bool_decide_eq_true in Hd.
Qed.

Lemma move_copies item : preserves copies (move_object R2_DOCUMENTS_PREFIX item).
Proof. destruct item as (source & target & d). unfold move_object. preserve. Qed.
Lemma move_holds source target d s x s' :
  move_object R2_DOCUMENTS_PREFIX (source, (target, d)) s = (Ok x, s') → holds s' target d.
Proof.
  unfold move_object. intros (c & s1 & _ & Hrun)%bind_ok.
  apply bind_ok in Hrun as (u & s2 & _ & Hrun). apply bind_ok in Hrun as (c' & s3 & Hv & [= _ ->]).
  by apply verified_holds in Hv.
Qed.
Lemma moves_hold moves s copied s' :
  mapM (move_object R2_DOCUMENTS_PREFIX) (sorted_items moves) s = (Ok copied, s') →
  copies s s' ∧ ∀ source target d, In (source, (target, d)) moves → holds s' target d.
Proof.
  intros Hrun. split.
  { exact (preserves_run _ _ _ _ _ (preserves_mapM _ _ _ move_copies) Hrun). }
  apply (mapM_ok_all copies _ (λ item _ s, holds s item.2.1 item.2.2)) in Hrun.
  - intros source target d Hin%sorted_items_in. apply list_elem_of_In in Hin.
    apply (Forall2_Forall_l _ (λ item, holds s' item.2.1 item.2.2) _ _) in Hrun.
    + rewrite Forall_forall in Hrun. exact (Hrun _ Hin).
    + apply Forall_true. by intros.
  - apply move_copies.
  - intros (source & target & d) s0 b s1 _. apply move_holds.
  - intros a b s0 s1. apply copies_holds.
Qed.
End objects.

(** ** The rows *)
Definition document_rows (s : Core) := live (Db.documents (Core.db s)).

Lemma consistent_versions s : consistent s → settled_table (Db.document_versions (Core.db s)).
Proof.
  intros Hs. split.
  - destruct Hs as [Hc _]. unfold clean_db in Hc. unfold clean.
    destruct (Core.db s) as [? ? ? ? ? ? []]. cbn in *. by injection Hc.
  - apply primary_key_distinct. destruct (schema_parts s Hs) as (_ & _ & _ & _ & _ & Hok & _).
    unfold documents_ok in Hok. rewrite !andb_true_iff in Hok. naive_solver.
Qed.
Lemma consistent_documents s : consistent s → settled_table (Db.documents (Core.db s)).
Proof. intros Hs. apply (consistent_settled s Hs). Qed.
Lemma consistent_requests s : consistent s → settled_table (Db.signature_requests (Core.db s)).
Proof. intros Hs. apply (consistent_settled s Hs). Qed.
Lemma consistent_signatures s : consistent s → settled_table (Db.signatures (Core.db s)).
Proof. intros Hs. apply (consistent_settled s Hs). Qed.

Lemma recorded_same_row {R} `{Entity R} (l : list R) x y :
  keys_distinct l → In x l → In y l → ent_id x = ent_id y → x = y.
Proof.
  intros Hd Hx Hy E. pose proof (find_row_in l x Hd Hx) as Ex.
  rewrite E, (find_row_in l y Hd Hy) in Ex. congruence.
Qed.
Lemma in_of_map {A B} (f : A → B) l l' x : map f l' = map f l → In x l' → ∃ y, In y l ∧ f y = f x.
Proof. intros E Hx. apply (in_map f) in Hx. rewrite E in Hx. apply in_map_iff in Hx. naive_solver. Qed.
Lemma distinct_of_map {R B} `{Entity R} (f : R → N * B) l l' :
  (∀ r, (f r).1 = ent_id r) → map f l' = map f l → keys_distinct l → keys_distinct l'.
Proof.
  intros Hf E. unfold keys_distinct.
  assert (Hm : ∀ l, map ent_id l = map fst (map f l)).
  { intros k. rewrite map_map. apply map_ext. intros r. by rewrite Hf. }
  by rewrite !Hm, E.
Qed.
Lemma alter_rows_map {R B} `{Entity R} (f : R → B) (g : R → R) k l :
  (∀ r, In r l → ent_id r = k → f (g r) = f r) → map f (alter_rows g k l) = map f l.
Proof.
  intros Hf. unfold alter_rows. rewrite map_map. apply map_ext_in. intros r Hr.
  destruct (has_id k r) eqn:E; [|done]. apply has_id_true in E. by apply Hf.
Qed.

(** The keys of the rows. *)
Definition recorded_keys (s : Core) : list string :=
  map Version.storage_key (version_rows s) ++ omap Signature.artifact_storage_key (signature_rows s) ++
  map Document.storage_key (document_rows s).

(** What a reference repeats of its row. *)
Definition points (s : Core) (r : reference) : Prop :=
  match ref_entity r with
  | VersionKey k => ∃ v, In v (version_rows s) ∧ Version.id v = k ∧ ref_digest r = Some (Version.sha256 v)
  | ArtifactKey k => ∃ g, In g (signature_rows s) ∧ Signature.id g = k ∧ ref_digest r = Signature.artifact_sha256 g
  end.
Definition version_terms (v : Version.DocumentVersionEntity) :=
  (Version.id v, (Version.document_id v, Version.sha256 v)).
Definition artifact_terms (g : Signature.SignatureEntity) :=
  (Signature.id g, (artifacts g, Signature.artifact_sha256 g)).
Definition document_terms (d : Document.DocumentEntity) := (Document.id d, Document.sha256 d).

Section recorded.
Context `{Env} `{S3Client} (bucket : Core → string → option string) `{!S3ClientLaws bucket}.
Variables (R2_DOCUMENTS_PREFIX : string) (uuid5_url : string → N).
Abbreviation held := (R2DocumentStorage.held bucket (r2_prefix R2_DOCUMENTS_PREFIX)).
Abbreviation holds := (holds bucket R2_DOCUMENTS_PREFIX).
Abbreviation copies := (copies bucket R2_DOCUMENTS_PREFIX).
Implicit Types s : Core.

(** Every key the database records has its object, with the digest recorded
    beside it; the key of a document is that of one of its versions. *)
Record objects_recorded (s : Core) : Prop := mkRecorded {
  versions_hold : ∀ v, In v (version_rows s) → holds s (Version.storage_key v) (Some (Version.sha256 v));
  artifacts_hold : ∀ g k, In g (signature_rows s) → Signature.artifact_storage_key g = Some k →
                   holds s k (Signature.artifact_sha256 g);
  documents_follow : ∀ d, In d (document_rows s) → ∃ v, In v (version_rows s) ∧
    Version.document_id v = Document.id d ∧ Version.storage_key v = Document.storage_key d ∧
    Version.sha256 v = Document.sha256 d
}.

Lemma recorded_copies s s' : copies s s' → objects_recorded s → objects_recorded s'.
Proof.
  intros Hc [Hv Hg Hd]. pose proof Hc as [_ E].
  split; unfold version_rows, signature_rows, document_rows; rewrite E; [..|exact Hd].
  - intros v Hin. by eapply copies_holds, Hv.
  - intros g k Hin Hk. eapply copies_holds; [exact Hc|]. by apply Hg.
Qed.

(** ** Planning *)
Lemma current_version s v :
  keys_distinct (version_rows s) → In v (version_rows s) →
  current_key (VersionKey (Version.id v)) s = (Ok (Version.storage_key v), s).
Proof.
  intros Hd Hin. cbn. rewrite (bind_step_ok _ _ s v s); [done|].
  apply deref_ok. split; [|done]. exact (find_row_in _ _ Hd Hin).
Qed.
Lemma current_artifact s g k :
  keys_distinct (signature_rows s) → In g (signature_rows s) → Signature.artifact_storage_key g = Some k →
  current_key (ArtifactKey (Signature.id g)) s = (Ok k, s).
Proof.
  intros Hd Hin Hk. cbn. rewrite (bind_step_ok _ _ s g s); [by rewrite Hk|].
  apply deref_ok. split; [|done]. exact (find_row_in _ _ Hd Hin).
Qed.
Lemma current_same e : preserves (same (λ s : Core, s)) (current_key e).
Proof. unfold current_key. preserve. Qed.

(** What a reference names now is what its digest was recorded for. *)
Lemma points_held s r source s' :
  keys_distinct (version_rows s) → keys_distinct (signature_rows s) → objects_recorded s →
  points s r → current_key (ref_entity r) s = (Ok source, s') → holds s source (ref_digest r).
Proof.
  intros Dv Dg [Hv Hg _] Hp Hrun. unfold points in Hp. destruct (ref_entity r).
  - destruct Hp as (v & Hin & <- & ->). rewrite (current_version s v Dv Hin) in Hrun.
    injection Hrun as <- _. by apply Hv.
  - destruct Hp as (g & Hin & <- & ->). cbn in Hrun.
    apply bind_ok in Hrun as (g' & s1 & [Hf ->]%deref_ok & Hk).
    apply some_or_ok in Hk as [Hk _]. apply find_row_some in Hf as [Hin' E].
    assert (g' = g) as -> by (by apply (recorded_same_row _ _ _ Dg)). by apply Hg.
Qed.

Lemma plan_move_ok moves r s moves' s' :
  plan_move moves r s = (Ok moves', s') →
  s' = s ∧ (∀ k x, dget k moves = Some x → dget k moves' = Some x) ∧
  ∃ source, current_key (ref_entity r) s = (Ok source, s) ∧
    (source = ref_target r ∨ dget source moves' = Some (ref_target r, ref_digest r)).
Proof.
  unfold plan_move. intros (source & s1 & Hk & Hrun)%bind_ok.
  assert (s1 = s) as -> by exact (preserves_run _ _ _ _ _ (current_same _) Hk).
  destruct (String.eqb_spec source (ref_target r)) as [E|_].
  { injection Hrun as <- <-. split_and!; [done..|]. exists source. auto. }
  apply bind_ok in Hrun as (u & s2 & [Hc ->]%raise_if_ok & [= <- <-]). split_and!; [done| |].
  - intros k x Hx. destruct (decide (source = k)) as [->|Hne]; [|by rewrite dget_set_ne].
    rewrite Hx in Hc. apply negb_false_iff, bool_decide_eq_true in Hc as ->. apply dget_set.
  - exists source. split; [done|]. right. apply dget_set.
Qed.
Lemma plan_moves_ok refs moves s moves' s' :
  plan_moves moves refs s = (Ok moves', s') →
  s' = s ∧ (∀ k x, dget k moves = Some x → dget k moves' = Some x) ∧
  ∀ r, In r refs → ∃ source, current_key (ref_entity r) s = (Ok source, s) ∧
    (source = ref_target r ∨ dget source moves' = Some (ref_target r, ref_digest r)).
Proof.
  revert moves. induction refs as [|r refs IH]; intros moves Hrun; cbn in Hrun.
  { injection Hrun as <- <-. split_and!; [done..|by intros ? []]. }
  apply bind_ok in Hrun as (moves1 & s1 & Hr & Hrun).
  apply plan_move_ok in Hr as (-> & Hkeep1 & source & Hs & Hm).
  apply IH in Hrun as (-> & Hkeep & Hall). split_and!; [done|auto|].
  intros r' [<-|Hin]; [|by apply Hall]. exists source. split; [done|]. destruct Hm; auto.
Qed.

Lemma plan_moves_same refs moves : preserves (same (λ s : Core, s)) (plan_moves moves refs).
Proof.
  revert moves. induction refs as [|r refs IH]; intros moves; cbn; [preserve|].
  apply preserves_bind; [apply _| |done]. unfold plan_move.
  apply preserves_bind; [apply _|apply current_same|intros source]. preserve.
Qed.

(** After the copies, every reference has its object where it is to point. *)
Lemma targets_hold refs moves s s' s3 :
  keys_distinct (version_rows s) → keys_distinct (signature_rows s) → objects_recorded s →
  (∀ r, In r refs → points s r) → plan_moves [] refs s = (Ok moves, s') → copies s s3 →
  (∀ source target d, In (source, (target, d)) moves → holds s3 target d) →
  ∀ r, In r refs → holds s3 (ref_target r) (ref_digest r).
Proof.
  intros Dv Dg Hrec Hp Hplan Hc Hm r Hin.
  apply plan_moves_ok in Hplan as (_ & _ & Hall). destruct (Hall r Hin) as (source & Hs & [E|Hd]).
  - rewrite <- E. eapply copies_holds; [exact Hc|]. by eapply points_held; [..|by apply Hp|].
  - by eapply Hm, dget_in.
Qed.

Lemma version_reference_ok members documents v s r s' :
  version_reference uuid5_url members documents v s = (Ok r, s') →
  ref_entity r = VersionKey (Version.id v) ∧ ref_digest r = Some (Version.sha256 v) ∧
  starts_with "tenants/" (ref_target r) = true ∧
  (starts_with "tenants/" (Version.storage_key v) = true → ref_target r = Version.storage_key v).
Proof.
  unfold version_reference. intros (d & s1 & _ & [= <- _])%bind_ok. cbn.
  split_and!; [done..|apply target_of_a_tenant|apply target_kept].
Qed.
Lemma artifact_reference_ok members documents requests g s r s' :
  artifact_reference uuid5_url members documents requests g s = (Ok r, s') →
  ref_entity r = ArtifactKey (Signature.id g) ∧ ref_digest r = Signature.artifact_sha256 g ∧
  starts_with "tenants/" (ref_target r) = true ∧
  (∀ k, Signature.artifact_storage_key g = Some k → starts_with "tenants/" k = true → ref_target r = k).
Proof.
  unfold artifact_reference. intros (q & s1 & _ & Hrun)%bind_ok.
  apply bind_ok in Hrun as (d & s2 & _ & Hrun).
  apply bind_ok in Hrun as (k & s3 & [Hk _]%some_or_ok & [= <- _]).
  cbn. split_and!; [done..|apply target_of_a_tenant|]. intros k' Hk'. rewrite Hk in Hk'.
  injection Hk' as <-. apply target_kept.
Qed.

(** A key below the prefix of a tenant is to stay. *)
Definition stays (s : Core) (r : reference) : Prop :=
  match ref_entity r with
  | VersionKey k => ∃ v, In v (version_rows s) ∧ Version.id v = k ∧
      (starts_with "tenants/" (Version.storage_key v) = true → ref_target r = Version.storage_key v)
  | ArtifactKey k => ∃ g key, In g (signature_rows s) ∧ Signature.id g = k ∧
      Signature.artifact_storage_key g = Some key ∧
      (starts_with "tenants/" key = true → ref_target r = key)
  end.

(** The references of all rows. *)
Record planned (s : Core) (refs : list reference) : Prop := mkPlanned {
  planned_points : ∀ r, In r refs → points s r;
  planned_targets : ∀ r, In r refs → starts_with "tenants/" (ref_target r) = true;
  planned_places : ∀ r, In r refs → stays s r;
  planned_versions : ∀ v, In v (version_rows s) → ∃ r, In r refs ∧ ref_entity r = VersionKey (Version.id v);
  planned_artifacts : ∀ g k, In g (signature_rows s) → Signature.artifact_storage_key g = Some k →
    ∃ r, In r refs ∧ ref_entity r = ArtifactKey (Signature.id g)
}.
Lemma references_planned members documents requests s vs gs s1 s2 :
  mapM (version_reference uuid5_url members documents) (version_rows s) s = (Ok vs, s1) →
  mapM (artifact_reference uuid5_url members documents requests)
    (List.filter artifacts (signature_rows s)) s1 = (Ok gs, s2) →
  s2 = s ∧ planned s (vs ++ gs).
Proof.
  intros Hv Hg.
  assert (Pv : ∀ v, preserves (same (λ s : Core, s)) (version_reference uuid5_url members documents v))
    by (intros v; unfold version_reference, by_id; preserve).
  assert (Pg : ∀ g, preserves (same (λ s : Core, s)) (artifact_reference uuid5_url members documents requests g))
    by (intros g; unfold artifact_reference, by_id; preserve).
  assert (s1 = s) as -> by exact (preserves_run _ _ _ _ _ (preserves_mapM _ _ _ Pv) Hv).
  assert (s2 = s) as -> by exact (preserves_run _ _ _ _ _ (preserves_mapM _ _ _ Pg) Hg).
  pose proof (mapM_ok_all _ _ (λ v r _, _) _ _ _ _ Pv (λ v s1 r s2 _, version_reference_ok members documents v s1 r s2)
    (λ _ _ _ _ _ H, H) Hv) as Fv. cbn in Fv.
  pose proof (mapM_ok_all _ _ (λ g r _, _) _ _ _ _ Pg (λ g s1 r s2 _, artifact_reference_ok members documents requests g s1 r s2)
    (λ _ _ _ _ _ H, H) Hg) as Fg. cbn in Fg.
  split; [done|]. split.
  - intros r [Hin|Hin]%in_app_iff; unfold points.
    + destruct (forall2_right _ _ _ _ Fv Hin) as (v & Hv' & -> & Ed & _). by exists v.
    + destruct (forall2_right _ _ _ _ Fg Hin) as (g & [Hg' _]%filter_In & -> & Ed & _). by exists g.
  - intros r [Hin|Hin]%in_app_iff.
    + by destruct (forall2_right _ _ _ _ Fv Hin) as (v & _ & _ & _ & ? & _).
    + by destruct (forall2_right _ _ _ _ Fg Hin) as (g & _ & _ & _ & ? & _).
  - intros r [Hin|Hin]%in_app_iff; unfold stays.
    + destruct (forall2_right _ _ _ _ Fv Hin) as (v & Hv' & -> & _ & _ & Hs). by exists v.
    + destruct (forall2_right _ _ _ _ Fg Hin) as (g & [Hg' Ha]%filter_In & -> & _ & _ & Hs).
      unfold artifacts in Ha. destruct (Signature.artifact_storage_key g) as [key|] eqn:Ek; [|done].
      exists g, key. by split_and!; [..|apply Hs].
  - intros v Hin. destruct (forall2_left _ _ _ _ Fv Hin) as (r & Hr & E & _).
    exists r. split; [|done]. apply in_app_iff. by left.
  - intros g k Hin Hk. assert (Hin' : In g (List.filter artifacts (signature_rows s))).
    { apply filter_In. split; [done|]. unfold artifacts. by rewrite Hk. }
    destruct (forall2_left _ _ _ _ Fg Hin') as (r & Hr & E & _).
    exists r. split; [|done]. apply in_app_iff. by right.
Qed.

(** ** Pointing the rows at the copies *)
Record repointed (s0 : Core) (handled : list reference_entity) (s : Core) : Prop := mkRepointed {
  rp_objects : Core.objects s = Core.objects s0;
  rp_versions : map version_terms (version_rows s) = map version_terms (version_rows s0);
  rp_artifacts : map artifact_terms (signature_rows s) = map artifact_terms (signature_rows s0);
  rp_documents : map document_terms (document_rows s) = map document_terms (document_rows s0);
  rp_recorded : objects_recorded s;
  rp_handled_versions : ∀ v, In v (version_rows s) → VersionKey (Version.id v) ∈ handled →
    starts_with "tenants/" (Version.storage_key v) = true;
  rp_handled_artifacts : ∀ g k, In g (signature_rows s) → ArtifactKey (Signature.id g) ∈ handled →
    Signature.artifact_storage_key g = Some k → starts_with "tenants/" k = true
}.

(** The change of one version and of the document that shows it. *)
Definition repointed_version (s : Core) (v : Version.DocumentVersionEntity) (target : string) (s' : Core) :=
  version_rows s' = alter_rows (λ v, v <| Version.storage_key := target |>) (Version.id v) (version_rows s) ∧
  signature_rows s' = signature_rows s ∧ Core.objects s' = Core.objects s ∧
  map document_terms (document_rows s') = map document_terms (document_rows s) ∧
  ∀ d', In d' (document_rows s') → ∃ d, In d (document_rows s) ∧
    ((d' = d ∧ (Document.id d = Version.document_id v → Document.storage_key d ≠ Version.storage_key v)) ∨
     (d' = d <| Document.storage_key := target |> ∧ Document.id d = Version.document_id v ∧
      Document.storage_key d = Version.storage_key v)).

Lemma repoint_version documents k digest target s u s' :
  keys_distinct (document_rows s) →
  repoint documents (mkReference (VersionKey k) digest target) s = (Ok u, s') →
  ∃ v, In v (version_rows s) ∧ Version.id v = k ∧
    ((Version.storage_key v = target ∧ s' = s) ∨ repointed_version s v target s').
Proof.
  intros Dd. unfold repoint. cbn [ref_entity ref_target current_key]. intros (old & s1 & Hk & Hrun)%bind_ok.
  apply bind_ok in Hk as (v & s2 & [Hf ->]%deref_ok & [= <- <-]).
  pose proof (find_row_some _ _ _ Hf) as [Hin E]. exists v. split_and!; [done..|].
  destruct (String.eqb_spec (Version.storage_key v) target) as [Et|Ht].
  { injection Hrun as _ <-. by left. }
  right. apply bind_ok in Hrun as (u1 & s2 & Ha & Hrun). apply modify_ok in Ha as ->.
  apply bind_ok in Hrun as (v' & s3 & [Hf' ->]%deref_ok & Hrun).
  change (find_row k (alter_rows (λ v, v <| Version.storage_key := target |>) k (version_rows s)) = Some v') in Hf'.
  rewrite (find_row_alter (λ v, v <| Version.storage_key := target |>)) in Hf' by done.
  change (find_row k (version_rows s) = Some v) in Hf. rewrite Hf in Hf'. injection Hf' as <-.
  apply bind_ok in Hrun as (found & s4 & [Hfd ->]%some_or_ok & Hrun). cbn in Hfd.
  apply find_row_some in Hfd as [_ Efd].
  apply bind_ok in Hrun as (d & s5 & [Hd ->]%deref_ok & Hrun). cbn in Hd.
  apply find_row_some in Hd as [Hdin Ed]. change (In d (document_rows s)) in Hdin.
  assert (Eid : Document.id d = Version.document_id v) by exact (eq_trans Ed Efd). subst k.
  assert (Huniq : ∀ d', In d' (document_rows s) → Document.id d' = Document.id d → d' = d)
    by (intros d' Hd' E; by apply (recorded_same_row _ _ _ Dd)).
  destruct (String.eqb_spec (Document.storage_key d) (Version.storage_key v)) as [Es|Es]; cbn [when] in Hrun.
  - apply modify_ok in Hrun as ->. split_and!; [done..| |].
    + apply (alter_rows_map document_terms). done.
    + intros d' Hd'. apply in_alter_rows in Hd' as (y & Hy & ->). exists y. split; [exact Hy|].
      destruct (has_id (Document.id d) y) eqn:Ey.
      * apply has_id_true in Ey. apply Huniq in Ey as ->; [|exact Hy]. auto.
      * apply has_id_false in Ey. left. split; [done|]. intros E. destruct Ey. unfold ent_id, Document.DocumentEntity_entity. congruence.
  - injection Hrun as _ <-. split_and!; [done..|].
    intros d' Hd'. exists d'. split; [exact Hd'|]. left. split; [done|]. intros E.
    rewrite (Huniq d'); [done|exact Hd'|congruence].
Qed.

Lemma version_recorded s v target s' :
  keys_distinct (version_rows s) → In v (version_rows s) → objects_recorded s →
  holds s target (Some (Version.sha256 v)) → repointed_version s v target s' → objects_recorded s'.
Proof.
  intros Dv Hin [Hv Hg Hd] Ht (Ev & Eg & Eo & _ & Ed).
  assert (Hh : ∀ k d, holds s k d → holds s' k d).
  { intros k d (c & Hc & E). exists c. by rewrite (held_objects bucket _ _ _ _ Eo). }
  assert (Hrow : In (v <| Version.storage_key := target |>) (version_rows s')).
  { rewrite Ev. apply in_alter_rows. exists v. split; [done|].
    by rewrite (proj2 (has_id_true _ _)). }
  split.
  - intros v' Hv'. rewrite Ev in Hv'. apply in_alter_rows in Hv' as (y & Hy & ->). apply Hh.
    destruct (has_id (Version.id v) y) eqn:E; [|by apply Hv].
    apply has_id_true in E. rewrite (recorded_same_row _ _ _ Dv Hy Hin E). exact Ht.
  - intros g k. rewrite Eg. intros Hin' Hk. apply Hh. by apply Hg.
  - intros d' Hd'. destruct (Ed d' Hd') as (d & Hind & Hcase).
    destruct (Hd d Hind) as (w & Hw & Ew & Ek & Es). destruct Hcase as [[-> Hne]|(-> & Eid & Ekey)].
    + assert (Hwv : Version.id w ≠ Version.id v).
      { intros E. assert (w = v) as -> by (by apply (recorded_same_row _ _ _ Dv)). by destruct Hne. }
      exists w. split_and!; [|done..]. rewrite Ev. apply in_alter_rows. exists w. split; [done|].
      by rewrite (proj2 (has_id_false _ _)).
    + exists (v <| Version.storage_key := target |>). split_and!; [done..|]. cbn. rewrite <- Es.
      pose proof (Hv w Hw) as H1. rewrite Ek, Ekey in H1.
      pose proof (recorded_holds_same _ _ _ _ _ _ H1 (Hv v Hin)). congruence.
Qed.

Definition repointed_artifact (s : Core) (k : N) (target : string) (s' : Core) :=
  (∃ g, In g (signature_rows s) ∧ Signature.id g = k ∧ artifacts g = true) ∧
  signature_rows s' =
    alter_rows (λ g, g <| Signature.artifact_storage_key := Some target |>) k (signature_rows s) ∧
  version_rows s' = version_rows s ∧ document_rows s' = document_rows s ∧
  Core.objects s' = Core.objects s.
Lemma repoint_artifact documents k digest target s u s' :
  repoint documents (mkReference (ArtifactKey k) digest target) s = (Ok u, s') →
  (s' = s ∧ ∃ g, In g (signature_rows s) ∧ Signature.id g = k ∧
               Signature.artifact_storage_key g = Some target) ∨
  repointed_artifact s k target s'.
Proof.
  unfold repoint. cbn [ref_entity ref_target current_key]. intros (old & s1 & Hk & Hrun)%bind_ok.
  apply bind_ok in Hk as (g & s2 & [Hf ->]%deref_ok & [Ho <-]%some_or_ok).
  destruct (String.eqb_spec old target) as [->|_].
  - injection Hrun as _ <-. left. split; [done|]. exists g.
    pose proof (find_row_some _ _ _ Hf) as [Hin E]. done.
  - right. apply modify_ok in Hrun as ->. split; [|done]. exists g.
    pose proof (find_row_some _ _ _ Hf) as [Hin E]. split_and!; [done..|]. unfold artifacts. by rewrite Ho.
Qed.

Lemma artifact_recorded s k target s' :
  (∀ g, In g (signature_rows s) → Signature.id g = k → holds s target (Signature.artifact_sha256 g)) →
  objects_recorded s → repointed_artifact s k target s' → objects_recorded s'.
Proof.
  intros Ht [Hv Hg Hd] (_ & Eg & Ev & Ed & Eo).
  assert (Hh : ∀ k d, holds s k d → holds s' k d).
  { intros k' d (c & Hc & E). exists c. by rewrite (held_objects bucket _ _ _ _ Eo). }
  split.
  - intros v. rewrite Ev. intros Hin. by apply Hh, Hv.
  - intros g k'. rewrite Eg. intros (y & Hy & ->)%in_alter_rows Hk'. apply Hh.
    destruct (has_id k y) eqn:E; [|by apply Hg].
    apply has_id_true in E. cbn in *. injection Hk' as <-. by apply Ht.
  - rewrite Ev, Ed. exact Hd.
Qed.

(** The digest a reference repeats is still that of its row. *)
Lemma same_digest s0 handled s : repointed s0 handled s →
  (∀ v v0, In v (version_rows s) → In v0 (version_rows s0) → keys_distinct (version_rows s) →
     Version.id v = Version.id v0 → Version.sha256 v = Version.sha256 v0) ∧
  (∀ g g0, In g (signature_rows s) → In g0 (signature_rows s0) → keys_distinct (signature_rows s) →
     Signature.id g = Signature.id g0 → Signature.artifact_sha256 g = Signature.artifact_sha256 g0).
Proof.
  intros [_ Ev Eg _ _ _ _]. split.
  - intros v v0 Hv Hv0 Dv E. destruct (in_of_map version_terms _ _ _ (eq_sym Ev) Hv0) as (w & Hw & E').
    unfold version_terms in E'. injection E' as E1 _ E2.
    rewrite (recorded_same_row _ v w Dv Hv Hw); [done|]. exact (eq_trans E (eq_sym E1)).
  - intros g g0 Hg Hg0 Dg E. destruct (in_of_map artifact_terms _ _ _ (eq_sym Eg) Hg0) as (w & Hw & E').
    unfold artifact_terms in E'. injection E' as E1 _ E2.
    rewrite (recorded_same_row _ g w Dg Hg Hw); [done|]. exact (eq_trans E (eq_sym E1)).
Qed.

Lemma repoint_version_step documents s0 handled s k digest target u s' :
  keys_distinct (version_rows s) → keys_distinct (document_rows s) → repointed s0 handled s →
  points s0 (mkReference (VersionKey k) digest target) → holds s target digest →
  starts_with "tenants/" target = true →
  repoint documents (mkReference (VersionKey k) digest target) s = (Ok u, s') →
  repointed s0 (VersionKey k :: handled) s'.
Proof.
  intros Dv Dd Hrp (v0 & Hin0 & Eid & Edig) Ht Hpre Hrun. cbn in Edig. subst digest.
  destruct (repoint_version _ _ _ _ _ _ _ Dd Hrun) as (v & Hin & <- & Hcase).
  rewrite <- (proj1 (same_digest _ _ _ Hrp) v v0 Hin Hin0 Dv (eq_sym Eid)) in Ht.
  destruct Hrp as [Eo Ev Eg Ed Hrec Hhv Hhg]. destruct Hcase as [[Ekey ->]|Hc].
  { split; [done..| |].
    - intros w Hw [E|Hin']%elem_of_cons; [|by apply Hhv].
      injection E as E. rewrite (recorded_same_row _ w v Dv Hw Hin E). by rewrite Ekey.
    - intros g k' Hg [E|Hin']%elem_of_cons; [done|by eapply Hhg]. }
  pose proof (version_recorded _ _ _ _ Dv Hin Hrec Ht Hc) as Hrec'.
  destruct Hc as (Ev' & Eg' & Eo' & Ed' & _). split; [congruence| |congruence|congruence|done| |].
  - rewrite Ev', (alter_rows_map version_terms); done.
  - intros w Hw Hin'. rewrite Ev' in Hw. apply in_alter_rows in Hw as (y & Hy & ->).
    destruct (has_id (Version.id v) y) eqn:E; [exact Hpre|]. apply Hhv; [done|].
    apply has_id_false in E. apply elem_of_cons in Hin' as [E'|]; [|done].
    injection E' as E'. by destruct E.
  - rewrite Eg'. intros g k' Hg [E|Hin']%elem_of_cons; [done|by eapply Hhg].
Qed.

Lemma repoint_artifact_step documents s0 handled s k digest target u s' :
  keys_distinct (signature_rows s) → repointed s0 handled s →
  points s0 (mkReference (ArtifactKey k) digest target) → holds s target digest →
  starts_with "tenants/" target = true →
  repoint documents (mkReference (ArtifactKey k) digest target) s = (Ok u, s') →
  repointed s0 (ArtifactKey k :: handled) s'.
Proof.
  intros Dg Hrp (g0 & Hin0 & Eid & Edig) Ht Hpre Hrun. cbn in Edig. subst digest k.
  pose proof (proj2 (same_digest _ _ _ Hrp)) as Hsha. destruct Hrp as [Eo Ev Eg Ed Hrec Hhv Hhg].
  destruct (repoint_artifact _ _ _ _ _ _ _ Hrun) as [(-> & g & Hin & Eg1 & Ekey)|Hc].
  { split; [done..| |].
    - intros v Hv [E|Hin']%elem_of_cons; [done|by apply Hhv].
    - intros g' k' Hg' [E|Hin']%elem_of_cons Hk'; [|by eapply Hhg].
      injection E as E. rewrite (recorded_same_row _ g' g Dg Hg' Hin) in Hk'; [congruence|].
      exact (eq_trans E (eq_sym Eg1)). }
  assert (Hrec' : objects_recorded s').
  { eapply artifact_recorded; [|exact Hrec|exact Hc]. intros g Hg E. by rewrite (Hsha g g0 Hg Hin0 Dg E). }
  destruct Hc as ((g1 & Hg1 & Ek & Ea) & Eg' & Ev' & Ed' & Eo').
  split; [congruence|congruence| |congruence|done| |].
  - rewrite Eg', (alter_rows_map artifact_terms); [done|]. intros y Hy E.
    rewrite (recorded_same_row _ y g1 Dg Hy Hg1) by exact (eq_trans E (eq_sym Ek)).
    unfold artifact_terms. by rewrite Ea.
  - rewrite Ev'. intros v Hv [E|Hin']%elem_of_cons; [done|by apply Hhv].
  - rewrite Eg'. intros g k' (y & Hy & ->)%in_alter_rows Hin' Hk'.
    destruct (has_id _ y) eqn:E; [by injection Hk' as <-|]. eapply Hhg; [exact Hy| |exact Hk'].
    apply has_id_false in E. apply elem_of_cons in Hin' as [E'|]; [|done].
    injection E' as E'. by destruct E.
Qed.

Lemma repoint_all documents s0 refs handled s u s' :
  keys_distinct (version_rows s0) → keys_distinct (signature_rows s0) →
  keys_distinct (document_rows s0) →
  (∀ r, In r refs → points s0 r ∧ holds s0 (ref_target r) (ref_digest r) ∧
                     starts_with "tenants/" (ref_target r) = true) →
  repointed s0 handled s → for_each (repoint documents) refs s = (Ok u, s') →
  repointed s0 (rev (map ref_entity refs) ++ handled) s'.
Proof.
  intros Dv Dg Dd. revert handled s. induction refs as [|r refs IH]; intros handled s Hall Hrp Hrun.
  { by injection Hrun as _ <-. }
  cbn in Hrun. apply bind_ok in Hrun as (u1 & s1 & Hr & Hrun).
  destruct (Hall r) as (Hp & Ht & Hpre); [by left|].
  assert (Ht' : holds s (ref_target r) (ref_digest r)).
  { destruct Ht as (c & Hc & E). exists c. by rewrite (held_objects bucket _ _ _ _ (rp_objects _ _ _ Hrp)). }
  assert (Hrp1 : repointed s0 (ref_entity r :: handled) s1).
  { pose proof Hrp as [_ Ev Eg Ed _ _ _].
    apply (distinct_of_map version_terms _ _ (λ _, eq_refl) Ev) in Dv.
    apply (distinct_of_map artifact_terms _ _ (λ _, eq_refl) Eg) in Dg.
    apply (distinct_of_map document_terms _ _ (λ _, eq_refl) Ed) in Dd.
    destruct r as [[k|k] digest target];
      [by eapply repoint_version_step | by eapply repoint_artifact_step]. }
  cbn. rewrite <- app_assoc. eapply IH; [|exact Hrp1|exact Hrun]. intros r' Hin. apply Hall. by right.
Qed.

(** ** The command *)
Lemma candidates_flat refs keys item :
  In item (cleanup_candidates refs keys) → starts_with "tenants/" item.1 = false.
Proof.
  unfold cleanup_candidates.
  set (f := fun d r => _). enough (Hgen : ∀ d, (∀ x, In x d → starts_with "tenants/" x.1 = false) →
    ∀ x, In x (foldl f d refs) → starts_with "tenants/" x.1 = false) by by apply Hgen.
  induction refs as [|r refs IH]; intros d Hd x Hx; [by apply Hd|].
  cbn in Hx. eapply IH; [|exact Hx]. unfold f. destruct (_ && _); [|exact Hd].
  intros y Hy. apply dset_in in Hy as [[= ->]|Hy]; [apply legacy_is_flat|by apply Hd].
Qed.

(** The rows are about what is stored, below the prefix of the tenants. *)
Record relocated (s : Core) : Prop := mkRelocated {
  relocated_recorded : objects_recorded s;
  relocated_versions : ∀ v, In v (version_rows s) → starts_with "tenants/" (Version.storage_key v) = true;
  relocated_artifacts : ∀ g k, In g (signature_rows s) → Signature.artifact_storage_key g = Some k →
    starts_with "tenants/" k = true
}.

(** *** What the triggers of the stored versions and signatures leave of it *)
Definition stored_records (s : Core) :=
  (stored (Db.document_versions (Core.db s)), stored (Db.signatures (Core.db s))).
Lemma repoint_stored documents r : preserves (same stored_records) (repoint documents r).
Proof.
  unfold repoint, by_id. apply preserves_bind; [apply _| |intros old].
  { apply (preserves_mono (same (λ s : Core, s))); [by intros s s' ->|apply current_same]. }
  preserve; by apply preserves_modify.
Qed.

(** A row the triggers accept is the stored one. *)
Lemma kept_rows s s' : consistent s → stored_records s' = stored_records s →
  rubrica_reject_immutable_record_change (Core.db s') = false →
  (∀ v, In v (version_rows s) → In v (version_rows s')) ∧
  (∀ g, In g (signature_rows s) → In g (signature_rows s')).
Proof.
  intros Hs. unfold stored_records. intros [= Ev Eg] Hk. apply negb_false_iff in Hk.
  rewrite !andb_true_iff in Hk. destruct Hk as [[Kv Kg] _].
  destruct (consistent_versions s Hs) as [Cv _]. destruct (consistent_signatures s Hs) as [Cg _].
  unfold clean in Cv, Cg. unfold version_rows, signature_rows. rewrite <- Cv, <- Cg, <- Ev, <- Eg.
  split; intros x Hx.
  - by apply (append_only_row _ _ Kv), find_row_some in Hx as [Hx _].
  - by apply (append_only_row _ _ Kg), find_row_some in Hx as [Hx _].
Qed.

(** A reference that is where it is to be is left alone. *)
Lemma repoint_in_place documents refs s :
  (∀ r, In r refs → current_key (ref_entity r) s = (Ok (ref_target r), s)) →
  for_each (repoint documents) refs s = (Ok tt, s).
Proof.
  induction refs as [|r refs IH]; intros Hr; [done|]. cbn [for_each].
  rewrite (bind_step_ok _ _ s tt s); [apply IH; intros x Hx; apply Hr; by right|].
  unfold repoint. rewrite (bind_step_ok _ _ s (ref_target r) s) by (apply Hr; by left).
  by rewrite String.eqb_refl.
Qed.

(** A commit that the triggers accept changed no row: all rows were already below
    the prefixes. *)
Lemma commit_moves_nothing documents s refs s6 u s7 :
  consistent s → planned s refs → Core.db s6 = Core.db s →
  for_each (repoint documents) refs s6 = (Ok u, s7) → relocated s7 →
  rubrica_reject_immutable_record_change (Core.db s7) = false →
  s7 = s6 ∧ ∀ r, In r refs → In (ref_target r) (recorded_keys s).
Proof.
  intros Hs Hplan E6 Hall [_ Hv Hg] Hk.
  assert (Hst : stored_records s7 = stored_records s).
  { pose proof (preserves_run _ _ _ _ _ (preserves_for_each _ _ refs (repoint_stored documents)) Hall) as E.
    unfold same in E. rewrite E. unfold stored_records. by rewrite E6. }
  destruct (kept_rows s s7 Hs Hst Hk) as [Kv Kg].
  pose proof (consistent_versions s Hs) as [_ Dv]. pose proof (consistent_signatures s Hs) as [_ Dg].
  assert (Hrefs : ∀ r, In r refs → current_key (ref_entity r) s6 = (Ok (ref_target r), s6) ∧
                                 In (ref_target r) (recorded_keys s)).
  { intros r Hr. pose proof (planned_places _ _ Hplan r Hr) as Hst'. unfold recorded_keys.
    rewrite !in_app_iff. unfold stays in Hst'. destruct (ref_entity r).
    - destruct Hst' as (v & Hin & <- & ->); [|by apply Hv, Kv].
      split; [|left; by apply in_map]. apply current_version; unfold version_rows; rewrite E6; [exact Dv|exact Hin].
    - destruct Hst' as (g & key & Hin & <- & Hkey & ->); [|eapply Hg; [by apply Kg|exact Hkey]].
      split; [apply current_artifact; [..|exact Hkey]; unfold signature_rows; rewrite E6; [exact Dg|exact Hin]|].
      right. left. apply list_elem_of_In, list_elem_of_omap. exists g. by rewrite list_elem_of_In. }
  split; [|intros r Hr; by apply Hrefs].
  assert (E : for_each (repoint documents) refs s6 = (Ok tt, s6)); [|rewrite E in Hall; by injection Hall].
  apply repoint_in_place. intros r Hr. by apply Hrefs.
Qed.

(** A candidate has the name of an object that is referred to. *)
Lemma candidates_named refs keys item :
  In item (cleanup_candidates refs keys) → ∃ r, In r refs ∧ item.1 = last_segment (ref_target r).
Proof.
  unfold cleanup_candidates.
  set (f := fun d r => _). set (named := fun x : string * (string * option string) =>
    ∃ r, In r refs ∧ x.1 = last_segment (ref_target r)).
  enough (Hgen : ∀ l d, (∀ r, In r l → In r refs) → (∀ x, In x d → named x) →
    ∀ x, In x (foldl f d l) → named x) by (by apply Hgen; [|intros ? []]).
  induction l as [|r l IH]; intros d Hl Hd x Hx; [by apply Hd|]. cbn in Hx.
  eapply IH; [..|exact Hx]; [intros y Hy; apply Hl; by right|]. unfold f. destruct (_ && _); [|exact Hd].
  intros y Hy. apply dset_in in Hy as [->|Hy]; [|by apply Hd]. exists r. split; [apply Hl; by left|done].
Qed.

Definition body_outcome (s : Core) (apply : bool) (s1 : Core)
    (outcome : string * list (string * (string * option string)) * option (list (string * string))) : Prop :=
  (∀ item, In item outcome.1.2 → starts_with "tenants/" item.1 = false) ∧
  if apply then is_Some outcome.2 ∧ relocated s1 ∧
    (rubrica_reject_immutable_record_change (Core.db s1) = false → Core.db s1 = Core.db s ∧
     ∀ item, In item outcome.1.2 → ∃ k, In k (recorded_keys s) ∧ item.1 = last_segment k)
  else outcome.2 = None ∧ s1 = s.

Lemma handled_in (r : reference) refs e :
  In r refs → ref_entity r = e → e ∈ rev (map ref_entity refs).
Proof.
  intros Hin <-. apply list_elem_of_In, in_rev. rewrite rev_involutive. by apply in_map.
Qed.

(** Copying what was planned and pointing the rows at it. *)
Lemma moved_and_repointed documents refs moves copied s s6 u s7 :
  consistent s → objects_recorded s → planned s refs → plan_moves [] refs s = (Ok moves, s) →
  mapM (move_object R2_DOCUMENTS_PREFIX) (sorted_items moves) s = (Ok copied, s6) →
  for_each (repoint documents) refs s6 = (Ok u, s7) → relocated s7.
Proof.
  intros Hs Hrec Hplan Hmoves Hmove Hall.
  pose proof (consistent_versions s Hs) as Sv. pose proof (consistent_signatures s Hs) as Sg.
  destruct (moves_hold bucket _ _ _ _ _ Hmove) as [Hc Hheld]. pose proof Hc as [_ Edb].
  assert (Ev : version_rows s6 = version_rows s) by (unfold version_rows; by rewrite Edb).
  assert (Eg : signature_rows s6 = signature_rows s) by (unfold signature_rows; by rewrite Edb).
  assert (Ed : document_rows s6 = document_rows s) by (unfold document_rows; by rewrite Edb).
  assert (Hrefs : ∀ r, In r refs → points s6 r ∧ holds s6 (ref_target r) (ref_digest r) ∧
                       starts_with "tenants/" (ref_target r) = true).
  { intros r Hin. split_and!; [|by eapply targets_hold; [apply Sv|apply Sg|..]; try apply Hplan|by apply Hplan].
    pose proof (planned_points _ _ Hplan r Hin) as Hp. unfold points in *. by rewrite Ev, Eg. }
  assert (Hstart : repointed s6 [] s6).
  { split; [done..|by eapply recorded_copies| |].
    - intros v _ Hin. by apply elem_of_nil in Hin.
    - intros g k _ Hin. by apply elem_of_nil in Hin. }
  assert (D : keys_distinct (version_rows s6) ∧ keys_distinct (signature_rows s6) ∧
              keys_distinct (document_rows s6)).
  { rewrite Ev, Eg, Ed. split_and!; [apply Sv|apply Sg|by apply consistent_documents]. }
  destruct D as (Dv & Dg & Dd).
  destruct (repoint_all _ _ _ _ _ _ _ Dv Dg Dd Hrefs Hstart Hall) as [_ Tv Tg _ Hrec' Hhv Hhg].
  rewrite app_nil_r in Hhv, Hhg. split; [exact Hrec'| |].
  - intros v Hin. apply Hhv; [exact Hin|].
    destruct (in_of_map version_terms _ _ _ Tv Hin) as (v0 & Hin0 & E).
    unfold version_terms in E. injection E as Eid _ _. rewrite Ev in Hin0.
    destruct (planned_versions _ _ Hplan v0 Hin0) as (r & Hr & Er). apply (handled_in r); [done|congruence].
  - intros g k Hin Hk. eapply Hhg; [exact Hin| |exact Hk].
    destruct (in_of_map artifact_terms _ _ _ Tg Hin) as (g0 & Hin0 & E).
    unfold artifact_terms in E. injection E as Eid Ea _. rewrite Eg in Hin0.
    unfold artifacts in Ea. rewrite Hk in Ea.
    destruct (Signature.artifact_storage_key g0) as [k0|] eqn:Ek0; [|done].
    destruct (planned_artifacts _ _ Hplan g0 k0 Hin0 Ek0) as (r & Hr & Er). apply (handled_in r); [done|congruence].
Qed.

Lemma rows_run apply delete_source s outcome s1 :
  consistent s → objects_recorded s →
  reorganize_rows R2_DOCUMENTS_PREFIX uuid5_url apply delete_source s = (Ok outcome, s1) →
  body_outcome s apply s1 outcome.
Proof.
  intros Hs Hrec Hrun. unfold reorganize_rows in Hrun.
  pose proof (consistent_versions s Hs) as Sv. pose proof (consistent_documents s Hs) as Sd.
  pose proof (consistent_requests s Hs) as Sq. pose proof (consistent_signatures s Hs) as Sg.
  apply bind_ok in Hrun as (members & sm & Hm & Hrun). apply gets_ok in Hm as [_ ->].
  apply bind_ok in Hrun as (documents & sd & Hd & Hrun). apply scalars_settled in Hd as [-> ->]; [|exact Sd].
  apply bind_ok in Hrun as (versions & sv & Hv & Hrun). apply scalars_settled in Hv as [-> ->]; [|exact Sv].
  apply bind_ok in Hrun as (requests & sq & Hq & Hrun). apply scalars_settled in Hq as [-> ->]; [|exact Sq].
  apply bind_ok in Hrun as (signatures & sg & Hg & Hrun). apply scalars_settled in Hg as [-> ->]; [|exact Sg].
  cbv zeta in Hrun.
  apply bind_ok in Hrun as (vs & s2 & Hvs & Hrun). apply bind_ok in Hrun as (gs & s3 & Hgs & Hrun).
  assert (Ev : List.filter (λ _, true) (live (get_table s)) = version_rows s) by apply filter_every.
  rewrite Ev in Hvs. destruct (references_planned _ _ _ _ _ _ _ _ Hvs Hgs) as [-> Hplan].
  apply bind_ok in Hrun as (keys & s4 & Hkeys & Hrun).
  assert (s4 = s) as -> by exact (preserves_run _ _ _ _ _ (preserves_mapM _ _ _ (λ r, current_same _)) Hkeys).
  apply bind_ok in Hrun as (moves & s5 & Hmoves & Hrun).
  assert (s5 = s) as -> by by apply plan_moves_ok in Hmoves as (-> & _).
  destruct apply; cbn [negb] in Hrun.
  2:{ injection Hrun as <- <-. split; [apply candidates_flat|done]. }
  apply bind_ok in Hrun as (copied & s6 & Hmove & Hrun).
  apply bind_ok in Hrun as (u & s7 & Hall & [= <- <-]). split; [apply candidates_flat|].
  pose proof (moved_and_repointed _ _ _ _ _ _ _ _ Hs Hrec Hplan Hmoves Hmove Hall) as Hrel.
  split_and!; [by eexists|exact Hrel|]. intros Hk.
  destruct (moves_hold bucket _ _ _ _ _ Hmove) as [[_ E6] _].
  destruct (commit_moves_nothing _ _ _ _ _ _ Hs Hplan E6 Hall Hrel Hk) as [-> Hnamed].
  split; [done|]. intros item (r & Hr & E)%candidates_named. exists (ref_target r). auto.
Qed.

Definition rows_of (s : Core) := (version_rows s, signature_rows s, document_rows s).
(** The keys the rows name keep their objects. *)
Lemma recorded_view (P : string → Prop) s s' :
  rows_of s' = rows_of s →
  (∀ v, In v (version_rows s) → P (Version.storage_key v)) →
  (∀ g k, In g (signature_rows s) → Signature.artifact_storage_key g = Some k → P k) →
  (∀ k c, P k → held s k = Some c → held s' k = Some c) → objects_recorded s → objects_recorded s'.
Proof.
  unfold rows_of. intros [= Ev Eg Ed] Pv Pg Hk [Hv Hg Hd].
  split; rewrite ?Ev, ?Eg, ?Ed; [| |exact Hd].
  - intros v Hin. destruct (Hv v Hin) as (c & Hc & E). exists c. split; [|done]. apply Hk; auto.
  - intros g k Hin E. destruct (Hg g k Hin E) as (c & Hc & E'). exists c. split; [|done].
    apply Hk; [by eapply Pg|done].
Qed.

(** Only the given objects go. *)
Definition cleans (gone : list string) : relation Core := λ s s', Core.db s' = Core.db s ∧
  ∀ k c, k ∉ gone → held s k = Some c → held s' k = Some c.
#[local] Instance cleans_preorder gone : PreOrder (cleans gone).
Proof. split; [done|]. intros s1 s2 s3 [E1 K1] [E2 K2]. split; [congruence|auto]. Qed.

Lemma remove_cleans gone item :
  item.1 ∈ gone → preserves (cleans gone) (remove_source R2_DOCUMENTS_PREFIX item).
Proof.
  destruct item as (source & target & d). cbn [fst]. intros Hgone. unfold remove_source.
  apply preserves_bind; [apply _| |intros _].
  { apply (preserves_mono copies); [|apply verified_copies; apply _]. intros s s' [Hk E]. split; [done|auto]. }
  intros s. set (laws := R2DocumentStorage.storage_laws bucket (r2_prefix R2_DOCUMENTS_PREFIX)).
  pose proof (discard_outside (DocumentStorageLaws := laws) source s) as Hv.
  destruct (R2DocumentStorage.discard_uncommitted _ source s) as [r s'] eqn:E.
  pose proof (discard_only (DocumentStorageLaws := laws) source s r s' E) as Honly.
  unfold Storage.discard_uncommitted, R2DocumentStorage.storage in Hv. rewrite E in Hv.
  unfold same, outside_view in Hv. cbn in *. split; [congruence|].
  intros k c Hk. rewrite Honly; [done|]. by intros ->.
Qed.
Lemma cleanup_cleans gone items :
  (∀ item, In item items → item.1 ∈ gone) →
  preserves (cleans gone) (for_each (remove_source R2_DOCUMENTS_PREFIX) items).
Proof.
  induction items as [|item items IH]; intros Hgone; [apply preserves_ret; apply _|].
  apply preserves_bind; [apply _|apply remove_cleans, Hgone; by left|intros _].
  apply IH. intros x Hx. apply Hgone. by right.
Qed.

Lemma relocated_cleans gone s s' :
  (∀ k, k ∈ gone → starts_with "tenants/" k = false) → cleans gone s s' → relocated s → relocated s'.
Proof.
  intros Hflat [E Hk] [Hrec Hv Hg].
  assert (Er : rows_of s' = rows_of s)
    by (unfold rows_of, version_rows, signature_rows, document_rows; by rewrite E).
  split; [|unfold version_rows; by rewrite E|unfold signature_rows; by rewrite E].
  apply (recorded_view (λ k, starts_with "tenants/" k = true) s); auto.
  intros k c Hpre. apply Hk. intros Hin%Hflat. congruence.
Qed.

Lemma relocated_keys s k : relocated s → In k (recorded_keys s) → starts_with "tenants/" k = true.
Proof.
  intros [Hrec Hv Hg]. unfold recorded_keys. rewrite !in_app_iff.
  intros [Hin|[Hin|Hin]].
  - apply in_map_iff in Hin as (v & <- & Hin). by apply Hv.
  - apply list_elem_of_In, list_elem_of_omap in Hin as (g & Hin%list_elem_of_In & E). by eapply Hg.
  - apply in_map_iff in Hin as (d & <- & Hin).
    destruct (documents_follow _ Hrec d Hin) as (v & Hw & _ & <- & _). by apply Hv.
Qed.

(** The transaction only adds objects. *)
Definition adds : relation Core := λ s s', ∀ k c, held s k = Some c → held s' k = Some c.
#[local] Instance adds_preorder : PreOrder adds.
Proof. split; [by intros s k|]. intros s1 s2 s3 K1 K2 k c Hk. by apply K2, K1. Qed.
Lemma assign_adds {R} `{Entity R} `{HasTable Core R} k (f : R → R) :
  (∀ t s, Core.objects (put_table t s) = Core.objects s) → preserves adds (assign k f).
Proof.
  intros Ho. apply preserves_modify. intros s k' c Hk.
  rewrite <- Hk. apply held_objects; [apply _|]. apply Ho.
Qed.
Lemma quiet_adds {A} (m : M Core A) : preserves (same (λ s : Core, s)) m → preserves adds m.
Proof. apply preserves_mono. by intros s s' ->. Qed.
Lemma move_adds item : preserves adds (move_object R2_DOCUMENTS_PREFIX item).
Proof. apply (preserves_mono copies); [by intros s s' [Hk _]|by apply move_copies]. Qed.
Lemma repoint_adds documents r : preserves adds (repoint documents r).
Proof.
  unfold repoint, by_id. apply preserves_bind; [apply _|apply quiet_adds, current_same|intros old].
  preserve; by apply assign_adds.
Qed.
Lemma rows_add apply delete_source :
  preserves adds (reorganize_rows R2_DOCUMENTS_PREFIX uuid5_url apply delete_source).
Proof.
  unfold reorganize_rows. preserve.
  - apply preserves_mapM; [apply _|intros v]. unfold version_reference, by_id. preserve.
  - apply preserves_mapM; [apply _|intros g]. unfold artifact_reference, by_id. preserve.
  - apply preserves_mapM; [apply _|intros r]. apply quiet_adds, current_same.
  - apply quiet_adds, plan_moves_same.
  - apply preserves_mapM; [apply _|apply move_adds].
  - apply repoint_adds.
Qed.

Lemma database_run apply delete_source s r s' :
  consistent s → objects_recorded s →
  reorganize_database R2_DOCUMENTS_PREFIX uuid5_url apply delete_source s = (r, s') →
  adds s s' ∧ Core.db s' = Core.db s ∧ objects_recorded s' ∧
  match r with
  | Ok outcome =>
      (∀ item, In item outcome.1.2 → starts_with "tenants/" item.1 = false) ∧
      if apply then is_Some outcome.2 ∧ relocated s' ∧
        ∀ item, In item outcome.1.2 → ∃ k, In k (recorded_keys s) ∧ item.1 = last_segment k
      else outcome.2 = None
  | Err _ => True
  end.
Proof.
  intros Hs Hrec Hrun. unfold reorganize_database in Hrun.
  destruct r as [outcome|e].
  - apply transaction_ok in Hrun as (s1 & Hbody & Hf).
    pose proof (preserves_run _ _ _ _ _ (rows_add apply delete_source) Hbody) as Hadds.
    destruct (rows_run _ _ _ _ _ Hs Hrec Hbody) as [Hflat Hcase].
    apply flush_core_kept in Hf as (_ & Hkept & ->).
    assert (Hheld : ∀ k, held (s1 <| Core.db ::= flush_tables |>) k = held s1 k)
      by (intros k; by apply held_objects).
    assert (Hdb : Core.db s1 = Core.db s).
    { destruct apply; [by destruct Hcase as (_ & _ & Hdb); apply Hdb|by destruct Hcase as [_ ->]]. }
    split_and!; [by intros k c Hk; rewrite Hheld; apply Hadds| | |done|].
    + cbn. rewrite Hdb. apply Hs.
    + apply (recorded_view (λ _, True) s1); [done..|by intros k c _; rewrite Hheld|].
      destruct apply; [by destruct Hcase as (_ & [] & _)|by destruct Hcase as [_ ->]].
    + destruct apply; [|by destruct Hcase].
      destruct Hcase as (? & [Hr Hv Hg] & Hnamed). split_and!; [done| |by apply Hnamed].
      split; [|exact Hv|exact Hg]. by apply (recorded_view (λ _, True) s1); [..|intros k c _; rewrite Hheld|].
  - apply transaction_err in Hrun as (r1 & s1 & Hbody & ->).
    pose proof (preserves_run _ _ _ _ _ (rows_add apply delete_source) Hbody) as Hadds.
    assert (Hheld : ∀ k, held (rollback_session s s1) k = held s1 k)
      by (intros k; by apply held_objects).
    assert (Hadds' : adds s (rollback_session s s1)) by (intros k c Hk; rewrite Hheld; by apply Hadds).
    split_and!; [done..| |done].
    by apply (recorded_view (λ _, True) s); [..|intros k c _; apply Hadds'|].
Qed.

(** An object that is not needed: no row names it, and all objects the rows name
    are at their places, one of the same name among them. *)
Definition left_over (s : Core) (key : string) : Prop :=
  relocated s ∧ ~ In key (recorded_keys s) ∧ ∃ k, In k (recorded_keys s) ∧ key = last_segment k.
Definition nothing_lost (apply delete_source : bool) (s : Core) (ok : bool) (s' : Core) : Prop :=
  objects_recorded s' ∧ Core.db s' = Core.db s ∧
  (∀ key c, held s key = Some c → held s' key = Some c ∨ (delete_source = true ∧ left_over s key)) ∧
  (ok = true → apply = true → relocated s).

Lemma cleanup_loses_nothing candidates (delete_source : bool) lines s s1 r s' :
  (∀ item, In item candidates → starts_with "tenants/" item.1 = false) →
  (∀ item, In item candidates → ∃ k, In k (recorded_keys s) ∧ item.1 = last_segment k) →
  adds s s1 → Core.db s1 = Core.db s → objects_recorded s → relocated s1 →
  (when delete_source (for_each (remove_source R2_DOCUMENTS_PREFIX) (sorted_items candidates));;
   mret lines) s1 = (r, s') → nothing_lost true delete_source s (is_ok (A := list string) r) s'.
Proof.
  intros Hflat Hnamed Hadds Edb Hrec Hrel Hrun. set (gone := map fst candidates).
  assert (Hgone : ∀ k, k ∈ gone → ∃ item, In item candidates ∧ item.1 = k)
    by (intros k Hk%list_elem_of_In; apply in_map_iff in Hk; naive_solver).
  assert (Hclean : cleans gone s1 s' ∧ (delete_source = false → s' = s1)).
  { destruct delete_source; cbn [when] in Hrun; [|by injection Hrun as _ <-].
    split; [|done]. revert Hrun.
    apply preserves_run, preserves_bind; [apply _| |intros _; apply preserves_ret; apply _].
    apply cleanup_cleans. intros item Hin. apply (proj1 (sorted_items_in _ _)) in Hin. apply list_elem_of_In. exact (in_map fst _ _ Hin). }
  destruct Hclean as [Hclean Hsame].
  assert (Hrel' : relocated s').
  { eapply relocated_cleans; [|exact Hclean|exact Hrel]. intros k (item & Hin & <-)%Hgone. by apply Hflat. }
  assert (Hrel0 : relocated s).
  { destruct Hrel as [_ Hv Hg]. split; [done| |].
    - unfold version_rows in *. by rewrite Edb in Hv.
    - unfold signature_rows in *. by rewrite Edb in Hg. }
  split_and!; [apply Hrel'|destruct Hclean; congruence| |done].
  intros k c Hk%Hadds. destruct delete_source; [|rewrite Hsame by done; by left].
  destruct (decide (k ∈ gone)) as [(item & Hin & <-)%Hgone|Hk']; [right|left; by apply Hclean].
  split; [done|]. split_and!; [done| |by apply Hnamed].
  intros Hk'%relocated_keys; [|done]. by rewrite Hflat in Hk'.
Qed.

(** C26: the command that moves the stored objects below the prefixes of the
    tenants (reorganize_r2_documents.py) loses none of them, however it ends - a
    failed copy, a digest that differs, a refused commit or a failed removal
    included.  When every key the database records has its object with the
    recorded digest, this is so afterwards.  With [--apply] it brings to the commit
    rows whose keys are all below "tenants/" and have their objects, with the
    recorded digests.  But the rows of versions and signatures are append only
    (migration 0024): no run commits a new key, the database is as it was however
    the run ends, and a run with [--apply] ends well only when every recorded key
    is below "tenants/" already.  An object goes only with [--delete-source], only
    then, and only one that no row names and that has the name of one a row
    names. *)
Theorem reorganization_loses_no_object (DOCUMENT_STORAGE_PROVIDER : string) apply delete_source s r s' :
  consistent s → objects_recorded s →
  reorganize_documents DOCUMENT_STORAGE_PROVIDER R2_DOCUMENTS_PREFIX uuid5_url apply delete_source s = (r, s') →
  objects_recorded s' ∧ Core.db s' = Core.db s ∧
  (∀ outcome s1, reorganize_rows R2_DOCUMENTS_PREFIX uuid5_url true delete_source s = (Ok outcome, s1) →
     relocated s1) ∧
  (∀ key c, held s key = Some c → held s' key = Some c ∨ (delete_source = true ∧ left_over s key)) ∧
  (is_ok r = true → apply = true → relocated s).
Proof.
  intros Hs Hrec Hrun.
  assert (Hcommit : ∀ outcome s1,
    reorganize_rows R2_DOCUMENTS_PREFIX uuid5_url true delete_source s = (Ok outcome, s1) → relocated s1)
    by (intros outcome s1 (_ & _ & Hrel & _)%rows_run; done).
  enough (nothing_lost apply delete_source s (is_ok r) s') as (? & ? & ? & ?) by (split_and!; done).
  revert Hrun. unfold reorganize_documents, require_r2, raise_if.
  assert (Hquiet : ∀ e, nothing_lost apply delete_source s (is_ok (A := list string) (Err e)) s)
    by (intros e; unfold nothing_lost; split_and!; auto; done).
  destruct (delete_source && negb apply); [by intros [= <- <-]|].
  rewrite (bind_step_ok _ _ s tt s) by done.
  destruct (String.eqb DOCUMENT_STORAGE_PROVIDER "r2"); cbn [negb]; [|by intros [= <- <-]].
  rewrite (bind_step_ok _ _ s tt s) by done. intros Hrun. clear Hquiet.
  destruct (reorganize_database R2_DOCUMENTS_PREFIX uuid5_url apply delete_source s)
    as [[[[plan candidates] finished]|e] s1] eqn:Edb;
    destruct (database_run _ _ _ _ _ Hs Hrec Edb) as (Hadds & Hdb & Hrec1 & Hcase).
  2:{ rewrite (bind_step_err _ _ s e s1) in Hrun by done. injection Hrun as <- <-.
      split_and!; [done..| |done]. intros k c Hk. left. by apply Hadds. }
  rewrite (bind_step_ok _ _ s _ s1 Edb) in Hrun. cbn [fst snd] in Hcase.
  destruct Hcase as [Hflat Hcase]. destruct apply.
  - destruct Hcase as ([copied ->] & Hrel & Hnamed). by eapply cleanup_loses_nothing.
  - subst finished. injection Hrun as <- <-.
    split_and!; [done..| |done]. intros k c Hk. left. by apply Hadds.
Qed.
End recorded.

(** ** What the database records *)
Definition artifact_pair (g : Signature.SignatureEntity) : option (string * string) :=
  key_and_digest (Signature.artifact_storage_key g) (Signature.artifact_sha256 g).
(** The keys recorded with a digest, as the commands read them. *)
Definition recorded_pairs (s : Core) : list (string * string) :=
  map (λ v, (Version.storage_key v, Version.sha256 v)) (version_rows s) ++
  omap artifact_pair (signature_rows s).
(** Every key a version or a signed document records. *)
Definition object_keys (s : Core) : list string :=
  map Version.storage_key (version_rows s) ++ omap Signature.artifact_storage_key (signature_rows s).
(** No version has the key, and no signed document of the key has a digest. *)
Definition undigested (s : Core) (key : string) : Prop :=
  (∀ v, In v (version_rows s) → Version.storage_key v ≠ key) ∧
  ∀ g, In g (signature_rows s) → Signature.artifact_storage_key g = Some key →
       key = "" ∨ Signature.artifact_sha256 g = None ∨ Signature.artifact_sha256 g = Some "".
Lemma object_key_cases s key :
  In key (object_keys s) → (∃ digest, In (key, digest) (recorded_pairs s)) ∨ undigested s key.
Proof.
  intros _. destruct (decide (Exists (λ p, p.1 = key) (recorded_pairs s))) as [Hex|Hno].
  { apply Exists_exists in Hex as ([k d] & Hin%list_elem_of_In & <-). left. by exists d. }
  right. rewrite <- Forall_Exists_neg, Forall_forall in Hno. unfold recorded_pairs in Hno. split.
  - intros v Hv E. apply (Hno (Version.storage_key v, Version.sha256 v)); [|done].
    apply list_elem_of_In, in_app_iff. left. by apply in_map_iff; exists v.
  - intros g Hg Ek. destruct (artifact_pair g) as [[k d]|] eqn:E.
    + exfalso. apply (Hno (k, d)).
      * apply elem_of_app. right. apply list_elem_of_omap. exists g. by rewrite list_elem_of_In.
      * unfold artifact_pair, key_and_digest in E. rewrite Ek in E.
        destruct (Signature.artifact_sha256 g) as [d'|]; [|done].
        destruct (nonempty key && nonempty d'); [|done]. by injection E.
    + unfold artifact_pair, key_and_digest in E. rewrite Ek in E.
      destruct (Signature.artifact_sha256 g) as [d|]; [|by auto].
      destruct (String.eqb_spec key "") as [|]; [by auto|].
      destruct (String.eqb_spec d "") as [->|]; [by auto|]. by destruct key, d.
Qed.

Definition dict_of (l d : list (string * string)) : list (string * string) :=
  foldl (λ d kv, dset kv.1 kv.2 d) d l.
Lemma dict_of_in l d k v :
  (In (k, v) l ∨ ∃ v', dget k d = Some v') →
  ∃ v', dget k (dict_of l d) = Some v' ∧ (In (k, v') l ∨ dget k d = Some v').
Proof.
  revert d v. induction l as [|[k' x] l IH]; intros d v; cbn; [naive_solver|].
  intros Hin. destruct (decide (k' = k)) as [->|Hne].
  - destruct (IH (dset k x d) x) as (v' & Hv' & Hcase).
    { right. rewrite dget_set. by eexists. }
    exists v'. split; [done|]. rewrite dget_set in Hcase. destruct Hcase as [|[= ->]]; auto.
  - destruct (IH (dset k' x d) v) as (v' & Hv' & Hcase).
    { rewrite dget_set_ne by done. naive_solver. }
    exists v'. split; [done|]. rewrite dget_set_ne in Hcase by done. naive_solver.
Qed.
Lemma dict_of_pairs l k v : In (k, v) l → ∃ v', dget k (dict_of l []) = Some v' ∧ In (k, v') l.
Proof. intros Hin. destruct (dict_of_in l [] k v) as (v' & ? & [?|[=]]); [auto|]. by exists v'. Qed.
Lemma dict_of_items l d : foldl (λ d '(k, v), dset k v d) d l = dict_of l d.
Proof. revert d. induction l as [|[k v] l IH]; intros d; cbn; [done|apply IH]. Qed.
Lemma dict_of_map {A} (f : A → string * string) l d :
  foldl (λ d a, dset (f a).1 (f a).2 d) d l = dict_of (map f l) d.
Proof. revert d. induction l as [|a l IH]; intros d; cbn; [done|apply IH]. Qed.
Lemma dict_of_omap {A} (f : A → option (string * string)) l d :
  foldl (λ d a, match f a with Some (k, v) => dset k v d | None => d end) d l = dict_of (omap f l) d.
Proof.
  revert d. induction l as [|a l IH]; intros d; cbn; [done|]. destruct (f a) as [[k v]|]; apply IH.
Qed.
Lemma omap_artifacts l : omap artifact_pair (List.filter artifacts l) = omap artifact_pair l.
Proof.
  induction l as [|g l IH]; [done|].
  assert (E : artifacts g = false → artifact_pair g = None).
  { unfold artifacts, artifact_pair. by destruct (Signature.artifact_storage_key g). }
  csimpl. destruct (artifacts g); csimpl; rewrite IH; [done|]. by rewrite E.
Qed.

Lemma referenced_objects_run s :
  consistent s → referenced_objects s = (Ok (dict_of (recorded_pairs s) []), s).
Proof.
  intros Hs. destruct (referenced_objects s) as [[objects|e] s'] eqn:Hrun; [|by cbn in Hrun].
  unfold referenced_objects in Hrun. apply read_session_state in Hrun as (s1 & Hrun & ->).
  apply bind_ok in Hrun as (versions & s2 & Hv & Hrun).
  apply columns_settled in Hv as [-> ->]; [|by apply consistent_versions].
  apply bind_ok in Hrun as (signatures & s3 & Hg & [= <- ->]).
  apply columns_settled in Hg as [-> ->]; [|by apply consistent_signatures].
  cbv zeta. rewrite filter_every.
  rewrite (dict_of_map (λ v, (Version.storage_key v, Version.sha256 v))), (dict_of_omap artifact_pair).
  f_equal; [|by destruct s]. f_equal. unfold dict_of, recorded_pairs. rewrite foldl_app. f_equal.
  exact (omap_artifacts _).
Qed.

(** ** The backup *)
Section backup.
Context `{Env} `{DocumentStorage} (held : Core → string → option string) `{!DocumentStorageLaws held}.

(** The archive only grows, by members for objects; the service is left alone. *)
Definition exports : relation Backup := λ b b',
  Core.db b'.1 = Core.db b.1 ∧ (∀ k, held b'.1 k = held b.1 k) ∧
  ∃ members, b'.2 = b.2 ++ members ∧ ∀ m, In m members → starts_with "objects/" m.1 = true.
#[local] Instance exports_preorder : PreOrder exports.
Proof.
  split.
  - intros b. split_and!; [done..|]. exists []. by rewrite app_nil_r.
  - intros b1 b2 b3 (E1 & K1 & l1 & A1 & P1) (E2 & K2 & l2 & A2 & P2).
    split_and!; [congruence|by intros k; rewrite K2|]. exists (l1 ++ l2).
    rewrite A2, A1, app_assoc. split; [done|]. intros m [Hm|Hm]%in_app_iff; auto.
Qed.
Lemma reads_export k : preserves exports (backup_on_core (get_object k)).
Proof.
  intros b. unfold backup_on_core. destruct (get_object k b.1) as [r c] eqn:E. cbn.
  pose proof (get_outside (held := held) k b.1) as Hv. unfold same, outside_view in Hv. rewrite E in Hv.
  split_and!; cbn in *; [congruence|by apply (get_held _ _ _ _ E)|]. exists []. by rewrite app_nil_r.
Qed.
Lemma object_exports item : preserves exports (export_object item).
Proof.
  destruct item as [key digest]. unfold export_object.
  apply preserves_bind; [apply _|apply reads_export|intros c].
  apply preserves_bind; [apply _|apply preserves_raise_if; apply _|intros _].
  apply preserves_bind; [apply _| |intros _; apply preserves_ret; apply _].
  apply preserves_modify. intros b. split_and!; [done..|]. exists [("objects/" +:+ key, c)].
  split; [done|]. intros m [<-|[]]. apply starts_with_spec. by exists key.
Qed.

Definition exported (b : Backup) (key digest : string) : Prop :=
  ∃ c, In ("objects/" +:+ key, c) b.2 ∧ digest = sha256_hex c ∧ held b.1 key = Some c.
Lemma object_exported key digest b j b' :
  export_object (key, digest) b = (Ok j, b') → exported b' key digest.
Proof.
  unfold export_object. intros (c & b1 & Hget & Hrun)%bind_ok.
  apply bind_ok in Hrun as (u & b2 & [Hd ->]%raise_if_ok & Hrun).
  apply bind_ok in Hrun as (u1 & b3 & Ha%modify_ok & [= _ <-]). subst b3. exists c. cbn.
  unfold backup_on_core in Hget. destruct (get_object key b.1) as [r s1] eqn:E.
  injection Hget as -> <-. cbn. split_and!.
  - apply in_app_iff. right. by left.
  - by apply negb_false_iff, String.eqb_eq in Hd.
  - rewrite (get_held _ _ _ _ E). by eapply get_returns.
Qed.
Lemma exported_later b b' key digest : exports b b' → exported b key digest → exported b' key digest.
Proof.
  intros (_ & Hk & members & Ea & _) (c & Hin & E & Hh). exists c. rewrite Ea, Hk.
  split_and!; [apply in_app_iff; by left|done..].
Qed.

(** The archive has the object of the key, with a digest recorded for it. *)
Definition backed_up (s : Core) (archive : list (string * string)) (key : string) : Prop :=
  ∃ c, In ("objects/" +:+ key, c) archive ∧ held s key = Some c ∧
       In (key, sha256_hex c) (recorded_pairs s).

(** C27: a backup (backup_export.py) that ends well is complete: every key of a
    version, and every key of a signed document recorded with its digest, is a
    member of the archive with the content of its object, whose digest is one the
    database records for the key; a signed document recorded without a digest is
    left out, and nothing else.  The manifest closes the archive; a backup that
    fails has no manifest.  The database and the objects are left alone. *)
Theorem backup_is_complete (DOCUMENT_STORAGE_PROVIDER : string) s r s' archive :
  consistent s →
  backup_export DOCUMENT_STORAGE_PROVIDER (s, []) = (r, (s', archive)) →
  Core.db s' = Core.db s ∧ (∀ k, held s' k = held s k) ∧
  if is_ok r then
    (∀ key, In key (object_keys s) → backed_up s archive key ∨ undigested s key) ∧
    ∃ members manifest, archive = members ++ [("manifest.json", manifest)]
  else ∀ manifest, ~ In ("manifest.json", manifest) archive.
Proof.
  intros Hs Hrun. unfold backup_export in Hrun.
  rewrite (bind_step_ok (S := Backup) _ _ (s, []) (dict_of (recorded_pairs s) []) (s, [])) in Hrun
    by (unfold backup_on_core; cbn [fst]; by rewrite (referenced_objects_run s Hs)).
  destruct (mapM export_object (sorted_items (dict_of (recorded_pairs s) [])) (s, []))
    as [[manifest|e] [s1 a1]] eqn:E;
    pose proof (preserves_run _ _ _ _ _ (preserves_mapM _ _ _ object_exports) E)
      as (Edb & Hheld & members & Ea & Hm); cbn in Edb, Hheld, Ea; subst a1.
  2:{ rewrite (bind_step_err _ _ _ _ _ E) in Hrun. injection Hrun as <- <- <-.
      split_and!; [done..|]. intros manifest Hin. by apply Hm in Hin. }
  rewrite (bind_step_ok _ _ _ _ _ E) in Hrun. injection Hrun as <- <- <-.
  split_and!; [done..|]. cbn [is_ok]. split; [|by exists members; eexists].
  intros key [[digest Hin]|Hno]%object_key_cases; [left|by right].
  destruct (dict_of_pairs _ _ _ Hin) as (d' & Hd' & Hin').
  apply (mapM_ok_all exports _ (λ item _ b, exported b item.1 item.2)) in E; [|apply object_exports| |].
  - apply dget_in, sorted_items_in in Hd'. destruct (forall2_left _ _ _ _ E Hd') as (j & _ & c & Hc & Ec & Hh).
    exists c. rewrite <- Hheld. cbn in Hc, Ec. subst d'. split_and!; [apply in_app_iff; by left|done..].
  - intros [k d] b j b' _. apply object_exported.
  - intros [k d] j b b'. apply exported_later.
Qed.
End backup.

(** ** The copy to R2 *)
Section migration.
Context `{Env} `{S3Client} (bucket : Core → string → option string) `{!S3ClientLaws bucket}.
Variables (R2_DOCUMENTS_PREFIX : string) (local_files : gmap string string).
Abbreviation held := (R2DocumentStorage.held bucket (r2_prefix R2_DOCUMENTS_PREFIX)).
Abbreviation holds := (holds bucket R2_DOCUMENTS_PREFIX).
Abbreviation copies := (copies bucket R2_DOCUMENTS_PREFIX).

Lemma version_keys_distinct s v w :
  consistent s → In v (version_rows s) → In w (version_rows s) →
  Version.storage_key v = Version.storage_key w → v = w.
Proof.
  intros Hs Hv Hw E. destruct (schema_parts s Hs) as (_ & _ & _ & _ & _ & Hok & _).
  unfold documents_ok in Hok. rewrite !andb_true_iff in Hok. destruct Hok as [[_ Hu] _].
  unfold unique_on in Hu. apply bool_decide_eq_true in Hu.
  assert (Em : omap (λ r, Some (Version.storage_key r)) (version_rows s) =
               map Version.storage_key (version_rows s)).
  { clear. induction (version_rows s) as [|x l IH]; [done|]. csimpl. by rewrite IH. }
  unfold version_rows in *. rewrite Em in Hu.
  clear Em. induction (live _) as [|x l IH]; [done|].
  apply NoDup_cons in Hu as [Hx Hu].
  destruct Hv as [->|Hv], Hw as [->|Hw]; [done| | |by apply IH]; destruct Hx; rewrite list_elem_of_In.
  - rewrite E. by apply in_map.
  - rewrite <- E. by apply in_map.
Qed.

(** The digests of the artifacts have to agree with what is there. *)
Lemma add_artifacts_ok rows objects s result s' :
  add_artifacts objects rows s = (Ok result, s') →
  s' = s ∧ (∀ k d, dget k objects = Some d → dget k result = Some d) ∧
  ∀ k d, In (k, d) (omap artifact_pair rows) → dget k result = Some d.
Proof.
  revert objects. induction rows as [|g rows IH]; intros objects; cbn [add_artifacts].
  { intros [= <- <-]. by split_and!. }
  unfold artifact_pair at 1. csimpl.
  destruct (key_and_digest _ _) as [[key digest]|] eqn:E; [|apply IH].
  intros (u & s1 & [Hc ->]%raise_if_ok & Hrun)%bind_ok. apply IH in Hrun as (-> & Hkeep & Hall).
  split_and!; [done| |].
  - intros k d Hd. apply Hkeep. destruct (decide (key = k)) as [->|Hne]; [|by rewrite dget_set_ne].
    rewrite Hd in Hc. apply negb_false_iff, String.eqb_eq in Hc as <-. apply dget_set.
  - intros k d [[= <- <-]|Hin]; [apply Hkeep, dget_set|by apply Hall].
Qed.

Lemma recorded_objects_ok s objects s' :
  consistent s → recorded_objects s = (Ok objects, s') →
  s' = s ∧ ∀ k d, In (k, d) (recorded_pairs s) → In (k, d) objects.
Proof.
  intros Hs. unfold recorded_objects. intros (rows & s1 & Hrows & Hrun)%bind_ok.
  apply read_session_state in Hrows as (s2 & Hrows & ->).
  apply bind_ok in Hrows as (versions & s3 & Hv & Hrows).
  apply columns_settled in Hv as [-> ->]; [|by apply consistent_versions].
  apply bind_ok in Hrows as (signatures & s4 & Hg & [= <- <-]).
  apply columns_settled in Hg as [-> ->]; [|by apply consistent_signatures].
  cbn [fst snd] in Hrun. rewrite filter_every, dict_of_items in Hrun.
  change (live (Db.document_versions (Core.db s))) with (version_rows s) in Hrun.
  apply add_artifacts_ok in Hrun as (-> & Hkeep & Hall). split; [by destruct s|].
  unfold recorded_pairs. intros k d [Hin|Hin]%in_app_iff; apply dget_in.
  - apply Hkeep. set (pairs := map _ (version_rows s)) in *.
    assert (Hin' : In (k, d) (remove_dups pairs)) by (by apply list_elem_of_In, elem_of_remove_dups, list_elem_of_In).
    destruct (dict_of_pairs _ _ _ Hin') as (d' & -> & Hd'). f_equal.
    rewrite <- list_elem_of_In, elem_of_remove_dups, list_elem_of_In in Hd'. subst pairs.
    apply in_map_iff in Hin as (v & [= <- <-] & Hv). apply in_map_iff in Hd' as (w & [= E <-] & Hw).
    by rewrite (version_keys_distinct s w v Hs Hw Hv E).
  - apply Hall. rewrite <- omap_artifacts in Hin. exact Hin.
Qed.

Lemma recorded_objects_copies : preserves copies recorded_objects.
Proof.
  unfold recorded_objects. apply preserves_bind; [apply _| |intros rows].
  - intros s. unfold read_session. cbn. by destruct s.
  - generalize (foldl (λ d '(k, v), dset k v d) [] (remove_dups (map (λ v, (Version.storage_key v, Version.sha256 v)) rows.1))).
    induction rows.2 as [|g l IH]; intros objects; cbn [add_artifacts]; [preserve|].
    destruct (key_and_digest _ _) as [[k d]|]; [|apply IH]. preserve; apply IH.
Qed.
Lemma migrate_copies apply item :
  preserves copies (migrate_object R2_DOCUMENTS_PREFIX local_files apply item).
Proof.
  pose proof (get_copies bucket R2_DOCUMENTS_PREFIX) as Hget.
  pose proof (put_copies bucket R2_DOCUMENTS_PREFIX) as Hput.
  pose proof (verified_copies bucket R2_DOCUMENTS_PREFIX) as Hver.
  destruct item as [key digest]. unfold migrate_object. preserve.
Qed.

(** A copied object has its digest and took a place that was free. *)
Definition migrated (apply : bool) (item : string * string) (s : Core) : Prop :=
  holds s item.1 (Some item.2) ∨
  (apply = false ∧ ∃ content, local_files !! item.1 = Some content ∧ item.2 = sha256_hex content).
Lemma migrate_object_ok apply key digest s b s' :
  migrate_object R2_DOCUMENTS_PREFIX local_files apply (key, digest) s = (Ok b, s') →
  migrated apply (key, digest) s' ∧
  (apply = true → is_Some (local_files !! key) → held s key = None).
Proof.
  unfold migrate_object, migrated. cbn [fst snd].
  intros (u & s1 & Hval & Hrun)%bind_ok.
  assert (s1 = s) as ->.
  { apply try_catch_ok in Hval as [[_ ->]%lift_ok|(e & s2 & _ & Hh)]; [done|]. by destruct e. }
  destruct (local_files !! key) as [content|] eqn:El.
  - apply bind_ok in Hrun as (u1 & s2 & [Hd ->]%raise_if_ok & Hrun).
    apply negb_false_iff, String.eqb_eq in Hd. destruct apply.
    + apply bind_ok in Hrun as (n & s3 & Hput & Hrun). apply bind_ok in Hrun as (c & s4 & Hver & [= _ <-]).
      apply (R2DocumentStorage.put_existing_run bucket) in Hput as (Hfree & _).
      apply (verified_holds bucket) in Hver. auto.
    + injection Hrun as _ <-. split; [|done]. right. split; [done|]. by exists content.
  - apply bind_ok in Hrun as (c & s2 & Hget & Hrun).
    apply bind_ok in Hrun as (u1 & s3 & [Hd ->]%raise_if_ok & [= _ <-]).
    apply negb_false_iff, String.eqb_eq in Hd. split; [|by intros _ []]. left. exists c.
    split; [|by rewrite Hd]. apply try_catch_ok in Hget as [Hget|(e & s4 & _ & Hh)]; [|by destruct e].
    by apply (get_ok_held bucket) in Hget.
Qed.

(** copying the local files to R2 (migrate_documents_to_r2.py) with [--apply]
    is complete when it succeeds: every key the database records with a digest, of
    versions and of signed documents, has an object with that digest.  However it ends,
    no object is lost and the database is as it was.  A run that succeeds copied
    every local file to a key that held nothing: over an object that is already
    there the command fails, so a copy cannot be repeated. *)
Theorem migration_copies_every_object (DOCUMENT_STORAGE_PROVIDER : string) apply s r s' :
  consistent s →
  migrate_documents DOCUMENT_STORAGE_PROVIDER R2_DOCUMENTS_PREFIX local_files apply s = (r, s') →
  Core.db s' = Core.db s ∧ (∀ key c, held s key = Some c → held s' key = Some c) ∧
  (is_ok r = true → apply = true → ∀ key digest, In (key, digest) (recorded_pairs s) →
     holds s' key (Some digest) ∧ (is_Some (local_files !! key) → held s key = None)).
Proof.
  intros Hs Hrun. unfold migrate_documents, require_r2, raise_if in Hrun.
  destruct (String.eqb DOCUMENT_STORAGE_PROVIDER "r2"); cbn [negb] in Hrun;
    [|by injection Hrun as <- <-].
  rewrite (bind_step_ok _ _ s tt s) in Hrun by done.
  destruct (recorded_objects s) as [[objects|e] s1] eqn:Eo.
  2:{ rewrite (bind_step_err _ _ _ _ _ Eo) in Hrun. injection Hrun as <- <-.
      pose proof (preserves_run _ _ _ _ _ recorded_objects_copies Eo) as [Hk Hdb]. by split_and!. }
  rewrite (bind_step_ok _ _ _ _ _ Eo) in Hrun. apply recorded_objects_ok in Eo as [-> Hin]; [|done].
  destruct (mapM (migrate_object R2_DOCUMENTS_PREFIX local_files apply) (sorted_items objects) s) as [[outcomes|e] s2] eqn:E;
    pose proof (preserves_run _ _ _ _ _ (preserves_mapM _ _ _ (migrate_copies apply)) E) as [Hk Hdb].
  2:{ rewrite (bind_step_err _ _ _ _ _ E) in Hrun. injection Hrun as <- <-. by split_and!. }
  rewrite (bind_step_ok _ _ _ _ _ E) in Hrun. injection Hrun as <- <-. split_and!; [done..|].
  intros _ -> key digest Hrec%Hin%sorted_items_in.
  apply (mapM_ok_all copies _ (λ item _ s2, holds s2 item.1 (Some item.2) ∧
    (is_Some (local_files !! item.1) → held s item.1 = None))) in E; [|apply migrate_copies| |].
  - by destruct (forall2_left _ _ _ _ E Hrec) as (b & _ & Hb).
  - intros [k d] s1 b s3 [Hk1 _] Ha. apply migrate_object_ok in Ha as [[Hh|[[=] _]] Hfree].
    split; [done|]. intros Hl. specialize (Hfree eq_refl Hl). cbn.
    destruct (held s k) eqn:Eh; [|done]. apply Hk1 in Eh. congruence.
  - intros [k d] b s1 s3 Hc [Hh Hf]. split; [by eapply copies_holds|done].
Qed.
End migration.

(** ** A bucket, and a document of the old layout in it *)
Module R2Example.
Import Example.

#[export] Instance client : S3Client := {|
  put_new_object key body _ := λ s,
    match Core.objects s !! key with
    | Some _ => (Err (ClientError "PreconditionFailed" (Some 412)), s)
    | None => (Ok tt, s <| Core.objects ::= <[key := body]> |>)
    end;
  client_get_object key :=
    found ← gets (λ s, Core.objects s !! key); some_or found (ClientError "NoSuchKey" (Some 404));
  client_delete_object key := modify (λ s, s <| Core.objects ::= delete key |>)
|}.
Definition bucket (s : Core) (key : string) : option string := Core.objects s !! key.

#[export] Instance client_laws : S3ClientLaws bucket.
Proof.
  unfold bucket. split.
  - intros k b m s. cbn. by destruct (Core.objects s !! k).
  - intros k. cbn. preserve.
  - intros k. cbn. by apply preserves_modify.
  - intros k b m s u s'. cbn. destruct (Core.objects s !! k) eqn:E; [done|]. intros [= _ <-]. cbn.
    rewrite lookup_insert_eq. split_and!; [done..|]. intros k' Hk. by rewrite lookup_insert_ne.
  - intros k b m s e s'. cbn. destruct (Core.objects s !! k) eqn:E; [|done]. by intros [= _ <-].
  - intros k s b s'. cbn. intros (o & s1 & [-> ->]%gets_ok & [Hb _]%some_or_ok)%bind_ok. exact Hb.
  - intros k s r s' E. apply (preserves_run (same Core.objects)) in E; [by rewrite E|]. cbn. preserve.
  - intros k s r s' k'. cbn. intros [= _ <-] Hk. cbn. by rewrite lookup_delete_ne.
  - intros k b m s. cbn. destruct (Core.objects s !! k); unfold draws_grow; cbn; lia.
  - by intros s s' ->.
Qed.

Definition content : string := "%PDF-1.7 plan".
Definition plan_document : Document.DocumentEntity :=
  Document.make 31 "1" 1 "Plan" "plan.pdf" "application/pdf" "plan1" (sha256_hex content) 1 READY
    "admin@acme.com" now None.
Definition plan_version : Version.DocumentVersionEntity :=
  Version.make 41 31 1 "plan.pdf" "application/pdf" "plan1" (sha256_hex content)
    (Z.of_nat (String.length content)) "admin@acme.com" now None.
Definition old_layout (objects : gmap string string) : Core :=
  s0 <| Core.db ::= λ d, d <| Db.documents := row [plan_document] |>
                           <| Db.document_versions := row [plan_version] |> |>
     <| Core.objects := objects |>.
Definition stored_state : Core := old_layout {["documents/plan1" := content]}.
Definition reorganize (apply delete_source : bool) : Core → result (list string) * Core :=
  reorganize_documents "r2" "documents/" (λ _, 0%N) apply delete_source.
Definition tenant_key : string :=
  "documents/" +:+ document_storage_scope 1 501 +:+ "/plan1".

Lemma stored_consistent objects : consistent (old_layout objects).
Proof. split; vm_compute; reflexivity. Qed.
Lemma stored_recorded : objects_recorded bucket "documents/" stored_state.
Proof.
  split.
  - intros v [<-|[]]. exists content. split; vm_compute; reflexivity.
  - intros g k [].
  - intros d [<-|[]]. exists plan_version. split_and!; [by left|vm_compute; reflexivity..].
Qed.

(** A run on the old layout copies the object and cannot commit the new key: the
    rows of versions are append only. *)
Example old_layout_cannot_commit :
  let '(r, s') := reorganize true false stored_state in
  r = Err IntegrityError ∧ Core.db s' = Core.db stored_state ∧
  map_to_list (Core.objects s') = [(tenant_key, content); ("documents/plan1", content)].
Proof. vm_compute. split_and!; reflexivity. Qed.

(** The layout of the code that stores documents now, with an object of the old
    layout that no row names. *)
Definition placed_key : string := document_storage_scope 1 501 +:+ "/plan1".
Definition placed_state : Core :=
  s0 <| Core.db ::= λ d, d
          <| Db.documents := row [plan_document <| Document.storage_key := placed_key |>] |>
          <| Db.document_versions := row [plan_version <| Version.storage_key := placed_key |>] |> |>
     <| Core.objects := {["documents/plan1" := content; tenant_key := content]} |>.
Lemma placed_consistent : consistent placed_state.
Proof. split; vm_compute; reflexivity. Qed.
Lemma placed_recorded : objects_recorded bucket "documents/" placed_state.
Proof.
  split.
  - intros v [<-|[]]. exists content. split; vm_compute; reflexivity.
  - intros g k [].
  - intros d [<-|[]]. exists (plan_version <| Version.storage_key := placed_key |>).
    split_and!; [by left|vm_compute; reflexivity..].
Qed.

(** Cleaning up leaves the object the row names; a run on the old layout changes
    no row. *)
Lemma reorganization_loses_no_object_witness :
  (let s' := (reorganize true true placed_state).2 in
   objects_recorded bucket "documents/" s' ∧ Core.db s' = Core.db placed_state ∧
   relocated bucket "documents/" placed_state ∧
   map_to_list (Core.objects s') = [(tenant_key, content)]) ∧
  objects_recorded bucket "documents/" (reorganize true false stored_state).2.
Proof.
  destruct (reorganization_loses_no_object bucket "documents/" (λ _, 0%N) "r2" true true placed_state _ _
    placed_consistent placed_recorded (run_outcome _ _ eq_refl)) as (Hr & Hdb & _ & _ & Hrel).
  destruct (reorganization_loses_no_object bucket "documents/" (λ _, 0%N) "r2" true false stored_state _ _
    (stored_consistent _) stored_recorded (run_outcome _ _ eq_refl)) as (Hr' & _).
  split; [|exact Hr']. split_and!; [exact Hr|exact Hdb|apply Hrel; vm_compute; reflexivity|].
  vm_compute. reflexivity.
Defined.

#[local] Existing Instances LocalDocumentStorage.storage LocalDocumentStorage.storage_laws.
Lemma backup_is_complete_witness :
  match backup_export "local" (old_layout {["plan1" := content]}, []) with
  | (Ok _, (_, archive)) => In ("objects/plan1", content) archive
  | _ => False
  end.
Proof.
  destruct (backup_export "local" (old_layout {["plan1" := content]}, [])) as [[u|e] [s' archive]] eqn:E;
    [|vm_compute in E; discriminate E].
  destruct (backup_is_complete LocalDocumentStorage.held "local" _ _ _ _ (stored_consistent _) E)
    as (_ & _ & Hall & _).
  destruct (Hall "plan1") as [(c & Hin & Hc & _)|[Hno _]]; [by left| |].
  - vm_compute in Hc. injection Hc as <-. exact Hin.
  - by destruct (Hno plan_version); [left|].
Defined.

Definition local_files : gmap string string := {["plan1" := content]}.
Lemma migration_copies_every_object_witness :
  let '(r, s') := migrate_documents "r2" "documents/" local_files true (old_layout ∅) in
  r = Ok "[ok] 1 objects checked; 1 copied and verified" ∧
  holds bucket "documents/" s' "plan1" (Some (sha256_hex content)) ∧
  (migrate_documents "r2" "documents/" local_files true s').1 = Err (FileExistsError "plan1").
Proof.
  set (run := migrate_documents "r2" "documents/" local_files true (old_layout ∅)).
  assert (Er : run.1 = Ok "[ok] 1 objects checked; 1 copied and verified") by (vm_compute; reflexivity).
  assert (Eagain : (migrate_documents "r2" "documents/" local_files true run.2).1
                   = Err (FileExistsError "plan1")) by (vm_compute; reflexivity).
  destruct (migration_copies_every_object bucket "documents/" local_files "r2" true _ _ _
    (stored_consistent ∅) (run_outcome run _ eq_refl)) as (_ & _ & Hall).
  rewrite Er in Hall. destruct run as [r s']. cbn [fst snd] in *.
  split_and!; [exact Er| |exact Eagain]. apply (Hall eq_refl eq_refl "plan1"). by left.
Defined.
End R2Example.
