(* ===== verification/Redis.v ===== *)
(** * The key-value store of the sessions

    The keyspace of a Redis database and the commands auth_api sends to it, as
    the documentation of the server states them: a key holds a text, a counter, a
    structured text ([RJson], the JSON text of a value, kept as the value) or a
    set of texts, and may expire; an expired key is absent.  A command is one
    atomic step at the time of the call; a script is one step too. *)

From S2P Require Import Prelude.
From S2P Require Import PyText.
From S2P Require Import DateTime.

Local Open Scope Z_scope.

Inductive rvalue (V : Type) :=
| RText (s : string)
| RCount (n : Z)
| RJson (v : V)
| RSet (members : gset string).
Arguments RText {V} s.
Arguments RCount {V} n.
Arguments RJson {V} v.
Arguments RSet {V} members.

Record entry (V : Type) := Entry { value : rvalue V; expires : option Z }.
Arguments Entry {V} value expires.
Arguments value {V} e.
Arguments expires {V} e.

Abbreviation keyspace V := (gmap string (entry V)).

Section commands.
Context {V : Type}.
Implicit Types (db : keyspace V) (k : string) (now ttl : Z).

Definition wrong_type : exn :=
  ResponseError "WRONGTYPE Operation against a key holding the wrong kind of value".

Definition expired now (e : entry V) : bool :=
  match expires e with Some t => t <=? now | None => false end.
Definition find_key now k db : option (entry V) :=
  match db !! k with
  | Some e => if expired now e then None else Some e
  | None => None
  end.

(** The instant [ttl] seconds from now. *)
Definition deadline now ttl : Z := DateTimeService.add_seconds now ttl.

Definition GET now k : M (keyspace V) (option (rvalue V)) := λ db,
  match find_key now k db with
  | None => (Ok None, db)
  | Some (Entry (RSet _) _) => (Err wrong_type, db)
  | Some e => (Ok (Some (value e)), db)
  end.

(** [SET k v EX ttl] *)
Definition SET now k (v : rvalue V) ttl : M (keyspace V) unit := λ db,
  if ttl <=? 0 then (Err (ResponseError "invalid expire time in 'set' command"), db)
  else (Ok tt, <[k := Entry v (Some (deadline now ttl))]> db).

(** [SET k v EX ttl NX]: only where there is no key; whether it was set. *)
Definition SETNX now k (v : rvalue V) ttl : M (keyspace V) bool := λ db,
  if ttl <=? 0 then (Err (ResponseError "invalid expire time in 'set' command"), db)
  else match find_key now k db with
       | None => (Ok true, <[k := Entry v (Some (deadline now ttl))]> db)
       | Some _ => (Ok false, db)
       end.

(** [GETDEL k] *)
Definition GETDEL now k : M (keyspace V) (option (rvalue V)) := λ db,
  match find_key now k db with
  | None => (Ok None, delete k db)
  | Some (Entry (RSet _) _) => (Err wrong_type, db)
  | Some e => (Ok (Some (value e)), delete k db)
  end.

Definition DEL (ks : list string) : M (keyspace V) unit :=
  modify (λ db, foldr delete db ks).

(** A fresh counter does not expire. *)
Definition INCR now k : M (keyspace V) Z := λ db,
  match find_key now k db with
  | None => (Ok 1, <[k := Entry (RCount 1) None]> db)
  | Some (Entry (RCount n) t) =>
      if n <? 2 ^ 63 - 1 then (Ok (n + 1), <[k := Entry (RCount (n + 1)) t]> db)
      else (Err (ResponseError "increment or decrement would overflow"), db)
  | Some (Entry (RSet _) _) => (Err wrong_type, db)
  | Some _ => (Err (ResponseError "value is not an integer or out of range"), db)
  end.

Definition EXPIRE now k ttl : M (keyspace V) unit := modify (λ db,
  match find_key now k db with
  | None => db
  | Some e =>
      if ttl <=? 0 then delete k db
      else <[k := Entry (value e) (Some (deadline now ttl))]> db
  end).

Definition SADD now k (m : string) : M (keyspace V) unit := λ db,
  match find_key now k db with
  | None => (Ok tt, <[k := Entry (RSet {[m]}) None]> db)
  | Some (Entry (RSet ms) t) => (Ok tt, <[k := Entry (RSet ({[m]} ∪ ms)) t]> db)
  | Some _ => (Err wrong_type, db)
  end.

(** A set that becomes empty is removed. *)
Definition SREM now k (m : string) : M (keyspace V) unit := λ db,
  match find_key now k db with
  | None => (Ok tt, db)
  | Some (Entry (RSet ms) t) =>
      let ms' := ms ∖ {[m]} in
      (Ok tt, if decide (ms' = ∅) then delete k db
              else <[k := Entry (RSet ms') t]> db)
  | Some _ => (Err wrong_type, db)
  end.

Definition SMEMBERS now k : M (keyspace V) (gset string) := λ db,
  match find_key now k db with
  | None => (Ok ∅, db)
  | Some (Entry (RSet ms) _) => (Ok ms, db)
  | Some _ => (Err wrong_type, db)
  end.
End commands.

(** ** What the commands do *)
Section command_facts.
Context {V : Type}.
Implicit Types (db : keyspace V) (k : string) (now ttl : Z) (e : entry V).

Lemma find_key_some now k db e :
  find_key now k db = Some e ↔ db !! k = Some e ∧ expired now e = false.
Proof.
  unfold find_key. destruct (db !! k) as [e'|]; [|by split; [|intros [? ?]]].
  destruct (expired now e') eqn:E; (split; [intros [=]; by subst | intros [[=] ?]; congruence]).
Qed.

(** Only time lets a key disappear on its own. *)
Lemma expired_later now now' e :
  now ≤ now' → expired now e = true → expired now' e = true.
Proof. unfold expired. destruct (expires e); [|done]. rewrite !Z.leb_le. lia. Qed.

Lemma find_key_earlier now now' k db e :
  now ≤ now' → find_key now' k db = Some e → find_key now k db = Some e.
Proof.
  intros Hle [Hk He]%find_key_some. apply find_key_some. split; [done|].
  destruct (expired now e) eqn:E; [|done]. apply (expired_later _ now') in E; congruence.
Qed.

Lemma find_key_same now k db db' : db !! k = db' !! k → find_key now k db = find_key now k db'.
Proof. unfold find_key. by intros ->. Qed.

Lemma find_key_insert_ne now k k' e db :
  k ≠ k' → find_key now k' (<[k := e]> db) = find_key now k' db.
Proof. intros. apply find_key_same. by rewrite lookup_insert_ne. Qed.
Lemma find_key_insert now k e db :
  find_key now k (<[k := e]> db) = if expired now e then None else Some e.
Proof. unfold find_key. by rewrite lookup_insert_eq. Qed.
Lemma find_key_delete now k db : find_key now k (delete k db) = None.
Proof. unfold find_key. by rewrite lookup_delete_eq. Qed.
Lemma find_key_delete_ne now k k' db :
  k ≠ k' → find_key now k' (delete k db) = find_key now k' db.
Proof. intros. apply find_key_same. by rewrite lookup_delete_ne. Qed.

Lemma deleted_keys ks db k :
  foldr delete db ks !! k = if decide (k ∈ ks) then None else db !! k.
Proof.
  induction ks as [|k' ks IH]; simpl; [done|].
  destruct (decide (k = k')) as [->|Hne].
  - rewrite lookup_delete_eq, decide_True; [done|by left].
  - rewrite lookup_delete_ne, IH by congruence.
    destruct (decide (k ∈ ks)); [by rewrite decide_True by (by right)|].
    rewrite decide_False; [done|]. by intros [?|?]%elem_of_cons.
Qed.
End command_facts.
