(* ===== verification/AuthDb.v ===== *)
(** * The auth database and the process state of auth_api

    One record per mapped class of auth_api (users, roles, identifiers, account
    tokens, recovery codes, security events), the constraints a flush checks, the
    state of the process - database, Redis, clock, random draws, and the calls
    made to the other services - and the environment the services run in. *)

From S2P Require Import Prelude.
From S2P Require Import PyText.
From S2P Require Import Json.
From S2P Require Import DateTime.
From S2P Require Import Orm.
From S2P Require Import Redis.

(** ** Entities *)

(** [users] (user_entity.py) *)
Module User.
Record UserEntity := make {
  id : N;
  email : string;
  public_slug : string;
  name : option string;
  preferred_locale : string;
  email_verified : bool;
  mfa_enabled : bool;
  mfa_exempt : bool;
  mfa_secret_ciphertext : option string;
  mfa_pending_secret_ciphertext : option string;
  mfa_last_used_step : option Z;
  password_hash : string;
  token_version : Z;
  is_active : bool;
  created_at : Z;
  deleted_at : option Z
}.
#[global] Instance UserEntity_eta : Eta UserEntity := λ r,
  make (id r) (email r) (public_slug r) (name r) (preferred_locale r)
     (email_verified r) (mfa_enabled r) (mfa_exempt r)
     (mfa_secret_ciphertext r) (mfa_pending_secret_ciphertext r)
     (mfa_last_used_step r) (password_hash r) (token_version r) (is_active
     r) (created_at r) (deleted_at r).
#[global] Instance UserEntity_eq_dec : EqDecision UserEntity.
Proof. solve_decision. Defined.
#[global] Instance UserEntity_entity : Entity UserEntity := id.
End User.

(** [account_tokens] (user_entity.py) *)
Module AccountToken.
Record AccountTokenEntity := make {
  id : N;
  user_id : N;
  purpose : string;
  token_hash : string;
  expires_at : Z;
  consumed_at : option Z;
  created_at : Z;
  deleted_at : option Z
}.
#[global] Instance AccountTokenEntity_eta : Eta AccountTokenEntity := λ r,
  make (id r) (user_id r) (purpose r) (token_hash r) (expires_at r)
     (consumed_at r) (created_at r) (deleted_at r).
#[global] Instance AccountTokenEntity_eq_dec : EqDecision AccountTokenEntity.
Proof. solve_decision. Defined.
#[global] Instance AccountTokenEntity_entity : Entity AccountTokenEntity := id.
End AccountToken.

(** [mfa_recovery_codes] (user_entity.py) *)
Module Recovery.
Record MfaRecoveryCodeEntity := make {
  id : N;
  user_id : N;
  code_hash : string;
  consumed_at : option Z;
  created_at : Z;
  deleted_at : option Z
}.
#[global] Instance MfaRecoveryCodeEntity_eta : Eta MfaRecoveryCodeEntity := λ r,
  make (id r) (user_id r) (code_hash r) (consumed_at r) (created_at r)
     (deleted_at r).
#[global] Instance MfaRecoveryCodeEntity_eq_dec : EqDecision MfaRecoveryCodeEntity.
Proof. solve_decision. Defined.
#[global] Instance MfaRecoveryCodeEntity_entity : Entity MfaRecoveryCodeEntity := id.
End Recovery.

(** [mfa_security_events] (user_entity.py) *)
Module SecurityEvent.
Record MfaSecurityEventEntity := make {
  id : N;
  user_id : N;
  action : string;
  metadata_sanitized : list (string * string);
  created_at : Z;
  deleted_at : option Z
}.
#[global] Instance MfaSecurityEventEntity_eta : Eta MfaSecurityEventEntity := λ r,
  make (id r) (user_id r) (action r) (metadata_sanitized r) (created_at r)
     (deleted_at r).
#[global] Instance MfaSecurityEventEntity_eq_dec : EqDecision MfaSecurityEventEntity.
Proof. solve_decision. Defined.
#[global] Instance MfaSecurityEventEntity_entity : Entity MfaSecurityEventEntity := id.
End SecurityEvent.

(** [user_identifiers] (user_identifier_entity.py) *)
Module Identifier.
Record UserIdentifierEntity := make {
  id : N;
  user_id : N;
  issuing_country : string;
  identifier_type : string;
  normalized_value_encrypted : option string;
  lookup_hmac : option string;
  masked_display : string;
  verification_status : string;
  verification_method : option string;
  key_version : Z;
  created_at : Z;
  deleted_at : option Z
}.
#[global] Instance UserIdentifierEntity_eta : Eta UserIdentifierEntity := λ r,
  make (id r) (user_id r) (issuing_country r) (identifier_type r)
     (normalized_value_encrypted r) (lookup_hmac r) (masked_display r)
     (verification_status r) (verification_method r) (key_version r)
     (created_at r) (deleted_at r).
#[global] Instance UserIdentifierEntity_eq_dec : EqDecision UserIdentifierEntity.
Proof. solve_decision. Defined.
#[global] Instance UserIdentifierEntity_entity : Entity UserIdentifierEntity := id.
End Identifier.

(** [user_roles] (access_control_entity.py) *)
Module Role.
Record UserRoleEntity := make {
  id : N;
  user_id : N;
  role : string;
  created_at : Z;
  deleted_at : option Z
}.
#[global] Instance UserRoleEntity_eta : Eta UserRoleEntity := λ r,
  make (id r) (user_id r) (role r) (created_at r) (deleted_at r).
#[global] Instance UserRoleEntity_eq_dec : EqDecision UserRoleEntity.
Proof. solve_decision. Defined.
#[global] Instance UserRoleEntity_entity : Entity UserRoleEntity := id.
End Role.

(** The tables of the auth database. *)
Module AuthTables.
Record AuthDb := make {
  users : table User.UserEntity;
  account_tokens : table AccountToken.AccountTokenEntity;
  mfa_recovery_codes : table Recovery.MfaRecoveryCodeEntity;
  mfa_security_events : table SecurityEvent.MfaSecurityEventEntity;
  user_identifiers : table Identifier.UserIdentifierEntity;
  user_roles : table Role.UserRoleEntity
}.
#[global] Instance AuthDb_eta : Eta AuthDb := λ r,
  make (users r) (account_tokens r) (mfa_recovery_codes r) (mfa_security_events r) (user_identifiers r) (user_roles r).
End AuthTables.
Abbreviation AuthDb := AuthTables.AuthDb.

(** ** The process state *)

(** The dictionary a session is stored as (session_service.py, [_store_session]). *)
Module Session.
Record SessionState := make {
  session_id : string;
  user_id : string;
  subject : string;
  token_version : Z;
  access_key : string;
  refresh_key : string
}.
#[global] Instance SessionState_eta : Eta SessionState := λ r,
  make (session_id r) (user_id r) (subject r) (token_version r) (access_key r) (refresh_key r).
#[global] Instance SessionState_eq_dec : EqDecision SessionState.
Proof. solve_decision. Defined.
End Session.
Abbreviation SessionState := Session.SessionState.

(** The calls to the other services: an e-mail for the notification service,
    with the payload it is sent, and the tenant core_api is asked to provision. *)
Record AccountEmail := mkAccountEmail {
  recipient : string;
  subject : string;
  content : string;
  html : string;
  idempotency_key : string
}.
Record TenantProvisioning := mkTenantProvisioning {
  owner_email : string;
  provisioned_name : string;
  default_locale : string;
  country_code : option string;
  owner_user_id : string
}.

Module Auth.
Record Auth := make {
  db : AuthDb;
  redis : keyspace SessionState;
  clock : Z;
  draws : N;
  outbox : list AccountEmail;
  provisioned : list TenantProvisioning
}.
#[global] Instance Auth_eta : Eta Auth := λ r,
  make (db r) (redis r) (clock r) (draws r) (outbox r) (provisioned r).
End Auth.
Abbreviation Auth := Auth.Auth.


#[export] Instance has_users : HasTable Auth User.UserEntity := {|
  get_table s := AuthTables.users (Auth.db s);
  put_table t s := s <| Auth.db ::= λ d, d <| AuthTables.users := t |> |>
|}.
#[export] Instance has_account_tokens : HasTable Auth AccountToken.AccountTokenEntity := {|
  get_table s := AuthTables.account_tokens (Auth.db s);
  put_table t s := s <| Auth.db ::= λ d, d <| AuthTables.account_tokens := t |> |>
|}.
#[export] Instance has_mfa_recovery_codes : HasTable Auth Recovery.MfaRecoveryCodeEntity := {|
  get_table s := AuthTables.mfa_recovery_codes (Auth.db s);
  put_table t s := s <| Auth.db ::= λ d, d <| AuthTables.mfa_recovery_codes := t |> |>
|}.
#[export] Instance has_mfa_security_events : HasTable Auth SecurityEvent.MfaSecurityEventEntity := {|
  get_table s := AuthTables.mfa_security_events (Auth.db s);
  put_table t s := s <| Auth.db ::= λ d, d <| AuthTables.mfa_security_events := t |> |>
|}.
#[export] Instance has_user_identifiers : HasTable Auth Identifier.UserIdentifierEntity := {|
  get_table s := AuthTables.user_identifiers (Auth.db s);
  put_table t s := s <| Auth.db ::= λ d, d <| AuthTables.user_identifiers := t |> |>
|}.
#[export] Instance has_user_roles : HasTable Auth Role.UserRoleEntity := {|
  get_table s := AuthTables.user_roles (Auth.db s);
  put_table t s := s <| Auth.db ::= λ d, d <| AuthTables.user_roles := t |> |>
|}.

(** ** Constraints and the session *)
Section constraints.
Import AuthTables.

Definition users_ok (d : AuthDb) : bool :=
  let l := live (users d) in
  primary_key l && unique_on (λ r, Some (User.email r)) l &&
  unique_on (λ r, Some (User.public_slug r)) l.
Definition account_tokens_ok (d : AuthDb) : bool :=
  let l := live (account_tokens d) in
  primary_key l && unique_on (λ r, Some (AccountToken.token_hash r)) l &&
  refers (λ r, Some (AccountToken.user_id r)) l (live (users d)).
Definition recovery_codes_ok (d : AuthDb) : bool :=
  let l := live (mfa_recovery_codes d) in
  primary_key l && refers (λ r, Some (Recovery.user_id r)) l (live (users d)).
Definition security_events_ok (d : AuthDb) : bool :=
  let l := live (mfa_security_events d) in
  primary_key l && refers (λ r, Some (SecurityEvent.user_id r)) l (live (users d)).
Definition present {A} (o : option A) : bool := match o with Some _ => true | None => false end.
(** [ck_user_identifier_protected_or_legacy] and [ck_user_identifier_country_code] *)
Definition protected_or_legacy (r : Identifier.UserIdentifierEntity) : bool :=
  let both_null := negb (present (Identifier.normalized_value_encrypted r)) &&
                   negb (present (Identifier.lookup_hmac r)) in
  let both_set := present (Identifier.normalized_value_encrypted r) &&
                  present (Identifier.lookup_hmac r) in
  if String.eqb (Identifier.verification_status r) "legacy" then both_null else both_set.
Definition upper_letter (c : ascii) : bool := is_alpha c && Ascii.eqb (upper_char c) c.
Definition country_code_ok (r : Identifier.UserIdentifierEntity) : bool :=
  Nat.eqb (String.length (Identifier.issuing_country r)) 2 &&
  all_chars upper_letter (Identifier.issuing_country r).
Definition identifiers_ok (d : AuthDb) : bool :=
  let l := live (user_identifiers d) in
  primary_key l &&
  unique_on (λ r, h ← Identifier.lookup_hmac r;
                  Some (Identifier.identifier_type r, Identifier.issuing_country r, h)) l &&
  forallb protected_or_legacy l && forallb country_code_ok l &&
  refers (λ r, Some (Identifier.user_id r)) l (live (users d)).
Definition roles_ok (d : AuthDb) : bool :=
  let l := live (user_roles d) in
  primary_key l && unique_on (λ r, Some (Role.user_id r, Role.role r)) l &&
  refers (λ r, Some (Role.user_id r)) l (live (users d)).

Definition auth_schema_ok (d : AuthDb) : bool :=
  users_ok d && account_tokens_ok d && recovery_codes_ok d && security_events_ok d &&
  identifiers_ok d && roles_ok d.

Definition flush_tables (d : AuthDb) : AuthDb :=
  make (flush_table (users d)) (flush_table (account_tokens d))
    (flush_table (mfa_recovery_codes d)) (flush_table (mfa_security_events d))
    (flush_table (user_identifiers d)) (flush_table (user_roles d)).
Definition clean_db (d : AuthDb) : Prop := flush_tables d = d.
Definition empty_db : AuthDb :=
  make empty_table empty_table empty_table empty_table empty_table empty_table.
End constraints.

(** A rollback gives the tables back and nothing else: Redis and the calls to
    other services are outside the transaction. *)
#[export] Instance auth_session : Session Auth := {|
  flush_session s :=
    if auth_schema_ok (Auth.db s) then Some (s <| Auth.db ::= flush_tables |>) else None;
  rollback_session s0 s := s <| Auth.db := Auth.db s0 |>
|}.

Lemma flush_auth s s' :
  flush_session s = Some s' ↔
  auth_schema_ok (Auth.db s) = true ∧ s' = s <| Auth.db ::= flush_tables |>.
Proof. unfold flush_session; simpl. destruct (auth_schema_ok _); naive_solver. Qed.

(** ** The environment of the services *)
Record Settings := mkSettings {
  AUTH_REDIS_KEY_PREFIX : string;
  AUTH_ACCESS_TTL_SECONDS : Z;
  AUTH_SESSION_TTL_SECONDS : Z;
  AUTH_EMAIL_VERIFICATION_TTL_SECONDS : Z;
  AUTH_PASSWORD_RESET_TTL_SECONDS : Z;
  AUTH_PUBLIC_WEB_URL : string;
  AUTH_MFA_ISSUER : string;
  AUTH_MFA_ENCRYPTION_KEY : string;
  AUTH_MFA_CHALLENGE_TTL_SECONDS : Z;
  AUTH_IDENTITY_ENCRYPTION_KEY : string;
  AUTH_IDENTITY_HMAC_KEY : string;
  AUTH_JP_MY_NUMBER_ENABLED : bool;
  CORE_INTERNAL_SERVICE_KEY : string;
  ENVIRONMENT : string;
  AUTH_TURNSTILE_SITE_KEY : string;
  AUTH_TURNSTILE_SECRET_KEY : string
}.

Class AuthEnv := {
  settings : Settings;
  sha256_hex : string → string;
  hmac_sha256_hex : string → string → string;
  (** [urlsafe_b64encode(sha256(secret).digest())]; [Fernet(key).encrypt(value)]
      with its random draw, and [Fernet(key).decrypt], [None] where it raises
      [InvalidToken]. *)
  derived_key : string → string;
  fernet_encrypt : N → string → string → string;
  fernet_decrypt : string → string → option string;
  (** The [n]-th random draw, as [uuid4()], [token_urlsafe(k)], [token_hex(k)]
      and [pyotp.random_base32()]. *)
  uuid4_of : N → N;
  token_of : N → nat → string;
  token_hex_of : N → nat → string;
  base32_of : N → string;
  (** [bcrypt.hashpw] with its salt, and [bcrypt.checkpw], [None] where it
      raises [ValueError]. *)
  bcrypt_hash : N → string → string;
  bcrypt_check : string → string → option bool;
  (** [pyotp.TOTP(secret)]: [verify(code, valid_window=1)] and [timecode] at an
      instant, and [provisioning_uri(name, issuer_name)]. *)
  totp_verify : string → string → Z → bool;
  totp_timecode : Z → Z;
  totp_uri : string → string → string → string;
  (** Does the notification service take this e-mail, and core_api this tenant? *)
  email_accepted : AccountEmail → bool;
  tenant_accepted : TenantProvisioning → bool;
  (** The collation of the database. *)
  text_le : string → string → bool
}.

Section auth_ops.
Context `{AuthEnv}.

Definition utc_now : M Auth Z := gets Auth.clock.
Definition draw : M Auth N :=
  λ s, (Ok (Auth.draws s), s <| Auth.draws ::= N.succ |>).
Definition uuid4 : M Auth N := n ← draw; mret (uuid4_of n).
Definition token_urlsafe (bytes : nat) : M Auth string := n ← draw; mret (token_of n bytes).
Definition token_hex (bytes : nat) : M Auth string := n ← draw; mret (token_hex_of n bytes).
Definition random_base32 : M Auth string := n ← draw; mret (base32_of n).

(** One command to Redis, at the time of the call. *)
Definition redis {A} (command : Z → M (keyspace SessionState) A) : M Auth A := λ s,
  let '(r, db) := command (Auth.clock s) (Auth.redis s) in (r, s <| Auth.redis := db |>).

(** passwords.py *)
Definition hash_password (password : string) : M Auth string :=
  salt ← draw; mret (bcrypt_hash salt password).
Definition verify_password (password password_hash : string) : bool :=
  match bcrypt_check password password_hash with Some b => b | None => false end.

(** mfa_crypto.py *)
Definition _fernet : string := derived_key (AUTH_MFA_ENCRYPTION_KEY settings).
Definition encrypt_secret (secret : string) : M Auth string :=
  n ← draw; mret (fernet_encrypt n _fernet secret).
Definition decrypt_secret (ciphertext : string) : M Auth string :=
  some_or (fernet_decrypt _fernet ciphertext) InvalidToken.
End auth_ops.

(** ** Consistent states *)
Definition consistent (s : Auth) : Prop :=
  clean_db (Auth.db s) ∧ auth_schema_ok (Auth.db s) = true.

Lemma auth_tables_idem d : flush_tables (flush_tables d) = flush_tables d.
Proof. reflexivity. Qed.

Lemma auth_flush_consistent s s' : flush_session s = Some s' → consistent s'.
Proof. rewrite flush_auth. by intros [Hok ->]. Qed.

Lemma auth_transaction_consistent {A} (m : M Auth A) s :
  consistent s → consistent (transaction m s).2.
Proof.
  intros Hs. unfold transaction. destruct (m s) as [[a|e] s1]; [|exact Hs].
  destruct (flush_session s1) eqn:E; [by apply auth_flush_consistent in E | exact Hs].
Qed.

(** * Roles and permissions (access_control_service.py) *)

Definition ROLE_PERMISSIONS : list (string * list string) :=
  [("signature_admin", ["*"]);
   ("signature_operator",
     ["documents:read"; "documents:write"; "signature_requests:read";
      "signature_requests:write"; "audit:read"]);
   ("signature_signer", ["signing:read"; "signing:write"]);
   ("signature_auditor", ["documents:read"; "signature_requests:read"; "audit:read"])].

(** [ROLE_PERMISSIONS.get(role, frozenset())] *)
Definition role_permissions (role : string) : list string :=
  match List.find (λ p, String.eqb p.1 role) ROLE_PERMISSIONS with
  | Some (_, l) => l
  | None => []
  end.

(** [sorted({permission for role in roles for permission in ...})] *)
Definition permissions_of (roles : list string) : list string :=
  order_by String.leb (remove_dups (concat (map role_permissions roles))).

Section access_control.
Context `{AuthEnv}.

(** The roles in the order of the database, the permissions in code point
    order. *)
Definition context_for_user (user_id : N) : M Auth (list string * list string) :=
  rows ← read_session (gets (λ s,
    order_by (λ a b, text_le (Role.role a) (Role.role b))
      (select_stored (λ r, N.eqb (Role.user_id r) user_id) (get_table s))));
  let roles := map Role.role rows in
  mret (roles, permissions_of roles).
End access_control.
