(* ===== verification/Mfa.v ===== *)
(** * Second factor (mfa_service.py)

    Enrolment of an authenticator, the verification of its codes and of recovery
    codes, and the security events.  A user passed to an operation is the object
    of the running session, given by its key. *)

From S2P Require Import Prelude.
From S2P Require Import PyText.
From S2P Require Import Orm.
From S2P Require Import Redis.
From S2P Require Import AuthDb.

Local Open Scope Z_scope.

Section mfa.
Context `{AuthEnv}.

Definition audit (user_id : N) (action : string) : M Auth unit :=
  event_id ← uuid4;
  now ← utc_now;
  add (SecurityEvent.make event_id user_id action [] now None).

Definition _user (subject : string) : M Auth User.UserEntity :=
  user ← scalar (λ u, String.eqb (User.email u) (lower subject) &&
                      negb (present (User.deleted_at u)));
  some_or user (MfaError "User not found").

Definition _verify_totp (secret code : string) : M Auth bool :=
  now ← utc_now;
  mret (totp_verify secret (remove_char " " code) now).

Definition setup (subject : string) : M Auth (string * string) :=
  secret ← random_base32;
  transaction (
    user ← _user subject;
    ciphertext ← encrypt_secret secret;
    assign (User.id user) (λ u, u <| User.mfa_pending_secret_ciphertext := Some ciphertext |>);;
    audit (User.id user) "mfa.setup_started");;
  mret (secret, totp_uri secret subject (AUTH_MFA_ISSUER settings)).

(** [[token_hex(5).upper() for _ in range(8)]] *)
Definition fresh_recovery_codes : M Auth (list string) :=
  mapM (λ _, code ← token_hex 5; mret (upper code)) (seq 0 8).

(** The codes of a user are replaced; only their hashes are stored. *)
Definition replace_recovery_codes (user_id : N) : M Auth (list string) :=
  execute_delete (λ r, N.eqb (Recovery.user_id r) user_id);;
  recovery_codes ← fresh_recovery_codes;
  for_each (λ item,
    code_hash ← hash_password item;
    code_id ← uuid4;
    now ← utc_now;
    add (Recovery.make code_id user_id code_hash None now None)) recovery_codes;;
  mret recovery_codes.

Definition confirm (subject code : string) : M Auth (list string) :=
  transaction (
    user ← _user subject;
    raise_if (negb (opt_nonempty (User.mfa_pending_secret_ciphertext user)))
      (MfaError "MFA setup has not been started");;
    secret ← decrypt_secret (from_option id "" (User.mfa_pending_secret_ciphertext user));
    valid ← _verify_totp secret code;
    raise_if (negb valid) (MfaError "MFA code is invalid");;
    now ← utc_now;
    assign (User.id user) (λ u, u
      <| User.mfa_secret_ciphertext := User.mfa_pending_secret_ciphertext user |>
      <| User.mfa_pending_secret_ciphertext := None |>
      <| User.mfa_enabled := true |>
      <| User.mfa_last_used_step := Some (totp_timecode now) |>);;
    recovery_codes ← replace_recovery_codes (User.id user);
    audit (User.id user) "mfa.enabled";;
    mret recovery_codes).

(** The recovery codes a user can still use. *)
Definition unused_code (user_id : N) (r : Recovery.MfaRecoveryCodeEntity) : bool :=
  N.eqb (Recovery.user_id r) user_id && negb (present (Recovery.consumed_at r)) &&
  negb (present (Recovery.deleted_at r)).

(** Enabled, required by policy, setup required, recovery codes left. *)
Definition status (subject : string) : M Auth (bool * bool * bool * Z) :=
  read_session (
    user ← _user subject;
    remaining ← count (unused_code (User.id user));
    mret (User.mfa_enabled user, true, negb (User.mfa_enabled user), remaining)).

(** [for recovery in recovery_codes: ...]: the first code that matches is used
    up. *)
Fixpoint consume_recovery (normalized : string) (codes : list Recovery.MfaRecoveryCodeEntity)
    : M Auth bool :=
  match codes with
  | [] => mret false
  | recovery :: codes' =>
      if verify_password normalized (Recovery.code_hash recovery) then
        now ← utc_now;
        assign (Recovery.id recovery) (λ r, r <| Recovery.consumed_at := Some now |>);;
        mret true
      else consume_recovery normalized codes'
  end.

Definition verify_recovery_code (user_id : N) (normalized : string) : M Auth bool :=
  recovery_codes ← scalars (unused_code user_id);
  consume_recovery normalized recovery_codes.

(** [code.replace("-", "").replace(" ", "").upper()] *)
Definition normalize_code (code : string) : string :=
  upper (remove_char " " (remove_char "-" code)).

(** A step of the authenticator counts once. *)
Definition step_used (last_used : option Z) (step : Z) : bool :=
  match last_used with Some l => step <=? l | None => false end.

Definition verify_user_code (user_id : N) (code : string) : M Auth bool :=
  let normalized := normalize_code code in
  user ← deref user_id;
  if opt_nonempty (User.mfa_secret_ciphertext user) then
    secret ← decrypt_secret (from_option id "" (User.mfa_secret_ciphertext user));
    now ← utc_now;
    if totp_verify secret normalized now then
      let step := totp_timecode now in
      if step_used (User.mfa_last_used_step user) step then mret false
      else
        assign user_id (λ u, u <| User.mfa_last_used_step := Some step |>);;
        mret true
    else verify_recovery_code user_id normalized
  else verify_recovery_code user_id normalized.

Definition regenerate_recovery_codes (subject password code : string) : M Auth (list string) :=
  transaction (
    user ← _user subject;
    raise_if (negb (verify_password password (User.password_hash user)))
      (MfaError "Password is invalid");;
    valid ← (if User.mfa_enabled user then verify_user_code (User.id user) code
             else mret false);
    raise_if (negb valid) (MfaError "MFA code is invalid");;
    recovery_codes ← replace_recovery_codes (User.id user);
    audit (User.id user) "mfa.recovery_codes_regenerated";;
    mret recovery_codes).

Definition disable (subject password code : string) : M Auth unit :=
  raise (MfaError "MFA is required for every account").
End mfa.
