(* ===== verification/Sessions.v ===== *)
(** * Sessions (session_service.py)

    A session is a dictionary under its own key; an access token and a refresh
    token point to it, and a set per user lists the sessions.  Login, the second
    factor, rotation of the refresh token and revocation, over Redis and the
    user table.

    Tokens appear in Redis only as keys, hashed.  A structured text is read back
    as the dictionary it encodes ([json.loads] undoes [json.dumps]). *)

From S2P Require Import Prelude.
From S2P Require Import PyText.
From S2P Require Import Json.
From S2P Require Import Orm.
From S2P Require Import Redis.
From S2P Require Import AuthDb.
From S2P Require Import Mfa.

Local Open Scope Z_scope.

(** session_schema.py *)
Record LoginRequest := mkLoginRequest {
  lr_email : string; lr_password : string; lr_turnstile_token : option string
}.
Record LoginResponse := mkLoginResponse {
  access_token : string; refresh_token : string; lr_session_id : string
}.
Record MfaChallengeResponse := mkMfaChallengeResponse {
  mfa_ticket : string; expires_in : Z
}.
Inductive login_answer :=
| LoggedIn (r : LoginResponse)
| Challenged (c : MfaChallengeResponse).
Record SessionRead := mkSessionRead { sr_session_id : string; sr_subject : string }.
Record UiContextResponse := mkUiContextResponse {
  ui_subject : string; ui_user_id : string; ui_email : string;
  ui_account_public_slug : string; ui_preferred_locale : string;
  ui_mfa_enabled : bool; ui_mfa_setup_required : bool;
  ui_roles : list string; ui_permission_keys : list string; ui_capability_hash : string
}.

Section sessions.
Context `{AuthEnv}.

(** ** Keys *)
Definition prefixed (rest : string) : string :=
  AUTH_REDIS_KEY_PREFIX settings +:+ ":" +:+ rest.
Definition _token_key (kind token : string) : string :=
  prefixed (kind +:+ ":" +:+ sha256_hex token).
Definition _session_key (session_id : string) : string := prefixed ("session:" +:+ session_id).
Definition _user_sessions_key (user_id : string) : string :=
  prefixed ("user:" +:+ user_id +:+ ":sessions").
Definition _new_token (kind : string) : M Auth string :=
  random ← token_urlsafe 32; mret (kind +:+ "_" +:+ random).

(** [UUID(str(value))], or the integer identifiers of older sessions. *)
Definition _user_identifier (value : string) : result N :=
  match parse_uuid value with
  | Some u => Ok u
  | None =>
      match parse_int value with
      | Some z => if (0 <=? z) && (z <? 2 ^ 128) then Ok (Z.to_N z)
                  else Err (ValueError "int is out of range (need a 128-bit value)")
      | None => Err (ValueError "invalid literal for int() with base 10")
      end
  end.
Definition numeric (value : string) : bool := nonempty value && all_chars is_digit value.

(** The sets a session of this user may be listed in. *)
Definition user_sets (user_id : string) : result (list string) :=
  u ← _user_identifier user_id;
  mret (_user_sessions_key (uuid_str u) ::
        (if numeric user_id then [_user_sessions_key user_id] else [])).

(** ** Reading the store *)

(** [json.dumps(state)] *)
Definition dumps_state (st : SessionState) : string :=
  let item k v := json_str k +:+ ": " +:+ v in
  "{" +:+ join ", "
    [item "session_id" (json_str (Session.session_id st));
     item "user_id" (json_str (Session.user_id st));
     item "subject" (json_str (Session.subject st));
     item "token_version" (show_Z (Session.token_version st));
     item "access_key" (json_str (Session.access_key st));
     item "refresh_key" (json_str (Session.refresh_key st))] +:+ "}".
Definition reply_text (v : rvalue SessionState) : string :=
  match v with
  | RText s => s
  | RCount n => show_Z n
  | RJson st => dumps_state st
  | RSet _ => ""
  end.
Definition get_text (k : string) : M Auth (option string) :=
  v ← redis (λ now, GET now k); mret (reply_text <$> v).

Definition _load_state (session_id : option string) : M Auth (option SessionState) :=
  match session_id with
  | Some sid =>
      if nonempty sid then
        v ← redis (λ now, GET now (_session_key sid));
        match v with
        | None | Some (RText "") => mret None
        | Some (RJson st) => mret (Some st)
        | Some _ => raise (ValueError "not a session state")
        end
      else mret None
  | None => mret None
  end.

(** The field a token of this kind must be named in. *)
Definition key_of (kind : string) (st : SessionState) : option string :=
  if String.eqb kind "access" then Some (Session.access_key st)
  else if String.eqb kind "refresh" then Some (Session.refresh_key st)
  else None.
Definition names_key (kind token_key : string) (st : SessionState) : bool :=
  match key_of kind st with Some k => String.eqb k token_key | None => false end.

Definition _state_for_token (kind token : string) : M Auth (option SessionState) :=
  session_id ← get_text (_token_key kind token);
  state ← _load_state session_id;
  mret (match state with
        | Some st => if names_key kind (_token_key kind token) st then Some st else None
        | None => None
        end).

Definition _user_is_active (st : SessionState) : M Auth bool :=
  user_id ← lift (_user_identifier (Session.user_id st));
  user ← read_session (get (R := User.UserEntity) user_id);
  mret (match user with
        | Some u => User.is_active u &&
                    Z.eqb (User.token_version u) (Session.token_version st)
        | None => false
        end).

(** ** Creating and revoking *)
Definition _store_session (session_id : string) (user_id : N) (subject : string)
    (token_version : Z) : M Auth LoginResponse :=
  access_token ← _new_token "access";
  refresh_token ← _new_token "refresh";
  let st := Session.make session_id (uuid_str user_id) subject token_version
              (_token_key "access" access_token) (_token_key "refresh" refresh_token) in
  redis (λ now, SET now (_session_key session_id) (RJson st) (AUTH_SESSION_TTL_SECONDS settings));;
  redis (λ now, SET now (Session.access_key st) (RText session_id)
                  (AUTH_ACCESS_TTL_SECONDS settings));;
  redis (λ now, SET now (Session.refresh_key st) (RText session_id)
                  (AUTH_SESSION_TTL_SECONDS settings));;
  redis (λ now, SADD now (_user_sessions_key (uuid_str user_id)) session_id);;
  redis (λ now, EXPIRE now (_user_sessions_key (uuid_str user_id))
                  (AUTH_SESSION_TTL_SECONDS settings));;
  mret (mkLoginResponse access_token refresh_token session_id).

Definition _create_session (user_id : N) : M Auth LoginResponse :=
  user ← deref user_id;
  session_id ← token_urlsafe 18;
  _store_session session_id (User.id user) (User.email user) (User.token_version user).

Definition _create_mfa_challenge (user_id : N) : M Auth MfaChallengeResponse :=
  ticket ← token_urlsafe 48;
  redis (λ now, SET now (_token_key "mfa" ticket) (RText (uuid_str user_id))
                  (AUTH_MFA_CHALLENGE_TTL_SECONDS settings));;
  mret (mkMfaChallengeResponse ticket (AUTH_MFA_CHALLENGE_TTL_SECONDS settings)).

Definition _revoke_state (st : SessionState) : M Auth unit :=
  redis (λ _, DEL [Session.access_key st; Session.refresh_key st;
                   _session_key (Session.session_id st)]);;
  session_keys ← lift (user_sets (Session.user_id st));
  for_each (λ key, redis (λ now, SREM now key (Session.session_id st))) session_keys.

(** ** Operations *)

(** A counter that expires a given time after its first increment. *)
Definition count_attempt (key : string) (ttl_seconds : Z) : M Auth Z :=
  attempts ← redis (λ now, INCR now key);
  when (attempts =? 1) (redis (λ now, EXPIRE now key ttl_seconds));;
  mret attempts.

Definition login (payload : LoginRequest) : M Auth (option login_answer) :=
  let normalized_email := lower (strip (lr_email payload)) in
  let rate_key := _token_key "login-attempts" normalized_email in
  attempts ← count_attempt rate_key 300;
  if 10 <? attempts then mret None
  else read_session (
    user ← scalar (λ u, String.eqb (User.email u) normalized_email);
    match user with
    | None => mret None
    | Some user =>
        if negb (User.is_active user) || negb (User.email_verified user) then mret None
        else if negb (verify_password (lr_password payload) (User.password_hash user))
        then mret None
        else
          redis (λ _, DEL [rate_key]);;
          if User.mfa_enabled user
          then c ← _create_mfa_challenge (User.id user); mret (Some (Challenged c))
          else r ← _create_session (User.id user); mret (Some (LoggedIn r))
    end).

(** The call once its attempt is counted. *)
Definition answer_challenge (ticket code : string) (attempts : Z) : M Auth (option LoginResponse) :=
  let challenge_key := _token_key "mfa" ticket in
  let attempt_key := _token_key "mfa-attempts" ticket in
  if 5 <? attempts
  then redis (λ _, DEL [challenge_key; attempt_key]);; mret None
  else
    raw_user_id ← get_text challenge_key;
    if negb (opt_nonempty raw_user_id) then mret None
    else transaction (
      user_id ← lift (_user_identifier (from_option id "" raw_user_id));
      user ← scalar (λ u, N.eqb (User.id u) user_id);
      match user with
      | None => mret None
      | Some user =>
          if negb (User.is_active user) || negb (User.email_verified user) ||
             negb (User.mfa_enabled user)
          then mret None
          else
            valid ← verify_user_code (User.id user) code;
            if negb valid then
              audit (User.id user) "mfa.challenge_failed";;
              when (5 <=? attempts) (redis (λ _, DEL [challenge_key; attempt_key]));;
              mret None
            else
              audit (User.id user) "mfa.challenge_succeeded";;
              redis (λ _, DEL [challenge_key; attempt_key]);;
              r ← _create_session (User.id user);
              mret (Some r)
      end).
Definition complete_mfa_challenge (ticket code : string) : M Auth (option LoginResponse) :=
  attempts ← count_attempt (_token_key "mfa-attempts" ticket)
               (AUTH_MFA_CHALLENGE_TTL_SECONDS settings);
  answer_challenge ticket code attempts.

(** [_ROTATE_REFRESH_SCRIPT], one atomic step of the server: [k1] the refresh
    key, [k2] the session, [k3] and [k4] the next access and refresh keys, [k5]
    the record of the used token, [k6] the user's set. *)
Definition _ROTATE_REFRESH_SCRIPT (k1 k2 k3 k4 k5 k6 session_id : string)
    (next_state : SessionState) (session_ttl access_ttl now : Z)
    : M (keyspace SessionState) Z :=
  held ← GET now k1;
  if negb (bool_decide ((reply_text <$> held) = Some session_id)) then mret 0
  else
    raw ← GET now k2;
    match raw with
    | None => mret 0
    | Some (RJson current) =>
        if negb (String.eqb (Session.refresh_key current) k1) then mret 0
        else
          DEL [Session.access_key current; k1];;
          SET now k2 (RJson next_state) session_ttl;;
          SET now k3 (RText session_id) access_ttl;;
          SET now k4 (RText session_id) session_ttl;;
          SET now k5 (RText session_id) session_ttl;;
          SADD now k6 session_id;;
          EXPIRE now k6 session_ttl;;
          mret 1
    | Some _ => raise (ResponseError "Expected value but found invalid token")
    end.

(** A refresh token that was rotated away revokes the session it belonged to. *)
Definition revoke_reused (refresh_token : string) : M Auth unit :=
  used_session ← get_text (_token_key "used-refresh" refresh_token);
  when (opt_nonempty used_session) (
    reused_state ← _load_state used_session;
    match reused_state with
    | Some st => _revoke_state st
    | None => mret tt
    end).

(** The rotation proper, from the state the token was found to name. *)
Definition rotate (refresh_token : string) (st : SessionState) : M Auth (option LoginResponse) :=
  access_token ← _new_token "access";
  next_refresh_token ← _new_token "refresh";
  let next_state := st <| Session.access_key := _token_key "access" access_token |>
                       <| Session.refresh_key := _token_key "refresh" next_refresh_token |> in
  user_id ← lift (_user_identifier (Session.user_id st));
  rotated ← redis (_ROTATE_REFRESH_SCRIPT (Session.refresh_key st)
    (_session_key (Session.session_id st)) (Session.access_key next_state)
    (Session.refresh_key next_state) (_token_key "used-refresh" refresh_token)
    (_user_sessions_key (uuid_str user_id)) (Session.session_id st) next_state
    (AUTH_SESSION_TTL_SECONDS settings) (AUTH_ACCESS_TTL_SECONDS settings));
  mret (if rotated =? 1
        then Some (mkLoginResponse access_token next_refresh_token (Session.session_id st))
        else None).

Definition refresh (refresh_token : string) : M Auth (option LoginResponse) :=
  state ← _state_for_token "refresh" refresh_token;
  match state with
  | None => revoke_reused refresh_token;; mret None
  | Some st =>
      active ← _user_is_active st;
      if negb active then _revoke_state st;; mret None
      else rotate refresh_token st
  end.

Definition current_session (access_token : string) : M Auth (option SessionRead) :=
  state ← _state_for_token "access" access_token;
  match state with
  | None => mret None
  | Some st =>
      active ← _user_is_active st;
      mret (if (active : bool) then Some (mkSessionRead (Session.session_id st) (Session.subject st))
            else None)
  end.

Definition logout (access_token : string) : M Auth bool :=
  state ← _state_for_token "access" access_token;
  match state with
  | None => mret false
  | Some st => _revoke_state st;; mret true
  end.

Definition revoke_session (session_id : string) : M Auth unit :=
  stored ← _load_state (Some session_id);
  match stored with
  | Some st => _revoke_state st
  | None => mret tt
  end.

(** The sets are unordered; the sessions are visited in some order. *)
Definition logout_all (access_token : string) : M Auth bool :=
  state ← _state_for_token "access" access_token;
  match state with
  | None => mret false
  | Some st =>
      session_keys ← lift (user_sets (Session.user_id st));
      session_sets ← mapM (M := M Auth) (λ key, redis (λ now, SMEMBERS now key)) session_keys;
      for_each revoke_session (elements (union_list session_sets));;
      redis (λ _, DEL session_keys);;
      mret true
  end.

Definition allow_mfa_operation (subject operation : string) (limit ttl_seconds : Z)
    : M Auth bool :=
  let digest := sha256_hex (lower subject) in
  let key := prefixed ("mfa-rate:" +:+ operation +:+ ":" +:+ digest) in
  attempts ← count_attempt key ttl_seconds;
  mret (attempts <=? limit).

Definition ui_context (token : string) : M Auth (option UiContextResponse) :=
  session ← current_session token;
  match session with
  | None => mret None
  | Some session =>
  state ← _state_for_token "access" token;
  match state with
  | None => mret None
  | Some st =>
      user_id ← lift (_user_identifier (Session.user_id st));
      context ← context_for_user user_id;
      user ← read_session (get (R := User.UserEntity) user_id);
      let fingerprint :=
        sha256_hex (sr_subject session +:+ ":" +:+ sr_session_id session) in
      match user with
      | None => raise AttributeError
      | Some u =>
          let setup_required := negb (User.mfa_enabled u || User.mfa_exempt u) in
          mret (Some (mkUiContextResponse (sr_subject session) (uuid_str (User.id u))
            (User.email u) (User.public_slug u) (User.preferred_locale u) (User.mfa_enabled u)
            setup_required
            (if setup_required then [] else context.1)
            (if setup_required then [] else context.2) fingerprint))
      end
  end
  end.
End sessions.
