(* ===== verification/EmailTemplates.v ===== *)
(** * E-mails (shared_kernel/email_templates.py)

    The messages of the services as HTML and as text.  User supplied texts enter
    the HTML escaped.

    Strings are UTF-8 and Python counts code points, so the subject is cut after
    160 of those.  In the HTML literals of this file an apostrophe stands for the
    double quote. *)

From S2P Require Import Prelude.
From S2P Require Import PyText.
From S2P Require Import Json.
From S2P Require Import Localization.

(** The texts of the account e-mails, per locale. *)
Record AccountCopy := mkAccountCopy {
  activation_subject : string;
  activation_eyebrow : string;
  activation_title : string;
  activation_intro : string;
  activation_body : string;
  activation_action : string;
  recovery_subject : string;
  recovery_eyebrow : string;
  recovery_title : string;
  recovery_intro : string;
  recovery_body : string;
  recovery_action : string;
  expiry : string
}.
(** The texts of the signature invitation, per locale. *)
Record InvitationCopy := mkInvitationCopy {
  invitation_subject : string;
  invitation_eyebrow : string;
  invitation_title : string;
  invitation_text : string;
  invitation_account : string;
  invitation_action : string;
  invitation_note : string
}.

(** [ACCOUNT_COPY] *)
Definition ACCOUNT_COPY : list (string * AccountCopy) := [
  ("en", mkAccountCopy
    "Activate your Rubrica account"
    "WELCOME TO RUBRICA"
    "Create your password"
    "Your Rubrica account is ready."
    "Confirm your email and choose a password to access your workspace."
    "Activate account"
    "Reset your Rubrica password"
    "ACCOUNT SECURITY"
    "Reset your password"
    "We received a request to reset your Rubrica password."
    "Use the button below to choose a new password. If you did not request this, you can ignore this email."
    "Choose new password"
    "For your security, this link expires and can only be used once.");
  ("pt-BR", mkAccountCopy
    "Ative sua conta Rubrica"
    "BEM-VINDO AO RUBRICA"
    "Crie sua senha"
    "Sua conta Rubrica está pronta."
    "Confirme seu e-mail e escolha uma senha para acessar seu espaço de trabalho."
    "Ativar conta"
    "Redefina sua senha do Rubrica"
    "SEGURANÇA DA CONTA"
    "Redefina sua senha"
    "Recebemos uma solicitação para redefinir sua senha do Rubrica."
    "Use o botão abaixo para escolher uma nova senha. Se não foi você, ignore este e-mail."
    "Escolher nova senha"
    "Para sua segurança, este link expira e só pode ser usado uma vez.");
  ("es", mkAccountCopy
    "Activa tu cuenta de Rubrica"
    "BIENVENIDO A RUBRICA"
    "Crea tu contraseña"
    "Tu cuenta de Rubrica está lista."
    "Confirma tu correo y elige una contraseña para acceder a tu espacio de trabajo."
    "Activar cuenta"
    "Restablece tu contraseña de Rubrica"
    "SEGURIDAD DE LA CUENTA"
    "Restablece tu contraseña"
    "Recibimos una solicitud para restablecer tu contraseña de Rubrica."
    "Usa el botón para elegir una nueva contraseña. Si no lo solicitaste, ignora este correo."
    "Elegir nueva contraseña"
    "Por tu seguridad, este enlace caduca y solo puede utilizarse una vez.");
  ("ja-JP", mkAccountCopy
    "Rubrica アカウントを有効にする"
    "RUBRICA へようこそ"
    "パスワードを作成"
    "Rubrica アカウントの準備ができました。"
    "メールアドレスを確認し、ワークスペースにアクセスするためのパスワードを設定してください。"
    "アカウントを有効にする"
    "Rubrica のパスワードを再設定"
    "アカウントセキュリティ"
    "パスワードを再設定"
    "Rubrica のパスワード再設定リクエストを受け付けました。"
    "下のボタンから新しいパスワードを設定してください。心当たりがない場合は、このメールを無視してください。"
    "新しいパスワードを設定"
    "安全のため、このリンクには有効期限があり、一度だけ使用できます。")
].
(** [SIGNATURE_INVITATION_COPY] *)
Definition SIGNATURE_INVITATION_COPY : list (string * InvitationCopy) := [
  ("en", mkInvitationCopy
    "Rubrica: signature requested for {document}"
    "DOCUMENT FOR SIGNATURE"
    "Your signature was requested"
    "You were invited to review and sign “{document}”."
    "Sign in with the Rubrica account associated with this email address."
    "Review and sign document"
    "This is a private access link. Do not forward this email. You can also scan the QR Code with your phone.");
  ("pt-BR", mkInvitationCopy
    "Rubrica: assinatura solicitada para {document}"
    "DOCUMENTO PARA ASSINATURA"
    "Sua assinatura foi solicitada"
    "Você foi convidado para revisar e assinar “{document}”."
    "Entre com a conta Rubrica associada a este endereço de e-mail."
    "Revisar e assinar documento"
    "Este é um link de acesso privado. Não encaminhe este e-mail. Você também pode escanear o QR Code com seu celular.");
  ("es", mkInvitationCopy
    "Rubrica: firma solicitada para {document}"
    "DOCUMENTO PARA FIRMAR"
    "Se solicitó tu firma"
    "Te invitaron a revisar y firmar “{document}”."
    "Inicia sesión con la cuenta Rubrica asociada a esta dirección de correo."
    "Revisar y firmar documento"
    "Este es un enlace de acceso privado. No reenvíes este correo. También puedes escanear el código QR con tu teléfono.");
  ("ja-JP", mkInvitationCopy
    "Rubrica: {document} の署名依頼"
    "署名対象文書"
    "署名が依頼されました"
    "「{document}」の確認と署名を依頼されています。"
    "このメールアドレスに関連付けられた Rubrica アカウントでログインしてください。"
    "文書を確認して署名する"
    "これは非公開のアクセスリンクです。このメールを転送しないでください。スマートフォンで QR コードを読み取ることもできます。")
].

(** ** Code points *)

(** The bytes of a UTF-8 text, one list per code point. *)
Definition continues (c : ascii) : bool :=
  let n := N_of_ascii c in (128 <=? n)%N && (n <? 192)%N.
Fixpoint code_points (l : list ascii) : list (list ascii) :=
  match l with
  | [] => []
  | c :: cs =>
      match code_points cs with
      | (d :: p) :: ps => if continues d then (c :: d :: p) :: ps else [c] :: (d :: p) :: ps
      | ps => [c] :: ps
      end
  end.
(** The blank characters outside ASCII: NEL, no-break space, ogham space, en quad
    to hair space, line and paragraph separators, narrow no-break space,
    mathematical space and ideographic space. *)
Definition wide_spaces : list (list N) :=
  [[194; 133]; [194; 160]; [225; 154; 128];
   [226; 128; 128]; [226; 128; 129]; [226; 128; 130]; [226; 128; 131]; [226; 128; 132];
   [226; 128; 133]; [226; 128; 134]; [226; 128; 135]; [226; 128; 136]; [226; 128; 137];
   [226; 128; 138]; [226; 128; 168]; [226; 128; 169]; [226; 128; 175]; [226; 129; 159];
   [227; 128; 128]]%N.
Definition blank (p : list ascii) : bool :=
  match p with
  | [c] => is_space c
  | _ => bool_decide (map N_of_ascii p ∈ wide_spaces)
  end.

(** [s.split()]: the runs of code points that are not blank. *)
Fixpoint words_from (ps : list (list ascii)) (word : list (list ascii)) : list (list (list ascii)) :=
  let close rest := match word with [] => rest | _ => rev word :: rest end in
  match ps with
  | [] => close []
  | p :: ps' => if blank p then close (words_from ps' []) else words_from ps' (p :: word)
  end.
Definition words (s : string) : list string :=
  map (λ w, text (concat w)) (words_from (code_points (chars s)) []).
(** [s[:n]] *)
Definition take_points (n : nat) (s : string) : string :=
  text (concat (take n (code_points (chars s)))).
(** [bool(s.strip())] *)
Definition not_blank (s : string) : bool :=
  existsb (λ p, negb (blank p)) (code_points (chars s)).

(** [s.split("\n\n")] *)
Definition newline : ascii := ascii_of_N 10.
Fixpoint paragraphs_from (l part : list ascii) : list (list ascii) :=
  match l with
  | [] => [rev part]
  | c :: l' =>
      match l' with
      | d :: l'' =>
          if Ascii.eqb c newline && Ascii.eqb d newline then rev part :: paragraphs_from l'' []
          else paragraphs_from l' (c :: part)
      | [] => [rev (c :: part)]
      end
  end.
Definition split_paragraphs (s : string) : list string := map text (paragraphs_from (chars s) []).

(** ** HTML *)

(** [html.escape(s)] *)
Definition escape_char (c : ascii) : list ascii :=
  if Ascii.eqb c "&" then chars "&amp;"
  else if Ascii.eqb c "<" then chars "&lt;"
  else if Ascii.eqb c ">" then chars "&gt;"
  else if Ascii.eqb c dquote then chars "&quot;"
  else if Ascii.eqb c squote then chars "&#x27;"
  else [c].
Definition escape (s : string) : string := text (concat (map escape_char (chars s))).
(** [.replace(chr(10), '<br>')] *)
Definition break_lines (s : string) : string :=
  text (concat (map (λ c, if Ascii.eqb c newline then chars "<br>" else [c]) (chars s))).

(** A literal of the template: apostrophes for double quotes. *)
Definition html_literal (s : string) : string := replace_char squote dquote s.

Record InlineEmailImage := mkInlineEmailImage {
  image_content : string; image_filename : string; image_content_id : string;
  image_content_type : string
}.
Record RenderedEmail := mkRenderedEmail {
  mail_subject : string; mail_text : string; mail_html : string;
  mail_inline_images : list InlineEmailImage
}.

Definition BRAND_MARK_CONTENT_ID : string := "rubrica-brand-mark".

(** The arguments of [_branded_email]. *)
Record Branded := mkBranded {
  br_subject : string; br_eyebrow : string; br_title : string; br_paragraphs : list string;
  br_public_url : string; br_greeting_name : option string; br_action_label : option string;
  br_action_url : option string; br_note : option string; br_qr_content_id : option string;
  br_inline_images : list InlineEmailImage
}.

(** The picture files: the brand mark read from the assets, and the QR code the
    qrcode library draws, both in base64. *)
Class MailAssets := {
  brand_mark_png : string;
  qr_png : string → string
}.

Definition concat_str (l : list string) : string := fold_right String.append "" l.

Section templates.
Context `{MailAssets}.

Definition clean_subject (subject : string) : string :=
  take_points 160 (join " " (words subject)).

Definition safe_paragraph (paragraph : string) : string :=
  concat_str
    [html_literal "<p style='margin:0 0 18px;color:#62494d;font-size:16px;line-height:1.65'>";
     break_lines (escape paragraph); "</p>"].
Definition safe_paragraphs (paragraphs : list string) : string :=
  concat_str (map safe_paragraph paragraphs).

Definition greeting (greeting_name : option string) : string :=
  match greeting_name with
  | Some name =>
      if nonempty name then
        concat_str
          [html_literal "<p style='margin:0 0 18px;color:#30191d;font-size:17px;font-weight:700'>";
           "Hello, "; escape name; ".</p>"]
      else ""
  | None => ""
  end.

(** The label and the address of the button, when there is one. *)
Definition button (label url : option string) : option (string * string) :=
  match label, url with
  | Some l, Some u => if nonempty l && nonempty u then Some (l, u) else None
  | _, _ => None
  end.
Definition action (label url : option string) : string :=
  match button label url with
  | Some (action_label, action_url) =>
      let safe_url := escape action_url in
      concat_str
        [html_literal "<table role='presentation' cellspacing='0' cellpadding='0' style='margin:28px 0'>";
         html_literal "<tr><td style='border-radius:999px;background:#a82035'><a href='";
         safe_url;
         html_literal "' style='display:inline-block;padding:14px 24px;color:#ffffff;text-decoration:none;font-size:16px;font-weight:800'>";
         escape action_label; "</a></td></tr></table>";
         html_literal "<p style='margin:0 0 18px;color:#8a7377;font-size:12px;line-height:1.55'>";
         "If the button does not work, copy and paste this address into your browser:<br>";
         html_literal "<a href='"; safe_url;
         html_literal "' style='color:#8f1d2c;word-break:break-all'>"; safe_url; "</a></p>"]
  | None => ""
  end.

Definition qr_picture (qr_content_id : option string) : string :=
  match qr_content_id with
  | Some content_id =>
      if nonempty content_id then
        concat_str
          [html_literal "<div style='margin:26px 0 10px;padding:20px;border:1px solid #ead8d5;";
           html_literal "border-radius:16px;background:#fffaf8;text-align:center'>";
           html_literal "<img src='cid:"; escape content_id;
           html_literal "' width='210' height='210' ";
           html_literal "alt='QR Code for the secure signing link' style='display:block;margin:0 auto;max-width:100%;height:auto'>";
           html_literal "<p style='margin:10px 0 0;color:#80676b;font-size:13px'>Scan to open on your phone</p></div>"]
      else ""
  | None => ""
  end.

Definition note_html (note : option string) : string :=
  match note with
  | Some n =>
      if nonempty n then
        concat_str
          [html_literal "<div style='margin-top:26px;padding:14px 16px;border-left:4px solid #a82035;";
           html_literal "background:#fff0ee;color:#6f575b;font-size:13px;line-height:1.55'>";
           escape n; "</div>"]
      else ""
  | None => ""
  end.

Definition line (s : string) : string := s +:+ text [newline].

Definition branded_html (b : Branded) : string :=
  let safe_root := escape (rstrip_slash (br_public_url b)) in
  concat_str
    [line "<!doctype html>";
     line (html_literal "<html><body style='margin:0;padding:0;background:#f6f1ef;font-family:Arial,sans-serif'>");
     html_literal "<div style='display:none;max-height:0;overflow:hidden;color:transparent'>";
     escape (clean_subject (br_subject b)); line "</div>";
     line (html_literal "<table role='presentation' width='100%' cellspacing='0' cellpadding='0' style='background:#f6f1ef'>");
     line (html_literal "<tr><td align='center' style='padding:32px 14px'>");
     line (html_literal "<table role='presentation' width='100%' cellspacing='0' cellpadding='0' style='max-width:620px;background:#ffffff;border:1px solid #ead8d5;border-radius:22px;overflow:hidden'>");
     line (html_literal "<tr><td style='padding:24px 34px;background:#3b151d'>");
     html_literal "<a href='"; safe_root;
     line (html_literal "' style='display:inline-block;color:#ffffff;text-decoration:none'>");
     line (html_literal "<table role='presentation' cellspacing='0' cellpadding='0'><tr>");
     line (html_literal "<td width='40' height='40' align='center' valign='middle' style='width:40px;height:40px'>");
     html_literal "<img src='cid:"; BRAND_MARK_CONTENT_ID;
     line (html_literal "' width='40' height='40' alt='Rubrica' style='display:block;width:40px;height:40px;border:0'>");
     line "</td>";
     line (html_literal "<td style='padding-left:11px;color:#ffffff;font-family:Arial,sans-serif;font-size:22px;font-weight:800;line-height:40px'>Rubrica</td>");
     line "</tr></table></a>";
     line "</td></tr>";
     line (html_literal "<tr><td style='padding:38px 34px 34px'>");
     html_literal "<div style='margin-bottom:12px;color:#a82035;font-size:12px;font-weight:900;letter-spacing:2px'>";
     escape (br_eyebrow b); line "</div>";
     html_literal "<h1 style='margin:0 0 24px;color:#3b151d;font-family:Georgia,serif;font-size:34px;line-height:1.15;font-weight:500'>";
     escape (br_title b); line "</h1>";
     greeting (br_greeting_name b); safe_paragraphs (br_paragraphs b);
     action (br_action_label b) (br_action_url b); qr_picture (br_qr_content_id b);
     line (note_html (br_note b));
     line "</td></tr>";
     line (html_literal "<tr><td style='padding:22px 34px;border-top:1px solid #eadcda;background:#fffaf8;color:#8a7377;font-size:12px;line-height:1.6'>");
     html_literal "Rubrica · Secure electronic signatures<br><a href='"; safe_root;
     html_literal "' style='color:#8f1d2c;text-decoration:none'>"; safe_root; line "</a>";
     line "</td></tr></table>";
     "</td></tr></table></body></html>"].

Definition branded_text (b : Branded) : string :=
  join (text [newline; newline])
    ([clean_subject (br_subject b)] ++
     (match br_greeting_name b with
      | Some name => if nonempty name then ["Hello, " +:+ name +:+ "."] else []
      | None => []
      end) ++
     br_paragraphs b ++
     (match button (br_action_label b) (br_action_url b) with
      | Some (label, url) => [label; url]
      | None => []
      end) ++
     (match br_note b with
      | Some n => if nonempty n then [n] else []
      | None => []
      end) ++
     ["Rubrica · " +:+ rstrip_slash (br_public_url b)]).

Definition _brand_mark : InlineEmailImage :=
  mkInlineEmailImage brand_mark_png "rubrica-mark.png" BRAND_MARK_CONTENT_ID "image/png".
Definition _qr_code (value : string) : InlineEmailImage :=
  mkInlineEmailImage (qr_png value) "rubrica-signing-qr.png" "rubrica-signing-qr" "image/png".

Definition _branded_email (b : Branded) : RenderedEmail :=
  mkRenderedEmail (clean_subject (br_subject b)) (branded_text b) (branded_html b)
    (_brand_mark :: br_inline_images b).

(** [ACCOUNT_COPY[normalize_locale(locale)]] *)
Definition copy_for {A} (copies : list (string * A)) (locale : string) : result A :=
  match List.find (λ p, String.eqb p.1 (normalize_locale (JStr locale))) copies with
  | Some (_, c) => Ok c
  | None => Err KeyError
  end.

Definition account_activation_email (name : option string) (action_url locale public_url : string)
    : result RenderedEmail :=
  copy ← copy_for ACCOUNT_COPY locale;
  Ok (_branded_email (mkBranded (activation_subject copy) (activation_eyebrow copy)
    (activation_title copy) [activation_intro copy; activation_body copy] public_url name
    (Some (activation_action copy)) (Some action_url) (Some (expiry copy)) None [])).

Definition password_recovery_email (name : option string) (action_url locale public_url : string)
    : result RenderedEmail :=
  copy ← copy_for ACCOUNT_COPY locale;
  Ok (_branded_email (mkBranded (recovery_subject copy) (recovery_eyebrow copy)
    (recovery_title copy) [recovery_intro copy; recovery_body copy] public_url name
    (Some (recovery_action copy)) (Some action_url) (Some (expiry copy)) None [])).

Definition signature_invitation_email
    (signer_name document_title signing_url locale public_url : string) : result RenderedEmail :=
  copy ← copy_for SIGNATURE_INVITATION_COPY locale;
  let qr_image := _qr_code signing_url in
  subject ← py_format (invitation_subject copy) [("document", document_title)];
  invitation ← py_format (invitation_text copy) [("document", document_title)];
  Ok (_branded_email (mkBranded subject (invitation_eyebrow copy) (invitation_title copy)
    [invitation; invitation_account copy] public_url (Some signer_name)
    (Some (invitation_action copy)) (Some signing_url) (Some (invitation_note copy))
    (Some (image_content_id qr_image)) [qr_image])).

Definition branded_message_email (subject body public_url eyebrow : string) : RenderedEmail :=
  let parts := List.filter not_blank (split_paragraphs body) in
  _branded_email (mkBranded subject eyebrow subject
    (match parts with [] => [body] | _ => parts end) public_url None None None None None []).

(** [RenderedEmail.as_payload] *)
Definition as_payload (m : RenderedEmail) (recipient idempotency_key : string) : json :=
  JObj [("recipient", JStr recipient); ("subject", JStr (mail_subject m));
        ("content", JStr (mail_text m)); ("html", JStr (mail_html m));
        ("inline_images", JArr (map (λ i, JObj
           [("content", JStr (image_content i)); ("filename", JStr (image_filename i));
            ("content_id", JStr (image_content_id i));
            ("content_type", JStr (image_content_type i))]) (mail_inline_images m)));
        ("idempotency_key", JStr idempotency_key)].
End templates.
