(* ===== verification/Eventing.v ===== *)
(** * The event outbox (src/apps/eventing_api)

    The outbox table with its constraints, the service that registers an event,
    the queries of the repository, the projections, and the endpoints
    (outbox_entity.py, outbox_repository.py, outbox_service.py, outbox_router.py,
    projections/service.py, projections/routes.py and the lists of the other
    routers), with the errors they answer (shared_kernel/errors).  The columns
    [updated_at] and [deleted_at], which nothing reads, and [OutboxRepository.get],
    which has no caller, are left out. *)

From S2P Require Import Prelude.
From S2P Require Import PyText.
From S2P Require Import Json.
From S2P Require Import Http.
From S2P Require Import Errors.
From S2P Require Import DateTime.
From S2P Require Import Orm.
From S2P Require Import EmailTemplates.

Local Open Scope Z_scope.

(** ** The table *)
Module OutboxStatus.
Definition PENDING : string := "pending".
Definition PUBLISHED : string := "published".
Definition FAILED : string := "failed".
End OutboxStatus.

Module OutboxEvent.
Record OutboxEvent := make {
  id : N; event_id : N; event_type : string; version : Z; source : string; topic : string;
  actor_type : string; actor_id : string; payload : json; status : string; attempts : Z;
  occurred_at : Z; available_at : Z; published_at : option Z; last_error : option string;
  created_at : Z
}.
#[global] Instance OutboxEvent_eta : Eta OutboxEvent := λ e,
  make (id e) (event_id e) (event_type e) (version e) (source e) (topic e) (actor_type e)
    (actor_id e) (payload e) (status e) (attempts e) (occurred_at e) (available_at e)
    (published_at e) (last_error e) (created_at e).
#[global] Instance OutboxEvent_entity : Entity OutboxEvent := id.
End OutboxEvent.
Abbreviation OutboxEvent := OutboxEvent.OutboxEvent.

(** [OutboxEvent.mark_published] and [OutboxEvent.mark_failed] *)
Definition mark_published (now : Z) (e : OutboxEvent) : OutboxEvent :=
  e <| OutboxEvent.status := OutboxStatus.PUBLISHED |> <| OutboxEvent.published_at := Some now |>
    <| OutboxEvent.last_error := None |>.
Definition outbox_mark_failed (error : string) (e : OutboxEvent) : OutboxEvent :=
  e <| OutboxEvent.status := OutboxStatus.FAILED |> <| OutboxEvent.attempts ::= Z.succ |>
    <| OutboxEvent.last_error := Some (take_points 2000 error) |>.

(** A text fits a column of [n] characters, without the character the database
    does not store; an integer fits 32 bits. *)
Definition text_fits (n : nat) (s : string) : bool :=
  Nat.leb (length (code_points (chars s))) n &&
  negb (existsb (Ascii.eqb (ascii_of_N 0)) (chars s)).
Definition integer_fits (z : Z) : bool := (- 2 ^ 31 <=? z) && (z <? 2 ^ 31).
Definition event_fits (e : OutboxEvent) : bool :=
  text_fits 180 (OutboxEvent.event_type e) && integer_fits (OutboxEvent.version e) &&
  text_fits 80 (OutboxEvent.source e) && text_fits 180 (OutboxEvent.topic e) &&
  text_fits 40 (OutboxEvent.actor_type e) && text_fits 180 (OutboxEvent.actor_id e).
Definition outbox_ok (t : table OutboxEvent) : bool :=
  primary_key (live t) && unique_on (λ e, Some (OutboxEvent.event_id e)) (live t).

(** The process: the table, the clock and the draws of identifiers. *)
Module Eventing.
Record Eventing := make { outbox : table OutboxEvent; clock : Z; draws : N }.
#[global] Instance Eventing_eta : Eta Eventing := λ s, make (outbox s) (clock s) (draws s).
End Eventing.
Abbreviation Eventing := Eventing.Eventing.

#[export] Instance eventing_outbox : HasTable Eventing OutboxEvent :=
  {| get_table := Eventing.outbox; put_table t s := s <| Eventing.outbox := t |> |}.
#[export] Instance eventing_session : Session Eventing := {|
  flush_session s :=
    if outbox_ok (Eventing.outbox s) then Some (s <| Eventing.outbox ::= flush_table |>) else None;
  rollback_session s0 s := s <| Eventing.outbox := Eventing.outbox s0 |>
|}.

Class EventingEnv := {
  event_uuid4 : N → N;
  DEFAULT_EVENT_TOPIC : string;
  DEAD_LETTER_TOPIC : string;
  EVENTING_KAFKA_ENABLED : bool;
  EVENTING_SERVICE_NAME : string;
  EVENTING_ENVIRONMENT : string
}.

(** ** Payloads (outbox_schema.py) *)
Record EventActor := mkEventActor { actor_kind : string; actor_ref : string }.
Record EventIn := mkEventIn {
  ei_event_id : N; ei_event_type : string; ei_occurred_at : option Z; ei_source : string;
  ei_version : Z; ei_topic : option string; ei_actor : EventActor; ei_payload : json
}.
(** The bounds of the fields: what the framework finds outside of them. *)
Definition finding (place : list string) (says kind : string) := [(place, says, kind)].
Definition length_findings (name : string) (limit : nat) (value : string) :=
  if Nat.eqb (length (code_points (chars value))) 0
  then finding ["body"; name] "String should have at least 1 character" "string_too_short"
  else if Nat.ltb limit (length (code_points (chars value)))
  then finding ["body"; name]
         ("String should have at most " +:+ show_Z (Z.of_nat limit) +:+ " characters") "string_too_long"
  else [].
Definition minimum_findings (place : list string) (low value : Z) :=
  if value <? low
  then finding place ("Input should be greater than or equal to " +:+ show_Z low) "greater_than_equal"
  else [].
Definition maximum_findings (place : list string) (high value : Z) :=
  if high <? value
  then finding place ("Input should be less than or equal to " +:+ show_Z high) "less_than_equal"
  else [].
Definition validated (findings : list (list string * string * string)) : result unit :=
  match findings with [] => Ok tt | _ => Err (RequestValidationError findings) end.
Definition event_in (payload : EventIn) : result unit :=
  validated (length_findings "event_type" 180 (ei_event_type payload) ++
             length_findings "source" 80 (ei_source payload) ++
             minimum_findings ["body"; "version"] 1 (ei_version payload)).
(** [Query(ge=1, le=100)] *)
Definition query_limit (limit : Z) : result unit :=
  validated (minimum_findings ["query"; "limit"] 1 limit ++ maximum_findings ["query"; "limit"] 100 limit).
Record OutboxRecord := mkOutboxRecord {
  or_event_id : N; or_event_type : string; or_version : Z; or_source : string; or_topic : string;
  or_actor_type : string; or_actor_id : string; or_payload : json; or_status : string;
  or_attempts : Z; or_occurred_at : Z; or_available_at : Z; or_published_at : option Z;
  or_last_error : option string
}.
Definition record_of (e : OutboxEvent) : OutboxRecord :=
  mkOutboxRecord (OutboxEvent.event_id e) (OutboxEvent.event_type e) (OutboxEvent.version e)
    (OutboxEvent.source e) (OutboxEvent.topic e) (OutboxEvent.actor_type e) (OutboxEvent.actor_id e)
    (OutboxEvent.payload e) (OutboxEvent.status e) (OutboxEvent.attempts e)
    (OutboxEvent.occurred_at e) (OutboxEvent.available_at e) (OutboxEvent.published_at e)
    (OutboxEvent.last_error e).

(** ** LIKE: [%] any text, [_] any character, a backslash takes the next one as it is *)
Fixpoint like (p : list ascii) : list ascii → bool :=
  match p with
  | [] => λ s, match s with [] => true | _ => false end
  | c :: p' =>
      if Ascii.eqb c "%" then
        (fix any s := like p' s || match s with [] => false | _ :: s' => any s' end)
      else if Ascii.eqb c "_" then λ s, match s with [] => false | _ :: s' => like p' s' end
      else if Ascii.eqb c "\" then
        match p' with
        | d :: p'' => λ s, match s with x :: s' => Ascii.eqb x d && like p'' s' | [] => false end
        | [] => λ _, false
        end
      else λ s, match s with x :: s' => Ascii.eqb x c && like p' s' | [] => false end
  end.
(** [column.like(f"{prefix}.%")], unless the prefix is empty. *)
Definition in_family (prefix : option string) (e : OutboxEvent) : bool :=
  match prefix with
  | Some p => negb (nonempty p) || like (chars (p +:+ ".%")) (chars (OutboxEvent.event_type e))
  | None => true
  end.

Section repository.
Context `{EventingEnv}.

Definition event_now : M Eventing Z := gets Eventing.clock.
Definition event_uuid : M Eventing N := λ s,
  (Ok (event_uuid4 (Eventing.draws s)), s <| Eventing.draws ::= N.succ |>).

(** ** The repository *)
(** The statement of a flush fails on values its columns cannot hold. *)
Definition flush_events : M Eventing unit := λ s,
  if forallb event_fits (live (Eventing.outbox s)) then flush s else (Err DataError, s).
Definition add_event (event : OutboxEvent) : M Eventing OutboxEvent :=
  add event;; flush_events;; deref (OutboxEvent.id event).

Definition newest (a b : OutboxEvent) : bool := OutboxEvent.created_at b <=? OutboxEvent.created_at a.
(** A limit is a count the database can hold. *)
Definition limit_fits (limit : Z) : bool := (0 <=? limit) && (limit <? 2 ^ 63).
Definition list_events (status event_type_prefix : option string) (limit : Z)
    : M Eventing (list OutboxEvent) :=
  raise_if (negb (limit_fits limit)) DataError;;
  rows ← scalars_ordered newest (λ e,
    (negb (opt_nonempty status) || String.eqb (OutboxEvent.status e) (from_option id "" status)) &&
    in_family event_type_prefix e);
  mret (take (Z.to_nat limit) rows).

(** [select(column, count).group_by(column)], as the dictionary it becomes. *)
Definition counts_by (column : OutboxEvent → string) (rows : list OutboxEvent) : list (string * Z) :=
  fold_left (λ d e, dset (column e) (from_option id 0 (dget (column e) d) + 1) d) rows [].
Definition status_counts (event_type_prefix : option string) : M Eventing (list (string * Z)) :=
  rows ← columns (in_family event_type_prefix); mret (counts_by OutboxEvent.status rows).
Definition event_type_counts (event_type_prefix : option string) : M Eventing (list (string * Z)) :=
  rows ← columns (in_family event_type_prefix); mret (counts_by OutboxEvent.event_type rows).

Definition available_first (a b : OutboxEvent) : bool :=
  OutboxEvent.available_at a <=? OutboxEvent.available_at b.
Definition pending_events (limit : Z) : M Eventing (list OutboxEvent) :=
  raise_if (negb (limit_fits limit)) DataError;;
  rows ← scalars_ordered available_first (λ e, String.eqb (OutboxEvent.status e) OutboxStatus.PENDING);
  mret (take (Z.to_nat limit) rows).

(** ** The services *)
Definition register_outbox (payload : EventIn) : M Eventing OutboxEvent :=
  now ← event_now;
  i ← event_uuid;
  add_event (OutboxEvent.make i (ei_event_id payload) (ei_event_type payload) (ei_version payload)
    (ei_source payload)
    (if opt_nonempty (ei_topic payload) then from_option id "" (ei_topic payload)
     else DEFAULT_EVENT_TOPIC)
    (actor_kind (ei_actor payload)) (actor_ref (ei_actor payload)) (ei_payload payload)
    OutboxStatus.PENDING 0 (from_option id now (ei_occurred_at payload)) now None None now).

Record LatestEvent := mkLatestEvent {
  le_event_id : N; le_event_type : string; le_source : string; le_status : string;
  le_actor_type : string; le_actor_id : string; le_occurred_at : Z
}.
Definition latest_of (e : OutboxEvent) : LatestEvent :=
  mkLatestEvent (OutboxEvent.event_id e) (OutboxEvent.event_type e) (OutboxEvent.source e)
    (OutboxEvent.status e) (OutboxEvent.actor_type e) (OutboxEvent.actor_id e)
    (OutboxEvent.occurred_at e).
Record EventFamily := mkEventFamily {
  ef_family : string; ef_total : Z; ef_counts_by_event_type : list (string * Z);
  ef_counts_by_status : list (string * Z); ef_latest_events : list LatestEvent
}.
Definition event_family (event_type_prefix : option string) (limit : Z) : M Eventing EventFamily :=
  events ← list_events None event_type_prefix limit;
  counts_by_event_type ← event_type_counts event_type_prefix;
  counts_by_status ← status_counts event_type_prefix;
  mret (mkEventFamily
    (if opt_nonempty event_type_prefix then from_option id "" event_type_prefix else "all")
    (foldr Z.add 0 (dvalues counts_by_event_type)) counts_by_event_type counts_by_status
    (map latest_of events)).

(** ** The endpoints: a session per request, committed when the endpoint returns *)
Definition register_event (payload : EventIn) : M Eventing OutboxRecord :=
  lift (event_in payload);;
  transaction (event ← register_outbox payload; mret (record_of event)).
Definition list_outbox (status : option string) (limit : Z) : M Eventing (list OutboxRecord) :=
  transaction (events ← list_events status None limit; mret (map record_of events)).
(** [_projection] *)
Definition _projection (event_type_prefix : option string) (limit : Z) : M Eventing EventFamily :=
  lift (query_limit limit);; transaction (event_family event_type_prefix limit).
Definition outbox_summary (limit : Z) : M Eventing EventFamily := _projection None limit.
Definition auth_session_audit (limit : Z) : M Eventing EventFamily :=
  _projection (Some "auth") limit.
Definition notification_delivery (limit : Z) : M Eventing EventFamily :=
  _projection (Some "notification") limit.

Definition list_projections : json := JObj [("projections", JArr
  (map (λ name, JObj [("name", JStr name); ("status", JStr "available")])
     ["outbox-summary"; "auth-session-audit"; "notification-delivery"]))].
Definition list_event_contracts : json := JObj
  [("contracts", JArr (map JStr
     ["contracts/events/core/document-uploaded.v1.schema.json";
      "contracts/events/core/signature-request-opened.v1.schema.json";
      "contracts/events/core/signature-completed.v1.schema.json";
      "contracts/events/core/tenant-created.v1.schema.json"]));
   ("default_topic", JStr DEFAULT_EVENT_TOPIC); ("dead_letter_topic", JStr DEAD_LETTER_TOPIC)].
Definition list_schemas : json := JObj [("schemas", JArr (map JStr
  ["document-uploaded.v1"; "signature-request-opened.v1"; "signature-completed.v1"; "tenant-created.v1"]))].
Definition list_streams : json := JObj
  [("streams", JArr [JStr "default"]); ("status", JStr "planned")].
Definition list_topics : json := JObj
  [("default", JStr DEFAULT_EVENT_TOPIC); ("dead_letter", JStr DEAD_LETTER_TOPIC);
   ("kafka_enabled", JBool EVENTING_KAFKA_ENABLED)].
Definition health_check : json := JObj
  [("status", JStr "ok"); ("service", JStr EVENTING_SERVICE_NAME);
   ("environment", JStr EVENTING_ENVIRONMENT)].

(** [create_app]: what a request is answered; the status of an answer is the endpoint's. *)
Definition eventing_answer {A} (status : Z) (path fresh : string) (request : HttpRequest) (r : result A)
    : Z * (A + json) :=
  match r with
  | Ok a => (status, inl a)
  | Err e => let response := error_response EVENTING_SERVICE_NAME path fresh request e in
             (er_status response, inr (er_content response))
  end.
End repository.
