(* ===== verification/EventingFacts.v ===== *)
(** * What the outbox keeps and the projections tell *)

From S2P Require Import Prelude.
From S2P Require Import PyText.
From S2P Require Import Json.
From S2P Require Import Http.
From S2P Require Import Errors.
From S2P Require Import DateTime.
From S2P Require Import Orm.
From S2P Require Import EmailTemplates.
From S2P Require Import Eventing.

Local Open Scope Z_scope.

(** ** Counting by a column *)
Section counting.
Context (column : OutboxEvent → string).
Implicit Types (rows : list OutboxEvent) (d : list (string * Z)).

Definition tally_of d (k : string) : Z := from_option id 0 (dget k d).
Definition total_of d : Z := foldr Z.add 0 (dvalues d).
Definition count_one d (k : string) : list (string * Z) := dset k (tally_of d k + 1) d.

Lemma count_one_total d k : total_of (count_one d k) = total_of d + 1.
Proof.
  unfold count_one, total_of, tally_of. induction d as [|[k' v] d IH]; [done|]. simpl.
  destruct (bool_decide (k = k')) eqn:E; simpl; [lia|]. rewrite IH. lia.
Qed.
Lemma count_one_tally d k k' :
  tally_of (count_one d k) k' = tally_of d k' + (if String.eqb k k' then 1 else 0).
Proof.
  unfold count_one, tally_of. destruct (String.eqb_spec k k') as [->|Hne].
  - by rewrite dget_set.
  - rewrite dget_set_ne by done. lia.
Qed.

Definition has_value (k : string) (e : OutboxEvent) : bool := String.eqb (column e) k.
Lemma counts_total_from rows d :
  total_of (fold_left (λ d e, count_one d (column e)) rows d) = total_of d + Z.of_nat (length rows).
Proof.
  revert d. induction rows as [|e rows IH]; intros d; simpl; [lia|]. rewrite IH, count_one_total. lia.
Qed.
Lemma counts_tally_from rows d k :
  tally_of (fold_left (λ d e, count_one d (column e)) rows d) k =
  tally_of d k + Z.of_nat (length (List.filter (has_value k) rows)).
Proof.
  revert d. induction rows as [|e rows IH]; intros d; simpl; [lia|]. rewrite IH, count_one_tally.
  unfold has_value at 2. destruct (String.eqb (column e) k); simpl; lia.
Qed.
Lemma counts_total rows : total_of (counts_by column rows) = Z.of_nat (length rows).
Proof. exact (counts_total_from rows []). Qed.
Lemma counts_tally rows k :
  tally_of (counts_by column rows) k = Z.of_nat (length (List.filter (has_value k) rows)).
Proof. exact (counts_tally_from rows [] k). Qed.
End counting.

(** ** Ordered queries *)
Lemma newest_sorted l : StronglySorted (λ a b, Is_true (newest a b)) (order_by newest l).
Proof.
  apply StronglySorted_merge_sort.
  - intros a b c. unfold newest. rewrite !Is_true_true, !Z.leb_le. lia.
  - intros a b. unfold newest. rewrite !Is_true_true, !Z.leb_le. lia.
Qed.
Lemma sorted_front {A} (R : A → A → Prop) n l x y :
  StronglySorted R l → In x (take n l) → In y (drop n l) → R x y.
Proof.
  intros Hs. revert n. induction Hs as [|z l Hs IH Hall]; intros [|n]; simpl; try done.
  intros [->|Hx] Hy; [|by apply (IH n)]. rewrite Forall_forall in Hall. apply Hall.
  apply list_elem_of_In. rewrite <- (take_drop n l). apply in_or_app. by right.
Qed.

Lemma sorted_take {A} (R : A → A → Prop) n l : StronglySorted R l → StronglySorted R (take n l).
Proof.
  intros Hs. revert n. induction Hs as [|x l Hs IH Hall]; intros [|n]; simpl; constructor; [apply IH|].
  by apply Forall_take.
Qed.
Lemma sorted_impl {A} (R R' : A → A → Prop) l :
  (∀ x y, R x y → R' x y) → StronglySorted R l → StronglySorted R' l.
Proof.
  intros HR. induction 1 as [|x l _ IH Hall]; constructor; [done|].
  eapply Forall_impl; [exact Hall|]. intros y. apply HR.
Qed.

Section facts.
Context `{EventingEnv}.
Implicit Types s : Eventing.

Definition event_rows s : list OutboxEvent := live (Eventing.outbox s).
Definition outbox_consistent s : Prop := clean (Eventing.outbox s) ∧ outbox_ok (Eventing.outbox s) = true.

Lemma events_keyed s : outbox_consistent s → keys_distinct (event_rows s).
Proof. intros [_ Hok]. apply andb_true_iff in Hok as [Hk _]. by apply primary_key_distinct in Hk. Qed.

(** ** The projections *)
Lemma list_events_run status prefix limit s :
  outbox_consistent s → limit_fits limit = true →
  list_events status prefix limit s = (Ok (take (Z.to_nat limit) (order_by newest (List.filter (λ e,
    (negb (opt_nonempty status) || String.eqb (OutboxEvent.status e) (from_option id "" status)) &&
    in_family prefix e) (event_rows s)))), s).
Proof.
  intros Hs Hl. unfold list_events, raise_if. rewrite Hl. cbn [negb].
  unfold mbind at 1, M_bind at 1. cbn [mret M_ret]. unfold scalars_ordered, gets, mbind, M_bind. cbn.
  rewrite select_ordered_clean; [done|apply Hs|by apply events_keyed].
Qed.

Lemma event_family_run prefix limit s :
  outbox_consistent s → limit_fits limit = true →
  let rows := List.filter (in_family prefix) (event_rows s) in
  event_family prefix limit s = (Ok (mkEventFamily
    (if opt_nonempty prefix then from_option id "" prefix else "all")
    (total_of (counts_by OutboxEvent.event_type rows)) (counts_by OutboxEvent.event_type rows)
    (counts_by OutboxEvent.status rows)
    (map latest_of (take (Z.to_nat limit) (order_by newest rows)))), s).
Proof.
  intros Hs Hl. cbv zeta. unfold event_family.
  rewrite (bind_step_ok _ _ _ _ _ (list_events_run None prefix limit s Hs Hl)).
  unfold event_type_counts, status_counts, columns, gets, mbind, M_bind. cbn.
  unfold event_rows. by rewrite (select_stored_clean _ _ (proj1 Hs)).
Qed.

Lemma projection_run prefix limit s :
  outbox_consistent s → 1 ≤ limit ≤ 100 → _projection prefix limit s = event_family prefix limit s.
Proof.
  intros Hs [H1 H2]. unfold _projection, query_limit, minimum_findings, maximum_findings.
  rewrite (proj2 (Z.ltb_ge limit 1) H1), (proj2 (Z.ltb_ge 100 limit) H2).
  unfold lift, transaction. unfold mbind, M_bind. cbn [app validated].
  rewrite event_family_run by (try done; unfold limit_fits; lia).
  unfold flush_session. cbn. destruct s as [t c n], Hs as [Hc Ho]. cbn in *. rewrite Ho.
  unfold flush_table. unfold clean in Hc. by destruct t; cbn in *; subst.
Qed.

(** ** Registration *)
Definition with_rows (rows : list OutboxEvent) s : Eventing := s <| Eventing.outbox := Table rows rows |>.

Lemma add_event_run e s :
  let rows := event_rows s ++ [e] in
  add_event e s =
    if negb (forallb event_fits rows) then (Err DataError, s <| Eventing.outbox ::= add_row e |>)
    else if outbox_ok (Table rows rows) then (Ok e, with_rows rows s)
    else (Err IntegrityError, s <| Eventing.outbox ::= add_row e |>).
Proof.
  intros rows. unfold add_event, add, modify_table, modify, flush_events, mbind, M_bind.
  cbn -[flush deref forallb]. fold (event_rows s). fold rows.
  destruct (forallb event_fits rows); cbn -[flush deref]; [|done].
  unfold flush, flush_session. cbn -[deref].
  change (outbox_ok (add_row e (Eventing.outbox s))) with (outbox_ok (Table rows rows)).
  destruct (outbox_ok (Table rows rows)) eqn:Eo; cbn -[deref]; [|done].
  apply andb_true_iff in Eo as [Ek%primary_key_distinct _]. cbn in Ek.
  apply deref_ok. split; [|done].
  exact (find_row_in rows e Ek ltac:(apply in_or_app; right; by left)).
Qed.

(** The row of a registration. *)
Definition registered (payload : EventIn) s : OutboxEvent :=
  OutboxEvent.make (event_uuid4 (Eventing.draws s)) (ei_event_id payload)
    (ei_event_type payload) (ei_version payload) (ei_source payload)
    (if opt_nonempty (ei_topic payload) then from_option id "" (ei_topic payload)
     else DEFAULT_EVENT_TOPIC)
    (actor_kind (ei_actor payload)) (actor_ref (ei_actor payload)) (ei_payload payload)
    OutboxStatus.PENDING 0 (from_option id (Eventing.clock s) (ei_occurred_at payload))
    (Eventing.clock s) None None (Eventing.clock s).
Definition drawn_one s : Eventing := s <| Eventing.draws ::= N.succ |>.

Lemma register_event_run payload s :
  outbox_consistent s →
  let e := registered payload s in
  let rows := event_rows s ++ [e] in
  register_event payload s =
    match event_in payload with Err e => (Err e, s) | Ok _ =>
    if negb (forallb event_fits rows) then (Err DataError, drawn_one s)
    else if outbox_ok (Table rows rows) then (Ok (record_of e), with_rows rows (drawn_one s))
    else (Err IntegrityError, drawn_one s)
    end.
Proof.
  intros [Hc _] e rows. unfold register_event, transaction, lift. unfold mbind at 1, M_bind at 1.
  destruct (event_in payload) as [[]|]; [|done].
  assert (E : register_outbox payload s = add_event e (drawn_one s)) by done.
  unfold mbind at 1, M_bind at 1. rewrite E, add_event_run. change (event_rows (drawn_one s)) with (event_rows s).
  fold rows. assert (Er : ∀ t, rollback_session s (drawn_one s <| Eventing.outbox := t |>) = drawn_one s)
    by (intros t; by destruct s).
  destruct (negb (forallb event_fits rows)); [f_equal; apply Er|].
  destruct (outbox_ok (Table rows rows)) eqn:Eo; [|f_equal; apply Er].
  cbn [mret M_ret]. unfold flush_session. cbn -[record_of]. by rewrite Eo.
Qed.

(** ** What happens to the outbox: registrations, marks of a publisher, time *)
Inductive mark := Published (now : Z) | Failed (error : string).
Definition mark_event (m : mark) : OutboxEvent → OutboxEvent :=
  match m with Published now => mark_published now | Failed error => outbox_mark_failed error end.
Inductive eventing_step : relation Eventing :=
| step_register payload s : eventing_step s (register_event payload s).2
| step_mark k m s :
    eventing_step s (transaction (assign (R := OutboxEvent) k (mark_event m)) s).2
| step_time now n s :
    eventing_step s (s <| Eventing.clock := now |> <| Eventing.draws := n |>).

(** What an event says, which no mark changes. *)
Definition event_terms (e : OutboxEvent) :=
  (OutboxEvent.id e, OutboxEvent.event_id e, OutboxEvent.event_type e, OutboxEvent.version e,
   OutboxEvent.source e, OutboxEvent.topic e, OutboxEvent.actor_type e, OutboxEvent.actor_id e,
   OutboxEvent.payload e, OutboxEvent.occurred_at e, OutboxEvent.created_at e).
Definition keeps_events s s' : Prop :=
  ∃ more, map event_terms (event_rows s') = map event_terms (event_rows s) ++ more.

Lemma mark_terms m e : event_terms (mark_event m e) = event_terms e.
Proof. by destruct m. Qed.
Lemma alter_terms m k l : map event_terms (alter_rows (mark_event m) k l) = map event_terms l.
Proof.
  unfold alter_rows. rewrite map_map. apply map_ext. intros e. destruct (has_id k e); [apply mark_terms|done].
Qed.

Lemma step_keeps s s' : outbox_consistent s → eventing_step s s' → outbox_consistent s' ∧ keeps_events s s'.
Proof.
  intros Hs Hstep. destruct Hstep as [payload s|k m s|now n s].
  - rewrite register_event_run by done. cbv zeta.
    destruct (event_in payload) as [[]|]; [|split; [exact Hs|by exists []; rewrite app_nil_r]].
    destruct (negb _); [split; [exact Hs|by exists []; rewrite app_nil_r]|].
    destruct (outbox_ok _) eqn:Eo; [|split; [exact Hs|by exists []; rewrite app_nil_r]].
    split; [by split|]. exists [event_terms (registered payload s)].
    unfold event_rows at 1. cbn. by rewrite map_app.
  - unfold transaction, assign, modify_table, modify. cbn -[flush_session rollback_session].
    set (s1 := s <| Eventing.outbox ::= mutate (mark_event m) k |>).
    assert (Et : map event_terms (event_rows s1) = map event_terms (event_rows s)) by apply alter_terms.
    change (put_table _ s) with s1.
    unfold flush_session. cbn. destruct (outbox_ok _) eqn:Eo; cbn.
    + split; [by split|]. exists []. by rewrite app_nil_r.
    + destruct s. split; [exact Hs|]. exists []. by rewrite app_nil_r.
  - split; [exact Hs|]. exists []. by rewrite app_nil_r.
Qed.
Lemma steps_keep s s' :
  outbox_consistent s → rtc eventing_step s s' → outbox_consistent s' ∧ keeps_events s s'.
Proof.
  intros Hs Hr. revert Hs. induction Hr as [s|s1 s2 s3 H1 _ IH]; intros Hs.
  - split; [done|]. exists []. by rewrite app_nil_r.
  - destruct (step_keeps _ _ Hs H1) as [H2 [m2 E2]]. destruct (IH H2) as [H3 [m3 E3]].
    split; [done|]. exists (m2 ++ m3). by rewrite E3, E2, app_assoc.
Qed.
End facts.

(** ** Families *)
Definition plain (c : ascii) : bool :=
  negb (Ascii.eqb c "%" || Ascii.eqb c "_" || Ascii.eqb c "\").
Lemma like_any s : like ["%"%char] s = true.
Proof. induction s as [|c s IH]; [done|]. cbn in *. by rewrite IH. Qed.
Lemma like_plain p q s :
  forallb plain p = true →
  like (p ++ q) s = bool_decide (take (length p) s = p) && like q (drop (length p) s).
Proof.
  revert s. induction p as [|c p IH]; intros s Hp; [done|].
  cbn in Hp. apply andb_true_iff in Hp as [Hc Hp]. unfold plain in Hc.
  apply negb_true_iff, orb_false_iff in Hc as [[E1 E2]%orb_false_iff E3].
  cbn [app like]. rewrite E1, E2, E3. destruct s as [|x s]; [done|].
  rewrite (IH s Hp). cbn. destruct (Ascii.eqb_spec x c) as [->|Hne].
  - cbn. f_equal. apply bool_decide_ext. split; [by intros ->|by intros [=]].
  - symmetry. apply andb_false_iff. left. apply bool_decide_eq_false. by intros [=].
Qed.

(** The family of a prefix: the types that start with it and a point. *)
Lemma family_of_prefix p e :
  nonempty p = true → forallb plain (chars p) = true →
  in_family (Some p) e = true ↔ ∃ rest, OutboxEvent.event_type e = p +:+ "." +:+ rest.
Proof.
  intros Hne Hp. unfold in_family. rewrite Hne. cbn [negb orb].
  assert (E : chars (p +:+ ".%") = (chars p ++ ["."%char]) ++ ["%"%char])
    by (by rewrite chars_append, <- app_assoc).
  rewrite E, like_plain by (by rewrite forallb_app, Hp). rewrite like_any, andb_true_r, bool_decide_eq_true.
  set (t := OutboxEvent.event_type e). split.
  - intros Ht. exists (text (drop (length (chars p ++ ["."%char])) (chars t))).
    rewrite <- (text_chars t) at 1. rewrite <- (take_drop (length (chars p ++ ["."%char])) (chars t)) at 1.
    rewrite Ht. rewrite <- (text_chars (p +:+ _)), !chars_append, chars_text. f_equal. by rewrite <- app_assoc.
  - intros (rest & ->). rewrite !chars_append, (app_assoc (chars p)), take_app_length'; done.
Qed.

(** ** The properties *)

(** C11: An event enters the outbox once.  A registration that answers adds one row,
    pending, with the identifier and the contents given, and answers it; one that
    fails adds nothing.  After that, whatever is registered or marked, the row keeps
    what it says, no event disappears, and a second registration of the identifier
    is refused and adds nothing. *)
Theorem event_is_registered_once `{EventingEnv} (payload : EventIn) (s s1 : Eventing)
    (answer : result OutboxRecord) :
  outbox_consistent s → register_event payload s = (answer, s1) →
  match answer with
  | Err e => Eventing.outbox s1 = Eventing.outbox s ∧ match e with IntegrityError | DataError | RequestValidationError _ => True | _ => False end
  | Ok record =>
      event_rows s1 = event_rows s ++ [registered payload s] ∧ record = record_of (registered payload s) ∧
      or_event_id record = ei_event_id payload ∧ or_status record = "pending" ∧
      ∀ s2 again, rtc eventing_step s1 s2 → ei_event_id again = ei_event_id payload →
        map event_terms (event_rows s1) `prefix_of` map event_terms (event_rows s2) ∧
        ∃ e s3, register_event again s2 = (Err e, s3) ∧ Eventing.outbox s3 = Eventing.outbox s2
  end.
Proof.
  intros Hs Hrun. rewrite register_event_run in Hrun by done. cbv zeta in Hrun.
  destruct (event_in payload) as [[]|] eqn:Ev;
    [|unfold event_in, validated in Ev; destruct (_ ++ _) in Ev; [done|]; by injection Ev as <-; injection Hrun as <- <-].
  destruct (negb _); [injection Hrun as <- <-; by destruct s; auto|].
  destruct (outbox_ok _) eqn:Eo; [|injection Hrun as <- <-; by destruct s; auto].
  injection Hrun as <- <-. split_and!; [done..|]. intros s2 again Hr Eid.
  assert (H1 : outbox_consistent (with_rows (event_rows s ++ [registered payload s]) (drawn_one s)))
    by (by split).
  destruct (steps_keep _ _ H1 Hr) as [H2 [more E]]. split; [by exists more|].
  rewrite register_event_run by done. cbv zeta.
  destruct (event_in again) as [[]|]; [|by eexists _, _; split].
  destruct (negb _); [by eexists _, _; split; [reflexivity|]; destruct s2|].
  destruct (outbox_ok (Table (event_rows s2 ++ _) _)) eqn:Ek; [|by eexists _, _; split; [reflexivity|]; destruct s2].
  exfalso. apply andb_true_iff in Ek as [_ Ek]. cbn in Ek. unfold unique_on in Ek.
  apply bool_decide_eq_true in Ek.
  assert (Hids : ∀ l, omap (λ e, Some (OutboxEvent.event_id e)) l = map OutboxEvent.event_id l)
    by (induction l as [|x l IH]; [done|]; cbn; by rewrite <- IH).
  rewrite Hids, map_app, NoDup_app in Ek. destruct Ek as (_ & Hout & _).
  apply (Hout (ei_event_id again)); [|by left].
  assert (Hin : In (ei_event_id payload) (map (λ t, t.1.1.1.1.1.1.1.1.1.2) (map event_terms (event_rows s2)))).
  { rewrite E. unfold event_rows at 1. cbn. rewrite !map_app. apply in_or_app. left. apply in_or_app. right.
    by left. }
  rewrite map_map in Hin. cbn in Hin. rewrite Eid. by apply list_elem_of_In.
Qed.

(** C29: The projections are exact for every limit the endpoints accept, from 1 to 100.  Of the events of its family - all, or those whose
    type starts with the prefix and a point - the answer gives the number, how many
    there are of each type and of each status, both adding up to the number, and the
    newest ones, as many as asked for, newest first; reading changes nothing. *)
Theorem projections_are_exact `{EventingEnv} (prefix : option string) (limit : Z) (s : Eventing) :
  outbox_consistent s → 1 ≤ limit ≤ 100 →
  let rows := List.filter (in_family prefix) (event_rows s) in
  ∃ family latest older, _projection prefix limit s = (Ok family, s) ∧
    ef_total family = Z.of_nat (length rows) ∧
    total_of (ef_counts_by_status family) = ef_total family ∧
    (∀ k, tally_of (ef_counts_by_event_type family) k =
          Z.of_nat (length (List.filter (has_value OutboxEvent.event_type k) rows))) ∧
    (∀ k, tally_of (ef_counts_by_status family) k =
          Z.of_nat (length (List.filter (has_value OutboxEvent.status k) rows))) ∧
    ef_latest_events family = map latest_of latest ∧ rows ≡ₚ latest ++ older ∧
    length latest = Nat.min (Z.to_nat limit) (length rows) ∧
    (∀ e e', In e latest → In e' older → OutboxEvent.created_at e' ≤ OutboxEvent.created_at e) ∧
    StronglySorted (λ e e', OutboxEvent.created_at e' ≤ OutboxEvent.created_at e) latest.
Proof.
  intros Hs Hl rows. rewrite (projection_run _ _ _ Hs Hl).
  pose proof (event_family_run prefix limit s Hs ltac:(unfold limit_fits; lia)) as Hrun. cbv zeta in Hrun. fold rows in Hrun.
  eexists _, (take (Z.to_nat limit) (order_by newest rows)), (drop (Z.to_nat limit) (order_by newest rows)).
  split; [exact Hrun|]. cbn [ef_total ef_counts_by_status ef_counts_by_event_type ef_latest_events]. rewrite !counts_total.
  split_and!; [done|done|apply counts_tally|apply counts_tally|done| | | |].
  - rewrite take_drop. symmetry. apply order_by_permutation.
  - by rewrite length_take, (Permutation_length (order_by_permutation newest rows)).
  - intros e e' He He'. pose proof (sorted_front _ _ _ e e' (newest_sorted rows) He He') as Hle.
    unfold newest in Hle. by apply Is_true_true, Z.leb_le in Hle.
  - apply sorted_take. eapply sorted_impl; [|apply newest_sorted].
    intros e e' Hle. unfold newest in Hle. by apply Is_true_true, Z.leb_le in Hle.
Qed.

(** ** The theorems on an example *)
Module EventingExample.
#[local] Instance env : EventingEnv := {|
  event_uuid4 n := (100 + n)%N; DEFAULT_EVENT_TOPIC := "rubrica.events";
  DEAD_LETTER_TOPIC := "rubrica.events.dead_letter"; EVENTING_KAFKA_ENABLED := false;
  EVENTING_SERVICE_NAME := "eventing_api"; EVENTING_ENVIRONMENT := "test"
|}.
Definition event (i : N) (event_type : string) : EventIn :=
  mkEventIn i event_type None "auth_api" 1 None (mkEventActor "service" "rubrica") (JObj []).
Definition empty : Eventing := Eventing.make (Table [] []) 1000 0.
Lemma empty_consistent : outbox_consistent empty.
Proof. split; vm_compute; reflexivity. Qed.
Definition login : Eventing := Eval vm_compute in (register_event (event 1 "auth.login") empty).2.
Definition later : Eventing := Eval vm_compute in
  (register_event (event 2 "notification.sent") (login <| Eventing.clock := 2000 |>)).2.
Definition last : Eventing := Eval vm_compute in
  (register_event (event 3 "auth.logout") (later <| Eventing.clock := 3000 |>)).2.
Definition shown : EventFamily := Eval vm_compute in
  match (_projection (Some "auth") 1 last).1 with Ok f => f | Err _ => mkEventFamily "" 0 [] [] [] end.
Lemma last_consistent : outbox_consistent last.
Proof. split; vm_compute; reflexivity. Qed.

Lemma event_is_registered_once_witness :
  ∃ e s3, register_event (event 1 "auth.again") login = (Err e, s3) ∧
    Eventing.outbox s3 = Eventing.outbox login.
Proof.
  destruct (@event_is_registered_once env (event 1 "auth.login") empty login
    (Ok (record_of (@registered env (event 1 "auth.login") empty))) empty_consistent ltac:(vm_compute; reflexivity))
    as (_ & _ & _ & _ & Hagain).
  exact (proj2 (Hagain login (event 1 "auth.again") (rtc_refl _ _) eq_refl)).
Defined.

Lemma projections_are_exact_witness :
  ∃ family, _projection (Some "auth") 1 last = (Ok family, last) ∧ ef_total family = 2 ∧
    map le_event_type (ef_latest_events family) = ["auth.logout"].
Proof.
  destruct (projections_are_exact (Some "auth") 1 last last_consistent ltac:(lia))
    as (family & latest & older & Hrun & Htotal & _). exists family. split; [exact Hrun|].
  split; [rewrite Htotal; vm_compute; reflexivity|].
  assert (E : _projection (Some "auth") 1 last = (Ok shown, last)) by (vm_compute; reflexivity).
  rewrite Hrun in E. injection E as ->. vm_compute. reflexivity.
Defined.
End EventingExample.
