(* ===== verification/Notify.v ===== *)
(** * The process of notification_api

    Its state, the library functions it calls, HTTP requests as [urllib.request]
    sends them, the service token of its endpoints, and the lists of
    infrastructure/settings.py. *)

From S2P Require Import Prelude.
From S2P Require Import PyText.
From S2P Require Import Json.
From S2P Require Import Orm.
From S2P Require Import EmailTemplates.
From S2P Require Import Http.
From S2P Require Import Redis.

Local Open Scope Z_scope.

(** ** Requests to other services *)
Record WebRequest := mkWebRequest {
  wr_method : string; wr_url : string; wr_headers : list (string * string); wr_data : option string
}.
(** The answer of [urlopen]: the body, the [HTTPError] with its body, or another
    failure of the connection ([OSError], [URLError]). *)
Inductive web_answer :=
| Answered (body : string)
| Refused (code : Z) (body : string)
| Unreachable.

(** ** Connections of tenants to Meta (meta_connection_entity.py) *)
Module MetaWhatsappConnection.
Record MetaWhatsappConnection := make {
  id : N; tenant_id : N; waba_id : string; phone_number_id : string;
  display_phone_number : option string; verified_name : option string;
  quality_rating : option string; status : string; connected_at : Z;
  last_verified_at : option Z; disconnected_at : option Z
}.
#[global] Instance MetaWhatsappConnection_eta : Eta MetaWhatsappConnection := λ c,
  make (id c) (tenant_id c) (waba_id c) (phone_number_id c) (display_phone_number c)
    (verified_name c) (quality_rating c) (status c) (connected_at c) (last_verified_at c)
    (disconnected_at c).
#[global] Instance MetaWhatsappConnection_entity : Entity MetaWhatsappConnection := id.
#[global] Instance MetaWhatsappConnection_eq_dec : EqDecision MetaWhatsappConnection.
Proof. solve_decision. Defined.
End MetaWhatsappConnection.
Abbreviation MetaWhatsappConnection := MetaWhatsappConnection.MetaWhatsappConnection.

Definition connected (c : MetaWhatsappConnection) : bool :=
  String.eqb (MetaWhatsappConnection.status c) "connected".
(** A text fits a column of [n] characters, without the character the database
    does not store. *)
Definition column_fits (n : nat) (s : string) : bool :=
  Nat.leb (length (code_points (chars s))) n && all_chars (λ c, negb (Ascii.eqb (ascii_of_N 0) c)) s.
Definition connection_fits (c : MetaWhatsappConnection) : bool :=
  let optional n o := match o with Some s => column_fits n s | None => true end in
  column_fits 80 (MetaWhatsappConnection.waba_id c) &&
  column_fits 80 (MetaWhatsappConnection.phone_number_id c) &&
  optional 40%nat (MetaWhatsappConnection.display_phone_number c) &&
  optional 255%nat (MetaWhatsappConnection.verified_name c) &&
  optional 40%nat (MetaWhatsappConnection.quality_rating c) &&
  column_fits 32 (MetaWhatsappConnection.status c).
(** One connection of a tenant, one connected holder of a number. *)
Definition connections_ok (t : table MetaWhatsappConnection) : bool :=
  primary_key (live t) &&
  unique_on (λ c, Some (MetaWhatsappConnection.tenant_id c)) (live t) &&
  unique_on (λ c, if connected c then Some (MetaWhatsappConnection.phone_number_id c) else None) (live t).

(** ** The state *)
Module Notify.
Record Notify := make {
  connections : table MetaWhatsappConnection;
  (** [_memory_deliveries], [_memory_webhook_claims], and Redis *)
  memory_deliveries : list (string * json);
  memory_claims : gset string;
  redis : keyspace json;
  (** the requests sent to other services; is there a producer, what it published *)
  requests : list WebRequest;
  producer : bool;
  published : list (string * json);
  clock : Z; draws : N
}.
#[global] Instance Notify_eta : Eta Notify := λ s,
  make (connections s) (memory_deliveries s) (memory_claims s) (redis s) (requests s) (producer s)
    (published s) (clock s) (draws s).
End Notify.
Abbreviation Notify := Notify.Notify.

#[export] Instance notify_connections : HasTable Notify MetaWhatsappConnection :=
  {| get_table := Notify.connections; put_table t s := s <| Notify.connections := t |> |}.
#[export] Instance notify_session : Session Notify := {|
  flush_session s :=
    if connections_ok (Notify.connections s) then Some (s <| Notify.connections ::= flush_table |>)
    else None;
  rollback_session s0 s := s <| Notify.connections := Notify.connections s0 |>
|}.

(** infrastructure/settings.py, the fields the code reads *)
Class NotifySettings := {
  NOTIFICATION_EMAIL_PROVIDER : string;
  SENDGRID_API_KEY : option string;
  RESEND_API_KEY : option string;
  RESEND_FROM_EMAIL : string;
  SLACK_WEBHOOK_URL : option string;
  TWILIO_ACCOUNT_SID : option string;
  TWILIO_AUTH_TOKEN : option string;
  TWILIO_WHATSAPP_FROM : string;
  NOTIFICATION_WHATSAPP_PROVIDER : string;
  META_GRAPH_API_VERSION : string;
  META_APP_ID : option string;
  META_SYSTEM_USER_ID : option string;
  META_EMBEDDED_SIGNUP_CONFIG_ID : option string;
  META_WHATSAPP_ACCESS_TOKEN : option string;
  META_WHATSAPP_PHONE_NUMBER_ID : option string;
  META_WHATSAPP_VERIFY_TOKEN : option string;
  META_APP_SECRET : option string;
  META_WHATSAPP_TENANT_ID : option string;
  NOTIFICATION_REDIS_ENABLED : bool;
  NOTIFICATION_REDIS_KEY_PREFIX : string;
  NOTIFICATION_DELIVERY_DEFAULT_POLICY : string;
  NOTIFICATION_DELIVERY_RETENTION_SECONDS : Z;
  NOTIFICATION_KAFKA_ENABLED : bool;
  NOTIFICATION_WHATSAPP_TOPIC : string;
  NOTIFICATION_WHATSAPP_INBOUND_TOPIC : string;
  NOTIFICATION_INTERNAL_SERVICE_NAME : string;
  NOTIFICATION_INTERNAL_ALLOWED_SERVICES_RAW : string;
  NOTIFICATION_INTERNAL_SERVICE_KEY : string;
  NOTIFICATION_FAKE_WEBHOOK_KEY : string
}.
(** What comes of [send_and_wait]: the broker stored the record and confirmed it;
    it stored it, but the confirmation did not arrive and the call raises; or it
    did not store it. *)
Inductive broker_answer := Acknowledged | Unacknowledged | NotStored.
#[export] Instance broker_answer_eq_dec : EqDecision broker_answer.
Proof. solve_decision. Defined.
(** The libraries and the other side of the connections. *)
Class NotifyEnv := {
  (** the answer to a request, after those sent before *)
  web_answers : list WebRequest → WebRequest → web_answer;
  (** does the broker start the producer, and what comes of this event after the
      ones it stored? *)
  kafka_starts : bool;
  kafka_sends : list (string * json) → json → broker_answer;
  orjson_dumps : json → string;
  (** [None]: [JSONDecodeError] *)
  orjson_loads : string → option json;
  notify_uuid4 : N → N;
  (** [hmac.new(key, message, 'sha256').hexdigest()] *)
  hmac_sha256_hex : string → string → string;
  (** what the framework finds in a payload that does not fit its schema *)
  schema_findings : json → list (list string * string * string)
}.

(** ** Sending *)
(** [value.encode('latin-1')] *)
Definition latin1_point (p : list ascii) : bool :=
  match p with
  | [c] => is_ascii c
  | [c; _] => bool_decide (code c ∈ [194; 195]%N)
  | _ => false
  end.
(** [\n(?![ \t])|\r(?![ \t\n])] *)
Fixpoint illegal_header (l : list ascii) : bool :=
  match l with
  | [] => false
  | c :: l' =>
      let next (ns : list N) := match l' with d :: _ => bool_decide (code d ∈ ns) | [] => false end in
      ((code c =? 10)%N && negb (next [32; 9]%N)) ||
      ((code c =? 13)%N && negb (next [32; 9; 10]%N)) || illegal_header l'
  end.
(** [putheader], before anything is sent *)
Definition check_header (value : string) : result unit :=
  if negb (forallb latin1_point (code_points (chars value))) then Err UnicodeEncodeError
  else if illegal_header (chars value) then Err (ValueError "Invalid header value")
  else Ok tt.

(** [Request(url)]: the address without blanks around it and without its fragment;
    a scheme is needed. *)
Definition full_url (url : string) : string := until_char "#" (strip url).
Definition has_scheme (url : string) : bool :=
  match span_until (λ c, Ascii.eqb c ":" || Ascii.eqb c "/") (chars url) with
  | (_ :: _, c :: _) => Ascii.eqb c ":"
  | _ => false
  end.
(** [putrequest]: [\x00-\x20\x7f] and characters outside ASCII. *)
Definition check_url (url : string) : result unit :=
  if negb (has_scheme url) then Err (ValueError ("unknown url type: " +:+ repr_str url))
  else if negb (all_chars (λ c, negb (control_or_space c) && negb (code c =? 127)%N) (full_url url))
  then Err InvalidURL
  else if negb (all_chars is_ascii (full_url url)) then Err UnicodeEncodeError
  else Ok tt.

Section sending.
Context `{NotifySettings} `{NotifyEnv}.

Definition notify_now : M Notify Z := gets Notify.clock.
Definition notify_uuid : M Notify N := λ s,
  (Ok (notify_uuid4 (Notify.draws s)), s <| Notify.draws ::= N.succ |>).
(** A command of Redis on the service's keyspace. *)
Definition redis_call {A} (m : M (keyspace json) A) : M Notify A := λ s,
  let '(r, db) := m (Notify.redis s) in (r, s <| Notify.redis := db |>).

Definition urlopen (request : WebRequest) : M Notify web_answer :=
  lift (check_url (wr_url request));;
  lift (mapM check_header (map snd (wr_headers request)));;
  sent ← gets Notify.requests;
  modify (λ s, s <| Notify.requests ::= λ l, l ++ [request] |>);;
  mret (web_answers sent request).

(** ** Settings and service tokens *)
Definition NOTIFICATION_INTERNAL_ALLOWED_SERVICES : list string :=
  let configured := List.filter nonempty
    (map (λ l, strip (text l)) (split_char "," (chars NOTIFICATION_INTERNAL_ALLOWED_SERVICES_RAW))) in
  order_by String.leb (remove_dups (NOTIFICATION_INTERNAL_SERVICE_NAME :: configured)).

Definition service_failed : exn := HTTPException 403 "Service authentication failed".
(** The check of the internal endpoints. *)
Definition authorize_service (service_name service_key : option string) : result unit :=
  if negb (match service_name with
           | Some name => mem_str name NOTIFICATION_INTERNAL_ALLOWED_SERVICES
           | None => false
           end) || negb (nonempty NOTIFICATION_INTERNAL_SERVICE_KEY)
  then Err service_failed
  else same ← verify_service_token (or_str service_key "") NOTIFICATION_INTERNAL_SERVICE_KEY;
       (if same : bool then Ok tt else Err service_failed).
End sending.

(** ** [raw.decode(errors='replace')] *)
(** The bounds of the second byte after a leading byte, and how many bytes follow. *)
Definition second_byte (lead : ascii) : option (N * N * nat) :=
  let n := code lead in
  if (194 <=? n)%N && (n <=? 223)%N then Some (128, 191, 1%nat)%N
  else if (n =? 224)%N then Some (160, 191, 2%nat)%N
  else if (n =? 237)%N then Some (128, 159, 2%nat)%N
  else if (225 <=? n)%N && (n <=? 239)%N then Some (128, 191, 2%nat)%N
  else if (n =? 240)%N then Some (144, 191, 3%nat)%N
  else if (241 <=? n)%N && (n <=? 243)%N then Some (128, 191, 3%nat)%N
  else if (n =? 244)%N then Some (128, 143, 3%nat)%N
  else None.
Definition replacement : list ascii := map ascii_of_N [239; 191; 189]%N.
Fixpoint decode_replace (l : list ascii) : list ascii :=
  match l with
  | [] => []
  | a :: l1 =>
      if is_ascii a then a :: decode_replace l1
      else match second_byte a, l1 with
      | Some (low, high, more), b :: l2 =>
          if (low <=? code b)%N && (code b <=? high)%N then
            match more, l2 with
            | 1%nat, _ => a :: b :: decode_replace l2
            | _, c :: l3 =>
                if continues c then
                  match more, l3 with
                  | 2%nat, _ => a :: b :: c :: decode_replace l3
                  | _, d :: l4 =>
                      if continues d then a :: b :: c :: d :: decode_replace l4
                      else replacement ++ decode_replace l3
                  | _, [] => replacement
                  end
                else replacement ++ decode_replace l2
            | _, [] => replacement
            end
          else replacement ++ decode_replace l1
      | _, _ => replacement ++ decode_replace l1
      end
  end.
Definition decoded (s : string) : string := text (decode_replace (chars s)).
