(* ===== verification/Resend.v ===== *)
(** * Delivery of e-mails (notification_api, domains/resend)

    The provider of resend_service.py and the endpoint of resend_router.py, with the
    payload of resend_schema.py. *)

From S2P Require Import Prelude.
From S2P Require Import PyText.
From S2P Require Import Json.
From S2P Require Import Http.
From S2P Require Import Errors.
From S2P Require Import Orm.
From S2P Require Import EmailTemplates.
From S2P Require Import Notify.

Local Open Scope Z_scope.

(** ** The payload (resend_schema.py) *)
Record ResendEmailRequest := mkResendEmailRequest {
  re_recipient : string; re_subject : string; re_content : string; re_html : option string;
  re_inline_images : list InlineEmailImage; re_idempotency_key : string
}.
Definition points (s : string) : Z := Z.of_nat (length (code_points (chars s))).
Definition length_in (low high : Z) (s : string) : bool := (low <=? points s) && (points s <=? high).
(** [^[A-Za-z0-9._-]+$] *)
Definition file_char (c : ascii) : bool := is_alnum c || existsb (Ascii.eqb c) (chars "._-").
Definition image_ok (i : InlineEmailImage) : bool :=
  length_in 1 2000000 (image_content i) &&
  length_in 1 120 (image_filename i) && all_chars file_char (image_filename i) &&
  length_in 1 127 (image_content_id i) && all_chars file_char (image_content_id i) &&
  mem_str (image_content_type i) ["image/png"; "image/jpeg"; "image/gif"].
Definition email_request_ok (r : ResendEmailRequest) : bool :=
  length_in 3 255 (re_recipient r) && length_in 1 160 (re_subject r) &&
  length_in 1 10000 (re_content r) &&
  match re_html r with Some h => length_in 1 100000 h | None => true end &&
  (Nat.leb (length (re_inline_images r)) 3 && forallb image_ok (re_inline_images r)) &&
  length_in 8 180 (re_idempotency_key r).

Definition text_member (d : json) (k : string) : option string :=
  match d with JObj l => match assoc k l with Some (JStr s) => Some s | _ => None end | _ => None end.
Definition image_of (d : json) : option InlineEmailImage :=
  content ← text_member d "content"; filename ← text_member d "filename";
  content_id ← text_member d "content_id"; content_type ← text_member d "content_type";
  Some (mkInlineEmailImage content filename content_id content_type).
(** [ResendEmailRequest.model_validate]: [None] where it finds an error. *)
Definition email_request_of (body : json) : option ResendEmailRequest :=
  recipient ← text_member body "recipient"; subject ← text_member body "subject";
  content ← text_member body "content";
  members ← (match body with JObj l => Some l | _ => None end);
  html ← (match assoc "html" members with
          | None | Some JNull => Some None | Some (JStr h) => Some (Some h) | _ => None
          end);
  inline_images ← (match assoc "inline_images" members with
                   | None => Some [] | Some (JArr l) => mapM image_of l | _ => None
                   end);
  idempotency_key ← text_member body "idempotency_key";
  let r := mkResendEmailRequest recipient subject content html inline_images idempotency_key in
  if email_request_ok r then Some r else None.

(** ** Answers (contracts/provider.py, contracts/delivery.py) *)
Record ProviderDelivery := mkProviderDelivery { provider_message_id : string; pd_status : string }.
Record DeliveryAccepted := mkDeliveryAccepted {
  delivery_id : string; da_channel : string; da_recipient : string; da_provider : string;
  da_status : string; delivery_store : string; delivery_policy : string; persisted : bool;
  payload_stored : bool; retention_seconds : option Z; da_payload : option json;
  da_event : option json
}.

(** The arguments of the provider. *)
Module ResendEmailProvider.
Record ResendEmailProvider := make {
  _subject : string; _idempotency_key : string; _html : option string;
  _inline_images : list InlineEmailImage
}.
End ResendEmailProvider.
Abbreviation ResendEmailProvider := ResendEmailProvider.ResendEmailProvider.

Section resend.
Context `{NotifySettings} `{NotifyEnv}.

(** ** The provider (resend_service.py) *)
(** [' '.join(s.split())[:500]] *)
Definition one_line (s : string) : string := take_points 500 (join " " (words s)).
Definition named_detail (members : list (string * json)) (k : string) : list string :=
  match assoc k members with
  | Some v => if truthy v then [k +:+ "=" +:+ one_line (py_str v)] else []
  | None => []
  end.
Definition _resend_error_message (code : Z) (raw_body : string) : string :=
  let details :=
    match orjson_loads raw_body with
    | Some (JObj l) => named_detail l "name" ++ named_detail l "message"
    | _ => if nonempty raw_body then ["message=" +:+ one_line (decoded raw_body)] else []
    end in
  "Resend delivery failed with " +:+ join ", " (("HTTP " +:+ show_Z code) :: details).

Definition api_key : string := from_option id "" RESEND_API_KEY.
Definition image_dump (i : InlineEmailImage) : json :=
  JObj [("content", JStr (image_content i)); ("filename", JStr (image_filename i));
        ("content_id", JStr (image_content_id i)); ("content_type", JStr (image_content_type i))].
Definition email_payload (p : ResendEmailProvider) (recipient content : string) : json :=
  JObj ([("from", JStr RESEND_FROM_EMAIL); ("to", JArr [JStr recipient]);
         ("subject", JStr (ResendEmailProvider._subject p)); ("text", JStr content)] ++
        (if opt_nonempty (ResendEmailProvider._html p)
         then [("html", jopt_str (ResendEmailProvider._html p))] else []) ++
        match ResendEmailProvider._inline_images p with
        | [] => []
        | images => [("attachments", JArr (map image_dump images))]
        end).
Definition email_request (p : ResendEmailProvider) (recipient content : string) : WebRequest :=
  mkWebRequest "POST" "https://api.resend.com/emails"
    [("Authorization", "Bearer " +:+ api_key); ("Content-Type", "application/json");
     ("Idempotency-Key", ResendEmailProvider._idempotency_key p); ("User-Agent", "Rubrica/0.1.0")]
    (Some (orjson_dumps (email_payload p recipient content))).

Definition unavailable : exn := RuntimeError "Resend provider is unavailable".
(** The identifier in an answer of the provider. *)
Definition message_id_of (payload : json) : option string :=
  message_id ← text_member payload "id"; if nonempty message_id then Some message_id else None.
Definition deliver (p : ResendEmailProvider) (recipient content : string) (media : option json)
    : M Notify ProviderDelivery :=
  raise_if (negb (opt_nonempty RESEND_API_KEY)) (RuntimeError "Resend API key is not configured");;
  raise_if (match media with Some _ => true | None => false end)
    (RuntimeError "Resend attachments are not supported in this flow");;
  answer ← urlopen (email_request p recipient content);
  payload ← match answer with
            | Answered body => some_or (orjson_loads body) unavailable
            | Refused code body => raise (RuntimeError (_resend_error_message code body))
            | Unreachable => raise unavailable
            end;
  message_id ← some_or (message_id_of payload) (RuntimeError "Resend response did not include an e-mail id");
  mret (mkProviderDelivery message_id "accepted").

Definition verification (status : string) (verified : bool) (http_status : option Z) : json :=
  JObj ([("provider", JStr "resend"); ("status", JStr status); ("verified", JBool verified)] ++
        match http_status with Some n => [("http_status", JNum n)] | None => [] end).
Definition verify_resend_credentials : M Notify json :=
  if negb (opt_nonempty RESEND_API_KEY) then mret (verification "not_configured" false None)
  else
    answer ← urlopen (mkWebRequest "GET" "https://api.resend.com/domains"
      [("Authorization", "Bearer " +:+ api_key); ("User-Agent", "Rubrica/0.1.0")] None);
    mret (match answer with
          | Answered _ => verification "ok" true None
          | Refused code _ =>
              verification (if code =? 401 then "invalid_credentials" else "restricted_or_unavailable")
                false (Some code)
          | Unreachable => verification "unavailable" false None
          end).

(** ** The endpoint (resend_router.py) *)
Definition provider_of (payload : ResendEmailRequest) : ResendEmailProvider :=
  ResendEmailProvider.make (re_subject payload) (re_idempotency_key payload) (re_html payload)
    (re_inline_images payload).
(** The framework checks the body first. *)
Definition send_resend_email (x_rubrica_service x_rubrica_service_key : option string) (body : json)
    : M Notify DeliveryAccepted :=
  payload ← some_or (email_request_of body) (RequestValidationError (schema_findings body));
  lift (authorize_service x_rubrica_service x_rubrica_service_key);;
  delivery ← deliver (provider_of payload) (re_recipient payload) (re_content payload) None;
  mret (mkDeliveryAccepted (provider_message_id delivery) "email" (re_recipient payload) "resend"
    (pd_status delivery) "provider" "reliable" false false None None None).
End resend.

(** * What reaches the provider *)

(** ** The payload of a rendered e-mail is read back *)
Definition payload_of (m : RenderedEmail) (recipient idempotency_key : string) : ResendEmailRequest :=
  mkResendEmailRequest recipient (mail_subject m) (mail_text m) (Some (mail_html m))
    (mail_inline_images m) idempotency_key.
Lemma images_read_back l :
  mapM image_of (map (λ i, JObj
    [("content", JStr (image_content i)); ("filename", JStr (image_filename i));
     ("content_id", JStr (image_content_id i)); ("content_type", JStr (image_content_type i))]) l) = Some l.
Proof. induction l as [|[c f i t] l IH]; [done|]. cbn -[mapM] in *. cbn. by rewrite IH. Qed.
Lemma email_request_of_payload m recipient key :
  email_request_of (as_payload m recipient key) =
  if email_request_ok (payload_of m recipient key) then Some (payload_of m recipient key) else None.
Proof.
  unfold email_request_of, as_payload, text_member.
  cbn -[mapM image_of email_request_ok]. by rewrite images_read_back.
Qed.

Section facts.
Context `{NotifySettings} `{NotifyEnv}.
Implicit Types s : Notify.

(** The one request for a rendered e-mail. *)
Definition resend_request (m : RenderedEmail) (recipient key : string) : WebRequest :=
  mkWebRequest "POST" "https://api.resend.com/emails"
    [("Authorization", "Bearer " +:+ from_option id "" RESEND_API_KEY);
     ("Content-Type", "application/json"); ("Idempotency-Key", key); ("User-Agent", "Rubrica/0.1.0")]
    (Some (orjson_dumps (JObj (
       [("from", JStr RESEND_FROM_EMAIL); ("to", JArr [JStr recipient]);
        ("subject", JStr (mail_subject m)); ("text", JStr (mail_text m));
        ("html", JStr (mail_html m))] ++
       match mail_inline_images m with
       | [] => []
       | images => [("attachments", JArr (map image_dump images))]
       end)))).
(** The identifier an answer gives the e-mail. *)
Definition accepted_as (answer : web_answer) : option string :=
  match answer with Answered body => payload ← orjson_loads body; message_id_of payload | _ => None end.
Definition with_request (request : WebRequest) s : Notify :=
  s <| Notify.requests ::= λ l, l ++ [request] |>.

(** What keeps an e-mail from being sent at all. *)
Definition refused_before (service key : option string) (m : RenderedEmail) (recipient idem : string)
    : option exn :=
  if negb (email_request_ok (payload_of m recipient idem))
  then Some (RequestValidationError (schema_findings (as_payload m recipient idem)))
  else match authorize_service service key with
  | Err e => Some e
  | Ok _ =>
      if negb (opt_nonempty RESEND_API_KEY) then Some (RuntimeError "Resend API key is not configured")
      else match mapM check_header (map snd (wr_headers (resend_request m recipient idem))) with
      | Err e => Some e
      | Ok _ => None
      end
  end.

Lemma nonempty_points (t : string) : length_in 1 100000 t = true → nonempty t = true.
Proof. by destruct t. Qed.
Lemma request_is_resend_request m recipient key :
  email_request_ok (payload_of m recipient key) = true →
  email_request (provider_of (payload_of m recipient key)) recipient (mail_text m) =
  resend_request m recipient key.
Proof.
  unfold email_request_ok. cbn -[length_in forallb Nat.leb]. rewrite !andb_true_iff.
  intros [[[_ Hh] _] _]. apply nonempty_points in Hh.
  unfold email_request, resend_request, email_payload, provider_of. cbn. by rewrite Hh.
Qed.

(** The delivery of a payload that was accepted for sending. *)
Lemma deliver_run p recipient content s :
  opt_nonempty RESEND_API_KEY = true →
  deliver p recipient content None s =
  match mapM check_header (map snd (wr_headers (email_request p recipient content))) with
  | Err e => (Err e, s)
  | Ok _ =>
      let request := email_request p recipient content in
      let answer := web_answers (Notify.requests s) request in
      (match accepted_as answer with
       | Some i => Ok (mkProviderDelivery i "accepted")
       | None => Err (RuntimeError
           match answer with
           | Answered body => match orjson_loads body with
                              | Some _ => "Resend response did not include an e-mail id"
                              | None => "Resend provider is unavailable"
                              end
           | Refused code body => _resend_error_message code body
           | Unreachable => "Resend provider is unavailable"
           end)
       end, with_request request s)
  end.
Proof.
  intros Hk. unfold deliver, raise_if. rewrite Hk. cbn [negb]. unfold urlopen.
  change (check_url (wr_url (email_request p recipient content))) with (Ok tt).
  unfold mbind, M_bind, lift, gets, modify, mret, M_ret.
  destruct (mapM check_header _); [|done].
  destruct (web_answers _ _) as [body|code body|]; cbn; [|done..].
  unfold unavailable. destruct (orjson_loads body) as [payload|]; [|done]. cbn.
  by destruct (message_id_of payload).
Qed.

(** C30: An e-mail a service renders reaches the provider as it was rendered, or is
    refused.  When the payload fits its schema, the service is an allowed one with
    the key, the provider is configured and the headers can be written, exactly one
    request is sent: it carries the sender's address, the recipient, the subject,
    the text, the markup, every picture and the idempotency key; the answer is the
    identifier the provider gave, and an error when it gave none.  Otherwise the
    call fails and nothing is sent. *)
Theorem rendered_email_reaches_the_provider (service key : option string) (m : RenderedEmail)
    (recipient idem : string) (s : Notify) :
  let request := resend_request m recipient idem in
  match refused_before service key m recipient idem with
  | Some e => send_resend_email service key (as_payload m recipient idem) s = (Err e, s)
  | None => ∃ r, send_resend_email service key (as_payload m recipient idem) s = (r, with_request request s) ∧
      match accepted_as (web_answers (Notify.requests s) request) with
      | Some i => r = Ok (mkDeliveryAccepted i "email" recipient "resend" "accepted" "provider"
                            "reliable" false false None None None)
      | None => ∃ message, r = Err (RuntimeError message)
      end
  end.
Proof.
  intros request. unfold refused_before, send_resend_email. rewrite email_request_of_payload.
  destruct (email_request_ok _) eqn:Eok; cbn [negb]; [|done].
  rewrite (bind_step_ok _ _ s (payload_of m recipient idem) s eq_refl).
  destruct (authorize_service service key) as [[]|e]; [|done].
  rewrite (bind_step_ok _ _ s tt s eq_refl).
  destruct (opt_nonempty RESEND_API_KEY) eqn:Ek; cbn [negb].
  2:{ apply bind_step_err. unfold deliver. by rewrite Ek. }
  pose proof (deliver_run (provider_of (payload_of m recipient idem)) recipient (mail_text m) s Ek) as Hd.
  rewrite (request_is_resend_request m recipient idem Eok) in Hd. cbv zeta in Hd. fold request in Hd |- *.
  change (re_recipient (payload_of m recipient idem)) with recipient.
  change (re_content (payload_of m recipient idem)) with (mail_text m).
  destruct (mapM check_header _) as [l|e].
  2:{ exact (bind_step_err _ _ _ _ _ Hd). }
  destruct (accepted_as _) as [i|]; eexists; split.
  - exact (bind_step_ok _ _ _ _ _ Hd).
  - done.
  - exact (bind_step_err _ _ _ _ _ Hd).
  - by eexists.
Qed.
End facts.
