(* ===== verification/MetaOnboarding.v ===== *)
(** * Onboarding of WhatsApp numbers (notification_api, domains/meta/whatsapp)

    The repository of connections (meta_connection_repository.py), the service that
    connects, verifies and disconnects the number of a tenant over the Graph API
    (meta_onboarding_service.py), and its endpoints (meta_onboarding_router.py).  The
    sessions of the repository flush before they query: a merge first writes what
    is pending.  A new connection is inserted under an identifier drawn for it. *)

From S2P Require Import Prelude.
From S2P Require Import PyText.
From S2P Require Import Json.
From S2P Require Import Orm.
From S2P Require Import EmailTemplates.
From S2P Require Import Http.
From S2P Require Import Resend.
From S2P Require Import Notify.

Local Open Scope Z_scope.

Abbreviation tenant_of := MetaWhatsappConnection.tenant_id.
Abbreviation phone_of := MetaWhatsappConnection.phone_number_id.

(** ** The repository *)
Module MetaConnectionRepository.
Definition get_by_tenant (tenant_id : N) : M Notify (option MetaWhatsappConnection) :=
  read_session (scalar (λ c, N.eqb (tenant_of c) tenant_id)).
Definition get_connected_by_phone_number_id (phone_number_id : string)
    : M Notify (option MetaWhatsappConnection) :=
  read_session (scalar (λ c, String.eqb (phone_of c) phone_number_id && connected c)).

(** A flush fails on values its columns cannot hold. *)
Definition flush_connections : M Notify unit := λ s,
  if forallb connection_fits (live (Notify.connections s)) then flush s else (Err DataError, s).
(** [session.merge(connection)]: a new object is inserted, one read before is
    written over its row. *)
Definition merge (detached : bool) (connection : MetaWhatsappConnection) : M Notify unit :=
  flush_connections;;
  if detached then
    found ← get (R := MetaWhatsappConnection) (MetaWhatsappConnection.id connection);
    match found with
    | Some _ => assign (MetaWhatsappConnection.id connection) (λ _, connection)
    | None => add connection
    end
  else add connection.

Definition save (connection : MetaWhatsappConnection) : M Notify MetaWhatsappConnection :=
  transaction
    (merge true connection;; flush_connections;; deref (MetaWhatsappConnection.id connection)).

Definition released (now : Z) (c : MetaWhatsappConnection) : MetaWhatsappConnection :=
  c <| MetaWhatsappConnection.status := "disconnected" |>
    <| MetaWhatsappConnection.disconnected_at := Some now |>.
(** Another tenant holds the number. *)
Definition holds_number_of (connection c : MetaWhatsappConnection) : bool :=
  String.eqb (phone_of c) (phone_of connection) &&
  negb (N.eqb (tenant_of c) (tenant_of connection)) && connected c.
Definition assign_number (detached : bool) (connection : MetaWhatsappConnection)
    (confirm_reassignment : bool) : M Notify MetaWhatsappConnection :=
  transaction
    (conflicting ← scalar (holds_number_of connection);
     match conflicting with
     | Some c =>
         raise_if (negb confirm_reassignment) MetaPhoneNumberConflictError;;
         now ← notify_now;
         assign (MetaWhatsappConnection.id c) (released now)
     | None => mret tt
     end;;
     merge detached connection;; flush_connections;;
     deref (MetaWhatsappConnection.id connection)).
End MetaConnectionRepository.

(** ** The payload (meta_onboarding_schema.py) *)
Record CompleteMetaWhatsappSignup := mkCompleteMetaWhatsappSignup {
  cs_tenant_id : N; authorization_code : string; cs_waba_id : string;
  cs_phone_number_id : option string; two_step_pin : option string;
  redirect_uri : option string; confirm_reassignment : bool
}.
Definition optional_in (P : string → bool) (o : option string) : bool :=
  match o with Some v => P v | None => true end.
Definition meta_id (v : string) : bool := length_in 5 80 v && all_chars is_digit v.
Definition signup_ok (p : CompleteMetaWhatsappSignup) : bool :=
  length_in 8 4096 (authorization_code p) && meta_id (cs_waba_id p) &&
  optional_in meta_id (cs_phone_number_id p) &&
  optional_in (λ v, length_in 6 6 v && all_chars is_digit v) (two_step_pin p) &&
  optional_in (length_in 0 2048) (redirect_uri p).

Definition app_required : exn := MetaOnboardingConfigurationError "Meta app id and app secret are required".
Definition invalid_response : exn := MetaOnboardingRequestError "Meta Graph API returned an invalid response".

(** [_optional_text] *)
Definition _optional_text (value : json) : option string :=
  match value with JNull => None | JStr s => if nonempty s then Some s else None | v => Some (py_str v) end.
Definition text_if (o : option string) : string := from_option id "" o.

Section service.
Context `{NotifySettings} `{NotifyEnv}.

(** ** The Graph API *)
Definition _safe_meta_error (code : Z) (body : string) : string :=
  let member k v := match v with Some (JObj l) => assoc k l | _ => None end in
  let error_code := member "code" (member "error" (orjson_loads body)) in
  "Meta Graph API rejected the request (HTTP " +:+ show_Z code +:+ ", code " +:+
  py_str (from_option id JNull error_code) +:+ ")".
Definition _request_json (request : WebRequest) : M Notify json :=
  answer ← urlopen request;
  match answer with
  | Answered raw =>
      match orjson_loads raw with
      | Some (JObj l) => mret (JObj l)
      | _ => raise invalid_response
      end
  | Refused code body => raise (MetaOnboardingRequestError (_safe_meta_error code body))
  | Unreachable => raise (MetaOnboardingRequestError "Meta Graph API is unavailable")
  end.
Definition graph_url (path : string) : string :=
  "https://graph.facebook.com/" +:+ META_GRAPH_API_VERSION +:+ path.
Definition _graph_request (method path token : string) (query : list (string * string))
    (payload : option json) : M Notify json :=
  _request_json (mkWebRequest method
    (match query with [] => graph_url path | _ => graph_url path +:+ "?" +:+ urlencode query end)
    [("Authorization", "Bearer " +:+ token); ("Content-Type", "application/json")]
    (orjson_dumps <$> payload)).

Definition _exchange_authorization_code (code : string) (redirect : option string) : M Notify string :=
  raise_if (negb (opt_nonempty META_APP_ID) || negb (opt_nonempty META_APP_SECRET)) app_required;;
  let query := [("client_id", text_if META_APP_ID); ("client_secret", text_if META_APP_SECRET);
                ("code", code)] ++
               (if opt_nonempty redirect then [("redirect_uri", text_if redirect)] else []) in
  result ← _request_json (mkWebRequest "GET"
    (graph_url ("/oauth/access_token?" +:+ urlencode query)) [] None);
  match text_member result "access_token" with
  | Some token =>
      if nonempty token then mret token
      else raise (MetaOnboardingRequestError "Meta authorization response did not include an access token")
  | None => raise (MetaOnboardingRequestError "Meta authorization response did not include an access token")
  end.

(** The identifiers in [result.get("data", [])]. *)
Definition listed_id (item : json) : option string :=
  match item with
  | JObj l => match assoc "id" l with None | Some JNull => None | Some v => Some (py_str v) end
  | _ => None
  end.
Definition listed_ids (result : json) : M Notify (list string) :=
  data ← lift (jget_or result "data" (JArr []));
  items ← lift (jitems data);
  mret (omap listed_id items).
Definition phone_numbers (waba_id token : string) : M Notify (list string) :=
  result ← _graph_request "GET" ("/" +:+ waba_id +:+ "/phone_numbers") token [("fields", "id")] None;
  listed_ids result.
Definition _discover_phone_number_id (waba_id token : string) : M Notify string :=
  phone_ids ← phone_numbers waba_id token;
  match phone_ids with
  | [phone_id] => mret phone_id
  | _ => raise (MetaOnboardingRequestError "Selected WABA must contain exactly one phone number")
  end.
Definition _validate_phone_belongs_to_waba (waba_id phone_number_id token : string) : M Notify unit :=
  phone_ids ← phone_numbers waba_id token;
  raise_if (negb (mem_str phone_number_id phone_ids))
    (MetaOnboardingRequestError "Meta phone number does not belong to the selected WABA").
Definition _get_phone_number (phone_number_id token : string) : M Notify json :=
  _graph_request "GET" ("/" +:+ phone_number_id) token
    [("fields", "id,display_phone_number,verified_name,quality_rating")] None.
Definition _assign_system_user (waba_id token : string) : M Notify unit :=
  raise_if (negb (opt_nonempty META_SYSTEM_USER_ID))
    (MetaOnboardingConfigurationError "Meta system user id is required");;
  _graph_request "POST" ("/" +:+ waba_id +:+ "/assigned_users") token
    [("user", text_if META_SYSTEM_USER_ID);
     ("tasks", "[" +:+ String dquote "MANAGE" +:+ String dquote "]")] None;; mret tt.
Definition _subscribe_app (waba_id token : string) : M Notify unit :=
  _graph_request "POST" ("/" +:+ waba_id +:+ "/subscribed_apps") token [] None;; mret tt.
Definition _register_phone_number (phone_number_id pin token : string) : M Notify unit :=
  _graph_request "POST" ("/" +:+ phone_number_id +:+ "/register") token []
    (Some (JObj [("messaging_product", JStr "whatsapp"); ("pin", JStr pin)]));; mret tt.
Definition _require_system_access_token : M Notify string :=
  raise_if (negb (opt_nonempty META_WHATSAPP_ACCESS_TOKEN))
    (MetaOnboardingConfigurationError "Meta system user access token is required");;
  mret (text_if META_WHATSAPP_ACCESS_TOKEN).

(** ** The service *)
Import MetaConnectionRepository.

Definition _ensure_reassignment_allowed (payload : CompleteMetaWhatsappSignup)
    (phone_number_id : string) : M Notify unit :=
  conflicting ← get_connected_by_phone_number_id phone_number_id;
  match conflicting with
  | Some c =>
      raise_if (negb (N.eqb (tenant_of c) (cs_tenant_id payload)) && negb (confirm_reassignment payload))
        MetaPhoneNumberConflictError
  | None => mret tt
  end.

(** What the Graph API tells of a number, written on a connection. *)
Definition describe (phone : json) (c : MetaWhatsappConnection) : result MetaWhatsappConnection :=
  display ← jget phone "display_phone_number";
  name ← jget phone "verified_name";
  rating ← jget phone "quality_rating";
  Ok (c <| MetaWhatsappConnection.display_phone_number := _optional_text display |>
        <| MetaWhatsappConnection.verified_name := _optional_text name |>
        <| MetaWhatsappConnection.quality_rating := _optional_text rating |>).

(** [complete_signup], up to the number whose connection is written. *)
Definition negotiate (payload : CompleteMetaWhatsappSignup) : M Notify (string * json) :=
  when (opt_nonempty (cs_phone_number_id payload))
    (_ensure_reassignment_allowed payload (text_if (cs_phone_number_id payload)));;
  access_token ← _exchange_authorization_code (authorization_code payload) (redirect_uri payload);
  phone_number_id ←
    (if opt_nonempty (cs_phone_number_id payload) then mret (text_if (cs_phone_number_id payload))
     else _discover_phone_number_id (cs_waba_id payload) access_token);
  when (negb (opt_nonempty (cs_phone_number_id payload)))
    (_ensure_reassignment_allowed payload phone_number_id);;
  when (match cs_phone_number_id payload with Some _ => true | None => false end)
    (_validate_phone_belongs_to_waba (cs_waba_id payload) phone_number_id access_token);;
  system_token ← _require_system_access_token;
  _assign_system_user (cs_waba_id payload) system_token;;
  _subscribe_app (cs_waba_id payload) access_token;;
  when (opt_nonempty (two_step_pin payload))
    (_register_phone_number phone_number_id (text_if (two_step_pin payload)) access_token);;
  phone ← _get_phone_number phone_number_id system_token;
  mret (phone_number_id, phone).

Definition complete_signup (payload : CompleteMetaWhatsappSignup) : M Notify MetaWhatsappConnection :=
  negotiated ← negotiate payload;
  existing ← get_by_tenant (cs_tenant_id payload);
  identifier ← match existing with
               | Some c => mret (MetaWhatsappConnection.id c)
               | None => notify_uuid
               end;
  now ← notify_now;
  connection ← lift (describe negotiated.2 (MetaWhatsappConnection.make identifier
    (cs_tenant_id payload) (cs_waba_id payload) negotiated.1 None None None "connected" now
    (Some now) None));
  assign_number (match existing with Some _ => true | None => false end) connection
    (confirm_reassignment payload).

Definition get_connection (tenant_id : N) : M Notify (option MetaWhatsappConnection) :=
  get_by_tenant tenant_id.
Definition _require_connection (tenant_id : N) : M Notify MetaWhatsappConnection :=
  connection ← get_by_tenant tenant_id;
  some_or connection (LookupError "Meta WhatsApp connection was not found").

Definition verify_connection (tenant_id : N) : M Notify MetaWhatsappConnection :=
  connection ← _require_connection tenant_id;
  token ← _require_system_access_token;
  phone ← try_catch (_get_phone_number (phone_of connection) token) (λ e,
    match e with
    | MetaOnboardingRequestError _ =>
        now ← notify_now;
        save (connection <| MetaWhatsappConnection.status := "verification_failed" |>
                <| MetaWhatsappConnection.last_verified_at := Some now |>);;
        raise e
    | _ => raise e
    end);
  now ← notify_now;
  described ← lift (describe phone connection);
  save (described <| MetaWhatsappConnection.status := "connected" |>
          <| MetaWhatsappConnection.last_verified_at := Some now |>).

Definition disconnect (tenant_id : N) : M Notify MetaWhatsappConnection :=
  connection ← _require_connection tenant_id;
  when (connected connection)
    (token ← _require_system_access_token;
     _graph_request "DELETE" ("/" +:+ MetaWhatsappConnection.waba_id connection +:+ "/subscribed_apps")
       token [] None;; mret tt);;
  now ← notify_now;
  save (released now connection).

(** ** The endpoints *)
Definition require_internal_service (x_atlas_service x_atlas_service_key : option string) : result unit :=
  if negb (bool_decide (x_atlas_service = Some NOTIFICATION_INTERNAL_SERVICE_NAME)) ||
     negb (nonempty NOTIFICATION_INTERNAL_SERVICE_KEY)
  then Err service_failed
  else same ← verify_service_token (or_str x_atlas_service_key "") NOTIFICATION_INTERNAL_SERVICE_KEY;
       if same : bool then Ok tt else Err service_failed.
Definition onboarding_error (e : exn) : exn :=
  match e with
  | LookupError m => HTTPException 404 m
  | MetaOnboardingConfigurationError m => HTTPException 503 m
  | MetaOnboardingRequestError m => HTTPException 502 m
  | e => e
  end.
Definition signup_error (e : exn) : exn :=
  match e with
  | MetaOnboardingConfigurationError m => HTTPException 503 m
  | MetaOnboardingRequestError m => HTTPException 502 m
  | MetaPhoneNumberConflictError => HTTPException 409 "meta.whatsapp.phone_already_connected"
  | e => e
  end.
(** [MetaWhatsappConnectionView.model_validate] *)
Definition view_of (c : MetaWhatsappConnection) : result MetaWhatsappConnection :=
  if mem_str (MetaWhatsappConnection.status c) ["connected"; "disconnected"; "verification_failed"]
  then Ok c else Err ValidationError.

Definition get_signup_configuration : json :=
  JObj [("enabled", JBool (opt_nonempty META_APP_ID && opt_nonempty META_APP_SECRET &&
                           opt_nonempty META_SYSTEM_USER_ID &&
                           opt_nonempty META_WHATSAPP_ACCESS_TOKEN &&
                           opt_nonempty META_EMBEDDED_SIGNUP_CONFIG_ID));
        ("app_id", jopt_str META_APP_ID); ("configuration_id", jopt_str META_EMBEDDED_SIGNUP_CONFIG_ID);
        ("graph_api_version", JStr META_GRAPH_API_VERSION)].

(** The headers of a call: the service and its key. *)
Context (x_atlas_service x_atlas_service_key : option string).
Definition internal {A} (m : M Notify A) : M Notify A :=
  lift (require_internal_service x_atlas_service x_atlas_service_key);; m.
Definition signup_configuration_endpoint : M Notify json := internal (mret get_signup_configuration).
(** [findings]: what the framework reports of a payload outside its schema. *)
Definition complete_signup_endpoint (findings : list (list string * string * string))
    (payload : CompleteMetaWhatsappSignup) : M Notify MetaWhatsappConnection :=
  internal (raise_if (negb (signup_ok payload)) (RequestValidationError findings);;
            connection ← try_catch (complete_signup payload) (λ e, raise (signup_error e));
            lift (view_of connection)).
Definition get_connection_endpoint (tenant_id : N) : M Notify MetaWhatsappConnection :=
  internal (connection ← get_connection tenant_id;
            connection ← some_or connection (HTTPException 404 "Connection not found");
            lift (view_of connection)).
Definition verify_connection_endpoint (tenant_id : N) : M Notify MetaWhatsappConnection :=
  internal (connection ← try_catch (verify_connection tenant_id) (λ e, raise (onboarding_error e));
            lift (view_of connection)).
Definition disconnect_endpoint (tenant_id : N) : M Notify unit :=
  internal (try_catch (disconnect tenant_id) (λ e, raise (onboarding_error e));; mret tt).
End service.
