(* ===== verification/MetaOnboardingFacts.v ===== *)
(** * Who holds a WhatsApp number *)

From S2P Require Import Prelude.
From S2P Require Import PyText.
From S2P Require Import Json.
From S2P Require Import Orm.
From S2P Require Import Http.
From S2P Require Import Notify.
From S2P Require Import MetaOnboarding.

Local Open Scope Z_scope.
Import MetaConnectionRepository.

Section facts.
Context `{NotifySettings} `{NotifyEnv}.
Implicit Types (s : Notify) (c : MetaWhatsappConnection) (l : list MetaWhatsappConnection).
Abbreviation key := MetaWhatsappConnection.id.

Definition connection_rows s : list MetaWhatsappConnection := live (Notify.connections s).
Definition connections_consistent s : Prop :=
  clean (Notify.connections s) ∧ connections_ok (Notify.connections s) = true.

(** ** The calls of the Graph API and the queries leave the connections alone *)
Abbreviation leaves := (preserves (same Notify.connections)).
Lemma urlopen_leaves request : leaves (urlopen request).
Proof. unfold urlopen. preserve. apply preserves_modify. by intros s. Qed.
#[local] Hint Resolve urlopen_leaves : preserve.
Lemma request_json_leaves request : leaves (_request_json request).
Proof. unfold _request_json. preserve. Qed.
#[local] Hint Resolve request_json_leaves : preserve.
Lemma graph_request_leaves method path token query payload :
  leaves (_graph_request method path token query payload).
Proof. unfold _graph_request. preserve. Qed.
#[local] Hint Resolve graph_request_leaves : preserve.
Lemma read_session_leaves {A} (m : M Notify A) : leaves (read_session m).
Proof. intros s. unfold read_session. by destruct (m s). Qed.
#[local] Hint Resolve read_session_leaves : preserve.
Lemma uuid_leaves : leaves notify_uuid.
Proof. by intros s. Qed.
Lemma now_leaves : leaves notify_now.
Proof. by intros s. Qed.
#[local] Hint Resolve uuid_leaves now_leaves : preserve.

Lemma negotiate_leaves payload : leaves (negotiate payload).
Proof.
  unfold negotiate, _ensure_reassignment_allowed, get_connected_by_phone_number_id,
    _exchange_authorization_code, _discover_phone_number_id, _validate_phone_belongs_to_waba,
    phone_numbers, listed_ids, _require_system_access_token, _assign_system_user, _subscribe_app,
    _register_phone_number, _get_phone_number.
  preserve.
Qed.

(** ** Transactions *)
Lemma connections_transaction {A} (m : M Notify A) s r s' :
  transaction m s = (r, s') → connections_consistent s →
  match r with
  | Ok a => ∃ s1, m s = (Ok a, s1) ∧ connection_rows s' = connection_rows s1 ∧ connections_consistent s'
  | Err _ => Notify.connections s' = Notify.connections s
  end.
Proof.
  intros Ht Hs. destruct r as [a|e].
  - apply transaction_ok in Ht as (s1 & Hm & Hf). exists s1. split; [done|].
    unfold flush_session in Hf. cbn in Hf. destruct (connections_ok _) eqn:Eo; [|done].
    injection Hf as <-. split; [done|]. by split.
  - apply transaction_err in Ht as (r & s1 & _ & ->). by destruct s1.
Qed.

(** The rows once a connection is written. *)
Definition put_connection (detached : bool) c l : list MetaWhatsappConnection :=
  match (if detached then find_row (key c) l else None) with
  | Some _ => alter_rows (λ _, c) (key c) l
  | None => l ++ [c]
  end.
Lemma flush_connections_ok s u s' :
  flush_connections s = (Ok u, s') →
  connections_consistent s' ∧ connection_rows s' = connection_rows s.
Proof.
  unfold flush_connections. destruct (forallb _ _); [|done]. intros Hf%flush_ok.
  unfold flush_session in Hf. cbn in Hf. destruct (connections_ok _) eqn:Eo; [|done].
  injection Hf as <-. by split; [split|].
Qed.
Lemma get_row_consistent k s :
  connections_consistent s → get_row k (Notify.connections s) = find_row k (connection_rows s).
Proof. intros [Hc _]. by apply get_row_clean. Qed.
Lemma merge_ok (detached : bool) c s u s' :
  merge detached c s = (Ok u, s') →
  connection_rows s' = put_connection detached c (connection_rows s).
Proof.
  unfold merge, put_connection. intros Hr. run_step. apply flush_connections_ok in Hrun as [Hs0 Erows].
  destruct detached.
  - db_step. db_step. change (get_table s0) with (Notify.connections s0) in Hr.
    rewrite (get_row_consistent _ _ Hs0), Erows in Hr. cbn iota.
    destruct (find_row (key c) (connection_rows s)); apply modify_ok in Hr as ->; by rewrite <- Erows.
  - apply modify_ok in Hr as ->. by rewrite <- Erows.
Qed.
Lemma written_ok (detached : bool) c s r s' :
  (merge detached c;; flush_connections;; deref (key c)) s = (Ok r, s') →
  connection_rows s' = put_connection detached c (connection_rows s) ∧
  find_row (key c) (connection_rows s') = Some r.
Proof.
  intros Hr. run_step. apply merge_ok in Hrun. run_step. apply flush_connections_ok in Hrun0 as [_ E].
  apply deref_ok in Hr as [Hf ->]. change (live (get_table s1)) with (connection_rows s1) in Hf.
  by rewrite E, <- Hrun in *.
Qed.

(** ** What is in the table after a write *)
Lemma consistent_keys s : connections_consistent s → keys_distinct (connection_rows s).
Proof.
  intros [_ Hok]. unfold connections_ok in Hok. rewrite !andb_true_iff in Hok.
  by apply primary_key_distinct, Hok.
Qed.
Lemma unique_on_same {K} `{EqDecision K} (f : MetaWhatsappConnection → option K) l c c' k :
  unique_on f l = true → In c l → In c' l → f c = Some k → f c' = Some k → c = c'.
Proof.
  unfold unique_on. rewrite bool_decide_eq_true. induction l as [|x l IH]; [done|].
  cbn. intros Hd. assert (Hl : NoDup (omap f l)) by (by destruct (f x); [apply NoDup_cons in Hd as [_ ?]|]).
  assert (Hx : ∀ y, In y l → f x = Some k → f y = Some k → False).
  { intros y Hy Ex Ey. rewrite Ex in Hd. apply NoDup_cons in Hd as [Hn _]. apply Hn, list_elem_of_omap.
    exists y. by rewrite list_elem_of_In. }
  intros [<-|Hc] [<-|Hc'] E E'; [done| | |by apply IH]; exfalso; eauto.
Qed.
Lemma one_connection s c c' :
  connections_consistent s → In c (connection_rows s) → In c' (connection_rows s) →
  tenant_of c = tenant_of c' → c = c'.
Proof.
  intros [_ Hok] Hc Hc' E. unfold connections_ok in Hok. rewrite !andb_true_iff in Hok.
  destruct Hok as [[_ Hu] _]. eapply unique_on_same; [exact Hu|done|done|reflexivity|by rewrite E].
Qed.
Lemma one_holder s c c' :
  connections_consistent s → In c (connection_rows s) → In c' (connection_rows s) →
  connected c = true → connected c' = true → phone_of c = phone_of c' → c = c'.
Proof.
  intros [_ Hok] Hc Hc' E1 E2 E. unfold connections_ok in Hok. rewrite !andb_true_iff in Hok.
  destruct Hok as [_ Hu]. eapply unique_on_same; [exact Hu|exact Hc|exact Hc'|cbn; by rewrite E1|cbn; by rewrite E2, E].
Qed.

Lemma find_own l c : keys_distinct l → In c l → find_row (key c) l = Some c.
Proof. exact (find_row_in l c). Qed.
Lemma same_row l c c' : keys_distinct l → In c l → In c' l → key c = key c' → c = c'.
Proof. intros Hd H1%find_own H2%find_own E; [|done..]. rewrite E in H1. congruence. Qed.
Lemma put_connection_keeps (detached : bool) c l c' :
  In c' l → key c' ≠ key c → In c' (put_connection detached c l).
Proof.
  intros Hin Hne. unfold put_connection.
  destruct (if detached then _ else _); [|by apply in_or_app; left].
  apply in_map_iff. exists c'. split; [|done]. by rewrite (proj2 (has_id_false _ _)).
Qed.
Lemma put_written (detached : bool) c l r :
  find_row (key c) (put_connection detached c l) = Some r → keys_distinct (put_connection detached c l) →
  r = c.
Proof.
  unfold put_connection. destruct (if detached then _ else _) as [c0|] eqn:E; intros Hf Hd.
  - destruct detached; [|done]. apply find_row_some in Hf as [Hin Hid].
    apply in_map_iff in Hin as (x & Ex & Hx). destruct (has_id (key c) x) eqn:Eh; [done|].
    subst x. apply has_id_false in Eh. by destruct Eh.
  - rewrite (find_own _ c Hd) in Hf; [congruence|]. apply in_or_app. right. by left.
Qed.

(** ** What a call does to the connections *)
(** The connections of the tenants other than [t] are as they were, except one that
    was released, where [P] allows it. *)
Definition others_keep (P : MetaWhatsappConnection → Prop) (t : N) s s' : Prop :=
  ∀ c, In c (connection_rows s) → tenant_of c ≠ t →
    In c (connection_rows s') ∨ ∃ now, P c ∧ In (released now c) (connection_rows s').

(** A tenant's connection is written over the one it had, or added. *)
Definition own_row (detached : bool) c s : Prop :=
  detached = true → ∃ c0, In c0 (connection_rows s) ∧ key c0 = key c ∧ tenant_of c0 = tenant_of c.
Lemma other_key (detached : bool) c c' s :
  connections_consistent s → own_row detached c s → detached = true →
  In c' (connection_rows s) → tenant_of c' ≠ tenant_of c → key c' ≠ key c.
Proof.
  intros Hs Ho Hd Hin Hne E. destruct (Ho Hd) as (c0 & H0' & Ek & Et).
  rewrite (same_row _ c' c0 (consistent_keys _ Hs) Hin H0') in Hne; congruence.
Qed.

Lemma save_result c s r s' :
  save c s = (r, s') → connections_consistent s → own_row true c s →
  connections_consistent s' ∧ others_keep (λ _, False) (tenant_of c) s s' ∧
  match r with Ok c' => c' = c ∧ In c (connection_rows s')
  | Err _ => Notify.connections s' = Notify.connections s end.
Proof.
  intros Hr Hs Ho. apply connections_transaction in Hr; [|done]. destruct r as [c'|e].
  - destruct Hr as (s1 & Hw & E & Hs'). apply written_ok in Hw as [E1 Hf]. rewrite <- E in Hf, E1.
    pose proof (consistent_keys _ Hs') as Hk. split; [done|]. rewrite E1 in Hk, Hf.
    assert (c' = c) as -> by (by eapply put_written). split; [|split; [done|]].
    + intros c0 Hin Hne. left. rewrite E1. apply put_connection_keeps; [done|]. by eapply other_key.
    + rewrite E1. by apply find_row_some in Hf as [? _].
  - split; [|split; [|done]].
    + unfold connections_consistent. by rewrite Hr.
    + intros c0 Hin _. left. unfold connection_rows. by rewrite Hr.
Qed.

Lemma assign_result (detached : bool) c confirm s r s' :
  assign_number detached c confirm s = (r, s') → connections_consistent s → own_row detached c s →
  connections_consistent s' ∧
  match r with
  | Ok c' => c' = c ∧ In c (connection_rows s') ∧
      others_keep (λ c0, confirm = true ∧ connected c0 = true ∧ phone_of c0 = phone_of c) (tenant_of c) s s'
  | Err _ => Notify.connections s' = Notify.connections s
  end.
Proof.
  intros Hr Hs Ho. apply connections_transaction in Hr; [|done]. destruct r as [c'|e].
  2:{ split; [|done]. unfold connections_consistent. by rewrite Hr. }
  destruct Hr as (s1 & Hw & E & Hs'). split; [done|].
  apply bind_ok in Hw as (found & s0 & Hfound & Hw). apply gets_ok in Hfound as [-> ->].
  change (get_table s) with (Notify.connections s) in Hw.
  rewrite (select_clean _ _ (proj1 Hs) (consistent_keys _ Hs)), head_filter in Hw.
  fold (connection_rows s) in Hw.
  apply bind_ok in Hw as ([] & s2 & Hrel & Hw). apply written_ok in Hw as [E1 Hf].
  rewrite <- E in Hf, E1. pose proof (consistent_keys _ Hs') as Hk. rewrite E1 in Hk, Hf.
  assert (c' = c) as -> by (by eapply put_written).
  split; [done|]. split; [rewrite E1; by apply find_row_some in Hf as [? _]|].
  intros c0 Hin Hne. rewrite E1.
  assert (Hput : ∀ c1, In c1 (connection_rows s2) → key c1 = key c0 →
    In c1 (put_connection detached c (connection_rows s2))).
  { intros c1 H1 Ek. destruct detached eqn:Ed; [|apply in_or_app; by left].
    apply put_connection_keeps; [done|]. rewrite Ek. by eapply other_key. }
  destruct (List.find _ _) as [c1|] eqn:Efind.
  - apply List.find_some in Efind as [Hin1 Hholds]. destruct confirm; [|done].
    assert (E2 : connection_rows s2 = alter_rows (released (Notify.clock s)) (key c1) (connection_rows s))
      by (injection Hrel as <-; done).
    rewrite E2 in *.
    unfold holds_number_of in Hholds. rewrite !andb_true_iff, String.eqb_eq in Hholds.
    destruct (decide (key c0 = key c1)) as [Ek|Hk1].
    + right. exists (Notify.clock s).
      rewrite (same_row _ c0 c1 (consistent_keys _ Hs) Hin Hin1 Ek) in *.
      split; [tauto|]. apply Hput; [|done]. apply in_map_iff. exists c1. split; [|done].
      by rewrite (proj2 (has_id_true _ _)).
    + left. apply Hput; [|done]. apply in_map_iff. exists c0. split; [|done].
      by rewrite (proj2 (has_id_false _ _)).
  - apply ret_ok in Hrel as [_ ->]. left. by apply Hput.
Qed.

Lemma get_by_tenant_run t s :
  connections_consistent s →
  get_by_tenant t s = (Ok (List.find (λ c, N.eqb (tenant_of c) t) (connection_rows s)), s).
Proof.
  intros Hs. unfold get_by_tenant, read_session, scalar, gets.
  change (get_table s) with (Notify.connections s).
  rewrite (select_clean _ _ (proj1 Hs) (consistent_keys _ Hs)), head_filter. f_equal. by destruct s.
Qed.
Lemma consistent_same s s' :
  Notify.connections s' = Notify.connections s → connections_consistent s → connections_consistent s'.
Proof. unfold connections_consistent. by intros ->. Qed.
Lemma others_same P t s s' : Notify.connections s' = Notify.connections s → others_keep P t s s'.
Proof. intros E c Hin _. left. unfold connection_rows. by rewrite E. Qed.

Lemma negotiate_number payload s n s' phone :
  negotiate payload s = (Ok n, s') → cs_phone_number_id payload = Some phone → nonempty phone = true →
  n.1 = phone.
Proof.
  intros Hr E Hn. unfold negotiate in Hr. rewrite E in Hr. cbn [opt_nonempty text_if from_option id] in Hr.
  unfold opt_nonempty in Hr. rewrite Hn in Hr.
  repeat (apply bind_ok in Hr as (? & ? & ? & Hr)). apply ret_ok in Hr as [-> _]. simpl.
  match goal with H : mret phone _ = (Ok ?x, _) |- _ => apply ret_ok in H as [-> _] end.
  done.
Qed.

(** The connection a signup writes, and what is written. *)
Lemma signup_result payload s r s' :
  complete_signup payload s = (r, s') → connections_consistent s →
  connections_consistent s' ∧
  match r with
  | Ok c => In c (connection_rows s') ∧ connected c = true ∧ tenant_of c = cs_tenant_id payload ∧
      MetaWhatsappConnection.waba_id c = cs_waba_id payload ∧
      (∀ phone, cs_phone_number_id payload = Some phone → nonempty phone = true → phone_of c = phone) ∧
      others_keep (λ c0, confirm_reassignment payload = true ∧ connected c0 = true ∧ phone_of c0 = phone_of c)
        (tenant_of c) s s'
  | Err _ => Notify.connections s' = Notify.connections s
  end.
Proof.
  intros Hr Hs. unfold complete_signup in Hr.
  destruct (negotiate payload s) as [[n|e] s1] eqn:En.
  2:{ rewrite (bind_step_err _ _ _ _ _ En) in Hr. injection Hr as <- <-.
      apply (preserves_run _ _ _ _ _ (negotiate_leaves payload)) in En. by eauto using consistent_same. }
  rewrite (bind_step_ok _ _ _ _ _ En) in Hr.
  pose proof (preserves_run _ _ _ _ _ (negotiate_leaves payload) En) as Ec.
  assert (Hs1 : connections_consistent s1) by (by eapply consistent_same).
  rewrite (bind_step_ok _ _ _ _ _ (get_by_tenant_run _ _ Hs1)) in Hr.
  assert (Er1 : connection_rows s1 = connection_rows s) by (unfold connection_rows; by rewrite Ec).
  set (existing := List.find _ _) in *.
  assert (Hid : ∃ i s2, Notify.connections s2 = Notify.connections s ∧
    (∀ c, existing = Some c → i = key c) ∧
    (match existing with Some c => mret (key c) | None => notify_uuid end) s1 = (Ok i, s2)).
  { destruct existing as [c|]; eexists _, _; (split; [|split; [|reflexivity]]); try done. by intros ? [= <-]. }
  destruct Hid as (i & s2 & Ec2 & Hi & Erun). rewrite (bind_step_ok _ _ _ _ _ Erun) in Hr.
  rewrite (bind_step_ok notify_now _ s2 (Notify.clock s2) s2 eq_refl) in Hr.
  set (c0 := MetaWhatsappConnection.make _ _ _ _ _ _ _ _ _ _ _) in Hr.
  assert (Hs2 : connections_consistent s2) by (by eapply consistent_same).
  destruct (describe n.2 c0) as [c|e] eqn:Ed.
  2:{ rewrite (bind_step_err (lift (Err e)) _ s2 e s2 eq_refl) in Hr. by injection Hr as <- <-. }
  rewrite (bind_step_ok (lift (Ok c)) _ s2 c s2 eq_refl) in Hr.
  assert (Hc : key c = i ∧ tenant_of c = cs_tenant_id payload ∧ connected c = true ∧
               MetaWhatsappConnection.waba_id c = cs_waba_id payload ∧ phone_of c = n.1).
  { unfold describe in Ed. repeat (apply result_bind_ok in Ed as (? & _ & Ed)). by injection Ed as <-. }
  destruct Hc as (Ei & Et & Econ & Ew & Ep).
  apply assign_result in Hr as [Hs' Hr]; [|done|].
  - split; [done|]. destruct r as [c'|e]; [|by rewrite Hr].
    destruct Hr as (-> & Hin & Ho). split_and!; [done..| |].
    + intros phone E Hn. rewrite Ep. by eapply negotiate_number.
    + intros c' Hin' Hne. apply Ho; [|done]. unfold connection_rows in *. by rewrite Ec2.
  - intros Hd. destruct existing as [c1|] eqn:Ee; [|done]. exists c1.
    apply List.find_some in Ee as [Hin1 Et1%N.eqb_eq]. split_and!.
    + unfold connection_rows in *. by rewrite Ec2, <- Ec.
    + rewrite Ei. symmetry. by apply Hi.
    + by rewrite Et.
Qed.

(** ** Verifying and disconnecting *)
Lemma own_connection t s c s' :
  _require_connection t s = (Ok c, s') → connections_consistent s →
  s' = s ∧ In c (connection_rows s) ∧ tenant_of c = t.
Proof.
  intros Hr Hs. unfold _require_connection in Hr.
  rewrite (bind_step_ok _ _ _ _ _ (get_by_tenant_run _ _ Hs)) in Hr. apply some_or_ok in Hr as [Hf ->].
  apply List.find_some in Hf as [Hin E%N.eqb_eq]. done.
Qed.
Lemma no_connection t s e s' :
  _require_connection t s = (Err e, s') → connections_consistent s → s' = s.
Proof.
  intros Hr Hs. unfold _require_connection in Hr.
  rewrite (bind_step_ok _ _ _ _ _ (get_by_tenant_run _ _ Hs)) in Hr.
  destruct (List.find _ _); by injection Hr.
Qed.

Definition own_only (t : N) s s' : Prop :=
  connections_consistent s' ∧ others_keep (λ _, False) t s s'.
Lemma own_only_same t s s' :
  Notify.connections s' = Notify.connections s → connections_consistent s → own_only t s s'.
Proof. intros E Hs. split; [by eapply consistent_same|by apply others_same]. Qed.
(** Writing over the connection that was read, after calls that leave the table. *)
Lemma save_own c0 c s s1 r s' :
  save c s1 = (r, s') → Notify.connections s1 = Notify.connections s → connections_consistent s →
  In c0 (connection_rows s) → key c = key c0 → tenant_of c = tenant_of c0 →
  own_only (tenant_of c0) s s' ∧
  match r with Ok c' => c' = c ∧ In c (connection_rows s') | Err _ => True end.
Proof.
  intros Hr Ec Hs Hin Ek Et. assert (Er : connection_rows s1 = connection_rows s) by (unfold connection_rows; by rewrite Ec).
  apply save_result in Hr as (Hs' & Ho & Hr); [|by eapply consistent_same|intros _; exists c0; by rewrite Er].
  rewrite Et in Ho. unfold others_keep in Ho. rewrite Er in Ho. split; [done|]. by destruct r.
Qed.

Lemma describe_own phone c c' :
  describe phone c = Ok c' → key c' = key c ∧ tenant_of c' = tenant_of c.
Proof. unfold describe. intros Ed. repeat (apply result_bind_ok in Ed as (? & _ & Ed)). by injection Ed as <-. Qed.
Lemma phone_number_leaves phone token : leaves (_get_phone_number phone token).
Proof. unfold _get_phone_number. preserve. Qed.
#[local] Hint Resolve phone_number_leaves : preserve.
Lemma token_leaves : leaves _require_system_access_token.
Proof. unfold _require_system_access_token. preserve. Qed.
#[local] Hint Resolve token_leaves : preserve.

Lemma verify_result t s r s' :
  verify_connection t s = (r, s') → connections_consistent s →
  own_only t s s' ∧ match r with Ok c => In c (connection_rows s') ∧ tenant_of c = t | Err _ => True end.
Proof.
  intros Hr Hs. unfold verify_connection in Hr.
  destruct (_require_connection t s) as [[c0|e] s1] eqn:Ec.
  2:{ rewrite (bind_step_err _ _ _ _ _ Ec) in Hr. apply no_connection in Ec as ->; [|done].
      injection Hr as <- <-. split; [by apply own_only_same|done]. }
  rewrite (bind_step_ok _ _ _ _ _ Ec) in Hr. apply own_connection in Ec as (-> & Hin & <-); [|done].
  destruct (_require_system_access_token s) as [[token|e] s1] eqn:Et.
  2:{ rewrite (bind_step_err _ _ _ _ _ Et) in Hr. frame Notify.connections Et. injection Hr as <- <-.
      split; [by apply own_only_same|done]. }
  rewrite (bind_step_ok _ _ _ _ _ Et) in Hr. frame Notify.connections Et.
  unfold try_catch in Hr. unfold mbind at 1, M_bind at 1 in Hr.
  destruct (_get_phone_number (phone_of c0) token s1) as [[phone|e] s2] eqn:Eg;
    frame Notify.connections Eg; rewrite Et in Eg.
  - rewrite (bind_step_ok notify_now _ s2 (Notify.clock s2) s2 eq_refl) in Hr.
    destruct (describe phone c0) as [c|e] eqn:Ed.
    2:{ rewrite (bind_step_err (lift (Err e)) _ s2 e s2 eq_refl) in Hr. injection Hr as <- <-.
        split; [by apply own_only_same|done]. }
    rewrite (bind_step_ok (lift (Ok c)) _ s2 c s2 eq_refl) in Hr. apply describe_own in Ed as [Ek Et'].
    apply (save_own c0 _ s) in Hr as [Ho Hr]; [|done..]. split; [done|].
    destruct r; [|done]. destruct Hr as [-> Hr]. done.
  - destruct e; try (injection Hr as <- <-; split; [by apply own_only_same|done]).
    rewrite (bind_step_ok notify_now _ s2 (Notify.clock s2) s2 eq_refl) in Hr.
    unfold mbind, M_bind in Hr. destruct (save _ s2) as [r2 s3] eqn:Es.
    apply (save_own c0 _ s) in Es as [Ho _]; [|done..].
    destruct r2; injection Hr as <- <-; by split.
Qed.

Lemma disconnect_result t s r s' :
  disconnect t s = (r, s') → connections_consistent s →
  own_only t s s' ∧ match r with Ok c => In c (connection_rows s') ∧ tenant_of c = t | Err _ => True end.
Proof.
  intros Hr Hs. unfold disconnect in Hr.
  destruct (_require_connection t s) as [[c0|e] s1] eqn:Ec.
  2:{ rewrite (bind_step_err _ _ _ _ _ Ec) in Hr. apply no_connection in Ec as ->; [|done].
      injection Hr as <- <-. split; [by apply own_only_same|done]. }
  rewrite (bind_step_ok _ _ _ _ _ Ec) in Hr. apply own_connection in Ec as (-> & Hin & <-); [|done].
  set (m := when _ _) in Hr. destruct (m s) as [[[]|e] s1] eqn:Em.
  2:{ rewrite (bind_step_err _ _ _ _ _ Em) in Hr. unfold m in Em. frame Notify.connections Em.
      injection Hr as <- <-. split; [by apply own_only_same|done]. }
  rewrite (bind_step_ok _ _ _ _ _ Em) in Hr. unfold m in Em. frame Notify.connections Em.
  rewrite (bind_step_ok notify_now _ s1 (Notify.clock s1) s1 eq_refl) in Hr.
  apply (save_own c0 _ s) in Hr as [Ho Hr]; [|done..]. split; [done|].
  destruct r; [|done]. destruct Hr as [-> Hr]. done.
Qed.

(** ** The property *)
Inductive meta_call :=
| Signup (payload : CompleteMetaWhatsappSignup)
| Verify (tenant_id : N)
| Disconnect (tenant_id : N).
Definition run_meta (call : meta_call) : M Notify MetaWhatsappConnection :=
  match call with
  | Signup p => complete_signup p
  | Verify t => verify_connection t
  | Disconnect t => disconnect t
  end.
Definition meta_tenant (call : meta_call) : N :=
  match call with Signup p => cs_tenant_id p | Verify t => t | Disconnect t => t end.

(** C14: A WhatsApp number has one holder, and moves on confirmation only.  After any
    call - a signup, a verification, a disconnection, failed or not, whatever the
    Graph API answers - a connected number is held by one tenant, and the other
    tenants' connections are as they were, except that a signup that confirms the
    reassignment and succeeds releases the number it connects.  A signup that
    succeeds leaves its tenant connected to the number and the account it asked
    for; one that fails leaves the table as it was. *)
Theorem whatsapp_number_has_one_holder (call : meta_call) (s s' : Notify) (r : result MetaWhatsappConnection) :
  connections_consistent s → run_meta call s = (r, s') →
  connections_consistent s' ∧
  (∀ c c', In c (connection_rows s') → In c' (connection_rows s') → connected c = true →
     connected c' = true → phone_of c = phone_of c' → c = c') ∧
  (∀ c, In c (connection_rows s) → tenant_of c ≠ meta_tenant call → In c (connection_rows s') ∨
     ∃ payload got now, call = Signup payload ∧ confirm_reassignment payload = true ∧ r = Ok got ∧
       connected c = true ∧ phone_of c = phone_of got ∧ In (released now c) (connection_rows s')) ∧
  match r with
  | Ok got => In got (connection_rows s') ∧ tenant_of got = meta_tenant call ∧
      ∀ payload, call = Signup payload → connected got = true ∧
        MetaWhatsappConnection.waba_id got = cs_waba_id payload ∧
        ∀ phone, cs_phone_number_id payload = Some phone → nonempty phone = true → phone_of got = phone
  | Err _ => ∀ payload, call = Signup payload → Notify.connections s' = Notify.connections s
  end.
Proof.
  intros Hs Hr.
  assert (Hown : (∃ payload, call = Signup payload) ∨ (∀ payload, call ≠ Signup payload) ∧ own_only (meta_tenant call) s s' ∧
    match r with Ok c => In c (connection_rows s') ∧ tenant_of c = meta_tenant call | Err _ => True end).
  { destruct call as [p|t|t]; [by eauto|right..]; (split; [done|]);
      [by apply verify_result in Hr|by apply disconnect_result in Hr]. }
  destruct Hown as [(payload & ->)|(Hne & [Hs' Ho] & Hok)].
  - apply signup_result in Hr as [Hs' Hr]; [|done]. split; [done|]. split; [intros; by eapply one_holder|].
    destruct r as [got|e]; cbn [meta_tenant].
    + destruct Hr as (Hin & Hc & Et & Ew & Ep & Ho). split.
      * intros c Hin' Hne. rewrite <- Et in Hne.
        destruct (Ho c Hin' Hne) as [?|(now & (? & ? & ?) & ?)]; [by left|right].
        by exists payload, got, now.
      * split_and!; [done..|]. intros ? [= <-]. by split_and!.
    + split; [|by intros]. intros c Hin _. left. unfold connection_rows. by rewrite Hr.
  - split; [done|]. split; [intros; by eapply one_holder|]. split.
    + intros c Hin Ht. destruct (Ho c Hin Ht) as [?|(? & [] & _)]. by left.
    + destruct r as [got|e]; [destruct Hok as [? ?]; split_and!; [done..|]|]; intros p E; by destruct (Hne p).
Qed.
End facts.
