(* ===== verification/Deliveries.v ===== *)
(** * Deliveries through the message providers (notification_api)

    [accept_delivery] with its store of deliveries, the choice of a provider, the
    providers of Slack, Twilio and Meta, their verification and the catalogue
    (infrastructure/providers.py, slack_service.py, twilio_service.py, the sending
    half of meta_service.py), and the requests for a delivery (internal_delivery.py,
    email_service.py, whatsapp_delivery.py, provider_router.py).  The files of media
    (shared_kernel.media) are not in the repository: the class [MediaStorage]. *)

From S2P Require Import Prelude.
From S2P Require Import PyText.
From S2P Require Import Base64.
From S2P Require Import Json.
From S2P Require Import Http.
From S2P Require Import DateTime.
From S2P Require Import Orm.
From S2P Require Import Redis.
From S2P Require Import EmailTemplates.
From S2P Require Import Notify.
From S2P Require Import Resend.
From S2P Require Import MetaOnboarding.

Local Open Scope Z_scope.

(** [MediaReference.model_validate], [LocalMediaStorage.read_bytes] and
    [store_bytes(data, tenant_id, scope, mime_type, filename)], with a reference as
    the value its [model_dump] gives; [object_key] of a reference. *)
Class MediaStorage := {
  media_reference : json → result json;
  media_read : json → result string;
  media_store : string → string → string → string → string → result json;
  media_object_key : json → string
}.

Section deliveries.
Context `{NotifySettings} `{NotifyEnv} `{MediaStorage}.

(** ** What the providers share *)
(** [isinstance(d, dict) and d.get(k)] *)
Definition member (k : string) (d : option json) : option json :=
  match d with Some (JObj l) => assoc k l | _ => None end.
Definition has_media (media : option json) : bool := match media with Some _ => true | None => false end.
Definition credential_report (provider status : string) (verified : bool) (http_status : option Z) : json :=
  JObj ([("provider", JStr provider); ("status", JStr status); ("verified", JBool verified)] ++
        match http_status with Some n => [("http_status", JNum n)] | None => [] end).
Definition _not_configured (provider_name : string) : json :=
  credential_report provider_name "not_configured" false None.
(** [_verify_http_credential], with the statuses that mean refused credentials. *)
Definition verify_credential (refusing : list Z) (provider_name : string) (request : WebRequest)
    : M Notify json :=
  answer ← urlopen request;
  mret (match answer with
        | Answered _ => credential_report provider_name "ok" true None
        | Refused code _ =>
            credential_report provider_name
              (if bool_decide (code ∈ refusing) then "invalid_credentials" else "unavailable")
              false (Some code)
        | Unreachable => credential_report provider_name "unavailable" false None
        end).
Definition _verify_http_credential : string → WebRequest → M Notify json := verify_credential [401; 403].
(** [value.lower().startswith('whatsapp:')] *)
Definition is_whatsapp (value : string) : bool := starts_with "whatsapp:" (lower value).

(** ** The fake provider *)
Definition fake_deliver (media : option json) : M Notify ProviderDelivery :=
  match media with Some m => lift (media_read m);; mret tt | None => mret tt end;;
  i ← notify_uuid;
  mret (mkProviderDelivery ("fake-" +:+ uuid_str i) "sent").
Definition fake_verify (name : string) : json :=
  JObj [("provider", JStr name); ("status", JStr "ok"); ("mode", JStr "fake");
        ("credentials_required", JBool false)].

(** ** Slack (slack_service.py) *)
Definition slack_deliver (content : string) (media : option json) : M Notify ProviderDelivery :=
  raise_if (negb (opt_nonempty SLACK_WEBHOOK_URL)) (RuntimeError "Slack webhook is not configured");;
  raise_if (has_media media) (RuntimeError "Slack support delivery does not accept media");;
  answer ← urlopen (mkWebRequest "POST" (text_if SLACK_WEBHOOK_URL) [("Content-Type", "application/json")]
    (Some (orjson_dumps (JObj [("text", JStr content)]))));
  match answer with
  | Answered _ => mret tt
  | Refused code _ => raise (RuntimeError ("Slack webhook delivery failed with HTTP " +:+ show_Z code))
  | Unreachable => raise (RuntimeError "Slack webhook provider is unavailable")
  end;;
  i ← notify_uuid;
  mret (mkProviderDelivery ("slack-" +:+ uuid_str i) "accepted").

(** ** Twilio (twilio_service.py) *)
Definition _basic_authorization : string :=
  b64encode (text_if TWILIO_ACCOUNT_SID +:+ ":" +:+ text_if TWILIO_AUTH_TOKEN).
Definition _normalize_whatsapp_address (value : string) : string :=
  let normalized := strip value in
  if is_whatsapp normalized then normalized else "whatsapp:" +:+ normalized.
Definition twilio_configured : bool := opt_nonempty TWILIO_ACCOUNT_SID && opt_nonempty TWILIO_AUTH_TOKEN.
(** [TwilioMessageResponse.model_validate]: the sid and the status. *)
Definition twilio_response (parsed : json) : result (string * option string) :=
  match text_member parsed "sid", member "status" (Some parsed) with
  | Some sid, (None | Some JNull) => Ok (sid, None)
  | Some sid, Some (JStr status) => Ok (sid, Some status)
  | _, _ => Err ValidationError
  end.
Definition twilio_deliver (recipient content : string) (media : option json) : M Notify ProviderDelivery :=
  raise_if (negb twilio_configured) (RuntimeError "Twilio WhatsApp credentials are not configured");;
  raise_if (has_media media)
    (RuntimeError "Twilio WhatsApp media delivery requires a provider-accessible media URL");;
  answer ← urlopen (mkWebRequest "POST"
    ("https://api.twilio.com/2010-04-01/Accounts/" +:+ text_if TWILIO_ACCOUNT_SID +:+ "/Messages.json")
    [("Authorization", "Basic " +:+ _basic_authorization);
     ("Content-Type", "application/x-www-form-urlencoded")]
    (Some (urlencode [("From", _normalize_whatsapp_address TWILIO_WHATSAPP_FROM);
                      ("To", _normalize_whatsapp_address recipient); ("Body", content)])));
  parsed ← match answer with
           | Answered body =>
               payload ← some_or (orjson_loads body) JSONDecodeError;
               lift (twilio_response payload)
           | Refused code _ => raise (RuntimeError ("Twilio WhatsApp delivery failed with HTTP " +:+ show_Z code))
           | Unreachable => raise (RuntimeError "Twilio WhatsApp provider is unavailable")
           end;
  mret (mkProviderDelivery parsed.1 (or_str parsed.2 "queued")).
Definition verify_twilio_credentials : M Notify json :=
  if negb twilio_configured then mret (_not_configured "twilio")
  else verify_credential [401; 403] "twilio" (mkWebRequest "GET"
    ("https://api.twilio.com/2010-04-01/Accounts/" +:+ text_if TWILIO_ACCOUNT_SID +:+ ".json")
    [("Authorization", "Basic " +:+ _basic_authorization)] None).

(** ** Meta (meta_service.py) *)
Definition detail_of (error : list (string * json)) (k : string) : list string :=
  match assoc k error with
  | None | Some JNull => []
  | Some (JStr s) => if nonempty s then [k +:+ "=" +:+ one_line s] else []
  | Some v => [k +:+ "=" +:+ one_line (py_str v)]
  end.
Definition _meta_delivery_error_message (code : Z) (body : string) : string :=
  let details :=
    match member "error" (orjson_loads body) with
    | Some (JObj error) =>
        concat (map (detail_of error) ["code"; "error_subcode"; "type"; "message"; "fbtrace_id"])
    | _ => []
    end in
  "Meta WhatsApp delivery failed with " +:+ join ", " (("HTTP " +:+ show_Z code) :: details).
Definition _messages_url (phone_number_id : string) : string :=
  graph_url ("/" +:+ phone_number_id +:+ "/messages").
Definition _normalize_meta_recipient (value : string) : string :=
  let normalized := strip value in
  keep_chars is_digit (if is_whatsapp normalized then after_word ":" normalized else normalized).
(** [MetaSendMessageResponse.model_validate]: the identifiers of the messages. *)
Definition meta_response (parsed : json) : result (list string) :=
  match parsed with
  | JObj l =>
      match assoc "messages" l with
      | None => Ok []
      | Some (JArr items) =>
          match mapM (λ item, text_member item "id") items with Some ids => Ok ids | None => Err ValidationError end
      | Some _ => Err ValidationError
      end
  | _ => Err ValidationError
  end.
(** [_phone_number_id]: the connected number of the tenant, or the configured one. *)
Definition _phone_number_id (tenant_id : option json) : M Notify string :=
  let tenant := match tenant_id with None | Some JNull => None | Some v => parse_uuid (py_str v) end in
  connection ← match tenant with
               | Some t => MetaConnectionRepository.get_by_tenant t
               | None => mret None
               end;
  match connection with
  | Some c => if connected c then mret (phone_of c) else
      some_or (if opt_nonempty META_WHATSAPP_PHONE_NUMBER_ID then META_WHATSAPP_PHONE_NUMBER_ID else None)
        (RuntimeError "Meta WhatsApp phone number id is not configured")
  | None =>
      some_or (if opt_nonempty META_WHATSAPP_PHONE_NUMBER_ID then META_WHATSAPP_PHONE_NUMBER_ID else None)
        (RuntimeError "Meta WhatsApp phone number id is not configured")
  end.
Definition bearer : list (string * string) :=
  [("Authorization", "Bearer " +:+ text_if META_WHATSAPP_ACCESS_TOKEN)].
Definition meta_deliver (tenant_id : option json) (recipient content : string) (media : option json)
    : M Notify ProviderDelivery :=
  raise_if (negb (opt_nonempty META_WHATSAPP_ACCESS_TOKEN))
    (RuntimeError "Meta WhatsApp access token is not configured");;
  phone_number_id ← _phone_number_id tenant_id;
  raise_if (has_media media)
    (RuntimeError "Meta WhatsApp media delivery is not implemented for local MediaReference");;
  answer ← urlopen (mkWebRequest "POST" (_messages_url phone_number_id)
    (bearer ++ [("Content-Type", "application/json")])
    (Some (orjson_dumps (JObj [("messaging_product", JStr "whatsapp");
      ("recipient_type", JStr "individual"); ("to", JStr (_normalize_meta_recipient recipient));
      ("type", JStr "text");
      ("text", JObj [("preview_url", JBool false); ("body", JStr content)])]))));
  ids ← match answer with
        | Answered body =>
            payload ← some_or (orjson_loads body) JSONDecodeError;
            lift (meta_response payload)
        | Refused code body => raise (RuntimeError (_meta_delivery_error_message code body))
        | Unreachable => raise (RuntimeError "Meta WhatsApp provider is unavailable")
        end;
  match ids with
  | i :: _ => mret (mkProviderDelivery i "accepted")
  | [] => raise (RuntimeError "Meta WhatsApp response did not include a message id")
  end.
Definition verify_meta_credentials : M Notify json :=
  if negb (opt_nonempty META_WHATSAPP_ACCESS_TOKEN) || negb (opt_nonempty META_WHATSAPP_PHONE_NUMBER_ID)
  then mret (_not_configured "meta")
  else verify_credential [400; 401; 403] "meta"
    (mkWebRequest "GET" (graph_url ("/" +:+ text_if META_WHATSAPP_PHONE_NUMBER_ID)) bearer None).

(** ** The choice of a provider *)
Record MessageProvider := mkMessageProvider {
  name_of : string;
  provider_deliver : string → string → option json → M Notify ProviderDelivery
}.
(** [str(d.get(k) or default)] *)
Definition text_or (d : json) (k default : string) : string :=
  match member k (Some d) with Some v => if truthy v then py_str v else default | None => default end.
Definition given_key (payload : json) : M Notify string :=
  match member "idempotency_key" (Some payload) with
  | Some v => if truthy v then mret (py_str v) else i ← notify_uuid; mret (uuid_str i)
  | None => i ← notify_uuid; mret (uuid_str i)
  end.
Definition fake_provider (channel : string) : MessageProvider :=
  mkMessageProvider ("fake_" +:+ channel) (λ _ _ media, fake_deliver media).
Definition _provider_for (channel : string) (tenant_id : option json) (payload : json)
    (provider_name : option string) : M Notify MessageProvider :=
  let selected_email_provider := or_str provider_name NOTIFICATION_EMAIL_PROVIDER in
  if String.eqb channel "email" && String.eqb selected_email_provider "resend" then
    key ← given_key payload;
    mret (mkMessageProvider "resend" (deliver
      (ResendEmailProvider.make (text_or payload "subject" "NexoDesk") key None [])))
  else if String.eqb channel "slack" && opt_nonempty SLACK_WEBHOOK_URL then
    mret (mkMessageProvider "slack" (λ _, slack_deliver))
  else if String.eqb channel "whatsapp" && String.eqb NOTIFICATION_WHATSAPP_PROVIDER "meta" then
    mret (mkMessageProvider "meta" (meta_deliver tenant_id))
  else if String.eqb channel "whatsapp" && String.eqb NOTIFICATION_WHATSAPP_PROVIDER "twilio" then
    mret (mkMessageProvider "twilio" twilio_deliver)
  else mret (fake_provider channel).

(** ** The store of deliveries *)
Definition _load_delivery (key : string) : M Notify (option json) :=
  if NOTIFICATION_REDIS_ENABLED then
    now ← notify_now;
    value ← redis_call (GET now key);
    mret (match value with Some (RJson v) => Some v | _ => None end)
  else
    deliveries ← gets Notify.memory_deliveries;
    mret (match dget key deliveries with Some v => if truthy v then Some v else None | None => None end).
Definition _store_delivery (key : string) (value : json) (retention_seconds : json) : M Notify json :=
  if NOTIFICATION_REDIS_ENABLED then
    ttl ← lift (match retention_seconds with JNum n => Ok n | _ => Err TypeError end);
    now ← notify_now;
    fresh ← redis_call (SETNX now key (RJson value) ttl);
    if fresh : bool then mret value
    else
      stored ← redis_call (GET now key);
      mret (match stored with Some (RJson v) => v | _ => value end)
  else
    deliveries ← gets Notify.memory_deliveries;
    match dget key deliveries with
    | Some v => mret v
    | None => modify (λ s, s <| Notify.memory_deliveries ::= dset key value |>);; mret value
    end.

Definition delivery_key (channel idempotency_key : string) : string :=
  NOTIFICATION_REDIS_KEY_PREFIX +:+ ":delivery:" +:+ channel +:+ ":" +:+ idempotency_key.
Definition policy_of (payload : json) : option json := member "delivery_policy" (Some payload).
Definition policy_mode (payload : json) : json :=
  jor (from_option id JNull (member "mode" (policy_of payload))) (JStr NOTIFICATION_DELIVERY_DEFAULT_POLICY).
Definition policy_retention (payload : json) : json :=
  jor (from_option id JNull (member "retention_seconds" (policy_of payload)))
    (JNum NOTIFICATION_DELIVERY_RETENTION_SECONDS).
(** The answer for a delivery that was made. *)
Definition accepted_delivery (channel recipient provider : string) (payload : json)
    (delivery : ProviderDelivery) : json :=
  let persisted := negb (is_str (policy_mode payload) "transient") && NOTIFICATION_REDIS_ENABLED in
  JObj [("delivery_id", JStr (provider_message_id delivery)); ("channel", JStr channel);
        ("recipient", JStr recipient); ("provider", JStr provider); ("status", JStr (pd_status delivery));
        ("delivery_store", JStr (if NOTIFICATION_REDIS_ENABLED then "redis" else "memory"));
        ("delivery_policy", policy_mode payload); ("persisted", JBool persisted);
        ("payload_stored", JBool false);
        ("retention_seconds", if persisted then policy_retention payload else JNull);
        ("payload", JNull)].
(** The delivery itself, and the name of its provider. *)
Definition make_delivery (channel recipient : string) (payload : json) (provider_name : option string)
    : M Notify (string * ProviderDelivery) :=
  provider ← _provider_for channel (member "tenant_id" (member "metadata" (Some payload))) payload
    provider_name;
  media ← match member "media" (Some payload) with
          | Some (JObj l) => m ← lift (media_reference (JObj l)); mret (Some m)
          | _ => mret None
          end;
  delivery ← provider_deliver provider recipient
    (text_or payload "body" (text_or payload "content" "")) media;
  mret (name_of provider, delivery).
Definition accept_delivery (channel recipient : string) (payload : json) (provider_name : option string)
    : M Notify json :=
  idempotency_key ← given_key payload;
  let cache_key := delivery_key channel idempotency_key in
  existing ← _load_delivery cache_key;
  match existing with
  | Some delivery => mret delivery
  | None =>
      made ← make_delivery channel recipient payload provider_name;
      _store_delivery cache_key (accepted_delivery channel recipient made.1 payload made.2)
        (policy_retention payload)
  end.
End deliveries.

(** * A delivery is made once *)

Section facts.
Context `{NotifySettings} `{NotifyEnv} `{MediaStorage}.
Implicit Types (s : Notify) (key : string) (value : json).

(** ** Providers leave the store of deliveries and the clock alone *)
Definition store_view s := (Notify.memory_deliveries s, Notify.redis s, Notify.clock s).
Abbreviation leaves := (preserves (same store_view)).
Lemma urlopen_store request : leaves (urlopen request).
Proof. unfold urlopen. preserve. apply preserves_modify. by intros s. Qed.
Lemma uuid_store : leaves notify_uuid.
Proof. by intros s. Qed.
Lemma by_tenant_store t : leaves (MetaConnectionRepository.get_by_tenant t).
Proof. by intros s. Qed.
#[local] Hint Resolve urlopen_store uuid_store by_tenant_store : preserve.
Lemma given_key_store payload : leaves (given_key payload).
Proof. unfold given_key. preserve. Qed.
Lemma provider_store channel tenant payload name s p s1 recipient content media :
  _provider_for channel tenant payload name s = (Ok p, s1) →
  store_view s1 = store_view s ∧ leaves (provider_deliver p recipient content media).
Proof.
  unfold _provider_for. intros Hp.
  assert (Hq : leaves (_provider_for channel tenant payload name))
    by (pose proof given_key_store; unfold _provider_for; preserve).
  split; [exact (preserves_run _ _ _ _ _ Hq Hp)|].
  repeat match goal with
  | H : (if ?b then _ else _) _ = _ |- _ => destruct b
  | H : (_ ≫= _) _ = (Ok _, _) |- _ => apply bind_ok in H as (? & ? & _ & H)
  end; apply ret_ok in Hp as [-> _]; cbn [provider_deliver fake_provider];
  unfold deliver, slack_deliver, meta_deliver, _phone_number_id, twilio_deliver, fake_deliver; preserve.
Qed.
Lemma make_delivery_store channel recipient payload name : leaves (make_delivery channel recipient payload name).
Proof.
  intros s. unfold make_delivery.
  destruct (_provider_for channel (member "tenant_id" (member "metadata" (Some payload))) payload name s)
    as [[p|e] s1] eqn:Ep.
  - rewrite (bind_step_ok _ _ _ _ _ Ep). set (m := _ ≫= _).
    assert (Hm : leaves m).
    { unfold m. preserve. by apply (provider_store _ _ _ _ _ _ _ _ _ _ Ep). }
    etrans; [|exact (Hm s1)]. by apply (provider_store _ _ _ _ _ _ _ "" "" None Ep).
  - rewrite (bind_step_err _ _ _ _ _ Ep).
    assert (Hq : leaves (_provider_for channel (member "tenant_id" (member "metadata" (Some payload))) payload name))
      by (pose proof given_key_store; unfold _provider_for; preserve).
    exact (preserves_run _ _ _ _ _ Hq Ep).
Qed.

(** ** The record of a delivery *)
(** [value] is kept under [key], in Redis until [t]. *)
Definition holds key value (t : Z) s : Prop :=
  if NOTIFICATION_REDIS_ENABLED
  then Notify.redis s !! key = Some (Entry (RJson value) (Some t))
  else dget key (Notify.memory_deliveries s) = Some value.
Definition still (t : Z) s : Prop := NOTIFICATION_REDIS_ENABLED = true → Notify.clock s < t.
(** A run keeps the record, and takes no time. *)
Definition keeps_record key value t s s' : Prop :=
  holds key value t s → still t s → holds key value t s' ∧ Notify.clock s' = Notify.clock s.
#[local] Instance keeps_record_preorder key value t : PreOrder (keeps_record key value t).
Proof.
  split; [by intros s|]. intros s1 s2 s3 H12 H23 Hh Hs. destruct (H12 Hh Hs) as [Hh2 E2].
  destruct (H23 Hh2) as [Hh3 E3]; [unfold still in *; by rewrite E2|]. split; [done|congruence].
Qed.
Lemma leaves_keeps {A} (m : M Notify A) key value t : leaves m → preserves (keeps_record key value t) m.
Proof.
  apply preserves_mono. intros s s' E Hh _. unfold holds in *. injection E as -> -> ->. done.
Qed.
Lemma load_run key s : ∃ r, _load_delivery key s = (r, s).
Proof.
  unfold _load_delivery, redis_call, notify_now, gets, GET, mbind, M_bind.
  destruct NOTIFICATION_REDIS_ENABLED; [|by eexists].
  destruct (find_key _ _ _) as [[[] ?]|]; destruct s; by eexists.
Qed.
Lemma load_found key value t s :
  holds key value t s → still t s → truthy value = true → _load_delivery key s = (Ok (Some value), s).
Proof.
  unfold holds, still, _load_delivery, redis_call, notify_now, gets, GET, mbind, M_bind.
  destruct NOTIFICATION_REDIS_ENABLED; intros Hh Hs Hv.
  - rewrite (proj2 (find_key_some _ _ _ (Entry (RJson value) (Some t)))).
    + by destruct s.
    + split; [done|]. unfold expired. cbn. apply Z.leb_gt. by apply Hs.
  - cbn. by rewrite Hh, Hv.
Qed.
Lemma store_keeps key value t key' value' retention :
  preserves (keeps_record key value t) (_store_delivery key' value' retention).
Proof.
  intros s Hh Hs. unfold _store_delivery. unfold holds, still in *. destruct NOTIFICATION_REDIS_ENABLED.
  - unfold lift, redis_call, notify_now, gets, SETNX, GET, mbind, M_bind.
    destruct (match retention with JNum n => Ok n | _ => Err TypeError end) as [ttl|e]; cbn; [|done].
    destruct (ttl <=? 0); [by destruct s|].
    destruct (decide (key' = key)) as [->|Hne].
    + rewrite (proj2 (find_key_some _ _ _ (Entry (RJson value) (Some t)))).
      * cbn. rewrite (proj2 (find_key_some _ _ _ (Entry (RJson value) (Some t)))); [by destruct s|].
        split; [done|]. unfold expired. cbn. apply Z.leb_gt. by apply Hs.
      * split; [done|]. unfold expired. cbn. apply Z.leb_gt. by apply Hs.
    + destruct (find_key (Notify.clock s) key' (Notify.redis s)) as [e|] eqn:Ef; cbn.
      * rewrite Ef. by destruct e as [[] ?], s.
      * by rewrite lookup_insert_ne.
  - unfold gets, modify, mbind, M_bind. cbn. destruct (dget key' _) as [v|] eqn:Ed; [done|]. cbn.
    rewrite dget_set_ne; [done|]. intros ->. congruence.
Qed.
Lemma accept_keeps key value t channel recipient payload name :
  preserves (keeps_record key value t) (accept_delivery channel recipient payload name).
Proof.
  unfold accept_delivery. apply preserves_bind; [apply _|apply leaves_keeps, given_key_store|].
  intros k. apply preserves_bind; [apply _| |].
  - intros s. destruct (load_run (delivery_key channel k) s) as [r ->]. reflexivity.
  - intros [v|]; [apply preserves_ret; apply _|]. apply preserves_bind; [apply _| |].
    + apply leaves_keeps, make_delivery_store.
    + intros made. apply store_keeps.
Qed.
Lemma accept_clock channel recipient payload name :
  preserves (same Notify.clock) (accept_delivery channel recipient payload name).
Proof.
  assert (Hl : ∀ A (m : M Notify A), leaves m → preserves (same Notify.clock) m).
  { intros A m. apply preserves_mono. intros s s' E. by injection E. }
  unfold accept_delivery. apply preserves_bind; [apply _|apply Hl, given_key_store|].
  intros k. apply preserves_bind; [apply _| |].
  - intros s. by destruct (load_run (delivery_key channel k) s) as [r ->].
  - intros [v|]; [apply preserves_ret; apply _|].
    apply preserves_bind; [apply _|apply Hl, make_delivery_store|]. intros made s.
    unfold _store_delivery, lift, redis_call, notify_now, gets, mbind, M_bind.
    destruct NOTIFICATION_REDIS_ENABLED.
    + destruct (match policy_retention payload with JNum n => Ok n | _ => Err TypeError end); cbn; [|done].
      destruct (SETNX _ _ _ _ _) as [[[]|e] db]; cbn; try done. by destruct (GET _ _ _) as [[]].
    + cbn. by destruct (dget _ _).
Qed.

(** ** The first delivery under a key is recorded *)
Definition unrecorded key s : Prop :=
  if NOTIFICATION_REDIS_ENABLED then find_key (Notify.clock s) key (Notify.redis s) = None
  else dget key (Notify.memory_deliveries s) = None.
Definition recorded_until (payload : json) s : Z :=
  match policy_retention payload with JNum ttl => deadline (Notify.clock s) ttl | _ => 0 end.
Lemma given_key_run payload key s :
  member "idempotency_key" (Some payload) = Some (JStr key) → nonempty key = true →
  given_key payload s = (Ok key, s).
Proof. intros E Hn. unfold given_key. rewrite E. assert (Ht : truthy (JStr key) = true) by exact Hn. by rewrite Ht. Qed.
Lemma store_ok key value payload s r s' :
  _store_delivery key value (policy_retention payload) s = (Ok r, s') → unrecorded key s →
  r = value ∧ holds key value (recorded_until payload s) s'.
Proof.
  unfold _store_delivery, unrecorded, holds, recorded_until.
  unfold lift, redis_call, notify_now, gets, SETNX, mbind, M_bind.
  destruct NOTIFICATION_REDIS_ENABLED; intros Hr Hu.
  - destruct (policy_retention payload) as [| |ttl| | | |]; try done. cbn in Hr.
    destruct (ttl <=? 0); [done|]. rewrite Hu in Hr. cbn in Hr. injection Hr as <- <-.
    split; [done|]. cbn. by rewrite lookup_insert_eq.
  - cbn in Hr. rewrite Hu in Hr. cbn in Hr. injection Hr as <- <-. split; [done|]. apply dget_set.
Qed.

(** Deliveries, the passage of time, and whatever leaves the store alone. *)
Inductive delivery_step : relation Notify :=
| step_accept channel recipient payload name s :
    delivery_step s (accept_delivery channel recipient payload name s).2
| step_time now s : Notify.clock s ≤ now → delivery_step s (s <| Notify.clock := now |>)
| step_aside s s' : store_view s' = store_view s → delivery_step s s'.
Lemma step_clock s s' : delivery_step s s' → Notify.clock s ≤ Notify.clock s'.
Proof.
  intros [channel recipient payload name s0|now s0 Hn|s0 s1 E]; [|done|by injection E as _ _ ->].
  rewrite (accept_clock channel recipient payload name s0). done.
Qed.
Lemma steps_clock s s' : rtc delivery_step s s' → Notify.clock s ≤ Notify.clock s'.
Proof. induction 1 as [|s1 s2 s3 Hs _ IH]; [done|]. apply step_clock in Hs. lia. Qed.
Lemma steps_hold key value t s s' :
  rtc delivery_step s s' → holds key value t s → still t s' → holds key value t s'.
Proof.
  induction 1 as [|s1 s2 s3 Hstep Hr IH]; intros Hh Hs; [done|]. apply IH; [|done].
  assert (Hs2 : still t s2) by (intros Hr'; specialize (Hs Hr'); apply steps_clock in Hr; lia).
  assert (Hs1 : still t s1) by (intros Hr'; specialize (Hs2 Hr'); apply step_clock in Hstep; lia).
  destruct Hstep as [channel recipient payload name s0|now s0 Hn|s0 s4 E].
  - by apply (accept_keeps key value t).
  - exact Hh.
  - unfold holds in *. by injection E as -> -> _.
Qed.

(** C12: A delivery is made once per key.  The first request of a channel under an
    idempotency key is delivered and recorded; from then on every request of that
    channel with the key - with whatever recipient, text and provider - is answered
    with the recorded delivery, sends nothing and changes nothing, whatever other
    deliveries are made in between: for ever when the deliveries are kept in
    memory, and for the retention of the first request when they are kept in
    Redis. *)
Theorem delivery_is_made_once (channel recipient key : string) (payload : json) (name : option string)
    (s s1 s2 : Notify) (d : json) :
  member "idempotency_key" (Some payload) = Some (JStr key) → nonempty key = true →
  unrecorded (delivery_key channel key) s →
  accept_delivery channel recipient payload name s = (Ok d, s1) →
  rtc delivery_step s1 s2 → still (recorded_until payload s) s2 →
  ∃ provider delivery, d = accepted_delivery channel recipient provider payload delivery ∧
  ∀ recipient' payload' name', member "idempotency_key" (Some payload') = Some (JStr key) →
    accept_delivery channel recipient' payload' name' s2 = (Ok d, s2).
Proof.
  intros Ek Hn Hu Hr Hsteps Hstill. unfold accept_delivery in Hr.
  rewrite (bind_step_ok _ _ _ _ _ (given_key_run _ _ s Ek Hn)) in Hr. cbv zeta in Hr.
  assert (El : _load_delivery (delivery_key channel key) s = (Ok None, s)).
  { unfold unrecorded in Hu. unfold _load_delivery, redis_call, notify_now, gets, GET, mbind, M_bind.
    destruct NOTIFICATION_REDIS_ENABLED; cbn; rewrite Hu; by destruct s. }
  rewrite (bind_step_ok _ _ _ _ _ El) in Hr.
  apply bind_ok in Hr as ([provider delivery] & s0 & Hmade & Hr).
  pose proof (preserves_run _ _ _ _ _ (make_delivery_store _ _ _ _) Hmade) as E.
  assert (Hu0 : unrecorded (delivery_key channel key) s0)
    by (unfold unrecorded in *; by injection E as -> -> ->).
  apply store_ok in Hr as [-> Hh]; [|done].
  assert (Et : recorded_until payload s0 = recorded_until payload s)
    by (unfold recorded_until; by injection E as _ _ ->).
  rewrite Et in Hh. exists provider, delivery. split; [done|].
  intros recipient' payload' name' Ek'. unfold accept_delivery.
  rewrite (bind_step_ok _ _ _ _ _ (given_key_run _ _ s2 Ek' Hn)). cbv zeta.
  pose proof (load_found _ _ _ s2 (steps_hold _ _ _ _ _ Hsteps Hh Hstill) Hstill eq_refl) as Efound.
  by rewrite (bind_step_ok _ _ _ _ _ Efound).
Qed.
End facts.
