(* ===== verification/Messaging.v ===== *)
(** * Requests for deliveries (notification_api, modules/messaging)

    The payloads and endpoints of e-mail, Slack and WhatsApp messages, the internal
    delivery request, the catalogue and the verification of providers
    (provider_router.py and the functions it calls), and the publisher of inbound
    events (whatsapp_inbound_events.py). *)

From S2P Require Import Prelude.
From S2P Require Import PyText.
From S2P Require Import Json.
From S2P Require Import DateTime.
From S2P Require Import Orm.
From S2P Require Import EmailTemplates.
From S2P Require Import Http.
From S2P Require Import Notify.
From S2P Require Import Resend.
From S2P Require Import MetaOnboarding.
From S2P Require Import Deliveries.

Local Open Scope Z_scope.

(** ** Payloads, as what [model_dump] gives of them *)
Record DeliveryPolicy := mkDeliveryPolicy { dp_mode : option string; dp_retention_seconds : option Z }.
Definition policy_ok (p : DeliveryPolicy) : bool :=
  match dp_mode p with Some m => mem_str m ["transient"; "tracked"; "reliable"] | None => true end &&
  match dp_retention_seconds p with Some n => (60 <=? n) && (n <=? 2592000) | None => true end.
Definition policy_dump (p : option DeliveryPolicy) : json :=
  match p with
  | Some p => JObj [("mode", jopt_str (dp_mode p));
                    ("retention_seconds", match dp_retention_seconds p with Some n => JNum n | None => JNull end)]
  | None => JNull
  end.
(** EmailMessage, SlackMessage and WhatsAppMessage *)
Record EmailMessage := mkEmailMessage {
  em_to : string; em_subject : string; em_body : string; em_idempotency_key : option string;
  em_metadata : list (string * json); em_delivery_policy : option DeliveryPolicy
}.
Record SlackMessage := mkSlackMessage {
  sm_channel : string; sm_text : string; sm_idempotency_key : option string;
  sm_metadata : list (string * json); sm_delivery_policy : option DeliveryPolicy
}.
Record WhatsAppMessage := mkWhatsAppMessage {
  wm_to : string; wm_body : string; wm_media : option json; wm_idempotency_key : option string;
  wm_metadata : list (string * json); wm_delivery_policy : option DeliveryPolicy
}.
Definition email_dump (m : EmailMessage) : json :=
  JObj [("to", JStr (em_to m)); ("subject", JStr (em_subject m)); ("body", JStr (em_body m));
        ("idempotency_key", jopt_str (em_idempotency_key m)); ("metadata", JObj (em_metadata m));
        ("delivery_policy", policy_dump (em_delivery_policy m))].
Definition slack_dump (m : SlackMessage) : json :=
  JObj [("channel", JStr (sm_channel m)); ("text", JStr (sm_text m));
        ("idempotency_key", jopt_str (sm_idempotency_key m)); ("metadata", JObj (sm_metadata m));
        ("delivery_policy", policy_dump (sm_delivery_policy m))].
Definition whatsapp_dump (m : WhatsAppMessage) : json :=
  JObj [("to", JStr (wm_to m)); ("body", JStr (wm_body m));
        ("media", from_option id JNull (wm_media m));
        ("idempotency_key", jopt_str (wm_idempotency_key m)); ("metadata", JObj (wm_metadata m));
        ("delivery_policy", policy_dump (wm_delivery_policy m))].
(** [WhatsAppMessage.require_content] *)
Definition has_content (m : WhatsAppMessage) : bool :=
  not_blank (wm_body m) || has_media (wm_media m).

Section messaging.
Context `{NotifySettings} `{NotifyEnv} `{MediaStorage}.

(** [DeliveryAccepted(...)] of a dictionary [accept_delivery] answers. *)
Definition delivery_accepted (accepted : json) : result DeliveryAccepted :=
  let flag k := match member k (Some accepted) with Some (JBool b) => Some b | _ => None end in
  let built :=
    i ← text_member accepted "delivery_id"; channel ← text_member accepted "channel";
    recipient ← text_member accepted "recipient"; provider ← text_member accepted "provider";
    status ← text_member accepted "status"; store ← text_member accepted "delivery_store";
    policy ← text_member accepted "delivery_policy"; persisted ← flag "persisted";
    payload_stored ← flag "payload_stored";
    retention ← (match member "retention_seconds" (Some accepted) with
                 | Some JNull => Some None | Some (JNum n) => Some (Some n) | _ => None end);
    if mem_str policy ["transient"; "tracked"; "reliable"]
    then Some (mkDeliveryAccepted i channel recipient provider status store policy persisted
                 payload_stored retention None (member "event" (Some accepted)))
    else None in
  match built with Some d => Ok d | None => Err ValidationError end.

Definition request_email_delivery (payload : EmailMessage) : M Notify DeliveryAccepted :=
  accepted ← accept_delivery "email" (em_to payload) (email_dump payload) None;
  lift (delivery_accepted accepted).
Definition request_slack_delivery (payload : SlackMessage) : M Notify DeliveryAccepted :=
  accepted ← accept_delivery "slack" (sm_channel payload) (slack_dump payload) None;
  lift (delivery_accepted accepted).
(** contracts/whatsapp_events.py *)
Definition build_whatsapp_message_requested (to body : string) (media : option json) : M Notify json :=
  i ← notify_uuid;
  mret (JObj [("event_id", JStr (uuid_str i));
              ("event_type", JStr "notification.whatsapp_message_requested");
              ("topic", JStr NOTIFICATION_WHATSAPP_TOPIC); ("version", JNum 1);
              ("payload", JObj [("to", JStr to); ("body", JStr body);
                                ("media", from_option id JNull media)])]).
Definition request_whatsapp_delivery (payload : WhatsAppMessage) : M Notify DeliveryAccepted :=
  accepted ← accept_delivery "whatsapp" (wm_to payload) (whatsapp_dump payload) None;
  accepted ← (if NOTIFICATION_KAFKA_ENABLED
              then event ← build_whatsapp_message_requested (wm_to payload) (wm_body payload) (wm_media payload);
                   mret (jset accepted "event" event)
              else mret accepted);
  lift (delivery_accepted accepted).

(** ** The public endpoints of messages *)
Definition email_message_ok (m : EmailMessage) : bool :=
  length_in 3 255 (em_to m) && length_in 1 160 (em_subject m) && (1 <=? points (em_body m)) &&
  optional_in (length_in 0 180) (em_idempotency_key m) &&
  match em_delivery_policy m with Some p => policy_ok p | None => true end.
Definition slack_message_ok (m : SlackMessage) : bool :=
  length_in 1 120 (sm_channel m) && (1 <=? points (sm_text m)) &&
  optional_in (length_in 0 180) (sm_idempotency_key m) &&
  match sm_delivery_policy m with Some p => policy_ok p | None => true end.
Definition whatsapp_message_ok (m : WhatsAppMessage) : bool :=
  length_in 6 40 (wm_to m) && length_in 0 10000 (wm_body m) &&
  optional_in (length_in 0 180) (wm_idempotency_key m) &&
  match wm_delivery_policy m with Some p => policy_ok p | None => true end && has_content m.
Definition send_email (findings : list (list string * string * string)) (payload : EmailMessage)
    : M Notify DeliveryAccepted :=
  raise_if (negb (email_message_ok payload)) (RequestValidationError findings);;
  request_email_delivery payload.
Definition send_slack_message (findings : list (list string * string * string)) (payload : SlackMessage)
    : M Notify DeliveryAccepted :=
  raise_if (negb (slack_message_ok payload)) (RequestValidationError findings);;
  request_slack_delivery payload.
Definition send_whatsapp_message (findings : list (list string * string * string))
    (payload : WhatsAppMessage) : M Notify DeliveryAccepted :=
  raise_if (negb (whatsapp_message_ok payload)) (RequestValidationError findings);;
  request_whatsapp_delivery payload.

(** ** internal_delivery.py *)
Record InternalDeliveryRequest := mkInternalDeliveryRequest {
  id_tenant_id : option N; id_channel : string; id_recipient : string; id_subject : option string;
  id_content : string; id_media : option json; id_idempotency_key : string;
  id_metadata : list (string * json)
}.
(** The bounds of the fields, and [require_content]. *)
Definition internal_delivery_ok (p : InternalDeliveryRequest) : bool :=
  mem_str (id_channel p) ["email"; "slack"; "whatsapp"] && length_in 3 255 (id_recipient p) &&
  optional_in (length_in 1 160) (id_subject p) && length_in 0 10000 (id_content p) &&
  length_in 8 180 (id_idempotency_key p) &&
  (not_blank (id_content p) || has_media (id_media p)) &&
  negb (String.eqb (id_channel p) "email" && negb (opt_nonempty (id_subject p))) &&
  match id_media p with
  | Some media =>
      String.eqb (id_channel p) "whatsapp" &&
      match id_tenant_id p with
      | Some t => starts_with (uuid_str t +:+ "/") (media_object_key media)
      | None => false
      end
  | None => true
  end.
(** A message the code builds itself is validated when it is built. *)
Definition built {A} (ok : A → bool) (m : A) : M Notify A :=
  raise_if (negb (ok m)) ValidationError;; mret m.
(** The metadata of the request comes after the tenant and may replace it. *)
Definition tenant_metadata (p : InternalDeliveryRequest) : list (string * json) :=
  foldl (λ d kv, assoc_set kv.1 kv.2 d)
    [("tenant_id", match id_tenant_id p with Some t => JStr (uuid_str t) | None => JNull end)]
    (id_metadata p).
Definition request_internal_delivery (findings : list (list string * string * string))
    (x_atlas_service x_atlas_service_key : option string) (payload : InternalDeliveryRequest)
    : M Notify DeliveryAccepted :=
  raise_if (negb (internal_delivery_ok payload)) (RequestValidationError findings);;
  lift (authorize_service x_atlas_service x_atlas_service_key);;
  let key := Some (id_idempotency_key payload) in
  if String.eqb (id_channel payload) "email" then
    message ← built email_message_ok (mkEmailMessage (id_recipient payload)
      (or_str (id_subject payload) "NexoDesk") (id_content payload) key (id_metadata payload) None);
    request_email_delivery message
  else if String.eqb (id_channel payload) "slack" then
    message ← built slack_message_ok (mkSlackMessage (id_recipient payload) (id_content payload) key
      (id_metadata payload) None);
    request_slack_delivery message
  else
    message ← built whatsapp_message_ok (mkWhatsAppMessage (id_recipient payload) (id_content payload)
      (id_media payload) key (tenant_metadata payload) None);
    request_whatsapp_delivery message.

(** ** The catalogue and the verification of providers *)
Definition status_of (configured : bool) : json := JStr (if configured then "configured" else "not_configured").
Definition catalogue_entry (configured : bool) (rest : list (string * json)) : json :=
  JObj ([("status", status_of configured); ("mode", JStr "external");
         ("credentials_configured", JBool configured)] ++ rest).
Definition provider_catalog : json :=
  let selected name := String.eqb NOTIFICATION_WHATSAPP_PROVIDER name in
  let meta_configured :=
    opt_nonempty META_WHATSAPP_ACCESS_TOKEN && opt_nonempty META_WHATSAPP_PHONE_NUMBER_ID in
  let resend_selected := String.eqb NOTIFICATION_EMAIL_PROVIDER "resend" in
  let whatsapp name configured := [("selected", JBool (selected name));
    ("active", JBool (selected name && configured)); ("channels", JArr [JStr "whatsapp"])] in
  JObj
   [("fake", JObj [("status", JStr "available"); ("mode", JStr "fake");
       ("credentials_configured", JBool true); ("active", JBool true);
       ("channels", JArr [JStr "email"; JStr "slack"; JStr "whatsapp"]);
       ("whatsapp_selected", JBool (selected "fake"))]);
    ("sendgrid", catalogue_entry (opt_nonempty SENDGRID_API_KEY)
       [("selected", JBool (String.eqb NOTIFICATION_EMAIL_PROVIDER "sendgrid")); ("active", JBool false);
        ("reason", JStr "delivery_adapter_not_implemented")]);
    ("resend", catalogue_entry (opt_nonempty RESEND_API_KEY)
       [("selected", JBool resend_selected);
        ("active", JBool (resend_selected && opt_nonempty RESEND_API_KEY));
        ("channels", JArr [JStr "email"]); ("from", JStr RESEND_FROM_EMAIL)]);
    ("twilio", catalogue_entry twilio_configured (whatsapp "twilio" twilio_configured));
    ("meta", catalogue_entry meta_configured (whatsapp "meta" meta_configured ++
       [("webhook_configured",
         JBool (opt_nonempty META_WHATSAPP_VERIFY_TOKEN && opt_nonempty META_APP_SECRET));
        ("graph_api_version", JStr META_GRAPH_API_VERSION)]));
    ("slack", catalogue_entry (opt_nonempty SLACK_WEBHOOK_URL)
       [("active", JBool (opt_nonempty SLACK_WEBHOOK_URL))])].
Definition verify_provider (provider_name : string) : M Notify json :=
  let normalized := lower (strip provider_name) in
  if String.eqb normalized "fake" then mret (fake_verify "fake")
  else if String.eqb normalized "sendgrid" then
    if negb (opt_nonempty SENDGRID_API_KEY) then mret (_not_configured "sendgrid")
    else _verify_http_credential "sendgrid" (mkWebRequest "GET" "https://api.sendgrid.com/v3/user/profile"
           [("Authorization", "Bearer " +:+ text_if SENDGRID_API_KEY)] None)
  else if String.eqb normalized "resend" then verify_resend_credentials
  else if String.eqb normalized "twilio" then verify_twilio_credentials
  else if String.eqb normalized "meta" then verify_meta_credentials
  else if String.eqb normalized "slack" then
    if negb (opt_nonempty SLACK_WEBHOOK_URL) then mret (_not_configured "slack")
    else mret (JObj [("provider", JStr "slack"); ("status", JStr "configured"); ("verified", JBool false);
                     ("reason", JStr "incoming_webhook_has_no_non_delivery_verification")])
  else mret (JObj [("provider", JStr normalized); ("status", JStr "unsupported"); ("verified", JBool false)]).
(** provider_router.py *)
Definition list_providers (x_atlas_service x_atlas_service_key : option string) : M Notify json :=
  lift (authorize_service x_atlas_service x_atlas_service_key);; mret provider_catalog.
Definition verify_provider_credentials (provider_name : string)
    (x_atlas_service x_atlas_service_key : option string) : M Notify json :=
  lift (authorize_service x_atlas_service x_atlas_service_key);; verify_provider provider_name.


(** ** main.py: the state of the channels ([Settings.channel_status]) *)
Definition channel_status : json := JObj
  [("email", JObj [("enabled", JBool true); ("provider", JStr NOTIFICATION_EMAIL_PROVIDER);
      ("sendgrid_configured", JBool (opt_nonempty SENDGRID_API_KEY));
      ("resend_configured", JBool (opt_nonempty RESEND_API_KEY))]);
   ("slack", JObj [("enabled", JBool true);
      ("provider", JStr (if opt_nonempty SLACK_WEBHOOK_URL then "slack_webhook" else "local_ack"))]);
   ("whatsapp", JObj [("enabled", JBool true);
      ("provider", JStr (if String.eqb NOTIFICATION_WHATSAPP_PROVIDER "fake" then "fake_whatsapp"
                         else NOTIFICATION_WHATSAPP_PROVIDER));
      ("twilio_configured", JBool twilio_configured);
      ("meta_configured", JBool (opt_nonempty META_WHATSAPP_ACCESS_TOKEN &&
                                 opt_nonempty META_WHATSAPP_PHONE_NUMBER_ID));
      ("meta_webhook_configured", JBool (opt_nonempty META_WHATSAPP_VERIFY_TOKEN &&
                                         opt_nonempty META_APP_SECRET));
      ("kafka_enabled", JBool NOTIFICATION_KAFKA_ENABLED);
      ("topic", JStr NOTIFICATION_WHATSAPP_TOPIC)]);
   ("delivery_attempts", JObj
     [("store", JStr (if NOTIFICATION_REDIS_ENABLED then "redis" else "memory"));
      ("redis_key_prefix", JStr NOTIFICATION_REDIS_KEY_PREFIX);
      ("default_policy", JStr NOTIFICATION_DELIVERY_DEFAULT_POLICY);
      ("retention_seconds", JNum NOTIFICATION_DELIVERY_RETENTION_SECONDS)])].
Definition list_channels : json := channel_status.
Definition notification_health_check : json :=
  JObj [("status", JStr "ok"); ("service", JStr "notification_api")].
End messaging.

(** ** The publisher of inbound events *)
Module WhatsappInboundPublisher.
Section publisher.
Context `{NotifySettings} `{NotifyEnv}.
(** The producer is kept before it is started. *)
Definition start : M Notify unit :=
  running ← gets Notify.producer;
  if negb NOTIFICATION_KAFKA_ENABLED || running : bool then mret tt
  else
    modify (λ s, s <| Notify.producer := true |>);;
    raise_if (negb kafka_starts) KafkaError.
Definition stop : M Notify unit := modify (λ s, s <| Notify.producer := false |>).
Definition publish (payload : json) : M Notify unit :=
  running ← gets Notify.producer;
  raise_if (negb running) (RuntimeError "WhatsApp event publisher is unavailable");;
  sent ← gets Notify.published;
  raise_if (bool_decide (kafka_sends sent payload = NotStored)) KafkaError;;
  modify (λ s, s <| Notify.published ::= λ l, l ++ [(NOTIFICATION_WHATSAPP_INBOUND_TOPIC, payload)] |>);;
  raise_if (bool_decide (kafka_sends sent payload = Unacknowledged)) KafkaError.
End publisher.
End WhatsappInboundPublisher.
