(* ===== verification/MetaWebhook.v ===== *)
(** * The webhook of Meta (notification_api, domains/meta/whatsapp)

    The payload of a notification (meta_schema.py), the signature, the claims of
    messages and the download of media (meta_service.py), the endpoints of
    meta_webhook_router.py, and the webhook of the fake provider
    (transport/fake_whatsapp_webhook_router.py). *)

From S2P Require Import Prelude.
From S2P Require Import PyText.
From S2P Require Import Json.
From S2P Require Import Base64.
From S2P Require Import DateTime.
From S2P Require Import Orm.
From S2P Require Import EmailTemplates.
From S2P Require Import Http.
From S2P Require Import Redis.
From S2P Require Import Notify.
From S2P Require Import Resend.
From S2P Require Import MetaOnboarding.
From S2P Require Import Deliveries.
From S2P Require Import Messaging.

Local Open Scope Z_scope.

(** ** The payload (meta_schema.py); [None] where the schema is not met *)
Definition members_of (d : json) : option (list (string * json)) :=
  match d with JObj l => Some l | _ => None end.
(** [x: str | None = None], [x: list[T] = []], [x: T | None = None] *)
Definition optional_text (l : list (string * json)) (k : string) : option (option string) :=
  match assoc k l with None | Some JNull => Some None | Some (JStr s) => Some (Some s) | _ => None end.
Definition list_of {A} (read : json → option A) (l : list (string * json)) (k : string) : option (list A) :=
  match assoc k l with None => Some [] | Some (JArr items) => mapM read items | _ => None end.
Definition optional_of {A} (read : json → option A) (l : list (string * json)) (k : string)
    : option (option A) :=
  match assoc k l with None | Some JNull => Some None | Some v => a ← read v; Some (Some a) end.

Record MetaWebhookMedia := mkMetaWebhookMedia { media_id : string; media_caption : option string }.
Record MetaWebhookStatus := mkMetaWebhookStatus {
  ws_id : string; ws_status : string; ws_timestamp : option string
}.
Record MetaWebhookContact := mkMetaWebhookContact {
  wa_id : string; profile : option (option string)
}.
Record MetaWebhookMessage := mkMetaWebhookMessage {
  from_number : string; wm_id : string; wm_type : option string; wm_text : option string;
  wm_image : option MetaWebhookMedia; wm_audio : option MetaWebhookMedia
}.
(** The metadata: the identifier of the number, where there is metadata. *)
Record MetaWebhookValue := mkMetaWebhookValue {
  phone_number : option string; contacts : list MetaWebhookContact;
  wv_messages : list MetaWebhookMessage; wv_statuses : list MetaWebhookStatus
}.
Record MetaWebhookChange := mkMetaWebhookChange { wc_field : option string; wc_value : MetaWebhookValue }.
Record MetaWebhookPayload := mkMetaWebhookPayload {
  wp_object : option string; entry_changes : list (list MetaWebhookChange)
}.
Definition read_media (d : json) : option MetaWebhookMedia :=
  l ← members_of d; i ← text_member d "id"; _ ← optional_text l "mime_type";
  _ ← optional_text l "sha256"; caption ← optional_text l "caption";
  Some (mkMetaWebhookMedia i caption).
Definition read_status (d : json) : option MetaWebhookStatus :=
  l ← members_of d; i ← text_member d "id"; status ← text_member d "status";
  timestamp ← optional_text l "timestamp"; _ ← optional_text l "recipient_id";
  Some (mkMetaWebhookStatus i status timestamp).
Definition read_profile (d : json) : option (option string) :=
  l ← members_of d; optional_text l "name".
Definition read_contact (d : json) : option MetaWebhookContact :=
  l ← members_of d; i ← text_member d "wa_id"; profile ← optional_of read_profile l "profile";
  Some (mkMetaWebhookContact i profile).
Definition read_text (d : json) : option string :=
  l ← members_of d;
  match assoc "body" l with None => Some "" | Some (JStr s) => Some s | _ => None end.
Definition read_message (d : json) : option MetaWebhookMessage :=
  l ← members_of d;
  from ← (match assoc "from" l with Some _ => text_member d "from" | None => text_member d "from_number" end);
  i ← text_member d "id"; _ ← optional_text l "timestamp"; type ← optional_text l "type";
  text ← optional_of read_text l "text"; image ← optional_of read_media l "image";
  audio ← optional_of read_media l "audio";
  Some (mkMetaWebhookMessage from i type text image audio).
Definition read_metadata (d : json) : option (option string) :=
  l ← members_of d; _ ← optional_text l "display_phone_number"; optional_text l "phone_number_id".
Definition read_value (d : json) : option MetaWebhookValue :=
  l ← members_of d; _ ← optional_text l "messaging_product";
  metadata ← optional_of read_metadata l "metadata";
  contacts ← list_of read_contact l "contacts"; messages ← list_of read_message l "messages";
  statuses ← list_of read_status l "statuses";
  Some (mkMetaWebhookValue (match metadata with Some p => p | None => None end) contacts messages statuses).
Definition read_change (d : json) : option MetaWebhookChange :=
  l ← members_of d; field ← optional_text l "field";
  v ← assoc "value" l; value ← read_value v;
  Some (mkMetaWebhookChange field value).
Definition read_entry (d : json) : option (list MetaWebhookChange) :=
  l ← members_of d; _ ← optional_text l "id"; list_of read_change l "changes".
Definition webhook_payload (d : json) : option MetaWebhookPayload :=
  l ← members_of d; object ← optional_text l "object"; entries ← list_of read_entry l "entry";
  Some (mkMetaWebhookPayload object entries).

Section webhook.
Context `{NotifySettings} `{NotifyEnv} `{MediaStorage}.

(** ** Signature and claims (meta_service.py) *)
Definition signature_prefix : string := "sha256=".
Definition verify_meta_signature (raw_body : string) (signature_header : option string) : result bool :=
  if negb (opt_nonempty META_APP_SECRET) || negb (opt_nonempty signature_header) then Ok false
  else if negb (starts_with signature_prefix (text_if signature_header)) then Ok false
  else compare_digest (Some (remove_prefix signature_prefix (text_if signature_header)))
         (Some (hmac_sha256_hex (text_if META_APP_SECRET) raw_body)).
Definition _webhook_key (provider_message_id : string) : string :=
  NOTIFICATION_REDIS_KEY_PREFIX +:+ ":webhook:meta:" +:+ provider_message_id.
Definition claim_meta_message (provider_message_id : string) : M Notify bool :=
  let key := _webhook_key provider_message_id in
  if NOTIFICATION_REDIS_ENABLED then
    now ← notify_now;
    redis_call (SETNX now key (RText "1") NOTIFICATION_DELIVERY_RETENTION_SECONDS)
  else
    claims ← gets Notify.memory_claims;
    if bool_decide (key ∈ claims) then mret false
    else modify (λ s, s <| Notify.memory_claims ::= λ c, {[key]} ∪ c |>);; mret true.
Definition release_meta_message (provider_message_id : string) : M Notify unit :=
  let key := _webhook_key provider_message_id in
  if NOTIFICATION_REDIS_ENABLED then redis_call (DEL [key])
  else modify (λ s, s <| Notify.memory_claims ::= λ c, c ∖ {[key]} |>).

(** ** Media (meta_service.py) *)
(** [response.read(n)] *)
Definition read_at_most (n : Z) (s : string) : string :=
  if Z.of_nat (String.length s) <=? n then s else take_str (Z.to_nat n) s.
(** [MetaMediaMetadata.model_validate]: the address and the type. *)
Definition media_metadata (d : json) : result (string * string) :=
  let read := l ← members_of d; url ← text_member d "url"; mime ← text_member d "mime_type";
    _ ← optional_text l "sha256";
    match assoc "file_size" l with None | Some JNull | Some (JNum _) => Some (url, mime) | _ => None end in
  match read with Some m => Ok m | None => Err ValidationError end.
Definition media_answer (answer : web_answer) : M Notify string :=
  match answer with
  | Answered body => mret body
  | Refused code body => raise (RuntimeError (_meta_delivery_error_message code body))
  | Unreachable => raise (RuntimeError "Meta WhatsApp media download is unavailable")
  end.
Definition download_meta_media (i tenant_id : string) : M Notify json :=
  raise_if (negb (opt_nonempty META_WHATSAPP_ACCESS_TOKEN))
    (RuntimeError "Meta WhatsApp access token is not configured");;
  answer ← urlopen (mkWebRequest "GET" (graph_url ("/" +:+ i)) bearer None);
  body ← media_answer answer;
  parsed ← some_or (orjson_loads body) JSONDecodeError;
  metadata ← lift (media_metadata parsed);
  answer ← urlopen (mkWebRequest "GET" metadata.1 bearer None);
  data ← media_answer answer;
  lift (media_store (read_at_most (25 * 1024 * 1024 + 1) data) tenant_id "whatsapp-inbound" metadata.2
          ("whatsapp-" +:+ i)).

(** ** The endpoints (meta_webhook_router.py) *)
Definition verify_meta_whatsapp_webhook (hub_mode hub_verify_token hub_challenge : option string)
    : result string :=
  let failed := Err (HTTPException 403 "Meta webhook verification failed") in
  if bool_decide (hub_mode = Some "subscribe") && opt_nonempty META_WHATSAPP_VERIFY_TOKEN then
    same ← verify_service_token (or_str hub_verify_token "") (text_if META_WHATSAPP_VERIFY_TOKEN);
    if same : bool then Ok (or_str hub_challenge "") else failed
  else failed.

Definition _resolve_tenant_id (phone_number_id : option string) : M Notify (option string) :=
  connection ←
    (match phone_number_id with
     | Some p => if nonempty p then MetaConnectionRepository.get_connected_by_phone_number_id p else mret None
     | None => mret None
     end);
  mret (match connection with
        | Some c => Some (uuid_str (tenant_of c))
        | None =>
            if opt_nonempty META_WHATSAPP_TENANT_ID &&
               (negb (opt_nonempty META_WHATSAPP_PHONE_NUMBER_ID) ||
                bool_decide (META_WHATSAPP_PHONE_NUMBER_ID = phone_number_id))
            then META_WHATSAPP_TENANT_ID else None
        end).

(** An event of the webhook: its identifier is drawn for it. *)
Definition publish_event (event_type : string) (payload : json) : M Notify unit :=
  i ← notify_uuid;
  now ← notify_now;
  WhatsappInboundPublisher.publish (JObj
    [("event_id", JStr (uuid_str i)); ("event_type", JStr event_type); ("version", JNum 1);
     ("occurred_at", JStr (isoformat now)); ("payload", payload)]).
Definition publish_status (notice : option string * MetaWebhookStatus) : M Notify unit :=
  tenant_id ← _resolve_tenant_id notice.1;
  match tenant_id with
  | None => mret tt
  | Some t => publish_event "notification.whatsapp_delivery_updated"
      (JObj [("tenant_id", JStr t); ("provider_message_id", JStr (ws_id notice.2));
             ("status", JStr (ws_status notice.2)); ("timestamp", jopt_str (ws_timestamp notice.2))])
  end.

(** The media and the text of a message, and its event. *)
Definition publish_message (tenant_id : string) (message : MetaWebhookMessage)
    (profile_name : option string) : M Notify unit :=
  let body := text_if (wm_text message) in
  let is_image := bool_decide (wm_type message = Some "image") in
  found ← match (if is_image then wm_image message else wm_audio message) with
          | Some payload =>
              media ← download_meta_media (media_id payload) tenant_id;
              mret (media, if is_image && opt_nonempty (media_caption payload)
                           then text_if (media_caption payload) else body)
          | None => mret (JNull, body)
          end;
  publish_event "notification.whatsapp_message_received"
    (JObj [("tenant_id", JStr tenant_id); ("from_number", JStr (from_number message));
           ("profile_name", jopt_str profile_name); ("body", JStr found.2);
           ("provider_message_id", JStr (wm_id message)); ("media", found.1)]).
Definition not_connected : exn := HTTPException 503 "Meta WhatsApp phone number is not connected to a tenant".
Definition publisher_unavailable : exn := HTTPException 503 "WhatsApp inbound event publisher is unavailable".
Definition inbound := (option string * MetaWebhookMessage * option string)%type.
Definition receive_message (received : inbound) : M Notify unit :=
  let '(phone_number_id, message, profile_name) := received in
  if negb (mem_str (text_if (wm_type message)) ["text"; "image"; "audio"]) then mret tt
  else
    tenant_id ← _resolve_tenant_id phone_number_id;
    tenant_id ← some_or tenant_id not_connected;
    claimed ← claim_meta_message (wm_id message);
    if negb claimed then mret tt
    else try_catch (publish_message tenant_id message profile_name)
           (λ _, release_meta_message (wm_id message);; raise publisher_unavailable).

(** The changes of a notification that concern messages. *)
Definition message_values (payload : MetaWebhookPayload) : list MetaWebhookValue :=
  map wc_value (List.filter (λ c, bool_decide (wc_field c = Some "messages")) (concat (entry_changes payload))).
(** The name of the first contact with the number of the sender and a profile. *)
Definition profile_name (contacts : list MetaWebhookContact) (number : string) : option string :=
  match List.find (λ c, String.eqb (wa_id c) number &&
                        match profile c with Some _ => true | None => false end) contacts with
  | Some c => match profile c with Some name => name | None => None end
  | None => None
  end.
Definition inbound_messages (payload : MetaWebhookPayload) : list inbound :=
  concat (map (λ v, map (λ m, (phone_number v, m, profile_name (contacts v) (from_number m))) (wv_messages v))
            (message_values payload)).
Definition delivery_statuses (payload : MetaWebhookPayload) : list (option string * MetaWebhookStatus) :=
  concat (map (λ v, map (λ x, (phone_number v, x)) (wv_statuses v)) (message_values payload)).
(** What comes before anything is published: the notification, if it is Meta's. *)
Definition webhook_notification (raw_body : string) (x_hub_signature_256 : option string)
    : result MetaWebhookPayload :=
  if negb (opt_nonempty META_APP_SECRET)
  then Err (HTTPException 503 "Meta webhook app secret is not configured")
  else
    signed ← verify_meta_signature raw_body x_hub_signature_256;
    if negb signed then Err (HTTPException 403 "Invalid Meta webhook signature")
    else match (d ← orjson_loads raw_body; webhook_payload d) with
         | Some payload => Ok payload
         | None => Err (HTTPException 400 "Invalid Meta webhook payload")
         end.
Definition process_notification (payload : MetaWebhookPayload) : M Notify string :=
  if negb (bool_decide (wp_object payload = Some "whatsapp_business_account")) then mret "ignored"
  else
    for_each publish_status (delivery_statuses payload);;
    for_each receive_message (inbound_messages payload);;
    mret "accepted".
(** The answer: its status. *)
Definition receive_meta_whatsapp_webhook (raw_body : string) (x_hub_signature_256 : option string)
    : M Notify string :=
  payload ← lift (webhook_notification raw_body x_hub_signature_256);
  process_notification payload.

(** ** The webhook of the fake provider *)
Record FakeWhatsappMedia := mkFakeWhatsappMedia {
  fm_mime_type : string; fm_filename : string; data_base64 : string
}.
Record FakeWhatsappInbound := mkFakeWhatsappInbound {
  fi_tenant_id : N; fi_from_number : string; fi_body : string; fi_media : option FakeWhatsappMedia;
  fi_provider_message_id : string
}.
Definition fake_inbound_ok (p : FakeWhatsappInbound) : bool :=
  length_in 6 40 (fi_from_number p) && length_in 0 10000 (fi_body p) &&
  length_in 4 255 (fi_provider_message_id p) &&
  match fi_media p with
  | Some m => length_in 3 80 (fm_mime_type m) && length_in 1 255 (fm_filename m) && (4 <=? points (data_base64 m))
  | None => not_blank (fi_body p)
  end.
(** The errors of the broker are [RuntimeError]s whose text is their class. *)
Definition fake_error (e : exn) : exn :=
  match e with
  | MediaValidationError m => HTTPException 415 m
  | RuntimeError m => HTTPException 503 m
  | KafkaError => HTTPException 503 "KafkaError"
  | e => e
  end.
(** A stored file is deleted again when the event is not published; the files are
    not part of the state. *)
Definition receive_fake_whatsapp (findings : list (list string * string * string))
    (x_fake_webhook_key : option string) (payload : FakeWhatsappInbound) : M Notify string :=
  raise_if (negb (fake_inbound_ok payload)) (RequestValidationError findings);;
  let invalid := HTTPException 403 "Invalid fake webhook signature" in
  raise_if (negb (nonempty NOTIFICATION_FAKE_WEBHOOK_KEY)) invalid;;
  same ← lift (verify_service_token (or_str x_fake_webhook_key "") NOTIFICATION_FAKE_WEBHOOK_KEY);
  raise_if (negb same) invalid;;
  i ← notify_uuid;
  let event_id := uuid_str i in
  try_catch
    (media ← match fi_media payload with
             | Some m =>
                 raise_if (negb (all_chars is_ascii (data_base64 m)))
                   (ValueError "string argument should contain only ASCII characters");;
                 data ← match b64decode (data_base64 m) with
                        | Ok data => mret data
                        | Err _ => raise (HTTPException 422 "Invalid base64 media payload")
                        end;
                 lift (media_store data (uuid_str (fi_tenant_id payload)) ("inbound-" +:+ event_id)
                         (fm_mime_type m) (fm_filename m))
             | None => mret JNull
             end;
     now ← notify_now;
     WhatsappInboundPublisher.publish (JObj
       [("event_id", JStr event_id); ("event_type", JStr "notification.whatsapp_message_received");
        ("version", JNum 1); ("occurred_at", JStr (isoformat now));
        ("payload", JObj [("tenant_id", JStr (uuid_str (fi_tenant_id payload)));
           ("from_number", JStr (fi_from_number payload)); ("body", JStr (fi_body payload));
           ("provider_message_id", JStr (fi_provider_message_id payload)); ("media", media)])]))
    (λ e, raise (fake_error e));;
  mret event_id.
End webhook.
