(* ===== verification/MetaWebhookFacts.v ===== *)
(** * Inbound messages are published once *)

From S2P Require Import Prelude.
From S2P Require Import PyText.
From S2P Require Import Json.
From S2P Require Import DateTime.
From S2P Require Import Orm.
From S2P Require Import Http.
From S2P Require Import Notify.
From S2P Require Import MetaOnboarding.
From S2P Require Import MetaOnboardingFacts.
From S2P Require Import Deliveries.
From S2P Require Import Messaging.
From S2P Require Import MetaWebhook.
From S2P Require Import Resend.

Local Open Scope Z_scope.

Section facts.
Context `{NotifySettings} `{NotifyEnv} `{MediaStorage}.
Implicit Types (s : Notify) (i : string).

(** The message an event announces. *)
Definition announced (event : json) : option string :=
  match text_member event "event_type" with
  | Some t => if String.eqb t "notification.whatsapp_message_received"
              then payload ← member "payload" (Some event); text_member payload "provider_message_id"
              else None
  | None => None
  end.
Definition announcements : list (string * json) → list string := omap (λ e, announced e.2).
Definition received_ids s : list string := announcements (Notify.published s).

(** ** What leaves the events and the claims alone *)
Definition inbox s := (Notify.published s, Notify.memory_claims s).
Abbreviation quiet := (preserves (same inbox)).
Lemma urlopen_quiet request : quiet (urlopen request).
Proof. unfold urlopen. preserve. apply preserves_modify. by intros s. Qed.
Lemma uuid_quiet : quiet notify_uuid.
Proof. by intros s. Qed.
Lemma now_quiet : quiet notify_now.
Proof. by intros s. Qed.
Lemma read_session_quiet {A} (P : MetaWhatsappConnection → bool) (k : option MetaWhatsappConnection → A) :
  quiet (read_session (c ← scalar P; mret (k c))).
Proof. by intros s. Qed.
#[local] Hint Resolve urlopen_quiet uuid_quiet now_quiet : preserve.
Lemma resolve_tenant_quiet phone : quiet (_resolve_tenant_id phone).
Proof.
  unfold _resolve_tenant_id, MetaConnectionRepository.get_connected_by_phone_number_id.
  preserve.
Qed.
Lemma download_quiet media tenant : quiet (download_meta_media media tenant).
Proof. unfold download_meta_media, media_answer. preserve. Qed.
#[local] Hint Resolve resolve_tenant_quiet download_quiet : preserve.

(** ** Publishing *)
Definition event_of (event_type : string) (payload : json) s : json := JObj
  [("event_id", JStr (uuid_str (notify_uuid4 (Notify.draws s)))); ("event_type", JStr event_type);
   ("version", JNum 1); ("occurred_at", JStr (isoformat (Notify.clock s))); ("payload", payload)].
Lemma publish_event_run event_type payload s :
  ∃ r s', publish_event event_type payload s = (r, s') ∧ Notify.memory_claims s' = Notify.memory_claims s ∧
    ((Notify.published s' = Notify.published s ∧ is_ok r = false) ∨
     (Notify.published s' = Notify.published s ++ [(NOTIFICATION_WHATSAPP_INBOUND_TOPIC, event_of event_type payload s)] ∧
      (is_ok r = false → kafka_sends (Notify.published s) (event_of event_type payload s) = Unacknowledged))).
Proof.
  unfold publish_event, WhatsappInboundPublisher.publish, notify_uuid, notify_now, gets, raise_if, mbind, M_bind.
  cbn. destruct (Notify.producer s); cbn; [|eexists _, _; split_and!; [done..|by left]].
  fold (event_of event_type payload s).
  destruct (kafka_sends _ _) eqn:E; cbn; eexists _, _; (split; [reflexivity|]); (split; [done|]);
    [by right|by right|by left].
Qed.

Definition grows s s' : Prop := Notify.published s `prefix_of` Notify.published s'.
#[export] Instance grows_preorder : PreOrder grows.
Proof. unfold grows. split; [intros s; reflexivity|intros s1 s2 s3 ??; by etrans]. Qed.
Lemma quiet_grows {A} (m : M Notify A) : quiet m → preserves grows m.
Proof. apply preserves_mono. intros s s' E. unfold grows. by injection E as -> _. Qed.

(** A status announces no message. *)
Definition same_messages s s' : Prop :=
  grows s s' ∧ received_ids s' = received_ids s ∧ Notify.memory_claims s' = Notify.memory_claims s.
#[export] Instance same_messages_preorder : PreOrder same_messages.
Proof.
  split; [intros s; split; [reflexivity|done]|]. intros s1 s2 s3 (G1 & R1 & C1) (G2 & R2 & C2). split; [by etrans|].
  split; congruence.
Qed.
Lemma quiet_messages {A} (m : M Notify A) : quiet m → preserves same_messages m.
Proof.
  apply preserves_mono. intros s s' E. unfold same_messages, grows, received_ids. by injection E as -> ->.
Qed.
Lemma publish_status_messages notice : preserves same_messages (publish_status notice).
Proof.
  unfold publish_status. apply preserves_bind; [apply _|apply quiet_messages, resolve_tenant_quiet|].
  intros [t|]; [|apply preserves_ret; apply _]. intros s.
  destruct (publish_event_run "notification.whatsapp_delivery_updated" (JObj [("tenant_id", JStr t);
    ("provider_message_id", JStr (ws_id notice.2)); ("status", JStr (ws_status notice.2));
    ("timestamp", jopt_str (ws_timestamp notice.2))]) s) as (r & s' & -> & Ec & Ep).
  cbn. unfold same_messages, grows, received_ids, announcements.
  destruct Ep as [[Ep _]|[Ep _]]; rewrite Ep; [done|].
  rewrite omap_app. cbn. rewrite app_nil_r. split; [by eexists|done].
Qed.

Lemma publish_message_run tenant message name s :
  ∃ r s', publish_message tenant message name s = (r, s') ∧
    Notify.memory_claims s' = Notify.memory_claims s ∧
    ((Notify.published s' = Notify.published s ∧ is_ok r = false) ∨
     ∃ e, announced e.2 = Some (wm_id message) ∧ Notify.published s' = Notify.published s ++ [e] ∧
       (is_ok r = false → kafka_sends (Notify.published s) e.2 = Unacknowledged)).
Proof.
  unfold publish_message. set (found := match _ with Some _ => _ | None => _ end).
  assert (Hq : quiet found) by (unfold found; preserve).
  destruct (found s) as [[f|e] s1] eqn:Ef; pose proof (preserves_run _ _ _ _ _ Hq Ef) as E; injection E as Ep1 Ec1.
  2:{ rewrite (bind_step_err _ _ _ _ _ Ef). eexists _, _. split; [done|]. split; [done|by left]. }
  rewrite (bind_step_ok _ _ _ _ _ Ef).
  edestruct (publish_event_run "notification.whatsapp_message_received") as (r & s' & -> & Ec & Ep).
  eexists _, _. split; [done|]. rewrite Ec, Ec1, <- Ep1. split; [done|].
  destruct Ep as [?|[Ep Hr]]; [by left|]. right.
  eexists. split; [|split; [exact Ep|exact Hr]]. reflexivity.
Qed.

(** ** The claims of the process *)
(** Of the events published, one whose message is announced again was stored by the
    broker without a confirmation; the claims are of messages that were announced,
    and a message announced with a confirmation has its claim. *)
Record claims_match s : Prop := {
  claimed_announced : ∀ i, _webhook_key i ∈ Notify.memory_claims s → i ∈ received_ids s;
  announced_again : ∀ l1 e l2 i, Notify.published s = l1 ++ e :: l2 → announced e.2 = Some i →
    kafka_sends l1 e.2 = Unacknowledged ∨
    (_webhook_key i ∈ Notify.memory_claims s ∧ i ∉ announcements l2)
}.
Lemma webhook_key_inj i j : _webhook_key i = _webhook_key j → i = j.
Proof.
  unfold _webhook_key. intros E. apply (f_equal chars) in E. rewrite !chars_append in E.
  apply app_inv_head, app_inv_head in E. by rewrite <- (text_chars i), <- (text_chars j), E.
Qed.
Lemma split_app {A} (a b l1 : list A) x l2 :
  a ++ b = l1 ++ x :: l2 →
  (∃ l, a = l1 ++ x :: l ∧ l2 = l ++ b) ∨ (∃ l, l1 = a ++ l ∧ b = l ++ x :: l2).
Proof.
  revert l1. induction a as [|y a IH]; intros l1 E; [right; by exists l1|].
  destruct l1 as [|z l1]; cbn in E; injection E as -> E; [left; by exists a|].
  destruct (IH l1 E) as [(l & -> & ->)|(l & -> & ->)]; [left|right]; by exists l.
Qed.
(** Events are added after those there are. *)
Lemma claims_grow s s' more :
  Notify.published s' = Notify.published s ++ more → claims_match s →
  (∀ i, _webhook_key i ∈ Notify.memory_claims s' → i ∈ received_ids s') →
  (∀ i, _webhook_key i ∈ Notify.memory_claims s → _webhook_key i ∈ Notify.memory_claims s' ∧ i ∉ announcements more) →
  (∀ l1 e l2 i, more = l1 ++ e :: l2 → announced e.2 = Some i →
     kafka_sends (Notify.published s ++ l1) e.2 = Unacknowledged ∨
     (_webhook_key i ∈ Notify.memory_claims s' ∧ i ∉ announcements l2)) →
  claims_match s'.
Proof.
  intros Ep [Hc Ha] Hc' Hk Hm. split; [exact Hc'|]. intros l1 e l2 i. rewrite Ep.
  intros [(l & E & ->)|(l & -> & E)]%split_app He; [|by eapply Hm].
  destruct (Ha _ _ _ _ E He) as [?|[Hi Hn]]; [by left|right]. destruct (Hk i Hi) as [Hi' Hn'].
  split; [done|]. unfold announcements in *. rewrite omap_app. set_solver.
Qed.
Lemma claims_messages s s' : same_messages s s' → claims_match s → claims_match s'.
Proof.
  intros ([more E] & Er & Ec) Hs.
  assert (Hmore : announcements more = []).
  { unfold received_ids, announcements in *. rewrite E, omap_app in Er.
    apply (app_inv_head (omap (λ e, announced e.2) (Notify.published s))). by rewrite app_nil_r. }
  apply (claims_grow s s' more E Hs); rewrite ?Ec, ?Er; [apply Hs| |].
  - intros i Hi. rewrite Hmore. split; [done|apply not_elem_of_nil].
  - intros l1 e l2 i -> He. exfalso. unfold announcements in Hmore. rewrite omap_app in Hmore.
    apply app_eq_nil in Hmore as [_ Hmore]. cbn in Hmore. by rewrite He in Hmore.
Qed.
Lemma grows_received s s' i : grows s s' → i ∈ received_ids s → i ∈ received_ids s'.
Proof. intros [more E]. unfold received_ids, announcements. rewrite E, omap_app. set_solver. Qed.

Definition deliverable (received : inbound) : Prop :=
  mem_str (text_if (wm_type received.1.2)) ["text"; "image"; "audio"] = true.

Context (Hmemory : NOTIFICATION_REDIS_ENABLED = false).

Lemma claim_run i s :
  claim_meta_message i s =
  if bool_decide (_webhook_key i ∈ Notify.memory_claims s) then (Ok false, s)
  else (Ok true, s <| Notify.memory_claims ::= λ c, {[_webhook_key i]} ∪ c |>).
Proof.
  unfold claim_meta_message. rewrite Hmemory. unfold gets, mbind, M_bind.
  by destruct (bool_decide (_webhook_key i ∈ Notify.memory_claims s)).
Qed.
Lemma release_run i s :
  release_meta_message i s = (Ok tt, s <| Notify.memory_claims ::= λ c, c ∖ {[_webhook_key i]} |>).
Proof. unfold release_meta_message. by rewrite Hmemory. Qed.

Lemma receive_message_run received s r s' :
  receive_message received s = (r, s') → claims_match s →
  claims_match s' ∧ grows s s' ∧
  (r = Ok tt → deliverable received → wm_id received.1.2 ∈ received_ids s').
Proof.
  destruct received as [[phone message] name]. unfold receive_message, deliverable. cbn [fst snd]. intros Hr Hs.
  destruct (mem_str _ _); cbn [negb] in Hr; [|by injection Hr as <- <-; split_and!].
  destruct (_resolve_tenant_id phone s) as [[tenant|e] s1] eqn:Et;
    pose proof (preserves_run _ _ _ _ _ (quiet_messages _ (resolve_tenant_quiet phone)) Et) as Hq1.
  2:{ rewrite (bind_step_err _ _ _ _ _ Et) in Hr. injection Hr as <- <-.
      split_and!; [by eapply claims_messages|by apply Hq1|done]. }
  rewrite (bind_step_ok _ _ _ _ _ Et) in Hr. pose proof (claims_messages _ _ Hq1 Hs) as Hs1.
  destruct tenant as [tenant|].
  2:{ injection Hr as <- <-. split_and!; [done|by apply Hq1|done]. }
  rewrite (bind_step_ok (some_or (Some tenant) not_connected) _ s1 tenant s1 eq_refl) in Hr.
  pose proof (claim_run (wm_id message) s1) as Hclaim.
  case_bool_decide as Hin.
  - rewrite (bind_step_ok _ _ _ _ _ Hclaim) in Hr. injection Hr as <- <-.
    split_and!; [done|by apply Hq1|]. intros _ _. by apply (claimed_announced _ Hs1).
  - rewrite (bind_step_ok _ _ _ _ _ Hclaim) in Hr. cbn [negb] in Hr. unfold try_catch in Hr.
    set (s2 := s1 <| Notify.memory_claims ::= _ |>) in Hr.
    destruct (publish_message_run tenant message name s2) as (r2 & s3 & Hp & Ec & Ep).
    change (Notify.published s2) with (Notify.published s1) in Ep.
    change (Notify.memory_claims s2) with ({[_webhook_key (wm_id message)]} ∪ Notify.memory_claims s1) in Ec.
    rewrite Hp in Hr.
    assert (Hg1 : grows s s3).
    { etrans; [apply Hq1|]. destruct Ep as [[Ep _]|(e & _ & Ep & _)]; unfold grows; rewrite Ep; [done|by eexists]. }
    assert (Hold : ∀ i, _webhook_key i ∈ Notify.memory_claims s1 → i ≠ wm_id message)
      by (by intros i Hi ->).
    destruct r2 as [[]|e0].
    + injection Hr as <- <-. destruct Ep as [[_ ?]|(e & He & Ep & _)]; [done|].
      assert (Hnew : wm_id message ∈ received_ids s3).
      { unfold received_ids, announcements. rewrite Ep, omap_app. cbn. rewrite He. set_solver. }
      split_and!; [|done|done]. apply (claims_grow s1 s3 [e] Ep Hs1).
      * intros i. rewrite Ec, elem_of_union, elem_of_singleton.
        intros [->%webhook_key_inj|Hi]; [done|]. apply (claimed_announced _ Hs1) in Hi.
        eapply grows_received; [|exact Hi]. unfold grows. rewrite Ep. by eexists.
      * intros i Hi. rewrite Ec. split; [set_solver|]. cbn. rewrite He. apply not_elem_of_cons.
        split; [by apply Hold|apply not_elem_of_nil].
      * intros l1 e1 l2 i E He1. destruct l1 as [|? [|]]; try discriminate E. injection E as -> <-.
        rewrite He in He1. injection He1 as <-. right. rewrite Ec. split; [set_solver|apply not_elem_of_nil].
    + rewrite (bind_step_ok _ _ _ _ _ (release_run _ _)) in Hr. injection Hr as <- <-.
      set (s4 := s3 <| Notify.memory_claims ::= λ c, c ∖ {[_webhook_key (wm_id message)]} |>).
      assert (Hc4 : ∀ i, _webhook_key i ∈ Notify.memory_claims s4 ↔ _webhook_key i ∈ Notify.memory_claims s1).
      { intros i. cbn. rewrite Ec, elem_of_difference, elem_of_union, elem_of_singleton.
        split; [tauto|]. intros Hi. split; [by right|]. intros ->%webhook_key_inj. by apply Hold in Hi. }
      split_and!; [|done|done].
      destruct Ep as [[Ep _]|(e & He & Ep & Hlost)].
      * apply (claims_grow s1 s4 []); [by rewrite app_nil_r|done| | |].
        -- intros i Hi%Hc4%(claimed_announced _ Hs1). unfold received_ids. change (Notify.published s4) with (Notify.published s3). by rewrite Ep.
        -- intros i Hi. split; [by apply Hc4|apply not_elem_of_nil].
        -- intros [] ? ? ? [=].
      * apply (claims_grow s1 s4 [e] Ep Hs1).
        -- intros i Hi%Hc4%(claimed_announced _ Hs1). eapply (grows_received s1); [|exact Hi].
           unfold grows. change (Notify.published s4) with (Notify.published s3). rewrite Ep. by eexists.
        -- intros i Hi. split; [by apply Hc4|]. cbn. rewrite He. apply not_elem_of_cons.
           split; [by apply Hold|apply not_elem_of_nil].
        -- intros l1 e1 l2 i E He1. destruct l1 as [|? [|]]; try discriminate E. injection E as -> <-.
           left. rewrite app_nil_r. by apply Hlost.
Qed.

Lemma receive_messages_run l s r s' :
  for_each receive_message l s = (r, s') → claims_match s →
  claims_match s' ∧ grows s s' ∧
  (r = Ok tt → ∀ received, In received l → deliverable received → wm_id received.1.2 ∈ received_ids s').
Proof.
  revert s. induction l as [|x l IH]; intros s Hr Hs; cbn in Hr.
  - injection Hr as <- <-. split_and!; [done|reflexivity|by intros _ ? []].
  - unfold mbind, M_bind in Hr. destruct (receive_message x s) as [r1 s1] eqn:E1.
    apply receive_message_run in E1 as (Hs1 & Hg1 & Hin1); [|done].
    destruct r1 as [[]|e].
    + apply IH in Hr as (Hs' & Hg & Hin); [|done]. split_and!; [done|by etrans|].
      intros Hok received [<-|Hl] Hd; [|by apply Hin]. eapply grows_received; [exact Hg|by apply Hin1].
    + injection Hr as <- <-. by split_and!.
Qed.

Lemma notification_run payload s r s' :
  process_notification payload s = (r, s') → claims_match s →
  claims_match s' ∧ grows s s' ∧
  (r = Ok "accepted" → ∀ received, In received (inbound_messages payload) → deliverable received →
     wm_id received.1.2 ∈ received_ids s').
Proof.
  intros Hr Hs. unfold process_notification in Hr.
  destruct (negb _); [injection Hr as <- <-; by split_and!|].
  assert (Hq : preserves same_messages (for_each publish_status (delivery_statuses payload)))
    by (apply preserves_for_each; [apply _|exact publish_status_messages]).
  destruct (for_each publish_status (delivery_statuses payload) s) as [[[]|e] s1] eqn:E1; pose proof (preserves_run _ _ _ _ _ Hq E1) as Hq1.
  2:{ rewrite (bind_step_err _ _ _ _ _ E1) in Hr. injection Hr as <- <-.
      split_and!; [by eapply claims_messages|by apply Hq1|done]. }
  rewrite (bind_step_ok _ _ _ _ _ E1) in Hr.
  destruct (for_each receive_message (inbound_messages payload) s1) as [r2 s2] eqn:E2.
  pose proof (receive_messages_run _ _ _ _ E2 (claims_messages _ _ Hq1 Hs)) as (Hs2 & Hg & Hin).
  assert (Hg2 : grows s s2) by (etrans; [apply Hq1|exact Hg]). destruct r2 as [[]|e].
  - rewrite (bind_step_ok _ _ _ _ _ E2) in Hr. injection Hr as <- <-. split_and!; [done..|]. intros _. by apply Hin.
  - rewrite (bind_step_err _ _ _ _ _ E2) in Hr. injection Hr as <- <-. by split_and!.
Qed.

(** ** The service over time: notifications, and anything that leaves the events of
    messages and the claims alone *)
Inductive webhook_step : relation Notify :=
| step_notification raw_body signature s :
    webhook_step s (receive_meta_whatsapp_webhook raw_body signature s).2
| step_other s s' : same_messages s s' → webhook_step s s'.
Lemma notification_step raw_body signature s r s' :
  receive_meta_whatsapp_webhook raw_body signature s = (r, s') → claims_match s →
  claims_match s' ∧ grows s s' ∧
  (r = Ok "accepted" → ∃ payload, webhook_notification raw_body signature = Ok payload ∧
     ∀ received, In received (inbound_messages payload) → deliverable received →
       wm_id received.1.2 ∈ received_ids s').
Proof.
  intros Hr Hs. unfold receive_meta_whatsapp_webhook in Hr.
  destruct (webhook_notification raw_body signature) as [payload|e] eqn:E.
  - rewrite (bind_step_ok (lift (Ok payload)) _ s payload s eq_refl) in Hr.
    apply notification_run in Hr as (Hs' & Hg & Hin); [|done]. split_and!; [done..|]. intros Hok.
    exists payload. split; [done|]. by apply Hin.
  - injection Hr as <- <-. by split_and!.
Qed.
Lemma webhook_steps s s' : rtc webhook_step s s' → claims_match s → claims_match s' ∧ grows s s'.
Proof.
  induction 1 as [s|s1 s2 s3 Hstep _ IH]; intros Hs; [done|].
  assert (H2 : claims_match s2 ∧ grows s1 s2).
  { destruct Hstep as [raw sig s|s s' Hq]; [|split; [by eapply claims_messages|apply Hq]].
    destruct (receive_meta_whatsapp_webhook raw sig s) as [r s'] eqn:E.
    by apply notification_step in E as (? & ? & _). }
  destruct H2 as [H2 G2]. destruct (IH H2) as [H3 G3]. split; [done|]. by etrans.
Qed.

(** Where the broker confirms what it stores, none is announced twice. *)
Lemma announced_once s :
  (∀ sent event, kafka_sends sent event ≠ Unacknowledged) → claims_match s → NoDup (received_ids s).
Proof.
  intros Hconf [_ Ha]. unfold received_ids.
  assert (Hall : ∀ l1 e l2 i, Notify.published s = l1 ++ e :: l2 → announced e.2 = Some i →
                 i ∉ announcements l2).
  { intros l1 e l2 i E He. destruct (Ha l1 e l2 i E He) as [?%Hconf|[_ ?]]; done. }
  clear Ha. revert Hall. induction (Notify.published s) as [|e l IH]; intros Hall; [constructor|].
  assert (Hl : NoDup (announcements l)).
  { apply IH. intros l1 e' l2 i -> . by apply (Hall (e :: l1)). }
  unfold announcements. cbn. destruct (announced e.2) as [i|] eqn:E; [|exact Hl].
  constructor; [|exact Hl]. by apply (Hall [] e l i).
Qed.

(** C13: An inbound message is announced at least once, and again only where the
    broker left its answer open.  Meta sends a notification again until it is
    accepted.  However often, in whatever order and with whatever failures of the
    broker, of the downloads and of the connections in between: what was published
    stays published; once a notification was accepted every text, image and audio
    message it carries has been announced; and an announcement that is followed by
    another one of the same message was stored by the broker without the producer
    getting the confirmation, so that the claim was released.  With a broker that
    confirms whatever it stores, no message is announced twice.  This is for a
    process that keeps its claims in memory. *)
Theorem inbound_message_is_announced_once (s0 s s' s2 : Notify) (raw_body : string)
    (signature : option string) (r : result string) :
  Notify.published s0 = [] → Notify.memory_claims s0 = ∅ → rtc webhook_step s0 s →
  receive_meta_whatsapp_webhook raw_body signature s = (r, s') → rtc webhook_step s' s2 →
  Notify.published s `prefix_of` Notify.published s2 ∧
  (r = Ok "accepted" → ∃ payload, webhook_notification raw_body signature = Ok payload ∧
     ∀ received, In received (inbound_messages payload) → deliverable received →
       wm_id received.1.2 ∈ received_ids s2) ∧
  (∀ before event after i, Notify.published s2 = before ++ event :: after →
     announced event.2 = Some i → i ∈ announcements after → kafka_sends before event.2 = Unacknowledged) ∧
  ((∀ sent event, kafka_sends sent event ≠ Unacknowledged) → NoDup (received_ids s2)).
Proof.
  intros Ep Ec Hbefore Hr Hafter.
  assert (H0' : claims_match s0).
  { split; [rewrite Ec; set_solver|]. rewrite Ep. by intros []. }
  apply webhook_steps in Hbefore as [Hs _]; [|done].
  apply notification_step in Hr as (Hs' & Hg & Hok); [|done].
  apply webhook_steps in Hafter as [Hs2 Hg2]; [|done].
  split; [by etrans|]. split; [|split].
  - intros Hr. destruct (Hok Hr) as (payload & E & Hin).
    exists payload. split; [done|]. intros received Hl Hd. by eapply grows_received, Hin.
  - intros before event after i E He Hin. by destruct (announced_again _ Hs2 _ _ _ _ E He) as [?|[_ ?]].
  - intros Hconf. by apply announced_once.
Qed.
End facts.
