(* ===== verification/NotifyExample.v ===== *)
(** * A concrete notification service *)

From S2P Require Import Prelude.
From S2P Require Import PyText.
From S2P Require Import Json.
From S2P Require Import Orm.
From S2P Require Import Http.
From S2P Require Import EmailTemplates.
From S2P Require Import Notify.
From S2P Require Import Resend.
From S2P Require Import MetaOnboarding.
From S2P Require Import MetaOnboardingFacts.
From S2P Require Import Deliveries.
From S2P Require Import Messaging.
From S2P Require Import MetaWebhook.
From S2P Require Import MetaWebhookFacts.

Local Open Scope Z_scope.

Module NotifyExample.
#[export] Instance settings : NotifySettings := {|
  NOTIFICATION_EMAIL_PROVIDER := "local_ack"; SENDGRID_API_KEY := None;
  RESEND_API_KEY := Some "re_key"; RESEND_FROM_EMAIL := "Rubrica <mail@rubrica.test>";
  SLACK_WEBHOOK_URL := Some "https://hooks.slack.test/x"; TWILIO_ACCOUNT_SID := Some "AC1";
  TWILIO_AUTH_TOKEN := Some "secret"; TWILIO_WHATSAPP_FROM := "whatsapp:+14155238886";
  NOTIFICATION_WHATSAPP_PROVIDER := "meta"; META_GRAPH_API_VERSION := "v26.0";
  META_APP_ID := Some "app"; META_SYSTEM_USER_ID := Some "user";
  META_EMBEDDED_SIGNUP_CONFIG_ID := None; META_WHATSAPP_ACCESS_TOKEN := Some "system";
  META_WHATSAPP_PHONE_NUMBER_ID := None; META_WHATSAPP_VERIFY_TOKEN := Some "verify";
  META_APP_SECRET := Some "secret"; META_WHATSAPP_TENANT_ID := None;
  NOTIFICATION_REDIS_ENABLED := false; NOTIFICATION_REDIS_KEY_PREFIX := "notification";
  NOTIFICATION_DELIVERY_DEFAULT_POLICY := "reliable";
  NOTIFICATION_DELIVERY_RETENTION_SECONDS := 604800; NOTIFICATION_KAFKA_ENABLED := true;
  NOTIFICATION_WHATSAPP_TOPIC := "requested"; NOTIFICATION_WHATSAPP_INBOUND_TOPIC := "received";
  NOTIFICATION_INTERNAL_SERVICE_NAME := "core_api";
  NOTIFICATION_INTERNAL_ALLOWED_SERVICES_RAW := "core_api, auth_api,bootstrap";
  NOTIFICATION_INTERNAL_SERVICE_KEY := "service key"; NOTIFICATION_FAKE_WEBHOOK_KEY := ""
|}.
Definition loads (body : string) : option json :=
  if String.eqb body "token" then Some (JObj [("access_token", JStr "granted")])
  else if String.eqb body "numbers" then Some (JObj [("data", JArr [JObj [("id", JStr "55501")]])])
  else if String.eqb body "mail" then Some (JObj [("id", JStr "mail-1")])
  else if String.eqb body "notification" then Some (JObj
    [("object", JStr "whatsapp_business_account");
     ("entry", JArr [JObj [("changes", JArr [JObj [("field", JStr "messages"); ("value", JObj
        [("metadata", JObj [("phone_number_id", JStr "55501")]);
         ("messages", JArr [JObj [("from", JStr "351900000000"); ("id", JStr "wamid.1");
            ("type", JStr "text"); ("text", JObj [("body", JStr "Hello")])]])])]])]])])
  else if String.eqb body "{}" then Some (JObj [])
  else None.
Definition answers (sent : list WebRequest) (request : WebRequest) : web_answer :=
  let url := wr_url request in
  if contains "/oauth/access_token" url then Answered "token"
  else if contains "/phone_numbers" url then Answered "numbers"
  else if contains "api.resend.com/emails" url then Answered "mail"
  else Answered "{}".
#[export] Instance env : NotifyEnv := {|
  web_answers := answers; kafka_starts := true; kafka_sends sent _ := match sent with [] => Unacknowledged | _ => Acknowledged end;
  orjson_dumps := canonical_json; orjson_loads := loads; notify_uuid4 n := (100 + n)%N;
  hmac_sha256_hex key message := key +:+ ":" +:+ message; schema_findings _ := []
|}.
#[export] Instance media : MediaStorage := {|
  media_reference := Ok; media_read _ := Ok "data"; media_store _ _ _ _ _ := Ok (JObj []);
  media_object_key _ := "key"
|}.
(** Tenant 2 holds the number 55501. *)
Definition holder : MetaWhatsappConnection :=
  MetaWhatsappConnection.make 7 2 "12345" "55501" None None None "connected" 500 None None.
Definition start : Notify := Notify.make (Table [holder] [holder]) [] ∅ ∅ [] true [] 1000 0.
Lemma notify_start_consistent : connections_consistent start.
Proof. split; vm_compute; reflexivity. Qed.

Definition moves (confirm : bool) : CompleteMetaWhatsappSignup :=
  mkCompleteMetaWhatsappSignup 1 "authorization" "67890" None None None confirm.
Definition moved : result MetaWhatsappConnection * Notify := Eval vm_compute in
  complete_signup (moves true) start.
Example refused_without_confirmation :
  (complete_signup (moves false) start).1 = Err MetaPhoneNumberConflictError.
Proof. vm_compute. reflexivity. Qed.

Lemma whatsapp_number_has_one_holder_witness :
  ∃ got now, moved.1 = Ok got ∧ tenant_of got = 1%N ∧ connected got = true ∧
    In (MetaConnectionRepository.released now holder) (connection_rows moved.2).
Proof.
  destruct (@whatsapp_number_has_one_holder settings env (Signup (moves true)) start moved.2 moved.1 notify_start_consistent
    ltac:(vm_compute; reflexivity)) as (_ & _ & Hothers & Hgot).
  destruct (Hothers holder (or_introl eq_refl) ltac:(vm_compute; discriminate))
    as [Hin|(p & got & now & [= <-] & _ & Er & _ & _ & Hin)].
  - exfalso. vm_compute in Hin. destruct Hin as [[=]|[[=]|[]]].
  - exists got, now. rewrite Er in Hgot. destruct Hgot as (_ & Et & Hs).
    split; [exact Er|]. split; [exact Et|]. split; [exact (proj1 (Hs _ eq_refl))|exact Hin].
Defined.

(** The same notification three times; the first time the broker stores the event
    and the confirmation is lost. *)
Definition signature : option string := Some "sha256=secret:notification".
Definition once : Notify := Eval vm_compute in
  (receive_meta_whatsapp_webhook "notification" signature start).2.
Definition twice : Notify := Eval vm_compute in
  (receive_meta_whatsapp_webhook "notification" signature once).2.
Definition thrice : Notify := Eval vm_compute in
  (receive_meta_whatsapp_webhook "notification" signature twice).2.
Example confirmation_lost :
  (receive_meta_whatsapp_webhook "notification" signature start).1 = Err publisher_unavailable.
Proof. vm_compute. reflexivity. Qed.
Lemma inbound_message_is_announced_once_witness :
  received_ids thrice = ["wamid.1"; "wamid.1"] ∧ "wamid.1" ∈ received_ids thrice ∧
  ∀ event after, Notify.published thrice = event :: after → announced event.2 = Some "wamid.1" →
    "wamid.1" ∈ announcements after → kafka_sends [] event.2 = Unacknowledged.
Proof.
  destruct (@inbound_message_is_announced_once settings env media eq_refl start once twice thrice
    "notification" signature (Ok "accepted") eq_refl eq_refl
    (rtc_once _ _ (@step_notification settings env media "notification" signature start))
    ltac:(vm_compute; reflexivity)
    (rtc_once _ _ (@step_notification settings env media "notification" signature twice)))
    as (_ & Hall & Hagain & _).
  split; [vm_compute; reflexivity|]. split.
  - destruct (Hall eq_refl) as (payload & E & Hin).
    vm_compute in E. injection E as <-. exact (Hin _ (or_introl eq_refl) eq_refl).
  - intros event after. exact (Hagain [] event after "wamid.1").
Defined.

(** A message for Slack, and another one under its key. *)
Definition note (body : string) : json :=
  JObj [("channel", JStr "team"); ("body", JStr body); ("idempotency_key", JStr "note-1")].
Definition delivered : json := Eval vm_compute in
  match (accept_delivery "slack" "team" (note "first") None start).1 with Ok d => d | Err _ => JNull end.
Definition after_delivery : Notify := Eval vm_compute in
  (accept_delivery "slack" "team" (note "first") None start).2.
Lemma delivery_is_made_once_witness :
  accept_delivery "slack" "other" (note "second") None after_delivery = (Ok delivered, after_delivery).
Proof.
  destruct (@delivery_is_made_once settings env media "slack" "team" "note-1" (note "first") None
    start after_delivery after_delivery delivered eq_refl eq_refl eq_refl ltac:(vm_compute; reflexivity)
    (rtc_refl _ _) ltac:(intros [=])) as (provider & delivery & _ & Hagain).
  exact (Hagain "other" (note "second") None eq_refl).
Defined.

(** An e-mail of auth_api is accepted. *)
Definition mail : RenderedEmail :=
  mkRenderedEmail "Subject" "Text" "<p>Text</p>" [mkInlineEmailImage "AA==" "mark.png" "mark" "image/png"].
Example mail_is_accepted :
  (send_resend_email (Some "auth_api") (Some "service key") (as_payload mail "a@b.test" "account-1") start).1
  = Ok (mkDeliveryAccepted "mail-1" "email" "a@b.test" "resend" "accepted" "provider" "reliable"
          false false None None None).
Proof. vm_compute. reflexivity. Qed.
End NotifyExample.
