(* ===== verification/Accounts.v ===== *)
(** * Account lifecycle (account_service.py, user_identifier_service.py)

    Registration, member invitations, e-mail verification and password recovery.
    A link carries a random token; the database keeps its digest, its purpose,
    its expiry and when it was used.  Of an identity document, the ciphertext, a
    lookup key and the masked form are stored, after validation. *)

From S2P Require Import Prelude.
From S2P Require Import PyText.
From S2P Require Import Json.
From S2P Require Import Http.
From S2P Require Import DateTime.
From S2P Require Import Orm.
From S2P Require Import Localization.
From S2P Require Import Identity.
From S2P Require Import Redis.
From S2P Require Import AuthDb.
From S2P Require Import EmailTemplates.

Local Open Scope Z_scope.

(** ** Identifiers of a user (user_identifier_service.py) *)
Section identifiers.
Context `{AuthEnv}.

Definition validate (identifier_type value : string) : result string :=
  validate_identifier (AUTH_JP_MY_NUMBER_ENABLED settings) identifier_type value.

Definition protect_identifier (value : string) : M Auth (string * string) :=
  n ← draw;
  mret (fernet_encrypt n (derived_key (AUTH_IDENTITY_ENCRYPTION_KEY settings)) value,
        hmac_sha256_hex (AUTH_IDENTITY_HMAC_KEY settings) value).

Definition add_identifier (user_id : N) (issuing_country identifier_type value : string)
    : M Auth unit :=
  let normalized_country := upper (strip issuing_country) in
  raise_if (negb (alpha_code 2 normalized_country))
    (InvalidIdentifierError "Invalid issuing country");;
  let normalized_type := normalize_identifier_type identifier_type in
  normalized ← lift (validate normalized_type value);
  protected ← protect_identifier normalized;
  let '(encrypted, lookup) := protected in
  item_id ← uuid4;
  now ← utc_now;
  add (Identifier.make item_id user_id normalized_country normalized_type (Some encrypted)
         (Some lookup) (masked_identifier normalized) "format_valid" None 1 now None).
End identifiers.

(** ** Payloads (account_schema.py) *)
Record PublicRegistration := mkPublicRegistration {
  pr_name : string; pr_email : string; pr_preferred_locale : string;
  pr_turnstile_token : option string; pr_return_url : option string;
  pr_identity_document_type : option string; pr_identity_document_country : option string;
  pr_identity_document_value : option string
}.
Record InternalMemberInvitation := mkInternalMemberInvitation {
  im_name : string; im_email : string; im_identity_document_type : string;
  im_identity_document_country : string; im_identity_document_value : string;
  im_preferred_locale : string
}.
Record InternalMemberInvitationResult := mkInvitationResult {
  ir_user_id : string; ir_email : string; ir_activation_sent : bool
}.

Section accounts.
Context `{AuthEnv} `{MailAssets}.

Definition _digest (value : string) : string := sha256_hex value.

(** notification_client.py: the POST of a rendered e-mail. *)
Definition request_account_email (recipient : string) (email : RenderedEmail)
    (idempotency_key : string) : M Auth unit :=
  let message := mkAccountEmail recipient (mail_subject email) (mail_text email)
                   (mail_html email) idempotency_key in
  if email_accepted message
  then modify (λ s, s <| Auth.outbox ::= λ l, l ++ [message] |>)
  else raise (AccountEmailDeliveryError "Account e-mail delivery is unavailable").

(** tenant_client.py *)
Definition provision_account_tenant (payload : PublicRegistration) (user_id : N) : M Auth unit :=
  let body := mkTenantProvisioning (lower (strip (pr_email payload))) (strip (pr_name payload))
                (pr_preferred_locale payload) (pr_identity_document_country payload)
                (uuid_str user_id) in
  if tenant_accepted body
  then modify (λ s, s <| Auth.provisioned ::= λ l, l ++ [body] |>)
  else raise (TenantProvisioningError "Tenant provisioning is unavailable").

(** [{"token": token, **({"returnUrl": return_url} if return_url else {})}] *)
Definition link_fields (token : string) (return_url : option string) : list (string * string) :=
  ("token", token) ::
  (match return_url with
   | Some u => if nonempty u then [("returnUrl", u)] else []
   | None => []
   end).
Definition account_link (page token : string) (return_url : option string) : string :=
  rstrip_slash (AUTH_PUBLIC_WEB_URL settings) +:+ "/" +:+ page +:+ "?" +:+
  urlencode (link_fields token return_url).

Definition _send_verification (email token : string) (return_url name : option string)
    (locale : string) : M Auth unit :=
  let url := account_link "verify-email" token return_url in
  message ← lift (account_activation_email name url locale (AUTH_PUBLIC_WEB_URL settings));
  request_account_email email message ("email-verification:" +:+ _digest token).

(** Tokens of this user and purpose that were not used. *)
Definition open_token (user_id : N) (purpose : string) (t : AccountToken.AccountTokenEntity)
    : bool :=
  N.eqb (AccountToken.user_id t) user_id && String.eqb (AccountToken.purpose t) purpose &&
  negb (present (AccountToken.consumed_at t)).

(** A new token; the earlier ones of the user and purpose are used up. *)
Definition _issue_token (user_id : N) (purpose : string) (ttl_seconds : Z) : M Auth string :=
  now ← utc_now;
  execute_update (open_token user_id purpose)
    (λ t, t <| AccountToken.consumed_at := Some now |>);;
  raw_token ← token_urlsafe 48;
  token_id ← uuid4;
  add (AccountToken.make token_id user_id purpose (_digest raw_token)
         (DateTimeService.add_seconds now ttl_seconds) None now None);;
  mret raw_token.

(** The token a link names, if it can be used now. *)
Definition usable_token (raw_token purpose : string) (now : Z)
    (t : AccountToken.AccountTokenEntity) : bool :=
  String.eqb (AccountToken.token_hash t) (_digest raw_token) &&
  String.eqb (AccountToken.purpose t) purpose &&
  negb (present (AccountToken.consumed_at t)) &&
  (now <? AccountToken.expires_at t) && negb (present (AccountToken.deleted_at t)).

Definition _consume_token (raw_token purpose : string)
    : M Auth AccountToken.AccountTokenEntity :=
  now ← utc_now;
  token ← scalar (usable_token raw_token purpose now);
  token ← some_or token InvalidAccountTokenError;
  assign (AccountToken.id token) (λ t, t <| AccountToken.consumed_at := Some now |>);;
  mret token.

(** The driver takes no NUL in a parameter (psycopg.DataError). *)
Definition _user_by_email (email : string) : M Auth (option User.UserEntity) :=
  raise_if (has_zero email) DataError;;
  scalar (λ u, String.eqb (User.email u) (lower (strip email)) &&
               negb (present (User.deleted_at u))).

(** [UserEntity(...)] of a person who has no password yet. *)
Definition new_user (name email locale : string) : M Auth User.UserEntity :=
  random ← token_urlsafe 48;
  password_hash ← hash_password random;
  user_id ← uuid4;
  slug ← token_urlsafe 18;
  now ← utc_now;
  mret (User.make user_id (lower (strip email)) slug (Some (strip name)) locale false false
          false None None None password_hash 1 false now None).

Definition add_role (user_id : N) (role : string) : M Auth unit :=
  role_id ← uuid4;
  now ← utc_now;
  add (Role.make role_id user_id role now None).

(** The texts of a person the columns of [users] can hold: without NUL, at most
    255 and 180 characters.  An INSERT of others fails with a DataError, which is
    no IntegrityError. *)
Definition column_text (n : Z) (value : string) : bool :=
  negb (has_zero value) && (Z.of_nat (length (code_points (chars value))) <=? n).
Definition storable_user (user : User.UserEntity) : bool :=
  column_text 255 (User.email user) && column_text 180 (from_option id "" (User.name user)).
Definition flush_user (user : User.UserEntity) : M Auth unit :=
  raise_if (negb (storable_user user)) DataError;; flush.

(** [try: ... except IntegrityError: raise AccountConflictError] *)
Definition or_conflict (m : M Auth unit) : M Auth unit :=
  try_catch m (λ e, match e with
                    | IntegrityError => raise AccountConflictError
                    | _ => raise e
                    end).

Definition invite_member (payload : InternalMemberInvitation)
    : M Auth InternalMemberInvitationResult :=
  invited ← transaction (
    existing ← _user_by_email (im_email payload);
    user ← (match existing with
            | Some user => mret user
            | None =>
                user ← new_user (im_name payload) (im_email payload) (im_preferred_locale payload);
                add user;;
                flush_user user;;
                add_role (User.id user) "signature_operator";;
                add_identifier (User.id user) (im_identity_document_country payload)
                  (im_identity_document_type payload) (im_identity_document_value payload);;
                flush;;
                mret user
            end);
    if negb (User.is_active user) then
      token ← _issue_token (User.id user) "verify_email"
                (AUTH_EMAIL_VERIFICATION_TTL_SECONDS settings);
      mret (user, Some token)
    else mret (user, None));
  let '(user, token) := invited in
  (match token with
   | Some raw_token =>
       when (nonempty raw_token)
         (_send_verification (User.email user) raw_token None (User.name user)
            (User.preferred_locale user))
   | None => mret tt
   end);;
  mret (mkInvitationResult (uuid_str (User.id user)) (User.email user)
          (match token with Some _ => true | None => false end)).

Definition register (payload : PublicRegistration) : M Auth unit :=
  transaction (
    user ← new_user (pr_name payload) (pr_email payload) (pr_preferred_locale payload);
    add user;;
    or_conflict (flush_user user);;
    add_role (User.id user) "signature_admin";;
    when (opt_nonempty (pr_identity_document_type payload) &&
          opt_nonempty (pr_identity_document_country payload) &&
          opt_nonempty (pr_identity_document_value payload)) (
      add_identifier (User.id user)
        (from_option id "" (pr_identity_document_country payload))
        (from_option id "" (pr_identity_document_type payload))
        (from_option id "" (pr_identity_document_value payload));;
      or_conflict flush);;
    token ← _issue_token (User.id user) "verify_email"
              (AUTH_EMAIL_VERIFICATION_TTL_SECONDS settings);
    provision_account_tenant payload (User.id user);;
    _send_verification (User.email user) token (pr_return_url payload) (User.name user)
      (User.preferred_locale user)).

Definition request_email_verification (email : string) : M Auth unit :=
  issued ← transaction (
    user ← _user_by_email email;
    match user with
    | None => mret None
    | Some user =>
        if User.email_verified user then mret None
        else
          token ← _issue_token (User.id user) "verify_email"
                    (AUTH_EMAIL_VERIFICATION_TTL_SECONDS settings);
          mret (Some (user, token))
    end);
  match issued with
  | None => mret tt
  | Some (user, token) =>
      _send_verification (User.email user) token None (User.name user)
        (User.preferred_locale user)
  end.

Definition verify_email (raw_token new_password : string) : M Auth unit :=
  transaction (
    token ← _consume_token raw_token "verify_email";
    user ← get (R := User.UserEntity) (AccountToken.user_id token);
    user ← some_or user InvalidAccountTokenError;
    password_hash ← hash_password new_password;
    assign (User.id user) (λ u, u <| User.password_hash := password_hash |>
      <| User.email_verified := true |> <| User.is_active := true |>
      <| User.token_version ::= λ v, v + 1 |>)).

Definition request_password_recovery (email : string) (return_url : option string)
    : M Auth unit :=
  issued ← transaction (
    user ← _user_by_email email;
    match user with
    | None => mret None
    | Some user =>
        if negb (User.is_active user) then mret None
        else
          token ← _issue_token (User.id user) "reset_password"
                    (AUTH_PASSWORD_RESET_TTL_SECONDS settings);
          mret (Some (user, token))
    end);
  match issued with
  | None => mret tt
  | Some (user, token) =>
      let url := account_link "reset-password" token return_url in
      message ← lift (password_recovery_email (User.name user) url (User.preferred_locale user)
                        (AUTH_PUBLIC_WEB_URL settings));
      request_account_email (User.email user) message ("password-reset:" +:+ _digest token)
  end.

Definition reset_password (raw_token new_password : string) : M Auth unit :=
  transaction (
    token ← _consume_token raw_token "reset_password";
    user ← get (R := User.UserEntity) (AccountToken.user_id token);
    user ← some_or user InvalidAccountTokenError;
    password_hash ← hash_password new_password;
    assign (User.id user) (λ u, u <| User.password_hash := password_hash |>
      <| User.token_version ::= λ v, v + 1 |>)).
End accounts.
