(* ===== verification/Users.v ===== *)
(** * Users (user_router.py, session_guard.py, service_tokens.py)

    The endpoints core_api calls with its service key - resolving a user,
    matching and summarising an identity document, inviting a member - and the
    ones a signed-in user calls.  An endpoint takes the headers or the session
    its dependencies read. *)

From S2P Require Import Prelude.
From S2P Require Import PyText.
From S2P Require Import Http.
From S2P Require Import Json.
From S2P Require Import Orm.
From S2P Require Import Localization.
From S2P Require Import Identity.
From S2P Require Import Redis.
From S2P Require Import AuthDb.
From S2P Require Import EmailTemplates.
From S2P Require Import Accounts.
From S2P Require Import Sessions.

Local Open Scope Z_scope.

(** ** Payloads and answers (user_schema.py) *)
Record InternalIdentityMatch := mkIdentityMatch {
  match_email : string; match_identifier_type : string; match_identifier : string
}.
Record InternalUserResolve := mkUserResolve { resolved_user_id : N; resolved_email : string }.
Record UserRead := mkUserRead {
  read_id : N; read_name : string; read_email : string; read_role : string;
  read_is_active : bool; read_preferred_locale : string
}.
Record UserIdentifierRead := mkIdentifierRead {
  read_identifier_id : N; read_issuing_country : string; read_identifier_type : string;
  read_masked_display : string; read_verification_status : string
}.
Record UserIdentitySummary := mkIdentitySummary {
  summary_type : option string; summary_country : option string; summary_masked : option string
}.

(** [any(f(x) for x in l)], stopping at the first that holds. *)
Fixpoint any_of {A} (f : A → result bool) (l : list A) : result bool :=
  match l with
  | [] => Ok false
  | x :: xs => b ← f x; if b : bool then Ok true else any_of f xs
  end.

Section users.
Context `{AuthEnv} `{MailAssets}.

(** The guard of the internal endpoints. *)
Definition authenticate_service (x_rubrica_service x_rubrica_service_key : option string)
    : M Auth unit :=
  let refused := HTTPException 403 "Service authentication failed" in
  raise_if (negb (bool_decide (x_rubrica_service = Some "core_api"))) refused;;
  raise_if (negb (nonempty (CORE_INTERNAL_SERVICE_KEY settings))) refused;;
  valid ← lift (verify_service_token (from_option id "" x_rubrica_service_key)
                  (CORE_INTERNAL_SERVICE_KEY settings));
  raise_if (negb valid) refused.

Definition internal_member_invite (payload : InternalMemberInvitation)
    (service key : option string) : M Auth InternalMemberInvitationResult :=
  authenticate_service service key;;
  try_catch (invite_member payload) (λ e, match e with
    | IntegrityError =>
        raise (HTTPException 409 "E-mail or identity document is already registered")
    | AccountConflictError => raise (HTTPException 503 "")
    | AccountEmailDeliveryError message => raise (HTTPException 503 message)
    | _ => raise e
    end).

Definition internal_user_resolve (email : string) (service key : option string)
    : M Auth InternalUserResolve :=
  authenticate_service service key;;
  let normalized := lower (strip email) in
  read_session (
    user ← scalar (λ u, String.eqb (User.email u) normalized &&
                        negb (present (User.deleted_at u)) && User.is_active u);
    user ← some_or user (HTTPException 404 "User not found");
    mret (mkUserResolve (User.id user) (User.email user))).

(** Identifiers joined with their user. *)
Definition of_user (email : string) (i : Identifier.UserIdentifierEntity) (u : User.UserEntity)
    : bool :=
  N.eqb (User.id u) (Identifier.user_id i) && String.eqb (User.email u) (lower (strip email)) &&
  negb (present (User.deleted_at u)) && negb (present (Identifier.deleted_at i)).
Definition identifiers_of (le : Identifier.UserIdentifierEntity → Identifier.UserIdentifierEntity → bool)
    (P : Identifier.UserIdentifierEntity → bool) (email : string)
    : M Auth (list Identifier.UserIdentifierEntity) :=
  rows ← joined (R' := User.UserEntity) (λ a b, le a.1 b.1) (λ i u, of_user email i u && P i);
  mret (map fst rows).

Definition internal_identity_match (payload : InternalIdentityMatch)
    (service key : option string) : M Auth bool :=
  authenticate_service service key;;
  if negb (mem_str (match_identifier_type payload) ["BR_CPF"; "BR_CNPJ"]) then mret false
  else
    match validate (match_identifier_type payload) (match_identifier payload) with
    | Err _ => mret false
    | Ok normalized =>
        let digest := hmac_sha256_hex (AUTH_IDENTITY_HMAC_KEY settings) normalized in
        read_session (
          identifiers ← identifiers_of (λ _ _, true) (λ i,
            String.eqb (Identifier.identifier_type i) (match_identifier_type payload) &&
            String.eqb (Identifier.issuing_country i) "BR") (match_email payload);
          lift (any_of (λ i, compare_digest (Identifier.lookup_hmac i) (Some digest)) identifiers))
    end.

Definition by_creation (a b : Identifier.UserIdentifierEntity) : bool :=
  Identifier.created_at a <=? Identifier.created_at b.

Definition identity_summary (email : string) (service key : option string)
    : M Auth UserIdentitySummary :=
  authenticate_service service key;;
  read_session (
    identifiers ← identifiers_of by_creation (λ _, true) email;
    mret (match identifiers with
          | [] => mkIdentitySummary None None None
          | i :: _ => mkIdentitySummary (Some (Identifier.identifier_type i))
                        (Some (Identifier.issuing_country i)) (Some (Identifier.masked_display i))
          end)).

(** ** Dependencies of the endpoints of a signed-in user *)
Definition authentication_required : exn := HTTPException 401 "Authentication required".

Definition authenticated_session (access_token : string) : M Auth SessionRead :=
  session ← current_session access_token;
  some_or session authentication_required.

(** Endpoints that were removed answer 410 to a session. *)
Definition list_signers (access_token : string) : M Auth (list UserRead) :=
  authenticated_session access_token;;
  raise (HTTPException 410 "Global signer discovery was removed; invite a signer by e-mail").
Definition create_user (access_token : string) : M Auth UserRead :=
  authenticated_session access_token;;
  raise (HTTPException 410 "Direct global user creation was removed; invite a signer by e-mail").

Definition mfa_session (access_token : string) : M Auth SessionRead :=
  session ← authenticated_session access_token;
  context ← ui_context access_token;
  match context with
  | Some c =>
      raise_if (ui_mfa_setup_required c)
        (HTTPException 403 "Configure MFA before accessing Rubrica");;
      mret session
  | None => raise (HTTPException 403 "Configure MFA before accessing Rubrica")
  end.

(** [name or email] *)
Definition display_name (u : User.UserEntity) : string :=
  match User.name u with Some n => if nonempty n then n else User.email u | None => User.email u end.

Definition update_my_preferences (preferred_locale access_token : string) : M Auth UserRead :=
  session ← mfa_session access_token;
  transaction (
    item ← scalar (λ u, String.eqb (User.email u) (sr_subject session));
    item ← some_or item authentication_required;
    context ← context_for_user (User.id item);
    let role := from_option id "signature_signer"
                  (List.find (starts_with "signature_") context.1) in
    assign (User.id item) (λ u, u <| User.preferred_locale := preferred_locale |>);;
    flush;;
    raise_if (negb (mem_str role (map fst ROLE_PERMISSIONS)))
      (ValueError "role must be one of the known roles");;
    mret (mkUserRead (User.id item) (display_name item) (User.email item) role
            (User.is_active item) preferred_locale)).

Definition list_my_identifiers (access_token : string) : M Auth (list UserIdentifierRead) :=
  session ← mfa_session access_token;
  read_session (
    user ← scalar (λ u, String.eqb (User.email u) (sr_subject session) &&
                        negb (present (User.deleted_at u)));
    user ← some_or user authentication_required;
    identifiers ← scalars_ordered by_creation (λ i,
      N.eqb (Identifier.user_id i) (User.id user) && negb (present (Identifier.deleted_at i)));
    mret (map (λ i, mkIdentifierRead (Identifier.id i) (Identifier.issuing_country i)
                      (Identifier.identifier_type i) (Identifier.masked_display i)
                      (Identifier.verification_status i)) identifiers)).

(** ** The MFA endpoints (mfa_router.py): a rate limit before the service *)
Definition _enforce_rate_limit (subject operation : string) (limit : Z) : M Auth unit :=
  allowed ← allow_mfa_operation subject operation limit 300;
  raise_if (negb allowed) (HTTPException 429 "Too many MFA attempts. Try again later").

Definition as_unprocessable {A} (m : M Auth A) : M Auth A :=
  try_catch m (λ e, match e with
                    | MfaError message => raise (HTTPException 422 message)
                    | _ => raise e
                    end).

Definition mfa_status (access_token : string) : M Auth (bool * bool * bool * Z) :=
  session ← authenticated_session access_token;
  Mfa.status (sr_subject session).
Definition setup_mfa (access_token : string) : M Auth (string * string) :=
  session ← authenticated_session access_token;
  _enforce_rate_limit (sr_subject session) "setup" 5;;
  Mfa.setup (sr_subject session).
Definition confirm_mfa (code access_token : string) : M Auth (list string) :=
  session ← authenticated_session access_token;
  _enforce_rate_limit (sr_subject session) "confirm" 10;;
  as_unprocessable (Mfa.confirm (sr_subject session) code).
Definition disable_mfa (password code access_token : string) : M Auth unit :=
  session ← authenticated_session access_token;
  _enforce_rate_limit (sr_subject session) "disable" 5;;
  as_unprocessable (Mfa.disable (sr_subject session) password code).
Definition recovery_codes (password code access_token : string) : M Auth (list string) :=
  session ← authenticated_session access_token;
  _enforce_rate_limit (sr_subject session) "recovery-codes" 5;;
  as_unprocessable (Mfa.regenerate_recovery_codes (sr_subject session) password code).
End users.
