(* ===== verification/SessionFacts.v ===== *)
(** * The session store: keys, invariant and how it evolves

    Every key of auth_api has a family, told by its text; the families are
    disjoint.  The invariant says what each family holds and how the sessions,
    the sets of sessions and the users belong together; the evolution relation
    says what a call can do to the sessions: a session keeps its user and its
    version for life, its tokens are only replaced by new ones, and only a login
    opens a session, under a new identifier. *)

From S2P Require Import Prelude.
From S2P Require Import PyText.
From S2P Require Import DateTime.
From S2P Require Import Orm.
From S2P Require Import Redis.
From S2P Require Import AuthDb.
From S2P Require Import Mfa.
From S2P Require Import Sessions.

Local Open Scope Z_scope.

(** What the services rely on: random draws do not repeat, the digest does not
    collide, and [uuid4()] has 128 bits; the configured lifetimes are positive. *)
Class AuthLaws `{AuthEnv} := {
  token_of_inj : ∀ n k m j, token_of n k = token_of m j → n = m;
  sha256_inj : ∀ a b, sha256_hex a = sha256_hex b → a = b;
  token_nonempty : ∀ n k, nonempty (token_of n k) = true;
  uuid4_range : ∀ n, (uuid4_of n < 2 ^ 128)%N;
  access_ttl_positive : 0 < AUTH_ACCESS_TTL_SECONDS settings;
  session_ttl_positive : 0 < AUTH_SESSION_TTL_SECONDS settings;
  challenge_ttl_positive : 0 < AUTH_MFA_CHALLENGE_TTL_SECONDS settings
}.

(** ** Keys *)
Lemma append_cancel_r (a b c : string) : a +:+ c = b +:+ c → a = b.
Proof.
  intros E. apply (f_equal chars) in E.
  rewrite !chars_append in E. apply (inj (λ l, l ++ chars c)) in E.
  by rewrite <- (text_chars a), E, text_chars.
Qed.

Section keys.
Context `{AuthEnv}.

Lemma prefixed_inj a b : prefixed a = prefixed b → a = b.
Proof. unfold prefixed. intros E. do 2 apply (inj (String.append _)) in E. done. Qed.

Lemma session_key_inj a b : _session_key a = _session_key b → a = b.
Proof. intros E%prefixed_inj. by apply (inj (String.append _)) in E. Qed.
Lemma user_key_inj a b : _user_sessions_key a = _user_sessions_key b → a = b.
Proof.
  intros E%prefixed_inj. apply (inj (String.append _)) in E. by apply append_cancel_r in E.
Qed.
Lemma token_key_inj `{!AuthLaws} kind a b : _token_key kind a = _token_key kind b → a = b.
Proof.
  intros E%prefixed_inj. do 2 apply (inj (String.append _)) in E. by apply sha256_inj.
Qed.
Lemma uuid_str_inj u v : (u < 2 ^ 128)%N → (v < 2 ^ 128)%N → uuid_str u = uuid_str v → u = v.
Proof. intros Hu Hv E. apply (f_equal parse_uuid) in E. rewrite !parse_uuid_str in E; congruence. Qed.
End keys.

(** Keys of different families differ: after the common prefix their texts
    differ within the name of the family. *)
Ltac key_ne :=
  let E := fresh "E" in
  intros E; unfold _token_key, _session_key, _user_sessions_key in E;
  apply prefixed_inj in E; cbn in E; discriminate E.
Create HintDb keys.
#[export] Hint Extern 1 (_ ≠ _) => solve [key_ne] : keys.

Section families.
Context `{AuthEnv}.
Lemma session_user_ne a b : _session_key a ≠ _user_sessions_key b.
Proof. key_ne. Qed.
Lemma session_access_ne a b : _session_key a ≠ _token_key "access" b.
Proof. key_ne. Qed.
Lemma user_used_ne a b : _user_sessions_key a ≠ _token_key "used-refresh" b.
Proof. key_ne. Qed.
Lemma mfa_ne a b : _token_key "mfa" a ≠ _token_key "mfa-attempts" b.
Proof. key_ne. Qed.
End families.

(** ** The invariant *)
Section invariant.
Context `{AuthEnv} `{!AuthLaws}.
Implicit Types (s : Auth) (sid k : string) (st : SessionState) (u : N).

(** What a key holds now. *)
Definition found s k : option (entry SessionState) := find_key (Auth.clock s) k (Auth.redis s).

Definition session_at s sid : option SessionState :=
  match found s (_session_key sid) with Some (Entry (RJson st) _) => Some st | _ => None end.

Definition user_rows s : list User.UserEntity := live (AuthTables.users (Auth.db s)).
Definition version_of s u : option Z := User.token_version <$> find_row u (user_rows s).

(** A token of this kind, drawn before the given draw. *)
Definition drawn_token (kind : string) (from to : N) (token : string) : Prop :=
  ∃ n, (from ≤ n < to)%N ∧ token = kind +:+ "_" +:+ token_of n 32.
Definition drawn_session (from to : N) sid : Prop :=
  ∃ n, (from ≤ n < to)%N ∧ sid = token_of n 18.

Record session_ok s sid st : Prop := {
  so_id : Session.session_id st = sid;
  so_drawn : drawn_session 0 (Auth.draws s) sid;
  so_user : ∃ u v, (u < 2 ^ 128)%N ∧ Session.user_id st = uuid_str u ∧
                   version_of s u = Some v ∧ Session.token_version st ≤ v;
  so_access : ∃ t, drawn_token "access" 0 (Auth.draws s) t ∧
                   Session.access_key st = _token_key "access" t;
  so_refresh : ∃ t, drawn_token "refresh" 0 (Auth.draws s) t ∧
                    Session.refresh_key st = _token_key "refresh" t
}.

(** A live session is well formed and listed in the set of its user, which lives
    at least as long. *)
Definition listed s sid (e : entry SessionState) st : Prop :=
  ∃ x ms t, expires e = Some x ∧ x ≤ deadline (Auth.clock s) (AUTH_SESSION_TTL_SECONDS settings) ∧
    found s (_user_sessions_key (Session.user_id st)) = Some (Entry (RSet ms) (Some t)) ∧
    sid ∈ ms ∧ x ≤ t.

(** A set of sessions mentions sessions of its user, or ones that are gone. *)
Definition set_ok s (x : string) (ms : gset string) : Prop :=
  ∀ sid, sid ∈ ms → drawn_session 0 (Auth.draws s) sid ∧
    ∀ st, session_at s sid = Some st → Session.user_id st = x.

Record auth_inv s : Prop := {
  inv_sessions : ∀ sid e, found s (_session_key sid) = Some e →
    ∃ st, value e = RJson st ∧ session_ok s sid st ∧ listed s sid e st;
  inv_sets : ∀ x e, found s (_user_sessions_key x) = Some e →
    ∃ ms, value e = RSet ms ∧ set_ok s x ms;
  inv_pointers : ∀ kind x e, kind ∈ ["access"; "refresh"; "used-refresh"] →
    found s (_token_key kind x) = Some e → ∃ t, value e = RText t;
  inv_ids : ∀ u v, version_of s u = Some v → (u < 2 ^ 128)%N
}.

Lemma inv_set_typed s : auth_inv s →
  ∀ x e, found s (_user_sessions_key x) = Some e → ∃ ms, value e = RSet ms.
Proof. intros Hi x e Hf. destruct (inv_sets s Hi x e Hf) as (ms & ? & _). by exists ms. Qed.

Lemma session_at_some s sid st :
  session_at s sid = Some st ↔ ∃ t, found s (_session_key sid) = Some (Entry (RJson st) t).
Proof.
  unfold session_at. destruct (found s (_session_key sid)) as [[[] t]|]; naive_solver.
Qed.

Lemma inv_session_ok s sid st : auth_inv s → session_at s sid = Some st → session_ok s sid st.
Proof.
  intros Hi (t & Hf)%session_at_some. apply (inv_sessions s Hi) in Hf as (st' & [= <-] & ? & _). done.
Qed.

(** ** Evolution *)
Definition same_session st st' : Prop :=
  Session.session_id st' = Session.session_id st ∧ Session.user_id st' = Session.user_id st ∧
  Session.subject st' = Session.subject st ∧ Session.token_version st' = Session.token_version st.

(** A refresh token that was issued and is not accepted any more. *)
Definition spent s (token : string) : Prop :=
  drawn_token "refresh" 0 (Auth.draws s) token ∧ found s (_token_key "refresh" token) = None.

Record evolves s s' : Prop := {
  ev_clock : Auth.clock s ≤ Auth.clock s';
  ev_draws : (Auth.draws s ≤ Auth.draws s')%N;
  ev_versions : ∀ u v, version_of s u = Some v → ∃ v', version_of s' u = Some v' ∧ v ≤ v';
  ev_sessions : ∀ sid st', session_at s' sid = Some st' →
    (∃ st, session_at s sid = Some st ∧ same_session st st') ∨
    drawn_session (Auth.draws s) (Auth.draws s') sid;
  ev_pointers : ∀ kind x, kind ∈ ["access"; "refresh"] → is_Some (found s' (_token_key kind x)) →
    is_Some (found s (_token_key kind x)) ∨
    ∃ t, drawn_token kind (Auth.draws s) (Auth.draws s') t ∧
         _token_key kind x = _token_key kind t;
  (** The record of a refresh token that was used stays. *)
  ev_used : ∀ x e, spent s x → Auth.redis s !! _token_key "used-refresh" x = Some e →
    Auth.redis s' !! _token_key "used-refresh" x = Some e
}.

(** What every operation does: it keeps the invariant and evolves the sessions. *)
Definition advances : relation Auth := λ s s', auth_inv s → auth_inv s' ∧ evolves s s'.

Lemma drawn_widen kind a b a' b' t :
  (a' ≤ a)%N → (b ≤ b')%N → drawn_token kind a b t → drawn_token kind a' b' t.
Proof. intros Ha Hb (n & Hn & ->). exists n. split; [lia|done]. Qed.
Lemma drawn_session_widen a b a' b' sid :
  (a' ≤ a)%N → (b ≤ b')%N → drawn_session a b sid → drawn_session a' b' sid.
Proof. intros Ha Hb (n & Hn & ->). exists n. split; [lia|done]. Qed.

Lemma evolves_refl s : evolves s s.
Proof.
  split; try reflexivity.
  - intros u v Hu. by exists v.
  - intros sid st Hs. left. exists st. by split; [|repeat split].
  - intros kind x _ Hx. by left.
  - done.
Qed.

Lemma spent_stays s s' token : evolves s s' → spent s token → spent s' token.
Proof.
  intros Hev [Hd Hf]. split.
  - eapply drawn_widen; [..|exact Hd]; [done|]. apply Hev.
  - destruct (found s' (_token_key "refresh" token)) as [e|] eqn:E; [|done].
    destruct (ev_pointers _ _ Hev "refresh" token) as [[? ?]|(t & (n & Hn & ->) & Ht)];
      [set_solver|by exists e|congruence|].
    apply token_key_inj in Ht. destruct Hd as (m & Hm & Em). rewrite Em in Ht.
    do 2 apply (inj (String.append _)) in Ht. apply token_of_inj in Ht. lia.
Qed.

Lemma evolves_trans s1 s2 s3 : evolves s1 s2 → evolves s2 s3 → evolves s1 s3.
Proof.
  intros H1 H2. pose proof (λ x, spent_stays _ _ x H1) as Hsp.
  destruct H1 as [c1 d1 v1 e1 p1 r1], H2 as [c2 d2 v2 e2 p2 r2]. split.
  - lia.
  - lia.
  - intros u v Hu. destruct (v1 u v Hu) as (v' & Hu' & ?). destruct (v2 u v' Hu') as (v'' & ? & ?).
    exists v''. split; [done|lia].
  - intros sid st3 H3. destruct (e2 sid st3 H3) as [(st2 & H2 & E2)|Hd].
    + destruct (e1 sid st2 H2) as [(st1 & H1 & E1)|Hd].
      * left. exists st1. split; [done|]. unfold same_session in *. intuition congruence.
      * right. eapply drawn_session_widen; [..|exact Hd]; lia.
    + right. eapply drawn_session_widen; [..|exact Hd]; lia.
  - intros kind x Hk H3. destruct (p2 kind x Hk H3) as [H2|(t & Hd & E)].
    + destruct (p1 kind x Hk H2) as [H1|(t & Hd & E)]; [by left|].
      right. exists t. split; [|done]. eapply drawn_widen; [..|exact Hd]; lia.
    + right. exists t. split; [|done]. eapply drawn_widen; [..|exact Hd]; lia.
  - intros x e Hx He. by apply r2, r1; [apply Hsp| |].
Qed.

#[export] Instance advances_preorder : PreOrder advances.
Proof.
  split.
  - intros s Hi. split; [done|apply evolves_refl].
  - intros s1 s2 s3 H12 H23 Hi. destruct (H12 Hi) as [Hi2 E12]. destruct (H23 Hi2) as [Hi3 E23].
    split; [done|by eapply evolves_trans].
Qed.

(** A step that leaves the sessions' keys alone: counters, challenges, the tables
    of the database as long as versions do not decrease. *)
Inductive store_key : string → Prop :=
| sk_session sid : store_key (_session_key sid)
| sk_user x : store_key (_user_sessions_key x)
| sk_pointer kind x : kind ∈ ["access"; "refresh"; "used-refresh"] → store_key (_token_key kind x).

Record quiet s s' : Prop := {
  qu_clock : Auth.clock s' = Auth.clock s;
  qu_draws : (Auth.draws s ≤ Auth.draws s')%N;
  qu_store : ∀ k, store_key k → Auth.redis s' !! k = Auth.redis s !! k;
  qu_versions : ∀ u v, version_of s u = Some v → ∃ v', version_of s' u = Some v' ∧ v ≤ v';
  qu_ids : ∀ u v, version_of s' u = Some v → is_Some (version_of s u) ∨ (u < 2 ^ 128)%N
}.

#[export] Instance quiet_preorder : PreOrder quiet.
Proof.
  split.
  - intros s. split; try done.
    + intros u v Hu. by exists v.
    + intros u v ->. left. eauto.
  - intros s1 s2 s3 [c1 d1 k1 v1 i1] [c2 d2 k2 v2 i2]. split.
    + congruence.
    + lia.
    + intros k Hk. by rewrite k2, k1.
    + intros u v Hu. destruct (v1 u v Hu) as (v' & Hu' & ?). destruct (v2 u v' Hu') as (v'' & ? & ?).
      exists v''. split; [done|lia].
    + intros u v Hu. destruct (i2 u v Hu) as [[v' Hu']|?]; [|by right]. by apply (i1 u v').
Qed.

Lemma set_ok_later s s' x ms :
  (Auth.draws s ≤ Auth.draws s')%N →
  (∀ sid st, sid ∈ ms → session_at s' sid = Some st → session_at s sid = Some st) →
  set_ok s x ms → set_ok s' x ms.
Proof.
  intros Hd Hs Hok sid Hin. destruct (Hok sid Hin) as [Hdr Hown]. split.
  - by eapply drawn_session_widen; [..|exact Hdr].
  - intros st Hst. by apply Hown, Hs.
Qed.

Lemma session_ok_later s s' sid st :
  (Auth.draws s ≤ Auth.draws s')%N →
  (∀ u v, version_of s u = Some v → ∃ v', version_of s' u = Some v' ∧ v ≤ v') →
  session_ok s sid st → session_ok s' sid st.
Proof.
  intros Hd Hv [? ? (u & v & ? & ? & Hu & ?) (ta & ? & ?) (tr & ? & ?)]. split; [done| | | |].
  - by eapply drawn_session_widen; [..|eassumption].
  - destruct (Hv u v Hu) as (v' & ? & ?). exists u, v'. split_and!; try done. lia.
  - exists ta. split; [|done]. by eapply drawn_widen; [..|eassumption].
  - exists tr. split; [|done]. by eapply drawn_widen; [..|eassumption].
Qed.

Lemma quiet_advances s s' : quiet s s' → advances s s'.
Proof.
  intros [Hc Hd Hphys Hv Hids] Hi.
  assert (Hk : ∀ k, store_key k → found s' k = found s k).
  { intros k Hk. unfold found. rewrite Hc. by apply find_key_same, Hphys. }
  assert (Hs : ∀ sid, session_at s' sid = session_at s sid).
  { intros sid. unfold session_at. by rewrite Hk by constructor. }
  split; split.
  - intros sid e Hf. rewrite Hk in Hf by constructor.
    destruct (inv_sessions s Hi sid e Hf) as (st & ? & Hok & x & ms & t & ? & ? & ? & ? & ?).
    exists st. split; [done|]. split; [by eapply session_ok_later|].
    exists x, ms, t. rewrite Hc, Hk by constructor. done.
  - intros x e Hf. rewrite Hk in Hf by constructor.
    destruct (inv_sets s Hi x e Hf) as (ms & ? & Hok). exists ms. split; [done|].
    eapply set_ok_later; [done| |done]. intros sid st _. by rewrite Hs.
  - intros kind x e Hin Hf. rewrite Hk in Hf by (by constructor). by eapply inv_pointers.
  - intros u v Hu. destruct (Hids u v Hu) as [[v' Hu']|?]; [|done]. by eapply inv_ids.
  - lia.
  - done.
  - done.
  - intros sid st'. rewrite Hs. intros. left. exists st'. by split; [|repeat split].
  - intros kind x Hin. rewrite Hk; [by left|]. constructor.
    apply elem_of_cons in Hin as [->|Hin]; [set_solver|]. set_solver.
  - intros x e _ <-. apply Hphys. constructor. set_solver.
Qed.
End invariant.

(** ** Commands as steps of the process *)
Lemma redis_run {A} (c : Z → M (keyspace SessionState) A) s r db :
  c (Auth.clock s) (Auth.redis s) = (r, db) → redis c s = (r, s <| Auth.redis := db |>).
Proof. unfold redis. by intros ->. Qed.

Lemma auth_eta s : s <| Auth.redis := Auth.redis s |> = s.
Proof. by destruct s. Qed.

Section command_steps.
Context `{AuthEnv} `{!AuthLaws}.
Implicit Types (s : Auth) (k : string).

(** A command that leaves the store keys alone. *)
Definition avoids {A} (c : Z → M (keyspace SessionState) A) : Prop :=
  ∀ now db k, store_key k → (c now db).2 !! k = db !! k.

Lemma redis_quiet {A} (c : Z → M (keyspace SessionState) A) :
  avoids c → preserves quiet (redis c).
Proof.
  intros Hc s. unfold redis. specialize (Hc (Auth.clock s) (Auth.redis s)).
  destruct (c _ _) as [r db]; simpl in *. split; simpl; [done|done|exact Hc| |].
  - intros u v Hu. by exists v.
  - intros u v Hu. left. by exists v.
Qed.

Lemma GET_same {V} now k (db : keyspace V) : (GET now k db).2 = db.
Proof. unfold GET. by destruct (find_key _ _ _) as [[[] ?]|]. Qed.
Lemma SMEMBERS_same {V} now k (db : keyspace V) : (SMEMBERS now k db).2 = db.
Proof. unfold SMEMBERS. by destruct (find_key _ _ _) as [[[] ?]|]. Qed.
Lemma GET_avoids k : avoids (λ now, GET now k).
Proof. intros now db k' _. by rewrite GET_same. Qed.
Lemma SMEMBERS_avoids k : avoids (λ now, SMEMBERS now k).
Proof. intros now db k' _. by rewrite SMEMBERS_same. Qed.

Lemma store_ne k k' : ¬ store_key k → store_key k' → k ≠ k'.
Proof. by intros Hk Hk' ->. Qed.

Lemma SET_avoids k v ttl : ¬ store_key k → avoids (λ now, SET now k v ttl).
Proof.
  intros Hk now db k' Hk'. unfold SET. destruct (ttl <=? 0); [done|]. simpl.
  apply lookup_insert_ne. by apply store_ne.
Qed.
Lemma INCR_avoids k : ¬ store_key k → avoids (λ now, INCR now k).
Proof.
  intros Hk now db k' Hk'. pose proof (store_ne _ _ Hk Hk') as Hne. unfold INCR.
  destruct (find_key now k db) as [[[] ?]|]; simpl; try done; try (by apply lookup_insert_ne).
  destruct (_ <? _); simpl; [|done]. by apply lookup_insert_ne.
Qed.
Lemma EXPIRE_avoids k ttl : ¬ store_key k → avoids (λ now, EXPIRE now k ttl).
Proof.
  intros Hk now db k' Hk'. pose proof (store_ne _ _ Hk Hk') as Hne. unfold EXPIRE, modify. simpl.
  destruct (find_key now k db); [|done].
  destruct (ttl <=? 0); [by apply lookup_delete_ne | by apply lookup_insert_ne].
Qed.
Lemma DEL_avoids ks : Forall (λ k, ¬ store_key k) ks → avoids (λ _, DEL ks).
Proof.
  intros Hks now db k' Hk'. unfold DEL, modify. simpl.
  rewrite deleted_keys, decide_False; [done|]. rewrite Forall_forall in Hks.
  intros Hin. by apply (Hks k').
Qed.

Lemma same_quiet s s' :
  Auth.clock s' = Auth.clock s → (Auth.draws s ≤ Auth.draws s')%N → Auth.redis s' = Auth.redis s →
  (∀ u, version_of s' u = version_of s u) → quiet s s'.
Proof.
  intros Hc Hd Hr Hv. split; try done.
  - intros k _. by rewrite Hr.
  - intros u v Hu. exists v. by rewrite Hv.
  - intros u v Hu. left. exists v. by rewrite <- Hv.
Qed.
Lemma draw_quiet : preserves quiet draw.
Proof. intros s. apply same_quiet; simpl; try done. lia. Qed.
Lemma token_quiet bytes : preserves quiet (token_urlsafe bytes).
Proof. intros s. apply same_quiet; simpl; try done. lia. Qed.
Lemma new_token_quiet kind : preserves quiet (_new_token kind).
Proof. intros s. apply same_quiet; simpl; try done. lia. Qed.
Lemma uuid4_quiet : preserves quiet uuid4.
Proof. intros s. apply same_quiet; simpl; try done. lia. Qed.
Lemma utc_now_quiet : preserves quiet utc_now.
Proof. intros s. simpl. reflexivity. Qed.
Lemma deref_same {R} `{Entity R} `{HasTable Auth R} (u : N) : preserves quiet (deref u : M Auth R).
Proof. intros s. unfold deref. destruct (find_row _ _); simpl; reflexivity. Qed.
End command_steps.

(** The keys of the other families are not store keys. *)
Ltac not_store :=
  let Hk := fresh "Hk" in
  let kind := fresh "kind" in
  let Hin := fresh "Hin" in
  intros Hk; inversion Hk as [? E|? E|kind ? Hin E]; clear Hk;
  [revert E; key_ne | revert E; key_ne |
   repeat (apply elem_of_cons in Hin as [->|Hin]; [revert E; key_ne|]);
   by apply elem_of_nil in Hin].

Section other_keys.
Context `{AuthEnv}.
Lemma login_key_other x : ¬ store_key (_token_key "login-attempts" x).
Proof. not_store. Qed.
Lemma challenge_key_other x : ¬ store_key (_token_key "mfa" x).
Proof. not_store. Qed.
Lemma attempts_key_other x : ¬ store_key (_token_key "mfa-attempts" x).
Proof. not_store. Qed.
Lemma rate_key_other x : ¬ store_key (prefixed ("mfa-rate:" +:+ x)).
Proof. not_store. Qed.

Lemma count_attempt_quiet k ttl : ¬ store_key k → preserves quiet (count_attempt k ttl).
Proof.
  intros Hk. unfold count_attempt. apply preserves_bind; [apply _| |].
  - by apply redis_quiet, INCR_avoids.
  - intros a. apply preserves_bind; [apply _| |intros; apply preserves_ret; apply _].
    apply preserves_when; [apply _|]. by apply redis_quiet, EXPIRE_avoids.
Qed.
End other_keys.
#[export] Hint Resolve login_key_other challenge_key_other attempts_key_other rate_key_other : keys.

(** ** Reading the store in a well-formed state *)

Section reads.
Context `{AuthEnv}.
Implicit Types (s : Auth) (sid k : string) (st : SessionState).

Lemma redis_read {A} (c : Z → M (keyspace SessionState) A) s r :
  c (Auth.clock s) (Auth.redis s) = (r, Auth.redis s) → redis c s = (r, s).
Proof. intros E. by rewrite (redis_run _ _ _ _ E), auth_eta. Qed.

Lemma load_state_run s sid :
  auth_inv s → _load_state (Some sid) s = (Ok (if nonempty sid then session_at s sid else None), s).
Proof.
  intros Hi. unfold _load_state. destruct (nonempty sid); [|done].
  unfold session_at, found. destruct (find_key _ _ _) as [e|] eqn:E.
  - destruct (inv_sessions s Hi sid e E) as (st & Hv & _). destruct e as [v t]. simpl in Hv. subst v.
    erewrite bind_step_ok; [|apply redis_read; unfold GET; by rewrite E]. done.
  - erewrite bind_step_ok; [|apply redis_read; unfold GET; by rewrite E]. done.
Qed.

(** The session id a pointer names. *)
Definition pointed s k : option string :=
  match found s k with Some (Entry (RText sid) _) => Some sid | _ => None end.

Lemma get_text_run s kind x :
  auth_inv s → kind ∈ ["access"; "refresh"; "used-refresh"] →
  get_text (_token_key kind x) s = (Ok (pointed s (_token_key kind x)), s).
Proof.
  intros Hi Hk. unfold get_text, pointed, found. destruct (find_key _ _ _) as [e|] eqn:E.
  - destruct (inv_pointers s Hi kind x e Hk E) as (t & Hv). destruct e as [v x']. simpl in Hv. subst v.
    erewrite bind_step_ok; [|apply redis_read; unfold GET; by rewrite E]. done.
  - erewrite bind_step_ok; [|apply redis_read; unfold GET; by rewrite E]. done.
Qed.

(** The session a token is accepted for. *)
Definition token_session s (kind token : string) : option SessionState :=
  sid ← pointed s (_token_key kind token);
  guard (nonempty sid = true);;
  st ← session_at s sid;
  guard (names_key kind (_token_key kind token) st = true);;
  Some st.

Lemma state_for_token_run s kind token :
  auth_inv s → kind ∈ ["access"; "refresh"] →
  _state_for_token kind token s = (Ok (token_session s kind token), s).
Proof.
  intros Hi Hk. unfold _state_for_token, token_session.
  erewrite bind_step_ok; [|apply get_text_run; [done|set_solver]].
  destruct (pointed s _) as [sid|]; [|done]. simpl.
  erewrite bind_step_ok; [|by apply load_state_run].
  destruct (nonempty sid); [|done]. simpl. destruct (session_at s sid) as [st|]; [|done]. simpl.
  by destruct (names_key _ _ _).
Qed.

Lemma token_session_some s kind token st :
  token_session s kind token = Some st →
  ∃ sid, pointed s (_token_key kind token) = Some sid ∧ nonempty sid = true ∧
    session_at s sid = Some st ∧ names_key kind (_token_key kind token) st = true.
Proof.
  unfold token_session. intros (sid & ? & E)%bind_Some. exists sid. split; [done|].
  case_guard; [|done]. simpl in E. apply bind_Some in E as (st' & ? & E).
  case_guard; [|done]. simpl in E. by simplify_eq.
Qed.

Lemma token_session_at s kind token st :
  auth_inv s → token_session s kind token = Some st →
  session_at s (Session.session_id st) = Some st.
Proof.
  intros Hi (sid & ? & ? & Hs & ?)%token_session_some.
  by rewrite (so_id _ _ _ (inv_session_ok _ _ _ Hi Hs)).
Qed.

(** The identifier of a user, as a session records it. *)
Lemma user_identifier_uuid u : (u < 2 ^ 128)%N → _user_identifier (uuid_str u) = Ok u.
Proof. intros Hu. unfold _user_identifier. by rewrite parse_uuid_str. Qed.

Lemma numeric_uuid u : numeric (uuid_str u) = false.
Proof.
  unfold numeric, all_chars, uuid_str, uuid_layout. rewrite chars_text, forallb_app.
  change (forallb is_digit ("-"%char :: ?l)) with false. by rewrite !andb_false_r.
Qed.

Lemma user_sets_uuid u : (u < 2 ^ 128)%N → user_sets (uuid_str u) = Ok [_user_sessions_key (uuid_str u)].
Proof.
  intros Hu. unfold user_sets. rewrite user_identifier_uuid by done.
  cbn [mbind result_bind]. by rewrite numeric_uuid.
Qed.
End reads.
#[local] Opaque uuid_str.
