(* ===== verification/SessionSteps.v ===== *)
(** * Each session operation advances the store

    Opening a session, rotating its tokens and revoking it are several commands;
    as a whole each of them keeps the invariant and evolves the sessions. *)

From S2P Require Import Prelude.
From S2P Require Import PyText.
From S2P Require Import DateTime.
From S2P Require Import Orm.
From S2P Require Import Redis.
From S2P Require Import AuthDb.
From S2P Require Import Mfa.
From S2P Require Import Sessions.
From S2P Require Import SessionFacts.

Local Open Scope Z_scope.
#[local] Opaque uuid_str.

(** ** Adding to a set that expires *)
Section sets.
Context {V : Type}.
Implicit Types db : keyspace V.

Definition members now k db : gset string :=
  match find_key now k db with Some (Entry (RSet ms) _) => ms | _ => ∅ end.

Lemma deadline_later now ttl : 0 < ttl → now < deadline now ttl.
Proof. unfold deadline, DateTimeService.add_seconds, second. lia. Qed.
Lemma not_expired now t (v : rvalue V) : now < t → expired now (Entry v (Some t)) = false.
Proof. intros Ht. apply Z.leb_gt. exact Ht. Qed.

Lemma sadd_expire now k m ttl db :
  0 < ttl → (∀ e, find_key now k db = Some e → ∃ ms, value e = RSet ms) →
  (SADD now k m;; EXPIRE now k ttl) db =
    (Ok tt, <[k := Entry (RSet ({[m]} ∪ members now k db)) (Some (deadline now ttl))]> db).
Proof.
  intros Ht Hset. unfold SADD, EXPIRE, modify, members, mbind, M_bind.
  destruct (find_key now k db) as [e|] eqn:E.
  - destruct (Hset e eq_refl) as (ms & Hv). destruct e as [v t]. simpl in Hv. subst v.
    pose proof E as [_ Hx]%find_key_some. cbv beta iota.
    rewrite find_key_insert. unfold expired in *. simpl in *. rewrite Hx.
    destruct (Z.leb_spec ttl 0); [lia|]. by rewrite insert_insert_eq.
  - cbv beta iota. rewrite find_key_insert. simpl.
    destruct (Z.leb_spec ttl 0); [lia|]. rewrite insert_insert_eq.
    by replace ({[m]} ∪ ∅ : gset string) with ({[m]} : gset string) by set_solver.
Qed.
End sets.

(** ** A session put into the store *)
Section install.
Context `{AuthEnv} `{!AuthLaws}.
Implicit Types (s : Auth) (sid k : string) (st : SessionState).

Definition session_deadline now : Z := deadline now (AUTH_SESSION_TTL_SECONDS settings).

(** The session, its two tokens and its mention in the set of its user. *)
Definition install now st (db : keyspace SessionState) : keyspace SessionState :=
  let uk := _user_sessions_key (Session.user_id st) in
  <[uk := Entry (RSet ({[Session.session_id st]} ∪ members now uk db)) (Some (session_deadline now))]>
  (<[Session.refresh_key st :=
       Entry (RText (Session.session_id st)) (Some (session_deadline now))]>
  (<[Session.access_key st :=
       Entry (RText (Session.session_id st))
         (Some (deadline now (AUTH_ACCESS_TTL_SECONDS settings)))]>
  (<[_session_key (Session.session_id st) :=
       Entry (RJson st) (Some (session_deadline now))]> db))).

(** Its keys are keys of tokens, and not each other. *)
Definition keyed st : Prop :=
  (∃ t, Session.access_key st = _token_key "access" t) ∧
  (∃ t, Session.refresh_key st = _token_key "refresh" t).

Lemma install_session now st db sid :
  keyed st →
  find_key now (_session_key sid) (install now st db) =
    if decide (sid = Session.session_id st)
    then Some (Entry (RJson st) (Some (session_deadline now)))
    else find_key now (_session_key sid) db.
Proof.
  intros [[ta Ha] [tr Hr]]. unfold install. rewrite Ha, Hr.
  rewrite !find_key_insert_ne by key_ne.
  destruct (decide (sid = Session.session_id st)) as [->|Hne].
  - rewrite find_key_insert, not_expired; [done|]. apply deadline_later, session_ttl_positive.
  - rewrite find_key_insert_ne; [done|]. by intros E%session_key_inj.
Qed.

Lemma install_set now st db x :
  keyed st →
  find_key now (_user_sessions_key x) (install now st db) =
    if decide (x = Session.user_id st)
    then Some (Entry (RSet ({[Session.session_id st]} ∪ members now (_user_sessions_key x) db))
                 (Some (session_deadline now)))
    else find_key now (_user_sessions_key x) db.
Proof.
  intros [[ta Ha] [tr Hr]]. unfold install. rewrite Ha, Hr.
  destruct (decide (x = Session.user_id st)) as [->|Hne].
  - rewrite find_key_insert, not_expired; [done|]. apply deadline_later, session_ttl_positive.
  - rewrite find_key_insert_ne by (by intros E%user_key_inj).
    by rewrite !find_key_insert_ne by key_ne.
Qed.

(** A pointer after the installation: one of the two new ones, or an old one. *)
Lemma install_pointer now st db kind x :
  kind ∈ ["access"; "refresh"; "used-refresh"] →
  (∃ e, find_key now (_token_key kind x) (install now st db) = Some e ∧
     value e = RText (Session.session_id st) ∧
     (_token_key kind x = Session.access_key st ∨ _token_key kind x = Session.refresh_key st)) ∨
  find_key now (_token_key kind x) (install now st db) = find_key now (_token_key kind x) db.
Proof.
  intros Hk. unfold install.
  rewrite (find_key_insert_ne now (_user_sessions_key _)).
  2:{ repeat (apply elem_of_cons in Hk as [->|Hk]; [key_ne|]). by apply elem_of_nil in Hk. }
  destruct (decide (_token_key kind x = Session.refresh_key st)) as [E|Hne].
  { left. rewrite E, find_key_insert, not_expired; [eauto|].
    apply deadline_later, session_ttl_positive. }
  rewrite find_key_insert_ne by done.
  destruct (decide (_token_key kind x = Session.access_key st)) as [E|Hne'].
  { left. rewrite E, find_key_insert, not_expired; [eauto|].
    apply deadline_later, access_ttl_positive. }
  rewrite find_key_insert_ne by done. right. apply find_key_insert_ne.
  repeat (apply elem_of_cons in Hk as [->|Hk]; [key_ne|]). by apply elem_of_nil in Hk.
Qed.

(** Installing a well-formed session whose tokens were drawn after [b]. *)
Record installs (b s s' : Auth) st : Prop := {
  is_clock : Auth.clock s' = Auth.clock s;
  is_draws : (Auth.draws s ≤ Auth.draws s')%N;
  is_versions : ∀ u, version_of s' u = version_of s u;
  is_redis : Auth.redis s' = install (Auth.clock s) st (Auth.redis s);
  is_access : ∃ t, drawn_token "access" (Auth.draws b) (Auth.draws s') t ∧
                   Session.access_key st = _token_key "access" t;
  is_refresh : ∃ t, drawn_token "refresh" (Auth.draws b) (Auth.draws s') t ∧
                    Session.refresh_key st = _token_key "refresh" t;
  is_user : ∃ u v, (u < 2 ^ 128)%N ∧ Session.user_id st = uuid_str u ∧
                   version_of s u = Some v ∧ Session.token_version st ≤ v;
  is_session :
    (∃ st0, session_at s (Session.session_id st) = Some st0 ∧ same_session st0 st) ∨
    drawn_session (Auth.draws b) (Auth.draws s') (Session.session_id st) ∧
    ∀ x ms t, found s (_user_sessions_key x) = Some (Entry (RSet ms) t) →
      Session.session_id st ∉ ms
}.

Lemma installs_keyed b s s' st : installs b s s' st → keyed st.
Proof.
  intros Hin. destruct (is_access _ _ _ _ Hin) as (ta & _ & Ha).
  destruct (is_refresh _ _ _ _ Hin) as (tr & _ & Hr). split; eauto.
Qed.

Lemma installs_ok b s s' st :
  auth_inv s → installs b s s' st → session_ok s' (Session.session_id st) st.
Proof.
  intros Hi Hin. destruct Hin as [Hc Hd Hv Hr (ta & Hta & Ha) (tr & Htr & Hre)
    (u & v & Hu & Hid & Hver & Hle) Hs].
  split; [done| | | |].
  - destruct Hs as [(st0 & Hst0 & Hsame)|[Hdrawn _]].
    + pose proof (inv_session_ok _ _ _ Hi Hst0) as [_ Hdr _ _ _].
      eapply drawn_session_widen; [..|exact Hdr]; lia.
    + eapply drawn_session_widen; [..|exact Hdrawn]; lia.
  - exists u, v. by rewrite Hv.
  - exists ta. split; [|done]. eapply drawn_widen; [..|exact Hta]; lia.
  - exists tr. split; [|done]. eapply drawn_widen; [..|exact Htr]; lia.
Qed.

Lemma installs_inv b s s' st : auth_inv s → installs b s s' st → auth_inv s'.
Proof.
  intros Hi Hin. pose proof (installs_keyed _ _ _ _ Hin) as Hkey.
  pose proof (installs_ok _ _ _ _ Hi Hin) as Hok. destruct Hin as [Hc Hd Hv Hr _ _ _ Hold].
  assert (Hat : ∀ sid, session_at s' sid =
    if decide (sid = Session.session_id st) then Some st else session_at s sid).
  { intros sid. unfold session_at, found. rewrite Hc, Hr, install_session by done. by case_decide. }
  assert (Hlate : ∀ u v, version_of s u = Some v → ∃ v', version_of s' u = Some v' ∧ v ≤ v').
  { intros u v Hu. exists v. by rewrite Hv. }
  assert (Hdl : Auth.clock s < session_deadline (Auth.clock s))
    by apply deadline_later, session_ttl_positive.
  split.
  - intros sid e. unfold found. rewrite Hc, Hr, install_session by done.
    destruct (decide (sid = Session.session_id st)) as [->|Hne].
    + intros [= <-]. exists st. split; [done|]. split; [done|].
      eexists _, _, _. split_and!; [done|..].
      * rewrite Hc. unfold session_deadline. done.
      * unfold found. by rewrite Hc, Hr, install_set, decide_True by done.
      * set_solver.
      * done.
    + intros Hf. destruct (inv_sessions s Hi sid e Hf) as (st' & Hval & Hok' & x & ms & t & Hx & Hxt & Hset & Hin & Hle).
      exists st'. split; [done|]. split; [by eapply session_ok_later|].
      destruct (decide (Session.user_id st' = Session.user_id st)) as [E|E].
      * exists x, ({[Session.session_id st]} ∪ ms), (session_deadline (Auth.clock s)).
        unfold found in *. rewrite Hc, Hr, install_set, decide_True by done. unfold members.
        rewrite Hset. split_and!; try done. set_solver.
      * exists x, ms, t. unfold found in *. rewrite Hc, Hr, install_set, decide_False by done. done.
  - intros x e. unfold found. rewrite Hc, Hr, install_set by done.
    destruct (decide (x = Session.user_id st)) as [->|Hx].
    + intros [= <-]. eexists. split; [done|]. intros sid [->%elem_of_singleton|Hin]%elem_of_union.
      { split; [apply Hok|]. rewrite Hat, decide_True by done. by intros ? [= <-]. }
      unfold members in Hin. destruct (find_key _ _ _) as [[[] t]|] eqn:E; try set_solver.
      destruct (inv_sets s Hi _ _ E) as (ms & [= <-] & Hset). destruct (Hset sid Hin) as [Hdr Hown].
      split; [by eapply drawn_session_widen; [..|exact Hdr]|].
      intros st'. rewrite Hat. case_decide; [by intros [= <-]|]. apply Hown.
    + intros Hf. destruct (inv_sets s Hi x e Hf) as (ms & Hval & Hset). exists ms. split; [done|].
      destruct e as [v t]. simpl in Hval. subst v. intros sid Hin.
      destruct (Hset sid Hin) as [Hdr Hown].
      split; [by eapply drawn_session_widen; [..|exact Hdr]|].
      intros st'. rewrite Hat. case_decide as E; [|apply Hown]. intros [= <-]. subst sid.
      destruct Hold as [(st0 & Hst0 & Hsame)|[_ Hno]]; [|by destruct (Hno x ms t)].
      destruct Hsame as (_ & -> & _). by apply Hown.
  - intros kind x e Hk. unfold found. rewrite Hc, Hr.
    destruct (install_pointer (Auth.clock s) st (Auth.redis s) kind x Hk) as [(e' & -> & ? & _)| ->].
    + intros [= <-]. eauto.
    + by apply inv_pointers.
  - intros u v. rewrite Hv. by apply inv_ids.
Qed.

Lemma installs_evolves b s s' st :
  evolves b s → auth_inv s → installs b s s' st → evolves b s'.
Proof.
  intros Hev Hi Hin. pose proof (installs_keyed _ _ _ _ Hin) as Hkey.
  pose proof (λ x, spent_stays _ _ x Hev) as Hsp. destruct Hin as [Hc Hd Hv Hr (ta & Hta & Ha) (tr & Htr & Hre) _ Hs].
  destruct Hev as [ec ed ev es ep eu]. split.
  - lia.
  - lia.
  - intros u v Hu. rewrite Hv. by apply ev.
  - intros sid st'. unfold session_at, found. rewrite Hc, Hr, install_session by done.
    destruct (decide (sid = Session.session_id st)) as [->|Hne].
    + intros [= <-]. destruct Hs as [(st0 & Hst0 & Hsame)|[Hdrawn _]]; [|by right].
      destruct (es _ _ Hst0) as [(stb & Hb & Hbs)|Hdr].
      * left. exists stb. split; [done|]. unfold same_session in *. intuition congruence.
      * right. eapply drawn_session_widen; [..|exact Hdr]; lia.
    + intros Hst. destruct (es sid st' Hst) as [?|Hdr]; [by left|].
      right. eapply drawn_session_widen; [..|exact Hdr]; lia.
  - intros kind x Hk. unfold found. rewrite Hc, Hr.
    destruct (install_pointer (Auth.clock s) st (Auth.redis s) kind x) as [(e' & -> & _ & Heq)| ->].
    + set_solver.
    + intros _. right. rewrite Ha, Hre in Heq.
      apply elem_of_cons in Hk as [->|Hk]; [|apply elem_of_cons in Hk as [->|Hk]].
      * destruct Heq as [E|E]; [by exists ta|]. revert E. key_ne.
      * destruct Heq as [E|E]; [revert E; key_ne|]. by exists tr.
      * by apply elem_of_nil in Hk.
    + intros Hx. destruct (ep kind x Hk Hx) as [?|(t & Hdr & E)]; [by left|].
      right. exists t. split; [|done]. eapply drawn_widen; [..|exact Hdr]; lia.
  - intros x e Hx He. rewrite Hr. unfold install. rewrite Ha, Hre.
    rewrite !lookup_insert_ne by key_ne. by apply eu.
Qed.
End install.

(** ** Pointers that go, sessions that go *)
Section removal.
Context `{AuthEnv} `{!AuthLaws}.
Implicit Types (s : Auth) (sid k : string) (st : SessionState).

(** Pointers are removed, or a used token is recorded. *)
Record repoints s s' : Prop := {
  rp_clock : Auth.clock s' = Auth.clock s;
  rp_draws : (Auth.draws s ≤ Auth.draws s')%N;
  rp_versions : ∀ u, version_of s' u = version_of s u;
  rp_sessions : ∀ sid, found s' (_session_key sid) = found s (_session_key sid);
  rp_sets : ∀ x, found s' (_user_sessions_key x) = found s (_user_sessions_key x);
  rp_pointers : ∀ kind x e, kind ∈ ["access"; "refresh"; "used-refresh"] →
    found s' (_token_key kind x) = Some e →
    found s (_token_key kind x) = Some e ∨ kind = "used-refresh" ∧ ∃ t, value e = RText t;
  rp_used : ∀ x e, spent s x → Auth.redis s !! _token_key "used-refresh" x = Some e →
    Auth.redis s' !! _token_key "used-refresh" x = Some e
}.

Lemma repoints_advances s s' : repoints s s' → advances s s'.
Proof.
  intros [Hc Hd Hv Hs Hu Hp Hused] Hi.
  assert (Hlate : ∀ u v, version_of s u = Some v → ∃ v', version_of s' u = Some v' ∧ v ≤ v').
  { intros u v Hx. exists v. by rewrite Hv. }
  split; split.
  - intros sid e Hf. rewrite Hs in Hf.
    destruct (inv_sessions s Hi sid e Hf) as (st & ? & Hok & x & ms & t & ? & ? & ? & ? & ?).
    exists st. split; [done|]. split; [by eapply session_ok_later|].
    exists x, ms, t. by rewrite Hc, Hu.
  - intros x e Hf. rewrite Hu in Hf. destruct (inv_sets s Hi x e Hf) as (ms & ? & Hok).
    exists ms. split; [done|]. eapply set_ok_later; [done| |done].
    intros sid st _. unfold session_at. by rewrite Hs.
  - intros kind x e Hk Hf. destruct (Hp kind x e Hk Hf) as [?|[_ ?]]; [by eapply inv_pointers|done].
  - intros u v. rewrite Hv. by apply inv_ids.
  - lia.
  - done.
  - done.
  - intros sid st'. unfold session_at. rewrite Hs. intros. left. exists st'. by split; [|repeat split].
  - intros kind x Hk [e He]. left. destruct (Hp kind x e) as [?|[-> _]]; [set_solver|done|eauto|].
    exfalso. set_solver.
  - done.
Qed.

(** A session is removed, and nothing of the others. *)
Record drops s s' sid : Prop := {
  dr_clock : Auth.clock s' = Auth.clock s;
  dr_draws : (Auth.draws s ≤ Auth.draws s')%N;
  dr_versions : ∀ u, version_of s' u = version_of s u;
  dr_sessions : ∀ x, found s' (_session_key x) =
                     if decide (x = sid) then None else found s (_session_key x);
  dr_sets : ∀ x, found s' (_user_sessions_key x) = found s (_user_sessions_key x) ∨
    ∃ ms t, found s (_user_sessions_key x) = Some (Entry (RSet ms) t) ∧
      found s' (_user_sessions_key x) =
        if decide (ms ∖ {[sid]} = ∅) then None else Some (Entry (RSet (ms ∖ {[sid]})) t);
  dr_pointers : ∀ kind x e, kind ∈ ["access"; "refresh"; "used-refresh"] →
    found s' (_token_key kind x) = Some e → found s (_token_key kind x) = Some e;
  dr_used : ∀ x, Auth.redis s' !! _token_key "used-refresh" x =
                 Auth.redis s !! _token_key "used-refresh" x;
  dr_others : ∀ k, ¬ store_key k → Auth.redis s' !! k = Auth.redis s !! k
}.

Lemma drops_session_at s s' sid x :
  drops s s' sid → session_at s' x = if decide (x = sid) then None else session_at s x.
Proof. intros [_ _ _ Hs _ _ _ _]. unfold session_at. rewrite Hs. by case_decide. Qed.

Lemma drops_advances s s' sid : drops s s' sid → advances s s'.
Proof.
  intros Hdrop Hi. pose proof (λ x, drops_session_at _ _ _ x Hdrop) as Hat.
  assert (Hless : ∀ x st, session_at s' x = Some st → session_at s x = Some st).
  { intros x st. rewrite Hat. by case_decide. }
  destruct Hdrop as [Hc Hd Hv Hs Hu Hp Hused _].
  assert (Hlate : ∀ u v, version_of s u = Some v → ∃ v', version_of s' u = Some v' ∧ v ≤ v').
  { intros u v Hx. exists v. by rewrite Hv. }
  split; split.
  - intros x e Hf. rewrite Hs in Hf. destruct (decide (x = sid)) as [->|Hne]; [done|].
    destruct (inv_sessions s Hi x e Hf) as (st & ? & Hok & y & ms & t & ? & ? & Hset & Hin & ?).
    exists st. split; [done|]. split; [by eapply session_ok_later|].
    destruct (Hu (Session.user_id st)) as [E|(ms' & t' & E & E')].
    + exists y, ms, t. by rewrite Hc, E.
    + rewrite Hset in E. injection E as <- <-. exists y, (ms ∖ {[sid]}), t. rewrite Hc, E'.
      rewrite decide_False by set_solver. split_and!; try done. set_solver.
  - intros x e Hf. destruct (Hu x) as [E|(ms & t & E & E')].
    + rewrite E in Hf. destruct (inv_sets s Hi x e Hf) as (ms & ? & Hok).
      exists ms. split; [done|]. eapply set_ok_later; [done|by intros; apply Hless|done].
    + rewrite E' in Hf. case_decide; [done|]. injection Hf as <-. eexists. split; [done|].
      destruct (inv_sets s Hi x _ E) as (ms' & [= <-] & Hok).
      eapply set_ok_later; [done|by intros; apply Hless|].
      intros y Hy. apply Hok. set_solver.
  - intros kind x e Hk Hf. by eapply inv_pointers, Hp.
  - intros u v. rewrite Hv. by apply inv_ids.
  - lia.
  - done.
  - done.
  - intros x st'. unfold session_at. rewrite Hs. case_decide; [done|].
    intros. left. exists st'. by split; [|repeat split].
  - intros kind x Hk [e He]. left. exists e. apply Hp; [set_solver|done].
  - intros x e _. by rewrite Hused.
Qed.

Lemma srem_run now k m (db : keyspace SessionState) :
  (∀ e, find_key now k db = Some e → ∃ ms, value e = RSet ms) →
  ∃ db', SREM now k m db = (Ok tt, db') ∧
    (∀ k', k' ≠ k → db' !! k' = db !! k') ∧
    (find_key now k db' = find_key now k db ∨
     ∃ ms t, find_key now k db = Some (Entry (RSet ms) t) ∧
       find_key now k db' =
         if decide (ms ∖ {[m]} = ∅) then None else Some (Entry (RSet (ms ∖ {[m]})) t)).
Proof.
  intros Hset. unfold SREM. destruct (find_key now k db) as [e|] eqn:E.
  - destruct (Hset e eq_refl) as (ms & Hv). destruct e as [v t]. simpl in Hv. subst v. cbv zeta.
    eexists. split; [done|]. split.
    + intros k' Hk. case_decide; [by apply lookup_delete_ne | by apply lookup_insert_ne].
    + right. exists ms, t. split; [done|]. case_decide; [apply find_key_delete|].
      rewrite find_key_insert. apply find_key_some in E as [_ Hx]. unfold expired in *.
      simpl in *. by rewrite Hx.
  - exists db. split; [done|]. split; [done|]. left. by rewrite E.
Qed.

Lemma revoke_forgets s sid st :
  auth_inv s → session_ok s sid st →
  ∃ db, _revoke_state st s = (Ok tt, s <| Auth.redis := db |>) ∧
        drops s (s <| Auth.redis := db |>) sid ∧ db !! Session.access_key st = None.
Proof.
  intros Hi [Hid _ (u & v & Hu & Huid & _) (ta & _ & Ha) (tr & _ & Hr)].
  set (db1 := delete (Session.access_key st) (delete (Session.refresh_key st)
                (delete (_session_key sid) (Auth.redis s)))).
  set (uk := _user_sessions_key (uuid_str u)). set (now := Auth.clock s).
  assert (Hother : ∀ k, k ≠ Session.access_key st → k ≠ Session.refresh_key st →
    k ≠ _session_key sid → find_key now k db1 = find_key now k (Auth.redis s)).
  { intros k H1 H2 H3. unfold db1. by rewrite !find_key_delete_ne. }
  assert (Huk : ∀ x, find_key now (_user_sessions_key x) db1 =
                     find_key now (_user_sessions_key x) (Auth.redis s)).
  { intros x. apply Hother; rewrite ?Ha, ?Hr; key_ne. }
  destruct (srem_run now uk sid db1) as (db & Hrun & Hphys & Hk).
  { intros e. unfold uk. rewrite Huk. apply (inv_set_typed s Hi). }
  assert (Hne : ∀ k, k ≠ uk → find_key now k db = find_key now k db1).
  { intros k Hne. by apply find_key_same, Hphys. }
  exists db. split.
  - unfold _revoke_state. rewrite Hid, Huid.
    erewrite bind_step_ok; [|apply redis_run; reflexivity].
    erewrite bind_step_ok; [|unfold lift; by rewrite user_sets_uuid].
    cbn [for_each]. erewrite bind_step_ok; [|apply redis_run; exact Hrun]. done.
  - split; [|rewrite Hphys by (rewrite Ha; key_ne); unfold db1; apply lookup_delete_eq].
    split; simpl; try done.
    + intros x. unfold found. simpl. fold now. rewrite Hne by key_ne.
      destruct (decide (x = sid)) as [->|Hx].
      * unfold db1. rewrite !find_key_delete_ne by (rewrite ?Ha, ?Hr; key_ne).
        apply find_key_delete.
      * apply Hother; rewrite ?Ha, ?Hr; try key_ne. by intros E%session_key_inj.
    + intros x. unfold found. simpl. fold now. destruct (decide (x = uuid_str u)) as [->|Hx].
      * specialize (Huk (uuid_str u)). fold uk in Huk |- *. rewrite <- Huk. exact Hk.
      * left. rewrite Hne by (by intros E%user_key_inj). apply Huk.
    + intros kind x e Hkind. unfold found. simpl. fold now. rewrite Hne.
      2:{ repeat (apply elem_of_cons in Hkind as [->|Hkind]; [key_ne|]). by apply elem_of_nil in Hkind. }
      unfold db1. rewrite !find_key_some, !lookup_delete_Some. naive_solver.
    + intros x. rewrite Hphys by key_ne. unfold db1.
      by rewrite !lookup_delete_ne by (rewrite ?Ha, ?Hr; key_ne).
    + intros k Hns. assert (Hne' : ∀ k', store_key k' → k' ≠ k) by (by intros k' Hk' ->).
      rewrite Hphys by (apply not_eq_sym, Hne'; constructor). unfold db1. rewrite Ha, Hr.
      by rewrite !lookup_delete_ne by (apply Hne'; constructor; set_solver).
Qed.
Lemma revoke_run s sid st :
  auth_inv s → session_ok s sid st →
  ∃ db, _revoke_state st s = (Ok tt, s <| Auth.redis := db |>) ∧
        drops s (s <| Auth.redis := db |>) sid.
Proof. intros Hi Hok. destruct (revoke_forgets s sid st Hi Hok) as (db & ? & ? & _). by exists db. Qed.
End removal.

(** ** Opening a session *)
Section opening.
Context `{AuthEnv} `{!AuthLaws}.
Implicit Types (s : Auth) (sid k : string) (st : SessionState).

Lemma SET_run {V} now k (v : rvalue V) ttl db :
  0 < ttl → SET now k v ttl db = (Ok tt, <[k := Entry v (Some (deadline now ttl))]> db).
Proof. intros Ht. unfold SET. by destruct (Z.leb_spec ttl 0); [lia|]. Qed.

Lemma sadd_then_expire now k m ttl (db : keyspace SessionState) :
  0 < ttl → (∀ e, find_key now k db = Some e → ∃ ms, value e = RSet ms) →
  ∃ db1, SADD now k m db = (Ok tt, db1) ∧ EXPIRE now k ttl db1 =
    (Ok tt, <[k := Entry (RSet ({[m]} ∪ members now k db)) (Some (deadline now ttl))]> db).
Proof.
  intros Ht Hset. pose proof (sadd_expire now k m ttl db Ht Hset) as E.
  apply bind_ok in E as ([] & db1 & ? & ?). by exists db1.
Qed.

Lemma members_same now k (db db' : keyspace SessionState) :
  find_key now k db = find_key now k db' → members now k db = members now k db'.
Proof. unfold members. by intros ->. Qed.

(** The session the next two draws give. *)
Definition next_session s sid u subject version : SessionState :=
  Session.make sid (uuid_str u) subject version
    (_token_key "access" ("access_" +:+ token_of (Auth.draws s) 32))
    (_token_key "refresh" ("refresh_" +:+ token_of (N.succ (Auth.draws s)) 32)).

Lemma store_session_run s sid u subject version :
  auth_inv s →
  _store_session sid u subject version s =
    (Ok (mkLoginResponse ("access_" +:+ token_of (Auth.draws s) 32)
           ("refresh_" +:+ token_of (N.succ (Auth.draws s)) 32) sid),
     s <| Auth.draws := N.succ (N.succ (Auth.draws s)) |>
       <| Auth.redis := install (Auth.clock s) (next_session s sid u subject version)
                          (Auth.redis s) |>).
Proof.
  intros Hi. unfold _store_session.
  erewrite bind_step_ok by reflexivity. erewrite bind_step_ok by reflexivity. cbv zeta.
  erewrite bind_step_ok; [|apply redis_run, SET_run, session_ttl_positive].
  erewrite bind_step_ok; [|apply redis_run, SET_run, access_ttl_positive].
  erewrite bind_step_ok; [|apply redis_run, SET_run, session_ttl_positive]. cbn [Auth.clock Auth.redis set_field].
  edestruct (sadd_then_expire (Auth.clock s) (_user_sessions_key (uuid_str u)) sid
    (AUTH_SESSION_TTL_SECONDS settings)) as (db1 & H1 & H2); [apply session_ttl_positive| |].
  2:{ erewrite bind_step_ok; [|apply redis_run; exact H1].
      erewrite bind_step_ok; [|apply redis_run; exact H2].
      unfold mret, M_ret, install, next_session. cbn. f_equal. unfold session_deadline.
      erewrite members_same; [reflexivity|]. by rewrite !find_key_insert_ne by key_ne. }
  intros e. cbn. rewrite !find_key_insert_ne by key_ne. apply (inv_set_typed s Hi).
Qed.

Lemma ent_user (r : User.UserEntity) : ent_id r = User.id r.
Proof. done. Qed.

Lemma create_session_advances u : preserves advances (_create_session u).
Proof.
  intros s Hi. unfold _create_session, deref, mbind, M_bind.
  destruct (find_row u (live (get_table s))) as [user|] eqn:E; [|split; [done|apply evolves_refl]].
  set (n := Auth.draws s).
  set (s1 := s <| Auth.draws := N.succ n |>).
  assert (Hadv : advances s s1).
  { apply quiet_advances, same_quiet; try done. simpl. lia. }
  destruct (Hadv Hi) as [Hi1 Hev].
  change (token_urlsafe 18 s) with (Ok (token_of n 18), s1). cbv iota beta.
  rewrite (store_session_run s1 _ _ _ _ Hi1). cbn [snd].
  assert (Huid : User.id user = u) by (apply find_row_some in E as [_ <-]; done).
  assert (Hver : version_of s1 u = Some (User.token_version user)).
  { unfold version_of, user_rows. simpl. simpl in E. by rewrite E. }
  match goal with |- auth_inv ?s2 ∧ _ =>
    assert (Hin : installs s s1 s2 (next_session s1 (token_of n 18) (User.id user)
      (User.email user) (User.token_version user))) end.
  { split; try done.
    - simpl. lia.
    - eexists. split; [|reflexivity]. eexists. split; [|reflexivity]. simpl. lia.
    - eexists. split; [|reflexivity]. eexists. split; [|reflexivity]. simpl. lia.
    - rewrite Huid. exists u, (User.token_version user). split_and!; try done.
      by eapply (inv_ids s1).
    - right. split; [exists n; split; [simpl; lia|done]|]. intros x ms t Hf Hin.
      change (found s (_user_sessions_key x) = Some (Entry (RSet ms) t)) in Hf.
      destruct (inv_sets s Hi x _ Hf) as (ms' & [= <-] & Hset).
      destruct (Hset _ Hin) as [(m & Hm & E') _]. apply token_of_inj in E'. lia. }
  split; [by eapply installs_inv | by eapply installs_evolves].
Qed.

(** ** Rotating the tokens of a session *)

(** [st] was read earlier, and the session may have moved on. *)
Definition read_before s st : Prop :=
  ∃ s0, auth_inv s0 ∧ evolves s0 s ∧ session_at s0 (Session.session_id st) = Some st.

Lemma read_before_same s st current :
  read_before s st → session_at s (Session.session_id st) = Some current → same_session st current.
Proof.
  intros (s0 & Hi0 & Hev & Hst0) Hc.
  destruct (ev_sessions _ _ Hev _ _ Hc) as [(st0 & Hst0' & Hsame)|(n & Hn & E)].
  - rewrite Hst0 in Hst0'. by injection Hst0' as <-.
  - exfalso. destruct (so_drawn _ _ _ (inv_session_ok _ _ _ Hi0 Hst0)) as (m & Hm & E').
    rewrite E' in E. apply token_of_inj in E. lia.
Qed.

Definition next_state s st : SessionState :=
  st <| Session.access_key := _token_key "access" ("access_" +:+ token_of (Auth.draws s) 32) |>
     <| Session.refresh_key :=
          _token_key "refresh" ("refresh_" +:+ token_of (N.succ (Auth.draws s)) 32) |>.

(** The conditions of the script. *)
Definition rotates s st : Prop :=
  pointed s (Session.refresh_key st) = Some (Session.session_id st) ∧
  ∃ current, session_at s (Session.session_id st) = Some current ∧
    Session.refresh_key current = Session.refresh_key st.

Definition rotated_store s token st (current : SessionState) : keyspace SessionState :=
  let now := Auth.clock s in
  install now (next_state s st)
    (<[_token_key "used-refresh" token :=
         Entry (RText (Session.session_id st)) (Some (session_deadline now))]>
      (delete (Session.access_key current) (delete (Session.refresh_key st) (Auth.redis s)))).

Lemma read_before_keys s st :
  read_before s st →
  ∃ u, (u < 2 ^ 128)%N ∧ Session.user_id st = uuid_str u ∧
    (∃ tr, Session.refresh_key st = _token_key "refresh" tr) ∧
    ∃ v, version_of s u = Some v ∧ Session.token_version st ≤ v.
Proof.
  intros (s0 & Hi0 & Hev & Hst0).
  destruct (inv_session_ok _ _ _ Hi0 Hst0) as [_ _ (u & v & Hu & Hid & Hv & Hle) _ (tr & _ & Hr)].
  destruct (ev_versions _ _ Hev u v Hv) as (v' & Hv' & ?).
  exists u. split_and!; try done; [by exists tr|]. exists v'. split; [done|lia].
Qed.

Lemma pointed_GET s k sid :
  pointed s k = Some sid → GET (Auth.clock s) k (Auth.redis s) = (Ok (Some (RText sid)), Auth.redis s).
Proof.
  unfold pointed, found, GET. destruct (find_key _ _ _) as [[[] ?]|]; try done. by intros [= ->].
Qed.

Lemma script_run s st token u current :
  auth_inv s → (u < 2 ^ 128)%N → Session.user_id st = uuid_str u →
  (∃ tr, Session.refresh_key st = _token_key "refresh" tr) →
  pointed s (Session.refresh_key st) = Some (Session.session_id st) →
  session_at s (Session.session_id st) = Some current →
  let next := next_state s st in
  let script now := _ROTATE_REFRESH_SCRIPT (Session.refresh_key st)
    (_session_key (Session.session_id st)) (Session.access_key next)
    (Session.refresh_key next) (_token_key "used-refresh" token)
    (_user_sessions_key (uuid_str u)) (Session.session_id st) next
    (AUTH_SESSION_TTL_SECONDS settings) (AUTH_ACCESS_TTL_SECONDS settings) now in
  script (Auth.clock s) (Auth.redis s) =
    if String.eqb (Session.refresh_key current) (Session.refresh_key st)
    then (Ok 1, rotated_store s token st current) else (Ok 0, Auth.redis s).
Proof.
  intros Hi Hu Huid [tr Hr] Hp Hcur next script.
  destruct (inv_session_ok _ _ _ Hi Hcur) as [_ _ _ (ta & _ & Hca) _].
  unfold script, _ROTATE_REFRESH_SCRIPT.
  erewrite bind_step_ok by (apply pointed_GET; exact Hp).
  rewrite bool_decide_true by done.
  cbn [negb].
  apply session_at_some in Hcur as (x & Hf). unfold found in Hf.
  erewrite (bind_step_ok (GET _ _)) by (unfold GET; by rewrite Hf). cbn [value].
  destruct (String.eqb_spec (Session.refresh_key current) (Session.refresh_key st)); [|done].
  cbn [negb]. erewrite bind_step_ok by reflexivity.
  do 4 (erewrite bind_step_ok;
    [|apply SET_run; first [apply session_ttl_positive | apply access_ttl_positive]]).
  edestruct (sadd_then_expire (Auth.clock s) (_user_sessions_key (uuid_str u))
    (Session.session_id st) (AUTH_SESSION_TTL_SECONDS settings)) as (db1 & H1 & H2);
    [apply session_ttl_positive| |].
  2:{ erewrite bind_step_ok by exact H1. erewrite bind_step_ok by exact H2.
      unfold mret, M_ret, rotated_store, install. cbn [next_state Session.user_id
        Session.session_id Session.access_key Session.refresh_key set_field]. f_equal.
      rewrite Huid. subst next. unfold next_state. cbn.
      rewrite !(insert_insert_ne _ (_token_key "used-refresh" token)) by key_ne.
      erewrite members_same; [reflexivity|]. by rewrite !find_key_insert_ne by key_ne. }
  intros e' Hf'. revert Hf'. cbn. rewrite !find_key_insert_ne by key_ne. rewrite Hca, Hr.
  rewrite !find_key_delete_ne by key_ne. apply (inv_set_typed s Hi).
Qed.

Lemma script_refused s k1 k2 k3 k4 k5 k6 sid next ttl ttl' :
  auth_inv s → (∃ tr, k1 = _token_key "refresh" tr) → k2 = _session_key sid →
  pointed s k1 ≠ Some sid ∨ session_at s sid = None →
  _ROTATE_REFRESH_SCRIPT k1 k2 k3 k4 k5 k6 sid next ttl ttl' (Auth.clock s) (Auth.redis s)
    = (Ok 0, Auth.redis s).
Proof.
  intros Hi [tr ->] -> Hno. unfold _ROTATE_REFRESH_SCRIPT.
  destruct (pointed s (_token_key "refresh" tr)) as [sid'|] eqn:Hp.
  - erewrite bind_step_ok by (apply pointed_GET; exact Hp).
    destruct (decide (sid' = sid)) as [->|Hne].
    2:{ rewrite bool_decide_false; [done|]. simpl. congruence. }
    rewrite bool_decide_true by done. cbn [negb]. destruct Hno as [?|Hs]; [done|].
    unfold session_at, found in Hs. destruct (find_key _ (_session_key sid) _) as [e|] eqn:E.
    + destruct (inv_sessions s Hi sid e E) as (st & Hv & _). destruct e; simpl in Hv. by subst.
    + erewrite bind_step_ok by (unfold GET; by rewrite E). done.
  - unfold pointed, found in Hp.
    destruct (find_key _ (_token_key "refresh" tr) _) as [e|] eqn:E.
    + destruct (inv_pointers s Hi "refresh" tr e) as (t & Hv); [set_solver|done|].
      destruct e; simpl in Hv. by subst.
    + erewrite bind_step_ok by (unfold GET; by rewrite E). done.
Qed.

Definition after_two_draws s : Auth := s <| Auth.draws := N.succ (N.succ (Auth.draws s)) |>.

(** The answer of a rotation. *)
Definition rotation_answer s st : LoginResponse :=
  mkLoginResponse ("access_" +:+ token_of (Auth.draws s) 32)
    ("refresh_" +:+ token_of (N.succ (Auth.draws s)) 32) (Session.session_id st).

Lemma rotate_run s token st :
  auth_inv s → read_before s st →
  (¬ rotates s st ∧ rotate token st s = (Ok None, after_two_draws s)) ∨
  (∃ current, pointed s (Session.refresh_key st) = Some (Session.session_id st) ∧
    session_at s (Session.session_id st) = Some current ∧
    Session.refresh_key current = Session.refresh_key st ∧
    rotate token st s = (Ok (Some (rotation_answer s st)),
      after_two_draws s <| Auth.redis := rotated_store s token st current |>)).
Proof.
  intros Hi Hrb. destruct (read_before_keys _ _ Hrb) as (u & Hu & Hid & Hr & _).
  pose proof (script_run s st token u) as Hrun.
  pose proof (λ k3 k4 k5 k6 next t t', script_refused s _ _ k3 k4 k5 k6 (Session.session_id st)
    next t t' Hi Hr eq_refl) as Hno.
  unfold rotate. do 2 erewrite bind_step_ok by reflexivity. cbv zeta.
  erewrite bind_step_ok by (unfold lift; by rewrite Hid, user_identifier_uuid).
  destruct (decide (pointed s (Session.refresh_key st) = Some (Session.session_id st))) as [Hp|Hp].
  2:{ left. split; [by intros [? _]|].
      erewrite bind_step_ok; [|apply redis_run, Hno; by left]. by destruct s. }
  destruct (session_at s (Session.session_id st)) as [current|] eqn:Hc.
  2:{ left. split; [intros [_ (? & ? & _)]; congruence|].
      erewrite bind_step_ok; [|apply redis_run, Hno; by right]. by destruct s. }
  specialize (Hrun current Hi Hu Hid Hr Hp eq_refl). cbv zeta in Hrun.
  destruct (String.eqb_spec (Session.refresh_key current) (Session.refresh_key st)) as [E|E].
  - right. exists current. split_and!; try done.
    by erewrite bind_step_ok by (apply redis_run; exact Hrun).
  - left. split; [intros [_ (c & Hc' & ?)]; congruence|].
    erewrite bind_step_ok by (apply redis_run; exact Hrun). by destruct s.
Qed.
End opening.

(** ** The operations *)
Section operations.
Context `{AuthEnv} `{!AuthLaws}.
Implicit Types (s : Auth) (sid k : string) (st : SessionState).

Lemma quiet_preserves {A} (m : M Auth A) : preserves quiet m → preserves advances m.
Proof. intros Hm s. apply quiet_advances, Hm. Qed.

Lemma pointed_found s k sid : pointed s k = Some sid → is_Some (found s k).
Proof. unfold pointed. destruct (found s k); [by eexists|done]. Qed.

Lemma two_draws_quiet s : quiet s (after_two_draws s).
Proof. apply same_quiet; try done. simpl. lia. Qed.

(** What a rotation removes and records before it installs the new state. *)
Lemma rotation_repoints s token st current :
  Session.refresh_key st = _token_key "refresh" token →
  is_Some (found s (Session.refresh_key st)) →
  (∃ ta, Session.access_key current = _token_key "access" ta) →
  repoints s (s <| Auth.redis := <[_token_key "used-refresh" token :=
         Entry (RText (Session.session_id st)) (Some (session_deadline (Auth.clock s)))]>
      (delete (Session.access_key current) (delete (Session.refresh_key st) (Auth.redis s))) |>).
Proof.
  intros Er Hlive [ta Ea]. rewrite Er, Ea in *. split; try done.
  - intros sid. unfold found. simpl. by rewrite find_key_insert_ne, !find_key_delete_ne by key_ne.
  - intros x. unfold found. simpl. by rewrite find_key_insert_ne, !find_key_delete_ne by key_ne.
  - intros kind x e Hk. unfold found. simpl.
    destruct (decide (_token_key kind x = _token_key "used-refresh" token)) as [E|Hne].
    + rewrite E, find_key_insert, not_expired by apply deadline_later, session_ttl_positive.
      intros [= <-]. right. split; [|eauto].
      repeat (apply elem_of_cons in Hk as [->|Hk]; [try done; revert E; key_ne|]).
      by apply elem_of_nil in Hk.
    + rewrite find_key_insert_ne by done. rewrite !find_key_some, !lookup_delete_Some. naive_solver.
  - intros x e [_ Hx] He. simpl. rewrite lookup_insert_ne; [by rewrite !lookup_delete_ne by key_ne|].
    intros E%token_key_inj. subst x. rewrite Hx in Hlive. by destruct Hlive.
Qed.

Lemma repoints_session_at s s' sid : repoints s s' → session_at s' sid = session_at s sid.
Proof. intros Hr. unfold session_at. by rewrite (rp_sessions _ _ Hr). Qed.

Lemma rotate_advances s token st :
  Session.refresh_key st = _token_key "refresh" token →
  read_before s st → advances s (rotate token st s).2.
Proof.
  intros Er Hrb Hi. destruct (rotate_run s token st Hi Hrb) as [[_ ->]|(current & Hp & Hcur & Heq & ->)].
  { by apply quiet_advances; [apply two_draws_quiet|]. }
  destruct (read_before_keys _ _ Hrb) as (u & Hu & Hid & Hr & v & Hv & Hle).
  destruct (inv_session_ok _ _ _ Hi Hcur) as [_ _ _ (ta & _ & Ha) _].
  destruct (quiet_advances _ _ (two_draws_quiet s) Hi) as [Hi1 Hev1].
  set (s1 := after_two_draws s) in *.
  pose proof (rotation_repoints s1 token st current Er (pointed_found _ _ _ Hp) (ex_intro _ ta Ha)) as Hrp.
  match type of Hrp with repoints _ ?x => set (s2 := x) in * end.
  destruct (repoints_advances _ _ Hrp Hi1) as [Hi2 Hev2].
  assert (Hin : installs s s2 (s1 <| Auth.redis := rotated_store s token st current |>) (next_state s st)).
  { split; try done.
    - eexists. split; [|reflexivity]. eexists. split; [|reflexivity]. simpl. lia.
    - eexists. split; [|reflexivity]. eexists. split; [|reflexivity]. simpl. lia.
    - by exists u, v.
    - left. exists current. split.
      + rewrite (repoints_session_at _ _ _ Hrp). exact Hcur.
      + apply (read_before_same _ _ _ Hrb) in Hcur. unfold same_session in *. simpl. intuition congruence. }
  cbn [snd]. split.
  - eapply installs_inv; [exact Hi2|exact Hin].
  - eapply installs_evolves; [|exact Hi2|exact Hin]. by eapply evolves_trans.
Qed.

Lemma revoke_advances s sid st : session_ok s sid st → advances s (_revoke_state st s).2.
Proof.
  intros Hok Hi. destruct (revoke_run s sid st Hi Hok) as (db & -> & Hd).
  by eapply drops_advances.
Qed.

(** A read-only session leaves the state as it was. *)
Lemma read_session_same {A} (m : M Auth A) s r :
  m s = (r, s) → read_session m s = (r, s).
Proof. unfold read_session. intros ->. by destruct s. Qed.

(** Does this session belong to a user who is active with its version? *)
Definition active_user s st : bool :=
  match parse_uuid (Session.user_id st) with
  | Some u =>
      match get_row u (AuthTables.users (Auth.db s)) with
      | Some user => User.is_active user && Z.eqb (User.token_version user) (Session.token_version st)
      | None => false
      end
  | None => false
  end.

Lemma user_is_active_run s sid st :
  session_ok s sid st → _user_is_active st s = (Ok (active_user s st), s).
Proof.
  intros [_ _ (u & v & Hu & Huid & _) _ _]. unfold _user_is_active, active_user.
  rewrite Huid, parse_uuid_str by done.
  erewrite bind_step_ok by (unfold lift; by rewrite user_identifier_uuid).
  erewrite bind_step_ok by (apply read_session_same; reflexivity). simpl.
  by destruct (get_row u _).
Qed.

Lemma token_session_ok s kind token st :
  auth_inv s → token_session s kind token = Some st →
  session_ok s (Session.session_id st) st.
Proof. intros Hi Ht. by apply inv_session_ok, (token_session_at _ kind token). Qed.

Lemma revoke_session_advances sid : preserves advances (revoke_session sid).
Proof.
  intros s Hi. unfold revoke_session.
  erewrite bind_step_ok by (by apply load_state_run).
  destruct (nonempty sid); [|split; [done|apply evolves_refl]].
  destruct (session_at s sid) as [st|] eqn:Hs; [|split; [done|apply evolves_refl]].
  eapply revoke_advances; [|done]. by apply inv_session_ok.
Qed.

Lemma revoke_reused_advances token : preserves advances (revoke_reused token).
Proof.
  intros s Hi. unfold revoke_reused.
  erewrite bind_step_ok by (apply get_text_run; [done|set_solver]).
  destruct (pointed s _) as [sid|]; [|split; [done|apply evolves_refl]].
  cbn [opt_nonempty].
  destruct (nonempty sid) eqn:Hne; [|split; [done|apply evolves_refl]].
  unfold when. erewrite bind_step_ok by (by apply load_state_run). rewrite Hne.
  destruct (session_at s sid) as [st|] eqn:Hs; [|split; [done|apply evolves_refl]].
  eapply revoke_advances; [|done]. by apply inv_session_ok.
Qed.

Lemma read_before_now s st :
  auth_inv s → session_at s (Session.session_id st) = Some st → read_before s st.
Proof. intros Hi Hs. exists s. split_and!; [done|apply evolves_refl|done]. Qed.

Lemma refresh_advances token : preserves advances (refresh token).
Proof.
  intros s Hi. unfold refresh.
  erewrite bind_step_ok by (apply state_for_token_run; [done|set_solver]).
  destruct (token_session s "refresh" token) as [st|] eqn:Ht.
  - pose proof (token_session_ok _ _ _ _ Hi Ht) as Hok.
    erewrite bind_step_ok by (by eapply user_is_active_run).
    destruct (active_user s st); cbn [negb].
    + apply rotate_advances; [| |done].
      { apply token_session_some in Ht as (? & _ & _ & _ & Hk). by apply String.eqb_eq in Hk. }
      by apply read_before_now, (token_session_at _ "refresh" token).
    + rewrite then_ret_state. by eapply revoke_advances.
  - rewrite then_ret_state. by apply revoke_reused_advances.
Qed.

Lemma current_session_run s token :
  auth_inv s →
  current_session token s =
    (Ok (match token_session s "access" token with
         | Some st => if active_user s st
                      then Some (mkSessionRead (Session.session_id st) (Session.subject st))
                      else None
         | None => None
         end), s).
Proof.
  intros Hi. unfold current_session.
  erewrite bind_step_ok by (apply state_for_token_run; [done|set_solver]).
  destruct (token_session s "access" token) as [st|] eqn:Ht; [|done].
  pose proof (token_session_ok _ _ _ _ Hi Ht) as Hok.
  by erewrite bind_step_ok by (by eapply user_is_active_run).
Qed.

Lemma logout_advances token : preserves advances (logout token).
Proof.
  intros s Hi. unfold logout.
  erewrite bind_step_ok by (apply state_for_token_run; [done|set_solver]).
  destruct (token_session s "access" token) as [st|] eqn:Ht; [|split; [done|apply evolves_refl]].
  rewrite then_ret_state. eapply revoke_advances; [|done]. by eapply token_session_ok.
Qed.

(** ** Ending every session of a user *)

(** The sessions that are left. *)
Definition fewer (l : list string) s s' : Prop :=
  Auth.clock s' = Auth.clock s ∧ Auth.draws s' = Auth.draws s ∧ Auth.db s' = Auth.db s ∧
  ∀ x, session_at s' x = if decide (x ∈ l) then None else session_at s x.

Lemma no_empty_session s : auth_inv s → session_at s "" = None.
Proof.
  intros Hi. destruct (session_at s "") as [st|] eqn:E; [|done].
  destruct (so_drawn _ _ _ (inv_session_ok _ _ _ Hi E)) as (n & _ & Hn).
  pose proof (token_nonempty n 18) as Hne. by rewrite <- Hn in Hne.
Qed.

Lemma revoke_session_run s sid :
  auth_inv s →
  ∃ s', revoke_session sid s = (Ok tt, s') ∧ auth_inv s' ∧ evolves s s' ∧ fewer [sid] s s'.
Proof.
  intros Hi. unfold revoke_session.
  erewrite bind_step_ok by (by apply load_state_run).
  assert (Hone : session_at s sid = None → fewer [sid] s s).
  { intros E. split_and!; try done. intros x.
    destruct (decide (x ∈ [sid])) as [->%list_elem_of_singleton|]; done. }
  destruct (nonempty sid) eqn:Hne.
  2:{ exists s. split_and!; try done; [apply evolves_refl|]. apply Hone.
      unfold nonempty in Hne. apply negb_false_iff, String.eqb_eq in Hne. subst.
      by apply no_empty_session. }
  destruct (session_at s sid) as [st|] eqn:Hs.
  2:{ exists s. split_and!; try done; [apply evolves_refl|]. by apply Hone. }
  destruct (revoke_run s sid st Hi (inv_session_ok _ _ _ Hi Hs)) as (db & -> & Hd).
  destruct (drops_advances _ _ _ Hd Hi) as [Hi' Hev]. eexists. split; [done|].
  split; [done|]. split; [done|]. split_and!; try done. intros x.
  rewrite (drops_session_at _ _ _ x Hd).
  destruct (decide (x = sid)) as [->|Hx]; [by rewrite decide_True by set_solver|].
  by rewrite decide_False by set_solver.
Qed.

Lemma revoke_sessions_run l : ∀ s,
  auth_inv s →
  ∃ s', for_each revoke_session l s = (Ok tt, s') ∧ auth_inv s' ∧ evolves s s' ∧ fewer l s s'.
Proof.
  induction l as [|sid l IH]; intros s Hi.
  - exists s. split; [done|]. split; [done|]. split; [apply evolves_refl|].
    by split_and!.
  - destruct (revoke_session_run s sid Hi) as (s1 & E1 & Hi1 & Hev1 & Hc1 & Hd1 & Hb1 & Hf1).
    destruct (IH s1 Hi1) as (s2 & E2 & Hi2 & Hev2 & Hc2 & Hd2 & Hb2 & Hf2).
    exists s2. cbn [for_each]. erewrite bind_step_ok by exact E1.
    split; [done|]. split; [done|]. split; [by eapply evolves_trans|].
    split_and!; [congruence..|]. intros x. rewrite Hf2, Hf1.
    destruct (decide (x ∈ l)); [by rewrite decide_True by set_solver|].
    destruct (decide (x ∈ [sid])); [by rewrite decide_True by set_solver|].
    by rewrite decide_False by set_solver.
Qed.

(** Removing the set of a user without sessions. *)
Lemma delete_set_advances s x :
  (∀ sid st, session_at s sid = Some st → Session.user_id st ≠ x) →
  let s' := s <| Auth.redis := delete (_user_sessions_key x) (Auth.redis s) |> in
  advances s s' ∧ ∀ sid, session_at s' sid = session_at s sid.
Proof.
  intros Hnone s'.
  assert (Hk : ∀ k, k ≠ _user_sessions_key x → found s' k = found s k).
  { intros k Hne. unfold found, s'. simpl. by apply find_key_delete_ne. }
  assert (Hat : ∀ sid, session_at s' sid = session_at s sid).
  { intros sid. unfold session_at. by rewrite Hk by key_ne. }
  split; [|done]. intros Hi. split; split.
  - intros sid e. rewrite Hk by key_ne. intros Hf.
    destruct (inv_sessions s Hi sid e Hf) as (st & Hv & Hok & y & ms & t & ? & ? & Hset & ? & ?).
    exists st. split; [done|]. split.
    { apply (session_ok_later s); [done| |done]. intros u v Hu. exists v. split; [done|lia]. }
    exists y, ms, t. rewrite Hk; [done|]. intros E%user_key_inj.
    apply (Hnone sid st); [|done]. apply session_at_some. exists (expires e). destruct e; simpl in *.
    by subst.
  - intros y e. destruct (decide (y = x)) as [->|Hy].
    + unfold found, s'. simpl. by rewrite find_key_delete.
    + rewrite Hk by (by intros E%user_key_inj). intros Hf.
      destruct (inv_sets s Hi y e Hf) as (ms & ? & Hok). exists ms. split; [done|].
      apply (set_ok_later s); [done| |done]. intros sid st _. by rewrite Hat.
  - intros kind y e Hkind. rewrite Hk; [by apply inv_pointers|].
    repeat (apply elem_of_cons in Hkind as [->|Hkind]; [key_ne|]). by apply elem_of_nil in Hkind.
  - apply (inv_ids s Hi).
  - simpl. lia.
  - simpl. lia.
  - intros u v Hu. exists v. split; [done|lia].
  - intros sid st. rewrite Hat. intros. left. exists st. by split; [|repeat split].
  - intros kind y Hkind. rewrite Hk; [by left|].
    repeat (apply elem_of_cons in Hkind as [->|Hkind]; [key_ne|]). by apply elem_of_nil in Hkind.
  - intros y e _ He. simpl. by rewrite lookup_delete_ne by key_ne.
Qed.

Lemma listed_in_set s sid st :
  auth_inv s → session_at s sid = Some st →
  sid ∈ members (Auth.clock s) (_user_sessions_key (Session.user_id st)) (Auth.redis s).
Proof.
  intros Hi (t & Hf)%session_at_some.
  destruct (inv_sessions s Hi sid _ Hf) as (st' & [= <-] & _ & x & ms & t' & _ & _ & Hset & Hin & _).
  unfold members. unfold found in Hset. by rewrite Hset.
Qed.

Lemma SMEMBERS_run s x :
  auth_inv s →
  SMEMBERS (Auth.clock s) (_user_sessions_key x) (Auth.redis s)
    = (Ok (members (Auth.clock s) (_user_sessions_key x) (Auth.redis s)), Auth.redis s).
Proof.
  intros Hi. unfold SMEMBERS, members. destruct (find_key _ _ _) as [e|] eqn:E; [|done].
  destruct (inv_set_typed s Hi x e E) as (ms & Hv). destruct e; simpl in Hv. by subst.
Qed.

Lemma logout_all_run s token st :
  auth_inv s → token_session s "access" token = Some st →
  ∃ s', logout_all token s = (Ok true, s') ∧ auth_inv s' ∧ evolves s s' ∧ Auth.db s' = Auth.db s ∧
    ∀ x, session_at s' x =
      match session_at s x with
      | Some st' => if decide (Session.user_id st' = Session.user_id st) then None else Some st'
      | None => None
      end.
Proof.
  intros Hi Ht. pose proof (token_session_ok _ _ _ _ Hi Ht) as Hok.
  destruct (so_user _ _ _ Hok) as (u & v & Hu & Huid & _).
  set (ms := members (Auth.clock s) (_user_sessions_key (Session.user_id st)) (Auth.redis s)).
  destruct (revoke_sessions_run (elements ms) s Hi) as (s1 & E1 & Hi1 & Hev1 & Hc1 & Hd1 & Hb1 & Hf1).
  assert (Hat : ∀ x, session_at s1 x =
      match session_at s x with
      | Some st' => if decide (Session.user_id st' = Session.user_id st) then None else Some st'
      | None => None
      end).
  { intros x. rewrite Hf1. destruct (session_at s x) as [st'|] eqn:Hx; [|by case_decide].
    destruct (decide (x ∈ elements ms)) as [Hin%elem_of_elements|Hnin].
    - unfold ms, members in Hin.
      destruct (find_key _ _ _) as [[[] t]|] eqn:E; try set_solver.
      destruct (inv_sets s Hi _ _ E) as (ms' & [= <-] & Hset).
      destruct (Hset x Hin) as [_ Hown]. by rewrite decide_True by (by apply Hown).
    - rewrite decide_False; [done|]. intros Hsame. destruct Hnin. apply elem_of_elements.
      unfold ms. rewrite <- Hsame. by apply listed_in_set. }
  destruct (delete_set_advances s1 (Session.user_id st)) as [Hadv Hsame].
  { intros sid st'. rewrite Hat. destruct (session_at s sid); [|done]. case_decide; [done|].
    by intros [= <-]. }
  destruct (Hadv Hi1) as [Hi2 Hev2]. eexists. split.
  { unfold logout_all.
    erewrite bind_step_ok by (apply state_for_token_run; [done|set_solver]). rewrite Ht.
    erewrite bind_step_ok by (unfold lift; rewrite Huid; by rewrite user_sets_uuid).
    erewrite bind_step_ok.
    2:{ cbn [mapM]. erewrite bind_step_ok; [|apply redis_read, SMEMBERS_run, Hi].
        reflexivity. }
    rewrite <- Huid. fold ms.
    replace (union_list [ms]) with ms by (simpl; set_solver).
    erewrite bind_step_ok by exact E1. erewrite bind_step_ok by (apply redis_run; reflexivity).
    reflexivity. }
  split; [exact Hi2|]. split; [by eapply evolves_trans|]. split; [done|].
  intros x. simpl foldr. rewrite Hsame. apply Hat.
Qed.

Lemma logout_all_advances token : preserves advances (logout_all token).
Proof.
  intros s Hi. destruct (token_session s "access" token) as [st|] eqn:Ht.
  - destruct (logout_all_run s token st Hi Ht) as (s' & -> & ? & ? & _). done.
  - unfold logout_all. erewrite bind_step_ok by (apply state_for_token_run; [done|set_solver]).
    rewrite Ht. split; [done|apply evolves_refl].
Qed.
End operations.
