(* ===== verification/AuthSteps.v ===== *)
(** * Every operation of auth_api advances the session store

    The operations that open or end sessions leave the versions of the users
    alone ([strides]); the ones that write users leave the store alone ([quiet]).
    Both keep the invariant of the store and evolve its sessions, transactions
    and their rollback included. *)

From S2P Require Import Prelude.
From S2P Require Import PyText.
From S2P Require Import Orm.
From S2P Require Import Redis.
From S2P Require Import AuthDb.
From S2P Require Import Mfa.
From S2P Require Import Sessions.
From S2P Require Import EmailTemplates.
From S2P Require Import Accounts.
From S2P Require Import Users.
From S2P Require Import SessionFacts.
From S2P Require Import SessionSteps.

Local Open Scope Z_scope.
#[local] Opaque uuid_str.

(** ** Relations *)
Section relations.
Context `{AuthEnv} `{!AuthLaws}.
Implicit Types s : Auth.

Definition steady : relation Auth := λ s s', ∀ u, version_of s' u = version_of s u.
#[export] Instance steady_preorder : PreOrder steady.
Proof. split; [by intros s u | intros s1 s2 s3 H1 H2 u; by rewrite H2]. Qed.

Definition strides : relation Auth := λ s s', advances s s' ∧ steady s s'.
#[export] Instance strides_preorder : PreOrder strides.
Proof.
  split; [by intros s; split; reflexivity|].
  intros s1 s2 s3 [A1 B1] [A2 B2]. split; by etrans.
Qed.

(** Nothing of the store nor of the versions changes. *)
Record silent s s' : Prop := {
  si_clock : Auth.clock s' = Auth.clock s;
  si_draws : (Auth.draws s ≤ Auth.draws s')%N;
  si_redis : Auth.redis s' = Auth.redis s;
  si_versions : steady s s'
}.
#[export] Instance silent_preorder : PreOrder silent.
Proof.
  split; [by intros s; split|].
  intros s1 s2 s3 [c1 d1 r1 v1] [c2 d2 r2 v2]. split; [congruence|lia|congruence|by etrans].
Qed.

Lemma silent_quiet s s' : silent s s' → quiet s s'.
Proof. intros [? ? ? ?]. by apply same_quiet. Qed.
Lemma quiet_strides s s' : quiet s s' → steady s s' → strides s s'.
Proof. intros ? ?. split; [by apply quiet_advances|done]. Qed.
Lemma silent_strides s s' : silent s s' → strides s s'.
Proof. intros Hs. apply quiet_strides; [by apply silent_quiet|apply Hs]. Qed.

Lemma same_db_steady s s' : Auth.db s' = Auth.db s → steady s s'.
Proof. intros E u. unfold version_of, user_rows. by rewrite E. Qed.

Lemma preserves_strides {A} (m : M Auth A) :
  preserves advances m → preserves (same Auth.db) m → preserves strides m.
Proof. intros Hm Hd s. split; [apply Hm|apply same_db_steady, Hd]. Qed.
Lemma preserves_quiet_strides {A} (m : M Auth A) :
  preserves quiet m → preserves (same Auth.db) m → preserves strides m.
Proof. intros Hm Hd. apply preserves_strides; [by apply quiet_preserves|done]. Qed.

(** ** Transactions *)
Lemma flush_silent s s' : flush_session s = Some s' → silent s s'.
Proof. rewrite flush_auth. intros [_ ->]. by split. Qed.
Lemma flush_run_silent : preserves silent flush.
Proof.
  intros s. unfold flush. destruct (flush_session s) as [s'|] eqn:E; [|reflexivity].
  by apply flush_silent.
Qed.

Lemma strides_rollback s s1 : strides s s1 → strides s (rollback_session s s1).
Proof.
  intros Hst. etrans; [exact Hst|]. destruct Hst as [_ Hv].
  apply quiet_strides; [apply same_quiet|]; try done; intros u; symmetry; apply (Hv u).
Qed.
Lemma quiet_rollback s s1 : quiet s s1 → quiet s (rollback_session s s1).
Proof.
  intros [Hc Hd Hk _ _]. split; try done.
  - intros u v Hu. by exists v.
  - intros u v Hu. left. by exists v.
Qed.

Lemma transaction_closed (Q : relation Auth) `{!PreOrder Q} {A} (m : M Auth A) :
  (∀ s s', silent s s' → Q s s') → (∀ s s1, Q s s1 → Q s (rollback_session s s1)) →
  preserves Q m → preserves Q (transaction m).
Proof.
  intros Hsil Hroll Hm s. specialize (Hm s). unfold transaction.
  destruct (m s) as [[a|e] s1]; simpl in *; [|by apply Hroll].
  destruct (flush_session s1) as [s2|] eqn:E; simpl; [|by apply Hroll].
  etrans; [exact Hm|]. by apply Hsil, flush_silent.
Qed.
Lemma transaction_strides {A} (m : M Auth A) : preserves strides m → preserves strides (transaction m).
Proof. apply transaction_closed; [apply _|apply silent_strides|apply strides_rollback]. Qed.
Lemma transaction_quiet {A} (m : M Auth A) : preserves quiet m → preserves quiet (transaction m).
Proof. apply transaction_closed; [apply _|apply silent_quiet|apply quiet_rollback]. Qed.
Lemma read_strides {A} (m : M Auth A) : preserves strides m → preserves strides (read_session m).
Proof.
  intros Hm s. specialize (Hm s). unfold read_session.
  destruct (m s) as [r s1]. by apply strides_rollback.
Qed.
Lemma read_quiet {A} (m : M Auth A) : preserves quiet m → preserves quiet (read_session m).
Proof.
  intros Hm s. specialize (Hm s). unfold read_session.
  destruct (m s) as [r s1]. by apply quiet_rollback.
Qed.

(** ** Primitive steps *)
Lemma draw_silent : preserves silent draw.
Proof. intros s. split; simpl; try done. lia. Qed.
Lemma outbox_silent f : preserves silent (modify (λ s, s <| Auth.outbox ::= f |>)).
Proof. intros s. by split. Qed.
Lemma provisioned_silent f : preserves silent (modify (λ s, s <| Auth.provisioned ::= f |>)).
Proof. intros s. by split. Qed.

(** Writing a table other than the users. *)
Lemma table_silent {R} `{HasTable Auth R} (f : table R → table R) :
  (∀ t s, Auth.clock (put_table t s) = Auth.clock s ∧ Auth.draws (put_table t s) = Auth.draws s ∧
    Auth.redis (put_table t s) = Auth.redis s ∧ user_rows (put_table t s) = user_rows s) →
  preserves silent (modify_table f).
Proof.
  intros Hp s. unfold modify_table, modify. simpl.
  destruct (Hp (f (get_table s)) s) as (Hc & Hd & Hr & Hu). split; [done|lia|done|].
  intros u. unfold version_of. by rewrite Hu.
Qed.

(** Assigning to users. *)
Lemma assign_version f k s u :
  keeps_id f → version_of (put_table (mutate f k (AuthTables.users (Auth.db s))) s) u =
    if N.eqb k u then (λ r, User.token_version (f r)) <$> find_row u (user_rows s)
    else version_of s u.
Proof.
  intros Hf. unfold version_of, user_rows. simpl. destruct (N.eqb_spec k u) as [->|Hne].
  - rewrite find_row_alter by done. by destruct (find_row u _).
  - by rewrite find_row_alter_ne.
Qed.

Lemma assign_user_quiet f k :
  (∀ r, User.id (f r) = User.id r) → (∀ r, User.token_version r ≤ User.token_version (f r)) →
  preserves quiet (assign (R := User.UserEntity) k f).
Proof.
  intros Hid Hv s. unfold assign, modify_table, modify. cbn [snd get_table has_users].
  split; try done.
  - intros u v Hu. rewrite assign_version by exact Hid. unfold version_of in *.
    destruct (N.eqb k u); [|by exists v].
    destruct (find_row u (user_rows s)) as [r|]; [|done]. simpl in *. injection Hu as <-. eauto.
  - intros u v. rewrite assign_version by exact Hid. unfold version_of.
    destruct (N.eqb k u), (find_row u (user_rows s)); simpl; intros; try done; left; eauto.
Qed.

Lemma assign_user_silent f k :
  (∀ r, User.id (f r) = User.id r) → (∀ r, User.token_version (f r) = User.token_version r) →
  preserves silent (assign (R := User.UserEntity) k f).
Proof.
  intros Hid Hv s. unfold assign, modify_table, modify. cbn [snd get_table has_users].
  split; try done. intros u. rewrite assign_version by exact Hid. unfold version_of.
  destruct (N.eqb k u), (find_row u (user_rows s)); simpl; congruence.
Qed.

Lemma add_user_quiet (r : User.UserEntity) :
  (User.id r < 2 ^ 128)%N → preserves quiet (add r).
Proof.
  intros Hr s. unfold add, modify_table, modify. cbn [snd get_table has_users].
  assert (Hver : ∀ u, version_of (put_table (add_row r (AuthTables.users (Auth.db s))) s) u =
    match version_of s u with Some v => Some v | None => User.token_version <$> find_row u [r] end).
  { intros u. unfold version_of, user_rows. simpl. rewrite find_row_app.
    by destruct (find_row u _). }
  split; try done.
  - intros u v Hu. exists v. by rewrite Hver, Hu.
  - intros u v. rewrite Hver. destruct (version_of s u) as [v'|]; [left; eauto|].
    intros Hf. right. destruct (find_row u [r]) as [r'|] eqn:E; [|done].
    apply find_row_some in E as [[<-|[]] <-]. exact Hr.
Qed.
End relations.

(** The steps the operations are made of. *)
#[export] Hint Resolve draw_silent outbox_silent provisioned_silent flush_run_silent : preserve.
#[export] Hint Extern 3 (preserves silent (add _)) =>
  apply table_silent; intros ? ?; split_and!; reflexivity : preserve.
#[export] Hint Extern 3 (preserves silent (assign _ _)) =>
  apply table_silent; intros ? ?; split_and!; reflexivity : preserve.
#[export] Hint Extern 3 (preserves silent (execute_delete _)) =>
  apply table_silent; intros ? ?; split_and!; reflexivity : preserve.
#[export] Hint Extern 3 (preserves silent (execute_update _ _)) =>
  apply table_silent; intros ? ?; split_and!; reflexivity : preserve.
#[export] Hint Extern 4 (preserves silent (assign (R := User.UserEntity) _ _)) =>
  apply assign_user_silent; intros ?; reflexivity : preserve.

(** ** Walking through an operation *)
Section lifting.
Context `{AuthEnv} `{!AuthLaws}.
Lemma silent_preserves_quiet {A} (m : M Auth A) : preserves silent m → preserves quiet m.
Proof. apply preserves_mono, silent_quiet. Qed.
Lemma silent_preserves_strides {A} (m : M Auth A) : preserves silent m → preserves strides m.
Proof. apply preserves_mono, silent_strides. Qed.
Lemma redis_same_db {A} (c : Z → M (keyspace SessionState) A) : preserves (same Auth.db) (redis c).
Proof. intros s. unfold redis. by destruct (c _ _). Qed.
Lemma redis_strides {A} (c : Z → M (keyspace SessionState) A) :
  avoids c → preserves strides (redis c).
Proof. intros Hc. apply preserves_quiet_strides; [by apply redis_quiet|apply redis_same_db]. Qed.
End lifting.

Ltac auth_head m := lazymatch m with ?f _ => auth_head f | ?f => f end.
Ltac auth_step :=
  first
    [ solve [eauto 2 with preserve typeclass_instances]
    | lazymatch goal with
      | |- preserves strides (transaction _) => apply transaction_strides
      | |- preserves strides (read_session _) => apply read_strides
      | |- preserves quiet (transaction _) => apply transaction_quiet
      | |- preserves quiet (read_session _) => apply read_quiet
      | |- preserves _ (mapM _ _) => apply preserves_mapM; [apply _|intros ?]
      | |- preserves strides (redis _) =>
          apply redis_strides; first
            [ apply GET_avoids | apply SMEMBERS_avoids
            | apply DEL_avoids; repeat constructor; eauto with keys
            | apply SET_avoids; eauto with keys ]
      end
    | preserve_step
    | solve [apply silent_preserves_strides; eauto 2 with preserve typeclass_instances]
    | solve [apply silent_preserves_quiet; eauto 2 with preserve typeclass_instances]
    | match goal with |- preserves _ ?m => let f := auth_head m in unfold f end ].
Ltac auth_walk := repeat auth_step.

Section session_operations.
Context `{AuthEnv} `{!AuthLaws}.

Lemma create_session_strides u : preserves strides (_create_session u).
Proof.
  apply preserves_strides; [apply create_session_advances|].
  unfold _create_session, _store_session, _new_token, token_urlsafe, draw. preserve.
  all: try apply redis_same_db. all: by intros s.
Qed.
Lemma count_attempt_strides k ttl : ¬ store_key k → preserves strides (count_attempt k ttl).
Proof.
  intros Hk. apply preserves_quiet_strides; [by apply count_attempt_quiet|].
  unfold count_attempt. preserve; apply redis_same_db.
Qed.

Lemma consume_recovery_silent normalized codes : preserves silent (consume_recovery normalized codes).
Proof.
  induction codes as [|c codes IH]; [intros s; simpl; reflexivity|]. cbn [consume_recovery].
  auth_walk; done.
Qed.
#[local] Hint Resolve consume_recovery_silent : preserve.
Lemma verify_user_code_silent u code : preserves silent (verify_user_code u code).
Proof. auth_walk. Qed.
#[local] Hint Resolve verify_user_code_silent create_session_strides : preserve.

Lemma login_strides p : preserves strides (login p).
Proof.
  unfold login. apply preserves_bind; [apply _|by apply count_attempt_strides; eauto with keys|].
  intros a. auth_walk.
Qed.
Lemma complete_strides ticket code : preserves strides (complete_mfa_challenge ticket code).
Proof.
  unfold complete_mfa_challenge.
  apply preserves_bind; [apply _|by apply count_attempt_strides; eauto with keys|].
  intros a. auth_walk.
Qed.
Lemma allow_strides subject op limit ttl : preserves strides (allow_mfa_operation subject op limit ttl).
Proof.
  unfold allow_mfa_operation.
  apply preserves_bind; [apply _|apply count_attempt_strides; apply rate_key_other|].
  intros a. auth_walk.
Qed.
Lemma current_session_strides token : preserves strides (current_session token).
Proof. auth_walk. Qed.
Lemma ui_context_strides token : preserves strides (ui_context token).
Proof. auth_walk. Qed.
End session_operations.

#[export] Hint Resolve consume_recovery_silent verify_user_code_silent create_session_strides
  current_session_strides ui_context_strides allow_strides : preserve.

(** ** Second factor, accounts and users *)
Section account_operations.
Context `{AuthEnv} `{!AuthLaws} `{MailAssets}.

Lemma setup_strides subject : preserves strides (Mfa.setup subject).
Proof. auth_walk. Qed.
Lemma confirm_strides subject code : preserves strides (Mfa.confirm subject code).
Proof. auth_walk. Qed.
Lemma status_strides subject : preserves strides (Mfa.status subject).
Proof. auth_walk. Qed.
Lemma regenerate_strides subject password code :
  preserves strides (regenerate_recovery_codes subject password code).
Proof. auth_walk. Qed.
Lemma disable_strides subject password code : preserves strides (disable subject password code).
Proof. auth_walk. Qed.

(** A user under construction has a fresh identifier. *)
Lemma bind_new_user {A} name email locale (k : User.UserEntity → M Auth A) :
  (∀ user, (User.id user < 2 ^ 128)%N → preserves quiet (k user)) →
  preserves quiet (user ← new_user name email locale; k user).
Proof.
  intros Hk s.
  assert (Hn : ∃ user s', new_user name email locale s = (Ok user, s') ∧ quiet s s' ∧
                          (User.id user < 2 ^ 128)%N).
  { eexists _, _. split; [reflexivity|]. split; [|apply uuid4_range].
    apply silent_quiet. split; try done. simpl. lia. }
  destruct Hn as (user & s' & E & Hq & Hr). erewrite bind_step_ok by exact E.
  etrans; [exact Hq|]. by apply Hk.
Qed.

Lemma issue_token_silent u purpose ttl : preserves silent (_issue_token u purpose ttl).
Proof. auth_walk. Qed.
Lemma consume_token_silent token purpose : preserves silent (_consume_token token purpose).
Proof. auth_walk. Qed.
Lemma send_verification_silent email token url name locale :
  preserves silent (_send_verification email token url name locale).
Proof. auth_walk. Qed.
Lemma add_identifier_silent u c t v : preserves silent (add_identifier u c t v).
Proof. auth_walk. Qed.
#[local] Hint Resolve issue_token_silent consume_token_silent send_verification_silent
  add_identifier_silent : preserve.

Lemma flush_quiet : preserves quiet flush.
Proof. apply silent_preserves_quiet, flush_run_silent. Qed.
#[local] Hint Resolve flush_quiet : preserve.

Lemma register_quiet p : preserves quiet (register p).
Proof.
  unfold register. apply transaction_quiet, bind_new_user. intros user Hr.
  apply preserves_bind; [apply _|by apply add_user_quiet|]. intros _. auth_walk.
Qed.
Lemma invite_quiet p : preserves quiet (invite_member p).
Proof.
  unfold invite_member. apply preserves_bind; [apply _| |intros ?; auth_walk].
  apply transaction_quiet. apply preserves_bind; [apply _|auth_walk|]. intros existing.
  apply preserves_bind; [apply _| |intros ?; auth_walk].
  destruct existing; [auth_walk|]. apply bind_new_user. intros user Hr.
  apply preserves_bind; [apply _|by apply add_user_quiet|]. intros _. auth_walk.
Qed.
Lemma request_verification_quiet email : preserves quiet (request_email_verification email).
Proof. auth_walk. Qed.
Lemma request_recovery_quiet email url : preserves quiet (request_password_recovery email url).
Proof. auth_walk. Qed.
Lemma verify_email_quiet token password : preserves quiet (verify_email token password).
Proof.
  unfold verify_email. apply transaction_quiet. auth_walk.
  apply assign_user_quiet; [done|]. intros r. simpl. lia.
Qed.
Lemma reset_password_quiet token password : preserves quiet (reset_password token password).
Proof.
  unfold reset_password. apply transaction_quiet. auth_walk.
  apply assign_user_quiet; [done|]. intros r. simpl. lia.
Qed.
Lemma update_preferences_strides locale token : preserves strides (update_my_preferences locale token).
Proof. auth_walk. Qed.
Lemma list_identifiers_strides token : preserves strides (list_my_identifiers token).
Proof. auth_walk. Qed.
Lemma resolve_quiet email service key : preserves quiet (internal_user_resolve email service key).
Proof. auth_walk. Qed.
Lemma identity_match_quiet p service key : preserves quiet (internal_identity_match p service key).
Proof. auth_walk. Qed.
Lemma identity_summary_quiet email service key : preserves quiet (identity_summary email service key).
Proof. auth_walk. Qed.
End account_operations.
