(* ===== verification/AccountFacts.v ===== *)
(** * Account tokens

    In a consistent state the queries read the rows; consuming a token and
    changing the credentials of its owner; the life of a token over the history
    of the service: it is used once, and at most one token of a user and purpose
    can still be used. *)

From S2P Require Import Prelude.
From S2P Require Import PyText.
From S2P Require Import DateTime.
From S2P Require Import Orm.
From S2P Require Import Redis.
From S2P Require Import AuthDb.
From S2P Require Import Mfa.
From S2P Require Import Sessions.
From S2P Require Import EmailTemplates.
From S2P Require Import Accounts.
From S2P Require Import SessionFacts.
From S2P Require Import AuthSteps.

Local Open Scope Z_scope.

Definition token_rows (s : Auth) : list AccountToken.AccountTokenEntity :=
  live (AuthTables.account_tokens (Auth.db s)).

Section consistent_state.
Context (s : Auth) (Hs : consistent s).

Lemma auth_schema_parts :
  users_ok (Auth.db s) = true ∧ account_tokens_ok (Auth.db s) = true ∧
  recovery_codes_ok (Auth.db s) = true.
Proof.
  destruct Hs as [_ Hok]. unfold auth_schema_ok in Hok. rewrite !andb_true_iff in Hok. naive_solver.
Qed.
Lemma token_keys_distinct : keys_distinct (token_rows s).
Proof.
  destruct auth_schema_parts as (_ & Hok & _). apply primary_key_distinct.
  unfold account_tokens_ok in Hok. rewrite !andb_true_iff in Hok. naive_solver.
Qed.
Lemma user_keys_distinct : keys_distinct (user_rows s).
Proof.
  destruct auth_schema_parts as (Hok & _). apply primary_key_distinct.
  unfold users_ok in Hok. rewrite !andb_true_iff in Hok. naive_solver.
Qed.
Lemma token_hashes_unique t t' :
  In t (token_rows s) → In t' (token_rows s) →
  AccountToken.token_hash t = AccountToken.token_hash t' → t = t'.
Proof.
  destruct auth_schema_parts as (_ & Hok & _). unfold account_tokens_ok in Hok.
  rewrite !andb_true_iff in Hok. destruct Hok as [[_ Hu] _]. unfold unique_on in Hu.
  apply bool_decide_eq_true in Hu. revert Hu. unfold token_rows.
  induction (live _) as [|x l IH]; [done|]. cbn. intros [Hx Hl]%NoDup_cons.
  assert (Hmem : ∀ y, In y l → AccountToken.token_hash y ∈
            omap (λ r, Some (AccountToken.token_hash r)) l).
  { intros y Hy. apply list_elem_of_omap. exists y. by rewrite list_elem_of_In. }
  intros [<-|Hin] [<-|Hin'] E; [done| | |by apply IH].
  - destruct Hx. rewrite E. by apply Hmem.
  - destruct Hx. rewrite <- E. by apply Hmem.
Qed.
Lemma tokens_clean : clean (AuthTables.account_tokens (Auth.db s)).
Proof. destruct Hs as [Hc _]. revert Hc. unfold clean_db, clean. destruct (Auth.db s) as [? []]; simpl. by intros [=]. Qed.
Lemma users_clean : clean (AuthTables.users (Auth.db s)).
Proof. destruct Hs as [Hc _]. revert Hc. unfold clean_db, clean. destruct (Auth.db s) as [[]]; simpl. by intros [=]. Qed.

Lemma scalar_token P :
  scalar (R := AccountToken.AccountTokenEntity) P s = (Ok (List.find P (token_rows s)), s).
Proof.
  unfold scalar, gets. simpl get_table.
  by rewrite select_clean, head_filter by (apply tokens_clean || apply token_keys_distinct; done).
Qed.
Lemma get_user u : get (R := User.UserEntity) u s = (Ok (find_row u (user_rows s)), s).
Proof. unfold get, gets. simpl get_table. by rewrite get_row_clean by (by apply users_clean). Qed.
End consistent_state.

(** ** Changing credentials with a token *)
Section credentials.
Context `{AuthEnv} `{!AuthLaws}.
Implicit Types s : Auth.

(** [verify_email] and [reset_password]: a token is used, a new password is set
    and the other columns follow [upd]. *)
Definition change_credentials (purpose : string) (upd : string → User.UserEntity → User.UserEntity)
    (raw_token new_password : string) : M Auth unit :=
  transaction (
    token ← _consume_token raw_token purpose;
    user ← get (R := User.UserEntity) (AccountToken.user_id token);
    user ← some_or user InvalidAccountTokenError;
    password_hash ← hash_password new_password;
    assign (User.id user) (upd password_hash)).

(** A token that can be used at this instant. *)
Definition usable_row (now : Z) (raw_token purpose : string) (t : AccountToken.AccountTokenEntity)
    : Prop :=
  AccountToken.token_hash t = _digest raw_token ∧ AccountToken.purpose t = purpose ∧
  AccountToken.consumed_at t = None ∧ now < AccountToken.expires_at t.

Lemma usable_token_row raw purpose now t :
  usable_token raw purpose now t = true → usable_row now raw purpose t.
Proof.
  unfold usable_token, usable_row. rewrite !andb_true_iff, !String.eqb_eq, !negb_true_iff, Z.ltb_lt.
  intros [[[[? ?] Hc] ?] _]. split_and!; try done. by destruct (AccountToken.consumed_at t).
Qed.

Lemma consume_run s raw purpose t s' :
  consistent s → _consume_token raw purpose s = (Ok t, s') →
  In t (token_rows s) ∧ usable_row (Auth.clock s) raw purpose t ∧
  s' = put_table (mutate (λ t, t <| AccountToken.consumed_at := Some (Auth.clock s) |>)
         (AccountToken.id t) (AuthTables.account_tokens (Auth.db s))) s.
Proof.
  intros Hs Hrun. unfold _consume_token in Hrun.
  erewrite bind_step_ok in Hrun by reflexivity.
  erewrite bind_step_ok in Hrun by (by apply scalar_token).
  destruct (List.find _ (token_rows s)) as [t0|] eqn:Ef; [|discriminate Hrun].
  apply List.find_some in Ef as [Hin Hu]. injection Hrun as <- <-.
  split; [done|]. split; [by apply usable_token_row|done].
Qed.

Lemma change_run purpose upd raw pw s s' :
  (∀ h r, User.id (upd h r) = User.id r) →
  (∀ h r, User.token_version (upd h r) = User.token_version r + 1) →
  consistent s → change_credentials purpose upd raw pw s = (Ok tt, s') →
  ∃ t v, In t (token_rows s) ∧ usable_row (Auth.clock s) raw purpose t ∧
    version_of s (AccountToken.user_id t) = Some v ∧
    version_of s' (AccountToken.user_id t) = Some (v + 1) ∧
    token_rows s' = alter_rows (λ t, t <| AccountToken.consumed_at := Some (Auth.clock s) |>)
                      (AccountToken.id t) (token_rows s) ∧
    Auth.redis s' = Auth.redis s ∧ Auth.clock s' = Auth.clock s.
Proof.
  intros Hid Hver Hs Hrun. unfold change_credentials in Hrun.
  apply transaction_ok in Hrun as (s3 & Hrun & Hfl).
  apply bind_ok in Hrun as (t & s1 & Hc & Hrun).
  apply consume_run in Hc as (Hin & Hu & ->); [|done].
  exists t. set (u := AccountToken.user_id t) in *.
  erewrite bind_step_ok in Hrun.
  2:{ unfold get, gets. simpl get_table. rewrite get_row_clean by (by apply users_clean). reflexivity. }
  destruct (find_row u (live (AuthTables.users (Auth.db s)))) as [user|] eqn:Eu; [|discriminate Hrun].
  exists (User.token_version user). do 2 erewrite bind_step_ok in Hrun by reflexivity.
  apply flush_auth in Hfl as [_ ->]. injection Hrun as <-.
  split_and!; try done.
  - unfold version_of, user_rows. by rewrite Eu.
  - assert (Huid : User.id user = u) by (by apply find_row_some in Eu as [_ <-]).
    unfold version_of, user_rows. simpl. rewrite Huid, find_row_alter by (intros r; apply Hid).
    rewrite Eu. simpl. by rewrite Hver.
Qed.
End credentials.
