(* ===== verification/AuthCalls.v ===== *)
(** * Histories of auth_api

    The calls of the service as a datatype, and the histories of the process:
    calls in any order and with any arguments, time passing between them, and
    refresh requests whose rotation runs later than the reading it is based on
    (two requests with one token may interleave there).  Every history keeps the
    invariant of the session store and evolves the sessions. *)

From S2P Require Import Prelude.
From S2P Require Import PyText.
From S2P Require Import DateTime.
From S2P Require Import Orm.
From S2P Require Import Redis.
From S2P Require Import AuthDb.
From S2P Require Import Mfa.
From S2P Require Import Sessions.
From S2P Require Import EmailTemplates.
From S2P Require Import Accounts.
From S2P Require Import Users.
From S2P Require Import SessionFacts.
From S2P Require Import SessionSteps.
From S2P Require Import AuthSteps.

Local Open Scope Z_scope.
#[local] Opaque uuid_str.

Inductive auth_operation :=
| Login (payload : LoginRequest)
| CompleteMfaChallenge (ticket code : string)
| Refresh (refresh_token : string)
| CurrentSession (access_token : string)
| Logout (access_token : string)
| LogoutAll (access_token : string)
| UiContext (access_token : string)
| MfaStatus (access_token : string)
| SetupMfa (access_token : string)
| ConfirmMfa (code access_token : string)
| DisableMfa (password code access_token : string)
| RecoveryCodes (password code access_token : string)
| Register (payload : PublicRegistration)
| InviteMember (payload : InternalMemberInvitation) (service key : option string)
| RequestEmailVerification (email : string)
| VerifyEmail (token new_password : string)
| RequestPasswordRecovery (email : string) (return_url : option string)
| ResetPassword (token new_password : string)
| UpdateMyPreferences (preferred_locale access_token : string)
| ListMyIdentifiers (access_token : string)
| ResolveUser (email : string) (service key : option string)
| IdentityMatch (payload : InternalIdentityMatch) (service key : option string)
| IdentitySummary (email : string) (service key : option string).

Section calls.
Context `{AuthEnv} `{MailAssets}.
Implicit Types s : Auth.

Definition discard {A} (m : M Auth A) : M Auth unit := m;; mret tt.

(** The effect of a call, its answer dropped. *)
Definition serve (op : auth_operation) : M Auth unit :=
  match op with
  | Login p => discard (login p)
  | CompleteMfaChallenge t c => discard (complete_mfa_challenge t c)
  | Refresh t => discard (refresh t)
  | CurrentSession t => discard (current_session t)
  | Logout t => discard (logout t)
  | LogoutAll t => discard (logout_all t)
  | UiContext t => discard (ui_context t)
  | MfaStatus t => discard (mfa_status t)
  | SetupMfa t => discard (setup_mfa t)
  | ConfirmMfa c t => discard (confirm_mfa c t)
  | DisableMfa p c t => discard (disable_mfa p c t)
  | RecoveryCodes p c t => discard (recovery_codes p c t)
  | Register p => discard (register p)
  | InviteMember p v k => discard (internal_member_invite p v k)
  | RequestEmailVerification e => discard (request_email_verification e)
  | VerifyEmail t p => discard (verify_email t p)
  | RequestPasswordRecovery e u => discard (request_password_recovery e u)
  | ResetPassword t p => discard (reset_password t p)
  | UpdateMyPreferences l t => discard (update_my_preferences l t)
  | ListMyIdentifiers t => discard (list_my_identifiers t)
  | ResolveUser e v k => discard (internal_user_resolve e v k)
  | IdentityMatch p v k => discard (internal_identity_match p v k)
  | IdentitySummary e v k => discard (identity_summary e v k)
  end.

Definition wait (d : Z) s : Auth := s <| Auth.clock ::= λ t, t + d |>.

Inductive auth_runs : Auth → Auth → Prop :=
| auth_starts s : auth_runs s s
| then_serves s s1 op : auth_runs s s1 → auth_runs s (serve op s1).2
| then_waits s s1 d : auth_runs s s1 → 0 ≤ d → auth_runs s (wait d s1)
(** A refresh that read the session at [s0] and rotates it at [s1]. *)
| then_rotates s s0 s1 token st : auth_runs s s0 → token_session s0 "refresh" token = Some st →
    auth_runs s0 s1 → auth_runs s (rotate token st s1).2.

Lemma runs_trans s1 s2 s3 : auth_runs s1 s2 → auth_runs s2 s3 → auth_runs s1 s3.
Proof.
  intros H12 H23. revert H12.
  induction H23 as [s|s s' op _ IH|s s' d _ IH Hd|s s0 s' token st _ IH0 Ht Hr _]; intros H12.
  - done.
  - apply then_serves; auto.
  - apply then_waits; auto.
  - eapply (then_rotates s1 s0); eauto.
Qed.
End calls.

Section call_facts.
Context `{AuthEnv} `{!AuthLaws} `{MailAssets}.
Implicit Types s : Auth.

(** ** Endpoints of the second factor *)
#[local] Hint Resolve setup_strides confirm_strides status_strides regenerate_strides
  disable_strides : preserve.

Lemma mfa_status_strides t : preserves strides (mfa_status t).
Proof. auth_walk. Qed.
Lemma setup_mfa_strides t : preserves strides (setup_mfa t).
Proof. auth_walk. Qed.
Lemma confirm_mfa_strides c t : preserves strides (confirm_mfa c t).
Proof. auth_walk. Qed.
Lemma disable_mfa_strides p c t : preserves strides (disable_mfa p c t).
Proof. auth_walk. Qed.
Lemma recovery_codes_strides p c t : preserves strides (recovery_codes p c t).
Proof. auth_walk. Qed.
#[local] Hint Resolve invite_quiet : preserve.
Lemma member_invite_quiet p v k : preserves quiet (internal_member_invite p v k).
Proof. auth_walk. Qed.

(** ** Calls, time, histories *)
Lemma strides_advances {A} (m : M Auth A) : preserves strides m → preserves advances m.
Proof. apply preserves_mono. by intros s s' [? _]. Qed.

Lemma discard_state {A} (m : M Auth A) s : (discard m s).2 = (m s).2.
Proof. apply then_ret_state. Qed.

Lemma serve_advances op : preserves advances (serve op).
Proof.
  intros s. destruct op; cbn [serve]; rewrite discard_state.
  - apply strides_advances, login_strides.
  - apply strides_advances, complete_strides.
  - apply refresh_advances.
  - apply strides_advances, current_session_strides.
  - apply logout_advances.
  - apply logout_all_advances.
  - apply strides_advances, ui_context_strides.
  - apply strides_advances, mfa_status_strides.
  - apply strides_advances, setup_mfa_strides.
  - apply strides_advances, confirm_mfa_strides.
  - apply strides_advances, disable_mfa_strides.
  - apply strides_advances, recovery_codes_strides.
  - apply quiet_preserves, register_quiet.
  - apply quiet_preserves, member_invite_quiet.
  - apply quiet_preserves, request_verification_quiet.
  - apply quiet_preserves, verify_email_quiet.
  - apply quiet_preserves, request_recovery_quiet.
  - apply quiet_preserves, reset_password_quiet.
  - apply strides_advances, update_preferences_strides.
  - apply strides_advances, list_identifiers_strides.
  - apply quiet_preserves, resolve_quiet.
  - apply quiet_preserves, identity_match_quiet.
  - apply quiet_preserves, identity_summary_quiet.
Qed.

(** Time only lets keys expire; the set of a user outlives its sessions. *)
Lemma wait_found d s k e : 0 ≤ d → found (wait d s) k = Some e → found s k = Some e.
Proof. intros Hd. unfold found, wait. simpl. apply find_key_earlier. lia. Qed.

Lemma wait_advances d s : 0 ≤ d → advances s (wait d s).
Proof.
  intros Hd Hi. pose proof (λ k e, wait_found d s k e Hd) as Hf.
  assert (Hat : ∀ sid st, session_at (wait d s) sid = Some st → session_at s sid = Some st).
  { intros sid st (t & Ht%Hf)%session_at_some. apply session_at_some. by exists t. }
  split; split; try done.
  - intros sid e He. destruct (inv_sessions s Hi sid e (Hf _ _ He))
      as (st & Hv & Hok & x & ms & t & Hx & Hxd & Hset & Hin & Hle).
    exists st. split; [done|]. split.
    { apply (session_ok_later s); [done| |done]. intros u v Hu. exists v. split; [done|lia]. }
    exists x, ms, t. split; [done|]. split.
    { unfold deadline, DateTimeService.add_seconds in *. simpl. lia. }
    split; [|done]. unfold found in *. apply find_key_some in Hset as [Hset _].
    apply find_key_some in He as [_ He]. apply find_key_some. split; [done|].
    unfold expired in *. rewrite Hx in He. simpl in *. apply Z.leb_gt in He. apply Z.leb_gt. lia.
  - intros x e He. destruct (inv_sets s Hi x e (Hf _ _ He)) as (ms & ? & Hok).
    exists ms. split; [done|]. apply (set_ok_later s); [done| |done]. intros sid st _. apply Hat.
  - intros kind x e Hk He. eapply inv_pointers; [done|done|by apply Hf].
  - apply (inv_ids s Hi).
  - unfold wait. simpl. lia.
  - intros u v Hu. exists v. split; [done|lia].
  - intros sid st Hst%Hat. left. exists st. by split; [|repeat split].
  - intros kind x _ [e He%Hf]. left. by exists e.
Qed.

Lemma token_session_key s kind token st :
  token_session s kind token = Some st → kind = "refresh" →
  Session.refresh_key st = _token_key "refresh" token.
Proof. intros (? & _ & _ & _ & Hk)%token_session_some ->. by apply String.eqb_eq in Hk. Qed.

Lemma read_earlier s0 s1 token st :
  auth_inv s0 → evolves s0 s1 → token_session s0 "refresh" token = Some st → read_before s1 st.
Proof. intros Hi Hev Ht. exists s0. split_and!; try done. by apply (token_session_at _ "refresh" token). Qed.

Lemma runs_advance s s' : auth_runs s s' → advances s s'.
Proof.
  induction 1 as [s|s s' op _ IH|s s' d _ IH Hd|s s0 s' token st _ IH0 Ht _ IH1].
  - reflexivity.
  - etrans; [exact IH|]. apply serve_advances.
  - etrans; [exact IH|]. by apply wait_advances.
  - intros Hi. destruct (IH0 Hi) as [Hi0 Hev0]. destruct (IH1 Hi0) as [Hi1 Hev1].
    destruct (rotate_advances s' token st) as [Hi2 Hev2]; [| |done|].
    + by eapply (token_session_key s0 "refresh").
    + by apply (read_earlier s0 s' token).
    + split; [done|]. eapply evolves_trans; [|done]. by eapply evolves_trans.
Qed.
End call_facts.
