(* ===== verification/TokenFacts.v ===== *)
(** * The life of an account link

    Over the history of the service the row of a link keeps its digest and stays
    used once it was, a new row is the row of a new random token, and at most
    one link of a user and purpose is open. *)

From S2P Require Import Prelude.
From S2P Require Import PyText.
From S2P Require Import DateTime.
From S2P Require Import Orm.
From S2P Require Import Redis.
From S2P Require Import AuthDb.
From S2P Require Import Mfa.
From S2P Require Import Sessions.
From S2P Require Import EmailTemplates.
From S2P Require Import Accounts.
From S2P Require Import Users.
From S2P Require Import SessionFacts.
From S2P Require Import SessionSteps.
From S2P Require Import AuthSteps.
From S2P Require Import AccountFacts.
From S2P Require Import AuthCalls.

Local Open Scope Z_scope.
#[local] Opaque uuid_str.

(** ** Consistency is kept *)
Definition stays_consistent : relation Auth := λ s s', consistent s → consistent s'.
#[export] Instance stays_consistent_preorder : PreOrder stays_consistent.
Proof. split; [by intros s Hs|]. intros s1 s2 s3 H12 H23 Hs. by apply H23, H12. Qed.

Lemma same_db_consistent s s' : Auth.db s' = Auth.db s → stays_consistent s s'.
Proof. intros E. unfold stays_consistent, consistent. by rewrite E. Qed.
Lemma transaction_stays {A} (m : M Auth A) : preserves stays_consistent (transaction m).
Proof. intros s Hs. by apply auth_transaction_consistent. Qed.
Lemma read_stays {A} (m : M Auth A) : preserves stays_consistent (read_session m).
Proof. intros s. unfold read_session. destruct (m s). by apply same_db_consistent. Qed.
Lemma db_stays {A} (m : M Auth A) : preserves (same Auth.db) m → preserves stays_consistent m.
Proof. apply preserves_mono. intros s s'. apply same_db_consistent. Qed.
Lemma draw_stays : preserves stays_consistent draw.
Proof. intros s. by apply same_db_consistent. Qed.
Lemma redis_stays {A} (c : Z → M (keyspace SessionState) A) : preserves stays_consistent (redis c).
Proof. apply db_stays, redis_same_db. Qed.
Lemma modify_stays f : (∀ s, Auth.db (f s) = Auth.db s) → preserves stays_consistent (modify f).
Proof. intros Hf s. apply same_db_consistent, Hf. Qed.
#[export] Hint Resolve transaction_stays read_stays draw_stays redis_stays : preserve.

Ltac stays_step :=
  first
    [ solve [eauto 2 with preserve typeclass_instances]
    | lazymatch goal with |- preserves _ (mapM _ _) => apply preserves_mapM; [apply _|intros ?] end
    | preserve_step
    | apply modify_stays; intros ?; reflexivity
    | match goal with |- preserves _ ?m => let f := auth_head m in unfold f end ].

Section consistency.
Context `{AuthEnv} `{MailAssets}.
Lemma serve_stays op : preserves stays_consistent (serve op).
Proof. destruct op; cbn [serve]; repeat stays_step. Qed.
Lemma runs_consistent s s' : auth_runs s s' → consistent s → consistent s'.
Proof.
  induction 1 as [s|s s1 op _ IH|s s1 d _ IH Hd|s s0 s1 token st _ IH0 _ _ IH1]; intros Hs.
  - done.
  - by apply serve_stays, IH.
  - by apply (same_db_consistent s1); [|apply IH].
  - assert (Hrot : preserves stays_consistent (rotate token st)) by (repeat stays_step).
    by apply Hrot, IH1, IH0.
Qed.
End consistency.

(** ** What a step does to the links *)
Section steps.
Context `{AuthEnv}.
Implicit Types s : Auth.

(** The links of a user and purpose that were not used. *)
Definition open_links (u : N) (purpose : string) s : list AccountToken.AccountTokenEntity :=
  List.filter (open_token u purpose) (token_rows s).
Definition one_open s : Prop := ∀ u purpose, (length (open_links u purpose s) ≤ 1)%nat.

(** The digest of a random token drawn in the given range of draws. *)
Definition link_drawn (from to : N) (digest : string) : Prop :=
  ∃ n, (from ≤ n < to)%N ∧ digest = _digest (token_of n 48).

Record tokens_step s s' : Prop := {
  ts_draws : (Auth.draws s ≤ Auth.draws s')%N;
  ts_links : ∀ t', In t' (token_rows s') →
    (∃ t, In t (token_rows s) ∧ AccountToken.token_hash t' = AccountToken.token_hash t ∧
          (is_Some (AccountToken.consumed_at t) → is_Some (AccountToken.consumed_at t'))) ∨
    link_drawn (Auth.draws s) (Auth.draws s') (AccountToken.token_hash t');
  ts_open : one_open s → one_open s'
}.

Lemma link_drawn_widen a b a' b' h :
  (a' ≤ a)%N → (b ≤ b')%N → link_drawn a b h → link_drawn a' b' h.
Proof. intros Ha Hb (n & Hn & ->). exists n. split; [lia|done]. Qed.

Lemma same_tokens s s' :
  (Auth.draws s ≤ Auth.draws s')%N → token_rows s' = token_rows s → tokens_step s s'.
Proof.
  intros Hd Ht. split; [done| |].
  - intros t' Ht'. left. exists t'. by rewrite <- Ht.
  - unfold one_open, open_links. by rewrite Ht.
Qed.

#[export] Instance tokens_step_preorder : PreOrder tokens_step.
Proof.
  split; [intros s; by apply same_tokens|]. intros s1 s2 s3 [d1 l1 o1] [d2 l2 o2]. split; [lia| |auto].
  intros t3 Ht3. destruct (l2 t3 Ht3) as [(t2 & Ht2 & E2 & C2)|Hn].
  - destruct (l1 t2 Ht2) as [(t1 & Ht1 & E1 & C1)|Hn].
    + left. exists t1. split; [done|]. split; [congruence|auto].
    + right. rewrite E2. eapply link_drawn_widen; [..|exact Hn]; lia.
  - right. eapply link_drawn_widen; [..|exact Hn]; lia.
Qed.

Lemma rollback_tokens s s1 : tokens_step s s1 → tokens_step s (rollback_session s s1).
Proof. intros [Hd _ _]. by apply same_tokens. Qed.
Lemma transaction_tokens {A} (m : M Auth A) :
  preserves tokens_step m → preserves tokens_step (transaction m).
Proof.
  intros Hm s. specialize (Hm s). unfold transaction.
  destruct (m s) as [[a|e] s1]; cbn [snd] in *; [|by apply rollback_tokens].
  destruct (flush_session s1) as [s2|] eqn:E; cbn [snd]; [|by apply rollback_tokens].
  apply flush_auth in E as [_ ->]. etrans; [exact Hm|]. by apply same_tokens.
Qed.
Lemma read_tokens {A} (m : M Auth A) : preserves tokens_step m → preserves tokens_step (read_session m).
Proof.
  intros Hm s. specialize (Hm s). unfold read_session. destruct (m s). by apply rollback_tokens.
Qed.

Lemma draw_tokens : preserves tokens_step draw.
Proof. intros s. apply same_tokens; [simpl; lia|done]. Qed.
Lemma redis_tokens {A} (c : Z → M (keyspace SessionState) A) : preserves tokens_step (redis c).
Proof. intros s. unfold redis. destruct (c _ _). by apply same_tokens. Qed.
Lemma flush_tokens : preserves tokens_step flush.
Proof.
  intros s. unfold flush. destruct (flush_session s) as [s'|] eqn:E; [|reflexivity].
  apply flush_auth in E as [_ ->]. by apply same_tokens.
Qed.
Lemma modify_tokens f :
  (∀ s, Auth.draws (f s) = Auth.draws s ∧ token_rows (f s) = token_rows s) →
  preserves tokens_step (modify f).
Proof. intros Hf s. apply same_tokens; [simpl; destruct (Hf s) as [-> _]; lia|by apply Hf]. Qed.

(** Using links up. *)
Lemma used_not_open u purpose now t :
  open_token u purpose (t <| AccountToken.consumed_at := Some now |>) = false.
Proof. unfold open_token. cbn. by rewrite andb_false_r. Qed.
Lemma consumes_tokens (P : AccountToken.AccountTokenEntity → bool) now s s' :
  Auth.draws s' = Auth.draws s →
  token_rows s' = update_rows P (λ t, t <| AccountToken.consumed_at := Some now |>) (token_rows s) →
  tokens_step s s'.
Proof.
  intros Hd Ht. split; [lia| |].
  - rewrite Ht. unfold update_rows. intros t' (t & <- & Hin)%in_map_iff. left. exists t.
    split; [done|]. by destruct (P t).
  - intros Ho u purpose. specialize (Ho u purpose). unfold open_links in *. rewrite Ht.
    etrans; [|exact Ho]. unfold update_rows. clear. induction (token_rows s) as [|t l IH]; [done|].
    cbn [map List.filter]. destruct (P t).
    + rewrite used_not_open. destruct (open_token u purpose t); cbn [length]; lia.
    + destruct (open_token u purpose t); cbn [length]; lia.
Qed.
Lemma consume_tokens k now : preserves tokens_step
  (assign k (λ t, t <| AccountToken.consumed_at := Some now |>)).
Proof. intros s. by apply (consumes_tokens (has_id k) now). Qed.

(** A new link closes the open ones of its user and purpose. *)
Lemma issue_tokens u purpose ttl : preserves tokens_step (_issue_token u purpose ttl).
Proof.
  intros s. set (now := Auth.clock s).
  set (new := AccountToken.make (uuid4_of (N.succ (Auth.draws s))) u purpose
    (_digest (token_of (Auth.draws s) 48)) (DateTimeService.add_seconds now ttl) None now None).
  set (rows := update_rows (open_token u purpose)
    (λ t, t <| AccountToken.consumed_at := Some now |>) (token_rows s)).
  assert (Hrun : ∃ s', _issue_token u purpose ttl s = (Ok (token_of (Auth.draws s) 48), s') ∧
    Auth.draws s' = N.succ (N.succ (Auth.draws s)) ∧ token_rows s' = rows ++ [new]).
  { eexists. split; [reflexivity|done]. }
  destruct Hrun as (s' & -> & Hd & Ht). cbn [snd].
  set (s0 := put_table (Table (R := AccountToken.AccountTokenEntity) rows rows) s).
  destruct (consumes_tokens (open_token u purpose) now s s0 eq_refl eq_refl) as [_ Hl Ho].
  split; [lia| |].
  - rewrite Ht. intros t' [Hin|[<-|[]]]%in_app_iff; [|right; exists (Auth.draws s); split; [lia|done]].
    destruct (Hl t' Hin) as [?|(n & Hn & _)]; [by left|]. simpl in Hn. lia.
  - intros H1 u' purpose'. specialize (Ho H1 u' purpose'). unfold open_links in *. rewrite Ht.
    change (token_rows s0) with rows in Ho. rewrite List.filter_app, length_app. cbn [List.filter].
    destruct (open_token u' purpose' new) eqn:En; [|simpl; lia].
    assert (u = u' ∧ purpose = purpose') as [<- <-].
    { unfold open_token in En. simpl in En. rewrite !andb_true_iff, N.eqb_eq, String.eqb_eq in En. tauto. }
    assert (E : List.filter (open_token u purpose) rows = []).
    { unfold rows, update_rows. clear. induction (token_rows s) as [|t l IH]; [done|].
      cbn [map List.filter]. destruct (open_token u purpose t) eqn:E; [|by rewrite E].
      by rewrite used_not_open. }
    by rewrite E.
Qed.
End steps.

#[export] Hint Resolve draw_tokens redis_tokens flush_tokens consume_tokens issue_tokens : preserve.
Ltac tokens_walk_step :=
  first
    [ solve [eauto 2 with preserve typeclass_instances]
    | lazymatch goal with
      | |- preserves _ (transaction _) => apply transaction_tokens
      | |- preserves _ (read_session _) => apply read_tokens
      | |- preserves _ (mapM _ _) => apply preserves_mapM; [apply _|intros ?]
      end
    | preserve_step
    | match goal with |- preserves _ (modify _) => apply modify_tokens; intros ?; split; reflexivity end
    | match goal with |- preserves _ (add _) => apply modify_tokens; intros ?; split; reflexivity end
    | match goal with |- preserves _ (assign _ _) => apply modify_tokens; intros ?; split; reflexivity end
    | match goal with |- preserves _ ?m => let f := auth_head m in unfold f end ].
Ltac tokens_walk := repeat tokens_walk_step.

Section histories.
Context `{AuthEnv} `{MailAssets}.
Implicit Types s : Auth.

Lemma consume_recovery_tokens normalized codes :
  preserves tokens_step (consume_recovery normalized codes).
Proof. induction codes; cbn [consume_recovery]; tokens_walk; done. Qed.
#[local] Hint Resolve consume_recovery_tokens : preserve.

Lemma serve_tokens op : preserves tokens_step (serve op).
Proof. destruct op; cbn [serve]; tokens_walk. Qed.

Lemma rotate_tokens token st : preserves tokens_step (rotate token st).
Proof. tokens_walk. Qed.
Lemma runs_tokens s s' : auth_runs s s' → tokens_step s s'.
Proof.
  induction 1 as [s|s s1 op _ IH|s s1 d _ IH Hd|s s0 s1 token st _ IH0 _ _ IH1].
  - reflexivity.
  - etrans; [exact IH|]. apply serve_tokens.
  - etrans; [exact IH|]. by apply same_tokens.
  - etrans; [exact IH0|]. etrans; [exact IH1|]. apply rotate_tokens.
Qed.
End histories.

(** ** Digests of the table *)
Section digests.
Context `{AuthEnv} `{!AuthLaws} `{MailAssets}.
Implicit Types s : Auth.

(** The digests in the table are digests of tokens that were drawn. *)
Definition links_drawn s : Prop :=
  ∀ t, In t (token_rows s) → link_drawn 0 (Auth.draws s) (AccountToken.token_hash t).

Lemma links_drawn_runs s s' : auth_runs s s' → links_drawn s → links_drawn s'.
Proof.
  intros Hr Hs t' Ht'. destruct (runs_tokens _ _ Hr) as [Hd Hl _].
  destruct (Hl t' Ht') as [(t & Ht & -> & _)|Hn].
  - eapply link_drawn_widen; [..|exact (Hs t Ht)]; lia.
  - eapply link_drawn_widen; [..|exact Hn]; lia.
Qed.
End digests.
