(* ===== verification/AuthExample.v ===== *)
(** * A small auth_api

    A concrete environment that satisfies the laws the theorems rely on, and a
    state with two users - one with a second factor - and an open recovery link:
    the inputs of the witnesses. *)

From S2P Require Import Prelude.
From S2P Require Import PyText.
From S2P Require Import DateTime.
From S2P Require Import Orm.
From S2P Require Import Redis.
From S2P Require Import AuthDb.
From S2P Require Import Mfa.
From S2P Require Import Sessions.
From S2P Require Import EmailTemplates.
From S2P Require Import Accounts.
From S2P Require Import SessionFacts.
From S2P Require Import AccountFacts.
From S2P Require Import AuthCalls.
From S2P Require Import TokenFacts.

Local Open Scope Z_scope.

Module AuthExample.

(** A state without sessions. *)
Lemma no_sessions `{AuthEnv} s :
  Auth.redis s = ∅ → (∀ u v, version_of s u = Some v → (u < 2 ^ 128)%N) → auth_inv s.
Proof.
  intros Hr Hids.
  assert (Hf : ∀ k, found s k = None) by (intros k; unfold found, find_key; by rewrite Hr).
  split; [intros ? ? E..|exact Hids]; [congruence..|]. intros E'. congruence.
Qed.

(** ** The environment *)
Definition ticks (n : N) : string := text (repeat "x"%char (N.to_nat n)).
Definition step_of (now : Z) : Z := now / (30 * second).
Definition code_at (secret : string) (step : Z) : string := upper secret +:+ show_Z step.

#[export] Instance example_env : AuthEnv := {|
  settings := mkSettings "auth" 900 2592000 86400 3600 "https://rubrica.example" "Rubrica"
    "mfa-key" 300 "identity-key" "hmac-key" false "service-key" "production" "site-key" "turnstile-key";
  sha256_hex v := "h" +:+ v;
  hmac_sha256_hex k v := k +:+ "|" +:+ v;
  derived_key k := k;
  fernet_encrypt _ _ v := "e" +:+ v;
  fernet_decrypt _ c := match c with String _ v => Some v | EmptyString => None end;
  uuid4_of n := (n mod 2 ^ 128)%N;
  token_of n _ := "t" +:+ ticks n;
  token_hex_of n _ := ticks n;
  base32_of n := ticks n;
  bcrypt_hash _ p := "b" +:+ p;
  bcrypt_check p h := Some (String.eqb h ("b" +:+ p));
  totp_verify secret code now :=
    existsb (λ i, String.eqb code (code_at secret (step_of now + i))) [-1; 0; 1];
  totp_timecode := step_of;
  totp_uri secret name issuer := secret;
  email_accepted _ := true;
  tenant_accepted _ := true;
  text_le := String.leb
|}.
#[export] Instance example_assets : MailAssets := {| brand_mark_png := "png"; qr_png v := v |}.

Lemma ticks_inj n m : ticks n = ticks m → n = m.
Proof.
  intros E%(f_equal chars). unfold ticks in E. rewrite !chars_text in E.
  apply (f_equal length) in E. rewrite !repeat_length in E. by apply N2Nat.inj.
Qed.
#[export] Instance example_laws : AuthLaws.
Proof.
  split; try done.
  - intros n k m j E. simpl in E. injection E as E. by apply ticks_inj.
  - intros a b E. simpl in E. by injection E.
  - intros n. by apply N.mod_lt.
Qed.

(** ** The state *)
Definition day : Z := 86400 * second.
Definition alice : User.UserEntity :=
  User.make 1 "alice@rubrica.example" "alice" (Some "Alice") "en" true false false None None None
    "bsecret" 1 true 0 None.
Definition bob : User.UserEntity :=
  User.make 2 "bob@rubrica.example" "bob" (Some "Bob") "en" true true false (Some "ek") None None
    "bsecret" 1 true 0 None.
Definition recovery_link : string := "t".
Definition alice_link : AccountToken.AccountTokenEntity :=
  AccountToken.make 10 1 "reset_password" (_digest recovery_link) (2 * day) None 0 None.
Definition stored_rows {R} (l : list R) : table R := Table l l.
Definition start : Auth :=
  Auth.make
    (AuthTables.make (stored_rows [alice; bob]) (stored_rows [alice_link]) empty_table empty_table
       empty_table empty_table)
    ∅ day 1 [] [].

Lemma start_inv : auth_inv start.
Proof.
  apply no_sessions; [done|]. intros u v (r & Hr & _)%fmap_Some.
  apply find_row_some in Hr as [[<-|[<-|[]]] <-]; done.
Qed.
Lemma start_consistent : consistent start.
Proof. split; [done|by vm_compute]. Qed.
Lemma start_links : links_drawn start.
Proof. intros t [<-|[]]. exists 0%N. by split. Qed.

(** ** Calls *)
Definition login_as (email password : string) : LoginRequest := mkLoginRequest email password None.
Definition alice_login : LoginRequest := login_as "alice@rubrica.example" "secret".
Definition bob_login : LoginRequest := login_as "bob@rubrica.example" "secret".

(** Alice is logged in; what she got. *)
Definition logged_in : Auth := (login alice_login start).2.
Definition tokens : LoginResponse :=
  mkLoginResponse "access_txx" "refresh_txxx" "tx".
Lemma alice_logs_in : login alice_login start = (Ok (Some (LoggedIn tokens)), logged_in).
Proof. unfold logged_in. apply run_outcome. vm_compute. reflexivity. Qed.
Lemma logged_in_inv : auth_inv logged_in.
Proof.
  destruct (serve_advances (Login alice_login) start start_inv) as [Hi _].
  cbn [serve] in Hi. by rewrite discard_state in Hi.
Qed.
Lemma logged_in_consistent : consistent logged_in.
Proof.
  pose proof (serve_stays (Login alice_login) start start_consistent) as Hs.
  cbn [serve] in Hs. by rewrite discard_state in Hs.
Qed.
End AuthExample.
