(* ===== verification/AccountSchema.v ===== *)
(** * Payloads of auth_api (account_schema.py, user_schema.py)

    What the framework makes of the body of a request before an endpoint of
    accounts or users runs: the types and bounds of the fields, their patterns and
    the validators of the models; [None] is a body that is refused (422).  Lengths
    count code points.  [wide_alnum]: is a character outside ASCII a letter or a
    digit to [str.isalnum]? *)

From S2P Require Import Prelude.
From S2P Require Import PyText.
From S2P Require Import Json.
From S2P Require Import Http.
From S2P Require Import Orm.
From S2P Require Import EmailTemplates.
From S2P Require Import Localization.
From S2P Require Import Identity.
From S2P Require Import Redis.
From S2P Require Import AuthDb.
From S2P Require Import Accounts.
From S2P Require Import AuthExample.

(** ** Fields *)

(** [min_length], [max_length] *)
Definition bounded (low high : nat) (s : string) : bool :=
  let n := length (code_points (chars s)) in Nat.leb low n && Nat.leb n high.

(** [\s] of the pattern, which is narrower than [str.isspace] in ASCII. *)
Definition pattern_space (p : list ascii) : bool :=
  match p with
  | [c] => bool_decide (N_of_ascii c ∈ [9; 10; 11; 12; 13; 32]%N)
  | _ => blank p
  end.
Definition at_sign (p : list ascii) : bool := bool_decide (p = ["@"%char]).
(** [[^@\s]] *)
Definition address_point (p : list ascii) : bool := negb (pattern_space p) && negb (at_sign p).
Definition dot_point (p : list ascii) : bool := bool_decide (p = ["."%char]).
(** What comes before the first [@], and after it. *)
Fixpoint split_at_sign (ps : list (list ascii)) : list (list ascii) * option (list (list ascii)) :=
  match ps with
  | [] => ([], None)
  | p :: ps' =>
      if at_sign p then ([], Some ps')
      else let '(local, domain) := split_at_sign ps' in (p :: local, domain)
  end.
(** [^[^@\s]+@[^@\s]+\.[^@\s]+$]: a dot that is neither first nor last. *)
Definition email_pattern (s : string) : bool :=
  match split_at_sign (code_points (chars s)) with
  | (local, Some domain) =>
      negb (bool_decide (local = [])) && forallb address_point local &&
      forallb address_point domain && existsb dot_point (removelast (tl domain))
  | (_, None) => false
  end.
(** [^/signing/[A-Za-z0-9_-]+$] *)
Definition slug_char (c : ascii) : bool := is_alnum c || Ascii.eqb c "_" || Ascii.eqb c "-".
Definition return_url_pattern (s : string) : bool :=
  let rest := remove_prefix "/signing/" s in
  starts_with "/signing/" s && nonempty rest && all_chars slug_char rest.

(** A member of the body: required text, and text or [null] with [None] by
    default. *)
Definition body_members (body : json) : option (list (string * json)) :=
  match body with JObj l => Some l | _ => None end.
Definition text_in (ok : string → bool) (k : string) (l : list (string * json)) : option string :=
  match assoc k l with Some (JStr s) => if ok s then Some s else None | _ => None end.
Definition optional_text_in (ok : string → bool) (k : string) (l : list (string * json))
    : option (option string) :=
  match assoc k l with
  | None | Some JNull => Some None
  | Some (JStr s) => if ok s then Some (Some s) else None
  | Some _ => None
  end.
(** [extra="forbid"] *)
Definition only_members (names : list string) (l : list (string * json)) : option unit :=
  if forallb (λ kv, mem_str kv.1 names) l then Some tt else None.

(** [normalize_preferred_locale]; a default is not validated. *)
Definition locale_in (default : string) (l : list (string * json)) : string :=
  match assoc "preferred_locale" l with None => default | Some v => normalize_locale v end.

Definition IdentityDocumentType : list string :=
  ["BR_CPF"; "BR_CNPJ"; "PT_NIF"; "PASSPORT"; "NATIONAL_ID"; "RESIDENCE_CARD"; "DRIVER_LICENSE";
   "TAX_ID"; "OTHER"; "JP_MY_NUMBER"].
(** [normalize_identity_type], and the literal type or [null]. *)
Definition identity_type_in (l : list (string * json)) : option (option string) :=
  match assoc "identity_document_type" l with
  | None | Some JNull => Some None
  | Some v =>
      if truthy v then
        let normalized := normalize_identifier_type (py_str v) in
        if mem_str normalized IdentityDocumentType then Some (Some normalized) else None
      else None
  end.
(** [normalize_identity_country] *)
Definition identity_country_in (l : list (string * json)) : option (option string) :=
  match assoc "identity_document_country" l with
  | None => Some None
  | Some v => match normalize_country_code v with Ok c => Some c | Err _ => None end
  end.

Section schema.
Context `{AuthEnv}.
Variable wide_alnum : list ascii → bool.

(** ** Passwords *)
Definition ascii_within (low high : ascii) (p : list ascii) : bool :=
  match p with
  | [c] => N.leb (N_of_ascii low) (N_of_ascii c) && N.leb (N_of_ascii c) (N_of_ascii high)
  | _ => false
  end.
(** [not character.isalnum() and not character.isspace()] *)
Definition special (p : list ascii) : bool :=
  match p with
  | [c] => if is_ascii c then negb (is_alnum c) && negb (is_space c) else negb (wide_alnum p)
  | _ => negb (wide_alnum p) && negb (blank p)
  end.
Definition validate_new_password (value : string) : result string :=
  let characters := code_points (chars value) in
  if existsb (ascii_within "A" "Z") characters && existsb (ascii_within "a" "z") characters &&
     existsb (ascii_within "0" "9") characters && existsb special characters
  then Ok value
  else Err (ValueError ("password must contain an uppercase letter, a lowercase letter, " +:+
                        "a number, and a special character")).
Definition new_password_in (l : list (string * json)) : option string :=
  value ← text_in (bounded 8 128) "new_password" l;
  match validate_new_password value with Ok v => Some v | Err _ => None end.

(** ** Registration *)

(** [if any(provided) and not all(provided): raise], then the document itself. *)
Definition identity_accepted (identity_type country value : option string) : bool :=
  let provided := [opt_nonempty identity_type; opt_nonempty country; opt_nonempty value] in
  negb (existsb id provided && negb (forallb id provided)) &&
  match identity_type, value with
  | Some t, Some v => negb (nonempty t && nonempty v) || is_ok (validate t v)
  | _, _ => true
  end.

Definition registration_fields : list string :=
  ["name"; "email"; "preferred_locale"; "turnstile_token"; "return_url"; "identity_document_type";
   "identity_document_country"; "identity_document_value"].
Definition validate_registration (body : json) : option PublicRegistration :=
  l ← body_members body; only_members registration_fields l;;
  name ← text_in (bounded 2 180) "name" l;
  email ← text_in (λ s, bounded 5 255 s && email_pattern s) "email" l;
  turnstile_token ← optional_text_in (bounded 1 2048) "turnstile_token" l;
  return_url ← optional_text_in (λ s, bounded 0 512 s && return_url_pattern s) "return_url" l;
  identity_type ← identity_type_in l;
  country ← identity_country_in l;
  value ← optional_text_in (bounded 4 80) "identity_document_value" l;
  if identity_accepted identity_type country value
  then Some (mkPublicRegistration name email (locale_in "en" l) turnstile_token return_url
               identity_type country value)
  else None.

(** ** Invitations *)
Definition validate_invitation (body : json) : option InternalMemberInvitation :=
  l ← body_members body;
  only_members ["name"; "email"; "identity_document_type"; "identity_document_country";
                "identity_document_value"; "preferred_locale"] l;;
  name ← text_in (bounded 2 180) "name" l;
  email ← text_in (λ s, bounded 5 255 s && email_pattern s) "email" l;
  identity_type ← text_in (λ t, mem_str t IdentityDocumentType) "identity_document_type" l;
  assoc "identity_document_country" l;;
  country ← identity_country_in l;
  value ← text_in (bounded 4 80) "identity_document_value" l;
  let normalized_type := normalize_identifier_type identity_type in
  if is_ok (validate normalized_type value)
  then Some (mkInternalMemberInvitation name email normalized_type (or_str country "BR") value
               (locale_in "pt-BR" l))
  else None.

(** ** Links and recovery *)
Record EmailVerification := mkEmailVerification { ev_token : string; ev_new_password : string }.
(** [EmailVerification] and [PasswordReset] *)
Definition validate_token_and_password (body : json) : option EmailVerification :=
  l ← body_members body;
  token ← text_in (bounded 32 255) "token" l;
  new_password ← new_password_in l;
  Some (mkEmailVerification token new_password).
Definition validate_verification_request (body : json) : option string :=
  l ← body_members body; text_in (bounded 5 255) "email" l.
Record PasswordRecoveryRequest := mkPasswordRecoveryRequest {
  rr_email : string; rr_turnstile_token : option string; rr_return_url : option string
}.
Definition validate_recovery_request (body : json) : option PasswordRecoveryRequest :=
  l ← body_members body;
  email ← text_in (bounded 5 255) "email" l;
  turnstile_token ← optional_text_in (bounded 1 2048) "turnstile_token" l;
  return_url ← optional_text_in (λ s, bounded 0 512 s && return_url_pattern s) "return_url" l;
  Some (mkPasswordRecoveryRequest email turnstile_token return_url).

(** ** Users (user_schema.py) *)
Record UserCreate := mkUserCreate {
  uc_name : string; uc_email : string; uc_cpf : option string;
  uc_identity_document_type : option string; uc_identity_document_country : option string;
  uc_identity_document_value : option string; uc_password : string; uc_role : string;
  uc_preferred_locale : string
}.
Definition UserRole : list string :=
  ["signature_admin"; "signature_operator"; "signature_signer"; "signature_auditor"].
(** A CPF without a document is the document. *)
Definition with_cpf (cpf identity_type country value : option string)
    : option string * option string * option string :=
  if opt_nonempty cpf && negb (opt_nonempty value) then (Some "BR_CPF", Some "BR", cpf)
  else (identity_type, country, value).
Definition validate_user_create (body : json) : option UserCreate :=
  l ← body_members body;
  name ← text_in (bounded 2 180) "name" l;
  email ← text_in (λ s, bounded 5 255 s && email_pattern s) "email" l;
  cpf ← optional_text_in (bounded 11 14) "cpf" l;
  identity_type ← identity_type_in l;
  country ← identity_country_in l;
  value ← optional_text_in (bounded 4 80) "identity_document_value" l;
  password ← text_in (bounded 8 128) "password" l;
  role ← (match assoc "role" l with
          | None => Some "signature_signer"
          | Some (JStr r) => if mem_str r UserRole then Some r else None
          | Some _ => None
          end);
  let '(identity_type, country, value) := with_cpf cpf identity_type country value in
  if identity_accepted identity_type country value
  then Some (mkUserCreate name email cpf identity_type country value password role (locale_in "en" l))
  else None.
(** [UserPreferencesUpdate]: the locale. *)
Definition validate_preferences (body : json) : option string :=
  l ← body_members body; v ← assoc "preferred_locale" l; Some (normalize_locale v).
End schema.

(** * What an accepted payload guarantees *)

Lemma identity_types_canonical t :
  mem_str t IdentityDocumentType = true → normalize_identifier_type t = t.
Proof.
  unfold mem_str, IdentityDocumentType. rewrite existsb_exists. intros (t' & Hin & ->%String.eqb_eq).
  cbn in Hin. by repeat destruct Hin as [<-|Hin].
Qed.

Lemma identity_type_in_ok l t :
  identity_type_in l = Some (Some t) → mem_str t IdentityDocumentType = true.
Proof.
  unfold identity_type_in. destruct (assoc _ l) as [v|]; [|done].
  destruct v; try done; cbv zeta; repeat case_match; by intros [= <-].
Qed.
Lemma country_in_ok l c :
  identity_country_in l = Some (Some c) → alpha_code 2 (upper (strip c)) = true ∧ upper (strip c) = c.
Proof.
  unfold identity_country_in, normalize_country_code. destruct (assoc _ l) as [v|]; [|done].
  destruct (negb (nonempty _)); [done|]. destruct (negb (alpha_code 2 _)) eqn:Ha; [done|].
  apply negb_false_iff in Ha. intros [= <-].
  assert (Hs : strip (upper (stripped v)) = upper (stripped v)).
  { apply strip_alpha. unfold alpha_code in Ha. rewrite !andb_true_iff in Ha. naive_solver. }
  by rewrite Hs, upper_idem.
Qed.

Lemma bounded_text_in low high k l v :
  optional_text_in (bounded low high) k l = Some (Some v) → bounded low high v = true.
Proof.
  unfold optional_text_in. destruct (assoc k l) as [[]|]; try done. by case_match; intros [= <-].
Qed.

Section accepted.
Context `{AuthEnv}.

(** A document that was accepted is stored. *)
Lemma accepted_identifier_run user_id country identity_type value s :
  mem_str identity_type IdentityDocumentType = true →
  alpha_code 2 (upper (strip country)) = true → is_ok (validate identity_type value) = true →
  ∃ i s', add_identifier user_id country identity_type value s = (Ok tt, s') ∧
    live (get_table s') = live (get_table s) ++ [i] ∧ Identifier.user_id i = user_id ∧
    Identifier.identifier_type i = identity_type ∧
    Identifier.issuing_country i = upper (strip country).
Proof.
  intros Ht%identity_types_canonical Hc Hv. unfold add_identifier. rewrite Hc, Ht. cbn [negb raise_if].
  destruct (validate identity_type value) as [normalized|] eqn:E; [|done].
  eexists (Identifier.make _ _ _ _ _ _ _ _ _ _ _ _), _. split; [reflexivity|]. by split_and!.
Qed.
End accepted.

(** ** Which errors a call can end with *)
Section fails.
Context {S : Type} (P : exn → Prop).
Definition fails_with {A} (m : M S A) : Prop := ∀ s e s', m s = (Err e, s') → P e.
Lemma fails_bind {A B} (m : M S A) (k : A → M S B) :
  fails_with m → (∀ a, fails_with (k a)) → fails_with (m ≫= k).
Proof. intros Hm Hk s e s' [Hrun|(a & s1 & _ & Hrun)]%bind_err; [by eapply Hm|by eapply Hk]. Qed.
Lemma fails_never {A} (m : M S A) : (∀ s, is_ok (m s).1 = true) → fails_with m.
Proof. intros Hm s e s' E. specialize (Hm s). by rewrite E in Hm. Qed.
Lemma fails_raise {A} e : P e → fails_with (raise e : M S A).
Proof. by intros HP s e' s' [= <- _]. Qed.
Lemma fails_when b (m : M S unit) : (b = true → fails_with m) → fails_with (when b m).
Proof. destruct b; cbn; [auto|]. intros _. by apply fails_never. Qed.
Lemma fails_transaction {A} `{Session S} (m : M S A) :
  P IntegrityError → fails_with m → fails_with (transaction m).
Proof.
  intros HI Hm s e s'. unfold transaction. destruct (m s) as [[a|e1] s1] eqn:E.
  - destruct (flush_session s1); [done|]. by intros [= <- _].
  - intros [= <- _]. by eapply Hm.
Qed.
End fails.
Definition given {A} (o : option A) : bool := match o with Some _ => true | None => false end.

Section registration.
Context `{AuthEnv} `{MailAssets}.

(** The name and the address can be kept in their columns. *)
Definition storable_registration (p : PublicRegistration) : bool :=
  column_text 255 (lower (strip (pr_email p))) && column_text 180 (strip (pr_name p)).

(** The errors the endpoint turns into answers, the refusal of the commit, and
    that of a text no column can hold. *)
Definition registration_failure (storable : bool) (e : exn) : Prop :=
  e = AccountConflictError ∨ e = IntegrityError ∨
  (∃ message, e = AccountEmailDeliveryError message) ∨ (∃ message, e = TenantProvisioningError message) ∨
  (e = DataError ∧ storable = false).
Context (storable : bool).
Abbreviation registration_error := (registration_failure storable).

Lemma flush_or_conflict_fails : fails_with registration_error (or_conflict flush).
Proof.
  intros s e s'. unfold or_conflict, try_catch, flush.
  destruct (flush_session s); [done|]. intros [= <- _]. by left.
Qed.
Lemma flush_user_fails user :
  storable_user user = storable → fails_with registration_error (or_conflict (flush_user user)).
Proof.
  intros Hu s e s'. unfold or_conflict, try_catch, flush_user. rewrite Hu.
  destruct storable; cbn [negb].
  - rewrite (bind_step_ok _ _ s tt s) by done. unfold flush. destruct (flush_session s); [done|].
    intros [= <- _]. by left.
  - intros [= <- _]. by right; right; right; right.
Qed.
Lemma new_user_fails {A} name email locale (k : User.UserEntity → M Auth A) :
  (∀ user, User.email user = lower (strip email) → User.name user = Some (strip name) →
     fails_with registration_error (k user)) →
  fails_with registration_error (user ← new_user name email locale; k user).
Proof.
  intros Hk s e s'.
  assert (Hn : ∃ user s1, new_user name email locale s = (Ok user, s1) ∧
    User.email user = lower (strip email) ∧ User.name user = Some (strip name)) by (eexists _, _; done).
  destruct Hn as (user & s1 & E & He & Hn). rewrite (bind_step_ok _ _ _ _ _ E). by apply Hk.
Qed.
Lemma account_copy_for locale : is_ok (copy_for ACCOUNT_COPY locale) = true.
Proof.
  unfold copy_for, normalize_locale. generalize (lower (replace_char "_" "-" (stripped (JStr locale)))).
  intros c. by repeat case_match.
Qed.
Lemma send_verification_fails email token return_url name locale :
  fails_with registration_error (_send_verification email token return_url name locale).
Proof.
  unfold _send_verification. apply fails_bind.
  - apply fails_never. intros s. unfold lift, account_activation_email. cbn [fst].
    pose proof (account_copy_for locale) as Hc. by destruct (copy_for ACCOUNT_COPY locale).
  - intros message. unfold request_account_email. case_match; [by apply fails_never|].
    apply fails_raise. right; right; left. by eexists.
Qed.
Lemma provision_fails p user_id :
  fails_with registration_error (provision_account_tenant p user_id).
Proof.
  unfold provision_account_tenant. case_match; [by apply fails_never|].
  apply fails_raise. right; right; right; left. by eexists.
Qed.

(** What an accepted body says of the identity document. *)
Lemma registration_identity body p :
  validate_registration body = Some p →
  match pr_identity_document_type p, pr_identity_document_country p, pr_identity_document_value p with
  | Some t, Some c, Some v =>
      mem_str t IdentityDocumentType = true ∧ alpha_code 2 (upper (strip c)) = true ∧
      upper (strip c) = c ∧ is_ok (validate t v) = true ∧ nonempty v = true
  | None, None, None => True
  | _, _, _ => False
  end.
Proof.
  unfold validate_registration. intros (l & _ & Hv)%bind_Some. apply bind_Some in Hv as (u & _ & Hv).
  apply bind_Some in Hv as (name & _ & Hv). apply bind_Some in Hv as (email & _ & Hv).
  apply bind_Some in Hv as (token & _ & Hv). apply bind_Some in Hv as (url & _ & Hv).
  apply bind_Some in Hv as (t & Ht & Hv). apply bind_Some in Hv as (c & Hc & Hv).
  apply bind_Some in Hv as (v & Hval & Hv).
  destruct (identity_accepted t c v) eqn:Ha; [|done]. injection Hv as <-.
  cbn [pr_identity_document_type pr_identity_document_country pr_identity_document_value].
  assert (Nt : opt_nonempty t = given t).
  { destruct t as [t|]; [|done]. apply identity_type_in_ok in Ht. by destruct t. }
  assert (Nc : opt_nonempty c = given c).
  { destruct c as [c|]; [|done]. apply country_in_ok in Hc as [Hc _]. by destruct c. }
  assert (Nv : opt_nonempty v = given v).
  { destruct v as [v|]; [|done]. apply bounded_text_in in Hval. by destruct v. }
  unfold identity_accepted in Ha. rewrite Nt, Nc, Nv in Ha. apply andb_true_iff in Ha as [Hall Hok].
  destruct t as [t|], c as [c|], v as [v|]; try done.
  destruct (country_in_ok _ _ Hc) as [Hc1 Hc2]. cbn in Nt, Nv. rewrite Nt, Nv in Hok.
  split_and!; [by apply identity_type_in_ok in Ht|done..].
Qed.

Lemma accepted_identifier_fails user_id country identity_type value :
  mem_str identity_type IdentityDocumentType = true →
  alpha_code 2 (upper (strip country)) = true → is_ok (validate identity_type value) = true →
  fails_with registration_error (add_identifier user_id country identity_type value).
Proof.
  intros Ht Hc Hv. apply fails_never. intros s.
  destruct (accepted_identifier_run user_id country identity_type value s Ht Hc Hv) as (i & s' & -> & _).
  reflexivity.
Qed.

Lemma register_fails body p :
  validate_registration body = Some p → storable_registration p = storable →
  fails_with registration_error (register p).
Proof.
  intros Hp%registration_identity Hs. unfold register. apply fails_transaction; [by right; left|].
  apply new_user_fails. intros user He Hn. apply fails_bind; [by apply fails_never|intros _].
  apply fails_bind; [apply flush_user_fails; unfold storable_user; by rewrite He, Hn|intros _].
  apply fails_bind; [by apply fails_never|intros _]. apply fails_bind.
  { apply fails_when. intros Hgiven.
    destruct (pr_identity_document_type p) as [t|], (pr_identity_document_country p) as [c|],
      (pr_identity_document_value p) as [v|]; try done.
    destruct Hp as (Ht & Hc & _ & Hv & _).
    apply fails_bind; [by apply accepted_identifier_fails|intros _; apply flush_or_conflict_fails]. }
  intros _. apply fails_bind; [by apply fails_never|intros token].
  apply fails_bind; [apply provision_fails|intros _; apply send_verification_fails].
Qed.

(** The documents stored. *)
Definition identifier_rows (s : Auth) := live (get_table (R := Identifier.UserIdentifierEntity) s).
Lemma flush_identifiers s s' : flush_session s = Some s' → identifier_rows s' = identifier_rows s.
Proof. unfold flush_session; cbn. case_match; [|done]. by intros [= <-]. Qed.
Lemma flush_or_conflict_ok s u s' :
  or_conflict flush s = (Ok u, s') → identifier_rows s' = identifier_rows s.
Proof.
  unfold or_conflict, try_catch, flush. destruct (flush_session s) eqn:E; [|done].
  intros [= _ <-]. by apply flush_identifiers.
Qed.
Lemma registration_stores p t c v s u s' :
  pr_identity_document_type p = Some t → pr_identity_document_country p = Some c →
  pr_identity_document_value p = Some v → mem_str t IdentityDocumentType = true →
  alpha_code 2 (upper (strip c)) = true → is_ok (validate t v) = true → nonempty v = true →
  register p s = (Ok u, s') →
  ∃ i, In i (identifier_rows s') ∧ Identifier.identifier_type i = t ∧
       Identifier.issuing_country i = upper (strip c).
Proof.
  intros Et Ec Ev Ht Hc Hv Hne. unfold register. intros (s1 & Hrun & Hf)%transaction_ok.
  apply flush_identifiers in Hf. rewrite Hf. clear Hf.
  apply bind_ok in Hrun as (user & s2 & _ & Hrun). apply bind_ok in Hrun as (u1 & s3 & _ & Hrun).
  apply bind_ok in Hrun as (u2 & s4 & _ & Hrun). apply bind_ok in Hrun as (u3 & s5 & _ & Hrun).
  apply bind_ok in Hrun as (u4 & s6 & Hdoc & Hrun). rewrite Et, Ec, Ev in Hdoc.
  assert (Hgiven : opt_nonempty (Some t) && opt_nonempty (Some c) && opt_nonempty (Some v) = true).
  { cbn. rewrite Hne. destruct t; [done|]. by destruct c. }
  rewrite Hgiven in Hdoc. cbn [when from_option id] in Hdoc.
  destruct (accepted_identifier_run (User.id user) c t v s5 Ht Hc Hv) as (i & s5' & Hadd & Hi & _ & Hit & Hic).
  rewrite (bind_step_ok _ _ _ _ _ Hadd) in Hdoc. apply flush_or_conflict_ok in Hdoc.
  exists i. split; [|done].
  assert (Hrest : identifier_rows s1 = identifier_rows s6).
  { revert Hrun. apply (preserves_run (same identifier_rows)).
    unfold _issue_token, provision_account_tenant, _send_verification, request_account_email, utc_now,
      token_urlsafe, uuid4, draw. preserve; by apply preserves_modify. }
  unfold identifier_rows in *. rewrite Hrest, Hdoc, Hi. apply in_app_iff. right. by left.
Qed.

End registration.

Section registration_theorem.
Context `{AuthEnv} `{MailAssets}.

End registration_theorem.

(** ** The theorem on a registration *)
Section witnesses.
Import AuthExample.

Definition registration_body : json := JObj
  [("name", JStr "Carol"); ("email", JStr "carol@rubrica.example"); ("preferred_locale", JStr "pt");
   ("identity_document_type", JStr "br_cpf"); ("identity_document_country", JStr "br");
   ("identity_document_value", JStr "529.982.247-25")].
Definition carol : PublicRegistration :=
  mkPublicRegistration "Carol" "carol@rubrica.example" "pt-BR" None None (Some "BR_CPF") (Some "BR")
    (Some "529.982.247-25").

(** What is refused before the service runs. *)
Example refused_bodies :
  map validate_registration
    [JObj [("name", JStr "Carol"); ("email", JStr "carol@example")];
     JObj [("name", JStr "Carol"); ("email", JStr "carol@b.example"); ("identity_document_type", JStr "br_cpf")];
     JObj [("name", JStr "Carol"); ("email", JStr "carol@b.example"); ("role", JStr "signature_admin")];
     JObj [("name", JStr "Carol"); ("email", JStr "carol@b.example"); ("return_url", JStr "/signing/../x")]]
  = [None; None; None; None].
Proof. vm_compute. reflexivity. Qed.
End witnesses.
