(* ===== verification/SessionTheorems.v ===== *)
(** * What the session store guarantees

    Theorems over histories of auth_api: a change of credentials, a logout and
    the replay of a rotated refresh token end sessions for good, whatever is
    called afterwards; a rotation has one winner; a login opens a session that
    works. *)

From S2P Require Import Prelude.
From S2P Require Import PyText.
From S2P Require Import DateTime.
From S2P Require Import Orm.
From S2P Require Import Redis.
From S2P Require Import AuthDb.
From S2P Require Import Mfa.
From S2P Require Import Sessions.
From S2P Require Import EmailTemplates.
From S2P Require Import Accounts.
From S2P Require Import Users.
From S2P Require Import SessionFacts.
From S2P Require Import SessionSteps.
From S2P Require Import AuthSteps.
From S2P Require Import AccountFacts.
From S2P Require Import AuthCalls.
From S2P Require Import TokenFacts.
From S2P Require Import AuthExample.

Local Open Scope Z_scope.
#[local] Opaque uuid_str.

Section usable.
Context `{AuthEnv} `{!AuthLaws} `{MailAssets}.
Implicit Types s : Auth.

(** Some token still opens the session: as an access token, or as a refresh
    token that gets new ones. *)
Definition session_usable s (sid : string) : Prop :=
  (∃ token answer s', current_session token s = (Ok (Some answer), s') ∧ sr_session_id answer = sid) ∨
  (∃ token answer s', refresh token s = (Ok (Some answer), s') ∧ lr_session_id answer = sid).

Lemma refresh_some_run s token r s' :
  auth_inv s → refresh token s = (Ok (Some r), s') →
  ∃ st, token_session s "refresh" token = Some st ∧ active_user s st = true ∧
        rotate token st s = (Ok (Some r), s').
Proof.
  intros Hi. unfold refresh.
  erewrite bind_step_ok by (apply state_for_token_run; [done|set_solver]).
  destruct (token_session s "refresh" token) as [st|] eqn:Ht.
  - pose proof (token_session_ok _ _ _ _ Hi Ht) as Hok.
    erewrite bind_step_ok by (by eapply user_is_active_run).
    destruct (active_user s st) eqn:Ha; cbn [negb].
    + intros Hr. by exists st.
    + by intros (? & ? & _ & ?)%bind_ok.
  - by intros (? & ? & _ & ?)%bind_ok.
Qed.

Lemma rotate_session_id s token st r s' :
  auth_inv s → read_before s st → rotate token st s = (Ok (Some r), s') →
  r = rotation_answer s st.
Proof.
  intros Hi Hrb Hr. destruct (rotate_run s token st Hi Hrb) as [[_ E]|(? & _ & _ & _ & E)]; congruence.
Qed.

Lemma usable_session s sid :
  auth_inv s → session_usable s sid → ∃ st, session_at s sid = Some st ∧ active_user s st = true.
Proof.
  intros Hi [(token & a & s' & Hr & <-)|(token & a & s' & Hr & <-)].
  - rewrite current_session_run in Hr by done.
    destruct (token_session s "access" token) as [st|] eqn:Ht; [|done].
    destruct (active_user s st) eqn:Ha; [|done]. injection Hr as <- <-. exists st.
    split; [by apply (token_session_at _ "access" token)|done].
  - apply refresh_some_run in Hr as (st & Ht & Ha & Hr); [|done]. exists st.
    pose proof (token_session_at _ _ _ _ Hi Ht) as Hs.
    apply rotate_session_id in Hr as ->; [|done|by apply read_before_now]. done.
Qed.

(** A session that is gone stays gone: its identifier is not issued again. *)
Lemma gone_stays s s' sid :
  evolves s s' → drawn_session 0 (Auth.draws s) sid → session_at s sid = None →
  session_at s' sid = None.
Proof.
  intros Hev (n & Hn & ->) Hs. destruct (session_at s' _) as [st|] eqn:E; [|done].
  destruct (ev_sessions _ _ Hev _ _ E) as [(st0 & Hst & _)|(m & Hm & Em)]; [congruence|].
  apply token_of_inj in Em. lia.
Qed.

Lemma gone_unusable s s' sid :
  auth_inv s → auth_runs s s' → drawn_session 0 (Auth.draws s) sid → session_at s sid = None →
  ¬ session_usable s' sid.
Proof.
  intros Hi Hr Hd Hs Hu. destruct (runs_advance _ _ Hr Hi) as [Hi' Hev].
  apply usable_session in Hu as (st & Hst & _); [|done].
  rewrite (gone_stays _ _ _ Hev Hd Hs) in Hst. done.
Qed.

(** A session with an older version than its user's never opens again. *)
Lemma outdated_unusable s s' sid st u v :
  auth_inv s → auth_runs s s' → session_at s sid = Some st → Session.user_id st = uuid_str u →
  version_of s u = Some v → Session.token_version st < v → ¬ session_usable s' sid.
Proof.
  intros Hi Hr Hs Huid Hv Hlt Hu. destruct (runs_advance _ _ Hr Hi) as [Hi' Hev].
  apply usable_session in Hu as (st' & Hst' & Ha); [|done].
  destruct (so_drawn _ _ _ (inv_session_ok _ _ _ Hi Hs)) as (n & Hn & Esid).
  destruct (ev_sessions _ _ Hev _ _ Hst') as [(st0 & Hst & _ & Eu & _ & Ev)|(m & Hm & Em)].
  2:{ rewrite Esid in Em. apply token_of_inj in Em. lia. }
  rewrite Hs in Hst. injection Hst as <-.
  destruct (ev_versions _ _ Hev u v Hv) as (v' & Hv' & Hle).
  unfold active_user in Ha. rewrite Eu, Huid, parse_uuid_str in Ha by (by eapply (inv_ids s)).
  unfold get_row in Ha. unfold version_of, user_rows in Hv'.
  destruct (find_row u (stored _)); [|done].
  destruct (find_row u (live _)) as [user|]; [|done]. simpl in Hv'. injection Hv' as E.
  apply andb_true_iff in Ha as [_ Ha%Z.eqb_eq]. lia.
Qed.
End usable.

(** ** The theorems *)
Section theorems.
Context `{AuthEnv} `{!AuthLaws} `{MailAssets}.
Implicit Types s : Auth.

(** C16: Verifying an e-mail address or resetting a password ends every session
    its owner had: after the change, and after any further history of the
    service, no access token and no refresh token opens one of those sessions
    again. *)
Theorem credentials_change_ends_sessions s raw_token new_password s1 s2 :
  auth_inv s → consistent s →
  verify_email raw_token new_password s = (Ok tt, s1) ∨
    reset_password raw_token new_password s = (Ok tt, s1) →
  auth_runs s1 s2 →
  ∃ t, In t (token_rows s) ∧ AccountToken.token_hash t = _digest raw_token ∧
    ∀ sid st, session_at s sid = Some st →
      Session.user_id st = uuid_str (AccountToken.user_id t) → ¬ session_usable s2 sid.
Proof.
  intros Hi Hs Hchange Hr.
  assert (Hc : ∃ t v, In t (token_rows s) ∧ AccountToken.token_hash t = _digest raw_token ∧
    version_of s (AccountToken.user_id t) = Some v ∧
    version_of s1 (AccountToken.user_id t) = Some (v + 1) ∧
    Auth.redis s1 = Auth.redis s ∧ Auth.clock s1 = Auth.clock s ∧ auth_inv s1).
  { destruct Hchange as [Hrun|Hrun].
    - destruct (quiet_preserves _ (verify_email_quiet raw_token new_password) s Hi) as [Hi1 _].
      rewrite Hrun in Hi1.
      apply (change_run "verify_email" (λ h u, u <| User.password_hash := h |>
        <| User.email_verified := true |> <| User.is_active := true |>
        <| User.token_version ::= λ v, v + 1 |>)) in Hrun
        as (t & v & ? & [? _] & ? & ? & _ & ? & ?); [|done..]. by exists t, v.
    - destruct (quiet_preserves _ (reset_password_quiet raw_token new_password) s Hi) as [Hi1 _].
      rewrite Hrun in Hi1.
      apply (change_run "reset_password" (λ h u, u <| User.password_hash := h |>
        <| User.token_version ::= λ v, v + 1 |>)) in Hrun
        as (t & v & ? & [? _] & ? & ? & _ & ? & ?); [|done..]. by exists t, v. }
  destruct Hc as (t & v & Hin & Hh & Hv & Hv1 & Hredis & Hclock & Hi1).
  exists t. split; [done|]. split; [done|]. intros sid st Hst Huid.
  assert (Hst1 : session_at s1 sid = Some st).
  { unfold session_at, found in *. by rewrite Hredis, Hclock. }
  apply (outdated_unusable s1 s2 sid st (AccountToken.user_id t) (v + 1)); try done.
  destruct (so_user _ _ _ (inv_session_ok _ _ _ Hi Hst)) as (u & v' & Hu & Eu & Hv' & Hle).
  rewrite Eu in Huid. apply uuid_str_inj in Huid as ->; [|done|by eapply (inv_ids s)].
  rewrite Hv in Hv'. injection Hv' as <-. lia.
Qed.

(** What a rotation leaves of the token it used. *)
Lemma rotation_spends s token st current :
  Session.refresh_key st = _token_key "refresh" token →
  found (after_two_draws s <| Auth.redis := rotated_store s token st current |>)
    (_token_key "refresh" token) = None ∨
  ∃ t, drawn_token "refresh" (Auth.draws s) (N.succ (N.succ (Auth.draws s))) t ∧
       _token_key "refresh" token = _token_key "refresh" t.
Proof.
  intros Er. unfold found. simpl. unfold rotated_store.
  destruct (install_pointer (Auth.clock s) (next_state s st)
    (<[_token_key "used-refresh" token := Entry (RText (Session.session_id st))
         (Some (session_deadline (Auth.clock s)))]>
      (delete (Session.access_key current) (delete (Session.refresh_key st) (Auth.redis s))))
    "refresh" token) as [(e & _ & _ & Hk)|E]; [set_solver| |].
  - right. destruct Hk as [Hk|Hk]; [revert Hk; key_ne|]. eexists. split; [|exact Hk].
    eexists. split; [|reflexivity]. lia.
  - left. rewrite E, find_key_insert_ne by key_ne. rewrite Er.
    unfold find_key. destruct (decide (Session.access_key current = _token_key "refresh" token)) as [->|?].
    + by rewrite lookup_delete_eq.
    + by rewrite lookup_delete_ne, lookup_delete_eq.
Qed.

Lemma read_token_drawn s st token :
  read_before s st → Session.refresh_key st = _token_key "refresh" token →
  drawn_token "refresh" 0 (Auth.draws s) token ∧
  drawn_session 0 (Auth.draws s) (Session.session_id st).
Proof.
  intros (s0 & Hi0 & Hev & Hst0) Er.
  destruct (inv_session_ok _ _ _ Hi0 Hst0) as [_ Hd _ _ (t & Ht & Et)].
  rewrite Er in Et. apply token_key_inj in Et as ->. pose proof (ev_draws _ _ Hev).
  split; [by eapply drawn_widen; [..|exact Ht]|by eapply drawn_session_widen; [..|exact Hd]].
Qed.

Lemma rotation_spent s token st r s1 :
  auth_inv s → read_before s st → Session.refresh_key st = _token_key "refresh" token →
  rotate token st s = (Ok (Some r), s1) →
  spent s1 token ∧ lr_session_id r = Session.session_id st ∧
  Auth.redis s1 !! _token_key "used-refresh" token =
    Some (Entry (RText (lr_session_id r)) (Some (session_deadline (Auth.clock s)))) ∧
  drawn_session 0 (Auth.draws s1) (lr_session_id r) ∧ Auth.clock s1 = Auth.clock s.
Proof.
  intros Hi Hrb Er Hr.
  destruct (rotate_run s token st Hi Hrb) as [[_ E]|(current & Hp & Hc & _ & E)]; [congruence|].
  rewrite E in Hr. injection Hr as <- <-. cbn [rotation_answer lr_session_id].
  destruct (read_token_drawn _ _ _ Hrb Er) as [Htok Hsid]. split_and!; try done.
  - split; [by eapply drawn_widen; [..|exact Htok]; simpl; lia|].
    destruct (rotation_spends s token st current Er) as [?|(t & (n & Hn & ->) & Et)]; [done|].
    exfalso. apply token_key_inj in Et. destruct Htok as (m & Hm & Em). rewrite Em in Et.
    do 2 apply (inj (String.append _)) in Et. apply token_of_inj in Et. lia.
  - simpl. unfold rotated_store, install. cbn.
    rewrite !lookup_insert_ne by key_ne. by rewrite lookup_insert_eq.
  - eapply drawn_session_widen; [..|exact Hsid]; simpl; lia.
Qed.

Lemma spent_no_session s token : spent s token → token_session s "refresh" token = None.
Proof. intros [_ Hf]. unfold token_session, pointed. by rewrite Hf. Qed.

(** The second use of a rotated token. *)
Lemma refresh_spent_run s token :
  auth_inv s → spent s token →
  ∃ s', refresh token s = (Ok None, s') ∧
    ∀ sid t, Auth.redis s !! _token_key "used-refresh" token = Some (Entry (RText sid) (Some t)) →
      Auth.clock s < t → drawn_session 0 (Auth.draws s) sid →
      session_at s' sid = None ∧ auth_inv s' ∧ drawn_session 0 (Auth.draws s') sid.
Proof.
  intros Hi Hsp. unfold refresh.
  erewrite bind_step_ok by (apply state_for_token_run; [done|set_solver]).
  rewrite spent_no_session by done. unfold revoke_reused.
  assert (Hget : ∀ sid t, Auth.redis s !! _token_key "used-refresh" token = Some (Entry (RText sid) (Some t)) →
      Auth.clock s < t → pointed s (_token_key "used-refresh" token) = Some sid).
  { intros sid t Hrec Ht. unfold pointed, found, find_key. by rewrite Hrec, not_expired. }
  set (used := pointed s (_token_key "used-refresh" token)) in *.
  assert (Hrun : get_text (_token_key "used-refresh" token) s = (Ok used, s))
    by (apply get_text_run; [done|set_solver]).
  assert (Hnone : ∀ sid, nonempty sid = false → drawn_session 0 (Auth.draws s) sid → False).
  { intros sid Hne (n & _ & ->). by rewrite token_nonempty in Hne. }
  destruct used as [sid|].
  2:{ exists s. split; [|by intros sid t Hrec Ht; specialize (Hget _ _ Hrec Ht)].
      erewrite bind_step_ok; [reflexivity|]. by erewrite bind_step_ok by exact Hrun. }
  destruct (nonempty sid) eqn:Hne.
  2:{ exists s. split.
      - erewrite bind_step_ok; [reflexivity|]. erewrite bind_step_ok by exact Hrun.
        cbn [opt_nonempty]. by rewrite Hne.
      - intros sid' t Hrec Ht Hd. exfalso. specialize (Hget _ _ Hrec Ht). injection Hget as ->.
        by eapply Hnone. }
  destruct (session_at s sid) as [st|] eqn:Hst.
  - destruct (revoke_run s sid st Hi (inv_session_ok _ _ _ Hi Hst)) as (db & Hrev & Hdrop).
    eexists. split.
    { erewrite bind_step_ok; [reflexivity|]. erewrite bind_step_ok by exact Hrun.
      cbn [opt_nonempty]. rewrite Hne. unfold when. erewrite bind_step_ok by (by apply load_state_run).
      rewrite Hne, Hst. exact Hrev. }
    intros sid' t Hrec Ht Hd. specialize (Hget _ _ Hrec Ht). injection Hget as ->.
    rewrite (drops_session_at _ _ _ _ Hdrop), decide_True by done.
    destruct (drops_advances _ _ _ Hdrop Hi) as [Hi' _]. done.
  - exists s. split.
    { erewrite bind_step_ok; [reflexivity|]. erewrite bind_step_ok by exact Hrun.
      cbn [opt_nonempty]. rewrite Hne. unfold when. erewrite bind_step_ok by (by apply load_state_run).
      by rewrite Hne, Hst. }
    intros sid' t Hrec Ht Hd. specialize (Hget _ _ Hrec Ht). by injection Hget as ->.
Qed.

(** C15: A refresh token works once: after a successful refresh, and any further
    history, the same token is refused, at any time.  When that happens within
    AUTH_SESSION_TTL_SECONDS of the successful refresh, as long as the record of
    the used token lives, the refusal also ends the session, with the tokens
    the first use had issued, for good.  (A replay after that is refused without
    ending the session, which later refreshes may have prolonged.) *)
Theorem refresh_reuse_ends_the_session s token r s1 s2 :
  auth_inv s → refresh token s = (Ok (Some r), s1) → auth_runs s1 s2 →
  ∃ s3, refresh token s2 = (Ok None, s3) ∧
    (Auth.clock s2 < deadline (Auth.clock s) (AUTH_SESSION_TTL_SECONDS settings) →
     ∀ s4, auth_runs s3 s4 → ¬ session_usable s4 (lr_session_id r)).
Proof.
  intros Hi Hr Hruns. destruct (refresh_advances token s Hi) as [Hi1 _]. rewrite Hr in Hi1.
  apply refresh_some_run in Hr as (st & Ht & _ & Hrot); [|done].
  destruct (rotation_spent s token st r s1) as (Hsp & Hid & Hrec & Hd & Hclock); try done.
  { apply read_before_now; [done|]. by apply (token_session_at _ "refresh" token). }
  { by apply (token_session_key s "refresh"). }
  destruct (runs_advance _ _ Hruns Hi1) as [Hi2 Hev].
  pose proof (spent_stays _ _ _ Hev Hsp) as Hsp2.
  destruct (refresh_spent_run s2 token Hi2 Hsp2) as (s3 & Hrun & Hend).
  exists s3. split; [done|]. intros Hlt s4 Hr4.
  apply (ev_used _ _ Hev) in Hrec; [|done].
  destruct (Hend _ _ Hrec Hlt) as (Hgone & Hi3 & Hd3).
  { eapply drawn_session_widen; [..|exact Hd]; [done|]. apply Hev. }
  by apply (gone_unusable s3).
Qed.

(** C35: Of concurrent refreshes with one token a single one gets new tokens:
    when a rotation based on a reading of the session has succeeded, every other
    rotation for that token, based on a reading made at any time before it,
    gets nothing and changes nothing in the store. *)
Theorem concurrent_refresh_one_winner s0 token st s1 r s2 s3 s0' st' :
  auth_inv s0 → token_session s0 "refresh" token = Some st → auth_runs s0 s1 →
  rotate token st s1 = (Ok (Some r), s2) → auth_runs s2 s3 →
  auth_inv s0' → token_session s0' "refresh" token = Some st' → auth_runs s0' s3 →
  ∃ s4, rotate token st' s3 = (Ok None, s4) ∧ Auth.redis s4 = Auth.redis s3 ∧ Auth.db s4 = Auth.db s3.
Proof.
  intros Hi0 Ht Hr01 Hrot Hr23 Hi0' Ht' Hr0'.
  destruct (runs_advance _ _ Hr01 Hi0) as [Hi1 Hev01].
  assert (Hrb : read_before s1 st) by (by apply (read_earlier s0 s1 token)).
  assert (Er : Session.refresh_key st = _token_key "refresh" token)
    by (by apply (token_session_key s0 "refresh")).
  destruct (rotation_spent s1 token st r s2) as (Hsp & _); try done.
  destruct (rotate_advances s1 token st Er Hrb Hi1) as [Hi2 _]. rewrite Hrot in Hi2.
  destruct (runs_advance _ _ Hr23 Hi2) as [Hi3 Hev23].
  apply (spent_stays _ _ _ Hev23) in Hsp as [_ Hf].
  assert (Er' : Session.refresh_key st' = _token_key "refresh" token)
    by (by apply (token_session_key s0' "refresh")).
  destruct (runs_advance _ _ Hr0' Hi0') as [_ Hev0'].
  destruct (rotate_run s3 token st' Hi3) as [[_ E]|(current & Hp & _)].
  { by apply (read_earlier s0' s3 token). }
  - by exists (after_two_draws s3).
  - exfalso. rewrite Er' in Hp. unfold pointed in Hp. by rewrite Hf in Hp.
Qed.

(** Logging out everywhere ends exactly the sessions of the caller: none of
    them is opened by any token afterwards, over any further history, and the
    sessions of other users are left as they were. *)
Theorem logout_all_ends_every_session s access_token s1 :
  auth_inv s → logout_all access_token s = (Ok true, s1) →
  ∃ st, token_session s "access" access_token = Some st ∧
    (∀ s2 sid st', auth_runs s1 s2 → session_at s sid = Some st' →
       Session.user_id st' = Session.user_id st → ¬ session_usable s2 sid) ∧
    (∀ sid st', session_at s sid = Some st' → Session.user_id st' ≠ Session.user_id st →
       session_at s1 sid = Some st').
Proof.
  intros Hi Hrun. destruct (token_session s "access" access_token) as [st|] eqn:Ht.
  2:{ unfold logout_all in Hrun.
      erewrite bind_step_ok in Hrun by (apply state_for_token_run; [done|set_solver]).
      rewrite Ht in Hrun. discriminate Hrun. }
  destruct (logout_all_run s access_token st Hi Ht) as (s' & Hrun' & Hi1 & Hev & _ & Hat).
  rewrite Hrun in Hrun'. injection Hrun' as <-. exists st. split; [done|]. split.
  - intros s2 sid st' Hr Hst Huser. apply (gone_unusable s1); [done|done| |].
    + destruct (inv_session_ok _ _ _ Hi Hst) as [_ Hd _ _ _].
      eapply drawn_session_widen; [..|exact Hd]; [done|]. apply Hev.
    + by rewrite Hat, Hst, decide_True.
  - intros sid st' Hst Huser. by rewrite Hat, Hst, decide_False.
Qed.

(** The session a login stores is read back through its access token. *)
Lemma installed_current s st token s' :
  auth_inv s' → Auth.clock s' = Auth.clock s →
  Auth.redis s' = install (Auth.clock s) st (Auth.redis s) → keyed st →
  Session.access_key st = _token_key "access" token → nonempty (Session.session_id st) = true →
  active_user s' st = true →
  current_session token s' =
    (Ok (Some (mkSessionRead (Session.session_id st) (Session.subject st))), s').
Proof.
  intros Hi Hc Hr Hkey Ha Hne Hact. rewrite current_session_run by done.
  assert (Hp : pointed s' (_token_key "access" token) = Some (Session.session_id st)).
  { unfold pointed, found. rewrite Hc, Hr. pose proof Hkey as [_ [tr Er]]. unfold install.
    rewrite find_key_insert_ne by key_ne. rewrite Er, find_key_insert_ne by key_ne.
    rewrite <- Ha, find_key_insert, not_expired; [done|]. apply deadline_later, access_ttl_positive. }
  assert (Hs : session_at s' (Session.session_id st) = Some st).
  { unfold session_at, found. by rewrite Hc, Hr, install_session, decide_True by done. }
  assert (Ht : token_session s' "access" token = Some st).
  { unfold token_session. rewrite Hp. cbn [mbind option_bind]. rewrite Hne. cbn.
    rewrite Hs. cbn. unfold names_key. simpl. rewrite Ha, String.eqb_refl. done. }
  by rewrite Ht, Hact.
Qed.

(** A login that is answered with tokens was made with the e-mail and the
    password of an active, verified user without a second factor, and its access
    token opens the session of that user at once. *)
Theorem login_opens_a_session s p r s1 :
  auth_inv s → consistent s → login p s = (Ok (Some (LoggedIn r)), s1) →
  ∃ user, In user (user_rows s) ∧ User.email user = lower (strip (lr_email p)) ∧
    User.is_active user = true ∧ User.email_verified user = true ∧
    User.mfa_enabled user = false ∧
    verify_password (lr_password p) (User.password_hash user) = true ∧
    current_session (access_token r) s1 =
      (Ok (Some (mkSessionRead (lr_session_id r) (User.email user))), s1).
Proof.
  intros Hi Hs Hrun. destruct (serve_advances (Login p) s Hi) as [Hi1 _]. cbn [serve] in Hi1.
  rewrite discard_state, Hrun in Hi1. cbn [snd] in Hi1.
  unfold login in Hrun. apply bind_ok in Hrun as (a & s2 & Hc & Hrun).
  pose proof (preserves_run strides _ _ _ _ (count_attempt_strides _ _ (login_key_other _)) Hc)
    as [Hadv _]. destruct (Hadv Hi) as [Hi2 _].
  apply (preserves_run (same Auth.db)) in Hc; [|unfold count_attempt; preserve; apply redis_same_db].
  unfold same in Hc. destruct (10 <? a); [discriminate Hrun|].
  apply read_session_state in Hrun as (s3 & Hrun & Es1).
  assert (Hs2 : consistent s2) by (unfold consistent; by rewrite Hc).
  assert (Hsel : ∀ P, scalar (R := User.UserEntity) P s2 = (Ok (List.find P (user_rows s2)), s2)).
  { intros P. unfold scalar, gets. simpl get_table.
    by rewrite select_clean, head_filter by (apply (users_clean _ Hs2) || apply (user_keys_distinct _ Hs2)). }
  erewrite bind_step_ok in Hrun by apply Hsel.
  destruct (List.find _ (user_rows s2)) as [user|] eqn:Ef; [|discriminate Hrun].
  apply List.find_some in Ef as [Hin Hemail%String.eqb_eq].
  destruct (negb (User.is_active user) || negb (User.email_verified user)) eqn:Eact; [discriminate Hrun|].
  apply orb_false_iff in Eact as [Hact%negb_false_iff Hver%negb_false_iff].
  destruct (negb (verify_password _ _)) eqn:Epw; [discriminate Hrun|]. apply negb_false_iff in Epw.
  apply bind_ok in Hrun as ([] & s4 & Hdel & Hrun).
  assert (Hst : preserves strides (redis (λ _, DEL [_token_key "login-attempts" (lower (strip (lr_email p)))])))
    by (apply redis_strides, DEL_avoids; repeat constructor; eauto with keys).
  pose proof (preserves_run strides _ _ _ _ Hst Hdel) as [Hd4 _]. destruct (Hd4 Hi2) as [Hi4 _].
  pose proof (preserves_run (same Auth.db) _ _ _ _ (redis_same_db _) Hdel) as Hdb4.
  unfold same in Hdb4. clear Hst Hd4 Hdel.
  destruct (User.mfa_enabled user) eqn:Emfa;
    [by apply bind_ok in Hrun as (? & ? & _ & ?)|].
  apply bind_ok in Hrun as (r' & s5 & Hcr & Hrun). injection Hrun as -> <-.
  assert (Hu4 : find_row (User.id user) (live (AuthTables.users (Auth.db s4))) = Some user).
  { rewrite Hdb4. by apply (find_row_in _ user); [apply (user_keys_distinct _ Hs2)|]. }
  unfold _create_session in Hcr. erewrite bind_step_ok in Hcr by (apply deref_ok; by split).
  erewrite bind_step_ok in Hcr by reflexivity.
  rewrite store_session_run in Hcr by (by apply (quiet_advances s4 _ (token_quiet 18 s4))).
  injection Hcr as <- <-. exists user. unfold user_rows in Hin. rewrite Hc in Hin.
  do 6 (split; [done|]). rewrite Es1 in *.
  match goal with |- current_session _ ?s' = _ => set (final := s') end.
  pose proof (installed_current (s4 <| Auth.draws := N.succ (Auth.draws s4) |>)
    (next_session (s4 <| Auth.draws := N.succ (Auth.draws s4) |>) (token_of (Auth.draws s4) 18)
       (User.id user) (User.email user) (User.token_version user))
    ("access_" +:+ token_of (N.succ (Auth.draws s4)) 32) final) as Hcur.
  apply Hcur; [done|done|done| |reflexivity|apply token_nonempty|].
  - split; by eexists.
  - assert (Hfind : find_row (User.id user) (live (AuthTables.users (Auth.db s))) = Some user)
      by (by rewrite <- Hc, <- Hdb4).
    unfold active_user, next_session. cbn [Session.user_id Session.token_version].
    rewrite parse_uuid_str.
    2:{ apply (inv_ids s Hi _ (User.token_version user)). unfold version_of, user_rows. by rewrite Hfind. }
    assert (Auth.db final = Auth.db s) as -> by (rewrite <- Hc; reflexivity). rewrite get_row_clean by (by apply users_clean).
    by rewrite Hfind, Hact, Z.eqb_refl.
Qed.

(** The store by the family of its keys. *)
Record well_typed s : Prop := {
  typed_sessions : ∀ sid e, found s (_session_key sid) = Some e → ∃ st u,
    value e = RJson st ∧ Session.session_id st = sid ∧ Session.user_id st = uuid_str u ∧
    is_Some (version_of s u);
  typed_listing : ∀ sid e, found s (_session_key sid) = Some e → ∃ st ms x t,
    value e = RJson st ∧ expires e = Some x ∧
    found s (_user_sessions_key (Session.user_id st)) = Some (Entry (RSet ms) (Some t)) ∧
    sid ∈ ms ∧ x ≤ t;
  typed_sets : ∀ u e, found s (_user_sessions_key u) = Some e → ∃ ms, value e = RSet ms ∧
    ∀ sid st, sid ∈ ms → session_at s sid = Some st → Session.user_id st = u;
  typed_pointers : ∀ kind token e, kind ∈ ["access"; "refresh"; "used-refresh"] →
    found s (_token_key kind token) = Some e → ∃ t, value e = RText t
}.

(** C17: In every state the service reaches, each key of the session store holds
    what its name says: a session key the session of that identifier, of an
    existing user, listed until it expires in the set of that user; the key of a
    user the set of his sessions only; a token key a text.  So reading a token
    never fails on the store, whatever the token. *)
Theorem session_store_is_typed s s' :
  auth_inv s → auth_runs s s' →
  well_typed s' ∧ ∀ token, ∃ answer, current_session token s' = (Ok answer, s').
Proof.
  intros Hi Hr. destruct (runs_advance _ _ Hr Hi) as [Hi' _]. split.
  - split.
    + intros sid e (st & Hv & [Hid _ (u & v & _ & Eu & Ev & _) _ _] & _)%(inv_sessions _ Hi').
      exists st, u. split_and!; [done..|by eexists].
    + intros sid e (st & Hv & _ & x & ms & t & Hx & _ & Hset & Hin & Hle)%(inv_sessions _ Hi').
      by exists st, ms, x, t.
    + intros u e (ms & Hv & Hok)%(inv_sets _ Hi'). exists ms. split; [done|].
      intros sid st Hin Hst. by apply (Hok sid Hin).
    + intros kind token e Hk He. by eapply (inv_pointers _ Hi').
  - intros token. eexists. by apply current_session_run.
Qed.
End theorems.

(** ** Instances: Alice is logged in *)
Import AuthExample.

Definition reset_state : Auth := (reset_password recovery_link "New1!" logged_in).2.
Lemma credentials_change_ends_sessions_witness :
  ∃ t, In t (token_rows logged_in) ∧ AccountToken.token_hash t = _digest recovery_link ∧
    ∀ sid st, session_at logged_in sid = Some st →
      Session.user_id st = uuid_str (AccountToken.user_id t) → ¬ session_usable reset_state sid.
Proof.
  refine (credentials_change_ends_sessions logged_in recovery_link "New1!" reset_state reset_state
    logged_in_inv logged_in_consistent (or_intror _) (auth_starts _)).
  unfold reset_state. apply run_outcome. vm_compute. reflexivity.
Defined.

Definition refreshed : Auth := (refresh (refresh_token tokens) logged_in).2.
Definition new_tokens : LoginResponse := mkLoginResponse "access_txxxx" "refresh_txxxxx" "tx".
Lemma alice_refreshes : refresh (refresh_token tokens) logged_in = (Ok (Some new_tokens), refreshed).
Proof. unfold refreshed. apply run_outcome. vm_compute. reflexivity. Qed.
Lemma refresh_reuse_ends_the_session_witness :
  ∃ s3, refresh (refresh_token tokens) refreshed = (Ok None, s3) ∧
    (Auth.clock refreshed < deadline (Auth.clock logged_in) (AUTH_SESSION_TTL_SECONDS settings) →
     ∀ s4, auth_runs s3 s4 → ¬ session_usable s4 "tx").
Proof.
  exact (refresh_reuse_ends_the_session logged_in (refresh_token tokens) new_tokens refreshed
    refreshed logged_in_inv alice_refreshes (auth_starts _)).
Defined.

Definition alice_session : SessionState :=
  Session.make "tx" (uuid_str 1) "alice@rubrica.example" 1
    (_token_key "access" (access_token tokens)) (_token_key "refresh" (refresh_token tokens)).
Lemma alice_reads : token_session logged_in "refresh" (refresh_token tokens) = Some alice_session.
Proof. vm_compute. reflexivity. Qed.
Definition rotated : Auth := (rotate (refresh_token tokens) alice_session logged_in).2.
Lemma concurrent_refresh_one_winner_witness :
  ∃ s4, rotate (refresh_token tokens) alice_session rotated = (Ok None, s4) ∧
    Auth.redis s4 = Auth.redis rotated ∧ Auth.db s4 = Auth.db rotated.
Proof.
  refine (concurrent_refresh_one_winner logged_in (refresh_token tokens) alice_session logged_in
    new_tokens rotated rotated logged_in alice_session logged_in_inv alice_reads (auth_starts _) _
    (auth_starts _) logged_in_inv alice_reads _).
  - unfold rotated. apply run_outcome. vm_compute. reflexivity.
  - unfold rotated. eapply then_rotates; [apply auth_starts|exact alice_reads|apply auth_starts].
Defined.

Definition logged_out : Auth := (logout_all (access_token tokens) logged_in).2.
Lemma logout_all_ends_every_session_witness :
  ∃ st, token_session logged_in "access" (access_token tokens) = Some st ∧
    (∀ s2 sid st', auth_runs logged_out s2 → session_at logged_in sid = Some st' →
       Session.user_id st' = Session.user_id st → ¬ session_usable s2 sid) ∧
    (∀ sid st', session_at logged_in sid = Some st' → Session.user_id st' ≠ Session.user_id st →
       session_at logged_out sid = Some st').
Proof.
  refine (logout_all_ends_every_session logged_in (access_token tokens) logged_out logged_in_inv _).
  unfold logged_out. apply run_outcome. vm_compute. reflexivity.
Defined.

Lemma login_opens_a_session_witness :
  ∃ user, In user (user_rows start) ∧ User.email user = lower (strip (lr_email alice_login)) ∧
    User.is_active user = true ∧ User.email_verified user = true ∧
    User.mfa_enabled user = false ∧
    verify_password (lr_password alice_login) (User.password_hash user) = true ∧
    current_session (access_token tokens) logged_in =
      (Ok (Some (mkSessionRead (lr_session_id tokens) (User.email user))), logged_in).
Proof.
  exact (login_opens_a_session start alice_login tokens logged_in start_inv start_consistent
    alice_logs_in).
Defined.

Lemma session_store_is_typed_witness :
  well_typed refreshed ∧ ∃ answer, current_session "" refreshed = (Ok answer, refreshed).
Proof.
  destruct (session_store_is_typed logged_in refreshed logged_in_inv) as [Ht Hread].
  - unfold refreshed. pose proof (then_serves logged_in logged_in (Refresh (refresh_token tokens))
      (auth_starts _)) as Hr.
    cbn [serve] in Hr. by rewrite discard_state in Hr.
  - split; [exact Ht|apply Hread].
Defined.
