(* ===== verification/CounterFacts.v ===== *)
(** * Counters: login attempts and guesses of a second factor

    Which calls touch the counter of a login, a challenge and the counter of its
    guesses; the bounds the counters enforce over histories of the service. *)

From S2P Require Import Prelude.
From S2P Require Import PyText.
From S2P Require Import DateTime.
From S2P Require Import Orm.
From S2P Require Import Redis.
From S2P Require Import AuthDb.
From S2P Require Import Mfa.
From S2P Require Import Sessions.
From S2P Require Import EmailTemplates.
From S2P Require Import Accounts.
From S2P Require Import Users.
From S2P Require Import SessionFacts.
From S2P Require Import SessionSteps.
From S2P Require Import AuthSteps.
From S2P Require Import AuthCalls.

Local Open Scope Z_scope.
#[local] Opaque uuid_str.

Section keeping.
Context `{AuthEnv} `{!AuthLaws} `{MailAssets} (k : string).
Implicit Types s : Auth.

(** The keys of this file. *)
Inductive guard_key : string → Prop :=
| guard_login x : guard_key (_token_key "login-attempts" x)
| guard_challenge x : guard_key (_token_key "mfa" x)
| guard_attempts x : guard_key (_token_key "mfa-attempts" x).

Lemma guard_not_store k' : guard_key k' → ¬ store_key k'.
Proof. intros [x|x|x]; not_store. Qed.
Lemma guard_not_rate k' x : guard_key k' → prefixed ("mfa-rate:" +:+ x) ≠ k'.
Proof. intros [y|y|y]; key_ne. Qed.

(** If the key is a challenge, its ticket was drawn. *)
Definition issued s : Prop := ∀ n, k = _token_key "mfa" (token_of n 48) → (n < Auth.draws s)%N.

(** The step leaves the key and the versions of the users alone. *)
Definition keeps : relation Auth := λ s s',
  auth_inv s → auth_inv s' ∧ steady s s' ∧ Auth.clock s' = Auth.clock s ∧
    (Auth.draws s ≤ Auth.draws s')%N ∧
    (issued s → Auth.redis s' !! k = Auth.redis s !! k).
#[export] Instance keeps_preorder : PreOrder keeps.
Proof.
  split; [intros s Hi; do 2 (split; [done|]); by repeat split|]. intros s1 s2 s3 H12 H23 Hi.
  destruct (H12 Hi) as (Hi2 & Hv2 & Hc2 & Hd2 & Hk2).
  destruct (H23 Hi2) as (Hi3 & Hv3 & Hc3 & Hd3 & Hk3).
  split; [done|]. split; [by etrans|]. split; [congruence|]. split; [lia|].
  intros Ho. rewrite Hk3, Hk2; [done..|]. intros n En. specialize (Ho n En). lia.
Qed.

Lemma keeps_same s : keeps s s.
Proof. reflexivity. Qed.

Lemma silent_keeps s s' : silent s s' → keeps s s'.
Proof.
  intros Hs Hi. destruct (quiet_advances _ _ (silent_quiet _ _ Hs) Hi) as [Hi' _].
  destruct Hs as [Hc Hd Hr Hv]. split; [done|]. split; [done|]. split_and!; try done. by rewrite Hr.
Qed.
Lemma silent_preserves_keeps {A} (m : M Auth A) : preserves silent m → preserves keeps m.
Proof. apply preserves_mono, silent_keeps. Qed.

Lemma rollback_keeps s s1 : keeps s s1 → keeps s (rollback_session s s1).
Proof.
  intros Hk Hi. destruct (Hk Hi) as (Hi1 & Hv & Hc & Hd & He).
  split; [|by split_and!]. refine (proj1 (quiet_advances s1 _ _ Hi1)).
  by apply same_quiet.
Qed.
Lemma transaction_keeps_key {A} (m : M Auth A) : preserves keeps m → preserves keeps (transaction m).
Proof. apply transaction_closed; [apply _|apply silent_keeps|apply rollback_keeps]. Qed.
Lemma read_keeps_key {A} (m : M Auth A) : preserves keeps m → preserves keeps (read_session m).
Proof.
  intros Hm s. specialize (Hm s). unfold read_session.
  destruct (m s) as [r s1]. by apply rollback_keeps.
Qed.

(** A step that strides and leaves the key alone. *)
Lemma strides_keeps s s' :
  strides s s' → Auth.clock s' = Auth.clock s →
  (auth_inv s → issued s → Auth.redis s' !! k = Auth.redis s !! k) → keeps s s'.
Proof.
  intros [Hadv Hv] Hc Hk Hi. destruct (Hadv Hi) as [Hi' Hev].
  split; [done|]. split; [done|]. split_and!; [done|apply Hev|by apply Hk].
Qed.

(** Commands on other keys. *)
Lemma redis_keeps {A} (c : Z → M (keyspace SessionState) A) :
  avoids c → (∀ now db, (c now db).2 !! k = db !! k) → preserves keeps (redis c).
Proof.
  intros Hav Hk s. apply strides_keeps; [by apply redis_strides| |].
  - unfold redis. by destruct (c _ _).
  - intros _ _. unfold redis. specialize (Hk (Auth.clock s) (Auth.redis s)).
    by destruct (c _ _).
Qed.
Lemma redis_read_keeps {A} (c : Z → M (keyspace SessionState) A) :
  (∀ now db, (c now db).2 = db) → preserves keeps (redis c).
Proof. intros Hc. apply redis_keeps; [intros now db k' _|intros now db]; by rewrite Hc. Qed.
End keeping.

#[export] Hint Extern 5 (preserves (keeps _) _) =>
  apply silent_preserves_keeps; solve [eauto 2 with preserve typeclass_instances] : preserve.

Lemma redis_same_clock {A} (c : Z → M (keyspace SessionState) A) :
  preserves (same Auth.clock) (redis c).
Proof. intros s. unfold redis. by destruct (c _ _). Qed.

(** ** The operations on sessions leave counters and challenges alone *)
Section session_keeping.
Context `{AuthEnv} `{!AuthLaws} `{MailAssets} (k : string) (Hk : guard_key k).
Implicit Types s : Auth.

Lemma other_keys k' : store_key k' → k' ≠ k.
Proof. intros Hs ->. by apply (guard_not_store k). Qed.

Lemma install_others now st db : keyed st → install now st db !! k = db !! k.
Proof.
  intros [[ta Ha] [tr Hr]]. unfold install. rewrite Ha, Hr.
  rewrite !lookup_insert_ne; [done|apply other_keys; constructor; set_solver..].
Qed.

Lemma create_session_keeps u : preserves (keeps k) (_create_session u).
Proof.
  intros s. apply strides_keeps; [apply create_session_strides| |].
  - unfold _create_session, deref, mbind, M_bind.
    destruct (find_row u _) as [user|]; [|done].
    assert (Hc : preserves (same Auth.clock) (_store_session (token_of (Auth.draws s) 18)
      (User.id user) (User.email user) (User.token_version user))).
    { unfold _store_session, _new_token, token_urlsafe, draw. preserve.
      all: try apply redis_same_clock. all: by intros s'. }
    specialize (Hc (s <| Auth.draws := N.succ (Auth.draws s) |>)). exact Hc.
  - intros Hi _. unfold _create_session, deref, mbind, M_bind.
    destruct (find_row u _) as [user|]; [|done].
    change (token_urlsafe 18 s) with
      (Ok (token_of (Auth.draws s) 18), s <| Auth.draws := N.succ (Auth.draws s) |>).
    cbv iota beta. rewrite store_session_run.
    + simpl. apply install_others. split; by eexists.
    + refine (proj1 (quiet_advances s _ _ Hi)). apply same_quiet; try done. simpl. lia.
Qed.

Lemma revoke_keeps s sid st : session_ok s sid st → keeps k s (_revoke_state st s).2.
Proof.
  intros Hok Hi. destruct (revoke_run s sid st Hi Hok) as (db & -> & Hd).
  destruct (drops_advances _ _ _ Hd Hi) as [Hi' Hev]. cbn [snd].
  split; [done|]. split; [done|]. split_and!; try done. intros _.
  apply (dr_others _ _ _ Hd). by apply guard_not_store.
Qed.

Lemma rotate_keeps s token st :
  Session.refresh_key st = _token_key "refresh" token → read_before s st →
  keeps k s (rotate token st s).2.
Proof.
  intros Er Hrb Hi. destruct (rotate_advances s token st Er Hrb Hi) as [Hi' Hev].
  destruct (rotate_run s token st Hi Hrb) as [[_ E]|(current & _ & Hc & _ & E)];
    rewrite E in *; cbn [snd] in *.
  - split; [done|]. split; [done|]. split_and!; try done. simpl. lia.
  - split; [done|]. split; [done|]. split_and!; [done|simpl; lia|]. intros _.
    destruct (inv_session_ok _ _ _ Hi Hc) as [_ _ _ (ta & _ & Ha) _]. simpl.
    unfold rotated_store. rewrite install_others by (split; by eexists). rewrite Ha, Er.
    rewrite lookup_insert_ne, !lookup_delete_ne; [done|apply other_keys; constructor; set_solver..].
Qed.

Lemma revoke_session_keeps sid : preserves (keeps k) (revoke_session sid).
Proof.
  intros s Hi. unfold revoke_session. erewrite bind_step_ok by (by apply load_state_run).
  destruct (nonempty sid); [|by apply (keeps_same k s)].
  destruct (session_at s sid) as [st|] eqn:Hs; [|by apply (keeps_same k s)].
  eapply revoke_keeps; [|done]. by apply inv_session_ok.
Qed.

Lemma revoke_reused_keeps token : preserves (keeps k) (revoke_reused token).
Proof.
  intros s Hi. unfold revoke_reused.
  erewrite bind_step_ok by (apply get_text_run; [done|set_solver]).
  destruct (pointed s _) as [sid|]; [|by apply (keeps_same k s)]. cbn [opt_nonempty].
  destruct (nonempty sid) eqn:Hne; [|by apply (keeps_same k s)].
  unfold when. erewrite bind_step_ok by (by apply load_state_run). rewrite Hne.
  destruct (session_at s sid) as [st|] eqn:Hs; [|by apply (keeps_same k s)].
  eapply revoke_keeps; [|done]. by apply inv_session_ok.
Qed.

Lemma refresh_keeps token : preserves (keeps k) (refresh token).
Proof.
  intros s Hi. unfold refresh.
  erewrite bind_step_ok by (apply state_for_token_run; [done|set_solver]).
  destruct (token_session s "refresh" token) as [st|] eqn:Ht.
  - pose proof (token_session_ok _ _ _ _ Hi Ht) as Hok.
    erewrite bind_step_ok by (by eapply user_is_active_run).
    destruct (active_user s st); cbn [negb].
    + apply rotate_keeps; [by eapply (token_session_key s)| |done].
      by apply read_before_now, (token_session_at _ "refresh" token).
    + rewrite then_ret_state. by eapply revoke_keeps.
  - rewrite then_ret_state. by apply revoke_reused_keeps.
Qed.

Lemma logout_keeps token : preserves (keeps k) (logout token).
Proof.
  intros s Hi. unfold logout.
  erewrite bind_step_ok by (apply state_for_token_run; [done|set_solver]).
  destruct (token_session s "access" token) as [st|] eqn:Ht; [|by apply (keeps_same k s)].
  rewrite then_ret_state. eapply revoke_keeps; [|done]. by eapply token_session_ok.
Qed.

(** The rest of the state is as the run of [logout_all] leaves it. *)
Lemma logout_all_keeps token : preserves (keeps k) (logout_all token).
Proof.
  intros s Hi. destruct (token_session s "access" token) as [st|] eqn:Ht.
  2:{ unfold logout_all. erewrite bind_step_ok by (apply state_for_token_run; [done|set_solver]).
      rewrite Ht. by apply (keeps_same k s). }
  destruct (logout_all_run s token st Hi Ht) as (s' & Hrun & Hi' & Hev & Hdb & _).
  rewrite Hrun. cbn [snd]. split; [done|]. split; [by apply same_db_steady|].
  revert Hrun. unfold logout_all.
  erewrite bind_step_ok by (apply state_for_token_run; [done|set_solver]). rewrite Ht.
  pose proof (token_session_ok _ _ _ _ Hi Ht) as Hok.
  destruct (so_user _ _ _ Hok) as (u & v & Hu & Huid & _).
  erewrite bind_step_ok by (unfold lift; rewrite Huid; by rewrite user_sets_uuid).
  erewrite bind_step_ok.
  2:{ cbn [mapM]. erewrite bind_step_ok; [|apply redis_read, SMEMBERS_run, Hi]. reflexivity. }
  intros (? & s1 & Hloop & Hrun)%bind_ok.
  assert (Hl : keeps k s s1).
  { apply (preserves_run (keeps k)) in Hloop; [done|]. apply preserves_for_each; [apply _|].
    intros sid. apply revoke_session_keeps. }
  destruct (Hl Hi) as (_ & _ & Hc & Hd & He).
  apply bind_ok in Hrun as (? & s2 & Hdel & Hrun). injection Hrun as <-.
  unfold redis, DEL, modify in Hdel. injection Hdel as <- <-. simpl.
  split; [done|]. split; [done|]. intros Ho. rewrite lookup_delete_ne; [by apply He|].
  apply other_keys; constructor.
Qed.
End session_keeping.

Ltac keep_step :=
  first
    [ solve [eauto 2 with preserve typeclass_instances]
    | lazymatch goal with
      | |- preserves (keeps _) (transaction _) => apply transaction_keeps_key
      | |- preserves (keeps _) (read_session _) => apply read_keeps_key
      | |- preserves _ (mapM _ _) => apply preserves_mapM; [apply _|intros ?]
      | |- preserves (keeps _) (redis (λ now, GET now _)) =>
          apply redis_read_keeps; intros; apply GET_same
      end
    | preserve_step
    | match goal with |- preserves _ ?m => let f := auth_head m in unfold f end ].
Ltac keep_walk := repeat keep_step.

Section operation_keeping.
Context `{AuthEnv} `{!AuthLaws} `{MailAssets} (k : string) (Hk : guard_key k).
Implicit Types s : Auth.

Lemma count_attempt_keeps k' ttl :
  ¬ store_key k' → k' ≠ k → preserves (keeps k) (count_attempt k' ttl).
Proof.
  intros Hs Hne. unfold count_attempt. apply preserves_bind; [apply _| |].
  - apply redis_keeps; [by apply INCR_avoids|]. intros now db. unfold INCR.
    destruct (find_key now k' db) as [[[] ?]|]; simpl; try done; try (by apply lookup_insert_ne).
    destruct (_ <? _); simpl; [by apply lookup_insert_ne|done].
  - intros a. apply preserves_bind; [apply _| |intros; apply preserves_ret; apply _].
    apply preserves_when; [apply _|]. apply redis_keeps; [by apply EXPIRE_avoids|].
    intros now db. unfold EXPIRE, modify. simpl. destruct (find_key now k' db); [|done].
    destruct (ttl <=? 0); [by apply lookup_delete_ne | by apply lookup_insert_ne].
Qed.

Lemma allow_keeps subject op limit ttl : preserves (keeps k) (allow_mfa_operation subject op limit ttl).
Proof.
  unfold allow_mfa_operation. apply preserves_bind; [apply _| |intros; apply preserves_ret; apply _].
  apply count_attempt_keeps; [apply rate_key_other|by apply guard_not_rate].
Qed.
Lemma current_session_keeps token : preserves (keeps k) (current_session token).
Proof. keep_walk. Qed.
Lemma ui_context_keeps token : preserves (keeps k) (ui_context token).
Proof. keep_walk. Qed.
#[local] Hint Resolve allow_keeps current_session_keeps ui_context_keeps : preserve.

Lemma mfa_status_keeps t : preserves (keeps k) (mfa_status t).
Proof. keep_walk. Qed.
Lemma setup_mfa_keeps t : preserves (keeps k) (setup_mfa t).
Proof. keep_walk. Qed.
Lemma confirm_mfa_keeps c t : preserves (keeps k) (confirm_mfa c t).
Proof. keep_walk. Qed.
Lemma disable_mfa_keeps p c t : preserves (keeps k) (disable_mfa p c t).
Proof. keep_walk. Qed.
Lemma recovery_codes_keeps p c t : preserves (keeps k) (recovery_codes p c t).
Proof. keep_walk. Qed.
Lemma preferences_keeps l t : preserves (keeps k) (update_my_preferences l t).
Proof. keep_walk. Qed.
Lemma identifiers_keeps t : preserves (keeps k) (list_my_identifiers t).
Proof. keep_walk. Qed.
End operation_keeping.

(** ** Account operations do not use Redis *)
Definition store (s : Auth) : keyspace SessionState * Z := (Auth.redis s, Auth.clock s).

Section no_redis.
Context `{AuthEnv} `{!AuthLaws} `{MailAssets}.

Lemma silent_store s s' : silent s s' → same store s s'.
Proof. intros [Hc _ Hr _]. unfold same, store. by rewrite Hc, Hr. Qed.
Lemma silent_preserves_store {A} (m : M Auth A) : preserves silent m → preserves (same store) m.
Proof. apply preserves_mono, silent_store. Qed.
Lemma transaction_store {A} (m : M Auth A) :
  preserves (same store) m → preserves (same store) (transaction m).
Proof. apply transaction_closed; [apply _|apply silent_store|done]. Qed.
Lemma read_store {A} (m : M Auth A) :
  preserves (same store) m → preserves (same store) (read_session m).
Proof. intros Hm s. specialize (Hm s). unfold read_session. by destruct (m s). Qed.
End no_redis.

Ltac store_step :=
  first
    [ solve [eauto 2 with preserve typeclass_instances]
    | lazymatch goal with
      | |- preserves _ (transaction _) => apply transaction_store
      | |- preserves _ (read_session _) => apply read_store
      end
    | preserve_step
    | solve [apply silent_preserves_store; eauto 2 with preserve typeclass_instances]
    | match goal with |- preserves _ (add _) => apply preserves_modify; intros ?; reflexivity end
    | match goal with |- preserves _ (assign _ _) => apply preserves_modify; intros ?; reflexivity end
    | match goal with |- preserves _ ?m => let f := auth_head m in unfold f end ].
Ltac store_walk := repeat store_step.

Section account_store.
Context `{AuthEnv} `{!AuthLaws} `{MailAssets}.
Lemma register_store p : preserves (same store) (register p).
Proof. store_walk. Qed.
Lemma invite_store p v k : preserves (same store) (internal_member_invite p v k).
Proof. store_walk. Qed.
Lemma request_verification_store e : preserves (same store) (request_email_verification e).
Proof. store_walk. Qed.
Lemma verify_email_store t p : preserves (same store) (verify_email t p).
Proof. store_walk. Qed.
Lemma request_recovery_store e u : preserves (same store) (request_password_recovery e u).
Proof. store_walk. Qed.
Lemma reset_password_store t p : preserves (same store) (reset_password t p).
Proof. store_walk. Qed.
Lemma resolve_store e v k : preserves (same store) (internal_user_resolve e v k).
Proof. store_walk. Qed.
Lemma identity_match_store p v k : preserves (same store) (internal_identity_match p v k).
Proof. store_walk. Qed.
Lemma identity_summary_store e v k : preserves (same store) (identity_summary e v k).
Proof. store_walk. Qed.
End account_store.

(** ** Which calls touch a counter or a challenge *)
Section touching.
Context `{AuthEnv} `{!AuthLaws} `{MailAssets}.
Implicit Types s : Auth.

Definition login_key (payload : LoginRequest) : string :=
  _token_key "login-attempts" (lower (strip (lr_email payload))).
Definition touches (op : auth_operation) (k : string) : Prop :=
  match op with
  | Login p => k = login_key p
  | CompleteMfaChallenge ticket _ =>
      k = _token_key "mfa" ticket ∨ k = _token_key "mfa-attempts" ticket
  | _ => False
  end.

Context (k : string) (Hk : guard_key k).

(** A new challenge: its ticket, and what the store holds of it. *)
Definition new_ticket s : string := token_of (Auth.draws s) 48.
Definition challenge_entry s (u : N) : entry SessionState :=
  Entry (RText (uuid_str u))
    (Some (deadline (Auth.clock s) (AUTH_MFA_CHALLENGE_TTL_SECONDS settings))).
Lemma create_challenge_run u s :
  _create_mfa_challenge u s =
    (Ok (mkMfaChallengeResponse (new_ticket s) (AUTH_MFA_CHALLENGE_TTL_SECONDS settings)),
     s <| Auth.draws := N.succ (Auth.draws s) |>
       <| Auth.redis := <[_token_key "mfa" (new_ticket s) := challenge_entry s u]> (Auth.redis s) |>).
Proof.
  pose proof challenge_ttl_positive as Hpos. unfold _create_mfa_challenge.
  erewrite bind_step_ok by reflexivity. erewrite bind_step_ok; [reflexivity|].
  apply redis_run. unfold SET. rewrite (proj2 (Z.leb_gt _ _)) by done. reflexivity.
Qed.

Lemma create_challenge_keeps u : preserves (keeps k) (_create_mfa_challenge u).
Proof.
  intros s. apply strides_keeps.
  - apply preserves_quiet_strides.
    + unfold _create_mfa_challenge. apply preserves_bind; [apply _|apply token_quiet|]. intros ticket.
      apply preserves_bind; [apply _| |intros; apply preserves_ret; apply _].
      apply redis_quiet, SET_avoids. eauto with keys.
    + unfold _create_mfa_challenge, token_urlsafe, draw. preserve; [by intros s'|apply redis_same_db].
  - by rewrite create_challenge_run.
  - intros _ Hiss. rewrite create_challenge_run. simpl. apply lookup_insert_ne. intros E. symmetry in E.
    specialize (Hiss _ E). lia.
Qed.

Lemma del_keeps ks :
  Forall (λ k', ¬ store_key k') ks → k ∉ ks → preserves (keeps k) (redis (λ _, DEL ks)).
Proof.
  intros Hs Hn. apply redis_keeps; [by apply DEL_avoids|]. intros now db.
  unfold DEL, modify. simpl. by rewrite deleted_keys, decide_False.
Qed.

#[local] Hint Resolve create_challenge_keeps create_session_keeps : preserve.
Lemma login_keeps p : k ≠ login_key p → preserves (keeps k) (login p).
Proof.
  intros Hne. unfold login. fold (login_key p).
  apply preserves_bind; [apply _|apply count_attempt_keeps; [apply login_key_other|by apply not_eq_sym]|].
  intros attempts. apply preserves_if; [apply preserves_ret; apply _|]. apply read_keeps_key.
  keep_walk.
  apply del_keeps; [repeat constructor; apply login_key_other|set_solver].
Qed.

Lemma complete_keeps ticket code :
  k ≠ _token_key "mfa" ticket → k ≠ _token_key "mfa-attempts" ticket →
  preserves (keeps k) (complete_mfa_challenge ticket code).
Proof.
  intros Hc Ha. unfold complete_mfa_challenge.
  apply preserves_bind; [apply _|apply count_attempt_keeps; [apply attempts_key_other|by apply not_eq_sym]|].
  intros attempts. keep_walk.
  all: apply del_keeps; [repeat constructor; eauto with keys|set_solver].
Qed.

Lemma same_store_key {A} (m : M Auth A) s :
  preserves (same store) m →
  Auth.clock (m s).2 = Auth.clock s ∧ Auth.redis (m s).2 !! k = Auth.redis s !! k.
Proof. intros Hm. specialize (Hm s). unfold same, store in Hm. injection Hm as -> ->. done. Qed.

Lemma keeps_key {A} (m : M Auth A) s :
  preserves (keeps k) m → auth_inv s → issued k s →
  Auth.clock (m s).2 = Auth.clock s ∧ Auth.redis (m s).2 !! k = Auth.redis s !! k.
Proof. intros Hm Hi Ho. destruct (Hm s Hi) as (_ & _ & ? & _ & He). by split; [|apply He]. Qed.

Lemma serve_keeps op s :
  ¬ touches op k → auth_inv s → issued k s →
  Auth.clock (serve op s).2 = Auth.clock s ∧ Auth.redis (serve op s).2 !! k = Auth.redis s !! k.
Proof.
  intros Ht Hi Ho. destruct op; cbn [serve touches] in *; rewrite !discard_state.
  - by apply keeps_key; [apply login_keeps| |].
  - by apply keeps_key; [apply complete_keeps; tauto| |].
  - by apply keeps_key; [apply refresh_keeps| |].
  - by apply keeps_key; [apply current_session_keeps| |].
  - by apply keeps_key; [apply logout_keeps| |].
  - by apply keeps_key; [apply logout_all_keeps| |].
  - by apply keeps_key; [apply ui_context_keeps| |].
  - by apply keeps_key; [apply mfa_status_keeps| |].
  - by apply keeps_key; [apply setup_mfa_keeps| |].
  - by apply keeps_key; [apply confirm_mfa_keeps| |].
  - by apply keeps_key; [apply disable_mfa_keeps| |].
  - by apply keeps_key; [apply recovery_codes_keeps| |].
  - apply same_store_key, register_store.
  - apply same_store_key, invite_store.
  - apply same_store_key, request_verification_store.
  - apply same_store_key, verify_email_store.
  - apply same_store_key, request_recovery_store.
  - apply same_store_key, reset_password_store.
  - by apply keeps_key; [apply preferences_keeps| |].
  - by apply keeps_key; [apply identifiers_keeps| |].
  - apply same_store_key, resolve_store.
  - apply same_store_key, identity_match_store.
  - apply same_store_key, identity_summary_store.
Qed.
End touching.
