(* ===== verification/CounterTheorems.v ===== *)
(** * What the counters of auth_api guarantee

    Histories that count some of their calls; ten refused logins for an address
    lock it until the window ends; five guesses on the ticket of a second factor
    close the ticket for good. *)

From S2P Require Import Prelude.
From S2P Require Import PyText.
From S2P Require Import DateTime.
From S2P Require Import Orm.
From S2P Require Import Redis.
From S2P Require Import AuthDb.
From S2P Require Import Mfa.
From S2P Require Import Sessions.
From S2P Require Import EmailTemplates.
From S2P Require Import Accounts.
From S2P Require Import Users.
From S2P Require Import SessionFacts.
From S2P Require Import SessionSteps.
From S2P Require Import AuthSteps.
From S2P Require Import AuthCalls.
From S2P Require Import TokenFacts.
From S2P Require Import AuthExample.
From S2P Require Import CounterFacts.

Local Open Scope Z_scope.
#[local] Opaque uuid_str.

(** ** Histories that count *)
Section counted.
Context `{AuthEnv} `{MailAssets}.
Context (counts : auth_operation → Auth → Prop) (others : auth_operation → Prop).
Implicit Types s : Auth.

(** A history of the service with the given number of counted calls. *)
Inductive counted_runs : nat → Auth → Auth → Prop :=
| counted_starts s : counted_runs 0 s s
| counted_call n s s1 op : counted_runs n s s1 → counts op s1 →
    counted_runs (S n) s (serve op s1).2
| other_call n s s1 op : counted_runs n s s1 → others op → counted_runs n s (serve op s1).2
| counted_waits n s s1 d : counted_runs n s s1 → 0 ≤ d → counted_runs n s (wait d s1)
| counted_rotates n m s s0 s1 token st : counted_runs n s s0 →
    token_session s0 "refresh" token = Some st → counted_runs m s0 s1 →
    counted_runs (n + m) s (rotate token st s1).2.

Lemma counted_auth_runs n s s' : counted_runs n s s' → auth_runs s s'.
Proof. induction 1; [apply auth_starts|by apply then_serves..|by apply then_waits|by eapply then_rotates]. Qed.

Lemma runs_counted s s' :
  (∀ op s, counts op s ∨ others op) → auth_runs s s' → ∃ n, counted_runs n s s'.
Proof.
  intros Hall. induction 1 as [s|s s1 op _ [n IH]|s s1 d _ [n IH] Hd|s s0 s1 token st _ [n IH0] Ht _ [m IH1]].
  - exists 0%nat. apply counted_starts.
  - destruct (Hall op s1); [exists (S n); by apply counted_call|exists n; by apply other_call].
  - exists n. by apply counted_waits.
  - exists (n + m)%nat. by eapply counted_rotates.
Qed.

(** What a step leaves when it does not touch some keys. *)
Definition leaves (ks : list string) s s' : Prop :=
  Auth.clock s' = Auth.clock s ∧ (Auth.draws s ≤ Auth.draws s')%N ∧
  ∀ k, k ∈ ks → Auth.redis s' !! k = Auth.redis s !! k.

(** A property of the counted calls, over some counters and challenges. *)
Lemma counted_invariant `{!AuthLaws} (k0 : string) (ks : list string) (J : nat → Auth → Prop) m s s' :
  k0 ∈ ks → (∀ k, k ∈ ks → guard_key k) →
  (∀ op k, others op → k ∈ ks → ¬ touches op k) →
  (∀ n s k, J n s → k ∈ ks → issued k s) →
  (∀ n s s', J n s → leaves ks s s' → J n s') →
  (∀ n s d, J n s → 0 ≤ d → J n (wait d s)) →
  (∀ n s op, auth_inv s → J n s → counts op s → J (S n) (serve op s).2) →
  counted_runs m s s' → auth_inv s → ∀ n, J n s → J (n + m)%nat s'.
Proof.
  intros Hk0 Hguard Htouch Hiss Hleave Hwait Hcall.
  induction 1 as [s|m s s1 op Hr IH Hc|m s s1 op Hr IH Ho|m s s1 d Hr IH Hd
                 |m m' s s0 s1 token st Hr0 IH0 Ht Hr1 IH1]; intros Hi n HJ.
  - by rewrite Nat.add_0_r.
  - destruct (runs_advance _ _ (counted_auth_runs _ _ _ Hr) Hi) as [Hi1 _].
    rewrite Nat.add_succ_r. by apply Hcall; [|apply IH|].
  - destruct (runs_advance _ _ (counted_auth_runs _ _ _ Hr) Hi) as [Hi1 _].
    specialize (IH Hi n HJ). apply (Hleave _ s1); [done|].
    destruct (serve_advances op s1 Hi1) as [_ Hev].
    assert (Hk : ∀ k, k ∈ ks → Auth.clock (serve op s1).2 = Auth.clock s1 ∧
                 Auth.redis (serve op s1).2 !! k = Auth.redis s1 !! k).
    { intros k Hin. apply serve_keeps; eauto. }
    split; [by apply (Hk k0)|]. split; [apply Hev|]. intros k Hin. by apply Hk.
  - by apply Hwait; [apply IH|].
  - destruct (runs_advance _ _ (counted_auth_runs _ _ _ Hr0) Hi) as [Hi0 _].
    destruct (runs_advance _ _ (counted_auth_runs _ _ _ Hr1) Hi0) as [Hi1 Hev].
    specialize (IH1 Hi0 _ (IH0 Hi _ HJ)). rewrite Nat.add_assoc. apply (Hleave _ s1); [done|].
    assert (Hk : ∀ k, guard_key k → keeps k s1 (rotate token st s1).2).
    { intros k Hk. apply rotate_keeps; [done|by eapply (token_session_key s0 "refresh")|].
      by apply (read_earlier s0 s1 token). }
    split; [by apply (Hk k0); [apply Hguard|]|]. split; [by apply (Hk k0); [apply Hguard|]|].
    intros k Hin. apply Hk; eauto.
Qed.
End counted.

(** ** Counting attempts *)
Section attempts.
Context `{AuthEnv}.
Implicit Types s : Auth.

Definition counter (n T : Z) : entry SessionState := Entry (RCount n) (Some T).

Lemma count_first k ttl s :
  0 < ttl → found s k = None →
  count_attempt k ttl s =
    (Ok 1, s <| Auth.redis := <[k := counter 1 (deadline (Auth.clock s) ttl)]> (Auth.redis s) |>).
Proof.
  unfold found. intros Hpos Hf. unfold count_attempt.
  erewrite bind_step_ok by (apply redis_run; unfold INCR; rewrite Hf; reflexivity).
  erewrite bind_step_ok; [reflexivity|]. cbn [Z.eqb Pos.eqb when].
  erewrite redis_run; [reflexivity|]. unfold EXPIRE, modify. simpl.
  rewrite find_key_insert. cbn [expired expires].
  rewrite (proj2 (Z.leb_gt ttl 0)) by lia. by rewrite insert_insert_eq.
Qed.

Lemma count_next k ttl n T s :
  1 ≤ n < 2 ^ 63 - 1 → found s k = Some (counter n T) →
  count_attempt k ttl s = (Ok (n + 1), s <| Auth.redis := <[k := counter (n + 1) T]> (Auth.redis s) |>).
Proof.
  unfold found. intros Hn Hf. unfold count_attempt.
  erewrite bind_step_ok.
  2:{ apply redis_run. unfold INCR. rewrite Hf. cbn [counter].
      rewrite (proj2 (Z.ltb_lt _ _)) by lia. reflexivity. }
  rewrite (proj2 (Z.eqb_neq (n + 1) 1)) by lia. reflexivity.
Qed.

Lemma count_full k ttl n T s :
  2 ^ 63 - 1 ≤ n → found s k = Some (counter n T) → ∃ e, count_attempt k ttl s = (Err e, s).
Proof.
  unfold found. intros Hn Hf. eexists. unfold count_attempt. apply bind_step_err.
  apply redis_read. unfold INCR. rewrite Hf. cbn [counter].
  rewrite (proj2 (Z.ltb_ge _ _)) by lia. reflexivity.
Qed.

Lemma counter_found s k n T :
  Auth.redis s !! k = Some (counter n T) → Auth.clock s < T → found s k = Some (counter n T).
Proof. intros Hk HT. unfold found, find_key. rewrite Hk. cbn. by rewrite (proj2 (Z.leb_gt _ _)). Qed.

Lemma found_none_waits s k d : found s k = None → 0 ≤ d → found (wait d s) k = None.
Proof. intros Hf Hd. destruct (found (wait d s) k) eqn:E; [|done]. apply wait_found in E; congruence. Qed.

Lemma found_leaves ks s s' k : leaves ks s s' → k ∈ ks → found s' k = found s k.
Proof. intros (Hc & _ & Hk) Hin. unfold found. rewrite Hc. apply find_key_same. by apply Hk. Qed.
End attempts.

(** ** Logins *)
Section lockout.
Context `{AuthEnv} `{!AuthLaws} `{MailAssets} (address : string).
Implicit Types s : Auth.

Definition address_of (p : LoginRequest) : string := lower (strip (lr_email p)).
Definition attempts_key : string := _token_key "login-attempts" address.

(** A login for the address that was refused; the calls that are not logins for
    it. *)
Definition refused_login (op : auth_operation) s : Prop :=
  ∃ p s', op = Login p ∧ address_of p = address ∧ login p s = (Ok None, s').
Definition not_for_address (op : auth_operation) : Prop :=
  ∀ p, op = Login p → address_of p ≠ address.

Lemma not_for_address_touches op k :
  not_for_address op → k ∈ [attempts_key] → ¬ touches op k.
Proof.
  intros Ho ->%list_elem_of_singleton. destruct op; simpl; try tauto.
  - intros E%token_key_inj. by apply (Ho payload).
  - by intros [E|E]; revert E; key_ne.
Qed.

Lemma read_session_ok {A} (m : M Auth A) s a s' :
  read_session m s = (Ok a, s') → ∃ s1, m s = (Ok a, s1) ∧ s' = rollback_session s s1.
Proof. unfold read_session. destruct (m s) as [r s1]. intros [= -> <- ]. by exists s1. Qed.

Lemma login_after_count p s a s1 :
  count_attempt (login_key p) 300 s = (Ok a, s1) → 10 < a → login p s = (Ok None, s1).
Proof.
  intros Hc Ha. unfold login. fold (login_key p). erewrite bind_step_ok by exact Hc.
  by rewrite (proj2 (Z.ltb_lt _ _)).
Qed.

(** A refused login only counts. *)
Lemma refused_leaves p s s' :
  login p s = (Ok None, s') →
  ∃ a s1, count_attempt (login_key p) 300 s = (Ok a, s1) ∧
    Auth.redis s' = Auth.redis s1 ∧ Auth.clock s' = Auth.clock s1.
Proof.
  unfold login. fold (login_key p). intros (a & s1 & Hc & Hr)%bind_ok. exists a, s1. split; [done|].
  destruct (10 <? a); [by injection Hr as <-|].
  apply read_session_ok in Hr as (s2 & Hr & ->). 
  erewrite bind_step_ok in Hr by reflexivity.
  destruct (head _) as [u|]; [|by injection Hr as <-].
  destruct (_ || _); [by injection Hr as <-|].
  destruct (negb _); [by injection Hr as <-|].
  apply bind_ok in Hr as (? & ? & _ & Hr).
  destruct (User.mfa_enabled u); apply bind_ok in Hr as (? & ? & _ & Hr); discriminate Hr.
Qed.

(** The attempts counted in a window that began at [start]. *)
Definition counted_since (start : Z) (n : nat) s : Prop :=
  Auth.clock s < deadline start 300 →
  start ≤ Auth.clock s ∧
  ((n = 0%nat ∧ found s attempts_key = None) ∨
   ∃ m T, Auth.redis s !! attempts_key = Some (counter m T) ∧ deadline start 300 ≤ T ∧
     1 ≤ m ∧ Z.of_nat n ≤ m).

Lemma counted_since_leaves start n s s' :
  counted_since start n s → leaves [attempts_key] s s' → counted_since start n s'.
Proof.
  intros HJ Hl Hlt. destruct Hl as (Hc & Hd & Hk) eqn:El. rewrite Hc in *.
  destruct (HJ Hlt) as [? [[? Hf]|(m & T & Hm & ?)]]; (split; [done|]).
  - left. split; [done|]. rewrite (found_leaves [attempts_key] s s'); [done..|by left].
  - right. exists m, T. by rewrite Hk by (by left).
Qed.
Lemma counted_since_waits start n s d :
  counted_since start n s → 0 ≤ d → counted_since start n (wait d s).
Proof.
  intros HJ Hd Hlt. unfold wait in Hlt. simpl in Hlt.
  destruct HJ as [? [[? Hf]|(m & T & Hm & ?)]]; [lia| |].
  - split; [unfold wait; simpl; lia|]. left. split; [done|]. by apply found_none_waits.
  - split; [unfold wait; simpl; lia|]. right. by exists m, T.
Qed.
Lemma counted_since_counts start n s op :
  counted_since start n s → refused_login op s → counted_since start (S n) (serve op s).2.
Proof.
  intros HJ (p & s' & -> & Hp & Hrun). cbn [serve]. rewrite discard_state, Hrun. cbn [snd].
  apply refused_leaves in Hrun as (a & s1 & Hcount & Hr & Hc). intros Hlt.
  assert (Ek : login_key p = attempts_key) by (unfold attempts_key; by rewrite <- Hp).
  rewrite Ek in Hcount. rewrite Hr.
  assert (Hcs : Auth.clock s1 = Auth.clock s).
  { assert (Hq : preserves quiet (count_attempt attempts_key 300))
      by apply count_attempt_quiet, login_key_other.
    apply (preserves_run quiet) in Hcount; [apply Hcount|done]. }
  rewrite Hc, Hcs in Hlt |- *.
  destruct (HJ Hlt) as [Hs [[-> Hf]|(m & T & Hm & HT & Hm1 & Hn)]]; (split; [done|right]).
  - rewrite (count_first _ 300 s) in Hcount by done. injection Hcount as <- <-. simpl.
    eexists 1, _. rewrite lookup_insert_eq. split; [done|].
    unfold deadline, DateTimeService.add_seconds. lia.
  - assert (Hfound : found s attempts_key = Some (counter m T)) by (apply counter_found; [done|lia]).
    destruct (decide (m < 2 ^ 63 - 1)).
    + rewrite (count_next _ 300 m T) in Hcount by (done || lia). injection Hcount as <- <-. simpl.
      exists (m + 1), T. rewrite lookup_insert_eq. split; [done|]. lia.
    + destruct (count_full attempts_key 300 m T s) as [e E]; [lia|done|]. congruence.
Qed.

Lemma counted_since_runs start n m s s' :
  counted_runs refused_login not_for_address m s s' → auth_inv s → counted_since start n s →
  counted_since start (n + m) s'.
Proof.
  intros Hr Hi HJ.
  apply (counted_invariant refused_login not_for_address attempts_key [attempts_key]
           (counted_since start) m s s'); try done.
  - by left.
  - intros k ->%list_elem_of_singleton. constructor.
  - intros op k. apply not_for_address_touches.
  - intros n' s0 k _ ->%list_elem_of_singleton j E. exfalso. revert E. key_ne.
  - intros n' s0 s0' HJ0 Hl. by eapply counted_since_leaves.
  - intros n' s0 d. apply counted_since_waits.
  - intros n' s0 op _. apply counted_since_counts.
Qed.

(** A locked address. *)
Lemma locked_run start n p s :
  counted_since start n s → (10 ≤ n)%nat → Auth.clock s < deadline start 300 →
  address_of p = address → (∃ s', login p s = (Ok None, s')) ∨ ∃ e, login p s = (Err e, s).
Proof.
  intros HJ Hn Hlt Hp.
  assert (Ek : login_key p = attempts_key) by (unfold attempts_key; by rewrite <- Hp).
  destruct (HJ Hlt) as [_ [[-> _]|(m & T & Hm & HT & Hm1 & Hnm)]]; [lia|].
  assert (Hfound : found s attempts_key = Some (counter m T)) by (apply counter_found; [done|lia]).
  destruct (decide (m < 2 ^ 63 - 1)).
  - left. eexists. apply (login_after_count p s (m + 1)); [|lia]. rewrite Ek. by apply count_next.
  - right. destruct (count_full attempts_key 300 m T s) as [e E]; [lia|done|]. exists e.
    unfold login. fold (login_key p). rewrite Ek. by apply bind_step_err.
Qed.

Definition for_address (op : auth_operation) s : Prop :=
  ∃ p, op = Login p ∧ address_of p = address.
Lemma for_address_or_not op s : for_address op s ∨ not_for_address op.
Proof.
  assert (Hno : (∀ p, op ≠ Login p) → not_for_address op) by (intros Hno p ->; by destruct (Hno p)).
  destruct op as [p| | | | | | | | | | | | | | | | | | | | | |]; try (right; by apply Hno).
  destruct (decide (address_of p = address)); [left; by exists p|right].
  by intros p' [= <-].
Qed.

Lemma counted_since_weaken start n m s :
  counted_since start n s → (1 ≤ m ≤ n)%nat → counted_since start m s.
Proof.
  intros HJ Hm Hlt. destruct (HJ Hlt) as [? [[? _]|(k & T & ? & ? & ? & ?)]]; [lia|].
  split; [done|]. right. exists k, T. split_and!; try done. lia.
Qed.

Lemma locked_call start s op :
  auth_inv s → counted_since start 10 s → for_address op s → counted_since start 10 (serve op s).2.
Proof.
  intros Hi HJ (p & -> & Hp). destruct (decide (Auth.clock s < deadline start 300)) as [Hlt|Hge].
  - destruct (locked_run start 10 p s HJ) as [[s1 E]|[e E]]; try done.
    + apply (counted_since_weaken _ 11); [|lia]. apply counted_since_counts; [done|]. by exists p, s1.
    + cbn [serve]. by rewrite discard_state, E.
  - intros Hlt. destruct (serve_advances (Login p) s Hi) as [_ Hev%ev_clock]. lia.
Qed.

Lemma locked_stays start s s' :
  auth_runs s s' → auth_inv s → counted_since start 10 s → counted_since start 10 s'.
Proof.
  intros [m Hr]%(runs_counted for_address not_for_address); [|apply for_address_or_not].
  intros Hi HJ.
  apply (counted_invariant for_address not_for_address attempts_key [attempts_key]
           (λ _, counted_since start 10) m s s') with (n := 0%nat); try done.
  - by left.
  - intros k ->%list_elem_of_singleton. constructor.
  - intros op k. apply not_for_address_touches.
  - intros n' s0 k _ ->%list_elem_of_singleton j E. exfalso. revert E. key_ne.
  - intros n' s0 s0' HJ0 Hl. by eapply counted_since_leaves.
  - intros n' s0 d. apply counted_since_waits.
  - intros n' s0 op Hi0. by apply locked_call.
Qed.

(** C36: Ten refused logins for an address in a row lock it: once ten have happened
    since an instant at which none was counted, with no other login for the
    address between them (any other call may come between; a login that succeeds
    would start the count again), every further login for the address that
    answers refuses, with the right password too, whatever is called after the
    tenth, until five minutes after that instant. *)
Theorem refused_logins_lock_the_address s s1 s2 n p r s3 :
  auth_inv s → found s attempts_key = None →
  counted_runs refused_login not_for_address n s s1 → (10 ≤ n)%nat →
  auth_runs s1 s2 → Auth.clock s2 < deadline (Auth.clock s) 300 →
  address_of p = address → login p s2 ≠ (Ok (Some r), s3).
Proof.
  intros Hi Hf Hn Hle Hr Hlt Hp Hrun.
  assert (HJ0 : counted_since (Auth.clock s) 0 s) by (intros _; split; [done|by left]).
  pose proof (counted_since_runs _ 0 _ _ _ Hn Hi HJ0) as HJ1. rewrite Nat.add_0_l in HJ1.
  destruct (runs_advance _ _ (counted_auth_runs _ _ _ _ _ Hn) Hi) as [Hi1 _].
  apply (counted_since_weaken _ _ 10) in HJ1; [|lia].
  apply (locked_stays _ _ _ Hr) in HJ1; [|done].
  destruct (locked_run _ 10 p s2 HJ1) as [[s' E]|[e E]]; congruence || done || lia.
Qed.
End lockout.

(** ** Guesses of a second factor *)
Section tickets.
Context `{AuthEnv} `{!AuthLaws} `{MailAssets} (ticket : string).
Implicit Types s : Auth.

Definition challenge : string := _token_key "mfa" ticket.
Definition guesses : string := _token_key "mfa-attempts" ticket.

Definition guess (op : auth_operation) s : Prop := ∃ code, op = CompleteMfaChallenge ticket code.
Definition no_guess (op : auth_operation) : Prop := ∀ code, op ≠ CompleteMfaChallenge ticket code.

Lemma guess_or_not op s : guess op s ∨ no_guess op.
Proof.
  destruct op as [|t code| | | | | | | | | | | | | | | | | | | | |]; try (by right).
  destruct (decide (t = ticket)) as [->|Hne]; [left; by exists code|right].
  intros c [= E _]. by apply Hne.
Qed.
Lemma no_guess_touches op k : no_guess op → k ∈ [challenge; guesses] → ¬ touches op k.
Proof.
  intros Ho Hk. destruct op as [p|t code| | | | | | | | | | | | | | | | | | | | |]; simpl; try tauto.
  - intros ->. apply elem_of_cons in Hk as [E|E%list_elem_of_singleton]; revert E; key_ne.
  - assert (Ht : t ≠ ticket) by (by intros ->; destruct (Ho code)).
    apply elem_of_cons in Hk as [->| ->%list_elem_of_singleton]; intros [E|E].
    + by apply token_key_inj in E.
    + by apply mfa_ne in E.
    + symmetry in E. by apply mfa_ne in E.
    + by apply token_key_inj in E.
Qed.
Lemma ticket_guards k : k ∈ [challenge; guesses] → guard_key k.
Proof. intros [->| ->%list_elem_of_singleton]%elem_of_cons; constructor. Qed.
Lemma guesses_issued s : issued guesses s.
Proof. intros j E. exfalso. revert E. key_ne. Qed.

(** The step leaves the challenge and its counter alone, or ends the challenge. *)
Definition settles : relation Auth := λ s s',
  auth_inv s → auth_inv s' ∧ steady s s' ∧ Auth.clock s' = Auth.clock s ∧
    (Auth.draws s ≤ Auth.draws s')%N ∧
    (issued challenge s →
     (Auth.redis s' !! challenge = Auth.redis s !! challenge ∧
      Auth.redis s' !! guesses = Auth.redis s !! guesses) ∨
     Auth.redis s' !! challenge = None).
#[export] Instance settles_preorder : PreOrder settles.
Proof.
  split; [intros s Hi; split; [done|]; by repeat split; auto|]. intros s1 s2 s3 H12 H23 Hi.
  destruct (H12 Hi) as (Hi2 & Hv2 & Hc2 & Hd2 & Hk2).
  destruct (H23 Hi2) as (Hi3 & Hv3 & Hc3 & Hd3 & Hk3).
  split; [done|]. split; [by etrans|]. split; [congruence|]. split; [lia|].
  intros Ho. destruct Hk3 as [[E1 E2]|E]; [|destruct (Hk2 Ho) as [[E3 E4]|E]|by right].
  - intros j Ej. specialize (Ho j Ej). lia.
  - left. by rewrite E1, E2.
  - right. by rewrite E1.
Qed.

Lemma keeps_settles s s' : keeps challenge s s' → keeps guesses s s' → settles s s'.
Proof.
  intros Hc Hg Hi. destruct (Hc Hi) as (? & ? & ? & ? & Hkc). destruct (Hg Hi) as (_ & _ & _ & _ & Hkg).
  split_and!; try done. intros Ho. left. split; [by apply Hkc|]. apply Hkg, guesses_issued.
Qed.
Lemma keeps_preserves_settles {A} (m : M Auth A) :
  (∀ k, guard_key k → preserves (keeps k) m) → preserves settles m.
Proof. intros Hm s. apply keeps_settles; apply Hm; constructor. Qed.

Lemma del_settles : preserves settles (redis (λ _, DEL [challenge; guesses])).
Proof.
  assert (Hst : preserves strides (redis (λ _, DEL [challenge; guesses]))).
  { apply redis_strides, DEL_avoids. repeat constructor; eauto with keys. }
  intros s Hi. destruct (Hst s) as [Hadv Hsteady].
  destruct (Hadv Hi) as [Hi' Hev]. split_and!; try done.
  intros _. right. simpl. by rewrite lookup_delete_eq.
Qed.
Lemma transaction_settles {A} (m : M Auth A) : preserves settles m → preserves settles (transaction m).
Proof.
  apply transaction_closed; [apply _| |].
  - intros s s' Hs. apply keeps_settles; by apply silent_keeps.
  - intros s s1 Hk Hi. destruct (Hk Hi) as (Hi1 & Hv & Hc & Hd & He).
    split; [|by split_and!]. refine (proj1 (quiet_advances s1 _ _ Hi1)). by apply same_quiet.
Qed.
Lemma silent_settles {A} (m : M Auth A) : preserves silent m → preserves settles m.
Proof. intros Hm. apply keeps_preserves_settles. intros k _. by apply silent_preserves_keeps. Qed.

Lemma answer_settles code attempts : preserves settles (answer_challenge ticket code attempts).
Proof.
  pose proof del_settles as Hdel.
  assert (Hcreate : ∀ u, preserves settles (_create_session u)).
  { intros u. apply keeps_preserves_settles. intros k Hk. by apply create_session_keeps. }
  assert (Hget : preserves settles (get_text challenge)).
  { apply keeps_preserves_settles. intros k _. unfold get_text.
    apply preserves_bind; [apply _| |intros; apply preserves_ret; apply _].
    apply redis_read_keeps. intros. apply GET_same. }
  assert (Hcheck : ∀ u, preserves settles (verify_user_code u code)).
  { intros u. apply silent_settles, verify_user_code_silent. }
  assert (Haudit : ∀ u action, preserves settles (audit u action)).
  { intros u action. apply silent_settles. auth_walk. }
  unfold answer_challenge. fold challenge guesses. repeat first [apply Hdel | apply Hcreate | apply Hget | apply Hcheck
    | apply Haudit | apply transaction_settles | preserve_step
    | solve [apply silent_settles; eauto 2 with preserve typeclass_instances]
    | solve [apply preserves_ret; apply _] | apply silent_settles; auth_walk ].
Qed.

(** The ticket is closed, or its counter outlives the challenge and holds at
    least the given number of guesses, five at most. *)
Definition ticket_after (n : nat) s : Prop :=
  issued challenge s ∧
  (found s challenge = None ∨
   ∃ v Tc, Auth.redis s !! challenge = Some (Entry v (Some Tc)) ∧
     Tc ≤ deadline (Auth.clock s) (AUTH_MFA_CHALLENGE_TTL_SECONDS settings) ∧
     ((n = 0%nat ∧ found s guesses = None) ∨
      ∃ m T, Auth.redis s !! guesses = Some (counter m T) ∧ Tc ≤ T ∧ 1 ≤ m ∧
        Z.min (Z.of_nat n) 5 ≤ m)).

Lemma ticket_leaves n s s' :
  ticket_after n s → leaves [challenge; guesses] s s' → ticket_after n s'.
Proof.
  intros [Hiss HJ] Hl. pose proof (found_leaves _ _ _ challenge Hl) as Hfc.
  pose proof (found_leaves _ _ _ guesses Hl) as Hfg. destruct Hl as (Hc & Hd & Hk). split.
  - intros j Ej. specialize (Hiss j Ej). lia.
  - rewrite Hc, Hfc, Hfg, !Hk by set_solver. done.
Qed.
Lemma ticket_waits n s d : ticket_after n s → 0 ≤ d → ticket_after n (wait d s).
Proof.
  intros [Hiss HJ] Hd. split; [exact Hiss|].
  destruct HJ as [Hf|(v & Tc & Hc & HTc & HJ)]; [left; by apply found_none_waits|].
  right. exists v, Tc. split; [done|]. split.
  - unfold wait, deadline, DateTimeService.add_seconds in *. simpl. lia.
  - destruct HJ as [[-> Hf]|HJ]; [left|by right]. split; [done|]. by apply found_none_waits.
Qed.
Lemma ticket_settles n s s' :
  auth_inv s → ticket_after n s → settles s s' → ticket_after n s'.
Proof.
  intros Hi HJ Hs. destruct (Hs Hi) as (_ & _ & Hc & Hd & Hk).
  destruct (Hk (proj1 HJ)) as [[E1 E2]|E].
  - apply (ticket_leaves _ s); [done|]. split_and!; try done.
    by intros k [->| ->%list_elem_of_singleton]%elem_of_cons.
  - split; [|left; unfold found, find_key; by rewrite E].
    intros j Ej. destruct HJ as [Hiss _]. specialize (Hiss j Ej). lia.
Qed.

(** Counting a guess while the challenge lives. *)
Lemma live_counts n s v Tc :
  Auth.redis s !! challenge = Some (Entry v (Some Tc)) → Auth.clock s < Tc →
  Tc ≤ deadline (Auth.clock s) (AUTH_MFA_CHALLENGE_TTL_SECONDS settings) →
  (n = 0%nat ∧ found s guesses = None) ∨
    (∃ m T, Auth.redis s !! guesses = Some (counter m T) ∧ Tc ≤ T ∧ 1 ≤ m ∧
       Z.min (Z.of_nat n) 5 ≤ m) →
  (∃ a T, count_attempt guesses (AUTH_MFA_CHALLENGE_TTL_SECONDS settings) s =
       (Ok a, s <| Auth.redis := <[guesses := counter a T]> (Auth.redis s) |>) ∧
     Tc ≤ T ∧ 1 ≤ a ∧ Z.min (Z.of_nat (S n)) 6 ≤ a) ∨
  (∃ e m T, count_attempt guesses (AUTH_MFA_CHALLENGE_TTL_SECONDS settings) s = (Err e, s) ∧
     Auth.redis s !! guesses = Some (counter m T) ∧ Tc ≤ T ∧ 5 ≤ m).
Proof.
  intros Hc Hlt HTc [[-> Hf]|(m & T & Hm & HT & Hm1 & Hn)].
  - left. eexists 1, _. split; [by apply count_first; [apply challenge_ttl_positive|]|]. lia.
  - assert (Hfound : found s guesses = Some (counter m T)) by (apply counter_found; [done|lia]).
    destruct (decide (m < 2 ^ 63 - 1)).
    + left. exists (m + 1), T. split; [by apply count_next|]. lia.
    + right. destruct (count_full guesses (AUTH_MFA_CHALLENGE_TTL_SECONDS settings) m T s)
        as [e E]; [lia|done|]. exists e, m, T. split_and!; try done. lia.
Qed.

Lemma count_guess_keeps :
  preserves (keeps challenge) (count_attempt guesses (AUTH_MFA_CHALLENGE_TTL_SECONDS settings)).
Proof.
  apply count_attempt_keeps; [apply attempts_key_other|]. intros E. symmetry in E. revert E. apply mfa_ne.
Qed.

(** A guess on a closed ticket. *)
Lemma closed_ticket s code :
  auth_inv s → issued challenge s → found s challenge = None →
  let '(r, s') := complete_mfa_challenge ticket code s in
  (∀ a, r = Ok a → a = None) ∧ found s' challenge = None.
Proof.
  intros Hi Hiss Hf. unfold complete_mfa_challenge. fold guesses.
  pose proof (count_guess_keeps s Hi) as (Hi1 & _ & Hclock & _ & Hsame). specialize (Hsame Hiss).
  destruct (count_attempt guesses _ s) as [[a|e] s1] eqn:Ec; cbn [snd] in *.
  2:{ erewrite bind_step_err by exact Ec. split; [done|].
      unfold found. rewrite Hclock. by rewrite <- Hf; apply find_key_same. }
  erewrite bind_step_ok by exact Ec. unfold answer_challenge. fold challenge guesses.
  assert (Hf1 : found s1 challenge = None).
  { unfold found. rewrite Hclock. by rewrite <- Hf; apply find_key_same. }
  destruct (5 <? a).
  - erewrite bind_step_ok by reflexivity. split; [by intros ? [= <-]|].
    unfold found, find_key. simpl. by rewrite lookup_delete_eq.
  - erewrite bind_step_ok.
    2:{ unfold get_text. erewrite bind_step_ok; [reflexivity|]. apply redis_read.
        unfold GET. unfold found in Hf1. by rewrite Hf1. }
    split; [by intros ? [= <-]|done].
Qed.

Lemma ticket_counts n s code :
  auth_inv s → ticket_after n s →
  ticket_after (S n) (complete_mfa_challenge ticket code s).2.
Proof.
  intros Hi HJ. pose proof HJ as [Hiss _].
  pose proof (serve_advances (CompleteMfaChallenge ticket code) s Hi) as [Hi' Hev].
  cbn [serve] in Hev, Hi'. rewrite discard_state in Hev, Hi'.
  destruct (found s challenge) as [e|] eqn:Ef.
  2:{ pose proof (closed_ticket s code Hi Hiss Ef) as Hcl.
      destruct (complete_mfa_challenge ticket code s) as [r s']. split; [|left; by apply Hcl].
      intros j Ej. specialize (Hiss j Ej). pose proof (ev_draws _ _ Hev). simpl in *. lia. }
  destruct HJ as [_ [?|(v & Tc & Hc & HTc & HJ)]]; [congruence|].
  assert (Hlt : Auth.clock s < Tc).
  { unfold found in Ef. apply find_key_some in Ef as [E He]. rewrite Hc in E. injection E as <-.
    by apply Z.leb_gt in He. }
  unfold complete_mfa_challenge. fold guesses.
  destruct (live_counts n s v Tc Hc Hlt HTc HJ)
    as [(a & T & E & HT & Ha1 & Ha)|(e' & m & T & E & Hm & HT & Hm5)].
  - erewrite bind_step_ok by exact E. pose proof (count_guess_keeps s Hi) as (Hi1 & _).
    rewrite E in Hi1. apply (ticket_settles _ _ _ Hi1); [|apply answer_settles].
    split; [exact Hiss|]. right. exists v, Tc. simpl.
    rewrite lookup_insert_ne by (intros E'; symmetry in E'; revert E'; apply mfa_ne).
    split; [done|]. split; [done|]. right. exists a, T. rewrite lookup_insert_eq.
    split_and!; try done. lia.
  - erewrite bind_step_err by exact E. split; [exact Hiss|]. right. exists v, Tc.
    split; [done|]. split; [done|]. right. exists m, T. split_and!; try done; lia.
Qed.

Lemma ticket_runs n m s s' :
  counted_runs guess no_guess m s s' → auth_inv s → ticket_after n s → ticket_after (n + m) s'.
Proof.
  intros Hr Hi HJ.
  apply (counted_invariant guess no_guess challenge [challenge; guesses] ticket_after m s s'); try done.
  - by left.
  - apply ticket_guards.
  - intros op k. apply no_guess_touches.
  - intros n' s0 k [Hiss _] [->| ->%list_elem_of_singleton]%elem_of_cons; [done|apply guesses_issued].
  - intros n' s0 s0'. apply ticket_leaves.
  - intros n' s0 d. apply ticket_waits.
  - intros n' s0 op Hi0 HJ0 [code ->]. cbn [serve]. rewrite discard_state. by apply ticket_counts.
Qed.

(** After five guesses no code is accepted. *)
Lemma ticket_exhausted n s code r s' :
  auth_inv s → ticket_after n s → (5 ≤ n)%nat →
  complete_mfa_challenge ticket code s = (Ok r, s') → r = None.
Proof.
  intros Hi [Hiss HJ] Hn Hrun. destruct (found s challenge) as [e|] eqn:Ef.
  2:{ pose proof (closed_ticket s code Hi Hiss Ef) as Hcl. rewrite Hrun in Hcl. by apply Hcl. }
  destruct HJ as [?|(v & Tc & Hc & HTc & HJ)]; [congruence|].
  assert (Hlt : Auth.clock s < Tc).
  { unfold found in Ef. apply find_key_some in Ef as [E He]. rewrite Hc in E. injection E as <-.
    by apply Z.leb_gt in He. }
  unfold complete_mfa_challenge in Hrun. fold guesses in Hrun.
  destruct (live_counts n s v Tc Hc Hlt HTc HJ) as [(a & T & E & _ & _ & Ha)|(e' & m & T & E & _)].
  - erewrite bind_step_ok in Hrun by exact E. unfold answer_challenge in Hrun.
    rewrite (proj2 (Z.ltb_lt 5 a)) in Hrun by lia. by apply bind_ok in Hrun as (? & ? & _ & [= <- _]).
  - erewrite bind_step_err in Hrun by exact E. discriminate Hrun.
Qed.

(** An accepted guess closes the ticket. *)
Lemma accepted_closes s code r s' :
  auth_inv s → issued challenge s → complete_mfa_challenge ticket code s = (Ok (Some r), s') →
  found s' challenge = None ∧ auth_inv s'.
Proof.
  intros Hi Hiss Hrun.
  pose proof (serve_advances (CompleteMfaChallenge ticket code) s Hi) as [Hi' _].
  cbn [serve] in Hi'. rewrite discard_state, Hrun in Hi'. split; [|exact Hi']. clear Hi'.
  unfold complete_mfa_challenge in Hrun. fold guesses in Hrun.
  apply bind_ok in Hrun as (a & s1 & Hc & Hrun).
  pose proof (preserves_run _ _ _ _ _ count_guess_keeps Hc Hi) as (Hi1 & _ & _ & Hd1 & _).
  unfold answer_challenge in Hrun. fold challenge guesses in Hrun.
  destruct (5 <? a); [by apply bind_ok in Hrun as (? & ? & _ & [=])|].
  apply bind_ok in Hrun as (raw & s2 & Hget & Hrun).
  assert (E2 : s2 = s1).
  { unfold get_text in Hget. apply bind_ok in Hget as (v & s2' & Hg & [= _ <-]).
    unfold redis in Hg. pose proof (GET_same (Auth.clock s1) challenge (Auth.redis s1)) as Hsame.
    destruct (GET _ _ _) as [? db]. simpl in Hsame. subst db. injection Hg as _ <-. apply auth_eta. }
  subst s2. destruct (negb _); [discriminate Hrun|].
  apply transaction_ok in Hrun as (s4 & Hrun & Hfl).
  apply bind_ok in Hrun as (u & s1' & Hl & Hrun). 
  assert (s1' = s1) as -> by (unfold lift in Hl; by injection Hl).
  erewrite bind_step_ok in Hrun by reflexivity.
  destruct (head _) as [user|]; [|discriminate Hrun].
  destruct (_ || _); [discriminate Hrun|].
  apply bind_ok in Hrun as (valid & s5 & Hv & Hrun).
  apply (preserves_run silent) in Hv; [|apply verify_user_code_silent].
  destruct (negb valid).
  { apply bind_ok in Hrun as (? & ? & _ & Hrun). by apply bind_ok in Hrun as (? & ? & _ & [=]). }
  apply bind_ok in Hrun as ([] & s6 & Ha & Hrun).
  apply (preserves_run silent) in Ha; [|auth_walk].
  apply bind_ok in Hrun as ([] & s7 & Hdel & Hrun).
  apply bind_ok in Hrun as (answer & s8 & Hcr & [= _ <-]).
  assert (H6 : settles s1 s6).
  { etrans; [|apply (keeps_settles s5)]; [apply keeps_settles|..]; by apply silent_keeps. }
  destruct (H6 Hi1) as (Hi6 & _ & _ & Hd6 & _).
  pose proof (preserves_run settles _ _ _ _ del_settles Hdel Hi6) as (Hi7 & _ & _ & Hd7 & _).
  pose proof (preserves_run _ _ _ _ _ (create_session_keeps challenge (guard_challenge _) _) Hcr Hi7)
    as (_ & _ & _ & _ & Hk).
  apply flush_auth in Hfl as [_ ->]. unfold found, find_key. simpl. rewrite Hk.
  - injection Hdel as <-. simpl. by rewrite lookup_delete_eq.
  - intros j Ej. specialize (Hiss j Ej). lia.
Qed.

(** A new challenge. *)
Lemma challenged_ticket s p c s1 :
  login p s = (Ok (Some (Challenged c)), s1) → mfa_ticket c = ticket →
  issued challenge s1 ∧ ∃ v, Auth.redis s1 !! challenge =
    Some (Entry v (Some (deadline (Auth.clock s1) (AUTH_MFA_CHALLENGE_TTL_SECONDS settings)))).
Proof.
  intros Hrun Ht. unfold login in Hrun. apply bind_ok in Hrun as (a & s2 & _ & Hrun).
  destruct (10 <? a); [discriminate Hrun|]. apply read_session_ok in Hrun as (s3 & Hrun & ->).
  erewrite bind_step_ok in Hrun by reflexivity.
  destruct (head _) as [u|]; [|discriminate Hrun].
  destruct (_ || _); [discriminate Hrun|]. destruct (negb _); [discriminate Hrun|].
  apply bind_ok in Hrun as ([] & s4 & _ & Hrun).
  destruct (User.mfa_enabled u); apply bind_ok in Hrun as (c' & s5 & Hc & Hrun); [|discriminate Hrun].
  injection Hrun as -> <-. rewrite create_challenge_run in Hc. injection Hc as <- <-.
  simpl in Ht. simpl. split.
  - intros j E. apply token_key_inj in E. rewrite <- Ht in E. apply token_of_inj in E as <-. simpl. lia.
  - eexists. rewrite Ht. unfold challenge. by rewrite lookup_insert_eq.
Qed.
End tickets.

Section ticket_theorems.
Context `{AuthEnv} `{!AuthLaws} `{MailAssets}.
Implicit Types s : Auth.

(** C18: The ticket of a second factor takes five guesses at most: once a login
    has asked for a second factor and five codes have been tried on its ticket,
    in any history and however each of the calls ended, no code is accepted for
    the ticket any more, a right one included. *)
Theorem second_factor_guesses_bounded s p c s1 s2 s3 code r s4 :
  auth_inv s → login p s = (Ok (Some (Challenged c)), s1) →
  found s1 (guesses (mfa_ticket c)) = None →
  counted_runs (guess (mfa_ticket c)) (no_guess (mfa_ticket c)) 5 s1 s2 → auth_runs s2 s3 →
  complete_mfa_challenge (mfa_ticket c) code s3 ≠ (Ok (Some r), s4).
Proof.
  intros Hi Hlogin Hf Hg Hr Hrun.
  destruct (serve_advances (Login p) s Hi) as [Hi1 _]. cbn [serve] in Hi1.
  rewrite discard_state, Hlogin in Hi1. cbn [snd] in Hi1.
  destruct (challenged_ticket (mfa_ticket c) s p c s1 Hlogin eq_refl) as [Hiss (v & Hc)].
  assert (HJ : ticket_after (mfa_ticket c) 0 s1).
  { split; [done|]. right. eexists _, _. split; [exact Hc|]. split; [done|]. by left. }
  apply (ticket_runs _ _ _ _ _ Hg Hi1) in HJ.
  destruct (runs_advance _ _ (counted_auth_runs _ _ _ _ _ Hg) Hi1) as [Hi2 _].
  destruct (runs_advance _ _ Hr Hi2) as [Hi3 _].
  destruct (runs_counted (guess (mfa_ticket c)) (no_guess (mfa_ticket c)) _ _
    (guess_or_not _) Hr) as [m Hm].
  apply (ticket_runs _ _ _ _ _ Hm Hi2) in HJ.
  assert (Some r = None); [|done]. eapply ticket_exhausted; [exact Hi3|exact HJ|lia|exact Hrun].
Qed.

(** A ticket opens one session: once a code was accepted for the ticket of a
    login, no code is accepted for it again, in any further history. *)
Theorem second_factor_opens_one_session s p c s1 s2 code r s3 s4 code' r' s5 :
  auth_inv s → login p s = (Ok (Some (Challenged c)), s1) → auth_runs s1 s2 →
  complete_mfa_challenge (mfa_ticket c) code s2 = (Ok (Some r), s3) → auth_runs s3 s4 →
  complete_mfa_challenge (mfa_ticket c) code' s4 ≠ (Ok (Some r'), s5).
Proof.
  intros Hi Hlogin Hr1 Hacc Hr3 Hrun.
  destruct (serve_advances (Login p) s Hi) as [Hi1 _]. cbn [serve] in Hi1.
  rewrite discard_state, Hlogin in Hi1. cbn [snd] in Hi1.
  destruct (challenged_ticket (mfa_ticket c) s p c s1 Hlogin eq_refl) as [Hiss _].
  destruct (runs_advance _ _ Hr1 Hi1) as [Hi2 Hev].
  assert (Hiss2 : issued (challenge (mfa_ticket c)) s2).
  { intros j Ej. specialize (Hiss j Ej). pose proof (ev_draws _ _ Hev). lia. }
  destruct (serve_advances (CompleteMfaChallenge (mfa_ticket c) code) s2 Hi2) as [_ Hev3].
  cbn [serve] in Hev3. rewrite discard_state, Hacc in Hev3. cbn [snd] in Hev3.
  destruct (accepted_closes _ _ _ _ _ Hi2 Hiss2 Hacc) as [Hf Hi3].
  assert (HJ : ticket_after (mfa_ticket c) 5 s3).
  { split; [|by left]. intros j Ej. specialize (Hiss2 j Ej). pose proof (ev_draws _ _ Hev3). lia. }
  destruct (runs_counted (guess (mfa_ticket c)) (no_guess (mfa_ticket c)) _ _
    (guess_or_not _) Hr3) as [m Hm].
  destruct (runs_advance _ _ Hr3 Hi3) as [Hi4 _].
  apply (ticket_runs _ _ _ _ _ Hm Hi3) in HJ.
  assert (Some r' = None); [|done]. eapply ticket_exhausted; [exact Hi4|exact HJ|lia|exact Hrun].
Qed.
End ticket_theorems.

(** ** Instances *)
Import AuthExample.

(** The states after a number of wrong passwords for Alice, and of wrong codes
    for the challenge of Bob. *)
Definition wrong_password : LoginRequest := login_as "alice@rubrica.example" "guess".
Fixpoint repeated (op : auth_operation) (n : nat) (s : Auth) : Auth :=
  match n with O => s | S m => (serve op (repeated op m s)).2 end.
Lemma repeated_runs counts others op n s :
  (∀ m, (m < n)%nat → counts op (repeated op m s)) →
  counted_runs counts others n s (repeated op n s).
Proof.
  induction n as [|n IH]; intros Hc; [apply counted_starts|].
  cbn [repeated]. apply counted_call; [|apply Hc; lia]. apply IH. intros m Hm. apply Hc. lia.
Qed.
Lemma ten_refusals m :
  (m < 10)%nat →
  refused_login "alice@rubrica.example" (Login wrong_password) (repeated (Login wrong_password) m start).
Proof.
  intros Hm. eexists wrong_password, _. split; [done|]. split; [by vm_compute|].
  apply run_outcome. do 10 (destruct m as [|m]; [by vm_compute|]). lia.
Qed.
Definition locked_state : Auth := repeated (Login wrong_password) 10 start.
Lemma refused_logins_lock_the_address_witness :
  (∀ r s3, login alice_login locked_state ≠ (Ok (Some r), s3)) ∧
  ∃ r s3, login alice_login start = (Ok (Some r), s3).
Proof.
  split; [|eexists _, _; exact alice_logs_in]. intros r s3.
  apply (refused_logins_lock_the_address "alice@rubrica.example" start locked_state locked_state 10).
  - exact start_inv.
  - reflexivity.
  - apply repeated_runs, ten_refusals.
  - lia.
  - apply auth_starts.
  - vm_compute. reflexivity.
  - vm_compute. reflexivity.
Defined.

Definition bob_state : Auth := (login bob_login start).2.
Definition bob_challenge : MfaChallengeResponse := mkMfaChallengeResponse "tx" 300.
Lemma bob_is_challenged : login bob_login start = (Ok (Some (Challenged bob_challenge)), bob_state).
Proof. unfold bob_state. apply run_outcome. vm_compute. reflexivity. Qed.
Definition bob_code : string := code_at "k" (step_of day).
Definition bob_tokens : LoginResponse := mkLoginResponse "access_txxxx" "refresh_txxxxx" "txxx".
Definition bob_in : Auth := (complete_mfa_challenge "tx" bob_code bob_state).2.
Lemma bob_logs_in :
  complete_mfa_challenge "tx" bob_code bob_state = (Ok (Some bob_tokens), bob_in).
Proof. unfold bob_in. apply run_outcome. vm_compute. reflexivity. Qed.
Definition guessed_state : Auth := repeated (CompleteMfaChallenge "tx" "000000") 5 bob_state.
Lemma second_factor_guesses_bounded_witness :
  (∀ r s4, complete_mfa_challenge "tx" bob_code guessed_state ≠ (Ok (Some r), s4)) ∧
  complete_mfa_challenge "tx" bob_code bob_state = (Ok (Some bob_tokens), bob_in).
Proof.
  split; [|exact bob_logs_in]. intros r s4. apply (second_factor_guesses_bounded start bob_login bob_challenge bob_state
    guessed_state guessed_state).
  - exact start_inv.
  - exact bob_is_challenged.
  - vm_compute. reflexivity.
  - apply repeated_runs. intros m _. by eexists.
  - apply auth_starts.
Defined.

Lemma second_factor_opens_one_session_witness :
  complete_mfa_challenge "tx" bob_code bob_state = (Ok (Some bob_tokens), bob_in) ∧
  ∀ r s5, complete_mfa_challenge "tx" bob_code bob_in ≠ (Ok (Some r), s5).
Proof.
  split; [exact bob_logs_in|]. intros r s5.
  exact (second_factor_opens_one_session start bob_login bob_challenge bob_state bob_state bob_code
    bob_tokens bob_in bob_in bob_code r s5 start_inv bob_is_challenged (auth_starts _) bob_logs_in
    (auth_starts _)).
Defined.
