(* ===== verification/AccountTheorems.v ===== *)
(** * What an account link guarantees

    A link is used once, over any history of the service, and a user has one open
    link for a purpose at most. *)

From S2P Require Import Prelude.
From S2P Require Import PyText.
From S2P Require Import DateTime.
From S2P Require Import Orm.
From S2P Require Import Redis.
From S2P Require Import AuthDb.
From S2P Require Import Mfa.
From S2P Require Import Sessions.
From S2P Require Import EmailTemplates.
From S2P Require Import Accounts.
From S2P Require Import Users.
From S2P Require Import SessionFacts.
From S2P Require Import SessionSteps.
From S2P Require Import AuthSteps.
From S2P Require Import AccountFacts.
From S2P Require Import AuthCalls.
From S2P Require Import TokenFacts.
From S2P Require Import AuthExample.

Local Open Scope Z_scope.
#[local] Opaque uuid_str.

Section theorems.
Context `{AuthEnv} `{!AuthLaws} `{MailAssets}.
Implicit Types s : Auth.

(** A call that uses a link: the link was open, and is used afterwards. *)
Definition uses_link (raw_token : string) (m : M Auth unit) : Prop :=
  ∃ password, m = verify_email raw_token password ∨ m = reset_password raw_token password.

Lemma uses_run raw m s s' :
  consistent s → uses_link raw m → m s = (Ok tt, s') →
  ∃ t purpose, In t (token_rows s) ∧ usable_row (Auth.clock s) raw purpose t ∧
    token_rows s' = alter_rows (λ t, t <| AccountToken.consumed_at := Some (Auth.clock s) |>)
                      (AccountToken.id t) (token_rows s) ∧
    (Auth.draws s ≤ Auth.draws s')%N.
Proof.
  intros Hs [password [-> | ->]] Hrun.
  - assert (Hd : tokens_step s s').
    { refine (preserves_run tokens_step (serve (VerifyEmail raw password)) _ (Ok tt) _ _ _).
      - apply (serve_tokens (VerifyEmail _ _)).
      - cbn [serve]. unfold discard. by erewrite bind_step_ok. }
    apply (change_run "verify_email" (λ h u, u <| User.password_hash := h |>
      <| User.email_verified := true |> <| User.is_active := true |>
      <| User.token_version ::= λ v, v + 1 |>)) in Hrun
      as (t & v & ? & ? & _ & _ & ? & _ & _); [|done..].
    exists t, "verify_email". split_and!; try done. apply Hd.
  - assert (Hd : tokens_step s s').
    { refine (preserves_run tokens_step (serve (ResetPassword raw password)) _ (Ok tt) _ _ _).
      - apply (serve_tokens (ResetPassword _ _)).
      - cbn [serve]. unfold discard. by erewrite bind_step_ok. }
    apply (change_run "reset_password" (λ h u, u <| User.password_hash := h |>
      <| User.token_version ::= λ v, v + 1 |>)) in Hrun
      as (t & v & ? & ? & _ & _ & ? & _ & _); [|done..].
    exists t, "reset_password". split_and!; try done. apply Hd.
Qed.

(** C19: The link of an account e-mail works once: after it verified an address
    or reset a password, and after any further history, neither call accepts it
    again, whatever the new password. *)
Theorem account_link_works_once s raw_token m s1 s2 m' :
  consistent s → links_drawn s → uses_link raw_token m → m s = (Ok tt, s1) →
  auth_runs s1 s2 → uses_link raw_token m' → ∀ s3, m' s2 ≠ (Ok tt, s3).
Proof.
  intros Hs Hdrawn Hm Hrun Hr Hm' s3 Hrun'.
  destruct (uses_run raw_token m s s1 Hs Hm Hrun) as (t & p & Hin & [Hh _] & Hrows & Hd).
  assert (Hs1 : consistent s1).
  { destruct Hm as [password [-> | ->]]; pose proof (transaction_stays (A := unit)) as Htr.
    - apply (preserves_run stays_consistent) in Hrun; [by apply Hrun|apply Htr].
    - apply (preserves_run stays_consistent) in Hrun; [by apply Hrun|apply Htr]. }
  pose proof (runs_consistent _ _ Hr Hs1) as Hs2.
  destruct (uses_run raw_token m' s2 s3 Hs2 Hm' Hrun') as (t2 & p2 & Hin2 & (Hh2 & _ & Hc2 & _) & _).
  destruct (runs_tokens _ _ Hr) as [Hd12 Hl _].
  destruct (Hl t2 Hin2) as [(t1 & Hin1 & E1 & C1)|(n & Hn & En)].
  - rewrite Hrows in Hin1. unfold alter_rows in Hin1. apply in_map_iff in Hin1 as (t0 & Et & Hin0).
    assert (Eh : AccountToken.token_hash t0 = AccountToken.token_hash t1)
      by (rewrite <- Et; by destruct (has_id _ t0)).
    assert (t0 = t) as -> by (apply (token_hashes_unique s); try done; congruence).
    rewrite (proj2 (has_id_true _ _)) in Et by done. destruct C1 as [? C1]; [by rewrite <- Et|].
    congruence.
  - destruct (Hdrawn t Hin) as (j & Hj & Ej). rewrite Hh in Ej. rewrite Hh2, Ej in En.
    apply sha256_inj, token_of_inj in En. lia.
Qed.

(** A user has at most one open link for a purpose: a new verification or
    recovery link closes the earlier ones, and every history keeps it so. *)
Theorem one_open_link_per_purpose s s' u purpose :
  auth_runs s s' → (∀ u purpose, (length (open_links u purpose s) ≤ 1)%nat) →
  (length (open_links u purpose s') ≤ 1)%nat.
Proof. intros Hr Ho. by apply (ts_open _ _ (runs_tokens _ _ Hr)). Qed.
End theorems.

(** ** Instances: Alice has a recovery link *)
Import AuthExample.

Definition new_password : string := "New1!".
Definition recovered : Auth := (reset_password recovery_link new_password start).2.
Lemma alice_recovers : reset_password recovery_link new_password start = (Ok tt, recovered).
Proof. unfold recovered. apply run_outcome. vm_compute. reflexivity. Qed.
Lemma account_link_works_once_witness :
  reset_password recovery_link new_password start = (Ok tt, recovered) ∧
  ∀ s, reset_password recovery_link new_password recovered ≠ (Ok tt, s).
Proof.
  split; [exact alice_recovers|]. intros s.
  apply (account_link_works_once start recovery_link (reset_password recovery_link new_password)
    recovered recovered (reset_password recovery_link new_password)).
  - exact start_consistent.
  - exact start_links.
  - exists new_password. by right.
  - exact alice_recovers.
  - apply auth_starts.
  - exists new_password. by right.
Defined.

Definition asked_again : Auth :=
  (serve (RequestPasswordRecovery "alice@rubrica.example" None) start).2.
Lemma one_open_link_per_purpose_witness :
  (length (open_links 1 "reset_password" asked_again) ≤ 1)%nat ∧
  length (token_rows asked_again) = 2%nat.
Proof.
  split; [|vm_compute; reflexivity].
  apply (one_open_link_per_purpose start asked_again).
  - apply then_serves, auth_starts.
  - intros u purpose. unfold open_links. etrans; [apply List.filter_length_le|]. vm_compute. lia.
Defined.
