(* ===== verification/SecondFactor.v ===== *)
(** * What a code of the second factor costs

    An accepted code moves the authenticator's last step forward or uses up one
    recovery code.  The step recorded is the one of the clock, not the one the
    code belongs to, so a code of the authenticator is accepted again in the
    following step. *)

From S2P Require Import Prelude.
From S2P Require Import PyText.
From S2P Require Import DateTime.
From S2P Require Import Orm.
From S2P Require Import Redis.
From S2P Require Import AuthDb.
From S2P Require Import Mfa.
From S2P Require Import Sessions.
From S2P Require Import SessionFacts.
From S2P Require Import AuthSteps.
From S2P Require Import AccountFacts.
From S2P Require Import AuthCalls.
From S2P Require Import AuthExample.

Local Open Scope Z_scope.

Section second_factor.
Context `{AuthEnv}.
Implicit Types s : Auth.

Definition recovery_rows s : list Recovery.MfaRecoveryCodeEntity :=
  live (AuthTables.mfa_recovery_codes (Auth.db s)).

(** The step of the authenticator last accepted for a user. *)
Definition last_step s (u : N) : option Z :=
  user ← find_row u (user_rows s); User.mfa_last_used_step user.

(** A recovery code of the user was open and is used up. *)
Definition spends_recovery s s' (u : N) (code : string) : Prop :=
  ∃ r, In r (recovery_rows s) ∧ unused_code u r = true ∧
    verify_password code (Recovery.code_hash r) = true ∧
    recovery_rows s' = alter_rows (λ r, r <| Recovery.consumed_at := Some (Auth.clock s) |>)
                         (Recovery.id r) (recovery_rows s).

Lemma consume_recovery_run u code codes s s' :
  (∀ r, In r codes → In r (recovery_rows s) ∧ unused_code u r = true) →
  consume_recovery code codes s = (Ok true, s') → spends_recovery s s' u code.
Proof.
  induction codes as [|r codes IH]; cbn [consume_recovery]; intros Hin Hrun; [discriminate Hrun|].
  destruct (verify_password code (Recovery.code_hash r)) eqn:Ev.
  - injection Hrun as <-. exists r. destruct (Hin r) as [? ?]; [by left|]. by split_and!.
  - apply IH; [|done]. intros r' Hr'. apply Hin. by right.
Qed.

Lemma recovery_select s u :
  consistent s → ∀ r, In r (select (unused_code u) (AuthTables.mfa_recovery_codes (Auth.db s))) →
  In r (recovery_rows s) ∧ unused_code u r = true.
Proof.
  intros Hs r. destruct (auth_schema_parts s Hs) as (_ & _ & Hok).
  unfold recovery_codes_ok in Hok. apply andb_true_iff in Hok as [Hk%primary_key_distinct _].
  rewrite select_clean; [by intros [? ?]%filter_In| |done].
  destruct Hs as [Hc _]. revert Hc. unfold clean_db, clean. destruct (Auth.db s) as [? ? []].
  simpl. by intros [=].
Qed.

(** An accepted code of the second factor costs something: the last step of
    the user's authenticator moves strictly forward, or one open recovery code
    that matches is used up. *)
Theorem accepted_code_is_spent s u code s' :
  consistent s → verify_user_code u code s = (Ok true, s') →
  (∃ step, last_step s' u = Some step ∧ ∀ last, last_step s u = Some last → last < step) ∨
  spends_recovery s s' u (normalize_code code).
Proof.
  intros Hs Hrun. unfold verify_user_code in Hrun.
  apply bind_ok in Hrun as (user & s0 & Hd & Hrun). apply deref_ok in Hd as [Hu ->].
  simpl get_table in Hu.
  assert (Hrec : verify_recovery_code u (normalize_code code) s = (Ok true, s') →
    spends_recovery s s' u (normalize_code code)).
  { unfold verify_recovery_code. intros Hr. erewrite bind_step_ok in Hr by reflexivity.
    eapply consume_recovery_run; [|exact Hr]. by apply recovery_select. }
  destruct (opt_nonempty _); [|right; by apply Hrec].
  apply bind_ok in Hrun as (secret & s1 & Hdec & Hrun).
  assert (s1 = s) as ->.
  { unfold decrypt_secret, some_or in Hdec. by destruct (fernet_decrypt _ _); injection Hdec. }
  erewrite bind_step_ok in Hrun by reflexivity.
  destruct (totp_verify _ _ _); [|right; by apply Hrec].
  destruct (step_used _ _) eqn:Eu; [discriminate Hrun|]. injection Hrun as <-. left.
  exists (totp_timecode (Auth.clock s)). unfold last_step, user_rows. split.
  - simpl. rewrite find_row_alter by done. unfold user_rows in Hu. by rewrite Hu.
  - intros last. rewrite Hu. cbn [mbind option_bind]. intros E. rewrite E in Eu.
    unfold step_used in Eu. by apply Z.leb_gt in Eu.
Qed.

(** [pyotp.TOTP.verify] with a window of one step: the code of the step of the
    clock, of the one before or of the one after. *)
Context (totp_at : string → Z → string).
Hypothesis totp_window : ∀ secret code now, totp_verify secret code now =
  existsb (λ i, String.eqb code (totp_at secret (totp_timecode now + i))) [-1; 0; 1].

Lemma verify_totp_run s u code user ciphertext secret :
  find_row u (user_rows s) = Some user →
  User.mfa_secret_ciphertext user = Some ciphertext → nonempty ciphertext = true →
  fernet_decrypt _fernet ciphertext = Some secret →
  totp_verify secret (normalize_code code) (Auth.clock s) = true →
  step_used (User.mfa_last_used_step user) (totp_timecode (Auth.clock s)) = false →
  verify_user_code u code s = (Ok true,
    put_table (mutate (λ r, r <| User.mfa_last_used_step := Some (totp_timecode (Auth.clock s)) |>)
      u (AuthTables.users (Auth.db s))) s).
Proof.
  intros Hu Hc Hne Hdec Hv Hstep. unfold verify_user_code.
  erewrite bind_step_ok by (apply deref_ok; split; [exact Hu|done]).
  rewrite Hc. cbn [opt_nonempty from_option]. rewrite Hne.
  erewrite bind_step_ok by (unfold decrypt_secret; cbn [id]; rewrite Hdec; reflexivity).
  erewrite bind_step_ok by reflexivity. by rewrite Hv, Hstep.
Qed.

(** The code an authenticator shows is accepted a second time in the step
    after the one it was shown in, although the last step used is recorded. *)
Theorem totp_code_accepted_twice s u code user ciphertext secret d :
  find_row u (user_rows s) = Some user →
  User.mfa_secret_ciphertext user = Some ciphertext → nonempty ciphertext = true →
  fernet_decrypt _fernet ciphertext = Some secret →
  step_used (User.mfa_last_used_step user) (totp_timecode (Auth.clock s)) = false →
  normalize_code code = totp_at secret (totp_timecode (Auth.clock s)) →
  totp_timecode (Auth.clock s + d) = totp_timecode (Auth.clock s) + 1 →
  ∃ s1 s2, verify_user_code u code s = (Ok true, s1) ∧
    verify_user_code u code (wait d s1) = (Ok true, s2).
Proof.
  intros Hu Hc Hne Hdec Hstep Hcode Hnext. eexists _, _. split.
  - eapply verify_totp_run; try done. rewrite totp_window. simpl.
    rewrite Hcode, Z.add_0_r, String.eqb_refl. by rewrite orb_true_r.
  - eapply (verify_totp_run _ u code
      (user <| User.mfa_last_used_step := Some (totp_timecode (Auth.clock s)) |>)); try done.
    + unfold user_rows. simpl. rewrite find_row_alter by done. unfold user_rows in Hu. by rewrite Hu.
    + rewrite totp_window. unfold wait. simpl. rewrite Hnext, Hcode.
      replace (_ + 1 + -1) with (totp_timecode (Auth.clock s)) by lia. by rewrite String.eqb_refl.
    + unfold wait. simpl. rewrite Hnext. apply Z.leb_gt. lia.
Qed.
End second_factor.

(** ** Instances: Bob has an authenticator *)
Import AuthExample.

Definition code_now : string := code_at "k" (step_of day).
Definition verified : Auth := (verify_user_code 2 code_now start).2.
Lemma bob_verifies : verify_user_code 2 code_now start = (Ok true, verified).
Proof. unfold verified. apply run_outcome. vm_compute. reflexivity. Qed.
Lemma accepted_code_is_spent_witness :
  (∃ step, last_step verified 2 = Some step ∧ ∀ last, last_step start 2 = Some last → last < step) ∨
  spends_recovery start verified 2 (normalize_code code_now).
Proof. exact (accepted_code_is_spent start 2 code_now verified start_consistent bob_verifies). Defined.

Lemma totp_code_accepted_twice_witness :
  ∃ s1 s2, verify_user_code 2 code_now start = (Ok true, s1) ∧
    verify_user_code 2 code_now (wait (30 * second) s1) = (Ok true, s2).
Proof.
  apply (totp_code_accepted_twice code_at) with (user := bob) (ciphertext := "ek") (secret := "k").
  - reflexivity.
  - vm_compute. reflexivity.
  - reflexivity.
  - reflexivity.
  - reflexivity.
  - reflexivity.
  - vm_compute. reflexivity.
  - vm_compute. reflexivity.
Defined.
