(* ===== verification/EmailFacts.v ===== *)
(** * The markup of an e-mail

    Every text of a message enters the HTML escaped, so the characters that mean
    something to a browser - tags, quotes - are those of the template: they
    depend on which parts a message has, and not on what the texts say. *)

From S2P Require Import Prelude.
From S2P Require Import PyText.
From S2P Require Import Json.
From S2P Require Import EmailTemplates.

(** The characters that open and close tags and attributes. *)
Definition is_markup (c : ascii) : bool := existsb (Ascii.eqb c) ["<"%char; ">"%char; dquote; squote].
Definition markup (s : string) : list ascii := List.filter is_markup (chars s).

Lemma markup_append a b : markup (a +:+ b) = markup a ++ markup b.
Proof. unfold markup. by rewrite chars_append, List.filter_app. Qed.
Lemma markup_concat l : markup (concat_str l) = concat (map markup l).
Proof. induction l as [|s l IH]; simpl; [done|]. by rewrite markup_append, IH. Qed.

Lemma escaped_char c : List.filter is_markup (escape_char c) = [].
Proof. destruct c as [[] [] [] [] [] [] [] []]; reflexivity. Qed.
Lemma markup_escape s : markup (escape s) = [].
Proof.
  unfold markup, escape. rewrite chars_text. induction (chars s) as [|c l IH]; cbn; [done|].
  by rewrite List.filter_app, escaped_char.
Qed.

(** A line break of a paragraph becomes a tag. *)
Definition line_breaks (s : string) : nat := length (List.filter (Ascii.eqb newline) (chars s)).
Definition break_tags (n : nat) : list ascii := concat (repeat ["<"; ">"]%char n).

Lemma escaped_breaks c :
  List.filter is_markup (concat (map (λ c, if Ascii.eqb c newline then chars "<br>" else [c])
    (escape_char c))) = if Ascii.eqb newline c then ["<"; ">"]%char else [].
Proof. destruct c as [[] [] [] [] [] [] [] []]; reflexivity. Qed.
Lemma markup_paragraph s : markup (break_lines (escape s)) = break_tags (line_breaks s).
Proof.
  unfold markup, break_lines, escape, line_breaks, break_tags. rewrite !chars_text.
  induction (chars s) as [|c l IH]; [done|]. cbn [map concat List.filter].
  rewrite map_app, concat_app, List.filter_app, escaped_breaks, IH.
  by destruct (Ascii.eqb newline c).
Qed.

#[local] Opaque markup escape html_literal break_lines.

Section messages.
Context `{MailAssets}.

Definition has_button (label url : option string) : bool :=
  match button label url with Some _ => true | None => false end.
(** Which parts a message has. *)
Definition shape (b : Branded) : bool * list nat * bool * bool * bool :=
  (opt_nonempty (br_greeting_name b), map line_breaks (br_paragraphs b),
   has_button (br_action_label b) (br_action_url b),
   opt_nonempty (br_qr_content_id b), opt_nonempty (br_note b)).

(** A part that is there when its text is. *)
Lemma optional_markup (part : string → string) n n' :
  (∀ a b, markup (part a) = markup (part b)) → opt_nonempty n = opt_nonempty n' →
  markup (match n with Some x => if nonempty x then part x else "" | None => "" end) =
  markup (match n' with Some x => if nonempty x then part x else "" | None => "" end).
Proof.
  intros Hp. unfold opt_nonempty. destruct n as [n|], n' as [n'|].
  - destruct (nonempty n), (nonempty n'); intros E; [apply Hp|discriminate E|discriminate E|reflexivity].
  - destruct (nonempty n); intros E; [discriminate E|reflexivity].
  - destruct (nonempty n'); intros E; [discriminate E|reflexivity].
  - reflexivity.
Qed.
Lemma greeting_markup n n' :
  opt_nonempty n = opt_nonempty n' → markup (greeting n) = markup (greeting n').
Proof.
  unfold greeting. apply optional_markup. intros a b. rewrite !markup_concat. cbn [map].
  rewrite !markup_escape. reflexivity.
Qed.
Lemma paragraph_markup a b :
  line_breaks a = line_breaks b → markup (safe_paragraph a) = markup (safe_paragraph b).
Proof.
  intros E. unfold safe_paragraph. rewrite !markup_concat. cbn [map].
  rewrite !markup_paragraph, E. reflexivity.
Qed.
Lemma paragraphs_markup l l' :
  map line_breaks l = map line_breaks l' → markup (safe_paragraphs l) = markup (safe_paragraphs l').
Proof.
  unfold safe_paragraphs. rewrite !markup_concat, !map_map. intros E.
  assert (Hl : map (λ p, markup (safe_paragraph p)) l = map (λ p, markup (safe_paragraph p)) l');
    [|by rewrite Hl].
  revert l' E. induction l as [|s l IH]; intros [|s' l'] E; [reflexivity|discriminate E..|].
  injection E as E1 E2. cbn [map]. rewrite (IH l' E2), (paragraph_markup s s' E1). reflexivity.
Qed.
Lemma action_markup l u l' u' :
  has_button l u = has_button l' u' → markup (action l u) = markup (action l' u').
Proof.
  unfold action, has_button. destruct (button l u) as [[a b]|], (button l' u') as [[a' b']|]; intros E.
  - rewrite !markup_concat. cbn [map]. rewrite !markup_escape. reflexivity.
  - discriminate E.
  - discriminate E.
  - reflexivity.
Qed.
Lemma qr_markup n n' :
  opt_nonempty n = opt_nonempty n' → markup (qr_picture n) = markup (qr_picture n').
Proof.
  unfold qr_picture. apply optional_markup. intros a b. rewrite !markup_concat. cbn [map].
  rewrite !markup_escape. reflexivity.
Qed.
Lemma note_markup n n' :
  opt_nonempty n = opt_nonempty n' → markup (note_html n) = markup (note_html n').
Proof.
  unfold note_html. apply optional_markup. intros a b. rewrite !markup_concat. cbn [map].
  rewrite !markup_escape. reflexivity.
Qed.

(** C38: The markup of an e-mail is the template's: two messages with the same
    parts have the same tags and quotes in their HTML, whatever the names,
    titles, addresses and texts in them say. *)
Theorem email_markup_is_the_template b b' :
  shape b = shape b' → markup (branded_html b) = markup (branded_html b').
Proof.
  unfold shape. intros [= Hg Hp Ha Hq Hn].
  unfold branded_html, line. rewrite !markup_concat. cbn [map].
  rewrite !markup_append, !markup_escape, (greeting_markup _ _ Hg), (paragraphs_markup _ _ Hp),
    (action_markup _ _ _ _ Ha), (qr_markup _ _ Hq), (note_markup _ _ Hn). reflexivity.
Qed.
End messages.

(** ** An instance *)
#[local] Instance plain_assets : MailAssets := {| brand_mark_png := ""; qr_png v := v |}.
Definition message_to (name : string) : Branded :=
  mkBranded "Subject" "Eyebrow" "Title" ["First"; "Second"] "https://rubrica.example" (Some name)
    (Some "Open") (Some "https://rubrica.example/open") None None [].
Lemma email_markup_is_the_template_witness :
  markup (branded_html (message_to "Ana")) =
  markup (branded_html (message_to "<b onclick=x>Ana</b>")).
Proof. apply email_markup_is_the_template. reflexivity. Defined.
