(* ===== verification/CoreWeb.v ===== *)
(** * The endpoints of core_api

    What a request needs before a service is called: the context auth_api gives
    for its access token (infrastructure/auth_context.py), the permission or role
    of the endpoint, the size of a body; and what the endpoints of the routers of
    documents, signature requests, tenants, billing and contact make of the
    answers (document_router.py, signature_request_router.py, tenant_router.py,
    billing_router.py, contact/router.py).  A request and its credentials are the
    variables of the section. *)

From S2P Require Import Prelude.
From S2P Require Import PyText.
From S2P Require Import Json.
From S2P Require Import Http.
From S2P Require Import DateTime.
From S2P Require Import Orm.
From S2P Require Import WorkflowSchema.
From S2P Require Import CoreDb.
From S2P Require Import Storage.
From S2P Require Import PdfValidation.
From S2P Require Import Tenant.
From S2P Require Import Billing.
From S2P Require Import EmailTemplates.
From S2P Require Import DbWorkflow.

Local Open Scope Z_scope.

Class CoreWebEnv := {
  (** auth_api: GET /access-control/context with an access token; an answer that
      is not JSON counts as none. *)
  auth_access_context : string → http_answer;
  (** The JSON answer of the captcha service to a form, at some draw of its;
      [None] for an HTTP error or an answer that is not JSON. *)
  contact_siteverify : N → list (string * string) → option json
}.

(** ** The context of a request *)
(** [frozenset(value)], its texts: a text is the set of its characters, a
    dictionary the set of its keys, and lists have no hash. *)
Definition hashable (v : json) : bool :=
  match v with JObj _ | JArr _ => false | _ => true end.
Definition texts_of (l : list json) : list string :=
  omap (λ v, match v with JStr s => Some s | _ => None end) l.
Definition frozenset_texts (v : json) : result (list string) :=
  match v with
  | JArr l => if forallb hashable l then Ok (texts_of l) else Err TypeError
  | JStr s => Ok (map (λ c, text [c]) (chars s))
  | JObj l => Ok (map fst l)
  | _ => Err TypeError
  end.
(** [str(value) if value else other] *)
Definition str_or {A} (f : string → A) (v : json) (other : A) : A :=
  if truthy v then f (py_str v) else other.

(** [AuthContext(...)] of the answer. *)
Definition context_of (payload : json) : result AuthContext :=
  subject ← jindex payload "subject";
  user_id ← jget payload "user_id";
  email ← jget payload "email";
  roles ← jget_or payload "roles" (JArr []);
  roles ← frozenset_texts roles;
  permission_keys ← jget_or payload "permission_keys" (JArr []);
  permission_keys ← frozenset_texts permission_keys;
  Ok (mkAuthContext (py_str subject) roles permission_keys (str_or Some user_id None)
        (str_or id email (py_str subject))).
Definition authentication_required : exn := HTTPException 401 "Authentication required".
Definition auth_unavailable : exn := HTTPException 503 "Auth service is unavailable".
Definition mfa_not_configured : exn := HTTPException 403 "Configure MFA before accessing Rubrica".

Definition allows (context : AuthContext) (permission : string) : bool :=
  mem_str "*" (ctx_permission_keys context) || mem_str permission (ctx_permission_keys context).
Definition _is_administrator (context : AuthContext) : bool :=
  mem_str "signature_admin" (ctx_roles context) || mem_str "*" (ctx_permission_keys context).

(** A file answered to the browser. *)
Record FileResponse := mkFileResponse { file_content : string; file_headers : list (string * string) }.

(** content_disposition.py *)
Definition plain_char (c : ascii) : bool :=
  (32 <=? N_of_ascii c)%N && (N_of_ascii c <? 127)%N &&
  negb (Ascii.eqb c "\" || Ascii.eqb c dquote).
Definition fallback_name (filename : string) : string :=
  if all_chars plain_char filename then filename else "documento.pdf".
Definition pdf_content_disposition (filename : string) (attachment : bool) : string :=
  (if attachment then "attachment" else "inline") +:+ "; filename=" +:+ text [dquote] +:+
  fallback_name filename +:+ text [dquote] +:+ "; filename*=UTF-8" +:+ text [squote; squote] +:+
  quote filename.

Section web.
Context `{Env} `{WorkflowEnv} `{DocumentStorage} `{PdfLibrary} `{BillingProvider} `{HttpEnv}
  `{CoreWebEnv}.

Definition _resolve_context (token : string) : M Core AuthContext :=
  raise_if (negb (nonempty token)) authentication_required;;
  payload ← (match auth_access_context token with
             | HttpOk payload => mret payload
             | HttpStatus code _ =>
                 if Z.eqb code 401 || Z.eqb code 403 then raise authentication_required
                 else raise auth_unavailable
             | HttpDown => raise auth_unavailable
             end);
  setup_required ← lift (jget payload "mfa_setup_required");
  raise_if (truthy setup_required) mfa_not_configured;;
  context ← lift (context_of payload);
  modify (λ s, s <| Core.auth_context := Some context |>);;
  mret context.

(** ** One request: its credentials are what the framework read of them *)
Section request.
Context (request : HttpRequest) (credentials : option string).

Definition _token : string := or_str credentials (cookie request "access_token").

(** Each request has a context variable of its own. *)
Definition authenticated_context : M Core AuthContext :=
  modify (λ s, s <| Core.auth_context := None |>);;
  when (bool_decide (credentials = None) && negb (mem_str (req_method request) safe_methods))
    (lift (require_same_origin request (PUBLIC_WEB_URL settings) (ENVIRONMENT settings)));;
  _resolve_context _token.

Definition require_permission (permission : string) : M Core AuthContext :=
  context ← authenticated_context;
  raise_if (negb (allows context permission)) (HTTPException 403 "Permission denied");;
  mret context.
Definition administrator_context : M Core AuthContext :=
  context ← authenticated_context;
  raise_if (negb (_is_administrator context)) (HTTPException 403 "Administrator access required");;
  mret context.

(** *** Documents (document_router.py) *)
Definition max_size : Z := DOCUMENT_MAX_SIZE_BYTES settings.
Definition too_large : exn := workflow_error "Document exceeds the allowed size" 413.
Definition check_content_length : result unit :=
  match header request "content-length" with
  | Some content_length =>
      if nonempty content_length then
        match parse_int content_length with
        | Some n => if max_size <? n then Err too_large else Ok tt
        | None => Err (workflow_error "Invalid Content-Length header" 400)
        end
      else Ok tt
  | None => Ok tt
  end.
(** [request.stream()]: the chunks of the body as they arrive, or what waiting for
    the next one raises - the client may go away. *)
Fixpoint read_chunks (body : string) (chunks : list (result string)) : result string :=
  match chunks with
  | [] => Ok body
  | Err e :: _ => Err e
  | Ok chunk :: rest =>
      let body := body +:+ chunk in
      if max_size <? Z.of_nat (String.length body) then Err too_large else read_chunks body rest
  end.
Definition _read_document_body (chunks : list (result string)) : result string :=
  check_content_length;; read_chunks "" chunks.

Definition list_documents_endpoint : M Core (list DocumentRead) :=
  context ← require_permission "documents:read";
  WorkflowService.list_documents (ctx_subject context).
Definition get_document_endpoint (document_id : N) : M Core DocumentRead :=
  context ← require_permission "documents:read";
  WorkflowService.get_document (uuid_str document_id) (ctx_subject context).
Definition delete_document_endpoint (document_id : N) (force : bool) : M Core unit :=
  context ← require_permission "documents:write";
  WorkflowService.delete_document (uuid_str document_id) (ctx_subject context) force.
Definition pdf_response (content filename digest : string) (attachment : bool) : FileResponse :=
  mkFileResponse content
    [("Content-Disposition", pdf_content_disposition filename attachment);
     ("X-Content-Type-Options", "nosniff"); ("X-Document-SHA256", digest)].
Definition document_response (found : DocumentVersionRead * string) (attachment : bool) : FileResponse :=
  pdf_response found.2 (vr_original_filename found.1) (vr_sha256 found.1) attachment.
Definition download_document (document_id : N) (version : option Z) : M Core FileResponse :=
  context ← require_permission "documents:read";
  found ← WorkflowService.get_content (uuid_str document_id) version (Some (ctx_subject context));
  mret (document_response found true).
Definition preview_document (document_id : N) (version : option Z) : M Core FileResponse :=
  context ← require_permission "documents:read";
  found ← WorkflowService.get_content (uuid_str document_id) version (Some (ctx_subject context));
  mret (document_response found false).
Definition content_type : string := from_option id "" (header request "content-type").
Definition upload_document (organization_id title filename : string) (chunks : list (result string))
    : M Core DocumentRead :=
  context ← require_permission "documents:write";
  content ← lift (_read_document_body chunks);
  lift (validate_pdf_upload content filename content_type);;
  WorkflowService.create_document
    (mkDocumentCreate organization_id title filename "application/pdf" (ctx_subject context)) content.
Definition create_version (document_id : N) (filename : string) (chunks : list (result string))
    : M Core DocumentRead :=
  context ← require_permission "documents:write";
  content ← lift (_read_document_body chunks);
  lift (validate_pdf_upload content filename content_type);;
  WorkflowService.add_version (uuid_str document_id) filename "application/pdf" (ctx_subject context)
    content.

(** *** Signature requests (signature_request_router.py) *)
Definition list_signer_contacts_endpoint (tenant_id : N) (q : string) : M Core (list SignerContactRead) :=
  context ← require_permission "signature_requests:read";
  WorkflowService.list_signer_contacts tenant_id (ctx_subject context) q.
Definition list_requests_endpoint : M Core (list SignatureRequestRead) :=
  context ← require_permission "signature_requests:read";
  WorkflowService.list_requests (ctx_subject context).
Definition get_request_endpoint (request_id : N) : M Core SignatureRequestRead :=
  context ← require_permission "signature_requests:read";
  WorkflowService.get_request (uuid_str request_id) (ctx_subject context).
Definition create_request_endpoint (document_id : N) (expires_at : Z) : M Core SignatureRequestRead :=
  context ← require_permission "signature_requests:write";
  WorkflowService.create_request (mkSignatureRequestCreate document_id expires_at (ctx_subject context)).
(** A signer with what auth_api tells of the identity document. *)
Definition with_identity (signer : SignerRead) : SignerRead * IdentitySummary :=
  (signer, identity_summary (sr_email signer)).
Definition list_signers_endpoint (request_id : N) : M Core (list (SignerRead * IdentitySummary)) :=
  context ← require_permission "signature_requests:read";
  signers ← WorkflowService.list_signers (uuid_str request_id) (ctx_subject context);
  mret (map with_identity signers).
Definition add_signer_endpoint (request_id : N) (payload : SignerCreate) : M Core SignerRead :=
  context ← require_permission "signature_requests:write";
  WorkflowService.add_signer (uuid_str request_id) payload (ctx_subject context).
Definition create_signing_link_endpoint (request_id : N) : M Core SigningLinkRead :=
  context ← require_permission "signature_requests:write";
  try_catch (WorkflowService.create_signing_link (uuid_str request_id) (ctx_subject context))
    (λ e, match e with
          | SignatureInvitationDeliveryError message => raise (HTTPException 503 message)
          | _ => raise e
          end).
Definition get_signing_link_endpoint (request_id : N) : M Core SigningLinkRead :=
  context ← administrator_context;
  WorkflowService.get_signing_link (uuid_str request_id) (ctx_subject context).
Definition signature_evidence_endpoint (request_id : N) : M Core (list SignatureEvidenceRead) :=
  context ← administrator_context;
  WorkflowService.signature_evidence (uuid_str request_id) (ctx_subject context).
Definition signed_response (found : string * string * string) : FileResponse :=
  let '(filename, digest, content) := found in
  mkFileResponse content
    [("Content-Disposition", pdf_content_disposition filename false); ("X-Signed-Document-SHA256", digest)].
Definition signed_document_endpoint (request_id : N) : M Core FileResponse :=
  context ← administrator_context;
  found ← WorkflowService.signed_document (uuid_str request_id) (Some (ctx_subject context));
  mret (signed_response found).
Definition revoke_signer_link_endpoint (request_id signer_id : N) : M Core SignerRead :=
  context ← require_permission "signature_requests:write";
  WorkflowService.revoke_signer_link (uuid_str request_id) (uuid_str signer_id) (ctx_subject context).
Definition open_request_endpoint (request_id : N) (signature_mode : SignatureMode)
    : M Core SignatureRequestRead :=
  context ← require_permission "signature_requests:write";
  WorkflowService.open_request (uuid_str request_id) (ctx_subject context) signature_mode.
Definition cancel_request_endpoint (request_id : N) : M Core SignatureRequestRead :=
  context ← require_permission "signature_requests:write";
  WorkflowService.cancel_request (uuid_str request_id) (ctx_subject context).
Definition request_audit (request_id : N) : M Core (list Audit.AuditEventEntity) :=
  context ← require_permission "audit:read";
  WorkflowService.audit_events (uuid_str request_id) (ctx_subject context).

(** *** Signing (signature_request_router.py): the token is the authorization *)
Definition signing_context_endpoint (token : string) : M Core (SigningRead * IdentitySummary) :=
  context ← authenticated_context;
  signing ← WorkflowService.signing_context token (ctx_subject context) (_is_administrator context);
  mret (signing, identity_summary (sr_email (sg_signer signing))).
Definition signing_document_endpoint (token : string) : M Core FileResponse :=
  context ← authenticated_context;
  found ← WorkflowService.signing_document token (ctx_subject context) (_is_administrator context);
  mret (document_response found false).
Definition download_signing_document (token : string) : M Core FileResponse :=
  context ← authenticated_context;
  found ← WorkflowService.signing_document token (ctx_subject context) (_is_administrator context);
  mret (document_response found true).
Definition signing_signed_document_endpoint (token : string) : M Core FileResponse :=
  context ← authenticated_context;
  found ← WorkflowService.signing_signed_document token (ctx_subject context) (_is_administrator context);
  mret (signed_response found).
Definition view_document (token : string) : M Core (SignerRead * IdentitySummary) :=
  context ← authenticated_context;
  signer ← WorkflowService.view token (ctx_subject context);
  mret (with_identity signer).

(** The address the trusted proxy reports, else the one of the peer unless it is
    an internal one. *)
Definition own_address (value : string) : bool :=
  match req_host request with Some host => String.eqb value host | None => false end.
Fixpoint first_address (values : list (option string)) : string :=
  match values with
  | [] => "unknown"
  | Some value :: rest =>
      if nonempty value then
        match ip_text value with
        | Some address =>
            if own_address value && ip_private value then first_address rest else address
        | None => first_address rest
        end
      else first_address rest
  | None :: rest => first_address rest
  end.
Definition _client_ip : string := first_address [header request "x-real-ip"; req_host request].

(** The body of the command: consent, stamp and evidence. *)
Record SignPayload := mkSignPayload {
  sp_consent : bool; sp_stamp : StampPosition; sp_consent_version : string;
  sp_client : ClientEvidence; sp_geolocation : GeolocationEvidence
}.
Definition sign_document (token : string) (payload : SignPayload) : M Core SignerRead :=
  context ← authenticated_context;
  WorkflowService.sign (WorkflowService.mkSignCommand token (ctx_subject context) (sp_consent payload)
    (sp_stamp payload) (sp_consent_version payload) (Some (sp_client payload))
    (Some (sp_geolocation payload)) _client_ip
    (from_option id "unknown" (header request "user-agent")) None None).
Definition decline_document (token : string) : M Core SignerRead :=
  context ← authenticated_context;
  WorkflowService.decline token (ctx_subject context).

(** *** Tenants (tenant_router.py) *)
(** [POST /internal/tenants/provision]: the caller is auth_api. *)
Definition provision_tenant (payload : TenantProvision)
    (x_rubrica_service x_rubrica_service_key : option string) : M Core TenantRead :=
  let refused := HTTPException 403 "Service authentication failed" in
  raise_if (negb (bool_decide (x_rubrica_service = Some "auth_api")) ||
            negb (nonempty (CORE_INTERNAL_SERVICE_KEY settings))) refused;;
  valid ← lift (verify_service_token (from_option id "" x_rubrica_service_key)
                  (CORE_INTERNAL_SERVICE_KEY settings));
  raise_if (negb valid) refused;;
  TenantService.provision_owner payload.
Definition list_tenants : M Core (list TenantRead) :=
  context ← require_permission "documents:read";
  TenantService.list_for (ctx_subject context).
Definition tenant_access_state : M Core TenantAccessState :=
  context ← require_permission "documents:read";
  TenantService.access_state (ctx_subject context).
Definition create_personal_tenant_after_suspension (payload : TenantCreate) : M Core TenantRead :=
  context ← require_permission "documents:write";
  TenantService.create_personal_after_suspension payload (ctx_subject context) (ctx_user_id context).
Definition create_tenant (payload : TenantCreate) : M Core TenantRead :=
  context ← require_permission "documents:write";
  TenantService.create payload (ctx_subject context).
Definition add_tenant_member (tenant_id : N) (payload : TenantMemberCreate) : M Core unit :=
  context ← require_permission "users:write";
  TenantService.add_member tenant_id payload (ctx_subject context);; mret tt.
Definition invite_tenant_member (tenant_id : N) (payload : TenantMemberInvitation) : M Core unit :=
  context ← require_permission "users:write";
  TenantService.invite_member tenant_id payload (ctx_subject context);; mret tt.
Definition list_tenant_members (tenant_id : N) : M Core (list TenantMemberRead) :=
  context ← require_permission "users:read";
  TenantService.list_members tenant_id (ctx_subject context).
Definition convert_tenant_to_business (tenant_id : N) (payload : TenantBusinessConversion)
    : M Core TenantRead :=
  context ← require_permission "users:write";
  TenantService.convert_to_business tenant_id payload (ctx_subject context).
Definition update_tenant_preferences (tenant_id : N) (payload : TenantPreferencesUpdate)
    : M Core TenantRead :=
  context ← require_permission "users:write";
  TenantService.update_preferences tenant_id payload (ctx_subject context).
Definition read_team (tenant_id : N) : M Core TenantTeamRead :=
  context ← require_permission "documents:read";
  TenantService.team tenant_id (ctx_subject context).
Definition update_team_endpoint (tenant_id : N) (active_member_ids : list N) : M Core TenantTeamRead :=
  context ← require_permission "users:write";
  TenantService.update_team tenant_id active_member_ids (ctx_subject context).
Definition update_team_member_role (tenant_id member_id : N) (role : string) : M Core TenantTeamRead :=
  context ← require_permission "users:write";
  TenantService.update_member_role tenant_id member_id role (ctx_subject context).

(** *** Billing (billing_router.py) *)
Definition list_payments (tenant_id : N) : M Core (list BillingPaymentRead) :=
  context ← require_permission "documents:read";
  BillingService.payments tenant_id (ctx_subject context).
Definition get_account (tenant_id : N) : M Core BillingAccountRead :=
  context ← require_permission "documents:read";
  BillingService.account tenant_id (ctx_subject context).
Definition initialize_account (tenant_id : N) : M Core BillingAccountRead :=
  context ← require_permission "documents:write";
  BillingService.initialize tenant_id (ctx_subject context).
Definition synchronize_account_endpoint (tenant_id : N) : M Core BillingAccountRead :=
  context ← require_permission "documents:write";
  BillingService.synchronize_account tenant_id (ctx_subject context).
Definition create_checkout_endpoint (tenant_id : N) (product_code billing_interval : string)
    : M Core string :=
  context ← require_permission "documents:write";
  BillingService.create_checkout tenant_id (ctx_subject context) product_code billing_interval.
Definition create_portal_endpoint (tenant_id : N) (product_code billing_interval : string)
    : M Core string :=
  context ← require_permission "documents:write";
  BillingService.create_portal tenant_id (ctx_subject context) product_code billing_interval.
(** Authenticated by the signature of the provider. *)
Definition stripe_webhook (body stripe_signature : string) : M Core BillingWebhookRead :=
  BillingService.receive_webhook body stripe_signature.
End request.

(** *** Contact (contact/router.py) *)
Section contact.
(** [[A-Za-z0-9.!#$%&'*+/=?^_`{|}~-]+@[A-Za-z0-9-]+(?:\.[A-Za-z0-9-]+)+] *)
Definition local_char (c : ascii) : bool :=
  is_alnum c || existsb (Ascii.eqb c) (squote :: chars ".!#$%&*+/=?^_`{|}~-").
Definition label_char (c : ascii) : bool := is_alnum c || Ascii.eqb c "-".
Definition filled (p : ascii → bool) (l : list ascii) : bool :=
  match l with [] => false | _ => forallb p l end.
Definition email_pattern (value : string) : bool :=
  match split_char "@" (chars value) with
  | [local; domain] =>
      filled local_char local &&
      match split_char "." domain with
      | first :: (_ :: _) as labels => forallb (filled label_char) (first :: labels)
      | _ => false
      end
  | _ => false
  end.

Record ContactMessage := mkContactMessage {
  cm_name : string; cm_email : string; cm_topic : string; cm_company : string;
  cm_team_size : string; cm_message : string; cm_turnstile_token : string; cm_website : string
}.
#[global] Instance ContactMessage_eta : Eta ContactMessage := λ m,
  mkContactMessage (cm_name m) (cm_email m) (cm_topic m) (cm_company m) (cm_team_size m)
    (cm_message m) (cm_turnstile_token m) (cm_website m).

Definition meaningful_text (value : string) : result string :=
  let value := strip value in
  if negb (nonempty value) || has_zero value then Err (ValueError "invalid text") else Ok value.
Definition clean_company (value : string) : result string :=
  let value := strip value in
  if has_zero value then Err (ValueError "invalid company") else Ok value.
Definition valid_email (value : string) : result string :=
  let value := lower (strip value) in
  if negb (email_pattern value) then Err (ValueError "invalid email") else Ok value.
Definition validate_enterprise_context (m : ContactMessage) : result ContactMessage :=
  if String.eqb (cm_topic m) "enterprise" &&
     ((Z.of_nat (length (code_points (chars (cm_company m)))) <? 2) || negb (nonempty (cm_team_size m)))
  then Err (ValueError "enterprise contact requires company and company size")
  else Ok m.
(** The validators of the model, field by field. *)
Definition contact_message (m : ContactMessage) : result ContactMessage :=
  name ← meaningful_text (cm_name m);
  email ← valid_email (cm_email m);
  company ← clean_company (cm_company m);
  message ← meaningful_text (cm_message m);
  validate_enterprise_context (m <| cm_name := name |> <| cm_email := email |>
    <| cm_company := company |> <| cm_message := message |>).

Definition contact_config : string :=
  if nonempty (CONTACT_TURNSTILE_SECRET_KEY settings) then CONTACT_TURNSTILE_SITE_KEY settings else "".

Definition line_feed : string := text [ascii_of_N 10].
Definition contact_body (m : ContactMessage) : string :=
  let company :=
    if nonempty (cm_company m)
    then line_feed +:+ "Company: " +:+ cm_company m +:+ line_feed +:+ "Company size: " +:+
         cm_team_size m
    else "" in
  "Name: " +:+ cm_name m +:+ line_feed +:+ "Email: " +:+ cm_email m +:+ line_feed +:+
  "Topic: " +:+ cm_topic m +:+ company +:+ line_feed +:+ line_feed +:+ cm_message m.

Definition not_verified : exn := HTTPException 400 "Verification failed".
Definition check_contact (verification : json) : result unit :=
  success ← jget verification "success";
  if negb (truthy success) then Err not_verified
  else if String.eqb (ENVIRONMENT settings) "production" then
    hostname ← jget verification "hostname";
    let expected_host := host_of (PUBLIC_WEB_URL settings) in
    known ← in_set hostname [expected_host; "www." +:+ expected_host];
    if negb known then Err not_verified else Ok tt
  else Ok tt.

Definition submit_contact (message : ContactMessage) : M Core string :=
  raise_if (negb (nonempty (CONTACT_TURNSTILE_SITE_KEY settings)) ||
            negb (nonempty (CONTACT_TURNSTILE_SECRET_KEY settings)))
    (HTTPException 503 "Contact form unavailable");;
  if nonempty (cm_website message) then mret "accepted"
  else
    n ← draw;
    verification ← some_or
      (contact_siteverify n [("secret", CONTACT_TURNSTILE_SECRET_KEY settings);
                             ("response", cm_turnstile_token message)])
      (HTTPException 503 "Verification unavailable");
    lift (check_contact verification);;
    key ← uuid4;
    try_catch
      (BillingService.request_billing_email
         (mkEmail (CONTACT_INBOX_EMAIL settings) ("[Rubrica contact] " +:+ cm_topic message)
            (contact_body message) ("contact-" +:+ uuid_hex key) "RUBRICA NOTIFICATION"))
      (λ e, match e with
            | BillingEmailDeliveryError _ => raise (HTTPException 503 "Message delivery unavailable")
            | _ => raise e
            end);;
    mret "accepted".
End contact.
End web.

(** ** Answers to errors (bootstrap/app.py): status and content *)
Definition workflow_error_handler (message : string) (status_code : Z) (code : option string)
    (context : list (string * Z)) : Z * json :=
  let content := ("detail", JStr message) ::
    (if opt_nonempty code then [("code", JStr (from_option id "" code))] else []) in
  (status_code, JObj (fold_left (λ c kv, assoc_set kv.1 (JNum kv.2) c) context content)).
(** The framework answers the other errors. *)
Definition error_answer (e : exn) : Z * json :=
  match e with
  | WorkflowError message status_code code context =>
      workflow_error_handler message status_code code context
  | HTTPException status_code detail => (status_code, JObj [("detail", JStr detail)])
  | _ => (500, JStr "Internal Server Error")
  end.
