(* ===== verification/CoreWebFacts.v ===== *)
(** * Bodies and headers of core_api

    The body of an upload is read chunk by chunk and never beyond the limit; the
    name of a file survives the header that carries it, whatever characters it
    has. *)

From S2P Require Import Prelude.
From S2P Require Import PyText.
From S2P Require Import Json.
From S2P Require Import Http.
From S2P Require Import DateTime.
From S2P Require Import Orm.
From S2P Require Import WorkflowSchema.
From S2P Require Import CoreDb.
From S2P Require Import Storage.
From S2P Require Import PdfValidation.
From S2P Require Import Tenant.
From S2P Require Import Billing.
From S2P Require Import DbWorkflow.
From S2P Require Import DbWorkflowCalls.
From S2P Require Import WorkflowExample.
From S2P Require Import CoreWeb.

Local Open Scope Z_scope.

(** ** Percent encoding, read back *)
Fixpoint unquote_chars (l : list ascii) : list ascii :=
  match l with
  | "%"%char :: ((a :: b :: rest) as tail) =>
      match hex_digit a, hex_digit b with
      | Some x, Some y => ascii_of_N (Z.to_N (16 * x + y)) :: unquote_chars rest
      | _, _ => "%"%char :: unquote_chars tail
      end
  | c :: rest => c :: unquote_chars rest
  | [] => []
  end.

Lemma unquote_quote_char c l : unquote_chars (quote_char c ++ l) = c :: unquote_chars l.
Proof. destruct c as [[] [] [] [] [] [] [] []]; reflexivity. Qed.
Lemma unquote_quote l : unquote_chars (concat (map quote_char l)) = l.
Proof. induction l as [|c l IH]; [done|]. simpl. by rewrite unquote_quote_char, IH. Qed.

(** Characters a header may have. *)
Definition header_char (c : ascii) : bool := (32 <=? N_of_ascii c)%N && (N_of_ascii c <? 127)%N.
Lemma quote_char_header c : forallb header_char (quote_char c) = true.
Proof. destruct c as [[] [] [] [] [] [] [] []]; reflexivity. Qed.
Lemma quote_header l : forallb header_char (concat (map quote_char l)) = true.
Proof. induction l as [|c l IH]; [done|]. simpl. by rewrite forallb_app, quote_char_header, IH. Qed.
Lemma plain_header l : forallb plain_char l = true → forallb header_char l = true.
Proof.
  rewrite !forallb_forall. intros Hl c Hc. specialize (Hl c Hc). unfold plain_char in Hl.
  by apply andb_true_iff in Hl as [Hl _].
Qed.

Lemma fallback_plain filename : all_chars plain_char (fallback_name filename) = true.
Proof. unfold fallback_name. by destruct (all_chars plain_char filename) eqn:E. Qed.

(** ** A browser that reads the header *)
Fixpoint after_prefix (p l : list ascii) : option (list ascii) :=
  match p, l with
  | [], _ => Some l
  | c :: p, d :: l => if Ascii.eqb c d then after_prefix p l else None
  | _, [] => None
  end.
(** Kind, quoted name and encoded name; inside the quotes a backslash would start
    an escape, and is not read. *)
Definition read_disposition (header : string) : option (string * string * string) :=
  let '(kind, rest) := span_until (Ascii.eqb ";") (chars header) in
  match after_prefix (chars "; filename=" ++ [dquote]) rest with
  | Some rest =>
      let '(name, rest) := span_until (λ c, Ascii.eqb dquote c || Ascii.eqb "\" c) rest in
      match after_prefix (dquote :: chars "; filename*=UTF-8" ++ [squote; squote]) rest with
      | Some rest => Some (text kind, text name, text (unquote_chars rest))
      | None => None
      end
  | None => None
  end.

Lemma after_prefix_app p l : after_prefix p (p ++ l) = Some l.
Proof. induction p as [|c p IH]; [done|]. simpl. by rewrite Ascii.eqb_refl. Qed.
Lemma span_until_at (p : ascii → bool) l c rest :
  forallb (λ x, negb (p x)) l = true → p c = true → span_until p (l ++ c :: rest) = (l, c :: rest).
Proof.
  intros Hl Hc. induction l as [|x l IH]; simpl; [by rewrite Hc|].
  simpl in Hl. apply andb_true_iff in Hl as [Hx%negb_true_iff Hl]. by rewrite Hx, IH.
Qed.
Lemma plain_no_quote l :
  forallb plain_char l = true → forallb (λ x, negb (Ascii.eqb dquote x || Ascii.eqb "\" x)) l = true.
Proof.
  rewrite !forallb_forall. intros Hl c Hc. specialize (Hl c Hc). unfold plain_char in Hl.
  apply andb_true_iff in Hl as [_ Hl]. rewrite (Ascii.eqb_sym dquote), (Ascii.eqb_sym "\").
  by rewrite orb_comm.
Qed.

Definition disposition_kind (attachment : bool) : string := if attachment then "attachment" else "inline".

Lemma disposition_chars filename attachment :
  chars (pdf_content_disposition filename attachment) =
  chars (disposition_kind attachment) ++ ";"%char :: chars " filename=" ++ [dquote] ++
  chars (fallback_name filename) ++ dquote :: (chars "; filename*=UTF-8" ++ [squote; squote]) ++
  concat (map quote_char (chars filename)).
Proof.
  unfold pdf_content_disposition, quote, disposition_kind.
  rewrite !chars_append, !chars_text. simpl. by destruct attachment; rewrite <- ?app_assoc.
Qed.

(** The header that names a file carries the name whatever it is - quotes, line
    breaks, any script - and nothing else: it is one line of printable ASCII, a
    browser reads from it exactly the kind, a plain name for old clients and the
    original name, so that no name can end the quoted text or add a header. *)
Theorem content_disposition_round_trip (filename : string) (attachment : bool) :
  read_disposition (pdf_content_disposition filename attachment) =
    Some (disposition_kind attachment, fallback_name filename, filename) ∧
  all_chars header_char (pdf_content_disposition filename attachment) = true.
Proof.
  split.
  - unfold read_disposition. rewrite disposition_chars.
    rewrite span_until_at by (by destruct attachment).
    change (";"%char :: chars " filename=" ++ [dquote] ++ ?l) with
      ((chars "; filename=" ++ [dquote]) ++ l).
    rewrite after_prefix_app, span_until_at by (try apply plain_no_quote, fallback_plain; done).
    change (dquote :: (?p ++ [squote; squote]) ++ ?l) with ((dquote :: p ++ [squote; squote]) ++ l).
    rewrite after_prefix_app.
    by rewrite unquote_quote, !text_chars.
  - unfold all_chars. rewrite disposition_chars. repeat (rewrite ?forallb_app; cbn [forallb]).
    rewrite quote_header, (plain_header _ (fallback_plain filename)). by destruct attachment.
Qed.

(** ** The body of an upload *)
Section body.
Context `{Env} `{WorkflowEnv} `{DocumentStorage} `{PdfLibrary} `{BillingProvider} `{HttpEnv}
  `{CoreWebEnv}.

Definition size (s : string) : Z := Z.of_nat (String.length s).
Definition body_of (chunks : list string) : string := fold_left String.append chunks "".

Lemma size_append a b : size (a +:+ b) = size a + size b.
Proof.
  unfold size. rewrite <- Nat2Z.inj_add. f_equal.
  induction a as [|c a IH]; [done|]. simpl. by rewrite IH.
Qed.
Lemma size_grows chunks body : size body <= size (fold_left String.append chunks body).
Proof.
  revert body. induction chunks as [|c l IH]; intros body; simpl; [lia|].
  specialize (IH (body +:+ c)). rewrite size_append in IH. unfold size in *. lia.
Qed.

(** The loop ends with all that was sent, when nothing failed on the way. *)
Lemma read_chunks_ok chunks body content :
  size body <= max_size → read_chunks body chunks = Ok content →
  ∃ sent, chunks = map Ok sent ∧ content = fold_left String.append sent body ∧ size content <= max_size.
Proof.
  revert body. induction chunks as [|[c|e] l IH]; intros body Hb; cbn [read_chunks]; [..|done].
  - intros [= <-]. by exists [].
  - fold (size (body +:+ c)). destruct (Z.ltb_spec max_size (size (body +:+ c))); [done|].
    intros (sent & -> & -> & Hs)%IH; [|done]. by exists (c :: sent).
Qed.

Lemma body_within_limit request chunks content :
  0 <= max_size → _read_document_body request chunks = Ok content →
  ∃ sent, chunks = map Ok sent ∧ content = body_of sent ∧ size content <= max_size.
Proof. unfold _read_document_body. intros Hm (u & _ & Hr)%result_bind_ok. by apply read_chunks_ok in Hr. Qed.

(** Once the chunks that arrived exceed the limit, the rest is not waited for. *)
Lemma read_chunks_stops l1 l2 body :
  size body <= max_size → max_size < size (fold_left String.append l1 body) →
  read_chunks body (map Ok l1 ++ l2) = Err too_large.
Proof.
  revert body. induction l1 as [|c l1 IH]; intros body Hb Hl; cbn [map app read_chunks fold_left] in *; [lia|].
  fold (size (body +:+ c)). destruct (Z.ltb_spec max_size (size (body +:+ c))); [done|].
  by apply IH.
Qed.

(** C34: An upload is stored as it was sent or not at all: the document is created,
    for the caller, from exactly the bytes of the chunks, which all arrived, are
    no more than the limit and passed the checks of a PDF.  And the body is not
    read beyond the limit: when the Content-Length header, if there is one, was
    not refused before and the chunks that arrived exceed the limit, reading ends
    with that refusal, and so does the upload of a caller with the permission,
    whatever would come next - also if waiting for the next chunk would fail. *)
Theorem upload_is_the_bytes_sent request credentials organization_id title filename chunks s :
  0 <= max_size →
  (∀ document s', upload_document request credentials organization_id title filename chunks s =
     (Ok document, s') →
   ∃ context s1 sent, require_permission request credentials "documents:write" s = (Ok context, s1) ∧
     chunks = map Ok sent ∧ size (body_of sent) <= max_size ∧
     validate_pdf_upload (body_of sent) filename (content_type request) = Ok tt ∧
     WorkflowService.create_document (mkDocumentCreate organization_id title filename
       "application/pdf" (ctx_subject context)) (body_of sent) s1 = (Ok document, s')) ∧
  (∀ l1 l2, chunks = map Ok l1 ++ l2 → max_size < size (body_of l1) →
     check_content_length request = Ok tt →
     _read_document_body request chunks = Err too_large ∧
     ∀ context s1, require_permission request credentials "documents:write" s = (Ok context, s1) →
       upload_document request credentials organization_id title filename chunks s = (Err too_large, s1)).
Proof.
  intros Hm. split.
  - intros document s' (context & s1 & Hc & Hr)%bind_ok.
    apply bind_ok in Hr as (content & s2 & [Hb ->]%lift_ok & Hr).
    apply bind_ok in Hr as ([] & s3 & [Hv ->]%lift_ok & Hr).
    apply body_within_limit in Hb as (sent & -> & -> & Hle); [|done]. by exists context, s1, sent.
  - intros l1 l2 -> Hl Hh.
    assert (Hb : _read_document_body request (map Ok l1 ++ l2) = Err too_large)
      by (unfold _read_document_body; rewrite Hh; cbn; by rewrite read_chunks_stops).
    split; [exact Hb|]. intros context s1 Hc. unfold upload_document.
    erewrite bind_step_ok by exact Hc. apply bind_step_err. unfold lift. by rewrite Hb.
Qed.
End body.

(** ** An upload in two chunks *)
Section witnesses.
Import WorkflowExample.
#[local] Instance no_provider : BillingProvider :=
  FakeBillingProvider.provider (λ _, Err (ValueError "Expecting value")).
#[local] Instance no_addresses : HttpEnv :=
  {| netloc_ok _ := true; ip_text := Some; ip_private _ := false |}.
#[local] Instance administrator : CoreWebEnv := {|
  auth_access_context _ := HttpOk (JObj
    [("subject", JStr "admin@acme.com"); ("user_id", JStr (uuid_str 501)); ("permission_keys", JArr [JStr "*"])]);
  contact_siteverify _ _ := None
|}.

Definition upload_request : HttpRequest :=
  mkRequest "POST" [("authorization", "Bearer t"); ("content-type", "application/pdf")] [] None.
Definition sent : list string := ["%PDF-1.7 con"; "tract %%EOF"].
Definition uploading_twice : M Core DocumentRead :=
  upload_document upload_request (Some "t") "acme" "Contract" "contract.pdf" (map Ok sent).
Definition uploaded : result DocumentRead := Eval vm_compute in (uploading_twice Example.s0).1.

Lemma upload_is_the_bytes_sent_witness :
  ∃ context s1 chunks, require_permission upload_request (Some "t") "documents:write" Example.s0 =
      (Ok context, s1) ∧ sent = chunks ∧ size (body_of chunks) <= max_size ∧
    validate_pdf_upload (body_of chunks) "contract.pdf" "application/pdf" = Ok tt.
Proof.
  destruct (upload_is_the_bytes_sent upload_request (Some "t") "acme" "Contract" "contract.pdf" (map Ok sent)
    Example.s0) as [Hup _]; [vm_compute; discriminate|].
  destruct uploaded as [document|] eqn:E; [|discriminate E].
  destruct (Hup document (uploading_twice Example.s0).2) as (context & s1 & chunks & Hc & Hch & Hs & Hv & _).
  - apply run_outcome. rewrite <- E. vm_compute. reflexivity.
  - exists context, s1, chunks. split; [exact Hc|]. split; [|split; [exact Hs|exact Hv]].
    destruct chunks as [|a [|b [|c l]]]; try discriminate Hch. injection Hch as <- <-. reflexivity.
Defined.
End witnesses.
