(* ===== verification/SerproId.v ===== *)
(** * Signing with a Serpro ID certificate (serproid_service.py, serproid_router.py)

    The authorisation of a certificate signature: [start_authorization] binds an
    attempt to a state that goes through the browser, [finish_authorization] takes
    it once, exchanges the code, checks the identity and the certificate and has
    the workflow sign with it.  The attempts are the keys of a Redis database next
    to the state of core_api; Serpro ID, the certificate and PDF libraries and the
    answer of auth_api are the class [SerproIdEnv]. *)

From S2P Require Import Prelude.
From S2P Require Import PyText.
From S2P Require Import Base64.
From S2P Require Import Json.
From S2P Require Import Http.
From S2P Require Import DateTime.
From S2P Require Import Orm.
From S2P Require Import WorkflowSchema.
From S2P Require Import CoreDb.
From S2P Require Import Storage.
From S2P Require Import PdfValidation.
From S2P Require Import Tenant.
From S2P Require Import Billing.
From S2P Require Import DbWorkflow.
From S2P Require Import CoreWeb.
From S2P Require Import Redis.
From S2P Require Import EmailTemplates.

Local Open Scope Z_scope.

(** An X.509 certificate, and a signature found in a PDF with the outcome of its
    validation. *)
Record Certificate := mkCertificate {
  not_valid_before_utc : Z; not_valid_after_utc : Z; fingerprint : string; public_bytes : string
}.
Record EmbeddedSignature := mkEmbeddedSignature {
  signer_cert : string; intact : bool; valid : bool
}.

Class SerproIdEnv := {
  SERPROID_ENVIRONMENT : string;
  (** auth_api: [/users/internal/identity-match]. *)
  auth_identity_match : json → http_answer;
  (** Serpro ID: the form posted to an address; what a bearer of a token is given
      at an address; what is answered to a hash it asks to sign. *)
  serpro_token : string → list (string * string) → http_answer;
  serpro_certificates : string → string → http_answer;
  serpro_signature : string → string → json → http_answer;
  (** [x509.load_pem_x509_certificate] and [load_der_x509_certificate] *)
  load_pem_certificate : string → result Certificate;
  load_der_certificate : string → result Certificate;
  (** pyhanko: the digest to sign of a PDF and the document it is for; the type of
      a CMS object; the document with the object in; its signatures. *)
  digest_doc_for_signing : string → result (string * string);
  cms_content_type : string → result string;
  finish_signing : string → string → string → result string;
  embedded_signatures : string → result (list EmbeddedSignature)
}.

(** What is stored for a state; the command is its JSON text, kept as the value. *)
Module Attempt.
Record Attempt := make {
  token : string; subject : string; request_id : string; signer_id : string;
  document_sha256 : string; command : SignPayload; verifier : string; ip : string; agent : string
}.
End Attempt.
Abbreviation Attempt := Attempt.Attempt.

(** core_api and the attempts. *)
Module Serpro.
Record Serpro := make { core : Core; attempts : keyspace Attempt }.
#[global] Instance Serpro_eta : Eta Serpro := λ s, make (core s) (attempts s).
End Serpro.
Abbreviation Serpro := Serpro.Serpro.

Definition core_call {A} (m : M Core A) : M Serpro A := λ s,
  let '(r, c) := m (Serpro.core s) in (r, s <| Serpro.core := c |>).
Definition attempts_call {A} (command : Z → M (keyspace Attempt) A) : M Serpro A := λ s,
  let '(r, db) := command (Core.clock (Serpro.core s)) (Serpro.attempts s) in
  (r, s <| Serpro.attempts := db |>).

(** [bytes.fromhex], on the digests of the library. *)
Fixpoint bytes_of_hex (l : list ascii) : list ascii :=
  match l with
  | a :: b :: rest =>
      ascii_of_N (Z.to_N (from_option id 0 (hex_digit a) * 16 + from_option id 0 (hex_digit b))) ::
      bytes_of_hex rest
  | _ => []
  end.

(** [s.splitlines()]: the boundaries of a line and their lengths. *)
Definition line_boundary (l : list ascii) : nat :=
  match map N_of_ascii l with
  | 13%N :: 10%N :: _ => 2
  | 10%N :: _ | 11%N :: _ | 12%N :: _ | 13%N :: _ | 28%N :: _ | 29%N :: _ | 30%N :: _ => 1
  | 194%N :: 133%N :: _ => 2
  | 226%N :: 128%N :: 168%N :: _ | 226%N :: 128%N :: 169%N :: _ => 3
  | _ => 0
  end%nat.
Fixpoint splitlines_from (skip : nat) (line : list ascii) (l : list ascii) : list string :=
  match l with
  | [] => match line with [] => [] | _ => [text (rev line)] end
  | c :: rest =>
      match skip with
      | S k => splitlines_from k line rest
      | O => match line_boundary l with
             | O => splitlines_from 0 (c :: line) rest
             | S k => text (rev line) :: splitlines_from k [] rest
             end
      end
  end.
Definition splitlines (s : string) : list string := splitlines_from 0 [] (chars s).

(** [len(v) == 1 and v[0]], the two errors of a value that is no list included. *)
Definition only_element (v : json) (e : exn) : result json :=
  match v with
  | JArr [x] => Ok x
  | JArr _ => Err e
  | JStr s => if Nat.eqb (String.length s) 1 then Ok (JStr s) else Err e
  | JObj [_] => Err KeyError
  | JObj _ => Err e
  | _ => Err TypeError
  end.
(** [v[-4:]] *)
Definition last_four (v : json) : result json :=
  match v with
  | JStr s => Ok (JStr (last_str 4 s))
  | JArr l => Ok (JArr (rev (firstn 4 (rev l))))
  | JObj _ => Err KeyError
  | _ => Err TypeError
  end.

Section serproid.
Context `{Env} `{WorkflowEnv} `{DocumentStorage} `{PdfLibrary} `{SerproIdEnv}.

Definition STATE_PREFIX : string := "rubrica:serproid:state:".
Definition state_key (state : string) : string := STATE_PREFIX +:+ state.

Definition _serpro_base : string :=
  let host := if String.eqb SERPROID_ENVIRONMENT "homologation"
              then "hom.serproid.serpro.gov.br" else "serproid.serpro.gov.br" in
  "https://" +:+ host +:+ "/oauth/v0/oauth".
Definition _redirect_uri : string :=
  rstrip_slash (PUBLIC_WEB_URL settings) +:+ "/api/auth/serproid/callback".
Definition serproid_configured : bool :=
  nonempty (SERPROID_CLIENT_ID settings) && nonempty (SERPROID_CLIENT_SECRET settings).
Definition _configured {S} : M S unit :=
  raise_if (negb serproid_configured) (workflow_error "Serpro ID is not configured" 503).

(** ** Starting *)
Definition code_challenge (verifier : string) : string :=
  rstrip_by (Ascii.eqb "=") (urlsafe_b64encode (text (bytes_of_hex (chars (sha256_hex verifier))))).
Definition authorize_url (state verifier : string) : string :=
  _serpro_base +:+ "/authorize?" +:+ urlencode
    [("response_type", "code"); ("client_id", SERPROID_CLIENT_ID settings);
     ("redirect_uri", _redirect_uri); ("scope", "single_signature"); ("state", state);
     ("code_challenge", code_challenge verifier); ("code_challenge_method", "S256")].

(** The checks of [start_authorization], its draws and what it stores. *)
Definition prepare_attempt (token subject : string) (command : SignPayload) (ip agent : string)
    : M Core (string * Attempt) :=
  raise_if (negb (sp_consent command)) (workflow_error "Explicit consent is required" 400);;
  brazilian ← lift (in_texts (identifier_type (identity_summary subject)) ["BR_CPF"; "BR_CNPJ"]);
  raise_if (negb brazilian)
    (workflow_error "A Brazilian CPF or CNPJ is required for Serpro ID signing" 409);;
  context ← WorkflowService.signing_context token subject false;
  raise_if (negb (is_status (rr_signature_mode (sg_request context)) SERPROID))
    (workflow_error "This request does not use Serpro ID" 409);;
  raise_if (negb (is_status (rr_status (sg_request context)) OPEN) ||
            negb (one_of (sr_status (sg_signer context)) [PENDING; VIEWED]))
    (workflow_error "Signature request is not open" 409);;
  raise_if (negb (rr_signer_count (sg_request context) - rr_signed_count (sg_request context) =? 1))
    (workflow_error "Certificate signing must be the final signature on this PDF" 409);;
  state ← token_urlsafe 32;
  verifier ← token_urlsafe 64;
  mret (state, Attempt.make token subject (uuid_str (rr_id (sg_request context)))
    (uuid_str (sr_id (sg_signer context))) (rr_document_sha256 (sg_request context)) command verifier
    ip (take_str 1000 agent)).

Definition start_authorization (token subject : string) (command : SignPayload) (ip agent : string)
    : M Serpro string :=
  _configured;;
  prepared ← core_call (prepare_attempt token subject command ip agent);
  let '(state, attempt) := prepared in
  stored ← attempts_call (λ now, SETNX now (state_key state) (RJson attempt) 600);
  raise_if (negb stored) (workflow_error "Unable to begin Serpro ID authorization" 503);;
  mret (authorize_url state (Attempt.verifier attempt)).

(** ** Signing the PDF with the token ([_sign_pdf_with_serpro]) *)
(** [raise_for_status] and [json()]; an answer that is not JSON counts as none. *)
Definition json_answer (a : http_answer) : result json :=
  match a with HttpOk payload => Ok payload | HttpStatus _ _ | HttpDown => Err HTTPError end.
Definition refuse_if (b : bool) (message : string) (status_code : Z) : result unit :=
  if b then Err (workflow_error message status_code) else Ok tt.

Definition dashes : string := "-----".
Definition cms_text (raw : string) : string :=
  if contains "-----BEGIN" raw
  then String.concat "" (List.filter (λ line, negb (starts_with dashes line)) (splitlines raw))
  else raw.
Definition text_value (v : json) (e : exn) : result string :=
  match v with JStr s => if nonempty s then Ok s else Err e | _ => Err e end.

Definition _sign_pdf_with_serpro (access_token certificate_der unsigned_pdf : string) : result string :=
  prepared ← digest_doc_for_signing unsigned_pdf;
  let '(digest, output) := prepared in
  payload ← json_answer (serpro_signature (_serpro_base +:+ "/signature") access_token (JObj
    [("hashes", JArr [JObj [("id", JStr "rubrica-pdf"); ("alias", JStr "Rubrica PDF");
       ("hash", JStr (b64encode digest)); ("hash_algorithm", JStr "2.16.840.1.101.3.4.2.1");
       ("signature_format", JStr "CMS")]])]));
  signatures ← jget_or payload "signatures" (JArr []);
  let unexpected := workflow_error "Serpro ID returned an unexpected signature" 502 in
  signature ← only_element signatures unexpected;
  identifier ← jget signature "id";
  (if match identifier with JStr s => negb (String.eqb s "rubrica-pdf") | _ => true end
   then Err unexpected else Ok tt);;
  raw ← jget_or signature "raw_signature" (JStr "");
  raw ← text_value raw (workflow_error "Serpro ID did not return a CMS signature" 502);
  cms_data ← b64decode (cms_text raw);
  content_type ← cms_content_type cms_data;
  refuse_if (negb (String.eqb content_type "signed_data")) "Serpro ID returned a non-CMS signature" 502;;
  signed ← finish_signing output digest cms_data;
  found ← embedded_signatures signed;
  match found with
  | [embedded] =>
      refuse_if (negb (String.eqb (signer_cert embedded) certificate_der))
        "Signed PDF certificate differs from the authorized certificate" 502;;
      refuse_if (negb (intact embedded) || negb (valid embedded))
        "Certificate signature failed PDF verification" 502;;
      Ok signed
  | _ => Err (workflow_error "PDF does not contain the expected certificate signature" 502)
  end.

(** ** Finishing *)
(** [identity_matches_certificate] (identity_client.py) *)
Definition identity_matches_certificate (email identifier_type : string) (identifier : json) : bool :=
  match auth_identity_match (JObj [("email", JStr (lower (strip email)));
          ("identifier_type", JStr identifier_type); ("identifier", identifier)]) with
  | HttpOk payload => match jget payload "matches" with Ok (JBool b) => b | _ => false end
  | HttpStatus _ _ | HttpDown => false
  end.

(** [{"CPF": ..., "CNPJ": ...}.get(v)] *)
Definition identity_type_of (v : json) : result (option string) :=
  match v with
  | JStr s => Ok (if String.eqb s "CPF" then Some "BR_CPF"
                  else if String.eqb s "CNPJ" then Some "BR_CNPJ" else None)
  | JArr _ | JObj _ => Err TypeError
  | _ => Ok None
  end.

(** What the code gives: the type and the number of the identity, and the token. *)
Definition exchange_code (subject code verifier : string) : result (string * json * string) :=
  authorization ← json_answer (serpro_token (_serpro_base +:+ "/token")
    [("grant_type", "authorization_code"); ("client_id", SERPROID_CLIENT_ID settings);
     ("client_secret", SERPROID_CLIENT_SECRET settings); ("code", code);
     ("code_verifier", verifier); ("redirect_uri", _redirect_uri)]);
  scope ← jget authorization "scope";
  refuse_if (match scope with JStr s => negb (String.eqb s "single_signature") | _ => true end)
    "Serpro ID did not grant signing permission" 403;;
  kind ← jget authorization "authorized_identification_type";
  identity_type ← identity_type_of kind;
  identifier ← jget_or authorization "authorized_identification" (JStr "");
  let mismatch := workflow_error "Certificate identity does not match the Rubrica signer" 403 in
  identity_type ← match identity_type with
                  | Some t => if identity_matches_certificate subject t identifier
                              then Ok t else Err mismatch
                  | None => Err mismatch
                  end;
  access_token ← jget authorization "access_token";
  access_token ← text_value access_token (workflow_error "Serpro ID did not return a signing token" 502);
  Ok (identity_type, identifier, access_token).

Definition load_certificate (encoded : string) : result Certificate :=
  if contains "-----BEGIN CERTIFICATE-----" encoded then load_pem_certificate encoded
  else der ← b64decode encoded; load_der_certificate der.

Definition authorized_certificate (access_token : string) (now : Z) : result Certificate :=
  payload ← json_answer (serpro_certificates (_serpro_base +:+ "/certificate-discovery") access_token);
  certificates ← jget_or payload "certificates" (JArr []);
  first ← only_element certificates
    (workflow_error "Serpro ID returned an unexpected certificate set" 502);
  encoded ← jindex first "certificate";
  encoded ← match encoded with JStr s => Ok s | _ => Err AttributeError end;
  certificate ← load_certificate encoded;
  refuse_if (negb ((not_valid_before_utc certificate <=? now) && (now <=? not_valid_after_utc certificate)))
    "Serpro ID certificate is outside its validity period" 403;;
  Ok certificate.

Definition certificate_info (certificate : Certificate) (identity_type : string) (last4 : json) : json :=
  JObj [("provider", JStr "serproid"); ("format", JStr "PAdES-CMS");
        ("certificate_sha256", JStr (fingerprint certificate));
        ("identifier_type", JStr identity_type); ("identifier_last4", last4)].

(** The command of the attempt, signed with the certificate. *)
Definition certificate_command (attempt : Attempt) (subject access_token : string)
    (certificate : Certificate) (info : json) : WorkflowService.SignCommand :=
  let command := Attempt.command attempt in
  WorkflowService.mkSignCommand (Attempt.token attempt) subject true (sp_stamp command)
    (sp_consent_version command) (Some (sp_client command)) (Some (sp_geolocation command))
    (Attempt.ip attempt) (Attempt.agent attempt)
    (Some (_sign_pdf_with_serpro access_token (public_bytes certificate))) (Some info).

(** The link still shows what the attempt was made for. *)
Definition same_subject_matter (attempt : Attempt) (context : SigningRead) : bool :=
  String.eqb (uuid_str (rr_id (sg_request context))) (Attempt.request_id attempt) &&
  String.eqb (uuid_str (sr_id (sg_signer context))) (Attempt.signer_id attempt) &&
  String.eqb (rr_document_sha256 (sg_request context)) (Attempt.document_sha256 attempt).

Definition finish_attempt (attempt : Attempt) (code error : option string) (subject : string)
    : M Core string :=
  raise_if (negb (String.eqb (Attempt.subject attempt) subject))
    (workflow_error "Serpro ID authorization belongs to another user" 403);;
  if opt_nonempty error || negb (opt_nonempty code) then mret (Attempt.token attempt)
  else
    context ← WorkflowService.signing_context (Attempt.token attempt) subject false;
    raise_if (negb (same_subject_matter attempt context))
      (workflow_error "The document or signer changed during authorization" 409);;
    grant ← lift (exchange_code subject (from_option id "" code) (Attempt.verifier attempt));
    let '(identity_type, identifier, access_token) := grant in
    now ← utc_now;
    certificate ← lift (authorized_certificate access_token now);
    last4 ← lift (last_four identifier);
    WorkflowService.sign (certificate_command attempt subject access_token certificate
      (certificate_info certificate identity_type last4));;
    mret (Attempt.token attempt).

(** A text that is no attempt is not written under this prefix. *)
Definition finish_authorization (state : string) (code error : option string) (subject : string)
    : M Serpro string :=
  _configured;;
  raw ← attempts_call (λ now, GETDEL now (state_key state));
  match raw with
  | Some (RJson attempt) => core_call (finish_attempt attempt code error subject)
  | Some _ => raise (ValueError "not an attempt")
  | None => raise (workflow_error "Serpro ID authorization expired or was already used" 400)
  end.
End serproid.

(** ** The endpoints *)
(** [quote(url, safe=...)] of a redirection: what it leaves. *)
Definition url_char (c : ascii) : bool :=
  unreserved c || existsb (Ascii.eqb c) (chars ":/%#?=@[]!$&'()*+,;").
Definition redirect_location (url : string) : string :=
  text (concat (map (λ c, if url_char c then [c] else quote_char c) (chars url))).
Record RedirectResponse := mkRedirectResponse {
  rd_location : string; rd_status : Z; rd_headers : list (string * string)
}.

Section endpoints.
Context `{Env} `{WorkflowEnv} `{DocumentStorage} `{PdfLibrary} `{BillingProvider} `{HttpEnv}
  `{CoreWebEnv} `{SerproIdEnv}.
Context (request : HttpRequest) (credentials : option string).

Definition serproid_config : bool := serproid_configured.
Definition timestamp_config : bool := timestamp_enabled.

Definition start_serproid_signing (token : string) (command : SignPayload) : M Serpro string :=
  context ← core_call (authenticated_context request credentials);
  start_authorization token (ctx_subject context) command
    (or_str (header request "x-real-ip") (from_option id "unknown" (req_host request)))
    (from_option id "unknown" (header request "user-agent")).

(** [except (httpx.HTTPError, ValueError, KeyError, TypeError)] *)
Definition invalid_answer (e : exn) : bool :=
  match e with HTTPError | ValueError _ | KeyError | TypeError => true | _ => false end.
Definition finish_callback (state : string) (code error : option string) (subject : string)
    : M Serpro RedirectResponse :=
  let n := Z.of_nat (length (code_points (chars state))) in
  raise_if ((n <? 32) || (128 <? n)) (workflow_error "Invalid Serpro ID state" 400);;
  token ← try_catch (finish_authorization state code error subject) (λ e,
    if invalid_answer e
    then raise (workflow_error "Serpro ID returned an invalid or unavailable response" 502)
    else raise e);
  let outcome := if opt_nonempty error || negb (opt_nonempty code) then "denied" else "success" in
  mret (mkRedirectResponse
    (redirect_location ("/signing/" +:+ token +:+ "?serproid=" +:+ outcome)) 303
    [("Cache-Control", "no-store"); ("Referrer-Policy", "no-referrer")]).
Definition serproid_callback (state : string) (code error : option string) : M Serpro RedirectResponse :=
  context ← core_call (authenticated_context request credentials);
  finish_callback state code error (ctx_subject context).
End endpoints.
