(* ===== verification/SerproIdExample.v ===== *)
(** * A certificate signature

    Serpro ID, the libraries and the services as concrete functions, and one
    request with a single signer from its upload to the certificate signature, on
    which the theorems of SerproIdFacts are instantiated. *)

From Stdlib Require Import QArith.
From S2P Require Import Prelude.
From S2P Require Import PyText.
From S2P Require Import Base64.
From S2P Require Import Json.
From S2P Require Import DateTime.
From S2P Require Import Orm.
From S2P Require Import WorkflowSchema.
From S2P Require Import CoreDb.
From S2P Require Import Storage.
From S2P Require Import PdfValidation.
From S2P Require Import Tenant.
From S2P Require Import Billing.
From S2P Require Import DbWorkflow.
From S2P Require Import DbWorkflowCalls.
From S2P Require Import WorkflowExample.
From S2P Require Import CoreWeb.
From S2P Require Import Redis.
From S2P Require Import SerproId.

Local Open Scope Z_scope.

Module SerproExample.
#[local] Existing Instance LocalDocumentStorage.storage_laws.
Import WorkflowExample.

(** The example service with a client of Serpro ID. *)
Definition settings : Settings :=
  mkSettings "fake" "https://app.example" "https://sign.example" "test" 7 "evidence-secret"
    "encryption-key" "hmac-key" "client" "secret" "" "" "" 10485760 100 "service-key"
    "contact@app.example" "site-key" "turnstile-key" (λ _ _ _, None).
#[local] Instance env : Env := {|
  CoreDb.settings := settings;
  sha256_hex v := "sha256:" +:+ v;
  hmac_sha256_hex k v := "hmac:" +:+ k +:+ ":" +:+ v;
  derived_key k := "key:" +:+ k;
  fernet_encrypt n k v := "fernet:" +:+ k +:+ ":" +:+ v;
  uuid4_of n := (1000 + n)%N;
  token_of n _ := "token-of-thirty-two-bytes-number-" +:+ show_Z (Z.of_N n);
  email_accepted _ := true;
  auth_resolve _ := HttpOk (JObj [("user_id", JStr (uuid_str 77))]);
  auth_invite _ := HttpOk (JObj [("user_id", JStr (uuid_str 78))]);
  text_le := String.leb
|}.

#[local] Instance serproid : SerproIdEnv := {|
  SERPROID_ENVIRONMENT := "homologation";
  auth_identity_match _ := HttpOk (JObj [("matches", JBool true)]);
  serpro_token _ _ := HttpOk (JObj [("scope", JStr "single_signature");
    ("authorized_identification_type", JStr "CPF");
    ("authorized_identification", JStr "12345678909"); ("access_token", JStr "bearer")]);
  serpro_certificates _ _ := HttpOk (JObj [("certificates",
    JArr [JObj [("certificate", JStr (b64encode "certificate of Ana"))]])]);
  serpro_signature _ _ _ := HttpOk (JObj [("signatures",
    JArr [JObj [("id", JStr "rubrica-pdf"); ("raw_signature", JStr (b64encode "cms"))]])]);
  load_pem_certificate _ := Err (ValueError "not PEM");
  load_der_certificate der := Ok (mkCertificate 0 (Example.now + 86400000000) "f00d" der);
  digest_doc_for_signing pdf := Ok ("digest", pdf);
  cms_content_type _ := Ok "signed_data";
  finish_signing output digest cms := Ok (output +:+ "+" +:+ cms);
  embedded_signatures _ := Ok [mkEmbeddedSignature "certificate of Ana" true true]
|}.

Definition stamp : StampPosition := mkStampPosition 1 "0.5" "0.5" "BR" None false "rubrica-stamp-v2" "en" "UTC".
Definition command : SignPayload :=
  mkSignPayload true stamp "rubrica-evidence-v1" default_client unavailable_geolocation.

Definition serve (s : Core) (op : operation) : Core := (operate op s).2.
Definition request_of (s : Core) : string :=
  uuid_str (from_option Request.id 0%N (head (live (Db.signature_requests (Core.db s))))).
Definition document_of (s : Core) : N :=
  from_option Document.id 0%N (head (live (Db.documents (Core.db s)))).
Definition uploaded : Core := Eval vm_compute in serve Example.s0 uploading.
Definition drafted : Core := Eval vm_compute in serve uploaded (CreateRequest
  (mkSignatureRequestCreate (document_of uploaded) (Example.now + 86400000000) "admin@acme.com")).
Definition opened : Core := Eval vm_compute in fold_left serve
  [AddSigner (request_of drafted) (signer_named "Ana" "ana@mail.com") "admin@acme.com";
   OpenRequest (request_of drafted) "admin@acme.com" SERPROID;
   CreateSigningLink (request_of drafted) "admin@acme.com"] drafted.
Definition link : string := Eval vm_compute in
  match head (live (Db.signature_requests (Core.db opened))) with
  | Some r => WorkflowService._request_token (Request.id r) (from_option id "" (Request.signing_token_nonce r))
  | None => ""
  end.

Definition start : Serpro := Serpro.make opened ∅.
Definition started : Serpro := Eval vm_compute in
  (start_authorization link "ana@mail.com" command "10.0.0.1" "Mozilla" start).2.
(** The state Serpro ID sends back, and the callback. *)
Definition state : string := Eval vm_compute in token_of (Core.draws opened) 32.
Definition finished : Serpro := Eval vm_compute in
  (finish_authorization state (Some "code") None "ana@mail.com" started).2.
End SerproExample.
