(* ===== verification/SerproIdFacts.v ===== *)
(** * What a certificate signature takes

    Every certificate signature of the callback goes back to an authorisation of
    its own, started by the same user for the same link, and no other callback used
    it; a refused callback leaves the database. *)

From S2P Require Import Prelude.
From S2P Require Import PyText.
From S2P Require Import Json.
From S2P Require Import DateTime.
From S2P Require Import Orm.
From S2P Require Import WorkflowSchema.
From S2P Require Import CoreDb.
From S2P Require Import Storage.
From S2P Require Import PdfValidation.
From S2P Require Import Tenant.
From S2P Require Import Billing.
From S2P Require Import DbWorkflow.
From S2P Require Import WorkflowMachine.
From S2P Require Import DbWorkflowFacts.
From S2P Require Import DbWorkflowCalls.
From S2P Require Import WorkflowExample.
From S2P Require Import CoreWeb.
From S2P Require Import Redis.
From S2P Require Import SerproId.
From S2P Require Import SerproIdExample.

Local Open Scope Z_scope.

(** ** The calls and their history *)
Inductive serpro_call :=
| StartCall (token subject : string) (command : SignPayload) (ip agent : string)
| FinishCall (state : string) (code error : option string) (subject : string).

(** A callback with this state. *)
Definition finishes (state : string) (call : serpro_call) : bool :=
  match call with FinishCall st _ _ _ => String.eqb st state | StartCall _ _ _ _ _ => false end.

#[export] Instance clock_projection : SessionProjection Core.clock.
Proof. split; [|done]. by intros s s' [_ ->]%flush_core. Qed.

Section facts.
Context `{Env} `{WorkflowEnv} `{DocumentStorage} `{PdfLibrary} `{SerproIdEnv}.
Implicit Types (s : Serpro) (h : list (serpro_call * Serpro)).

Definition serpro_operate (call : serpro_call) : M Serpro string :=
  match call with
  | StartCall token subject command ip agent => start_authorization token subject command ip agent
  | FinishCall state code error subject => finish_authorization state code error subject
  end.

(** The calls so far, each with the state it found.  Between two of them core_api
    does anything: other endpoints run and time passes. *)
Inductive history : list (serpro_call * Serpro) → Serpro → Prop :=
| history_starts c : history [] (Serpro.make c ∅)
| history_calls h s call : history h s → history (h ++ [(call, s)]) (serpro_operate call s).2
| history_elsewhere h s c : history h s → history h (s <| Serpro.core := c |>).

(** The last start that gave this state out, and no callback with it since. *)
Definition issued h (state : string) (attempt : Attempt) (until : Z) : Prop :=
  ∃ h1 h2 token subject command ip agent before c,
    h = h1 ++ (StartCall token subject command ip agent, before) :: h2 ∧
    prepare_attempt token subject command ip agent (Serpro.core before) = (Ok (state, attempt), c) ∧
    until = deadline (Core.clock (Serpro.core before)) 600 ∧ serproid_configured = true ∧
    Forall (λ e, finishes state e.1 = false) h2.

Lemma issued_later h call s state attempt until :
  issued h state attempt until → finishes state call = false →
  issued (h ++ [(call, s)]) state attempt until.
Proof.
  intros (h1 & h2 & t & u & c & i & a & b & c1 & -> & Hp & Ht & Hc & Hno) Hf.
  exists h1, (h2 ++ [(call, s)]), t, u, c, i, a, b, c1. rewrite <- app_assoc. split_and!; try done.
  apply Forall_app. split; [done|]. by constructor.
Qed.

Lemma signing_context_clock token user adm :
  preserves (same Core.clock) (WorkflowService.signing_context token user adm).
Proof. through_operation. Qed.
Lemma prepare_clock token subject command ip agent :
  preserves (same Core.clock) (prepare_attempt token subject command ip agent).
Proof.
  unfold prepare_attempt. through_operation; try apply signing_context_clock; through_operation.
Qed.

(** What was checked before a state was given out: the user consented, and the link
    showed this user an open request that waits for their certificate only. *)
Record prepared (token subject : string) (command : SignPayload) (attempt : Attempt) (c : Core) : Prop := {
  prepared_token : Attempt.token attempt = token;
  prepared_subject : Attempt.subject attempt = subject;
  prepared_command : Attempt.command attempt = command;
  prepared_consent : sp_consent command = true;
  prepared_context : ∃ context,
    (WorkflowService.signing_context token subject false c).1 = Ok context ∧
    same_subject_matter attempt context = true ∧
    rr_signature_mode (sg_request context) = SERPROID ∧ rr_status (sg_request context) = OPEN ∧
    sr_status (sg_signer context) ∈ [PENDING; VIEWED] ∧
    rr_signer_count (sg_request context) - rr_signed_count (sg_request context) = 1
}.

Lemma prepared_ok token subject command ip agent c state attempt c1 :
  prepare_attempt token subject command ip agent c = (Ok (state, attempt), c1) →
  prepared token subject command attempt c.
Proof.
  unfold prepare_attempt. intros Hrun. run. apply ret_ok in Hrun as [[= -> ->] ->].
  repeat match goal with
         | Hc : _ || _ = false |- _ => apply orb_false_iff in Hc as [? ?]
         | Hc : negb _ = false |- _ => apply negb_false_iff in Hc
         end.
  split; try done. eexists. rewrite Hrun3. split; [done|]. split.
  { unfold same_subject_matter. cbn [Attempt.request_id Attempt.signer_id Attempt.document_sha256].
    by rewrite !String.eqb_refl. }
  unfold is_status, one_of in *.
  split_and!; [by eapply bool_decide_eq_true..|by apply Z.eqb_eq].
Qed.

(** A start stores one attempt or nothing. *)
Lemma start_stores token subject command ip agent s k e :
  Serpro.attempts (start_authorization token subject command ip agent s).2 !! k = Some e →
  Serpro.attempts s !! k = Some e ∨
  ∃ state attempt c, k = state_key state ∧ serproid_configured = true ∧
    prepare_attempt token subject command ip agent (Serpro.core s) = (Ok (state, attempt), c) ∧
    e = Entry (RJson attempt) (Some (deadline (Core.clock (Serpro.core s)) 600)).
Proof.
  unfold start_authorization, _configured, raise_if. destruct serproid_configured; cbn [negb]; [|by left].
  unfold mbind at 1, M_bind at 1. cbn [mret M_ret].
  unfold mbind at 1, M_bind at 1, core_call.
  destruct (prepare_attempt token subject command ip agent (Serpro.core s)) as [[[state attempt]|x] c] eqn:Ep;
    [|by left].
  assert (Ec : Core.clock c = Core.clock (Serpro.core s)).
  { pose proof (prepare_clock token subject command ip agent (Serpro.core s)) as Hc.
    by rewrite Ep in Hc. }
  unfold mbind, M_bind, attempts_call, SETNX. cbn. rewrite Ec.
  destruct (find_key _ _ _); cbn; [by left|].
  intros [[<- <-]|[_ Hk]]%lookup_insert_Some; [right|by left].
  by exists state, attempt, c.
Qed.

(** A callback takes the attempt of its state. *)
Lemma finish_takes state code error subject s k e :
  Serpro.attempts (finish_authorization state code error subject s).2 !! k = Some e →
  Serpro.attempts s !! k = Some e ∧ (serproid_configured = true → (∀ m, value e ≠ RSet m) → k ≠ state_key state).
Proof.
  unfold finish_authorization, _configured, raise_if. destruct serproid_configured; cbn [negb]; [|done].
  unfold mbind at 1, M_bind at 1. cbn [mret M_ret].
  unfold mbind, M_bind, attempts_call, GETDEL.
  destruct (find_key _ _ _) as [[[x|x|x|x] t]|] eqn:Ef; cbn -[core_call].
  4: { intros Hk. split; [done|]. intros _ Hs ->. apply find_key_some in Ef as [Ef _].
       rewrite Ef in Hk. injection Hk as <-. by apply (Hs x). }
  3: unfold core_call; destruct (finish_attempt _ _ _ _ _); cbn.
  all: intros [Hne Hk]%lookup_delete_Some; split; [done|]; intros _ _ ->; done.
Qed.

Lemma history_attempts h s :
  history h s → ∀ k e, Serpro.attempts s !! k = Some e →
  ∃ state attempt until, k = state_key state ∧ e = Entry (RJson attempt) (Some until) ∧
    issued h state attempt until.
Proof.
  induction 1 as [c|h s call Hh IH|h s c Hh IH]; intros k e Hk; [done| |by apply IH].
  destruct call as [token subject command ip agent|state code error subject]; cbn in Hk.
  - apply start_stores in Hk as [Hk|(state & attempt & c & -> & Hc & Hp & ->)].
    + destruct (IH k e Hk) as (st & a & u & -> & -> & Hi). exists st, a, u.
      split_and!; [done..|]. by apply issued_later.
    + exists state, attempt, (deadline (Core.clock (Serpro.core s)) 600). split_and!; [done..|].
      by exists h, [], token, subject, command, ip, agent, s, c.
  - apply finish_takes in Hk as [Hk Hne].
    destruct (IH k e Hk) as (st & a & u & -> & -> & Hi). exists st, a, u. split_and!; [done..|].
    apply issued_later; [done|]. cbn. apply String.eqb_neq. intros ->. apply Hne; try done.
    by destruct Hi as (? & ? & ? & ? & ? & ? & ? & ? & ? & _ & _ & _ & ? & _).
Qed.
(** What the callback did with the attempt: the link still showed what it was made
    for, the code was exchanged with the verifier of the attempt, the certificate is
    in its validity and of the identity of the user, and the workflow signed with it. *)
Definition certified (attempt : Attempt) (code subject : string) (c c' : Core) : Prop :=
  ∃ context c1 identity_type identifier access_token certificate last4 signer,
    WorkflowService.signing_context (Attempt.token attempt) subject false c = (Ok context, c1) ∧
    Core.db c1 = Core.db c ∧ same_subject_matter attempt context = true ∧
    exchange_code subject code (Attempt.verifier attempt) = Ok (identity_type, identifier, access_token) ∧
    identity_matches_certificate subject identity_type identifier = true ∧
    authorized_certificate access_token (Core.clock c) = Ok certificate ∧
    not_valid_before_utc certificate ≤ Core.clock c ≤ not_valid_after_utc certificate ∧
    WorkflowService.sign (certificate_command attempt subject access_token certificate
      (certificate_info certificate identity_type last4)) c1 = (Ok signer, c').

Lemma exchanged_identity subject code verifier t identifier access_token :
  exchange_code subject code verifier = Ok (t, identifier, access_token) →
  identity_matches_certificate subject t identifier = true.
Proof.
  unfold exchange_code, refuse_if. intros Hrun.
  repeat match goal with
         | Hr : (_ ≫= _) = Ok _ |- _ => apply result_bind_ok in Hr as (? & ? & Hr)
         end.
  injection Hrun as -> -> _.
  match goal with Ho : identity_type_of _ = Ok ?o, Hm : _ = Ok t |- _ =>
    destruct o as [x5|]; [|done];
    destruct (identity_matches_certificate subject x5 identifier) eqn:E; [|done]; injection Hm as <- end.
  exact E.
Qed.

Lemma certificate_in_validity access_token now certificate :
  authorized_certificate access_token now = Ok certificate →
  not_valid_before_utc certificate ≤ now ≤ not_valid_after_utc certificate.
Proof.
  unfold authorized_certificate, refuse_if. intros Hrun.
  repeat match goal with
         | Hr : (_ ≫= _) = Ok _ |- _ => apply result_bind_ok in Hr as (? & ? & Hr)
         end.
  injection Hrun as ->.
  match goal with Hc : (if negb ?b then _ else _) = Ok _ |- _ => destruct b eqn:E; [|done] end.
  apply andb_true_iff in E as [?%Z.leb_le ?%Z.leb_le]. done.
Qed.

Lemma finish_attempt_ok attempt code error subject c token c' :
  finish_attempt attempt code error subject c = (Ok token, c') →
  Attempt.subject attempt = subject ∧ Attempt.token attempt = token ∧
  (opt_nonempty error = false → opt_nonempty code = true →
   certified attempt (from_option id "" code) subject c c').
Proof.
  unfold finish_attempt. intros Hrun.
  apply bind_ok in Hrun as (u & c0 & [Hs ->]%raise_if_ok & Hrun).
  apply negb_false_iff, String.eqb_eq in Hs. split; [done|].
  destruct (opt_nonempty error || negb (opt_nonempty code)) eqn:Ed.
  { apply ret_ok in Hrun as [-> ->]. split; [done|]. intros He Hc. by rewrite He, Hc in Ed. }
  apply bind_ok in Hrun as (context & c1 & Hctx & Hrun).
  apply bind_ok in Hrun as (u1 & ? & [Hsame ->]%raise_if_ok & Hrun). apply negb_false_iff in Hsame.
  apply bind_ok in Hrun as ([[t identifier] access] & ? & [Hx ->]%lift_ok & Hrun). cbn in Hrun.
  apply bind_ok in Hrun as (now & ? & [-> ->]%gets_ok & Hrun).
  apply bind_ok in Hrun as (certificate & ? & [Hcert ->]%lift_ok & Hrun).
  apply bind_ok in Hrun as (last4 & ? & [_ ->]%lift_ok & Hrun).
  apply bind_ok in Hrun as (signer & c2 & Hsign & [-> ->]%ret_ok). split; [done|]. intros _ _.
  assert (Eclock : Core.clock c1 = Core.clock c).
  { exact (preserves_run (same Core.clock) _ _ _ _ (signing_context_clock _ _ _) Hctx). }
  rewrite Eclock in Hcert. exists context, c1, t, identifier, access, certificate, last4, signer.
  split_and!; try done.
  - exact (preserves_run (same Core.db) _ _ _ _ (read_session_db _) Hctx).
  - by apply exchanged_identity in Hx.
  - apply (certificate_in_validity _ _ _ Hcert).
  - apply (certificate_in_validity _ _ _ Hcert).
Qed.

Lemma finish_takes_attempt state code error subject s token s' :
  finish_authorization state code error subject s = (Ok token, s') →
  ∃ attempt e, find_key (Core.clock (Serpro.core s)) (state_key state) (Serpro.attempts s) = Some e ∧
    value e = RJson attempt ∧
    finish_attempt attempt code error subject (Serpro.core s) = (Ok token, Serpro.core s').
Proof.
  unfold finish_authorization, _configured, raise_if. destruct serproid_configured; cbn [negb]; [|done].
  unfold mbind at 1, M_bind at 1. cbn [mret M_ret].
  unfold mbind, M_bind, attempts_call, GETDEL.
  destruct (find_key _ _ _) as [[[x|x|x|x] t]|] eqn:Ef; cbn -[core_call finish_attempt]; try done.
  unfold core_call. cbn [Serpro.core set_field].
  destruct (finish_attempt x code error subject (Serpro.core s)) as [r c] eqn:E. intros [= -> <-].
  exists x, (Entry (RJson x) t). done.
Qed.
End facts.

(** C7: A certificate signature has an authorisation of its own.  When a callback
    with a code succeeds, then this very state was given out by a start of the same
    user, with consent, for the same link, less than ten minutes ago, and no callback
    has used it since; the link shows the request, the signer and the document of
    that start, the code was exchanged with its verifier, the certificate is valid
    now and its identity is the one of the user; and what was signed is the command
    of that start. *)
Theorem certificate_signature_has_its_authorization `{Env} `{WorkflowEnv} `{DocumentStorage}
    `{PdfLibrary} `{SerproIdEnv} (h : list (serpro_call * Serpro)) (s s' : Serpro)
    (state code subject token : string) (error : option string) :
  history h s → finish_authorization state (Some code) error subject s = (Ok token, s') →
  opt_nonempty error = false → nonempty code = true →
  ∃ h1 h2 command ip agent before attempt,
    h = h1 ++ (StartCall token subject command ip agent, before) :: h2 ∧
    Forall (λ e, finishes state e.1 = false) h2 ∧
    Core.clock (Serpro.core s) < deadline (Core.clock (Serpro.core before)) 600 ∧
    prepared token subject command attempt (Serpro.core before) ∧
    certified attempt code subject (Serpro.core s) (Serpro.core s').
Proof.
  intros Hh Hrun He Hc. apply finish_takes_attempt in Hrun as (attempt & e & Hk & Hv & Hrun).
  apply find_key_some in Hk as [Hk Hexp].
  destruct (history_attempts h s Hh _ _ Hk) as (st & a & until & Est & -> & Hi).
  apply (inj (String.append STATE_PREFIX)) in Est as <-. cbn in Hv, Hexp. injection Hv as ->.
  destruct Hi as (h1 & h2 & t & u & command & ip & agent & before & c & -> & Hp & -> & _ & Hno).
  apply prepared_ok in Hp. apply finish_attempt_ok in Hrun as (Hs & Ht & Hcert).
  destruct Hp as [<- <- Hcmd Hcons Hctx]. subst subject token.
  exists h1, h2, command, ip, agent, before, attempt. split_and!; [done..|by apply Z.leb_gt|by split|].
  by apply Hcert.
Qed.

(** ** Refused callbacks *)
Section refused.
Context `{Env} `{WorkflowEnv} `{DocumentStorage} `{PdfLibrary} `{SerproIdEnv}
  (held : Core → string → option string) `{!DocumentStorageLaws held}.

Lemma sign_leaves_db cmd : leaves_db_on_error (WorkflowService.sign cmd).
Proof.
  intros s e s' Hrun. apply (operate_leaves_db held (Sign cmd) eq_refl s e s').
  cbn. unfold done_with, mbind, M_bind. by rewrite Hrun.
Qed.

Lemma finish_attempt_leaves_db attempt code error subject :
  leaves_db_on_error (finish_attempt attempt code error subject).
Proof.
  unfold finish_attempt. apply after_leaves_db; [by preserve|]. intros _.
  destruct (_ || _); [apply reading_leaves_db; by preserve|].
  apply after_leaves_db; [apply read_session_db|]. intros context.
  apply after_leaves_db; [by preserve|]. intros _.
  apply after_leaves_db; [by preserve|]. intros [[t identifier] access].
  apply after_leaves_db; [by preserve|]. intros now.
  apply after_leaves_db; [by preserve|]. intros certificate.
  apply after_leaves_db; [by preserve|]. intros last4 s e s' Hrun.
  apply bind_err in Hrun as [Hrun|(? & ? & _ & [=])]. by apply sign_leaves_db in Hrun.
Qed.
End refused.

(** C8: A refused callback records nothing.  Whatever a callback with a state
    answers, the state is spent, and one that raises an error leaves the database as
    it was. *)
Theorem refused_certificate_records_nothing `{Env} `{WorkflowEnv} `{DocumentStorage} `{PdfLibrary}
    `{SerproIdEnv} (held : Core → string → option string) `{!DocumentStorageLaws held}
    (h : list (serpro_call * Serpro)) (s s' : Serpro) (state subject : string)
    (code error : option string) (answer : result string) :
  history h s → serproid_configured = true →
  finish_authorization state code error subject s = (answer, s') →
  Serpro.attempts s' !! state_key state = None ∧
  (∀ e, answer = Err e → Core.db (Serpro.core s') = Core.db (Serpro.core s)) ∧
  ∀ code' error' subject', (finish_authorization state code' error' subject' s').1 =
    Err (workflow_error "Serpro ID authorization expired or was already used" 400).
Proof.
  intros Hh Hc Hrun.
  assert (Hnone : Serpro.attempts s' !! state_key state = None).
  { destruct (Serpro.attempts s' !! state_key state) as [e|] eqn:Ek; [|done].
    pose proof (finish_takes state code error subject s (state_key state) e) as Ht.
    rewrite Hrun in Ht. destruct (Ht Ek) as [Hk Hne].
    destruct (history_attempts h s Hh _ _ Hk) as (st & a & t & _ & -> & _).
    by destruct (Hne Hc ltac:(done)). }
  split_and!; [done| |].
  - intros e ->. unfold finish_authorization, _configured, raise_if in Hrun. rewrite Hc in Hrun.
    unfold mbind at 1, M_bind at 1 in Hrun. cbn [mret M_ret negb] in Hrun.
    unfold mbind, M_bind, attempts_call, GETDEL in Hrun.
    destruct (find_key _ _ _) as [[[x|x|x|x] t]|]; cbn -[core_call finish_attempt] in Hrun;
      try by injection Hrun as _ <-.
    unfold core_call in Hrun. cbn [Serpro.core set_field] in Hrun.
    destruct (finish_attempt x code error subject (Serpro.core s)) as [r c] eqn:E.
    injection Hrun as -> <-. by apply (finish_attempt_leaves_db held) in E.
  - intros code' error' subject'.
    unfold finish_authorization, _configured, raise_if. rewrite Hc.
    unfold mbind, M_bind, attempts_call, GETDEL, find_key. cbn. by rewrite Hnone.
Qed.

(** What is stored carries one signature, of the certificate, and it is intact. *)
Lemma serpro_pdf_verified `{SerproIdEnv} access_token der pdf signed :
  _sign_pdf_with_serpro access_token der pdf = Ok signed →
  embedded_signatures signed = Ok [mkEmbeddedSignature der true true].
Proof.
  unfold _sign_pdf_with_serpro, refuse_if. intros Hrun.
  apply result_bind_ok in Hrun as ([digest output] & _ & Hrun). cbn in Hrun.
  repeat match goal with
         | Hr : (_ ≫= _) = Ok _ |- _ => apply result_bind_ok in Hr as (? & ? & Hr)
         end.
  match goal with Hf : embedded_signatures _ = Ok ?l |- _ => destruct l as [|[c i v] [|]]; try done end.
  cbn in Hrun.
  repeat match goal with
         | Hr : (_ ≫= _) = Ok _ |- _ => apply result_bind_ok in Hr as (? & ? & Hr)
         end.
  injection Hrun as ->.
  destruct (String.eqb_spec c der) as [->|]; [|done]. destruct i, v; done.
Qed.

(** ** The theorems on the example *)
Section witnesses.
Import WorkflowExample SerproExample.
#[local] Existing Instance LocalDocumentStorage.storage_laws.
#[local] Existing Instance SerproExample.env.
#[local] Existing Instance SerproExample.serproid.

Definition starting : serpro_call := StartCall link "ana@mail.com" command "10.0.0.1" "Mozilla".
Lemma started_history : history [(starting, start)] started.
Proof.
  replace started with (serpro_operate starting start).2 by (vm_compute; reflexivity).
  exact (history_calls [] start starting (history_starts opened)).
Qed.

(** The callback signs, and its start is the one of the history. *)
Lemma certificate_signature_has_its_authorization_witness :
  map Request.status (live (Db.signature_requests (Core.db (Serpro.core finished)))) = [COMPLETED] ∧
  ∃ h1 h2 command ip agent before attempt,
    [(starting, start)] = h1 ++ (StartCall link "ana@mail.com" command ip agent, before) :: h2 ∧
    prepared link "ana@mail.com" command attempt (Serpro.core before) ∧
    certified attempt "code" "ana@mail.com" (Serpro.core started) (Serpro.core finished).
Proof.
  split; [vm_compute; reflexivity|].
  destruct (certificate_signature_has_its_authorization [(starting, start)] started finished state "code"
    "ana@mail.com" link None started_history) as (h1 & h2 & c & ip & agent & before & attempt & Eh & _ & _ & Hp & Hc);
    [vm_compute; reflexivity|reflexivity|reflexivity|].
  exists h1, h2, c, ip, agent, before, attempt. done.
Defined.

(** A callback of another user is refused, and the state is spent. *)
Definition refused : Serpro := Eval vm_compute in
  (finish_authorization state (Some "code") None "bob@mail.com" started).2.
Lemma refused_certificate_records_nothing_witness :
  Core.db (Serpro.core refused) = Core.db (Serpro.core started) ∧
  (finish_authorization state (Some "code") None "ana@mail.com" refused).1 =
    Err (workflow_error "Serpro ID authorization expired or was already used" 400).
Proof.
  destruct (refused_certificate_records_nothing LocalDocumentStorage.held [(starting, start)] started refused
    state "bob@mail.com" (Some "code") None
    (Err (workflow_error "Serpro ID authorization belongs to another user" 403)) started_history)
    as (_ & Hdb & Hspent); [vm_compute; reflexivity..|].
  split; [by eapply Hdb|]. apply Hspent.
Defined.
End witnesses.
