(* ===== verification/AuthWeb.v ===== *)
(** * The endpoints of auth_api (session_router.py, account_router.py)

    A request as the endpoints see it: method, headers, cookies, the client's
    address, and the bearer credentials the framework read ([HTTPBearer]).  The
    origin check of requests that carry cookies, the captcha, the cookies of a
    session, and what the endpoints make of the services' answers. *)

From S2P Require Import Prelude.
From S2P Require Import PyText.
From S2P Require Import Json.
From S2P Require Import Http.
From S2P Require Import Orm.
From S2P Require Import Redis.
From S2P Require Import AuthDb.
From S2P Require Import Mfa.
From S2P Require Import Sessions.
From S2P Require Import EmailTemplates.
From S2P Require Import Accounts.
From S2P Require Import Users.

Local Open Scope Z_scope.

Class WebEnv := {
  (** The JSON answer of the captcha service to a form, at some draw of its;
      [None] for an HTTP error or an answer that is not JSON. *)
  siteverify : N → list (string * string) → option json
}.

Section web.
Context `{AuthEnv} `{MailAssets} `{HttpEnv} `{WebEnv}.

Definition in_production : bool := production (ENVIRONMENT settings).

(** infrastructure/security.py *)
Definition access_token_of (request : HttpRequest) (credentials : option string) : string :=
  match credentials with
  | Some token => token
  | None =>
      or_str (Some (strip (remove_prefix "Bearer "
                (from_option id "" (header request "authorization")))))
        (cookie request "access_token")
  end.

(** ** Dependencies *)
Definition check_origin (request : HttpRequest) (credentials : option string) : M Auth unit :=
  when (negb (present credentials) && negb (mem_str (req_method request) safe_methods))
    (lift (require_same_origin request (AUTH_PUBLIC_WEB_URL settings) (ENVIRONMENT settings))).
Definition require_authenticated_session (request : HttpRequest) (credentials : option string)
    : M Auth SessionRead :=
  check_origin request credentials;;
  authenticated_session (access_token_of request credentials).
Definition require_mfa_session (request : HttpRequest) (credentials : option string)
    : M Auth SessionRead :=
  session ← require_authenticated_session request credentials;
  context ← ui_context (access_token_of request credentials);
  match context with
  | Some c =>
      raise_if (ui_mfa_setup_required c)
        (HTTPException 403 "Configure MFA before accessing Rubrica");;
      mret session
  | None => raise (HTTPException 403 "Configure MFA before accessing Rubrica")
  end.

(** ** Captcha (turnstile.py) *)
Definition login_turnstile_config : string * bool :=
  let configured := in_production &&
    (nonempty (AUTH_TURNSTILE_SITE_KEY settings) && nonempty (AUTH_TURNSTILE_SECRET_KEY settings)) in
  (if configured then AUTH_TURNSTILE_SITE_KEY settings else "", in_production).

Definition expected_host : string := host_of (AUTH_PUBLIC_WEB_URL settings).

Definition verification_failed : exn := HTTPException 400 "Login verification failed".
Definition check_verification (verification : json) (action : string) : result unit :=
  match verification with
  | JObj _ =>
      success ← jget verification "success";
      name ← jget verification "action";
      if negb (truthy success) || negb (is_str name action) then Err verification_failed
      else if in_production then
        hostname ← jget verification "hostname";
        known ← in_set hostname [expected_host; "www." +:+ expected_host];
        if negb known then Err verification_failed else Ok tt
      else Ok tt
  | _ => Err verification_failed
  end.

Definition verify_turnstile (token : option string) (action : string) (remote_ip : option string)
    : M Auth unit :=
  let '(site_key, required) := login_turnstile_config in
  if negb required then mret tt
  else
    raise_if (negb (nonempty site_key)) (HTTPException 503 "Login verification is unavailable");;
    raise_if (negb (opt_nonempty token)) (HTTPException 400 "Login verification is required");;
    let data := [("secret", AUTH_TURNSTILE_SECRET_KEY settings);
                 ("response", from_option id "" token)] ++
      (match remote_ip with
       | Some ip =>
           if nonempty ip then match ip_text ip with Some t => [("remoteip", t)] | None => [] end
           else []
       | None => []
       end) in
    n ← draw;
    verification ← some_or (siteverify n data) (HTTPException 503 "Login verification is unavailable");
    lift (check_verification verification action).
Definition verify_login_turnstile (token remote_ip : option string) : M Auth unit :=
  verify_turnstile token "login" remote_ip.

(** [request.headers.get("x-real-ip") or (request.client.host if request.client
    else None)] *)
Definition remote_ip (request : HttpRequest) : option string :=
  match header request "x-real-ip" with
  | Some ip => if nonempty ip then Some ip else req_host request
  | None => req_host request
  end.

(** ** Cookies *)
Inductive cookie_change :=
| SetCookie (name value : string) (httponly secure : bool) (samesite : string) (max_age : Z)
    (path : string)
| DeleteCookie (name path : string).

Definition _set_auth_cookies (payload : LoginResponse) : list cookie_change :=
  [SetCookie "access_token" (access_token payload) true in_production "lax"
     (AUTH_ACCESS_TTL_SECONDS settings) "/";
   SetCookie "refresh_token" (refresh_token payload) true in_production "lax"
     (AUTH_SESSION_TTL_SECONDS settings) "/"].
Definition _clear_auth_cookies : list cookie_change :=
  [DeleteCookie "access_token" "/"; DeleteCookie "refresh_token" "/"].

(** ** Endpoints of sessions: the answer and what it does to the cookies *)
Record BrowserLoginResponse := mkBrowserLoginResponse {
  browser_access_token : string; browser_session_id : string
}.
(** The fields of the response model. *)
Definition browser (r : LoginResponse) : BrowserLoginResponse :=
  mkBrowserLoginResponse (access_token r) (lr_session_id r).

Definition login_endpoint (payload : LoginRequest) (request : HttpRequest)
    : M Auth ((BrowserLoginResponse + MfaChallengeResponse) * list cookie_change) :=
  verify_login_turnstile (lr_turnstile_token payload) (remote_ip request);;
  authenticated ← login payload;
  match authenticated with
  | None => raise (HTTPException 401 "Invalid credentials")
  | Some (LoggedIn r) => mret (inl (browser r), _set_auth_cookies r)
  | Some (Challenged c) => mret (inr c, [])
  end.

Definition complete_mfa_challenge_endpoint (mfa_ticket code : string)
    : M Auth (BrowserLoginResponse * list cookie_change) :=
  authenticated ← complete_mfa_challenge mfa_ticket code;
  match authenticated with
  | None => raise (HTTPException 401 "MFA challenge is invalid or expired")
  | Some r => mret (browser r, _set_auth_cookies r)
  end.

(** The refresh token comes in the body or, from the site itself, in a cookie;
    a rejection is an answer, and clears the cookies. *)
Definition refresh_endpoint (payload_token : option string) (request : HttpRequest)
    : M Auth ((BrowserLoginResponse + (Z * string)) * list cookie_change) :=
  when (negb (present payload_token))
    (lift (require_same_origin request (AUTH_PUBLIC_WEB_URL settings) (ENVIRONMENT settings)));;
  let token := or_str payload_token (cookie request "refresh_token") in
  authenticated ← refresh token;
  match authenticated with
  | None => mret (inr (401, "Refresh token is invalid"), _clear_auth_cookies)
  | Some r => mret (inl (browser r), _set_auth_cookies r)
  end.

Definition get_current_session (request : HttpRequest) (credentials : option string)
    : M Auth SessionRead :=
  require_authenticated_session request credentials.

(** The token to revoke is read again from the request, without the credentials
    of the framework. *)
Definition logout_endpoint (request : HttpRequest) (credentials : option string)
    : M Auth (bool * list cookie_change) :=
  require_authenticated_session request credentials;;
  logout (access_token_of request None);;
  mret (true, _clear_auth_cookies).
Definition logout_all_endpoint (request : HttpRequest) (credentials : option string)
    : M Auth (bool * list cookie_change) :=
  require_authenticated_session request credentials;;
  logout_all (access_token_of request None);;
  mret (true, _clear_auth_cookies).

(** ui_context_router.py *)
Definition get_ui_context (request : HttpRequest) (credentials : option string)
    : M Auth UiContextResponse :=
  context ← ui_context (access_token_of request credentials);
  some_or context authentication_required.

(** [GET /access-control/context], for core_api, and the JSON of its answer. *)
Definition get_service_context (request : HttpRequest) (credentials : option string)
    : M Auth UiContextResponse :=
  get_ui_context request credentials.
Definition ui_context_json (c : UiContextResponse) : json := JObj
  [("version", JNum 2); ("subject", JStr (ui_subject c)); ("user_id", JStr (ui_user_id c));
   ("email", JStr (ui_email c)); ("account_public_slug", JStr (ui_account_public_slug c));
   ("preferred_locale", JStr (ui_preferred_locale c)); ("mfa_enabled", JBool (ui_mfa_enabled c));
   ("mfa_setup_required", JBool (ui_mfa_setup_required c));
   ("roles", JArr (map JStr (ui_roles c))); ("permission_keys", JArr (map JStr (ui_permission_keys c)));
   ("capability_hash", JStr (ui_capability_hash c))].

(** An endpoint of Users whose session comes from the request. *)
Definition from_request {A} (endpoint : string → M Auth A) (request : HttpRequest)
    (credentials : option string) : M Auth A :=
  check_origin request credentials;;
  endpoint (access_token_of request credentials).

(** The endpoints that have this dependency, with the method of each: those with
    [require_mfa_session] ask for the context as well.  In user_router.py: *)
Inductive user_endpoint : string → ∀ {A}, (HttpRequest → option string → M Auth A) → Prop :=
| GET_users_signers : user_endpoint "GET" (from_request list_signers)
| PATCH_my_preferences locale : user_endpoint "PATCH" (from_request (update_my_preferences locale))
| GET_my_identifiers : user_endpoint "GET" (from_request list_my_identifiers)
| POST_users : user_endpoint "POST" (from_request create_user).
(** In mfa_router.py: *)
Inductive mfa_endpoint : string → ∀ {A}, (HttpRequest → option string → M Auth A) → Prop :=
| GET_mfa_status : mfa_endpoint "GET" (from_request mfa_status)
| POST_mfa_setup : mfa_endpoint "POST" (from_request setup_mfa)
| POST_mfa_confirm code : mfa_endpoint "POST" (from_request (confirm_mfa code))
| DELETE_mfa password code : mfa_endpoint "DELETE" (from_request (disable_mfa password code))
| POST_recovery_codes password code :
    mfa_endpoint "POST" (from_request (recovery_codes password code)).

(** ** Endpoints of accounts (account_router.py) *)
Definition register_endpoint (payload : PublicRegistration) (request : HttpRequest) : M Auth bool :=
  verify_turnstile (pr_turnstile_token payload) "register" (remote_ip request);;
  try_catch (register payload) (λ e, match e with
    | AccountConflictError => mret tt
    | AccountEmailDeliveryError message => raise (HTTPException 503 message)
    | TenantProvisioningError message => raise (HTTPException 503 message)
    | _ => raise e
    end);;
  mret true.

Definition request_email_verification_endpoint (email : string) : M Auth bool :=
  try_catch (request_email_verification email) (λ e, match e with
    | AccountEmailDeliveryError message => raise (HTTPException 503 message)
    | _ => raise e
    end);;
  mret true.

Definition invalid_link (detail : string) {A} (m : M Auth A) : M Auth A :=
  try_catch m (λ e, match e with
                    | InvalidAccountTokenError => raise (HTTPException 422 detail)
                    | _ => raise e
                    end).
Definition verify_email_endpoint (token new_password : string) : M Auth bool :=
  invalid_link "Verification token is invalid or expired" (verify_email token new_password);;
  mret true.

Definition request_password_recovery_endpoint (email : string)
    (turnstile_token return_url : option string) (request : HttpRequest) : M Auth bool :=
  verify_turnstile turnstile_token "password_recovery" (remote_ip request);;
  try_catch (request_password_recovery email return_url) (λ e, match e with
    | AccountEmailDeliveryError message => raise (HTTPException 503 message)
    | _ => raise e
    end);;
  mret true.

Definition reset_password_endpoint (token new_password : string) : M Auth bool :=
  invalid_link "Password reset token is invalid or expired" (reset_password token new_password);;
  mret true.
End web.
