(* ===== verification/ContextFacts.v ===== *)
(** * What auth_api answers about a token

    The context of a token belongs to a live session of an active user, and its
    permissions are those of the roles of that user; a token that was logged out
    is never accepted again. *)

From S2P Require Import Prelude.
From S2P Require Import PyText.
From S2P Require Import Json.
From S2P Require Import DateTime.
From S2P Require Import Orm.
From S2P Require Import Redis.
From S2P Require Import AuthDb.
From S2P Require Import Mfa.
From S2P Require Import Sessions.
From S2P Require Import EmailTemplates.
From S2P Require Import Accounts.
From S2P Require Import Users.
From S2P Require Import SessionFacts.
From S2P Require Import SessionSteps.
From S2P Require Import AuthSteps.
From S2P Require Import AccountFacts.
From S2P Require Import AuthCalls.
From S2P Require Import TokenFacts.

Local Open Scope Z_scope.
#[local] Opaque uuid_str.

Definition role_rows (s : Auth) : list Role.UserRoleEntity := live (AuthTables.user_roles (Auth.db s)).
Definition has_role (s : Auth) (u : N) (role : string) : Prop :=
  ∃ r, In r (role_rows s) ∧ Role.user_id r = u ∧ Role.role r = role.
(** A role of the user gives the permission. *)
Definition may (s : Auth) (u : N) (permission : string) : Prop :=
  ∃ role, has_role s u role ∧ permission ∈ role_permissions role.

Lemma permissions_of_spec roles p :
  p ∈ permissions_of roles ↔ ∃ role, role ∈ roles ∧ p ∈ role_permissions role.
Proof.
  unfold permissions_of. rewrite order_by_permutation, elem_of_remove_dups.
  rewrite list_elem_of_In, in_concat. setoid_rewrite in_map_iff. setoid_rewrite list_elem_of_In.
  naive_solver.
Qed.

Section context.
Context `{AuthEnv} `{!AuthLaws} `{MailAssets}.
Implicit Types s : Auth.

(** The session a token opens now, with its user. *)
Record live_session s (token : string) (st : SessionState) (user : User.UserEntity) : Prop := {
  ls_token : token_session s "access" token = Some st;
  ls_user : Session.user_id st = uuid_str (User.id user);
  ls_row : In user (user_rows s);
  ls_active : User.is_active user = true;
  ls_version : Session.token_version st = User.token_version user
}.

Lemma roles_clean s : AuthDb.consistent s → clean (AuthTables.user_roles (Auth.db s)).
Proof.
  intros [Hc _]. revert Hc. unfold clean_db, clean. destruct (Auth.db s) as [? ? ? ? ? []]; simpl.
  by intros [=].
Qed.

Lemma active_user_live s token st :
  auth_inv s → AuthDb.consistent s → token_session s "access" token = Some st →
  active_user s st = true → ∃ user, live_session s token st user.
Proof.
  intros Hi Hs Ht Ha. destruct (token_session_ok _ _ _ _ Hi Ht) as [_ _ (u & v & Hu & Eu & _) _ _].
  unfold active_user in Ha. rewrite Eu, parse_uuid_str, get_row_clean in Ha
    by (done || by apply users_clean).
  destruct (find_row u _) as [user|] eqn:Ef; [|done].
  apply andb_true_iff in Ha as [Hact Hv%Z.eqb_eq]. apply find_row_some in Ef as [Hin Eid].
  exists user. split; try done. by rewrite Eu, <- Eid.
Qed.

Lemma context_roles s u roles permissions s' :
  AuthDb.consistent s → context_for_user u s = (Ok (roles, permissions), s') →
  s' = s ∧ (∀ role, role ∈ roles → has_role s u role) ∧ permissions = permissions_of roles.
Proof.
  intros Hs Hrun. unfold context_for_user in Hrun.
  erewrite bind_step_ok in Hrun by (apply read_session_same; reflexivity).
  injection Hrun as <- <- <-. split; [done|]. split; [|done].
  intros role Hrole. apply list_elem_of_fmap in Hrole as (r & -> & Hr).
  rewrite order_by_permutation in Hr. unfold select_stored in Hr. simpl get_table in Hr.
  rewrite (roles_clean s Hs) in Hr. apply list_elem_of_In, List.filter_In in Hr as [Hin Hu%N.eqb_eq].
  by exists r.
Qed.

(** The context of a token. *)
Lemma ui_context_live s token c s' :
  auth_inv s → AuthDb.consistent s → ui_context token s = (Ok (Some c), s') →
  s' = s ∧ ∃ st user, live_session s token st user ∧
    ui_subject c = Session.subject st ∧ ui_user_id c = uuid_str (User.id user) ∧
    ui_email c = User.email user ∧
    ui_mfa_setup_required c = negb (User.mfa_enabled user || User.mfa_exempt user) ∧
    (∀ role, role ∈ ui_roles c → has_role s (User.id user) role) ∧
    (∀ p, p ∈ ui_permission_keys c → may s (User.id user) p).
Proof.
  intros Hi Hs Hrun. unfold ui_context in Hrun.
  erewrite bind_step_ok in Hrun by (by apply current_session_run).
  destruct (token_session s "access" token) as [st|] eqn:Ht; [|discriminate Hrun].
  destruct (active_user s st) eqn:Ha; [|discriminate Hrun].
  erewrite bind_step_ok in Hrun by (apply state_for_token_run; [done|set_solver]).
  rewrite Ht in Hrun. destruct (active_user_live _ _ _ Hi Hs Ht Ha) as (user & Hl).
  pose proof Hl as [_ Eu Hin Hact Hv].
  assert (Ef : find_row (User.id user) (user_rows s) = Some user)
    by (apply (find_row_in _ user); [by apply user_keys_distinct|done]).
  assert (Hid : (User.id user < 2 ^ 128)%N).
  { apply (inv_ids s Hi _ (User.token_version user)). unfold version_of. by rewrite Ef. }
  erewrite bind_step_ok in Hrun by (unfold lift; by rewrite Eu, user_identifier_uuid).
  apply bind_ok in Hrun as ([roles permissions] & s1 & Hc & Hrun).
  apply context_roles in Hc as (-> & Hroles & ->); [|done].
  erewrite bind_step_ok in Hrun by (apply read_session_same, get_user; done).
  rewrite Ef in Hrun.
  injection Hrun as <- <-. split; [done|]. exists st, user. split; [done|].
  cbn [ui_subject ui_user_id ui_email ui_mfa_setup_required ui_roles ui_permission_keys sr_subject].
  do 4 (split; [done|]). split.
  - intros role. destruct (negb _); [by intros ?%elem_of_nil|apply Hroles].
  - intros p. destruct (negb _); [by intros ?%elem_of_nil|].
    intros (role & Hr & Hp)%permissions_of_spec. exists role. split; [by apply Hroles|done].
Qed.

Lemma ui_context_none s token :
  auth_inv s → token_session s "access" token = None → ui_context token s = (Ok None, s).
Proof.
  intros Hi Ht. unfold ui_context. erewrite bind_step_ok by (by apply current_session_run).
  by rewrite Ht.
Qed.

(** ** A forgotten token *)
Definition forgotten s (token : string) : Prop :=
  drawn_token "access" 0 (Auth.draws s) token ∧ found s (_token_key "access" token) = None.

Lemma forgotten_stays s s' token : evolves s s' → forgotten s token → forgotten s' token.
Proof.
  intros Hev [Hd Hf]. split.
  - eapply drawn_widen; [..|exact Hd]; [done|]. apply Hev.
  - destruct (found s' (_token_key "access" token)) as [e|] eqn:E; [|done].
    destruct (ev_pointers _ _ Hev "access" token) as [[? ?]|(t & (n & Hn & ->) & Ht)];
      [set_solver|by exists e|congruence|].
    apply token_key_inj in Ht. destruct Hd as (m & Hm & Em). rewrite Em in Ht.
    do 2 apply (inj (String.append _)) in Ht. apply token_of_inj in Ht. lia.
Qed.

Lemma forgotten_no_session s token : forgotten s token → token_session s "access" token = None.
Proof. intros [_ Hf]. unfold token_session, pointed. by rewrite Hf. Qed.

Lemma logout_forgets s token st :
  auth_inv s → token_session s "access" token = Some st →
  ∃ s', logout token s = (Ok true, s') ∧ auth_inv s' ∧ evolves s s' ∧ forgotten s' token ∧
        session_at s' (Session.session_id st) = None.
Proof.
  intros Hi Ht. unfold logout. erewrite bind_step_ok by (apply state_for_token_run; [done|set_solver]).
  rewrite Ht. pose proof (token_session_ok _ _ _ _ Hi Ht) as Hok.
  destruct (revoke_forgets s _ st Hi Hok) as (db & Hrun & Hd & Hgone).
  destruct (drops_advances _ _ _ Hd Hi) as [Hi' Hev].
  apply token_session_some in Ht as (? & _ & _ & _ & Hk%String.eqb_eq). simpl in Hk.
  eexists. split_and!; [by erewrite bind_step_ok|done..| |].
  - split.
    + destruct Hok as [_ _ _ (t & Hdr & Et) _]. rewrite Hk in Et. apply token_key_inj in Et as ->.
      exact Hdr.
    + unfold found, find_key. simpl. by rewrite <- Hk, Hgone.
  - by rewrite (drops_session_at _ _ _ _ Hd), decide_True.
Qed.
End context.
