(* ===== verification/WebTheorems.v ===== *)
(** * What the endpoints of auth_api guarantee

    A request that is authenticated by cookies alone comes from the site itself;
    logging out ends the session of the request, unless its credentials are
    spelled in a way the second reading misses; a registration does not reveal
    whether an address has an account. *)

From S2P Require Import Prelude.
From S2P Require Import PyText.
From S2P Require Import Json.
From S2P Require Import Http.
From S2P Require Import DateTime.
From S2P Require Import Orm.
From S2P Require Import Redis.
From S2P Require Import AuthDb.
From S2P Require Import Mfa.
From S2P Require Import Sessions.
From S2P Require Import EmailTemplates.
From S2P Require Import Accounts.
From S2P Require Import Users.
From S2P Require Import SessionFacts.
From S2P Require Import SessionSteps.
From S2P Require Import AuthSteps.
From S2P Require Import AccountFacts.
From S2P Require Import AuthCalls.
From S2P Require Import TokenFacts.
From S2P Require Import AuthExample.
From S2P Require Import AccountSchema.
From S2P Require Import SessionTheorems.
From S2P Require Import AuthWeb.
From S2P Require Import ContextFacts.

Local Open Scope Z_scope.

(** ** Calls with cookies *)
Section origins.
Context `{AuthEnv} `{MailAssets} `{HttpEnv} `{WebEnv}.

(** Calls a browser makes with its cookies alone. *)
Inductive cookie_call (request : HttpRequest) : ∀ {A}, M Auth A → Prop :=
| cookie_logout : cookie_call request (logout_endpoint request None)
| cookie_logout_all : cookie_call request (logout_all_endpoint request None)
| cookie_refresh : cookie_call request (refresh_endpoint None request)
| cookie_endpoint {A} (endpoint : string → M Auth A) :
    cookie_call request (from_request endpoint request None).

(** The endpoints of users and of the second factor are such calls. *)
Lemma account_endpoint_cookie method {A} (endpoint : HttpRequest → option string → M Auth A) request :
  user_endpoint method endpoint ∨ mfa_endpoint method endpoint →
  cookie_call request (endpoint request None).
Proof. intros [[]|[]]; apply cookie_endpoint. Qed.

Lemma check_origin_ok request s s1 :
  check_origin request None s = (Ok tt, s1) → mem_str (req_method request) safe_methods = false →
  require_same_origin request (AUTH_PUBLIC_WEB_URL settings) (ENVIRONMENT settings) = Ok tt.
Proof. unfold check_origin. intros Hr Hm. rewrite Hm in Hr. simpl in Hr. by apply lift_ok in Hr as [? _]. Qed.

Lemma cookie_call_origin {A} request (m : M Auth A) s a s1 :
  cookie_call request m → mem_str (req_method request) safe_methods = false →
  m s = (Ok a, s1) → require_same_origin request (AUTH_PUBLIC_WEB_URL settings) (ENVIRONMENT settings) = Ok tt.
Proof.
  assert (Hdep : ∀ {B} (k : SessionRead → M Auth B) b s2,
    (require_authenticated_session request None ≫= k) s = (Ok b, s2) →
    mem_str (req_method request) safe_methods = false →
    require_same_origin request (AUTH_PUBLIC_WEB_URL settings) (ENVIRONMENT settings) = Ok tt).
  { intros B k b s2 (x & s' & Hr & _)%bind_ok Hm. unfold require_authenticated_session in Hr.
    apply bind_ok in Hr as ([] & s'' & Hr & _). by eapply check_origin_ok. }
  intros Hc Hm Hr. destruct Hc as [| | |B endpoint].
  - by apply Hdep in Hr.
  - by apply Hdep in Hr.
  - unfold refresh_endpoint in Hr. apply bind_ok in Hr as ([] & s' & Hr & _). simpl in Hr.
    by apply lift_ok in Hr as [? _].
  - unfold from_request in Hr. apply bind_ok in Hr as ([] & s' & Hr & _). by eapply check_origin_ok.
Qed.
End origins.

(** ** Reading the token twice *)
Section tokens.
Context `{AuthEnv} `{!AuthLaws} `{MailAssets} `{HttpEnv} `{WebEnv}.
Implicit Types s : Auth.

(** The framework takes the credentials of any spelling of the scheme. *)
Definition sends_token (scheme token : string) (request : HttpRequest) : Prop :=
  header request "authorization" = Some (scheme +:+ " " +:+ token) ∧ lower scheme = "bearer".

Lemma bearer_letters scheme :
  lower scheme = "bearer" → ∃ a b c d e f,
    scheme = text [a; b; c; d; e; f] ∧ is_space a = false ∧ a ≠ "a"%char.
Proof.
  unfold lower. intros E. change "bearer" with (text (chars "bearer")) in E. apply text_inj in E.
  rewrite <- (text_chars scheme).
  destruct (chars scheme) as [|a [|b [|c [|d [|e [|f [|? ?]]]]]]]; try discriminate E.
  exists a, b, c, d, e, f. split; [done|]. injection E as E _ _ _ _ _.
  split; [|intros ->; discriminate E]. revert E.
  destruct a as [[] [] [] [] [] [] [] []]; by vm_compute.
Qed.

(** The second reading finds the header, scheme and all, not the token. *)
Lemma second_reading scheme token request :
  sends_token scheme token request → scheme ≠ "Bearer" →
  ∃ c r, access_token_of request None = String.String c r ∧ c ≠ "a"%char.
Proof.
  intros [Hh Hl] Hne. unfold access_token_of. rewrite Hh. simpl from_option.
  destruct (bearer_letters scheme Hl) as (a & b & c & d & e & f & -> & Hsp & Ha).
  assert (E : starts_with "Bearer " (text [a; b; c; d; e; f] +:+ " " +:+ token) = false).
  { destruct (starts_with _ _) eqn:E; [|done]. destruct Hne.
    apply starts_with_spec in E as (r & E). by injection E as -> -> -> -> -> ->. }
  unfold remove_prefix. rewrite E.
  destruct (strip_head a (text [b; c; d; e; f] +:+ " " +:+ token) Hsp) as (r & Es).
  change (text [a; b; c; d; e; f] +:+ " " +:+ token) with
    (String.String a (text [b; c; d; e; f] +:+ " " +:+ token)). rewrite Es. by exists a, r.
Qed.

Lemma access_token_drawn s token st :
  auth_inv s → token_session s "access" token = Some st → ∃ r, token = String.String "a" r.
Proof.
  intros Hi Ht. destruct (token_session_ok _ _ _ _ Hi Ht) as [_ _ _ (t & (n & _ & ->) & Ek) _].
  apply token_session_some in Ht as (? & _ & _ & _ & Hk). apply String.eqb_eq in Hk.
  simpl in Hk. rewrite Ek in Hk. apply token_key_inj in Hk as <-. by eexists.
Qed.

Lemma not_access_token s c r :
  auth_inv s → c ≠ "a"%char → token_session s "access" (String.String c r) = None.
Proof.
  intros Hi Hc. destruct (token_session s "access" _) as [st|] eqn:E; [|done].
  apply access_token_drawn in E as (r' & [= -> _]); done.
Qed.

Lemma logout_unknown s token :
  auth_inv s → token_session s "access" token = None → logout token s = (Ok false, s).
Proof.
  intros Hi Ht. unfold logout. erewrite bind_step_ok by (apply state_for_token_run; [done|set_solver]).
  by rewrite Ht.
Qed.

Lemma authenticated_run request credentials s a s1 :
  auth_inv s → require_authenticated_session request credentials s = (Ok a, s1) →
  s1 = s ∧ ∃ st, token_session s "access" (access_token_of request credentials) = Some st ∧
    active_user s st = true ∧ sr_session_id a = Session.session_id st.
Proof.
  intros Hi. unfold require_authenticated_session, authenticated_session.
  intros ([] & s' & Hc & Hr)%bind_ok. assert (s' = s) as ->.
  { unfold check_origin, when in Hc.
    destruct (_ && _); [by apply lift_ok in Hc as [_ ?]|by injection Hc as ->]. }
  erewrite bind_step_ok in Hr by (by apply current_session_run).
  destruct (token_session s "access" _) as [st|]; [|discriminate Hr].
  destruct (active_user s st) eqn:Ha; [|discriminate Hr]. injection Hr as <- <-.
  split; [done|]. by exists st.
Qed.

Lemma authenticated_credentials request token s a :
  current_session token s = (Ok (Some a), s) →
  require_authenticated_session request (Some token) s = (Ok a, s).
Proof.
  intros Hc. unfold require_authenticated_session, authenticated_session.
  erewrite bind_step_ok by reflexivity. simpl access_token_of. by erewrite bind_step_ok by exact Hc.
Qed.
End tokens.

(** ** A second account for an address *)
Section registration.
Context `{AuthEnv} `{!AuthLaws} `{MailAssets} `{HttpEnv} `{WebEnv}.
Implicit Types s : Auth.

Lemma unique_on_taken {R K} `{EqDecision K} (key : R → option K) l x y k :
  In x l → key x = Some k → key y = Some k → unique_on key (l ++ [y]) = false.
Proof.
  intros Hx Ex Ey. apply bool_decide_eq_false. rewrite omap_app. simpl. rewrite Ey.
  intros (_ & Hd & _)%NoDup_app. apply (Hd k); [|set_solver].
  apply list_elem_of_omap. exists x. by rewrite list_elem_of_In.
Qed.

(** What the database holds of the accounts, and what other services were asked. *)
Definition visible s := (Auth.db s, Auth.outbox s, Auth.provisioned s).

Lemma register_taken s p user :
  In user (user_rows s) → User.email user = lower (strip (pr_email p)) →
  storable_registration p = true →
  ∃ s1, register p s = (Err AccountConflictError, s1) ∧ visible s1 = visible s.
Proof.
  intros Hin Hemail Hst.
  assert (Hn : ∃ fresh s', new_user (pr_name p) (pr_email p) (pr_preferred_locale p) s = (Ok fresh, s') ∧
      visible s' = visible s ∧ User.email fresh = User.email user ∧ storable_user fresh = true).
  { eexists _, _. split; [reflexivity|]. by split_and!. }
  destruct Hn as (fresh & s' & Hnew & Hv & Ef & Hsf). unfold register, transaction.
  erewrite bind_step_ok by exact Hnew. erewrite bind_step_ok by reflexivity.
  erewrite bind_step_err.
  2:{ unfold or_conflict, try_catch, flush_user. rewrite Hsf. cbn [negb raise_if].
      erewrite bind_step_ok by reflexivity. unfold flush, flush_session. simpl.
      assert (E : auth_schema_ok (Auth.db (put_table (add_row fresh (get_table s')) s')) = false).
      { unfold auth_schema_ok, users_ok.
        assert (Eu : unique_on (λ r, Some (User.email r))
          (live (AuthTables.users (Auth.db s)) ++ [fresh]) = false).
        { eapply unique_on_taken; [exact Hin|reflexivity|by rewrite Ef]. }
        injection Hv as Hdb _ _. simpl. rewrite Hdb, Eu, andb_false_r. done. }
      simpl in E. rewrite E. reflexivity. }
  eexists. split; [reflexivity|]. unfold visible in *. simpl. by injection Hv as _ -> ->.
Qed.
End registration.

(** ** The theorems *)
Section theorems.
Context `{AuthEnv} `{!AuthLaws} `{MailAssets} `{HttpEnv} `{WebEnv}.
Implicit Types s : Auth.

(** C37: In production a call that changes something on the strength of cookies
    alone - a logout, a refresh, an endpoint of the account - succeeds only for a
    request whose Origin, or else Referer, names the scheme and exactly the
    authority of the site: neither an address that merely starts with the one of
    the site nor a missing header passes. *)
Theorem cookie_calls_come_from_the_site {A} request (m : M Auth A) s a s1 scheme netloc :
  in_production = true → urlsplit (AUTH_PUBLIC_WEB_URL settings) = Ok (scheme, netloc) →
  scheme ≠ "" → netloc ≠ "" → mem_str (req_method request) safe_methods = false →
  cookie_call request m → m s = (Ok a, s1) → from_site request scheme netloc.
Proof.
  intros Hp Hu Hs Hn Hm Hc Hr. eapply same_origin_ok; [|done..]. by eapply cookie_call_origin.
Qed.

(** A logout that is answered ends the session it was made with, for good,
    when the second reading of the token gives what the first gave: with cookies,
    and with credentials whose scheme is spelled as the code spells it. *)
Theorem logout_endpoint_ends_the_session request credentials s answer s1 s2 :
  auth_inv s → access_token_of request None = access_token_of request credentials →
  logout_endpoint request credentials s = (Ok answer, s1) → auth_runs s1 s2 →
  answer = (true, _clear_auth_cookies) ∧
  ∃ st, token_session s "access" (access_token_of request credentials) = Some st ∧
    ¬ session_usable s2 (Session.session_id st).
Proof.
  intros Hi Hsame. unfold logout_endpoint. rewrite Hsame. intros Hr Hruns.
  apply bind_ok in Hr as (a & s' & Ha & Hr).
  apply authenticated_run in Ha as (-> & st & Ht & _ & _); [|done].
  destruct (logout_forgets s _ st Hi Ht) as (s3 & Hl & Hi3 & Hev & _ & Hgone).
  erewrite bind_step_ok in Hr by exact Hl. injection Hr as <- <-.
  split; [done|]. exists st. split; [done|]. apply (gone_unusable s3); try done.
  destruct (token_session_ok _ _ _ _ Hi Ht) as [_ Hd _ _ _].
  eapply drawn_session_widen; [..|exact Hd]; [done|]. apply Hev.
Qed.

(** With credentials whose scheme is spelled another way - which the framework
    accepts, so that the call is authenticated - the logout is answered as done
    but nothing is changed: the token goes on opening its session. *)
Theorem logout_in_another_spelling_does_nothing scheme token request s answer :
  auth_inv s → sends_token scheme token request → scheme ≠ "Bearer" →
  current_session token s = (Ok (Some answer), s) →
  logout_endpoint request (Some token) s = (Ok (true, _clear_auth_cookies), s).
Proof.
  intros Hi Hsend Hne Hc. unfold logout_endpoint.
  erewrite bind_step_ok by (by apply authenticated_credentials).
  destruct (second_reading _ _ _ Hsend Hne) as (c & r & -> & Hca).
  erewrite bind_step_ok by (apply logout_unknown; [done|by apply not_access_token]). done.
Qed.

(** Registering an address that has an account is answered as any other
    registration, and changes nothing: no row, no e-mail and no tenant. (Name
    and address are texts the database can hold, for others both fail.) *)
Theorem registration_hides_accounts payload request s user s1 :
  In user (user_rows s) → User.email user = lower (strip (pr_email payload)) →
  storable_registration payload = true →
  verify_turnstile (pr_turnstile_token payload) "register" (remote_ip request) s = (Ok tt, s1) →
  ∃ s2, register_endpoint payload request s = (Ok true, s2) ∧ visible s2 = visible s.
Proof.
  intros Hin Hemail Hst Hv.
  assert (Es1 : visible s1 = visible s).
  { apply (preserves_run (same visible)) in Hv; [done|]. unfold verify_turnstile. preserve.
    by intros x. }
  assert (Eu : user_rows s1 = user_rows s) by (unfold user_rows; by injection Es1 as -> _ _).
  unfold register_endpoint. erewrite bind_step_ok by exact Hv.
  destruct (register_taken s1 payload user) as (s2 & Hr & Es2); [by rewrite Eu|done..|].
  exists s2. split; [|congruence]. erewrite bind_step_ok; [reflexivity|].
  unfold try_catch. by rewrite Hr.
Qed.
End theorems.

(** ** Instances: Alice's browser *)
Import AuthExample.

#[export] Instance example_http : HttpEnv := {| netloc_ok _ := true; ip_text := Some; ip_private _ := false |}.
#[export] Instance example_web : WebEnv := {|
  siteverify _ form :=
    Some (JObj [("success", JBool (bool_decide (("response", "human") ∈ form)));
                ("action", JStr "register"); ("hostname", JStr "rubrica.example")])
|}.

Definition browser_request : HttpRequest :=
  mkRequest "POST" [("origin", "https://rubrica.example")]
    [("access_token", access_token tokens)] (Some "203.0.113.7").
Definition header_request (scheme : string) : HttpRequest :=
  mkRequest "POST" [("authorization", scheme +:+ " " +:+ access_token tokens)] [] None.
Definition browser_logged_out : Auth := (logout_endpoint browser_request None logged_in).2.
Lemma browser_logs_out :
  logout_endpoint browser_request None logged_in = (Ok (true, _clear_auth_cookies), browser_logged_out).
Proof. unfold browser_logged_out. apply run_outcome. vm_compute. reflexivity. Qed.

Lemma cookie_calls_come_from_the_site_witness :
  from_site browser_request "https" "rubrica.example" ∧
  is_ok (require_same_origin
    (mkRequest "POST" [("origin", "https://rubrica.example.evil.com")] [] None)
    (AUTH_PUBLIC_WEB_URL settings) (ENVIRONMENT settings)) = false.
Proof.
  split; [|vm_compute; reflexivity].
  refine (cookie_calls_come_from_the_site browser_request (logout_endpoint browser_request None)
    logged_in _ browser_logged_out "https" "rubrica.example" _ _ _ _ _
    (cookie_logout _) browser_logs_out); [| |discriminate|discriminate|]; vm_compute; reflexivity.
Defined.

Lemma logout_endpoint_ends_the_session_witness :
  (true, _clear_auth_cookies) = (true, _clear_auth_cookies) ∧
  ∃ st, token_session logged_in "access" (access_token_of browser_request None) = Some st ∧
    ¬ session_usable browser_logged_out (Session.session_id st).
Proof.
  apply (logout_endpoint_ends_the_session browser_request None logged_in
    (true, _clear_auth_cookies) browser_logged_out browser_logged_out logged_in_inv).
  - reflexivity.
  - exact browser_logs_out.
  - apply auth_starts.
Defined.

Lemma logout_in_another_spelling_does_nothing_witness :
  logout_endpoint (header_request "bearer") (Some (access_token tokens)) logged_in =
    (Ok (true, _clear_auth_cookies), logged_in).
Proof.
  refine (logout_in_another_spelling_does_nothing "bearer" (access_token tokens)
    (header_request "bearer") logged_in (mkSessionRead "tx" "alice@rubrica.example")
    logged_in_inv _ _ _).
  - split; vm_compute; reflexivity.
  - discriminate.
  - rewrite current_session_run by exact logged_in_inv. f_equal.
Defined.

Definition registration : PublicRegistration :=
  mkPublicRegistration "Alice" " ALICE@rubrica.example" "en" (Some "human") None None None None.
Lemma registration_hides_accounts_witness :
  ∃ s2, register_endpoint registration browser_request start = (Ok true, s2) ∧
        visible s2 = visible start.
Proof.
  refine (registration_hides_accounts registration browser_request start alice
    (verify_turnstile (Some "human") "register" (Some "203.0.113.7") start).2 _ _ _ _).
  - by left.
  - vm_compute. reflexivity.
  - vm_compute. reflexivity.
  - apply run_outcome. vm_compute. reflexivity.
Defined.
