(* ===== verification/CoreAccess.v ===== *)
(** * Who may call core_api

    The table of the protected endpoints with what each requires, and what a
    call that is answered proves of its caller: a live session of auth_api, of an
    active user whose roles give the permission.  The two services are composed:
    core_api asks auth_api, in the state auth_api is in when the call is made. *)

From S2P Require Import Prelude.
From S2P Require Import PyText.
From S2P Require Import Json.
From S2P Require Import Http.
From S2P Require Import DateTime.
From S2P Require Import Orm.
From S2P Require Import Redis.
From S2P Require Import AuthDb.
From S2P Require Import Sessions.
From S2P Require Import EmailTemplates.
From S2P Require Import SessionFacts.
From S2P Require Import SessionSteps.
From S2P Require Import AccountFacts.
From S2P Require Import AuthCalls.
From S2P Require Import AuthExample.
From S2P Require Import ContextFacts.
From S2P Require Import TokenFacts.
From S2P Require Import AuthWeb.
From S2P Require Import WebTheorems.
From S2P Require Import WorkflowSchema.
From S2P Require Import CoreDb.
From S2P Require Import Storage.
From S2P Require Import PdfValidation.
From S2P Require Import Tenant.
From S2P Require Import Billing.
From S2P Require Import DbWorkflow.
From S2P Require Import DbWorkflowCalls.
From S2P Require Import WorkflowExample.
From S2P Require Import CoreWeb.
From S2P Require Import SerproId.
From S2P Require Import SerproIdExample.

Local Open Scope Z_scope.
#[local] Opaque uuid_str.

(** ** What an endpoint requires of the context *)
Inductive requirement := Authenticated | Permission (p : string) | Administrator.
Definition grants (r : requirement) (context : AuthContext) : bool :=
  match r with
  | Authenticated => true
  | Permission p => allows context p
  | Administrator => _is_administrator context
  end.

Section table.
Context `{Env} `{WorkflowEnv} `{DocumentStorage} `{PdfLibrary} `{BillingProvider} `{HttpEnv}
  `{CoreWebEnv} `{SerproIdEnv}.

Definition dependency (r : requirement) (request : HttpRequest) (credentials : option string)
    : M Core AuthContext :=
  match r with
  | Authenticated => authenticated_context request credentials
  | Permission p => require_permission request credentials p
  | Administrator => administrator_context request credentials
  end.

(** The routes of the routers of documents, requests, tenants and billing that need
    a context: everything but the internal, the public and the webhook ones.  Each
    with what it requires, the endpoint, and what it does for the caller once the
    context is there. *)
Inductive core_route : requirement → ∀ {A}, (HttpRequest → option string → M Core A) →
  (HttpRequest → AuthContext → M Core A) → Prop :=
| GET_documents : core_route (Permission "documents:read") list_documents_endpoint
    (λ _ x, WorkflowService.list_documents (ctx_subject x))
| GET_document i : core_route (Permission "documents:read") (λ q c, get_document_endpoint q c i)
    (λ _ x, WorkflowService.get_document (uuid_str i) (ctx_subject x))
| DELETE_document i force : core_route (Permission "documents:write") (λ q c, delete_document_endpoint q c i force)
    (λ _ x, WorkflowService.delete_document (uuid_str i) (ctx_subject x) force)
| GET_download i v : core_route (Permission "documents:read") (λ q c, download_document q c i v)
    (λ _ x, found ← WorkflowService.get_content (uuid_str i) v (Some (ctx_subject x));
    mret (document_response found true))
| GET_preview i v : core_route (Permission "documents:read") (λ q c, preview_document q c i v)
    (λ _ x, found ← WorkflowService.get_content (uuid_str i) v (Some (ctx_subject x));
    mret (document_response found false))
| POST_documents o t f b : core_route (Permission "documents:write") (λ q c, upload_document q c o t f b)
    (λ q x, content ← lift (_read_document_body q b);
    lift (validate_pdf_upload content f (content_type q));;
    WorkflowService.create_document (mkDocumentCreate o t f "application/pdf" (ctx_subject x)) content)
| POST_versions i f b : core_route (Permission "documents:write") (λ q c, create_version q c i f b)
    (λ q x, content ← lift (_read_document_body q b);
    lift (validate_pdf_upload content f (content_type q));;
    WorkflowService.add_version (uuid_str i) f "application/pdf" (ctx_subject x) content)
| GET_contacts t v : core_route (Permission "signature_requests:read") (λ q c, list_signer_contacts_endpoint q c t v)
    (λ _ x, WorkflowService.list_signer_contacts t (ctx_subject x) v)
| GET_requests : core_route (Permission "signature_requests:read") list_requests_endpoint
    (λ _ x, WorkflowService.list_requests (ctx_subject x))
| GET_request i : core_route (Permission "signature_requests:read") (λ q c, get_request_endpoint q c i)
    (λ _ x, WorkflowService.get_request (uuid_str i) (ctx_subject x))
| POST_requests d e : core_route (Permission "signature_requests:write") (λ q c, create_request_endpoint q c d e)
    (λ _ x, WorkflowService.create_request (mkSignatureRequestCreate d e (ctx_subject x)))
| GET_signers i : core_route (Permission "signature_requests:read") (λ q c, list_signers_endpoint q c i)
    (λ _ x, signers ← WorkflowService.list_signers (uuid_str i) (ctx_subject x);
    mret (map with_identity signers))
| POST_signers i p : core_route (Permission "signature_requests:write") (λ q c, add_signer_endpoint q c i p)
    (λ _ x, WorkflowService.add_signer (uuid_str i) p (ctx_subject x))
| POST_link i : core_route (Permission "signature_requests:write") (λ q c, create_signing_link_endpoint q c i)
    (λ _ x, try_catch (WorkflowService.create_signing_link (uuid_str i) (ctx_subject x))
      (λ e, match e with
            | SignatureInvitationDeliveryError message => raise (HTTPException 503 message)
            | _ => raise e
            end))
| GET_link i : core_route Administrator (λ q c, get_signing_link_endpoint q c i)
    (λ _ x, WorkflowService.get_signing_link (uuid_str i) (ctx_subject x))
| GET_evidence i : core_route Administrator (λ q c, signature_evidence_endpoint q c i)
    (λ _ x, WorkflowService.signature_evidence (uuid_str i) (ctx_subject x))
| GET_signed_document i : core_route Administrator (λ q c, signed_document_endpoint q c i)
    (λ _ x, found ← WorkflowService.signed_document (uuid_str i) (Some (ctx_subject x));
    mret (signed_response found))
| POST_revoke i j : core_route (Permission "signature_requests:write") (λ q c, revoke_signer_link_endpoint q c i j)
    (λ _ x, WorkflowService.revoke_signer_link (uuid_str i) (uuid_str j) (ctx_subject x))
| POST_open i m : core_route (Permission "signature_requests:write") (λ q c, open_request_endpoint q c i m)
    (λ _ x, WorkflowService.open_request (uuid_str i) (ctx_subject x) m)
| POST_cancel i : core_route (Permission "signature_requests:write") (λ q c, cancel_request_endpoint q c i)
    (λ _ x, WorkflowService.cancel_request (uuid_str i) (ctx_subject x))
| GET_audit i : core_route (Permission "audit:read") (λ q c, request_audit q c i)
    (λ _ x, WorkflowService.audit_events (uuid_str i) (ctx_subject x))
| GET_signing t : core_route Authenticated (λ q c, signing_context_endpoint q c t)
    (λ _ x, signing ← WorkflowService.signing_context t (ctx_subject x) (_is_administrator x);
    mret (signing, identity_summary (sr_email (sg_signer signing))))
| GET_signing_document t : core_route Authenticated (λ q c, signing_document_endpoint q c t)
    (λ _ x, found ← WorkflowService.signing_document t (ctx_subject x) (_is_administrator x);
    mret (document_response found false))
| GET_signing_download t : core_route Authenticated (λ q c, download_signing_document q c t)
    (λ _ x, found ← WorkflowService.signing_document t (ctx_subject x) (_is_administrator x);
    mret (document_response found true))
| GET_signing_signed t : core_route Authenticated (λ q c, signing_signed_document_endpoint q c t)
    (λ _ x, found ← WorkflowService.signing_signed_document t (ctx_subject x) (_is_administrator x);
    mret (signed_response found))
| POST_view t : core_route Authenticated (λ q c, view_document q c t)
    (λ _ x, signer ← WorkflowService.view t (ctx_subject x);
    mret (with_identity signer))
| POST_sign t p : core_route Authenticated (λ q c, sign_document q c t p)
    (λ q x, WorkflowService.sign (WorkflowService.mkSignCommand t (ctx_subject x) (sp_consent p) (sp_stamp p)
      (sp_consent_version p) (Some (sp_client p)) (Some (sp_geolocation p)) (_client_ip q)
      (from_option id "unknown" (header q "user-agent")) None None))
| POST_decline t : core_route Authenticated (λ q c, decline_document q c t)
    (λ _ x, WorkflowService.decline t (ctx_subject x))
| GET_tenants : core_route (Permission "documents:read") list_tenants
    (λ _ x, TenantService.list_for (ctx_subject x))
| GET_access_state : core_route (Permission "documents:read") tenant_access_state
    (λ _ x, TenantService.access_state (ctx_subject x))
| POST_personal p : core_route (Permission "documents:write") (λ q c, create_personal_tenant_after_suspension q c p)
    (λ _ x, TenantService.create_personal_after_suspension p (ctx_subject x) (ctx_user_id x))
| POST_tenants p : core_route (Permission "documents:write") (λ q c, create_tenant q c p)
    (λ _ x, TenantService.create p (ctx_subject x))
| POST_members t p : core_route (Permission "users:write") (λ q c, add_tenant_member q c t p)
    (λ _ x, TenantService.add_member t p (ctx_subject x);; mret tt)
| POST_invitations t p : core_route (Permission "users:write") (λ q c, invite_tenant_member q c t p)
    (λ _ x, TenantService.invite_member t p (ctx_subject x);; mret tt)
| GET_members t : core_route (Permission "users:read") (λ q c, list_tenant_members q c t)
    (λ _ x, TenantService.list_members t (ctx_subject x))
| POST_business t p : core_route (Permission "users:write") (λ q c, convert_tenant_to_business q c t p)
    (λ _ x, TenantService.convert_to_business t p (ctx_subject x))
| PATCH_preferences t p : core_route (Permission "users:write") (λ q c, update_tenant_preferences q c t p)
    (λ _ x, TenantService.update_preferences t p (ctx_subject x))
| GET_team t : core_route (Permission "documents:read") (λ q c, read_team q c t)
    (λ _ x, TenantService.team t (ctx_subject x))
| PATCH_team t l : core_route (Permission "users:write") (λ q c, update_team_endpoint q c t l)
    (λ _ x, TenantService.update_team t l (ctx_subject x))
| PATCH_role t m v : core_route (Permission "users:write") (λ q c, update_team_member_role q c t m v)
    (λ _ x, TenantService.update_member_role t m v (ctx_subject x))
| GET_payments t : core_route (Permission "documents:read") (λ q c, list_payments q c t)
    (λ _ x, BillingService.payments t (ctx_subject x))
| GET_account t : core_route (Permission "documents:read") (λ q c, get_account q c t)
    (λ _ x, BillingService.account t (ctx_subject x))
| POST_account t : core_route (Permission "documents:write") (λ q c, initialize_account q c t)
    (λ _ x, BillingService.initialize t (ctx_subject x))
| POST_sync t : core_route (Permission "documents:write") (λ q c, synchronize_account_endpoint q c t)
    (λ _ x, BillingService.synchronize_account t (ctx_subject x))
| POST_checkout t p i : core_route (Permission "documents:write") (λ q c, create_checkout_endpoint q c t p i)
    (λ _ x, BillingService.create_checkout t (ctx_subject x) p i)
| POST_portal t p i : core_route (Permission "documents:write") (λ q c, create_portal_endpoint q c t p i)
    (λ _ x, BillingService.create_portal t (ctx_subject x) p i).

(** The protected routes of core_api, with those of the certificate signature
    (serproid_router.py), which use the store of attempts too. *)
Inductive route : requirement → ∀ {A}, (HttpRequest → option string → M Serpro A) →
  (HttpRequest → AuthContext → M Serpro A) → Prop :=
| CORE r A endpoint service : core_route (A := A) r endpoint service →
    route r (λ q c, core_call (endpoint q c)) (λ q x, core_call (service q x))
| POST_serproid_start t p : route Authenticated (λ q c, start_serproid_signing q c t p)
    (λ q x, start_authorization t (ctx_subject x) p
      (or_str (header q "x-real-ip") (from_option id "unknown" (req_host q)))
      (from_option id "unknown" (header q "user-agent")))
| GET_serproid_callback state code error : route Authenticated
    (λ q c, serproid_callback q c state code error)
    (λ _ x, finish_callback state code error (ctx_subject x)).

(** Every route runs its dependency first, and then its service with the context. *)
Lemma core_route_guarded r {A} (endpoint : HttpRequest → option string → M Core A) service :
  core_route r endpoint service → ∀ request credentials,
  endpoint request credentials = (dependency r request credentials ≫= service request).
Proof. intros []; reflexivity. Qed.
Lemma core_call_bind {A B} (m : M Core A) (k : A → M Core B) (s : Serpro) :
  core_call (m ≫= k) s = (core_call m ≫= λ x, core_call (k x)) s.
Proof.
  unfold core_call at 1. destruct (m (Serpro.core s)) as [[x|e] c] eqn:E.
  - rewrite (bind_step_ok _ _ _ _ _ E).
    rewrite (bind_step_ok (core_call m) _ s x (s <| Serpro.core := c |>)) by (unfold core_call; by rewrite E).
    unfold core_call. cbn. by destruct (k x c).
  - rewrite (bind_step_err _ _ _ _ _ E).
    rewrite (bind_step_err (core_call m) _ s e (s <| Serpro.core := c |>)) by (unfold core_call; by rewrite E).
    done.
Qed.
Lemma route_guarded r {A} (endpoint : HttpRequest → option string → M Serpro A) service :
  route r endpoint service → ∀ request credentials s,
  endpoint request credentials s =
    (core_call (dependency r request credentials) ≫= service request) s.
Proof.
  intros [r0 A0 e k Hroute|t p|state code error] request credentials s; [|reflexivity..].
  by rewrite (core_route_guarded _ _ _ Hroute), core_call_bind.
Qed.

(** The context of the request is in place. *)
Definition with_context (context : AuthContext) (s : Serpro) : Serpro :=
  s <| Serpro.core ::= λ c, c <| Core.auth_context := Some context |> |>.

(** What a dependency that failed may have changed: the context of the request. *)
Definition untouched (s s' : Core) : Prop :=
  s' <| Core.auth_context := None |> = s <| Core.auth_context := None |>.

(** The context auth_api gives for a token. *)
Definition context_given (token : string) (context : AuthContext) : Prop :=
  token ≠ "" ∧ ∃ payload v, auth_access_context token = HttpOk payload ∧
    jget payload "mfa_setup_required" = Ok v ∧ truthy v = false ∧ context_of payload = Ok context.

#[export] Instance untouched_preorder : PreOrder untouched.
Proof. split; [by intros s|]. unfold untouched. intros s1 s2 s3. congruence. Qed.
Lemma context_untouched c : preserves untouched (modify (λ s, s <| Core.auth_context := c |>)).
Proof. by intros []. Qed.
#[local] Hint Resolve context_untouched : preserve.

Lemma resolve_untouched token : preserves untouched (_resolve_context token).
Proof. unfold _resolve_context. preserve. Qed.
#[local] Hint Resolve resolve_untouched : preserve.
Lemma authenticated_untouched q c : preserves untouched (authenticated_context q c).
Proof. unfold authenticated_context. preserve. Qed.
#[local] Hint Resolve authenticated_untouched : preserve.
Lemma dependency_untouched r q c : preserves untouched (dependency r q c).
Proof. destruct r; cbn; unfold require_permission, administrator_context; preserve. Qed.

Lemma context_resolved token s context s1 :
  _resolve_context token s = (Ok context, s1) →
  context_given token context ∧ s1 = s <| Core.auth_context := Some context |>.
Proof.
  unfold _resolve_context. intros Hrun.
  apply bind_ok in Hrun as ([] & s2 & [Hne ->]%raise_if_ok & Hrun).
  apply bind_ok in Hrun as (payload & s3 & Hp & Hrun).
  assert (Hpay : auth_access_context token = HttpOk payload ∧ s3 = s).
  { destruct (auth_access_context token) as [b|code b|].
    - by apply ret_ok in Hp as [-> ->].
    - destruct (_ || _); discriminate Hp.
    - discriminate Hp. }
  destruct Hpay as [Hpay ->].
  apply bind_ok in Hrun as (v & s4 & [Hv ->]%lift_ok & Hrun).
  apply bind_ok in Hrun as ([] & s5 & [Ht ->]%raise_if_ok & Hrun).
  apply bind_ok in Hrun as (c & s6 & [Hc ->]%lift_ok & Hrun).
  apply bind_ok in Hrun as ([] & s7 & ->%modify_ok & [-> ->]%ret_ok).
  split; [|done]. split. { intros ->. discriminate Hne. }
  by exists payload, v.
Qed.

Lemma dependency_ok r q c s context s1 :
  dependency r q c s = (Ok context, s1) →
  (context_given (_token q c) context ∧ s1 = s <| Core.auth_context := Some context |>) ∧
  grants r context = true.
Proof.
  assert (Hauth : ∀ s2, authenticated_context q c s = (Ok context, s2) →
    context_given (_token q c) context ∧ s2 = s <| Core.auth_context := Some context |>).
  { unfold authenticated_context. intros s2 Hrun. apply bind_ok in Hrun as (? & ? & ->%modify_ok & Hrun).
    apply bind_ok in Hrun as (? & s3 & Hw & Hrun).
    assert (s3 = s <| Core.auth_context := None |>) as ->.
    { unfold when in Hw. destruct (_ && _); [by apply lift_ok in Hw as [_ ->]|by apply ret_ok in Hw as [_ ->]]. }
    by apply context_resolved in Hrun. }
  destruct r; cbn; [by intros Hr; split; [eapply Hauth|]|..];
    unfold require_permission, administrator_context; intros (x & s2 & Hx & Hr)%bind_ok;
    apply bind_ok in Hr as ([] & s3 & [Hg ->]%raise_if_ok & [-> ->]%ret_ok);
    apply negb_false_iff in Hg; split; eauto.
Qed.

Lemma refused_401 r q c s :
  auth_access_context (_token q c) = HttpStatus 401 None → 
  ∃ e s1, dependency r q c s = (Err e, s1) ∧ untouched s s1 ∧
    (require_same_origin q (PUBLIC_WEB_URL settings) (ENVIRONMENT settings) = Ok tt ∨ c ≠ None →
     e = CoreWeb.authentication_required).
Proof.
  intros Ha. pose proof (dependency_untouched r q c s) as Hu.
  assert (Hres : ∀ s', _resolve_context (_token q c) s' = (Err CoreWeb.authentication_required, s')).
  { intros s'. unfold _resolve_context. destruct (nonempty _); [|done].
    erewrite bind_step_ok by reflexivity. by rewrite Ha. }
  assert (Hauth : ∃ e s1, authenticated_context q c s = (Err e, s1) ∧
    (require_same_origin q (PUBLIC_WEB_URL settings) (ENVIRONMENT settings) = Ok tt ∨ c ≠ None →
     e = CoreWeb.authentication_required)).
  { unfold authenticated_context. erewrite bind_step_ok by reflexivity. unfold when.
    destruct (_ && _) eqn:E.
    - destruct (require_same_origin _ _ _) as [[]|e] eqn:Eo.
      + erewrite bind_step_ok by reflexivity. rewrite Hres. eauto.
      + eexists e, _. split; [by apply bind_step_err|]. intros [?|Hc]; [done|].
        apply andb_true_iff in E as [E%bool_decide_eq_true _]. done.
    - erewrite bind_step_ok by reflexivity. rewrite Hres. eauto. }
  destruct Hauth as (e & s1 & Hrun & He). exists e, s1.
  assert (Hd : dependency r q c s = (Err e, s1)).
  { destruct r; cbn; [done|..]; unfold require_permission, administrator_context; by apply bind_step_err. }
  rewrite Hd in Hu. done.
Qed.
End table.


(** ** auth_api in a state *)
Section composed.
Context `{AuthEnv} `{!AuthLaws} `{MailAssets}.
Context `{Env} `{WorkflowEnv} `{DocumentStorage} `{PdfLibrary} `{BillingProvider} `{HttpEnv}
  `{CoreWebEnv}.
Implicit Types (a : Auth) (s : Core).

(** The request core_api sends with a token, and the answer to it in state [a]:
    an error of the endpoint that is not an answer of its own is a 500. *)
Definition context_request (token : string) : HttpRequest :=
  mkRequest "GET" [("authorization", "Bearer " +:+ token)] [] None.
Definition auth_answers a (token : string) : http_answer :=
  match (get_service_context (context_request token) (Some token) a).1 with
  | Ok c => HttpOk (ui_context_json c)
  | Err (HTTPException code _) => HttpStatus code None
  | Err _ => HttpStatus 500 None
  end.
(** auth_api is in state [a] while core_api asks. *)
Definition served_by a : Prop := ∀ token, auth_access_context token = auth_answers a token.

Lemma texts_of_strings l : texts_of (map JStr l) = l.
Proof. induction l as [|x l IH]; [done|]. unfold texts_of in *. simpl. by f_equal. Qed.
Lemma frozenset_of_texts l : frozenset_texts (JArr (map JStr l)) = Ok l.
Proof.
  unfold frozenset_texts. rewrite texts_of_strings.
  assert (E : forallb hashable (map JStr l) = true); [|by rewrite E].
  apply forallb_forall. by intros v (x & <- & _)%in_map_iff.
Qed.

Lemma uuid_str_nonempty u : nonempty (uuid_str u) = true.
Proof. done. Qed.

(** The context core_api reads of an answer of auth_api is the one it was given. *)
Lemma context_round_trip c context :
  context_of (ui_context_json c) = Ok context → nonempty (ui_user_id c) = true →
  ctx_subject context = ui_subject c ∧ ctx_roles context = ui_roles c ∧
  ctx_permission_keys context = ui_permission_keys c ∧ ctx_user_id context = Some (ui_user_id c).
Proof.
  unfold context_of, ui_context_json, jindex, jget, jget_or. cbn -[frozenset_texts].
  rewrite !frozenset_of_texts. cbn -[frozenset_texts]. intros [= <-] Hid. cbn.
  unfold str_or. by destruct (ui_user_id c).
Qed.

Lemma auth_answers_ok a token payload :
  auth_inv a → AuthDb.consistent a → auth_answers a token = HttpOk payload →
  ∃ c, ui_context token a = (Ok (Some c), a) ∧ payload = ui_context_json c.
Proof.
  intros Hi Hc. unfold auth_answers, get_service_context, get_ui_context. simpl.
  destruct (ui_context token a) as [[[c|]|e] a'] eqn:Hu.
  - erewrite bind_step_ok by exact Hu. simpl. intros [= <-].
    destruct (ui_context_live _ _ _ _ Hi Hc Hu) as [-> _]. eauto.
  - by erewrite bind_step_ok by exact Hu.
  - erewrite bind_step_err by exact Hu. simpl. by destruct e.
Qed.

(** What a requirement says of the user, in state [a]. *)
Definition entitled a (u : N) (r : requirement) : Prop :=
  match r with
  | Authenticated => True
  | Permission p => may a u "*" ∨ may a u p
  | Administrator => has_role a u "signature_admin" ∨ may a u "*"
  end.

(** The context is that of the user: what it grants the user is entitled to. *)
Definition context_of_user a (context : AuthContext) (st : SessionState) (user : User.UserEntity) : Prop :=
  ctx_subject context = Session.subject st ∧ ctx_user_id context = Some (uuid_str (User.id user)) ∧
  ∀ r, grants r context = true → entitled a (User.id user) r.

Lemma context_given_live a token context :
  auth_inv a → AuthDb.consistent a → served_by a → context_given token context →
  ∃ st user, live_session a token st user ∧ context_of_user a context st user ∧
    User.mfa_enabled user || User.mfa_exempt user = true.
Proof.
  intros Hi Hc Hs (_ & payload & v & Ha & Hv & Ht & Hctx). rewrite Hs in Ha.
  apply auth_answers_ok in Ha as (c & Hu & ->); [|done..].
  destruct (ui_context_live _ _ _ _ Hi Hc Hu) as (_ & st & user & Hl & Esub & Eid & _ & Emfa & Hr & Hp).
  apply context_round_trip in Hctx as (E1 & E2 & E3 & E4); [|by rewrite Eid, uuid_str_nonempty].
  exists st, user. split; [done|]. split.
  2:{ injection Hv as <-. simpl in Ht. rewrite Ht in Emfa. by destruct (_ || _). }
  split_and!; [congruence..|]. intros r Hg.
  - destruct r as [|p|]; simpl in *; [done|..]; unfold allows, _is_administrator in Hg;
      apply orb_true_iff in Hg as [Hg|Hg]; apply mem_str_elem in Hg;
      rewrite ?E2, ?E3 in Hg; auto.
Qed.
End composed.

(** ** The theorems *)
Section theorems.
Context `{AuthEnv} `{!AuthLaws} `{MailAssets} `{WebEnv}.
Context `{Env} `{WorkflowEnv} `{DocumentStorage} `{PdfLibrary} `{BillingProvider} `{HttpEnv}
  `{CoreWebEnv} `{SerproIdEnv}.


(** A token that was logged out at auth_api is refused by every protected
    endpoint of core_api, whatever auth_api did since, and the refused call
    changes nothing: no row, no stored content, no e-mail. *)
Theorem logged_out_token_refused_by_core logout_request logout_credentials a answer a1 a2 r {A}
    (endpoint : HttpRequest → option string → M Serpro A) service request credentials s :
  auth_inv a →
  access_token_of logout_request None = access_token_of logout_request logout_credentials →
  logout_endpoint logout_request logout_credentials a = (Ok answer, a1) →
  auth_runs a1 a2 → served_by a2 → route r endpoint service →
  _token request credentials = access_token_of logout_request logout_credentials →
  ∃ e s1, endpoint request credentials s = (Err e, s1) ∧ untouched (Serpro.core s) (Serpro.core s1) ∧
    Serpro.attempts s1 = Serpro.attempts s.
Proof.
  intros Hi Hsame Hl Hruns Hs Hroute Htok. unfold logout_endpoint in Hl. rewrite Hsame in Hl.
  apply bind_ok in Hl as (x & a' & Ha & Hl).
  apply authenticated_run in Ha as (-> & st & Ht & _ & _); [|done].
  destruct (logout_forgets a _ st Hi Ht) as (a3 & Hlo & Hi3 & _ & Hf & _).
  erewrite bind_step_ok in Hl by exact Hlo. injection Hl as _ <-.
  destruct (runs_advance _ _ Hruns Hi3) as [Hi2 Hev].
  pose proof (forgotten_no_session _ _ (forgotten_stays _ _ _ Hev Hf)) as Hnone.
  assert (H401 : auth_access_context (_token request credentials) = HttpStatus 401 None).
  { rewrite Hs, Htok. unfold auth_answers, get_service_context, get_ui_context. simpl.
    erewrite bind_step_ok by (by apply ui_context_none). done. }
  destruct (refused_401 r request credentials (Serpro.core s) H401) as (e & s1 & Hd & Hu & _).
  rewrite (route_guarded _ _ _ Hroute request credentials).
  exists e, (s <| Serpro.core := s1 |>). split; [|by split].
  apply bind_step_err. unfold core_call. by rewrite Hd.
Qed.
End theorems.

(** ** A member reads the documents, and logs out *)
Module AccessExample.
Import AuthExample WorkflowExample.
#[local] Existing Instances example_http example_web.
#[local] Instance no_provider : BillingProvider :=
  FakeBillingProvider.provider (λ _, Err (ValueError "Expecting value")).
Definition asking (a : Auth) : CoreWebEnv :=
  {| auth_access_context := auth_answers a; contact_siteverify _ _ := None |}.

(** Alice without a second factor, exempt, in the role of an auditor. *)
Definition exempt_alice : User.UserEntity := alice <| User.mfa_exempt := true |>.
Definition auditor : Role.UserRoleEntity := Role.make 20 1 "signature_auditor" 0 None.
Definition member_start : Auth := start <| Auth.db ::= λ d,
  d <| AuthTables.users := stored_rows [exempt_alice] |>
    <| AuthTables.user_roles := stored_rows [auditor] |> |>.
Lemma member_start_inv : auth_inv member_start.
Proof.
  apply no_sessions; [done|]. intros u v (r & Hr & _)%fmap_Some.
  apply find_row_some in Hr as [[<-|[]] <-]; done.
Qed.
Lemma member_start_consistent : AuthDb.consistent member_start.
Proof. split; [done|by vm_compute]. Qed.

Definition member : Auth := (login alice_login member_start).2.
Lemma member_inv : auth_inv member.
Proof.
  destruct (serve_advances (Login alice_login) member_start member_start_inv) as [Hi _].
  cbn [serve] in Hi. by rewrite discard_state in Hi.
Qed.
Lemma member_consistent : AuthDb.consistent member.
Proof.
  pose proof (serve_stays (Login alice_login) member_start member_start_consistent) as Hs.
  cbn [serve] in Hs. by rewrite discard_state in Hs.
Qed.

Definition member_request : HttpRequest :=
  mkRequest "GET" [] [("access_token", access_token tokens)] (Some "203.0.113.7").
End AccessExample.

Section witnesses.
Import AuthExample WorkflowExample AccessExample.
#[local] Existing Instances example_http example_web no_provider SerproExample.serproid.

(** The documents are listed for the member, and Serpro ID sends the member back. *)
Definition listing (c : CoreWebEnv) (s : Serpro) : result (list DocumentRead) * Serpro :=
  core_call (@list_documents_endpoint _ _ c member_request None) s.
Definition core_start : Serpro := Serpro.make Example.s0 ∅.


Lemma logged_out_token_refused_by_core_witness :
  ∃ e s1, listing (asking browser_logged_out) core_start = (Err e, s1) ∧
    untouched Example.s0 (Serpro.core s1) ∧ Serpro.attempts s1 = ∅.
Proof.
  pose (env := asking browser_logged_out).
  refine (logged_out_token_refused_by_core browser_request None logged_in
    (true, _clear_auth_cookies) browser_logged_out browser_logged_out (Permission "documents:read")
    (λ q c, core_call (list_documents_endpoint q c))
    (λ _ x, core_call (WorkflowService.list_documents (ctx_subject x))) member_request None core_start
    logged_in_inv _ browser_logs_out _ _ _ _).
  - reflexivity.
  - apply auth_starts.
  - by intros token.
  - apply CORE. constructor.
  - reflexivity.
Defined.
End witnesses.
